(* ===== verification/_CoqProject ===== *)
-Q . S2P
Prelude.v
Codec.v
Status.v
Bitflags.v
Algo.v
DataTypes.v
Structs.v
Version.v
Crypto.v
HashCtx.v
KeySchedule.v
ManagedBuffer.v
CertChain.v
Session.v
SecuredMessage.v
Header.v
ContextData.v
Transport.v
Mctp.v
PciDoe.v
Context.v
Transcript.v
CertOp.v
X509.v
X509Der.v
SpdmCodec.v
Opaque.v
MsgLib.v
MsgNegotiate.v
MsgAuth.v
MsgSession.v
MsgMisc.v
Message.v
Platform.v
Link.v
RspLib.v
RspLaws.v
RspNegotiate.v
RspAuth.v
RspSession.v
Responder.v
ServedChain.v
Negotiation.v
NegAlgorithms.v
RspToy.v
Opening.v
ReqLib.v
ReqNegotiate.v
ReqAuth.v
ReqSession.v
Requester.v
ReqLaws.v
ReqChain.v
TwoParty.v
ReqHandshake.v
VersionChoice.v
Live.v
LiveResponder.v
LiveLink.v
LiveRequester.v
LiveAlgorithms.v
Agreement.v
Vdm.v
IdeKm.v
Tdisp.v
TdispRsp.v
TdispReq.v
SecureLink.v
