(* ===== verification/Prelude.v ===== *)
(** * spdm-rs: verification of the SPDM protocol library

    spdm-rs implements DSP0274 (Security Protocol and Data Model): a requester
    and a responder negotiate a version, capabilities and algorithms, exchange
    certificates, challenges and measurements, agree on session keys and then
    protect their messages with an AEAD.  This library models the crates under
    src/ as Rocq functions and proves what makes them correct.

    ** How the program is modelled

    A Rust call is a function to [outcome E A]: a value, an error or a panic
    (index out of range, failed [assert!], [unwrap] of nothing, arithmetic
    overflow: every addition, subtraction and shift is the one of a build with
    overflow checks).  [None] of a function that uses [Option] for failure is
    [Err tt].  A call that mutates something is [M S E A], a function of the
    state [S] it mutates that keeps the state on every outcome.  Bytes and
    machine integers are [Z] with their width in the well-formedness
    predicates; fixed arrays and slices are [list Z], and indexing, slicing
    and [copy_from_slice] check their ranges.  [async] functions are modelled
    as the functions they compute: nothing in the library runs concurrently.
    The features are the default ones ([spdm-ring], [hashed-transcript-data],
    [std]); mut-auth, mandatory-mut-auth, chunk-cap and downcast are off.  The
    constants of [config] are those of the shipped configuration.

    Loops are structural recursions on the list or the count they run over.
    Where the code walks over bytes by offsets it computes (a certificate
    chain in CertOp.v, DER in X509.v) or asks a peer until it has enough
    (GET_CERTIFICATE in ReqAuth.v) the recursion is on a fuel, and running out
    of it is a panic of the model (of the loop of TdispReq.v, which need not
    end, [None]).  The fuel is the number of bytes, or one
    more than the bytes the buffer takes: each round consumes one byte at
    least.  The theorems that these walks never panic, and that more fuel
    changes nothing, show that it is enough.

    ** Files

    - Prelude: outcomes, the state monad and its notations, integers at their
      width, slices, and the lemmas and hints on them.
    - Codec: src/codec: [Reader], [Writer], the trait [Codec] as a class, its
      laws [CodecOk] (round trip, size, safety on arbitrary bytes) and its
      instances for integers, vectors, arrays and enumerations.
    - Status: src/spdmlib/src/error.rs.
    - Bitflags, Algo, DataTypes: the flag types, sizes, priorities and key
      material of protocol/algo.rs and protocol/capability.rs.
    - Version: protocol/version.rs.
    - Crypto: the cryptography interface of crypto/mod.rs as the class
      [SpdmCrypto] with its contract [CryptoOk], and its default
      implementation crypto/spdm_ring (AEAD, HKDF, HMAC, hash), proved to meet
      the contract.  The ring package is a parameter, class [Ring], with its
      documented behaviour as [RingOk].
    - HashCtx: incremental hash contexts and the table of handles of
      crypto/spdm_ring/hash_impl.rs.
    - KeySchedule: common/key_schedule.rs.
    - ManagedBuffer: the transcript buffers of common/mod.rs.
    - CertChain: the certificate-chain buffers of protocol/algo.rs.
    - Session: the records and the life cycle of common/session.rs.
    - SecuredMessage: the record protection of common/session.rs.
    - Header: the message codes and the header of message/mod.rs.
    - ContextData, Context: the records of common/mod.rs, the session table
      and the path of secured messages.
    - Transport, Mctp, PciDoe: the trait [SpdmTransportEncap] as a class with
      its contract [TransportOk], and the two crates that implement it.
    - Transcript: the transcripts of common/mod.rs in both build variants.
    - CertOp: the walks over certificate chains of
      crypto/spdm_ring/cert_operation_impl.rs.
    - X509, X509Der: the checks of crypto/x509v3.rs, and what they accept in
      terms of certificates encoded in DER.
    - Structs, SpdmCodec, Opaque: the structures inside messages, the trait
      [SpdmCodec] as a class with its laws [SpdmCodecOk], and the opaque data
      of common/opaque.rs.
    - MsgLib, MsgNegotiate, MsgAuth, MsgSession, MsgMisc, Message: the
      payloads under message/, each an instance of [SpdmCodec] that meets the
      laws, and [SpdmMessage].
    - Platform, Link: what an integrator provides (random numbers, key
      exchange, signatures, measurements, watchdog, device) as a class, and
      platforms with another device or vendor-defined handler.
    - RspLib, RspNegotiate, RspAuth, RspSession, Responder: the responder
      under responder/: what handlers share, one handler per request, and
      the dispatch, the transitions and [process_message] of context.rs.  A
      [Node] is the context, the writer of the response and the platform.
    - RspLaws, ServedChain, Negotiation, NegAlgorithms, Opening: rules for
      handlers and what is proved of the responder before it is negotiated.
    - ReqLib, ReqNegotiate, ReqAuth, ReqSession, Requester: the requester
      under requester/: sending, receiving and the treatment of errors, one
      section per request, and [init_connection], [start_session] and
      [end_session] of context.rs.
    - ReqLaws, ReqChain, ReqHandshake: rules for requests, and what is proved
      of the retrieval of certificates and of the handshake.
    - RspToy, TwoParty: an endpoint small enough to run, and the requester
      connected to the responder.
    - VersionChoice: what is proved of the choice of the version.
    - Live, LiveResponder, LiveLink, LiveRequester, LiveAlgorithms, Agreement:
      progress ([live]): rules for computations that must return; the
      handlers of the negotiation on the requests of a requester; a request
      and its response over the link of TwoParty; the requests of the
      negotiation; what is selected and accepted; and the three rounds
      together.
    - Vdm: what the protocols carried in vendor-defined messages share, and
      the interface they use: a channel for payloads ([VdmChannel]) and when
      it ends at a handler ([VdmLink]).
    - IdeKm: src/idekm, the key management of PCIe IDE: its objects, the
      requester, the responder; a device is the class [IdeKmDevice].
    - Tdisp, TdispRsp, TdispReq: src/tdisp, the TEE device interface security
      protocol: its messages, the responder over a device ([TdispDevice]) and
      the requester.
    - SecureLink: an established session between two endpoints of TwoParty as
      such a channel: from the call of the requester through encryption, the
      transport and the dispatch of the responder to the handler and back.

    ** What the theorems show

    - Secured messages: what one side sends the other receives, in order; no
      two records are encrypted under the same key and nonce; arbitrary bytes
      never crash the receiver and are accepted only if authentic; a record of
      another session or another number is refused by its header, or, where
      the transport does not carry the bytes that differ, is opened under the
      wrong nonce only; an exhausted sequence number ends the session.  The same is lifted to the context
      over any transport that meets its contract.
    - Sessions: the handshake leaves complete keys; a key update can be rolled
      back exactly and its commit erases the backup, secrets and keys, of
      the directions updated and nothing else; session ids stay distinct over
      any history.
    - Transcripts: the incremental digests hash exactly what the reference
      variant collects, except for PSK sessions with a vendor-defined
      transcript, where they hash it in addition; both ends compute the same transcript; CHALLENGE and
      MEASUREMENTS digests cover what they should.
    - Refinement: contexts behind handles behave as values, and none leaks.
    - Messages: a message that its reader accepts round-trips through its
      bytes, up to the fields that the selected version and options leave off
      the wire; decoding arbitrary bytes is safe and yields fields in range
      once the algorithm sizes it looks up are defined; the same for integers,
      buffers, key material and the MCTP and PCI DOE headers.
    - Negotiation: [prioritize] selects the best common algorithm, the sizes
      of algorithms are those of the standards and stay within their buffers,
      and before it is negotiated the responder
      survives every message.
    - Certificates: the walks over chains and the X.509 checks are total and
      find what DER encodes; a requester stores a chain only if it verified
      it, and the retrieval ends against every responder.
    - Handshake: a requester starts a session only with a responder that
      proved its identity over the whole transcript.
    - Two endpoints: with compatible configurations they complete the
      negotiation over every transport that meets its contract, and agree on
      the parameters and on message A; the version is the highest they have
      in common.  An example run of two endpoints with simple cryptography
      goes through the whole protocol.
    - Vendor protocols: a vendor-defined request sent in an established
      session reaches the handler of the responder and its answer comes back,
      as long as sequence numbers are left, so a session is a channel; over a
      channel that ends at the dispatcher, the calls of an IDE_KM or TDISP
      requester are the callbacks of the device, with the same arguments and
      in the same order; the structures are typed and
      round-trip; no message crashes the IDE_KM dispatcher, and only one kind
      of request the TDISP dispatcher; the report of an interface is fetched
      in a bounded number of rounds from a device that makes progress.
    - A group of theorems states defects of the code: a lost PCI DOE
      connection id, AES-128-GCM sessions that cannot send, flags that survive
      teardown, a mislabelled status, an inverted priority table, transcripts
      of PSK sessions that differ between the build variants, a panic of the
      requester when mutual authentication is asked for, a panic of the TDISP
      responder on an offset beyond the report, and a loop of the TDISP
      requester that a device can keep going.

    ** Not modelled

    Debug and Display formatting and logging; the callback registration of
    crypto, secret, time and watchdog (the callbacks are parameters); erasure
    of memory on drop; the codecs that save and restore a whole context or
    session; mutual authentication with its encapsulated requests, and the
    transfer in chunks, which are optional features; the verification of the
    signatures in a chain by the package webpki (a parameter); the bindings to
    mbedtls and aws-lc; the self tests of crypto/fips and their vectors; the
    executor, emulators, tests and fuzz targets. *)

From Stdlib Require Export ZArith Lia.
From stdpp Require Export prelude.

Global Open Scope Z_scope.

(** ** Outcomes

    A Rust call ends in one of three ways: it returns a value, it returns an
    error ([Err] of a [Result], or [None] of an [Option] used as an error), or
    it panics (index out of range, arithmetic overflow in a checked build,
    [assert!], [unwrap] of nothing, [panic!]).  The three are kept apart so
    that the absence of panics is a statement of the development. *)
Inductive outcome (E A : Type) : Type :=
| Ok (a : A)
| Err (e : E)
| Panic.
Arguments Ok {E A} a.
Arguments Err {E A} e.
Arguments Panic {E A}.

#[export] Instance outcome_eq_dec {E A} `{EqDecision E, EqDecision A} : EqDecision (outcome E A).
Proof. solve_decision. Defined.

Definition obind {E A B} (m : outcome E A) (k : A → outcome E B) : outcome E B :=
  match m with Ok a => k a | Err e => Err e | Panic => Panic end.

Definition map_err {E F A} (f : E → F) (m : outcome E A) : outcome F A :=
  match m with Ok a => Ok a | Err e => Err (f e) | Panic => Panic end.

(** [ok_or]: an [Option] turned into a [Result]. *)
Definition ok_or {E A} (o : option A) (e : E) : outcome E A :=
  match o with Some a => Ok a | None => Err e end.

(** [or_panic]: an operation whose absence of result is a panic. *)
Definition or_panic {E A} (o : option A) : outcome E A :=
  match o with Some a => Ok a | None => Panic end.

Definition is_ok {E A} (m : outcome E A) : bool :=
  match m with Ok _ => true | _ => false end.

Definition no_panic {E A} (m : outcome E A) : Prop := m ≠ Panic.

(** ** Record update

    [Eta R] is the constructor of [R] applied to its projections;
    [set_field f v s] is [s] with the field [f] set to [v]. *)
Class Eta (R : Type) := eta : R → R.
Ltac set_field f v s :=
  let R := type of s in
  let e := eval hnf in (@eta R _ s) in
  match eval pattern (f s) in e with
  | ?g _ => let r := eval cbv beta in (g v) in exact r
  end.

(** ** Stateful computations

    [M S E A]: a computation on a mutable state [S]; the state it leaves is
    kept on every outcome, errors and panics included. *)
Definition M (S E A : Type) : Type := S → outcome E A * S.

Definition ret {S E A} (a : A) : M S E A := λ s, (Ok a, s).
Definition throw {S E A} (e : E) : M S E A := λ s, (Err e, s).
Definition panic {S E A} : M S E A := λ s, (Panic, s).
Definition bind {S E A B} (m : M S E A) (k : A → M S E B) : M S E B :=
  λ s, match m s with
       | (Ok a, s') => k a s'
       | (Err e, s') => (Err e, s')
       | (Panic, s') => (Panic, s')
       end.
Definition lift {S E A} (o : outcome E A) : M S E A := λ s, (o, s).
Definition get {S E} : M S E S := λ s, (Ok s, s).
Definition modify {S E} (f : S → S) : M S E unit := λ s, (Ok tt, f s).
(** [if let Some(x) = e { x } else { return Err(err) }] *)
Definition some_or {S E A} (o : outcome unit A) (err : E) : M S E A := lift (map_err (λ _, err) o).
Definition map_errM {S E F A} (f : E → F) (m : M S E A) : M S F A :=
  λ s, let '(o, s') := m s in (map_err f o, s').

Declare Scope spdm_scope.
Delimit Scope spdm_scope with spdm.
Notation "'let*' x ':=' m 'in' k" := (bind m (λ x, k))
  (at level 10, x pattern, m at level 100, k at level 200,
   format "'[v' 'let*'  x  ':='  m  'in' '/' k ']'") : spdm_scope.
Notation "'let!' x ':=' m 'in' k" := (obind m (λ x, k))
  (at level 10, x pattern, m at level 100, k at level 200,
   format "'[v' 'let!'  x  ':='  m  'in' '/' k ']'") : spdm_scope.
Global Open Scope spdm_scope.

(** Running a computation, one call at a time. *)
Section Run.
Context {S E : Type}.
Lemma bind_get {A} (k : S → M S E A) s : bind get k s = k s s.
Proof. done. Qed.
Lemma bind_modify {A} f (k : unit → M S E A) s : bind (modify f) k s = k tt (f s).
Proof. done. Qed.
Lemma bind_ret {A B} (a : A) (k : A → M S E B) s : bind (ret a) k s = k a s.
Proof. done. Qed.
Lemma bind_some_or {A B} o (a : A) e (k : A → M S E B) s :
  o = Ok a → bind (some_or o e) k s = k a s.
Proof. by intros ->. Qed.
Lemma bind_lift {A B} o (a : A) (k : A → M S E B) s : o = Ok a → bind (lift o) k s = k a s.
Proof. by intros ->. Qed.
(** A computation that succeeded has succeeded at every call. *)
Lemma bind_some_or_inv {A B} o e (k : A → M S E B) s (b : B) s' :
  bind (some_or o e) k s = (Ok b, s') → ∃ a, o = Ok a ∧ k a s = (Ok b, s').
Proof. destruct o; cbn; [eauto|done|done]. Qed.
Lemma bind_inv {A B} (m : M S E A) (k : A → M S E B) s (b : B) s' :
  bind m k s = (Ok b, s') → ∃ a s1, m s = (Ok a, s1) ∧ k a s1 = (Ok b, s').
Proof. unfold bind. destruct (m s) as [[a| |] s1]; [eauto|done|done]. Qed.
Lemma bind_assoc {A B C} (m : M S E A) (k : A → M S E B) (l : B → M S E C) s :
  bind (bind m k) l s = bind m (λ a, bind (k a) l) s.
Proof. unfold bind. by destruct (m s) as [[] ?]. Qed.
Lemma bind_ext {A B} (m : M S E A) (k k' : A → M S E B) s :
  (∀ a s', k a s' = k' a s') → bind m k s = bind m k' s.
Proof. intros Hk. unfold bind. destruct (m s) as [[] ?]; [apply Hk|done|done]. Qed.
End Run.
Create Rewrite HintDb run.
#[export] Hint Rewrite @bind_get @bind_modify @bind_ret : run.
Ltac run := autorewrite with run; cbv beta zeta.
Ltac run_in H := autorewrite with run in H; cbv beta zeta in H.

(** ** Machine integers

    A w-bit unsigned integer is a [Z]; the wrap-around of an [as] cast or of
    a wrapping operation is written out, the panic of a checked one too. *)
Definition u8 := Z.
Definition u16 := Z.
Definition u24 := Z.
Definition u32 := Z.
Definition u64 := Z.
Definition u128 := Z.
Definition usize := Z.
#[global] Typeclasses Opaque u8 u16 u24 u32 u64 u128.
#[export] Instance u8_eq_dec : EqDecision u8 := Z.eq_dec.
#[export] Instance u16_eq_dec : EqDecision u16 := Z.eq_dec.
#[export] Instance u24_eq_dec : EqDecision u24 := Z.eq_dec.
#[export] Instance u32_eq_dec : EqDecision u32 := Z.eq_dec.
#[export] Instance u64_eq_dec : EqDecision u64 := Z.eq_dec.
#[export] Instance u128_eq_dec : EqDecision u128 := Z.eq_dec.

Definition wrap (w : Z) (x : Z) : Z := x mod 2 ^ w.
Definition in_width (w : Z) (x : Z) : Prop := 0 ≤ x < 2 ^ w.
Definition in_widthb (w : Z) (x : Z) : bool := (0 <=? x) && (x <? 2 ^ w).

(** A checked addition at width [w]: overflow is a panic. *)
Definition add_checked {E} (w x y : Z) : outcome E Z :=
  if x + y <? 2 ^ w then Ok (x + y) else Panic.

Definition byte (b : Z) : Prop := 0 ≤ b < 256.
Definition bytes_wf (l : list Z) : Prop := Forall byte l.

Lemma in_widthb_spec w x : in_widthb w x = true ↔ in_width w x.
Proof. unfold in_widthb, in_width. rewrite andb_true_iff. lia. Qed.

Lemma wrap_small w x : in_width w x → wrap w x = x.
Proof. intros. apply Z.mod_small. done. Qed.

Lemma wrap_in_width w x : 0 ≤ w → in_width w (wrap w x).
Proof. intros. apply Z.mod_pos_bound. apply Z.pow_pos_nonneg; lia. Qed.

(** ** Slices

    Lengths and indices are [usize], so they are [Z] here; [None] of an
    indexing operation is the Rust panic. *)
Definition len {A} (l : list A) : Z := Z.of_nat (length l).
Definition ztake {A} (n : Z) (l : list A) : list A := take (Z.to_nat n) l.
Definition zdrop {A} (n : Z) (l : list A) : list A := drop (Z.to_nat n) l.
Definition znth {A} (l : list A) (i : Z) : option A :=
  if 0 <=? i then l !! Z.to_nat i else None.
Definition zset {A} (l : list A) (i : Z) (v : A) : option (list A) :=
  if (0 <=? i) && (i <? len l) then Some (<[Z.to_nat i := v]> l) else None.
(** [&l[a..b]] *)
Definition slice {A} (l : list A) (a b : Z) : option (list A) :=
  if (0 <=? a) && (a <=? b) && (b <=? len l) then Some (ztake (b - a) (zdrop a l))
  else None.
(** [l] with the elements from [i] on overwritten by [v]. *)
Definition splice {A} (l : list A) (i : Z) (v : list A) : list A :=
  ztake i l ++ v ++ zdrop (i + len v) l.
(** [l[a..b].copy_from_slice(v)] *)
Definition copy_from_slice {A} (l : list A) (a b : Z) (v : list A) : option (list A) :=
  if (0 <=? a) && (a <=? b) && (b <=? len l) && (len v =? b - a) then Some (splice l a v)
  else None.
Definition zeros (n : Z) : list Z := replicate (Z.to_nat n) 0.

Lemma len_nonneg {A} (l : list A) : 0 ≤ len l.
Proof. unfold len. lia. Qed.
Lemma len_nil {A} : len (@nil A) = 0.
Proof. done. Qed.
Lemma len_cons {A} (x : A) l : len (x :: l) = 1 + len l.
Proof. unfold len. cbn [length]. lia. Qed.
Lemma len_app {A} (l k : list A) : len (l ++ k) = len l + len k.
Proof. unfold len. rewrite length_app. lia. Qed.
Lemma len_zeros n : 0 ≤ n → len (zeros n) = n.
Proof. intros. unfold len, zeros. rewrite length_replicate. lia. Qed.
Lemma len_ztake {A} n (l : list A) : 0 ≤ n ≤ len l → len (ztake n l) = n.
Proof. unfold len, ztake. intros. rewrite length_take. lia. Qed.
Lemma len_zdrop {A} n (l : list A) : 0 ≤ n ≤ len l → len (zdrop n l) = len l - n.
Proof. unfold len, zdrop. intros. rewrite length_drop. lia. Qed.
Lemma len_splice {A} (l : list A) i v :
  0 ≤ i → i + len v ≤ len l → len (splice l i v) = len l.
Proof.
  intros. pose proof (len_nonneg v). unfold splice.
  rewrite !len_app, len_ztake, len_zdrop; lia.
Qed.
Lemma len_map {A B} (f : A → B) l : len (f <$> l) = len l.
Proof. unfold len. by rewrite length_fmap. Qed.
Lemma len_insert {A} (l : list A) i x : len (<[i := x]> l) = len l.
Proof. unfold len. by rewrite length_insert. Qed.
Lemma len_0_nil {A} (l : list A) : len l = 0 → l = [].
Proof. destruct l; [done|]. rewrite len_cons. pose proof (len_nonneg l). lia. Qed.

Lemma ztake_all {A} n (l : list A) : len l ≤ n → ztake n l = l.
Proof. unfold len, ztake. intros. apply take_ge. lia. Qed.
Lemma ztake_app {A} (l k : list A) : ztake (len l) (l ++ k) = l.
Proof. unfold len, ztake. rewrite Nat2Z.id. apply take_app_length. Qed.
Lemma ztake_app' {A} n (l k : list A) : n = len l → ztake n (l ++ k) = l.
Proof. intros ->. apply ztake_app. Qed.
Lemma zdrop_app {A} (l k : list A) : zdrop (len l) (l ++ k) = k.
Proof. unfold len, zdrop. rewrite Nat2Z.id. apply drop_app_length. Qed.
Lemma zdrop_app' {A} n (l k : list A) : n = len l → zdrop n (l ++ k) = k.
Proof. intros ->. apply zdrop_app. Qed.
Lemma zdrop_0 {A} (l : list A) : zdrop 0 l = l.
Proof. done. Qed.
Lemma ztake_0 {A} (l : list A) : ztake 0 l = [].
Proof. done. Qed.
Lemma zdrop_zdrop {A} m n (l : list A) :
  0 ≤ m → 0 ≤ n → zdrop n (zdrop m l) = zdrop (m + n) l.
Proof. unfold zdrop. intros. rewrite drop_drop. f_equal. lia. Qed.
Lemma zdrop_all {A} n (l : list A) : len l ≤ n → zdrop n l = [].
Proof. unfold len, zdrop. intros. apply drop_ge. lia. Qed.
Lemma ztake_zdrop {A} n (l : list A) : ztake n l ++ zdrop n l = l.
Proof. apply take_drop. Qed.
Lemma zdrop_splice {A} (l : list A) i v :
  0 ≤ i → i + len v ≤ len l → zdrop (i + len v) (splice l i v) = zdrop (i + len v) l.
Proof.
  intros. pose proof (len_nonneg v). unfold splice.
  rewrite (app_assoc _ v). apply zdrop_app'.
  rewrite len_app, len_ztake; lia.
Qed.
Lemma ztake_splice {A} (l : list A) i v :
  0 ≤ i → i + len v ≤ len l → ztake (i + len v) (splice l i v) = ztake i l ++ v.
Proof.
  intros. pose proof (len_nonneg v). unfold splice.
  rewrite (app_assoc _ v). apply ztake_app'.
  rewrite len_app, len_ztake; lia.
Qed.
Lemma splice_nil {A} (l : list A) i : splice l i [] = l.
Proof. unfold splice. rewrite len_nil, Z.add_0_r. apply ztake_zdrop. Qed.
Lemma ztake_ztake {A} m n (l : list A) :
  0 ≤ m ≤ n → ztake m (ztake n l) = ztake m l.
Proof. unfold ztake. intros. rewrite take_take. f_equal. lia. Qed.

(** Two adjacent writes are one write. *)
Lemma splice_splice {A} (l : list A) i u v :
  0 ≤ i → i + len u + len v ≤ len l →
  splice (splice l i u) (i + len u) v = splice l i (u ++ v).
Proof.
  intros. pose proof (len_nonneg u). pose proof (len_nonneg v).
  unfold splice at 1. rewrite ztake_splice by lia.
  unfold splice at 2. rewrite len_app, <- !app_assoc. do 3 f_equal.
  rewrite <- zdrop_zdrop, zdrop_splice, zdrop_zdrop by lia. f_equal. lia.
Qed.

(** Writing one element is the [splice] of a singleton. *)
Lemma zset_splice {A} (l : list A) i x :
  0 ≤ i < len l → zset l i x = Some (splice l i [x]).
Proof.
  intros. unfold zset. replace ((0 <=? i) && (i <? len l)) with true by lia.
  f_equal. unfold splice, ztake, zdrop. rewrite len_cons, len_nil.
  unfold len in *. rewrite insert_take_drop by lia. f_equal. cbn. f_equal. f_equal. lia.
Qed.
Lemma znth_some {A} (l : list A) i : 0 ≤ i < len l → ∃ x, znth l i = Some x.
Proof.
  intros Hi. unfold znth, len in *. replace (0 <=? i) with true by lia.
  apply lookup_lt_is_Some_2. lia.
Qed.
Lemma znth_app {A} (u v : list A) i : 0 ≤ i → znth (u ++ v) (len u + i) = znth v i.
Proof.
  intros Hi. pose proof (len_nonneg u). unfold znth. rewrite !(proj2 (Z.leb_le _ _)) by lia.
  unfold len. rewrite lookup_app_r by lia. f_equal. lia.
Qed.
Lemma znth_lookup {A} (l : list A) i : 0 ≤ i → znth l i = l !! Z.to_nat i.
Proof. intros. unfold znth. by rewrite (proj2 (Z.leb_le _ _)). Qed.
Lemma zset_insert {A} (l : list A) i x : 0 ≤ i < len l → zset l i x = Some (<[Z.to_nat i := x]> l).
Proof. intros. unfold zset. by replace ((0 <=? i) && (i <? len l)) with true by lia. Qed.

Lemma slice_spec {A} (l : list A) a b :
  0 ≤ a ≤ b → b ≤ len l → slice l a b = Some (ztake (b - a) (zdrop a l)).
Proof.
  intros. unfold slice. by replace ((0 <=? a) && (a <=? b) && (b <=? len l)) with true by lia.
Qed.

Lemma copy_from_slice_spec {A} (l : list A) a b v :
  0 ≤ a ≤ b → b ≤ len l → len v = b - a →
  copy_from_slice l a b v = Some (splice l a v).
Proof.
  intros. unfold copy_from_slice.
  by replace ((0 <=? a) && (a <=? b) && (b <=? len l) && (len v =? b - a)) with true by lia.
Qed.

Lemma copy_from_slice_out {A} (l : list A) a b v : len l < b → copy_from_slice l a b v = None.
Proof.
  intros. unfold copy_from_slice.
  by replace ((0 <=? a) && (a <=? b) && (b <=? len l) && (len v =? b - a)) with false by lia.
Qed.

Create Rewrite HintDb zlen.
#[export] Hint Rewrite @len_app @len_cons @len_nil @len_insert @len_map : zlen.
Ltac zlen_side :=
  rewrite ?len_app, ?len_cons, ?len_nil, ?len_map, ?len_insert;
  repeat first [rewrite len_zdrop by lia | rewrite len_ztake by lia]; lia.
#[export] Hint Rewrite @len_ztake @len_zdrop @len_splice len_zeros using zlen_side : zlen.

(** [zlia]: normalise the lengths in sight, then linear arithmetic. *)
Ltac len_facts :=
  repeat match goal with
  | |- context [len ?l] =>
      lazymatch goal with
      | _ : 0 ≤ len l |- _ => fail
      | _ => pose proof (len_nonneg l)
      end
  | _ : context [len ?l] |- _ =>
      lazymatch goal with
      | _ : 0 ≤ len l |- _ => fail
      | _ => pose proof (len_nonneg l)
      end
  end.
Ltac zlia :=
  len_facts; autorewrite with zlen in *;
  first [lia | change (@len u8) with (@len Z) in *; lia].

(** *** Writes and views of prefixes *)
Lemma splice_app {A} (l u v : list A) :
  len u + len v ≤ len l → splice (splice l 0 u) (len u) v = splice l 0 (u ++ v).
Proof. intros. apply (splice_splice l 0 u v); zlia. Qed.

(** Writing the part in front of what was written. *)
Lemma splice_before {A} (l u v : list A) :
  len u + len v ≤ len l → splice (splice l (len u) v) 0 u = splice l 0 (u ++ v).
Proof.
  intros. pose proof (len_nonneg u). pose proof (len_nonneg v).
  unfold splice at 1. rewrite ztake_0, Z.add_0_l. cbn [app].
  unfold splice. rewrite ztake_0, Z.add_0_l, len_app, zdrop_app' by (rewrite len_ztake; lia).
  cbn [app]. by rewrite app_assoc.
Qed.

Lemma slice_prefix {A} (l v : list A) : len v ≤ len l → slice (splice l 0 v) 0 (len v) = Some v.
Proof.
  intros. pose proof (len_nonneg v). rewrite slice_spec by (rewrite ?len_splice; lia).
  rewrite Z.sub_0_r, zdrop_0. rewrite <- (Z.add_0_l (len v)) at 1. rewrite ztake_splice by lia.
  by rewrite ztake_0.
Qed.

Lemma splice_whole {A} (l v : list A) : len v = len l → splice l 0 v = v.
Proof.
  intros. unfold splice. rewrite ztake_0, Z.add_0_l, zdrop_all by lia. by rewrite app_nil_r.
Qed.

Lemma slice_app_mid {A} (u v : list A) n m :
  0 ≤ n ≤ m → m ≤ len v → slice (u ++ v) (len u + n) (len u + m) = Some (ztake (m - n) (zdrop n v)).
Proof.
  intros. pose proof (len_nonneg u). rewrite slice_spec by (rewrite ?len_app; lia).
  rewrite <- zdrop_zdrop by lia. rewrite zdrop_app. do 2 f_equal. lia.
Qed.

Lemma ztake_splice_0 {A} (l v : list A) n : n = len v → len v ≤ len l → ztake n (splice l 0 v) = v.
Proof.
  intros -> Hl. rewrite <- (Z.add_0_l (len v)), ztake_splice by lia. by rewrite ztake_0.
Qed.

(** Filling the front of a zeroed buffer. *)
Lemma splice_zeros n v : splice (zeros n) 0 v = v ++ zeros (n - len v).
Proof.
  unfold splice, zdrop, zeros. rewrite ztake_0, drop_replicate. cbn [app]. do 2 f_equal. unfold len. lia.
Qed.

(** ** Well-formed byte strings *)
Lemma bytes_wf_app l k : bytes_wf (l ++ k) ↔ bytes_wf l ∧ bytes_wf k.
Proof. apply Forall_app. Qed.
Lemma bytes_wf_cons b l : bytes_wf (b :: l) ↔ byte b ∧ bytes_wf l.
Proof. apply Forall_cons. Qed.
Lemma bytes_wf_nil : bytes_wf [].
Proof. constructor. Qed.
Lemma bytes_wf_zeros n : bytes_wf (zeros n).
Proof. apply Forall_replicate. unfold byte. lia. Qed.
Lemma bytes_wf_ztake n l : bytes_wf l → bytes_wf (ztake n l).
Proof. apply Forall_take. Qed.
Lemma bytes_wf_zdrop n l : bytes_wf l → bytes_wf (zdrop n l).
Proof. apply Forall_drop. Qed.
Lemma bytes_wf_splice l i v : bytes_wf l → bytes_wf v → bytes_wf (splice l i v).
Proof.
  intros. unfold splice. rewrite !bytes_wf_app.
  auto using bytes_wf_ztake, bytes_wf_zdrop.
Qed.
(** Decides [bytes_wf] of concrete lists. *)
Definition is_byte (b : Z) : bool := (0 <=? b) && (b <? 256).
Lemma is_byte_wf p : forallb is_byte p = true ↔ bytes_wf p.
Proof.
  rewrite forallb_forall. unfold bytes_wf. rewrite Forall_forall. unfold is_byte, byte.
  split; intros H x Hx.
  - apply list_elem_of_In, H in Hx. lia.
  - specialize (H x (proj2 (list_elem_of_In _ _) Hx)). lia.
Qed.

Create HintDb wfb.
#[export] Hint Resolve bytes_wf_nil bytes_wf_zeros bytes_wf_ztake bytes_wf_zdrop
  bytes_wf_splice : wfb.

(** ** Little-endian byte strings *)
Fixpoint le_bytes (n : nat) (v : Z) : list Z :=
  match n with O => [] | S n => v mod 256 :: le_bytes n (v / 256) end.
Fixpoint le_combine (l : list Z) : Z :=
  match l with [] => 0 | b :: l => b + 256 * le_combine l end.

Lemma len_le_bytes n v : len (le_bytes n v) = Z.of_nat n.
Proof. revert v. induction n; intros; cbn [le_bytes]; [done|]. rewrite len_cons, IHn. lia. Qed.
#[export] Hint Rewrite len_le_bytes : zlen.
Lemma bytes_wf_le_bytes n v : bytes_wf (le_bytes n v).
Proof.
  revert v. induction n; intros; cbn [le_bytes]; [constructor|].
  apply bytes_wf_cons. split; [|done]. unfold byte. apply Z.mod_pos_bound. lia.
Qed.
#[export] Hint Resolve bytes_wf_le_bytes : wfb.

Lemma pow_byte_succ n : 2 ^ (8 * Z.of_nat (S n)) = 256 * 2 ^ (8 * Z.of_nat n).
Proof. replace (8 * Z.of_nat (S n)) with (8 + 8 * Z.of_nat n) by lia. rewrite Z.pow_add_r; lia. Qed.

Lemma le_combine_bytes n v : in_width (8 * Z.of_nat n) v → le_combine (le_bytes n v) = v.
Proof.
  unfold in_width. revert v. induction n as [|n IH]; intros v Hv; cbn [le_bytes le_combine].
  - cbn in Hv. lia.
  - rewrite pow_byte_succ in Hv. rewrite IH; [pose proof (Z.div_mod v 256); lia|].
    split; [apply Z.div_pos; lia | apply Z.div_lt_upper_bound; lia].
Qed.

Lemma le_combine_bound l : bytes_wf l → in_width (8 * len l) (le_combine l).
Proof.
  unfold in_width, len. induction 1 as [|b l Hb Hl IH]; [cbn; lia|].
  cbn [length le_combine]. rewrite pow_byte_succ. unfold byte in Hb. nia.
Qed.

Lemma le_bytes_combine l : bytes_wf l → le_bytes (length l) (le_combine l) = l.
Proof.
  induction 1 as [|b l Hb Hl IH]; [done|]. cbn [length le_combine le_bytes].
  unfold byte in Hb. rewrite Z.mul_comm.
  rewrite Z.div_add, Z.div_small, Z.add_0_l, IH by lia.
  rewrite Z.mod_add, Z.mod_small by lia. done.
Qed.

(** [a | (b << n)] is an addition when the low part is below [2^n]. *)
Lemma lor_shiftl_add a b n :
  0 ≤ n → in_width n a → Z.lor a (Z.shiftl b n) = a + b * 2 ^ n.
Proof.
  intros Hn Ha. rewrite <- Z.shiftl_mul_pow2 by lia.
  rewrite <- Z.lxor_lor, Z.add_nocarry_lxor; [done| |].
  all: apply Z.bits_inj'; intros i Hi; rewrite Z.land_spec, Z.bits_0.
  all: destruct (decide (i < n));
    [rewrite (Z.shiftl_spec_low b n i), andb_false_r by lia; done|].
  all: replace (Z.testbit a i) with false; [done|].
  all: symmetry; destruct (decide (a = 0)) as [->|]; [apply Z.bits_0|].
  all: apply Z.bits_above_log2; [unfold in_width in Ha; lia|].
  all: apply Z.log2_lt_pow2; unfold in_width in Ha; [lia|].
  all: eapply Z.lt_le_trans; [apply Ha|apply Z.pow_le_mono_r; lia].
Qed.

Lemma shiftr_byte v n : 0 ≤ n → Z.shiftr v (n + 8) = Z.shiftr v n / 256.
Proof.
  intros. rewrite !Z.shiftr_div_pow2, Z.pow_add_r by lia.
  change (2 ^ 8) with 256. rewrite Z.div_div; [done|lia|lia].
Qed.

(** [length] facts about concrete reads: a string of known length is that
    many bytes. *)
Lemma length_S_inv {A} (l : list A) n : length l = S n → ∃ x k, l = x :: k ∧ length k = n.
Proof. destruct l; [done|]. cbn. intros [= <-]. eauto. Qed.

(** Case analysis on a boolean test, with its integer reading. *)
Ltac btest :=
  match goal with
  | |- context [if ?b then _ else _] => let H := fresh "Hb" in destruct b eqn:H
  | _ : context [if ?b then _ else _] |- _ => let H := fresh "Hb" in destruct b eqn:H
  end.

(** ** Bit fields

    Masking with [k] ones at position [n] extracts a field. *)
Lemma land_field x k n :
  0 ≤ k → 0 ≤ n → Z.land x (Z.shiftl (Z.ones k) n) = (x / 2 ^ n) mod 2 ^ k * 2 ^ n.
Proof.
  intros. rewrite <- Z.land_ones, <- Z.shiftr_div_pow2, <- Z.shiftl_mul_pow2 by lia.
  apply Z.bits_inj'. intros i Hi. rewrite Z.land_spec, !Z.shiftl_spec by lia.
  destruct (decide (i < n)).
  - by rewrite (Z.testbit_neg_r _ (i - n)), (Z.testbit_neg_r _ (i - n)), andb_false_r by lia.
  - rewrite Z.land_spec, Z.shiftr_spec by lia. do 2 f_equal. lia.
Qed.
Lemma land_low x k : 0 ≤ k → Z.land x (Z.ones k) = x mod 2 ^ k.
Proof. apply Z.land_ones. Qed.

Lemma in_width_land w x y : 0 ≤ w → in_width w x → 0 ≤ y → in_width w (Z.land x y).
Proof.
  unfold in_width. intros Hw [H0 Hx] Hy. split; [apply Z.land_nonneg; lia|].
  rewrite <- (Z.mod_small x (2 ^ w)), <- Z.land_ones by lia.
  rewrite <- Z.land_assoc, (Z.land_comm _ y), Z.land_assoc, Z.land_ones by lia.
  apply Z.mod_pos_bound. lia.
Qed.

Lemma le_combine_mod n v : le_combine (le_bytes n v) = v mod 2 ^ (8 * Z.of_nat n).
Proof.
  revert v. induction n as [|n IH]; intros v; cbn [le_bytes le_combine].
  - by rewrite Z.mul_0_r, Z.mod_1_r.
  - rewrite IH, pow_byte_succ, Z.rem_mul_r; lia.
Qed.

Lemma le_bytes_mod_inj n a b :
  le_bytes n a = le_bytes n b → a mod 2 ^ (8 * Z.of_nat n) = b mod 2 ^ (8 * Z.of_nat n).
Proof. intros He. rewrite <- !le_combine_mod. by rewrite He. Qed.

Lemma land_byte x : Z.land x 255 = x mod 256.
Proof. change 255 with (Z.ones 8). by rewrite land_low. Qed.
