(* ===== verification/Codec.v ===== *)
(** * The [codec] crate

    Models src/codec/src/codec.rs and src/codec/src/macros.rs: the [Reader]
    and [Writer] over byte slices, the [Codec] trait with its instances for
    the integers, [Option], [Vec] and arrays, and the codec generated by
    [enum_builder!].  The class [CodecOk] is the contract every instance of
    the trait meets: a byte-level specification, exact encoding (with what is
    left behind when the buffer is full), decoding of what was encoded, and a
    reader that neither panics nor leaves its slice. *)

From S2P Require Import Prelude.

(** ** Reader *)
Record Reader := mkReader { r_buf : list Z; r_offs : usize }.

Module Reader.

Definition init (b : list Z) : Reader := mkReader b 0.
Definition left (r : Reader) : usize := len (r_buf r) - r_offs r.
Definition any_left (r : Reader) : bool := r_offs r <? len (r_buf r).
Definition used (r : Reader) : usize := r_offs r.
Definition rest {E} : M Reader E (list Z) :=
  λ r, (or_panic (slice (r_buf r) (r_offs r) (len (r_buf r))),
        mkReader (r_buf r) (len (r_buf r))).
Definition take (n : usize) : M Reader unit (list Z) :=
  λ r, if left r <? n then (Err tt, r)
       else (or_panic (slice (r_buf r) (r_offs r) (r_offs r + n)),
             mkReader (r_buf r) (r_offs r + n)).
Definition sub (n : usize) : M Reader unit Reader :=
  let* b := take n in ret (init b).
Definition as_ref {E} (r : Reader) : outcome E (list Z) :=
  or_panic (slice (r_buf r) (r_offs r) (len (r_buf r))).

End Reader.

(** ** Writer *)
Record Writer := mkWriter { w_buf : list Z; w_offs : usize }.

Inductive EncodeErr : Type := EncodeErr_.

Module Writer.

Definition init (b : list Z) : Writer := mkWriter b 0.
Definition clear (w : Writer) : Writer := mkWriter (w_buf w) 0.
Definition left (w : Writer) : usize := len (w_buf w) - w_offs w.
Definition used (w : Writer) : usize := w_offs w.
Definition used_slice (w : Writer) : option (list Z) := slice (w_buf w) 0 (w_offs w).
Definition left_slice (w : Writer) : option (list Z) :=
  slice (w_buf w) (w_offs w) (len (w_buf w)).

(** The body of the [for] loop of [extend_from_slice]: one indexed store per
    byte. *)
Fixpoint extend_loop (buf : list Z) (i : usize) (value : list Z) : option (list Z) :=
  match value with
  | [] => Some buf
  | v :: value => buf' ← zset buf i v; extend_loop buf' (i + 1) value
  end.

Definition extend_from_slice (value : list Z) : M Writer unit usize :=
  λ w, if left w <? len value then (Err tt, w)
       else match extend_loop (w_buf w) (w_offs w) value with
            | Some buf => (Ok (len value), mkWriter buf (w_offs w + len value))
            | None => (Panic, w)
            end.

Definition push (value : u8) : M Writer unit u8 :=
  λ w, if left w <? 1 then (Err tt, w)
       else match zset (w_buf w) (w_offs w) value with
            | Some buf => (Ok value, mkWriter buf (w_offs w + 1))
            | None => (Panic, w)
            end.

End Writer.

(** ** The [Codec] trait *)
Class Codec (A : Type) := {
  encode : A → M Writer EncodeErr usize;
  read : M Reader unit A;
}.

Definition read_bytes {A} `{Codec A} (b : list Z) : outcome unit A :=
  fst (read (Reader.init b)).

(** [writer.push(..).ok_or(EncodeErr)?] and its slice counterpart. *)
Definition push_or (v : u8) : M Writer EncodeErr u8 :=
  map_errM (λ _, EncodeErr_) (Writer.push v).
Definition extend_or (v : list Z) : M Writer EncodeErr usize :=
  map_errM (λ _, EncodeErr_) (Writer.extend_from_slice v).

(** [Codec::read_vec] *)
Fixpoint read_vec {A} `{Codec A} (count : nat) : M Reader unit (list A) :=
  match count with
  | O => ret []
  | S n => let* t := read in let* data := read_vec n in ret (t :: data)
  end.

(** The loop shared by the encoders of [Vec] and of arrays. *)
Fixpoint encode_each {A} `{Codec A} (l : list A) : M Writer EncodeErr unit :=
  match l with
  | [] => ret tt
  | t :: l => let* _ := encode t in encode_each l
  end.

(** The loop [for d in .. { size += d.encode(bytes)?; }]. *)
Fixpoint encode_sum {A} `{Codec A} (l : list A) : M Writer EncodeErr usize :=
  match l with
  | [] => ret 0
  | t :: l => let* s := encode t in let* r := encode_sum l in ret (s + r)
  end.

Definition w_used {E} : M Writer E usize := λ w, (Ok (Writer.used w), w).

Definition encode_all {A} `{Codec A} (l : list A) : M Writer EncodeErr usize :=
  let* used := w_used in
  let* _ := encode_each l in
  let* used' := w_used in
  ret (used' - used).

#[export] Instance codec_vec {A} `{Codec A} : Codec (list A) :=
  {| encode := encode_all; read := panic |}.

(** A read whose failure is a value, as in [Some(T::read(reader))]. *)
Definition attempt {S E A} (m : M S unit A) : M S E (option A) :=
  λ s, match m s with
       | (Ok a, s') => (Ok (Some a), s')
       | (Err _, s') => (Ok None, s')
       | (Panic, s') => (Panic, s')
       end.

(** ** Integers *)
Definition decode_u8 (b : list Z) : outcome unit u8 := or_panic (znth b 0).
#[export] Instance codec_u8 : Codec u8 :=
  {| encode v := let* _ := push_or v in ret 1;
     read := let* b := Reader.take 1 in lift (decode_u8 b) |}.

Definition put_u16 (v : u16) (out : list Z) : option (list Z) :=
  out ← zset out 0 (wrap 8 v);
  zset out 1 (wrap 8 (Z.shiftr v 8)).
Definition decode_u16 (b : list Z) : outcome unit u16 :=
  let! b0 := or_panic (znth b 0) in
  let! b1 := or_panic (znth b 1) in
  Ok (Z.lor b0 (Z.shiftl b1 8)).
#[export] Instance codec_u16 : Codec u16 :=
  {| encode v :=
       let* b16 := lift (or_panic (put_u16 v [0; 0])) in
       let* _ := extend_or b16 in ret 2;
     read := let* b := Reader.take 2 in lift (decode_u16 b) |}.

Definition u24_new {E} (v : u32) : outcome E u24 :=
  if Z.shiftr v 24 =? 0 then Ok v else Panic.
Definition decode_u24 (b : list Z) : outcome unit u24 :=
  let! b0 := or_panic (znth b 0) in
  let! b1 := or_panic (znth b 1) in
  let! b2 := or_panic (znth b 2) in
  Ok (Z.lor (Z.lor b0 (Z.shiftl b1 8)) (Z.shiftl b2 16)).
#[export] Instance codec_u24 : Codec u24 :=
  {| encode v :=
       let* _ := push_or (wrap 8 v) in
       let* _ := push_or (wrap 8 (Z.shiftr v 8)) in
       let* _ := push_or (wrap 8 (Z.shiftr v 16)) in
       ret 3;
     read := let* b := Reader.take 3 in lift (decode_u24 b) |}.

Definition decode_u32 (b : list Z) : outcome unit u32 :=
  let! b0 := or_panic (znth b 0) in
  let! b1 := or_panic (znth b 1) in
  let! b2 := or_panic (znth b 2) in
  let! b3 := or_panic (znth b 3) in
  Ok (Z.lor (Z.lor (Z.lor b0 (Z.shiftl b1 8)) (Z.shiftl b2 16)) (Z.shiftl b3 24)).
#[export] Instance codec_u32 : Codec u32 :=
  {| encode v :=
       let* _ := push_or (wrap 8 v) in
       let* _ := push_or (wrap 8 (Z.shiftr v 8)) in
       let* _ := push_or (wrap 8 (Z.shiftr v 16)) in
       let* _ := push_or (wrap 8 (Z.shiftr v 24)) in
       ret 4;
     read := let* b := Reader.take 4 in lift (decode_u32 b) |}.

Definition put_u64 (v : u64) (b : list Z) : option (list Z) :=
  b ← zset b 0 (wrap 8 v);
  b ← zset b 1 (wrap 8 (Z.shiftr v 8));
  b ← zset b 2 (wrap 8 (Z.shiftr v 16));
  b ← zset b 3 (wrap 8 (Z.shiftr v 24));
  b ← zset b 4 (wrap 8 (Z.shiftr v 32));
  b ← zset b 5 (wrap 8 (Z.shiftr v 40));
  b ← zset b 6 (wrap 8 (Z.shiftr v 48));
  zset b 7 (wrap 8 (Z.shiftr v 56)).
Definition decode_u64 (b : list Z) : outcome unit u64 :=
  let! b0 := or_panic (znth b 0) in
  let! b1 := or_panic (znth b 1) in
  let! b2 := or_panic (znth b 2) in
  let! b3 := or_panic (znth b 3) in
  let! b4 := or_panic (znth b 4) in
  let! b5 := or_panic (znth b 5) in
  let! b6 := or_panic (znth b 6) in
  let! b7 := or_panic (znth b 7) in
  Ok (Z.lor (Z.lor (Z.lor (Z.lor (Z.lor (Z.lor (Z.lor b0
       (Z.shiftl b1 8)) (Z.shiftl b2 16)) (Z.shiftl b3 24)) (Z.shiftl b4 32))
       (Z.shiftl b5 40)) (Z.shiftl b6 48)) (Z.shiftl b7 56)).
#[export] Instance codec_u64 : Codec u64 :=
  {| encode v :=
       let* b64 := lift (or_panic (put_u64 v (zeros 8))) in
       let* _ := extend_or b64 in ret 8;
     read := let* b := Reader.take 8 in lift (decode_u64 b) |}.

(** [u128::to_le_bytes] and [from_le_bytes] of the standard library. *)
#[export] Instance codec_u128 : Codec u128 :=
  {| encode v := let* _ := extend_or (le_bytes 16 v) in ret 16;
     read :=
       let* b := Reader.take 16 in
       let* v := lift (or_panic (copy_from_slice (zeros 16) 0 16 b)) in
       ret (le_combine v) |}.

(** ** [Option] and arrays *)
#[export] Instance codec_option {A} `{Codec A} : Codec (option A) :=
  {| encode o :=
       match o with
       | Some val =>
           let* s1 := encode (1 : u8) in
           let* s2 := encode val in
           ret (s1 + s2)
       | None => encode (0 : u8)
       end;
     read :=
       let* present := (read : M Reader unit u8) in
       if negb (present =? 0) then attempt read else ret None |}.

(** [[T; N]]: an array is a list of length [N]. *)

(** The loop of [read] over [target.iter_mut()]: each element in turn is
    replaced by what [T::read] returns. *)
Fixpoint read_into {A} `{Codec A} (target : list A) : M Reader unit (list A) :=
  match target with
  | [] => ret []
  | _ :: target => let* t := read in let* ts := read_into target in ret (t :: ts)
  end.

Definition encode_array {A} `{Codec A} (l : list A) : M Writer EncodeErr usize := encode_all l.
Definition read_array {A} `{Codec A} (dflt : A) (N : nat) : M Reader unit (list A) :=
  read_into (replicate N dflt).

(** ** [enum_builder!]

    Each use of the macro is a type with a constructor per listed value and
    [Unknown]; [get_int] is [get_u8]/[get_u16]/[get_u32] and [of_int] the
    [match] of [read]. *)
Class EnumBuilder (A : Type) := {
  get_int : A → Z;
  of_int : Z → A;
}.

Definition enum_encode {A} `{EnumBuilder A} {I} (cast : Z → I) `{Codec I} (x : A) :
  M Writer EncodeErr usize := encode (cast (get_int x)).
Definition enum_read {A} `{EnumBuilder A} {I} (uncast : I → Z) `{Codec I} : M Reader unit A :=
  let* x := read in ret (of_int (uncast x)).
Definition enum_u8 {A} `{EnumBuilder A} : Codec A :=
  {| encode := enum_encode (λ x, x : u8); read := enum_read (λ x : u8, x) |}.
Definition enum_u16 {A} `{EnumBuilder A} : Codec A :=
  {| encode := enum_encode (λ x, x : u16); read := enum_read (λ x : u16, x) |}.
Definition enum_u32 {A} `{EnumBuilder A} : Codec A :=
  {| encode := enum_encode (λ x, x : u32); read := enum_read (λ x : u32, x) |}.

(** ** The contract

    [put w bs] is the writer after [bs] was appended; [writes e m bs a]: [m]
    appends exactly [bs] and returns [a] when it fits, and otherwise fails
    with [e] having appended a prefix of [bs]. *)
Definition writer_wf (w : Writer) : Prop := 0 ≤ w_offs w ≤ len (w_buf w).
Definition reader_wf (r : Reader) : Prop :=
  0 ≤ r_offs r ≤ len (r_buf r) ∧ bytes_wf (r_buf r).

Definition put (w : Writer) (bs : list Z) : Writer :=
  mkWriter (splice (w_buf w) (w_offs w) bs) (w_offs w + len bs).

Definition writes {E A} (e : E) (m : M Writer E A) (bs : list Z) (a : A) : Prop :=
  ∀ w, writer_wf w →
    (len bs ≤ Writer.left w → m w = (Ok a, put w bs)) ∧
    (Writer.left w < len bs →
     ∃ bs', bs' `prefix_of` bs ∧ len bs' ≤ Writer.left w ∧ m w = (Err e, put w bs')).

Definition encodes {E} (e : E) (m : M Writer E usize) (bs : list Z) : Prop :=
  writes e m bs (len bs).

Definition advance (r : Reader) (n : Z) : Reader := mkReader (r_buf r) (r_offs r + n).

(** [decodes m bs a]: whatever follows, [m] consumes exactly [bs] and returns
    [a]. *)
Definition decodes {E A} (m : M Reader E A) (bs : list Z) (a : A) : Prop :=
  ∀ r tail, reader_wf r → zdrop (r_offs r) (r_buf r) = bs ++ tail →
    m r = (Ok a, advance r (len bs)).

(** [reads m P]: on any input [m] returns or fails without a panic, does not
    touch the slice, moves forward inside it, and what it returns satisfies
    [P]. *)
Definition reads {E A} (m : M Reader E A) (P : A → Prop) : Prop :=
  ∀ r, reader_wf r →
    let '(o, r') := m r in
    o ≠ Panic ∧ r_buf r' = r_buf r ∧ r_offs r ≤ r_offs r' ≤ len (r_buf r) ∧
    (∀ a, o = Ok a → P a).

Class CodecOk (A : Type) `{Codec A} := {
  wf : A → Prop;
  bytes : A → list Z;
  bytes_ok : ∀ a, wf a → bytes_wf (bytes a);
  encode_ok : ∀ a, wf a → encodes EncodeErr_ (encode a) (bytes a);
  read_ok : ∀ a, wf a → decodes read (bytes a) a;
  read_safe : reads read wf;
}.

(** ** Reasoning with the contract *)
Section Laws.
Context {E : Type} (e : E).

Lemma put_nil w : put w [] = w.
Proof. unfold put. rewrite splice_nil, len_nil, Z.add_0_r. by destruct w. Qed.
Lemma put_put w b1 b2 :
  writer_wf w → len b1 + len b2 ≤ Writer.left w → put (put w b1) b2 = put w (b1 ++ b2).
Proof.
  unfold writer_wf, Writer.left, put. intros. cbn.
  rewrite splice_splice, len_app by zlia. f_equal. lia.
Qed.
Lemma put_wf w bs : writer_wf w → len bs ≤ Writer.left w → writer_wf (put w bs).
Proof. unfold writer_wf, Writer.left, put. intros. cbn. zlia. Qed.
Lemma put_left w bs :
  writer_wf w → len bs ≤ Writer.left w → Writer.left (put w bs) = Writer.left w - len bs.
Proof. unfold writer_wf, Writer.left, put. intros. cbn. zlia. Qed.

Lemma writes_ret {A} (a : A) : writes e (ret a) [] a.
Proof.
  intros w Hw. rewrite len_nil, put_nil. split; [done|].
  unfold writer_wf, Writer.left in *. lia.
Qed.

Lemma writes_bind {A B} (m : M Writer E A) (k : A → M Writer E B) b1 b2 a c :
  writes e m b1 a → writes e (k a) b2 c → writes e (bind m k) (b1 ++ b2) c.
Proof.
  intros H1 H2 w Hw. destruct (H1 w Hw) as [H1ok H1err]. rewrite len_app. unfold bind.
  pose proof (len_nonneg b1). pose proof (len_nonneg b2).
  destruct (decide (len b1 ≤ Writer.left w)) as [Hfit|Hno].
  - destruct (H2 (put w b1)) as [H2ok H2err]; [by apply put_wf|].
    rewrite put_left in H2ok, H2err by done. rewrite H1ok by done. split.
    + intros. rewrite H2ok, put_put by (done || lia). done.
    + intros. destruct H2err as (bs' & Hp & Hl & Heq); [lia|].
      exists (b1 ++ bs'). rewrite len_app, Heq, put_put by (done || lia).
      split; [by apply prefix_app|]. split; [lia|done].
  - split; [lia|]. intros. destruct H1err as (bs' & Hp & Hl & Heq); [lia|].
    exists bs'. rewrite Heq. split; [by apply prefix_app_r|]. done.
Qed.

Lemma writes_eq {A} (m : M Writer E A) b1 b2 a1 a2 :
  writes e m b1 a1 → b1 = b2 → a1 = a2 → writes e m b2 a2.
Proof. by intros ? <- <-. Qed.

Lemma writes_bind_pure {A B} (m : M Writer E A) (k : A → M Writer E B) b1 b2 a c :
  writes e m b1 a → writes e (k a) b2 c → ∀ b, b = b1 ++ b2 → writes e (bind m k) b c.
Proof. intros ? ? ? ->. by eapply writes_bind. Qed.

Lemma writes_lift {A} (a : A) : writes e (lift (Ok a)) [] a.
Proof. apply writes_ret. Qed.

Lemma writes_map_err {F A} (f : F) (m : M Writer F A) bs a :
  writes f m bs a → writes e (map_errM (λ _, e) m) bs a.
Proof.
  intros H w Hw. destruct (H w Hw) as [Hok Herr]. unfold map_errM. split.
  - intros. by rewrite Hok.
  - intros Hlt. destruct (Herr Hlt) as (bs' & ? & ? & ->). eauto.
Qed.

(** A computation that only looks at how much was written. *)
Lemma writes_count (m : M Writer E unit) bs :
  writes e m bs tt →
  encodes e (let* u := w_used in let* _ := m in let* u' := w_used in ret (u' - u)) bs.
Proof.
  intros H w Hw. destruct (H w Hw) as [Hok Herr]. unfold bind, w_used. split.
  - intros. rewrite Hok by done. unfold ret, Writer.used, put. cbn.
    do 2 f_equal. lia.
  - intros Hlt. destruct (Herr Hlt) as (bs' & ? & ? & ->). eauto.
Qed.

End Laws.

Section ReaderLaws.
Context {E : Type}.

Lemma decodes_ret {A} (a : A) : decodes (E:=E) (ret a) [] a.
Proof. intros r tail _ _. unfold ret, advance. rewrite len_nil, Z.add_0_r. by destruct r. Qed.

Lemma advance_wf r n : reader_wf r → 0 ≤ n ≤ Reader.left r → reader_wf (advance r n).
Proof. unfold reader_wf, Reader.left, advance. cbn. intuition lia. Qed.

Lemma advance_left_app r bs tail :
  reader_wf r → zdrop (r_offs r) (r_buf r) = bs ++ tail →
  Reader.left r = len bs + len tail ∧ zdrop (r_offs (advance r (len bs))) (r_buf r) = tail.
Proof.
  intros [Ho _] Heq. unfold Reader.left, advance. cbn. split.
  - apply (f_equal len) in Heq. zlia.
  - rewrite <- zdrop_zdrop, Heq by zlia. apply zdrop_app.
Qed.

Lemma decodes_bind {A B} (m : M Reader E A) (k : A → M Reader E B) b1 b2 a c :
  decodes m b1 a → decodes (k a) b2 c → decodes (bind m k) (b1 ++ b2) c.
Proof.
  intros H1 H2 r tail Hr Heq. rewrite <- app_assoc in Heq.
  destruct (advance_left_app _ _ _ Hr Heq) as [Hl Hd].
  unfold bind. rewrite (H1 r (b2 ++ tail)) by done.
  rewrite (H2 _ tail); [|apply advance_wf; [done|zlia]|done].
  unfold advance. cbn. rewrite len_app. do 2 f_equal. lia.
Qed.

Lemma decodes_eq {A} (m : M Reader E A) b1 b2 a1 a2 :
  decodes m b1 a1 → b1 = b2 → a1 = a2 → decodes m b2 a2.
Proof. by intros ? <- <-. Qed.

Lemma decodes_bind_pure {A B} (m : M Reader E A) (k : A → M Reader E B) b1 b2 a c :
  decodes m b1 a → decodes (k a) b2 c → ∀ b, b = b1 ++ b2 → decodes (bind m k) b c.
Proof. intros ? ? ? ->. by eapply decodes_bind. Qed.

Lemma decodes_lift {A} (o : outcome E A) a : o = Ok a → decodes (lift o) [] a.
Proof. intros ->. apply decodes_ret. Qed.

Lemma reads_ret {A} (a : A) (P : A → Prop) : P a → reads (E:=E) (ret a) P.
Proof. intros Ha r [Hr _]. cbn. split; [done|]. split; [done|]. split; [lia|]. by intros ? [= <-]. Qed.

Lemma reads_throw {A} (x : E) (P : A → Prop) : reads (throw x) P.
Proof. intros r [Hr _]. cbn. split; [done|]. split; [done|]. split; [lia|]. done. Qed.

Lemma reads_bind {A B} (m : M Reader E A) (k : A → M Reader E B) P Q :
  reads m P → (∀ a, P a → reads (k a) Q) → reads (bind m k) Q.
Proof.
  intros H1 H2 r Hr. specialize (H1 r Hr). unfold bind.
  destruct (m r) as [[a|x|] r1]; destruct H1 as (Hnp & Hb & Ho & HP).
  - assert (reader_wf r1) as Hr1.
    { unfold reader_wf in *. rewrite Hb. intuition lia. }
    specialize (H2 a (HP a eq_refl) r1 Hr1). destruct (k a r1) as [o r2].
    rewrite Hb in H2. intuition lia.
  - split_and!; try done; lia.
  - done.
Qed.

Lemma reads_weaken {A} (m : M Reader E A) (P Q : A → Prop) :
  reads m P → (∀ a, P a → Q a) → reads m Q.
Proof. intros H HPQ r Hr. specialize (H r Hr). destruct (m r). destruct H as (?&?&?&?). split_and!; auto; lia. Qed.

Lemma reads_lift {A} (o : outcome E A) (P : A → Prop) :
  o ≠ Panic → (∀ a, o = Ok a → P a) → reads (lift o) P.
Proof. intros ? ? r [Hr _]. cbn. repeat split; auto; lia. Qed.

Lemma reads_if {A} (b : bool) (m1 m2 : M Reader E A) P :
  (b = true → reads m1 P) → (b = false → reads m2 P) → reads (if b then m1 else m2) P.
Proof. destruct b; auto. Qed.

End ReaderLaws.

Lemma reads_attempt {E A} (m : M Reader unit A) P :
  reads m P → reads (E:=E) (attempt m) (λ o, ∀ a, o = Some a → P a).
Proof.
  intros H r Hr. specialize (H r Hr). unfold attempt.
  destruct (m r) as [[a|x|] r1]; destruct H as (Hnp & Hb & Ho & HP); [| |done].
  - repeat split; try done; try lia. intros ? [= <-] ? [= <-]. auto.
  - repeat split; try done; try lia. by intros ? [= <-].
Qed.

Lemma decodes_attempt {E A} (m : M Reader unit A) bs a :
  decodes m bs a → decodes (E:=E) (attempt m) bs (Some a).
Proof. intros H r tail Hr Heq. unfold attempt. by rewrite (H r tail). Qed.

Lemma decodes_map_err {E F A} (e : F) (m : M Reader E A) bs a :
  decodes m bs a → decodes (map_errM (λ _, e) m) bs a.
Proof. intros H r tail Hr Heq. unfold map_errM. by rewrite (H r tail). Qed.

Lemma decodes_take n bs : n = len bs → decodes (Reader.take n) bs bs.
Proof.
  intros -> r tail Hr Heq. destruct (advance_left_app _ _ _ Hr Heq) as [Hl _].
  destruct Hr as [Ho _]. unfold Reader.take, Reader.left in *.
  replace (len (r_buf r) - r_offs r <? len bs) with false by zlia.
  rewrite slice_spec by zlia. rewrite Heq.
  replace (r_offs r + len bs - r_offs r) with (len bs) by lia.
  by rewrite ztake_app.
Qed.

Lemma reads_take n : 0 ≤ n → reads (Reader.take n) (λ b, len b = n ∧ bytes_wf b).
Proof.
  intros Hn r [Hr Hb]. unfold Reader.take, Reader.left. btest.
  - repeat split; try done; lia.
  - rewrite slice_spec by lia. cbn. split_and!; try done; try lia.
    intros ? [= <-]. split; [rewrite len_ztake; rewrite ?len_zdrop; lia|auto with wfb].
Qed.

Lemma push_writes v : writes EncodeErr_ (push_or v) [v] v.
Proof.
  intros w Hw. unfold push_or, map_errM, Writer.push, writer_wf, Writer.left in *.
  rewrite len_cons, len_nil. split; intros H.
  - replace (len (w_buf w) - w_offs w <? 1) with false by lia.
    by rewrite zset_splice by lia.
  - replace (len (w_buf w) - w_offs w <? 1) with true by lia.
    exists []. rewrite put_nil. split_and!; [apply prefix_nil|rewrite len_nil; lia|done].
Qed.

Lemma extend_loop_splice buf i v :
  0 ≤ i → i + len v ≤ len buf → Writer.extend_loop buf i v = Some (splice buf i v).
Proof.
  revert buf i. induction v as [|x v IH]; intros buf i Hi Hl; cbn.
  - by rewrite splice_nil.
  - rewrite len_cons in Hl. pose proof (len_nonneg v). rewrite zset_splice by lia. cbn.
    rewrite IH by zlia. f_equal. change (x :: v) with ([x] ++ v).
    rewrite <- splice_splice by zlia. done.
Qed.

Lemma extend_fits v w :
  writer_wf w → len v ≤ Writer.left w → Writer.extend_from_slice v w = (Ok (len v), put w v).
Proof.
  unfold Writer.extend_from_slice, writer_wf, Writer.left. intros Hw Hl.
  replace (len (w_buf w) - w_offs w <? len v) with false by lia.
  by rewrite extend_loop_splice by lia.
Qed.

Lemma extend_writes v : writes EncodeErr_ (extend_or v) v (len v).
Proof.
  intros w Hw. unfold extend_or, map_errM, Writer.extend_from_slice, writer_wf, Writer.left in *.
  split; intros H.
  - replace (len (w_buf w) - w_offs w <? len v) with false by lia.
    by rewrite extend_loop_splice by lia.
  - replace (len (w_buf w) - w_offs w <? len v) with true by lia.
    exists []. rewrite put_nil. split_and!; [apply prefix_nil|rewrite len_nil; lia|done].
Qed.

(** ** Automation

    [solve_writes], [solve_decodes] and [solve_reads] run through the body of
    a codec, one call at a time; the three databases hold what is known of
    the calls. *)
Create HintDb writes.
Create HintDb decodes.
Create HintDb reads.
#[export] Hint Resolve push_writes extend_writes writes_ret : writes.
#[export] Hint Resolve decodes_ret : decodes.
#[export] Hint Resolve reads_ret reads_throw : reads.

Ltac writes_step :=
  lazymatch goal with
  | |- writes _ (bind _ _) _ _ => eapply writes_bind; [|]
  | |- writes _ (ret _) _ _ => apply writes_ret
  | |- writes _ (map_errM _ _) _ _ => eapply writes_map_err
  | |- writes _ (encode _) _ _ =>
      first [ solve [eauto 2 with writes] | eapply encode_ok; solve [eauto] ]
  | |- writes _ _ _ _ => solve [eauto 3 with writes]
  end.
Ltac list_norm := rewrite <- ?app_assoc; cbn [app]; rewrite ?app_nil_r.
Ltac solve_writes :=
  unfold encodes; eapply writes_eq; [solve [repeat writes_step] | list_norm; try done | try zlia].

Ltac decodes_step :=
  lazymatch goal with
  | |- decodes (bind _ _) _ _ => eapply decodes_bind; [|]; cbv beta
  | |- decodes (ret _) _ _ => apply decodes_ret
  | |- decodes (lift _) _ _ => apply decodes_lift
  | |- decodes read _ _ => first [ solve [eauto 3 with decodes] | eapply read_ok; solve [eauto] ]
  | |- decodes _ _ _ => solve [eauto 3 with decodes]
  end.
Ltac solve_decodes := eapply decodes_eq; [repeat decodes_step | list_norm; try done | try done].

(** For the codec of a record: the bytes of the fields say which field each
    [read] returns. *)
Ltac decode_fields :=
  repeat match goal with
  | |- decodes (bind _ _) (_ ++ _) _ => eapply decodes_bind; [eapply read_ok; eassumption|cbv beta]
  | |- decodes (bind _ _) ?b _ =>
      rewrite <- (app_nil_r b); eapply decodes_bind; [eapply read_ok; eassumption|cbv beta]
  end;
  match goal with |- decodes (ret ?x) [] ?y => replace y with x; [apply decodes_ret|] end.

Ltac reads_step :=
  lazymatch goal with
  | |- reads (bind _ _) _ => eapply reads_bind; [|intros ? ?]; cbv beta in *
  | |- reads (if _ then _ else _) _ => apply reads_if; intros ?
  | |- reads (ret _) _ => apply reads_ret
  | |- reads (throw _) _ => apply reads_throw
  | |- reads read _ => first [ solve [eauto 2 with reads] | solve [eapply read_safe] ]
  | |- reads _ _ => solve [eauto 3 with reads]
  end.
Ltac solve_reads := repeat reads_step.

(** ** Integers meet the contract *)
Ltac split_bytes :=
  repeat match goal with
  | H : length _ = S _ |- _ =>
      let x := fresh "b" in apply length_S_inv in H as (x & ? & -> & H)
  | H : length ?l = O |- _ => apply nil_length_inv in H as ->
  | H : bytes_wf (_ :: _) |- _ => apply bytes_wf_cons in H as [? H]
  end.

(** Evaluates indexing at concrete positions. *)
Ltac nth_eval :=
  cbv [znth zset Z.leb Z.ltb Z.compare Pos.compare Pos.compare_cont Z.to_nat Pos.to_nat
       Pos.iter_op Nat.add lookup list_lookup].

Ltac solve_le_decode :=
  let Hl := fresh in let Hw := fresh in
  intros Hl Hw; split_bytes; unfold byte in *; nth_eval; cbn [obind or_panic le_combine];
  repeat match goal with
    | |- context [Z.lor ?a (Z.shiftl ?b ?n)] =>
        lazymatch a with
        | context [Z.lor _ _] => fail
        | _ => rewrite (lor_shiftl_add a b n) by (unfold in_width; lia)
        end
    end;
  f_equal; lia.

Lemma decode_u8_spec b : length b = 1%nat → bytes_wf b → decode_u8 b = Ok (le_combine b).
Proof. unfold decode_u8. solve_le_decode. Qed.
Lemma decode_u16_spec b : length b = 2%nat → bytes_wf b → decode_u16 b = Ok (le_combine b).
Proof. unfold decode_u16. solve_le_decode. Qed.
Lemma decode_u24_spec b : length b = 3%nat → bytes_wf b → decode_u24 b = Ok (le_combine b).
Proof. unfold decode_u24. solve_le_decode. Qed.
Lemma decode_u32_spec b : length b = 4%nat → bytes_wf b → decode_u32 b = Ok (le_combine b).
Proof. unfold decode_u32. solve_le_decode. Qed.
Lemma decode_u64_spec b : length b = 8%nat → bytes_wf b → decode_u64 b = Ok (le_combine b).
Proof. unfold decode_u64. solve_le_decode. Qed.

(** The common shape of the integer readers. *)
Definition read_le (n : Z) (dec : list Z → outcome unit Z) : M Reader unit Z :=
  let* b := Reader.take n in lift (dec b).

Section ReadLe.
Context (n : nat) (dec : list Z → outcome unit Z).
Hypothesis dec_spec : ∀ b, length b = n → bytes_wf b → dec b = Ok (le_combine b).

Lemma read_le_decodes v :
  in_width (8 * Z.of_nat n) v → decodes (read_le (Z.of_nat n) dec) (le_bytes n v) v.
Proof using dec_spec.
  intros Hv. unfold read_le. rewrite <- (app_nil_r (le_bytes n v)).
  eapply decodes_bind.
  - apply decodes_take. by rewrite len_le_bytes.
  - apply decodes_lift. rewrite dec_spec; auto with wfb.
    + by rewrite le_combine_bytes.
    + pose proof (len_le_bytes n v) as H. unfold len in H. lia.
Qed.

Lemma read_le_reads : reads (read_le (Z.of_nat n) dec) (in_width (8 * Z.of_nat n)).
Proof using dec_spec.
  unfold read_le. eapply reads_bind; [apply reads_take; lia|].
  intros b [Hl Hb]. assert (length b = n) by (unfold len in Hl; lia).
  apply reads_lift; rewrite dec_spec by done; [done|].
  intros a [= <-]. rewrite <- Hl. by apply le_combine_bound.
Qed.
End ReadLe.

(** The bytes [v as u8], [(v >> 8) as u8], ... are the little-endian bytes. *)
Lemma le_bytes_shiftr n v k :
  0 ≤ k → le_bytes (S n) (Z.shiftr v k) = wrap 8 (Z.shiftr v k) :: le_bytes n (Z.shiftr v (k + 8)).
Proof. intros. by rewrite shiftr_byte. Qed.

Ltac le_unfold v :=
  change v with (Z.shiftr v 0);
  rewrite !le_bytes_shiftr by lia; reflexivity.

Lemma put_u16_le v : put_u16 v [0; 0] = Some (le_bytes 2 v).
Proof. le_unfold v. Qed.
Lemma put_u64_le v : put_u64 v (zeros 8) = Some (le_bytes 8 v).
Proof. le_unfold v. Qed.
Lemma pushes_u24_le v : [wrap 8 v; wrap 8 (Z.shiftr v 8); wrap 8 (Z.shiftr v 16)] = le_bytes 3 v.
Proof. le_unfold v. Qed.
Lemma pushes_u32_le v :
  [wrap 8 v; wrap 8 (Z.shiftr v 8); wrap 8 (Z.shiftr v 16); wrap 8 (Z.shiftr v 24)] = le_bytes 4 v.
Proof. le_unfold v. Qed.

#[export] Program Instance codec_ok_u8 : CodecOk u8 :=
  {| wf v := in_width 8 v; bytes v := [v : Z] |}.
Next Obligation. intros a Ha. constructor; [exact Ha|constructor]. Qed.
Next Obligation. intros a Ha. cbn. solve_writes. Qed.
Next Obligation.
  intros a Ha. cbn. eapply decodes_eq; [apply (read_le_decodes 1 decode_u8 decode_u8_spec a Ha)| |done].
  cbn. rewrite Z.mod_small; [done|]. unfold in_width in Ha. lia.
Qed.
Next Obligation. apply (read_le_reads 1 decode_u8 decode_u8_spec). Qed.

#[export] Program Instance codec_ok_u16 : CodecOk u16 :=
  {| wf v := in_width 16 v; bytes v := le_bytes 2 v |}.
Next Obligation. intros. apply bytes_wf_le_bytes. Qed.
Next Obligation. intros a Ha. unfold encode, codec_u16. rewrite put_u16_le. solve_writes. Qed.
Next Obligation. intros a Ha. apply (read_le_decodes 2 decode_u16 decode_u16_spec a Ha). Qed.
Next Obligation. apply (read_le_reads 2 decode_u16 decode_u16_spec). Qed.

#[export] Program Instance codec_ok_u24 : CodecOk u24 :=
  {| wf v := in_width 24 v; bytes v := le_bytes 3 v |}.
Next Obligation. intros. apply bytes_wf_le_bytes. Qed.
Next Obligation. intros a Ha. cbn -[le_bytes]. rewrite <- pushes_u24_le. solve_writes. Qed.
Next Obligation. intros a Ha. apply (read_le_decodes 3 decode_u24 decode_u24_spec a Ha). Qed.
Next Obligation. apply (read_le_reads 3 decode_u24 decode_u24_spec). Qed.

#[export] Program Instance codec_ok_u32 : CodecOk u32 :=
  {| wf v := in_width 32 v; bytes v := le_bytes 4 v |}.
Next Obligation. intros. apply bytes_wf_le_bytes. Qed.
Next Obligation. intros a Ha. cbn -[le_bytes]. rewrite <- pushes_u32_le. solve_writes. Qed.
Next Obligation. intros a Ha. apply (read_le_decodes 4 decode_u32 decode_u32_spec a Ha). Qed.
Next Obligation. apply (read_le_reads 4 decode_u32 decode_u32_spec). Qed.

#[export] Program Instance codec_ok_u64 : CodecOk u64 :=
  {| wf v := in_width 64 v; bytes v := le_bytes 8 v |}.
Next Obligation. intros. apply bytes_wf_le_bytes. Qed.
Next Obligation. intros a Ha. unfold encode, codec_u64. rewrite put_u64_le. solve_writes. Qed.
Next Obligation. intros a Ha. apply (read_le_decodes 8 decode_u64 decode_u64_spec a Ha). Qed.
Next Obligation. apply (read_le_reads 8 decode_u64 decode_u64_spec). Qed.

Lemma copy_whole (l b : list Z) n : len l = n → len b = n → copy_from_slice l 0 n b = Some b.
Proof.
  intros. pose proof (len_nonneg b). rewrite copy_from_slice_spec by lia.
  unfold splice. rewrite ztake_0, zdrop_all, app_nil_r by lia. done.
Qed.

#[export] Program Instance codec_ok_u128 : CodecOk u128 :=
  {| wf v := in_width 128 v; bytes v := le_bytes 16 v |}.
Next Obligation. intros. apply bytes_wf_le_bytes. Qed.
Next Obligation. intros a Ha. unfold encode, codec_u128. solve_writes. Qed.
Next Obligation.
  intros a Ha. unfold read, codec_u128. eapply decodes_eq.
  - repeat decodes_step; [by apply (decodes_take 16 (le_bytes 16 a))|].
    rewrite copy_whole; [done|done|by rewrite len_le_bytes].
  - list_norm. done.
  - by apply (le_combine_bytes 16).
Qed.
Next Obligation.
  unfold read, codec_u128. eapply reads_bind; [apply reads_take; lia|].
  intros b [Hl Hb]. rewrite copy_whole by done.
  apply reads_ret. change 128 with (8 * 16). rewrite <- Hl. by apply le_combine_bound.
Qed.

(** The same facts in the form the automation uses: the bytes and the sizes
    spelled out, and no side condition to encode. *)
Lemma writes_u8 (v : u8) : writes EncodeErr_ (encode v) [v : Z] 1.
Proof. cbn. solve_writes. Qed.
Lemma writes_u16 (v : u16) : writes EncodeErr_ (encode v) (le_bytes 2 v) 2.
Proof. unfold encode, codec_u16. rewrite put_u16_le. solve_writes. Qed.
Lemma writes_u24 (v : u24) : writes EncodeErr_ (encode v) (le_bytes 3 v) 3.
Proof. cbn -[le_bytes]. rewrite <- pushes_u24_le. solve_writes. Qed.
Lemma writes_u32 (v : u32) : writes EncodeErr_ (encode v) (le_bytes 4 v) 4.
Proof. cbn -[le_bytes]. rewrite <- pushes_u32_le. solve_writes. Qed.
Lemma writes_u64 (v : u64) : writes EncodeErr_ (encode v) (le_bytes 8 v) 8.
Proof. unfold encode, codec_u64. rewrite put_u64_le. solve_writes. Qed.
Lemma decodes_u8 (v : u8) : in_width 8 v → decodes (read (A:=u8)) [v : Z] v.
Proof. exact (read_ok (A:=u8) v). Qed.
Lemma decodes_u16 (v : u16) : in_width 16 v → decodes (read (A:=u16)) (le_bytes 2 v) v.
Proof. exact (read_ok (A:=u16) v). Qed.
Lemma decodes_u24 (v : u24) : in_width 24 v → decodes (read (A:=u24)) (le_bytes 3 v) v.
Proof. exact (read_ok (A:=u24) v). Qed.
Lemma decodes_u32 (v : u32) : in_width 32 v → decodes (read (A:=u32)) (le_bytes 4 v) v.
Proof. exact (read_ok (A:=u32) v). Qed.
Lemma decodes_u64 (v : u64) : in_width 64 v → decodes (read (A:=u64)) (le_bytes 8 v) v.
Proof. exact (read_ok (A:=u64) v). Qed.
Lemma reads_u8 : reads (read (A:=u8)) (in_width 8).
Proof. exact (read_safe (A:=u8)). Qed.
Lemma reads_u16 : reads (read (A:=u16)) (in_width 16).
Proof. exact (read_safe (A:=u16)). Qed.
Lemma reads_u24 : reads (read (A:=u24)) (in_width 24).
Proof. exact (read_safe (A:=u24)). Qed.
Lemma reads_u32 : reads (read (A:=u32)) (in_width 32).
Proof. exact (read_safe (A:=u32)). Qed.
Lemma reads_u64 : reads (read (A:=u64)) (in_width 64).
Proof. exact (read_safe (A:=u64)). Qed.
#[export] Hint Resolve writes_u8 writes_u16 writes_u24 writes_u32 writes_u64 : writes.
#[export] Hint Resolve decodes_u8 decodes_u16 decodes_u24 decodes_u32 decodes_u64 : decodes.
#[export] Hint Resolve reads_u8 reads_u16 reads_u24 reads_u32 reads_u64 : reads.
Lemma len_bytes_u8 (v : u8) : len (bytes v) = 1.
Proof. done. Qed.
Lemma len_bytes_u16 (v : u16) : len (bytes v) = 2.
Proof. apply len_le_bytes. Qed.
Lemma len_bytes_u32 (v : u32) : len (bytes v) = 4.
Proof. apply len_le_bytes. Qed.
Lemma len_bytes_u64 (v : u64) : len (bytes v) = 8.
Proof. apply len_le_bytes. Qed.
#[export] Hint Rewrite len_bytes_u8 len_bytes_u16 len_bytes_u32 len_bytes_u64 : zlen.
#[export] Hint Extern 5 (in_width _ _) => unfold in_width in *; lia : decodes.

(** ** [Option], sequences and enumerations meet the contract *)
#[export] Program Instance codec_ok_option {A} `{CodecOk A} : CodecOk (option A) :=
  {| wf o := ∀ a, o = Some a → wf a;
     bytes o := match o with Some a => 1 :: bytes a | None => [0] end |}.
Next Obligation.
  intros A ?? [a|] Ho; repeat constructor; try lia. by apply bytes_ok, Ho.
Qed.
Next Obligation.
  intros A ?? [a|] Ho; unfold encode at 1, codec_option; [|apply writes_u8].
  solve_writes.
Qed.
Next Obligation.
  intros A ?? [a|] Ho; unfold read at 1, codec_option.
  - change (1 :: bytes a) with ([1] ++ bytes a). eapply decodes_bind; [apply (decodes_u8 1); done|].
    by apply decodes_attempt, read_ok, Ho.
  - change [0] with ([0] ++ []). eapply decodes_bind; [apply (decodes_u8 0); done|].
    apply decodes_ret.
Qed.
Next Obligation.
  intros. unfold read at 1, codec_option. solve_reads.
  - by apply reads_attempt, read_safe.
  - done.
Qed.

Section Seq.
Context {A : Type} `{CodecOk A}.

Definition seq_bytes (l : list A) : list Z := concat (bytes <$> l).

Lemma writes_each l : Forall wf l → writes EncodeErr_ (encode_each l) (seq_bytes l) tt.
Proof.
  induction 1 as [|a l Ha Hl IH]; cbn.
  - apply writes_ret.
  - eapply writes_bind; [by apply encode_ok|done].
Qed.

Lemma encode_all_ok l : Forall wf l → encodes EncodeErr_ (encode_all l) (seq_bytes l).
Proof. intros. by apply writes_count, writes_each. Qed.

Lemma decodes_vec l : Forall wf l → decodes (read_vec (length l)) (seq_bytes l) l.
Proof.
  induction 1 as [|a l Ha Hl IH]; cbn; [apply decodes_ret|].
  eapply decodes_bind; [by apply read_ok|].
  rewrite <- (app_nil_r (concat _)). eapply decodes_bind; [done|]. apply decodes_ret.
Qed.

Lemma reads_vec n : reads (read_vec n) (λ l : list A, length l = n ∧ Forall wf l).
Proof.
  induction n as [|n IH]; cbn; [by apply reads_ret|].
  eapply reads_bind; [apply read_safe|]. intros a Ha.
  eapply reads_bind; [done|]. intros l [Hl Hw]. apply reads_ret. cbn. auto.
Qed.

Lemma read_into_vec (target : list A) : read_into target = read_vec (length target).
Proof. induction target as [|t ts IH]; [done|]. cbn. by rewrite IH. Qed.

Lemma decodes_array dflt N l :
  length l = N → Forall wf l → decodes (read_array dflt N) (seq_bytes l) l.
Proof.
  intros <- ?. unfold read_array. rewrite read_into_vec, length_replicate. by apply decodes_vec.
Qed.
Lemma reads_array dflt N :
  reads (read_array dflt N) (λ l : list A, length l = N ∧ Forall wf l).
Proof. unfold read_array. rewrite read_into_vec, length_replicate. apply reads_vec. Qed.

End Seq.

Lemma seq_bytes_u8 (l : list u8) : seq_bytes l = (l : list Z).
Proof. unfold seq_bytes. induction l as [|b l IH]; [done|]. cbn. by f_equal. Qed.

(** *** Byte buffers

    The loops [for d in data.iter().take(n) { d.encode(..)? }] and
    [for d in data.iter_mut().take(n) { *d = u8::read(r)? }] of the structure
    codecs. *)
Definition encode_prefix (n : Z) (data : list Z) : M Writer EncodeErr usize :=
  encode_sum (A:=u8) (ztake n data).
Fixpoint read_prefix_loop (n : nat) (data : list Z) : M Reader unit (list Z) :=
  match n, data with
  | S n, _ :: data =>
      let* d := read (A:=u8) in
      let* ds := read_prefix_loop n data in
      ret ((d : Z) :: ds)
  | _, data => ret data
  end.
Definition read_prefix (n : Z) (data : list Z) : M Reader unit (list Z) :=
  read_prefix_loop (Z.to_nat n) data.

Lemma writes_bytes (l : list u8) : writes EncodeErr_ (encode_each l) (l : list Z) tt.
Proof.
  induction l as [|b l IH]; [apply writes_ret|]. cbn [encode_each].
  change (b :: l : list Z) with ([b : Z] ++ l). eapply writes_bind; [apply writes_u8|done].
Qed.
Lemma writes_sum (l : list u8) : writes EncodeErr_ (encode_sum l) (l : list Z) (len (l : list Z)).
Proof.
  induction l as [|b l IH]; [apply writes_ret|]. cbn [encode_sum].
  change (b :: l : list Z) with ([b : Z] ++ l). eapply writes_eq.
  - eapply writes_bind; [apply writes_u8|]. eapply writes_bind; [apply IH|]. apply writes_ret.
  - by list_norm.
  - zlia.
Qed.
Lemma writes_prefix n data :
  writes EncodeErr_ (encode_prefix n data) (ztake n data) (len (ztake n data)).
Proof. apply writes_sum. Qed.

Lemma decodes_prefix_loop bs data :
  bytes_wf bs → (length bs ≤ length data)%nat →
  decodes (read_prefix_loop (length bs) data) bs (bs ++ drop (length bs) data).
Proof.
  intros Hb. revert data. induction Hb as [|b bs Hb Hbs IH]; intros data Hl.
  - destruct data; apply decodes_ret.
  - destruct data as [|d data]; cbn in Hl; [lia|]. cbn [read_prefix_loop length drop].
    change (b :: bs) with ([b] ++ bs). eapply decodes_bind; [by apply (decodes_u8 b)|].
    rewrite <- (app_nil_r bs) at 2. eapply decodes_bind; [apply IH; lia|]. apply decodes_ret.
Qed.
Lemma decodes_prefix n bs data :
  bytes_wf bs → n = len bs → len bs ≤ len data →
  decodes (read_prefix n data) bs (bs ++ zdrop n data).
Proof.
  intros Hb -> Hl. unfold read_prefix, zdrop, len in *. rewrite Nat2Z.id.
  apply decodes_prefix_loop; [done|lia].
Qed.

Lemma reads_prefix n data :
  bytes_wf data → reads (read_prefix n data) (λ l, len l = len data ∧ bytes_wf l).
Proof.
  unfold read_prefix. intros Hd. revert data Hd.
  induction (Z.to_nat n) as [|m IH]; intros data Hd; [destruct data; by apply reads_ret|].
  destruct data as [|d data]; [by apply reads_ret|]. apply bytes_wf_cons in Hd as [_ Hd].
  cbn [read_prefix_loop]. eapply reads_bind; [apply reads_u8|]. intros b Hb.
  eapply reads_bind; [by apply IH|]. intros l [Hl Hw]. apply reads_ret.
  rewrite !len_cons, Hl. split; [done|]. by apply bytes_wf_cons.
Qed.
(** Filling the front of a zeroed buffer. *)
Lemma reads_prefix_loop m z :
  reads (read_prefix_loop m (replicate m 0 ++ z))
        (λ l, ∃ bs, l = bs ++ z ∧ length bs = m ∧ bytes_wf bs).
Proof.
  induction m as [|m IH].
  - destruct z; (apply reads_ret; exists []; split_and!; [done|done|constructor]).
  - cbn [replicate app read_prefix_loop]. eapply reads_bind; [apply reads_u8|]. intros b Hb.
    eapply reads_bind; [apply IH|]. intros l (bs & -> & Hl & Hw). apply reads_ret.
    exists ((b : Z) :: bs). cbn. rewrite Hl. split_and!; [done..|]. by apply bytes_wf_cons.
Qed.
Lemma reads_prefix_zeros n c :
  0 ≤ n ≤ c →
  reads (read_prefix n (zeros c)) (λ l, ∃ bs, l = bs ++ zeros (c - n) ∧ len bs = n ∧ bytes_wf bs).
Proof.
  intros Hn. unfold read_prefix, zeros.
  replace (Z.to_nat c) with (Z.to_nat n + Z.to_nat (c - n))%nat by lia. rewrite replicate_add.
  eapply reads_weaken; [apply reads_prefix_loop|]. intros l (bs & -> & Hl & Hw).
  exists bs. unfold len. split_and!; [done|lia|done].
Qed.
#[export] Hint Resolve writes_bytes writes_sum writes_prefix : writes.
#[export] Hint Resolve reads_prefix : reads.

(** *** Enumerations *)
Class EnumOk (A : Type) `{EnumBuilder A} (w : Z) := {
  get_of_int : ∀ x, in_width w x → get_int (of_int x) = x;
}.

(** For the enumerations of [enum_builder!]. *)
Ltac solve_enum :=
  split; intros x Hx; cbn;
  repeat match goal with |- context [x =? ?n] => destruct (Z.eqb_spec x n); [by subst|] end; done.

Section Enum.
Context {A : Type} `{EB : EnumBuilder A}.

(** A value of the type that [read] can return: [Unknown] does not hold the
    value of a named constructor. *)
Definition canonical (w : Z) (a : A) : Prop :=
  of_int (get_int a) = a ∧ in_width w (get_int a).

Lemma of_int_canonical w `{!EnumOk A w} x : in_width w x → canonical w (of_int x).
Proof. intros Hx. unfold canonical. by rewrite (get_of_int x Hx). Qed.

Program Definition enum_u8_ok `{!EnumOk A 8} : @CodecOk A enum_u8 :=
  {| wf := canonical 8; bytes a := [get_int a] |}.
Next Obligation. intros ? a [_ Ha]. constructor; [exact Ha|constructor]. Qed.
Next Obligation. intros ? a Ha. apply writes_u8. Qed.
Next Obligation.
  intros ? a [Ha Hw]. unfold read, enum_u8, enum_read. solve_decodes.
Qed.
Next Obligation.
  intros. unfold read, enum_u8, enum_read. solve_reads. by apply of_int_canonical.
Qed.

Program Definition enum_u16_ok `{!EnumOk A 16} : @CodecOk A enum_u16 :=
  {| wf := canonical 16; bytes a := le_bytes 2 (get_int a) |}.
Next Obligation. intros ? a [_ Ha]. apply bytes_wf_le_bytes. Qed.
Next Obligation. intros ? a Ha. apply writes_u16. Qed.
Next Obligation. intros ? a [Ha Hw]. unfold read, enum_u16, enum_read. solve_decodes. Qed.
Next Obligation.
  intros. unfold read, enum_u16, enum_read. solve_reads. by apply of_int_canonical.
Qed.

End Enum.

Lemma reader_init_wf buf : bytes_wf buf → reader_wf (Reader.init buf).
Proof. intros. split; [cbn; zlia|done]. Qed.

(** Steps over a call that fits into the writer. *)
Lemma bind_writes {E A B} (e : E) (m : M Writer E A) (k : A → M Writer E B) bs a w :
  writes e m bs a → writer_wf w → len bs ≤ Writer.left w → bind m k w = k a (put w bs).
Proof. intros Hm Hw Hl. unfold bind. by rewrite (proj1 (Hm w Hw)). Qed.

(** ** Exact parsers

    [parses e m R]: on any input [m] fails with [e] or consumes some bytes
    [bs] and returns an [a] with [R a bs]; so the bytes an input must start
    with can be read off what was returned. *)
Definition parses {E A} (e : E) (m : M Reader E A) (R : A → list Z → Prop) : Prop :=
  ∀ r, reader_wf r →
    match m r with
    | (Ok a, r') => ∃ bs tail, R a bs ∧ zdrop (r_offs r) (r_buf r) = bs ++ tail ∧
                               r' = advance r (len bs)
    | (Err e', _) => e' = e
    | (Panic, _) => False
    end.

Section Parses.
Context {E : Type} (e : E).

Lemma parses_ret {A} (a : A) (R : A → list Z → Prop) : R a [] → parses e (ret a) R.
Proof.
  intros HR r _. exists [], (zdrop (r_offs r) (r_buf r)). split_and!; [done..|].
  unfold advance. rewrite len_nil, Z.add_0_r. by destruct r.
Qed.

Lemma parses_throw {A} (R : A → list Z → Prop) : parses e (throw e) R.
Proof. by intros r _. Qed.

Lemma parses_bind {A B} (m : M Reader E A) (k : A → M Reader E B) R1 R2 :
  parses e m R1 → (∀ a b1, R1 a b1 → parses e (k a) (λ c b2, R2 c (b1 ++ b2))) →
  parses e (bind m k) R2.
Proof.
  intros H1 H2 r Hr. specialize (H1 r Hr). unfold bind.
  destruct (m r) as [[a| |] r1]; [|done..]. destruct H1 as (b1 & t1 & HR1 & Heq & ->).
  destruct (advance_left_app _ _ _ Hr Heq) as [Hl Hd].
  specialize (H2 a b1 HR1 (advance r (len b1))).
  destruct (k a _) as [[c| |] r2]; [|apply H2; apply advance_wf; [done|zlia]..].
  destruct H2 as (b2 & t2 & HR2 & Heq2 & ->); [apply advance_wf; [done|zlia]|].
  exists (b1 ++ b2), t2. split; [done|]. cbn [r_buf advance] in Heq2. subst t1.
  split; [by rewrite Heq, Heq2, <- app_assoc|]. unfold advance. cbn. rewrite len_app. f_equal. lia.
Qed.

Lemma parses_map_err {F A} (f : F) (m : M Reader F A) R :
  parses f m R → parses e (map_errM (λ _, e) m) R.
Proof. intros H r Hr. specialize (H r Hr). unfold map_errM. by destruct (m r) as [[] ?]. Qed.

Lemma parses_lift {A} (o : outcome E A) (a : A) (R : A → list Z → Prop) :
  o = Ok a → R a [] → parses e (lift o) R.
Proof. intros ->. apply parses_ret. Qed.

Lemma parses_weaken {A} (m : M Reader E A) (R R' : A → list Z → Prop) :
  parses e m R → (∀ a bs, R a bs → R' a bs) → parses e m R'.
Proof.
  intros H HR r Hr. specialize (H r Hr). destruct (m r) as [[a| |] r1]; [|done..].
  destruct H as (bs & tail & ? & ? & ?). exists bs, tail. auto.
Qed.
End Parses.

Lemma parses_take n : 0 ≤ n → parses tt (Reader.take n) (λ b bs, b = bs ∧ len bs = n ∧ bytes_wf bs).
Proof.
  intros Hn r Hr. destruct Hr as [Ho Hb]. unfold Reader.take, Reader.left. btest; [done|].
  rewrite slice_spec by lia. set (b := ztake _ _).
  assert (len b = n) as Hl by (unfold b; rewrite len_ztake; [lia|]; rewrite len_zdrop; lia).
  exists b, (zdrop n (zdrop (r_offs r) (r_buf r))). unfold b in *. rewrite Z.add_simpl_l in *.
  split_and!; [done|done|auto with wfb|symmetry; apply ztake_zdrop|]. by rewrite Hl.
Qed.

Lemma parses_le n dec :
  (∀ b, length b = n → bytes_wf b → dec b = Ok (le_combine b)) →
  parses tt (read_le (Z.of_nat n) dec) (λ v bs, in_width (8 * Z.of_nat n) v ∧ bs = le_bytes n v).
Proof.
  intros Hdec. unfold read_le. eapply parses_bind; [apply parses_take; lia|].
  intros b bs (-> & Hl & Hw). assert (length bs = n) as Hn by (unfold len in Hl; lia).
  eapply parses_lift; [by apply Hdec|]. rewrite app_nil_r. split.
  - rewrite <- Hl. by apply le_combine_bound.
  - rewrite <- Hn. by rewrite le_bytes_combine.
Qed.

Lemma parses_u8 : parses tt (read (A:=u8)) (λ v bs, in_width 8 v ∧ bs = [v : Z]).
Proof.
  eapply parses_weaken; [exact (parses_le 1 decode_u8 decode_u8_spec)|].
  intros v bs [Hv ->]. split; [done|]. cbn [le_bytes]. by rewrite Z.mod_small.
Qed.
Lemma parses_u16 : parses tt (read (A:=u16)) (λ v bs, in_width 16 v ∧ bs = le_bytes 2 v).
Proof. exact (parses_le 2 decode_u16 decode_u16_spec). Qed.
Lemma parses_u32 : parses tt (read (A:=u32)) (λ v bs, in_width 32 v ∧ bs = le_bytes 4 v).
Proof. exact (parses_le 4 decode_u32 decode_u32_spec). Qed.

(** ** What a correct codec gives its users

    [codec_correct wf bytes]: a well-formed value that fits is written as
    [bytes] and read back; one that does not fit is refused inside the
    buffer; reading arbitrary bytes returns a well-formed value or fails. *)
Definition codec_correct {A} `{Codec A} (wf : A → Prop) (bytes : A → list Z) : Prop :=
  (∀ v buf, wf v → bytes_wf buf → len (bytes v) ≤ len buf →
     encode v (Writer.init buf)
       = (Ok (len (bytes v)), mkWriter (splice buf 0 (bytes v)) (len (bytes v))) ∧
     read (Reader.init (splice buf 0 (bytes v)))
       = (Ok v, mkReader (splice buf 0 (bytes v)) (len (bytes v)))) ∧
  (∀ v buf, wf v → len buf < len (bytes v) →
     ∃ w, encode v (Writer.init buf) = (Err EncodeErr_, w) ∧ len (w_buf w) = len buf) ∧
  (∀ buf, bytes_wf buf →
     let '(o, r) := read (Reader.init buf) in
     o ≠ Panic ∧ r_buf r = buf ∧ 0 ≤ r_offs r ≤ len buf ∧ ∀ v, o = Ok v → wf v).

Lemma codec_ok_correct {A} `{CodecOk A} : codec_correct (A:=A) wf bytes.
Proof.
  split_and!.
  - intros v buf Hv Hb Hl. pose proof (len_nonneg (bytes v)). split.
    + destruct (encode_ok v Hv (Writer.init buf)) as [He _]; [unfold writer_wf; cbn; lia|].
      rewrite He by (unfold Writer.left; cbn; lia). done.
    + assert (splice buf 0 (bytes v) = bytes v ++ zdrop (len (bytes v)) buf) as Hs
        by (unfold splice; by rewrite ztake_0).
      rewrite (read_ok v Hv _ (zdrop (len (bytes v)) buf)); [done| |by rewrite Hs].
      split; [cbn; zlia|]. apply bytes_wf_splice; [done|by apply bytes_ok].
  - intros v buf Hv Hl. pose proof (len_nonneg buf).
    destruct (encode_ok v Hv (Writer.init buf)) as [_ He]; [unfold writer_wf; cbn; lia|].
    destruct He as (bs & _ & Hbs & ->); [unfold Writer.left; cbn; lia|]. eexists. split; [done|].
    unfold Writer.left in Hbs. cbn in *. rewrite len_splice; zlia.
  - intros buf Hb. pose proof (len_nonneg buf).
    specialize (read_safe (A:=A) (Reader.init buf)). destruct (read (Reader.init buf)) as [o r].
    intros Hr. destruct Hr as (? & ? & ? & ?); [split; [cbn; lia|done]|]. cbn in *; split_and!; done || lia.
Qed.

(** ** Properties *)

(** The fixed-width integers are little-endian on the wire: each of them
    is written as its little-endian bytes and read back unchanged, refuses a
    buffer that is too short without writing outside it, and reading
    arbitrary bytes never panics and stays in range. *)
Theorem integers_codec_correct :
  codec_correct (A:=u8) (in_width 8) (λ v, [v : Z]) ∧
  codec_correct (A:=u16) (in_width 16) (le_bytes 2) ∧
  codec_correct (A:=u24) (in_width 24) (le_bytes 3) ∧
  codec_correct (A:=u32) (in_width 32) (le_bytes 4) ∧
  codec_correct (A:=u64) (in_width 64) (le_bytes 8) ∧
  codec_correct (A:=u128) (in_width 128) (le_bytes 16).
Proof.
  split_and!; [exact (codec_ok_correct (A:=u8))|exact (codec_ok_correct (A:=u16))
    |exact (codec_ok_correct (A:=u24))|exact (codec_ok_correct (A:=u32))
    |exact (codec_ok_correct (A:=u64))|exact (codec_ok_correct (A:=u128))].
Qed.
