(* ===== verification/Status.v ===== *)
(** * Status codes

    Models src/spdmlib/src/error.rs: the status value every fallible
    operation of the library returns, its 32-bit encoding and the named
    constants. *)

From S2P Require Import Prelude Codec.

Inductive StatusSeverity := SEVERITY_SUCCESS | SEVERITY_ERROR.

Inductive StatusCodeCore :=
| CORE_SUCCESS | INVALID_PARAMETER | UNSUPPORTED_CAP | INVALID_STATE_LOCAL
| INVALID_STATE_PEER | INVALID_MSG_FIELD | INVALID_MSG_SIZE | NEGOTIATION_FAIL
| BUSY_PEER | NOT_READY_PEER | ERROR_PEER | RESYNCH_PEER | BUFFER_FULL
| BUFFER_TOO_SMALL | SESSION_NUMBER_EXCEED | SESSION_MSG_ERROR | ACQUIRE_FAIL
| SESSION_TRY_DISCARD_KEY_UPDATE | DECODE_AEAD_FAIL.

Inductive StatusCodeCrypto :=
| CRYPTO_ERROR | VERIF_FAIL | SEQUENCE_NUMBER_OVERFLOW | VERIF_NO_AUTHORITY
| FIPS_SELF_TEST_FAIL.

Inductive StatusCodeCertParse := INVALID_CERT.

Inductive StatusCodeTransport :=
| SEND_FAIL | RECEIVE_FAIL | DECAP_FAIL | DECAP_APP_FAIL | ENCAP_FAIL | ENCAP_APP_FAIL.

Inductive StatusCodeMeasCollect := MEAS_INVALID_INDEX | MEAS_INTERNAL_ERROR.

Inductive StatusCodeRNG := LOW_ENTROPY.

Record StatusCodeVdmError := { vdm_error_code : u16 }.

Inductive StatusCode :=
| SUCCESS
| CORE (c : StatusCodeCore)
| CRYPTO (c : StatusCodeCrypto)
| CERT_PARSE (c : StatusCodeCertParse)
| TRANSPORT (t : StatusCodeTransport)
| MEAS_COLLECT (m : StatusCodeMeasCollect)
| RNG (r : StatusCodeRNG)
| VDM (v : StatusCodeVdmError).

#[export] Instance StatusSeverity_eq_dec : EqDecision StatusSeverity.
Proof. solve_decision. Defined.
#[export] Instance StatusCodeCore_eq_dec : EqDecision StatusCodeCore.
Proof. solve_decision. Defined.
#[export] Instance StatusCodeCrypto_eq_dec : EqDecision StatusCodeCrypto.
Proof. solve_decision. Defined.
#[export] Instance StatusCodeCertParse_eq_dec : EqDecision StatusCodeCertParse.
Proof. solve_decision. Defined.
#[export] Instance StatusCodeTransport_eq_dec : EqDecision StatusCodeTransport.
Proof. solve_decision. Defined.
#[export] Instance StatusCodeMeasCollect_eq_dec : EqDecision StatusCodeMeasCollect.
Proof. solve_decision. Defined.
#[export] Instance StatusCodeRNG_eq_dec : EqDecision StatusCodeRNG.
Proof. solve_decision. Defined.
#[export] Instance StatusCodeVdmError_eq_dec : EqDecision StatusCodeVdmError.
Proof. solve_decision. Defined.
#[export] Instance StatusCode_eq_dec : EqDecision StatusCode.
Proof. solve_decision. Defined.

(** The discriminants ([c as u8], [c as u16]). *)
Definition severity_u8 (s : StatusSeverity) : u8 :=
  match s with SEVERITY_SUCCESS => 0 | SEVERITY_ERROR => 8 end.
Definition core_u16 (c : StatusCodeCore) : u16 :=
  match c with
  | CORE_SUCCESS => 0 | INVALID_PARAMETER => 1 | UNSUPPORTED_CAP => 2
  | INVALID_STATE_LOCAL => 3 | INVALID_STATE_PEER => 4 | INVALID_MSG_FIELD => 5
  | INVALID_MSG_SIZE => 6 | NEGOTIATION_FAIL => 7 | BUSY_PEER => 8 | NOT_READY_PEER => 9
  | ERROR_PEER => 10 | RESYNCH_PEER => 11 | BUFFER_FULL => 12 | BUFFER_TOO_SMALL => 13
  | SESSION_NUMBER_EXCEED => 14 | SESSION_MSG_ERROR => 15 | ACQUIRE_FAIL => 16
  | SESSION_TRY_DISCARD_KEY_UPDATE => 17 | DECODE_AEAD_FAIL => 254
  end.
Definition crypto_u16 (c : StatusCodeCrypto) : u16 :=
  match c with
  | CRYPTO_ERROR => 0 | VERIF_FAIL => 1 | SEQUENCE_NUMBER_OVERFLOW => 2
  | VERIF_NO_AUTHORITY => 3 | FIPS_SELF_TEST_FAIL => 4
  end.
Definition cert_u16 (c : StatusCodeCertParse) : u16 := match c with INVALID_CERT => 0 end.
Definition transport_u16 (t : StatusCodeTransport) : u16 :=
  match t with
  | SEND_FAIL => 0 | RECEIVE_FAIL => 1 | DECAP_FAIL => 254 | DECAP_APP_FAIL => 253
  | ENCAP_FAIL => 252 | ENCAP_APP_FAIL => 251
  end.
Definition meas_u16 (m : StatusCodeMeasCollect) : u16 :=
  match m with MEAS_INVALID_INDEX => 0 | MEAS_INTERNAL_ERROR => 1 end.
Definition rng_u16 (r : StatusCodeRNG) : u16 := match r with LOW_ENTROPY => 0 end.

(** The [TryFrom] conversions. *)
Definition severity_try_from (v : u8) : option StatusSeverity :=
  match v with 0 => Some SEVERITY_SUCCESS | 8 => Some SEVERITY_ERROR | _ => None end.
Definition core_try_from (v : u16) : option StatusCodeCore :=
  match v with
  | 0 => Some CORE_SUCCESS | 1 => Some INVALID_PARAMETER | 2 => Some UNSUPPORTED_CAP
  | 3 => Some INVALID_STATE_LOCAL | 4 => Some INVALID_STATE_PEER
  | 5 => Some INVALID_MSG_FIELD | 6 => Some INVALID_MSG_SIZE | 7 => Some NEGOTIATION_FAIL
  | 8 => Some BUSY_PEER | 9 => Some NOT_READY_PEER | 10 => Some ERROR_PEER
  | 11 => Some RESYNCH_PEER | 12 => Some BUFFER_FULL | 13 => Some BUFFER_TOO_SMALL
  | 14 => Some SESSION_NUMBER_EXCEED | 15 => Some SESSION_MSG_ERROR
  | 16 => Some ACQUIRE_FAIL | 17 => Some SESSION_TRY_DISCARD_KEY_UPDATE
  | 254 => Some DECODE_AEAD_FAIL | _ => None
  end.
Definition crypto_try_from (v : u16) : option StatusCodeCrypto :=
  match v with
  | 0 => Some CRYPTO_ERROR | 1 => Some VERIF_FAIL | 2 => Some SEQUENCE_NUMBER_OVERFLOW
  | 3 => Some VERIF_NO_AUTHORITY | 4 => Some FIPS_SELF_TEST_FAIL | _ => None
  end.
Definition cert_try_from (v : u16) : option StatusCodeCertParse :=
  match v with 0 => Some INVALID_CERT | _ => None end.
Definition transport_try_from (v : u16) : option StatusCodeTransport :=
  match v with
  | 0 => Some SEND_FAIL | 1 => Some RECEIVE_FAIL | 254 => Some DECAP_FAIL
  | 253 => Some DECAP_APP_FAIL | 252 => Some ENCAP_FAIL | 251 => Some ENCAP_APP_FAIL
  | _ => None
  end.
Definition meas_try_from (v : u16) : option StatusCodeMeasCollect :=
  match v with 0 => Some MEAS_INVALID_INDEX | 1 => Some MEAS_INTERNAL_ERROR | _ => None end.
Definition rng_try_from (v : u16) : option StatusCodeRNG :=
  match v with 0 => Some LOW_ENTROPY | _ => None end.

Definition StatusCode_try_from (value : u24) : option StatusCode :=
  let source := Z.shiftr (Z.land value 0xFF0000) 16 in
  let code := Z.land value 0x00FFFF in
  match source with
  | 0 => Some SUCCESS
  | 1 => CORE <$> core_try_from code
  | 2 => CRYPTO <$> crypto_try_from code
  | 3 => CERT_PARSE <$> cert_try_from code
  | 4 => TRANSPORT <$> transport_try_from code
  | 5 => MEAS_COLLECT <$> meas_try_from code
  | 6 => RNG <$> rng_try_from code
  | 7 => Some (VDM {| vdm_error_code := code |})
  | _ => None
  end.

(** [TryInto<u24>]: every branch goes through the assertion of [u24::new]. *)
Definition StatusCode_try_into {E} (c : StatusCode) : outcome E u24 :=
  match c with
  | SUCCESS => u24_new 0
  | CORE c => u24_new (Z.shiftl 1 16 + core_u16 c)
  | CRYPTO c => u24_new (Z.shiftl 2 16 + crypto_u16 c)
  | CERT_PARSE c => u24_new (Z.shiftl 3 16 + cert_u16 c)
  | TRANSPORT t => u24_new (Z.shiftl 4 16 + transport_u16 t)
  | MEAS_COLLECT m => u24_new (Z.shiftl 5 16 + meas_u16 m)
  | RNG r => u24_new (Z.shiftl 6 16 + rng_u16 r)
  | VDM v => u24_new (Z.shiftl 7 16 + vdm_error_code v)
  end.

Definition SPDM_ERROR_MESSAGE_DATA_MAX_LENGTH : usize := 36.
Record SpdmErrorMessageData := { ed_length : usize; ed_data : list Z }.
Definition SpdmErrorMessageData_default : SpdmErrorMessageData :=
  {| ed_length := 0; ed_data := zeros SPDM_ERROR_MESSAGE_DATA_MAX_LENGTH |}.

Record SpdmStatus := mkStatus {
  severity : StatusSeverity;
  status_code : StatusCode;
  error_data : option SpdmErrorMessageData;
}.

(** [PartialEq]: the attached data is not compared. *)
Definition status_eqb (a b : SpdmStatus) : bool :=
  bool_decide (severity a = severity b) && bool_decide (status_code a = status_code b).

Definition status_word (s : SpdmStatus) : outcome EncodeErr u32 :=
  let! code := StatusCode_try_into (status_code s) in
  let! sc := add_checked 32 0 (Z.shiftl (Z.land (severity_u8 (severity s)) 0x0F) 28) in
  add_checked 32 sc code.

#[export] Instance codec_SpdmStatus : Codec SpdmStatus :=
  {| encode s :=
       let* sc := lift (status_word s) in
       let* _ := encode (sc : u32) in
       ret 4;
     read :=
       let* sc := (read : M Reader unit u32) in
       let sev := Z.shiftr (Z.land sc 0xF0000000) 28 in
       let* sev := lift (ok_or (severity_try_from sev) tt) in
       if negb (Z.land sc 0x0F000000 =? 0) then throw tt else
       let* code := lift (u24_new (Z.land sc 0x00FFFFFF)) in
       let* code := lift (ok_or (StatusCode_try_from code) tt) in
       ret (mkStatus sev code None) |}.

Definition spdm_status_is_success (s : SpdmStatus) : bool :=
  bool_decide (severity s = SEVERITY_SUCCESS).
Definition spdm_status_is_error (s : SpdmStatus) : bool :=
  bool_decide (severity s = SEVERITY_ERROR).
(** [get_u32] ignores the result of [encode] on its own four bytes. *)
Definition get_u32 (s : SpdmStatus) : u32 :=
  le_combine (w_buf (snd (encode s (Writer.init (zeros 4))))).
Definition from_u32 (v : u32) : outcome unit SpdmStatus := read_bytes (le_bytes 4 v).
Definition spdm_status_set_error_data (s : SpdmStatus) (d : list Z) : outcome unit SpdmStatus :=
  if len d <=? SPDM_ERROR_MESSAGE_DATA_MAX_LENGTH then
    let! data := or_panic (copy_from_slice (ed_data SpdmErrorMessageData_default) 0 (len d) d) in
    Ok (mkStatus (severity s) (status_code s) (Some {| ed_length := len d; ed_data := data |}))
  else Ok (mkStatus (severity s) (status_code s) None).

(** *** The named constants *)
Definition error_status (c : StatusCode) : SpdmStatus := mkStatus SEVERITY_ERROR c None.
Definition SPDM_STATUS_SUCCESS := mkStatus SEVERITY_SUCCESS SUCCESS None.
Definition SPDM_STATUS_INVALID_PARAMETER := error_status (CORE INVALID_STATE_LOCAL).
Definition SPDM_STATUS_UNSUPPORTED_CAP := error_status (CORE UNSUPPORTED_CAP).
Definition SPDM_STATUS_INVALID_STATE_LOCAL := error_status (CORE INVALID_STATE_LOCAL).
Definition SPDM_STATUS_INVALID_STATE_PEER := error_status (CORE INVALID_STATE_PEER).
Definition SPDM_STATUS_INVALID_MSG_FIELD := error_status (CORE INVALID_MSG_FIELD).
Definition SPDM_STATUS_INVALID_MSG_SIZE := error_status (CORE INVALID_MSG_SIZE).
Definition SPDM_STATUS_NEGOTIATION_FAIL := error_status (CORE NEGOTIATION_FAIL).
Definition SPDM_STATUS_BUSY_PEER := error_status (CORE BUSY_PEER).
Definition SPDM_STATUS_NOT_READY_PEER := error_status (CORE NOT_READY_PEER).
Definition SPDM_STATUS_ERROR_PEER := error_status (CORE ERROR_PEER).
Definition SPDM_STATUS_RESYNCH_PEER := error_status (CORE RESYNCH_PEER).
Definition SPDM_STATUS_BUFFER_FULL := error_status (CORE BUFFER_FULL).
Definition SPDM_STATUS_BUFFER_TOO_SMALL := error_status (CORE BUFFER_TOO_SMALL).
Definition SPDM_STATUS_SESSION_NUMBER_EXCEED := error_status (CORE SESSION_NUMBER_EXCEED).
Definition SPDM_STATUS_SESSION_MSG_ERROR := error_status (CORE SESSION_MSG_ERROR).
Definition SPDM_STATUS_SESSION_TRY_DISCARD_KEY_UPDATE :=
  error_status (CORE SESSION_TRY_DISCARD_KEY_UPDATE).
Definition SPDM_STATUS_DECODE_AEAD_FAIL := error_status (CORE DECODE_AEAD_FAIL).
Definition SPDM_STATUS_CRYPTO_ERROR := error_status (CRYPTO CRYPTO_ERROR).
Definition SPDM_STATUS_VERIF_FAIL := error_status (CRYPTO VERIF_FAIL).
Definition SPDM_STATUS_SEQUENCE_NUMBER_OVERFLOW := error_status (CRYPTO SEQUENCE_NUMBER_OVERFLOW).
Definition SPDM_STATUS_INVALID_CERT := error_status (CERT_PARSE INVALID_CERT).
Definition SPDM_STATUS_SEND_FAIL := error_status (TRANSPORT SEND_FAIL).
Definition SPDM_STATUS_RECEIVE_FAIL := error_status (TRANSPORT RECEIVE_FAIL).
Definition SPDM_STATUS_DECAP_FAIL := error_status (TRANSPORT DECAP_FAIL).
Definition SPDM_STATUS_DECAP_APP_FAIL := error_status (TRANSPORT DECAP_APP_FAIL).
Definition SPDM_STATUS_ENCAP_FAIL := error_status (TRANSPORT ENCAP_FAIL).
Definition SPDM_STATUS_ENCAP_APP_FAIL := error_status (TRANSPORT ENCAP_APP_FAIL).

Abbreviation SpdmResult A := (outcome SpdmStatus A).

(** ** The encoding is faithful *)
Definition status_wf (s : SpdmStatus) : Prop :=
  error_data s = None ∧
  match status_code s with VDM v => in_width 16 (vdm_error_code v) | _ => True end.

(** The 32-bit value of a status. *)
Definition status_code_value (c : StatusCode) : Z :=
  match c with
  | SUCCESS => 0
  | CORE c => 0x10000 + core_u16 c
  | CRYPTO c => 0x20000 + crypto_u16 c
  | CERT_PARSE c => 0x30000 + cert_u16 c
  | TRANSPORT c => 0x40000 + transport_u16 c
  | MEAS_COLLECT c => 0x50000 + meas_u16 c
  | RNG c => 0x60000 + rng_u16 c
  | VDM v => 0x70000 + vdm_error_code v
  end.
Definition status_value (s : SpdmStatus) : Z :=
  severity_u8 (severity s) * 2 ^ 28 + status_code_value (status_code s).

Lemma status_code_value_bound s :
  status_wf s → 0 ≤ status_code_value (status_code s) < 2 ^ 20.
Proof.
  intros [_ H]. destruct (status_code s) as [|c|c|c|c|c|c|v]; cbn; try (destruct c; cbn; lia); try lia.
  unfold in_width in H. lia.
Qed.

Lemma u24_new_ok {E} v : in_width 24 v → u24_new (E:=E) v = Ok v.
Proof.
  intros [? ?]. unfold u24_new. rewrite Z.shiftr_div_pow2, Z.div_small by lia. done.
Qed.

Lemma status_word_value s : status_wf s → status_word s = Ok (status_value s).
Proof.
  intros Hs. pose proof (status_code_value_bound s Hs) as Hb. unfold status_word.
  assert (StatusCode_try_into (E:=EncodeErr) (status_code s) = Ok (status_code_value (status_code s))) as ->.
  { rewrite <- u24_new_ok by (unfold in_width; lia). destruct (status_code s); done. }
  cbn [obind]. unfold add_checked, status_value.
  assert (0 + Z.shiftl (Z.land (severity_u8 (severity s)) 15) 28
          = severity_u8 (severity s) * 2 ^ 28) as -> by by destruct (severity s).
  assert (0 ≤ severity_u8 (severity s) ≤ 8) by (destruct (severity s); cbn; lia).
  rewrite (proj2 (Z.ltb_lt _ _)) by lia. cbn [obind].
  by rewrite (proj2 (Z.ltb_lt _ _)) by lia.
Qed.

(** The fields [read] extracts from a status word. *)
Lemma status_fields sev code :
  0 ≤ sev < 16 → 0 ≤ code < 2 ^ 24 →
  let sc := sev * 2 ^ 28 + code in
  Z.shiftr (Z.land sc 0xF0000000) 28 = sev ∧
  Z.land sc 0x0F000000 = 0 ∧ Z.land sc 0x00FFFFFF = code.
Proof.
  intros Hs Hc sc.
  change 0xF0000000 with (Z.shiftl (Z.ones 4) 28).
  change 0x0F000000 with (Z.shiftl (Z.ones 4) 24).
  change 0x00FFFFFF with (Z.ones 24).
  rewrite !land_field, land_low, Z.shiftr_div_pow2, Z.div_mul by lia.
  assert (sc / 2 ^ 28 = sev) as -> by (symmetry; apply (Z.div_unique _ _ _ code); lia).
  assert (sc / 2 ^ 24 = sev * 16) as -> by (symmetry; apply (Z.div_unique _ _ _ code); lia).
  split_and!.
  - apply Z.mod_small. lia.
  - change (2 ^ 4) with 16. by rewrite Z.mod_mul by lia.
  - symmetry. apply (Z.mod_unique _ _ (sev * 16)); lia.
Qed.

Lemma StatusCode_from_value c :
  match c with VDM v => in_width 16 (vdm_error_code v) | _ => True end →
  StatusCode_try_from (status_code_value c) = Some c.
Proof.
  destruct c as [|c|c|c|c|c|c|[v]]; intros Hv; try (destruct c); try done.
  unfold StatusCode_try_from, status_code_value, vdm_error_code, in_width in *.
  change 0xFF0000 with (Z.shiftl (Z.ones 8) 16). change 0x00FFFF with (Z.ones 16).
  rewrite land_field, land_low, Z.shiftr_div_pow2, Z.div_mul by lia.
  replace ((0x70000 + v) / 2 ^ 16) with 7 by (apply (Z.div_unique _ _ _ v); lia).
  replace ((0x70000 + v) mod 2 ^ 16) with v by (apply (Z.mod_unique _ _ 7); lia).
  done.
Qed.

Lemma status_read_sound sc :
  in_width 32 sc → ∀ c, StatusCode_try_from (Z.land sc 0x00FFFFFF) = Some c →
  match c with VDM v => in_width 16 (vdm_error_code v) | _ => True end.
Proof.
  intros Hsc c Hc. destruct c as [| | | | | | |[v]]; try done. cbn.
  unfold StatusCode_try_from in Hc. change 0x00FFFF with (Z.ones 16) in Hc.
  rewrite (land_low _ 16) in Hc by lia. revert Hc. generalize (Z.land sc 0x00FFFFFF). intros x.
  generalize (Z.shiftr (Z.land x 0xFF0000) 16). intros src Hc.
  pose proof (Z.mod_pos_bound x (2 ^ 16)). unfold in_width.
  repeat case_match; try discriminate; try (apply fmap_Some in Hc as (? & _ & [=])).
  simplify_eq. lia.
Qed.

#[export] Program Instance codec_ok_SpdmStatus : CodecOk SpdmStatus :=
  {| wf := status_wf; bytes s := le_bytes 4 (status_value s) |}.
Next Obligation. intros. apply bytes_wf_le_bytes. Qed.
Next Obligation.
  intros s Hs. unfold encode, codec_SpdmStatus. rewrite status_word_value by done.
  eapply writes_eq; [eapply writes_bind; [apply writes_lift|repeat writes_step]|by list_norm|done].
Qed.
Next Obligation.
  intros s Hs. pose proof (status_code_value_bound s Hs) as Hb. destruct Hs as [He Hv].
  assert (0 ≤ severity_u8 (severity s) ≤ 8) by (destruct (severity s); cbn; lia).
  destruct (status_fields (severity_u8 (severity s)) (status_code_value (status_code s)))
    as (H1 & H2 & H3); [lia..|]. fold (status_value s) in H1, H2, H3.
  unfold read, codec_SpdmStatus. rewrite <- (app_nil_r (le_bytes 4 _)).
  eapply decodes_bind; [apply decodes_u32; unfold in_width, status_value; lia|].
  cbv zeta. rewrite H1, H2, H3, u24_new_ok by (unfold in_width; lia).
  change (negb (0 =? 0)) with false. solve_decodes.
  - instantiate (1 := severity s). by destruct (severity s).
  - done.
  - by rewrite StatusCode_from_value.
  - by destruct s; cbn in *; subst.
Qed.
Next Obligation.
  unfold read, codec_SpdmStatus. eapply reads_bind; [apply reads_u32|]. intros sc Hsc. cbv zeta.
  eapply reads_bind; [apply (reads_lift _ (λ _, True)); [by destruct severity_try_from|done]|].
  intros sev _. apply reads_if; intros Hb; [apply reads_throw|].
  assert (in_width 24 (Z.land sc 0xFFFFFF)) as H24.
  { change 0xFFFFFF with (Z.ones 24). rewrite land_low by lia. by apply wrap_in_width. }
  rewrite u24_new_ok by done.
  eapply reads_bind; [by apply (reads_ret _ (λ c, c = Z.land sc 0xFFFFFF))|]. intros c ->.
  eapply reads_bind; [apply (reads_lift _ (λ c, StatusCode_try_from (Z.land sc 0xFFFFFF) = Some c))|].
  - by destruct StatusCode_try_from.
  - destruct StatusCode_try_from; [by intros ? [= <-]|done].
  - intros c Hc. apply reads_ret. split; [done|]. by apply (status_read_sound sc).
Qed.

(** ** Properties *)

(** A status survives its 32-bit form: every status without attached data
    (and with a 16-bit vendor code) is recovered from the word [get_u32]
    gives, and any word either is refused or denotes such a status; no word
    panics. *)
Theorem status_u32_roundtrip s :
  status_wf s →
  from_u32 (get_u32 s) = Ok s ∧
  ∀ v, from_u32 v = Err tt ∨ ∃ s', from_u32 v = Ok s' ∧ status_wf s'.
Proof.
  intros Hs. destruct (codec_ok_correct (A:=SpdmStatus)) as (Hrt & _ & Hsafe). split.
  - destruct (Hrt s (zeros 4) Hs (bytes_wf_zeros 4)) as [He Hr]; [by rewrite len_zeros; cbn|].
    unfold from_u32, get_u32, read_bytes. rewrite He. cbn [snd w_buf].
    assert (splice (zeros 4) 0 (bytes s) = bytes s) as Hw by reflexivity.
    rewrite Hw in *. change 4%nat with (length (bytes s)) at 1.
    rewrite le_bytes_combine by by apply bytes_ok. by rewrite Hr.
  - intros v. unfold from_u32, read_bytes. specialize (Hsafe (le_bytes 4 v) (bytes_wf_le_bytes 4 v)).
    destruct (read (Reader.init (le_bytes 4 v))) as [[s'|[]|] r]; [right; eauto|by left|by destruct Hsafe].
    exists s'. split; [done|]. by apply Hsafe.
Qed.

Lemma status_u32_roundtrip_witness :
  from_u32 (get_u32 SPDM_STATUS_DECODE_AEAD_FAIL) = Ok SPDM_STATUS_DECODE_AEAD_FAIL.
Proof. exact (proj1 (status_u32_roundtrip SPDM_STATUS_DECODE_AEAD_FAIL (conj eq_refl I))). Defined.

(** (finding) the two constants for an invalid parameter and for an
    invalid local state are the same status, so a caller cannot tell them
    apart, and the code INVALID_PARAMETER is not the one the constant of that
    name carries. *)
Theorem invalid_parameter_constant :
  status_eqb SPDM_STATUS_INVALID_PARAMETER SPDM_STATUS_INVALID_STATE_LOCAL = true ∧
  get_u32 SPDM_STATUS_INVALID_PARAMETER = get_u32 SPDM_STATUS_INVALID_STATE_LOCAL ∧
  status_code SPDM_STATUS_INVALID_PARAMETER ≠ CORE INVALID_PARAMETER.
Proof. by split_and!. Qed.
