(* ===== verification/Bitflags.v ===== *)
(** * Flag sets

    The operations the crate uses of the types declared with [bitflags!]
    (src/spdmlib/src/protocol/algo.rs and capability.rs), once for all
    declarations: a declaration is its name, its integer width and its
    list of constants, [VALID_MASK] the union of them.  The codec, [is_valid],
    [is_no_more_than_one_selected] and the [prioritize] loop have the same
    body in every declaration of the source; the per-type files instantiate
    them. *)

From Stdlib Require Import String.
From S2P Require Import Prelude Codec.

Inductive iwidth := W8 | W16 | W32.
Definition iw_bits (w : iwidth) : Z := match w with W8 => 8 | W16 => 16 | W32 => 32 end.

Record flag_desc := mkDesc { fd_name : string; fd_width : iwidth; fd_consts : list Z }.

(** The value of a flag type; the description is a phantom index, so that
    different declarations are different types. *)
Record flags (d : flag_desc) := mkFlags { bits : Z }.
Arguments mkFlags {d} bits.
Arguments bits {d} _.

#[export] Instance flags_eq_dec d : EqDecision (flags d).
Proof. solve_decision. Defined.

Definition VALID_MASK (d : flag_desc) : Z := foldr Z.lor 0 (fd_consts d).

Section Ops.
Context {d : flag_desc}.
Implicit Types f g : flags d.

Definition empty_flags : flags d := mkFlags 0.
Definition all_flags : flags d := mkFlags (VALID_MASK d).
Definition union f g : flags d := mkFlags (Z.lor (bits f) (bits g)).
Definition inter f g : flags d := mkFlags (Z.land (bits f) (bits g)).
Definition contains f g : bool := Z.land (bits f) (bits g) =? bits g.
Definition intersects f g : bool := negb (Z.land (bits f) (bits g) =? 0).
Definition is_empty f : bool := bits f =? 0.

(** [from_bits] refuses a bit outside [all()]. *)
Definition from_bits (b : Z) : option (flags d) :=
  if Z.ldiff b (VALID_MASK d) =? 0 then Some (mkFlags b) else None.

Definition is_no_more_than_one_selected f : bool :=
  (bits f =? 0) || (Z.land (bits f) (bits f - 1) =? 0).
Definition is_valid f : bool := negb (Z.land (bits f) (VALID_MASK d) =? 0).
Definition is_valid_one_select f : bool := is_no_more_than_one_selected f && is_valid f.

(** The loop of [prioritize] over its table. *)
Fixpoint first_in_table (table : list (flags d)) (self : flags d) : flags d :=
  match table with
  | [] => empty_flags
  | v :: table =>
      if negb (Z.land (bits self) (bits v) =? 0) then v else first_in_table table self
  end.
Definition prioritize_with (table : list (flags d)) (self peer : flags d) : flags d :=
  first_in_table table (inter self peer).

(** The codec of the declarations: the integer of the declared width; unknown
    bits are dropped on reading. *)
Definition encode_bits (f : flags d) : M Writer EncodeErr usize :=
  match fd_width d with
  | W8 => encode (bits f : u8)
  | W16 => encode (bits f : u16)
  | W32 => encode (bits f : u32)
  end.
Definition read_bits : M Reader unit Z :=
  match fd_width d with
  | W8 => read (A:=u8)
  | W16 => read (A:=u16)
  | W32 => read (A:=u32)
  end.

End Ops.

#[export] Instance codec_flags {d} : Codec (flags d) :=
  {| encode := encode_bits;
     read := let* b := read_bits (d:=d) in
             lift (ok_or (from_bits (Z.land b (VALID_MASK d))) tt) |}.

(** ** Laws *)
Section Laws.
Context {d : flag_desc}.
Implicit Types f g : flags d.

(** No bit outside the declared constants. *)
Definition flags_wf f : Prop :=
  Z.land (bits f) (VALID_MASK d) = bits f ∧ in_width (iw_bits (fd_width d)) (bits f).

Lemma ldiff_land_mask x m : Z.ldiff (Z.land x m) m = 0.
Proof.
  apply Z.bits_inj'. intros i Hi.
  rewrite Z.ldiff_spec, Z.land_spec, Z.bits_0. destruct (Z.testbit m i); by rewrite ?andb_false_r.
Qed.
Lemma land_land_mask x m : Z.land (Z.land x m) m = Z.land x m.
Proof. by rewrite <- Z.land_assoc, Z.land_diag. Qed.

Lemma from_bits_masked b : from_bits (d:=d) (Z.land b (VALID_MASK d)) = Some (mkFlags (Z.land b (VALID_MASK d))).
Proof. unfold from_bits. by rewrite ldiff_land_mask. Qed.

Definition flag_bytes f : list Z :=
  match fd_width d with
  | W8 => [bits f]
  | W16 => le_bytes 2 (bits f)
  | W32 => le_bytes 4 (bits f)
  end.

Lemma len_flag_bytes f : len (flag_bytes f) = iw_bits (fd_width d) / 8.
Proof. unfold flag_bytes. by destruct (fd_width d). Qed.

Lemma writes_bits f : encodes EncodeErr_ (encode_bits f) (flag_bytes f).
Proof.
  unfold encodes, encode_bits, flag_bytes.
  destruct (fd_width d); [apply writes_u8|apply writes_u16|apply writes_u32].
Qed.

Lemma decodes_bits f :
  in_width (iw_bits (fd_width d)) (bits f) → decodes (read_bits (d:=d)) (flag_bytes f) (bits f).
Proof.
  unfold read_bits, flag_bytes.
  destruct (fd_width d); [apply decodes_u8|apply decodes_u16|apply decodes_u32].
Qed.

Lemma reads_bits : reads (read_bits (d:=d)) (in_width (iw_bits (fd_width d))).
Proof. unfold read_bits. destruct (fd_width d); eauto with reads. Qed.

End Laws.

(** A declaration is sound when its constants fit its width. *)
Class DescOk (d : flag_desc) := mask_bound : in_width (iw_bits (fd_width d)) (VALID_MASK d).
Ltac solve_desc := vm_compute; split; congruence.

#[export] Program Instance codec_ok_flags {d} `{!DescOk d} : CodecOk (flags d) :=
  {| wf := flags_wf; bytes := flag_bytes |}.
Next Obligation.
  intros d ? f [_ Hf]. unfold flag_bytes. destruct (fd_width d); auto with wfb.
  constructor; [exact Hf|constructor].
Qed.
Next Obligation. intros. apply writes_bits. Qed.
Next Obligation.
  intros d ? f [Hm Hw]. unfold read, codec_flags. rewrite <- (app_nil_r (flag_bytes f)).
  eapply decodes_bind; [by apply decodes_bits|].
  apply decodes_lift. rewrite from_bits_masked, Hm. by destruct f.
Qed.
Next Obligation.
  intros d Hd. unfold read, codec_flags. eapply reads_bind; [apply reads_bits|]. intros b Hb.
  rewrite from_bits_masked. apply reads_ret. split; cbn; [apply land_land_mask|].
  apply in_width_land; [by destruct (fd_width d)|done|apply Hd].
Qed.

(** *** Single selection *)
Section Select.
Context {d : flag_desc}.
Implicit Types f g : flags d.

Lemma land_pred_pow2 k : 0 ≤ k → Z.land (2 ^ k) (2 ^ k - 1) = 0.
Proof.
  intros. replace (2 ^ k - 1) with (Z.ones k) by (rewrite Z.ones_equiv; lia).
  rewrite Z.land_ones, Z.mod_same by lia. done.
Qed.

(** Clearing the lowest set bit leaves nothing only for a power of two. *)
Lemma land_pred_0 x : 0 < x → Z.land x (x - 1) = 0 → ∃ k, 0 ≤ k ∧ x = 2 ^ k.
Proof.
  intros Hx H0. exists (Z.log2 x). split; [apply Z.log2_nonneg|].
  pose proof (Z.log2_spec x Hx) as [Hlo Hhi].
  destruct (decide (x = 2 ^ Z.log2 x)) as [|Hne]; [done|exfalso].
  assert (x ≠ 1) by (intros ->; by apply Hne).
  assert (Z.testbit (Z.land x (x - 1)) (Z.log2 x) = true) as Ht; [|by rewrite H0, Z.bits_0 in Ht].
  rewrite Z.land_spec, Z.bit_log2 by done.
  replace (Z.log2 x) with (Z.log2 (x - 1)); [by rewrite Z.bit_log2 by lia|].
  apply Z.log2_unique; [apply Z.log2_nonneg|].
  rewrite Z.pow_succ_r in Hhi by apply Z.log2_nonneg.
  rewrite Z.pow_succ_r by apply Z.log2_nonneg. lia.
Qed.

Lemma no_more_than_one_spec f :
  0 ≤ bits f →
  is_no_more_than_one_selected f = true ↔ bits f = 0 ∨ ∃ k, 0 ≤ k ∧ bits f = 2 ^ k.
Proof.
  intros Hf. unfold is_no_more_than_one_selected. rewrite orb_true_iff, !Z.eqb_eq. split.
  - intros [?|H]; [by left|]. destruct (decide (bits f = 0)); [by left|].
    right. apply land_pred_0; [lia|done].
  - intros [?|(k & ? & ->)]; [by left|]. right. by apply land_pred_pow2.
Qed.

(** What a priority table has to satisfy: only declared single bits, and all
    of them. *)
Definition table_ok (table : list (flags d)) : bool :=
  forallb (λ v, bool_decide (bits v ∈ fd_consts d) && is_valid_one_select v && (0 <? bits v)) table
  && (foldr Z.lor 0 (bits <$> table) =? VALID_MASK d).

(** The contract of [prioritize]: the first entry of the table that both
    sides support, alone, and the empty set when there is none. *)
Definition prioritize_correct (table : list (flags d)) : Prop :=
  ∀ self peer, flags_wf self → flags_wf peer →
  let r := prioritize_with table self peer in
  (inter self peer = empty_flags ∧ r = empty_flags) ∨
  (∃ i, table !! i = Some r ∧ is_valid_one_select r = true ∧
        contains self r = true ∧ contains peer r = true ∧
        ∀ j v, (j < i)%nat → table !! j = Some v → intersects (inter self peer) v = false).

Lemma single_contains x k : 0 ≤ k → Z.land x (2 ^ k) ≠ 0 → Z.land x (2 ^ k) = 2 ^ k.
Proof.
  intros Hk Hne. destruct (Z.testbit x k) eqn:Ht.
  - apply Z.bits_inj'. intros i Hi. rewrite Z.land_spec, Z.pow2_bits_eqb by done.
    destruct (Z.eqb_spec k i) as [->|]; [by rewrite Ht|by rewrite andb_false_r].
  - destruct Hne. apply Z.bits_inj'. intros i Hi.
    rewrite Z.land_spec, Z.pow2_bits_eqb, Z.bits_0 by done.
    destruct (Z.eqb_spec k i) as [<-|]; [by rewrite Ht|by rewrite andb_false_r].
Qed.

Lemma contains_inter f g r :
  Z.land (bits (inter f g)) (bits r) = bits r → contains f r = true ∧ contains g r = true.
Proof.
  cbn. intros H. unfold contains. rewrite !Z.eqb_eq.
  assert (∀ i, 0 ≤ i → Z.testbit (bits r) i = true →
               Z.testbit (bits f) i = true ∧ Z.testbit (bits g) i = true) as Hb.
  { intros i Hi Hr. rewrite <- H, !Z.land_spec in Hr.
    by rewrite !andb_true_iff in Hr; destruct Hr as [[? ?] ?]. }
  split; apply Z.bits_inj'; intros i Hi; rewrite Z.land_spec;
    destruct (Z.testbit (bits r) i) eqn:E; rewrite ?andb_false_r, ?andb_true_r; try done; by apply Hb.
Qed.

Lemma first_in_table_spec (table : list (flags d)) s :
  (first_in_table table s = empty_flags ∧ ∀ v, v ∈ table → Z.land (bits s) (bits v) = 0) ∨
  (∃ i, table !! i = Some (first_in_table table s) ∧
        Z.land (bits s) (bits (first_in_table table s)) ≠ 0 ∧
        ∀ j v, (j < i)%nat → table !! j = Some v → intersects s v = false).
Proof.
  induction table as [|v table IH]; [left; split; [done|]; by intros ? ?%not_elem_of_nil|].
  cbn [first_in_table]. destruct (Z.eqb_spec (Z.land (bits s) (bits v)) 0) as [Hz|Hn]; cbn [negb].
  - destruct IH as [[-> IH]|(i & Hi & Hne & Hj)].
    + left. split; [done|]. intros v' [->|?]%elem_of_cons; auto.
    + right. exists (S i). split_and!; [done..|]. intros [|j] v' Hlt Hv'; cbn in Hv'.
      * simplify_eq. unfold intersects. by rewrite Hz.
      * eapply Hj; [|done]. lia.
  - right. exists O. split_and!; [done..|]. intros j v' Hlt. lia.
Qed.

Lemma land_foldr_lor x (l : list Z) :
  (∀ y, y ∈ l → Z.land x y = 0) → Z.land x (foldr Z.lor 0 l) = 0.
Proof.
  induction l as [|y l IH]; intros Hl; cbn; [apply Z.land_0_r|].
  rewrite Z.land_lor_distr_r, (Hl y), IH; [done| |by left].
  intros z Hz. apply Hl. by right.
Qed.

Lemma table_ok_correct table : table_ok table = true → prioritize_correct table.
Proof.
  unfold table_ok. rewrite andb_true_iff, forallb_forall, Z.eqb_eq. intros [Hall Hcov] self peer Hs Hp r.
  destruct (first_in_table_spec table (inter self peer)) as [[Hr Hz]|(i & Hi & Hne & Hj)].
  - left. split; [|done]. unfold empty_flags, inter. f_equal.
    destruct Hp as [Hp _]. rewrite <- Hp, Z.land_assoc, <- Hcov.
    apply land_foldr_lor. intros y Hy%list_elem_of_fmap. destruct Hy as (v & -> & Hv). by apply Hz.
  - right. exists i. specialize (Hall _ (proj1 (list_elem_of_In _ _) (list_elem_of_lookup_2 _ _ _ Hi))).
    rewrite !andb_true_iff in Hall. destruct Hall as [[_ Hv] Hpos]. apply Z.ltb_lt in Hpos.
    fold (prioritize_with table self peer) in *. fold r in Hi, Hne, Hv, Hpos.
    assert (∃ k, 0 ≤ k ∧ bits r = 2 ^ k) as (k & Hk & Hrk).
    { apply andb_true_iff in Hv as [Hv _]. apply no_more_than_one_spec in Hv; [|lia].
      destruct Hv; [lia|done]. }
    destruct (contains_inter self peer r) as [Hc1 Hc2].
    { rewrite Hrk in *. by apply single_contains. }
    by split_and!.
Qed.

End Select.

(** *** Size tables

    A [match *self { A => n, .., _ => panic!(..) }]. *)
Fixpoint match_flag {d} {E} (arms : list (flags d * Z)) (self : flags d) : outcome E Z :=
  match arms with
  | [] => Panic
  | (v, n) :: arms => if decide (self = v) then Ok n else match_flag arms self
  end.

Section Sizes.
Context {d : flag_desc}.

(** Every declared flag has an arm, and every constant is a single bit. *)
Definition arms_ok (arms : list (flags d * Z)) : bool :=
  forallb (λ c, (0 <? c) && (Z.land c (c - 1) =? 0) &&
                bool_decide (mkFlags c ∈ arms.*1)) (fd_consts d).

Lemma match_flag_in {E} arms (self : flags d) :
  self ∈ arms.*1 → ∃ n, match_flag (E:=E) arms self = Ok n ∧ n ∈ arms.*2.
Proof.
  induction arms as [|[v n] arms IH]; cbn; [by intros ?%not_elem_of_nil|].
  intros [->|H]%elem_of_cons.
  - rewrite decide_True by done. exists n. split; [done|]. by left.
  - destruct (decide (self = v)); [exists n; split; [done|by left]|].
    destruct (IH H) as (m & ? & ?). exists m. split; [done|]. by right.
Qed.

Lemma land_pow2_ne j k : 0 ≤ j → 0 ≤ k → Z.land (2 ^ j) (2 ^ k) ≠ 0 → j = k.
Proof.
  intros Hj Hk H. apply single_contains in H; [|done].
  apply (f_equal (λ x, Z.testbit x k)) in H.
  rewrite Z.land_spec, !Z.pow2_bits_eqb, Z.eqb_refl in H by done.
  by destruct (Z.eqb_spec j k).
Qed.

Lemma single_in_consts (self : flags d) arms :
  arms_ok arms = true → flags_wf self → is_valid_one_select self = true → self ∈ arms.*1.
Proof.
  intros Harms [Hm [Hp _]] Hv. unfold is_valid_one_select, is_valid in Hv.
  apply andb_true_iff in Hv as [Hone Hne]. apply negb_true_iff, Z.eqb_neq in Hne.
  apply no_more_than_one_spec in Hone; [|done].
  destruct Hone as [H0|(k & Hk & Hb)]; [by rewrite H0 in Hne|].
  assert (∃ c, c ∈ fd_consts d ∧ Z.land (bits self) c ≠ 0) as (c & Hc & Hcn).
  { destruct (decide (Exists (λ c, Z.land (bits self) c ≠ 0) (fd_consts d))) as [He|He].
    - by apply Exists_exists in He.
    - destruct Hne. apply land_foldr_lor. intros y Hy.
      destruct (decide (Z.land (bits self) y = 0)); [done|]. destruct He. apply Exists_exists. eauto. }
  unfold arms_ok in Harms. rewrite forallb_forall in Harms.
  specialize (Harms c (proj1 (list_elem_of_In _ _) Hc)).
  rewrite !andb_true_iff, Z.ltb_lt, Z.eqb_eq, bool_decide_eq_true in Harms.
  destruct Harms as [[Hc0 Hc1] Hin].
  destruct (land_pred_0 c Hc0 Hc1) as (j & Hj & ->). rewrite Hb in Hcn.
  assert (k = j) as -> by by apply land_pow2_ne. rewrite <- Hb in Hin. by destruct self.
Qed.

(** A valid single selection has a size, one of the table's. *)
Lemma match_flag_total {E} arms (self : flags d) :
  arms_ok arms = true → flags_wf self → is_valid_one_select self = true →
  ∃ n, match_flag (E:=E) arms self = Ok n ∧ n ∈ arms.*2.
Proof. intros. by apply match_flag_in, single_in_consts. Qed.

End Sizes.

(** ** Sets stay declared *)
Section FlagWf.
Context {d : flag_desc}.
Implicit Types f g : flags d.
Definition flags_wfb f : bool :=
  (Z.land (bits f) (VALID_MASK d) =? bits f) && in_widthb (iw_bits (fd_width d)) (bits f).
Lemma flags_wfb_spec f : flags_wfb f = true ↔ flags_wf f.
Proof. unfold flags_wfb, flags_wf. by rewrite andb_true_iff, Z.eqb_eq, in_widthb_spec. Qed.
Lemma flags_wf_empty : flags_wf (empty_flags (d:=d)).
Proof. split; [done|]. split; [done|]. cbn. by destruct (fd_width d). Qed.
Lemma land_width w x y : 0 ≤ w → in_width w x → 0 ≤ y → in_width w (Z.land x y).
Proof.
  intros Hw [Hx Hl] Hy. rewrite <- (Z.mod_small x (2 ^ w)), <- Z.land_ones by lia.
  rewrite <- Z.land_assoc, (Z.land_comm _ y), Z.land_assoc, Z.land_ones by lia.
  apply Z.mod_pos_bound. lia.
Qed.
Lemma flags_wf_inter f g : flags_wf f → flags_wf g → flags_wf (inter f g).
Proof.
  intros [Hf Hw] [Hg [Hg0 _]]. unfold inter, flags_wf. cbn [bits]. split; [by rewrite <- Z.land_assoc, Hg|].
  apply land_width; [by destruct (fd_width d)|done|done].
Qed.
Lemma flags_wf_union f g : flags_wf f → flags_wf g → flags_wf (union f g).
Proof.
  intros [Hf [Hf0 Hfw]] [Hg [Hg0 Hgw]]. unfold union, flags_wf. cbn [bits].
  split; [by rewrite Z.land_lor_distr_l, Hf, Hg|].
  assert (0 ≤ iw_bits (fd_width d)) as Hw by (by destruct (fd_width d)). split; [by apply Z.lor_nonneg|].
  rewrite <- (Z.mod_small (bits f) (2 ^ iw_bits (fd_width d))), <- (Z.mod_small (bits g) (2 ^ iw_bits (fd_width d))) by done.
  rewrite <- !Z.land_ones, <- Z.land_lor_distr_l, Z.land_ones by lia. apply Z.mod_pos_bound. lia.
Qed.
Lemma flags_wf_prioritize (table : list (flags d)) f g :
  forallb flags_wfb table = true → flags_wf (prioritize_with table f g).
Proof.
  intros Ht. destruct (first_in_table_spec table (inter f g)) as [[Hr _]|(i & Hi & _)];
    fold (prioritize_with table f g) in *; [rewrite Hr; apply flags_wf_empty|].
  rewrite forallb_forall in Ht. apply flags_wfb_spec, Ht, list_elem_of_In. by eapply list_elem_of_lookup_2.
Qed.
End FlagWf.
