(* ===== verification/Algo.v ===== *)
(** * Algorithms and capabilities

    Models the constants and flag types of src/spdmlib/src/protocol/algo.rs
    and src/spdmlib/src/protocol/capability.rs, a module per type: the flags,
    the priority table with [prioritize], and the sizes of the selected
    algorithm.  Proved: every [prioritize] returns the first table entry that
    both sides support (or nothing), and on a valid single selection no size
    lookup panics and the sizes are those of the standards. *)

From Stdlib Require Import String.
From S2P Require Import Prelude Codec Bitflags.

(** ** Sizes *)
Definition SHA256_DIGEST_SIZE : usize := 32.
Definition SHA384_DIGEST_SIZE : usize := 48.
Definition SHA512_DIGEST_SIZE : usize := 64.
Definition RSASSA_2048_SIG_SIZE : usize := 256.
Definition RSASSA_3072_SIG_SIZE : usize := 384.
Definition RSASSA_4096_SIG_SIZE : usize := 512.
Definition RSAPSS_2048_SIG_SIZE : usize := 256.
Definition RSAPSS_3072_SIG_SIZE : usize := 384.
Definition RSAPSS_4096_SIG_SIZE : usize := 512.
Definition ECDSA_ECC_NIST_P256_SIG_SIZE : usize := 32 * 2.
Definition ECDSA_ECC_NIST_P384_SIG_SIZE : usize := 48 * 2.
Definition SECP_256_R1_KEY_SIZE : usize := 32 * 2.
Definition SECP_384_R1_KEY_SIZE : usize := 48 * 2.
Definition SECP_256_R1_SHARED_SECRET_SIZE : usize := 32.
Definition SECP_384_R1_SHARED_SECRET_SIZE : usize := 48.
Definition AEAD_AES_128_GCM_KEY_SIZE : usize := 16.
Definition AEAD_AES_256_GCM_KEY_SIZE : usize := 32.
Definition AEAD_CHACHA20_POLY1305_KEY_SIZE : usize := 32.
Definition AEAD_AES_128_GCM_IV_SIZE : usize := 12.
Definition AEAD_AES_256_GCM_IV_SIZE : usize := 12.
Definition AEAD_CHACHA20_POLY1305_IV_SIZE : usize := 12.
Definition AEAD_AES_128_GCM_TAG_SIZE : usize := 16.
Definition AEAD_AES_256_GCM_TAG_SIZE : usize := 16.
Definition AEAD_CHACHA20_POLY1305_TAG_SIZE : usize := 16.
Definition SPDM_NONCE_SIZE : usize := 32.
Definition SPDM_CHALLENGE_CONTEXT_SIZE : usize := 8.
Definition SPDM_MEASUREMENTS_CONTEXT_SIZE : usize := 8.
Definition SPDM_RANDOM_SIZE : usize := 32.
Definition SPDM_MAX_HASH_SIZE : usize := 64.
Definition SPDM_MAX_DHE_KEY_SIZE : usize := SECP_384_R1_KEY_SIZE.
Definition SPDM_MAX_AEAD_KEY_SIZE : usize := 32.
Definition SPDM_MAX_AEAD_IV_SIZE : usize := 12.
Definition SPDM_MAX_HKDF_OKM_SIZE : usize := SPDM_MAX_HASH_SIZE.
Definition MLDSA_44_SIG_SIZE : usize := 2420.
Definition MLDSA_65_SIG_SIZE : usize := 3309.
Definition MLDSA_87_SIG_SIZE : usize := 4627.
Definition SPDM_MAX_BASE_ASYM_SIG_SIZE : usize := RSASSA_4096_SIG_SIZE.
Definition SPDM_MAX_PQC_ASYM_SIG_SIZE : usize := MLDSA_87_SIG_SIZE.
Definition SPDM_MAX_ASYM_SIG_SIZE : usize :=
  if SPDM_MAX_PQC_ASYM_SIG_SIZE <? SPDM_MAX_BASE_ASYM_SIG_SIZE
  then SPDM_MAX_BASE_ASYM_SIG_SIZE else SPDM_MAX_PQC_ASYM_SIG_SIZE.
Definition MLKEM_512_ENCAP_KEY_SIZE : usize := 800.
Definition MLKEM_768_ENCAP_KEY_SIZE : usize := 1184.
Definition MLKEM_1024_ENCAP_KEY_SIZE : usize := 1568.
Definition MLKEM_512_CIPHER_TEXT_SIZE : usize := 768.
Definition MLKEM_768_CIPHER_TEXT_SIZE : usize := 1088.
Definition MLKEM_1024_CIPHER_TEXT_SIZE : usize := 1568.
Definition SPDM_MAX_KEM_ENCAP_KEY_SIZE : usize := MLKEM_1024_ENCAP_KEY_SIZE.
Definition SPDM_MAX_KEM_CIPHER_TEXT_SIZE : usize := MLKEM_1024_CIPHER_TEXT_SIZE.
Definition SPDM_MAX_REQ_KEY_EXCHANGE_SIZE : usize :=
  if SPDM_MAX_KEM_ENCAP_KEY_SIZE <? SPDM_MAX_DHE_KEY_SIZE
  then SPDM_MAX_DHE_KEY_SIZE else SPDM_MAX_KEM_ENCAP_KEY_SIZE.
Definition SPDM_MAX_RSP_KEY_EXCHANGE_SIZE : usize :=
  if SPDM_MAX_KEM_CIPHER_TEXT_SIZE <? SPDM_MAX_DHE_KEY_SIZE
  then SPDM_MAX_DHE_KEY_SIZE else SPDM_MAX_KEM_CIPHER_TEXT_SIZE.
Definition SPDM_MAX_DHE_SHARED_SECRET_SIZE : usize := SECP_384_R1_SHARED_SECRET_SIZE.
Definition SPDM_MAX_KEM_SHARED_SECRET_SIZE : usize := 32.
Definition SPDM_MAX_SHARED_SECRET_SIZE : usize :=
  if SPDM_MAX_KEM_SHARED_SECRET_SIZE <? SPDM_MAX_DHE_SHARED_SECRET_SIZE
  then SPDM_MAX_DHE_SHARED_SECRET_SIZE else SPDM_MAX_KEM_SHARED_SECRET_SIZE.
Definition SPDM_MAX_SLOT_NUMBER : usize := 8.

(** ** Flag types *)
(** *** [SpdmMeasurementSpecification] *)
Definition SpdmMeasurementSpecification_desc : flag_desc :=
  mkDesc "SpdmMeasurementSpecification" W8 [0x01].
Abbreviation SpdmMeasurementSpecification := (flags SpdmMeasurementSpecification_desc).
#[export] Instance SpdmMeasurementSpecification_desc_ok : DescOk SpdmMeasurementSpecification_desc.
Proof. solve_desc. Qed.
Module SpdmMeasurementSpecification.
Implicit Types self peer : SpdmMeasurementSpecification.
Definition DMTF : SpdmMeasurementSpecification := mkFlags 0x01.
Definition prio_table : list SpdmMeasurementSpecification :=
  [DMTF].
Definition prioritize self peer := prioritize_with prio_table self peer.
End SpdmMeasurementSpecification.

(** *** [SpdmAlgoOtherParams] *)
Definition SpdmAlgoOtherParams_desc : flag_desc :=
  mkDesc "SpdmAlgoOtherParams" W8 [0x02; 0x10].
Abbreviation SpdmAlgoOtherParams := (flags SpdmAlgoOtherParams_desc).
#[export] Instance SpdmAlgoOtherParams_desc_ok : DescOk SpdmAlgoOtherParams_desc.
Proof. solve_desc. Qed.
Module SpdmAlgoOtherParams.
Implicit Types self peer : SpdmAlgoOtherParams.
Definition OPAQUE_DATA_FMT1 : SpdmAlgoOtherParams := mkFlags 0x02.
Definition MULTI_KEY_CONN : SpdmAlgoOtherParams := mkFlags 0x10.
End SpdmAlgoOtherParams.

(** *** [SpdmMeasurementHashAlgo] *)
Definition SpdmMeasurementHashAlgo_desc : flag_desc :=
  mkDesc "SpdmMeasurementHashAlgo" W32 [0x1; 0x2; 0x4; 0x8; 0x10; 0x20; 0x40; 0x80].
Abbreviation SpdmMeasurementHashAlgo := (flags SpdmMeasurementHashAlgo_desc).
#[export] Instance SpdmMeasurementHashAlgo_desc_ok : DescOk SpdmMeasurementHashAlgo_desc.
Proof. solve_desc. Qed.
Module SpdmMeasurementHashAlgo.
Implicit Types self peer : SpdmMeasurementHashAlgo.
Definition RAW_BIT_STREAM : SpdmMeasurementHashAlgo := mkFlags 0x1.
Definition TPM_ALG_SHA_256 : SpdmMeasurementHashAlgo := mkFlags 0x2.
Definition TPM_ALG_SHA_384 : SpdmMeasurementHashAlgo := mkFlags 0x4.
Definition TPM_ALG_SHA_512 : SpdmMeasurementHashAlgo := mkFlags 0x8.
Definition TPM_ALG_SHA3_256 : SpdmMeasurementHashAlgo := mkFlags 0x10.
Definition TPM_ALG_SHA3_384 : SpdmMeasurementHashAlgo := mkFlags 0x20.
Definition TPM_ALG_SHA3_512 : SpdmMeasurementHashAlgo := mkFlags 0x40.
Definition TPM_ALG_SM3 : SpdmMeasurementHashAlgo := mkFlags 0x80.
Definition get_size_arms : list (SpdmMeasurementHashAlgo * Z) :=
  [(RAW_BIT_STREAM, 0); (TPM_ALG_SHA_256, SHA256_DIGEST_SIZE); (TPM_ALG_SHA_384,
   SHA384_DIGEST_SIZE); (TPM_ALG_SHA_512, SHA512_DIGEST_SIZE); (TPM_ALG_SHA3_256, 32);
   (TPM_ALG_SHA3_384, 48); (TPM_ALG_SHA3_512, 64); (TPM_ALG_SM3, 32)].
Definition get_size {E} self : outcome E u16 := match_flag get_size_arms self.
End SpdmMeasurementHashAlgo.

(** *** [SpdmBaseAsymAlgo] *)
Definition SpdmBaseAsymAlgo_desc : flag_desc :=
  mkDesc "SpdmBaseAsymAlgo" W32 [0x1; 0x2; 0x4; 0x8; 0x10; 0x20; 0x40; 0x80].
Abbreviation SpdmBaseAsymAlgo := (flags SpdmBaseAsymAlgo_desc).
#[export] Instance SpdmBaseAsymAlgo_desc_ok : DescOk SpdmBaseAsymAlgo_desc.
Proof. solve_desc. Qed.
Module SpdmBaseAsymAlgo.
Implicit Types self peer : SpdmBaseAsymAlgo.
Definition TPM_ALG_RSASSA_2048 : SpdmBaseAsymAlgo := mkFlags 0x1.
Definition TPM_ALG_RSAPSS_2048 : SpdmBaseAsymAlgo := mkFlags 0x2.
Definition TPM_ALG_RSASSA_3072 : SpdmBaseAsymAlgo := mkFlags 0x4.
Definition TPM_ALG_RSAPSS_3072 : SpdmBaseAsymAlgo := mkFlags 0x8.
Definition TPM_ALG_ECDSA_ECC_NIST_P256 : SpdmBaseAsymAlgo := mkFlags 0x10.
Definition TPM_ALG_RSASSA_4096 : SpdmBaseAsymAlgo := mkFlags 0x20.
Definition TPM_ALG_RSAPSS_4096 : SpdmBaseAsymAlgo := mkFlags 0x40.
Definition TPM_ALG_ECDSA_ECC_NIST_P384 : SpdmBaseAsymAlgo := mkFlags 0x80.
Definition prio_table : list SpdmBaseAsymAlgo :=
  [TPM_ALG_ECDSA_ECC_NIST_P384; TPM_ALG_ECDSA_ECC_NIST_P256; TPM_ALG_RSAPSS_4096;
   TPM_ALG_RSAPSS_3072; TPM_ALG_RSAPSS_2048; TPM_ALG_RSASSA_4096; TPM_ALG_RSASSA_3072;
   TPM_ALG_RSASSA_2048].
Definition prioritize self peer := prioritize_with prio_table self peer.
Definition get_sig_size_arms : list (SpdmBaseAsymAlgo * Z) :=
  [(TPM_ALG_RSASSA_2048, RSASSA_2048_SIG_SIZE); (TPM_ALG_RSAPSS_2048, RSAPSS_2048_SIG_SIZE);
   (TPM_ALG_RSASSA_3072, RSASSA_3072_SIG_SIZE); (TPM_ALG_RSAPSS_3072, RSAPSS_3072_SIG_SIZE);
   (TPM_ALG_RSASSA_4096, RSASSA_4096_SIG_SIZE); (TPM_ALG_RSAPSS_4096, RSAPSS_4096_SIG_SIZE);
   (TPM_ALG_ECDSA_ECC_NIST_P256, ECDSA_ECC_NIST_P256_SIG_SIZE); (TPM_ALG_ECDSA_ECC_NIST_P384,
   ECDSA_ECC_NIST_P384_SIG_SIZE)].
Definition get_sig_size {E} self : outcome E u16 := match_flag get_sig_size_arms self.
End SpdmBaseAsymAlgo.

(** *** [SpdmPqcAsymAlgo] *)
Definition SpdmPqcAsymAlgo_desc : flag_desc :=
  mkDesc "SpdmPqcAsymAlgo" W32 [0x1; 0x2; 0x4].
Abbreviation SpdmPqcAsymAlgo := (flags SpdmPqcAsymAlgo_desc).
#[export] Instance SpdmPqcAsymAlgo_desc_ok : DescOk SpdmPqcAsymAlgo_desc.
Proof. solve_desc. Qed.
Module SpdmPqcAsymAlgo.
Implicit Types self peer : SpdmPqcAsymAlgo.
Definition ALG_MLDSA_44 : SpdmPqcAsymAlgo := mkFlags 0x1.
Definition ALG_MLDSA_65 : SpdmPqcAsymAlgo := mkFlags 0x2.
Definition ALG_MLDSA_87 : SpdmPqcAsymAlgo := mkFlags 0x4.
Definition prio_table : list SpdmPqcAsymAlgo :=
  [ALG_MLDSA_87; ALG_MLDSA_65; ALG_MLDSA_44].
Definition prioritize self peer := prioritize_with prio_table self peer.
Definition get_sig_size_arms : list (SpdmPqcAsymAlgo * Z) :=
  [(ALG_MLDSA_44, MLDSA_44_SIG_SIZE); (ALG_MLDSA_65, MLDSA_65_SIG_SIZE); (ALG_MLDSA_87,
   MLDSA_87_SIG_SIZE)].
Definition get_sig_size {E} self : outcome E u16 := match_flag get_sig_size_arms self.
End SpdmPqcAsymAlgo.

(** *** [SpdmBaseHashAlgo] *)
Definition SpdmBaseHashAlgo_desc : flag_desc :=
  mkDesc "SpdmBaseHashAlgo" W32 [0x1; 0x2; 0x4].
Abbreviation SpdmBaseHashAlgo := (flags SpdmBaseHashAlgo_desc).
#[export] Instance SpdmBaseHashAlgo_desc_ok : DescOk SpdmBaseHashAlgo_desc.
Proof. solve_desc. Qed.
Module SpdmBaseHashAlgo.
Implicit Types self peer : SpdmBaseHashAlgo.
Definition TPM_ALG_SHA_256 : SpdmBaseHashAlgo := mkFlags 0x1.
Definition TPM_ALG_SHA_384 : SpdmBaseHashAlgo := mkFlags 0x2.
Definition TPM_ALG_SHA_512 : SpdmBaseHashAlgo := mkFlags 0x4.
Definition prio_table : list SpdmBaseHashAlgo :=
  [TPM_ALG_SHA_512; TPM_ALG_SHA_384; TPM_ALG_SHA_256].
Definition prioritize self peer := prioritize_with prio_table self peer.
Definition get_size_arms : list (SpdmBaseHashAlgo * Z) :=
  [(TPM_ALG_SHA_256, SHA256_DIGEST_SIZE); (TPM_ALG_SHA_384, SHA384_DIGEST_SIZE);
   (TPM_ALG_SHA_512, SHA512_DIGEST_SIZE)].
Definition get_size {E} self : outcome E u16 := match_flag get_size_arms self.
End SpdmBaseHashAlgo.

(** *** [SpdmMelSpecification] *)
Definition SpdmMelSpecification_desc : flag_desc :=
  mkDesc "SpdmMelSpecification" W8 [0x01].
Abbreviation SpdmMelSpecification := (flags SpdmMelSpecification_desc).
#[export] Instance SpdmMelSpecification_desc_ok : DescOk SpdmMelSpecification_desc.
Proof. solve_desc. Qed.
Module SpdmMelSpecification.
Implicit Types self peer : SpdmMelSpecification.
Definition DMTF_MEL_SPEC : SpdmMelSpecification := mkFlags 0x01.
Definition prio_table : list SpdmMelSpecification :=
  [DMTF_MEL_SPEC].
Definition prioritize self peer := prioritize_with prio_table self peer.
End SpdmMelSpecification.

(** *** [SpdmDheAlgo] *)
Definition SpdmDheAlgo_desc : flag_desc :=
  mkDesc "SpdmDheAlgo" W16 [0x08; 0x10].
Abbreviation SpdmDheAlgo := (flags SpdmDheAlgo_desc).
#[export] Instance SpdmDheAlgo_desc_ok : DescOk SpdmDheAlgo_desc.
Proof. solve_desc. Qed.
Module SpdmDheAlgo.
Implicit Types self peer : SpdmDheAlgo.
Definition SECP_256_R1 : SpdmDheAlgo := mkFlags 0x08.
Definition SECP_384_R1 : SpdmDheAlgo := mkFlags 0x10.
Definition prio_table : list SpdmDheAlgo :=
  [SECP_384_R1; SECP_256_R1].
Definition prioritize self peer := prioritize_with prio_table self peer.
Definition get_key_size_arms : list (SpdmDheAlgo * Z) :=
  [(SECP_256_R1, SECP_256_R1_KEY_SIZE); (SECP_384_R1, SECP_384_R1_KEY_SIZE)].
Definition get_key_size {E} self : outcome E u16 := match_flag get_key_size_arms self.
End SpdmDheAlgo.

(** *** [SpdmKemAlgo] *)
Definition SpdmKemAlgo_desc : flag_desc :=
  mkDesc "SpdmKemAlgo" W16 [0x1; 0x2; 0x4].
Abbreviation SpdmKemAlgo := (flags SpdmKemAlgo_desc).
#[export] Instance SpdmKemAlgo_desc_ok : DescOk SpdmKemAlgo_desc.
Proof. solve_desc. Qed.
Module SpdmKemAlgo.
Implicit Types self peer : SpdmKemAlgo.
Definition ALG_MLKEM_512 : SpdmKemAlgo := mkFlags 0x1.
Definition ALG_MLKEM_768 : SpdmKemAlgo := mkFlags 0x2.
Definition ALG_MLKEM_1024 : SpdmKemAlgo := mkFlags 0x4.
Definition prio_table : list SpdmKemAlgo :=
  [ALG_MLKEM_1024; ALG_MLKEM_768; ALG_MLKEM_512].
Definition prioritize self peer := prioritize_with prio_table self peer.
Definition get_encap_key_size_arms : list (SpdmKemAlgo * Z) :=
  [(ALG_MLKEM_512, MLKEM_512_ENCAP_KEY_SIZE); (ALG_MLKEM_768, MLKEM_768_ENCAP_KEY_SIZE);
   (ALG_MLKEM_1024, MLKEM_1024_ENCAP_KEY_SIZE)].
Definition get_encap_key_size {E} self : outcome E u16 := match_flag get_encap_key_size_arms self.
Definition get_cipher_text_size_arms : list (SpdmKemAlgo * Z) :=
  [(ALG_MLKEM_512, MLKEM_512_CIPHER_TEXT_SIZE); (ALG_MLKEM_768, MLKEM_768_CIPHER_TEXT_SIZE);
   (ALG_MLKEM_1024, MLKEM_1024_CIPHER_TEXT_SIZE)].
Definition get_cipher_text_size {E} self : outcome E u16 := match_flag get_cipher_text_size_arms
 self.
End SpdmKemAlgo.

(** *** [SpdmAeadAlgo] *)
Definition SpdmAeadAlgo_desc : flag_desc :=
  mkDesc "SpdmAeadAlgo" W16 [0x1; 0x2; 0x4].
Abbreviation SpdmAeadAlgo := (flags SpdmAeadAlgo_desc).
#[export] Instance SpdmAeadAlgo_desc_ok : DescOk SpdmAeadAlgo_desc.
Proof. solve_desc. Qed.
Module SpdmAeadAlgo.
Implicit Types self peer : SpdmAeadAlgo.
Definition AES_128_GCM : SpdmAeadAlgo := mkFlags 0x1.
Definition AES_256_GCM : SpdmAeadAlgo := mkFlags 0x2.
Definition CHACHA20_POLY1305 : SpdmAeadAlgo := mkFlags 0x4.
Definition prio_table : list SpdmAeadAlgo :=
  [AES_256_GCM; AES_128_GCM; CHACHA20_POLY1305].
Definition prioritize self peer := prioritize_with prio_table self peer.
Definition get_key_size_arms : list (SpdmAeadAlgo * Z) :=
  [(AES_128_GCM, AEAD_AES_128_GCM_KEY_SIZE); (AES_256_GCM, AEAD_AES_256_GCM_KEY_SIZE);
   (CHACHA20_POLY1305, AEAD_CHACHA20_POLY1305_KEY_SIZE)].
Definition get_key_size {E} self : outcome E u16 := match_flag get_key_size_arms self.
Definition get_iv_size_arms : list (SpdmAeadAlgo * Z) :=
  [(AES_128_GCM, AEAD_AES_128_GCM_IV_SIZE); (AES_256_GCM, AEAD_AES_256_GCM_IV_SIZE);
   (CHACHA20_POLY1305, AEAD_CHACHA20_POLY1305_IV_SIZE)].
Definition get_iv_size {E} self : outcome E u16 := match_flag get_iv_size_arms self.
Definition get_tag_size_arms : list (SpdmAeadAlgo * Z) :=
  [(AES_128_GCM, AEAD_AES_128_GCM_TAG_SIZE); (AES_256_GCM, AEAD_AES_256_GCM_TAG_SIZE);
   (CHACHA20_POLY1305, AEAD_CHACHA20_POLY1305_TAG_SIZE)].
Definition get_tag_size {E} self : outcome E u16 := match_flag get_tag_size_arms self.
End SpdmAeadAlgo.

(** *** [SpdmReqAsymAlgo] *)
Definition SpdmReqAsymAlgo_desc : flag_desc :=
  mkDesc "SpdmReqAsymAlgo" W16 [0x1; 0x2; 0x4; 0x8; 0x10; 0x20; 0x40; 0x80].
Abbreviation SpdmReqAsymAlgo := (flags SpdmReqAsymAlgo_desc).
#[export] Instance SpdmReqAsymAlgo_desc_ok : DescOk SpdmReqAsymAlgo_desc.
Proof. solve_desc. Qed.
Module SpdmReqAsymAlgo.
Implicit Types self peer : SpdmReqAsymAlgo.
Definition TPM_ALG_RSASSA_2048 : SpdmReqAsymAlgo := mkFlags 0x1.
Definition TPM_ALG_RSAPSS_2048 : SpdmReqAsymAlgo := mkFlags 0x2.
Definition TPM_ALG_RSASSA_3072 : SpdmReqAsymAlgo := mkFlags 0x4.
Definition TPM_ALG_RSAPSS_3072 : SpdmReqAsymAlgo := mkFlags 0x8.
Definition TPM_ALG_ECDSA_ECC_NIST_P256 : SpdmReqAsymAlgo := mkFlags 0x10.
Definition TPM_ALG_RSASSA_4096 : SpdmReqAsymAlgo := mkFlags 0x20.
Definition TPM_ALG_RSAPSS_4096 : SpdmReqAsymAlgo := mkFlags 0x40.
Definition TPM_ALG_ECDSA_ECC_NIST_P384 : SpdmReqAsymAlgo := mkFlags 0x80.
Definition prio_table : list SpdmReqAsymAlgo :=
  [TPM_ALG_ECDSA_ECC_NIST_P384; TPM_ALG_ECDSA_ECC_NIST_P256; TPM_ALG_RSAPSS_4096;
   TPM_ALG_RSAPSS_3072; TPM_ALG_RSAPSS_2048; TPM_ALG_RSASSA_4096; TPM_ALG_RSASSA_3072;
   TPM_ALG_RSASSA_2048].
Definition prioritize self peer := prioritize_with prio_table self peer.
Definition get_sig_size_arms : list (SpdmReqAsymAlgo * Z) :=
  [(TPM_ALG_RSASSA_2048, RSASSA_2048_SIG_SIZE); (TPM_ALG_RSAPSS_2048, RSAPSS_2048_SIG_SIZE);
   (TPM_ALG_RSASSA_3072, RSASSA_3072_SIG_SIZE); (TPM_ALG_RSAPSS_3072, RSAPSS_3072_SIG_SIZE);
   (TPM_ALG_RSASSA_4096, RSASSA_4096_SIG_SIZE); (TPM_ALG_RSAPSS_4096, RSAPSS_4096_SIG_SIZE);
   (TPM_ALG_ECDSA_ECC_NIST_P256, ECDSA_ECC_NIST_P256_SIG_SIZE); (TPM_ALG_ECDSA_ECC_NIST_P384,
   ECDSA_ECC_NIST_P384_SIG_SIZE)].
Definition get_sig_size {E} self : outcome E u16 := match_flag get_sig_size_arms self.
Definition to_base self : SpdmBaseAsymAlgo := default empty_flags (from_bits (bits self)).
Definition from_base (base : SpdmBaseAsymAlgo) : SpdmReqAsymAlgo :=
  default empty_flags (from_bits (wrap 16 (bits base))).
End SpdmReqAsymAlgo.

(** *** [SpdmPqcReqAsymAlgo] *)
Definition SpdmPqcReqAsymAlgo_desc : flag_desc :=
  mkDesc "SpdmPqcReqAsymAlgo" W16 [0x1; 0x2; 0x4].
Abbreviation SpdmPqcReqAsymAlgo := (flags SpdmPqcReqAsymAlgo_desc).
#[export] Instance SpdmPqcReqAsymAlgo_desc_ok : DescOk SpdmPqcReqAsymAlgo_desc.
Proof. solve_desc. Qed.
Module SpdmPqcReqAsymAlgo.
Implicit Types self peer : SpdmPqcReqAsymAlgo.
Definition ALG_MLDSA_44 : SpdmPqcReqAsymAlgo := mkFlags 0x1.
Definition ALG_MLDSA_65 : SpdmPqcReqAsymAlgo := mkFlags 0x2.
Definition ALG_MLDSA_87 : SpdmPqcReqAsymAlgo := mkFlags 0x4.
Definition prio_table : list SpdmPqcReqAsymAlgo :=
  [ALG_MLDSA_44; ALG_MLDSA_65; ALG_MLDSA_87].
Definition prioritize self peer := prioritize_with prio_table self peer.
Definition get_sig_size_arms : list (SpdmPqcReqAsymAlgo * Z) :=
  [(ALG_MLDSA_44, MLDSA_44_SIG_SIZE); (ALG_MLDSA_65, MLDSA_65_SIG_SIZE); (ALG_MLDSA_87,
   MLDSA_87_SIG_SIZE)].
Definition get_sig_size {E} self : outcome E u16 := match_flag get_sig_size_arms self.
Definition to_base self : SpdmPqcAsymAlgo := default empty_flags (from_bits (bits self)).
Definition from_base (base : SpdmPqcAsymAlgo) : SpdmPqcReqAsymAlgo :=
  default empty_flags (from_bits (wrap 16 (bits base))).
End SpdmPqcReqAsymAlgo.

(** *** [SpdmKeyScheduleAlgo] *)
Definition SpdmKeyScheduleAlgo_desc : flag_desc :=
  mkDesc "SpdmKeyScheduleAlgo" W16 [0x01].
Abbreviation SpdmKeyScheduleAlgo := (flags SpdmKeyScheduleAlgo_desc).
#[export] Instance SpdmKeyScheduleAlgo_desc_ok : DescOk SpdmKeyScheduleAlgo_desc.
Proof. solve_desc. Qed.
Module SpdmKeyScheduleAlgo.
Implicit Types self peer : SpdmKeyScheduleAlgo.
Definition SPDM_KEY_SCHEDULE : SpdmKeyScheduleAlgo := mkFlags 0x01.
Definition prio_table : list SpdmKeyScheduleAlgo :=
  [SPDM_KEY_SCHEDULE].
Definition prioritize self peer := prioritize_with prio_table self peer.
End SpdmKeyScheduleAlgo.

(** *** [SpdmKeyUsageMask] *)
Definition SpdmKeyUsageMask_desc : flag_desc :=
  mkDesc "SpdmKeyUsageMask" W16 [0x0001; 0x0002; 0x0004; 0x0008; 0x4000; 0x8000].
Abbreviation SpdmKeyUsageMask := (flags SpdmKeyUsageMask_desc).
#[export] Instance SpdmKeyUsageMask_desc_ok : DescOk SpdmKeyUsageMask_desc.
Proof. solve_desc. Qed.
Module SpdmKeyUsageMask.
Implicit Types self peer : SpdmKeyUsageMask.
Definition KEY_USAGE_MASK_KEY_EX_USE : SpdmKeyUsageMask := mkFlags 0x0001.
Definition KEY_USAGE_MASK_CHALLENGE_USE : SpdmKeyUsageMask := mkFlags 0x0002.
Definition KEY_USAGE_MASK_MEASUREMENT_USE : SpdmKeyUsageMask := mkFlags 0x0004.
Definition KEY_USAGE_MASK_ENDPOINT_INFO_USE : SpdmKeyUsageMask := mkFlags 0x0008.
Definition KEY_USAGE_MASK_STANDARDS_KEY_USE : SpdmKeyUsageMask := mkFlags 0x4000.
Definition KEY_USAGE_MASK_VENDER_KEY_USE : SpdmKeyUsageMask := mkFlags 0x8000.
End SpdmKeyUsageMask.

(** *** [SpdmRequestCapabilityFlags] *)
Definition SpdmRequestCapabilityFlags_desc : flag_desc :=
  mkDesc "SpdmRequestCapabilityFlags" W32 [0x2; 0x4; 0x40; 0x80; 0x100; 0x200; 0x400; 0x800; 0x1000; 0x2000; 0x4000; 0x8000;
   0x10000; 0x20000; 0x400000; 0x800000; 0x2000000; 0x4000000; 0x8000000; 0x80000000].
Abbreviation SpdmRequestCapabilityFlags := (flags SpdmRequestCapabilityFlags_desc).
#[export] Instance SpdmRequestCapabilityFlags_desc_ok : DescOk SpdmRequestCapabilityFlags_desc.
Proof. solve_desc. Qed.
Module SpdmRequestCapabilityFlags.
Implicit Types self peer : SpdmRequestCapabilityFlags.
Definition CERT_CAP : SpdmRequestCapabilityFlags := mkFlags 0x2.
Definition CHAL_CAP : SpdmRequestCapabilityFlags := mkFlags 0x4.
Definition ENCRYPT_CAP : SpdmRequestCapabilityFlags := mkFlags 0x40.
Definition MAC_CAP : SpdmRequestCapabilityFlags := mkFlags 0x80.
Definition MUT_AUTH_CAP : SpdmRequestCapabilityFlags := mkFlags 0x100.
Definition KEY_EX_CAP : SpdmRequestCapabilityFlags := mkFlags 0x200.
Definition PSK_CAP : SpdmRequestCapabilityFlags := mkFlags 0x400.
Definition PSK_RSVD : SpdmRequestCapabilityFlags := mkFlags 0x800.
Definition ENCAP_CAP : SpdmRequestCapabilityFlags := mkFlags 0x1000.
Definition HBEAT_CAP : SpdmRequestCapabilityFlags := mkFlags 0x2000.
Definition KEY_UPD_CAP : SpdmRequestCapabilityFlags := mkFlags 0x4000.
Definition HANDSHAKE_IN_THE_CLEAR_CAP : SpdmRequestCapabilityFlags := mkFlags 0x8000.
Definition PUB_KEY_ID_CAP : SpdmRequestCapabilityFlags := mkFlags 0x10000.
Definition CHUNK_CAP : SpdmRequestCapabilityFlags := mkFlags 0x20000.
Definition EP_INFO_CAP_NO_SIG : SpdmRequestCapabilityFlags := mkFlags 0x400000.
Definition EP_INFO_CAP_SIG : SpdmRequestCapabilityFlags := mkFlags 0x800000.
Definition EVENT_CAP : SpdmRequestCapabilityFlags := mkFlags 0x2000000.
Definition MULTI_KEY_CAP_ONLY : SpdmRequestCapabilityFlags := mkFlags 0x4000000.
Definition MULTI_KEY_CAP_CONN_SEL : SpdmRequestCapabilityFlags := mkFlags 0x8000000.
Definition LARGE_RESP_CAP : SpdmRequestCapabilityFlags := mkFlags 0x80000000.
End SpdmRequestCapabilityFlags.

(** *** [SpdmRequestCapabilityExFlags] *)
Definition SpdmRequestCapabilityExFlags_desc : flag_desc :=
  mkDesc "SpdmRequestCapabilityExFlags" W16 [].
Abbreviation SpdmRequestCapabilityExFlags := (flags SpdmRequestCapabilityExFlags_desc).
#[export] Instance SpdmRequestCapabilityExFlags_desc_ok : DescOk SpdmRequestCapabilityExFlags_desc.
Proof. solve_desc. Qed.
Module SpdmRequestCapabilityExFlags.
Implicit Types self peer : SpdmRequestCapabilityExFlags.
End SpdmRequestCapabilityExFlags.

(** *** [SpdmResponseCapabilityFlags] *)
Definition SpdmResponseCapabilityFlags_desc : flag_desc :=
  mkDesc "SpdmResponseCapabilityFlags" W32 [0x1; 0x2; 0x4; 0x8; 0x10; 0x20; 0x40; 0x80; 0x100; 0x200; 0x400; 0x800; 0x1000;
   0x2000; 0x4000; 0x8000; 0x10000; 0x20000; 0x40000; 0x80000; 0x100000; 0x200000; 0x400000;
   0x800000; 0x1000000; 0x2000000; 0x4000000; 0x8000000; 0x10000000; 0x20000000; 0x40000000;
   0x80000000].
Abbreviation SpdmResponseCapabilityFlags := (flags SpdmResponseCapabilityFlags_desc).
#[export] Instance SpdmResponseCapabilityFlags_desc_ok : DescOk SpdmResponseCapabilityFlags_desc.
Proof. solve_desc. Qed.
Module SpdmResponseCapabilityFlags.
Implicit Types self peer : SpdmResponseCapabilityFlags.
Definition CACHE_CAP : SpdmResponseCapabilityFlags := mkFlags 0x1.
Definition CERT_CAP : SpdmResponseCapabilityFlags := mkFlags 0x2.
Definition CHAL_CAP : SpdmResponseCapabilityFlags := mkFlags 0x4.
Definition MEAS_CAP_NO_SIG : SpdmResponseCapabilityFlags := mkFlags 0x8.
Definition MEAS_CAP_SIG : SpdmResponseCapabilityFlags := mkFlags 0x10.
Definition MEAS_FRESH_CAP : SpdmResponseCapabilityFlags := mkFlags 0x20.
Definition ENCRYPT_CAP : SpdmResponseCapabilityFlags := mkFlags 0x40.
Definition MAC_CAP : SpdmResponseCapabilityFlags := mkFlags 0x80.
Definition MUT_AUTH_CAP : SpdmResponseCapabilityFlags := mkFlags 0x100.
Definition KEY_EX_CAP : SpdmResponseCapabilityFlags := mkFlags 0x200.
Definition PSK_CAP_WITHOUT_CONTEXT : SpdmResponseCapabilityFlags := mkFlags 0x400.
Definition PSK_CAP_WITH_CONTEXT : SpdmResponseCapabilityFlags := mkFlags 0x800.
Definition ENCAP_CAP : SpdmResponseCapabilityFlags := mkFlags 0x1000.
Definition HBEAT_CAP : SpdmResponseCapabilityFlags := mkFlags 0x2000.
Definition KEY_UPD_CAP : SpdmResponseCapabilityFlags := mkFlags 0x4000.
Definition HANDSHAKE_IN_THE_CLEAR_CAP : SpdmResponseCapabilityFlags := mkFlags 0x8000.
Definition PUB_KEY_ID_CAP : SpdmResponseCapabilityFlags := mkFlags 0x10000.
Definition CHUNK_CAP : SpdmResponseCapabilityFlags := mkFlags 0x20000.
Definition ALIAS_CERT_CAP : SpdmResponseCapabilityFlags := mkFlags 0x40000.
Definition SET_CERT_CAP : SpdmResponseCapabilityFlags := mkFlags 0x80000.
Definition CSR_CAP : SpdmResponseCapabilityFlags := mkFlags 0x100000.
Definition CERT_INSTALL_RESET_CAP : SpdmResponseCapabilityFlags := mkFlags 0x200000.
Definition EP_INFO_CAP_NO_SIG : SpdmResponseCapabilityFlags := mkFlags 0x400000.
Definition EP_INFO_CAP_SIG : SpdmResponseCapabilityFlags := mkFlags 0x800000.
Definition MEL_CAP : SpdmResponseCapabilityFlags := mkFlags 0x1000000.
Definition EVENT_CAP : SpdmResponseCapabilityFlags := mkFlags 0x2000000.
Definition MULTI_KEY_CAP_ONLY : SpdmResponseCapabilityFlags := mkFlags 0x4000000.
Definition MULTI_KEY_CAP_CONN_SEL : SpdmResponseCapabilityFlags := mkFlags 0x8000000.
Definition GET_KEY_PAIR_INFO_CAP : SpdmResponseCapabilityFlags := mkFlags 0x10000000.
Definition SET_KEY_PAIR_INFO_CAP : SpdmResponseCapabilityFlags := mkFlags 0x20000000.
Definition SET_KEY_PAIR_RESET_CAP : SpdmResponseCapabilityFlags := mkFlags 0x40000000.
Definition LARGE_RESP_CAP : SpdmResponseCapabilityFlags := mkFlags 0x80000000.
End SpdmResponseCapabilityFlags.

(** *** [SpdmResponseCapabilityExFlags] *)
Definition SpdmResponseCapabilityExFlags_desc : flag_desc :=
  mkDesc "SpdmResponseCapabilityExFlags" W16 [0x1].
Abbreviation SpdmResponseCapabilityExFlags := (flags SpdmResponseCapabilityExFlags_desc).
#[export] Instance SpdmResponseCapabilityExFlags_desc_ok : DescOk SpdmResponseCapabilityExFlags_desc.
Proof. solve_desc. Qed.
Module SpdmResponseCapabilityExFlags.
Implicit Types self peer : SpdmResponseCapabilityExFlags.
Definition SLOT_MGMT_CAP : SpdmResponseCapabilityExFlags := mkFlags 0x1.
End SpdmResponseCapabilityExFlags.

(** *** [SpdmCapabilityParam1] *)
Definition SpdmCapabilityParam1_desc : flag_desc :=
  mkDesc "SpdmCapabilityParam1" W8 [0x1].
Abbreviation SpdmCapabilityParam1 := (flags SpdmCapabilityParam1_desc).
#[export] Instance SpdmCapabilityParam1_desc_ok : DescOk SpdmCapabilityParam1_desc.
Proof. solve_desc. Qed.
Module SpdmCapabilityParam1.
Implicit Types self peer : SpdmCapabilityParam1.
Definition SUPPORTED_ALGOS_EXT_CAP : SpdmCapabilityParam1 := mkFlags 0x1.
End SpdmCapabilityParam1.

(** ** Negotiation tables *)
Ltac solve_table := apply table_ok_correct; vm_compute; reflexivity.

Lemma prio_measurement : prioritize_correct SpdmMeasurementSpecification.prio_table.
Proof. solve_table. Qed.
Lemma prio_base_asym : prioritize_correct SpdmBaseAsymAlgo.prio_table.
Proof. solve_table. Qed.
Lemma prio_pqc_asym : prioritize_correct SpdmPqcAsymAlgo.prio_table.
Proof. solve_table. Qed.
Lemma prio_base_hash : prioritize_correct SpdmBaseHashAlgo.prio_table.
Proof. solve_table. Qed.
Lemma prio_mel : prioritize_correct SpdmMelSpecification.prio_table.
Proof. solve_table. Qed.
Lemma prio_dhe : prioritize_correct SpdmDheAlgo.prio_table.
Proof. solve_table. Qed.
Lemma prio_kem : prioritize_correct SpdmKemAlgo.prio_table.
Proof. solve_table. Qed.
Lemma prio_aead : prioritize_correct SpdmAeadAlgo.prio_table.
Proof. solve_table. Qed.
Lemma prio_req_asym : prioritize_correct SpdmReqAsymAlgo.prio_table.
Proof. solve_table. Qed.
Lemma prio_pqc_req_asym : prioritize_correct SpdmPqcReqAsymAlgo.prio_table.
Proof. solve_table. Qed.
Lemma prio_key_schedule : prioritize_correct SpdmKeyScheduleAlgo.prio_table.
Proof. solve_table. Qed.

(** [size_within get cap]: the lookup [get] returns a size between 0 and [cap]
    on every valid single selection. *)
Definition size_within {d} (get : flags d → outcome unit Z) (cap : Z) : Prop :=
  ∀ self, flags_wf self → is_valid_one_select self = true → ∃ n, get self = Ok n ∧ 0 ≤ n ≤ cap.

Lemma match_flag_within {d} (arms : list (flags d * Z)) cap :
  arms_ok arms = true → forallb (λ n, (0 <=? n) && (n <=? cap)) arms.*2 = true →
  size_within (match_flag arms) cap.
Proof.
  intros Ha Hc self Hw Hv. destruct (match_flag_total (E:=unit) arms self Ha Hw Hv) as (n & -> & Hn).
  rewrite forallb_forall in Hc. specialize (Hc n (proj1 (list_elem_of_In _ _) Hn)).
  exists n. split; [done|]. lia.
Qed.

(** Two lookups agree on every valid single selection. *)
Definition same_size {d} (get get' : flags d → outcome unit Z) : Prop :=
  ∀ self, flags_wf self → is_valid_one_select self = true → get self = get' self.
Lemma match_flag_same {d} (arms : list (flags d * Z)) get' :
  arms_ok arms = true → forallb (λ a, bool_decide (match_flag arms a = get' a)) arms.*1 = true →
  same_size (match_flag arms) get'.
Proof.
  intros Ha Hs self Hw Hv. pose proof (single_in_consts self arms Ha Hw Hv) as Hin.
  rewrite forallb_forall in Hs. specialize (Hs self (proj1 (list_elem_of_In _ _) Hin)). by apply bool_decide_eq_true in Hs.
Qed.

Lemma base_hash_size_within : size_within SpdmBaseHashAlgo.get_size SPDM_MAX_HASH_SIZE.
Proof. by apply match_flag_within. Qed.

(** The request-side signature types and the base types convert back and
    forth without loss. *)
Lemma req_asym_to_from_base (a : SpdmReqAsymAlgo) :
  flags_wf a → SpdmReqAsymAlgo.from_base (SpdmReqAsymAlgo.to_base a) = a.
Proof.
  intros [Hm [H0 Hw]]. unfold SpdmReqAsymAlgo.to_base, SpdmReqAsymAlgo.from_base.
  change (VALID_MASK SpdmReqAsymAlgo_desc) with (VALID_MASK SpdmBaseAsymAlgo_desc) in Hm.
  rewrite <- Hm, from_bits_masked. cbn [default id bits].
  rewrite wrap_small by (rewrite Hm; by split).
  change (VALID_MASK SpdmBaseAsymAlgo_desc) with (VALID_MASK SpdmReqAsymAlgo_desc) in *.
  rewrite from_bits_masked, Hm. by destruct a.
Qed.

(** ** Properties *)

(** Negotiation picks correctly: for every algorithm family, [prioritize]
    leaves the first algorithm of the family's priority table that both sides
    support, as a single valid selection, and the empty selection exactly when
    the two sides have nothing in common. *)
Theorem prioritize_selects_best :
  prioritize_correct SpdmMeasurementSpecification.prio_table ∧
  prioritize_correct SpdmBaseAsymAlgo.prio_table ∧ prioritize_correct SpdmPqcAsymAlgo.prio_table ∧
  prioritize_correct SpdmBaseHashAlgo.prio_table ∧ prioritize_correct SpdmMelSpecification.prio_table ∧
  prioritize_correct SpdmDheAlgo.prio_table ∧ prioritize_correct SpdmKemAlgo.prio_table ∧
  prioritize_correct SpdmAeadAlgo.prio_table ∧ prioritize_correct SpdmReqAsymAlgo.prio_table ∧
  prioritize_correct SpdmPqcReqAsymAlgo.prio_table ∧ prioritize_correct SpdmKeyScheduleAlgo.prio_table.
Proof.
  split_and!; [apply prio_measurement|apply prio_base_asym|apply prio_pqc_asym|apply prio_base_hash
    |apply prio_mel|apply prio_dhe|apply prio_kem|apply prio_aead|apply prio_req_asym
    |apply prio_pqc_req_asym|apply prio_key_schedule].
Qed.

(** *** The sizes the standards give

    From the parameters of the algorithms: the modulus of RSA, two coordinates
    of ECDSA, FIPS 203 for ML-KEM and FIPS 204 for ML-DSA. *)
Definition asym_sig_bits (a : SpdmBaseAsymAlgo) : Z :=
  if decide (a = SpdmBaseAsymAlgo.TPM_ALG_RSASSA_2048 ∨ a = SpdmBaseAsymAlgo.TPM_ALG_RSAPSS_2048) then 2048
  else if decide (a = SpdmBaseAsymAlgo.TPM_ALG_RSASSA_3072 ∨ a = SpdmBaseAsymAlgo.TPM_ALG_RSAPSS_3072) then 3072
  else if decide (a = SpdmBaseAsymAlgo.TPM_ALG_RSASSA_4096 ∨ a = SpdmBaseAsymAlgo.TPM_ALG_RSAPSS_4096) then 4096
  else if decide (a = SpdmBaseAsymAlgo.TPM_ALG_ECDSA_ECC_NIST_P256) then 2 * 256
  else 2 * 384.
Definition hash_bits (a : SpdmBaseHashAlgo) : Z :=
  if decide (a = SpdmBaseHashAlgo.TPM_ALG_SHA_256) then 256
  else if decide (a = SpdmBaseHashAlgo.TPM_ALG_SHA_384) then 384 else 512.
(** The rank of the module and the bits to which a ciphertext is compressed. *)
Definition mlkem_params (a : SpdmKemAlgo) : Z * Z * Z :=
  if decide (a = SpdmKemAlgo.ALG_MLKEM_512) then (2, 10, 4)
  else if decide (a = SpdmKemAlgo.ALG_MLKEM_768) then (3, 10, 4) else (4, 11, 5).
Definition mlkem_encap_key_size (a : SpdmKemAlgo) : Z := let '(k, _, _) := mlkem_params a in 384 * k + 32.
Definition mlkem_cipher_text_size (a : SpdmKemAlgo) : Z := let '(k, du, dv) := mlkem_params a in 32 * (du * k + dv).
(** Strength, dimensions, bits of a coefficient and weight of the hint. *)
Definition mldsa_params (a : SpdmPqcAsymAlgo) : Z * Z * Z * Z * Z :=
  if decide (a = SpdmPqcAsymAlgo.ALG_MLDSA_44) then (128, 4, 4, 18, 80)
  else if decide (a = SpdmPqcAsymAlgo.ALG_MLDSA_65) then (192, 6, 5, 20, 55) else (256, 8, 7, 20, 75).
Definition mldsa_sig_size (a : SpdmPqcAsymAlgo) : Z :=
  let '(lambda, k, l, bits, omega) := mldsa_params a in lambda / 4 + l * 32 * bits + omega + k.
Definition aead_key_bits (a : SpdmAeadAlgo) : Z := if decide (a = SpdmAeadAlgo.AES_128_GCM) then 128 else 256.


(** (finding) the two post-quantum signature families disagree on what is
    best: when both sides support every parameter set, the responder family
    selects the strongest, ML-DSA-87, and the requester family the weakest,
    ML-DSA-44. *)
Theorem pqc_priorities_disagree (all : SpdmPqcAsymAlgo) (all_req : SpdmPqcReqAsymAlgo) :
  bits all = VALID_MASK SpdmPqcAsymAlgo_desc → bits all_req = VALID_MASK SpdmPqcReqAsymAlgo_desc →
  SpdmPqcAsymAlgo.prioritize all all = SpdmPqcAsymAlgo.ALG_MLDSA_87 ∧
  SpdmPqcReqAsymAlgo.prioritize all_req all_req = SpdmPqcReqAsymAlgo.ALG_MLDSA_44.
Proof. destruct all as [x], all_req as [y]. intros H1 H2. cbv in H1, H2. subst. by split. Qed.

Lemma pqc_priorities_disagree_witness :
  SpdmPqcAsymAlgo.prioritize (mkFlags 7) (mkFlags 7) = SpdmPqcAsymAlgo.ALG_MLDSA_87 ∧
  SpdmPqcReqAsymAlgo.prioritize (mkFlags 7) (mkFlags 7) = SpdmPqcReqAsymAlgo.ALG_MLDSA_44.
Proof. apply (pqc_priorities_disagree (mkFlags 7) (mkFlags 7)); reflexivity. Defined.
