(* ===== verification/DataTypes.v ===== *)
(** * Sized data structures

    Models the data types of src/spdmlib/src/protocol/algo.rs that hold a
    length and a fixed buffer: the types of [create_sensitive_datatype!]
    (digests, secrets, keys), [SpdmPskHintStruct], and the HKDF material with
    its conversions.  Proved: the codec contract for all of them at once, and
    that a conversion keeps the content. *)

From S2P Require Import Prelude Codec Status Algo.

Definition MAX_SPDM_PSK_HINT_SIZE : usize := 32.
Definition MAX_SPDM_PSK_CONTEXT_SIZE : usize := 64.
Definition MAX_SPDM_OPAQUE_SIZE : usize := 1024.

(** The structures of a 16-bit size and a zero-padded array, as one family
    over their names: the types generated by the macro and the signature,
    exchange and PSK structures.  The latter go over the wire without their
    size (see SpdmCodec); only the others and the opaque data are encoded with
    it. *)
Inductive sens_kind :=
| KDigest | KSharedSecretFinalKey | KHandshakeSecret | KDirectionHandshakeSecret
| KFinishedKey | KMasterSecret | KDirectionDataSecret | KAeadKey | KAeadIv
| KExportMasterSecret | KZeroFilled | KHkdfPseudoRandomKey | KHkdfOutputKeyingMaterial
| KPskHint
| KSignature | KDheExchange | KKemEncapKey | KKemCipherText | KReqExchange | KRspExchange
| KPskContext | KOpaque.

Definition cap (k : sens_kind) : usize :=
  match k with
  | KDigest => SPDM_MAX_HASH_SIZE
  | KSharedSecretFinalKey => SPDM_MAX_SHARED_SECRET_SIZE
  | KHandshakeSecret => SPDM_MAX_HASH_SIZE
  | KDirectionHandshakeSecret => SPDM_MAX_HASH_SIZE
  | KFinishedKey => SPDM_MAX_HASH_SIZE
  | KMasterSecret => SPDM_MAX_HASH_SIZE
  | KDirectionDataSecret => SPDM_MAX_HASH_SIZE
  | KAeadKey => SPDM_MAX_AEAD_KEY_SIZE
  | KAeadIv => SPDM_MAX_AEAD_IV_SIZE
  | KExportMasterSecret => SPDM_MAX_HASH_SIZE
  | KZeroFilled => SPDM_MAX_HASH_SIZE
  | KHkdfPseudoRandomKey => SPDM_MAX_HASH_SIZE
  | KHkdfOutputKeyingMaterial => SPDM_MAX_HKDF_OKM_SIZE
  | KPskHint => MAX_SPDM_PSK_HINT_SIZE
  | KSignature => SPDM_MAX_ASYM_SIG_SIZE
  | KDheExchange => SPDM_MAX_DHE_KEY_SIZE
  | KKemEncapKey => SPDM_MAX_KEM_ENCAP_KEY_SIZE
  | KKemCipherText => SPDM_MAX_KEM_CIPHER_TEXT_SIZE
  | KReqExchange => SPDM_MAX_REQ_KEY_EXCHANGE_SIZE
  | KRspExchange => SPDM_MAX_RSP_KEY_EXCHANGE_SIZE
  | KPskContext => MAX_SPDM_PSK_CONTEXT_SIZE
  | KOpaque => MAX_SPDM_OPAQUE_SIZE
  end.

Record sens (k : sens_kind) := mkSens { data_size : u16; data : list Z }.
Arguments mkSens {k} _ _.
Arguments data_size {k} _.
Arguments data {k} _.
#[export] Instance sens_eq_dec k : EqDecision (sens k).
Proof. solve_decision. Defined.

Abbreviation SpdmDigestStruct := (sens KDigest).
Abbreviation SpdmSharedSecretFinalKeyStruct := (sens KSharedSecretFinalKey).
Abbreviation SpdmHandshakeSecretStruct := (sens KHandshakeSecret).
Abbreviation SpdmDirectionHandshakeSecretStruct := (sens KDirectionHandshakeSecret).
Abbreviation SpdmFinishedKeyStruct := (sens KFinishedKey).
Abbreviation SpdmMasterSecretStruct := (sens KMasterSecret).
Abbreviation SpdmDirectionDataSecretStruct := (sens KDirectionDataSecret).
Abbreviation SpdmAeadKeyStruct := (sens KAeadKey).
Abbreviation SpdmAeadIvStruct := (sens KAeadIv).
Abbreviation SpdmExportMasterSecretStruct := (sens KExportMasterSecret).
Abbreviation SpdmZeroFilledStruct := (sens KZeroFilled).
Abbreviation SpdmHkdfPseudoRandomKey := (sens KHkdfPseudoRandomKey).
Abbreviation SpdmHkdfOutputKeyingMaterial := (sens KHkdfOutputKeyingMaterial).
Abbreviation SpdmPskHintStruct := (sens KPskHint).
Abbreviation SpdmSignatureStruct := (sens KSignature).
Abbreviation SpdmDheExchangeStruct := (sens KDheExchange).
Abbreviation SpdmKemEncapKeyStruct := (sens KKemEncapKey).
Abbreviation SpdmKemCipherTextStruct := (sens KKemCipherText).
Abbreviation SpdmReqExchangeStruct := (sens KReqExchange).
Abbreviation SpdmRspExchangeStruct := (sens KRspExchange).
Abbreviation SpdmPskContextStruct := (sens KPskContext).
Abbreviation SpdmOpaqueStruct := (sens KOpaque).

Section Sens.
Context {k : sens_kind}.

Definition sens_default : sens k := mkSens 0 (zeros (cap k)).
Definition sens_as_ref {E} (d : sens k) : outcome E (list Z) :=
  or_panic (slice (data d) 0 (data_size d)).
(** [From<&[u8]>] and [From<BytesMutStrubbed>] *)
Definition sens_from {E} (value : list Z) : outcome E (sens k) :=
  if len value <=? cap k then
    let! d := or_panic (copy_from_slice (zeros (cap k)) 0 (len value) value) in
    Ok (mkSens (wrap 16 (len value)) d)
  else Panic.
Definition sens_encode (d : sens k) : M Writer EncodeErr usize :=
  let* s := encode (data_size d) in
  let* n := encode_prefix (data_size d) (data d) in
  ret (s + n).
Definition sens_read : M Reader unit (sens k) :=
  let* size := read (A:=u16) in
  if wrap 16 (cap k) <? size then throw tt else
  let* d := read_prefix size (zeros (cap k)) in
  ret (mkSens size d).

End Sens.

#[export] Instance codec_sens {k} : Codec (sens k) := {| encode := sens_encode; read := sens_read |}.

(** [from_spdm_hkdf_okm], [from_spdm_hkdf_prk]: [None] is [Err]. *)
Definition sens_convert {a b} (x : sens a) : outcome unit (sens b) :=
  if (data_size x =? 0) || (wrap 16 (cap b) <? data_size x) then Err tt
  else
    let! src := or_panic (slice (data x) 0 (data_size x)) in
    let! d := or_panic (copy_from_slice (zeros (cap b)) 0 (data_size x) src) in
    Ok (mkSens (data_size x) d).

(** [from_dhe], [to_dhe], [from_kem] and [to_kem] of the exchange structures. *)
Definition sens_copy {E a b} (x : sens a) : outcome E (sens b) :=
  if data_size x <=? wrap 16 (cap b) then
    let! src := or_panic (slice (data x) 0 (data_size x)) in
    let! d := or_panic (copy_from_slice (zeros (cap b)) 0 (data_size x) src) in
    Ok (mkSens (data_size x) d)
  else Panic.

(** *** HKDF input *)
Inductive SpdmHkdfInputKeyingMaterial :=
| IkmZeroFilled (inner : SpdmZeroFilledStruct)
| IkmSharedSecretFinalKey (inner : SpdmSharedSecretFinalKeyStruct)
| IkmHandshakeSecret (inner : SpdmHandshakeSecretStruct)
| IkmDirectionHandshakeSecret (inner : SpdmDirectionHandshakeSecretStruct)
| IkmFinishedKey (inner : SpdmFinishedKeyStruct)
| IkmDigest (inner : SpdmDigestStruct)
| IkmMasterSecret (inner : SpdmMasterSecretStruct)
| IkmDirectionDataSecret (inner : SpdmDirectionDataSecretStruct).

Inductive SpdmMajorSecret :=
| MajorDirectionHandshakeSecret (s : SpdmDirectionHandshakeSecretStruct)
| MajorDirectionDataSecret (s : SpdmDirectionDataSecretStruct).

Definition ikm_as_ref {E} (i : SpdmHkdfInputKeyingMaterial) : outcome E (list Z) :=
  match i with
  | IkmZeroFilled x => sens_as_ref x
  | IkmSharedSecretFinalKey x => sens_as_ref x
  | IkmHandshakeSecret x => sens_as_ref x
  | IkmDirectionHandshakeSecret x => sens_as_ref x
  | IkmDigest x => sens_as_ref x
  | IkmMasterSecret x => sens_as_ref x
  | IkmDirectionDataSecret x => sens_as_ref x
  | IkmFinishedKey x => sens_as_ref x
  end.
Definition ikm_get_data_size (i : SpdmHkdfInputKeyingMaterial) : u16 :=
  match i with
  | IkmZeroFilled x => data_size x
  | IkmSharedSecretFinalKey x => data_size x
  | IkmHandshakeSecret x => data_size x
  | IkmDirectionHandshakeSecret x => data_size x
  | IkmDigest x => data_size x
  | IkmMasterSecret x => data_size x
  | IkmDirectionDataSecret x => data_size x
  | IkmFinishedKey x => data_size x
  end.

(** The raw buffer of the arm [prk.data[..n].copy_from_slice(&inner.data[..n])]. *)
Definition ikm_data (i : SpdmHkdfInputKeyingMaterial) : list Z :=
  match i with
  | IkmZeroFilled x => data x
  | IkmSharedSecretFinalKey x => data x
  | IkmHandshakeSecret x => data x
  | IkmDirectionHandshakeSecret x => data x
  | IkmFinishedKey x => data x
  | IkmDigest x => data x
  | IkmMasterSecret x => data x
  | IkmDirectionDataSecret x => data x
  end.
Definition from_input_keying_material (i : SpdmHkdfInputKeyingMaterial) :
  outcome unit SpdmHkdfPseudoRandomKey :=
  let n := ikm_get_data_size i in
  if (n =? 0) || (wrap 16 SPDM_MAX_HASH_SIZE <? n) then Err tt
  else
    let! src := or_panic (slice (ikm_data i) 0 n) in
    let! d := or_panic (copy_from_slice (zeros SPDM_MAX_HASH_SIZE) 0 n src) in
    Ok (mkSens n d).

(** ** Laws

    [sens_of bs] is the canonical value with content [bs]: the buffer is
    zero beyond the content, as every constructor of the source leaves it. *)
Section SensLaws.
Context {k : sens_kind}.

Definition sens_of (bs : list Z) : sens k := mkSens (len bs) (bs ++ zeros (cap k - len bs)).
Definition content (d : sens k) : list Z := ztake (data_size d) (data d).
Definition sens_wf (d : sens k) : Prop :=
  d = sens_of (content d) ∧ data_size d ≤ cap k ∧ bytes_wf (content d).

Lemma cap_bound : 0 < cap k ≤ 4627.
Proof. destruct k; cbv; split; congruence. Qed.

Lemma content_of bs : content (sens_of bs) = bs.
Proof. unfold content, sens_of. cbn. apply ztake_app. Qed.

Lemma sens_of_wf bs : len bs ≤ cap k → bytes_wf bs → sens_wf (sens_of bs).
Proof. intros. unfold sens_wf. rewrite content_of. by cbn. Qed.

(** Decides [sens_wf] of concrete structures. *)
Lemma sens_of_check bs : (len bs <=? cap k) && forallb is_byte bs = true → sens_wf (sens_of bs).
Proof. intros [Hl Hb]%andb_prop. apply sens_of_wf; [lia|by apply is_byte_wf]. Qed.

Lemma len_content d : sens_wf d → len (content d) = data_size d.
Proof. intros (Hd & _). by apply (f_equal data_size) in Hd. Qed.

Lemma sens_wf_inv d : sens_wf d → 0 ≤ data_size d ≤ cap k ∧ len (data d) = cap k.
Proof.
  intros H. pose proof (len_content d H) as Hl. destruct H as (Hd & Hc & _).
  pose proof (len_nonneg (content d)). split; [lia|].
  apply (f_equal data) in Hd. rewrite Hd. unfold sens_of. cbn. zlia.
Qed.

Lemma sens_default_wf : sens_wf sens_default.
Proof.
  pose proof cap_bound. unfold sens_default.
  replace (mkSens 0 (zeros (cap k))) with (sens_of []).
  - apply sens_of_wf; [rewrite len_nil; lia|constructor].
  - unfold sens_of. rewrite len_nil, Z.sub_0_r. done.
Qed.

Lemma copy_prefix_zeros n bs :
  len bs ≤ n → copy_from_slice (zeros n) 0 (len bs) bs = Some (bs ++ zeros (n - len bs)).
Proof.
  intros Hn. pose proof (len_nonneg bs). rewrite copy_from_slice_spec by zlia.
  unfold splice. rewrite ztake_0. cbn [app]. do 2 f_equal.
  unfold zdrop, zeros. rewrite drop_replicate. f_equal. lia.
Qed.

Lemma sens_from_ok {E} bs :
  len bs ≤ cap k → sens_from (E:=E) bs = Ok (sens_of bs).
Proof.
  intros Hl. pose proof (len_nonneg bs). pose proof cap_bound. unfold sens_from.
  replace (len bs <=? cap k) with true by lia. rewrite copy_prefix_zeros by done. cbn.
  rewrite wrap_small; [done|]. unfold in_width. lia.
Qed.

Lemma sens_as_ref_ok {E} d : sens_wf d → sens_as_ref (E:=E) d = Ok (content d).
Proof.
  intros H. destruct (sens_wf_inv d H). unfold sens_as_ref. rewrite slice_spec by lia.
  cbn. unfold content. by rewrite Z.sub_0_r.
Qed.

(** Values are equal when their contents are. *)
Lemma sens_ext d1 d2 : sens_wf d1 → sens_wf d2 → content d1 = content d2 → d1 = d2.
Proof. intros (-> & _) (-> & _). by rewrite !content_of; intros ->. Qed.

End SensLaws.

#[export] Program Instance codec_ok_sens {k} : CodecOk (sens k) :=
  {| wf := sens_wf; bytes d := le_bytes 2 (data_size d) ++ content d |}.
Next Obligation. intros k d (_ & _ & H). apply bytes_wf_app. auto with wfb. Qed.
Next Obligation.
  intros k d H. unfold encode at 1, codec_sens, sens_encode, content. solve_writes.
Qed.
Next Obligation.
  intros k d H. destruct (sens_wf_inv d H) as [Hs Hl]. pose proof (cap_bound (k:=k)).
  pose proof (len_content d H) as Hc. destruct H as (Hd & _ & Hb).
  unfold read, codec_sens, sens_read. eapply decodes_bind.
  { apply decodes_u16. unfold in_width. lia. }
  rewrite wrap_small by (unfold in_width; lia).
  replace (cap k <? data_size d) with false by lia.
  rewrite <- (app_nil_r (content d)).
  eapply decodes_bind; [apply decodes_prefix; [done|by rewrite Hc|zlia]|].
  replace (mkSens _ _) with d; [apply decodes_ret|].
  rewrite Hd at 1. unfold sens_of. rewrite Hc. do 2 f_equal.
  unfold zdrop, zeros. rewrite drop_replicate. f_equal. lia.
Qed.
Next Obligation.
  intros k. pose proof (cap_bound (k:=k)). unfold read, codec_sens, sens_read.
  eapply reads_bind; [apply reads_u16|]. intros n Hn. apply reads_if; intros Hb; [apply reads_throw|].
  rewrite wrap_small in Hb by (unfold in_width; lia). unfold in_width in Hn.
  eapply reads_bind; [apply (reads_prefix_zeros n (cap k)); lia|].
  intros l (bs & -> & Hl & Hw). apply reads_ret. replace (mkSens n _) with (sens_of (k:=k) bs).
  - apply sens_of_wf; [lia|done].
  - unfold sens_of. by rewrite Hl.
Qed.

(** A conversion keeps the content; it fails only for an empty value or one
    that does not fit. *)
Lemma sens_convert_ok {a b} (x : sens a) :
  sens_wf x → 0 < data_size x ≤ cap b →
  sens_convert (b:=b) x = Ok (sens_of (content x)).
Proof.
  intros H Hs. destruct (sens_wf_inv x H) as [Hx Hl]. pose proof (cap_bound (k:=b)).
  pose proof (len_content x H) as Hc. unfold sens_convert.
  rewrite wrap_small by (unfold in_width; lia).
  replace ((data_size x =? 0) || (cap b <? data_size x)) with false by lia.
  rewrite slice_spec by lia. rewrite Z.sub_0_r. change (ztake _ (zdrop 0 (data x))) with (content x).
  cbn [or_panic obind]. rewrite <- Hc, copy_prefix_zeros by lia. cbn [or_panic obind].
  unfold sens_of. by rewrite Hc.
Qed.

Lemma sens_convert_err {a b} (x : sens a) :
  sens_wf x → data_size x = 0 ∨ cap b < data_size x → sens_convert (b:=b) x = Err tt.
Proof.
  intros H Hs. destruct (sens_wf_inv x H) as [Hx Hl]. pose proof (cap_bound (k:=b)).
  unfold sens_convert. rewrite wrap_small by (unfold in_width; lia).
  by replace ((data_size x =? 0) || (cap b <? data_size x)) with true by lia.
Qed.

Lemma sens_convert_wf {a b} (x : sens a) y :
  sens_wf x → sens_convert (b:=b) x = Ok y → sens_wf y ∧ content y = content x ∧ 0 < data_size y.
Proof.
  intros Hx Hy.
  assert (0 < data_size x ≤ cap b ∨ ¬ 0 < data_size x ≤ cap b) as [Hs|Hs] by lia.
  - rewrite sens_convert_ok in Hy by done. injection Hy as <-. rewrite content_of.
    pose proof (len_content x Hx). split_and!; [|done|cbn; lia]. destruct Hx as (_ & _ & ?).
    apply sens_of_wf; [lia|done].
  - destruct (sens_wf_inv x Hx). rewrite sens_convert_err in Hy; [done|done|lia].
Qed.

(** The HKDF input as a pseudo-random key. *)
Definition ikm_content (i : SpdmHkdfInputKeyingMaterial) : list Z :=
  ztake (ikm_get_data_size i) (ikm_data i).

Definition ikm_wf (i : SpdmHkdfInputKeyingMaterial) : Prop :=
  match i with
  | IkmZeroFilled x => sens_wf x
  | IkmSharedSecretFinalKey x => sens_wf x
  | IkmHandshakeSecret x => sens_wf x
  | IkmDirectionHandshakeSecret x => sens_wf x
  | IkmFinishedKey x => sens_wf x
  | IkmDigest x => sens_wf x
  | IkmMasterSecret x => sens_wf x
  | IkmDirectionDataSecret x => sens_wf x
  end.

Lemma ikm_as_ref_ok {E} i : ikm_wf i → ikm_as_ref (E:=E) i = Ok (ikm_content i).
Proof. destruct i; cbn; intros; by apply sens_as_ref_ok. Qed.

Lemma ikm_wf_inv i :
  ikm_wf i → 0 ≤ ikm_get_data_size i ≤ SPDM_MAX_HASH_SIZE ∧
             ikm_get_data_size i ≤ len (ikm_data i) ∧ bytes_wf (ikm_content i).
Proof.
  unfold ikm_content, SPDM_MAX_HASH_SIZE.
  destruct i as [x|x|x|x|x|x|x|x]; cbn [ikm_wf ikm_get_data_size ikm_data]; intros H;
    pose proof (sens_wf_inv _ H) as [Hs Hl]; destruct H as (_ & _ & Hb);
    match type of x with sens ?k => assert (cap k ≤ 64) by (by vm_compute) end;
    rewrite Hl; (split_and!; [lia..|exact Hb]).
Qed.

Lemma sens_copy_ok {E a b} (x : sens a) :
  sens_wf x → data_size x ≤ cap b → sens_copy (E:=E) (b:=b) x = Ok (sens_of (content x)).
Proof.
  intros H Hs. destruct (sens_wf_inv x H) as [Hx Hl]. pose proof (cap_bound (k:=b)).
  pose proof (len_content x H) as Hc. unfold sens_copy. rewrite wrap_small by (unfold in_width; lia).
  replace (data_size x <=? cap b) with true by lia. rewrite slice_spec by lia.
  rewrite Z.sub_0_r, zdrop_0. fold (content x). cbn [or_panic obind].
  rewrite <- Hc, copy_prefix_zeros by lia. done.
Qed.

Lemma from_ikm_ok i :
  ikm_wf i → 0 < ikm_get_data_size i →
  from_input_keying_material i = Ok (sens_of (ikm_content i)).
Proof.
  intros Hi Hp. destruct (ikm_wf_inv i Hi) as (Hs & Hl & Hb).
  assert (len (ikm_content i) = ikm_get_data_size i) as Hlen by (unfold ikm_content; zlia).
  unfold from_input_keying_material.
  rewrite wrap_small by (unfold in_width, SPDM_MAX_HASH_SIZE; lia).
  replace ((ikm_get_data_size i =? 0) || (SPDM_MAX_HASH_SIZE <? ikm_get_data_size i)) with false by lia.
  rewrite slice_spec by lia. rewrite Z.sub_0_r, zdrop_0. fold (ikm_content i).
  cbn [or_panic obind]. rewrite <- Hlen, copy_prefix_zeros by lia. done.
Qed.

(** ** Properties *)

(** Converting key material between the size-bounded structures keeps it:
    the conversion of a well-formed value returns a value with the same
    content when it is not empty and fits, and refuses it otherwise; the
    codec of each structure is the length and the content, round-trips, and
    never panics. *)
Theorem key_material_preserved (a b : sens_kind) (x : sens a) :
  sens_wf x →
  sens_convert (b:=b) x
    = (if (0 <? data_size x) && (data_size x <=? cap b) then Ok (sens_of (content x)) else Err tt) ∧
  codec_correct (A:=sens a) sens_wf (λ d, le_bytes 2 (data_size d) ++ content d).
Proof.
  intros Hx. destruct (sens_wf_inv x Hx) as [Hs _]. split; [|exact (codec_ok_correct (A:=sens a))].
  btest; [by apply sens_convert_ok; [|lia]|]. apply sens_convert_err; [done|]. lia.
Qed.

Lemma key_material_preserved_witness :
  sens_convert (b:=KAeadKey) (sens_of (k:=KDigest) [1; 2]) = Ok (sens_of [1; 2]).
Proof.
  refine (proj1 (key_material_preserved KDigest KAeadKey (sens_of [1; 2]) _)).
  apply sens_of_wf; [by vm_compute|]. repeat (apply bytes_wf_cons; split; [unfold byte; lia|]).
  apply bytes_wf_nil.
Defined.
