(* ===== verification/Structs.v ===== *)
(** * Structures of the messages

    Models the rest of src/spdmlib/src/protocol/algo.rs: the algorithm
    structures of NEGOTIATE_ALGORITHMS, nonces and contexts, and the
    measurement structures.  Their constants come from the shipped
    configuration (src/spdmlib/etc/config.json). *)

From S2P Require Import Prelude Codec Status Bitflags Algo DataTypes.

Definition MAX_SPDM_MEASUREMENT_RECORD_SIZE : usize := 4000.
Definition MAX_SPDM_MEASUREMENT_VALUE_LEN : usize := 1024.

(** ** Algorithm structures *)
Inductive SpdmAlgType :=
| SpdmAlgTypeDHE | SpdmAlgTypeAEAD | SpdmAlgTypeReqAsym | SpdmAlgTypeKeySchedule
| SpdmAlgTypePqcReqAsym | SpdmAlgTypeKEM
| AlgTypeUnknown (x : u8).
#[export] Instance SpdmAlgType_eq_dec : EqDecision SpdmAlgType.
Proof. solve_decision. Defined.
#[export] Instance enum_SpdmAlgType : EnumBuilder SpdmAlgType :=
  {| get_int t :=
       match t with
       | SpdmAlgTypeDHE => 0x2 | SpdmAlgTypeAEAD => 0x3 | SpdmAlgTypeReqAsym => 0x4
       | SpdmAlgTypeKeySchedule => 0x5 | SpdmAlgTypePqcReqAsym => 0x6 | SpdmAlgTypeKEM => 0x7
       | AlgTypeUnknown x => x
       end;
     of_int x :=
       if x =? 0x2 then SpdmAlgTypeDHE else
       if x =? 0x3 then SpdmAlgTypeAEAD else
       if x =? 0x4 then SpdmAlgTypeReqAsym else
       if x =? 0x5 then SpdmAlgTypeKeySchedule else
       if x =? 0x6 then SpdmAlgTypePqcReqAsym else
       if x =? 0x7 then SpdmAlgTypeKEM else AlgTypeUnknown x |}.
#[export] Instance codec_SpdmAlgType : Codec SpdmAlgType := enum_u8.

Inductive SpdmAlg :=
| SpdmAlgoDhe (a : SpdmDheAlgo)
| SpdmAlgoAead (a : SpdmAeadAlgo)
| SpdmAlgoReqAsym (a : SpdmReqAsymAlgo)
| SpdmAlgoKeySchedule (a : SpdmKeyScheduleAlgo)
| SpdmAlgoKem (a : SpdmKemAlgo)
| SpdmAlgoPqcReqAsym (a : SpdmPqcReqAsymAlgo)
| SpdmAlgoUnknown.
#[export] Instance SpdmAlg_eq_dec : EqDecision SpdmAlg.
Proof. solve_decision. Defined.

Record SpdmAlgStruct := mkAlgStruct { alg_type : SpdmAlgType; alg_supported : SpdmAlg }.
#[export] Instance SpdmAlgStruct_eq_dec : EqDecision SpdmAlgStruct.
Proof. solve_decision. Defined.
Definition SpdmAlgStruct_default : SpdmAlgStruct := mkAlgStruct (AlgTypeUnknown 0) SpdmAlgoUnknown.

Definition encode_alg (a : SpdmAlg) : M Writer EncodeErr usize :=
  match a with
  | SpdmAlgoDhe a => encode a
  | SpdmAlgoAead a => encode a
  | SpdmAlgoReqAsym a => encode a
  | SpdmAlgoKeySchedule a => encode a
  | SpdmAlgoKem a => encode a
  | SpdmAlgoPqcReqAsym a => encode a
  | SpdmAlgoUnknown => ret 0
  end.
Definition read_alg (t : SpdmAlgType) : M Reader unit SpdmAlg :=
  match t with
  | SpdmAlgTypeDHE => let* a := read in ret (SpdmAlgoDhe a)
  | SpdmAlgTypeAEAD => let* a := read in ret (SpdmAlgoAead a)
  | SpdmAlgTypeReqAsym => let* a := read in ret (SpdmAlgoReqAsym a)
  | SpdmAlgTypeKeySchedule => let* a := read in ret (SpdmAlgoKeySchedule a)
  | SpdmAlgTypeKEM => let* a := read in ret (SpdmAlgoKem a)
  | SpdmAlgTypePqcReqAsym => let* a := read in ret (SpdmAlgoPqcReqAsym a)
  | AlgTypeUnknown _ => throw tt
  end.
#[export] Instance codec_SpdmAlgStruct : Codec SpdmAlgStruct :=
  {| encode s :=
       let alg_fixed_count := 2 in
       let* s0 := encode (alg_type s) in
       let* s1 := encode (wrap 8 (Z.shiftl alg_fixed_count 4) : u8) in
       let* s2 := encode_alg (alg_supported s) in
       ret (s0 + s1 + s2);
     read :=
       let* alg_type := read in
       let* alg_count := read (A:=u8) in
       let alg_fixed_count := Z.land (Z.shiftr alg_count 4) 0xF in
       let alg_ext_count := Z.land alg_count 0xF in
       if negb (alg_fixed_count =? 2) then throw tt else
       if negb (alg_ext_count =? 0) then throw tt else
       let* alg_supported := read_alg alg_type in
       ret (mkAlgStruct alg_type alg_supported) |}.

(** ** Nonces and contexts: structures around a fixed array *)
Record byte_array (n : Z) := mkByteArray { ba_data : list Z }.
Arguments mkByteArray {n} _.
Arguments ba_data {n} _.
Definition byte_array_default {n} : byte_array n := mkByteArray (zeros n).
Abbreviation SpdmNonceStruct := (byte_array SPDM_NONCE_SIZE).
Abbreviation SpdmChallengeContextStruct := (byte_array SPDM_CHALLENGE_CONTEXT_SIZE).
Abbreviation SpdmMeasurementContextStruct := (byte_array SPDM_MEASUREMENTS_CONTEXT_SIZE).
Abbreviation SpdmRandomStruct := (byte_array SPDM_RANDOM_SIZE).
#[export] Instance codec_byte_array {n} : Codec (byte_array n) :=
  {| encode a := let* _ := encode_each (A:=u8) (ba_data a) in ret n;
     read := let* d := read_prefix n (zeros n) in ret (mkByteArray d) |}.

(** ** Measurement summaries *)
Inductive SpdmMeasurementSummaryHashType :=
| SpdmMeasurementSummaryHashTypeNone | SpdmMeasurementSummaryHashTypeTcb
| SpdmMeasurementSummaryHashTypeAll
| SummaryHashTypeUnknown (x : u8).
#[export] Instance SpdmMeasurementSummaryHashType_eq_dec : EqDecision SpdmMeasurementSummaryHashType.
Proof. solve_decision. Defined.
#[export] Instance enum_SpdmMeasurementSummaryHashType : EnumBuilder SpdmMeasurementSummaryHashType :=
  {| get_int t :=
       match t with
       | SpdmMeasurementSummaryHashTypeNone => 0x0 | SpdmMeasurementSummaryHashTypeTcb => 0x1
       | SpdmMeasurementSummaryHashTypeAll => 0xFF | SummaryHashTypeUnknown x => x
       end;
     of_int x :=
       if x =? 0x0 then SpdmMeasurementSummaryHashTypeNone else
       if x =? 0x1 then SpdmMeasurementSummaryHashTypeTcb else
       if x =? 0xFF then SpdmMeasurementSummaryHashTypeAll else SummaryHashTypeUnknown x |}.
#[export] Instance codec_SpdmMeasurementSummaryHashType : Codec SpdmMeasurementSummaryHashType := enum_u8.

(** ** Measurement blocks *)
Inductive SpdmDmtfMeasurementType :=
| SpdmDmtfMeasurementRom | SpdmDmtfMeasurementFirmware | SpdmDmtfMeasurementHardwareConfig
| SpdmDmtfMeasurementFirmwareConfig | SpdmDmtfMeasurementManifest
| SpdmDmtfMeasurementStructuredRepresentationMode | SpdmDmtfMeasurementMutableFirmwareVersionNumber
| SpdmDmtfMeasurementMutableFirmwareSecurityVersionNumber | SpdmDmtfMeasurementHashExtendMeasurement
| SpdmDmtfMeasurementInformational | SpdmDmtfMeasurementStructuredManifest
| MeasurementTypeUnknown (x : u8).
#[export] Instance SpdmDmtfMeasurementType_eq_dec : EqDecision SpdmDmtfMeasurementType.
Proof. solve_decision. Defined.
Definition measurement_type_u8 (t : SpdmDmtfMeasurementType) : u8 :=
  match t with
  | SpdmDmtfMeasurementRom => 0x0 | SpdmDmtfMeasurementFirmware => 0x1
  | SpdmDmtfMeasurementHardwareConfig => 0x2 | SpdmDmtfMeasurementFirmwareConfig => 0x3
  | SpdmDmtfMeasurementManifest => 0x4 | SpdmDmtfMeasurementStructuredRepresentationMode => 0x5
  | SpdmDmtfMeasurementMutableFirmwareVersionNumber => 0x6
  | SpdmDmtfMeasurementMutableFirmwareSecurityVersionNumber => 0x7
  | SpdmDmtfMeasurementHashExtendMeasurement => 0x8 | SpdmDmtfMeasurementInformational => 0x9
  | SpdmDmtfMeasurementStructuredManifest => 0xA
  | MeasurementTypeUnknown x => x
  end.

Inductive SpdmDmtfMeasurementRepresentation :=
| SpdmDmtfMeasurementDigest | SpdmDmtfMeasurementRawBit
| RepresentationUnknown (x : u8).
#[export] Instance SpdmDmtfMeasurementRepresentation_eq_dec : EqDecision SpdmDmtfMeasurementRepresentation.
Proof. solve_decision. Defined.
Definition representation_u8 (r : SpdmDmtfMeasurementRepresentation) : u8 :=
  match r with
  | SpdmDmtfMeasurementDigest => 0x0 | SpdmDmtfMeasurementRawBit => 0x80
  | RepresentationUnknown x => x
  end.

Record SpdmDmtfMeasurementStructure := mkDmtfMeasurement {
  dmtf_type : SpdmDmtfMeasurementType;
  representation : SpdmDmtfMeasurementRepresentation;
  value_size : u16;
  value : list Z;
}.
Definition SpdmDmtfMeasurementStructure_default : SpdmDmtfMeasurementStructure :=
  mkDmtfMeasurement SpdmDmtfMeasurementRom SpdmDmtfMeasurementDigest 0 (zeros MAX_SPDM_MEASUREMENT_VALUE_LEN).
Record SpdmMeasurementBlockStructure := mkMeasurementBlock {
  index : u8;
  measurement_specification : SpdmMeasurementSpecification;
  measurement_size : u16;
  measurement : SpdmDmtfMeasurementStructure;
}.
Record SpdmMeasurementRecordStructure := mkMeasurementRecord {
  number_of_blocks : u8;
  measurement_record_length : u24;
  measurement_record_data : list Z;
}.
Definition SpdmMeasurementRecordStructure_default : SpdmMeasurementRecordStructure :=
  mkMeasurementRecord 0 0 (zeros MAX_SPDM_MEASUREMENT_RECORD_SIZE).

(** [type_value + representation_value], an addition of bytes. *)
Definition dmtf_final_value {E} (d : SpdmDmtfMeasurementStructure) : outcome E u8 :=
  add_checked 8 (measurement_type_u8 (dmtf_type d)) (representation_u8 (representation d)).

(** ** Codec contracts *)
#[export] Instance enum_ok_SpdmAlgType : EnumOk SpdmAlgType 8.
Proof. solve_enum. Qed.
#[export] Instance codec_ok_SpdmAlgType : CodecOk SpdmAlgType := enum_u8_ok.
#[export] Instance enum_ok_SpdmMeasurementSummaryHashType : EnumOk SpdmMeasurementSummaryHashType 8.
Proof. solve_enum. Qed.
#[export] Instance codec_ok_SpdmMeasurementSummaryHashType : CodecOk SpdmMeasurementSummaryHashType := enum_u8_ok.

(** The algorithm of a structure is of its type. *)
Definition alg_wf (s : SpdmAlgStruct) : Prop :=
  match alg_type s, alg_supported s with
  | SpdmAlgTypeDHE, SpdmAlgoDhe a => wf a
  | SpdmAlgTypeAEAD, SpdmAlgoAead a => wf a
  | SpdmAlgTypeReqAsym, SpdmAlgoReqAsym a => wf a
  | SpdmAlgTypeKeySchedule, SpdmAlgoKeySchedule a => wf a
  | SpdmAlgTypeKEM, SpdmAlgoKem a => wf a
  | SpdmAlgTypePqcReqAsym, SpdmAlgoPqcReqAsym a => wf a
  | _, _ => False
  end.
Definition alg_bytes (a : SpdmAlg) : list Z :=
  match a with
  | SpdmAlgoDhe a => bytes a
  | SpdmAlgoAead a => bytes a
  | SpdmAlgoReqAsym a => bytes a
  | SpdmAlgoKeySchedule a => bytes a
  | SpdmAlgoKem a => bytes a
  | SpdmAlgoPqcReqAsym a => bytes a
  | SpdmAlgoUnknown => []
  end.

Lemma alg_wf_canonical s : alg_wf s → wf (alg_type s).
Proof. destruct s as [[] []]; try done; intros _; by vm_compute. Qed.
Lemma writes_alg s : alg_wf s → encodes EncodeErr_ (encode_alg (alg_supported s)) (alg_bytes (alg_supported s)).
Proof. destruct s as [[] []]; try done; intros Hw; exact (encode_ok _ Hw). Qed.
Lemma decodes_alg s : alg_wf s → decodes (read_alg (alg_type s)) (alg_bytes (alg_supported s)) (alg_supported s).
Proof.
  destruct s as [[] []]; try done; intros Hw; cbn [alg_type alg_supported read_alg alg_bytes];
    rewrite <- (app_nil_r (bytes _)); (eapply decodes_bind; [exact (read_ok _ Hw)|apply decodes_ret]).
Qed.
Lemma reads_alg t : wf t → reads (read_alg t) (λ a, alg_wf (mkAlgStruct t a)).
Proof.
  intros Ht. destruct t; cbn [read_alg]; try apply reads_throw;
    (eapply reads_bind; [apply read_safe|intros a Ha; by apply reads_ret]).
Qed.

#[export] Program Instance codec_ok_SpdmAlgStruct : CodecOk SpdmAlgStruct :=
  {| wf := alg_wf; bytes s := bytes (alg_type s) ++ [0x20] ++ alg_bytes (alg_supported s) |}.
Next Obligation.
  intros s Hs. rewrite !bytes_wf_app. split; [by apply bytes_ok, alg_wf_canonical|].
  split; [by apply is_byte_wf|]. destruct s as [[] []]; try done; by apply bytes_ok.
Qed.
Next Obligation.
  intros s Hs. unfold encode at 1, codec_SpdmAlgStruct. eapply writes_eq.
  - eapply writes_bind; [by apply encode_ok, alg_wf_canonical|].
    eapply writes_bind; [apply writes_u8|]. eapply writes_bind; [by apply writes_alg|]. apply writes_ret.
  - by list_norm.
  - zlia.
Qed.
Next Obligation.
  intros s Hs. unfold read at 1, codec_SpdmAlgStruct.
  eapply decodes_bind; [by apply read_ok, alg_wf_canonical|]. cbv beta.
  eapply decodes_bind; [by apply (decodes_u8 0x20)|]. cbn -[alg_bytes].
  rewrite <- (app_nil_r (alg_bytes _)). eapply decodes_bind; [by apply decodes_alg|].
  destruct s. apply decodes_ret.
Qed.
Next Obligation.
  unfold read at 1, codec_SpdmAlgStruct. eapply reads_bind; [apply read_safe|]. intros t Ht.
  eapply reads_bind; [apply reads_u8|]. intros n _. cbv zeta. apply reads_if; intros _; [apply reads_throw|].
  apply reads_if; intros _; [apply reads_throw|].
  eapply reads_bind; [by apply reads_alg|]. intros a Ha. by apply reads_ret.
Qed.

#[export] Program Instance codec_ok_byte_array {n} `{!TCEq (0 <=? n) true} : CodecOk (byte_array n) :=
  {| wf a := len (ba_data a) = n ∧ bytes_wf (ba_data a); bytes a := ba_data a |}.
Next Obligation. by intros n ? a [_ Ha]. Qed.
Next Obligation.
  intros n ? a [Ha _]. unfold encode at 1, codec_byte_array, encodes. rewrite Ha. eapply writes_eq.
  - eapply writes_bind; [apply writes_bytes|apply writes_ret].
  - by list_norm.
  - done.
Qed.
Next Obligation.
  intros n ? a [Ha Hw]. unfold read at 1, codec_byte_array. rewrite <- (app_nil_r (ba_data a)).
  pose proof (len_nonneg (ba_data a)).
  eapply decodes_bind; [apply decodes_prefix; [done|done|rewrite Ha, len_zeros; lia]|].
  cbv beta. rewrite zdrop_all by (rewrite len_zeros; lia). rewrite app_nil_r. destruct a. apply decodes_ret.
Qed.
Next Obligation.
  intros n Hn. assert (0 ≤ n) as H0 by (inversion Hn; lia). unfold read at 1, codec_byte_array.
  eapply reads_bind; [apply reads_prefix, bytes_wf_zeros|]. intros l [Hl Hw]. apply reads_ret. cbn.
  rewrite Hl, len_zeros by done. done.
Qed.
