(* ===== verification/Version.v ===== *)
(** * Protocol versions

    Models src/spdmlib/src/protocol/version.rs: the version enumeration, its
    conversions and codec, and the signing-context constants. *)

From Stdlib Require Import String Ascii.
From S2P Require Import Prelude Codec.

Inductive SpdmVersion :=
| SpdmVersion10 | SpdmVersion11 | SpdmVersion12 | SpdmVersion13 | SpdmVersion14.
#[export] Instance SpdmVersion_eq_dec : EqDecision SpdmVersion.
Proof. solve_decision. Defined.

Definition SpdmVersion_default : SpdmVersion := SpdmVersion10.
Definition version_try_from (v : u8) : option SpdmVersion :=
  if v =? 0x10 then Some SpdmVersion10
  else if v =? 0x11 then Some SpdmVersion11
  else if v =? 0x12 then Some SpdmVersion12
  else if v =? 0x13 then Some SpdmVersion13
  else if v =? 0x14 then Some SpdmVersion14
  else None.
Definition version_u8 (v : SpdmVersion) : u8 :=
  match v with
  | SpdmVersion10 => 0x10 | SpdmVersion11 => 0x11 | SpdmVersion12 => 0x12
  | SpdmVersion13 => 0x13 | SpdmVersion14 => 0x14
  end.

(** The derived order ([PartialOrd], [Ord]) follows the declaration. *)
Definition version_leb (a b : SpdmVersion) : bool := version_u8 a <=? version_u8 b.
Definition version_ltb (a b : SpdmVersion) : bool := version_u8 a <? version_u8 b.

#[export] Instance codec_SpdmVersion : Codec SpdmVersion :=
  {| encode v := encode (version_u8 v);
     read := let* v := read (A:=u8) in lift (ok_or (version_try_from v) tt) |}.

Definition MAX_SPDM_VERSION_COUNT : usize := 5.

(** A byte-string literal. *)
Definition bstr (s : string) : list Z :=
  (λ a, Z.of_nat (nat_of_ascii a)) <$> list_ascii_of_string s.

Definition SPDM_VERSION_1_X_SIGNING_PREFIX_CONTEXT : list Z :=
  bstr "dmtf-spdm-v1.x.*dmtf-spdm-v1.x.*dmtf-spdm-v1.x.*dmtf-spdm-v1.x.*".
Definition SPDM_VERSION_SIGNING_PREFIX_LENGTH : usize := 16.
Definition SPDM_VERSION_SIGNING_PREFIX_NUMBER : nat := 4.
Definition SPDM_VERSION_SIGNING_PREFIX_MAJOR_VER_INDEX : usize := 11.
Definition SPDM_VERSION_SIGNING_PREFIX_MINOR_VER_INDEX : usize := 13.
Definition SPDM_CHALLENGE_AUTH_SIGN_CONTEXT : list Z := bstr "responder-challenge_auth signing".
Definition SPDM_MUT_CHALLENGE_AUTH_SIGN_CONTEXT : list Z := bstr "requester-challenge_auth signing".
Definition SPDM_MEASUREMENTS_SIGN_CONTEXT : list Z := bstr "responder-measurements signing".
Definition SPDM_KEY_EXCHANGE_RESPONSE_SIGN_CONTEXT : list Z :=
  bstr "responder-key_exchange_rsp signing".
Definition SPDM_FINISH_SIGN_CONTEXT : list Z := bstr "requester-finish signing".
Definition SPDM_VERSION_SIGNING_CONTEXT_SIZE : usize := 100.

(** ** Laws *)
Lemma version_try_from_u8 v : version_try_from (version_u8 v) = Some v.
Proof. by destruct v. Qed.

Lemma version_u8_width v : in_width 8 (version_u8 v).
Proof. destruct v; cbv; split; congruence. Qed.

#[export] Program Instance codec_ok_SpdmVersion : CodecOk SpdmVersion :=
  {| wf _ := True; bytes v := [version_u8 v : Z] |}.
Next Obligation. intros v _. constructor; [apply version_u8_width|constructor]. Qed.
Next Obligation. intros v _. apply writes_u8. Qed.
Next Obligation.
  intros v _. unfold read, codec_SpdmVersion. change [version_u8 v : Z] with ([version_u8 v : Z] ++ []).
  eapply decodes_bind; [apply decodes_u8, version_u8_width|].
  apply decodes_lift. by rewrite version_try_from_u8.
Qed.
Next Obligation.
  unfold read, codec_SpdmVersion. eapply reads_bind; [apply reads_u8|]. intros v _.
  apply reads_lift; [by destruct version_try_from|done].
Qed.
