(* ===== verification/Crypto.v ===== *)
(** * Cryptographic callbacks

    Models the cryptography interface of src/spdmlib/src/crypto/mod.rs (the
    registered callbacks, class [SpdmCrypto]) and the default implementation
    of src/spdmlib/src/crypto/spdm_ring/ (hkdf_impl.rs, hmac_impl.rs,
    hash_impl.rs, aead_impl.rs) over the external crate ring, whose functions
    are the parameters of the class [Ring].  [CryptoOk] is what the key
    schedule and the secured messages rely on; it is proved of the default
    implementation from the documented behaviour of ring ([RingOk]). *)

From S2P Require Import Prelude Codec Status Bitflags Algo DataTypes Version.

(** ** The callbacks

    An operation that writes into caller buffers returns their new contents
    next to its result. *)
Class SpdmCrypto := {
  hkdf_extract :
    SpdmBaseHashAlgo → list Z → SpdmHkdfInputKeyingMaterial → outcome unit SpdmHkdfPseudoRandomKey;
  hkdf_expand :
    SpdmBaseHashAlgo → SpdmHkdfPseudoRandomKey → list Z → u16 →
    outcome unit SpdmHkdfOutputKeyingMaterial;
  hmac : SpdmBaseHashAlgo → list Z → list Z → outcome unit SpdmDigestStruct;
  hmac_verify : SpdmBaseHashAlgo → list Z → list Z → SpdmDigestStruct → SpdmResult unit;
  hash_all : SpdmBaseHashAlgo → list Z → outcome unit SpdmDigestStruct;
  (** result, tag buffer, cipher text buffer *)
  aead_encrypt :
    SpdmAeadAlgo → SpdmAeadKeyStruct → SpdmAeadIvStruct → list Z → list Z → list Z → list Z →
    SpdmResult (usize * usize) * (list Z * list Z);
  (** result, plain text buffer *)
  aead_decrypt :
    SpdmAeadAlgo → SpdmAeadKeyStruct → SpdmAeadIvStruct → list Z → list Z → list Z → list Z →
    SpdmResult usize * list Z;
  (** the PSK secret callbacks of src/spdmlib/src/secret/mod.rs *)
  handshake_secret_hkdf_expand :
    SpdmVersion → SpdmBaseHashAlgo → SpdmPskHintStruct → list Z →
    outcome unit SpdmHkdfOutputKeyingMaterial;
  master_secret_hkdf_expand :
    SpdmVersion → SpdmBaseHashAlgo → SpdmPskHintStruct → list Z →
    outcome unit SpdmHkdfOutputKeyingMaterial;
}.

(** ** The ring crate *)
Inductive ring_digest := RING_SHA256 | RING_SHA384 | RING_SHA512.
Inductive ring_cipher := RING_AES_128_GCM | RING_AES_256_GCM | RING_CHACHA20_POLY1305.
Definition ring_digest_len (a : ring_digest) : Z :=
  match a with RING_SHA256 => 32 | RING_SHA384 => 48 | RING_SHA512 => 64 end.
Definition ring_key_len (a : ring_cipher) : Z :=
  match a with RING_AES_128_GCM => 16 | RING_AES_256_GCM => 32 | RING_CHACHA20_POLY1305 => 32 end.
Definition NONCE_LEN : usize := 12.

Class Ring := {
  (** [hmac::sign] *)
  ring_hmac : ring_digest → list Z → list Z → list Z;
  (** [digest::digest] *)
  ring_hash : ring_digest → list Z → list Z;
  (** [hkdf::Prk::expand] followed by [Okm::fill], for the requested length *)
  ring_hkdf_expand : ring_digest → list Z → list Z → Z → option (list Z);
  (** [SealingKey::seal_in_place_separate_tag]: cipher text and tag *)
  ring_seal : ring_cipher → list Z → list Z → list Z → list Z → option (list Z * list Z);
  (** [OpeningKey::open_in_place] on cipher text followed by the tag *)
  ring_open : ring_cipher → list Z → list Z → list Z → list Z → option (list Z);
}.

(** What the documentation of ring states of them. *)
Class RingOk `{Ring} := {
  ring_hmac_len : ∀ a k d, len (ring_hmac a k d) = ring_digest_len a ∧ bytes_wf (ring_hmac a k d);
  ring_hash_len : ∀ a d, len (ring_hash a d) = ring_digest_len a ∧ bytes_wf (ring_hash a d);
  ring_hkdf_expand_len : ∀ a prk info n, 0 < n ≤ 255 * ring_digest_len a →
    ∃ okm, ring_hkdf_expand a prk info n = Some okm ∧ len okm = n ∧ bytes_wf okm;
  ring_seal_len : ∀ a k n aad p c t, ring_seal a k n aad p = Some (c, t) →
    len c = len p ∧ len t = 16 ∧ bytes_wf c ∧ bytes_wf t;
  ring_seal_total : ∀ a k n aad p,
    len k = ring_key_len a → len n = NONCE_LEN → bytes_wf p → len p ≤ 2 ^ 32 →
    ∃ c t, ring_seal a k n aad p = Some (c, t);
  ring_open_seal : ∀ a k n aad p c t, ring_seal a k n aad p = Some (c, t) →
    ring_open a k n aad (c ++ t) = Some p;
  ring_open_len : ∀ a k n aad i p, ring_open a k n aad i = Some p →
    len i = len p + 16 ∧ bytes_wf p;
}.

(** ** The default implementation *)
Module SpdmRing.
Section Impl.
Context `{Ring}.

(** The [match] of a hash algorithm; the fall-through differs per function. *)
Definition digest_algorithm (a : SpdmBaseHashAlgo) : option ring_digest :=
  if decide (a = SpdmBaseHashAlgo.TPM_ALG_SHA_256) then Some RING_SHA256
  else if decide (a = SpdmBaseHashAlgo.TPM_ALG_SHA_384) then Some RING_SHA384
  else if decide (a = SpdmBaseHashAlgo.TPM_ALG_SHA_512) then Some RING_SHA512
  else None.

Definition hkdf_extract (hash_algo : SpdmBaseHashAlgo) (salt : list Z)
    (ikm : SpdmHkdfInputKeyingMaterial) : outcome unit SpdmHkdfPseudoRandomKey :=
  let! algorithm := or_panic (digest_algorithm hash_algo) in
  let! ikm := ikm_as_ref ikm in
  sens_from (ring_hmac algorithm salt ikm).

Definition hkdf_expand (hash_algo : SpdmBaseHashAlgo) (prk : SpdmHkdfPseudoRandomKey)
    (info : list Z) (out_size : u16) : outcome unit SpdmHkdfOutputKeyingMaterial :=
  if SPDM_MAX_HKDF_OKM_SIZE <? out_size then Err tt else
  let! algo := ok_or (digest_algorithm hash_algo) tt in
  if negb (data_size prk =? ring_digest_len algo) then Err tt else
  let! prk := sens_as_ref prk in
  match ring_hkdf_expand algo prk info out_size with
  | Some okm =>
      let! d := or_panic (copy_from_slice (zeros SPDM_MAX_HKDF_OKM_SIZE) 0 out_size okm) in
      Ok (mkSens out_size d)
  | None => Err tt
  end.

Definition hmac (base_hash_algo : SpdmBaseHashAlgo) (key data : list Z) :
    outcome unit SpdmDigestStruct :=
  let! algorithm := or_panic (digest_algorithm base_hash_algo) in
  sens_from (ring_hmac algorithm key data).

(** [ring::hmac::verify] compares the whole tag. *)
Definition hmac_verify (base_hash_algo : SpdmBaseHashAlgo) (key data : list Z)
    (mac : SpdmDigestStruct) : SpdmResult unit :=
  let! algorithm := or_panic (digest_algorithm base_hash_algo) in
  let! m := sens_as_ref mac in
  if bool_decide (m = ring_hmac algorithm key data) then Ok tt else Err SPDM_STATUS_VERIF_FAIL.

Definition hash_all (base_hash_algo : SpdmBaseHashAlgo) (data : list Z) :
    outcome unit SpdmDigestStruct :=
  let! algorithm := ok_or (digest_algorithm base_hash_algo) tt in
  sens_from (ring_hash algorithm data).

(** [make_key]: an [UnboundKey] exists for a key of the algorithm's length. *)
Definition make_key (aead_algo : SpdmAeadAlgo) (key : SpdmAeadKeyStruct) :
    SpdmResult (ring_cipher * list Z) :=
  let! algorithm :=
    if decide (aead_algo = SpdmAeadAlgo.AES_128_GCM) then Ok RING_AES_128_GCM
    else if decide (aead_algo = SpdmAeadAlgo.AES_256_GCM) then Ok RING_AES_256_GCM
    else if decide (aead_algo = SpdmAeadAlgo.CHACHA20_POLY1305) then Ok RING_CHACHA20_POLY1305
    else Panic in
  let! k := sens_as_ref key in
  if len k =? ring_key_len algorithm then Ok (algorithm, k) else Err SPDM_STATUS_CRYPTO_ERROR.

(** The length checks shared by [encrypt] and [decrypt], in their order. *)
Definition check_sizes (aead_algo : SpdmAeadAlgo) (key : SpdmAeadKeyStruct) (iv : SpdmAeadIvStruct)
    (tag_size in_size out_size : usize) : SpdmResult unit :=
  let! ks := SpdmAeadAlgo.get_key_size aead_algo in
  if negb (data_size key =? ks) then Err SPDM_STATUS_CRYPTO_ERROR else
  let! ivs := SpdmAeadAlgo.get_iv_size aead_algo in
  if negb (data_size iv =? ivs) then Err SPDM_STATUS_CRYPTO_ERROR else
  let! ts := SpdmAeadAlgo.get_tag_size aead_algo in
  if negb (tag_size =? ts) then Err SPDM_STATUS_CRYPTO_ERROR else
  if negb (out_size =? in_size) then Err SPDM_STATUS_CRYPTO_ERROR else Ok tt.

Definition encrypt (aead_algo : SpdmAeadAlgo) (key : SpdmAeadKeyStruct) (iv : SpdmAeadIvStruct)
    (aad plain_text tag cipher_text : list Z) : SpdmResult (usize * usize) * (list Z * list Z) :=
  match check_sizes aead_algo key iv (len tag) (len plain_text) (len cipher_text) with
  | Err e => (Err e, (tag, cipher_text))
  | Panic => (Panic, (tag, cipher_text))
  | Ok _ =>
      match slice (data iv) 0 NONCE_LEN with
      | None => (Panic, (tag, cipher_text))
      | Some nonce =>
          match make_key aead_algo key with
          | Panic => (Panic, (tag, plain_text))
          | Err _ => (Err SPDM_STATUS_CRYPTO_ERROR, (tag, plain_text))
          | Ok (algorithm, k) =>
              match ring_seal algorithm k nonce aad plain_text with
              | Some (c, t) =>
                  if len t =? len tag then (Ok (len plain_text, len tag), (t, c))
                  else (Panic, (tag, c))
              | None => (Err SPDM_STATUS_CRYPTO_ERROR, (tag, plain_text))
              end
          end
      end
  end.

Definition decrypt (aead_algo : SpdmAeadAlgo) (key : SpdmAeadKeyStruct) (iv : SpdmAeadIvStruct)
    (aad cipher_text tag plain_text : list Z) : SpdmResult usize * list Z :=
  match check_sizes aead_algo key iv (len tag) (len cipher_text) (len plain_text) with
  | Err e => (Err e, plain_text)
  | Panic => (Panic, plain_text)
  | Ok _ =>
      match slice (data iv) 0 NONCE_LEN with
      | None => (Panic, plain_text)
      | Some nonce =>
          match make_key aead_algo key with
          | Panic => (Panic, plain_text)
          | Err _ => (Err SPDM_STATUS_CRYPTO_ERROR, plain_text)
          | Ok (algorithm, k) =>
              match ring_open algorithm k nonce aad (cipher_text ++ tag) with
              | Some p =>
                  match slice p 0 (len cipher_text) with
                  | Some p' => (Ok (len cipher_text), p')
                  | None => (Panic, plain_text)
                  end
              | None => (Err SPDM_STATUS_CRYPTO_ERROR, plain_text)
              end
          end
      end
  end.

End Impl.
End SpdmRing.

Definition spdm_ring_crypto `{Ring}
    (psk_handshake psk_master : SpdmVersion → SpdmBaseHashAlgo → SpdmPskHintStruct → list Z →
                                outcome unit SpdmHkdfOutputKeyingMaterial) : SpdmCrypto :=
  {| hkdf_extract := SpdmRing.hkdf_extract;
     hkdf_expand := SpdmRing.hkdf_expand;
     hmac := SpdmRing.hmac;
     hmac_verify := SpdmRing.hmac_verify;
     hash_all := SpdmRing.hash_all;
     aead_encrypt := SpdmRing.encrypt;
     aead_decrypt := SpdmRing.decrypt;
     handshake_secret_hkdf_expand := psk_handshake;
     master_secret_hkdf_expand := psk_master |}.

(** ** What the library relies on *)
Definition hash_valid (h : SpdmBaseHashAlgo) : Prop := flags_wf h ∧ is_valid_one_select h = true.
Definition aead_valid (a : SpdmAeadAlgo) : Prop := flags_wf a ∧ is_valid_one_select a = true.

(** The digest size of a hash algorithm, as a number. *)
Definition hash_size (h : SpdmBaseHashAlgo) : Z :=
  match SpdmBaseHashAlgo.get_size (E:=unit) h with Ok n => n | _ => 0 end.

(** The sizes an AEAD call has to be given. *)
Definition aead_sizes_ok (a : SpdmAeadAlgo) (key : SpdmAeadKeyStruct) (iv : SpdmAeadIvStruct) : Prop :=
  sens_wf key ∧ sens_wf iv ∧
  SpdmAeadAlgo.get_key_size (E:=unit) a = Ok (data_size key) ∧
  SpdmAeadAlgo.get_iv_size (E:=unit) a = Ok (data_size iv).

Class CryptoOk `{SpdmCrypto} := {
  extract_ok : ∀ h salt ikm, hash_valid h → ikm_wf ikm →
    ∃ prk, hkdf_extract h salt ikm = Ok prk ∧ sens_wf prk ∧ data_size prk = hash_size h;
  expand_ok : ∀ h prk info n, hash_valid h → sens_wf prk → data_size prk = hash_size h →
    0 < n ≤ SPDM_MAX_HKDF_OKM_SIZE →
    ∃ okm, hkdf_expand h prk info n = Ok okm ∧ sens_wf okm ∧ data_size okm = n;
  hmac_ok : ∀ h k d, hash_valid h →
    ∃ m, hmac h k d = Ok m ∧ sens_wf m ∧ data_size m = hash_size h;
  hmac_verify_ok : ∀ h k d m, hash_valid h → sens_wf m →
    hmac_verify h k d m = if decide (hmac h k d = Ok m) then Ok tt else Err SPDM_STATUS_VERIF_FAIL;
  hash_all_ok : ∀ h d, hash_valid h →
    ∃ m, hash_all h d = Ok m ∧ sens_wf m ∧ data_size m = hash_size h;
  hash_all_unsupported : ∀ h d, ¬ hash_valid h → hash_all h d = Err tt;
  encrypt_ok : ∀ a key iv aad p tag cbuf,
    aead_valid a → aead_sizes_ok a key iv → bytes_wf p → len p ≤ 2 ^ 32 →
    len tag = 16 → len cbuf = len p →
    ∃ t c, aead_encrypt a key iv aad p tag cbuf = (Ok (len p, 16), (t, c)) ∧
           len t = 16 ∧ len c = len p ∧ bytes_wf t ∧ bytes_wf c;
  decrypt_encrypt : ∀ a key iv aad p tag cbuf t c n pbuf,
    aead_encrypt a key iv aad p tag cbuf = (Ok n, (t, c)) → len pbuf = len c →
    aead_decrypt a key iv aad c t pbuf = (Ok (len c), p);
  encrypt_total : ∀ a key iv aad p tag cbuf,
    aead_valid a → sens_wf key → sens_wf iv →
    let '(o, (t, c)) := aead_encrypt a key iv aad p tag cbuf in
    o ≠ Panic ∧ len t = len tag ∧ len c = len cbuf;
  decrypt_total : ∀ a key iv aad c tag pbuf,
    aead_valid a → sens_wf key → sens_wf iv →
    let '(o, p) := aead_decrypt a key iv aad c tag pbuf in
    o ≠ Panic ∧ len p = len pbuf ∧ (bytes_wf pbuf → bytes_wf p) ∧ (∀ n, o = Ok n → n = len c);
}.

(** ** The default implementation meets it *)
Lemma hash_valid_cases h :
  hash_valid h → h = SpdmBaseHashAlgo.TPM_ALG_SHA_256 ∨ h = SpdmBaseHashAlgo.TPM_ALG_SHA_384
               ∨ h = SpdmBaseHashAlgo.TPM_ALG_SHA_512.
Proof.
  intros [Hw Hv]. pose proof (single_in_consts h SpdmBaseHashAlgo.get_size_arms eq_refl Hw Hv) as Hin.
  cbn in Hin. rewrite !elem_of_cons in Hin. destruct Hin as [?|[?|[?|?%not_elem_of_nil]]]; auto. done.
Qed.

Lemma aead_valid_cases a :
  aead_valid a → a = SpdmAeadAlgo.AES_128_GCM ∨ a = SpdmAeadAlgo.AES_256_GCM
               ∨ a = SpdmAeadAlgo.CHACHA20_POLY1305.
Proof.
  intros [Hw Hv]. pose proof (single_in_consts a SpdmAeadAlgo.get_key_size_arms eq_refl Hw Hv) as Hin.
  cbn in Hin. rewrite !elem_of_cons in Hin. destruct Hin as [?|[?|[?|?%not_elem_of_nil]]]; auto. done.
Qed.

(** The sizes of the AEAD algorithms; the source's tables agree on the IV and
    the tag. *)
Lemma aead_sizes a :
  aead_valid a → ∃ ks, (∀ E, SpdmAeadAlgo.get_key_size (E:=E) a = Ok ks) ∧
    (∀ E, SpdmAeadAlgo.get_iv_size (E:=E) a = Ok 12) ∧
    (∀ E, SpdmAeadAlgo.get_tag_size (E:=E) a = Ok 16).
Proof. intros [->|[->| ->]]%aead_valid_cases; eexists; split_and!; intros; reflexivity. Qed.

Lemma hash_size_bound h : hash_valid h → 0 < hash_size h ≤ SPDM_MAX_HASH_SIZE.
Proof. intros [->|[->| ->]]%hash_valid_cases; cbv; split; congruence. Qed.

Lemma hash_get_size {E} h : hash_valid h → SpdmBaseHashAlgo.get_size (E:=E) h = Ok (hash_size h).
Proof. by intros [->|[->| ->]]%hash_valid_cases. Qed.

Section RingLaws.
Context `{RingOk}.

Lemma digest_algorithm_ok h :
  hash_valid h → ∃ a, SpdmRing.digest_algorithm h = Some a ∧ ring_digest_len a = hash_size h.
Proof. intros [->|[->| ->]]%hash_valid_cases; eexists; split; reflexivity. Qed.

Lemma ring_extract_ok h salt ikm :
  hash_valid h → ikm_wf ikm →
  ∃ prk, SpdmRing.hkdf_extract h salt ikm = Ok prk ∧ sens_wf prk ∧ data_size prk = hash_size h.
Proof.
  intros Hh Hi. destruct (digest_algorithm_ok h Hh) as (a & Ha & Hl).
  pose proof (hash_size_bound h Hh). destruct (ring_hmac_len a salt (ikm_content ikm)) as [Hlen Hw].
  unfold SpdmRing.hkdf_extract. rewrite Ha. cbn [or_panic obind].
  rewrite ikm_as_ref_ok by done. cbn [obind].
  eexists. rewrite sens_from_ok by (cbn; lia). split_and!; [done| |cbn; lia].
  apply sens_of_wf; [cbn; lia|done].
Qed.

Lemma ring_expand_ok h prk info n :
  hash_valid h → sens_wf prk → data_size prk = hash_size h → 0 < n ≤ SPDM_MAX_HKDF_OKM_SIZE →
  ∃ okm, SpdmRing.hkdf_expand h prk info n = Ok okm ∧ sens_wf okm ∧ data_size okm = n.
Proof.
  intros Hh Hp Hs Hn. destruct (digest_algorithm_ok h Hh) as (a & Ha & Hl).
  pose proof (hash_size_bound h Hh).
  destruct (ring_hkdf_expand_len a (content prk) info n) as (okm & Ho & Hlen & Hw).
  { unfold SPDM_MAX_HKDF_OKM_SIZE, SPDM_MAX_HASH_SIZE in Hn. destruct a; cbn; lia. }
  unfold SpdmRing.hkdf_expand. replace (SPDM_MAX_HKDF_OKM_SIZE <? n) with false by lia.
  rewrite Ha. cbn [ok_or obind]. rewrite Hl, Hs, Z.eqb_refl. cbn [negb].
  rewrite sens_as_ref_ok by done. cbn [obind]. rewrite Ho. subst n.
  rewrite copy_prefix_zeros by lia. cbn [or_panic obind].
  exists (sens_of okm). split_and!; [done| |done].
  apply sens_of_wf; [cbn; lia|done].
Qed.

Lemma ring_hmac_ok h k d :
  hash_valid h → ∃ m, SpdmRing.hmac h k d = Ok m ∧ sens_wf m ∧ data_size m = hash_size h.
Proof.
  intros Hh. destruct (digest_algorithm_ok h Hh) as (a & Ha & Hl). pose proof (hash_size_bound h Hh).
  destruct (ring_hmac_len a k d) as [Hlen Hw].
  unfold SpdmRing.hmac. rewrite Ha. cbn [or_panic obind]. rewrite sens_from_ok by (cbn; lia).
  eexists. split_and!; [done| |cbn; lia]. apply sens_of_wf; [cbn; lia|done].
Qed.

Lemma ring_hash_all_ok h d :
  hash_valid h → ∃ m, SpdmRing.hash_all h d = Ok m ∧ sens_wf m ∧ data_size m = hash_size h.
Proof.
  intros Hh. destruct (digest_algorithm_ok h Hh) as (a & Ha & Hl). pose proof (hash_size_bound h Hh).
  destruct (ring_hash_len a d) as [Hlen Hw].
  unfold SpdmRing.hash_all. rewrite Ha. cbn [ok_or obind]. rewrite sens_from_ok by (cbn; lia).
  eexists. split_and!; [done| |cbn; lia]. apply sens_of_wf; [cbn; lia|done].
Qed.

Lemma ring_hash_all_unsupported h d : ¬ hash_valid h → SpdmRing.hash_all h d = Err tt.
Proof.
  intros Hh. unfold SpdmRing.hash_all, SpdmRing.digest_algorithm.
  repeat (case_decide; [exfalso; apply Hh; subst; split; [by vm_compute|reflexivity]|]). done.
Qed.

Lemma ring_hmac_verify_ok h k d m :
  hash_valid h → sens_wf m →
  SpdmRing.hmac_verify h k d m =
    if decide (SpdmRing.hmac h k d = Ok m) then Ok tt else Err SPDM_STATUS_VERIF_FAIL.
Proof.
  intros Hh Hm. destruct (digest_algorithm_ok h Hh) as (a & Ha & Hl). pose proof (hash_size_bound h Hh).
  destruct (ring_hmac_len a k d) as [Hlen Hw].
  unfold SpdmRing.hmac_verify, SpdmRing.hmac. rewrite Ha. cbn [or_panic obind].
  rewrite sens_as_ref_ok by done. cbn [obind]. rewrite sens_from_ok by (cbn; lia).
  destruct (decide (content m = ring_hmac a k d)) as [Heq|Hne].
  - rewrite bool_decide_eq_true_2 by done. rewrite decide_True; [done|].
    f_equal. rewrite <- Heq. symmetry. apply Hm.
  - rewrite bool_decide_eq_false_2 by done. rewrite decide_False; [done|].
    intros [= <-]. by rewrite content_of in Hne.
Qed.
End RingLaws.

Section RingAead.
Context `{RingOk}.

Lemma nonce_slice (iv : SpdmAeadIvStruct) :
  sens_wf iv → ∃ n, slice (data iv) 0 NONCE_LEN = Some n ∧ len n = NONCE_LEN.
Proof.
  intros Hiv. destruct (sens_wf_inv iv Hiv) as [_ Hl]. change (len (data iv) = 12) in Hl. unfold NONCE_LEN.
  rewrite slice_spec by lia. eexists. split; [done|]. zlia.
Qed.

Lemma make_key_ok a key :
  aead_valid a → sens_wf key →
  (∃ c, SpdmRing.make_key a key = Ok (c, content key) ∧ len (content key) = ring_key_len c) ∨
  (SpdmRing.make_key a key = Err SPDM_STATUS_CRYPTO_ERROR ∧
   SpdmAeadAlgo.get_key_size (E:=unit) a ≠ Ok (data_size key)).
Proof.
  intros Ha Hk. pose proof (len_content key Hk) as Hl. unfold SpdmRing.make_key.
  destruct (aead_valid_cases a Ha) as [->|[->| ->]];
    repeat (rewrite decide_False by done); rewrite ?decide_True by done; cbn [obind];
    rewrite (sens_as_ref_ok _ Hk); cbn [obind];
    match goal with |- context [len (content key) =? ?n] =>
      destruct (Z.eqb_spec (len (content key)) n) end;
    try (left; eexists; split; [reflexivity|done]);
    right; (split; [done|]); intros [= Hks]; cbn in *; rewrite <- Hks in Hl; done.
Qed.

Lemma check_sizes_total a key iv t i o :
  aead_valid a → SpdmRing.check_sizes a key iv t i o = Err SPDM_STATUS_CRYPTO_ERROR ∨
  (SpdmRing.check_sizes a key iv t i o = Ok tt ∧ t = 16 ∧ o = i ∧
   SpdmAeadAlgo.get_key_size (E:=unit) a = Ok (data_size key)).
Proof.
  intros Ha. destruct (aead_sizes a Ha) as (ks & Hk & Hi & Ht). unfold SpdmRing.check_sizes.
  rewrite Hk, Hi, Ht. cbn [obind].
  do 4 (match goal with |- context [negb (?x =? ?y)] => destruct (Z.eqb_spec x y) end;
        cbn [negb]; [|by left]).
  right. rewrite Hk. split_and!; [done..|]. congruence.
Qed.

Lemma ring_encrypt_total a key iv aad p tag cbuf :
  aead_valid a → sens_wf key → sens_wf iv →
  let '(o, (t, c)) := SpdmRing.encrypt a key iv aad p tag cbuf in
  o ≠ Panic ∧ len t = len tag ∧ len c = len cbuf.
Proof.
  intros Ha Hk Hiv. unfold SpdmRing.encrypt. destruct (nonce_slice iv Hiv) as (n & -> & Hn).
  destruct (check_sizes_total a key iv (len tag) (len p) (len cbuf) Ha)
    as [->|(-> & Ht & Ho & _)]; [done|].
  destruct (make_key_ok a key Ha Hk) as [(cp & -> & Hlk)|[-> _]]; [|by split_and!].
  destruct (ring_seal cp (content key) n aad p) as [[c t]|] eqn:Hs; [|by split_and!].
  destruct (ring_seal_len _ _ _ _ _ _ _ Hs) as (Hc & Ht' & _).
  rewrite Ht', Ht. cbn. split_and!; [done|lia|lia].
Qed.

Lemma ring_decrypt_total a key iv aad c tag pbuf :
  aead_valid a → sens_wf key → sens_wf iv →
  let '(o, p) := SpdmRing.decrypt a key iv aad c tag pbuf in
  o ≠ Panic ∧ len p = len pbuf ∧ (bytes_wf pbuf → bytes_wf p) ∧ (∀ n, o = Ok n → n = len c).
Proof.
  intros Ha Hk Hiv. unfold SpdmRing.decrypt. destruct (nonce_slice iv Hiv) as (n & -> & Hn).
  destruct (check_sizes_total a key iv (len tag) (len c) (len pbuf) Ha)
    as [->|(-> & Ht & Ho & _)]; [done|].
  destruct (make_key_ok a key Ha Hk) as [(cp & -> & Hlk)|[-> _]]; [|by split_and!].
  destruct (ring_open cp (content key) n aad (c ++ tag)) as [p|] eqn:Hs; [|by split_and!].
  destruct (ring_open_len _ _ _ _ _ _ Hs) as (Hl & Hw).
  rewrite len_app in Hl. rewrite slice_spec by zlia.
  split_and!; [done| | |by intros ? [= <-]]; [zlia|eauto with wfb].
Qed.

Lemma ring_encrypt_ok a key iv aad p tag cbuf :
  aead_valid a → aead_sizes_ok a key iv → bytes_wf p → len p ≤ 2 ^ 32 →
  len tag = 16 → len cbuf = len p →
  ∃ t c, SpdmRing.encrypt a key iv aad p tag cbuf = (Ok (len p, 16), (t, c)) ∧
         len t = 16 ∧ len c = len p ∧ bytes_wf t ∧ bytes_wf c.
Proof.
  intros Ha (Hk & Hiv & Hks & His) Hp Hlp Ht Hc. unfold SpdmRing.encrypt.
  destruct (nonce_slice iv Hiv) as (n & -> & Hn).
  assert (SpdmRing.check_sizes a key iv (len tag) (len p) (len cbuf) = Ok tt) as ->.
  { unfold SpdmRing.check_sizes. destruct (aead_sizes a Ha) as (ks & Hk' & Hi' & Ht').
    rewrite Hk' in Hks. rewrite Hi' in His. rewrite Hk', Hi', Ht', Hc, Ht.
    injection Hks as <-. injection His as <-. cbn [obind]. by rewrite !Z.eqb_refl. }
  destruct (make_key_ok a key Ha Hk) as [(cp & -> & Hlk)|[_ ?]]; [|done].
  destruct (ring_seal_total cp (content key) n aad p Hlk Hn Hp Hlp) as (c & t & Hs). rewrite Hs.
  destruct (ring_seal_len _ _ _ _ _ _ _ Hs) as (Hlc & Hlt & Hwc & Hwt).
  exists t, c. by rewrite Hlt, Ht.
Qed.

Lemma ring_decrypt_encrypt a key iv aad p tag cbuf t c n pbuf :
  SpdmRing.encrypt a key iv aad p tag cbuf = (Ok n, (t, c)) → len pbuf = len c →
  SpdmRing.decrypt a key iv aad c t pbuf = (Ok (len c), p).
Proof.
  unfold SpdmRing.encrypt, SpdmRing.decrypt. intros He Hl.
  destruct (SpdmRing.check_sizes a key iv (len tag) (len p) (len cbuf)) as [[]| |] eqn:Hchk; try done.
  destruct (slice (data iv) 0 NONCE_LEN) as [nonce|] eqn:Hn; [|done].
  destruct (SpdmRing.make_key a key) as [[cp k]| |] eqn:Hk; try done.
  destruct (ring_seal cp k nonce aad p) as [[c' t']|] eqn:Hs; [|done].
  destruct (ring_seal_len _ _ _ _ _ _ _ Hs) as (Hlc & Hlt & _).
  destruct (Z.eqb_spec (len t') (len tag)) as [Htag|]; [|done]. simplify_eq.
  assert (len cbuf = len p) as Hcp.
  { unfold SpdmRing.check_sizes in Hchk. revert Hchk.
    repeat (match goal with |- context [obind ?m _] => destruct m; cbn [obind]; [|done|done] end;
            btest; [done|]).
    btest; [done|]. lia. }
  rewrite Htag, Hl, Hlc. rewrite Hcp in Hchk. rewrite Hchk.
  rewrite (ring_open_seal _ _ _ _ _ _ _ Hs), slice_spec by zlia.
  by rewrite Z.sub_0_r, zdrop_0, ztake_all by lia.
Qed.

Lemma spdm_ring_crypto_ok psk_h psk_m : @CryptoOk (spdm_ring_crypto psk_h psk_m).
Proof.
  split.
  - apply ring_extract_ok.
  - apply ring_expand_ok.
  - apply ring_hmac_ok.
  - apply ring_hmac_verify_ok.
  - apply ring_hash_all_ok.
  - apply ring_hash_all_unsupported.
  - apply ring_encrypt_ok.
  - apply ring_decrypt_encrypt.
  - apply ring_encrypt_total.
  - apply ring_decrypt_total.
Qed.

End RingAead.

(** ** A concrete instance

    Executable stand-ins for the functions of ring, with no cryptographic
    strength: they show that [RingOk] can hold and let the theorems be
    evaluated on concrete inputs. *)
Module ToyRing.

Definition sum (l : list Z) : Z := foldr Z.add 0 l.
Definition fill (n : Z) (x : Z) : list Z := replicate (Z.to_nat n) (x mod 256).
Definition key_byte (k n : list Z) : Z := sum k + 7 * sum n.
Definition tag (k n aad p : list Z) : list Z := fill 16 (key_byte k n + 3 * sum aad + 5 * sum p).

#[export] Instance toy_ring : Ring :=
  {| ring_hmac a k d := fill (ring_digest_len a) (sum k + 3 * sum d);
     ring_hash a d := fill (ring_digest_len a) (sum d);
     ring_hkdf_expand a prk info n :=
       if (0 <? n) && (n <=? 255 * ring_digest_len a) then Some (fill n (sum prk + sum info))
       else None;
     ring_seal a k n aad p :=
       if forallb is_byte p then
         Some ((λ b, (b + key_byte k n) mod 256) <$> p, tag k n aad p)
       else None;
     ring_open a k n aad i :=
       let l := len i - 16 in
       let p := (λ b, (b - key_byte k n) mod 256) <$> ztake l i in
       if (0 <=? l) && bool_decide (zdrop l i = tag k n aad p) then Some p else None |}.

Lemma len_fill n x : 0 ≤ n → len (fill n x) = n.
Proof. intros. unfold fill, len. rewrite length_replicate. lia. Qed.
Lemma bytes_wf_fill n x : bytes_wf (fill n x).
Proof. apply Forall_replicate. apply Z.mod_pos_bound. lia. Qed.
Lemma bytes_wf_mod (f : Z → Z) l : bytes_wf ((λ b, f b mod 256) <$> l).
Proof. apply Forall_fmap, Forall_true. intros. apply Z.mod_pos_bound. lia. Qed.
Lemma unshift p x : bytes_wf p → (λ b, (b - x) mod 256) <$> ((λ b, (b + x) mod 256) <$> p) = p.
Proof.
  induction 1 as [|b p Hb Hp IH]; [done|]. cbn. f_equal; [|done]. unfold byte in Hb.
  rewrite Zminus_mod_idemp_l. replace (b + x - x) with b by lia. apply Z.mod_small. lia.
Qed.

#[export] Instance toy_ring_ok : RingOk.
Proof.
  split.
  - intros. split; [apply len_fill; by destruct a|apply bytes_wf_fill].
  - intros. split; [apply len_fill; by destruct a|apply bytes_wf_fill].
  - intros a prk info n Hn. unfold ring_hkdf_expand, toy_ring.
    replace ((0 <? n) && (n <=? 255 * ring_digest_len a)) with true by lia.
    eexists. split; [done|]. split; [apply len_fill; lia|apply bytes_wf_fill].
  - intros a k n aad p c t. unfold ring_seal, toy_ring. btest; [|done]. intros [= <- <-].
    rewrite len_map. split_and!; [done|by apply len_fill|apply bytes_wf_mod|apply bytes_wf_fill].
  - intros a k n aad p _ _ Hp _. unfold ring_seal, toy_ring.
    rewrite (proj2 (is_byte_wf p)) by done. eauto.
  - intros a k n aad p c t. unfold ring_seal, ring_open, toy_ring. btest; [|done]. intros [= <- <-].
    apply is_byte_wf in Hb. assert (len (tag k n aad p) = 16) as Ht by by apply len_fill.
    rewrite len_app, len_map, Ht.
    replace (len p + 16 - 16) with (len ((λ b, (b + key_byte k n) mod 256) <$> p))
      by (rewrite len_map; lia).
    rewrite ztake_app, zdrop_app, unshift by done. rewrite bool_decide_eq_true_2 by done.
    by replace (0 <=? _) with true by (rewrite len_map; zlia).
  - intros a k n aad i p. unfold ring_open, toy_ring. btest; [|done]. intros [= <-].
    apply andb_true_iff in Hb as [Hl _]. rewrite len_map. split; [|apply bytes_wf_mod].
    rewrite len_ztake; lia.
Qed.

(** The callbacks over it; PSK derives from the hint. *)
Definition toy_psk (v : SpdmVersion) (h : SpdmBaseHashAlgo) (hint : SpdmPskHintStruct) (info : list Z) :
    outcome unit SpdmHkdfOutputKeyingMaterial :=
  sens_from (fill (hash_size h) (sum (data hint) + sum info)).
Definition toy_crypto : SpdmCrypto := spdm_ring_crypto toy_psk toy_psk.
Definition toy_crypto_ok : @CryptoOk toy_crypto := spdm_ring_crypto_ok toy_psk toy_psk.

End ToyRing.
