(* ===== verification/HashCtx.v ===== *)
(** * Incremental hashing

    Models the hash contexts of src/spdmlib/src/crypto/mod.rs (module
    [hash_ext]) and of src/spdmlib/src/crypto/spdm_ring/hash_impl.rs: a context
    is a handle into a table of ring contexts; [clone] duplicates the entry and
    dropping a context removes it.  The contexts of the crate ring are
    parameters.  The rest of the development uses a context as a value, the
    algorithm with the bytes fed to it; [HashTable.hash_ctx_refines] shows that
    the table implements these values. *)

From stdpp Require Import gmap.
From S2P Require Import Prelude Status Bitflags Algo DataTypes Version Crypto.

(** ** Contexts as values *)
Record SpdmHashCtx := mkHashCtx { hc_algo : SpdmBaseHashAlgo; hc_data : list Z }.

Definition hash_ctx_init (base_hash_algo : SpdmBaseHashAlgo) : option SpdmHashCtx :=
  match SpdmRing.digest_algorithm base_hash_algo with
  | Some _ => Some (mkHashCtx base_hash_algo [])
  | None => None
  end.
Definition hash_ctx_update (ctx : SpdmHashCtx) (data : list Z) : SpdmHashCtx :=
  mkHashCtx (hc_algo ctx) (hc_data ctx ++ data).
Definition hash_ctx_finalize `{SpdmCrypto} (ctx : SpdmHashCtx) : outcome unit SpdmDigestStruct :=
  hash_all (hc_algo ctx) (hc_data ctx).

(** ** The table of contexts *)
Class RingDigest := {
  (** [digest::Context] with [new], [update] and [finish] *)
  ring_ctx : Type;
  ring_ctx_new : ring_digest → ring_ctx;
  ring_ctx_update : ring_ctx → list Z → ring_ctx;
  ring_ctx_finish : ring_ctx → list Z;
}.
(** A multi-part digest is the digest of the parts in sequence. *)
Class RingDigestOk `{Ring, RingDigest} := {
  ring_ctx_finish_ok : ∀ a parts,
    ring_ctx_finish (foldl ring_ctx_update (ring_ctx_new a) parts) = ring_hash a (concat parts);
}.

Module HashTable.
Section Table.
Context `{Ring, RingDigest}.

(** [HASH_CTX_TABLE]; the key of an entry is the address of its box. *)
Local Abbreviation table := (gmap Z ring_ctx).
(** The address of the next box, a function of the live ones. *)
Variable alloc : table → Z.

Definition insert_to_table {E} (value : ring_ctx) : M table E Z :=
  λ t, let handle := alloc t in (Ok handle, <[handle := value]> t).
Definition ctx_init (base_hash_algo : SpdmBaseHashAlgo) : M table unit Z :=
  let* algorithm := lift (ok_or (SpdmRing.digest_algorithm base_hash_algo) tt) in
  insert_to_table (ring_ctx_new algorithm).
Definition ctx_update (handle : Z) (data : list Z) : M table SpdmStatus unit :=
  let* t := get in
  let* ctx := lift (ok_or (t !! handle) SPDM_STATUS_CRYPTO_ERROR) in
  modify (insert handle (ring_ctx_update ctx data)).
Definition ctx_finalize (handle : Z) : M table unit SpdmDigestStruct :=
  let* t := get in
  let* ctx := lift (ok_or (t !! handle) tt) in
  let* _ := modify (delete handle) in
  lift (sens_from (ring_ctx_finish ctx)).
Definition ctx_dup (handle : Z) : M table unit Z :=
  let* t := get in
  let* ctx := lift (ok_or (t !! handle) tt) in
  insert_to_table ctx.

(** [Clone::clone], with its [expect]; [Drop::drop], which discards the
    digest. *)
Definition ctx_clone {E} (handle : Z) : M table E Z :=
  λ t, match ctx_dup handle t with
       | (Ok h, t') => (Ok h, t')
       | (_, t') => (Panic, t')
       end.
Definition ctx_drop {E} (handle : Z) : M table E unit :=
  λ t, if handle =? 0 then (Ok tt, t)
       else match ctx_finalize handle t with
            | (Panic, t') => (Panic, t')
            | (_, t') => (Ok tt, t')
            end.

(** ** Programs over contexts

    What the library does with contexts: a place (a field of type
    [Option<SpdmHashCtx>]) is filled by [hash_ctx_init], updated, copied to
    another place, reset to [None], and a clone of its content is finalized. *)
Inductive op :=
| OInit (x : nat) (a : SpdmBaseHashAlgo)
| OUpdate (x : nat) (d : list Z)
| OCopy (x y : nat)
| OReset (x : nat)
| ODigest (x : nat).
Local Abbreviation places := (gmap nat Z).
Definition observation : Type := outcome SpdmStatus (option SpdmDigestStruct).

(** An assignment drops the former content of the place. *)
Definition assign (x : nat) (v : option Z) (s : table * places) : observation * (table * places) :=
  let '(t, env) := s in
  let env' := partial_alter (λ _, v) x env in
  match env !! x with
  | None => (Ok None, (t, env'))
  | Some h =>
      match ctx_drop (E:=SpdmStatus) h t with
      | (Ok _, t') => (Ok None, (t', env'))
      | (Err e, t') => (Err e, (t', env'))
      | (Panic, t') => (Panic, (t', env'))
      end
  end.

Definition step (o : op) (s : table * places) : observation * (table * places) :=
  let '(t, env) := s in
  match o with
  | OInit x a =>
      match ctx_init a t with
      | (Ok h, t') => assign x (Some h) (t', env)
      | (Err _, t') => let '(_, s') := assign x None (t', env) in (Err SPDM_STATUS_CRYPTO_ERROR, s')
      | (Panic, t') => (Panic, (t', env))
      end
  | OUpdate x d =>
      match env !! x with
      | None => (Err SPDM_STATUS_INVALID_STATE_LOCAL, s)
      | Some h =>
          match ctx_update h d t with
          | (Ok _, t') => (Ok None, (t', env))
          | (Err e, t') => (Err e, (t', env))
          | (Panic, t') => (Panic, (t', env))
          end
      end
  | OCopy x y =>
      match env !! x with
      | None => assign y None s
      | Some h =>
          match ctx_clone (E:=SpdmStatus) h t with
          | (Ok h', t') => assign y (Some h') (t', env)
          | (_, t') => (Panic, (t', env))
          end
      end
  | OReset x => assign x None s
  | ODigest x =>
      match env !! x with
      | None => (Err SPDM_STATUS_INVALID_STATE_LOCAL, s)
      | Some h =>
          match ctx_clone (E:=SpdmStatus) h t with
          | (Ok h', t') =>
              match ctx_finalize h' t' with
              | (Ok d, t'') => (Ok (Some d), (t'', env))
              | (Err _, t'') => (Err SPDM_STATUS_CRYPTO_ERROR, (t'', env))
              | (Panic, t'') => (Panic, (t'', env))
              end
          | (_, t') => (Panic, (t', env))
          end
      end
  end.

(** The same program over values. *)
Definition value_step (o : op) (env : gmap nat SpdmHashCtx) : observation * gmap nat SpdmHashCtx :=
  match o with
  | OInit x a =>
      match hash_ctx_init a with
      | Some c => (Ok None, <[x := c]> env)
      | None => (Err SPDM_STATUS_CRYPTO_ERROR, delete x env)
      end
  | OUpdate x d =>
      match env !! x with
      | Some c => (Ok None, <[x := hash_ctx_update c d]> env)
      | None => (Err SPDM_STATUS_INVALID_STATE_LOCAL, env)
      end
  | OCopy x y => (Ok None, partial_alter (λ _, env !! x) y env)
  | OReset x => (Ok None, delete x env)
  | ODigest x =>
      match env !! x with
      | Some c =>
          (map_err (λ _, SPDM_STATUS_CRYPTO_ERROR)
             (let! d := SpdmRing.hash_all (hc_algo c) (hc_data c) in Ok (Some d)), env)
      | None => (Err SPDM_STATUS_INVALID_STATE_LOCAL, env)
      end
  end.

Fixpoint run_ops {S} (f : op → S → observation * S) (ops : list op) (s : S) : list observation * S :=
  match ops with
  | [] => ([], s)
  | o :: ops =>
      let '(x, s') := f o s in
      let '(xs, s'') := run_ops f ops s' in (x :: xs, s'')
  end.

End Table.

(** ** The table implements the values *)
Section Refinement.
Local Abbreviation table := (gmap Z ring_ctx).
Local Abbreviation places := (gmap nat Z).
Context `{RingDigestOk} `{!RingOk} (alloc : table → Z).
(** A box lives at an address of its own, which is not null. *)
Hypothesis alloc_fresh : ∀ t : table, t !! alloc t = None ∧ alloc t ≠ 0.

(** A ring context that holds the value [v]. *)
Definition rep (c : ring_ctx) (v : SpdmHashCtx) : Prop :=
  ∃ a parts, SpdmRing.digest_algorithm (hc_algo v) = Some a ∧
    c = foldl ring_ctx_update (ring_ctx_new a) parts ∧ concat parts = hc_data v.

(** Every place holds a value through its own handle, and the table holds
    nothing else. *)
Definition holds (t : table) (h : option Z) (v : option SpdmHashCtx) : Prop :=
  match h, v with
  | Some h, Some v => h ≠ 0 ∧ ∃ c, t !! h = Some c ∧ rep c v
  | None, None => True
  | _, _ => False
  end.
Record sim (t : table) (env : places) (vals : gmap nat SpdmHashCtx) : Prop := {
  sim_holds : ∀ x, holds t (env !! x) (vals !! x);
  sim_owned : ∀ x y h, env !! x = Some h → env !! y = Some h → x = y;
  sim_live : ∀ h c, t !! h = Some c → ∃ x, env !! x = Some h;
}.

Lemma rep_init a alg :
  SpdmRing.digest_algorithm a = Some alg → rep (ring_ctx_new alg) (mkHashCtx a []).
Proof. intros Ha. by exists alg, []. Qed.
Lemma rep_update c v d : rep c v → rep (ring_ctx_update c d) (hash_ctx_update v d).
Proof.
  intros (a & parts & Ha & -> & Hp). exists a, (parts ++ [d]).
  rewrite foldl_snoc, concat_app, Hp. cbn. by rewrite app_nil_r.
Qed.
Lemma rep_finish {E} c v : rep c v →
  ∃ d, sens_from (E:=E) (ring_ctx_finish c) = Ok d ∧ SpdmRing.hash_all (hc_algo v) (hc_data v) = Ok d.
Proof.
  intros (a & parts & Ha & -> & Hp). rewrite ring_ctx_finish_ok, Hp.
  unfold SpdmRing.hash_all. rewrite Ha. cbn [ok_or obind].
  destruct (ring_hash_len a (hc_data v)) as [Hl _].
  exists (sens_of (ring_hash a (hc_data v))). rewrite !sens_from_ok; [done|..]; rewrite Hl; by destruct a.
Qed.

Lemma ctx_drop_live {E} t h c v :
  h ≠ 0 → t !! h = Some c → rep c v → ctx_drop (E:=E) h t = (Ok tt, delete h t).
Proof.
  intros Hz Hc Hr. unfold ctx_drop. rewrite (proj2 (Z.eqb_neq _ _) Hz).
  unfold ctx_finalize. run. rewrite Hc. cbn [ok_or]. rewrite (bind_lift _ c _ _ eq_refl). run.
  destruct (rep_finish (E:=unit) _ _ Hr) as (d & Hd & _). unfold lift. by rewrite Hd.
Qed.

(** The table entries a place does not own survive its assignment. *)
Lemma holds_frame t t' h v :
  (∀ k, h = Some k → t' !! k = t !! k) → holds t h v → holds t' h v.
Proof.
  intros Hf. destruct h as [k|], v as [w|]; [|done..]. intros (Hz & c & Hc & Hr).
  split; [done|]. exists c. by rewrite Hf.
Qed.

(** Emptying a place removes its entry; another live handle [h] does not
    matter. *)
Lemma sim_delete t env vals x h :
  sim t env vals → env !! x = Some h → sim (delete h t) (delete x env) (delete x vals).
Proof.
  intros [Hh Ho Hl] Ex. split.
  - intros y. destruct (decide (y = x)) as [->|Hy]; [by rewrite !lookup_delete_eq|].
    rewrite !lookup_delete_ne by done. apply (holds_frame t); [|apply Hh].
    intros k Hk. rewrite lookup_delete_ne; [done|]. intros ->. by apply Hy, (Ho _ _ k).
  - intros y z k. rewrite !lookup_delete_Some. intros [? ?] [? ?]. by apply (Ho _ _ k).
  - intros k c'. rewrite lookup_delete_Some. intros [Hk Hc']. destruct (Hl _ _ Hc') as [y Hy].
    exists y. rewrite lookup_delete_ne; [done|]. intros ->. congruence.
Qed.

Lemma sim_insert t env vals x h c v :
  sim t env vals → env !! x = None → h ≠ 0 → t !! h = None → rep c v →
  sim (<[h := c]> t) (<[x := h]> env) (<[x := v]> vals).
Proof.
  intros [Hh Ho Hl] Ex Hz Hn Hr.
  assert (Hnew : ∀ y, env !! y ≠ Some h).
  { intros y Hy. pose proof (Hh y) as Hy'. rewrite Hy in Hy'. unfold holds in Hy'.
    destruct (vals !! y); [|done]. destruct Hy' as (_ & c' & Hc' & _). congruence. }
  split.
  - intros y. destruct (decide (y = x)) as [->|Hy].
    + rewrite !lookup_insert_eq. split; [done|]. exists c. by rewrite lookup_insert_eq.
    + rewrite !lookup_insert_ne by done. apply (holds_frame t); [|apply Hh].
      intros k Hk. rewrite lookup_insert_ne; [done|]. intros ->. by apply (Hnew y).
  - intros y z k. rewrite !lookup_insert_Some. intros [[? ?]|[? Hy]] [[? ?]|[? Hy']]; subst; try done.
    + by destruct (Hnew z).
    + by destruct (Hnew y).
    + by apply (Ho _ _ k).
  - intros k c' Hc'. destruct (decide (k = h)) as [->|Hk]; [exists x; apply lookup_insert_eq|].
    rewrite lookup_insert_ne in Hc' by done. destruct (Hl _ _ Hc') as [y Hy]. exists y.
    rewrite lookup_insert_ne; [done|]. intros ->. congruence.
Qed.

(** [drop_old]: the table after the former content of [x] was dropped. *)
Definition drop_old (x : nat) (env : places) (t : table) : table :=
  match env !! x with Some h => delete h t | None => t end.

Lemma assign_run t t0 env vals x o :
  sim t0 env vals → (∀ h c, env !! x = Some h → t0 !! h = Some c → t !! h = Some c) →
  assign x o (t, env) = (Ok None, (drop_old x env t, partial_alter (λ _, o) x env)).
Proof.
  intros Hs Ht. pose proof (sim_holds _ _ _ Hs x) as Hx. unfold assign, drop_old.
  destruct (env !! x) as [h|]; [|done]. unfold holds in Hx. destruct (vals !! x) as [v|]; [|done].
  destruct Hx as (Hz & c & Hc & Hr). by rewrite (ctx_drop_live t h c v Hz (Ht _ _ eq_refl Hc) Hr).
Qed.

Lemma sim_drop_old t env vals x :
  sim t env vals → sim (drop_old x env t) (delete x env) (delete x vals).
Proof.
  intros Hs. unfold drop_old. destruct (env !! x) as [h|] eqn:Ex; [by apply sim_delete|].
  pose proof (sim_holds _ _ _ Hs x) as Hx. rewrite Ex in Hx. cbn in Hx.
  destruct (vals !! x) eqn:Vx; [done|]. by rewrite (delete_id env), (delete_id vals).
Qed.

Lemma assign_none t env vals x :
  sim t env vals → ∃ t', assign x None (t, env) = (Ok None, (t', delete x env)) ∧
    sim t' (delete x env) (delete x vals).
Proof.
  intros Hs. exists (drop_old x env t). split; [|by apply sim_drop_old].
  by rewrite (assign_run t t env vals).
Qed.

Lemma assign_fresh t env vals x h c v :
  sim t env vals → h ≠ 0 → t !! h = None → rep c v →
  ∃ t', assign x (Some h) (<[h := c]> t, env) = (Ok None, (t', <[x := h]> env)) ∧
    sim t' (<[x := h]> env) (<[x := v]> vals).
Proof.
  intros Hs Hz Hn Hr. exists (<[h := c]> (drop_old x env t)). split.
  - rewrite (assign_run _ t env vals); [|done|].
    + do 2 f_equal. unfold drop_old. destruct (env !! x) as [h0|] eqn:Ex; [|done].
      rewrite delete_insert_ne; [done|]. intros ->.
      pose proof (sim_holds _ _ _ Hs x) as Hx. rewrite Ex in Hx. unfold holds in Hx.
      destruct (vals !! x); [|done]. destruct Hx as (_ & c' & ? & _). congruence.
    + intros k c' Hk Hc'. rewrite lookup_insert_ne; [done|]. congruence.
  - rewrite <- (insert_delete_eq env), <- (insert_delete_eq vals).
    apply sim_insert; [by apply sim_drop_old|apply lookup_delete_eq|done| |done].
    unfold drop_old. destruct (env !! x); [|done]. by rewrite lookup_delete_None; right.
Qed.

Lemma ctx_clone_live {E} t h c :
  t !! h = Some c → ctx_clone alloc (E:=E) h t = (Ok (alloc t), <[alloc t := c]> t).
Proof.
  intros Hc. unfold ctx_clone, ctx_dup. run. rewrite Hc. cbn [ok_or].
  by rewrite (bind_lift _ c _ _ eq_refl).
Qed.

(** Feeding a context in place. *)
Lemma sim_update t env vals x h c v d :
  sim t env vals → env !! x = Some h → t !! h = Some c → rep c v → vals !! x = Some v →
  sim (<[h := ring_ctx_update c d]> t) env (<[x := hash_ctx_update v d]> vals).
Proof.
  intros [Hh Ho Hl] Ex Hc Hr Vx. split; [|done|].
  - intros y. destruct (decide (y = x)) as [->|Hy].
    + rewrite Ex, lookup_insert_eq. pose proof (Hh x) as Hx. rewrite Ex, Vx in Hx. destruct Hx as [Hz _].
      split; [done|]. eexists. rewrite lookup_insert_eq. split; [done|]. by apply rep_update.
    + rewrite lookup_insert_ne by done. apply (holds_frame t); [|apply Hh].
      intros k Hk. rewrite lookup_insert_ne; [done|]. intros ->. by apply Hy, (Ho _ _ k).
  - intros k c'. rewrite lookup_insert_Some. intros [[<- _]|[_ Hk]]; eauto.
Qed.

Lemma step_sim o t env vals :
  sim t env vals →
  ∃ t' env', step alloc o (t, env) = (fst (value_step o vals), (t', env')) ∧
    sim t' env' (snd (value_step o vals)).
Proof.
  intros Hs. destruct (alloc_fresh t) as [Hn Hz]. destruct o as [x a|x d|x y|x|x]; cbn [step value_step].
  - unfold ctx_init, hash_ctx_init. destruct (SpdmRing.digest_algorithm a) as [alg|] eqn:Ha; cbn [ok_or].
    + rewrite (bind_lift _ alg _ _ eq_refl). unfold insert_to_table.
      destruct (assign_fresh t env vals x _ _ _ Hs Hz Hn (rep_init a alg Ha)) as (t' & -> & Hs').
      eauto.
    + destruct (assign_none t env vals x Hs) as (t' & He & Hs'). unfold bind, lift. rewrite He. eauto.
  - pose proof (sim_holds _ _ _ Hs x) as Hx. destruct (env !! x) as [h|] eqn:Ex, (vals !! x) as [v|] eqn:Vx;
      [|done..|by eauto]. destruct Hx as (Hh & c & Hc & Hr).
    unfold ctx_update. run. rewrite Hc. cbn [ok_or]. rewrite (bind_lift _ c _ _ eq_refl). cbn.
    do 2 eexists. split; [done|]. eapply sim_update; eauto.
  - pose proof (sim_holds _ _ _ Hs x) as Hx. destruct (env !! x) as [h|] eqn:Ex, (vals !! x) as [v|] eqn:Vx;
      [|done..|].
    + destruct Hx as (Hh & c & Hc & Hr). rewrite (ctx_clone_live _ _ c) by done.
      destruct (assign_fresh t env vals y _ _ _ Hs Hz Hn Hr) as (t' & -> & Hs'). eauto.
    + destruct (assign_none t env vals y Hs) as (t' & He & Hs'). rewrite He. eauto.
  - destruct (assign_none t env vals x Hs) as (t' & He & Hs'). rewrite He. eauto.
  - pose proof (sim_holds _ _ _ Hs x) as Hx. destruct (env !! x) as [h|] eqn:Ex, (vals !! x) as [v|] eqn:Vx;
      [|done..|by eauto]. destruct Hx as (Hh & c & Hc & Hr). rewrite (ctx_clone_live _ _ c) by done.
    unfold ctx_finalize. run. rewrite lookup_insert_eq. cbn [ok_or]. rewrite (bind_lift _ c _ _ eq_refl).
    run. destruct (rep_finish (E:=unit) c v Hr) as (d & Hd & Hd'). unfold lift. rewrite Hd, Hd'.
    rewrite delete_insert_id by done. eauto.
Qed.

Lemma run_sim ops t env vals :
  sim t env vals →
  ∃ t' env', run_ops (step alloc) ops (t, env) = (fst (run_ops value_step ops vals), (t', env')) ∧
    sim t' env' (snd (run_ops value_step ops vals)).
Proof.
  revert t env vals. induction ops as [|o ops IH]; intros t env vals Hs; [by eauto|]. cbn [run_ops].
  destruct (step_sim o t env vals Hs) as (t1 & env1 & -> & Hs1).
  destruct (value_step o vals) as [x vals1]. cbn [fst snd] in *.
  destruct (IH _ _ _ Hs1) as (t' & env' & -> & Hs'). destruct (run_ops value_step ops vals1). eauto.
Qed.

Lemma sim_empty : sim ∅ ∅ ∅.
Proof. split; intros *; rewrite ?lookup_empty; done. Qed.

(** C26: the table of hash contexts implements contexts as values: for every
    program of initialisations, updates, copies, resets and digests, the
    handle-based implementation gives the same results as the values, where a
    digest is [hash_all] of all bytes fed to the place; the table then holds
    exactly the contexts that places still own, so that none leaks and none is
    shared. *)
Theorem hash_ctx_refines ops :
  ∃ t env, run_ops (step alloc) ops (∅, ∅) = (fst (run_ops value_step ops ∅), (t, env)) ∧
    sim t env (snd (run_ops value_step ops ∅)).
Proof. apply run_sim, sim_empty. Qed.

End Refinement.

(** *** An instance *)
#[local] Instance toy_digest : RingDigest :=
  {| ring_ctx := ring_digest * list Z;
     ring_ctx_new a := (a, []);
     ring_ctx_update c d := (c.1, c.2 ++ d);
     ring_ctx_finish c := @ring_hash ToyRing.toy_ring c.1 c.2 |}.
Lemma toy_digest_ok : @RingDigestOk ToyRing.toy_ring toy_digest.
Proof.
  split. intros a parts. cbn -[ring_hash].
  enough (∀ d, foldl ring_ctx_update (a, d) parts = (a, d ++ concat parts)) as H.
  { cbn -[ring_hash] in H. by rewrite H. }
  induction parts as [|p parts IH]; intros d; [by rewrite app_nil_r|].
  cbn -[ring_hash] in *. by rewrite IH, app_assoc.
Qed.
Definition toy_alloc (t : gmap Z ring_ctx) : Z := fresh ({[0]} ∪ dom t).
Lemma toy_alloc_fresh t : t !! toy_alloc t = None ∧ toy_alloc t ≠ 0.
Proof.
  pose proof (is_fresh ({[0]} ∪ dom t)) as Hf. fold (toy_alloc t) in Hf.
  rewrite elem_of_union, elem_of_singleton, elem_of_dom in Hf.
  split; [apply eq_None_not_Some|]; intros ?; apply Hf; auto.
Qed.

Definition demo : list op :=
  [OInit 0 SpdmBaseHashAlgo.TPM_ALG_SHA_256; OUpdate 0 [1; 2]; OCopy 0 1; OUpdate 1 [3];
   ODigest 1; OReset 0; ODigest 0; ODigest 1].
Lemma hash_ctx_refines_witness :
  ∃ t env, run_ops (step toy_alloc) demo (∅, ∅)
    = ([Ok None; Ok None; Ok None; Ok None; Ok (Some (sens_of (replicate 32 6))); Ok None;
        Err SPDM_STATUS_INVALID_STATE_LOCAL; Ok (Some (sens_of (replicate 32 6)))], (t, env)).
Proof.
  destruct (@hash_ctx_refines _ _ toy_digest_ok ToyRing.toy_ring_ok toy_alloc toy_alloc_fresh demo)
    as (t & env & He & _).
  exists t, env. rewrite He. f_equal.
Defined.
End HashTable.
