(* ===== verification/KeySchedule.v ===== *)
(** * Key schedule

    Models src/spdmlib/src/common/key_schedule.rs: the label construction
    [binconcat] and the derivation of every secret of a session from the
    shared secret, over the cryptographic callbacks.  Proved: the exact layout
    of the HKDF info string and that strings of different labels never
    coincide; that every derivation succeeds for a negotiated hash algorithm
    and yields a secret of the digest size; and the sizes of the derived AEAD
    key and IV. *)

From Stdlib Require Import String.
From S2P Require Import Prelude Codec Status Bitflags Algo DataTypes Version Crypto.

Definition MAX_BIN_CONCAT_BUF_SIZE : usize := 2 + 8 + 12 + SPDM_MAX_HASH_SIZE.
Definition SALT_0 : list Z := zeros SPDM_MAX_HASH_SIZE.
Definition BIN_STR0_LABEL : list Z := bstr "derived".
Definition BIN_STR1_LABEL : list Z := bstr "req hs data".
Definition BIN_STR2_LABEL : list Z := bstr "rsp hs data".
Definition BIN_STR3_LABEL : list Z := bstr "req app data".
Definition BIN_STR4_LABEL : list Z := bstr "rsp app data".
Definition BIN_STR5_LABEL : list Z := bstr "key".
Definition BIN_STR6_LABEL : list Z := bstr "iv".
Definition BIN_STR7_LABEL : list Z := bstr "finished".
Definition BIN_STR8_LABEL : list Z := bstr "exp master".
Definition BIN_STR9_LABEL : list Z := bstr "traffic upd".
Definition SPDM_VERSION_VALUE : list Z := bstr "spdm .  ".
Definition SPDM_VERSION_VALUE_MAJOR_INDEX : usize := 4.
Definition SPDM_VERSION_VALUE_MINOR_INDEX : usize := 6.

Module KeySchedule.

(** The patched version string of [binconcat]; a [u8] addition that overflows
    would panic. *)
Definition version_bytes (v : SpdmVersion) : outcome unit (list Z) :=
  let! s := or_panic (copy_from_slice (zeros 8) 0 8 SPDM_VERSION_VALUE) in
  let! major := add_checked 8 (Z.shiftr (version_u8 v) 4) 48 in
  let! s := or_panic (zset s SPDM_VERSION_VALUE_MAJOR_INDEX major) in
  let! minor := add_checked 8 (Z.land (version_u8 v) 0x0F) 48 in
  or_panic (zset s SPDM_VERSION_VALUE_MINOR_INDEX minor).

(** A call whose [Option] result is dropped. *)
Definition ignored {S E F A} (m : M S E A) : M S F unit :=
  λ s, match m s with
       | (Ok _, s') => (Ok tt, s')
       | (Err _, s') => (Ok tt, s')
       | (Panic, s') => (Panic, s')
       end.

Definition context_len (context : option (list Z)) : Z :=
  match context with Some c => len c | None => 0 end.

(** The writes of [binconcat] into its buffer. *)
Definition binconcat_write (length : u16) (version label : list Z) (context : option (list Z)) :
    M Writer EncodeErr usize :=
  let* _ := encode length in
  let* _ := ignored (Writer.extend_from_slice version) in
  let* _ := ignored (Writer.extend_from_slice label) in
  let* _ := match context with
            | Some context => ignored (Writer.extend_from_slice context)
            | None => ret tt
            end in
  w_used.

(** The buffer is the state; the result is the slice [&buffer[0..len]]. *)
Definition binconcat (length : u16) (spdm_version : SpdmVersion) (label : list Z)
    (context : option (list Z)) : M (list Z) unit (list Z) :=
  λ buffer,
    if len buffer <? 2 + 8 then (Panic, buffer)
    else if len buffer - 2 - 8 <? len label + context_len context then (Err tt, buffer)
    else match version_bytes spdm_version with
    | Err e => (Err e, buffer)
    | Panic => (Panic, buffer)
    | Ok version =>
        match binconcat_write length version label context (Writer.init buffer) with
        | (Ok used, w) => (or_panic (slice (w_buf w) 0 used), w_buf w)
        | (Err _, w) => (Err tt, w_buf w)
        | (Panic, w) => (Panic, w_buf w)
        end
    end.

(** [let buffer = &mut [0; MAX_BIN_CONCAT_BUF_SIZE]; self.binconcat(.., buffer)?] *)
Definition bin_str (length : u16) (v : SpdmVersion) (label : list Z) (context : option (list Z)) :
    outcome unit (list Z) :=
  fst (binconcat length v label context (zeros MAX_BIN_CONCAT_BUF_SIZE)).

Section Derive.
Context `{SpdmCrypto}.

Definition derive_handshake_secret (spdm_version : SpdmVersion) (hash_algo : SpdmBaseHashAlgo)
    (key : SpdmSharedSecretFinalKeyStruct) : outcome unit SpdmHandshakeSecretStruct :=
  let! n := SpdmBaseHashAlgo.get_size hash_algo in
  let! salt := or_panic (slice SALT_0 0 n) in
  let! prk := hkdf_extract hash_algo salt (IkmSharedSecretFinalKey key) in
  sens_convert prk.

Definition derive_master_secret (spdm_version : SpdmVersion) (hash_algo : SpdmBaseHashAlgo)
    (key : SpdmHandshakeSecretStruct) : outcome unit SpdmMasterSecretStruct :=
  let! n := SpdmBaseHashAlgo.get_size hash_algo in
  let! bin_str0 := bin_str n spdm_version BIN_STR0_LABEL None in
  let! prk := from_input_keying_material (IkmHandshakeSecret key) in
  let! salt_1 := hkdf_expand hash_algo prk bin_str0 n in
  let! salt := sens_as_ref salt_1 in
  let! prk := hkdf_extract hash_algo salt (IkmZeroFilled (mkSens n (zeros SPDM_MAX_HASH_SIZE))) in
  sens_convert prk.

(** The common body of the derivations that take either a secret or, with
    [use_psk], the PSK callback. *)
Definition expand_or_psk {k} (use_psk : bool) (hash_algo : SpdmBaseHashAlgo)
    (ikm : option SpdmHkdfInputKeyingMaterial)
    (psk : SpdmVersion → SpdmBaseHashAlgo → SpdmPskHintStruct → list Z →
           outcome unit SpdmHkdfOutputKeyingMaterial)
    (spdm_version : SpdmVersion) (psk_hint : option SpdmPskHintStruct) (info : list Z) (n : u16) :
    outcome unit (sens k) :=
  let! okm :=
    if negb use_psk then
      match ikm with
      | Some i =>
          let! prk := from_input_keying_material i in
          hkdf_expand hash_algo prk info n
      | None => Err tt
      end
    else
      psk spdm_version hash_algo (default sens_default psk_hint) info in
  sens_convert okm.

Definition derive_request_handshake_secret (use_psk : bool) (spdm_version : SpdmVersion)
    (hash_algo : SpdmBaseHashAlgo) (key : option SpdmHandshakeSecretStruct)
    (psk_hint : option SpdmPskHintStruct) (th1 : list Z) :
    outcome unit SpdmDirectionHandshakeSecretStruct :=
  let! n := SpdmBaseHashAlgo.get_size hash_algo in
  let! bin_str1 := bin_str n spdm_version BIN_STR1_LABEL (Some th1) in
  expand_or_psk use_psk hash_algo (IkmHandshakeSecret <$> key) handshake_secret_hkdf_expand
    spdm_version psk_hint bin_str1 n.

Definition derive_response_handshake_secret (use_psk : bool) (spdm_version : SpdmVersion)
    (hash_algo : SpdmBaseHashAlgo) (key : option SpdmHandshakeSecretStruct)
    (psk_hint : option SpdmPskHintStruct) (th1 : list Z) :
    outcome unit SpdmDirectionHandshakeSecretStruct :=
  let! n := SpdmBaseHashAlgo.get_size hash_algo in
  let! bin_str2 := bin_str n spdm_version BIN_STR2_LABEL (Some th1) in
  expand_or_psk use_psk hash_algo (IkmHandshakeSecret <$> key) handshake_secret_hkdf_expand
    spdm_version psk_hint bin_str2 n.

Definition derive_finished_key (spdm_version : SpdmVersion) (hash_algo : SpdmBaseHashAlgo)
    (key : SpdmDirectionHandshakeSecretStruct) : outcome unit SpdmFinishedKeyStruct :=
  let! n := SpdmBaseHashAlgo.get_size hash_algo in
  let! bin_str7 := bin_str n spdm_version BIN_STR7_LABEL None in
  let! prk := from_input_keying_material (IkmDirectionHandshakeSecret key) in
  let! okm := hkdf_expand hash_algo prk bin_str7 n in
  sens_convert okm.

Definition major_ikm (key : SpdmMajorSecret) : SpdmHkdfInputKeyingMaterial :=
  match key with
  | MajorDirectionHandshakeSecret k => IkmDirectionHandshakeSecret k
  | MajorDirectionDataSecret k => IkmDirectionDataSecret k
  end.

(** Both strings are built in the same buffer, the second over the first. *)
Definition derive_aead_key_iv (spdm_version : SpdmVersion) (hash_algo : SpdmBaseHashAlgo)
    (aead_algo : SpdmAeadAlgo) (key : SpdmMajorSecret) :
    outcome unit (SpdmAeadKeyStruct * SpdmAeadIvStruct) :=
  let! ks := SpdmAeadAlgo.get_key_size aead_algo in
  let '(bin_str5, buffer) :=
    binconcat ks spdm_version BIN_STR5_LABEL None (zeros MAX_BIN_CONCAT_BUF_SIZE) in
  let! bin_str5 := bin_str5 in
  let! prk := from_input_keying_material (major_ikm key) in
  let! okm := hkdf_expand hash_algo prk bin_str5 (wrap 16 SPDM_MAX_AEAD_KEY_SIZE) in
  let! encrypt_key := sens_convert okm in
  let! ivs := SpdmAeadAlgo.get_iv_size aead_algo in
  let! bin_str6 := fst (binconcat ivs spdm_version BIN_STR6_LABEL None buffer) in
  let! prk := from_input_keying_material (major_ikm key) in
  let! okm := hkdf_expand hash_algo prk bin_str6 (wrap 16 SPDM_MAX_AEAD_IV_SIZE) in
  let! iv := sens_convert okm in
  Ok (encrypt_key, iv).

Definition derive_request_data_secret (use_psk : bool) (spdm_version : SpdmVersion)
    (hash_algo : SpdmBaseHashAlgo) (key : option SpdmMasterSecretStruct)
    (psk_hint : option SpdmPskHintStruct) (th2 : list Z) :
    outcome unit SpdmDirectionDataSecretStruct :=
  let! n := SpdmBaseHashAlgo.get_size hash_algo in
  let! bin_str3 := bin_str n spdm_version BIN_STR3_LABEL (Some th2) in
  expand_or_psk use_psk hash_algo (IkmMasterSecret <$> key) master_secret_hkdf_expand
    spdm_version psk_hint bin_str3 n.

Definition derive_response_data_secret (use_psk : bool) (spdm_version : SpdmVersion)
    (hash_algo : SpdmBaseHashAlgo) (key : option SpdmMasterSecretStruct)
    (psk_hint : option SpdmPskHintStruct) (th2 : list Z) :
    outcome unit SpdmDirectionDataSecretStruct :=
  let! n := SpdmBaseHashAlgo.get_size hash_algo in
  let! bin_str4 := bin_str n spdm_version BIN_STR4_LABEL (Some th2) in
  expand_or_psk use_psk hash_algo (IkmMasterSecret <$> key) master_secret_hkdf_expand
    spdm_version psk_hint bin_str4 n.

Definition derive_export_master_secret (use_psk : bool) (spdm_version : SpdmVersion)
    (hash_algo : SpdmBaseHashAlgo) (key : option SpdmMasterSecretStruct)
    (psk_hint : option SpdmPskHintStruct) : outcome unit SpdmExportMasterSecretStruct :=
  let! n := SpdmBaseHashAlgo.get_size hash_algo in
  let! bin_str8 := bin_str n spdm_version BIN_STR8_LABEL None in
  expand_or_psk use_psk hash_algo (IkmMasterSecret <$> key) master_secret_hkdf_expand
    spdm_version psk_hint bin_str8 n.

Definition derive_update_secret (spdm_version : SpdmVersion) (hash_algo : SpdmBaseHashAlgo)
    (key : SpdmDirectionDataSecretStruct) : outcome unit SpdmDirectionDataSecretStruct :=
  let! n := SpdmBaseHashAlgo.get_size hash_algo in
  let! bin_str9 := bin_str n spdm_version BIN_STR9_LABEL None in
  let! prk := from_input_keying_material (IkmDirectionDataSecret key) in
  let! okm := hkdf_expand hash_algo prk bin_str9 n in
  sens_convert okm.

End Derive.

(** ** The info string *)
Definition version_text (v : SpdmVersion) : list Z :=
  match v with
  | SpdmVersion10 => bstr "spdm1.0 " | SpdmVersion11 => bstr "spdm1.1 "
  | SpdmVersion12 => bstr "spdm1.2 " | SpdmVersion13 => bstr "spdm1.3 "
  | SpdmVersion14 => bstr "spdm1.4 "
  end.

(** The specification of [binconcat]: the concatenation of DSP0274. *)
Definition info (length : Z) (v : SpdmVersion) (label : list Z) (context : option (list Z)) : list Z :=
  le_bytes 2 length ++ version_text v ++ label ++ default [] context.

Lemma version_bytes_text v : version_bytes v = Ok (version_text v).
Proof. by destruct v. Qed.
Lemma len_version_text v : len (version_text v) = 8.
Proof. by destruct v. Qed.
Lemma len_info length v label context :
  len (info length v label context) = 10 + len label + context_len context.
Proof.
  unfold info. rewrite !len_app, len_le_bytes, len_version_text.
  destruct context; cbn [default context_len id]; rewrite ?len_nil; lia.
Qed.

Lemma ignored_extend {E} v w :
  writer_wf w → len v ≤ Writer.left w →
  ignored (F:=E) (Writer.extend_from_slice v) w = (Ok tt, put w v).
Proof. intros. unfold ignored. by rewrite extend_fits. Qed.

Lemma binconcat_write_ok length v label context buffer :
  len label + context_len context ≤ len buffer - 10 →
  binconcat_write length (version_text v) label context (Writer.init buffer) =
    (Ok (len (info length v label context)), put (Writer.init buffer) (info length v label context)).
Proof.
  intros Hfit. set (w := Writer.init buffer).
  assert (writer_wf w) as Hw by (unfold writer_wf, w; cbn; zlia).
  assert (Writer.left w = len buffer) as Hl by (unfold Writer.left, w; cbn; lia).
  pose proof (len_version_text v) as Hv. pose proof (len_nonneg label).
  assert (0 ≤ context_len context) by (destruct context; cbn; zlia).
  unfold binconcat_write, bind at 1.
  rewrite (proj1 (writes_u16 length w Hw)) by zlia. unfold bind at 1.
  assert (∀ bs, len bs ≤ len buffer → writer_wf (put w bs) ∧ Writer.left (put w bs) = len buffer - len bs)
    as Hput by (intros; split; [apply put_wf|rewrite put_left]; done || lia).
  destruct (Hput (le_bytes 2 length)) as [Hw1 Hl1]; [zlia|]. rewrite len_le_bytes in Hl1.
  rewrite ignored_extend, put_put by (done || zlia). unfold bind at 1.
  destruct (Hput (le_bytes 2 length ++ version_text v)) as [Hw2 Hl2]; [zlia|].
  rewrite len_app, len_le_bytes, Hv in Hl2.
  rewrite ignored_extend, put_put by (done || zlia). rewrite <- app_assoc. unfold bind at 1.
  unfold info. destruct context as [c|]; cbn [context_len default id] in *.
  - destruct (Hput (le_bytes 2 length ++ version_text v ++ label)) as [Hw3 Hl3]; [zlia|].
    rewrite !len_app, len_le_bytes, Hv in Hl3.
    rewrite ignored_extend, put_put by (done || zlia). rewrite <- !app_assoc. done.
  - rewrite app_nil_r. done.
Qed.

Lemma binconcat_ok length v label context buffer :
  len label + context_len context ≤ len buffer - 10 →
  binconcat length v label context buffer =
    (Ok (info length v label context), splice buffer 0 (info length v label context)).
Proof.
  intros Hfit. unfold binconcat. pose proof (len_nonneg label).
  assert (0 ≤ context_len context) by (destruct context; cbn; zlia).
  replace (len buffer <? 2 + 8) with false by lia.
  replace (len buffer - 2 - 8 <? len label + context_len context) with false by lia.
  rewrite version_bytes_text, binconcat_write_ok by done.
  unfold put, Writer.init. cbn [w_buf w_offs].
  pose proof (len_info length v label context) as Hi.
  rewrite slice_spec by zlia. rewrite Z.sub_0_r, zdrop_0. cbn [or_panic]. do 2 f_equal.
  rewrite <- (Z.add_0_l (len (info _ _ _ _))) at 1. rewrite ztake_splice by lia. done.
Qed.

Lemma binconcat_too_long length v label context buffer :
  10 ≤ len buffer → len buffer - 10 < len label + context_len context →
  binconcat length v label context buffer = (Err tt, buffer).
Proof.
  intros. unfold binconcat. replace (len buffer <? 2 + 8) with false by lia.
  by replace (len buffer - 2 - 8 <? len label + context_len context) with true by lia.
Qed.

Lemma bin_str_ok length v label context :
  len label + context_len context ≤ 76 →
  bin_str length v label context = Ok (info length v label context).
Proof. intros. unfold bin_str. by rewrite binconcat_ok by (rewrite len_zeros; cbv; done || lia). Qed.

(** *** Labels are separated *)
Definition labels : list (list Z) :=
  [BIN_STR0_LABEL; BIN_STR1_LABEL; BIN_STR2_LABEL; BIN_STR3_LABEL; BIN_STR4_LABEL;
   BIN_STR5_LABEL; BIN_STR6_LABEL; BIN_STR7_LABEL; BIN_STR8_LABEL; BIN_STR9_LABEL].

(** No label is a proper prefix of another. *)
Definition prefix_free (ls : list (list Z)) : bool :=
  forallb (λ a, forallb (λ b, bool_decide (a = b) || negb (bool_decide (a `prefix_of` b))) ls) ls.

Lemma prefix_free_spec ls a b :
  prefix_free ls = true → a ∈ ls → b ∈ ls → a `prefix_of` b → a = b.
Proof.
  unfold prefix_free. rewrite forallb_forall. intros H Ha%list_elem_of_In Hb%list_elem_of_In Hp.
  specialize (H a Ha). rewrite forallb_forall in H. specialize (H b Hb).
  rewrite orb_true_iff, bool_decide_eq_true, negb_true_iff, bool_decide_eq_false in H. by destruct H.
Qed.

Lemma app_prefix_cases (a b c d : list Z) :
  a ++ c = b ++ d → a `prefix_of` b ∨ b `prefix_of` a.
Proof. intros [(x & -> & _)|(x & -> & _)]%app_eq_inv; [right|left]; by eexists. Qed.

Lemma info_label_inj n1 n2 v1 v2 l1 l2 c1 c2 :
  l1 ∈ labels → l2 ∈ labels → info n1 v1 l1 c1 = info n2 v2 l2 c2 → l1 = l2.
Proof.
  intros H1 H2 Heq. unfold info in Heq.
  apply app_inj_1 in Heq as [_ Heq]; [|done].
  apply app_inj_1 in Heq as [_ Heq]; [|by destruct v1, v2].
  destruct (app_prefix_cases _ _ _ _ Heq).
  - by apply (prefix_free_spec labels).
  - symmetry. by apply (prefix_free_spec labels).
Qed.

Lemma labels_in l : bool_decide (l ∈ labels) = true → l ∈ labels.
Proof. by rewrite bool_decide_eq_true. Qed.

Lemma bin_str_label length v l context :
  l ∈ labels → context_len context ≤ SPDM_MAX_HASH_SIZE →
  bin_str length v l context = Ok (info length v l context).
Proof.
  intros Hl Hc. apply bin_str_ok. enough (len l ≤ 12) by (unfold SPDM_MAX_HASH_SIZE in Hc; lia).
  assert (forallb (λ l, len l <=? 12) labels = true) as Hall by done.
  rewrite forallb_forall in Hall. apply list_elem_of_In, Hall in Hl. lia.
Qed.

(** ** Derivations succeed *)
Section Sizes.
Context `{CryptoOk}.
Variables (h : SpdmBaseHashAlgo) (v : SpdmVersion).
Hypothesis Hh : hash_valid h.

(** A secret of the digest size. *)
Definition secret_ok {k} (s : sens k) : Prop := sens_wf s ∧ data_size s = hash_size h.
Definition yields {k} (o : outcome unit (sens k)) : Prop := ∃ s, o = Ok s ∧ secret_ok s.

Lemma secret_convert {a b} (x : sens a) :
  cap b = SPDM_MAX_HASH_SIZE → secret_ok x → yields (sens_convert (b:=b) x).
Proof.
  intros Hb [Hx Hs]. pose proof (hash_size_bound h Hh).
  exists (sens_of (content x)). pose proof (len_content x Hx). rewrite sens_convert_ok by (done || lia).
  split; [done|]. split; [|cbn; lia]. apply sens_of_wf; [lia|apply Hx].
Qed.

Lemma expand_secret {k} i bs n :
  ikm_wf i → ikm_get_data_size i = hash_size h → 0 < n ≤ SPDM_MAX_HKDF_OKM_SIZE → n ≤ cap k →
  ∃ s : sens k,
    (let! prk := from_input_keying_material i in
     let! okm := hkdf_expand h prk bs n in sens_convert okm) = Ok s ∧ sens_wf s ∧ data_size s = n.
Proof.
  intros Hi Hs Hn Hk. pose proof (hash_size_bound h Hh). destruct (ikm_wf_inv i Hi) as (Hb & Hl & Hw).
  assert (len (ikm_content i) = hash_size h) as Hlen by (unfold ikm_content; zlia).
  rewrite from_ikm_ok by (done || lia). cbn [obind].
  destruct (expand_ok h (sens_of (ikm_content i)) bs n Hh) as (okm & Ho & Hwo & Hso); [|done|done|].
  { apply sens_of_wf; [cbn; lia|done]. }
  rewrite Ho. cbn [obind]. pose proof (len_content okm Hwo).
  exists (sens_of (content okm)). rewrite sens_convert_ok by (done || lia).
  split_and!; [done| |cbn; lia]. apply sens_of_wf; [lia|apply Hwo].
Qed.

Ltac start_derive :=
  unfold derive_handshake_secret, derive_master_secret, derive_request_handshake_secret,
    derive_response_handshake_secret, derive_finished_key, derive_request_data_secret,
    derive_response_data_secret, derive_export_master_secret, derive_update_secret, expand_or_psk;
  rewrite hash_get_size by done; cbn [obind];
  rewrite ?bin_str_label by first [apply labels_in; vm_compute; reflexivity | done];
  cbn [obind negb fmap option_fmap option_map].

Lemma derive_handshake_secret_ok key :
  sens_wf key → yields (derive_handshake_secret v h key).
Proof.
  intros Hk. pose proof (hash_size_bound h Hh). start_derive.
  rewrite slice_spec by (unfold SALT_0; zlia). cbn [or_panic obind].
  edestruct (extract_ok h) as (prk & -> & Hp); [done|exact Hk|]. cbn [obind].
  by apply secret_convert.
Qed.

Lemma derive_master_secret_ok key : secret_ok key → yields (derive_master_secret v h key).
Proof.
  intros [Hk Hs]. pose proof (hash_size_bound h Hh) as Hb. start_derive.
  rewrite from_ikm_ok by (done || cbn; lia). cbn [obind].
  assert (len (ikm_content (IkmHandshakeSecret key)) = hash_size h) as Hl.
  { rewrite <- Hs. by apply len_content. }
  destruct (expand_ok h (sens_of (ikm_content (IkmHandshakeSecret key)))
              (info (hash_size h) v BIN_STR0_LABEL None) (hash_size h) Hh)
    as (okm & -> & Hwo & Hso); [|done|done|].
  - apply sens_of_wf; [by rewrite Hl; apply Hb|apply Hk].
  - cbn [obind]. rewrite sens_as_ref_ok by done. cbn [obind].
    edestruct (extract_ok h) as (prk & -> & Hp); [done| |cbn [obind]; by apply secret_convert].
    assert (mkSens (hash_size h) (zeros SPDM_MAX_HASH_SIZE) = sens_of (k:=KZeroFilled) (zeros (hash_size h)))
      as ->; [|apply sens_of_wf; [rewrite len_zeros; cbn; lia|apply bytes_wf_zeros]].
    unfold sens_of. rewrite len_zeros by lia. f_equal. unfold zeros. rewrite <- replicate_add.
    f_equal. cbn. unfold SPDM_MAX_HASH_SIZE in *. lia.
Qed.

Lemma expand_digest {k} i bs :
  cap k = SPDM_MAX_HASH_SIZE → ikm_wf i → ikm_get_data_size i = hash_size h →
  yields (k:=k) (let! prk := from_input_keying_material i in
                 let! okm := hkdf_expand h prk bs (hash_size h) in sens_convert okm).
Proof.
  intros Hk Hi Hs. pose proof (hash_size_bound h Hh).
  destruct (expand_secret (k:=k) i bs (hash_size h)) as (s & -> & Hw & Hl); [done..|lia|].
  by exists s.
Qed.

Lemma obind_assoc {E A B C} (m : outcome E A) (f : A → outcome E B) (g : B → outcome E C) :
  obind (obind m f) g = obind m (λ a, obind (f a) g).
Proof. by destruct m. Qed.

Section Th.
Context (th : list Z) (Hth : len th ≤ SPDM_MAX_HASH_SIZE).

Lemma derive_request_handshake_secret_ok key hint :
  secret_ok key → yields (derive_request_handshake_secret false v h (Some key) hint th).
Proof. intros [Hk Hs]. start_derive. rewrite obind_assoc. by apply expand_digest. Qed.
Lemma derive_response_handshake_secret_ok key hint :
  secret_ok key → yields (derive_response_handshake_secret false v h (Some key) hint th).
Proof. intros [Hk Hs]. start_derive. rewrite obind_assoc. by apply expand_digest. Qed.
Lemma derive_request_data_secret_ok key hint :
  secret_ok key → yields (derive_request_data_secret false v h (Some key) hint th).
Proof. intros [Hk Hs]. start_derive. rewrite obind_assoc. by apply expand_digest. Qed.
Lemma derive_response_data_secret_ok key hint :
  secret_ok key → yields (derive_response_data_secret false v h (Some key) hint th).
Proof. intros [Hk Hs]. start_derive. rewrite obind_assoc. by apply expand_digest. Qed.
End Th.

Lemma derive_finished_key_ok key : secret_ok key → yields (derive_finished_key v h key).
Proof. intros [Hk Hs]. start_derive. by apply expand_digest. Qed.
Lemma derive_export_master_secret_ok key hint :
  secret_ok key → yields (derive_export_master_secret false v h (Some key) hint).
Proof. intros [Hk Hs]. start_derive. rewrite obind_assoc. by apply expand_digest. Qed.
Lemma derive_update_secret_ok key : secret_ok key → yields (derive_update_secret v h key).
Proof. intros [Hk Hs]. start_derive. by apply expand_digest. Qed.

(** The key is always the maximal size, the IV the one of the algorithm. *)
Lemma derive_aead_key_iv_ok a key :
  aead_valid a → ikm_wf (major_ikm key) → ikm_get_data_size (major_ikm key) = hash_size h →
  ∃ k iv, derive_aead_key_iv v h a key = Ok (k, iv) ∧ sens_wf k ∧ sens_wf iv ∧
          data_size k = SPDM_MAX_AEAD_KEY_SIZE ∧ data_size iv = SPDM_MAX_AEAD_IV_SIZE.
Proof.
  intros Ha Hi Hs. destruct (aead_sizes a Ha) as (ks & Hks & Hiv & _).
  unfold derive_aead_key_iv. rewrite Hks. cbn [obind].
  rewrite binconcat_ok by (cbv; congruence). cbn [obind].
  change (wrap 16 SPDM_MAX_AEAD_KEY_SIZE) with 32. change (wrap 16 SPDM_MAX_AEAD_IV_SIZE) with 12.
  destruct (expand_secret (k:=KAeadKey) (major_ikm key) (info ks v BIN_STR5_LABEL None) 32)
    as (k & Hk & Hwk & Hsk); [done|done|by vm_compute|by vm_compute|].
  destruct (expand_secret (k:=KAeadIv) (major_ikm key) (info 12 v BIN_STR6_LABEL None) 12)
    as (iv & Hv & Hwv & Hsv); [done|done|by vm_compute|by vm_compute|].
  rewrite Hiv. cbn [obind]. rewrite binconcat_ok.
  - revert Hk Hv. destruct (from_input_keying_material (major_ikm key)) as [prk| |]; try done.
    cbn [obind fst]. destruct (hkdf_expand h prk _ 32); try done. cbn [obind]. intros ->. cbn [obind].
    destruct (hkdf_expand h prk _ 12); try done. cbn [obind]. intros ->. cbn [obind].
    exists k, iv. by split_and!.
  - rewrite len_splice; [cbv; congruence|done|]. rewrite len_info. cbv; congruence.
Qed.
End Sizes.

(** ** Properties *)

(** The HKDF info strings are laid out as DSP0274 says: with a buffer of
    at least ten bytes, [binconcat] returns the little-endian length, the
    eight characters naming the protocol version, the label and the context,
    and has written exactly that; when they do not fit it returns nothing and
    leaves the buffer alone. *)
Theorem binconcat_layout length v label context buffer :
  10 ≤ len buffer →
  binconcat length v label context buffer
  = if 10 + len label + context_len context <=? len buffer
    then (Ok (le_bytes 2 length ++ version_text v ++ label ++ default [] context),
          splice buffer 0 (le_bytes 2 length ++ version_text v ++ label ++ default [] context))
    else (Err tt, buffer).
Proof.
  intros Hb. destruct (Z.leb_spec (10 + len label + context_len context) (len buffer)).
  - by rewrite binconcat_ok by lia.
  - by rewrite binconcat_too_long by lia.
Qed.

Lemma binconcat_layout_witness :
  binconcat 32 SpdmVersion12 BIN_STR5_LABEL None (zeros 16)
  = (Ok (le_bytes 2 32 ++ version_text SpdmVersion12 ++ BIN_STR5_LABEL ++ []),
     splice (zeros 16) 0 (le_bytes 2 32 ++ version_text SpdmVersion12 ++ BIN_STR5_LABEL ++ [])).
Proof. apply (binconcat_layout 32 SpdmVersion12 BIN_STR5_LABEL None (zeros 16)). by vm_compute. Defined.

(** Derivations are separated by their label: when two of the ten labels
    of the key schedule give the same info string, whatever the lengths,
    versions and contexts (hashes of any size up to the maximum), they are
    the same label. *)
Theorem labels_separate_keys n1 n2 v1 v2 l1 l2 c1 c2 bs :
  l1 ∈ labels → l2 ∈ labels →
  context_len c1 ≤ SPDM_MAX_HASH_SIZE → context_len c2 ≤ SPDM_MAX_HASH_SIZE →
  bin_str n1 v1 l1 c1 = Ok bs → bin_str n2 v2 l2 c2 = Ok bs → l1 = l2.
Proof.
  intros H1 H2 Hc1 Hc2. rewrite !bin_str_label by done. intros [= Hb1] [= Hb2].
  subst bs. exact (info_label_inj _ _ _ _ _ _ _ _ H1 H2 (eq_sym Hb2)).
Qed.

Lemma labels_separate_keys_witness : BIN_STR5_LABEL = bstr "key".
Proof.
  apply (labels_separate_keys 32 32 SpdmVersion12 SpdmVersion12 BIN_STR5_LABEL (bstr "key") None None
    (info 32 SpdmVersion12 BIN_STR5_LABEL None));
    [by apply labels_in|by apply labels_in|by vm_compute|by vm_compute|reflexivity|reflexivity].
Defined.

End KeySchedule.
