(* ===== verification/ManagedBuffer.v ===== *)
(** * Managed buffers

    Models the [ManagedBuffer*] types of src/spdmlib/src/common/mod.rs: a fill
    level and a fixed array, the storage of the message transcripts.  Proved:
    the invariant of the fill level, that a buffer is the concatenation of
    what was appended since the last reset, that an append that does not fit
    changes nothing, and the codec round trip of the content. *)

From S2P Require Import Prelude Codec Algo Version.

Definition MAX_SPDM_OPAQUE_SIZE : usize := 1024.
Definition MAX_SPDM_CERT_CHAIN_DATA_SIZE : usize := 4096.
Definition MAX_SPDM_MEASUREMENT_RECORD_SIZE : usize := 4000.

Definition MAX_MANAGED_BUFFER_A_SIZE : usize := 150 + 2 * 255.
Definition MAX_MANAGED_BUFFER_B_SIZE : usize :=
  24 + SPDM_MAX_HASH_SIZE * SPDM_MAX_SLOT_NUMBER + MAX_SPDM_CERT_CHAIN_DATA_SIZE.
Definition MAX_MANAGED_BUFFER_C_SIZE : usize :=
  78 + SPDM_MAX_HASH_SIZE * 2 + SPDM_MAX_ASYM_SIG_SIZE + MAX_SPDM_OPAQUE_SIZE.
Definition MAX_MANAGED_BUFFER_M_SIZE : usize :=
  47 + SPDM_NONCE_SIZE + MAX_SPDM_MEASUREMENT_RECORD_SIZE + SPDM_MAX_ASYM_SIG_SIZE
  + MAX_SPDM_OPAQUE_SIZE.
Definition MAX_MANAGED_BUFFER_K_SIZE : usize :=
  84 + SPDM_MAX_REQ_KEY_EXCHANGE_SIZE + SPDM_MAX_RSP_KEY_EXCHANGE_SIZE + SPDM_MAX_HASH_SIZE * 2
  + SPDM_MAX_ASYM_SIG_SIZE + MAX_SPDM_OPAQUE_SIZE * 2.
Definition MAX_MANAGED_BUFFER_F_SIZE : usize := 8 + SPDM_MAX_HASH_SIZE * 2 + SPDM_MAX_ASYM_SIG_SIZE.
Definition MAX_MANAGED_BUFFER_M1M2_SIZE : usize :=
  MAX_MANAGED_BUFFER_A_SIZE + MAX_MANAGED_BUFFER_B_SIZE + MAX_MANAGED_BUFFER_C_SIZE.
Definition MAX_MANAGED_BUFFER_L1L2_SIZE : usize :=
  MAX_MANAGED_BUFFER_A_SIZE + MAX_MANAGED_BUFFER_M_SIZE.
Definition MAX_MANAGED_BUFFER_TH_SIZE : usize :=
  MAX_MANAGED_BUFFER_A_SIZE + SPDM_MAX_HASH_SIZE + MAX_MANAGED_BUFFER_K_SIZE + SPDM_MAX_HASH_SIZE
  + MAX_MANAGED_BUFFER_F_SIZE.
Definition MAX_MANAGED_BUFFER_VDM_MESSAGE_TRANSCRIPT_SIZE : usize := 128.
Definition SPDM_VERSION_1_X_SIGNING_PREFIX_CONTEXT_SIZE : usize := 16 * 4.
Definition SPDM_VERSION_1_X_SIGN_CONTEXT_SIZE : usize := 36.
Definition MAX_MANAGED_BUFFER_12SIGN_SIZE : usize :=
  SPDM_VERSION_1_X_SIGNING_PREFIX_CONTEXT_SIZE + SPDM_VERSION_1_X_SIGN_CONTEXT_SIZE
  + SPDM_MAX_HASH_SIZE.

(** The eleven declarations differ in their size only. *)
Inductive mbuf_kind :=
| BufA | BufB | BufC | BufM | BufK | BufF | BufM1M2 | BufL1L2 | BufTH | Buf12Sign | BufVdm.

Definition mb_cap (k : mbuf_kind) : usize :=
  match k with
  | BufA => MAX_MANAGED_BUFFER_A_SIZE
  | BufB => MAX_MANAGED_BUFFER_B_SIZE
  | BufC => MAX_MANAGED_BUFFER_C_SIZE
  | BufM => MAX_MANAGED_BUFFER_M_SIZE
  | BufK => MAX_MANAGED_BUFFER_K_SIZE
  | BufF => MAX_MANAGED_BUFFER_F_SIZE
  | BufM1M2 => MAX_MANAGED_BUFFER_M1M2_SIZE
  | BufL1L2 => MAX_MANAGED_BUFFER_L1L2_SIZE
  | BufTH => MAX_MANAGED_BUFFER_TH_SIZE
  | Buf12Sign => MAX_MANAGED_BUFFER_12SIGN_SIZE
  | BufVdm => MAX_MANAGED_BUFFER_VDM_MESSAGE_TRANSCRIPT_SIZE
  end.

(** Field [0] and field [1] of the tuple struct. *)
Record mbuf (k : mbuf_kind) := mkMbuf { mb_used : usize; mb_data : list Z }.
Arguments mkMbuf {k} _ _.
Arguments mb_used {k} _.
Arguments mb_data {k} _.

Definition ManagedBufferA : Type := mbuf BufA.
Definition ManagedBufferB : Type := mbuf BufB.
Definition ManagedBufferC : Type := mbuf BufC.
Definition ManagedBufferM : Type := mbuf BufM.
Definition ManagedBufferK : Type := mbuf BufK.
Definition ManagedBufferF : Type := mbuf BufF.
Definition ManagedBufferM1M2 : Type := mbuf BufM1M2.
Definition ManagedBufferL1L2 : Type := mbuf BufL1L2.
Definition ManagedBufferTH : Type := mbuf BufTH.
Definition ManagedBuffer12Sign : Type := mbuf Buf12Sign.
Definition ManagedVdmBuffer : Type := mbuf BufVdm.

Section Ops.
Context {k : mbuf_kind}.

Definition mb_default : mbuf k := mkMbuf 0 (zeros (mb_cap k)).
Definition reset_message (b : mbuf k) : mbuf k := mkMbuf 0 (mb_data b).
Definition mb_as_ref {E} (b : mbuf k) : outcome E (list Z) :=
  or_panic (slice (mb_data b) 0 (mb_used b)).

(** The writer works on the tail of the array, in place. *)
Definition append_message (bs : list Z) : M (mbuf k) unit usize :=
  λ b,
    let used := mb_used b in
    match slice (mb_data b) used (len (mb_data b)) with
    | None => (Panic, b)
    | Some tail =>
        let '(r, w) := Writer.extend_from_slice bs (Writer.init tail) in
        let data := ztake used (mb_data b) ++ w_buf w in
        match r with
        | Ok write_len => (Ok (Writer.used w), mkMbuf (used + write_len) data)
        | Err e => (Err e, mkMbuf used data)
        | Panic => (Panic, mkMbuf used data)
        end
    end.

Definition mb_encode (b : mbuf k) : M Writer EncodeErr usize :=
  let* s1 := encode (mb_used b : u64) in
  let* d := lift (or_panic (slice (mb_data b) 0 (mb_used b))) in
  let* s2 := extend_or d in
  ret (s1 + s2).
Definition mb_read : M Reader unit (mbuf k) :=
  let* data_size := read (A:=u64) in
  if mb_cap k <? data_size then throw tt else
  let* d := read_prefix data_size (zeros (mb_cap k)) in
  ret (mkMbuf data_size d).

End Ops.

(** ** Laws *)
Section Laws.
Context {k : mbuf_kind}.

Definition mb_wf (b : mbuf k) : Prop :=
  0 ≤ mb_used b ≤ mb_cap k ∧ len (mb_data b) = mb_cap k ∧ bytes_wf (mb_data b).

(** What was appended since the last reset. *)
Definition mb_content (b : mbuf k) : list Z := ztake (mb_used b) (mb_data b).

(** The buffer that holds [bs] and zeros. *)
Definition mb_of (bs : list Z) : mbuf k := mkMbuf (len bs) (bs ++ zeros (mb_cap k - len bs)).

Lemma mb_content_of bs : mb_content (mb_of bs) = bs.
Proof. unfold mb_content, mb_of. cbn. apply ztake_app. Qed.
Lemma mb_of_wf bs : len bs ≤ mb_cap k → bytes_wf bs → mb_wf (mb_of bs).
Proof.
  intros Hl Hw. pose proof (len_nonneg bs). unfold mb_wf, mb_of. cbn. split; [lia|].
  split; [rewrite len_app, len_zeros; lia|]. apply bytes_wf_app. auto with wfb.
Qed.

Lemma mb_cap_bound : 128 ≤ mb_cap k ≤ 20000.
Proof. destruct k; vm_compute; split; congruence. Qed.

Lemma mb_default_wf : mb_wf mb_default.
Proof.
  pose proof mb_cap_bound. unfold mb_wf, mb_default. cbn. split_and!; [lia..| |auto with wfb]. zlia.
Qed.
Lemma mb_default_content : mb_content mb_default = [].
Proof. done. Qed.
Lemma reset_message_wf b : mb_wf b → mb_wf (reset_message b).
Proof. intros (Hu & Hl & Hb). pose proof mb_cap_bound. unfold mb_wf. cbn. split_and!; done || lia. Qed.
Lemma reset_message_content b : mb_content (reset_message b) = [].
Proof. done. Qed.

Lemma len_mb_content b : mb_wf b → len (mb_content b) = mb_used b.
Proof. intros (Hu & Hl & _). unfold mb_content. zlia. Qed.

Lemma mb_as_ref_ok {E} b : mb_wf b → mb_as_ref (E:=E) b = Ok (mb_content b).
Proof.
  intros (Hu & Hl & _). unfold mb_as_ref. rewrite slice_spec by lia. by rewrite Z.sub_0_r.
Qed.

(** The effect of an append: all of the bytes, or nothing. *)
Lemma append_message_fits bs b :
  mb_wf b → bytes_wf bs → len bs ≤ mb_cap k - mb_used b →
  ∃ b', append_message bs b = (Ok (len bs), b') ∧ mb_wf b' ∧ mb_content b' = mb_content b ++ bs.
Proof.
  intros (Hu & Hl & Hb) Hbs Hfit. unfold append_message. rewrite slice_spec by lia.
  rewrite (ztake_all (len (mb_data b) - mb_used b)) by zlia.
  set (tail := zdrop (mb_used b) (mb_data b)).
  assert (len tail = mb_cap k - mb_used b) as Ht by (unfold tail; zlia).
  rewrite extend_fits by (unfold writer_wf, Writer.left, Writer.init; cbn; zlia).
  unfold put, Writer.init, Writer.used. cbn [w_buf w_offs]. rewrite Z.add_0_l.
  pose proof (len_nonneg bs). eexists. split; [done|].
  assert (len (ztake (mb_used b) (mb_data b)) = mb_used b) by zlia.
  split; [unfold mb_wf; cbn; split_and!|unfold mb_content; cbn].
  - lia.
  - lia.
  - rewrite len_app, len_splice; lia.
  - apply bytes_wf_app. unfold tail. auto with wfb.
  - unfold splice. rewrite ztake_0, app_nil_l, app_assoc.
    apply ztake_app'. rewrite len_app. lia.
Qed.

Lemma append_message_full bs b :
  mb_wf b → mb_cap k - mb_used b < len bs → append_message bs b = (Err tt, b).
Proof.
  intros (Hu & Hl & Hb) Hfit. unfold append_message. rewrite slice_spec by lia.
  rewrite (ztake_all (len (mb_data b) - mb_used b)) by zlia.
  unfold Writer.extend_from_slice, Writer.left, Writer.init. cbn [w_buf w_offs].
  replace (len (zdrop (mb_used b) (mb_data b)) - 0 <? len bs) with true by zlia.
  cbn [w_buf]. rewrite ztake_zdrop. by destruct b.
Qed.

Lemma append_message_total bs b :
  mb_wf b → bytes_wf bs →
  let '(o, b') := append_message bs b in o ≠ Panic ∧ mb_wf b'.
Proof.
  intros Hb Hbs. destruct (Z.leb_spec (len bs) (mb_cap k - mb_used b)).
  - destruct (append_message_fits bs b Hb Hbs) as (b' & -> & ? & _); done.
  - rewrite append_message_full by done. done.
Qed.

(** A sequence of appends; [false] as soon as one does not fit. *)
Fixpoint append_all (msgs : list (list Z)) (b : mbuf k) : bool * mbuf k :=
  match msgs with
  | [] => (true, b)
  | m :: msgs =>
      match append_message m b with
      | (Ok _, b') => append_all msgs b'
      | (_, b') => (false, b')
      end
  end.

Lemma append_all_content msgs b :
  mb_wf b → Forall bytes_wf msgs → len (concat msgs) ≤ mb_cap k - mb_used b →
  ∃ b', append_all msgs b = (true, b') ∧ mb_wf b' ∧ mb_content b' = mb_content b ++ concat msgs.
Proof.
  revert b. induction msgs as [|m msgs IH]; intros b Hb Hm Hl; cbn.
  - exists b. by rewrite app_nil_r.
  - apply Forall_cons in Hm as [Hm Hms]. cbn in Hl. rewrite len_app in Hl.
    pose proof (len_nonneg (concat msgs)).
    destruct (append_message_fits m b Hb Hm) as (b1 & -> & Hb1 & Hc1); [lia|].
    destruct (IH b1 Hb1 Hms) as (b' & Hb' & Hw & Hc).
    { rewrite <- (len_mb_content b1), Hc1, len_app, (len_mb_content b) by done. lia. }
    exists b'. rewrite Hb', Hc, Hc1, <- app_assoc. done.
Qed.

(** Encoding and reading back gives the canonical buffer of the content. *)
Lemma mb_encode_ok b :
  mb_wf b → encodes EncodeErr_ (mb_encode b) (le_bytes 8 (mb_used b) ++ mb_content b).
Proof.
  intros Hw. pose proof (len_mb_content b Hw). destruct Hw as (Hu & Hl & Hb).
  unfold mb_encode. rewrite slice_spec by lia. rewrite Z.sub_0_r, zdrop_0. fold (mb_content b).
  eapply writes_eq.
  - eapply writes_bind; [apply writes_u64|]. eapply writes_bind; [apply writes_lift|].
    eapply writes_bind; [apply extend_writes|apply writes_ret].
  - by list_norm.
  - zlia.
Qed.

Lemma mb_read_ok b :
  mb_wf b → decodes mb_read (le_bytes 8 (mb_used b) ++ mb_content b) (mb_of (mb_content b)).
Proof.
  intros Hw. pose proof (len_mb_content b Hw) as Hc. destruct Hw as (Hu & Hl & Hb).
  pose proof mb_cap_bound. unfold mb_read.
  eapply decodes_bind; [apply decodes_u64; unfold in_width; lia|].
  replace (mb_cap k <? mb_used b) with false by lia. rewrite <- (app_nil_r (mb_content b)) at 1.
  eapply decodes_bind; [apply decodes_prefix|].
  - unfold mb_content. auto with wfb.
  - done.
  - rewrite len_zeros; lia.
  - unfold mb_of. rewrite Hc. unfold zdrop, zeros. rewrite drop_replicate.
    replace (Z.to_nat (mb_cap k) - Z.to_nat (mb_used b))%nat with (Z.to_nat (mb_cap k - mb_used b)) by lia.
    apply decodes_ret.
Qed.

Lemma mb_read_safe : reads mb_read mb_wf.
Proof.
  pose proof mb_cap_bound. unfold mb_read. eapply reads_bind; [apply reads_u64|]. intros n [Hn _].
  apply reads_if; intros Hb; [apply reads_throw|].
  eapply reads_bind; [apply reads_prefix; auto with wfb|]. intros l [Hl Hw]. apply reads_ret.
  unfold mb_wf. cbn. rewrite Hl, len_zeros by lia. split_and!; done || lia.
Qed.

End Laws.

(** ** Properties *)

(** A transcript buffer holds exactly the messages appended to it: an
    append adds all of its bytes behind the content and reports their number,
    or, when they do not fit into the remaining capacity, fails and changes
    nothing; the buffer stays well-formed in both cases. *)
Theorem append_message_all_or_nothing (k : mbuf_kind) (b : mbuf k) bs :
  mb_wf b → bytes_wf bs →
  let '(o, b') := append_message bs b in
  mb_wf b' ∧
  if len (mb_content b) + len bs <=? mb_cap k
  then o = Ok (len bs) ∧ mb_content b' = mb_content b ++ bs
  else o = Err tt ∧ b' = b.
Proof.
  intros Hb Hbs. rewrite len_mb_content by done. btest.
  - destruct (append_message_fits bs b Hb Hbs) as (b' & -> & ? & ?); [lia|done].
  - by rewrite append_message_full by (done || lia).
Qed.

Lemma append_message_witness :
  let '(o, b') := append_message [1; 2; 3] (mb_default : ManagedBufferA) in
  mb_wf b' ∧ o = Ok 3 ∧ mb_content b' = [1; 2; 3].
Proof.
  assert (bytes_wf [1; 2; 3]) as Hb
    by (repeat (apply bytes_wf_cons; split; [unfold byte; lia|]); apply bytes_wf_nil).
  exact (append_message_all_or_nothing BufA mb_default [1; 2; 3] mb_default_wf Hb).
Defined.

(** A transcript buffer survives being saved: encoding a buffer and
    decoding the bytes gives a buffer with the same content, and decoding
    arbitrary bytes never panics and only produces well-formed buffers. *)
Theorem managed_buffer_roundtrip (k : mbuf_kind) (b : mbuf k) :
  mb_wf b →
  encodes EncodeErr_ (mb_encode b) (le_bytes 8 (len (mb_content b)) ++ mb_content b) ∧
  decodes (mb_read (k:=k)) (le_bytes 8 (len (mb_content b)) ++ mb_content b) (mb_of (mb_content b)) ∧
  mb_content (mb_of (k:=k) (mb_content b)) = mb_content b ∧
  reads (mb_read (k:=k)) mb_wf.
Proof.
  intros Hb. rewrite len_mb_content by done.
  split_and!; [by apply mb_encode_ok|by apply mb_read_ok| |apply mb_read_safe].
  unfold mb_content, mb_of. cbn. apply ztake_app'. pose proof (len_mb_content b Hb).
  unfold mb_content in *. done.
Qed.

Lemma managed_buffer_roundtrip_witness :
  decodes (mb_read (k:=BufA)) (le_bytes 8 0) (mb_of []).
Proof.
  exact (proj1 (proj2 (managed_buffer_roundtrip BufA mb_default mb_default_wf))).
Defined.
