(* ===== verification/CertChain.v ===== *)
(** * Certificate chain buffers

    Models [SpdmCertChainData] and [SpdmCertChainBuffer] of
    src/spdmlib/src/protocol/algo.rs: the certificates of a slot, and the chain
    in the format of the protocol (length, reserved, hash of the root
    certificate, certificates).  Proved: the layout [new] produces, where it
    refuses or panics, and the codec contract. *)

From S2P Require Import Prelude Codec Status Algo DataTypes ManagedBuffer.

Definition MAX_CERT_CHAIN_BUFFER_SIZE : usize := 4 + SPDM_MAX_HASH_SIZE + MAX_SPDM_CERT_CHAIN_DATA_SIZE.

Record SpdmCertChainData := mkCertChainData { ccd_size : u32; ccd_data : list Z }.
Record SpdmCertChainBuffer := mkCertChainBuffer { ccb_size : u32; ccb_data : list Z }.

Module CertChainData.

Definition default : SpdmCertChainData := mkCertChainData 0 (zeros MAX_SPDM_CERT_CHAIN_DATA_SIZE).
Definition as_ref {E} (c : SpdmCertChainData) : outcome E (list Z) :=
  or_panic (slice (ccd_data c) 0 (ccd_size c)).
(** All of [data] is written, whatever [data_size]. *)
Definition encode_ (c : SpdmCertChainData) : M Writer EncodeErr usize :=
  let* s := encode (ccd_size c) in
  let* n := encode_sum (A:=u8) (ccd_data c) in
  ret (s + n).
Definition read_ : M Reader unit SpdmCertChainData :=
  let* size := read (A:=u32) in
  if MAX_SPDM_CERT_CHAIN_DATA_SIZE <? size then throw tt else
  let* d := read_array (A:=u8) 0 (Z.to_nat MAX_SPDM_CERT_CHAIN_DATA_SIZE) in
  ret (mkCertChainData size d).

End CertChainData.

Module CertChainBuffer.

Definition default : SpdmCertChainBuffer := mkCertChainBuffer 0 (zeros MAX_CERT_CHAIN_BUFFER_SIZE).
Definition as_ref {E} (c : SpdmCertChainBuffer) : outcome E (list Z) :=
  or_panic (slice (ccb_data c) 0 (ccb_size c)).

(** [None] is [Err]. *)
Definition new (cert_chain root_cert_hash : list Z) : outcome unit SpdmCertChainBuffer :=
  if 65535 <? len cert_chain + 4 + len root_cert_hash then Err tt else
  let total_len := wrap 16 (len cert_chain + len root_cert_hash + 4) in
  let data := ccb_data default in
  let pos := 0 in
  let! data := or_panic (copy_from_slice data pos (pos + 2) (le_bytes 2 total_len)) in
  let pos := pos + 2 in
  let! data := or_panic (zset data pos 0) in
  let! data := or_panic (zset data (pos + 1) 0) in
  let pos := pos + 2 in
  let! data := or_panic (copy_from_slice data pos (pos + len root_cert_hash) root_cert_hash) in
  let pos := pos + len root_cert_hash in
  let! data := or_panic (copy_from_slice data pos (pos + len cert_chain) cert_chain) in
  let pos := pos + len cert_chain in
  Ok (mkCertChainBuffer (wrap 32 pos) data).

Definition encode_ (c : SpdmCertChainBuffer) : M Writer EncodeErr usize :=
  let* s := encode (ccb_size c) in
  let* n := encode_prefix (ccb_size c) (ccb_data c) in
  ret (s + n).
Definition read_ : M Reader unit SpdmCertChainBuffer :=
  let* size := read (A:=u32) in
  if MAX_CERT_CHAIN_BUFFER_SIZE <? size then throw tt else
  let* d := read_prefix size (zeros MAX_CERT_CHAIN_BUFFER_SIZE) in
  ret (mkCertChainBuffer size d).

End CertChainBuffer.

#[export] Instance codec_SpdmCertChainData : Codec SpdmCertChainData :=
  {| encode := CertChainData.encode_; read := CertChainData.read_ |}.
#[export] Instance codec_SpdmCertChainBuffer : Codec SpdmCertChainBuffer :=
  {| encode := CertChainBuffer.encode_; read := CertChainBuffer.read_ |}.

(** ** Laws *)
Definition ccd_wf (c : SpdmCertChainData) : Prop :=
  0 ≤ ccd_size c ≤ MAX_SPDM_CERT_CHAIN_DATA_SIZE ∧
  len (ccd_data c) = MAX_SPDM_CERT_CHAIN_DATA_SIZE ∧ bytes_wf (ccd_data c).
Definition ccd_content (c : SpdmCertChainData) : list Z := ztake (ccd_size c) (ccd_data c).

(** The canonical buffer with content [bs]. *)
Definition ccb_of (bs : list Z) : SpdmCertChainBuffer :=
  mkCertChainBuffer (len bs) (bs ++ zeros (MAX_CERT_CHAIN_BUFFER_SIZE - len bs)).
Definition ccb_content (c : SpdmCertChainBuffer) : list Z := ztake (ccb_size c) (ccb_data c).
Definition ccb_wf (c : SpdmCertChainBuffer) : Prop :=
  c = ccb_of (ccb_content c) ∧ ccb_size c ≤ MAX_CERT_CHAIN_BUFFER_SIZE ∧ bytes_wf (ccb_content c).

Lemma ccb_content_of bs : ccb_content (ccb_of bs) = bs.
Proof. unfold ccb_content, ccb_of. cbn. apply ztake_app. Qed.
Lemma ccb_of_wf bs : len bs ≤ MAX_CERT_CHAIN_BUFFER_SIZE → bytes_wf bs → ccb_wf (ccb_of bs).
Proof. intros. unfold ccb_wf. rewrite ccb_content_of. by cbn. Qed.
Lemma ccb_wf_inv c :
  ccb_wf c → 0 ≤ ccb_size c ≤ MAX_CERT_CHAIN_BUFFER_SIZE ∧ len (ccb_data c) = MAX_CERT_CHAIN_BUFFER_SIZE ∧
             len (ccb_content c) = ccb_size c.
Proof.
  intros (Hc & Hs & _). pose proof (f_equal ccb_size Hc) as Hl. cbn in Hl.
  pose proof (len_nonneg (ccb_content c)). split; [lia|]. split; [|lia]. rewrite Hc. cbn. zlia.
Qed.

Lemma ccd_as_ref_ok {E} c : ccd_wf c → CertChainData.as_ref (E:=E) c = Ok (ccd_content c).
Proof.
  intros (? & ? & ?). unfold CertChainData.as_ref. rewrite slice_spec by lia.
  cbn. by rewrite Z.sub_0_r.
Qed.
Lemma ccb_as_ref_ok {E} c : ccb_wf c → CertChainBuffer.as_ref (E:=E) c = Ok (ccb_content c).
Proof.
  intros (? & ? & ?)%ccb_wf_inv. unfold CertChainBuffer.as_ref. rewrite slice_spec by lia.
  cbn. by rewrite Z.sub_0_r.
Qed.

#[export] Program Instance codec_ok_SpdmCertChainData : CodecOk SpdmCertChainData :=
  {| wf := ccd_wf; bytes c := le_bytes 4 (ccd_size c) ++ ccd_data c |}.
Next Obligation. intros c (_ & _ & H). apply bytes_wf_app. auto with wfb. Qed.
Next Obligation.
  intros c H. unfold encode at 1, codec_SpdmCertChainData, CertChainData.encode_. solve_writes.
Qed.
Next Obligation.
  intros [n d] (Hs & Hl & Hb). unfold read, codec_SpdmCertChainData, CertChainData.read_.
  cbn [ccd_size ccd_data] in *.
  eapply decodes_bind; [apply decodes_u32; unfold in_width, MAX_SPDM_CERT_CHAIN_DATA_SIZE in *; lia|].
  replace (_ <? n) with false by lia. rewrite <- (app_nil_r d) at 1.
  eapply decodes_bind; [|apply decodes_ret].
  eapply decodes_eq; [|exact (seq_bytes_u8 d)|done]. apply decodes_array; [rewrite <- Hl; unfold len; by rewrite Nat2Z.id|].
  eapply Forall_impl; [exact Hb|]. done.
Qed.
Next Obligation.
  unfold read, codec_SpdmCertChainData, CertChainData.read_.
  eapply reads_bind; [apply reads_u32|]. intros n Hn. apply reads_if; intros Hb; [apply reads_throw|].
  eapply reads_bind; [apply (reads_array (A:=u8))|]. intros l [Hl Hw]. apply reads_ret.
  unfold in_width in Hn. split; [cbn; lia|]. split; [exact (f_equal Z.of_nat Hl)|].
  eapply Forall_impl; [exact Hw|]. done.
Qed.

#[export] Program Instance codec_ok_SpdmCertChainBuffer : CodecOk SpdmCertChainBuffer :=
  {| wf := ccb_wf; bytes c := le_bytes 4 (ccb_size c) ++ ccb_content c |}.
Next Obligation. intros c (_ & _ & H). apply bytes_wf_app. auto with wfb. Qed.
Next Obligation.
  intros c H. unfold encode at 1, codec_SpdmCertChainBuffer, CertChainBuffer.encode_, ccb_content.
  solve_writes.
Qed.
Next Obligation.
  intros c H. destruct (ccb_wf_inv c H) as (Hs & Hl & Hc). destruct H as (Hd & _ & Hb).
  unfold read, codec_SpdmCertChainBuffer, CertChainBuffer.read_.
  eapply decodes_bind.
  { apply decodes_u32. unfold in_width, MAX_CERT_CHAIN_BUFFER_SIZE, MAX_SPDM_CERT_CHAIN_DATA_SIZE,
      SPDM_MAX_HASH_SIZE in *. lia. }
  replace (_ <? ccb_size c) with false by lia. rewrite <- (app_nil_r (ccb_content c)).
  eapply decodes_bind; [apply decodes_prefix; [done|by rewrite Hc|zlia]|].
  replace (mkCertChainBuffer _ _) with c; [apply decodes_ret|].
  rewrite Hd at 1. unfold ccb_of. rewrite Hc. do 2 f_equal.
  unfold zdrop, zeros. rewrite drop_replicate. f_equal. lia.
Qed.
Next Obligation.
  unfold read, codec_SpdmCertChainBuffer, CertChainBuffer.read_.
  eapply reads_bind; [apply reads_u32|]. intros n Hn. apply reads_if; intros Hb; [apply reads_throw|].
  unfold in_width in Hn. eapply reads_bind; [apply (reads_prefix_zeros n MAX_CERT_CHAIN_BUFFER_SIZE); lia|].
  intros l (bs & -> & Hl & Hw). apply reads_ret. rewrite <- Hl.
  apply (ccb_of_wf bs); [lia|done].
Qed.

(** The chain in the format of the protocol. *)
Definition chain_bytes (cert_chain root_cert_hash : list Z) : list Z :=
  le_bytes 2 (len cert_chain + len root_cert_hash + 4) ++ [0; 0] ++ root_cert_hash ++ cert_chain.

(** The two writes behind the header, after it was written. *)
Lemma new_header chain hash :
  len chain + len hash + 4 ≤ 65535 →
  CertChainBuffer.new chain hash =
    let header := le_bytes 2 (len chain + len hash + 4) ++ [0; 0] in
    let! data := or_panic (copy_from_slice (splice (zeros MAX_CERT_CHAIN_BUFFER_SIZE) 0 header)
                             4 (4 + len hash) hash) in
    let! data := or_panic (copy_from_slice data (4 + len hash) (4 + len hash + len chain) chain) in
    Ok (mkCertChainBuffer (wrap 32 (4 + len hash + len chain)) data).
Proof.
  intros Hn. pose proof (len_nonneg chain). pose proof (len_nonneg hash).
  assert (len (zeros MAX_CERT_CHAIN_BUFFER_SIZE) = 4164) as Hz by done.
  unfold CertChainBuffer.new. replace (65535 <? _) with false by lia.
  rewrite wrap_small by (unfold in_width; lia). cbn [CertChainBuffer.default ccb_data].
  set (z := zeros MAX_CERT_CHAIN_BUFFER_SIZE) in *. set (b := le_bytes 2 _).
  assert (len b = 2) as Hb by done. cbv zeta.
  rewrite copy_from_slice_spec by (rewrite ?Hb, ?Hz; lia). cbn [or_panic obind].
  assert (len (splice z 0 b) = 4164) as H1 by (rewrite len_splice; lia).
  assert (len (splice (splice z 0 b) (0 + 2) [0]) = 4164) as H2
    by (rewrite len_splice; rewrite ?H1; change (len [0]) with 1; lia).
  rewrite zset_splice by lia. cbn [or_panic obind].
  rewrite zset_splice by lia. cbn [or_panic obind].
  change (0 + 2) with (len b). rewrite splice_app by (change (len [0]) with 1; lia).
  replace (len b + 1) with (len (b ++ [0])) by (by rewrite len_app).
  rewrite splice_app by (rewrite len_app; change (len [0]) with 1; lia). by rewrite <- app_assoc.
Qed.

Lemma len_chain_bytes chain hash : len (chain_bytes chain hash) = 4 + len hash + len chain.
Proof. unfold chain_bytes. rewrite !len_app, len_le_bytes. change (len [0; 0]) with 2. lia. Qed.
Lemma chain_bytes_wf chain hash :
  bytes_wf chain → bytes_wf hash → bytes_wf (chain_bytes chain hash).
Proof.
  intros. unfold chain_bytes. repeat (apply bytes_wf_app; split); auto with wfb.
  repeat constructor; lia.
Qed.

Lemma new_fits chain hash :
  len chain + len hash + 4 ≤ 4164 → CertChainBuffer.new chain hash = Ok (ccb_of (chain_bytes chain hash)).
Proof.
  intros Hn. pose proof (len_nonneg chain). pose proof (len_nonneg hash).
  assert (len (zeros MAX_CERT_CHAIN_BUFFER_SIZE) = 4164) as Hz by done.
  rewrite new_header by lia. cbv zeta. unfold ccb_of. rewrite len_chain_bytes.
  unfold chain_bytes. rewrite (app_assoc _ [0; 0]).
  set (hd := le_bytes 2 (len chain + len hash + 4) ++ [0; 0]). assert (len hd = 4) as Hd by done.
  rewrite copy_from_slice_spec by (rewrite ?len_splice; lia). cbn [or_panic obind].
  rewrite <- Hd, splice_app by lia.
  rewrite copy_from_slice_spec by (rewrite ?len_splice; rewrite ?len_app; lia). cbn [or_panic obind].
  rewrite <- (len_app hd hash), splice_app by (rewrite len_app; lia).
  rewrite len_app, wrap_small by (unfold in_width; lia). f_equal. f_equal.
  by rewrite splice_zeros, !len_app, <- !app_assoc.
Qed.

(** C35: [SpdmCertChainBuffer::new] lays out the chain as length, two reserved
    bytes, root hash and certificates, and its [as_ref] gives exactly these
    bytes, when they fit the buffer; a chain that cannot be described by the
    16-bit length is refused; a chain between the two bounds panics. *)
Theorem cert_chain_new_layout chain hash :
  let n := len chain + len hash + 4 in
  bytes_wf chain → bytes_wf hash →
  (n ≤ MAX_CERT_CHAIN_BUFFER_SIZE →
   ∃ c, CertChainBuffer.new chain hash = Ok c ∧ ccb_wf c ∧
        CertChainBuffer.as_ref (E:=unit) c = Ok (chain_bytes chain hash)) ∧
  (65535 < n → CertChainBuffer.new chain hash = Err tt) ∧
  (MAX_CERT_CHAIN_BUFFER_SIZE < n ≤ 65535 → CertChainBuffer.new chain hash = Panic).
Proof.
  intros n Hc Hh. pose proof (len_nonneg chain). pose proof (len_nonneg hash).
  assert (len (zeros MAX_CERT_CHAIN_BUFFER_SIZE) = 4164) as Hz by done.
  change MAX_CERT_CHAIN_BUFFER_SIZE with 4164. unfold n in *. split; [|split].
  - intros Hn. exists (ccb_of (chain_bytes chain hash)).
    assert (ccb_wf (ccb_of (chain_bytes chain hash))) as Hw.
    { apply ccb_of_wf; [|by apply chain_bytes_wf]. rewrite len_chain_bytes.
      change MAX_CERT_CHAIN_BUFFER_SIZE with 4164. lia. }
    split_and!; [by apply new_fits|done|by rewrite ccb_as_ref_ok, ccb_content_of].
  - intros Hn. unfold CertChainBuffer.new. by replace (65535 <? _) with true by lia.
  - intros Hn. rewrite new_header by lia. cbv zeta. set (hd := _ ++ [0; 0]).
    assert (len hd = 4) as Hd by done.
    assert (len (splice (zeros MAX_CERT_CHAIN_BUFFER_SIZE) 0 hd) = 4164) as Hs by (rewrite len_splice; lia).
    destruct (decide (4 + len hash ≤ 4164)); [|by rewrite copy_from_slice_out by lia].
    rewrite copy_from_slice_spec by lia. cbn [or_panic obind].
    by rewrite copy_from_slice_out by (rewrite len_splice; lia).
Qed.

Lemma cert_chain_new_layout_witness :
  (∃ c, CertChainBuffer.new [48; 130] [7; 7] = Ok c ∧ ccb_wf c ∧
        CertChainBuffer.as_ref (E:=unit) c = Ok [8; 0; 0; 0; 7; 7; 48; 130]) ∧
  CertChainBuffer.new (zeros 4200) [] = Panic.
Proof.
  assert (bytes_wf [48; 130] ∧ bytes_wf [7; 7]) as [H1 H2] by (split; repeat constructor; lia).
  split.
  - apply (cert_chain_new_layout [48; 130] [7; 7] H1 H2). by vm_compute.
  - apply (cert_chain_new_layout (zeros 4200) [] (bytes_wf_zeros _) bytes_wf_nil). by vm_compute.
Defined.
