(* ===== verification/Session.v ===== *)
(** * Sessions

    Models the session object of src/spdmlib/src/common/session.rs: its state,
    the records of its secrets with their codecs, the set-up and tear-down,
    the derivation of the handshake and application secrets, and the key
    update with its backup.  The runtime information is the one of the
    default feature [hashed-transcript-data], with the hash contexts of
    HashCtx. *)

From Stdlib Require Import String.
From S2P Require Import Prelude Codec Status Bitflags Algo DataTypes Version.
From S2P Require Import Crypto HashCtx KeySchedule ManagedBuffer.

(** ** Session state *)
Inductive SpdmSessionState :=
| SpdmSessionNotStarted | SpdmSessionHandshaking | SpdmSessionEstablished
| SessionStateUnknown (x : u8).
#[export] Instance SpdmSessionState_eq_dec : EqDecision SpdmSessionState.
Proof. solve_decision. Defined.
#[export] Instance enum_SpdmSessionState : EnumBuilder SpdmSessionState :=
  {| get_int s :=
       match s with
       | SpdmSessionNotStarted => 0x0 | SpdmSessionHandshaking => 0x1
       | SpdmSessionEstablished => 0x2 | SessionStateUnknown x => x
       end;
     of_int x :=
       if x =? 0x0 then SpdmSessionNotStarted
       else if x =? 0x1 then SpdmSessionHandshaking
       else if x =? 0x2 then SpdmSessionEstablished
       else SessionStateUnknown x |}.
#[export] Instance codec_SpdmSessionState : Codec SpdmSessionState := enum_u8.

(** The attribute byte of KEY_EXCHANGE_RSP
    (src/spdmlib/src/message/key_exchange.rs). *)
Definition SpdmKeyExchangeMutAuthAttributes_desc : flag_desc :=
  mkDesc "SpdmKeyExchangeMutAuthAttributes" W8 [0x1; 0x2; 0x4].
Abbreviation SpdmKeyExchangeMutAuthAttributes := (flags SpdmKeyExchangeMutAuthAttributes_desc).
#[export] Instance SpdmKeyExchangeMutAuthAttributes_desc_ok :
  DescOk SpdmKeyExchangeMutAuthAttributes_desc.
Proof. solve_desc. Qed.

(** ** Session records *)
Record SpdmSessionCryptoParam := mkCryptoParam {
  base_hash_algo : SpdmBaseHashAlgo;
  dhe_algo : SpdmDheAlgo;
  kem_algo : SpdmKemAlgo;
  aead_algo : SpdmAeadAlgo;
  key_schedule_algo : SpdmKeyScheduleAlgo;
}.
Definition SpdmSessionCryptoParam_default : SpdmSessionCryptoParam :=
  mkCryptoParam empty_flags empty_flags empty_flags empty_flags empty_flags.
#[export] Instance codec_SpdmSessionCryptoParam : Codec SpdmSessionCryptoParam :=
  {| encode p :=
       let* s0 := encode (base_hash_algo p) in
       let* s1 := encode (dhe_algo p) in
       let* s2 := encode (kem_algo p) in
       let* s3 := encode (aead_algo p) in
       let* s4 := encode (key_schedule_algo p) in
       ret (s0 + s1 + s2 + s3 + s4);
     read :=
       let* x0 := read in
       let* x1 := read in
       let* x2 := read in
       let* x3 := read in
       let* x4 := read in
       ret (mkCryptoParam x0 x1 x2 x3 x4) |}.

(** Field [handshake_secret] of the source is [root_handshake_secret] here. *)
Record SpdmSessionSharedSecretRoot := mkSharedSecretRoot {
  shared_secret : SpdmSharedSecretFinalKeyStruct;
  root_handshake_secret : SpdmHandshakeSecretStruct;
  master_secret : SpdmMasterSecretStruct;
}.
#[export] Instance eta_SpdmSessionSharedSecretRoot : Eta SpdmSessionSharedSecretRoot := λ s,
  mkSharedSecretRoot (shared_secret s) (root_handshake_secret s) (master_secret s).
Definition with_shared_secret (v : SpdmSharedSecretFinalKeyStruct) (s : SpdmSessionSharedSecretRoot) : SpdmSessionSharedSecretRoot :=
  ltac:(set_field shared_secret v s).
Definition with_root_handshake_secret (v : SpdmHandshakeSecretStruct) (s : SpdmSessionSharedSecretRoot) : SpdmSessionSharedSecretRoot :=
  ltac:(set_field root_handshake_secret v s).
Definition with_master_secret (v : SpdmMasterSecretStruct) (s : SpdmSessionSharedSecretRoot) : SpdmSessionSharedSecretRoot :=
  ltac:(set_field master_secret v s).
Definition SpdmSessionSharedSecretRoot_default : SpdmSessionSharedSecretRoot :=
  mkSharedSecretRoot sens_default sens_default sens_default.
#[export] Instance codec_SpdmSessionSharedSecretRoot : Codec SpdmSessionSharedSecretRoot :=
  {| encode p :=
       let* s0 := encode (shared_secret p) in
       let* s1 := encode (root_handshake_secret p) in
       let* s2 := encode (master_secret p) in
       ret (s0 + s1 + s2);
     read :=
       let* x0 := read in
       let* x1 := read in
       let* x2 := read in
       ret (mkSharedSecretRoot x0 x1 x2) |}.

Record SpdmSessionSecretParam := mkSecretParam {
  encryption_key : SpdmAeadKeyStruct;
  salt : SpdmAeadIvStruct;
  sequence_number : u64;
}.
#[export] Instance eta_SpdmSessionSecretParam : Eta SpdmSessionSecretParam := λ s,
  mkSecretParam (encryption_key s) (salt s) (sequence_number s).
Definition with_encryption_key (v : SpdmAeadKeyStruct) (s : SpdmSessionSecretParam) : SpdmSessionSecretParam :=
  ltac:(set_field encryption_key v s).
Definition with_salt (v : SpdmAeadIvStruct) (s : SpdmSessionSecretParam) : SpdmSessionSecretParam :=
  ltac:(set_field salt v s).
Definition with_sequence_number (v : u64) (s : SpdmSessionSecretParam) : SpdmSessionSecretParam :=
  ltac:(set_field sequence_number v s).
Definition SpdmSessionSecretParam_default : SpdmSessionSecretParam :=
  mkSecretParam sens_default sens_default 0.
#[export] Instance codec_SpdmSessionSecretParam : Codec SpdmSessionSecretParam :=
  {| encode p :=
       let* s0 := encode (encryption_key p) in
       let* s1 := encode (salt p) in
       let* s2 := encode (sequence_number p) in
       ret (s0 + s1 + s2);
     read :=
       let* x0 := read in
       let* x1 := read in
       let* x2 := read in
       ret (mkSecretParam x0 x1 x2) |}.

(** The directions carry the prefix [hs_] here, [app_] in the application secret. *)
Record SpdmSessionHandshakeSecret := mkHandshakeSecret {
  request_handshake_secret : SpdmDirectionHandshakeSecretStruct;
  response_handshake_secret : SpdmDirectionHandshakeSecretStruct;
  request_finished_key : SpdmFinishedKeyStruct;
  response_finished_key : SpdmFinishedKeyStruct;
  hs_request_direction : SpdmSessionSecretParam;
  hs_response_direction : SpdmSessionSecretParam;
}.
#[export] Instance eta_SpdmSessionHandshakeSecret : Eta SpdmSessionHandshakeSecret := λ s,
  mkHandshakeSecret (request_handshake_secret s) (response_handshake_secret s)
    (request_finished_key s) (response_finished_key s) (hs_request_direction s)
    (hs_response_direction s).
Definition with_request_handshake_secret (v : SpdmDirectionHandshakeSecretStruct) (s : SpdmSessionHandshakeSecret) : SpdmSessionHandshakeSecret :=
  ltac:(set_field request_handshake_secret v s).
Definition with_response_handshake_secret (v : SpdmDirectionHandshakeSecretStruct) (s : SpdmSessionHandshakeSecret) : SpdmSessionHandshakeSecret :=
  ltac:(set_field response_handshake_secret v s).
Definition with_request_finished_key (v : SpdmFinishedKeyStruct) (s : SpdmSessionHandshakeSecret) : SpdmSessionHandshakeSecret :=
  ltac:(set_field request_finished_key v s).
Definition with_response_finished_key (v : SpdmFinishedKeyStruct) (s : SpdmSessionHandshakeSecret) : SpdmSessionHandshakeSecret :=
  ltac:(set_field response_finished_key v s).
Definition with_hs_request_direction (v : SpdmSessionSecretParam) (s : SpdmSessionHandshakeSecret) : SpdmSessionHandshakeSecret :=
  ltac:(set_field hs_request_direction v s).
Definition with_hs_response_direction (v : SpdmSessionSecretParam) (s : SpdmSessionHandshakeSecret) : SpdmSessionHandshakeSecret :=
  ltac:(set_field hs_response_direction v s).
Definition SpdmSessionHandshakeSecret_default : SpdmSessionHandshakeSecret :=
  mkHandshakeSecret sens_default sens_default sens_default sens_default SpdmSessionSecretParam_default SpdmSessionSecretParam_default.
#[export] Instance codec_SpdmSessionHandshakeSecret : Codec SpdmSessionHandshakeSecret :=
  {| encode p :=
       let* s0 := encode (request_handshake_secret p) in
       let* s1 := encode (response_handshake_secret p) in
       let* s2 := encode (request_finished_key p) in
       let* s3 := encode (response_finished_key p) in
       let* s4 := encode (hs_request_direction p) in
       let* s5 := encode (hs_response_direction p) in
       ret (s0 + s1 + s2 + s3 + s4 + s5);
     read :=
       let* x0 := read in
       let* x1 := read in
       let* x2 := read in
       let* x3 := read in
       let* x4 := read in
       let* x5 := read in
       ret (mkHandshakeSecret x0 x1 x2 x3 x4 x5) |}.

Record SpdmSessionApplicationSecret := mkApplicationSecret {
  request_data_secret : SpdmDirectionDataSecretStruct;
  response_data_secret : SpdmDirectionDataSecretStruct;
  app_request_direction : SpdmSessionSecretParam;
  app_response_direction : SpdmSessionSecretParam;
  export_master_secret : SpdmExportMasterSecretStruct;
}.
#[export] Instance eta_SpdmSessionApplicationSecret : Eta SpdmSessionApplicationSecret := λ s,
  mkApplicationSecret (request_data_secret s) (response_data_secret s) (app_request_direction s)
    (app_response_direction s) (export_master_secret s).
Definition with_request_data_secret (v : SpdmDirectionDataSecretStruct) (s : SpdmSessionApplicationSecret) : SpdmSessionApplicationSecret :=
  ltac:(set_field request_data_secret v s).
Definition with_response_data_secret (v : SpdmDirectionDataSecretStruct) (s : SpdmSessionApplicationSecret) : SpdmSessionApplicationSecret :=
  ltac:(set_field response_data_secret v s).
Definition with_app_request_direction (v : SpdmSessionSecretParam) (s : SpdmSessionApplicationSecret) : SpdmSessionApplicationSecret :=
  ltac:(set_field app_request_direction v s).
Definition with_app_response_direction (v : SpdmSessionSecretParam) (s : SpdmSessionApplicationSecret) : SpdmSessionApplicationSecret :=
  ltac:(set_field app_response_direction v s).
Definition with_export_master_secret (v : SpdmExportMasterSecretStruct) (s : SpdmSessionApplicationSecret) : SpdmSessionApplicationSecret :=
  ltac:(set_field export_master_secret v s).
Definition SpdmSessionApplicationSecret_default : SpdmSessionApplicationSecret :=
  mkApplicationSecret sens_default sens_default SpdmSessionSecretParam_default SpdmSessionSecretParam_default sens_default.
#[export] Instance codec_SpdmSessionApplicationSecret : Codec SpdmSessionApplicationSecret :=
  {| encode p :=
       let* s0 := encode (request_data_secret p) in
       let* s1 := encode (response_data_secret p) in
       let* s2 := encode (app_request_direction p) in
       let* s3 := encode (app_response_direction p) in
       let* s4 := encode (export_master_secret p) in
       ret (s0 + s1 + s2 + s3 + s4);
     read :=
       let* x0 := read in
       let* x1 := read in
       let* x2 := read in
       let* x3 := read in
       let* x4 := read in
       ret (mkApplicationSecret x0 x1 x2 x3 x4) |}.

Record SpdmSessionTransportParam := mkTransportParam {
  sequence_number_count : u8;
  max_random_count : u16;
}.
Definition SpdmSessionTransportParam_default : SpdmSessionTransportParam :=
  mkTransportParam 0 0.
#[export] Instance codec_SpdmSessionTransportParam : Codec SpdmSessionTransportParam :=
  {| encode p :=
       let* s0 := encode (sequence_number_count p) in
       let* s1 := encode (max_random_count p) in
       ret (s0 + s1);
     read :=
       let* x0 := read in
       let* x1 := read in
       ret (mkTransportParam x0 x1) |}.

(** *** Runtime information *)
Record SpdmSessionRuntimeInfo := mkSessionRuntimeInfo {
  psk_hint : option SpdmPskHintStruct;
  ses_message_a : ManagedBufferA;
  message_f_initialized : bool;
  rsp_cert_hash : option SpdmDigestStruct;
  req_cert_hash : option SpdmDigestStruct;
  digest_context_th : option SpdmHashCtx;
  ses_digest_context_l1l2 : option SpdmHashCtx;
  vdm_message_transcript_before_finish : option ManagedVdmBuffer;
}.
#[export] Instance eta_SpdmSessionRuntimeInfo : Eta SpdmSessionRuntimeInfo := λ s,
  mkSessionRuntimeInfo (psk_hint s) (ses_message_a s) (message_f_initialized s) (rsp_cert_hash s)
    (req_cert_hash s) (digest_context_th s) (ses_digest_context_l1l2 s)
    (vdm_message_transcript_before_finish s).
Definition with_psk_hint (v : option SpdmPskHintStruct) (s : SpdmSessionRuntimeInfo) : SpdmSessionRuntimeInfo :=
  ltac:(set_field psk_hint v s).
Definition with_ses_message_a (v : ManagedBufferA) (s : SpdmSessionRuntimeInfo) : SpdmSessionRuntimeInfo :=
  ltac:(set_field ses_message_a v s).
Definition with_message_f_initialized (v : bool) (s : SpdmSessionRuntimeInfo) : SpdmSessionRuntimeInfo :=
  ltac:(set_field message_f_initialized v s).
Definition with_rsp_cert_hash (v : option SpdmDigestStruct) (s : SpdmSessionRuntimeInfo) : SpdmSessionRuntimeInfo :=
  ltac:(set_field rsp_cert_hash v s).
Definition with_req_cert_hash (v : option SpdmDigestStruct) (s : SpdmSessionRuntimeInfo) : SpdmSessionRuntimeInfo :=
  ltac:(set_field req_cert_hash v s).
Definition with_digest_context_th (v : option SpdmHashCtx) (s : SpdmSessionRuntimeInfo) : SpdmSessionRuntimeInfo :=
  ltac:(set_field digest_context_th v s).
Definition with_ses_digest_context_l1l2 (v : option SpdmHashCtx) (s : SpdmSessionRuntimeInfo) : SpdmSessionRuntimeInfo :=
  ltac:(set_field ses_digest_context_l1l2 v s).
Definition with_vdm_message_transcript_before_finish (v : option ManagedVdmBuffer) (s : SpdmSessionRuntimeInfo) : SpdmSessionRuntimeInfo :=
  ltac:(set_field vdm_message_transcript_before_finish v s).
Definition SpdmSessionRuntimeInfo_default : SpdmSessionRuntimeInfo :=
  mkSessionRuntimeInfo None mb_default false None None None None None.

(** [SecuredMessageVersion] of src/spdmlib/src/common/opaque.rs. *)
Record SecuredMessageVersion := mkSecuredMessageVersion {
  major_version : u8;
  minor_version : u8;
  update_version_number : u8;
  alpha : u8;
}.
Definition SecuredMessageVersion_default : SecuredMessageVersion :=
  mkSecuredMessageVersion 0x1 0x1 0x0 0x0.

(** ** The session object

    The unit struct [key_schedule] carries no data. *)
Definition INVALID_SESSION_ID : u32 := 0.
Definition INITIAL_SESSION_ID : u16 := 0xFFFD.
Definition INVALID_HALF_SESSION_ID : u16 := 0.
Record SpdmSession := mkSession {
  session_id : u32;
  use_psk : bool;
  mut_auth_requested : SpdmKeyExchangeMutAuthAttributes;
  session_state : SpdmSessionState;
  crypto_param : SpdmSessionCryptoParam;
  shared_secret_root : SpdmSessionSharedSecretRoot;
  handshake_secret : SpdmSessionHandshakeSecret;
  application_secret : SpdmSessionApplicationSecret;
  application_secret_backup : SpdmSessionApplicationSecret;
  responder_backup_valid : bool;
  requester_backup_valid : bool;
  transport_param : SpdmSessionTransportParam;
  ses_runtime_info : SpdmSessionRuntimeInfo;
  th1 : SpdmDigestStruct;
  th2 : SpdmDigestStruct;
  heartbeat_period : u8;
  secure_spdm_version_sel : SecuredMessageVersion;
}.
#[export] Instance eta_SpdmSession : Eta SpdmSession := λ s,
  mkSession (session_id s) (use_psk s) (mut_auth_requested s) (session_state s) (crypto_param s)
    (shared_secret_root s) (handshake_secret s) (application_secret s)
    (application_secret_backup s) (responder_backup_valid s) (requester_backup_valid s)
    (transport_param s) (ses_runtime_info s) (th1 s) (th2 s) (heartbeat_period s)
    (secure_spdm_version_sel s).
Definition with_session_id (v : u32) (s : SpdmSession) : SpdmSession :=
  ltac:(set_field session_id v s).
Definition with_use_psk (v : bool) (s : SpdmSession) : SpdmSession :=
  ltac:(set_field use_psk v s).
Definition with_mut_auth_requested (v : SpdmKeyExchangeMutAuthAttributes) (s : SpdmSession) : SpdmSession :=
  ltac:(set_field mut_auth_requested v s).
Definition with_session_state (v : SpdmSessionState) (s : SpdmSession) : SpdmSession :=
  ltac:(set_field session_state v s).
Definition with_crypto_param (v : SpdmSessionCryptoParam) (s : SpdmSession) : SpdmSession :=
  ltac:(set_field crypto_param v s).
Definition with_shared_secret_root (v : SpdmSessionSharedSecretRoot) (s : SpdmSession) : SpdmSession :=
  ltac:(set_field shared_secret_root v s).
Definition with_handshake_secret (v : SpdmSessionHandshakeSecret) (s : SpdmSession) : SpdmSession :=
  ltac:(set_field handshake_secret v s).
Definition with_application_secret (v : SpdmSessionApplicationSecret) (s : SpdmSession) : SpdmSession :=
  ltac:(set_field application_secret v s).
Definition with_application_secret_backup (v : SpdmSessionApplicationSecret) (s : SpdmSession) : SpdmSession :=
  ltac:(set_field application_secret_backup v s).
Definition with_responder_backup_valid (v : bool) (s : SpdmSession) : SpdmSession :=
  ltac:(set_field responder_backup_valid v s).
Definition with_requester_backup_valid (v : bool) (s : SpdmSession) : SpdmSession :=
  ltac:(set_field requester_backup_valid v s).
Definition with_transport_param (v : SpdmSessionTransportParam) (s : SpdmSession) : SpdmSession :=
  ltac:(set_field transport_param v s).
Definition with_ses_runtime_info (v : SpdmSessionRuntimeInfo) (s : SpdmSession) : SpdmSession :=
  ltac:(set_field ses_runtime_info v s).
Definition with_th1 (v : SpdmDigestStruct) (s : SpdmSession) : SpdmSession :=
  ltac:(set_field th1 v s).
Definition with_th2 (v : SpdmDigestStruct) (s : SpdmSession) : SpdmSession :=
  ltac:(set_field th2 v s).
Definition with_heartbeat_period (v : u8) (s : SpdmSession) : SpdmSession :=
  ltac:(set_field heartbeat_period v s).
Definition with_secure_spdm_version_sel (v : SecuredMessageVersion) (s : SpdmSession) : SpdmSession :=
  ltac:(set_field secure_spdm_version_sel v s).

(** Reading a nested field and writing it back. *)
Definition upd_root (f : SpdmSessionSharedSecretRoot → SpdmSessionSharedSecretRoot) (s : SpdmSession) :
    SpdmSession := with_shared_secret_root (f (shared_secret_root s)) s.
Definition upd_hs (f : SpdmSessionHandshakeSecret → SpdmSessionHandshakeSecret) (s : SpdmSession) :
    SpdmSession := with_handshake_secret (f (handshake_secret s)) s.
Definition upd_app (f : SpdmSessionApplicationSecret → SpdmSessionApplicationSecret) (s : SpdmSession) :
    SpdmSession := with_application_secret (f (application_secret s)) s.
Definition upd_backup (f : SpdmSessionApplicationSecret → SpdmSessionApplicationSecret)
    (s : SpdmSession) : SpdmSession :=
  with_application_secret_backup (f (application_secret_backup s)) s.

Module Session.

Definition new : SpdmSession :=
  {| session_id := INVALID_SESSION_ID;
     use_psk := false;
     mut_auth_requested := empty_flags;
     session_state := SpdmSessionNotStarted;
     crypto_param := SpdmSessionCryptoParam_default;
     shared_secret_root := SpdmSessionSharedSecretRoot_default;
     handshake_secret := SpdmSessionHandshakeSecret_default;
     application_secret := SpdmSessionApplicationSecret_default;
     application_secret_backup := SpdmSessionApplicationSecret_default;
     responder_backup_valid := false;
     requester_backup_valid := false;
     transport_param := SpdmSessionTransportParam_default;
     ses_runtime_info := SpdmSessionRuntimeInfo_default;
     th1 := sens_default;
     th2 := sens_default;
     heartbeat_period := 0;
     secure_spdm_version_sel := SecuredMessageVersion_default |}.

(** [set_default] leaves [responder_backup_valid], [requester_backup_valid],
    [th1] and [th2] as they are. *)
Definition set_default (s : SpdmSession) : SpdmSession :=
  {| session_id := INVALID_SESSION_ID;
     use_psk := false;
     mut_auth_requested := empty_flags;
     session_state := SpdmSessionNotStarted;
     crypto_param := SpdmSessionCryptoParam_default;
     shared_secret_root := SpdmSessionSharedSecretRoot_default;
     handshake_secret := SpdmSessionHandshakeSecret_default;
     application_secret := SpdmSessionApplicationSecret_default;
     application_secret_backup := SpdmSessionApplicationSecret_default;
     responder_backup_valid := responder_backup_valid s;
     requester_backup_valid := requester_backup_valid s;
     transport_param := SpdmSessionTransportParam_default;
     ses_runtime_info := SpdmSessionRuntimeInfo_default;
     th1 := th1 s;
     th2 := th2 s;
     heartbeat_period := 0;
     secure_spdm_version_sel := SecuredMessageVersion_default |}.

Definition setup (id : u32) : M SpdmSession SpdmStatus unit :=
  let* s := get in
  if session_id s =? INVALID_SESSION_ID then
    let* _ := modify set_default in
    modify (with_session_id id)
  else panic.

Definition teardown (s : SpdmSession) : SpdmSession := set_default s.

Definition set_crypto_param (h : SpdmBaseHashAlgo) (d : SpdmDheAlgo) (k : SpdmKemAlgo)
    (a : SpdmAeadAlgo) (ks : SpdmKeyScheduleAlgo) (s : SpdmSession) : SpdmSession :=
  with_crypto_param (mkCryptoParam h d k a ks) s.
Definition set_transport_param (n : u8) (m : u16) (s : SpdmSession) : SpdmSession :=
  with_transport_param (mkTransportParam n m) s.

Section Crypto.
Context `{SpdmCrypto}.

Definition set_shared_secret (v : SpdmVersion) (secret : SpdmSharedSecretFinalKeyStruct) :
    M SpdmSession SpdmStatus unit :=
  let* _ := modify (upd_root (with_shared_secret secret)) in
  let* s := get in
  let h := base_hash_algo (crypto_param s) in
  let* hs := some_or (KeySchedule.derive_handshake_secret v h
                        (shared_secret (shared_secret_root s))) SPDM_STATUS_CRYPTO_ERROR in
  let* ms := some_or (KeySchedule.derive_master_secret v h hs) SPDM_STATUS_CRYPTO_ERROR in
  let* _ := modify (upd_root (with_root_handshake_secret hs)) in
  modify (upd_root (with_master_secret ms)).

(** [if self.use_psk { None } else { Some(&..) }] *)
Definition unless_psk {A} (s : SpdmSession) (x : A) : option A := if use_psk s then None else Some x.

Definition generate_handshake_secret (v : SpdmVersion) (th : SpdmDigestStruct) :
    M SpdmSession SpdmStatus unit :=
  let* s := get in
  let h := base_hash_algo (crypto_param s) in
  let a := aead_algo (crypto_param s) in
  let key := unless_psk s (root_handshake_secret (shared_secret_root s)) in
  let hint := psk_hint (ses_runtime_info s) in
  let* th := lift (sens_as_ref th) in
  let* rhs := some_or (KeySchedule.derive_request_handshake_secret (use_psk s) v h key hint th)
                SPDM_STATUS_CRYPTO_ERROR in
  let* _ := modify (upd_hs (with_request_handshake_secret rhs)) in
  let* shs := some_or (KeySchedule.derive_response_handshake_secret (use_psk s) v h key hint th)
                SPDM_STATUS_CRYPTO_ERROR in
  let* _ := modify (upd_hs (with_response_handshake_secret shs)) in
  let* rfk := some_or (KeySchedule.derive_finished_key v h rhs) SPDM_STATUS_CRYPTO_ERROR in
  let* _ := modify (upd_hs (with_request_finished_key rfk)) in
  let* sfk := some_or (KeySchedule.derive_finished_key v h shs) SPDM_STATUS_CRYPTO_ERROR in
  let* _ := modify (upd_hs (with_response_finished_key sfk)) in
  let* (k, iv) := some_or (KeySchedule.derive_aead_key_iv v h a (MajorDirectionHandshakeSecret rhs))
                     SPDM_STATUS_CRYPTO_ERROR in
  let* _ := modify (upd_hs (λ x, with_hs_request_direction
                      (with_salt iv (with_encryption_key k (hs_request_direction x))) x)) in
  let* (k, iv) := some_or (KeySchedule.derive_aead_key_iv v h a (MajorDirectionHandshakeSecret shs))
                     SPDM_STATUS_CRYPTO_ERROR in
  modify (upd_hs (λ x, with_hs_response_direction
            (with_salt iv (with_encryption_key k (hs_response_direction x))) x)).

Definition generate_data_secret (v : SpdmVersion) (th : SpdmDigestStruct) :
    M SpdmSession SpdmStatus unit :=
  let* s := get in
  let h := base_hash_algo (crypto_param s) in
  let a := aead_algo (crypto_param s) in
  let key := unless_psk s (master_secret (shared_secret_root s)) in
  let hint := psk_hint (ses_runtime_info s) in
  let* th := lift (sens_as_ref th) in
  let* rds := some_or (KeySchedule.derive_request_data_secret (use_psk s) v h key hint th)
                SPDM_STATUS_CRYPTO_ERROR in
  let* _ := modify (upd_app (with_request_data_secret rds)) in
  let* sds := some_or (KeySchedule.derive_response_data_secret (use_psk s) v h key hint th)
                SPDM_STATUS_CRYPTO_ERROR in
  let* _ := modify (upd_app (with_response_data_secret sds)) in
  let* (k, iv) := some_or (KeySchedule.derive_aead_key_iv v h a (MajorDirectionDataSecret rds))
                     SPDM_STATUS_CRYPTO_ERROR in
  let* _ := modify (upd_app (λ x, with_app_request_direction
                      (with_salt iv (with_encryption_key k (app_request_direction x))) x)) in
  let* (k, iv) := some_or (KeySchedule.derive_aead_key_iv v h a (MajorDirectionDataSecret sds))
                     SPDM_STATUS_CRYPTO_ERROR in
  let* _ := modify (upd_app (λ x, with_app_response_direction
                      (with_salt iv (with_encryption_key k (app_response_direction x))) x)) in
  let* ems := some_or (KeySchedule.derive_export_master_secret (use_psk s) v h key hint)
                SPDM_STATUS_CRYPTO_ERROR in
  modify (upd_app (with_export_master_secret ems)).

(** The two halves of [create_data_secret_update]. *)
Definition update_requester_secret (v : SpdmVersion) : M SpdmSession SpdmStatus unit :=
  let* s := get in
  let h := base_hash_algo (crypto_param s) in
  let a := aead_algo (crypto_param s) in
  let cur := application_secret s in
  let* _ := modify (upd_backup (with_request_data_secret (request_data_secret cur))) in
  let* _ := modify (upd_backup (with_app_request_direction (app_request_direction cur))) in
  let* _ := modify (with_requester_backup_valid true) in
  let* us := some_or (KeySchedule.derive_update_secret v h (request_data_secret cur))
               SPDM_STATUS_CRYPTO_ERROR in
  let* _ := modify (upd_app (with_request_data_secret us)) in
  let* (k, iv) := some_or (KeySchedule.derive_aead_key_iv v h a (MajorDirectionDataSecret us))
                     SPDM_STATUS_CRYPTO_ERROR in
  modify (upd_app (λ x, with_app_request_direction
            (with_sequence_number 0 (with_salt iv (with_encryption_key k (app_request_direction x)))) x)).

Definition update_responder_secret (v : SpdmVersion) : M SpdmSession SpdmStatus unit :=
  let* s := get in
  let h := base_hash_algo (crypto_param s) in
  let a := aead_algo (crypto_param s) in
  let cur := application_secret s in
  let* _ := modify (upd_backup (with_response_data_secret (response_data_secret cur))) in
  let* _ := modify (upd_backup (with_app_response_direction (app_response_direction cur))) in
  let* _ := modify (with_responder_backup_valid true) in
  let* us := some_or (KeySchedule.derive_update_secret v h (response_data_secret cur))
               SPDM_STATUS_CRYPTO_ERROR in
  let* _ := modify (upd_app (with_response_data_secret us)) in
  let* (k, iv) := some_or (KeySchedule.derive_aead_key_iv v h a (MajorDirectionDataSecret us))
                     SPDM_STATUS_CRYPTO_ERROR in
  modify (upd_app (λ x, with_app_response_direction
            (with_sequence_number 0 (with_salt iv (with_encryption_key k (app_response_direction x)))) x)).

Definition create_data_secret_update (v : SpdmVersion) (update_requester update_responder : bool) :
    M SpdmSession SpdmStatus unit :=
  let* _ := if update_requester then update_requester_secret v else ret tt in
  if update_responder then update_responder_secret v else ret tt.

End Crypto.

Definition activate_data_secret_update (v : SpdmVersion)
    (update_requester update_responder use_new_key : bool) (s : SpdmSession) : SpdmSession :=
  if negb use_new_key then
    let s := if update_requester && requester_backup_valid s then
               let b := application_secret_backup s in
               upd_app (λ x, with_app_request_direction (app_request_direction b)
                               (with_request_data_secret (request_data_secret b) x)) s
             else s in
    if update_responder && responder_backup_valid s then
      let b := application_secret_backup s in
      upd_app (λ x, with_app_response_direction (app_response_direction b)
                      (with_response_data_secret (response_data_secret b) x)) s
    else s
  else
    let s := if update_requester then
               with_requester_backup_valid false
                 (upd_backup (λ x, with_app_request_direction SpdmSessionSecretParam_default
                                     (with_request_data_secret sens_default x)) s)
             else s in
    if update_responder then
      with_responder_backup_valid false
        (upd_backup (λ x, with_app_response_direction SpdmSessionSecretParam_default
                            (with_response_data_secret sens_default x)) s)
    else s.

Section Hmac.
Context `{SpdmCrypto}.

Definition hmac_with (key : SpdmFinishedKeyStruct) (s : SpdmSession) (message_hash : list Z) :
    SpdmResult SpdmDigestStruct :=
  let! k := sens_as_ref key in
  map_err (λ _, SPDM_STATUS_CRYPTO_ERROR) (hmac (base_hash_algo (crypto_param s)) k message_hash).
Definition generate_hmac_with_response_finished_key (s : SpdmSession) :=
  hmac_with (response_finished_key (handshake_secret s)) s.
Definition generate_hmac_with_request_finished_key (s : SpdmSession) :=
  hmac_with (request_finished_key (handshake_secret s)) s.
Definition hmac_verify_with (key : SpdmFinishedKeyStruct) (s : SpdmSession) (message_hash : list Z)
    (m : SpdmDigestStruct) : SpdmResult unit :=
  let! k := sens_as_ref key in
  hmac_verify (base_hash_algo (crypto_param s)) k message_hash m.
Definition verify_hmac_with_response_finished_key (s : SpdmSession) :=
  hmac_verify_with (response_finished_key (handshake_secret s)) s.
Definition verify_hmac_with_request_finished_key (s : SpdmSession) :=
  hmac_verify_with (request_finished_key (handshake_secret s)) s.

End Hmac.

Definition export_keys (s : SpdmSession) : SpdmSessionSecretParam * SpdmSessionSecretParam :=
  let rq := app_request_direction (application_secret s) in
  let rs := app_response_direction (application_secret s) in
  (mkSecretParam (encryption_key rq) (salt rq) (sequence_number rq),
   mkSecretParam (encryption_key rs) (salt rs) (sequence_number rs)).

End Session.

(** ** Codecs of the session records *)
#[export] Instance enum_ok_SpdmSessionState : EnumOk SpdmSessionState 8.
Proof. solve_enum. Qed.
#[export] Instance codec_ok_SpdmSessionState : CodecOk SpdmSessionState := enum_u8_ok.

#[export] Program Instance codec_ok_SpdmSessionCryptoParam : CodecOk SpdmSessionCryptoParam :=
  {| wf p := wf (base_hash_algo p) ∧ wf (dhe_algo p) ∧ wf (kem_algo p) ∧ wf (aead_algo p) ∧ wf
             (key_schedule_algo p);
     bytes p := bytes (base_hash_algo p) ++ bytes (dhe_algo p) ++ bytes (kem_algo p) ++ bytes
                (aead_algo p) ++ bytes (key_schedule_algo p) |}.
Next Obligation. intros p (?&?&?&?&?). rewrite !bytes_wf_app. split_and!; by apply bytes_ok. Qed.
Next Obligation. intros p (?&?&?&?&?). unfold encode at 1, codec_SpdmSessionCryptoParam. solve_writes. Qed.
Next Obligation.
  intros p (?&?&?&?&?). unfold read at 1, codec_SpdmSessionCryptoParam. decode_fields. by destruct p.
Qed.
Next Obligation.
  unfold read at 1, codec_SpdmSessionCryptoParam. solve_reads. cbn -[wf]. by split_and!.
Qed.

#[export] Program Instance codec_ok_SpdmSessionSharedSecretRoot : CodecOk SpdmSessionSharedSecretRoot :=
  {| wf p := wf (shared_secret p) ∧ wf (root_handshake_secret p) ∧ wf (master_secret p);
     bytes p := bytes (shared_secret p) ++ bytes (root_handshake_secret p) ++ bytes
                (master_secret p) |}.
Next Obligation. intros p (?&?&?). rewrite !bytes_wf_app. split_and!; by apply bytes_ok. Qed.
Next Obligation. intros p (?&?&?). unfold encode at 1, codec_SpdmSessionSharedSecretRoot. solve_writes. Qed.
Next Obligation.
  intros p (?&?&?). unfold read at 1, codec_SpdmSessionSharedSecretRoot. decode_fields. by destruct p.
Qed.
Next Obligation.
  unfold read at 1, codec_SpdmSessionSharedSecretRoot. solve_reads. cbn -[wf]. by split_and!.
Qed.

#[export] Program Instance codec_ok_SpdmSessionSecretParam : CodecOk SpdmSessionSecretParam :=
  {| wf p := wf (encryption_key p) ∧ wf (salt p) ∧ wf (sequence_number p);
     bytes p := bytes (encryption_key p) ++ bytes (salt p) ++ bytes (sequence_number p) |}.
Next Obligation. intros p (?&?&?). rewrite !bytes_wf_app. split_and!; by apply bytes_ok. Qed.
Next Obligation. intros p (?&?&?). unfold encode at 1, codec_SpdmSessionSecretParam. solve_writes. Qed.
Next Obligation.
  intros p (?&?&?). unfold read at 1, codec_SpdmSessionSecretParam. decode_fields. by destruct p.
Qed.
Next Obligation.
  unfold read at 1, codec_SpdmSessionSecretParam. solve_reads. cbn -[wf]. by split_and!.
Qed.

#[export] Program Instance codec_ok_SpdmSessionHandshakeSecret : CodecOk SpdmSessionHandshakeSecret :=
  {| wf p := wf (request_handshake_secret p) ∧ wf (response_handshake_secret p) ∧ wf
             (request_finished_key p) ∧ wf (response_finished_key p) ∧ wf (hs_request_direction
             p) ∧ wf (hs_response_direction p);
     bytes p := bytes (request_handshake_secret p) ++ bytes (response_handshake_secret p) ++
                bytes (request_finished_key p) ++ bytes (response_finished_key p) ++ bytes
                (hs_request_direction p) ++ bytes (hs_response_direction p) |}.
Next Obligation. intros p (?&?&?&?&?&?). rewrite !bytes_wf_app. split_and!; by apply bytes_ok. Qed.
Next Obligation. intros p (?&?&?&?&?&?). unfold encode at 1, codec_SpdmSessionHandshakeSecret. solve_writes. Qed.
Next Obligation.
  intros p (?&?&?&?&?&?). unfold read at 1, codec_SpdmSessionHandshakeSecret. decode_fields. by destruct p.
Qed.
Next Obligation.
  unfold read at 1, codec_SpdmSessionHandshakeSecret. solve_reads. cbn -[wf]. by split_and!.
Qed.

#[export] Program Instance codec_ok_SpdmSessionApplicationSecret : CodecOk SpdmSessionApplicationSecret :=
  {| wf p := wf (request_data_secret p) ∧ wf (response_data_secret p) ∧ wf
             (app_request_direction p) ∧ wf (app_response_direction p) ∧ wf
             (export_master_secret p);
     bytes p := bytes (request_data_secret p) ++ bytes (response_data_secret p) ++ bytes
                (app_request_direction p) ++ bytes (app_response_direction p) ++ bytes
                (export_master_secret p) |}.
Next Obligation. intros p (?&?&?&?&?). rewrite !bytes_wf_app. split_and!; by apply bytes_ok. Qed.
Next Obligation. intros p (?&?&?&?&?). unfold encode at 1, codec_SpdmSessionApplicationSecret. solve_writes. Qed.
Next Obligation.
  intros p (?&?&?&?&?). unfold read at 1, codec_SpdmSessionApplicationSecret. decode_fields. by destruct p.
Qed.
Next Obligation.
  unfold read at 1, codec_SpdmSessionApplicationSecret. solve_reads. cbn -[wf]. by split_and!.
Qed.

#[export] Program Instance codec_ok_SpdmSessionTransportParam : CodecOk SpdmSessionTransportParam :=
  {| wf p := wf (sequence_number_count p) ∧ wf (max_random_count p);
     bytes p := bytes (sequence_number_count p) ++ bytes (max_random_count p) |}.
Next Obligation. intros p (?&?). rewrite !bytes_wf_app. split_and!; by apply bytes_ok. Qed.
Next Obligation. intros p (?&?). unfold encode at 1, codec_SpdmSessionTransportParam. solve_writes. Qed.
Next Obligation.
  intros p (?&?). unfold read at 1, codec_SpdmSessionTransportParam. decode_fields. by destruct p.
Qed.
Next Obligation.
  unfold read at 1, codec_SpdmSessionTransportParam. solve_reads. cbn -[wf]. by split_and!.
Qed.

(** ** Establishing the keys *)
Module SessionLaws.
Section Keys.
Context `{CryptoOk}.

(** The negotiated algorithms of a session without PSK. *)
Definition negotiated (s : SpdmSession) : Prop :=
  hash_valid (base_hash_algo (crypto_param s)) ∧ aead_valid (aead_algo (crypto_param s)) ∧
  use_psk s = false.

(** A direction has a key and a salt of the maximal size. *)
Definition direction_ok (p : SpdmSessionSecretParam) : Prop :=
  sens_wf (encryption_key p) ∧ data_size (encryption_key p) = SPDM_MAX_AEAD_KEY_SIZE ∧
  sens_wf (salt p) ∧ data_size (salt p) = SPDM_MAX_AEAD_IV_SIZE.

Definition root_ok (s : SpdmSession) : Prop :=
  KeySchedule.secret_ok (base_hash_algo (crypto_param s)) (root_handshake_secret (shared_secret_root s)) ∧
  KeySchedule.secret_ok (base_hash_algo (crypto_param s)) (master_secret (shared_secret_root s)).

Lemma set_shared_secret_ok v key s :
  negotiated s → sens_wf key →
  ∃ r, Session.set_shared_secret v key s = (Ok tt, with_shared_secret_root r s) ∧
       shared_secret r = key ∧ root_ok (with_shared_secret_root r s).
Proof.
  intros (Hh & Ha & Hp) Hk. unfold Session.set_shared_secret. run.
  destruct (KeySchedule.derive_handshake_secret_ok (base_hash_algo (crypto_param s)) v Hh key Hk)
    as (hs & Hhs & Hok).
  destruct (KeySchedule.derive_master_secret_ok (base_hash_algo (crypto_param s)) v Hh hs Hok)
    as (ms & Hms & Hokm).
  rewrite (bind_some_or _ hs) by done. rewrite (bind_some_or _ ms) by done. run.
  exists (mkSharedSecretRoot key hs ms). done.
Qed.

Lemma direction_of_key_iv v h a key (p : SpdmSessionSecretParam) :
  hash_valid h → aead_valid a → ikm_wf (KeySchedule.major_ikm key) →
  ikm_get_data_size (KeySchedule.major_ikm key) = hash_size h →
  ∃ k iv, KeySchedule.derive_aead_key_iv v h a key = Ok (k, iv) ∧
          direction_ok (with_salt iv (with_encryption_key k p)).
Proof.
  intros Hh Ha Hw Hs.
  destruct (KeySchedule.derive_aead_key_iv_ok h v Hh a key Ha Hw Hs) as (k & iv & Hd & ? & ? & ? & ?).
  by exists k, iv.
Qed.

Lemma digest_as_ref {E} (th : SpdmDigestStruct) :
  sens_wf th → sens_as_ref (E:=E) th = Ok (content th) ∧ len (content th) ≤ SPDM_MAX_HASH_SIZE.
Proof.
  intros Hth. split; [by apply sens_as_ref_ok|]. rewrite len_content by done. apply Hth.
Qed.

(** Derives a secret with the given lemma and steps over the call. *)
Ltac derive L x Hx :=
  let Hd := fresh "Hd" in
  destruct L as (x & Hd & Hx); [done..|]; rewrite (bind_some_or _ x) by exact Hd; run.
Ltac derive_dir v Hh Ha sec p Hs Hok :=
  let k := fresh "k" in let iv := fresh "iv" in let Hd := fresh "Hd" in
  destruct (direction_of_key_iv v _ _ sec p Hh Ha (proj1 Hs) (proj2 Hs)) as (k & iv & Hd & Hok);
  rewrite (bind_some_or _ (k, iv)) by exact Hd; run.

Lemma generate_handshake_secret_ok v th s :
  negotiated s → root_ok s → sens_wf th →
  ∃ x, Session.generate_handshake_secret v th s = (Ok tt, with_handshake_secret x s) ∧
       direction_ok (hs_request_direction x) ∧ direction_ok (hs_response_direction x) ∧
       KeySchedule.secret_ok (base_hash_algo (crypto_param s)) (request_finished_key x) ∧
       KeySchedule.secret_ok (base_hash_algo (crypto_param s)) (response_finished_key x) ∧
       sequence_number (hs_request_direction x)
         = sequence_number (hs_request_direction (handshake_secret s)) ∧
       sequence_number (hs_response_direction x)
         = sequence_number (hs_response_direction (handshake_secret s)).
Proof.
  intros (Hh & Ha & Hp) [Hroot _] Hth. destruct (digest_as_ref (E:=SpdmStatus) th Hth) as [Hr Hl].
  unfold Session.generate_handshake_secret. run. rewrite (bind_lift _ (content th)) by done.
  unfold Session.unless_psk. rewrite Hp.
  derive (KeySchedule.derive_request_handshake_secret_ok _ v Hh _ Hl _ (psk_hint (ses_runtime_info s)) Hroot) rhs Hrhs.
  derive (KeySchedule.derive_response_handshake_secret_ok _ v Hh _ Hl _ (psk_hint (ses_runtime_info s)) Hroot) shs Hshs.
  derive (KeySchedule.derive_finished_key_ok _ v Hh _ Hrhs) rfk Hrfk.
  derive (KeySchedule.derive_finished_key_ok _ v Hh _ Hshs) sfk Hsfk.
  derive_dir v Hh Ha (MajorDirectionHandshakeSecret rhs)
    (hs_request_direction (handshake_secret s)) Hrhs Hdir1.
  derive_dir v Hh Ha (MajorDirectionHandshakeSecret shs)
    (hs_response_direction (handshake_secret s)) Hshs Hdir2.
  eexists. split; [reflexivity|]. by split_and!.
Qed.

Lemma generate_data_secret_ok v th s :
  negotiated s → root_ok s → sens_wf th →
  ∃ x, Session.generate_data_secret v th s = (Ok tt, with_application_secret x s) ∧
       direction_ok (app_request_direction x) ∧ direction_ok (app_response_direction x) ∧
       KeySchedule.secret_ok (base_hash_algo (crypto_param s)) (request_data_secret x) ∧
       KeySchedule.secret_ok (base_hash_algo (crypto_param s)) (response_data_secret x) ∧
       KeySchedule.secret_ok (base_hash_algo (crypto_param s)) (export_master_secret x) ∧
       sequence_number (app_request_direction x)
         = sequence_number (app_request_direction (application_secret s)) ∧
       sequence_number (app_response_direction x)
         = sequence_number (app_response_direction (application_secret s)).
Proof.
  intros (Hh & Ha & Hp) [_ Hroot] Hth. destruct (digest_as_ref (E:=SpdmStatus) th Hth) as [Hr Hl].
  unfold Session.generate_data_secret. run. rewrite (bind_lift _ (content th)) by done.
  unfold Session.unless_psk. rewrite Hp.
  derive (KeySchedule.derive_request_data_secret_ok _ v Hh _ Hl _ (psk_hint (ses_runtime_info s)) Hroot) rds Hrds.
  derive (KeySchedule.derive_response_data_secret_ok _ v Hh _ Hl _ (psk_hint (ses_runtime_info s)) Hroot) sds Hsds.
  derive_dir v Hh Ha (MajorDirectionDataSecret rds)
    (app_request_direction (application_secret s)) Hrds Hdir1.
  derive_dir v Hh Ha (MajorDirectionDataSecret sds)
    (app_response_direction (application_secret s)) Hsds Hdir2.
  derive (KeySchedule.derive_export_master_secret_ok _ v Hh _ (psk_hint (ses_runtime_info s)) Hroot) ems Hems.
  eexists. split; [reflexivity|]. by split_and!.
Qed.

End Keys.

(** ** Key update *)
Section Update.
Context `{SpdmCrypto}.

(** What a successful half of the update does: the old secret and direction
    are kept, the new direction starts at sequence number 0. *)
Lemma update_requester_secret_inv v s s' :
  Session.update_requester_secret v s = (Ok tt, s') →
  ∃ us k iv, s' =
    upd_app (λ x, with_app_request_direction (mkSecretParam k iv 0) (with_request_data_secret us x))
      (with_requester_backup_valid true
        (upd_backup (λ x, with_app_request_direction (app_request_direction (application_secret s))
           (with_request_data_secret (request_data_secret (application_secret s)) x)) s)) ∧
    KeySchedule.derive_update_secret v (base_hash_algo (crypto_param s))
      (request_data_secret (application_secret s)) = Ok us.
Proof.
  unfold Session.update_requester_secret. intros Hr. run_in Hr.
  apply bind_some_or_inv in Hr as (us & Hus & Hr). run_in Hr.
  apply bind_some_or_inv in Hr as ([k iv] & Hk & Hr). injection Hr as <-. by exists us, k, iv.
Qed.

Lemma update_responder_secret_inv v s s' :
  Session.update_responder_secret v s = (Ok tt, s') →
  ∃ us k iv, s' =
    upd_app (λ x, with_app_response_direction (mkSecretParam k iv 0) (with_response_data_secret us x))
      (with_responder_backup_valid true
        (upd_backup (λ x, with_app_response_direction (app_response_direction (application_secret s))
           (with_response_data_secret (response_data_secret (application_secret s)) x)) s)) ∧
    KeySchedule.derive_update_secret v (base_hash_algo (crypto_param s))
      (response_data_secret (application_secret s)) = Ok us.
Proof.
  unfold Session.update_responder_secret. intros Hr. run_in Hr.
  apply bind_some_or_inv in Hr as (us & Hus & Hr). run_in Hr.
  apply bind_some_or_inv in Hr as ([k iv] & Hk & Hr). injection Hr as <-. by exists us, k, iv.
Qed.

(** Case analysis of a successful update. *)
Lemma create_update_cases v rq rs s s' :
  Session.create_data_secret_update v rq rs s = (Ok tt, s') →
  ∃ s1, (if rq then Session.update_requester_secret v s = (Ok tt, s1) else s1 = s) ∧
        (if rs then Session.update_responder_secret v s1 = (Ok tt, s') else s' = s1).
Proof.
  unfold Session.create_data_secret_update. intros (a & s1 & H1 & H2)%bind_inv. exists s1. split.
  - destruct rq; [by destruct a|]. by injection H1.
  - destruct rs; [done|]. by injection H2.
Qed.
End Update.

Lemma setup_ok id s :
  session_id s = INVALID_SESSION_ID →
  Session.setup id s = (Ok tt, with_session_id id (Session.set_default s)).
Proof. intros Hid. unfold Session.setup. run. by rewrite Hid. Qed.

(** ** Properties *)

(** C13: a session that was set up, given its negotiated algorithms and the
    shared secret, derives the handshake secrets and then the application
    secrets without error; all four directions end with a key and a salt of
    the full size and sequence number 0, and the finished keys have the digest
    size. *)
Theorem session_keys_established `{CryptoOk} v id h d km a ks key t1 t2 s :
  hash_valid h → aead_valid a → sens_wf key → sens_wf t1 → sens_wf t2 →
  session_id s = INVALID_SESSION_ID →
  ∃ s',
    (let* _ := Session.setup id in
     let* _ := modify (Session.set_crypto_param h d km a ks) in
     let* _ := Session.set_shared_secret v key in
     let* _ := Session.generate_handshake_secret v t1 in
     Session.generate_data_secret v t2) s = (Ok tt, s') ∧
    session_id s' = id ∧
    Forall (λ p, direction_ok p ∧ sequence_number p = 0)
      [hs_request_direction (handshake_secret s'); hs_response_direction (handshake_secret s');
       app_request_direction (application_secret s'); app_response_direction (application_secret s')] ∧
    data_size (request_finished_key (handshake_secret s')) = hash_size h ∧
    data_size (response_finished_key (handshake_secret s')) = hash_size h.
Proof.
  intros Hh Ha Hk H1 H2 Hid. unfold bind at 1. rewrite setup_ok by done. run.
  set (s0 := Session.set_crypto_param h d km a ks (with_session_id id (Session.set_default s))).
  assert (negotiated s0) as Hn by (by split_and!).
  destruct (set_shared_secret_ok v key s0 Hn Hk) as (r & Hr & _ & Hroot).
  unfold bind at 1. rewrite Hr.
  destruct (generate_handshake_secret_ok v t1 (with_shared_secret_root r s0) Hn Hroot H1)
    as (x & Hx & Hd1 & Hd2 & [_ Hf1] & [_ Hf2] & Hs1 & Hs2).
  unfold bind at 1. rewrite Hx.
  destruct (generate_data_secret_ok v t2 (with_handshake_secret x (with_shared_secret_root r s0)) Hn Hroot H2)
    as (y & Hy & Hd3 & Hd4 & _ & _ & _ & Hs3 & Hs4).
  rewrite Hy. eexists. split; [done|]. split; [done|].
  split; [|by split]. rewrite !Forall_cons, Forall_nil. by split_and!.
Qed.

(** C14: rolling a key update back restores the application secrets exactly:
    after a successful [create_data_secret_update], activating with
    [use_new_key = false] in the same directions gives the secrets, keys,
    salts and sequence numbers from before the update. *)
Theorem key_update_rollback `{SpdmCrypto} v rq rs s s' :
  Session.create_data_secret_update v rq rs s = (Ok tt, s') →
  application_secret (Session.activate_data_secret_update v rq rs false s') = application_secret s.
Proof.
  intros (s1 & H1 & H2)%create_update_cases. destruct rq, rs.
  - apply update_requester_secret_inv in H1 as (us & k & iv & -> & _).
    apply update_responder_secret_inv in H2 as (us' & k' & iv' & -> & _).
    destruct s as [? ? ? ? ? ? ? []]; reflexivity.
  - apply update_requester_secret_inv in H1 as (us & k & iv & -> & _). subst s'.
    destruct s as [? ? ? ? ? ? ? []]; reflexivity.
  - subst s1. apply update_responder_secret_inv in H2 as (us' & k' & iv' & -> & _).
    destruct s as [? ? ? ? ? ? ? []]; reflexivity.
  - by subst.
Qed.

(** C15: committing a key update leaves no way back: after a successful
    [create_data_secret_update], activating with [use_new_key = true] keeps
    the new secrets, whose directions restart at sequence number 0, and
    invalidates and erases the backup of every updated direction, its data
    secret and its keys; a direction that is not updated keeps its secret, its
    keys and its backup as they were before the update. *)
Theorem key_update_commit `{SpdmCrypto} v rq rs s s' :
  Session.create_data_secret_update v rq rs s = (Ok tt, s') →
  let s'' := Session.activate_data_secret_update v rq rs true s' in
  let app := application_secret s'' in
  let backup := application_secret_backup s'' in
  app = application_secret s' ∧
  (if rq then
     sequence_number (app_request_direction app) = 0 ∧
     KeySchedule.derive_update_secret v (base_hash_algo (crypto_param s))
       (request_data_secret (application_secret s)) = Ok (request_data_secret app) ∧
     requester_backup_valid s'' = false ∧ request_data_secret backup = sens_default ∧
     app_request_direction backup = SpdmSessionSecretParam_default
   else
     request_data_secret app = request_data_secret (application_secret s) ∧
     app_request_direction app = app_request_direction (application_secret s) ∧
     requester_backup_valid s'' = requester_backup_valid s ∧
     request_data_secret backup = request_data_secret (application_secret_backup s) ∧
     app_request_direction backup = app_request_direction (application_secret_backup s)) ∧
  (if rs then
     sequence_number (app_response_direction app) = 0 ∧
     KeySchedule.derive_update_secret v (base_hash_algo (crypto_param s))
       (response_data_secret (application_secret s)) = Ok (response_data_secret app) ∧
     responder_backup_valid s'' = false ∧ response_data_secret backup = sens_default ∧
     app_response_direction backup = SpdmSessionSecretParam_default
   else
     response_data_secret app = response_data_secret (application_secret s) ∧
     app_response_direction app = app_response_direction (application_secret s) ∧
     responder_backup_valid s'' = responder_backup_valid s ∧
     response_data_secret backup = response_data_secret (application_secret_backup s) ∧
     app_response_direction backup = app_response_direction (application_secret_backup s)).
Proof.
  intros (s1 & H1 & H2)%create_update_cases. destruct rq, rs.
  - apply update_requester_secret_inv in H1 as (us & k & iv & -> & ?).
    apply update_responder_secret_inv in H2 as (us' & k' & iv' & -> & ?). by split_and!.
  - apply update_requester_secret_inv in H1 as (us & k & iv & -> & ?). subst s'. by split_and!.
  - subst s1. apply update_responder_secret_inv in H2 as (us' & k' & iv' & -> & ?). by split_and!.
  - subst. by split_and!.
Qed.

(** (finding) tearing down and setting up again does not clear the
    validity flags of the key backups nor the transcript hashes: a slot whose
    last session had a valid responder backup starts its next session with
    that flag still set, although the backup itself was erased. *)
Theorem backup_flag_survives_teardown s id s' :
  Session.setup id (Session.teardown s) = (Ok tt, s') →
  responder_backup_valid s' = responder_backup_valid s ∧
  requester_backup_valid s' = requester_backup_valid s ∧
  th1 s' = th1 s ∧ th2 s' = th2 s ∧
  app_response_direction (application_secret_backup s') = SpdmSessionSecretParam_default.
Proof. intros [= <-]. by split_and!. Qed.

End SessionLaws.

(** ** Examples *)
Module SessionExamples.
Import SessionLaws ToyRing.

Definition digest (b : Z) : SpdmDigestStruct := sens_of (replicate 32 b).
Definition shared : SpdmSharedSecretFinalKeyStruct := sens_of (replicate 32 17).
Lemma digest_wf b : is_byte b = true → sens_wf (digest b).
Proof.
  intros Hb. apply sens_of_wf; [by vm_compute|]. apply Forall_replicate. unfold is_byte in Hb.
  unfold byte. lia.
Qed.
Lemma shared_wf : sens_wf shared.
Proof. apply sens_of_wf; [by vm_compute|]. apply is_byte_wf. reflexivity. Qed.

Lemma session_keys_established_witness :
  ∃ s',
    (let* _ := Session.setup 0xFFFE in
     let* _ := modify (Session.set_crypto_param SpdmBaseHashAlgo.TPM_ALG_SHA_256
                         SpdmDheAlgo.SECP_256_R1 empty_flags SpdmAeadAlgo.AES_256_GCM empty_flags) in
     let* _ := Session.set_shared_secret (H := toy_crypto) SpdmVersion12 shared in
     let* _ := Session.generate_handshake_secret (H := toy_crypto) SpdmVersion12 (digest 1) in
     Session.generate_data_secret (H := toy_crypto) SpdmVersion12 (digest 2)) Session.new = (Ok tt, s') ∧
    session_id s' = 0xFFFE ∧
    Forall (λ p, direction_ok p ∧ sequence_number p = 0)
      [hs_request_direction (handshake_secret s'); hs_response_direction (handshake_secret s');
       app_request_direction (application_secret s'); app_response_direction (application_secret s')] ∧
    data_size (request_finished_key (handshake_secret s')) = hash_size SpdmBaseHashAlgo.TPM_ALG_SHA_256 ∧
    data_size (response_finished_key (handshake_secret s')) = hash_size SpdmBaseHashAlgo.TPM_ALG_SHA_256.
Proof.
  apply (session_keys_established (H0 := toy_crypto_ok)); [by split|by split|apply shared_wf|by apply digest_wf..|reflexivity].
Defined.

(** An established session and the result of a key update in it. *)
Definition established : SpdmSession :=
  snd ((let* _ := Session.setup 0xFFFE in
        let* _ := modify (Session.set_crypto_param SpdmBaseHashAlgo.TPM_ALG_SHA_256
                            SpdmDheAlgo.SECP_256_R1 empty_flags SpdmAeadAlgo.AES_256_GCM empty_flags) in
        let* _ := Session.set_shared_secret (H := toy_crypto) SpdmVersion12 shared in
        let* _ := Session.generate_handshake_secret (H := toy_crypto) SpdmVersion12 (digest 1) in
        Session.generate_data_secret (H := toy_crypto) SpdmVersion12 (digest 2)) Session.new).
Definition updated : SpdmSession :=
  snd (Session.create_data_secret_update (H := toy_crypto) SpdmVersion12 true true established).

Lemma key_update_rollback_witness :
  application_secret (Session.activate_data_secret_update SpdmVersion12 true true false updated)
  = application_secret established.
Proof.
  apply (key_update_rollback (H := toy_crypto) SpdmVersion12 true true). vm_compute. reflexivity.
Defined.

Lemma key_update_commit_witness :
  let s'' := Session.activate_data_secret_update SpdmVersion12 true true true updated in
  application_secret s'' = application_secret updated ∧
  sequence_number (app_request_direction (application_secret s'')) = 0 ∧
  request_data_secret (application_secret_backup s'') = sens_default.
Proof.
  destruct (key_update_commit (H := toy_crypto) SpdmVersion12 true true established updated)
    as (Ha & (Hs & _ & _ & He & _) & _); [vm_compute; reflexivity|].
  split; [exact Ha|]. split; [exact Hs|exact He].
Defined.

Lemma backup_flag_survives_teardown_witness :
  responder_backup_valid (snd (Session.setup 1 (Session.teardown updated))) = true.
Proof.
  destruct (backup_flag_survives_teardown updated 1 (snd (Session.setup 1 (Session.teardown updated))))
    as [Hv _]; [vm_compute; reflexivity|]. rewrite Hv. vm_compute. reflexivity.
Defined.

End SessionExamples.
