(* ===== verification/SecuredMessage.v ===== *)
(** * Secured messages

    Models the record protection of src/spdmlib/src/common/session.rs:
    [encode_msg], [decode_msg], [encode_spdm_secured_message] and
    [decode_spdm_secured_message].  Arithmetic is the one of a build with
    overflow checks: an overflowing addition or shift is a panic.  The state
    of a computation is the buffer it writes. *)

From S2P Require Import Prelude Codec Status Bitflags Algo DataTypes Version.
From S2P Require Import Crypto KeySchedule ManagedBuffer Session.

Definition SENDER_BUFFER_SIZE : usize := 4160.
Definition RECEIVER_BUFFER_SIZE : usize := 4160.
Definition U64_MAX : u64 := 0xFFFFFFFFFFFFFFFF.

Module Secured.

(** [assert!(b)] *)
Definition assert_ {S E} (b : bool) : M S E unit := if b then ret tt else panic.

(** [((sequence_number >> (8 * i)) & 0xFF) as u8]; a shift by the width or
    more overflows. *)
Definition seq_byte {E} (seq : u64) (i : Z) : outcome E u8 :=
  if 8 * i <? 64 then Ok (Z.land (Z.shiftr seq (8 * i)) 0xFF) else Panic.

(** [salt.data[i] ^= b] *)
Definition xor_at (data : list Z) (i : Z) (b : Z) : option (list Z) :=
  x ← znth data i; zset data i (Z.lxor x b).

(** The eight lines that turn the salt into the nonce of a message. *)
Definition xor_salt (data : list Z) (seq : u64) : option (list Z) :=
  d ← xor_at data 0 (Z.land seq 0xFF);
  d ← xor_at d 1 (Z.land (Z.shiftr seq 8) 0xFF);
  d ← xor_at d 2 (Z.land (Z.shiftr seq 16) 0xFF);
  d ← xor_at d 3 (Z.land (Z.shiftr seq 24) 0xFF);
  d ← xor_at d 4 (Z.land (Z.shiftr seq 32) 0xFF);
  d ← xor_at d 5 (Z.land (Z.shiftr seq 40) 0xFF);
  d ← xor_at d 6 (Z.land (Z.shiftr seq 48) 0xFF);
  xor_at d 7 (Z.land (Z.shiftr seq 56) 0xFF).

Definition message_salt {E} (p : SpdmSessionSecretParam) : outcome E SpdmAeadIvStruct :=
  let! d := or_panic (xor_salt (data (salt p)) (sequence_number p)) in
  Ok (mkSens (data_size (salt p)) d).

(** ** Sending *)
Fixpoint write_seq (seq : u64) (i : Z) (count : nat) : M Writer SpdmStatus unit :=
  match count with
  | O => ret tt
  | S count =>
      let* s := lift (seq_byte seq i) in
      let* _ := map_errM (λ _, SPDM_STATUS_BUFFER_TOO_SMALL) (encode (s : u8)) in
      write_seq seq (i + 1) count
  end.

Definition write_aad (session_id : u32) (count : u8) (seq : u64) (length : u16) :
    M Writer SpdmStatus usize :=
  let* _ := map_errM (λ _, SPDM_STATUS_BUFFER_TOO_SMALL) (encode session_id) in
  let* _ := if negb (count =? 0) then write_seq seq 0 (Z.to_nat count) else ret tt in
  let* _ := map_errM (λ _, SPDM_STATUS_BUFFER_TOO_SMALL) (encode length) in
  w_used.

(** Runs a writer over a fresh buffer; the result comes with the buffer. *)
Definition in_buffer {E A} (buf : list Z) (m : M Writer E A) : outcome E (A * list Z) :=
  let '(o, w) := m (Writer.init buf) in
  let! a := o in Ok (a, w_buf w).

(** The plain text: the length of the message, then the message. *)
Definition plain_text (app_buffer : list Z) : SpdmResult (list Z) :=
  let! r := in_buffer (zeros SENDER_BUFFER_SIZE)
      (let* _ := map_errM (λ _, SPDM_STATUS_BUFFER_TOO_SMALL)
                   (encode (wrap 16 (len app_buffer) : u16)) in w_used) in
  let '(head_size, buf) := r in
  if negb (head_size =? 2) then Panic else
  or_panic (copy_from_slice buf head_size (head_size + len app_buffer) app_buffer).

(** The last lines of [encode_msg]: the header goes in front of the cipher
    text, the tag behind it; the state is [secured_buffer]. *)
Definition finish_record (aad tag' : list Z)
    (aad_size cipher_text_size tag_size ret_cipher_text_size ret_tag_size : usize) :
    M (list Z) SpdmStatus usize :=
  let* _ := assert_ (ret_tag_size =? tag_size) in
  let* _ := assert_ (ret_cipher_text_size =? cipher_text_size) in
  let* buf := get in
  let* buf := lift (or_panic (copy_from_slice buf 0 aad_size aad)) in
  let* buf := lift (or_panic (copy_from_slice buf (aad_size + cipher_text_size)
                                (aad_size + cipher_text_size + tag_size)
                                (splice (zeros 16) 0 tag'))) in
  let* _ := modify (λ _, buf) in
  ret (aad_size + cipher_text_size + tag_size).

Section Crypto.
Context `{SpdmCrypto}.

(** The state is [secured_buffer]. *)
Definition encode_msg (s : SpdmSession) (app_buffer : list Z) (p : SpdmSessionSecretParam) :
    M (list Z) SpdmStatus usize :=
  let aead := aead_algo (crypto_param s) in
  let count := sequence_number_count (transport_param s) in
  let cipher_text_size := len app_buffer + 2 in
  let* tag_size := lift (SpdmAeadAlgo.get_tag_size aead) in
  let* length := lift (add_checked 16 (wrap 16 cipher_text_size) (wrap 16 tag_size)) in
  if sequence_number p =? U64_MAX then throw SPDM_STATUS_SEQUENCE_NUMBER_OVERFLOW else
  let* (aad_size, aad_buffer) :=
    lift (in_buffer (zeros (6 + 8)) (write_aad (session_id s) count (sequence_number p) length)) in
  let* _ := assert_ (aad_size =? 6 + count) in
  let* plain := lift (plain_text app_buffer) in
  let* nonce := lift (message_salt p) in
  let* aad := lift (or_panic (slice aad_buffer 0 aad_size)) in
  let* pt := lift (or_panic (slice plain 0 cipher_text_size)) in
  let* tag := lift (or_panic (slice (zeros 16) 0 tag_size)) in
  let* buf := get in
  let* ct := lift (or_panic (slice buf aad_size (aad_size + cipher_text_size))) in
  let '(r, (tag', ct')) := aead_encrypt aead (encryption_key p) nonce aad pt tag ct in
  let* _ := modify (λ buf, splice buf aad_size ct') in
  let* (ret_cipher_text_size, ret_tag_size) := lift r in
  finish_record aad tag' aad_size cipher_text_size tag_size ret_cipher_text_size ret_tag_size.

End Crypto.

(** ** Receiving *)
Definition aead_fail {S A} (m : M S unit A) : M S SpdmStatus A :=
  map_errM (λ _, SPDM_STATUS_DECODE_AEAD_FAIL) m.

Fixpoint check_seq (seq : u64) (i : Z) (count : nat) : M Reader SpdmStatus unit :=
  match count with
  | O => ret tt
  | S count =>
      let* s := aead_fail (read (A:=u8)) in
      let* b := lift (seq_byte seq i) in
      if negb (s =? b) then throw SPDM_STATUS_DECODE_AEAD_FAIL else check_seq seq (i + 1) count
  end.

Definition r_used {E} : M Reader E usize := λ r, (Ok (Reader.used r), r).

(** The header of a record: its length field and the size of the header. *)
Definition read_aad (sid : u32) (count : u8) (seq : u64) : M Reader SpdmStatus (u16 * usize) :=
  let* read_session_id := aead_fail (read (A:=u32)) in
  if negb (read_session_id =? sid) then throw SPDM_STATUS_DECODE_AEAD_FAIL else
  let* _ := if negb (count =? 0) then check_seq seq 0 (Z.to_nat count) else ret tt in
  let* length := aead_fail (read (A:=u16)) in
  let* aad_size := r_used in
  ret (length, aad_size).

(** The last lines of [decode_msg]: the message inside the plain text goes to
    [app_buffer], the state. *)
Definition deliver (plain_text_buf : list Z) (ret_plain_text_size : usize) :
    M (list Z) SpdmStatus usize :=
  let* app_length :=
    lift (map_err (λ _, SPDM_STATUS_DECODE_AEAD_FAIL) (read_bytes (A:=u16) plain_text_buf)) in
  if ret_plain_text_size <? app_length + 2 then throw SPDM_STATUS_DECODE_AEAD_FAIL else
  let* m := lift (or_panic (slice plain_text_buf 2 (app_length + 2))) in
  let* app := get in
  let* app := lift (or_panic (copy_from_slice app 0 app_length m)) in
  let* _ := modify (λ _, app) in
  ret app_length.

Section Crypto.
Context `{SpdmCrypto}.

(** The state is [app_buffer]. *)
Definition decode_msg (s : SpdmSession) (secured_buffer : list Z) (p : SpdmSessionSecretParam) :
    M (list Z) SpdmStatus usize :=
  let aead := aead_algo (crypto_param s) in
  let count := sequence_number_count (transport_param s) in
  let* tag_size := lift (SpdmAeadAlgo.get_tag_size aead) in
  if sequence_number p =? U64_MAX then throw SPDM_STATUS_SEQUENCE_NUMBER_OVERFLOW else
  let* (length, aad_size) :=
    lift (fst (read_aad (session_id s) count (sequence_number p) (Reader.init secured_buffer))) in
  let* _ := assert_ (aad_size =? 6 + count) in
  if len secured_buffer <? length + aad_size then throw SPDM_STATUS_DECODE_AEAD_FAIL else
  if length <? tag_size then throw SPDM_STATUS_DECODE_AEAD_FAIL else
  let cipher_text_size := length - tag_size in
  let plain_text_buf := zeros RECEIVER_BUFFER_SIZE in
  let* nonce := lift (message_salt p) in
  let* aad := lift (or_panic (slice secured_buffer 0 aad_size)) in
  let* ct := lift (or_panic (slice secured_buffer aad_size (aad_size + cipher_text_size))) in
  let* tag := lift (or_panic (slice secured_buffer (aad_size + cipher_text_size)
                                (aad_size + cipher_text_size + tag_size))) in
  let* pt := lift (or_panic (slice plain_text_buf 0 cipher_text_size)) in
  let '(r, pt') := aead_decrypt aead (encryption_key p) nonce aad ct tag pt in
  let plain_text_buf := splice plain_text_buf 0 pt' in
  let* ret_plain_text_size := lift r in
  deliver plain_text_buf ret_plain_text_size.

End Crypto.

(** ** The session in front of them

    The direction a message uses: the handshake secrets while handshaking,
    the application secrets afterwards. *)
Definition hs_dir (is_requester : bool) (s : SpdmSession) : SpdmSessionSecretParam :=
  if is_requester then hs_request_direction (handshake_secret s)
  else hs_response_direction (handshake_secret s).
Definition app_dir (is_requester : bool) (s : SpdmSession) : SpdmSessionSecretParam :=
  if is_requester then app_request_direction (application_secret s)
  else app_response_direction (application_secret s).
Definition set_hs_dir (is_requester : bool) (p : SpdmSessionSecretParam) (s : SpdmSession) : SpdmSession :=
  upd_hs (if is_requester then with_hs_request_direction p else with_hs_response_direction p) s.
Definition set_app_dir (is_requester : bool) (p : SpdmSessionSecretParam) (s : SpdmSession) : SpdmSession :=
  upd_app (if is_requester then with_app_request_direction p else with_app_response_direction p) s.

(** [..sequence_number += 1] *)
Definition incr_seq (p : SpdmSessionSecretParam) : SpdmResult SpdmSessionSecretParam :=
  let! n := add_checked 64 (sequence_number p) 1 in Ok (with_sequence_number n p).

Definition is_err {A} (r : SpdmResult A) (st : SpdmStatus) : bool :=
  match r with Err e => status_eqb e st | _ => false end.

(** The last lines of both functions: an overflow of the sequence number
    ends the session. *)
Definition reset_on_overflow {A} (r : SpdmResult A) (s : SpdmSession) : SpdmSession :=
  match r with
  | Err e => if decide (status_code e = CRYPTO SEQUENCE_NUMBER_OVERFLOW) then Session.set_default s else s
  | _ => s
  end.

Section Crypto.
Context `{SpdmCrypto}.

(** Sends with direction [get s] and counts the message if it was sealed. *)
Definition encode_dir (get : SpdmSession → SpdmSessionSecretParam)
    (set : SpdmSessionSecretParam → SpdmSession → SpdmSession)
    (app_buffer : list Z) (s : SpdmSession) (buf : list Z) :
    SpdmResult usize * (SpdmSession * list Z) :=
  let '(r, buf') := encode_msg s app_buffer (get s) buf in
  match r with
  | Ok _ =>
      match incr_seq (get s) with
      | Ok p => (r, (set p s, buf'))
      | _ => (Panic, (s, buf'))
      end
  | _ => (r, (s, buf'))
  end.

(** The state is the session and [secured_buffer]. *)
Definition encode_spdm_secured_message (app_buffer : list Z) (is_requester : bool) :
    M (SpdmSession * list Z) SpdmStatus usize :=
  λ '(s, buf),
    let '(r, (s', buf')) :=
      match session_state s with
      | SpdmSessionNotStarted => (Err SPDM_STATUS_INVALID_STATE_LOCAL, (s, buf))
      | SpdmSessionHandshaking => encode_dir (hs_dir is_requester) (set_hs_dir is_requester) app_buffer s buf
      | SpdmSessionEstablished => encode_dir (app_dir is_requester) (set_app_dir is_requester) app_buffer s buf
      | SessionStateUnknown _ => (Panic, (s, buf))
      end in
    (r, (reset_on_overflow r s', buf')).

(** Receives with direction [get s]; the message counts unless the sequence
    number is exhausted. *)
Definition decode_dir (get : SpdmSession → SpdmSessionSecretParam)
    (set : SpdmSessionSecretParam → SpdmSession → SpdmSession)
    (secured_buffer : list Z) (s : SpdmSession) (app : list Z) :
    SpdmResult usize * (SpdmSession * list Z) :=
  let '(r, app') := decode_msg s secured_buffer (get s) app in
  match r with
  | Panic => (Panic, (s, app'))
  | _ =>
      if negb (is_err r SPDM_STATUS_SEQUENCE_NUMBER_OVERFLOW) then
        match incr_seq (get s) with
        | Ok p => (r, (set p s, app'))
        | _ => (Panic, (s, app'))
        end
      else (r, (s, app'))
  end.

Definition backup_dir (s : SpdmSession) : SpdmSessionSecretParam :=
  app_response_direction (application_secret_backup s).
Definition set_backup_dir (p : SpdmSessionSecretParam) (s : SpdmSession) : SpdmSession :=
  upd_backup (with_app_response_direction p) s.

(** The receiving side of the response direction once established: a message
    that does not open under the current key is tried under the backup. *)
Definition decode_response_dir (secured_buffer : list Z) (s : SpdmSession) (app : list Z) :
    SpdmResult usize * (SpdmSession * list Z) :=
  let '(r, app1) := decode_msg s secured_buffer (app_dir false s) app in
  if is_err r SPDM_STATUS_CRYPTO_ERROR && responder_backup_valid s then
    decode_dir backup_dir set_backup_dir secured_buffer s app1
  else
    match r with
    | Panic => (Panic, (s, app1))
    | _ =>
        if negb (is_err r SPDM_STATUS_SEQUENCE_NUMBER_OVERFLOW) then
          match incr_seq (app_dir false s) with
          | Ok p => (r, (set_app_dir false p s, app1))
          | _ => (Panic, (s, app1))
          end
        else (r, (s, app1))
    end.

(** The state is the session and [app_buffer]. *)
Definition decode_spdm_secured_message (secured_buffer : list Z) (is_requester : bool) :
    M (SpdmSession * list Z) SpdmStatus usize :=
  λ '(s, app),
    let '(r, (s', app')) :=
      match session_state s with
      | SpdmSessionNotStarted => (Err SPDM_STATUS_INVALID_STATE_LOCAL, (s, app))
      | SpdmSessionHandshaking =>
          decode_dir (hs_dir is_requester) (set_hs_dir is_requester) secured_buffer s app
      | SpdmSessionEstablished =>
          if is_requester then decode_dir (app_dir true) (set_app_dir true) secured_buffer s app
          else decode_response_dir secured_buffer s app
      | SessionStateUnknown _ => (Err SPDM_STATUS_INVALID_STATE_LOCAL, (s, app))
      end in
    (r, (reset_on_overflow r s', app')).

End Crypto.
End Secured.

Module SecuredLaws.
Import Secured.

(** ** The bytes of a record *)
Lemma seq_byte_ok {E} seq i :
  0 ≤ i < 8 → seq_byte (E:=E) seq i = Ok (Z.shiftr seq (8 * i) mod 256).
Proof.
  intros. unfold seq_byte. replace (8 * i <? 64) with true by lia.
  change 255 with (Z.ones 8). by rewrite land_low.
Qed.

Lemma le_bytes_shiftr_S seq i n :
  0 ≤ i → le_bytes (S n) (Z.shiftr seq (8 * i))
  = Z.shiftr seq (8 * i) mod 256 :: le_bytes n (Z.shiftr seq (8 * (i + 1))).
Proof.
  intros. cbn [le_bytes]. replace (8 * (i + 1)) with (8 * i + 8) by lia. by rewrite shiftr_byte by lia.
Qed.

Lemma write_seq_ok seq i n :
  0 ≤ i → i + Z.of_nat n ≤ 8 →
  writes SPDM_STATUS_BUFFER_TOO_SMALL (write_seq seq i n) (le_bytes n (Z.shiftr seq (8 * i))) tt.
Proof.
  revert i. induction n as [|n IH]; intros i Hi Hn; cbn [write_seq]; [apply writes_ret|].
  rewrite seq_byte_ok by lia. rewrite le_bytes_shiftr_S by lia.
  change (?x :: ?l) with ([] ++ [x] ++ l).
  eapply writes_bind; [apply writes_lift|]. eapply writes_bind; [|apply IH; lia].
  eapply writes_map_err, writes_u8.
Qed.

(** What both ends authenticate: session id, sequence number, length. *)
Definition aad_bytes (sid : u32) (count : u8) (seq : u64) (length : u16) : list Z :=
  le_bytes 4 sid ++ le_bytes (Z.to_nat count) seq ++ le_bytes 2 length.

Lemma len_aad sid count seq length : 0 ≤ count → len (aad_bytes sid count seq length) = 6 + count.
Proof. intros. unfold aad_bytes. rewrite !len_app, !len_le_bytes. lia. Qed.
Lemma bytes_wf_aad sid count seq length : bytes_wf (aad_bytes sid count seq length).
Proof. unfold aad_bytes. rewrite !bytes_wf_app. auto with wfb. Qed.

Lemma in_buffer_ok {A} e (m : M Writer SpdmStatus A) bs a buf :
  writes e m bs a → len bs ≤ len buf →
  in_buffer buf (let* _ := m in w_used) = Ok (len bs, splice buf 0 bs).
Proof.
  intros Hm Hl. unfold in_buffer. rewrite (bind_writes _ _ _ bs a _ Hm); [done| |].
  - unfold writer_wf, Writer.init. cbn. zlia.
  - unfold Writer.left, Writer.init. cbn. lia.
Qed.

Lemma write_seq_all seq count :
  0 ≤ count ≤ 8 →
  writes SPDM_STATUS_BUFFER_TOO_SMALL
    (if negb (count =? 0) then write_seq seq 0 (Z.to_nat count) else ret tt)
    (le_bytes (Z.to_nat count) seq) tt.
Proof.
  intros. destruct (Z.eqb_spec count 0) as [->|]; cbn [negb]; [apply writes_ret|].
  pose proof (write_seq_ok seq 0 (Z.to_nat count)) as Hw. rewrite Z.shiftr_0_r in Hw.
  apply Hw; lia.
Qed.

Lemma write_aad_ok sid count seq length :
  0 ≤ count ≤ 8 →
  in_buffer (zeros (6 + 8)) (write_aad sid count seq length)
  = Ok (6 + count, splice (zeros (6 + 8)) 0 (aad_bytes sid count seq length)).
Proof.
  intros Hc. rewrite <- (len_aad sid count seq length) by lia.
  erewrite <- (in_buffer_ok SPDM_STATUS_BUFFER_TOO_SMALL
    (let* _ := map_errM (λ _, SPDM_STATUS_BUFFER_TOO_SMALL) (encode sid) in
     let* _ := if negb (count =? 0) then write_seq seq 0 (Z.to_nat count) else ret tt in
     map_errM (λ _, SPDM_STATUS_BUFFER_TOO_SMALL) (encode length)) _ 2).
  - unfold in_buffer, write_aad. rewrite bind_assoc. erewrite bind_ext; [done|].
    intros x w1. cbv beta. by rewrite bind_assoc.
  - unfold aad_bytes. eapply writes_bind; [eapply writes_map_err, writes_u32|].
    eapply writes_bind; [by apply write_seq_all|]. eapply writes_map_err, writes_u16.
  - rewrite len_aad by lia. rewrite len_zeros; lia.
Qed.

Lemma plain_text_ok app :
  len app + 2 ≤ SENDER_BUFFER_SIZE →
  plain_text app = Ok (splice (zeros SENDER_BUFFER_SIZE) 0 (le_bytes 2 (len app) ++ app)).
Proof.
  unfold SENDER_BUFFER_SIZE. intros Hl. unfold plain_text, SENDER_BUFFER_SIZE.
  pose proof (len_nonneg app).
  rewrite (in_buffer_ok SPDM_STATUS_BUFFER_TOO_SMALL _ (le_bytes 2 (len app)) 2).
  - rewrite len_le_bytes. cbn [obind]. change (negb (Z.of_nat 2 =? 2)) with false. cbn iota.
    assert (len (splice (zeros 4160) 0 (le_bytes 2 (len app))) = 4160) as Hs
      by (rewrite len_splice; rewrite ?len_zeros, ?len_le_bytes; lia).
    rewrite copy_from_slice_spec by lia. cbn [or_panic]. f_equal.
    rewrite <- (len_le_bytes 2 (len app)). apply splice_app.
    rewrite len_zeros, len_le_bytes; lia.
  - rewrite wrap_small by (unfold in_width; lia). eapply writes_map_err, writes_u16.
  - rewrite len_zeros, len_le_bytes; lia.
Qed.

(** ** The nonce of a message *)
Definition nonce_data (d : list Z) (seq : u64) : list Z :=
  zip_with Z.lxor (take 8 d) (le_bytes 8 seq) ++ drop 8 d.

Lemma le_bytes_8 v :
  le_bytes 8 v = [v mod 256; Z.shiftr v 8 mod 256; Z.shiftr v 16 mod 256; Z.shiftr v 24 mod 256;
                  Z.shiftr v 32 mod 256; Z.shiftr v 40 mod 256; Z.shiftr v 48 mod 256;
                  Z.shiftr v 56 mod 256].
Proof.
  rewrite <- (Z.shiftr_0_r v) at 1. change 0 with (8 * 0). rewrite !le_bytes_shiftr_S by lia.
  cbn [le_bytes]. change (8 * 0) with 0. by rewrite Z.shiftr_0_r.
Qed.

Lemma xor_salt_spec d seq : len d = 12 → xor_salt d seq = Some (nonce_data d seq).
Proof.
  intros Hl. assert (length d = 12%nat) as Hl' by (unfold len in Hl; lia). split_bytes.
  unfold nonce_data, xor_salt. rewrite le_bytes_8, !land_byte. reflexivity.
Qed.

Lemma lxor_byte x y : byte x → byte y → byte (Z.lxor x y).
Proof.
  unfold byte. intros. split; [apply Z.lxor_nonneg; lia|].
  assert (Z.lxor x y = Z.lxor x y mod 2 ^ 8) as ->; [|apply Z.mod_pos_bound; lia].
  rewrite <- Z.land_ones by lia. apply Z.bits_inj'. intros i Hi.
  rewrite Z.land_spec, !Z.lxor_spec. destruct (decide (i < 8)).
  - by rewrite Z.ones_spec_low, andb_true_r by lia.
  - assert (∀ z, 0 ≤ z < 2 ^ 8 → Z.testbit z i = false) as Hz.
    { intros z Hz. rewrite <- (Z.mod_small z (2 ^ 8)) by lia. apply Z.mod_pow2_bits_high. lia. }
    by rewrite !Hz, andb_false_l by (change (2 ^ 8) with 256; lia).
Qed.

Lemma zip_lxor_wf a b : bytes_wf a → bytes_wf b → bytes_wf (zip_with Z.lxor a b).
Proof.
  intros Ha. revert b. induction Ha as [|x a Hx Ha IH]; intros b Hb; [constructor|].
  destruct Hb as [|y b Hy Hb]; [constructor|]. cbn. constructor; [by apply lxor_byte|by apply IH].
Qed.

Lemma nonce_data_wf d seq : len d = 12 → bytes_wf d →
  len (nonce_data d seq) = 12 ∧ bytes_wf (nonce_data d seq).
Proof.
  intros Hl Hw. split.
  - assert (length d = 12%nat) as Hl' by (unfold len in Hl; lia). split_bytes. done.
  - unfold nonce_data. apply bytes_wf_app. split; [|by apply Forall_drop].
    apply zip_lxor_wf; [by apply Forall_take|apply bytes_wf_le_bytes].
Qed.

(** Different sequence numbers give different nonces. *)
Lemma zip_lxor_inj a b c :
  length a = length b → length a = length c → zip_with Z.lxor a b = zip_with Z.lxor a c → b = c.
Proof.
  revert b c. induction a as [|x a IH]; intros [|y b] [|z c] Hb Hc; try done.
  cbn. intros [= Hx Hr]. f_equal; [|apply IH; auto].
  apply (f_equal (Z.lxor x)) in Hx. by rewrite <- !Z.lxor_assoc, Z.lxor_nilpotent, !Z.lxor_0_l in Hx.
Qed.

Lemma nonce_data_inj d s1 s2 :
  len d = 12 → in_width 64 s1 → in_width 64 s2 → nonce_data d s1 = nonce_data d s2 → s1 = s2.
Proof.
  intros Hl H1 H2 Heq. assert (length (take 8 d) = 8%nat) as Ht.
  { rewrite length_take. unfold len in Hl. lia. }
  unfold nonce_data in Heq. apply app_inj_2 in Heq as [Heq _]; [|done].
  apply zip_lxor_inj in Heq; [|done..].
  rewrite <- (le_combine_bytes 8 s1), <- (le_combine_bytes 8 s2) by done. by rewrite Heq.
Qed.

(** ** One record *)
Section Record.
Context `{CryptoOk}.

(** A direction that can protect a message of a session. *)
Definition ready (s : SpdmSession) (p : SpdmSessionSecretParam) : Prop :=
  aead_valid (aead_algo (crypto_param s)) ∧
  aead_sizes_ok (aead_algo (crypto_param s)) (encryption_key p) (salt p) ∧
  in_width 64 (sequence_number p) ∧ sequence_number p ≠ U64_MAX ∧
  0 ≤ sequence_number_count (transport_param s) ≤ 8 ∧ in_width 32 (session_id s).

Definition nonce (p : SpdmSessionSecretParam) : SpdmAeadIvStruct :=
  mkSens (data_size (salt p)) (nonce_data (data (salt p)) (sequence_number p)).

Definition header (s : SpdmSession) (p : SpdmSessionSecretParam) (app : list Z) : list Z :=
  aad_bytes (session_id s) (sequence_number_count (transport_param s)) (sequence_number p)
    (len app + 2 + 16).
Definition plain (app : list Z) : list Z := le_bytes 2 (len app) ++ app.

(** [bs] is the record that protects [app]. *)
Definition sealed (s : SpdmSession) (p : SpdmSessionSecretParam) (app bs : list Z) : Prop :=
  ∃ c t tag cbuf n,
    bs = header s p app ++ c ++ t ∧ len c = len app + 2 ∧ len t = 16 ∧ bytes_wf c ∧ bytes_wf t ∧
    aead_encrypt (aead_algo (crypto_param s)) (encryption_key p) (nonce p) (header s p app)
      (plain app) tag cbuf = (Ok n, (t, c)).

Lemma full_salt a key (iv : SpdmAeadIvStruct) :
  aead_valid a → aead_sizes_ok a key iv → data_size iv = 12 ∧ len (data iv) = 12 ∧ bytes_wf (data iv).
Proof.
  intros Ha (_ & Hw & _ & Hi). destruct (aead_sizes a Ha) as (_ & _ & Hi' & _).
  rewrite Hi' in Hi. injection Hi as Hs. destruct (sens_wf_inv iv Hw) as [_ Hl].
  change (len (data iv) = 12) in Hl. split_and!; [done..|].
  destruct Hw as (_ & _ & Hb). unfold content in Hb. by rewrite ztake_all in Hb by lia.
Qed.

Lemma message_salt_ok {E} (p : SpdmSessionSecretParam) :
  len (data (salt p)) = 12 → message_salt (E:=E) p = Ok (nonce p).
Proof. intros Hl. unfold message_salt. by rewrite xor_salt_spec. Qed.

Lemma nonce_sizes_ok a p :
  aead_valid a → aead_sizes_ok a (encryption_key p) (salt p) →
  aead_sizes_ok a (encryption_key p) (nonce p).
Proof.
  intros Ha Hs. destruct (full_salt _ _ _ Ha Hs) as (H12 & Hl & Hw).
  destruct (nonce_data_wf (data (salt p)) (sequence_number p) Hl Hw) as [Hl' Hw'].
  destruct Hs as (Hk & _ & Hks & His). split_and!; try done.
  assert (nonce p = sens_of (nonce_data (data (salt p)) (sequence_number p))) as ->.
  { unfold nonce, sens_of. rewrite H12, Hl'. f_equal. by rewrite app_nil_r. }
  apply sens_of_wf; [by rewrite Hl'|done].
Qed.

Lemma finish_record_ok h c t buf :
  len h + len c + 16 ≤ len buf → len t = 16 →
  finish_record h t (len h) (len c) 16 (len c) 16 (splice buf (len h) c)
  = (Ok (len (h ++ c ++ t)), splice buf 0 (h ++ c ++ t)).
Proof.
  intros Hb Ht. pose proof (len_nonneg h). pose proof (len_nonneg c).
  unfold finish_record, assert_. rewrite !Z.eqb_refl. run.
  rewrite copy_from_slice_spec by (rewrite ?len_splice; lia). cbn [or_panic].
  rewrite (bind_lift _ _ _ _ eq_refl), splice_before by lia.
  rewrite (splice_whole (zeros 16)) by (rewrite len_zeros; lia).
  rewrite copy_from_slice_spec by (rewrite ?len_splice; rewrite ?len_app; lia). cbn [or_panic].
  rewrite (bind_lift _ _ _ _ eq_refl). run. rewrite <- len_app, splice_app by (rewrite len_app; lia).
  rewrite <- app_assoc. unfold ret. do 2 f_equal. rewrite !len_app. lia.
Qed.

Lemma length_field_ok {E} (app : list Z) :
  len app + 2 ≤ SENDER_BUFFER_SIZE →
  add_checked (E:=E) 16 (wrap 16 (len app + 2)) (wrap 16 16) = Ok (len app + 2 + 16).
Proof.
  unfold SENDER_BUFFER_SIZE, add_checked. intros Hl. pose proof (len_nonneg app).
  rewrite !wrap_small by (unfold in_width; lia).
  by replace (len app + 2 + 16 <? 2 ^ 16) with true by lia.
Qed.

(** [encode_msg] up to the AEAD call. *)
Lemma encode_msg_call s p app buf :
  aead_valid (aead_algo (crypto_param s)) → len (data (salt p)) = 12 →
  sequence_number p ≠ U64_MAX → 0 ≤ sequence_number_count (transport_param s) ≤ 8 →
  len app + 2 ≤ SENDER_BUFFER_SIZE →
  len (header s p app) + len (plain app) + 16 ≤ len buf →
  encode_msg s app p buf
  = let '(r, (tag', ct')) :=
      aead_encrypt (aead_algo (crypto_param s)) (encryption_key p) (nonce p) (header s p app) (plain app)
        (zeros 16) (ztake (len (plain app)) (zdrop (len (header s p app)) buf)) in
    (let* _ := modify (λ buf, splice buf (len (header s p app)) ct') in
     let* (rc, rt) := lift r in
     finish_record (header s p app) tag' (len (header s p app)) (len (plain app)) 16 rc rt) buf.
Proof.
  intros Ha Hsalt Hmax Hc Hl Hb. pose proof (len_nonneg app). pose proof (len_nonneg (header s p app)).
  destruct (aead_sizes _ Ha) as (_ & _ & _ & Ht).
  assert (len (header s p app) = 6 + sequence_number_count (transport_param s)) as Hh by (apply len_aad; lia).
  assert (len (plain app) = len app + 2) as Hp by (unfold plain; rewrite len_app, len_le_bytes; lia).
  unfold encode_msg. rewrite (bind_lift _ 16) by apply Ht. cbv beta zeta.
  rewrite (bind_lift _ _ _ _ (length_field_ok app Hl)).
  rewrite (proj2 (Z.eqb_neq _ _) Hmax), (bind_lift _ _ _ _ (write_aad_ok _ _ _ _ Hc)).
  fold (header s p app). rewrite Z.eqb_refl. unfold assert_. run.
  rewrite (bind_lift _ _ _ _ (plain_text_ok app Hl)), (bind_lift _ _ _ _ (message_salt_ok p Hsalt)).
  fold (plain app). rewrite <- Hh, <- Hp. rewrite slice_prefix, slice_prefix.
  2:{ rewrite len_zeros; unfold SENDER_BUFFER_SIZE in *; lia. }
  2:{ rewrite len_zeros; lia. }
  cbn [or_panic]. rewrite !(bind_lift _ _ _ _ eq_refl). cbv beta.
  rewrite (bind_lift _ (zeros 16)) by done. run. rewrite slice_spec by lia. cbn [or_panic].
  rewrite (bind_lift _ _ _ _ eq_refl), Z.add_simpl_l.
  by destruct (aead_encrypt _ _ _ _ _ _ _) as [r [t c]].
Qed.

Lemma encode_msg_ok s p app buf :
  ready s p → bytes_wf app → len app + 2 ≤ SENDER_BUFFER_SIZE →
  6 + sequence_number_count (transport_param s) + (len app + 2) + 16 ≤ len buf →
  ∃ bs, sealed s p app bs ∧ encode_msg s app p buf = (Ok (len bs), splice buf 0 bs).
Proof.
  intros (Ha & Hs & Hseq & Hmax & Hc & Hid) Hw Hl Hb. pose proof (len_nonneg app).
  destruct (full_salt _ _ _ Ha Hs) as (_ & Hl12 & _).
  assert (len (header s p app) = 6 + sequence_number_count (transport_param s)) as Hh by (apply len_aad; lia).
  assert (len (plain app) = len app + 2) as Hp by (unfold plain; rewrite len_app, len_le_bytes; lia).
  set (cbuf := ztake (len (plain app)) (zdrop (len (header s p app)) buf)).
  destruct (encrypt_ok _ _ _ (header s p app) (plain app) (zeros 16) cbuf Ha (nonce_sizes_ok _ _ Ha Hs))
    as (t & c & He & Hlt & Hlc & Hwt & Hwc).
  { unfold plain. apply bytes_wf_app. auto with wfb. }
  { unfold SENDER_BUFFER_SIZE in Hl. lia. }
  { by rewrite len_zeros. }
  { unfold cbuf. rewrite len_ztake; [lia|]. rewrite len_zdrop; lia. }
  exists (header s p app ++ c ++ t). split.
  { exists c, t, (zeros 16), cbuf, (len (plain app), 16). split_and!; [done|lia|done..]. }
  rewrite encode_msg_call by (done || lia). fold cbuf. rewrite He. run. rewrite (bind_lift _ _ _ _ eq_refl).
  rewrite <- Hlc. apply finish_record_ok; [lia|done].
Qed.

(** ** Opening a record *)
Lemma check_seq_decodes seq i n :
  0 ≤ i → i + Z.of_nat n ≤ 8 →
  decodes (check_seq seq i n) (le_bytes n (Z.shiftr seq (8 * i))) tt.
Proof.
  revert i. induction n as [|n IH]; intros i Hi Hn; cbn [check_seq]; [apply decodes_ret|].
  rewrite le_bytes_shiftr_S by lia. change (?x :: ?l) with ([x] ++ [] ++ l).
  eapply decodes_bind.
  - apply decodes_map_err, decodes_u8. apply Z.mod_pos_bound. lia.
  - eapply decodes_bind; [by apply decodes_lift, seq_byte_ok; lia|]. rewrite Z.eqb_refl. apply IH; lia.
Qed.

Lemma check_seq_parses seq i n :
  0 ≤ i → i + Z.of_nat n ≤ 8 →
  parses SPDM_STATUS_DECODE_AEAD_FAIL (check_seq seq i n)
    (λ _ bs, bs = le_bytes n (Z.shiftr seq (8 * i))).
Proof.
  revert i. induction n as [|n IH]; intros i Hi Hn; cbn [check_seq]; [by apply parses_ret|].
  eapply parses_bind; [apply (parses_map_err _ tt), parses_u8|]. intros x b1 [_ ->].
  eapply parses_bind; [by eapply (parses_lift _ _ _ (λ y b, y = _ ∧ b = [])); [apply seq_byte_ok; lia|]|].
  intros y b2 [-> ->]. destruct (Z.eqb_spec x (Z.shiftr seq (8 * i) mod 256)) as [->|];
    cbn [negb]; [|apply parses_throw].
  eapply parses_weaken; [apply IH; lia|]. intros _ bs ->. by rewrite le_bytes_shiftr_S.
Qed.

(** [read_aad] up to the length field. *)
Definition read_length (sid : u32) (count : u8) (seq : u64) : M Reader SpdmStatus u16 :=
  let* read_session_id := aead_fail (read (A:=u32)) in
  if negb (read_session_id =? sid) then throw SPDM_STATUS_DECODE_AEAD_FAIL else
  let* _ := if negb (count =? 0) then check_seq seq 0 (Z.to_nat count) else ret tt in
  aead_fail (read (A:=u16)).

Lemma read_aad_length sid count seq r :
  read_aad sid count seq r
  = (let* length := read_length sid count seq in let* u := r_used in ret (length, u)) r.
Proof.
  unfold read_aad, read_length. rewrite bind_assoc. apply bind_ext. intros x r1.
  btest; [done|]. by rewrite bind_assoc.
Qed.

Lemma check_seq_all_decodes seq count :
  0 ≤ count ≤ 8 →
  decodes (if negb (count =? 0) then check_seq seq 0 (Z.to_nat count) else ret tt)
    (le_bytes (Z.to_nat count) seq) tt.
Proof.
  intros. destruct (Z.eqb_spec count 0) as [->|]; cbn [negb]; [apply decodes_ret|].
  pose proof (check_seq_decodes seq 0 (Z.to_nat count)) as Hd. rewrite Z.shiftr_0_r in Hd.
  apply Hd; lia.
Qed.

Lemma check_seq_all_parses seq count :
  0 ≤ count ≤ 8 →
  parses SPDM_STATUS_DECODE_AEAD_FAIL
    (if negb (count =? 0) then check_seq seq 0 (Z.to_nat count) else ret tt)
    (λ _ bs, bs = le_bytes (Z.to_nat count) seq).
Proof.
  intros. destruct (Z.eqb_spec count 0) as [->|]; cbn [negb]; [by apply parses_ret|].
  pose proof (check_seq_parses seq 0 (Z.to_nat count)) as Hd. rewrite Z.shiftr_0_r in Hd.
  apply Hd; lia.
Qed.

Lemma read_aad_ok sid count seq length tail :
  0 ≤ count ≤ 8 → in_width 32 sid → in_width 16 length → bytes_wf tail →
  fst (read_aad sid count seq (Reader.init (aad_bytes sid count seq length ++ tail)))
  = Ok (length, 6 + count).
Proof.
  intros Hc Hs Hl Hw. rewrite read_aad_length.
  assert (decodes (read_length sid count seq) (aad_bytes sid count seq length) length) as Hd.
  { unfold read_length, aad_bytes. eapply decodes_bind; [by apply decodes_map_err, decodes_u32|].
    rewrite Z.eqb_refl. eapply decodes_bind; [by apply check_seq_all_decodes|].
    by apply decodes_map_err, decodes_u16. }
  unfold bind at 1. rewrite (Hd _ tail).
  - unfold bind, r_used, ret, Reader.used, advance, Reader.init. cbn [fst r_offs].
    by rewrite Z.add_0_l, len_aad by lia.
  - apply reader_init_wf, bytes_wf_app. auto using bytes_wf_aad.
  - by cbn.
Qed.

(** An accepted header is the one expected. *)
Lemma read_aad_cases sid count seq buf :
  0 ≤ count ≤ 8 → bytes_wf buf →
  fst (read_aad sid count seq (Reader.init buf)) = Err SPDM_STATUS_DECODE_AEAD_FAIL ∨
  ∃ length tail, in_width 16 length ∧ buf = aad_bytes sid count seq length ++ tail.
Proof.
  intros Hc Hw. rewrite read_aad_length.
  assert (parses SPDM_STATUS_DECODE_AEAD_FAIL (read_length sid count seq)
    (λ length bs, in_width 16 length ∧ bs = aad_bytes sid count seq length)) as Hp.
  { unfold read_length. eapply parses_bind; [apply (parses_map_err _ tt), parses_u32|].
    intros x b1 [_ ->]. destruct (Z.eqb_spec x sid) as [->|]; cbn [negb]; [|apply parses_throw].
    eapply parses_bind; [by apply check_seq_all_parses|]. intros _ b2 ->.
    eapply parses_weaken; [apply (parses_map_err _ tt), parses_u16|]. by intros l bs [? ->]. }
  specialize (Hp _ (reader_init_wf buf Hw)). unfold bind at 1.
  destruct (read_length sid count seq (Reader.init buf)) as [[l|x|] r]; [|left; by subst|done].
  destruct Hp as (bs & tail & [Hl ->] & Heq & _). right. exists l, tail. done.
Qed.

Lemma read_bytes_u16 v tail :
  in_width 16 v → bytes_wf tail → read_bytes (A:=u16) (le_bytes 2 v ++ tail) = Ok v.
Proof.
  intros Hv Hw. unfold read_bytes.
  rewrite (decodes_u16 v Hv _ tail); [done| |done]. apply reader_init_wf, bytes_wf_app. auto with wfb.
Qed.

Lemma deliver_ok app buf :
  bytes_wf app → len app + 2 ≤ RECEIVER_BUFFER_SIZE → len app ≤ len buf →
  deliver (splice (zeros RECEIVER_BUFFER_SIZE) 0 (plain app)) (len app + 2) buf
  = (Ok (len app), splice buf 0 app).
Proof.
  unfold RECEIVER_BUFFER_SIZE. intros Hw Hl Hb. pose proof (len_nonneg app). unfold deliver.
  assert (len (plain app) = len app + 2) as Hp by (unfold plain; rewrite len_app, len_le_bytes; lia).
  assert (splice (zeros 4160) 0 (plain app) = le_bytes 2 (len app) ++ app ++ zdrop (len app + 2) (zeros 4160)) as ->.
  { unfold splice. rewrite ztake_0, Hp. unfold plain. by rewrite <- !app_assoc. }
  rewrite read_bytes_u16; [|unfold in_width; lia|rewrite bytes_wf_app; auto with wfb].
  cbn [map_err]. rewrite (bind_lift _ _ _ _ eq_refl), Z.ltb_irrefl.
  rewrite slice_spec by (rewrite ?len_app, ?len_le_bytes; zlia). cbn [or_panic].
  rewrite (bind_lift _ _ _ _ eq_refl), zdrop_app', ztake_app' by (rewrite ?len_le_bytes; lia). run.
  by rewrite copy_from_slice_spec by lia.
Qed.

Lemma deliver_safe ptb k buf :
  bytes_wf ptb → len ptb = RECEIVER_BUFFER_SIZE → k ≤ RECEIVER_BUFFER_SIZE → k ≤ len buf + 2 →
  let '(o, buf') := deliver ptb k buf in
  (o = Err SPDM_STATUS_DECODE_AEAD_FAIL ∧ buf' = buf) ∨
  (∃ m, o = Ok (len m) ∧ buf' = splice buf 0 m ∧ len m ≤ len buf ∧ bytes_wf m).
Proof.
  unfold RECEIVER_BUFFER_SIZE. intros Hw Hl Hk Hb. unfold deliver.
  pose proof (parses_u16 _ (reader_init_wf ptb Hw)) as Hp. unfold read_bytes.
  destruct (read (Reader.init ptb)) as [[n| |] r]; [|by left|done].
  destruct Hp as (bs & tail & [Hn ->] & Heq & _). unfold in_width in Hn.
  cbn [fst map_err]. rewrite (bind_lift _ _ _ _ eq_refl). btest; [by left|].
  rewrite slice_spec by lia. cbn [or_panic]. rewrite (bind_lift _ _ _ _ eq_refl). run.
  set (m := ztake _ _). assert (len m = n) as Hm by (unfold m; rewrite len_ztake; [lia|]; rewrite len_zdrop; lia).
  rewrite copy_from_slice_spec by lia. right. exists m. rewrite Hm.
  split_and!; [done..|lia|]. unfold m. auto with wfb.
Qed.

(** What [decode_msg] does once the header was accepted. *)
Section Opening.
Context (s : SpdmSession) (p : SpdmSessionSecretParam).
Let a := aead_algo (crypto_param s).
Let count := sequence_number_count (transport_param s).
Let aad length := aad_bytes (session_id s) count (sequence_number p) length.
Hypothesis (Ha : aead_valid a) (Hc : 0 ≤ count ≤ 8) (Hid : in_width 32 (session_id s)).
Hypothesis Hmax : sequence_number p ≠ U64_MAX.
Hypothesis Hsalt : len (data (salt p)) = 12.

Definition open_body (length : u16) (body : list Z) (app : list Z) : SpdmResult usize * list Z :=
  match aead_decrypt a (encryption_key p) (nonce p) (aad length) (ztake (length - 16) body)
          (ztake 16 (zdrop (length - 16) body)) (zeros (length - 16)) with
  | (Ok k, pt) => deliver (splice (zeros RECEIVER_BUFFER_SIZE) 0 pt) k app
  | (Err e, _) => (Err e, app)
  | (Panic, _) => (Panic, app)
  end.

Lemma decode_msg_header length body app :
  in_width 16 length → bytes_wf body →
  len body ≤ RECEIVER_BUFFER_SIZE + 16 →
  decode_msg s (aad length ++ body) p app
  = if (len body <? length) || (length <? 16) then (Err SPDM_STATUS_DECODE_AEAD_FAIL, app)
    else open_body length body app.
Proof using Ha Hc Hid Hmax Hsalt.
  intros Hl Hw Hb. unfold decode_msg. fold a count. destruct (aead_sizes a Ha) as (_ & _ & _ & Ht).
  assert (len (aad length) = 6 + count) as Hla by (apply len_aad; lia).
  rewrite (bind_lift _ 16) by apply Ht. rewrite (proj2 (Z.eqb_neq _ _) Hmax).
  unfold aad at 1. rewrite read_aad_ok by done. rewrite (bind_lift _ _ _ _ eq_refl).
  rewrite Z.eqb_refl. unfold assert_. run. fold (aad length). rewrite <- Hla, len_app.
  replace (len (aad length) + len body <? length + len (aad length)) with (len body <? length)
    by (destruct (Z.ltb_spec (len body) length); symmetry; lia).
  destruct (Z.ltb_spec (len body) length) as [|Hfit]; [done|]. cbn [orb].
  destruct (Z.ltb_spec length 16) as [|H16]; [done|].
  rewrite (bind_lift _ _ _ _ (message_salt_ok p Hsalt)).
  rewrite slice_spec by (rewrite ?len_app; zlia). cbn [or_panic].
  rewrite Z.sub_0_r, zdrop_0, ztake_app, (bind_lift _ _ _ _ eq_refl).
  replace (len (aad length)) with (len (aad length) + 0) at 1 by lia. rewrite slice_app_mid by lia.
  cbn [or_panic]. rewrite Z.sub_0_r, zdrop_0, (bind_lift _ _ _ _ eq_refl).
  rewrite <- Z.add_assoc, slice_app_mid by lia. cbn [or_panic].
  rewrite Z.add_simpl_l, (bind_lift _ _ _ _ eq_refl).
  unfold RECEIVER_BUFFER_SIZE in *. rewrite slice_spec by (rewrite ?len_zeros; lia). cbn [or_panic].
  rewrite zdrop_0, Z.sub_0_r, (bind_lift _ _ _ _ eq_refl).
  replace (ztake (length - 16) (zeros 4160)) with (zeros (length - 16))
    by (unfold ztake, zeros; rewrite take_replicate; f_equal; lia).
  unfold open_body, RECEIVER_BUFFER_SIZE. by destruct (aead_decrypt _ _ _ _ _ _ _) as [[] pt].
Qed.

End Opening.

Lemma decode_msg_sealed s p app bs pad buf :
  ready s p → sealed s p app bs → bytes_wf app → bytes_wf pad →
  len app + 2 + len pad ≤ RECEIVER_BUFFER_SIZE → len app ≤ len buf →
  decode_msg s (bs ++ pad) p buf = (Ok (len app), splice buf 0 app).
Proof.
  intros (Ha & Hs & Hseq & Hmax & Hc & Hid) (c & t & tag & cbuf & n & -> & Hlc & Hlt & Hwc & Hwt & He)
    Hw Hpad Hl Hb. destruct (full_salt _ _ _ Ha Hs) as (_ & H12 & _). pose proof (len_nonneg app).
  pose proof (len_nonneg pad). assert (in_width 16 (len app + 2 + 16)).
  { unfold RECEIVER_BUFFER_SIZE in Hl. unfold in_width. lia. }
  rewrite <- !app_assoc. unfold header at 1. rewrite decode_msg_header; try done.
  2:{ rewrite !bytes_wf_app. auto. }
  2:{ rewrite !len_app. lia. }
  rewrite !len_app. replace ((len c + (len t + len pad) <? len app + 2 + 16) || (len app + 2 + 16 <? 16))
    with false by (symmetry; apply orb_false_iff; split; lia).
  unfold open_body. replace (len app + 2 + 16 - 16) with (len app + 2) by lia.
  rewrite ztake_app' by lia. rewrite zdrop_app' by lia. rewrite ztake_app' by lia.
  fold (header s p app). erewrite decrypt_encrypt; [|exact He|rewrite len_zeros; lia].
  rewrite Hlc. apply deliver_ok; [done|lia|lia].
Qed.

(** ** Arbitrary input *)
Definition receivable (s : SpdmSession) (p : SpdmSessionSecretParam) : Prop :=
  aead_valid (aead_algo (crypto_param s)) ∧ sens_wf (encryption_key p) ∧
  sens_wf (salt p) ∧ data_size (salt p) = SPDM_MAX_AEAD_IV_SIZE ∧ in_width 64 (sequence_number p) ∧
  0 ≤ sequence_number_count (transport_param s) ≤ 8 ∧ in_width 32 (session_id s).

Lemma receivable_salt s p :
  receivable s p → len (data (salt p)) = 12 ∧ sens_wf (nonce p).
Proof.
  intros (Ha & _ & Hw & Hsz & _). destruct (sens_wf_inv (salt p) Hw) as [_ Hl].
  change (len (data (salt p)) = 12) in Hl. split; [done|]. change (data_size (salt p) = 12) in Hsz.
  assert (bytes_wf (data (salt p))) as Hb.
  { destruct Hw as (_ & _ & Hb). unfold content in Hb. by rewrite ztake_all in Hb by lia. }
  destruct (nonce_data_wf (data (salt p)) (sequence_number p) Hl Hb) as [Hl' Hw'].
  assert (nonce p = sens_of (nonce_data (data (salt p)) (sequence_number p))) as ->.
  { unfold nonce, sens_of. rewrite Hsz, Hl'. f_equal. by rewrite app_nil_r. }
  apply sens_of_wf; [by rewrite Hl'|done].
Qed.

Lemma decode_msg_overflow s sec p buf :
  aead_valid (aead_algo (crypto_param s)) → sequence_number p = U64_MAX →
  decode_msg s sec p buf = (Err SPDM_STATUS_SEQUENCE_NUMBER_OVERFLOW, buf).
Proof.
  intros Ha Hs. unfold decode_msg. destruct (aead_sizes _ Ha) as (_ & _ & _ & Ht).
  rewrite (bind_lift _ 16) by apply Ht. by rewrite Hs, Z.eqb_refl.
Qed.

Lemma decode_msg_bad_header s sec p buf :
  aead_valid (aead_algo (crypto_param s)) → sequence_number p ≠ U64_MAX →
  fst (read_aad (session_id s) (sequence_number_count (transport_param s)) (sequence_number p)
    (Reader.init sec)) = Err SPDM_STATUS_DECODE_AEAD_FAIL →
  decode_msg s sec p buf = (Err SPDM_STATUS_DECODE_AEAD_FAIL, buf).
Proof.
  intros Ha Hs Hr. unfold decode_msg. destruct (aead_sizes _ Ha) as (_ & _ & _ & Ht).
  rewrite (bind_lift _ 16) by apply Ht. rewrite (proj2 (Z.eqb_neq _ _) Hs). by rewrite Hr.
Qed.

(** What an accepted record consists of: the header of this session and this
    sequence number, then a body the AEAD opens. *)
Definition opens (s : SpdmSession) (p : SpdmSessionSecretParam) (sec : list Z) : Prop :=
  sequence_number p ≠ U64_MAX ∧
  ∃ length c t tail pt,
    sec = aad_bytes (session_id s) (sequence_number_count (transport_param s)) (sequence_number p) length
          ++ c ++ t ++ tail ∧
    len t = 16 ∧ length = len c + 16 ∧ in_width 16 length ∧
    aead_decrypt (aead_algo (crypto_param s)) (encryption_key p) (nonce p)
      (aad_bytes (session_id s) (sequence_number_count (transport_param s)) (sequence_number p) length)
      c t (zeros (len c)) = (Ok (len c), pt).

Lemma decode_msg_total s sec p buf :
  receivable s p → bytes_wf sec → len sec ≤ RECEIVER_BUFFER_SIZE → len sec ≤ len buf →
  (∃ e, decode_msg s sec p buf = (Err e, buf)) ∨
  (∃ m, decode_msg s sec p buf = (Ok (len m), splice buf 0 m) ∧ len m ≤ len buf ∧ bytes_wf m ∧
        opens s p sec).
Proof.
  intros Hr Hw Hl Hb. destruct (receivable_salt _ _ Hr) as [H12 Hn].
  destruct Hr as (Ha & Hk & _ & _ & Hseq & Hc & Hid).
  destruct (decide (sequence_number p = U64_MAX)) as [Heq|Hmax].
  { left. eexists. by apply decode_msg_overflow. }
  destruct (read_aad_cases (session_id s) _ (sequence_number p) sec Hc Hw) as [He|(l & body & Hlen & ->)].
  { left. eexists. by apply decode_msg_bad_header. }
  apply bytes_wf_app in Hw as [_ Hw]. rewrite len_app, len_aad in Hl, Hb by lia.
  rewrite decode_msg_header by (done || lia). btest; [by left; eexists|].
  apply orb_false_iff in Hb0 as [Hb1 Hb2]. unfold open_body.
  set (c := ztake (l - 16) body). set (tg := ztake 16 (zdrop (l - 16) body)).
  assert (len c = l - 16) as Hlc by (unfold c; rewrite len_ztake; lia).
  assert (len tg = 16) as Hlt by (unfold tg; rewrite len_ztake; [done|]; rewrite len_zdrop; lia).
  pose proof (decrypt_total (aead_algo (crypto_param s)) (encryption_key p) (nonce p)
    (aad_bytes (session_id s) (sequence_number_count (transport_param s)) (sequence_number p) l)
    c tg (zeros (l - 16)) Ha Hk Hn) as Hd.
  destruct (aead_decrypt _ _ _ _ _ _ _) as [o pt] eqn:Hdec. destruct Hd as (Hnp & Hlp & Hwp & Ho).
  destruct o as [k|e|]; [|by left; eexists|done]. rewrite (Ho k eq_refl) in *. rewrite len_zeros in Hlp by lia.
  unfold RECEIVER_BUFFER_SIZE in *.
  pose proof (deliver_safe (splice (zeros 4160) 0 pt) (len c) buf) as Hdel.
  destruct (deliver _ _ _) as [o' buf'].
  destruct Hdel as [[-> ->]|(m & -> & -> & Hm & Hwm)]; [auto with wfb| | | |by left; eexists|right].
  1: rewrite len_splice; rewrite ?len_zeros; unfold RECEIVER_BUFFER_SIZE; lia.
  1: unfold RECEIVER_BUFFER_SIZE; lia.
  1: lia.
  exists m. split_and!; [done..|]. split; [done|]. exists l, c, tg, (zdrop 16 (zdrop (l - 16) body)), pt.
  split_and!; [|done|lia|done|by rewrite Hlc in Hdec |- *].
  f_equal. unfold c, tg. by rewrite ztake_zdrop, ztake_zdrop.
Qed.

End Record.

(** ** The session in front of them *)
Definition live (s : SpdmSession) : Prop :=
  session_state s = SpdmSessionHandshaking ∨ session_state s = SpdmSessionEstablished.

(** The direction in use. *)
Definition dir (r : bool) (s : SpdmSession) : SpdmSessionSecretParam :=
  match session_state s with SpdmSessionHandshaking => hs_dir r s | _ => app_dir r s end.
Definition set_dir (r : bool) (p : SpdmSessionSecretParam) (s : SpdmSession) : SpdmSession :=
  match session_state s with SpdmSessionHandshaking => set_hs_dir r p s | _ => set_app_dir r p s end.
Definition next (p : SpdmSessionSecretParam) : SpdmSessionSecretParam :=
  with_sequence_number (sequence_number p + 1) p.

Lemma set_dir_frame r p s :
  session_state (set_dir r p s) = session_state s ∧ session_id (set_dir r p s) = session_id s ∧
  crypto_param (set_dir r p s) = crypto_param s ∧ transport_param (set_dir r p s) = transport_param s ∧
  responder_backup_valid (set_dir r p s) = responder_backup_valid s ∧
  application_secret_backup (set_dir r p s) = application_secret_backup s.
Proof. unfold set_dir. destruct (session_state s) eqn:Hs; destruct r; split_and!; done. Qed.

Lemma dir_set r p s : dir r (set_dir r p s) = p.
Proof.
  unfold dir. rewrite (proj1 (set_dir_frame r p s)). unfold set_dir.
  by destruct (session_state s), r.
Qed.

Lemma live_set_dir r p s : live s → live (set_dir r p s).
Proof. unfold live. by rewrite (proj1 (set_dir_frame r p s)). Qed.

Lemma incr_seq_ok p :
  in_width 64 (sequence_number p) → sequence_number p ≠ U64_MAX → incr_seq p = Ok (next p).
Proof.
  unfold in_width, U64_MAX. intros Hw Hm. unfold incr_seq, add_checked.
  by replace (sequence_number p + 1 <? 2 ^ 64) with true by lia.
Qed.

Lemma next_width p :
  in_width 64 (sequence_number p) → sequence_number p ≠ U64_MAX →
  in_width 64 (sequence_number (next p)).
Proof. unfold in_width, U64_MAX. cbn [sequence_number next with_sequence_number]. lia. Qed.

Section Sessions.
Context `{CryptoOk}.

Lemma encode_live app r s buf :
  live s →
  encode_spdm_secured_message app r (s, buf)
  = let '(o, (s', buf')) := encode_dir (dir r) (set_dir r) app s buf in
    (o, (reset_on_overflow o s', buf')).
Proof.
  intros Hl. unfold encode_spdm_secured_message, encode_dir, dir, set_dir.
  by destruct Hl as [-> | ->].
Qed.

Lemma encode_sealed r s app buf :
  live s → ready s (dir r s) → bytes_wf app → len app + 2 ≤ SENDER_BUFFER_SIZE →
  6 + sequence_number_count (transport_param s) + (len app + 2) + 16 ≤ len buf →
  ∃ bs, sealed s (dir r s) app bs ∧
    encode_spdm_secured_message app r (s, buf)
    = (Ok (len bs), (set_dir r (next (dir r s)) s, splice buf 0 bs)).
Proof.
  intros Hl Hr Hw Hlen Hb. destruct (encode_msg_ok s (dir r s) app buf Hr Hw Hlen Hb) as (bs & Hs & He).
  exists bs. split; [done|]. rewrite encode_live by done. unfold encode_dir. rewrite He.
  destruct Hr as (_ & _ & Hseq & Hmax & _). by rewrite incr_seq_ok.
Qed.

Lemma decode_live_ok r s sec buf n buf' :
  live s → decode_msg s sec (dir r s) buf = (Ok n, buf') →
  in_width 64 (sequence_number (dir r s)) → sequence_number (dir r s) ≠ U64_MAX →
  decode_spdm_secured_message sec r (s, buf) = (Ok n, (set_dir r (next (dir r s)) s, buf')).
Proof.
  intros Hl Hd Hw Hm. pose proof (incr_seq_ok _ Hw Hm) as Hi.
  unfold decode_spdm_secured_message, decode_dir, decode_response_dir, dir, set_dir in *.
  destruct Hl as [Hst|Hst]; rewrite Hst in *; [|destruct r]; rewrite Hd; cbn [is_err negb andb];
    rewrite Hi; done.
Qed.

(** ** A channel: two sessions that share a direction *)
Definition paired (r : bool) (a b : SpdmSession) : Prop :=
  live a ∧ session_state b = session_state a ∧ session_id b = session_id a ∧
  crypto_param b = crypto_param a ∧ transport_param b = transport_param a ∧
  dir r b = dir r a ∧ ready a (dir r a).

Lemma paired_next r a b :
  paired r a b → sequence_number (dir r a) + 1 ≠ U64_MAX →
  paired r (set_dir r (next (dir r a)) a) (set_dir r (next (dir r b)) b).
Proof.
  intros (Hl & Hst & Hid & Hc & Ht & Hd & Hr) Hm.
  destruct (set_dir_frame r (next (dir r a)) a) as (H1 & H2 & H3 & H4 & _).
  destruct (set_dir_frame r (next (dir r b)) b) as (H1' & H2' & H3' & H4' & _).
  unfold paired. rewrite !dir_set, H1, H1', H2, H2', H3, H3', H4, H4', Hd.
  split_and!; try done; [by apply live_set_dir|].
  destruct Hr as (Ha & Hs & Hw & Hmax & Hn & Hi). unfold ready. rewrite H2, H3, H4.
  split_and!; try done; try apply Hn; try apply Hi; try by apply next_width.
Qed.

Lemma ready_pair r a b : paired r a b → ready b (dir r b).
Proof.
  intros (_ & _ & Hid & Hc & Ht & Hd & Hr). unfold ready in *. by rewrite Hid, Hc, Ht, Hd.
Qed.
Lemma sealed_pair r a b app bs : paired r a b → sealed a (dir r a) app bs → sealed b (dir r b) app bs.
Proof.
  intros (_ & _ & Hid & Hc & Ht & Hd & _). unfold sealed, header. by rewrite Hid, Hc, Ht, Hd.
Qed.

End Sessions.

(** ** A channel of messages *)
Section Channel.
Context `{SpdmCrypto}.

(** Sends [msgs] from [a] to [b], one record each, and lists what [b]
    delivers. *)
Fixpoint transfer (r : bool) (msgs : list (list Z)) (a b : SpdmSession) : option (list (list Z)) :=
  match msgs with
  | [] => Some []
  | m :: msgs =>
      match encode_spdm_secured_message m r (a, zeros SENDER_BUFFER_SIZE) with
      | (Ok n, (a', buf)) =>
          match decode_spdm_secured_message (ztake n buf) r (b, zeros RECEIVER_BUFFER_SIZE) with
          | (Ok k, (b', out)) => (ztake k out ::.) <$> transfer r msgs a' b'
          | _ => None
          end
      | _ => None
      end
  end.

(** The crypto back end with an AEAD that stops the program when it is asked to
    encrypt under the key and the nonce of [x]. *)
Definition stops_at (x : SpdmAeadKeyStruct * SpdmAeadIvStruct) : SpdmCrypto :=
  {| hkdf_extract := hkdf_extract;
     hkdf_expand := hkdf_expand;
     hmac := hmac;
     hmac_verify := hmac_verify;
     hash_all := hash_all;
     aead_encrypt a key iv aad pt tag ct :=
       if decide ((key, iv) = x) then (Panic, (tag, ct)) else aead_encrypt a key iv aad pt tag ct;
     aead_decrypt := aead_decrypt;
     handshake_secret_hkdf_expand := handshake_secret_hkdf_expand;
     master_secret_hkdf_expand := master_secret_hkdf_expand |}.
(** Sending [app] encrypts under [x]: it does not get past that AEAD. *)
Definition encrypts_under (r : bool) (app : list Z) (s : SpdmSession) (buf : list Z)
    (x : SpdmAeadKeyStruct * SpdmAeadIvStruct) : Prop :=
  fst (@encode_spdm_secured_message (stops_at x) app r (s, buf)) = Panic.

(** The keys and nonces that the AEAD was given for the records a sender
    produced, first to last; calls that fail in between produce no record. *)
Inductive sends (r : bool) : SpdmSession → list (SpdmAeadKeyStruct * SpdmAeadIvStruct) → SpdmSession → Prop :=
| sends_nil s : sends r s [] s
| sends_ok s app buf n s1 buf' x l s2 :
    encode_spdm_secured_message app r (s, buf) = (Ok n, (s1, buf')) → encrypts_under r app s buf x →
    sends r s1 l s2 → sends r s (x :: l) s2
| sends_err s app buf e s1 buf' l s2 :
    encode_spdm_secured_message app r (s, buf) = (Err e, (s1, buf')) →
    sends r s1 l s2 → sends r s l s2.

(** The AEAD is called with the key of the direction and the nonce that
    [message_salt] computes, and with nothing else. *)
Lemma encode_msg_elsewhere x s app p buf :
  (∀ iv, message_salt (E:=SpdmStatus) p = Ok iv → x ≠ (encryption_key p, iv)) →
  @encode_msg (stops_at x) s app p buf = encode_msg s app p buf.
Proof.
  intros Hx. unfold encode_msg. cbv zeta. apply bind_ext. intros tag_size b1. apply bind_ext. intros length b2.
  destruct (_ =? U64_MAX); [done|]. apply bind_ext. intros [aad_size aad_buffer] b3. apply bind_ext. intros _ b4.
  apply bind_ext. intros pl b5. destruct (message_salt p) as [iv|e|]; [|done..]. specialize (Hx iv eq_refl).
  rewrite !(bind_lift _ _ _ _ eq_refl). do 5 (apply bind_ext; intros ? ?). cbn [aead_encrypt stops_at].
  by rewrite decide_False.
Qed.
Lemma encode_elsewhere x app r s buf :
  (∀ iv, message_salt (E:=SpdmStatus) (dir r s) = Ok iv → x ≠ (encryption_key (dir r s), iv)) →
  @encode_spdm_secured_message (stops_at x) app r (s, buf) = encode_spdm_secured_message app r (s, buf).
Proof.
  intros Hx. unfold encode_spdm_secured_message, encode_dir, dir in *.
  by destruct (session_state s); rewrite ?encode_msg_elsewhere.
Qed.
Lemma encrypts_under_inv app r s buf n s1 buf' x :
  encode_spdm_secured_message app r (s, buf) = (Ok n, (s1, buf')) → encrypts_under r app s buf x →
  ∃ iv, message_salt (E:=SpdmStatus) (dir r s) = Ok iv ∧ x = (encryption_key (dir r s), iv).
Proof.
  unfold encrypts_under. intros He Hx. destruct (message_salt (E:=SpdmStatus) (dir r s)) as [iv|e|] eqn:Hs.
  - exists iv. split; [done|]. destruct (decide (x = (encryption_key (dir r s), iv))) as [|Hne]; [done|].
    rewrite encode_elsewhere, He in Hx; [done|]. rewrite Hs. by intros ? [= <-].
  - rewrite encode_elsewhere, He in Hx; [done|]. by rewrite Hs.
  - rewrite encode_elsewhere, He in Hx; [done|]. by rewrite Hs.
Qed.

Lemma encode_not_live app r s buf n s1 buf' :
  encode_spdm_secured_message app r (s, buf) = (Ok n, (s1, buf')) → live s.
Proof. unfold encode_spdm_secured_message, live. destruct (session_state s); auto; done. Qed.

Lemma encode_ok_step app r s buf n s1 buf' :
  encode_spdm_secured_message app r (s, buf) = (Ok n, (s1, buf')) →
  live s1 ∧ dir r s1 = next (dir r s) ∧ sequence_number (dir r s) + 1 < 2 ^ 64.
Proof.
  intros He. pose proof (encode_not_live _ _ _ _ _ _ _ He) as Hl. rewrite encode_live in He by done.
  unfold encode_dir in He. destruct (encode_msg _ _ _ _) as [[k| |] b1]; try done.
  unfold incr_seq, add_checked in He. btest; [|done]. cbn [obind] in He. injection He as _ <- _.
  cbn [reset_on_overflow]. rewrite dir_set. split_and!; [by apply live_set_dir|done|lia].
Qed.

Lemma encode_dir_err g st app s buf e s1 buf' :
  encode_dir g st app s buf = (Err e, (s1, buf')) → s1 = s.
Proof.
  unfold encode_dir. destruct (encode_msg _ _ _ _) as [[k|x|] b1]; [|by intros [= <-]..].
  by destruct (incr_seq _).
Qed.

Lemma reset_cases e s :
  reset_on_overflow (A:=usize) (Err e) s = s ∨ ¬ live (reset_on_overflow (A:=usize) (Err e) s).
Proof. cbn. destruct (decide _); [right|by left]. by intros []. Qed.

(** A failed call leaves the session as it was, or ends it. *)
Lemma encode_err_step app r s buf e s1 buf' :
  encode_spdm_secured_message app r (s, buf) = (Err e, (s1, buf')) → s1 = s ∨ ¬ live s1.
Proof.
  unfold encode_spdm_secured_message. pose proof (reset_cases e s) as Hx.
  destruct (session_state s); [|destruct (encode_dir _ _ _ _ _) as [o [s2 b2]] eqn:Hq..|done];
    intros Heq; injection Heq as Ho <- _; [by left| |]; subst o;
    by rewrite (encode_dir_err _ _ _ _ _ _ _ _ Hq).
Qed.

Lemma sends_dead r s l s' : sends r s l s' → ¬ live s → l = [].
Proof.
  induction 1 as [|s app buf n s1 buf' x l s2 He _ _ _|s app buf e s1 buf' l s2 He _ IH]; intros Hl; [done| |].
  - by destruct Hl; eapply encode_not_live.
  - apply IH. by destruct (encode_err_step _ _ _ _ _ _ _ He) as [->|?].
Qed.

(** The AEAD inputs at sequence number [q]. *)
Definition inputs_at (p : SpdmSessionSecretParam) (q : Z) : SpdmAeadKeyStruct * SpdmAeadIvStruct :=
  (encryption_key p, mkSens (data_size (salt p)) (nonce_data (data (salt p)) q)).

Lemma encrypts_under_input app r s buf n s1 buf' x :
  encode_spdm_secured_message app r (s, buf) = (Ok n, (s1, buf')) → encrypts_under r app s buf x →
  len (data (salt (dir r s))) = 12 → x = inputs_at (dir r s) (sequence_number (dir r s)).
Proof.
  intros He Hx Hl. destruct (encrypts_under_inv _ _ _ _ _ _ _ _ He Hx) as (iv & Hs & ->).
  unfold message_salt in Hs. rewrite xor_salt_spec in Hs by done. by injection Hs as <-.
Qed.

Lemma sends_inputs r s l s' :
  sends r s l s' → 0 ≤ sequence_number (dir r s) → len (data (salt (dir r s))) = 12 →
  Forall (λ x, ∃ q, sequence_number (dir r s) ≤ q < 2 ^ 64 ∧ x = inputs_at (dir r s) q) l.
Proof.
  induction 1 as [|s app buf n s1 buf' x l s2 He Hx Hs IH|s app buf e s1 buf' l s2 He Hs IH]; intros Hq Hl.
  - constructor.
  - destruct (encode_ok_step _ _ _ _ _ _ _ He) as (_ & Hd & Hlt). rewrite Hd in IH.
    cbn [next with_sequence_number sequence_number salt] in IH. constructor.
    + exists (sequence_number (dir r s)). split; [lia|by eapply encrypts_under_input].
    + eapply Forall_impl; [apply IH; [lia|done]|]. intros y (q & Hq' & ->). exists q. split; [lia|done].
  - destruct (encode_err_step _ _ _ _ _ _ _ He) as [->|Hn]; [auto|].
    rewrite (sends_dead _ _ _ _ Hs Hn). constructor.
Qed.

Lemma sends_nodup r s l s' :
  sends r s l s' → 0 ≤ sequence_number (dir r s) → len (data (salt (dir r s))) = 12 → NoDup l.
Proof.
  induction 1 as [|s app buf n s1 buf' x l s2 He Hx Hs IH|s app buf e s1 buf' l s2 He Hs IH]; intros Hq Hl.
  - constructor.
  - destruct (encode_ok_step _ _ _ _ _ _ _ He) as (_ & Hd & Hlt).
    pose proof (encrypts_under_input _ _ _ _ _ _ _ _ He Hx Hl) as ->.
    pose proof (sends_inputs _ _ _ _ Hs) as Hin. rewrite Hd in Hin, IH.
    cbn [next with_sequence_number sequence_number salt] in Hin, IH. constructor; [|apply IH; [lia|done]].
    intros Hy. rewrite Forall_forall in Hin. destruct (Hin ltac:(lia) Hl _ Hy) as (q & Hq' & Heq).
    injection Heq as Heq. apply nonce_data_inj in Heq; [lia|done|unfold in_width; lia..].
  - destruct (encode_err_step _ _ _ _ _ _ _ He) as [->|Hn]; [auto|].
    rewrite (sends_dead _ _ _ _ Hs Hn). constructor.
Qed.

End Channel.

(** ** Receiving arbitrary bytes *)
Section Receiving.
Context `{CryptoOk}.

(** The directions a session may have to open a record with. *)
Definition rx_ok (r : bool) (s : SpdmSession) : Prop :=
  live s →
  receivable s (dir r s) ∧
  (session_state s = SpdmSessionEstablished → responder_backup_valid s = true →
   receivable s (backup_dir s)).

(** What a receiving call may do to direction [p] and the buffers. *)
Definition rx_result (s : SpdmSession) (p : SpdmSessionSecretParam)
    (st : SpdmSessionSecretParam → SpdmSession → SpdmSession) (sec buf : list Z)
    (x : SpdmResult usize * (SpdmSession * list Z)) : Prop :=
  let '(o, (s', buf')) := x in
  o ≠ Panic ∧ len buf' = len buf ∧
  (s' = s ∨ s' = st (next p) s ∧ in_width 64 (sequence_number (next p))) ∧
  (∀ n, o = Ok n → opens s p sec ∧
     ∃ m, n = len m ∧ buf' = splice buf 0 m ∧ len m ≤ len buf ∧ bytes_wf m) ∧
  (∀ e, o = Err e → buf' = buf).

Lemma is_err_overflow (r : SpdmResult usize) :
  is_err r SPDM_STATUS_SEQUENCE_NUMBER_OVERFLOW = false → r ≠ Err SPDM_STATUS_SEQUENCE_NUMBER_OVERFLOW.
Proof. by intros He ->. Qed.

(** The shape shared by the directions: open, then count. *)
Lemma open_count_ok s p st sec buf :
  receivable s p → bytes_wf sec → len sec ≤ RECEIVER_BUFFER_SIZE → len sec ≤ len buf →
  let '(o, buf') := decode_msg s sec p buf in
  rx_result s p st sec buf
    match o with
    | Panic => (Panic, (s, buf'))
    | _ => if negb (is_err o SPDM_STATUS_SEQUENCE_NUMBER_OVERFLOW) then
             match incr_seq p with Ok q => (o, (st q s, buf')) | _ => (Panic, (s, buf')) end
           else (o, (s, buf'))
    end.
Proof.
  intros Hr Hw Hl Hb.
  assert (sequence_number p = U64_MAX ∨ sequence_number p ≠ U64_MAX ∧ incr_seq p = Ok (next p) ∧
          in_width 64 (sequence_number (next p))) as Hinc.
  { destruct Hr as (_ & _ & _ & _ & Hq & _). destruct (decide (sequence_number p = U64_MAX)); [by left|].
    right. split_and!; [done|by apply incr_seq_ok|by apply next_width..]. }
  destruct Hinc as [Hm|(Hm & Hi & Hn)].
  - rewrite decode_msg_overflow by (apply Hr || done). cbn. split_and!; try done. by left.
  - rewrite Hi. destruct (decode_msg_total s sec p buf Hr Hw Hl Hb) as [(e & ->)|(m & -> & Hlm & Hwm & Ho)].
    + destruct (negb _); cbn; split_and!; try done; auto.
    + cbn. split; [done|]. split; [rewrite len_splice; zlia|]. split; [auto|]. split; [|done].
      intros n [= <-]. split; [done|]. by exists m.
Qed.

Lemma decode_rx r s sec buf :
  live s → rx_ok r s → bytes_wf sec → len sec ≤ RECEIVER_BUFFER_SIZE → len sec ≤ len buf →
  ∃ o s' buf', decode_spdm_secured_message sec r (s, buf) = (o, (reset_on_overflow o s', buf')) ∧
    (rx_result s (dir r s) (set_dir r) sec buf (o, (s', buf')) ∨
     r = false ∧ session_state s = SpdmSessionEstablished ∧ responder_backup_valid s = true ∧
     rx_result s (backup_dir s) set_backup_dir sec buf (o, (s', buf'))).
Proof.
  intros Hl Hrx Hw Hs Hb. destruct (Hrx Hl) as [Hd Hbk].
  pose proof (open_count_ok s (dir r s) (set_dir r) sec buf Hd Hw Hs Hb) as Hoc.
  unfold decode_spdm_secured_message, decode_response_dir, decode_dir.
  unfold dir, set_dir in *. destruct Hl as [Hst|Hst]; rewrite Hst in *; [|destruct r].
  - destruct (decode_msg _ _ _ _) as [o b1]. destruct (match o with Ok _ => _ | _ => _ end) as [o' [s' b']] eqn:E.
    exists o', s', b'. split; [done|by left].
  - destruct (decode_msg _ _ _ _) as [o b1]. destruct (match o with Ok _ => _ | _ => _ end) as [o' [s' b']] eqn:E.
    exists o', s', b'. split; [done|by left].
  - destruct (decode_msg s sec (app_dir false s) buf) as [o b1] eqn:Hdm.
    destruct (is_err o SPDM_STATUS_CRYPTO_ERROR && responder_backup_valid s) eqn:Hbv.
    + apply andb_true_iff in Hbv as [He Hv]. destruct o as [|x|]; try done.
      assert (b1 = buf) as ->.
      { destruct (decode_msg_total s sec (app_dir false s) buf Hd Hw Hs Hb) as [(e & Heq)|(m & Heq & _)];
          congruence. }
      pose proof (open_count_ok s (backup_dir s) set_backup_dir sec buf (Hbk eq_refl Hv) Hw Hs Hb) as Hoc'.
      destruct (decode_msg _ _ (backup_dir s) _) as [o' b'].
      destruct (match o' with Ok _ => _ | _ => _ end) as [o'' [s' b'']] eqn:E.
      exists o'', s', b''. split; [done|]. right. by split_and!.
    + destruct (match o with Ok _ => _ | _ => _ end) as [o' [s' b']] eqn:E.
      exists o', s', b'. split; [done|by left].
Qed.

Lemma receivable_frame s s' p :
  session_id s' = session_id s → crypto_param s' = crypto_param s →
  transport_param s' = transport_param s → receivable s p → receivable s' p.
Proof. intros Hi Hc Ht. unfold receivable. by rewrite Hi, Hc, Ht. Qed.

Lemma receivable_next s p :
  receivable s p → in_width 64 (sequence_number (next p)) → receivable s (next p).
Proof. intros (? & ? & ? & ? & _ & ? & ?) Hn. unfold receivable. do 6 (split; [assumption|]). assumption. Qed.

Lemma rx_ok_set_dir r s :
  live s → rx_ok r s → in_width 64 (sequence_number (next (dir r s))) →
  rx_ok r (set_dir r (next (dir r s)) s).
Proof.
  intros Hl Hrx Hn _. destruct (Hrx Hl) as [Hd Hb].
  destruct (set_dir_frame r (next (dir r s)) s) as (H1 & H2 & H3 & H4 & H5 & H6).
  rewrite dir_set. split.
  - eapply receivable_frame; [done..|]. by apply receivable_next.
  - unfold backup_dir. rewrite H1, H5, H6. intros Hst Hv.
    eapply receivable_frame; [done..|]. by apply Hb.
Qed.

Lemma rx_ok_set_backup r s :
  live s → rx_ok r s → session_state s = SpdmSessionEstablished → responder_backup_valid s = true →
  in_width 64 (sequence_number (next (backup_dir s))) → rx_ok r (set_backup_dir (next (backup_dir s)) s).
Proof.
  intros Hl Hrx Hst Hv Hn _. destruct (Hrx Hl) as [Hd Hb]. split.
  - exact Hd.
  - intros _ _. apply (receivable_next s (backup_dir s)); auto.
Qed.

Lemma rx_ok_reset {A} r (o : SpdmResult A) s : rx_ok r s → rx_ok r (reset_on_overflow o s).
Proof.
  intros Hr. unfold reset_on_overflow. destruct o; try done. destruct (decide _); [|done].
  by intros [Hx|Hx].
Qed.

Lemma decode_dead r s sec buf :
  ¬ live s → decode_spdm_secured_message sec r (s, buf) = (Err SPDM_STATUS_INVALID_STATE_LOCAL, (s, buf)).
Proof.
  intros Hl. unfold decode_spdm_secured_message. unfold live in Hl.
  destruct (session_state s); try done; destruct Hl; auto.
Qed.

Lemma live_dec s : live s ∨ ¬ live s.
Proof. unfold live. destruct (session_state s); auto; right; by intros [|]. Qed.

Lemma decode_safe r s sec buf :
  rx_ok r s → bytes_wf sec → len sec ≤ RECEIVER_BUFFER_SIZE → len sec ≤ len buf →
  let '(o, (s', buf')) := decode_spdm_secured_message sec r (s, buf) in
  o ≠ Panic ∧ len buf' = len buf ∧ (∀ e, o = Err e → buf' = buf) ∧ rx_ok r s' ∧
  (∀ n, o = Ok n → ∃ m, n = len m ∧ buf' = splice buf 0 m ∧ len m ≤ len buf ∧ bytes_wf m).
Proof.
  intros Hrx Hw Hl Hb. destruct (live_dec s) as [Hlive|Hd]; [|by rewrite decode_dead].
  destruct (decode_rx r s sec buf Hlive Hrx Hw Hl Hb) as (o & s' & buf' & -> & [Hres|(-> & Hst & Hv & Hres)]).
  - destruct Hres as (? & ? & Hs & Ho & ?). split_and!; [done..| |by intros n Hn; apply (Ho n)]. apply rx_ok_reset.
    destruct Hs as [->|[-> ?]]; [done|by apply rx_ok_set_dir].
  - destruct Hres as (? & ? & Hs & Ho & ?). split_and!; [done..| |by intros n Hn; apply (Ho n)]. apply rx_ok_reset.
    destruct Hs as [->|[-> ?]]; [done|by apply rx_ok_set_backup].
Qed.

End Receiving.

Lemma aad_bytes_inj sid sid' count q q' l l' u u' :
  0 ≤ count → in_width 32 sid → in_width 32 sid' →
  aad_bytes sid count q l ++ u = aad_bytes sid' count q' l' ++ u' →
  sid = sid' ∧ q mod 2 ^ (8 * count) = q' mod 2 ^ (8 * count).
Proof.
  intros Hc Hs Hs'. unfold aad_bytes. rewrite <- !app_assoc.
  intros [H1 H2]%app_inj_1; [|by apply Nat2Z.inj; apply (eq_trans (len_le_bytes 4 sid)); rewrite <- (len_le_bytes 4 sid')].
  apply app_inj_1 in H2 as [H2 _].
  - split.
    + rewrite <- (le_combine_bytes 4 sid), <- (le_combine_bytes 4 sid') by done. by rewrite H1.
    + apply le_bytes_mod_inj in H2. by rewrite Z2Nat.id in H2.
  - apply Nat2Z.inj. apply (eq_trans (len_le_bytes (Z.to_nat count) q)). by rewrite <- (len_le_bytes _ q').
Qed.

Lemma header_mismatch `{CryptoOk} r s sid q l body buf :
  let count := sequence_number_count (transport_param s) in
  live s → receivable s (dir r s) → sequence_number (dir r s) ≠ U64_MAX →
  in_width 32 sid → bytes_wf body →
  sid ≠ session_id s ∨ q mod 2 ^ (8 * count) ≠ sequence_number (dir r s) mod 2 ^ (8 * count) →
  decode_spdm_secured_message (aad_bytes sid count q l ++ body) r (s, buf)
  = (Err SPDM_STATUS_DECODE_AEAD_FAIL, (set_dir r (next (dir r s)) s, buf)).
Proof.
  intros count Hl Hr Hmax Hsid Hw Hne. pose proof Hr as (Ha & _ & _ & _ & Hq & Hc & Hid).
  assert (decode_msg s (aad_bytes sid count q l ++ body) (dir r s) buf
          = (Err SPDM_STATUS_DECODE_AEAD_FAIL, buf)) as Hd.
  { apply decode_msg_bad_header; [done..|].
    edestruct (read_aad_cases (session_id s)) as [He|(l' & tail & _ & Heq)]; [exact Hc| |exact He|].
    - apply bytes_wf_app. split; [apply bytes_wf_aad|done].
    - apply aad_bytes_inj in Heq as [? ?]; [|apply Hc|done..]. by destruct Hne. }
  pose proof (incr_seq_ok _ Hq Hmax) as Hi. clear - Hl Hd Hi.
  unfold decode_spdm_secured_message, decode_response_dir, decode_dir, dir, set_dir in *.
  destruct Hl as [Hst|Hst]; rewrite Hst in *; [|destruct r]; rewrite Hd, Hi; reflexivity.
Qed.
Lemma accepted_opens `{CryptoOk} r s sec buf n s' buf' :
  rx_ok r s → bytes_wf sec → len sec ≤ RECEIVER_BUFFER_SIZE → len sec ≤ len buf →
  decode_spdm_secured_message sec r (s, buf) = (Ok n, (s', buf')) →
  live s ∧
  (opens s (dir r s) sec ∨
   r = false ∧ session_state s = SpdmSessionEstablished ∧ responder_backup_valid s = true ∧
   opens s (backup_dir s) sec).
Proof.
  intros Hrx Hw Hl Hb Hd. destruct (live_dec s) as [Hlive|Hdead]; [|by rewrite decode_dead in Hd].
  split; [done|]. destruct (decode_rx r s sec buf Hlive Hrx Hw Hl Hb)
    as (o & s1 & b1 & Heq & [Hres|(-> & Hst & Hv & Hres)]); rewrite Heq in Hd; injection Hd as -> _ _.
  - left. destruct Hres as (_ & _ & _ & Ho & _). by apply (Ho n).
  - right. destruct Hres as (_ & _ & _ & Ho & _). split_and!; [done..|]. by apply (Ho n).
Qed.

(** ** Properties *)

(** C1: secured messages are delivered: two sessions that hold the same
    direction (key, salt, sequence number), session id, algorithms and
    transport parameters carry any list of messages that fit into a record,
    as long as the 64-bit sequence number is not exhausted, and the receiver
    delivers exactly the messages sent, in order. *)
Theorem transfer_delivers `{CryptoOk} r msgs a b :
  paired r a b →
  Forall (λ m, bytes_wf m ∧ len m + 32 ≤ SENDER_BUFFER_SIZE) msgs →
  sequence_number (dir r a) + len msgs ≤ U64_MAX →
  transfer r msgs a b = Some msgs.
Proof.
  intros Hp Hm. revert a b Hp. induction Hm as [|m msgs [Hw Hl] Hms IH]; intros a b Hp Hseq; [done|].
  rewrite len_cons in Hseq. pose proof Hp as (Hla & Hst & Hid & Hc & Ht & Hd & Hr).
  pose proof Hr as (_ & _ & Hsw & Hmax & Hcnt & _). pose proof (len_nonneg m).
  destruct (encode_sealed r a m (zeros SENDER_BUFFER_SIZE) Hla Hr Hw) as (bs & Hs & He).
  { lia. }
  { rewrite len_zeros by done. unfold SENDER_BUFFER_SIZE in *. lia. }
  assert (len bs = 6 + sequence_number_count (transport_param a) + (len m + 2) + 16) as Hbs.
  { destruct Hs as (c & t & _ & _ & _ & -> & Hlc & Hlt & _). rewrite !len_app. unfold header.
    rewrite len_aad; lia. }
  cbn [transfer]. rewrite He. rewrite <- (Z.add_0_l (len bs)), ztake_splice, ztake_0.
  2:{ lia. }
  2:{ rewrite len_zeros by done. unfold SENDER_BUFFER_SIZE in *. lia. }
  cbn [app]. rewrite <- (app_nil_r bs).
  assert (live b) as Hlb by (unfold live; rewrite Hst; done).
  rewrite (decode_live_ok r b _ _ (len m) (splice (zeros RECEIVER_BUFFER_SIZE) 0 m)); [|done| |by rewrite Hd..].
  2:{ apply decode_msg_sealed; [by eapply ready_pair|by eapply sealed_pair|done|constructor| |].
      - rewrite len_nil. unfold RECEIVER_BUFFER_SIZE, SENDER_BUFFER_SIZE in *. lia.
      - rewrite len_zeros by done. unfold RECEIVER_BUFFER_SIZE, SENDER_BUFFER_SIZE in *. lia. }
  rewrite <- (Z.add_0_l (len m)), ztake_splice, ztake_0.
  2:{ lia. }
  2:{ rewrite len_zeros by done. unfold RECEIVER_BUFFER_SIZE, SENDER_BUFFER_SIZE in *. lia. }
  cbn [app]. destruct msgs as [|m' msgs]; [done|]. rewrite IH; [done| |].
  - apply paired_next; [done|]. rewrite len_cons in Hseq. pose proof (len_nonneg msgs). lia.
  - rewrite dir_set. cbn [next with_sequence_number sequence_number]. lia.
Qed.

(** C4: no AEAD nonce is used twice: over any run of sending calls of a
    session, successful or not, with any messages and buffers, the pairs of
    key and nonce that the AEAD is called with for the records produced are
    pairwise different. *)
Theorem nonces_unique `{SpdmCrypto} r s l s' :
  sends r s l s' → in_width 64 (sequence_number (dir r s)) →
  len (data (salt (dir r s))) = SPDM_MAX_AEAD_IV_SIZE → NoDup l.
Proof. intros Hs [Hq _] Hl. by eapply sends_nodup. Qed.

(** C2: receiving is safe on arbitrary input: a session whose directions
    hold well-formed keys never panics on bytes from the wire, leaves the
    caller's buffer alone unless it accepts a message, and stays in the
    condition that makes the next call safe. *)
Theorem decode_never_panics `{CryptoOk} r s sec buf :
  rx_ok r s → bytes_wf sec → len sec ≤ RECEIVER_BUFFER_SIZE → len sec ≤ len buf →
  let '(o, (s', buf')) := decode_spdm_secured_message sec r (s, buf) in
  o ≠ Panic ∧ len buf' = len buf ∧ (∀ e, o = Err e → buf' = buf) ∧ rx_ok r s'.
Proof.
  intros Hrx Hw Hl Hb. pose proof (decode_safe r s sec buf Hrx Hw Hl Hb) as Hs.
  destruct (decode_spdm_secured_message _ _ _) as [o [s' buf']].
  destruct Hs as (? & ? & ? & ? & _). by split_and!.
Qed.

(** C3: only authentic records are accepted: when a receiving call returns a
    message, the input starts with the session's id, the expected sequence
    number and a length, and the AEAD opened the rest under the direction's
    key and the nonce of that sequence number, with that header as associated
    data; the only other direction it can be is the valid responder backup of
    an established session. *)
Theorem decode_accepts_authentic `{CryptoOk} r s sec buf n s' buf' :
  rx_ok r s → bytes_wf sec → len sec ≤ RECEIVER_BUFFER_SIZE → len sec ≤ len buf →
  decode_spdm_secured_message sec r (s, buf) = (Ok n, (s', buf')) →
  live s ∧
  (opens s (dir r s) sec ∨
   r = false ∧ session_state s = SpdmSessionEstablished ∧ responder_backup_valid s = true ∧
   opens s (backup_dir s) sec).
Proof. apply accepted_opens. Qed.

(** The expected nonce is not the nonce of another sequence number. *)
Lemma nonce_of_another (p : SpdmSessionSecretParam) q :
  len (data (salt p)) = 12 → in_width 64 q → in_width 64 (sequence_number p) → q ≠ sequence_number p →
  nonce p ≠ nonce (with_sequence_number q p).
Proof.
  intros Hl Hq Hw Hne Heq. unfold nonce in Heq. cbn [salt sequence_number with_sequence_number] in Heq.
  injection Heq as Heq. apply nonce_data_inj in Heq; [by subst|done..].
Qed.

(** C9: a record of another session or of another sequence number is not
    taken for the expected one.  If the session id or the bytes of the number
    that the transport carries differ, the header check alone rejects it with
    DECODE_AEAD_FAIL and no output, and the receiver expects the next number
    afterwards.  If these bytes coincide, because the transport carries none
    of them or the difference is in the others, a call that returns a message
    had the AEAD open the record under a nonce that is not the one of its
    number, or under the responder backup of an established session. *)
Theorem stale_record_rejected `{CryptoOk} r s sid q l body buf :
  let count := sequence_number_count (transport_param s) in
  let sec := aad_bytes sid count q l ++ body in
  live s → rx_ok r s → sequence_number (dir r s) ≠ U64_MAX →
  in_width 32 sid → in_width 64 q → bytes_wf body → len sec ≤ RECEIVER_BUFFER_SIZE → len sec ≤ len buf →
  sid ≠ session_id s ∨ q ≠ sequence_number (dir r s) →
  if decide (sid = session_id s ∧ q mod 2 ^ (8 * count) = sequence_number (dir r s) mod 2 ^ (8 * count))
  then ∀ n s' buf', decode_spdm_secured_message sec r (s, buf) = (Ok n, (s', buf')) →
    opens s (dir r s) sec ∧ nonce (dir r s) ≠ nonce (with_sequence_number q (dir r s)) ∨
    r = false ∧ session_state s = SpdmSessionEstablished ∧ responder_backup_valid s = true ∧ opens s (backup_dir s) sec
  else decode_spdm_secured_message sec r (s, buf)
       = (Err SPDM_STATUS_DECODE_AEAD_FAIL, (set_dir r (next (dir r s)) s, buf)).
Proof.
  intros count sec Hl Hrx Hmax Hsid Hqw Hw Hlen Hbuf Hne. destruct (Hrx Hl) as [Hr _].
  destruct (decide _) as [[-> _]|Hdiff].
  - intros n s' buf' Hd. destruct Hne as [|Hne]; [done|].
    assert (bytes_wf sec) as Hsec by (apply bytes_wf_app; split; [apply bytes_wf_aad|done]).
    destruct (accepted_opens r s sec buf n s' buf' Hrx Hsec Hlen Hbuf Hd) as [_ [Ho|Ho]]; [|by right]. left. split; [done|].
    destruct (receivable_salt _ _ Hr) as [H12 _]. destruct Hr as (_ & _ & _ & _ & Hq & _). by apply nonce_of_another.
  - apply header_mismatch; [done..|]. destruct (decide (sid = session_id s)); [right|by left]. intros Hm. by apply Hdiff.
Qed.

(** C16: an exhausted sequence number ends the session: once the direction's
    64-bit number is at its maximum, sending and receiving fail with
    SEQUENCE_NUMBER_OVERFLOW and the session is reset to its defaults. *)
Theorem sequence_exhaustion_ends_session `{CryptoOk} r s app sec buf :
  live s → aead_valid (aead_algo (crypto_param s)) → sequence_number (dir r s) = U64_MAX →
  len app + 2 ≤ SENDER_BUFFER_SIZE →
  encode_spdm_secured_message app r (s, buf)
    = (Err SPDM_STATUS_SEQUENCE_NUMBER_OVERFLOW, (Session.set_default s, buf)) ∧
  decode_spdm_secured_message sec r (s, buf)
    = (Err SPDM_STATUS_SEQUENCE_NUMBER_OVERFLOW, (Session.set_default s, buf)).
Proof.
  intros Hl Ha Hm Hlen. split.
  - rewrite encode_live by done. unfold encode_dir, encode_msg.
    destruct (aead_sizes _ Ha) as (_ & _ & _ & Ht). rewrite (bind_lift _ 16) by apply Ht. cbv beta zeta.
    rewrite (bind_lift _ _ _ _ (length_field_ok app Hlen)). by rewrite Hm, Z.eqb_refl.
  - pose proof (decode_msg_overflow s sec (dir r s) buf Ha Hm) as Hd.
    unfold decode_spdm_secured_message, decode_response_dir, decode_dir, dir in *.
    destruct Hl as [Hst|Hst]; rewrite Hst in *; [|destruct r]; by rewrite Hd.
Qed.

(** C38: (finding) AES-128-GCM sessions cannot protect a message: the key
    schedule derives keys of the maximal AEAD key size for every algorithm, and
    the default AEAD implementation refuses a key that does not have the
    algorithm's own size, so every sending call of such a session fails with
    CRYPTO_ERROR and leaves the session as it was. *)
Theorem aes128_session_cannot_send `{RingOk} psk_h psk_m r s app buf :
  live s → aead_algo (crypto_param s) = SpdmAeadAlgo.AES_128_GCM →
  SessionLaws.direction_ok (dir r s) → sequence_number (dir r s) ≠ U64_MAX →
  0 ≤ sequence_number_count (transport_param s) ≤ 8 → len app + 2 ≤ SENDER_BUFFER_SIZE →
  6 + sequence_number_count (transport_param s) + (len app + 2) + 16 ≤ len buf →
  ∃ buf', encode_spdm_secured_message (H := spdm_ring_crypto psk_h psk_m) app r (s, buf)
          = (Err SPDM_STATUS_CRYPTO_ERROR, (s, buf')).
Proof.
  intros Hl Ha (Hk & Hks & Hsw & Hss) Hm Hc Hlen Hb.
  assert (aead_valid (aead_algo (crypto_param s))) as Hv by (rewrite Ha; done).
  pose proof (spdm_ring_crypto_ok psk_h psk_m) as Hok.
  rewrite encode_live by done. unfold encode_dir. rewrite encode_msg_call; try done.
  - assert (∀ aad pt tag ct,
      aead_encrypt (SpdmCrypto := spdm_ring_crypto psk_h psk_m) (aead_algo (crypto_param s))
        (encryption_key (dir r s)) (nonce (dir r s)) aad pt tag ct
      = (Err SPDM_STATUS_CRYPTO_ERROR, (tag, ct))) as He.
    { intros. cbn [aead_encrypt spdm_ring_crypto]. unfold SpdmRing.encrypt, SpdmRing.check_sizes.
      by rewrite Ha, Hks. }
    rewrite He. run. by eexists.
  - by destruct (sens_wf_inv _ Hsw).
  - unfold header, plain. rewrite len_aad, len_app, len_le_bytes; lia.
Qed.

End SecuredLaws.

(** ** Examples *)
Module SecuredExamples.
Import Secured SecuredLaws ToyRing.

Definition param (key_size : nat) (seq : u64) : SpdmSessionSecretParam :=
  mkSecretParam (sens_of (replicate key_size 7)) (sens_of (replicate 12 9)) seq.

(** An established session whose two directions are [param]. *)
Definition session (aead : SpdmAeadAlgo) (key_size : nat) (seq : u64) : SpdmSession :=
  with_session_state SpdmSessionEstablished
    (with_session_id 0xFFFEFFFE
      (set_app_dir true (param key_size seq) (set_app_dir false (param key_size seq)
        (Session.set_transport_param 2 32
          (Session.set_crypto_param SpdmBaseHashAlgo.TPM_ALG_SHA_256 empty_flags empty_flags aead
            empty_flags Session.new))))).
Definition s256 (seq : u64) : SpdmSession := session SpdmAeadAlgo.AES_256_GCM 32 seq.

Ltac bytes_ok := apply is_byte_wf; reflexivity.
Lemma param_wf seq :
  sens_wf (encryption_key (param 32 seq)) ∧ sens_wf (salt (param 32 seq)).
Proof. split; (apply sens_of_wf; [by vm_compute|bytes_ok]). Qed.

Lemma s256_ready r : ready (s256 5) (dir r (s256 5)).
Proof.
  assert (dir r (s256 5) = param 32 5) as -> by (by destruct r).
  destruct (param_wf 5). split_and!; try done; by vm_compute.
Qed.
Lemma s256_receivable r : receivable (s256 5) (dir r (s256 5)).
Proof.
  assert (dir r (s256 5) = param 32 5) as -> by (by destruct r).
  destruct (param_wf 5). split_and!; try done; by vm_compute.
Qed.
Lemma s256_rx_ok r : rx_ok r (s256 5).
Proof. intros _. split; [apply s256_receivable|]. done. Qed.
Lemma s256_live seq : live (s256 seq).
Proof. by right. Qed.
Lemma s256_paired r : paired r (s256 5) (s256 5).
Proof. split_and!; try done; [by right|apply s256_ready..]. Qed.

Lemma transfer_delivers_witness :
  transfer (H := toy_crypto) true [[1; 2; 3]; []; [255]] (s256 5) (s256 5) = Some [[1; 2; 3]; []; [255]].
Proof.
  apply (transfer_delivers (H0 := toy_crypto_ok) true [[1; 2; 3]; []; [255]] (s256 5) (s256 5) (s256_paired true));
    [repeat (constructor; [split; [bytes_ok|by vm_compute]|]); constructor|by vm_compute].
Defined.

Lemma decode_never_panics_witness :
  let '(o, (s', buf')) := decode_spdm_secured_message (H := toy_crypto) (replicate 40 254) true
                            (s256 5, zeros 64) in
  o ≠ Panic ∧ len buf' = len (zeros 64) ∧ (∀ e, o = Err e → buf' = zeros 64) ∧ rx_ok true s'.
Proof.
  apply (decode_never_panics (H0 := toy_crypto_ok) true (s256 5) (replicate 40 254) (zeros 64)
    (s256_rx_ok true)); [bytes_ok|by vm_compute|by vm_compute].
Defined.

(** The record of [[1; 2; 3]] at sequence number 5. *)
Definition record5 : list Z :=
  Eval vm_compute in
    ztake 29 (snd (snd (encode_spdm_secured_message (H := toy_crypto) [1; 2; 3] true
                          (s256 5, zeros SENDER_BUFFER_SIZE)))).

Lemma decode_accepts_authentic_witness :
  live (s256 5) ∧
  (opens (H := toy_crypto) (s256 5) (dir true (s256 5)) record5 ∨
   true = false ∧ session_state (s256 5) = SpdmSessionEstablished ∧
   responder_backup_valid (s256 5) = true ∧ opens (H := toy_crypto) (s256 5) (backup_dir (s256 5)) record5).
Proof.
  apply (decode_accepts_authentic (H0 := toy_crypto_ok) true (s256 5) record5 (zeros 64) 3
    (set_dir true (next (dir true (s256 5))) (s256 5)) (splice (zeros 64) 0 [1; 2; 3])
    (s256_rx_ok true)); [bytes_ok|by vm_compute|by vm_compute|vm_compute; reflexivity].
Defined.

Lemma stale_record_rejected_witness :
  decode_spdm_secured_message (H := toy_crypto) (aad_bytes 0xFFFEFFFE 2 4 21 ++ replicate 21 0) true
    (s256 5, zeros 64)
  = (Err SPDM_STATUS_DECODE_AEAD_FAIL, (set_dir true (next (dir true (s256 5))) (s256 5), zeros 64)) ∧
  ∀ n s' buf', decode_spdm_secured_message (H := toy_crypto) (aad_bytes 0xFFFEFFFE 2 65541 21 ++ replicate 21 0) true
    (s256 5, zeros 64) = (Ok n, (s', buf')) →
    opens (H := toy_crypto) (s256 5) (dir true (s256 5)) (aad_bytes 0xFFFEFFFE 2 65541 21 ++ replicate 21 0) ∧
      nonce (dir true (s256 5)) ≠ nonce (with_sequence_number 65541 (dir true (s256 5))) ∨
    true = false ∧ session_state (s256 5) = SpdmSessionEstablished ∧ responder_backup_valid (s256 5) = true ∧
      opens (H := toy_crypto) (s256 5) (backup_dir (s256 5)) (aad_bytes 0xFFFEFFFE 2 65541 21 ++ replicate 21 0).
Proof.
  split.
  - apply (stale_record_rejected (H0 := toy_crypto_ok) true (s256 5) 0xFFFEFFFE 4 21 (replicate 21 0) (zeros 64)
      (s256_live 5) (s256_rx_ok true)); [by vm_compute|by vm_compute|by vm_compute|bytes_ok|by vm_compute|by vm_compute|by right].
  - apply (stale_record_rejected (H0 := toy_crypto_ok) true (s256 5) 0xFFFEFFFE 65541 21 (replicate 21 0) (zeros 64)
      (s256_live 5) (s256_rx_ok true)); [by vm_compute|by vm_compute|by vm_compute|bytes_ok|by vm_compute|by vm_compute|by right].
Defined.

Lemma sequence_exhaustion_witness :
  let s := s256 U64_MAX in
  encode_spdm_secured_message (H := toy_crypto) [1] true (s, [])
    = (Err SPDM_STATUS_SEQUENCE_NUMBER_OVERFLOW, (Session.set_default s, [])) ∧
  decode_spdm_secured_message (H := toy_crypto) [2] true (s, [])
    = (Err SPDM_STATUS_SEQUENCE_NUMBER_OVERFLOW, (Session.set_default s, [])).
Proof.
  apply (sequence_exhaustion_ends_session (H0 := toy_crypto_ok) true (s256 U64_MAX) [1] [2] []
    (s256_live _)); [done|reflexivity|by vm_compute].
Defined.

(** A session after one more record in the request direction. *)
Definition after (s : SpdmSession) : SpdmSession := set_dir true (next (dir true s)) s.
Definition sent (s : SpdmSession) (app : list Z) : list Z :=
  snd (snd (encode_spdm_secured_message (H := toy_crypto) app true (s, zeros 40))).

Lemma nonces_unique_witness :
  NoDup [(encryption_key (param 32 5), nonce (param 32 5)); (encryption_key (param 32 5), nonce (param 32 6))].
Proof.
  apply (nonces_unique (H := toy_crypto) true (s256 5) _ (after (after (s256 5))));
    [|by vm_compute|reflexivity].
  apply (sends_ok true (s256 5) [1] (zeros 40) 27 (after (s256 5)) (sent (s256 5) [1]));
    [vm_compute; reflexivity|vm_compute; reflexivity|].
  apply (sends_ok true (after (s256 5)) [2] (zeros 40) 27 (after (after (s256 5))) (sent (after (s256 5)) [2]));
    [vm_compute; reflexivity|vm_compute; reflexivity|].
  apply sends_nil.
Defined.

(** A session as the key schedule leaves it with AES-128-GCM. *)
Lemma aes128_session_cannot_send_witness :
  ∃ buf', encode_spdm_secured_message (H := toy_crypto) [1] true
            (session SpdmAeadAlgo.AES_128_GCM 32 0, zeros 64)
          = (Err SPDM_STATUS_CRYPTO_ERROR, (session SpdmAeadAlgo.AES_128_GCM 32 0, buf')).
Proof.
  apply (aes128_session_cannot_send toy_psk toy_psk true (session SpdmAeadAlgo.AES_128_GCM 32 0) [1] (zeros 64));
    [by right|reflexivity| |by vm_compute|by vm_compute|by vm_compute|by vm_compute].
  destruct (param_wf 0). by split_and!.
Defined.

End SecuredExamples.
