(* ===== verification/Header.v ===== *)
(** * Message header

    Models the beginning of src/spdmlib/src/message/mod.rs: the request and
    response codes and the header every message starts with. *)

From S2P Require Import Prelude Codec Status Version.

Inductive SpdmRequestResponseCode :=
| SpdmResponseDigests | SpdmResponseCertificate | SpdmResponseChallengeAuth | SpdmResponseVersion
| SpdmResponseMeasurements | SpdmResponseCapabilities | SpdmResponseAlgorithms
| SpdmResponseVendorDefinedResponse | SpdmResponseError | SpdmResponseKeyExchangeRsp
| SpdmResponseFinishRsp | SpdmResponsePskExchangeRsp | SpdmResponsePskFinishRsp
| SpdmResponseHeartbeatAck | SpdmResponseKeyUpdateAck | SpdmResponseEncapsulatedRequest
| SpdmResponseEncapsulatedResponseAck | SpdmResponseEndSessionAck | SpdmResponseChunkSendAck
| SpdmResponseChunkResponse | SpdmRequestGetDigests | SpdmRequestGetCertificate
| SpdmRequestChallenge | SpdmRequestGetVersion | SpdmRequestGetMeasurements
| SpdmRequestGetCapabilities | SpdmRequestNegotiateAlgorithms | SpdmRequestVendorDefinedRequest
| SpdmRequestResponseIfReady | SpdmRequestKeyExchange | SpdmRequestFinish
| SpdmRequestPskExchange | SpdmRequestPskFinish | SpdmRequestHeartbeat | SpdmRequestKeyUpdate
| SpdmRequestGetEncapsulatedRequest | SpdmRequestDeliverEncapsulatedResponse
| SpdmRequestEndSession | SpdmRequestChunkSend | SpdmRequestChunkGet
| CodeUnknown (x : u8).
#[export] Instance SpdmRequestResponseCode_eq_dec : EqDecision SpdmRequestResponseCode.
Proof. solve_decision. Defined.
#[export] Instance enum_SpdmRequestResponseCode : EnumBuilder SpdmRequestResponseCode :=
  {| get_int c :=
       match c with
       | SpdmResponseDigests => 0x01 | SpdmResponseCertificate => 0x02
       | SpdmResponseChallengeAuth => 0x03 | SpdmResponseVersion => 0x04
       | SpdmResponseMeasurements => 0x60 | SpdmResponseCapabilities => 0x61
       | SpdmResponseAlgorithms => 0x63 | SpdmResponseVendorDefinedResponse => 0x7E
       | SpdmResponseError => 0x7F | SpdmResponseKeyExchangeRsp => 0x64
       | SpdmResponseFinishRsp => 0x65 | SpdmResponsePskExchangeRsp => 0x66
       | SpdmResponsePskFinishRsp => 0x67 | SpdmResponseHeartbeatAck => 0x68
       | SpdmResponseKeyUpdateAck => 0x69 | SpdmResponseEncapsulatedRequest => 0x6A
       | SpdmResponseEncapsulatedResponseAck => 0x6B | SpdmResponseEndSessionAck => 0x6C
       | SpdmResponseChunkSendAck => 0x05 | SpdmResponseChunkResponse => 0x06
       | SpdmRequestGetDigests => 0x81 | SpdmRequestGetCertificate => 0x82
       | SpdmRequestChallenge => 0x83 | SpdmRequestGetVersion => 0x84
       | SpdmRequestGetMeasurements => 0xE0 | SpdmRequestGetCapabilities => 0xE1
       | SpdmRequestNegotiateAlgorithms => 0xE3 | SpdmRequestVendorDefinedRequest => 0xFE
       | SpdmRequestResponseIfReady => 0xFF | SpdmRequestKeyExchange => 0xE4
       | SpdmRequestFinish => 0xE5 | SpdmRequestPskExchange => 0xE6
       | SpdmRequestPskFinish => 0xE7 | SpdmRequestHeartbeat => 0xE8
       | SpdmRequestKeyUpdate => 0xE9 | SpdmRequestGetEncapsulatedRequest => 0xEA
       | SpdmRequestDeliverEncapsulatedResponse => 0xEB | SpdmRequestEndSession => 0xEC
       | SpdmRequestChunkSend => 0x85 | SpdmRequestChunkGet => 0x86
       | CodeUnknown x => x
       end;
     of_int x :=
       if x =? 0x01 then SpdmResponseDigests else if x =? 0x02 then SpdmResponseCertificate else
       if x =? 0x03 then SpdmResponseChallengeAuth else
       if x =? 0x04 then SpdmResponseVersion else if x =? 0x60 then SpdmResponseMeasurements else
       if x =? 0x61 then SpdmResponseCapabilities else
       if x =? 0x63 then SpdmResponseAlgorithms else
       if x =? 0x7E then SpdmResponseVendorDefinedResponse else
       if x =? 0x7F then SpdmResponseError else if x =? 0x64 then SpdmResponseKeyExchangeRsp else
       if x =? 0x65 then SpdmResponseFinishRsp else
       if x =? 0x66 then SpdmResponsePskExchangeRsp else
       if x =? 0x67 then SpdmResponsePskFinishRsp else
       if x =? 0x68 then SpdmResponseHeartbeatAck else
       if x =? 0x69 then SpdmResponseKeyUpdateAck else
       if x =? 0x6A then SpdmResponseEncapsulatedRequest else
       if x =? 0x6B then SpdmResponseEncapsulatedResponseAck else
       if x =? 0x6C then SpdmResponseEndSessionAck else
       if x =? 0x05 then SpdmResponseChunkSendAck else
       if x =? 0x06 then SpdmResponseChunkResponse else
       if x =? 0x81 then SpdmRequestGetDigests else
       if x =? 0x82 then SpdmRequestGetCertificate else
       if x =? 0x83 then SpdmRequestChallenge else if x =? 0x84 then SpdmRequestGetVersion else
       if x =? 0xE0 then SpdmRequestGetMeasurements else
       if x =? 0xE1 then SpdmRequestGetCapabilities else
       if x =? 0xE3 then SpdmRequestNegotiateAlgorithms else
       if x =? 0xFE then SpdmRequestVendorDefinedRequest else
       if x =? 0xFF then SpdmRequestResponseIfReady else
       if x =? 0xE4 then SpdmRequestKeyExchange else if x =? 0xE5 then SpdmRequestFinish else
       if x =? 0xE6 then SpdmRequestPskExchange else if x =? 0xE7 then SpdmRequestPskFinish else
       if x =? 0xE8 then SpdmRequestHeartbeat else if x =? 0xE9 then SpdmRequestKeyUpdate else
       if x =? 0xEA then SpdmRequestGetEncapsulatedRequest else
       if x =? 0xEB then SpdmRequestDeliverEncapsulatedResponse else
       if x =? 0xEC then SpdmRequestEndSession else if x =? 0x85 then SpdmRequestChunkSend else
       if x =? 0x86 then SpdmRequestChunkGet else
       CodeUnknown x |}.
#[export] Instance codec_SpdmRequestResponseCode : Codec SpdmRequestResponseCode := enum_u8.

Record SpdmMessageHeader := mkMessageHeader {
  version : SpdmVersion;
  request_response_code : SpdmRequestResponseCode;
}.
#[export] Instance codec_SpdmMessageHeader : Codec SpdmMessageHeader :=
  {| encode h :=
       let* s0 := encode (version h) in
       let* s1 := encode (request_response_code h) in
       ret (s0 + s1);
     read :=
       let* x0 := read in
       let* x1 := read in
       ret (mkMessageHeader x0 x1) |}.

Record SpdmMessageGeneralPayload := mkGeneralPayload { param1 : u8; param2 : u8 }.
#[export] Instance codec_SpdmMessageGeneralPayload : Codec SpdmMessageGeneralPayload :=
  {| encode p :=
       let* s0 := encode (param1 p) in
       let* s1 := encode (param2 p) in
       ret (s0 + s1);
     read :=
       let* x0 := read in
       let* x1 := read in
       ret (mkGeneralPayload x0 x1) |}.

(** ** Codec contracts *)
#[export] Instance enum_ok_SpdmRequestResponseCode : EnumOk SpdmRequestResponseCode 8.
Proof. solve_enum. Qed.
#[export] Instance codec_ok_SpdmRequestResponseCode : CodecOk SpdmRequestResponseCode := enum_u8_ok.
#[export] Program Instance codec_ok_SpdmMessageHeader : CodecOk SpdmMessageHeader :=
  {| wf p := wf (version p) ∧ wf (request_response_code p);
     bytes p := bytes (version p) ++ bytes (request_response_code p) |}.
Next Obligation. intros p (?&?). rewrite !bytes_wf_app. split_and!; by apply bytes_ok. Qed.
Next Obligation.
  intros p (?&?). unfold encode at 1, codec_SpdmMessageHeader. solve_writes.
Qed.
Next Obligation.
  intros p (?&?). unfold read at 1, codec_SpdmMessageHeader. decode_fields.
  by destruct p.
Qed.
Next Obligation.
  unfold read at 1, codec_SpdmMessageHeader. solve_reads. cbn -[wf]. by split_and!.
Qed.
#[export] Program Instance codec_ok_SpdmMessageGeneralPayload : CodecOk SpdmMessageGeneralPayload :=
  {| wf p := wf (param1 p) ∧ wf (param2 p);
     bytes p := bytes (param1 p) ++ bytes (param2 p) |}.
Next Obligation. intros p (?&?). rewrite !bytes_wf_app. split_and!; by apply bytes_ok. Qed.
Next Obligation.
  intros p (?&?). unfold encode at 1, codec_SpdmMessageGeneralPayload. solve_writes.
Qed.
Next Obligation.
  intros p (?&?). unfold read at 1, codec_SpdmMessageGeneralPayload. decode_fields.
  by destruct p.
Qed.
Next Obligation.
  unfold read at 1, codec_SpdmMessageGeneralPayload. solve_reads. cbn -[wf]. by split_and!.
Qed.
