(* ===== verification/ContextData.v ===== *)
(** * State of a connection

    Models the data of src/spdmlib/src/common/mod.rs a connection consists of:
    the connection state, the negotiated parameters, the runtime, provisioned
    and peer information, and [SpdmContext] itself.  [device_io] and
    [transport_encap] of the context are the interface of Transport.v;
    [app_context_data_buffer] belongs to the application.  Proved: the codec
    contract of the negotiated parameters and of the enumerations. *)

From S2P Require Import Prelude Codec Status Bitflags Algo DataTypes Version.
From S2P Require Import Crypto HashCtx ManagedBuffer CertChain Session.

Definition MAX_ROOT_CERT_SUPPORT : usize := 10.
Definition MAX_SPDM_SESSION_COUNT : usize := 4.
Definition MAX_SECURE_SPDM_VERSION_COUNT : usize := 3.
Definition SPDM_PUB_KEY_SLOT_ID_KEY_EXCHANGE : u8 := 0xFF.
Definition SPDM_PUB_KEY_SLOT_ID_KEY_EXCHANGE_RSP : u8 := 0xF.

(** ** Enumerations *)
Inductive SpdmConnectionState :=
| SpdmConnectionNotStarted | SpdmConnectionAfterVersion | SpdmConnectionAfterCapabilities
| SpdmConnectionNegotiated | SpdmConnectionAfterDigest | SpdmConnectionAfterCertificate
| SpdmConnectionAuthenticated | ConnectionStateUnknown (x : u8).
#[export] Instance SpdmConnectionState_eq_dec : EqDecision SpdmConnectionState.
Proof. solve_decision. Defined.
#[export] Instance enum_SpdmConnectionState : EnumBuilder SpdmConnectionState :=
  {| get_int v :=
       match v with
       | SpdmConnectionNotStarted => 0x0 | SpdmConnectionAfterVersion => 0x1
       | SpdmConnectionAfterCapabilities => 0x2 | SpdmConnectionNegotiated => 0x3
       | SpdmConnectionAfterDigest => 0x4 | SpdmConnectionAfterCertificate => 0x5
       | SpdmConnectionAuthenticated => 0x6 | ConnectionStateUnknown x => x
       end;
     of_int x :=
       if x =? 0x0 then SpdmConnectionNotStarted else if x =? 0x1 then SpdmConnectionAfterVersion
       else if x =? 0x2 then SpdmConnectionAfterCapabilities
       else if x =? 0x3 then SpdmConnectionNegotiated else if x =? 0x4 then SpdmConnectionAfterDigest
       else if x =? 0x5 then SpdmConnectionAfterCertificate
       else if x =? 0x6 then SpdmConnectionAuthenticated else ConnectionStateUnknown x |}.
#[export] Instance codec_SpdmConnectionState : Codec SpdmConnectionState := enum_u8.

Inductive SpdmCertificateModelType :=
| SpdmCertModelTypeNone | SpdmCertModelTypeDeviceCert | SpdmCertModelTypeAliasCert
| SpdmCertModelTypeGenericCert | CertModelTypeUnknown (x : u8).
#[export] Instance enum_SpdmCertificateModelType : EnumBuilder SpdmCertificateModelType :=
  {| get_int v :=
       match v with
       | SpdmCertModelTypeNone => 0x0 | SpdmCertModelTypeDeviceCert => 0x1
       | SpdmCertModelTypeAliasCert => 0x2 | SpdmCertModelTypeGenericCert => 0x3
       | CertModelTypeUnknown x => x
       end;
     of_int x :=
       if x =? 0x0 then SpdmCertModelTypeNone else if x =? 0x1 then SpdmCertModelTypeDeviceCert
       else if x =? 0x2 then SpdmCertModelTypeAliasCert
       else if x =? 0x3 then SpdmCertModelTypeGenericCert else CertModelTypeUnknown x |}.
#[export] Instance codec_SpdmCertificateModelType : Codec SpdmCertificateModelType := enum_u8.

Inductive SpdmMeasurementContentChanged := NotSupported | DetectedChange | NoChange.
Definition content_changed_u8 (c : SpdmMeasurementContentChanged) : u8 :=
  match c with NotSupported => 0x0 | DetectedChange => 0x10 | NoChange => 0x20 end.
Definition content_changed_try_from (x : u8) : option SpdmMeasurementContentChanged :=
  if x =? 0x0 then Some NotSupported
  else if x =? 0x10 then Some DetectedChange
  else if x =? 0x20 then Some NoChange
  else None.
#[export] Instance codec_SpdmMeasurementContentChanged : Codec SpdmMeasurementContentChanged :=
  {| encode c := encode (content_changed_u8 c);
     read := let* value := read (A:=u8) in lift (ok_or (content_changed_try_from value) tt) |}.

(** [(b as u8).encode(writer)] and [u8::read(reader)? != 0]. *)
#[export] Instance codec_bool : Codec bool :=
  {| encode b := encode (Z.b2z b : u8);
     read := let* x := read (A:=u8) in ret (negb (x =? 0)) |}.

(** ** Negotiated parameters *)
Record SpdmNegotiateInfo := mkNegotiateInfo {
  spdm_version_sel : SpdmVersion;
  req_capabilities_sel : SpdmRequestCapabilityFlags;
  rsp_capabilities_sel : SpdmResponseCapabilityFlags;
  req_ct_exponent_sel : u8;
  rsp_ct_exponent_sel : u8;
  measurement_specification_sel : SpdmMeasurementSpecification;
  measurement_hash_sel : SpdmMeasurementHashAlgo;
  base_hash_sel : SpdmBaseHashAlgo;
  base_asym_sel : SpdmBaseAsymAlgo;
  dhe_sel : SpdmDheAlgo;
  aead_sel : SpdmAeadAlgo;
  req_asym_sel : SpdmReqAsymAlgo;
  key_schedule_sel : SpdmKeyScheduleAlgo;
  other_params_support : SpdmAlgoOtherParams;
  termination_policy_set : bool;
  req_data_transfer_size_sel : u32;
  req_max_spdm_msg_size_sel : u32;
  rsp_data_transfer_size_sel : u32;
  rsp_max_spdm_msg_size_sel : u32;
  mel_specification_sel : SpdmMelSpecification;
  multi_key_conn_req : bool;
  multi_key_conn_rsp : bool;
  pqc_asym_sel : SpdmPqcAsymAlgo;
  pqc_req_asym_sel : SpdmPqcReqAsymAlgo;
  kem_sel : SpdmKemAlgo;
}.
#[export] Instance eta_SpdmNegotiateInfo : Eta SpdmNegotiateInfo := λ s,
  mkNegotiateInfo (spdm_version_sel s) (req_capabilities_sel s) (rsp_capabilities_sel s)
    (req_ct_exponent_sel s) (rsp_ct_exponent_sel s) (measurement_specification_sel s)
    (measurement_hash_sel s) (base_hash_sel s) (base_asym_sel s) (dhe_sel s) (aead_sel s)
    (req_asym_sel s) (key_schedule_sel s) (other_params_support s) (termination_policy_set s)
    (req_data_transfer_size_sel s) (req_max_spdm_msg_size_sel s) (rsp_data_transfer_size_sel s)
    (rsp_max_spdm_msg_size_sel s) (mel_specification_sel s) (multi_key_conn_req s)
    (multi_key_conn_rsp s) (pqc_asym_sel s) (pqc_req_asym_sel s) (kem_sel s).
Definition with_spdm_version_sel (v : SpdmVersion) (s : SpdmNegotiateInfo) : SpdmNegotiateInfo :=
  ltac:(set_field spdm_version_sel v s).
Definition with_req_capabilities_sel (v : SpdmRequestCapabilityFlags)
    (s : SpdmNegotiateInfo) : SpdmNegotiateInfo :=
  ltac:(set_field req_capabilities_sel v s).
Definition with_rsp_capabilities_sel (v : SpdmResponseCapabilityFlags)
    (s : SpdmNegotiateInfo) : SpdmNegotiateInfo :=
  ltac:(set_field rsp_capabilities_sel v s).
Definition with_req_ct_exponent_sel (v : u8) (s : SpdmNegotiateInfo) : SpdmNegotiateInfo :=
  ltac:(set_field req_ct_exponent_sel v s).
Definition with_rsp_ct_exponent_sel (v : u8) (s : SpdmNegotiateInfo) : SpdmNegotiateInfo :=
  ltac:(set_field rsp_ct_exponent_sel v s).
Definition with_measurement_specification_sel (v : SpdmMeasurementSpecification)
    (s : SpdmNegotiateInfo) : SpdmNegotiateInfo :=
  ltac:(set_field measurement_specification_sel v s).
Definition with_measurement_hash_sel (v : SpdmMeasurementHashAlgo)
    (s : SpdmNegotiateInfo) : SpdmNegotiateInfo :=
  ltac:(set_field measurement_hash_sel v s).
Definition with_base_hash_sel (v : SpdmBaseHashAlgo) (s : SpdmNegotiateInfo) : SpdmNegotiateInfo :=
  ltac:(set_field base_hash_sel v s).
Definition with_base_asym_sel (v : SpdmBaseAsymAlgo) (s : SpdmNegotiateInfo) : SpdmNegotiateInfo :=
  ltac:(set_field base_asym_sel v s).
Definition with_dhe_sel (v : SpdmDheAlgo) (s : SpdmNegotiateInfo) : SpdmNegotiateInfo :=
  ltac:(set_field dhe_sel v s).
Definition with_aead_sel (v : SpdmAeadAlgo) (s : SpdmNegotiateInfo) : SpdmNegotiateInfo :=
  ltac:(set_field aead_sel v s).
Definition with_req_asym_sel (v : SpdmReqAsymAlgo) (s : SpdmNegotiateInfo) : SpdmNegotiateInfo :=
  ltac:(set_field req_asym_sel v s).
Definition with_key_schedule_sel (v : SpdmKeyScheduleAlgo)
    (s : SpdmNegotiateInfo) : SpdmNegotiateInfo :=
  ltac:(set_field key_schedule_sel v s).
Definition with_other_params_support (v : SpdmAlgoOtherParams)
    (s : SpdmNegotiateInfo) : SpdmNegotiateInfo :=
  ltac:(set_field other_params_support v s).
Definition with_termination_policy_set (v : bool) (s : SpdmNegotiateInfo) : SpdmNegotiateInfo :=
  ltac:(set_field termination_policy_set v s).
Definition with_req_data_transfer_size_sel (v : u32) (s : SpdmNegotiateInfo) : SpdmNegotiateInfo :=
  ltac:(set_field req_data_transfer_size_sel v s).
Definition with_req_max_spdm_msg_size_sel (v : u32) (s : SpdmNegotiateInfo) : SpdmNegotiateInfo :=
  ltac:(set_field req_max_spdm_msg_size_sel v s).
Definition with_rsp_data_transfer_size_sel (v : u32) (s : SpdmNegotiateInfo) : SpdmNegotiateInfo :=
  ltac:(set_field rsp_data_transfer_size_sel v s).
Definition with_rsp_max_spdm_msg_size_sel (v : u32) (s : SpdmNegotiateInfo) : SpdmNegotiateInfo :=
  ltac:(set_field rsp_max_spdm_msg_size_sel v s).
Definition with_mel_specification_sel (v : SpdmMelSpecification)
    (s : SpdmNegotiateInfo) : SpdmNegotiateInfo :=
  ltac:(set_field mel_specification_sel v s).
Definition with_multi_key_conn_req (v : bool) (s : SpdmNegotiateInfo) : SpdmNegotiateInfo :=
  ltac:(set_field multi_key_conn_req v s).
Definition with_multi_key_conn_rsp (v : bool) (s : SpdmNegotiateInfo) : SpdmNegotiateInfo :=
  ltac:(set_field multi_key_conn_rsp v s).
Definition with_pqc_asym_sel (v : SpdmPqcAsymAlgo) (s : SpdmNegotiateInfo) : SpdmNegotiateInfo :=
  ltac:(set_field pqc_asym_sel v s).
Definition with_pqc_req_asym_sel (v : SpdmPqcReqAsymAlgo)
    (s : SpdmNegotiateInfo) : SpdmNegotiateInfo :=
  ltac:(set_field pqc_req_asym_sel v s).
Definition with_kem_sel (v : SpdmKemAlgo) (s : SpdmNegotiateInfo) : SpdmNegotiateInfo :=
  ltac:(set_field kem_sel v s).
Definition SpdmNegotiateInfo_default : SpdmNegotiateInfo :=
  mkNegotiateInfo SpdmVersion_default empty_flags empty_flags 0 0 empty_flags empty_flags
  empty_flags empty_flags empty_flags empty_flags empty_flags empty_flags empty_flags false 0 0 0
  0 empty_flags false false empty_flags empty_flags empty_flags.
#[export] Instance codec_SpdmNegotiateInfo : Codec SpdmNegotiateInfo :=
  {| encode v :=
       let* s0 := encode (spdm_version_sel v) in
       let* s1 := encode (req_capabilities_sel v) in
       let* s2 := encode (rsp_capabilities_sel v) in
       let* s3 := encode (req_ct_exponent_sel v) in
       let* s4 := encode (rsp_ct_exponent_sel v) in
       let* s5 := encode (measurement_specification_sel v) in
       let* s6 := encode (measurement_hash_sel v) in
       let* s7 := encode (base_hash_sel v) in
       let* s8 := encode (base_asym_sel v) in
       let* s9 := encode (dhe_sel v) in
       let* s10 := encode (aead_sel v) in
       let* s11 := encode (req_asym_sel v) in
       let* s12 := encode (key_schedule_sel v) in
       let* s13 := encode (other_params_support v) in
       let* s14 := encode (termination_policy_set v) in
       let* s15 := encode (req_data_transfer_size_sel v) in
       let* s16 := encode (req_max_spdm_msg_size_sel v) in
       let* s17 := encode (rsp_data_transfer_size_sel v) in
       let* s18 := encode (rsp_max_spdm_msg_size_sel v) in
       let* s19 := encode (mel_specification_sel v) in
       let* s20 := encode (multi_key_conn_req v) in
       let* s21 := encode (multi_key_conn_rsp v) in
       let* s22 := encode (pqc_asym_sel v) in
       let* s23 := encode (pqc_req_asym_sel v) in
       let* s24 := encode (kem_sel v) in
       ret (s0 + s1 + s2 + s3 + s4 + s5 + s6 + s7 + s8 + s9 + s10 + s11 + s12 + s13 + s14 + s15 +
       s16 + s17 + s18 + s19 + s20 + s21 + s22 + s23 + s24);
     read :=
       let* x0 := read in
       let* x1 := read in
       let* x2 := read in
       let* x3 := read in
       let* x4 := read in
       let* x5 := read in
       let* x6 := read in
       let* x7 := read in
       let* x8 := read in
       let* x9 := read in
       let* x10 := read in
       let* x11 := read in
       let* x12 := read in
       let* x13 := read in
       let* x14 := read in
       let* x15 := read in
       let* x16 := read in
       let* x17 := read in
       let* x18 := read in
       let* x19 := read in
       let* x20 := read in
       let* x21 := read in
       let* x22 := read in
       let* x23 := read in
       let* x24 := read in
       ret (mkNegotiateInfo x0 x1 x2 x3 x4 x5 x6 x7 x8 x9 x10 x11 x12 x13 x14 x15 x16 x17 x18 x19
       x20 x21 x22 x23 x24) |}.

(** ** Configuration *)
Record SpdmConfigInfo := mkConfigInfo {
  cfg_spdm_version : list (option SpdmVersion);
  cfg_req_capabilities : SpdmRequestCapabilityFlags;
  cfg_rsp_capabilities : SpdmResponseCapabilityFlags;
  cfg_req_ct_exponent : u8;
  cfg_rsp_ct_exponent : u8;
  cfg_measurement_specification : SpdmMeasurementSpecification;
  cfg_measurement_hash_algo : SpdmMeasurementHashAlgo;
  cfg_base_hash_algo : SpdmBaseHashAlgo;
  cfg_base_asym_algo : SpdmBaseAsymAlgo;
  cfg_dhe_algo : SpdmDheAlgo;
  cfg_aead_algo : SpdmAeadAlgo;
  cfg_req_asym_algo : SpdmReqAsymAlgo;
  cfg_key_schedule_algo : SpdmKeyScheduleAlgo;
  cfg_other_params_support : SpdmAlgoOtherParams;
  cfg_session_policy : u8;
  cfg_runtime_content_change_support : bool;
  cfg_data_transfer_size : u32;
  cfg_max_spdm_msg_size : u32;
  cfg_heartbeat_period : u8;
  cfg_secure_spdm_version : list (option SecuredMessageVersion);
  cfg_mel_specification : SpdmMelSpecification;
  cfg_pqc_asym_algo : SpdmPqcAsymAlgo;
  cfg_pqc_req_asym_algo : SpdmPqcReqAsymAlgo;
  cfg_kem_algo : SpdmKemAlgo;
}.
Definition SpdmConfigInfo_default : SpdmConfigInfo :=
  mkConfigInfo (replicate (Z.to_nat MAX_SPDM_VERSION_COUNT) None) empty_flags empty_flags 0 0
  empty_flags empty_flags empty_flags empty_flags empty_flags empty_flags empty_flags empty_flags
  empty_flags 0 false 0 0 0 (replicate (Z.to_nat MAX_SECURE_SPDM_VERSION_COUNT) None) empty_flags
  empty_flags empty_flags empty_flags.

(** ** Runtime information

    The variant of the feature [hashed-transcript-data]. *)
Record SpdmRuntimeInfo := mkRuntimeInfo {
  connection_state : SpdmConnectionState;
  last_session_id : option u32;
  local_used_cert_chain_slot_id : u8;
  peer_used_cert_chain_slot_id : u8;
  need_measurement_summary_hash : bool;
  need_measurement_signature : bool;
  message_a : ManagedBufferA;
  digest_context_m1m2 : option SpdmHashCtx;
  digest_context_l1l2 : option SpdmHashCtx;
  content_changed : SpdmMeasurementContentChanged;
  vdm_message_transcript_before_key_exchange : option ManagedVdmBuffer;
}.
#[export] Instance eta_SpdmRuntimeInfo : Eta SpdmRuntimeInfo := λ s,
  mkRuntimeInfo (connection_state s) (last_session_id s) (local_used_cert_chain_slot_id s)
    (peer_used_cert_chain_slot_id s) (need_measurement_summary_hash s) (need_measurement_signature
    s) (message_a s) (digest_context_m1m2 s) (digest_context_l1l2 s) (content_changed s)
    (vdm_message_transcript_before_key_exchange s).
Definition with_connection_state (v : SpdmConnectionState)
    (s : SpdmRuntimeInfo) : SpdmRuntimeInfo :=
  ltac:(set_field connection_state v s).
Definition with_last_session_id (v : option u32) (s : SpdmRuntimeInfo) : SpdmRuntimeInfo :=
  ltac:(set_field last_session_id v s).
Definition with_local_used_cert_chain_slot_id (v : u8) (s : SpdmRuntimeInfo) : SpdmRuntimeInfo :=
  ltac:(set_field local_used_cert_chain_slot_id v s).
Definition with_peer_used_cert_chain_slot_id (v : u8) (s : SpdmRuntimeInfo) : SpdmRuntimeInfo :=
  ltac:(set_field peer_used_cert_chain_slot_id v s).
Definition with_need_measurement_summary_hash (v : bool) (s : SpdmRuntimeInfo) : SpdmRuntimeInfo :=
  ltac:(set_field need_measurement_summary_hash v s).
Definition with_need_measurement_signature (v : bool) (s : SpdmRuntimeInfo) : SpdmRuntimeInfo :=
  ltac:(set_field need_measurement_signature v s).
Definition with_message_a (v : ManagedBufferA) (s : SpdmRuntimeInfo) : SpdmRuntimeInfo :=
  ltac:(set_field message_a v s).
Definition with_digest_context_m1m2 (v : option SpdmHashCtx)
    (s : SpdmRuntimeInfo) : SpdmRuntimeInfo :=
  ltac:(set_field digest_context_m1m2 v s).
Definition with_digest_context_l1l2 (v : option SpdmHashCtx)
    (s : SpdmRuntimeInfo) : SpdmRuntimeInfo :=
  ltac:(set_field digest_context_l1l2 v s).
Definition with_content_changed (v : SpdmMeasurementContentChanged)
    (s : SpdmRuntimeInfo) : SpdmRuntimeInfo :=
  ltac:(set_field content_changed v s).
Definition with_vdm_message_transcript_before_key_exchange (v : option ManagedVdmBuffer)
    (s : SpdmRuntimeInfo) : SpdmRuntimeInfo :=
  ltac:(set_field vdm_message_transcript_before_key_exchange v s).
Definition SpdmRuntimeInfo_default : SpdmRuntimeInfo :=
  mkRuntimeInfo SpdmConnectionNotStarted None 0 0 false false mb_default None None NotSupported None.

(** ** Provisioned and peer information

    Arrays are lists of the length of the array. *)
Record SpdmProvisionInfo := mkProvisionInfo {
  my_cert_chain_data : list (option SpdmCertChainData);
  my_cert_chain : list (option SpdmCertChainBuffer);
  peer_root_cert_data : list (option SpdmCertChainData);
  my_pub_key : option SpdmCertChainData;
  peer_pub_key : option SpdmCertChainData;
  local_supported_slot_mask : u8;
  local_key_pair_id : list (option u8);
  local_cert_info : list (option SpdmCertificateModelType);
  local_key_usage_bit_mask : list (option SpdmKeyUsageMask);
}.
Record SpdmPeerInfo := mkPeerInfo {
  peer_cert_chain : list (option SpdmCertChainBuffer);
  peer_cert_chain_temp : option SpdmCertChainBuffer;
  peer_supported_slot_mask : u8;
  peer_provisioned_slot_mask : u8;
  peer_key_pair_id : list (option u8);
  peer_cert_info : list (option SpdmCertificateModelType);
  peer_key_usage_bit_mask : list (option SpdmKeyUsageMask);
}.
Definition slots {A} : list (option A) := replicate (Z.to_nat SPDM_MAX_SLOT_NUMBER) None.
Definition SpdmProvisionInfo_default : SpdmProvisionInfo :=
  mkProvisionInfo slots slots (replicate (Z.to_nat MAX_ROOT_CERT_SUPPORT) None) None None 0xff
    slots slots slots.
Definition SpdmPeerInfo_default : SpdmPeerInfo :=
  mkPeerInfo slots None 0 0 slots slots slots.

(** ** The context *)
Record SpdmContext := mkContext {
  config_info : SpdmConfigInfo;
  negotiate_info : SpdmNegotiateInfo;
  runtime_info : SpdmRuntimeInfo;
  provision_info : SpdmProvisionInfo;
  peer_info : SpdmPeerInfo;
  session : list SpdmSession;
}.
#[export] Instance eta_SpdmPeerInfo : Eta SpdmPeerInfo := λ s,
  mkPeerInfo (peer_cert_chain s) (peer_cert_chain_temp s) (peer_supported_slot_mask s)
    (peer_provisioned_slot_mask s) (peer_key_pair_id s) (peer_cert_info s)
    (peer_key_usage_bit_mask s).
Definition with_peer_cert_chain (v : list (option SpdmCertChainBuffer))
    (s : SpdmPeerInfo) : SpdmPeerInfo :=
  ltac:(set_field peer_cert_chain v s).
Definition with_peer_cert_chain_temp (v : option SpdmCertChainBuffer)
    (s : SpdmPeerInfo) : SpdmPeerInfo :=
  ltac:(set_field peer_cert_chain_temp v s).
Definition with_peer_supported_slot_mask (v : u8) (s : SpdmPeerInfo) : SpdmPeerInfo :=
  ltac:(set_field peer_supported_slot_mask v s).
Definition with_peer_provisioned_slot_mask (v : u8) (s : SpdmPeerInfo) : SpdmPeerInfo :=
  ltac:(set_field peer_provisioned_slot_mask v s).
Definition with_peer_key_pair_id (v : list (option u8)) (s : SpdmPeerInfo) : SpdmPeerInfo :=
  ltac:(set_field peer_key_pair_id v s).
Definition with_peer_cert_info (v : list (option SpdmCertificateModelType))
    (s : SpdmPeerInfo) : SpdmPeerInfo :=
  ltac:(set_field peer_cert_info v s).
Definition with_peer_key_usage_bit_mask (v : list (option SpdmKeyUsageMask))
    (s : SpdmPeerInfo) : SpdmPeerInfo :=
  ltac:(set_field peer_key_usage_bit_mask v s).
#[export] Instance eta_SpdmProvisionInfo : Eta SpdmProvisionInfo := λ s,
  mkProvisionInfo (my_cert_chain_data s) (my_cert_chain s) (peer_root_cert_data s) (my_pub_key s)
    (peer_pub_key s) (local_supported_slot_mask s) (local_key_pair_id s) (local_cert_info s)
    (local_key_usage_bit_mask s).
Definition with_my_cert_chain (v : list (option SpdmCertChainBuffer))
    (s : SpdmProvisionInfo) : SpdmProvisionInfo :=
  ltac:(set_field my_cert_chain v s).
#[export] Instance eta_SpdmContext : Eta SpdmContext := λ s,
  mkContext (config_info s) (negotiate_info s) (runtime_info s) (provision_info s) (peer_info s)
    (session s).
Definition with_negotiate_info (v : SpdmNegotiateInfo) (s : SpdmContext) : SpdmContext :=
  ltac:(set_field negotiate_info v s).
Definition with_runtime_info (v : SpdmRuntimeInfo) (s : SpdmContext) : SpdmContext :=
  ltac:(set_field runtime_info v s).
Definition with_provision_info (v : SpdmProvisionInfo) (s : SpdmContext) : SpdmContext :=
  ltac:(set_field provision_info v s).
Definition with_peer_info (v : SpdmPeerInfo) (s : SpdmContext) : SpdmContext :=
  ltac:(set_field peer_info v s).
Definition with_session (v : list SpdmSession) (s : SpdmContext) : SpdmContext :=
  ltac:(set_field session v s).
Definition upd_runtime (f : SpdmRuntimeInfo → SpdmRuntimeInfo) (c : SpdmContext) : SpdmContext :=
  with_runtime_info (f (runtime_info c)) c.
Definition upd_negotiate (f : SpdmNegotiateInfo → SpdmNegotiateInfo) (c : SpdmContext) : SpdmContext :=
  with_negotiate_info (f (negotiate_info c)) c.
Definition upd_peer (f : SpdmPeerInfo → SpdmPeerInfo) (c : SpdmContext) : SpdmContext :=
  with_peer_info (f (peer_info c)) c.

(** ** Codec contracts *)
#[export] Instance enum_ok_SpdmConnectionState : EnumOk SpdmConnectionState 8.
Proof. solve_enum. Qed.
#[export] Instance codec_ok_SpdmConnectionState : CodecOk SpdmConnectionState := enum_u8_ok.
#[export] Instance enum_ok_SpdmCertificateModelType : EnumOk SpdmCertificateModelType 8.
Proof. solve_enum. Qed.
#[export] Instance codec_ok_SpdmCertificateModelType : CodecOk SpdmCertificateModelType := enum_u8_ok.
#[export] Program Instance codec_ok_SpdmMeasurementContentChanged : CodecOk SpdmMeasurementContentChanged :=
  {| wf _ := True; bytes c := [content_changed_u8 c] |}.
Next Obligation. intros [] _; (apply bytes_wf_cons; split; [unfold byte; cbn; lia|constructor]). Qed.
Next Obligation. intros c _. unfold encode at 1, codec_SpdmMeasurementContentChanged. solve_writes. Qed.
Next Obligation.
  intros c _. unfold read at 1, codec_SpdmMeasurementContentChanged.
  rewrite <- (app_nil_r [_]). eapply decodes_bind; [apply decodes_u8; by destruct c|].
  apply decodes_lift. by destruct c.
Qed.
Next Obligation.
  unfold read at 1, codec_SpdmMeasurementContentChanged. eapply reads_bind; [apply reads_u8|].
  intros x _. apply reads_lift; [by destruct (content_changed_try_from x)|done].
Qed.
#[export] Program Instance codec_ok_bool : CodecOk bool := {| wf _ := True; bytes b := [Z.b2z b] |}.
Next Obligation. intros [] _; (apply bytes_wf_cons; split; [unfold byte; cbn; lia|constructor]). Qed.
Next Obligation. intros b _. unfold encode at 1, codec_bool. solve_writes. Qed.
Next Obligation.
  intros b _. unfold read at 1, codec_bool. rewrite <- (app_nil_r [_]).
  eapply decodes_bind; [apply decodes_u8; by destruct b|]. destruct b; apply decodes_ret.
Qed.
Next Obligation.
  unfold read at 1, codec_bool. eapply reads_bind; [apply reads_u8|]. intros x _. by apply reads_ret.
Qed.

#[export] Program Instance codec_ok_SpdmNegotiateInfo : CodecOk SpdmNegotiateInfo :=
  {| wf p := wf (spdm_version_sel p) ∧ wf (req_capabilities_sel p) ∧ wf (rsp_capabilities_sel p) ∧
  wf (req_ct_exponent_sel p) ∧ wf (rsp_ct_exponent_sel p) ∧ wf (measurement_specification_sel p) ∧
  wf (measurement_hash_sel p) ∧ wf (base_hash_sel p) ∧ wf (base_asym_sel p) ∧ wf (dhe_sel p) ∧ wf
  (aead_sel p) ∧ wf (req_asym_sel p) ∧ wf (key_schedule_sel p) ∧ wf (other_params_support p) ∧ wf
  (termination_policy_set p) ∧ wf (req_data_transfer_size_sel p) ∧ wf (req_max_spdm_msg_size_sel
  p) ∧ wf (rsp_data_transfer_size_sel p) ∧ wf (rsp_max_spdm_msg_size_sel p) ∧ wf
  (mel_specification_sel p) ∧ wf (multi_key_conn_req p) ∧ wf (multi_key_conn_rsp p) ∧ wf
  (pqc_asym_sel p) ∧ wf (pqc_req_asym_sel p) ∧ wf (kem_sel p);
     bytes p := bytes (spdm_version_sel p) ++ bytes (req_capabilities_sel p) ++ bytes
     (rsp_capabilities_sel p) ++ bytes (req_ct_exponent_sel p) ++ bytes (rsp_ct_exponent_sel p) ++
     bytes (measurement_specification_sel p) ++ bytes (measurement_hash_sel p) ++ bytes
     (base_hash_sel p) ++ bytes (base_asym_sel p) ++ bytes (dhe_sel p) ++ bytes (aead_sel p) ++
     bytes (req_asym_sel p) ++ bytes (key_schedule_sel p) ++ bytes (other_params_support p) ++
     bytes (termination_policy_set p) ++ bytes (req_data_transfer_size_sel p) ++ bytes
     (req_max_spdm_msg_size_sel p) ++ bytes (rsp_data_transfer_size_sel p) ++ bytes
     (rsp_max_spdm_msg_size_sel p) ++ bytes (mel_specification_sel p) ++ bytes (multi_key_conn_req
     p) ++ bytes (multi_key_conn_rsp p) ++ bytes (pqc_asym_sel p) ++ bytes (pqc_req_asym_sel p) ++
     bytes (kem_sel p) |}.
Next Obligation. intros p (?&?&?&?&?&?&?&?&?&?&?&?&?&?&?&?&?&?&?&?&?&?&?&?&?). rewrite !bytes_wf_app. split_and!; by apply bytes_ok. Qed.
Next Obligation.
  intros p (?&?&?&?&?&?&?&?&?&?&?&?&?&?&?&?&?&?&?&?&?&?&?&?&?). unfold encode at 1, codec_SpdmNegotiateInfo. solve_writes.
Qed.
Next Obligation.
  intros p (?&?&?&?&?&?&?&?&?&?&?&?&?&?&?&?&?&?&?&?&?&?&?&?&?). unfold read at 1, codec_SpdmNegotiateInfo. decode_fields.
  by destruct p.
Qed.
Next Obligation.
  unfold read at 1, codec_SpdmNegotiateInfo. solve_reads. cbn -[wf]. by split_and!.
Qed.
