(* ===== verification/Transport.v ===== *)
(** * The transport interface

    Models the trait [SpdmTransportEncap] of src/spdmlib/src/common/mod.rs,
    which the context calls to frame messages, and states what its
    implementations promise ([TransportOk]).  Mctp.v and PciDoe.v implement
    it.  The buffer that a call fills is its state; the [Arc<Mutex<..>>] around
    the buffers serialises the calls and has no other effect. *)

From S2P Require Import Prelude Codec Status.

Class SpdmTransportEncap := {
  (** [encap spdm_buffer secured_message], filling [transport_buffer] *)
  encap : list Z → bool → M (list Z) SpdmStatus usize;
  (** [decap transport_buffer], filling [spdm_buffer] *)
  decap : list Z → M (list Z) SpdmStatus (usize * bool);
  (** [encap_app spdm_buffer is_app_message], filling [app_buffer] *)
  encap_app : list Z → bool → M (list Z) SpdmStatus usize;
  (** [decap_app app_buffer], filling [spdm_buffer] *)
  decap_app : list Z → M (list Z) SpdmStatus (usize * bool);
  get_sequence_number_count : u8;
  get_max_random_count : u16;
}.

(** What a call that fills a buffer from untrusted bytes guarantees. *)
Definition fills_safely (n_in : Z) (m : M (list Z) SpdmStatus (usize * bool)) : Prop :=
  ∀ out, let '(o, out') := m out in
    o ≠ Panic ∧ len out' = len out ∧ (∀ e, o = Err e → out' = out) ∧
    (∀ n b, o = Ok (n, b) → 0 ≤ n ≤ len out ∧ n ≤ n_in) ∧ (bytes_wf out → bytes_wf out').

Class TransportOk `{SpdmTransportEncap} := {
  (** bytes in front of a message, and of an application message *)
  header_size : Z;
  app_header_size : Z;
  (** whether the framing of application messages keeps their kind *)
  app_flag : bool → bool;
  app_flag_message : app_flag false = false;
  count_ok : 0 ≤ get_sequence_number_count ≤ 8;
  header_size_ok : 0 ≤ header_size ≤ 8 ∧ 0 ≤ app_header_size ≤ 8;
  (** a framed message is recovered, with at most three bytes of padding *)
  encap_decap : ∀ spdm sec buf out,
    bytes_wf spdm → bytes_wf buf → len spdm < 2 ^ 16 →
    header_size + len spdm + 3 ≤ len buf → len spdm + 3 ≤ len out →
    ∃ n buf' tail,
      encap spdm sec buf = (Ok n, buf') ∧ bytes_wf buf' ∧ len buf' = len buf ∧ 0 ≤ n ≤ len buf ∧
      len tail ≤ 3 ∧ bytes_wf tail ∧
      decap (ztake n buf') out = (Ok (len spdm + len tail, sec), splice out 0 (spdm ++ tail));
  encap_app_decap_app : ∀ spdm app buf out,
    bytes_wf spdm → bytes_wf buf → app_header_size + len spdm ≤ len buf → len spdm ≤ len out →
    ∃ n buf',
      encap_app spdm app buf = (Ok n, buf') ∧ bytes_wf buf' ∧ len buf' = len buf ∧
      n = app_header_size + len spdm ∧
      decap_app (ztake n buf') out = (Ok (len spdm, app_flag app), splice out 0 spdm);
  (** bytes from the wire cannot make it panic *)
  decap_safe : ∀ t, bytes_wf t → fills_safely (len t) (decap t);
  decap_app_safe : ∀ t out, bytes_wf t → len t ≤ len out →
    let '(o, out') := decap_app t out in
    o ≠ Panic ∧ len out' = len out ∧ (∀ n b, o = Ok (n, b) → 0 ≤ n ≤ len t);
}.

(** ** Shared steps of the implementations *)

(** Writes a header and reports its size; the buffer is the state. *)
Definition write_header {A} `{Codec A} (h : A) (err : SpdmStatus) : M (list Z) SpdmStatus usize :=
  λ buf, let '(o, w) := encode h (Writer.init buf) in
         (map_err (λ _, err) (let! _ := o in Ok (Writer.used w)), w_buf w).

Lemma write_header_ok {A} `{Codec A} (h : A) bs err buf :
  encodes EncodeErr_ (encode h) bs → len bs ≤ len buf →
  write_header h err buf = (Ok (len bs), splice buf 0 bs).
Proof.
  intros Hh Hl. unfold write_header. pose proof (len_nonneg bs).
  destruct (Hh (Writer.init buf)) as [He _]; [unfold writer_wf; cbn; zlia|].
  rewrite He by (unfold Writer.left; cbn; lia). reflexivity.
Qed.

(** A header read from the front of bytes. *)
Lemma read_header {A} `{Codec A} (h : A) bs tail :
  decodes read bs h → bytes_wf bs → bytes_wf tail →
  read (Reader.init (bs ++ tail)) = (Ok h, mkReader (bs ++ tail) (len bs)).
Proof.
  intros Hh Hb Ht. rewrite (Hh _ tail); [done| |done].
  apply reader_init_wf, bytes_wf_app. by split.
Qed.
