(* ===== verification/Mctp.v ===== *)
(** * MCTP framing

    Models src/mctp_transport/src/header.rs: the message types, the one-byte
    header and [MctpTransportEncap]. *)

From S2P Require Import Prelude Codec Status Transport.

Inductive MctpMessageType :=
| MctpMessageTypeMctpControl | MctpMessageTypePldm | MctpMessageTypeNcsi | MctpMessageTypeEthernet
| MctpMessageTypeNvme | MctpMessageTypeSpdm | MctpMessageTypeSecuredMctp
| MctpMessageTypeVendorDefinedPci | MctpMessageTypeVendorDefinedIana
| MctpMessageTypeUnknown (x : u8).

#[export] Instance enum_MctpMessageType : EnumBuilder MctpMessageType :=
  {| get_int x := match x with
       | MctpMessageTypeMctpControl => 0x00 | MctpMessageTypePldm => 0x01
       | MctpMessageTypeNcsi => 0x02 | MctpMessageTypeEthernet => 0x03
       | MctpMessageTypeNvme => 0x04 | MctpMessageTypeSpdm => 0x05
       | MctpMessageTypeSecuredMctp => 0x06 | MctpMessageTypeVendorDefinedPci => 0x7E
       | MctpMessageTypeVendorDefinedIana => 0x7F | MctpMessageTypeUnknown x => x
       end;
     of_int x :=
       if x =? 0x00 then MctpMessageTypeMctpControl else if x =? 0x01 then MctpMessageTypePldm
       else if x =? 0x02 then MctpMessageTypeNcsi else if x =? 0x03 then MctpMessageTypeEthernet
       else if x =? 0x04 then MctpMessageTypeNvme else if x =? 0x05 then MctpMessageTypeSpdm
       else if x =? 0x06 then MctpMessageTypeSecuredMctp
       else if x =? 0x7E then MctpMessageTypeVendorDefinedPci
       else if x =? 0x7F then MctpMessageTypeVendorDefinedIana
       else MctpMessageTypeUnknown x |}.
#[export] Instance codec_MctpMessageType : Codec MctpMessageType := enum_u8.

Record MctpMessageHeader := mkMctpHeader { mctp_type : MctpMessageType }.
#[export] Instance codec_MctpMessageHeader : Codec MctpMessageHeader :=
  {| encode h := encode (mctp_type h);
     read := let* t := read (A:=MctpMessageType) in ret (mkMctpHeader t) |}.

Module Mctp.

(** The two senders differ in the header and the error. *)
Definition frame (h : MctpMessageHeader) (err : SpdmStatus) (spdm_buffer : list Z) :
    M (list Z) SpdmStatus usize :=
  let payload_len := len spdm_buffer in
  let* header_size := write_header h err in
  let* buf := get in
  if len buf <? header_size + payload_len then throw err else
  let* buf := lift (or_panic (copy_from_slice buf header_size (header_size + payload_len) spdm_buffer)) in
  let* _ := modify (λ _, buf) in
  ret (header_size + payload_len).

(** The two receivers differ in the types they accept and the error. *)
Definition unframe (kind : MctpMessageType → option bool) (err : SpdmStatus) (buffer : list Z) :
    M (list Z) SpdmStatus (usize * bool) :=
  let '(o, r) := read (A:=MctpMessageHeader) (Reader.init buffer) in
  let* h := lift (map_err (λ _, err) o) in
  match kind (mctp_type h) with
  | None => throw err
  | Some flag =>
      let header_size := Reader.used r in
      let payload_size := len buffer - header_size in
      let* out := get in
      if len out <? payload_size then throw err else
      let* payload := lift (or_panic (slice buffer header_size (len buffer))) in
      let* out := lift (or_panic (copy_from_slice out 0 payload_size payload)) in
      let* _ := modify (λ _, out) in
      ret (payload_size, flag)
  end.

Definition encap_ (spdm_buffer : list Z) (secured_message : bool) : M (list Z) SpdmStatus usize :=
  frame (mkMctpHeader (if secured_message then MctpMessageTypeSecuredMctp else MctpMessageTypeSpdm))
    SPDM_STATUS_ENCAP_FAIL spdm_buffer.
Definition decap_ (transport_buffer : list Z) : M (list Z) SpdmStatus (usize * bool) :=
  unframe (λ t, match t with
                | MctpMessageTypeSpdm => Some false | MctpMessageTypeSecuredMctp => Some true
                | _ => None end) SPDM_STATUS_DECAP_FAIL transport_buffer.
Definition encap_app_ (spdm_buffer : list Z) (is_app_message : bool) : M (list Z) SpdmStatus usize :=
  frame (mkMctpHeader (if is_app_message then MctpMessageTypePldm else MctpMessageTypeSpdm))
    SPDM_STATUS_ENCAP_APP_FAIL spdm_buffer.
Definition decap_app_ (app_buffer : list Z) : M (list Z) SpdmStatus (usize * bool) :=
  unframe (λ t, match t with
                | MctpMessageTypeSpdm => Some false | MctpMessageTypePldm => Some true
                | _ => None end) SPDM_STATUS_DECAP_APP_FAIL app_buffer.

Definition transport : SpdmTransportEncap :=
  {| encap := encap_; decap := decap_; encap_app := encap_app_; decap_app := decap_app_;
     get_sequence_number_count := 2; get_max_random_count := 32 |}.

End Mctp.

(** ** Laws *)
#[export] Instance enum_ok_MctpMessageType : EnumOk MctpMessageType 8.
Proof. solve_enum. Qed.
#[export] Instance codec_ok_MctpMessageType : CodecOk MctpMessageType := enum_u8_ok.

#[export] Program Instance codec_ok_MctpMessageHeader : CodecOk MctpMessageHeader :=
  {| wf h := canonical 8 (mctp_type h); bytes h := [get_int (mctp_type h)] |}.
Next Obligation. intros h Hh. exact (bytes_ok (A:=MctpMessageType) (mctp_type h) Hh). Qed.
Next Obligation. intros h Hh. exact (encode_ok (A:=MctpMessageType) (mctp_type h) Hh). Qed.
Next Obligation.
  intros [t] Ht. unfold read at 1, codec_MctpMessageHeader. cbn [mctp_type] in *.
  rewrite <- (app_nil_r [get_int t]). eapply decodes_bind; [exact (read_ok (A:=MctpMessageType) t Ht)|].
  apply decodes_ret.
Qed.
Next Obligation.
  unfold read at 1, codec_MctpMessageHeader.
  eapply reads_bind; [exact (read_safe (A:=MctpMessageType))|]. intros t Ht. by apply reads_ret.
Qed.

Module MctpLaws.
Import Mctp.

Lemma frame_ok h err spdm buf :
  wf h → 1 + len spdm ≤ len buf →
  frame h err spdm buf = (Ok (1 + len spdm), splice buf 0 (bytes h ++ spdm)).
Proof.
  intros Hh Hl. pose proof (len_nonneg spdm). unfold frame.
  assert (len (bytes h) = 1) as H1 by done.
  unfold bind at 1. rewrite (write_header_ok _ _ _ _ (encode_ok h Hh)) by lia. run.
  rewrite len_splice by lia. replace (len buf <? len (bytes h) + len spdm) with false by lia.
  rewrite copy_from_slice_spec by (rewrite ?len_splice; lia). cbn [or_panic].
  rewrite (bind_lift _ _ _ _ eq_refl). run. rewrite splice_app by lia. by rewrite H1.
Qed.

Lemma unframe_ok kind err h flag spdm out :
  wf h → kind (mctp_type h) = Some flag → bytes_wf spdm → len spdm ≤ len out →
  unframe kind err (bytes h ++ spdm) out = (Ok (len spdm, flag), splice out 0 spdm).
Proof.
  intros Hh Hk Hw Hl. pose proof (len_nonneg spdm). unfold unframe.
  rewrite (read_header h _ spdm (read_ok h Hh) (bytes_ok h Hh) Hw). cbn [map_err]. rewrite (bind_lift _ _ _ _ eq_refl), Hk.
  cbn [Reader.used r_offs]. rewrite len_app, Z.add_simpl_l. run.
  replace (len out <? len spdm) with false by lia.
  rewrite slice_spec by (rewrite ?len_app; zlia). cbn [or_panic]. rewrite (bind_lift _ _ _ _ eq_refl).
  rewrite Z.add_simpl_l, zdrop_app, ztake_all by lia.
  rewrite copy_from_slice_spec by lia. done.
Qed.

Lemma unframe_safe kind err t : bytes_wf t → fills_safely (len t) (unframe kind err t).
Proof.
  intros Hw out. unfold unframe. pose proof (len_nonneg t).
  pose proof (read_safe (A:=MctpMessageHeader) _ (reader_init_wf t Hw)) as Hr.
  destruct (read (Reader.init t)) as [[h|[]|] r]; [|by split_and!|by destruct Hr].
  destruct Hr as (_ & _ & Hu & _). cbn [Reader.init r_offs r_buf] in Hu. cbn [map_err].
  rewrite (bind_lift _ _ _ _ eq_refl). destruct (kind _) as [flag|]; [|by split_and!]. run.
  unfold Reader.used. btest; [by split_and!|].
  rewrite slice_spec by lia. cbn [or_panic]. rewrite (bind_lift _ _ _ _ eq_refl).
  rewrite copy_from_slice_spec; [|lia|lia|rewrite len_ztake; [lia|]; rewrite len_zdrop; lia].
  cbn. split_and!; [done| |done| |auto with wfb].
  - rewrite len_splice; rewrite ?len_ztake; rewrite ?len_zdrop; lia.
  - intros n b [= <- <-]. lia.
Qed.

#[export] Instance mctp_transport_ok : @TransportOk transport.
Proof.
  refine {| header_size := 1; app_header_size := 1; app_flag b := b |}.
  - done.
  - cbn. lia.
  - cbn. lia.
  - intros spdm sec buf out Hw Hb Hl Hfit Hout.
    set (h := mkMctpHeader (if sec then MctpMessageTypeSecuredMctp else MctpMessageTypeSpdm)).
    assert (wf h) as Hh by by destruct sec.
    exists (1 + len spdm), (splice buf 0 (bytes h ++ spdm)), []. cbn [encap decap transport].
    unfold encap_, decap_. rewrite frame_ok by (done || lia).
    rewrite ztake_splice_0 by (rewrite len_app; change (len (bytes h)) with 1; lia).
    rewrite (unframe_ok _ _ h sec); [|done|by destruct sec|done|lia].
    change (len (@nil Z)) with 0; rewrite app_nil_r, Z.add_0_r. pose proof (len_nonneg spdm).
    rewrite len_splice by (rewrite ?len_app; change (len (bytes h)) with 1; lia).
    split_and!; try done; try lia; [|constructor].
    apply bytes_wf_splice; [done|]. apply bytes_wf_app. split; [by apply bytes_ok|done].
  - intros spdm app buf out Hw Hb Hfit Hout.
    set (h := mkMctpHeader (if app then MctpMessageTypePldm else MctpMessageTypeSpdm)).
    assert (wf h) as Hh by by destruct app.
    exists (1 + len spdm), (splice buf 0 (bytes h ++ spdm)). cbn [encap_app decap_app transport].
    unfold encap_app_, decap_app_. rewrite frame_ok by (done || lia).
    rewrite ztake_splice_0 by (rewrite len_app; change (len (bytes h)) with 1; lia).
    rewrite (unframe_ok _ _ h app); [|done|by destruct app|done|lia]. pose proof (len_nonneg spdm).
    rewrite len_splice by (rewrite ?len_app; change (len (bytes h)) with 1; lia).
    split_and!; try done.
    apply bytes_wf_splice; [done|]. apply bytes_wf_app. split; [by apply bytes_ok|done].
  - intros t Ht. by apply unframe_safe.
  - intros t out Ht Hl. pose proof (unframe_safe (λ t, match t with
                | MctpMessageTypeSpdm => Some false | MctpMessageTypePldm => Some true
                | _ => None end) SPDM_STATUS_DECAP_APP_FAIL t Ht out) as Hs.
    cbn [decap_app transport]. unfold decap_app_. destruct (unframe _ _ _ _) as [o out'].
    destruct Hs as (? & ? & _ & Hn & _). split_and!; [done..|]. intros n b Ho.
    destruct (Hn n b Ho). lia.
Qed.

(** ** Properties *)

(** MCTP framing is lossless: a message that fits is framed by exactly one
    byte and recovered with its kind (plain or secured) and no padding, and no
    input makes the receiver panic or write outside the caller's buffer. *)
Theorem mctp_roundtrip spdm sec buf out :
  bytes_wf spdm → 1 + len spdm ≤ len buf → len spdm ≤ len out →
  ∃ buf', encap_ spdm sec buf = (Ok (1 + len spdm), buf') ∧ len buf' = len buf ∧
          decap_ (ztake (1 + len spdm) buf') out = (Ok (len spdm, sec), splice out 0 spdm) ∧
          ∀ t, bytes_wf t → fills_safely (len t) (decap_ t).
Proof.
  intros Hw Hl Ho. pose proof (len_nonneg spdm).
  set (h := mkMctpHeader (if sec then MctpMessageTypeSecuredMctp else MctpMessageTypeSpdm)).
  assert (wf h) as Hh by by destruct sec. exists (splice buf 0 (bytes h ++ spdm)).
  assert (len (bytes h ++ spdm) = 1 + len spdm) as Hlen by (rewrite len_app; done).
  unfold encap_, decap_. rewrite frame_ok by (done || lia). rewrite len_splice by lia.
  rewrite ztake_splice_0 by lia. rewrite (unframe_ok _ _ h sec); [|done|by destruct sec|done|lia].
  split_and!; try done. intros t Ht. by apply unframe_safe.
Qed.

Lemma mctp_roundtrip_witness :
  ∃ buf', encap_ [17; 129] true (zeros 8) = (Ok 3, buf') ∧ len buf' = 8 ∧
          decap_ (ztake 3 buf') (zeros 4) = (Ok (2, true), splice (zeros 4) 0 [17; 129]).
Proof.
  destruct (mctp_roundtrip [17; 129] true (zeros 8) (zeros 4)) as (buf' & He & Hl & Hd & _).
  - repeat (apply bytes_wf_cons; split; [unfold byte; lia|]). apply bytes_wf_nil.
  - by vm_compute.
  - by vm_compute.
  - exists buf'. split_and!; [exact He|exact Hl|exact Hd].
Defined.

End MctpLaws.
