(* ===== verification/PciDoe.v ===== *)
(** * PCI DOE framing

    Models src/pcidoe_transport/src/header.rs: vendor and data object types,
    the eight-byte header and [PciDoeTransportEncap]. *)

From S2P Require Import Prelude Codec Status Transport.

Inductive PciDoeVendorId := PciDoeVendorIdPciSig | PciDoeVendorIdUnknown (x : u16).
#[export] Instance enum_PciDoeVendorId : EnumBuilder PciDoeVendorId :=
  {| get_int x := match x with PciDoeVendorIdPciSig => 0x0001 | PciDoeVendorIdUnknown x => x end;
     of_int x := if x =? 0x0001 then PciDoeVendorIdPciSig else PciDoeVendorIdUnknown x |}.
#[export] Instance codec_PciDoeVendorId : Codec PciDoeVendorId := enum_u16.

Inductive PciDoeDataObjectType :=
| PciDoeDataObjectTypeDoeDiscovery | PciDoeDataObjectTypeSpdm | PciDoeDataObjectTypeSecuredSpdm
| PciDoeDataObjectTypeSpdmWithConnectionID | PciDoeDataObjectTypeSecuredSpdmWithConnectionID
| PciDoeDataObjectTypeUnknown (x : u8).
#[export] Instance enum_PciDoeDataObjectType : EnumBuilder PciDoeDataObjectType :=
  {| get_int x := match x with
       | PciDoeDataObjectTypeDoeDiscovery => 0x00 | PciDoeDataObjectTypeSpdm => 0x01
       | PciDoeDataObjectTypeSecuredSpdm => 0x02 | PciDoeDataObjectTypeSpdmWithConnectionID => 0x03
       | PciDoeDataObjectTypeSecuredSpdmWithConnectionID => 0x04
       | PciDoeDataObjectTypeUnknown x => x
       end;
     of_int x :=
       if x =? 0x00 then PciDoeDataObjectTypeDoeDiscovery
       else if x =? 0x01 then PciDoeDataObjectTypeSpdm
       else if x =? 0x02 then PciDoeDataObjectTypeSecuredSpdm
       else if x =? 0x03 then PciDoeDataObjectTypeSpdmWithConnectionID
       else if x =? 0x04 then PciDoeDataObjectTypeSecuredSpdmWithConnectionID
       else PciDoeDataObjectTypeUnknown x |}.
#[export] Instance codec_PciDoeDataObjectType : Codec PciDoeDataObjectType := enum_u8.

Record PciDoeMessageHeader := mkDoeHeader {
  vendor_id : PciDoeVendorId;
  data_object_type : PciDoeDataObjectType;
  payload_length : u32;
  connection_id : u16;
}.

#[export] Instance codec_PciDoeMessageHeader : Codec PciDoeMessageHeader :=
  {| encode h :=
       let* s1 := encode (vendor_id h) in
       let* s2 := encode (data_object_type h) in
       let* s3 := encode (0 : u8) in
       let* l8 := lift (add_checked 32 (payload_length h) 8) in
       let length := Z.shiftr l8 2 in
       if 0x40000 <? length then panic else
       let length := if length =? 0x40000 then 0 else length in
       if 0x1000 <=? connection_id h then panic else
       let header2 := Z.lor length (Z.shiftr (connection_id h) 18) in
       let* s4 := encode (header2 : u32) in
       ret (s1 + s2 + s3 + s4);
     read :=
       let* vendor_id := read (A:=PciDoeVendorId) in
       let* data_object_type := read (A:=PciDoeDataObjectType) in
       let* _ := read (A:=u8) in
       let* header2 := read (A:=u32) in
       let length := Z.land header2 0x3ffff in
       let connection_id := Z.land (wrap 16 (Z.shiftr header2 18)) 0x0fff in
       let length := if length =? 0 then 0x40000 else length in
       if length <? 2 then throw tt else
       let bytes := wrap 32 (Z.shiftl length 2) in
       if bytes <? 8 then throw tt else
       ret (mkDoeHeader vendor_id data_object_type (bytes - 8) connection_id) |}.

Module PciDoe.

Definition encap_ (spdm_buffer : list Z) (secured_message : bool) : M (list Z) SpdmStatus usize :=
  let payload_len := len spdm_buffer in
  let aligned_payload_len := (payload_len + 3) / 4 * 4 in
  let pcidoe_header :=
    mkDoeHeader PciDoeVendorIdPciSig
      (if secured_message then PciDoeDataObjectTypeSecuredSpdm else PciDoeDataObjectTypeSpdm)
      (wrap 32 aligned_payload_len) 0 in
  let* header_size := write_header pcidoe_header SPDM_STATUS_ENCAP_FAIL in
  let* buf := get in
  if len buf <? header_size + aligned_payload_len then throw SPDM_STATUS_ENCAP_FAIL else
  let* buf := lift (or_panic (copy_from_slice buf header_size (header_size + payload_len) spdm_buffer)) in
  let* _ := modify (λ _, buf) in
  ret (header_size + aligned_payload_len).

Definition decap_ (transport_buffer : list Z) : M (list Z) SpdmStatus (usize * bool) :=
  let '(o, r) := read (A:=PciDoeMessageHeader) (Reader.init transport_buffer) in
  let* h := lift (map_err (λ _, SPDM_STATUS_DECAP_FAIL) o) in
  match vendor_id h with
  | PciDoeVendorIdUnknown _ => throw SPDM_STATUS_DECAP_FAIL
  | PciDoeVendorIdPciSig =>
      let* secured_message :=
        match data_object_type h with
        | PciDoeDataObjectTypeSpdm => ret false
        | PciDoeDataObjectTypeSecuredSpdm => ret true
        | _ => throw SPDM_STATUS_DECAP_FAIL
        end in
      let header_size := Reader.used r in
      let payload_size := payload_length h in
      if len transport_buffer <? header_size + payload_size then throw SPDM_STATUS_DECAP_FAIL else
      let* out := get in
      if len out <? payload_size then throw SPDM_STATUS_DECAP_FAIL else
      let* payload := lift (or_panic (slice transport_buffer header_size (header_size + payload_size))) in
      let* out := lift (or_panic (copy_from_slice out 0 payload_size payload)) in
      let* _ := modify (λ _, out) in
      ret (payload_size, secured_message)
  end.

Definition encap_app_ (spdm_buffer : list Z) (is_app_message : bool) : M (list Z) SpdmStatus usize :=
  let* app := get in
  let* app := lift (or_panic (copy_from_slice app 0 (len spdm_buffer) spdm_buffer)) in
  let* _ := modify (λ _, app) in
  ret (len spdm_buffer).

Definition decap_app_ (app_buffer : list Z) : M (list Z) SpdmStatus (usize * bool) :=
  let* out := get in
  let* out := lift (or_panic (copy_from_slice out 0 (len app_buffer) app_buffer)) in
  let* _ := modify (λ _, out) in
  ret (len app_buffer, false).

Definition transport : SpdmTransportEncap :=
  {| encap := encap_; decap := decap_; encap_app := encap_app_; decap_app := decap_app_;
     get_sequence_number_count := 0; get_max_random_count := 0 |}.

End PciDoe.

(** ** Laws *)
#[export] Instance enum_ok_PciDoeVendorId : EnumOk PciDoeVendorId 16.
Proof. solve_enum. Qed.
#[export] Instance codec_ok_PciDoeVendorId : CodecOk PciDoeVendorId := enum_u16_ok.
#[export] Instance enum_ok_PciDoeDataObjectType : EnumOk PciDoeDataObjectType 8.
Proof. solve_enum. Qed.
#[export] Instance codec_ok_PciDoeDataObjectType : CodecOk PciDoeDataObjectType := enum_u8_ok.

Module PciDoeLaws.
Import PciDoe.

(** A header the encoder accepts: the object has at most 2^18 double words. *)
Definition fits (h : PciDoeMessageHeader) : Prop :=
  canonical 16 (vendor_id h) ∧ canonical 8 (data_object_type h) ∧
  0 ≤ payload_length h < 0x100000 - 4 ∧ 0 ≤ connection_id h < 0x1000.

(** The length field, in double words; 0 stands for 2^18. *)
Definition length_field (payload : Z) : Z :=
  let l := (payload + 8) / 4 in if l =? 0x40000 then 0 else l.

Definition doe_bytes (h : PciDoeMessageHeader) : list Z :=
  le_bytes 2 (get_int (vendor_id h)) ++ [get_int (data_object_type h)] ++ [0]
  ++ le_bytes 4 (length_field (payload_length h)).

Lemma len_doe_bytes h : len (doe_bytes h) = 8.
Proof. reflexivity. Qed.

Lemma length_field_range p : 0 ≤ p < 0x100000 - 4 → 0 ≤ length_field p < 0x40000.
Proof.
  intros Hp. unfold length_field. cbv zeta.
  pose proof (Z.div_mod (p + 8) 4 ltac:(lia)). pose proof (Z.mod_pos_bound (p + 8) 4 ltac:(lia)).
  destruct (Z.eqb_spec ((p + 8) / 4) 0x40000); lia.
Qed.

Lemma doe_bytes_wf h : fits h → bytes_wf (doe_bytes h).
Proof.
  intros (_ & Ht & _). unfold doe_bytes. rewrite !bytes_wf_app.
  split_and!; [auto with wfb|exact (bytes_ok (A:=PciDoeDataObjectType) _ Ht)| |auto with wfb].
  apply bytes_wf_cons. split; [unfold byte; lia|constructor].
Qed.

Lemma doe_encodes h : fits h → encodes EncodeErr_ (encode h) (doe_bytes h).
Proof.
  intros (Hv & Ht & Hp & Hc). unfold encode at 1, codec_PciDoeMessageHeader, doe_bytes.
  assert (add_checked (E:=EncodeErr) 32 (payload_length h) 8 = Ok (payload_length h + 8)) as Hadd.
  { unfold add_checked. by replace (payload_length h + 8 <? 2 ^ 32) with true by lia. }
  assert (Z.shiftr (payload_length h + 8) 2 = (payload_length h + 8) / 4) as Hsh
    by by rewrite Z.shiftr_div_pow2.
  assert (Z.shiftr (connection_id h) 18 = 0) as Hcid
    by (rewrite Z.shiftr_div_pow2 by lia; apply Z.div_small; lia).
  assert ((payload_length h + 8) / 4 ≤ 0x40000) as Hle by (apply Z.lt_succ_r, Z.div_lt_upper_bound; lia).
  eapply writes_eq.
  - eapply writes_bind; [exact (encode_ok (A:=PciDoeVendorId) _ Hv)|].
    eapply writes_bind; [exact (encode_ok (A:=PciDoeDataObjectType) _ Ht)|].
    eapply writes_bind; [apply writes_u8|]. rewrite Hadd.
    eapply writes_bind; [apply writes_lift|]. cbv beta zeta. rewrite Hsh, Hcid.
    replace (0x40000 <? _) with false by lia. replace (0x1000 <=? _) with false by lia.
    rewrite Z.lor_0_r. fold (length_field (payload_length h)).
    eapply writes_bind; [apply writes_u32|]. apply writes_ret.
  - by rewrite app_nil_r.
  - reflexivity.
Qed.

Lemma length_field_back p :
  0 ≤ p < 0x100000 - 4 → p mod 4 = 0 →
  let l := length_field p in
  (if l =? 0 then 0x40000 else l) = (p + 8) / 4 ∧ Z.land l 0x3ffff = l ∧ Z.shiftr l 18 = 0.
Proof.
  intros Hp Hm l. pose proof (length_field_range p Hp) as Hl.
  assert (2 ≤ (p + 8) / 4) by (apply Z.div_le_lower_bound; lia). split_and!.
  - unfold l, length_field. destruct (Z.eqb_spec ((p + 8) / 4) 0x40000) as [->|]; [done|].
    by destruct (Z.eqb_spec ((p + 8) / 4) 0); [lia|].
  - change 0x3ffff with (Z.ones 18). rewrite land_low by lia. apply Z.mod_small. done.
  - rewrite Z.shiftr_div_pow2 by lia. apply Z.div_small. done.
Qed.

(** What the header of a whole number of double words is read back as: the
    connection id is gone. *)
Lemma doe_decodes h :
  fits h → payload_length h mod 4 = 0 →
  decodes read (doe_bytes h)
    (mkDoeHeader (vendor_id h) (data_object_type h) (payload_length h) 0).
Proof.
  intros (Hv & Ht & Hp & Hc) Hm. unfold read at 1, codec_PciDoeMessageHeader, doe_bytes.
  destruct (length_field_back _ Hp Hm) as (H1 & H2 & H3).
  pose proof (length_field_range _ Hp) as Hl.
  eapply decodes_bind; [exact (read_ok (A:=PciDoeVendorId) _ Hv)|].
  eapply decodes_bind; [exact (read_ok (A:=PciDoeDataObjectType) _ Ht)|].
  eapply decodes_bind; [apply decodes_u8; unfold in_width; lia|].
  rewrite <- (app_nil_r (le_bytes 4 _)).
  eapply decodes_bind; [apply decodes_u32; unfold in_width; lia|]. cbv beta zeta.
  rewrite H2, H1, H3. change (Z.land (wrap 16 0) 0xfff) with 0.
  assert (2 ≤ (payload_length h + 8) / 4) by (apply Z.div_le_lower_bound; lia).
  assert ((payload_length h + 8) / 4 * 4 = payload_length h + 8) as Hq.
  { pose proof (Z.div_mod (payload_length h + 8) 4). rewrite Z.add_mod, Hm in H0 by lia.
    change ((0 + 8 mod 4) mod 4) with 0 in H0. lia. }
  rewrite Z.shiftl_mul_pow2 by lia. change (2 ^ 2) with 4. rewrite Hq.
  rewrite wrap_small by (unfold in_width; lia).
  replace (_ <? 2) with false by lia. replace (payload_length h + 8 <? 8) with false by lia.
  replace (payload_length h + 8 - 8) with (payload_length h) by lia. apply decodes_ret.
Qed.

Lemma doe_read_safe : reads (read (A:=PciDoeMessageHeader)) (λ h, 0 ≤ payload_length h).
Proof.
  unfold read at 1, codec_PciDoeMessageHeader.
  eapply reads_bind; [exact (read_safe (A:=PciDoeVendorId))|]. intros v _.
  eapply reads_bind; [exact (read_safe (A:=PciDoeDataObjectType))|]. intros t _.
  eapply reads_bind; [apply reads_u8|]. intros _ _.
  eapply reads_bind; [apply reads_u32|]. intros x _. cbv zeta.
  apply reads_if; intros H1; [apply reads_throw|]. apply reads_if; intros H2; [apply reads_throw|].
  apply reads_ret. cbn [payload_length]. lia.
Qed.

(** ** The framing *)
Definition doe_header (n : Z) (sec : bool) : PciDoeMessageHeader :=
  mkDoeHeader PciDoeVendorIdPciSig
    (if sec then PciDoeDataObjectTypeSecuredSpdm else PciDoeDataObjectTypeSpdm) n 0.

Lemma doe_header_fits n sec : 0 ≤ n < 0x100000 - 4 → fits (doe_header n sec).
Proof. intros Hn. split_and!; try done; try (by destruct sec); cbn; lia. Qed.

Definition aligned (n : Z) : Z := (n + 3) / 4 * 4.
Lemma aligned_spec n : 0 ≤ n → n ≤ aligned n ≤ n + 3 ∧ aligned n mod 4 = 0.
Proof.
  intros Hn. unfold aligned. pose proof (Z.div_mod (n + 3) 4 ltac:(lia)).
  pose proof (Z.mod_pos_bound (n + 3) 4 ltac:(lia)). split; [lia|]. apply Z.mod_mul. lia.
Qed.

Lemma encap_ok spdm sec buf :
  len spdm < 2 ^ 16 → 8 + aligned (len spdm) ≤ len buf →
  encap_ spdm sec buf
  = (Ok (8 + aligned (len spdm)), splice buf 0 (doe_bytes (doe_header (aligned (len spdm)) sec) ++ spdm)).
Proof.
  intros Hl Hb. pose proof (len_nonneg spdm). destruct (aligned_spec (len spdm)) as [Ha _]; [lia|].
  unfold encap_. fold (aligned (len spdm)). rewrite wrap_small by (unfold in_width; lia).
  fold (doe_header (aligned (len spdm)) sec). set (h := doe_header _ _).
  assert (fits h) as Hh by (apply doe_header_fits; lia).
  unfold bind at 1. rewrite (write_header_ok _ _ _ _ (doe_encodes h Hh)) by (rewrite len_doe_bytes; lia).
  run. rewrite len_splice by (rewrite ?len_doe_bytes; lia). rewrite len_doe_bytes.
  replace (len buf <? 8 + aligned (len spdm)) with false by lia.
  rewrite copy_from_slice_spec by (rewrite ?len_splice; rewrite ?len_doe_bytes; lia). cbn [or_panic].
  rewrite (bind_lift _ _ _ _ eq_refl). run. rewrite <- (len_doe_bytes h) at 1.
  by rewrite splice_app by (rewrite len_doe_bytes; lia).
Qed.

Lemma decap_ok n sec payload rest out :
  0 ≤ n < 0x100000 - 4 → n mod 4 = 0 → len payload = n → bytes_wf payload → bytes_wf rest → n ≤ len out →
  decap_ (doe_bytes (doe_header n sec) ++ payload ++ rest) out = (Ok (n, sec), splice out 0 payload).
Proof.
  intros Hn Hm Hl Hw Hr Ho. set (h := doe_header n sec).
  assert (fits h) as Hh by by apply doe_header_fits. pose proof (len_nonneg rest).
  unfold decap_. rewrite (read_header _ _ _ (doe_decodes h Hh Hm) (doe_bytes_wf h Hh))
    by (apply bytes_wf_app; by split).
  cbn [map_err]. rewrite (bind_lift _ _ _ _ eq_refl). cbn [vendor_id data_object_type payload_length h doe_header].
  assert (∀ k : bool → M (list Z) SpdmStatus (usize * bool),
    bind (match (if sec then PciDoeDataObjectTypeSecuredSpdm else PciDoeDataObjectTypeSpdm) with
          | PciDoeDataObjectTypeSpdm => ret false | PciDoeDataObjectTypeSecuredSpdm => ret true
          | _ => throw SPDM_STATUS_DECAP_FAIL end) k out = k sec out) as -> by (by destruct sec).
  cbv zeta. unfold Reader.used. cbn [r_offs]. rewrite !len_app, len_doe_bytes.
  replace (8 + (len payload + len rest) <? 8 + n) with false by lia. run.
  replace (len out <? n) with false by lia.
  rewrite slice_spec by (rewrite ?len_app, ?len_doe_bytes; lia). cbn [or_panic].
  rewrite (bind_lift _ _ _ _ eq_refl), zdrop_app', ztake_app' by (rewrite ?len_doe_bytes; lia).
  by rewrite copy_from_slice_spec by lia.
Qed.

Lemma decap_fills t : bytes_wf t → fills_safely (len t) (decap_ t).
Proof.
  intros Hw out. unfold decap_. pose proof (doe_read_safe _ (reader_init_wf t Hw)) as Hr.
  destruct (read (Reader.init t)) as [[h|[]|] r]; [|by split_and!|by destruct Hr].
  destruct Hr as (_ & _ & Hu & Hp). cbn [Reader.init r_offs r_buf] in Hu. cbn [map_err].
  specialize (Hp h eq_refl). rewrite (bind_lift _ _ _ _ eq_refl).
  destruct (vendor_id h); [|by split_and!].
  assert (∃ o : outcome SpdmStatus bool, o ≠ Panic ∧ ∀ k : bool → M (list Z) SpdmStatus (usize * bool),
    bind (match data_object_type h with
          | PciDoeDataObjectTypeSpdm => ret false | PciDoeDataObjectTypeSecuredSpdm => ret true
          | _ => throw SPDM_STATUS_DECAP_FAIL end) k out = bind (lift o) k out) as (o & Ho & ->).
  { destruct (data_object_type h); try (by exists (Err SPDM_STATUS_DECAP_FAIL));
      [by exists (Ok false)|by exists (Ok true)]. }
  destruct o as [sec|e|]; [|by split_and!|done]. rewrite (bind_lift _ _ _ _ eq_refl). cbv zeta.
  unfold Reader.used. btest; [by split_and!|]. run. btest; [by split_and!|].
  rewrite slice_spec by lia. cbn [or_panic]. rewrite (bind_lift _ _ _ _ eq_refl).
  rewrite copy_from_slice_spec; [|lia|lia|rewrite len_ztake; [lia|]; rewrite len_zdrop; lia].
  cbn. split_and!; [done| |done| |auto with wfb].
  - rewrite len_splice; rewrite ?len_ztake; rewrite ?len_zdrop; lia.
  - intros n b [= <- <-]. lia.
Qed.

Lemma encap_decap_ spdm sec buf out :
  bytes_wf spdm → bytes_wf buf → len spdm < 2 ^ 16 → 8 + len spdm + 3 ≤ len buf → len spdm + 3 ≤ len out →
  ∃ n buf' tail,
    encap_ spdm sec buf = (Ok n, buf') ∧ bytes_wf buf' ∧ len buf' = len buf ∧ 0 ≤ n ≤ len buf ∧
    len tail ≤ 3 ∧ bytes_wf tail ∧
    decap_ (ztake n buf') out = (Ok (len spdm + len tail, sec), splice out 0 (spdm ++ tail)).
Proof.
  intros Hw Hb Hl Hfit Hout. pose proof (len_nonneg spdm).
  destruct (aligned_spec (len spdm)) as [Ha Hm]; [lia|]. set (n := aligned (len spdm)) in *.
  set (hb := doe_bytes (doe_header n sec)). assert (len hb = 8) as Hhb by done.
  assert (bytes_wf hb) as Hhw by (apply doe_bytes_wf, doe_header_fits; lia).
  set (tail := ztake (n - len spdm) (zdrop (8 + len spdm) buf)).
  assert (len tail = n - len spdm) as Ht by (unfold tail; rewrite len_ztake; [lia|]; rewrite len_zdrop; lia).
  assert (bytes_wf tail) by (unfold tail; auto with wfb).
  exists (8 + n), (splice buf 0 (hb ++ spdm)), tail.
  rewrite encap_ok by (fold n; lia). fold n hb.
  rewrite len_splice by (rewrite ?len_app; lia). split_and!; try done; try lia.
  { apply bytes_wf_splice; [done|]. apply bytes_wf_app. by split. }
  assert (ztake (8 + n) (splice buf 0 (hb ++ spdm)) = hb ++ (spdm ++ tail) ++ []) as ->.
  { unfold splice. rewrite ztake_0, Z.add_0_l, len_app, Hhb. cbn [app].
    rewrite <- (ztake_zdrop (n - len spdm) (zdrop (8 + len spdm) buf)). fold tail.
    rewrite app_assoc, ztake_app' by (rewrite !len_app; lia). by rewrite app_nil_r, app_assoc. }
  unfold hb. rewrite decap_ok; try done; try lia.
  + do 3 f_equal. lia.
  + rewrite len_app. lia.
  + apply bytes_wf_app. by split.
  + constructor.
Qed.

#[export] Instance pcidoe_transport_ok : @TransportOk transport.
Proof.
  refine {| header_size := 8; app_header_size := 0; app_flag _ := false |}.
  - done.
  - cbn. lia.
  - cbn. lia.
  - apply encap_decap_.
  - intros spdm app buf out Hw Hb Hfit Hout. pose proof (len_nonneg spdm).
    exists (len spdm), (splice buf 0 spdm). cbn [encap_app decap_app transport].
    unfold encap_app_, decap_app_. run. rewrite copy_from_slice_spec by lia. cbn [or_panic].
    rewrite (bind_lift _ _ _ _ eq_refl). run. rewrite len_splice, ztake_splice_0 by lia.
    rewrite copy_from_slice_spec by lia. split_and!; try done. by apply bytes_wf_splice.
  - apply decap_fills.
  - intros t out Ht Hl. cbn [decap_app transport]. unfold decap_app_. run. pose proof (len_nonneg t).
    rewrite copy_from_slice_spec by lia. cbn. split_and!; [done|rewrite len_splice; lia|].
    intros n b [= <- <-]. lia.
Qed.

(** ** Properties *)

(** C36: PCI DOE framing keeps messages: a message below 64 KiB that fits is
    framed by eight bytes and padded to a multiple of four, and recovered with
    its kind and at most three bytes of padding behind it; no input makes the
    receiver panic or write outside the caller's buffer. *)
Theorem doe_roundtrip spdm sec buf out :
  bytes_wf spdm → bytes_wf buf → len spdm < 2 ^ 16 → 8 + len spdm + 3 ≤ len buf → len spdm + 3 ≤ len out →
  ∃ n buf' tail,
    encap_ spdm sec buf = (Ok n, buf') ∧ len buf' = len buf ∧ n ≤ len buf ∧ len tail ≤ 3 ∧
    decap_ (ztake n buf') out = (Ok (len spdm + len tail, sec), splice out 0 (spdm ++ tail)) ∧
    ∀ t, bytes_wf t → fills_safely (len t) (decap_ t).
Proof.
  intros Hw Hb Hl Hfit Hout.
  destruct (encap_decap_ spdm sec buf out Hw Hb Hl Hfit Hout)
    as (n & buf' & tail & He & _ & Hlb & Hn & Ht & _ & Hd).
  exists n, buf', tail. split_and!; try done; [lia|]. apply decap_fills.
Qed.

Lemma doe_roundtrip_witness :
  ∃ n buf' tail,
    encap_ [17; 129] false (zeros 16) = (Ok n, buf') ∧ len tail ≤ 3 ∧
    decap_ (ztake n buf') (zeros 8) = (Ok (2 + len tail, false), splice (zeros 8) 0 ([17; 129] ++ tail)).
Proof.
  destruct (doe_roundtrip [17; 129] false (zeros 16) (zeros 8)) as (n & buf' & tail & He & _ & _ & Ht & Hd & _);
    [|apply bytes_wf_zeros|by vm_compute|by vm_compute|by vm_compute|].
  - repeat (apply bytes_wf_cons; split; [unfold byte; lia|]). apply bytes_wf_nil.
  - exists n, buf', tail. split_and!; [exact He|exact Ht|exact Hd].
Defined.

(** (finding) the DOE 2.0 connection id never reaches the wire: the
    encoder shifts it right by 18 where the decoder expects it at bit 18, so
    every header with a connection id is written as if it were 0 and read
    back with connection id 0. *)
Theorem doe_connection_id_lost h buf :
  fits h → payload_length h mod 4 = 0 → 8 ≤ len buf → bytes_wf buf →
  ∃ w, encode h (Writer.init buf) = (Ok 8, w) ∧
       encode (mkDoeHeader (vendor_id h) (data_object_type h) (payload_length h) 0) (Writer.init buf) = (Ok 8, w) ∧
       fst (read (A:=PciDoeMessageHeader) (Reader.init (w_buf w)))
         = Ok (mkDoeHeader (vendor_id h) (data_object_type h) (payload_length h) 0).
Proof.
  intros Hh Hm Hb Hw. set (h0 := mkDoeHeader _ _ _ 0).
  assert (fits h0) as Hh0 by (destruct Hh as (? & ? & ? & ?); split_and!; try done; cbn; lia).
  assert (writer_wf (Writer.init buf)) as Hwf by (unfold writer_wf; cbn; lia).
  assert (doe_bytes h0 = doe_bytes h) as Heq by done.
  destruct (doe_encodes h Hh _ Hwf) as [He _]. destruct (doe_encodes h0 Hh0 _ Hwf) as [He0 _].
  rewrite He, He0 by (rewrite len_doe_bytes; unfold Writer.left; cbn [Writer.init w_buf w_offs]; lia). rewrite Heq.
  eexists. split_and!; [done|done|]. cbn [put w_buf Writer.init w_offs].
  unfold splice. rewrite ztake_0. cbn [app].
  rewrite (read_header _ _ _ (doe_decodes h Hh Hm) (doe_bytes_wf h Hh)) by auto with wfb. done.
Qed.

Lemma doe_connection_id_lost_witness :
  let h := mkDoeHeader PciDoeVendorIdPciSig PciDoeDataObjectTypeSpdmWithConnectionID 16 5 in
  ∃ w, encode h (Writer.init (zeros 8)) = (Ok 8, w) ∧
       fst (read (A:=PciDoeMessageHeader) (Reader.init (w_buf w)))
         = Ok (mkDoeHeader PciDoeVendorIdPciSig PciDoeDataObjectTypeSpdmWithConnectionID 16 0).
Proof.
  destruct (doe_connection_id_lost
    (mkDoeHeader PciDoeVendorIdPciSig PciDoeDataObjectTypeSpdmWithConnectionID 16 5) (zeros 8))
    as (w & He & _ & Hr); [split_and!; try done; by vm_compute|done|by vm_compute|apply bytes_wf_zeros|].
  exists w. split; [exact He|exact Hr].
Defined.

End PciDoeLaws.
