(* ===== verification/Context.v ===== *)
(** * The connection context

    Models [SpdmContext] of src/spdmlib/src/common/mod.rs without its
    transcripts (Transcript.v): the sizes of the selected algorithms, the
    resets, the table of sessions with the allocation of session ids, the
    signing prefix, and the transfer of plain and secured messages through the
    transport.  Proved: half session ids are fresh and session ids stay
    distinct over every history of the table, and a secured message crosses
    any transport that meets [TransportOk]. *)

From S2P Require Import Prelude Codec Status Bitflags Algo DataTypes Version.
From S2P Require Import Crypto HashCtx ManagedBuffer CertChain Session SecuredMessage.
From S2P Require Import Transport Mctp ContextData.

Module Context.

Definition new (config : SpdmConfigInfo) (provision : SpdmProvisionInfo) : SpdmContext :=
  {| config_info := config;
     negotiate_info := SpdmNegotiateInfo_default;
     runtime_info := SpdmRuntimeInfo_default;
     provision_info := provision;
     peer_info := SpdmPeerInfo_default;
     session := replicate (Z.to_nat MAX_SPDM_SESSION_COUNT) Session.new |}.

(** ** Sizes of the selected algorithms *)
Section Sizes.
Context {E : Type} (self : SpdmContext).
Let n := negotiate_info self.

Definition get_hash_size : outcome E u16 := SpdmBaseHashAlgo.get_size (base_hash_sel n).
Definition get_asym_sig_size : outcome E u16 :=
  if decide (pqc_asym_sel n = empty_flags) then SpdmBaseAsymAlgo.get_sig_size (base_asym_sel n)
  else SpdmPqcAsymAlgo.get_sig_size (pqc_asym_sel n).
Definition get_req_asym_sig_size : outcome E u16 :=
  if decide (pqc_req_asym_sel n = empty_flags) then SpdmReqAsymAlgo.get_sig_size (req_asym_sel n)
  else SpdmPqcReqAsymAlgo.get_sig_size (pqc_req_asym_sel n).
Definition get_req_key_exchange_size : outcome E u16 :=
  if decide (kem_sel n = empty_flags) then SpdmDheAlgo.get_key_size (dhe_sel n)
  else SpdmKemAlgo.get_encap_key_size (kem_sel n).
Definition get_rsp_key_exchange_size : outcome E u16 :=
  if decide (kem_sel n = empty_flags) then SpdmDheAlgo.get_key_size (dhe_sel n)
  else SpdmKemAlgo.get_cipher_text_size (kem_sel n).

End Sizes.

(** ** Resets *)
Definition reset_runtime_info : SpdmContext → SpdmContext := with_runtime_info SpdmRuntimeInfo_default.
Definition reset_negotiate_info : SpdmContext → SpdmContext := with_negotiate_info SpdmNegotiateInfo_default.
Definition reset_peer_info : SpdmContext → SpdmContext := with_peer_info SpdmPeerInfo_default.
Definition reset_context (c : SpdmContext) : SpdmContext :=
  let c := reset_peer_info (reset_negotiate_info (reset_runtime_info c)) in
  with_session (Session.set_default <$> session c) c.

(** ** The session table *)

(** The first session with the id: its slot and the session. *)
Definition get_session_via_id (id : u32) (c : SpdmContext) : option (nat * SpdmSession) :=
  list_find (λ s, session_id s = id) (session c).
Definition get_immutable_session_via_id (id : u32) (c : SpdmContext) : option SpdmSession :=
  snd <$> get_session_via_id id c.
Definition get_next_avaiable_session (c : SpdmContext) : option (nat * SpdmSession) :=
  get_session_via_id 0 c.

(** [let session = self.get_session_via_id(id).ok_or(..)?; ..] where the rest
    works on the session in place; [missing] is the outcome without it. *)
Definition with_session_via_id {A} (id : u32) (missing : SpdmResult A) (m : M SpdmSession SpdmStatus A) :
    M SpdmContext SpdmStatus A :=
  λ c, match get_session_via_id id c with
       | Some (i, s) => let '(o, s') := m s in (o, with_session (<[i := s']> (session c)) c)
       | None => (missing, c)
       end.

Definition get_session_status (c : SpdmContext) : list (u32 * SpdmSessionState) :=
  (λ s, (session_id s, session_state s)) <$> session c.

(** The half of a session id that a side allocates. *)
Definition half_of (is_requester : bool) (id : u32) : u16 :=
  let shift := if is_requester then 0 else 16 in
  wrap 16 (Z.shiftr (Z.land id (Z.shiftl 0xFFFF shift)) shift).

Definition get_next_half_session_id (is_requester : bool) (c : SpdmContext) : SpdmResult u16 :=
  match list_find (λ s, half_of is_requester (session_id s) = INVALID_HALF_SESSION_ID) (session c) with
  | Some (index, _) =>
      let index := wrap 16 (Z.of_nat index) in
      if index <=? INITIAL_SESSION_ID then Ok (INITIAL_SESSION_ID - index) else Panic
  | None => Err SPDM_STATUS_SESSION_NUMBER_EXCEED
  end.

(** The part of the key-exchange handlers that allocates a session:
    a fresh half id, combined with the half id [peer] of the other side, is
    set up in the first free slot.  The requester draws its half id when it
    sends its request and sets the session up when the response arrives, the
    responder does both at once; the table does not change in between. *)
Definition open_session (is_requester : bool) (peer : u16) : M SpdmContext SpdmStatus u32 :=
  let* c := get in
  let* half := lift (get_next_half_session_id is_requester c) in
  let '(rsp, req) := if is_requester then (peer, half) else (half, peer) in
  let* id := lift (add_checked 32 (wrap 32 (Z.shiftl rsp 16)) req) in
  match get_next_avaiable_session c with
  | None => throw SPDM_STATUS_SESSION_NUMBER_EXCEED
  | Some (i, s) =>
      let '(o, s') := Session.setup id s in
      let* _ := modify (with_session (<[i := s']> (session c))) in
      let* _ := lift o in
      ret id
  end.

(** ** Signing prefix *)
Fixpoint signing_prefix_loop (spdm_version : u8) (i : nat) (count : nat) (prefix : list Z) :
    option (list Z) :=
  match count with
  | O => Some prefix
  | S count =>
      let base := SPDM_VERSION_SIGNING_PREFIX_LENGTH * Z.of_nat i in
      prefix ← zset prefix (base + SPDM_VERSION_SIGNING_PREFIX_MAJOR_VER_INDEX)
                 (0x30 + Z.land (Z.shiftr spdm_version 4) 0xF);
      prefix ← zset prefix (base + SPDM_VERSION_SIGNING_PREFIX_MINOR_VER_INDEX)
                 (0x30 + Z.land spdm_version 0xF);
      signing_prefix_loop spdm_version (S i) count prefix
  end.
Definition get_signing_prefix_context {E} (c : SpdmContext) : outcome E (list Z) :=
  or_panic (signing_prefix_loop (version_u8 (spdm_version_sel (negotiate_info c))) 0
              SPDM_VERSION_SIGNING_PREFIX_NUMBER SPDM_VERSION_1_X_SIGNING_PREFIX_CONTEXT).

(** ** Transfer of messages

    The state is the context and the buffer the call fills. *)
Section Transfer.
Context `{SpdmTransportEncap} `{SpdmCrypto}.

(** [transport_encap.encap(send_buffer, transport_buffer, false)] *)
Definition encap_ (send_buffer : list Z) : M (SpdmContext * list Z) SpdmStatus usize :=
  λ '(c, buf), let '(o, buf') := encap send_buffer false buf in (o, (c, buf')).

Definition encode_secured_message (id : u32) (send_buffer : list Z) (is_requester is_app_message : bool) :
    M (SpdmContext * list Z) SpdmStatus usize :=
  λ '(c, transport_buffer),
    match encap_app send_buffer is_app_message (zeros SENDER_BUFFER_SIZE) with
    | (Err e, _) => (Err e, (c, transport_buffer))
    | (Panic, _) => (Panic, (c, transport_buffer))
    | (Ok used, app_buffer) =>
        match get_session_via_id id c, slice app_buffer 0 used with
        | None, _ => (Err SPDM_STATUS_INVALID_PARAMETER, (c, transport_buffer))
        | Some _, None => (Panic, (c, transport_buffer))
        | Some (i, s), Some app =>
            let '(o, (s', encoded)) :=
              Secured.encode_spdm_secured_message app is_requester (s, zeros SENDER_BUFFER_SIZE) in
            let c' := with_session (<[i := s']> (session c)) c in
            match o with
            | Err e => (Err e, (c', transport_buffer))
            | Panic => (Panic, (c', transport_buffer))
            | Ok encode_size =>
                match slice encoded 0 encode_size with
                | None => (Panic, (c', transport_buffer))
                | Some bs =>
                    let '(o, transport_buffer') := encap bs true transport_buffer in
                    (o, (c', transport_buffer'))
                end
            end
        end
    end.

Definition decap_ (transport_buffer : list Z) : M (SpdmContext * list Z) SpdmStatus usize :=
  λ '(c, buf),
    let '(o, buf') := decap transport_buffer buf in
    (let! (used, secured_message) := o in
     if (secured_message : bool) then Err SPDM_STATUS_DECAP_FAIL else Ok used, (c, buf')).

Definition decode_secured_message (id : u32) (transport_buffer : list Z) :
    M (SpdmContext * list Z) SpdmStatus usize :=
  λ '(c, receive_buffer),
    match decap transport_buffer (zeros RECEIVER_BUFFER_SIZE) with
    | (Err e, _) => (Err e, (c, receive_buffer))
    | (Panic, _) => (Panic, (c, receive_buffer))
    | (Ok (used, secured_message), encoded) =>
        if negb secured_message then (Err SPDM_STATUS_DECAP_FAIL, (c, receive_buffer)) else
        match get_session_via_id id c, slice encoded 0 used with
        | None, _ => (Err SPDM_STATUS_INVALID_PARAMETER, (c, receive_buffer))
        | Some _, None => (Panic, (c, receive_buffer))
        | Some (i, s), Some bs =>
            let '(o, (s', app_buffer)) :=
              Secured.decode_spdm_secured_message bs false (s, zeros RECEIVER_BUFFER_SIZE) in
            let c' := with_session (<[i := s']> (session c)) c in
            match o with
            | Err e => (Err e, (c', receive_buffer))
            | Panic => (Panic, (c', receive_buffer))
            | Ok decode_size =>
                match slice app_buffer 0 decode_size with
                | None => (Panic, (c', receive_buffer))
                | Some app =>
                    let '(o, receive_buffer') := decap_app app receive_buffer in
                    (let! used := o in Ok (used.1), (c', receive_buffer'))
                end
            end
        end
    end.

End Transfer.
End Context.

Module ContextLaws.
Import Context.

(** ** Session ids *)
Lemma half_of_spec r id :
  in_width 32 id → half_of r id = if r then id mod 2 ^ 16 else id / 2 ^ 16.
Proof.
  intros Hid. unfold in_width in Hid. unfold half_of, wrap. destruct r.
  - rewrite Z.shiftl_0_r, Z.shiftr_0_r. change 0xFFFF with (Z.ones 16).
    rewrite Z.land_ones by lia. apply Z.mod_mod. lia.
  - rewrite Z.shiftr_land, Z.shiftr_shiftl_l, Z.sub_diag, Z.shiftl_0_r by lia.
    change 0xFFFF with (Z.ones 16). rewrite Z.land_ones, Z.mod_mod, Z.shiftr_div_pow2 by lia.
    apply Z.mod_small. split; [apply Z.div_pos; lia|]. apply Z.div_lt_upper_bound; lia.
Qed.

(** The slot of a session in use shows in its half id. *)
Definition slot_ok (r : bool) (i : nat) (s : SpdmSession) : Prop :=
  session_id s = INVALID_SESSION_ID ∨
  in_width 32 (session_id s) ∧ half_of r (session_id s) = INITIAL_SESSION_ID - Z.of_nat i.
Definition ids_ok (r : bool) (c : SpdmContext) : Prop :=
  length (session c) = Z.to_nat MAX_SPDM_SESSION_COUNT ∧
  ∀ i s, session c !! i = Some s → slot_ok r i s.

Lemma slot_bound r c i s : ids_ok r c → session c !! i = Some s → (i < 4)%nat.
Proof. intros [Hl _] Hi. apply lookup_lt_Some in Hi. by rewrite Hl in Hi. Qed.

Lemma half_zero r c i s :
  ids_ok r c → session c !! i = Some s →
  half_of r (session_id s) = INVALID_HALF_SESSION_ID ↔ session_id s = INVALID_SESSION_ID.
Proof.
  intros Hc Hi. pose proof (slot_bound _ _ _ _ Hc Hi). destruct (proj2 Hc i s Hi) as [->|[_ Hh]].
  - by destruct r.
  - split; [|by intros ->; destruct r]. rewrite Hh. unfold INITIAL_SESSION_ID, INVALID_HALF_SESSION_ID. lia.
Qed.

Lemma next_half_free r c :
  ids_ok r c →
  match get_next_avaiable_session c with
  | Some (i, s) => session c !! i = Some s ∧ session_id s = INVALID_SESSION_ID ∧ (i < 4)%nat ∧
                   get_next_half_session_id r c = Ok (INITIAL_SESSION_ID - Z.of_nat i)
  | None => get_next_half_session_id r c = Err SPDM_STATUS_SESSION_NUMBER_EXCEED
  end.
Proof.
  intros Hc. unfold get_next_avaiable_session, get_session_via_id, get_next_half_session_id.
  destruct (list_find (λ s : SpdmSession, session_id s = 0) (session c)) as [[i s]|] eqn:Hf.
  - apply list_find_Some in Hf as (Hi & Hz & Hfirst). pose proof (slot_bound _ _ _ _ Hc Hi).
    rewrite (proj2 (list_find_Some (λ s : SpdmSession, half_of r (session_id s) = INVALID_HALF_SESSION_ID) _ i s)).
    + split_and!; try done. rewrite wrap_small by (unfold in_width; lia).
      unfold INITIAL_SESSION_ID. by replace (Z.of_nat i <=? 65533) with true by lia.
    + split_and!; [done|by eapply half_zero|]. intros j y Hj Hji Hh.
      apply (Hfirst j y Hj Hji). by eapply half_zero.
  - apply list_find_None in Hf. rewrite (proj2 (list_find_None _ _)); [done|].
    apply Forall_lookup. intros i s Hi Hh. rewrite Forall_lookup in Hf. apply (Hf i s Hi).
    by eapply half_zero.
Qed.

Lemma compose_id (r : bool) half peer :
  in_width 16 half → in_width 16 peer →
  let '(rsp, req) := if r then (peer, half) else (half, peer) in
  ∃ id, add_checked (E:=SpdmStatus) 32 (wrap 32 (Z.shiftl rsp 16)) req = Ok id ∧
        in_width 32 id ∧ half_of r id = half.
Proof.
  unfold in_width. intros Hh Hp.
  assert (∀ rsp req, 0 ≤ rsp < 2 ^ 16 → 0 ≤ req < 2 ^ 16 →
    add_checked (E:=SpdmStatus) 32 (wrap 32 (Z.shiftl rsp 16)) req = Ok (rsp * 2 ^ 16 + req) ∧
    0 ≤ rsp * 2 ^ 16 + req < 2 ^ 32) as Hid.
  { intros rsp req H1 H2. rewrite Z.shiftl_mul_pow2, wrap_small by (unfold in_width; lia).
    unfold add_checked. by replace (_ <? 2 ^ 32) with true by lia; split; [done|lia]. }
  destruct r.
  - destruct (Hid peer half) as [He Hw]; [done..|]. eexists. split; [exact He|]. split; [exact Hw|].
    rewrite half_of_spec by done. rewrite Z.add_comm, Z.mod_add by lia. by apply Z.mod_small.
  - destruct (Hid half peer) as [He Hw]; [done..|]. eexists. split; [exact He|]. split; [exact Hw|].
    rewrite half_of_spec by done. rewrite Z.add_comm, Z.div_add, Z.div_small by lia. lia.
Qed.

(** Opening a session fills the first free slot with a fresh id. *)
Lemma open_session_run r peer c :
  ids_ok r c → in_width 16 peer →
  match get_next_avaiable_session c with
  | None => open_session r peer c = (Err SPDM_STATUS_SESSION_NUMBER_EXCEED, c)
  | Some (i, s) => ∃ id s',
      open_session r peer c = (Ok id, with_session (<[i := s']> (session c)) c) ∧
      session c !! i = Some s ∧ session_id s' = id ∧ in_width 32 id ∧
      half_of r id = INITIAL_SESSION_ID - Z.of_nat i
  end.
Proof.
  intros Hc Hp. pose proof (next_half_free r c Hc) as Hn. unfold open_session. run.
  destruct (get_next_avaiable_session c) as [[i s]|] eqn:Ha.
  - destruct Hn as (Hi & Hz & Hb & Hh). rewrite (bind_lift _ _ _ _ Hh).
    pose proof (compose_id r (INITIAL_SESSION_ID - Z.of_nat i) peer) as Hid.
    assert (in_width 16 (INITIAL_SESSION_ID - Z.of_nat i)) as Hw by (unfold in_width, INITIAL_SESSION_ID; lia).
    destruct (if r then _ else _) as [rsp req]. destruct (Hid Hw Hp) as (id & He & Hid' & Hhalf).
    rewrite (bind_lift _ _ _ _ He). rewrite (SessionLaws.setup_ok id s Hz). run.
    rewrite (bind_lift _ _ _ _ eq_refl). do 2 eexists.
    do 4 (split; [done|]). done.
  - by unfold bind, lift; rewrite Hn.
Qed.

(** What happens to the table of one side: a session is opened, a session is
    used in place (which keeps its id, or clears it when the session ends), or
    the connection is reset. *)
Inductive table_step (r : bool) : SpdmContext → SpdmContext → Prop :=
| table_open peer id c c' :
    in_width 16 peer → open_session r peer c = (Ok id, c') → table_step r c c'
| table_use {A} id missing (m : M SpdmSession SpdmStatus A) o c c' :
    (∀ s, session_id (snd (m s)) = session_id s ∨ session_id (snd (m s)) = INVALID_SESSION_ID) →
    with_session_via_id id missing m c = (o, c') → table_step r c c'
| table_reset c : table_step r c (reset_context c).

Lemma ids_ok_insert r c i s :
  ids_ok r c → slot_ok r i s → ids_ok r (with_session (<[i := s]> (session c)) c).
Proof.
  intros [Hl Hs] Hi. split; [cbn; by rewrite length_insert|]. cbn. intros j s' Hj.
  apply list_lookup_insert_Some in Hj as [(-> & -> & _)|[_ Hj]]; [done|by apply Hs].
Qed.

Lemma table_step_ids r c c' : table_step r c c' → ids_ok r c → ids_ok r c'.
Proof.
  intros [peer id c0 c1 Hp Ho|A id missing m o c0 c1 Hm Hu|c0] Hc.
  - pose proof (open_session_run r peer c0 Hc Hp) as Hr.
    destruct (get_next_avaiable_session c0) as [[i s]|]; [|congruence].
    destruct Hr as (id' & s' & Hr & _ & Hid & Hw & Hh). rewrite Hr in Ho. injection Ho as -> <-.
    apply ids_ok_insert; [done|]. right. by rewrite Hid.
  - unfold with_session_via_id in Hu. destruct (get_session_via_id id c0) as [[i s]|] eqn:Hg;
      [|by injection Hu as <- <-].
    unfold get_session_via_id in Hg. apply list_find_Some in Hg as (Hi & _ & _). specialize (Hm s). destruct (m s) as [o' s'].
    injection Hu as <- <-. apply ids_ok_insert; [done|]. cbn in Hm. unfold slot_ok.
    destruct Hm as [->| ->]; [by apply (proj2 Hc)|by left].
  - destruct Hc as [Hl Hs]. split; [cbn; by rewrite length_fmap|]. cbn. intros i s Hi.
    apply list_lookup_fmap_Some in Hi as (s0 & -> & _). by left.
Qed.

Lemma new_ids r config provision : ids_ok r (new config provision).
Proof. split; [done|]. intros i s Hi. apply lookup_replicate in Hi as [-> _]. by left. Qed.

Lemma rtc_ids r c c' : rtc (table_step r) c c' → ids_ok r c → ids_ok r c'.
Proof. induction 1 as [|c c1 c2 Hs _ IH]; [done|]. intros Hc. by eapply IH, table_step_ids. Qed.

(** A half id tells the slot. *)
Lemma slot_of_half r c j i s :
  ids_ok r c → session c !! j = Some s → session_id s ≠ INVALID_SESSION_ID →
  half_of r (session_id s) = INITIAL_SESSION_ID - Z.of_nat i → i = j.
Proof. intros [_ Hs] Hj Hz Hh. destruct (Hs j s Hj) as [|[_ Hh']]; [done|]. lia. Qed.

Lemma same_half r c i j si sj :
  ids_ok r c → session c !! i = Some si → session c !! j = Some sj →
  session_id si ≠ INVALID_SESSION_ID → half_of r (session_id si) = half_of r (session_id sj) →
  session_id sj ≠ INVALID_SESSION_ID → i = j.
Proof.
  intros Hc Hi Hj Hz Hh Hz'. destruct (proj2 Hc i si Hi) as [|[_ Hi']]; [done|].
  eapply (slot_of_half r c j i sj); [done..|]. by rewrite <- Hh.
Qed.

Lemma fresh_half r c i s id :
  ids_ok r c → session c !! i = Some s → session_id s = INVALID_SESSION_ID → (i < 4)%nat →
  half_of r id = INITIAL_SESSION_ID - Z.of_nat i → get_immutable_session_via_id id c = None.
Proof.
  intros Hc Hi Hz Hb Hh. unfold get_immutable_session_via_id, get_session_via_id.
  rewrite (proj2 (list_find_None _ _)); [done|]. apply Forall_lookup. intros j s' Hj <-.
  assert (session_id s' ≠ INVALID_SESSION_ID) as Hz'.
  { intros H0. rewrite H0 in Hh. assert (half_of r INVALID_SESSION_ID = 0) by by destruct r.
    unfold INITIAL_SESSION_ID in Hh. lia. }
  rewrite (slot_of_half r c j i s') in Hi by done. congruence.
Qed.

Lemma find_inserted c i s id :
  is_Some (session c !! i) → session_id s = id →
  is_Some (get_immutable_session_via_id id (with_session (<[i := s]> (session c)) c)).
Proof.
  intros Hi Hid. unfold get_immutable_session_via_id, get_session_via_id. apply fmap_is_Some.
  eapply list_find_elem_of; [|exact Hid]. cbn. eapply list_elem_of_lookup_2.
  by apply list_lookup_insert_eq, lookup_lt_is_Some.
Qed.

(** ** Secured messages over a transport *)
Section Crossing.
Context `{TransportOk} `{CryptoOk}.
Import SecuredLaws.

(** The context after a record was sent or received with direction [r] of the
    session in slot [i]. *)
Definition counted (r : bool) (i : nat) (s : SpdmSession) (c : SpdmContext) : SpdmContext :=
  with_session (<[i := set_dir r (next (dir r s)) s]> (session c)) c.

Lemma slice_front {A} (l : list A) n : 0 ≤ n ≤ len l → slice l 0 n = Some (ztake n l).
Proof. intros. rewrite slice_spec by lia. by rewrite Z.sub_0_r, zdrop_0. Qed.

Lemma len_sealed s p app bs :
  0 ≤ sequence_number_count (transport_param s) → sealed s p app bs → bytes_wf bs ∧
  len bs = 6 + sequence_number_count (transport_param s) + (len app + 2) + 16.
Proof.
  intros Hc (c & t & _ & _ & _ & -> & Hlc & Hlt & Hwc & Hwt & _). split.
  - rewrite !bytes_wf_app. split_and!; [apply bytes_wf_aad|done|done].
  - rewrite !len_app. unfold header. rewrite len_aad; lia.
Qed.

(** Sending: what reaches the transport is a sealed record. *)
Lemma encode_secured_run id msg r is_app c i s n app tbuf :
  encap_app msg is_app (zeros SENDER_BUFFER_SIZE) = (Ok n, app) → 0 ≤ n ≤ len app → bytes_wf app →
  get_session_via_id id c = Some (i, s) → live s → ready s (dir r s) → n + 32 ≤ SENDER_BUFFER_SIZE →
  ∃ bs, sealed s (dir r s) (ztake n app) bs ∧
    encode_secured_message id msg r is_app (c, tbuf)
    = let '(o, tbuf') := encap bs true tbuf in (o, (counted r i s c, tbuf')).
Proof.
  intros He Hn Hw Hg Hl Hr Hs. pose proof Hr as (_ & _ & _ & _ & Hc & _).
  assert (len (zeros SENDER_BUFFER_SIZE) = 4160) as Hz by done. unfold SENDER_BUFFER_SIZE in Hs.
  destruct (encode_sealed r s (ztake n app) (zeros SENDER_BUFFER_SIZE)) as (bs & Hb & Hes);
    [done|done|auto with wfb|rewrite len_ztake by done; unfold SENDER_BUFFER_SIZE; lia
    |rewrite len_ztake by done; lia|].
  exists bs. split; [done|]. destruct (len_sealed s _ _ _ (proj1 Hc) Hb) as [_ Hlb].
  rewrite len_ztake in Hlb by done. unfold encode_secured_message.
  rewrite He, Hg, slice_front by done. rewrite Hes. rewrite slice_prefix by lia. done.
Qed.

(** Receiving: a sealed record, padded by the transport, is opened. *)
Lemma decode_secured_run id tb c j s bs tail app out :
  decap tb (zeros RECEIVER_BUFFER_SIZE)
    = (Ok (len bs + len tail, true), splice (zeros RECEIVER_BUFFER_SIZE) 0 (bs ++ tail)) →
  get_session_via_id id c = Some (j, s) → live s → ready s (dir false s) →
  sealed s (dir false s) app bs → bytes_wf app → bytes_wf tail →
  len app + 40 ≤ RECEIVER_BUFFER_SIZE → len tail ≤ 3 →
  decode_secured_message id tb (c, out)
  = let '(o, out') := decap_app app out in (let! used := o in Ok (used.1), (counted false j s c, out')).
Proof.
  intros Hd Hg Hl Hr Hs Hwa Hwt Hla Hlt. pose proof Hr as (_ & _ & Hseq & Hmax & Hc & _).
  destruct (len_sealed s _ _ _ (proj1 Hc) Hs) as [_ Hlb]. pose proof (len_nonneg app). pose proof (len_nonneg tail).
  assert (len (zeros RECEIVER_BUFFER_SIZE) = 4160) as Hz by done. unfold RECEIVER_BUFFER_SIZE in Hla.
  unfold decode_secured_message. rewrite Hd. cbn [negb]. rewrite Hg, <- len_app.
  rewrite slice_prefix by (rewrite len_app; lia).
  rewrite (decode_live_ok false s _ _ (len app) (splice (zeros RECEIVER_BUFFER_SIZE) 0 app)); [|done| |done..].
  - rewrite slice_prefix by lia. done.
  - apply decode_msg_sealed; try done; [unfold RECEIVER_BUFFER_SIZE|rewrite Hz]; lia.
Qed.

End Crossing.

(** ** Properties *)

(** C19: session ids do not collide.  After any sequence of opening sessions
    with ids chosen by the peer, using and ending them and resetting the
    connection, two sessions in use have different ids, the half id given to
    the next session is used by no other, and a session can be opened exactly
    when a slot is free; at most four are open at a time. *)
Theorem session_ids_distinct r config provision c :
  rtc (table_step r) (new config provision) c →
  (∀ i j si sj, session c !! i = Some si → session c !! j = Some sj → i ≠ j →
     session_id si ≠ INVALID_SESSION_ID → session_id si ≠ session_id sj) ∧
  (∀ h s, get_next_half_session_id r c = Ok h → s ∈ session c →
     session_id s ≠ INVALID_SESSION_ID → half_of r (session_id s) ≠ h) ∧
  (∀ peer, in_width 16 peer →
     match get_next_avaiable_session c with
     | Some _ => ∃ id c', open_session r peer c = (Ok id, c') ∧ get_immutable_session_via_id id c = None ∧
                          is_Some (get_immutable_session_via_id id c')
     | None => open_session r peer c = (Err SPDM_STATUS_SESSION_NUMBER_EXCEED, c)
     end) ∧
  length (session c) = 4%nat.
Proof.
  intros Hr. assert (ids_ok r c) as Hc by (eapply rtc_ids; [exact Hr|apply new_ids]).
  split; [|split; [|split]].
  - intros i j si sj Hi Hj Hij Hz Heq. apply Hij.
    by eapply (same_half r c i j si sj); rewrite <- ?Heq.
  - intros h s Hh [j Hj]%list_elem_of_lookup_1 Hz Heq. pose proof (next_half_free r c Hc) as Hn.
    destruct (get_next_avaiable_session c) as [[i s']|]; [|congruence].
    destruct Hn as (Hi & Hz' & Hb & Hn). rewrite Hn in Hh. injection Hh as <-.
    rewrite (slot_of_half r c j i s) in Hi by done. congruence.
  - intros peer Hp. pose proof (open_session_run r peer c Hc Hp) as Ho.
    destruct (get_next_avaiable_session c) as [[i s]|] eqn:Ha; [|done].
    pose proof (next_half_free r c Hc) as Hn. rewrite Ha in Hn. destruct Hn as (Hi & Hz & Hb & _).
    destruct Ho as (id & s' & Ho & _ & Hid & Hw & Hh). exists id. eexists. split; [exact Ho|].
    split; [|by eapply find_inserted]. by eapply fresh_half.
  - by destruct Hc.
Qed.

(** A secured message crosses the transport.  Over any transport that
    meets its contract, a message the responder sends in a session reaches a
    requester whose session holds the same response direction: the call that
    decodes it delivers exactly the message, with the padding of the transport
    removed; both sides count the record, stay paired for the next one, and
    change nothing else of their contexts. *)
Theorem secured_message_crosses `{TransportOk} `{CryptoOk} id msg is_app a b i j sa sb tbuf out :
  get_session_via_id id a = Some (i, sa) → get_session_via_id id b = Some (j, sb) →
  SecuredLaws.paired false sa sb → bytes_wf msg → bytes_wf tbuf →
  len msg + 64 ≤ SENDER_BUFFER_SIZE → len msg + 64 ≤ len tbuf → len msg ≤ len out →
  ∃ n tbuf', encode_secured_message id msg false is_app (a, tbuf) = (Ok n, (counted false i sa a, tbuf')) ∧
    decode_secured_message id (ztake n tbuf') (b, out)
    = (Ok (len msg), (counted false j sb b, splice out 0 msg)) ∧
    (sequence_number (SecuredLaws.dir false sa) + 1 ≠ U64_MAX →
     SecuredLaws.paired false (SecuredLaws.set_dir false (SecuredLaws.next (SecuredLaws.dir false sa)) sa)
       (SecuredLaws.set_dir false (SecuredLaws.next (SecuredLaws.dir false sb)) sb)).
Proof.
  intros Ha Hb Hp Hw Hwt Hs Ht Ho. unfold SENDER_BUFFER_SIZE in Hs. pose proof (len_nonneg msg).
  pose proof Hp as (Hl & Hst & _ & _ & Htp & Hdir & Hr). pose proof Hr as (_ & _ & _ & _ & Hc & _).
  destruct header_size_ok as [Hh Hah]. assert (len (zeros SENDER_BUFFER_SIZE) = 4160) as Hz by done.
  destruct (encap_app_decap_app msg is_app (zeros SENDER_BUFFER_SIZE) out)
    as (n0 & app & He & Hwapp & Hla & -> & Hda); [done|apply bytes_wf_zeros|lia|lia|].
  set (n0 := app_header_size + len msg) in *. assert (0 ≤ n0 ≤ len app) as Hn0 by lia.
  destruct (encode_secured_run id msg false is_app a i sa n0 app tbuf) as (bs & Hsl & Hrun);
    [done|done|done|done|done|done|unfold SENDER_BUFFER_SIZE; lia|].
  destruct (len_sealed sa _ _ _ (proj1 Hc) Hsl) as [Hwbs Hlbs]. rewrite len_ztake in Hlbs by lia.
  destruct (encap_decap bs true tbuf (zeros RECEIVER_BUFFER_SIZE))
    as (n & tbuf' & tail & Hen & _ & _ & _ & Hlt & Hwtail & Hde); [done|done|lia|lia| |].
  { change (len (zeros RECEIVER_BUFFER_SIZE)) with 4160. lia. }
  exists n, tbuf'. rewrite Hrun, Hen. split; [done|]. split; [|by apply SecuredLaws.paired_next].
  rewrite (decode_secured_run id _ b j sb bs tail (ztake n0 app) out Hde Hb).
  - by rewrite Hda.
  - unfold SecuredLaws.live. by rewrite Hst.
  - by eapply SecuredLaws.ready_pair.
  - by eapply SecuredLaws.sealed_pair.
  - auto with wfb.
  - exact Hwtail.
  - rewrite len_ztake by done. unfold RECEIVER_BUFFER_SIZE. lia.
  - exact Hlt.
Qed.

(** C20: bytes from the wire cannot crash the receiver: over any transport that
    meets its contract, decoding arbitrary bytes for an arbitrary session id
    never panics, returns a size within the caller's buffer, and leaves every
    session in the condition that makes the next call safe. *)
Theorem receive_never_panics `{TransportOk} `{CryptoOk} id tb c out :
  (∀ s, s ∈ session c → SecuredLaws.rx_ok false s) → bytes_wf tb → RECEIVER_BUFFER_SIZE ≤ len out →
  let '(o, (c', out')) := decode_secured_message id tb (c, out) in
  o ≠ Panic ∧ len out' = len out ∧ (∀ n, o = Ok n → 0 ≤ n ≤ len out) ∧
  (∀ s, s ∈ session c' → SecuredLaws.rx_ok false s).
Proof.
  intros Hrx Hw Ho. unfold RECEIVER_BUFFER_SIZE in Ho.
  assert (len (zeros RECEIVER_BUFFER_SIZE) = 4160) as Hz by done.
  unfold decode_secured_message. pose proof (decap_safe tb Hw (zeros RECEIVER_BUFFER_SIZE)) as Hd.
  destruct (decap tb _) as [[[used sec]|e|] encoded]; [|by split_and!|by destruct Hd].
  destruct Hd as (_ & Hle & _ & Hu & Hwe). specialize (Hu used sec eq_refl). specialize (Hwe (bytes_wf_zeros _)).
  destruct sec; cbn [negb]; [|by split_and!].
  destruct (get_session_via_id id c) as [[i s]|] eqn:Hg; [|by split_and!].
  unfold get_session_via_id in Hg. apply list_find_Some in Hg as (Hi & _ & _).
  rewrite slice_front by lia.
  pose proof (SecuredLaws.decode_safe false s (ztake used encoded) (zeros RECEIVER_BUFFER_SIZE)) as Hs.
  destruct (Secured.decode_spdm_secured_message _ _ _) as [o [s' app]].
  destruct Hs as (Hnp & Hla & _ & Hrx' & Hok); [by eapply Hrx, list_elem_of_lookup_2|auto with wfb| | |].
  { rewrite len_ztake by lia. unfold RECEIVER_BUFFER_SIZE. lia. }
  { rewrite len_ztake by lia. lia. }
  assert (∀ x, x ∈ <[i:=s']> (session c) → SecuredLaws.rx_ok false x) as Hall.
  { intros x [j Hj]%list_elem_of_lookup_1. apply list_lookup_insert_Some in Hj as [(-> & -> & _)|[_ Hj]]; [done|].
    by eapply Hrx, list_elem_of_lookup_2. }
  destruct o as [n|e|]; [|by split_and!|done]. destruct (Hok n eq_refl) as (m & -> & -> & Hlm & Hwm).
  rewrite slice_prefix by done. pose proof (decap_app_safe m out Hwm) as Hda.
  destruct (decap_app m out) as [o out']. destruct Hda as (Hnp' & Hlo & Hn); [lia|].
  destruct o as [[k b]|e|]; [|by split_and!|done]. specialize (Hn k b eq_refl).
  split_and!; [done..|intros n [= <-]; cbn; lia|done].
Qed.

End ContextLaws.

Module ContextExamples.
Import Context ContextLaws ToyRing.

Definition fresh_context : SpdmContext := new SpdmConfigInfo_default SpdmProvisionInfo_default.
(** The context after the responder opened a session for half id 5. *)
Definition one_session : SpdmContext := snd (open_session false 5 fresh_context).

Lemma session_ids_distinct_witness :
  get_next_half_session_id false one_session = Ok 0xFFFC ∧
  (∀ s, s ∈ session one_session → session_id s ≠ INVALID_SESSION_ID → half_of false (session_id s) ≠ 0xFFFC).
Proof.
  assert (rtc (table_step false) fresh_context one_session) as Hr.
  { apply rtc_once, (table_open false 5 0xFFFD0005); [by vm_compute|]. reflexivity. }
  assert (get_next_half_session_id false one_session = Ok 0xFFFC) as Hn by reflexivity.
  split; [exact Hn|]. intros s Hs Hz.
  exact (proj1 (proj2 (session_ids_distinct false _ _ _ Hr)) 0xFFFC s Hn Hs Hz).
Defined.

(** Two contexts that share the session of [SecuredExamples.s256]. *)
Definition in_session : SpdmContext := with_session (SecuredExamples.s256 5 :: replicate 3 Session.new) fresh_context.

Lemma secured_message_crosses_witness :
  ∃ n buf a b,
    encode_secured_message (H := Mctp.transport) (H0 := toy_crypto) 0xFFFEFFFE [1; 2; 3] false false
      (in_session, zeros 128) = (Ok n, (a, buf)) ∧
    decode_secured_message (H := Mctp.transport) (H0 := toy_crypto) 0xFFFEFFFE (ztake n buf)
      (in_session, zeros 8) = (Ok 3, (b, splice (zeros 8) 0 [1; 2; 3])).
Proof.
  destruct (secured_message_crosses (H0 := MctpLaws.mctp_transport_ok) (H2 := toy_crypto_ok)
    0xFFFEFFFE [1; 2; 3] false in_session in_session 0 0 (SecuredExamples.s256 5) (SecuredExamples.s256 5) (zeros 128) (zeros 8))
    as (n & buf & He & Hd & _); [reflexivity|reflexivity|apply SecuredExamples.s256_paired|SecuredExamples.bytes_ok|apply bytes_wf_zeros
    |by vm_compute|by vm_compute|by vm_compute|].
  exists n, buf. do 2 eexists. split; [exact He|exact Hd].
Defined.

Lemma receive_never_panics_witness :
  let '(o, (c', out')) := decode_secured_message (H := Mctp.transport) (H0 := toy_crypto) 0xFFFEFFFE
                            (6 :: replicate 40 254) (in_session, zeros RECEIVER_BUFFER_SIZE) in
  o ≠ Panic ∧ len out' = len (zeros RECEIVER_BUFFER_SIZE) ∧
  (∀ n, o = Ok n → 0 ≤ n ≤ len (zeros RECEIVER_BUFFER_SIZE)) ∧
  (∀ s, s ∈ session c' → SecuredLaws.rx_ok false s).
Proof.
  apply (receive_never_panics (H0 := MctpLaws.mctp_transport_ok) (H2 := toy_crypto_ok)); [|SecuredExamples.bytes_ok|by vm_compute].
  intros s Hs. change (s ∈ SecuredExamples.s256 5 :: replicate 3 Session.new) in Hs.
  apply elem_of_cons in Hs as [->|Hs]; [apply SecuredExamples.s256_rx_ok|].
  apply elem_of_replicate in Hs as [-> _]. by intros [].
Defined.

End ContextExamples.
