(* ===== verification/Transcript.v ===== *)
(** * Transcripts

    Models the transcript management of [SpdmContext] in
    src/spdmlib/src/common/mod.rs: message A and the hash contexts for M1/M2,
    L1/L2 and TH of the default feature [hashed-transcript-data], the reset of
    transcripts by the code of the next request, and the plain-buffer variant
    of the key-exchange transcript ([calc_req_transcript_data] and
    [calc_rsp_transcript_data]), which serves as the reference.  Proved: which
    bytes each digest covers, that the incremental digest is the one of the
    reference transcript (for PSK sessions when there is no vendor-defined
    transcript before the exchange), and that the two ends of a connection compute the
    same transcript. *)

From S2P Require Import Prelude Codec Status Bitflags Algo DataTypes Version.
From S2P Require Import Crypto HashCtx ManagedBuffer CertChain Session Header ContextData Context.

Module Transcript.
Import Context.

(** ** Message A *)
Definition append_message_a (new_message : list Z) : M SpdmContext SpdmStatus unit :=
  λ c, let '(o, b) := append_message new_message (message_a (runtime_info c)) in
       (map_err (λ _, SPDM_STATUS_BUFFER_FULL) (let! _ := o in Ok tt), upd_runtime (with_message_a b) c).
Definition reset_message_a (c : SpdmContext) : SpdmContext :=
  upd_runtime (with_message_a (reset_message (message_a (runtime_info c)))) c.

(** ** M1/M2

    [append_message_b] and [append_message_c] differ in the error of a failed
    initialisation only. *)
Definition append_m1m2 (init_err : SpdmStatus) (new_message : list Z) : M SpdmContext SpdmStatus unit :=
  let* c := get in
  let is_empty_context := match digest_context_m1m2 (runtime_info c) with None => true | Some _ => false end in
  let* _ :=
    if is_empty_context then
      modify (upd_runtime (with_digest_context_m1m2 (hash_ctx_init (base_hash_sel (negotiate_info c)))))
    else ret tt in
  let* c := get in
  match digest_context_m1m2 (runtime_info c) with
  | None => throw init_err
  | Some ctx =>
      let* ctx :=
        if is_empty_context then
          let* a := lift (mb_as_ref (message_a (runtime_info c))) in ret (hash_ctx_update ctx a)
        else ret ctx in
      modify (upd_runtime (with_digest_context_m1m2 (Some (hash_ctx_update ctx new_message))))
  end.
Definition append_message_b : list Z → M SpdmContext SpdmStatus unit :=
  append_m1m2 SPDM_STATUS_INVALID_STATE_LOCAL.
Definition append_message_c : list Z → M SpdmContext SpdmStatus unit :=
  append_m1m2 SPDM_STATUS_CRYPTO_ERROR.
Definition reset_message_b (c : SpdmContext) : SpdmContext := upd_runtime (with_digest_context_m1m2 None) c.
Definition reset_message_c (c : SpdmContext) : SpdmContext := upd_runtime (with_digest_context_m1m2 None) c.

(** ** L1/L2

    The body shared by the session's and the connection's context. *)
Definition append_l1l2 (base_hash : SpdmBaseHashAlgo) (ver : SpdmVersion) (a : ManagedBufferA)
    (new_message : list Z) : M (option SpdmHashCtx) SpdmStatus unit :=
  let* ctx := get in
  let is_empty_context := match ctx with None => true | Some _ => false end in
  let* _ := if is_empty_context then modify (λ _, hash_ctx_init base_hash) else ret tt in
  let* ctx := get in
  match ctx with
  | None => throw SPDM_STATUS_CRYPTO_ERROR
  | Some ctx =>
      let* ctx :=
        if is_empty_context && version_leb SpdmVersion12 ver then
          let* a := lift (mb_as_ref a) in ret (hash_ctx_update ctx a)
        else ret ctx in
      modify (λ _, Some (hash_ctx_update ctx new_message))
  end.

Definition append_message_m (id : option u32) (new_message : list Z) : M SpdmContext SpdmStatus unit :=
  λ c,
    let append := append_l1l2 (base_hash_sel (negotiate_info c)) (spdm_version_sel (negotiate_info c))
                    (message_a (runtime_info c)) new_message in
    match id with
    | Some id =>
        with_session_via_id id (Err SPDM_STATUS_INVALID_STATE_LOCAL)
          (λ s, let '(o, ctx) := append (ses_digest_context_l1l2 (ses_runtime_info s)) in
                (o, with_ses_runtime_info (with_ses_digest_context_l1l2 ctx (ses_runtime_info s)) s)) c
    | None =>
        let '(o, ctx) := append (digest_context_l1l2 (runtime_info c)) in
        (o, upd_runtime (with_digest_context_l1l2 ctx) c)
    end.
Definition reset_message_m (id : option u32) (c : SpdmContext) : SpdmContext :=
  match id with
  | Some id =>
      snd (with_session_via_id id (Ok tt)
             (modify (λ s, with_ses_runtime_info
                             (with_ses_digest_context_l1l2 None (ses_runtime_info s)) s)) c)
  | None => upd_runtime (with_digest_context_l1l2 None) c
  end.

(** ** TH *)
Definition upd_th (ctx : option SpdmHashCtx) (s : SpdmSession) : SpdmSession :=
  with_ses_runtime_info (with_digest_context_th ctx (ses_runtime_info s)) s.
(** [hash_ctx_update(session.runtime_info.digest_context_th.as_mut().unwrap(), data)?] *)
Definition th_update (data : list Z) : M SpdmSession SpdmStatus unit :=
  let* s := get in
  match digest_context_th (ses_runtime_info s) with
  | Some ctx => modify (upd_th (Some (hash_ctx_update ctx data)))
  | None => panic
  end.

(** The first update of a session: message A, then what identifies the
    responder. *)
Definition th_first (vdm_transcript : option ManagedVdmBuffer) : M SpdmSession SpdmStatus unit :=
  let* s := get in
  let* _ := modify (upd_th (hash_ctx_init (base_hash_algo (crypto_param s)))) in
  let* s := get in
  match digest_context_th (ses_runtime_info s) with
  | None => throw SPDM_STATUS_CRYPTO_ERROR
  | Some _ =>
      let* a := lift (mb_as_ref (ses_message_a (ses_runtime_info s))) in
      let* _ := th_update a in
      match vdm_transcript, rsp_cert_hash (ses_runtime_info s) with
      | Some vdm, _ => let* v := lift (mb_as_ref vdm) in th_update v
      | None, Some cert_hash => let* h := lift (sens_as_ref cert_hash) in th_update h
      | None, None => ret tt
      end
  end.

Definition append_message_k (id : u32) (new_message : list Z) : M SpdmContext SpdmStatus unit :=
  let* c := get in
  let vdm_transcript := vdm_message_transcript_before_key_exchange (runtime_info c) in
  with_session_via_id id (Err SPDM_STATUS_INVALID_STATE_LOCAL)
    (let* s := get in
     let* _ := match digest_context_th (ses_runtime_info s) with
               | None => th_first vdm_transcript
               | Some _ => ret tt
               end in
     th_update new_message).
(** Panics when there is no such session. *)
Definition reset_message_k (id : u32) : M SpdmContext SpdmStatus unit :=
  with_session_via_id id Panic (modify (upd_th None)).
Definition reset_message_f (id : u32) : M SpdmContext SpdmStatus unit :=
  with_session_via_id id Panic (modify (upd_th None)).

Section Crypto.
Context `{SpdmCrypto}.

(** [..[slot_id as usize]]: an array access, with its bound check. *)
Definition slot {E A} (l : list (option A)) (slot_id : u8) : outcome E (option A) := or_panic (znth l slot_id).
Definition hash_or (h : SpdmBaseHashAlgo) (d : list Z) : SpdmResult SpdmDigestStruct :=
  map_err (λ _, SPDM_STATUS_CRYPTO_ERROR) (hash_all h d).

(** The digest of the certificate chain or public key of the requester that
    [append_message_f] adds; a failed hash of a public key is skipped. *)
Definition mut_cert_digest (is_requester : bool) (c : SpdmContext) : SpdmResult (option SpdmDigestStruct) :=
  let h := base_hash_sel (negotiate_info c) in
  let of_pub_key pk :=
    let! pk := ok_or pk SPDM_STATUS_INVALID_PARAMETER in
    let! d := CertChainData.as_ref pk in
    match hash_all h d with Ok x => Ok (Some x) | Err _ => Ok None | Panic => Panic end in
  let of_chain chain :=
    match chain with
    | Some chain => let! d := CertChainBuffer.as_ref chain in let! x := hash_or h d in Ok (Some x)
    | None => Err SPDM_STATUS_INVALID_STATE_LOCAL
    end in
  if is_requester then
    let slot_id := local_used_cert_chain_slot_id (runtime_info c) in
    if slot_id =? SPDM_PUB_KEY_SLOT_ID_KEY_EXCHANGE_RSP then of_pub_key (my_pub_key (provision_info c))
    else let! chain := slot (my_cert_chain (provision_info c)) slot_id in of_chain chain
  else
    let slot_id := peer_used_cert_chain_slot_id (runtime_info c) in
    if slot_id =? SPDM_PUB_KEY_SLOT_ID_KEY_EXCHANGE_RSP then of_pub_key (peer_pub_key (provision_info c))
    else let! chain := slot (peer_cert_chain (peer_info c)) slot_id in of_chain chain.

Definition append_message_f (is_requester : bool) (id : u32) (new_message : list Z) :
    M SpdmContext SpdmStatus unit :=
  let* c := get in
  let* s := lift (ok_or (get_immutable_session_via_id id c) SPDM_STATUS_INVALID_STATE_LOCAL) in
  let rt := ses_runtime_info s in
  match digest_context_th rt with
  | None => throw SPDM_STATUS_INVALID_STATE_LOCAL
  | Some _ =>
      let* _ :=
        if negb (message_f_initialized rt) then
          let* _ :=
            if negb (use_psk s) && negb (is_empty (mut_auth_requested s)) then
              match vdm_message_transcript_before_finish rt with
              | Some vdm =>
                  with_session_via_id id (Err SPDM_STATUS_INVALID_STATE_LOCAL)
                    (let* v := lift (mb_as_ref vdm) in th_update v)
              | None =>
                  let* digest := lift (mut_cert_digest is_requester c) in
                  match digest with
                  | Some digest =>
                      with_session_via_id id (Err SPDM_STATUS_INVALID_STATE_LOCAL)
                        (let* d := lift (sens_as_ref digest) in th_update d)
                  | None => ret tt
                  end
              end
            else ret tt in
          with_session_via_id id (Err SPDM_STATUS_INVALID_STATE_LOCAL)
            (modify (λ s, with_ses_runtime_info (with_message_f_initialized true (ses_runtime_info s)) s))
        else ret tt in
      with_session_via_id id (Err SPDM_STATUS_INVALID_STATE_LOCAL) (th_update new_message)
  end.

(** [calc_req_transcript_hash] and [calc_rsp_transcript_hash] *)
Definition calc_transcript_hash (s : SpdmSession) : SpdmResult SpdmDigestStruct :=
  let! ctx := ok_or (digest_context_th (ses_runtime_info s)) SPDM_STATUS_INVALID_STATE_LOCAL in
  map_err (λ _, SPDM_STATUS_CRYPTO_ERROR) (hash_ctx_finalize ctx).

Definition get_certchain_hash_local (psk : bool) (slot_id : usize) (c : SpdmContext) :
    outcome unit SpdmDigestStruct :=
  if psk then Err tt else
  let! chain := slot (my_cert_chain (provision_info c)) slot_id in
  let! chain := ok_or chain tt in
  let! d := CertChainBuffer.as_ref chain in
  let! h := hash_all (base_hash_sel (negotiate_info c)) d in
  let! h := sens_as_ref h in
  sens_from h.
Definition get_certchain_hash_peer (psk : bool) (slot_id : usize) (c : SpdmContext) :
    outcome unit SpdmDigestStruct :=
  if psk then Err tt else
  let! chain := slot (peer_cert_chain (peer_info c)) slot_id in
  let! chain := ok_or chain tt in
  let! d := CertChainBuffer.as_ref chain in
  let! h := hash_all (base_hash_sel (negotiate_info c)) d in
  let! h := sens_as_ref h in
  sens_from h.

(** ** The reference transcript

    The variant without [hashed-transcript-data] collects the transcript in a
    buffer and hashes it at the end. *)
Definition th_append (bs : list Z) : M ManagedBufferTH SpdmStatus unit :=
  let* _ := map_errM (λ _, SPDM_STATUS_BUFFER_FULL) (append_message bs) in ret tt.
Definition th_append_buf {k} (b : mbuf k) : M ManagedBufferTH SpdmStatus unit :=
  let* bs := lift (mb_as_ref b) in th_append bs.

(** The digest of a public key, or of the chain in a slot; [missing] is the
    error of a slot that is not populated. *)
Definition identity_hash (h : SpdmBaseHashAlgo) (pub_key_slot : u8) (missing : SpdmStatus) (slot_id : u8)
    (pub_key : option SpdmCertChainData) (chains : list (option SpdmCertChainBuffer)) :
    SpdmResult SpdmDigestStruct :=
  if slot_id =? pub_key_slot then
    let! pk := ok_or pub_key SPDM_STATUS_INVALID_PARAMETER in
    let! d := CertChainData.as_ref pk in
    hash_or h d
  else
    let! chain := slot chains slot_id in
    let! chain := ok_or chain missing in
    let! d := CertChainBuffer.as_ref chain in
    hash_or h d.

(** The transcript in terms of the identities of the responder (before K) and
    of the requester (before F, with mutual authentication). *)
Definition transcript_data (c : SpdmContext) (psk is_mut_auth : bool)
    (rsp_identity req_identity : SpdmResult SpdmDigestStruct) (message_k : ManagedBufferK)
    (message_f : option ManagedBufferF) (vdm_transcript_before_finish : option ManagedVdmBuffer) :
    M ManagedBufferTH SpdmStatus unit :=
  let* _ := th_append_buf (message_a (runtime_info c)) in
  let* _ :=
    if negb psk then
      match vdm_message_transcript_before_key_exchange (runtime_info c) with
      | Some vdm => th_append_buf vdm
      | None =>
          let* cert_chain_hash := lift rsp_identity in
          let* h := lift (sens_as_ref cert_chain_hash) in
          th_append h
      end
    else ret tt in
  let* _ := th_append_buf message_k in
  let* _ :=
    if negb psk && is_mut_auth then
      match vdm_transcript_before_finish with
      | Some vdm => th_append_buf vdm
      | None =>
          let* cert_chain_hash := lift req_identity in
          let* h := lift (sens_as_ref cert_chain_hash) in
          th_append h
      end
    else ret tt in
  match message_f with
  | Some message_f => th_append_buf message_f
  | None => ret tt
  end.

(** [Ok(message)] *)
Definition finish_data (m : M ManagedBufferTH SpdmStatus unit) : SpdmResult ManagedBufferTH :=
  let '(o, message) := m mb_default in let! _ := o in Ok message.

Definition calc_req_transcript_data (c : SpdmContext) (psk is_mut_auth : bool)
    (message_k : ManagedBufferK) (message_f : option ManagedBufferF)
    (vdm_transcript_before_finish : option ManagedVdmBuffer) : SpdmResult ManagedBufferTH :=
  let h := base_hash_sel (negotiate_info c) in
  finish_data (transcript_data c psk is_mut_auth
    (identity_hash h SPDM_PUB_KEY_SLOT_ID_KEY_EXCHANGE SPDM_STATUS_INVALID_PARAMETER
       (peer_used_cert_chain_slot_id (runtime_info c)) (peer_pub_key (provision_info c))
       (peer_cert_chain (peer_info c)))
    (identity_hash h SPDM_PUB_KEY_SLOT_ID_KEY_EXCHANGE_RSP SPDM_STATUS_INVALID_PARAMETER
       (local_used_cert_chain_slot_id (runtime_info c)) (my_pub_key (provision_info c))
       (my_cert_chain (provision_info c)))
    message_k message_f vdm_transcript_before_finish).
Definition calc_rsp_transcript_data (c : SpdmContext) (psk is_mut_auth : bool)
    (message_k : ManagedBufferK) (message_f : option ManagedBufferF)
    (vdm_transcript_before_finish : option ManagedVdmBuffer) : SpdmResult ManagedBufferTH :=
  let h := base_hash_sel (negotiate_info c) in
  finish_data (transcript_data c psk is_mut_auth
    (identity_hash h SPDM_PUB_KEY_SLOT_ID_KEY_EXCHANGE SPDM_STATUS_INVALID_STATE_LOCAL
       (local_used_cert_chain_slot_id (runtime_info c)) (my_pub_key (provision_info c))
       (my_cert_chain (provision_info c)))
    (identity_hash h SPDM_PUB_KEY_SLOT_ID_KEY_EXCHANGE_RSP SPDM_STATUS_INVALID_PARAMETER
       (peer_used_cert_chain_slot_id (runtime_info c)) (peer_pub_key (provision_info c))
       (peer_cert_chain (peer_info c)))
    message_k message_f vdm_transcript_before_finish).

End Crypto.

(** ** Reset by the code of a request *)
Definition reset_buffer_via_request_code (opcode : SpdmRequestResponseCode) (id : option u32)
    (c : SpdmContext) : SpdmContext :=
  let c := if decide (opcode = SpdmRequestGetMeasurements) then c else reset_message_m id c in
  match opcode with
  | SpdmRequestGetMeasurements | SpdmRequestKeyExchange | SpdmRequestFinish | SpdmRequestPskExchange
  | SpdmRequestPskFinish | SpdmRequestKeyUpdate | SpdmRequestHeartbeat | SpdmRequestEndSession =>
      if get_int (connection_state (runtime_info c)) <? get_int SpdmConnectionAuthenticated
      then reset_message_c (reset_message_b c) else c
  | SpdmRequestGetDigests => reset_message_b c
  | _ => c
  end.

End Transcript.

Module TranscriptLaws.
Import Context Transcript.

(** Appending several messages in turn. *)
Fixpoint each {S A} (f : A → M S SpdmStatus unit) (msgs : list A) : M S SpdmStatus unit :=
  match msgs with
  | [] => ret tt
  | m :: msgs => let* _ := f m in each f msgs
  end.

(** An algorithm the hash contexts support. *)
Definition hashable (h : SpdmBaseHashAlgo) : Prop := hash_ctx_init h = Some (mkHashCtx h []).

(** ** M1/M2 *)

(** The bytes the context covers; message A is what a fresh one starts with. *)
Definition m1m2_data (c : SpdmContext) : list Z :=
  match digest_context_m1m2 (runtime_info c) with
  | Some ctx => hc_data ctx
  | None => mb_content (message_a (runtime_info c))
  end.
Definition set_m1m2 (d : list Z) (c : SpdmContext) : SpdmContext :=
  upd_runtime (with_digest_context_m1m2 (Some (mkHashCtx (base_hash_sel (negotiate_info c)) d))) c.
Definition m1m2_ok (c : SpdmContext) : Prop :=
  hashable (base_hash_sel (negotiate_info c)) ∧ mb_wf (message_a (runtime_info c)) ∧
  match digest_context_m1m2 (runtime_info c) with
  | Some ctx => hc_algo ctx = base_hash_sel (negotiate_info c)
  | None => True
  end.

Lemma append_m1m2_run e m c : m1m2_ok c → append_m1m2 e m c = (Ok tt, set_m1m2 (m1m2_data c ++ m) c).
Proof.
  intros (Hh & Ha & Hc). unfold append_m1m2, set_m1m2, m1m2_data. run.
  destruct (digest_context_m1m2 (runtime_info c)) as [ctx|] eqn:Hd.
  - run. rewrite Hd. run. unfold modify, hash_ctx_update. by rewrite Hc.
  - run. cbn [runtime_info upd_runtime with_runtime_info digest_context_m1m2 with_digest_context_m1m2].
    rewrite Hh. rewrite bind_assoc. cbn [message_a]. rewrite mb_as_ref_ok by done.
    rewrite (bind_lift _ _ _ _ eq_refl). done.
Qed.

Lemma m1m2_set d c : m1m2_ok c → m1m2_ok (set_m1m2 d c) ∧ m1m2_data (set_m1m2 d c) = d.
Proof. intros (Hh & Ha & _). split; [|done]. split; [exact Hh|]. split; [exact Ha|done]. Qed.

Lemma each_m1m2_run msgs : ∀ c, m1m2_ok c → msgs ≠ [] →
  each (λ m : bool * list Z, if m.1 then append_message_b m.2 else append_message_c m.2) msgs c
  = (Ok tt, set_m1m2 (m1m2_data c ++ concat (msgs.*2)) c).
Proof.
  induction msgs as [|[b m] msgs IH]; intros c Hc Hne; [done|]. cbn [each fmap list_fmap fst snd concat].
  unfold bind at 1. replace ((if b then append_message_b m else append_message_c m) c)
    with (Ok tt : SpdmResult unit, set_m1m2 (m1m2_data c ++ m) c)
    by (destruct b; unfold append_message_b, append_message_c; by rewrite append_m1m2_run).
  cbv beta iota. destruct (decide (msgs = [])) as [->|Hm]; [cbn; by rewrite app_nil_r|].
  destruct (m1m2_set (m1m2_data c ++ m) c Hc) as [Hc' Hd]. rewrite (IH _ Hc' Hm), Hd.
  rewrite <- app_assoc. done.
Qed.

(** ** L1/L2 *)
Definition l1l2_start (ver : SpdmVersion) (a : ManagedBufferA) : list Z :=
  if version_leb SpdmVersion12 ver then mb_content a else [].
Definition l1l2_data (ver : SpdmVersion) (a : ManagedBufferA) (ctx : option SpdmHashCtx) : list Z :=
  match ctx with Some ctx => hc_data ctx | None => l1l2_start ver a end.

Lemma append_l1l2_run h ver a m ctx :
  hashable h → mb_wf a → match ctx with Some x => hc_algo x = h | None => True end →
  append_l1l2 h ver a m ctx = (Ok tt, Some (mkHashCtx h (l1l2_data ver a ctx ++ m))).
Proof.
  intros Hh Ha Hc. unfold append_l1l2, l1l2_data, l1l2_start. run. destruct ctx as [ctx|].
  - run. cbn [andb]. run. unfold modify, hash_ctx_update. by rewrite Hc.
  - run. rewrite Hh. cbn [andb]. destruct (version_leb SpdmVersion12 ver); [|done].
    rewrite bind_assoc, mb_as_ref_ok by done. by rewrite (bind_lift _ _ _ _ eq_refl).
Qed.

Section L1L2.
Context (h : SpdmBaseHashAlgo) (ver : SpdmVersion) (a : ManagedBufferA).
Hypothesis (Hh : hashable h) (Ha : mb_wf a).

Definition l1l2_ok (ctx : option SpdmHashCtx) : Prop := from_option (λ x, hc_algo x = h) True ctx.
Definition l1l2_next (ctx : option SpdmHashCtx) (d : list Z) : option SpdmHashCtx :=
  Some (mkHashCtx h (l1l2_data ver a ctx ++ d)).
Lemma l1l2_next_next ctx m d : l1l2_next (l1l2_next ctx m) d = l1l2_next ctx (m ++ d).
Proof. unfold l1l2_next. cbn. by rewrite app_assoc. Qed.

Lemma append_l1l2_next m ctx : l1l2_ok ctx → append_l1l2 h ver a m ctx = (Ok tt, l1l2_next ctx m).
Proof using Hh Ha. intros Hc. apply append_l1l2_run; [done..|]. by destruct ctx. Qed.
End L1L2.

(** ** A session in its slot *)
Definition put_session (i : nat) (s : SpdmSession) (c : SpdmContext) : SpdmContext :=
  with_session (<[i := s]> (session c)) c.

Lemma find_put id i s s' c :
  get_session_via_id id c = Some (i, s) → session_id s' = session_id s →
  get_session_via_id id (put_session i s' c) = Some (i, s').
Proof.
  unfold get_session_via_id. rewrite !list_find_Some. cbn. intros (Hi & Hid & Hfirst) Hs.
  split_and!; [apply list_lookup_insert_eq; by eapply lookup_lt_Some|by rewrite Hs|].
  intros j y Hj Hji. rewrite list_lookup_insert_ne in Hj by lia. by apply (Hfirst j y).
Qed.
Lemma put_session_twice i s s' c : put_session i s' (put_session i s c) = put_session i s' c.
Proof. unfold put_session. cbn. by rewrite list_insert_insert_eq. Qed.
Lemma put_same id i s c : get_session_via_id id c = Some (i, s) → put_session i s c = c.
Proof.
  unfold get_session_via_id. rewrite list_find_Some. intros (Hi & _). unfold put_session.
  rewrite list_insert_id by done. by destruct c.
Qed.

(** A computation on the session in its slot. *)
Lemma run_session {A} id i s c missing (m : M SpdmSession SpdmStatus A) o s' :
  get_session_via_id id c = Some (i, s) → m s = (o, s') →
  with_session_via_id id missing m c = (o, put_session i s' c).
Proof. intros Hg Hm. unfold with_session_via_id. by rewrite Hg, Hm. Qed.

Lemma each_m_none_run msgs : ∀ c,
  let h := base_hash_sel (negotiate_info c) in
  let ver := spdm_version_sel (negotiate_info c) in
  let a := message_a (runtime_info c) in
  hashable h → mb_wf a → l1l2_ok h (digest_context_l1l2 (runtime_info c)) → msgs ≠ [] →
  each (append_message_m None) msgs c
  = (Ok tt, upd_runtime (with_digest_context_l1l2
              (l1l2_next h ver a (digest_context_l1l2 (runtime_info c)) (concat msgs))) c).
Proof.
  induction msgs as [|m msgs IH]; intros c h ver a Hh Ha Hc Hne; [done|]. cbn [each concat]. unfold bind at 1.
  unfold append_message_m at 1. cbv zeta. fold h ver a. rewrite append_l1l2_next by done. cbv beta iota.
  destruct (decide (msgs = [])) as [->|Hm]; [by rewrite app_nil_r|].
  rewrite IH by done. rewrite <- l1l2_next_next. done.
Qed.

Lemma each_m_session_run id i msgs : ∀ c s,
  let h := base_hash_sel (negotiate_info c) in
  let ver := spdm_version_sel (negotiate_info c) in
  let a := message_a (runtime_info c) in
  let rt := ses_runtime_info s in
  hashable h → mb_wf a → get_session_via_id id c = Some (i, s) →
  l1l2_ok h (ses_digest_context_l1l2 rt) → msgs ≠ [] →
  each (append_message_m (Some id)) msgs c
  = (Ok tt, put_session i (with_ses_runtime_info (with_ses_digest_context_l1l2
              (l1l2_next h ver a (ses_digest_context_l1l2 rt) (concat msgs)) rt) s) c).
Proof.
  induction msgs as [|m msgs IH]; intros c s h ver a rt Hh Ha Hg Hc Hne; [done|]. cbn [each concat].
  unfold bind at 1. unfold append_message_m at 1. cbv zeta. fold h ver a.
  erewrite run_session; [|done|by rewrite append_l1l2_next]. cbv beta iota. fold rt.
  destruct (decide (msgs = [])) as [->|Hm]; [by rewrite app_nil_r|].
  set (s1 := with_ses_runtime_info _ s). rewrite (IH _ s1) by (done || by eapply find_put).
  rewrite put_session_twice, <- l1l2_next_next. done.
Qed.

(** ** TH *)
Section TH.
Context `{CryptoOk}.

Lemma th_update_run d s ctx :
  digest_context_th (ses_runtime_info s) = Some ctx →
  th_update d s = (Ok tt, upd_th (Some (hash_ctx_update ctx d)) s).
Proof. intros Hd. unfold th_update. run. by rewrite Hd. Qed.

(** What the transcript starts with: message A and what identifies the
    responder. *)
Definition vdm_content (o : option ManagedVdmBuffer) : list Z := from_option mb_content [] o.
Definition th_identity (vdm : option ManagedVdmBuffer) (s : SpdmSession) : list Z :=
  match vdm with
  | Some v => mb_content v
  | None => from_option content [] (rsp_cert_hash (ses_runtime_info s))
  end.
Definition th_session_ok (s : SpdmSession) : Prop :=
  hashable (base_hash_algo (crypto_param s)) ∧ mb_wf (ses_message_a (ses_runtime_info s)) ∧
  from_option sens_wf True (rsp_cert_hash (ses_runtime_info s)).

Lemma th_first_run vdm s :
  th_session_ok s → from_option mb_wf True vdm →
  th_first vdm s
  = (Ok tt, upd_th (Some (mkHashCtx (base_hash_algo (crypto_param s))
              (mb_content (ses_message_a (ses_runtime_info s)) ++ th_identity vdm s))) s).
Proof.
  intros (Hh & Ha & Hr) Hv. unfold th_first. run. rewrite Hh.
  cbn [upd_th ses_runtime_info with_ses_runtime_info digest_context_th with_digest_context_th
       ses_message_a rsp_cert_hash]. rewrite mb_as_ref_ok by done. rewrite (bind_lift _ _ _ _ eq_refl).
  unfold bind at 1. erewrite th_update_run by done. cbv beta iota. unfold th_identity.
  destruct vdm as [v|]; [|destruct (rsp_cert_hash (ses_runtime_info s)) as [h|]].
  - rewrite mb_as_ref_ok by done. rewrite (bind_lift _ _ _ _ eq_refl). erewrite th_update_run; [|reflexivity]; reflexivity.
  - rewrite sens_as_ref_ok by done. rewrite (bind_lift _ _ _ _ eq_refl). erewrite th_update_run; [|reflexivity]; reflexivity.
  - cbn. by rewrite app_nil_r.
Qed.

(** The bytes the session's transcript covers, and the session with another
    transcript. *)
Definition th_data (vdm : option ManagedVdmBuffer) (s : SpdmSession) : list Z :=
  match digest_context_th (ses_runtime_info s) with
  | Some ctx => hc_data ctx
  | None => mb_content (ses_message_a (ses_runtime_info s)) ++ th_identity vdm s
  end.
Definition th_state (s : SpdmSession) (d : list Z) : SpdmSession :=
  upd_th (Some (mkHashCtx (base_hash_algo (crypto_param s)) d)) s.
Definition th_ok (s : SpdmSession) : Prop :=
  th_session_ok s ∧
  from_option (λ ctx, hc_algo ctx = base_hash_algo (crypto_param s)) True
    (digest_context_th (ses_runtime_info s)).

Lemma append_k_run id i s c m :
  get_session_via_id id c = Some (i, s) → th_ok s →
  from_option mb_wf True (vdm_message_transcript_before_key_exchange (runtime_info c)) →
  append_message_k id m c
  = (Ok tt, put_session i (th_state s
       (th_data (vdm_message_transcript_before_key_exchange (runtime_info c)) s ++ m)) c).
Proof.
  intros Hg [Hs Hc] Hv. unfold append_message_k. run. eapply run_session; [done|]. run.
  unfold th_data. destruct (digest_context_th (ses_runtime_info s)) as [ctx|] eqn:Hd.
  - run. erewrite th_update_run by done. unfold hash_ctx_update, th_state. cbn in Hc. by rewrite Hc.
  - unfold bind at 1. rewrite th_first_run by done. cbv beta iota.
    erewrite th_update_run; [|reflexivity]. unfold th_state, hash_ctx_update. cbn [hc_algo hc_data].
    reflexivity.
Qed.

Lemma each_k_run id i ms : ∀ s c,
  get_session_via_id id c = Some (i, s) → th_ok s →
  from_option mb_wf True (vdm_message_transcript_before_key_exchange (runtime_info c)) → ms ≠ [] →
  each (append_message_k id) ms c
  = (Ok tt, put_session i (th_state s
       (th_data (vdm_message_transcript_before_key_exchange (runtime_info c)) s ++ concat ms)) c).
Proof.
  induction ms as [|m ms IH]; intros s c Hg Hs Hv Hne; [done|]. cbn [each concat]. unfold bind at 1.
  rewrite (append_k_run id i s c m Hg Hs Hv). cbv beta iota.
  destruct (decide (ms = [])) as [->|Hms]; [by rewrite app_nil_r|].
  set (s1 := th_state s _). rewrite (IH s1); [|by eapply find_put|by destruct Hs|done|done].
  rewrite put_session_twice. do 3 f_equal. by rewrite (app_assoc _ m).
Qed.

(** What [append_message_f] adds in front of the first message. *)
Definition f_needed (s : SpdmSession) : bool := negb (use_psk s) && negb (is_empty (mut_auth_requested s)).
Definition f_identity (r : bool) (c : SpdmContext) (s : SpdmSession) : list Z :=
  if negb (message_f_initialized (ses_runtime_info s)) && f_needed s then
    match vdm_message_transcript_before_finish (ses_runtime_info s) with
    | Some v => mb_content v
    | None => match mut_cert_digest r c with Ok (Some d) => content d | _ => [] end
    end
  else [].
Definition f_ok (r : bool) (c : SpdmContext) (s : SpdmSession) : Prop :=
  (∃ d, digest_context_th (ses_runtime_info s) = Some (mkHashCtx (base_hash_algo (crypto_param s)) d)) ∧
  from_option mb_wf True (vdm_message_transcript_before_finish (ses_runtime_info s)) ∧
  (negb (message_f_initialized (ses_runtime_info s)) && f_needed s = true →
   vdm_message_transcript_before_finish (ses_runtime_info s) = None →
   ∃ d, mut_cert_digest r c = Ok (Some d) ∧ sens_wf d).
Definition f_done (s : SpdmSession) : SpdmSession :=
  with_ses_runtime_info (with_message_f_initialized true (ses_runtime_info s)) s.
Definition f_state (s : SpdmSession) (d : list Z) : SpdmSession := th_state (f_done s) d.

Lemma f_done_id s : message_f_initialized (ses_runtime_info s) = true → f_done s = s.
Proof.
  destruct s as [? ? ? ? ? ? ? ? ? ? ? ? rt ? ? ? ?]. destruct rt. unfold f_done. cbn. by intros ->.
Qed.

(** The identity goes to the transcript of the session. *)
Lemma f_identity_run r id i s c d :
  get_session_via_id id c = Some (i, s) → f_ok r c s →
  digest_context_th (ses_runtime_info s) = Some (mkHashCtx (base_hash_algo (crypto_param s)) d) →
  message_f_initialized (ses_runtime_info s) = false →
  (if f_needed s then
     match vdm_message_transcript_before_finish (ses_runtime_info s) with
     | Some vdm => with_session_via_id id (Err SPDM_STATUS_INVALID_STATE_LOCAL)
                     (let* v := lift (mb_as_ref vdm) in th_update v)
     | None =>
         let* digest := lift (mut_cert_digest r c) in
         match digest with
         | Some digest => with_session_via_id id (Err SPDM_STATUS_INVALID_STATE_LOCAL)
                            (let* d := lift (sens_as_ref digest) in th_update d)
         | None => ret tt
         end
     end
   else ret tt) c = (Ok tt, put_session i (th_state s (d ++ f_identity r c s)) c).
Proof.
  intros Hg (_ & Hv & Hm) Hd Hi. unfold f_identity. rewrite Hi in *. cbn [negb andb] in *.
  destruct (f_needed s); [destruct (vdm_message_transcript_before_finish (ses_runtime_info s)) as [v|]|].
  - eapply run_session; [done|]. rewrite mb_as_ref_ok by done. rewrite (bind_lift _ _ _ _ eq_refl).
    by rewrite (th_update_run _ _ _ Hd).
  - destruct (Hm eq_refl eq_refl) as (dg & Hdg & Hwd). rewrite Hdg, (bind_lift _ _ _ _ eq_refl).
    eapply run_session; [done|]. rewrite sens_as_ref_ok by done. rewrite (bind_lift _ _ _ _ eq_refl).
    by rewrite (th_update_run _ _ _ Hd).
  - rewrite app_nil_r. replace (th_state s d) with s; [by erewrite put_same|].
    destruct s as [? ? ? ? ? ? ? ? ? ? ? ? rt ? ? ? ?]. destruct rt. cbn in *. by rewrite Hd.
Qed.

Lemma append_f_run r id i s c m d :
  get_session_via_id id c = Some (i, s) → f_ok r c s →
  digest_context_th (ses_runtime_info s) = Some (mkHashCtx (base_hash_algo (crypto_param s)) d) →
  append_message_f r id m c
  = (Ok tt, put_session i (f_state s (d ++ f_identity r c s ++ m)) c).
Proof.
  intros Hg Hf Hd. unfold append_message_f. run. unfold get_immutable_session_via_id. rewrite Hg. cbn [fmap option_fmap option_map snd ok_or].
  rewrite (bind_lift _ _ _ _ eq_refl), Hd. fold (f_needed s).
  destruct (message_f_initialized (ses_runtime_info s)) eqn:Hi; cbn [negb].
  - run. erewrite (run_session id i s); [|done|by apply (th_update_run _ _ _ Hd)].
    unfold f_identity, f_state. rewrite Hi, f_done_id by done. done.
  - rewrite bind_assoc. unfold bind at 1. rewrite (f_identity_run r id i s c d) by done. cbv beta iota.
    set (s1 := th_state s _). assert (get_session_via_id id (put_session i s1 c) = Some (i, s1)) as Hg1
      by by eapply find_put.
    unfold bind at 1. erewrite (run_session id i s1); [|done|reflexivity]. cbv beta iota.
    rewrite put_session_twice. erewrite (run_session id i (f_done s1)); [|by eapply find_put|].
    2: by apply th_update_run.
    rewrite put_session_twice. do 2 f_equal. unfold f_state, th_state, hash_ctx_update. cbn [hc_algo hc_data].
    by rewrite <- app_assoc.
Qed.

Lemma each_f_run r id i fs : ∀ s c d,
  get_session_via_id id c = Some (i, s) → f_ok r c s →
  digest_context_th (ses_runtime_info s) = Some (mkHashCtx (base_hash_algo (crypto_param s)) d) → fs ≠ [] →
  each (append_message_f r id) fs c
  = (Ok tt, put_session i (f_state s (d ++ f_identity r c s ++ concat fs)) c).
Proof.
  induction fs as [|f fs IH]; intros s c d Hg Hf Hd Hne; [done|]. cbn [each concat]. unfold bind at 1.
  rewrite (append_f_run r id i s c f d Hg Hf Hd). cbv beta iota.
  destruct (decide (fs = [])) as [->|Hfs]; [by rewrite app_nil_r|].
  set (d1 := d ++ f_identity r c s ++ f).
  rewrite (IH (f_state s d1) _ d1); [|by eapply find_put| |done|done].
  - rewrite put_session_twice. do 2 f_equal. unfold f_identity at 1, f_state at 2. cbn [message_f_initialized negb andb].
    unfold d1. rewrite <- !app_assoc. done.
  - destruct Hf as (_ & Hv & _). split; [by exists d1|]. split; [exact Hv|done].
Qed.

(** The transcript of a session from its first message of the key exchange
    on. *)
Lemma th_transcript_run r id i s c ks fs :
  let vdm := vdm_message_transcript_before_key_exchange (runtime_info c) in
  get_session_via_id id c = Some (i, s) → th_session_ok s →
  digest_context_th (ses_runtime_info s) = None → from_option mb_wf True vdm →
  f_ok r c (th_state s []) → ks ≠ [] → fs ≠ [] →
  (let* _ := each (append_message_k id) ks in each (append_message_f r id) fs) c
  = (Ok tt, put_session i (f_state s (mb_content (ses_message_a (ses_runtime_info s)) ++ th_identity vdm s ++
                                      concat ks ++ f_identity r c s ++ concat fs)) c).
Proof.
  intros vdm Hg Hs Hd Hv Hf Hks Hfs. unfold bind at 1.
  rewrite (each_k_run id i ks s c Hg) by (done || (split; [done|]; by rewrite Hd)). cbv beta iota. fold vdm.
  unfold th_data. rewrite Hd. set (d := _ ++ concat ks).
  erewrite (each_f_run r id i fs (th_state s d) _ d); [|by eapply find_put| |done|done].
  - rewrite put_session_twice. unfold d. rewrite <- !app_assoc. done.
  - destruct Hf as (_ & Hfv & Hfm). split; [by exists d|]. split; [exact Hfv|exact Hfm].
Qed.

End TH.
(** ** The reference transcript *)

(** [appends m d]: [m] adds [d] to the transcript buffer, or reports that it
    does not fit. *)
Definition appends (m : M ManagedBufferTH SpdmStatus unit) (d : list Z) : Prop :=
  ∀ b, mb_wf b →
    (len d ≤ mb_cap BufTH - mb_used b →
     ∃ b', m b = (Ok tt, b') ∧ mb_wf b' ∧ mb_content b' = mb_content b ++ d) ∧
    (mb_cap BufTH - mb_used b < len d → ∃ b', m b = (Err SPDM_STATUS_BUFFER_FULL, b')).

Lemma appends_ret : appends (ret tt) [].
Proof.
  intros b Hb. change (len (@nil Z)) with 0. split; intros Hl.
  - exists b. by rewrite app_nil_r.
  - destruct Hb as (Hu & _). lia.
Qed.
Lemma appends_bind m d m' d' : appends m d → appends m' d' → appends (let* _ := m in m') (d ++ d').
Proof.
  intros Hm Hm' b Hb. rewrite len_app. pose proof (len_nonneg d). pose proof (len_nonneg d').
  destruct (Hm b Hb) as [Hok Hfull]. unfold bind.
  destruct (Z.leb_spec (len d) (mb_cap BufTH - mb_used b)) as [Hd|Hd].
  - destruct (Hok Hd) as (b1 & -> & Hb1 & Hc). destruct (Hm' b1 Hb1) as [Hok' Hfull'].
    assert (mb_used b1 = mb_used b + len d) as Hu.
    { rewrite <- (len_mb_content b1 Hb1), Hc, len_app, (len_mb_content b Hb). done. }
    split; intros Hl.
    + destruct Hok' as (b2 & -> & Hb2 & Hc2); [lia|]. exists b2. by rewrite Hc2, Hc, app_assoc.
    + apply Hfull'. lia.
  - destruct (Hfull Hd) as (b1 & ->). split; [lia|]. by exists b1.
Qed.
Lemma appends_bytes bs : bytes_wf bs → appends (th_append bs) bs.
Proof.
  intros Hw b Hb. unfold th_append, bind, map_errM. split; intros Hl.
  - destruct (append_message_fits bs b Hb Hw Hl) as (b' & -> & ? & ?). by exists b'.
  - rewrite append_message_full by done. by exists b.
Qed.
Lemma appends_buf {k} (x : mbuf k) : mb_wf x → appends (th_append_buf x) (mb_content x).
Proof.
  intros Hx b. unfold th_append_buf. rewrite mb_as_ref_ok by done. rewrite (bind_lift _ _ _ _ eq_refl).
  apply appends_bytes; [|done..]. destruct Hx as (_ & _ & Hw). unfold mb_content. auto with wfb.
Qed.
Lemma appends_digest o (d : SpdmDigestStruct) : o = Ok d → sens_wf d →
  appends (let* x := lift o in let* h := lift (sens_as_ref x) in th_append h) (content d).
Proof.
  intros -> Hd b. rewrite (bind_lift _ _ _ _ eq_refl), sens_as_ref_ok by done.
  rewrite (bind_lift _ _ _ _ eq_refl). apply appends_bytes. by destruct Hd as (_ & _ & ?).
Qed.

(** The bytes of the transcript. *)
Definition vdm_or (vdm : option ManagedVdmBuffer) (identity : SpdmDigestStruct) : list Z :=
  match vdm with Some v => mb_content v | None => content identity end.
Definition reference_bytes (c : SpdmContext) (psk is_mut_auth : bool) (rsp req : SpdmDigestStruct)
    (k : ManagedBufferK) (f : ManagedBufferF) (vdm_f : option ManagedVdmBuffer) : list Z :=
  mb_content (message_a (runtime_info c)) ++
  (if negb psk then vdm_or (vdm_message_transcript_before_key_exchange (runtime_info c)) rsp else []) ++
  mb_content k ++
  (if negb psk && is_mut_auth then vdm_or vdm_f req else []) ++
  mb_content f.

Lemma transcript_data_appends c psk mut rspo reqo rsp req k f vdm_f :
  mb_wf (message_a (runtime_info c)) → mb_wf k → mb_wf f → from_option mb_wf True vdm_f →
  from_option mb_wf True (vdm_message_transcript_before_key_exchange (runtime_info c)) →
  (psk = false → vdm_message_transcript_before_key_exchange (runtime_info c) = None → rspo = Ok rsp ∧ sens_wf rsp) →
  (negb psk && mut = true → vdm_f = None → reqo = Ok req ∧ sens_wf req) →
  appends (transcript_data c psk mut rspo reqo k (Some f) vdm_f) (reference_bytes c psk mut rsp req k f vdm_f).
Proof.
  intros Ha Hk Hf Hvf Hv Hrsp Hreq. unfold transcript_data, reference_bytes.
  apply appends_bind; [by apply appends_buf|]. apply appends_bind; [|apply appends_bind; [by apply appends_buf|
    apply appends_bind; [|by apply appends_buf]]].
  - destruct psk; cbn [negb]; [apply appends_ret|]. unfold vdm_or.
    destruct (vdm_message_transcript_before_key_exchange (runtime_info c)); [by apply appends_buf|].
    destruct Hrsp as [? ?]; [done..|]. by apply appends_digest.
  - destruct (negb psk && mut); [|apply appends_ret]. unfold vdm_or. destruct vdm_f; [by apply appends_buf|].
    destruct Hreq as [? ?]; [done..|]. by apply appends_digest.
Qed.

(** ** Both variants *)
Section Both.
Context `{CryptoOk}.

(** The identities that go into the transcript of the requester ([r]) or the
    responder. *)
Definition rsp_identity (r : bool) (c : SpdmContext) : SpdmResult SpdmDigestStruct :=
  let h := base_hash_sel (negotiate_info c) in
  if r then identity_hash h SPDM_PUB_KEY_SLOT_ID_KEY_EXCHANGE SPDM_STATUS_INVALID_PARAMETER
              (peer_used_cert_chain_slot_id (runtime_info c)) (peer_pub_key (provision_info c))
              (peer_cert_chain (peer_info c))
  else identity_hash h SPDM_PUB_KEY_SLOT_ID_KEY_EXCHANGE SPDM_STATUS_INVALID_STATE_LOCAL
         (local_used_cert_chain_slot_id (runtime_info c)) (my_pub_key (provision_info c))
         (my_cert_chain (provision_info c)).
Definition req_identity (r : bool) (c : SpdmContext) : SpdmResult SpdmDigestStruct :=
  let h := base_hash_sel (negotiate_info c) in
  if r then identity_hash h SPDM_PUB_KEY_SLOT_ID_KEY_EXCHANGE_RSP SPDM_STATUS_INVALID_PARAMETER
              (local_used_cert_chain_slot_id (runtime_info c)) (my_pub_key (provision_info c))
              (my_cert_chain (provision_info c))
  else identity_hash h SPDM_PUB_KEY_SLOT_ID_KEY_EXCHANGE_RSP SPDM_STATUS_INVALID_PARAMETER
         (peer_used_cert_chain_slot_id (runtime_info c)) (peer_pub_key (provision_info c))
         (peer_cert_chain (peer_info c)).
Definition calc_transcript_data (r : bool) : SpdmContext → bool → bool → ManagedBufferK →
    option ManagedBufferF → option ManagedVdmBuffer → SpdmResult ManagedBufferTH :=
  if r then calc_req_transcript_data else calc_rsp_transcript_data.

Lemma calc_transcript_unfold r c psk mut k f v :
  calc_transcript_data r c psk mut k f v
  = finish_data (transcript_data c psk mut (rsp_identity r c) (req_identity r c) k f v).
Proof. by destruct r. Qed.

Lemma hash_valid_hashable h : hash_valid h → hashable h.
Proof. intros [->|[-> | ->]]%hash_valid_cases; reflexivity. Qed.

Lemma identity_wf h ps e n pk chains d : hash_valid h → identity_hash h ps e n pk chains = Ok d → sens_wf d.
Proof.
  intros Hh. assert (∀ x, hash_or h x = Ok d → sens_wf d) as Ho.
  { intros x. unfold hash_or. destruct (hash_all_ok h x Hh) as (m & -> & Hm & _). by intros [= <-]. }
  unfold identity_hash. destruct (n =? ps).
  - destruct pk as [pk|]; [|done]. cbn. destruct (CertChainData.as_ref pk); [|done..]. apply Ho.
  - unfold slot. destruct (znth chains n) as [[ch|]|]; [|done..]. cbn.
    destruct (CertChainBuffer.as_ref ch); [|done..]. apply Ho.
Qed.

(** The identity of the requester is the digest [append_message_f] adds. *)
Lemma req_identity_mut r c d : req_identity r c = Ok d → mut_cert_digest r c = Ok (Some d).
Proof.
  unfold req_identity, mut_cert_digest, identity_hash, hash_or. destruct r.
  all: destruct (_ =? SPDM_PUB_KEY_SLOT_ID_KEY_EXCHANGE_RSP).
  1, 3: destruct (_ _) as [pk|]; [|done]; cbn [ok_or obind]; destruct (CertChainData.as_ref pk); [|done..];
    cbn [obind]; destruct (hash_all _ _); [|done..]; by intros [= <-].
  all: unfold slot; destruct (znth _ _) as [[ch|]|]; [|done..]; cbn [or_panic obind ok_or];
    destruct (CertChainBuffer.as_ref ch); [|done..]; cbn [obind]; destruct (hash_all _ _); [|done..];
    by intros [= <-].
Qed.

(** What the handlers of a key exchange set up before the first message of
    it is appended. *)
Record linked (r : bool) (c : SpdmContext) (s : SpdmSession) : Prop := {
  linked_hash : hash_valid (base_hash_sel (negotiate_info c)) ∧
                base_hash_algo (crypto_param s) = base_hash_sel (negotiate_info c);
  linked_a : ses_message_a (ses_runtime_info s) = message_a (runtime_info c) ∧
             mb_wf (message_a (runtime_info c));
  linked_fresh : digest_context_th (ses_runtime_info s) = None ∧
                 message_f_initialized (ses_runtime_info s) = false;
  linked_vdm : from_option mb_wf True (vdm_message_transcript_before_key_exchange (runtime_info c)) ∧
               from_option mb_wf True (vdm_message_transcript_before_finish (ses_runtime_info s));
  linked_cert : from_option sens_wf True (rsp_cert_hash (ses_runtime_info s));
  linked_rsp :
    if use_psk s then rsp_cert_hash (ses_runtime_info s) = None
    else vdm_message_transcript_before_key_exchange (runtime_info c) = None →
         ∃ rsp, rsp_identity r c = Ok rsp ∧ rsp_cert_hash (ses_runtime_info s) = Some rsp;
  linked_req : f_needed s = true → vdm_message_transcript_before_finish (ses_runtime_info s) = None →
               ∃ req, req_identity r c = Ok req;
}.

(** The vendor-defined transcript the reference puts in front of the
    key-exchange messages: none for PSK. *)
Definition reference_vdm (c : SpdmContext) (s : SpdmSession) : option ManagedVdmBuffer :=
  if use_psk s then None else vdm_message_transcript_before_key_exchange (runtime_info c).
Lemma calc_transcript_f_state s d :
  calc_transcript_hash (f_state s d) = hash_or (base_hash_algo (crypto_param s)) d.
Proof. reflexivity. Qed.
Definition is_mut_auth (s : SpdmSession) : bool := negb (is_empty (mut_auth_requested s)).

Lemma finish_appends m d :
  appends m d → mb_cap BufTH < len d ∧ finish_data m = Err SPDM_STATUS_BUFFER_FULL ∨
                len d ≤ mb_cap BufTH ∧ ∃ b, finish_data m = Ok b ∧ mb_content b = d.
Proof.
  intros Hm. destruct (Hm mb_default (mb_default_wf (k:=BufTH))) as [Hok Hfull]. unfold finish_data.
  change (mb_used mb_default) with 0 in *. destruct (Z.leb_spec (len d) (mb_cap BufTH - 0)) as [Hl|Hl].
  - destruct (Hok Hl) as (b & -> & _ & Hc). right. split; [by rewrite Z.sub_0_r in Hl|]. exists b. split; [done|].
    by rewrite Hc, mb_default_content.
  - destruct (Hfull Hl) as (b & ->). left. split; [by rewrite Z.sub_0_r in Hl|done].
Qed.

(** The bytes of the reference transcript of linked states. *)
Lemma reference_run r c s k f :
  linked r c s → mb_wf k → mb_wf f →
  let d := mb_content (message_a (runtime_info c)) ++
           th_identity (reference_vdm c s) s ++
           mb_content k ++ f_identity r c s ++ mb_content f in
  let o := calc_transcript_data r c (use_psk s) (is_mut_auth s) k (Some f)
             (vdm_message_transcript_before_finish (ses_runtime_info s)) in
  mb_cap BufTH < len d ∧ o = Err SPDM_STATUS_BUFFER_FULL ∨
  len d ≤ mb_cap BufTH ∧ ∃ th, o = Ok th ∧ mb_content th = d.
Proof.
  intros [[Hh Hhs] [Ha Hwa] [Hd Hi] [Hvk Hvf] Hcw Hrsp Hreq] Hk Hf d o.
  set (vk := vdm_message_transcript_before_key_exchange (runtime_info c)) in *.
  set (vf := vdm_message_transcript_before_finish (ses_runtime_info s)) in *.
  assert (∃ rsp, (use_psk s = false → vk = None → rsp_identity r c = Ok rsp ∧ sens_wf rsp) ∧
    (if negb (use_psk s) then vdm_or vk rsp else []) = th_identity (reference_vdm c s) s) as (rsp & Hrsp1 & Hrsp2).
  { unfold reference_vdm, th_identity, vdm_or. fold vk. destruct (use_psk s); cbn [negb].
    - rewrite Hrsp. by exists sens_default.
    - destruct vk as [v|]; [by exists sens_default|]. destruct (Hrsp eq_refl) as (rsp & Hr & ->).
      exists rsp. split; [|done]. intros _ _. split; [done|]. destruct r; by eapply identity_wf. }
  assert (∃ req, (f_needed s = true → vf = None → req_identity r c = Ok req ∧ sens_wf req) ∧
    (if f_needed s then vdm_or vf req else []) = f_identity r c s) as (req & Hreq1 & Hreq2).
  { unfold f_identity, vdm_or. rewrite Hi. cbn [negb andb]. fold vf. destruct (f_needed s); [|by exists sens_default].
    destruct vf as [v|]; [by exists sens_default|]. destruct (Hreq eq_refl eq_refl) as (req & Hr).
    exists req. rewrite (req_identity_mut r c req Hr). split; [|done]. intros _ _. split; [done|].
    destruct r; by eapply identity_wf. }
  assert (appends (transcript_data c (use_psk s) (is_mut_auth s) (rsp_identity r c) (req_identity r c) k (Some f) vf)
    (reference_bytes c (use_psk s) (is_mut_auth s) rsp req k f vf)) as Hap
    by by apply transcript_data_appends.
  replace (reference_bytes _ _ _ _ _ _ _ _) with d in Hap.
  - unfold o. rewrite calc_transcript_unfold. by apply finish_appends.
  - unfold d, reference_bytes. fold vk. rewrite Hrsp2. unfold is_mut_auth. fold (f_needed s). by rewrite Hreq2.
Qed.

Lemma linked_session r c s : linked r c s → th_session_ok s ∧ f_ok r c (th_state s []).
Proof.
  intros [[Hh Hhs] [Ha Hwa] [Hd Hi] [Hvk Hvf] Hcw Hrsp Hreq]. split.
  - split_and!; [rewrite Hhs; by apply hash_valid_hashable|by rewrite Ha|done].
  - split; [by exists []|]. split; [exact Hvf|]. intros Hn Hv. apply andb_true_iff in Hn as [_ Hn].
    destruct (Hreq Hn Hv) as (req & Hr). exists req. split; [by apply req_identity_mut|].
    destruct r; by eapply identity_wf.
Qed.

(** Two ends of a connection that know each other's identities. *)
Record mirrored (cq cp : SpdmContext) (sq sp : SpdmSession) : Prop := {
  mir_psk : use_psk sq = use_psk sp;
  mir_mut : mut_auth_requested sq = mut_auth_requested sp;
  mir_hash : base_hash_sel (negotiate_info cq) = base_hash_sel (negotiate_info cp);
  mir_a : mb_content (message_a (runtime_info cq)) = mb_content (message_a (runtime_info cp));
  mir_vdm_k : vdm_message_transcript_before_key_exchange (runtime_info cq)
              = vdm_message_transcript_before_key_exchange (runtime_info cp);
  mir_vdm_f : vdm_message_transcript_before_finish (ses_runtime_info sq)
              = vdm_message_transcript_before_finish (ses_runtime_info sp);
  mir_rsp_slot : peer_used_cert_chain_slot_id (runtime_info cq)
                 = local_used_cert_chain_slot_id (runtime_info cp);
  mir_req_slot : local_used_cert_chain_slot_id (runtime_info cq)
                 = peer_used_cert_chain_slot_id (runtime_info cp);
  mir_rsp_key : peer_pub_key (provision_info cq) = my_pub_key (provision_info cp);
  mir_req_key : my_pub_key (provision_info cq) = peer_pub_key (provision_info cp);
  mir_rsp_chain : peer_cert_chain (peer_info cq) = my_cert_chain (provision_info cp);
  mir_req_chain : my_cert_chain (provision_info cq) = peer_cert_chain (peer_info cp);
}.

Lemma identity_missing h ps e e' n pk chains d :
  identity_hash h ps e n pk chains = Ok d → identity_hash h ps e' n pk chains = Ok d.
Proof.
  unfold identity_hash. destruct (n =? ps); [done|]. unfold slot. by destruct (znth chains n) as [[]|].
Qed.

Lemma mirrored_identities cq cp sq sp :
  linked true cq sq → linked false cp sp → mirrored cq cp sq sp →
  th_identity (reference_vdm cq sq) sq = th_identity (reference_vdm cp sp) sp ∧
  f_identity true cq sq = f_identity false cp sp.
Proof.
  intros [_ _ [_ Hi] _ _ Hrq Hqq] [_ _ [_ Hi'] _ _ Hrp Hqp] Hm.
  destruct Hm as [Hpsk Hmut Hh Ha Hvk Hvf Hs1 Hs2 Hk1 Hk2 Hc1 Hc2]. split.
  - unfold reference_vdm, th_identity. rewrite Hvk, Hpsk in *. destruct (use_psk sp); [by rewrite Hrq, Hrp|].
    destruct (vdm_message_transcript_before_key_exchange (runtime_info cp)); [done|].
    destruct (Hrq eq_refl) as (x & Hx & ->), (Hrp eq_refl) as (y & Hy & ->).
    unfold rsp_identity in Hx, Hy. rewrite Hh, Hs1, Hk1, Hc1 in Hx.
    apply (identity_missing _ _ _ SPDM_STATUS_INVALID_STATE_LOCAL) in Hx. rewrite Hx in Hy. by injection Hy as <-.
  - assert (f_needed sq = f_needed sp) as Hn by (unfold f_needed; by rewrite Hpsk, Hmut).
    unfold f_identity. rewrite Hi, Hi', Hn, Hvf in *. cbn [negb andb].
    destruct (f_needed sp); [|done].
    destruct (vdm_message_transcript_before_finish (ses_runtime_info sp)); [done|].
    destruct (Hqq eq_refl eq_refl) as (x & Hx), (Hqp eq_refl eq_refl) as (y & Hy).
    rewrite (req_identity_mut _ _ _ Hx), (req_identity_mut _ _ _ Hy).
    unfold req_identity in Hx, Hy. rewrite Hh, Hs2, Hk2, Hc2 in Hx. rewrite Hx in Hy. by injection Hy as <-.
Qed.

End Both.

(** ** Properties *)

(** C17: the incremental key-exchange transcript is the transcript of the
    reference: when the messages of a key exchange and finish are fed one by
    one to the hash context of their session, the transcript hash of the
    session is the hash of the buffer that the variant without hash contexts
    collects for the same messages, on the requester and on the responder,
    with or without mutual authentication and vendor-defined transcripts.  The
    one exception is a PSK session with a vendor-defined transcript in front of
    the exchange: the session hashes it after message A, and the other variant
    leaves it out. *)
Theorem th_matches_reference `{CryptoOk} r id i s c ks fs k f th :
  get_session_via_id id c = Some (i, s) → linked r c s →
  ks ≠ [] → fs ≠ [] → mb_wf k → mb_wf f → mb_content k = concat ks → mb_content f = concat fs →
  calc_transcript_data r c (use_psk s) (is_mut_auth s) k (Some f)
    (vdm_message_transcript_before_finish (ses_runtime_info s)) = Ok th →
  let h := base_hash_sel (negotiate_info c) in
  let a := mb_content (message_a (runtime_info c)) in
  ∃ c' s', (let* _ := each (append_message_k id) ks in each (append_message_f r id) fs) c = (Ok tt, c') ∧
    get_session_via_id id c' = Some (i, s') ∧
    match use_psk s, vdm_message_transcript_before_key_exchange (runtime_info c) with
    | true, Some v => ∃ rest, mb_content th = a ++ rest ∧ calc_transcript_hash s' = hash_or h (a ++ mb_content v ++ rest)
    | _, _ => calc_transcript_hash s' = hash_or h (mb_content th)
    end.
Proof.
  intros Hg Hl Hks Hfs Hwk Hwf Hk Hf Hth h a. destruct (linked_session r c s Hl) as [Hs Hfo].
  pose proof Hl as [[_ Hhs] [Ha _] [Hd _] [Hv _] _ Hrsp _].
  destruct (reference_run r c s k f Hl Hwk Hwf) as [[_ He]|(_ & th' & He & Hc)]; rewrite He in Hth; [done|].
  injection Hth as ->. rewrite (th_transcript_run r id i s c ks fs) by done.
  do 2 eexists. split; [done|]. split; [by eapply find_put|].
  rewrite calc_transcript_f_state, Hc, Hk, Hf, Ha, Hhs. unfold reference_vdm.
  destruct (use_psk s), (vdm_message_transcript_before_key_exchange (runtime_info c)) as [v|]; [|reflexivity..].
  eexists. split; [reflexivity|]. unfold th_identity at 2. by rewrite Hrsp.
Qed.

(** C18: The two ends compute the same transcript: when the responder's own
    slot, key and chains are what the requester recorded of its peer and the
    other way round, and both hold the same message A, hash algorithm and
    messages, the transcript data of the requester and of the responder are
    the same bytes. *)
Theorem transcript_ends_agree `{CryptoOk} cq cp sq sp k f tq :
  linked true cq sq → linked false cp sp → mirrored cq cp sq sp → mb_wf k → mb_wf f →
  calc_req_transcript_data cq (use_psk sq) (is_mut_auth sq) k (Some f)
    (vdm_message_transcript_before_finish (ses_runtime_info sq)) = Ok tq →
  ∃ tp, calc_rsp_transcript_data cp (use_psk sp) (is_mut_auth sp) k (Some f)
          (vdm_message_transcript_before_finish (ses_runtime_info sp)) = Ok tp ∧
        mb_content tp = mb_content tq.
Proof.
  intros Hq Hp Hm Hk Hf Hc. pose proof (reference_run true cq sq k f Hq Hk Hf) as Hrq.
  pose proof (reference_run false cp sp k f Hp Hk Hf) as Hrp. cbv zeta in Hrq, Hrp.
  unfold calc_transcript_data in Hrq, Hrp. rewrite Hc in Hrq.
  destruct (mirrored_identities cq cp sq sp Hq Hp Hm) as (Hi & Hj).
  rewrite <- Hi, <- Hj, <- (mir_a _ _ _ _ Hm) in Hrp.
  destruct Hrq as [[_ Hx]|(Hl & th & Hx & Hd)]; [done|]. injection Hx as <-.
  destruct Hrp as [[Hl' _]|(_ & tp & Hx & Hd')]; [lia|]. exists tp. by rewrite Hd', Hd.
Qed.

(** C33: the digest for CHALLENGE covers message A and then every B and C
    message in order: from an empty context, appending messages, each as B or
    C, succeeds and leaves a context whose digest is the hash of message A
    followed by the messages; a reset makes the next message start over. *)
Theorem m1m2_covers `{SpdmCrypto} c (msgs : list (bool * list Z)) :
  m1m2_ok c → digest_context_m1m2 (runtime_info c) = None → msgs ≠ [] →
  let append (m : bool * list Z) := if m.1 then append_message_b m.2 else append_message_c m.2 in
  let d := mb_content (message_a (runtime_info c)) ++ concat (msgs.*2) in
  let c' := set_m1m2 d c in
  each append msgs c = (Ok tt, c') ∧
  (hash_ctx_finalize <$> digest_context_m1m2 (runtime_info c'))
    = Some (hash_all (base_hash_sel (negotiate_info c)) d) ∧
  reset_message_b c' = c ∧ reset_message_c c' = c.
Proof.
  intros Hc Hd Hne append d c'. split; [|split; [done|]].
  - unfold c', d. replace (mb_content (message_a (runtime_info c))) with (m1m2_data c)
      by (unfold m1m2_data; by rewrite Hd). by apply each_m1m2_run.
  - split; (unfold c', set_m1m2, reset_message_b, reset_message_c; destruct c as [? ? rt ? ? ?]; destruct rt;
      cbn in *; by subst).
Qed.

(** C34: The digest for MEASUREMENTS covers, from version 1.2 on, message A and
    then every message in order, and before 1.2 the messages only; the context
    of a session and the one outside sessions are separate. *)
Theorem l1l2_covers `{SpdmCrypto} c i s id msgs :
  hashable (base_hash_sel (negotiate_info c)) → mb_wf (message_a (runtime_info c)) → msgs ≠ [] →
  digest_context_l1l2 (runtime_info c) = None →
  get_session_via_id id c = Some (i, s) → ses_digest_context_l1l2 (ses_runtime_info s) = None →
  let a := mb_content (message_a (runtime_info c)) in
  let d := (if version_leb SpdmVersion12 (spdm_version_sel (negotiate_info c)) then a else []) ++ concat msgs in
  let ctx := Some (mkHashCtx (base_hash_sel (negotiate_info c)) d) in
  each (append_message_m None) msgs c = (Ok tt, upd_runtime (with_digest_context_l1l2 ctx) c) ∧
  each (append_message_m (Some id)) msgs c
  = (Ok tt, put_session i (with_ses_runtime_info (with_ses_digest_context_l1l2 ctx (ses_runtime_info s)) s) c).
Proof.
  intros Hh Ha Hne Hd Hg Hs. split.
  - rewrite each_m_none_run by (done || by rewrite Hd). by rewrite Hd.
  - rewrite (each_m_session_run id i msgs c s) by (done || by rewrite Hs). by rewrite Hs.
Qed.

End TranscriptLaws.

Module TranscriptExamples.
Import Context Transcript TranscriptLaws ToyRing.

Definition sha256 : SpdmBaseHashAlgo := SpdmBaseHashAlgo.TPM_ALG_SHA_256.
Definition chain : SpdmCertChainBuffer := ccb_of [8; 0; 0; 0; 7; 7; 48; 130].
Definition chains : list (option SpdmCertChainBuffer) := Some chain :: replicate 7 None.
(** A context with SHA-256 selected and a chain in slot 0 of both sides. *)
Definition base : SpdmContext :=
  with_negotiate_info (with_base_hash_sel sha256 SpdmNegotiateInfo_default)
    (with_peer_info (with_peer_cert_chain chains SpdmPeerInfo_default)
      (with_provision_info (with_my_cert_chain chains SpdmProvisionInfo_default)
        (new SpdmConfigInfo_default SpdmProvisionInfo_default))).
Definition chain_hash : SpdmDigestStruct :=
  Eval vm_compute in match hash_all (SpdmCrypto := toy_crypto) sha256 [8; 0; 0; 0; 7; 7; 48; 130] with
                     | Ok d => d | _ => sens_default end.
(** A session of a key exchange in slot 0. *)
Definition kex : SpdmSession :=
  with_ses_runtime_info (with_rsp_cert_hash (Some chain_hash) SpdmSessionRuntimeInfo_default)
    (with_session_id 0xFFFD0001
      (Session.set_crypto_param sha256 empty_flags empty_flags empty_flags empty_flags Session.new)).
Definition ctx : SpdmContext := with_session (kex :: replicate 3 Session.new) base.

Lemma kex_linked r : linked (H := toy_crypto) r ctx kex.
Proof.
  split.
  - split; [|reflexivity]. split; [split; by vm_compute|by vm_compute].
  - split; [reflexivity|]. apply (mb_default_wf (k:=BufA)).
  - split; reflexivity.
  - split; exact I.
  - change (sens_wf chain_hash). split; [reflexivity|]. split; [by vm_compute|by apply is_byte_wf].
  - intros _. exists chain_hash. by destruct r.
  - intros [=].
Qed.

Definition k12 : ManagedBufferK := mb_of [1; 2; 3].
Definition f45 : ManagedBufferF := mb_of [4; 5].

Lemma k12_wf : mb_wf k12.
Proof. apply mb_of_wf; [by vm_compute|by apply is_byte_wf]. Qed.
Lemma f45_wf : mb_wf f45.
Proof. apply mb_of_wf; [by vm_compute|by apply is_byte_wf]. Qed.

(** The reference transcript of the example. *)
Lemma example_reference (r : bool) :
  ∃ th, (if r then calc_req_transcript_data (H := toy_crypto) else calc_rsp_transcript_data (H := toy_crypto)) ctx (use_psk kex) (is_mut_auth kex) k12 (Some f45)
          (vdm_message_transcript_before_finish (ses_runtime_info kex)) = Ok th ∧
        mb_content th = content chain_hash ++ [1; 2; 3; 4; 5].
Proof.
  destruct (reference_run (H0 := toy_crypto_ok) r ctx kex k12 f45 (kex_linked r) k12_wf f45_wf)
    as [[Hl _]|(_ & th & Hth & Hd)].
  - destruct r; by vm_compute in Hl.
  - exists th. split; [exact Hth|]. rewrite Hd. by destruct r.
Qed.

(** A PSK session of a connection with a vendor-defined transcript. *)
Definition vdm : ManagedVdmBuffer := mb_of [9; 9].
Definition psk : SpdmSession :=
  with_use_psk true (with_session_id 0xFFFD0001
    (Session.set_crypto_param sha256 empty_flags empty_flags empty_flags empty_flags Session.new)).
Definition psk_ctx : SpdmContext :=
  upd_runtime (with_vdm_message_transcript_before_key_exchange (Some vdm)) (with_session (psk :: replicate 3 Session.new) base).
Lemma psk_linked r : linked (H := toy_crypto) r psk_ctx psk.
Proof.
  split; [|split; [reflexivity|apply (mb_default_wf (k:=BufA))]|split; reflexivity| |exact I|reflexivity|intros [=]].
  - split; [|reflexivity]. split; [split; by vm_compute|by vm_compute].
  - split; [|exact I]. apply mb_of_wf; [by vm_compute|by apply is_byte_wf].
Qed.
Lemma psk_reference :
  ∃ th, calc_req_transcript_data (H := toy_crypto) psk_ctx (use_psk psk) (is_mut_auth psk) k12 (Some f45)
          (vdm_message_transcript_before_finish (ses_runtime_info psk)) = Ok th ∧ mb_content th = [1; 2; 3; 4; 5].
Proof.
  destruct (reference_run (H0 := toy_crypto_ok) true psk_ctx psk k12 f45 (psk_linked true) k12_wf f45_wf)
    as [[Hl _]|(_ & th & Hth & Hd)]; [by vm_compute in Hl|]. exists th. split; [exact Hth|exact Hd].
Qed.

Lemma th_matches_reference_witness :
  let id := 0xFFFD0001 in
  let run := let* _ := each (append_message_k id) [[1; 2]; [3]] in each (append_message_f (H := toy_crypto) true id) [[4; 5]] in
  (∃ c' s', run ctx = (Ok tt, c') ∧ get_session_via_id id c' = Some (0%nat, s') ∧
     calc_transcript_hash (H := toy_crypto) s' = hash_or (H := toy_crypto) sha256 (content chain_hash ++ [1; 2; 3; 4; 5])) ∧
  (∃ c' s', run psk_ctx = (Ok tt, c') ∧ get_session_via_id id c' = Some (0%nat, s') ∧
     calc_transcript_hash (H := toy_crypto) s' = hash_or (H := toy_crypto) sha256 [9; 9; 1; 2; 3; 4; 5]).
Proof.
  intros id run. split.
  - destruct (example_reference true) as (th & Hth & Hd).
    destruct (th_matches_reference (H0 := toy_crypto_ok) true id 0 kex ctx [[1; 2]; [3]] [[4; 5]]
      k12 f45 th eq_refl (kex_linked true)) as (c' & s' & Hr & Hg & Hc);
      [done|done|apply k12_wf|apply f45_wf|apply mb_content_of|apply mb_content_of|exact Hth|].
    rewrite <- Hd. exists c', s'. split; [exact Hr|]. split; [exact Hg|exact Hc].
  - destruct psk_reference as (th & Hth & Hd).
    destruct (th_matches_reference (H0 := toy_crypto_ok) true id 0 psk psk_ctx [[1; 2]; [3]] [[4; 5]]
      k12 f45 th eq_refl (psk_linked true)) as (c' & s' & Hr & Hg & rest & Ht & Hc);
      [done|done|apply k12_wf|apply f45_wf|apply mb_content_of|apply mb_content_of|exact Hth|].
    rewrite Hd in Ht. change (mb_content (message_a (runtime_info psk_ctx))) with (@nil Z) in *. cbn [app] in Ht, Hc. subst rest.
    exists c', s'. split; [exact Hr|]. split; [exact Hg|exact Hc].
Defined.

Lemma ctx_mirrored : mirrored ctx ctx kex kex.
Proof. by split. Qed.

Lemma transcript_ends_agree_witness :
  let vdm := vdm_message_transcript_before_finish (ses_runtime_info kex) in
  ∃ tq tp, calc_req_transcript_data (H := toy_crypto) ctx (use_psk kex) (is_mut_auth kex) k12 (Some f45) vdm = Ok tq ∧
           calc_rsp_transcript_data (H := toy_crypto) ctx (use_psk kex) (is_mut_auth kex) k12 (Some f45) vdm = Ok tp ∧
           mb_content tp = mb_content tq.
Proof.
  intros vdm. destruct (example_reference true) as (tq & Hth & _).
  destruct (transcript_ends_agree (H0 := toy_crypto_ok) ctx ctx kex kex k12 f45 tq (kex_linked true)
    (kex_linked false) ctx_mirrored) as (tp & Hp & Hc); [apply k12_wf|apply f45_wf|exact Hth|].
  exists tq, tp. split; [exact Hth|]. split; [exact Hp|exact Hc].
Defined.

Lemma ctx_m1m2_ok : m1m2_ok ctx.
Proof. split; [reflexivity|]. split; [apply (mb_default_wf (k:=BufA))|exact I]. Qed.
Lemma m1m2_covers_witness :
  each (λ m : bool * list Z, if m.1 then append_message_b m.2 else append_message_c m.2)
    [(true, [1]); (false, [2; 3])] ctx = (Ok tt, set_m1m2 [1; 2; 3] ctx).
Proof.
  exact (proj1 (m1m2_covers (H := toy_crypto) ctx [(true, [1]); (false, [2; 3])] ctx_m1m2_ok eq_refl
    ltac:(discriminate))).
Defined.

Lemma l1l2_covers_witness :
  each (append_message_m None) [[1]; [2; 3]] ctx
  = (Ok tt, upd_runtime (with_digest_context_l1l2 (Some (mkHashCtx sha256 [1; 2; 3]))) ctx).
Proof.
  exact (proj1 (l1l2_covers (H := toy_crypto) ctx 0 kex 0xFFFD0001 [[1]; [2; 3]] eq_refl
    (mb_default_wf (k:=BufA)) ltac:(discriminate) eq_refl eq_refl eq_refl)).
Defined.

End TranscriptExamples.
