(* ===== verification/CertOp.v ===== *)
(** * Certificate chains

    Models src/spdmlib/src/crypto/spdm_ring/cert_operation_impl.rs: the lookup
    of a certificate in a chain by index, the walk that splits a chain before
    it is verified, and the checks of the extended key usage.  The verification
    of one chain by the crate webpki is a parameter.  Loops run on fuel, and
    the fuel given is proved enough. *)

From S2P Require Import Prelude Status.

(** ** [get_cert_from_cert_chain]

    [None] is out of fuel; every round advances by four bytes at least. *)
Fixpoint cert_loop (fuel : nat) (cert_chain : list Z) (index offset this_index : Z) :
    option (SpdmResult (usize * usize)) :=
  match fuel with
  | O => None
  | S fuel =>
      match slice cert_chain offset (len cert_chain) with
      | None => Some Panic
      | Some rest =>
          if (len rest <? 4) || (len cert_chain <? offset) then Some (Err SPDM_STATUS_INVALID_CERT) else
          match znth cert_chain offset, znth cert_chain (offset + 1), znth cert_chain (offset + 2),
                znth cert_chain (offset + 3) with
          | Some b0, Some b1, Some b2, Some b3 =>
              if negb (b0 =? 0x30) || negb (b1 =? 0x82) then Some (Err SPDM_STATUS_INVALID_CERT) else
              let this_cert_len := Z.shiftl b2 8 + b3 + 4 in
              if len cert_chain - offset <? this_cert_len then Some (Err SPDM_STATUS_INVALID_CERT) else
              if this_index =? index then Some (Ok (offset, offset + this_cert_len)) else
              if (offset + this_cert_len =? len cert_chain) && (index =? -1)
              then Some (Ok (offset, offset + this_cert_len))
              else cert_loop fuel cert_chain index (offset + this_cert_len) (this_index + 1)
          | _, _, _, _ => Some Panic
          end
      end
  end.
Definition get_cert_from_cert_chain (cert_chain : list Z) (index : Z) : SpdmResult (usize * usize) :=
  default Panic (cert_loop (S (length cert_chain)) cert_chain index 0 0).

(** ** Splitting a chain

    One certificate at [walker]: its end, or [None] where the loop breaks.  A
    length in the short form leaves the walker on the length byte. *)
Definition der_length (cert_chain : list Z) (walker : usize) : option (usize * usize) :=
  length_byte0 ← znth cert_chain walker;
  if Z.land length_byte0 0x80 =? 0 then Some (walker, length_byte0)
  else if length_byte0 =? 0x81 then
    second_byte ← znth cert_chain (walker + 1);
    if second_byte <? 128 then None else
    if len cert_chain <=? walker + 2 then None else Some (walker + 2, second_byte)
  else if length_byte0 =? 0x82 then
    second_byte ← znth cert_chain (walker + 1);
    third_byte ← znth cert_chain (walker + 2);
    if len cert_chain <=? walker + 3 then None else
    let combined := Z.lor (Z.shiftl second_byte 8) third_byte in
    if combined <? 256 then None else Some (walker + 3, combined)
  else None.
Definition next_cert (cert_chain : list Z) (start : usize) : option usize :=
  tag ← znth cert_chain start;
  if negb (tag =? 0x30) then None else
  if len cert_chain <=? start + 1 then None else
  '(walker, length) ← der_length cert_chain (start + 1);
  if len cert_chain <? walker + length then None else Some (walker + length).
Fixpoint split_loop (fuel : nat) (cert_chain : list Z) (walker : usize) : option (list (list Z)) :=
  match fuel with
  | O => None
  | S fuel =>
      if len cert_chain <=? walker then Some [] else
      match next_cert cert_chain walker with
      | None => Some []
      | Some stop =>
          cert ← slice cert_chain walker stop;
          certs ← split_loop fuel cert_chain stop;
          Some (cert :: certs)
      end
  end.
Definition split_certs (cert_chain : list Z) : list (list Z) :=
  default [] (split_loop (S (length cert_chain)) cert_chain 0).

(** ** Extended key usage

    The iterator gives the usages of the certificate, [None] for one that does
    not parse.  [mine] is the role of the certificate's owner, [other] the
    role of the verifier. *)
Definition EKU_SPDM_RESPONDER_AUTH : list Z := [0x2B; 0x06; 0x01; 0x04; 0x01; 0x83; 0x1C; 0x82; 0x12; 0x03].
Definition EKU_SPDM_REQUESTER_AUTH : list Z := [0x2B; 0x06; 0x01; 0x04; 0x01; 0x83; 0x1C; 0x82; 0x12; 0x04].
Inductive EkuError := ExtensionValueInvalid | RequiredEkuNotFoundContext.
Fixpoint eku_scan (mine other : list Z) (iter : list (option (list Z))) (any has_mine has_other : bool) :
    outcome EkuError unit :=
  match iter with
  | [] => if negb any then Ok tt
          else if has_other && negb has_mine then Err RequiredEkuNotFoundContext else Ok tt
  | None :: _ => Err ExtensionValueInvalid
  | Some id :: iter =>
      if decide (id = mine) then eku_scan mine other iter true true has_other
      else eku_scan mine other iter true has_mine (has_other || bool_decide (id = other))
  end.
Definition spdm_responder_eku_validator (iter : list (option (list Z))) : outcome EkuError unit :=
  eku_scan EKU_SPDM_RESPONDER_AUTH EKU_SPDM_REQUESTER_AUTH iter false false false.
Definition spdm_requester_eku_validator (iter : list (option (list Z))) : outcome EkuError unit :=
  eku_scan EKU_SPDM_REQUESTER_AUTH EKU_SPDM_RESPONDER_AUTH iter false false false.

(** ** [verify_cert_chain]

    [anchor ca]: the trust anchor parses; [now]: the system time, if it can be
    read; [webpki ca inters ee now eku]: the end-entity certificate parses and
    the path is valid at that time for the usage [eku] accepts. *)
Definition verify_cert_chain (anchor : list Z → bool) (now : option u64)
    (webpki : list Z → list (list Z) → list Z → u64 → (list (option (list Z)) → outcome EkuError unit) → bool)
    (cert_chain : list Z) : SpdmResult unit :=
  let verdict ca inters ee :=
    if negb (anchor ca) then Err SPDM_STATUS_INVALID_CERT else
    let! now := ok_or now SPDM_STATUS_INVALID_STATE_LOCAL in
    if webpki ca inters ee now spdm_responder_eku_validator then Ok tt else Err SPDM_STATUS_INVALID_CERT in
  match split_certs cert_chain with
  | [] => Err SPDM_STATUS_INVALID_CERT
  | [c] => verdict c [] c
  | ca :: rest => verdict ca (removelast rest) (List.last rest [])
  end.

(** ** Laws *)
Lemma znth_byte l i b : bytes_wf l → znth l i = Some b → byte b.
Proof. intros Hl. unfold znth. case_match; [|done]. intros Hb. by eapply Forall_lookup_1. Qed.

(** Where the loop stands, and what is left of the chain. *)
Lemma cert_loop_total fuel chain index off ti :
  bytes_wf chain → 0 ≤ off ≤ len chain → len chain - off < 4 * Z.of_nat fuel →
  ∃ r, cert_loop fuel chain index off ti = Some r ∧ r ≠ Panic ∧
       ∀ a b, r = Ok (a, b) → off ≤ a ∧ a + 4 ≤ b ≤ len chain.
Proof.
  intros Hw. revert off ti. induction fuel as [|fuel IH]; intros off ti Ho Hf; [lia|].
  cbn [cert_loop]. rewrite slice_spec by lia. rewrite len_ztake by (rewrite len_zdrop; lia).
  destruct ((len chain - off <? 4) || (len chain <? off)) eqn:Hs; [by eexists|].
  apply orb_false_iff in Hs as [Hs _].
  destruct (znth_some chain off) as [b0 ->]; [lia|]. destruct (znth_some chain (off + 1)) as [b1 ->]; [lia|].
  destruct (znth_some chain (off + 2)) as [b2 H2]; [lia|]. destruct (znth_some chain (off + 3)) as [b3 H3]; [lia|].
  rewrite H2, H3. apply znth_byte in H2; [|done]. apply znth_byte in H3; [|done]. unfold byte in *.
  rewrite Z.shiftl_mul_pow2 by done. case_match; [by eexists|].
  destruct (len chain - off <? b2 * 2 ^ 8 + b3 + 4) eqn:Hl; [by eexists|].
  case_match; [|case_match].
  1, 2: (eexists; split_and!; [done..|]; intros a b [= <- <-]; lia).
  destruct (IH (off + (b2 * 2 ^ 8 + b3 + 4)) (ti + 1)) as (r & Hr & Hp & Hb); [lia..|].
  exists r. split_and!; [done..|]. intros a b Hab. specialize (Hb a b Hab). lia.
Qed.

(** ** Chains of certificates

    A certificate as the lookup recognises it: a DER sequence with a two-byte
    length. *)
Definition der_cert (body : list Z) : list Z := [0x30; 0x82; len body / 256; len body mod 256] ++ body.
Definition body_ok (body : list Z) : Prop := bytes_wf body ∧ len body < 2 ^ 16.
Lemma len_der_cert body : len (der_cert body) = 4 + len body.
Proof. unfold der_cert. by rewrite len_app. Qed.
Lemma der_cert_length body :
  body_ok body → Z.shiftl (len body / 256) 8 + len body mod 256 = len body.
Proof.
  intros _. rewrite Z.shiftl_mul_pow2 by done. change (2 ^ 8) with 256.
  pose proof (Z.div_mod (len body) 256). lia.
Qed.
Lemma slice_rest {A} (u v : list A) : slice (u ++ v) (len u) (len (u ++ v)) = Some v.
Proof.
  pose proof (len_nonneg u). pose proof (len_nonneg v). rewrite len_app.
  rewrite slice_spec by (rewrite ?len_app; lia). rewrite zdrop_app, ztake_all by lia. done.
Qed.

Lemma der_cert_head body post :
  let c := der_cert body ++ post in
  znth c 0 = Some 0x30 ∧ znth c 1 = Some 0x82 ∧ znth c 2 = Some (len body / 256) ∧
  znth c 3 = Some (len body mod 256).
Proof. by split_and!. Qed.

Lemma cert_loop_step fuel pre body post index ti :
  body_ok body →
  let chain := pre ++ der_cert body ++ post in
  let stop := len pre + len (der_cert body) in
  cert_loop (S fuel) chain index (len pre) ti =
    if (ti =? index) || (bool_decide (post = []) && (index =? -1)) then Some (Ok (len pre, stop))
    else cert_loop fuel chain index stop (ti + 1).
Proof.
  intros Hb. cbn zeta. cbn [cert_loop]. rewrite slice_rest.
  pose proof (len_nonneg pre). pose proof (len_nonneg body). pose proof (len_nonneg post).
  rewrite !len_app, len_der_cert.
  replace ((4 + len body + len post <? 4) || (len pre + (4 + len body + len post) <? len pre)) with false by lia.
  destruct (der_cert_head body post) as (E0 & E1 & E2 & E3).
  rewrite <- (Z.add_0_r (len pre)) at 1. rewrite !znth_app, E0, E1, E2, E3 by lia. cbn [Z.eqb Pos.eqb negb orb].
  rewrite der_cert_length by done.
  replace (len pre + (4 + len body + len post) - len pre <? len body + 4) with false by lia.
  replace (len body + 4) with (4 + len body) by lia.
  destruct (ti =? index); [done|]. cbn [orb].
  replace (len pre + (4 + len body) =? len pre + (4 + len body + len post)) with (bool_decide (post = [])); [done|].
  case_bool_decide as Hp; [subst; rewrite len_nil; lia|].
  destruct (Z.eqb_spec (len pre + (4 + len body)) (len pre + (4 + len body + len post))); [|done].
  exfalso. apply Hp, len_0_nil. lia.
Qed.

(** The loop passes over [before] and stops at the certificate asked for. *)
Lemma cert_loop_find before : ∀ fuel pre body after index ti,
  Forall body_ok before → body_ok body → (length before < fuel)%nat → 0 ≤ ti →
  index = ti + len before ∨ index = -1 ∧ after = [] →
  let skipped := concat (der_cert <$> before) in
  let o := len pre + len skipped in
  cert_loop fuel (pre ++ skipped ++ der_cert body ++ after) index (len pre) ti
  = Some (Ok (o, o + len (der_cert body))).
Proof.
  induction before as [|b before IH]; intros fuel pre body after index ti Hbs Hb Hf Hti Hi; cbn zeta;
    (destruct fuel as [|fuel]; [cbn in Hf; lia|]); cbn [fmap list_fmap concat].
  - rewrite len_nil in *. cbn [app]. rewrite Z.add_0_r in *. rewrite cert_loop_step by done.
    destruct Hi as [->|[-> ->]]; [by rewrite Z.eqb_refl|]. rewrite bool_decide_true by done. by rewrite orb_true_r.
  - apply Forall_cons in Hbs as [Hb0 Hbs]. rewrite <- !app_assoc. rewrite cert_loop_step by done.
    rewrite len_cons in Hi. pose proof (len_nonneg before).
    replace (ti =? index) with false by lia. cbn [orb].
    rewrite bool_decide_false; [|by intros [_ [[=] _]%app_eq_nil]%app_eq_nil]. cbn [andb].
    rewrite <- len_app, !app_assoc, <- app_assoc.
    specialize (IH fuel (pre ++ der_cert b) body after index (ti + 1)). cbn zeta in IH.
    rewrite <- !app_assoc in *. rewrite IH; [|done..|cbn in Hf; lia|lia|destruct Hi; [left; lia|by right]]. rewrite !len_app. do 3 f_equal; lia.
Qed.

(** The walk accepts a two-byte length only if it is canonical. *)
Definition canonical_body (body : list Z) : Prop := bytes_wf body ∧ 256 ≤ len body < 2 ^ 16.
Lemma next_cert_der pre body post :
  body_ok body →
  next_cert (pre ++ der_cert body ++ post) (len pre) =
    if len body <? 256 then None else Some (len pre + len (der_cert body)).
Proof.
  intros [_ Hl]. destruct (der_cert_head body post) as (E0 & E1 & E2 & E3).
  pose proof (len_nonneg pre). pose proof (len_nonneg body). pose proof (len_nonneg post).
  unfold next_cert. rewrite <- (Z.add_0_r (len pre)) at 1. rewrite znth_app, E0 by lia. cbn [mbind option_bind].
  rewrite !len_app, len_der_cert. cbn [Z.eqb Pos.eqb negb].
  replace (_ <=? len pre + 1) with false by lia. unfold der_length.
  replace (len pre + 1 + 1) with (len pre + 2) by lia. replace (len pre + 1 + 2) with (len pre + 3) by lia.
  rewrite !znth_app, E1, E2, E3 by lia. cbn [mbind option_bind].
  change (Z.land 130 128 =? 0) with false. cbn [Z.eqb Pos.eqb].
  replace (Z.lor _ _) with (len body).
  - rewrite !len_app, len_der_cert. destruct (len body <? 256) eqn:Hb; [by case_match|].
    rewrite (proj2 (Z.leb_gt _ _)) by lia. cbn [mbind option_bind].
    rewrite (proj2 (Z.ltb_ge _ _)) by lia. f_equal. lia.
  - rewrite Z.lor_comm, lor_shiftl_add by (done || apply Z.mod_pos_bound; lia). change (2 ^ 8) with 256.
    pose proof (Z.div_mod (len body) 256). lia.
Qed.

Lemma slice_middle {A} (u v w : list A) : slice (u ++ v ++ w) (len u) (len u + len v) = Some v.
Proof.
  pose proof (len_nonneg v). pose proof (len_nonneg w).
  rewrite <- (Z.add_0_r (len u)) at 1. rewrite slice_app_mid by (rewrite ?len_app; lia).
  by rewrite zdrop_0, Z.sub_0_r, ztake_app.
Qed.
Lemma split_loop_canonical bodies : ∀ fuel pre tail,
  Forall canonical_body bodies → (length bodies < fuel)%nat →
  len tail = 0 ∨ next_cert (pre ++ concat (der_cert <$> bodies) ++ tail)
                   (len pre + len (concat (der_cert <$> bodies))) = None →
  split_loop fuel (pre ++ concat (der_cert <$> bodies) ++ tail) (len pre) = Some (der_cert <$> bodies).
Proof.
  induction bodies as [|b bodies IH]; intros fuel pre tail Hb Hf Ht;
    (destruct fuel as [|fuel]; [cbn in Hf; lia|]); cbn [fmap list_fmap concat split_loop] in *.
  - cbn [app]. case_match eqn:Hl; [done|].
    destruct Ht as [Ht|Ht]; [rewrite len_app in Hl; lia|]. cbn [app] in Ht.
    change (len []) with 0 in Ht. rewrite Z.add_0_r in Ht. by rewrite Ht.
  - apply Forall_cons in Hb as [Hb Hbs]. rewrite <- !app_assoc in Ht |- *.
    rewrite next_cert_der by (destruct Hb; split; [done|lia]). pose proof (len_nonneg pre). destruct Hb as [_ Hb].
    replace (len b <? 256) with false by lia.
    rewrite (proj2 (Z.leb_gt _ _)) by (rewrite !len_app, len_der_cert; pose proof (len_nonneg (concat (der_cert <$> bodies))); pose proof (len_nonneg tail); lia).
    rewrite slice_middle. cbn [mbind option_bind].
    specialize (IH fuel (pre ++ der_cert b) tail Hbs). rewrite len_app, <- app_assoc in IH.
    rewrite (len_app (der_cert b)), Z.add_assoc in Ht. rewrite IH; [done|cbn in Hf; lia|done].
Qed.

Lemma chain_fuel bodies : (length bodies ≤ length (concat (der_cert <$> bodies)))%nat.
Proof. induction bodies as [|b bs IH]; cbn; [lia|]. rewrite length_app. cbn. lia. Qed.
Lemma get_cert_at before body after index :
  Forall body_ok before → body_ok body → index = len before ∨ index = -1 ∧ after = [] →
  let o := len (concat (der_cert <$> before)) in
  get_cert_from_cert_chain (concat (der_cert <$> before) ++ der_cert body ++ after) index
  = Ok (o, o + len (der_cert body)).
Proof.
  intros Hb Hc Hi o. unfold get_cert_from_cert_chain.
  pose proof (cert_loop_find before (S (length (concat (der_cert <$> before) ++ der_cert body ++ after))) [] body after
    index 0 Hb Hc) as H. change (len []) with 0 in H. rewrite !Z.add_0_l in H. cbn [app] in H. cbn zeta in H. rewrite H; [done| |done|done].
  rewrite length_app. pose proof (chain_fuel before). lia.
Qed.
Lemma split_certs_canonical bodies tail :
  Forall canonical_body bodies →
  len tail = 0 ∨ next_cert (concat (der_cert <$> bodies) ++ tail) (len (concat (der_cert <$> bodies))) = None →
  split_certs (concat (der_cert <$> bodies) ++ tail) = der_cert <$> bodies.
Proof.
  intros Hb Ht. unfold split_certs.
  pose proof (split_loop_canonical bodies (S (length (concat (der_cert <$> bodies) ++ tail))) [] tail Hb) as H.
  change (len []) with 0 in H. cbn [app] in H. rewrite H; [done| |done].
  rewrite length_app. pose proof (chain_fuel bodies). lia.
Qed.

Lemma get_cert_safe cert_chain index :
  bytes_wf cert_chain →
  get_cert_from_cert_chain cert_chain index ≠ Panic ∧
  ∀ a b, get_cert_from_cert_chain cert_chain index = Ok (a, b) → 0 ≤ a ∧ a + 4 ≤ b ≤ len cert_chain.
Proof.
  intros Hw. pose proof (len_nonneg cert_chain).
  destruct (cert_loop_total (S (length cert_chain)) cert_chain index 0 0 Hw) as (r & Hr & Hp & Hb);
    [lia|unfold len; lia|]. unfold get_cert_from_cert_chain. by rewrite Hr.
Qed.

(** The certificate lookup returns on every input: it neither loops nor
    panics, whatever bytes and index it is given, and the bounds it returns
    lie in the chain. *)
Theorem get_cert_total cert_chain index :
  bytes_wf cert_chain →
  ∃ r, cert_loop (S (length cert_chain)) cert_chain index 0 0 = Some r ∧
       get_cert_from_cert_chain cert_chain index = r ∧ r ≠ Panic ∧
       ∀ a b, r = Ok (a, b) → 0 ≤ a ∧ a + 4 ≤ b ≤ len cert_chain.
Proof.
  intros Hw. pose proof (len_nonneg cert_chain).
  destruct (cert_loop_total (S (length cert_chain)) cert_chain index 0 0 Hw) as (r & Hr & Hp & Hb);
    [lia|unfold len; lia|].
  exists r. unfold get_cert_from_cert_chain. by rewrite Hr.
Qed.

(** In a chain of certificates the lookup finds the certificate of the
    index, the last one for -1, and the walk of the verification splits the
    chain into exactly the certificates. *)
Theorem cert_chain_lookup bodies i body :
  Forall canonical_body bodies → bodies !! i = Some body →
  let chain := concat (der_cert <$> bodies) in
  let o := len (concat (der_cert <$> take i bodies)) in
  get_cert_from_cert_chain chain (Z.of_nat i) = Ok (o, o + len (der_cert body)) ∧
  (S i = length bodies → get_cert_from_cert_chain chain (-1) = Ok (o, o + len (der_cert body))) ∧
  slice chain o (o + len (der_cert body)) = Some (der_cert body) ∧
  split_certs chain = der_cert <$> bodies.
Proof.
  intros Hb Hi chain o. pose proof (lookup_lt_Some _ _ _ Hi) as Hl.
  assert (chain = concat (der_cert <$> take i bodies) ++ der_cert body ++ concat (der_cert <$> drop (S i) bodies)) as Hc.
  { unfold chain. rewrite <- (take_drop_middle bodies i body Hi) at 1. by rewrite fmap_app, concat_app. }
  assert (∀ b, canonical_body b → body_ok b) as Hok by (intros b []; split; [done|lia]).
  assert (Forall body_ok (take i bodies)) as Ht by (eapply Forall_impl, Hok; by apply Forall_take).
  assert (body_ok body) as Hbody by (eapply Hok, Forall_lookup_1; done).
  split_and!.
  - rewrite Hc. apply get_cert_at; [done..|]. left. unfold len. rewrite length_take. lia.
  - intros Hlast. rewrite Hc, drop_ge by lia. apply get_cert_at; [done..|by right].
  - rewrite Hc. apply slice_middle.
  - unfold chain. rewrite <- (app_nil_r (concat _)). apply split_certs_canonical; [done|by left].
Qed.

(** The verification stops at the first certificate it does not recognise and
    ignores the rest, so after a valid chain a sequence with a length that is
    not canonical is the last certificate for the lookup, but is not verified. *)
Theorem unverified_tail_is_leaf bodies body :
  Forall canonical_body bodies → bytes_wf body → len body < 256 →
  let chain := concat (der_cert <$> bodies) ++ der_cert body in
  split_certs chain = der_cert <$> bodies ∧
  get_cert_from_cert_chain chain (-1)
  = Ok (len (concat (der_cert <$> bodies)), len (concat (der_cert <$> bodies)) + len (der_cert body)).
Proof.
  intros Hb Hw Hl chain. unfold chain. split.
  - apply split_certs_canonical; [done|]. right. rewrite <- (app_nil_r (der_cert body)).
    rewrite next_cert_der by (split; [done|lia]). by replace (len body <? 256) with true by lia.
  - rewrite <- (app_nil_r (der_cert body)) at 1. apply get_cert_at; [|split; [done|lia]|by right].
    eapply Forall_impl; [done|]. intros b []. split; [done|lia].
Qed.

(** ** Examples *)
Definition body300 (b : Z) : list Z := replicate 300 b.
Lemma body300_ok b : byte b → canonical_body (body300 b).
Proof. intros. split; [by apply Forall_replicate|by vm_compute]. Qed.
Lemma get_cert_total_witness : get_cert_from_cert_chain [0x30; 0x82; 0; 1; 7; 0x30; 0x82] 1 ≠ Panic.
Proof.
  destruct (get_cert_total [0x30; 0x82; 0; 1; 7; 0x30; 0x82] 1) as (r & _ & -> & Hp & _); [by apply is_byte_wf|exact Hp].
Defined.
Lemma cert_chain_lookup_witness :
  get_cert_from_cert_chain (der_cert (body300 1) ++ der_cert (body300 2) ++ []) (-1) = Ok (304, 608).
Proof.
  refine (proj1 (proj2 (cert_chain_lookup [body300 1; body300 2] 1 (body300 2) _ eq_refl)) eq_refl).
  by repeat (constructor; [by apply body300_ok|]).
Defined.
