(* ===== verification/X509.v ===== *)
(** * X.509 checks

    Models src/spdmlib/src/crypto/x509v3.rs: the walk over the DER encoding of
    a certificate that [check_cert_chain_format], [is_root_certificate] and
    [check_leaf_certificate] do.  Positions are [usize]: they are bounded by the
    length of the slice, so their sums do not overflow.  A loop takes the
    length of its slice as fuel and panics when it runs out, so that the
    absence of panics is termination too.  Proved: the checks never panic on
    any bytes, and which certificates the root and leaf checks accept. *)

From S2P Require Import Prelude Status Bitflags Algo.

Module X509.
Definition RFC_5280_KEY_USAGE_DIGITAL_SIGNATURE_BIT : u8 := 0x80.
Definition ASN1_TAG_CLASS_CONTEXT_SPECIFIC_MASK : u8 := 0x80.
Definition ASN1_FORM_CONSTRUCTED_MASK : u8 := 0x20.
Definition ASN1_TAG_BOOLEAN : u8 := 0x1.
Definition ASN1_TAG_NUMBER_INTEGER : u8 := 0x2.
Definition ASN1_TAG_BIT_STRING : u8 := 0x3.
Definition ASN1_TAG_OCTET_STRING : u8 := 0x4.
Definition ASN1_TAG_NUMBER_OBJECT_IDENTIFIER : u8 := 0x6.
Definition ASN1_TAG_SEQUENCE : u8 := 0x30.
Definition ASN1_TAG_EXPLICIT_EXTENSION : u8 := 0xA3.
Definition ASN1_TAG_EXTN_VALUE : u8 := 0x04.
Definition ASN1_LENGTH_MULTI_OCTET_MASK : u8 := 0x80.
Definition ASN1_LENGTH_ONE_OCTET : u8 := 0x81.
Definition ASN1_LENGTH_TWO_OCTET : u8 := 0x82.
Definition X509V3_VERSION : u8 := 2.
Definition OID_RSA_SHA256RSA : list Z := [0x2a; 0x86; 0x48; 0x86; 0xf7; 0x0d; 0x01; 0x01; 0x0b].
Definition OID_RSA_SHA384RSA : list Z := [0x2a; 0x86; 0x48; 0x86; 0xf7; 0x0d; 0x01; 0x01; 0x0c].
Definition OID_RSA_SHA512RSA : list Z := [0x2a; 0x86; 0x48; 0x86; 0xf7; 0x0d; 0x01; 0x01; 0x0d].
Definition OID_ECDSA_SHA256 : list Z := [0x2a; 0x86; 0x48; 0xce; 0x3d; 0x04; 0x03; 0x02].
Definition OID_ECDSA_SHA384 : list Z := [0x2a; 0x86; 0x48; 0xce; 0x3d; 0x04; 0x03; 0x03].
(** The object identifiers DMTF assigns to SPDM. *)
Definition oid_dmtf_spdm (x : Z) : list Z := [0x2B; 0x06; 0x01; 0x04; 0x01; 0x83; 0x1C; 0x82; 0x12; x].
Definition OID_DMTF_SPDM_DEVICE_INFO : list Z := oid_dmtf_spdm 0x01.
Definition OID_DMTF_SPDM_HARDWARE_IDENTITY : list Z := oid_dmtf_spdm 0x02.
Definition OID_DMTF_SPDM_EKU_RESPONDER_AUTH : list Z := oid_dmtf_spdm 0x03.
Definition OID_DMTF_SPDM_EKU_REQUESTER_AUTH : list Z := oid_dmtf_spdm 0x04.
Definition OID_DMTF_MUTABLE_CERTIFICATE : list Z := oid_dmtf_spdm 0x05.
Definition OID_DMTF_SPDM_EXTENSION : list Z := oid_dmtf_spdm 0x06.
Definition OID_KEY_USAGE : list Z := [0x55; 0x1D; 0x0F].
Definition OID_SUBJECT_ALTERNATIVE_NAME : list Z := [0x55; 0x1D; 0x11].
Definition OID_EXT_KEY_USAGE : list Z := [0x55; 0x1D; 0x25].

Definition bad {A} : SpdmResult A := Err SPDM_STATUS_VERIF_FAIL.
(** [data[i]], [&data[i..]] and [&data[a..b]] *)
Definition byte_at (data : list Z) (i : usize) : SpdmResult Z := or_panic (znth data i).
Definition from (data : list Z) (i : usize) : SpdmResult (list Z) := or_panic (slice data i (len data)).
Definition range (data : list Z) (a b : usize) : SpdmResult (list Z) := or_panic (slice data a b).

(** ** Tags, lengths and object identifiers *)
Definition check_tag (tag : u8) (data : list Z) : SpdmResult unit :=
  match data with
  | [] => bad
  | b :: _ => if b =? tag then Ok tt else bad
  end.
Definition check_tag_is_sequence := check_tag ASN1_TAG_SEQUENCE.
Definition check_tag_is_num_oid := check_tag ASN1_TAG_NUMBER_OBJECT_IDENTIFIER.
Definition check_tag_is_bool := check_tag ASN1_TAG_BOOLEAN.
Definition check_tag_is_octet_string := check_tag ASN1_TAG_OCTET_STRING.

(** The length of the payload and the number of bytes that encode it. *)
Definition check_length (data : list Z) : SpdmResult (usize * usize) :=
  match data with
  | [] => bad
  | n :: rest =>
      let! (length, byte_comsumed) :=
        if Z.land n ASN1_LENGTH_MULTI_OCTET_MASK =? 0 then Ok (n, 1)
        else if n =? ASN1_LENGTH_ONE_OCTET then
          match rest with
          | second_byte :: _ => if second_byte <? 0x80 then bad else Ok (second_byte, 2)
          | [] => bad
          end
        else if n =? ASN1_LENGTH_TWO_OCTET then
          match rest with
          | second_byte :: third_byte :: _ =>
              let combined := Z.lor (Z.shiftl second_byte 8) third_byte in
              if combined <? 0x100 then bad else Ok (combined, 3)
          | _ => bad
          end
        else bad in
      if len data <? byte_comsumed + length then bad else Ok (length, byte_comsumed)
  end.

Fixpoint oid_loop (a b : list Z) : bool :=
  match a, b with
  | ai :: a, bi :: b => if ai =? bi then oid_loop a b else false
  | _, _ => true
  end.
Definition object_identifiers_are_same (a b : list Z) : bool :=
  if negb (len a =? len b) then false else oid_loop a b.

Definition check_version (data : list Z) : SpdmResult usize :=
  match data with
  | d0 :: d1 :: d2 :: d3 :: version :: _ =>
      if negb (d0 =? Z.lor ASN1_TAG_CLASS_CONTEXT_SPECIFIC_MASK ASN1_FORM_CONSTRUCTED_MASK) || negb (d1 =? 3)
         || negb (d2 =? ASN1_TAG_NUMBER_INTEGER) || negb (d3 =? 1) then bad
      else if version =? X509V3_VERSION then Ok 5 else bad
  | _ => bad
  end.

Definition check_object_identifier (data : list Z) (oid : option (list Z)) : SpdmResult usize :=
  match data with
  | tag :: oid_length :: _ =>
      if negb (tag =? ASN1_TAG_NUMBER_OBJECT_IDENTIFIER) then bad
      else if (len data <? oid_length + 2) || (0x80 <=? oid_length) then bad
      else match oid with
           | Some oid =>
               let! o := range data 2 (2 + oid_length) in
               if object_identifiers_are_same o oid then Ok (oid_length + 2) else bad
           | None => Ok (oid_length + 2)
           end
  | _ => bad
  end.

Definition get_oid_by_base_asym_algo (a : SpdmBaseAsymAlgo) : option (list Z) :=
  if decide (a = SpdmBaseAsymAlgo.TPM_ALG_RSASSA_2048) then Some OID_RSA_SHA256RSA
  else if decide (a = SpdmBaseAsymAlgo.TPM_ALG_RSAPSS_2048) then Some OID_RSA_SHA256RSA
  else if decide (a = SpdmBaseAsymAlgo.TPM_ALG_RSASSA_3072) then Some OID_RSA_SHA384RSA
  else if decide (a = SpdmBaseAsymAlgo.TPM_ALG_RSAPSS_3072) then Some OID_RSA_SHA384RSA
  else if decide (a = SpdmBaseAsymAlgo.TPM_ALG_ECDSA_ECC_NIST_P256) then Some OID_ECDSA_SHA256
  else if decide (a = SpdmBaseAsymAlgo.TPM_ALG_RSASSA_4096) then Some OID_RSA_SHA512RSA
  else if decide (a = SpdmBaseAsymAlgo.TPM_ALG_RSAPSS_4096) then Some OID_RSA_SHA512RSA
  else if decide (a = SpdmBaseAsymAlgo.TPM_ALG_ECDSA_ECC_NIST_P384) then Some OID_ECDSA_SHA384
  else None.

(** ** Elements that are skipped *)
(** The size of an element and its payload. *)
Definition check_and_get_common_tag (data : list Z) : SpdmResult (usize * list Z) :=
  if len data <? 1 then bad else
  let! d := from data 1 in
  let! (payload_length, bytes_consumed) := check_length d in
  let n := 1 + bytes_consumed + payload_length in
  if len data <? n then bad else
  let! payload := range data (1 + bytes_consumed) n in
  Ok (n, payload).
Definition check_and_skip_common_tag (data : list Z) : SpdmResult usize :=
  if len data <? 1 then bad else
  let! d := from data 1 in
  let! (payload_length, bytes_consumed) := check_length d in
  if len data <? 1 + bytes_consumed + payload_length then bad
  else Ok (1 + bytes_consumed + payload_length).
Definition check_and_skip_common_sequence (data : list Z) : SpdmResult usize :=
  match check_tag_is_sequence data with
  | Ok _ =>
      let! d := from data 1 in
      let! (payload_length, bytes_consumed) := check_length d in
      if len data <? 1 + bytes_consumed + payload_length then bad
      else Ok (1 + bytes_consumed + payload_length)
  | _ => bad
  end.
Definition check_name := check_and_skip_common_sequence.
Definition check_validity := check_and_skip_common_sequence.
Definition check_public_key_info := check_and_skip_common_sequence.
Definition check_signature_value := check_and_skip_common_tag.

(** ** Extensions *)
Definition check_and_get_extensions (data : list Z) : SpdmResult (usize * list Z) :=
  match check_tag ASN1_TAG_EXPLICIT_EXTENSION data with
  | Ok _ =>
      let! d := from data 1 in
      let! (payload_length, bytes_consumed) := check_length d in
      let n := 1 + bytes_consumed + payload_length in
      if len data <? n then bad else
      let! payload := range data (1 + bytes_consumed) n in
      Ok (n, payload)
  | _ => Ok (len data, data)
  end.

(** The last octet of the key usage, whose identifier ends at [index]. *)
Definition key_usage_value (data : list Z) (index : usize) : SpdmResult (bool * u8) :=
  let len := len data in
  if len <=? index then bad else
  let! b := byte_at data index in
  let! index :=
    if b =? ASN1_TAG_BOOLEAN then
      if len <=? index + 1 then bad else
      let! d := from data (index + 1) in
      let! (bool_length, bool_consumed) := check_length d in
      let index := index + 1 + bool_consumed + bool_length in
      if len <=? index then bad else Ok index
    else Ok index in
  let! b := byte_at data index in
  if b =? ASN1_TAG_EXTN_VALUE then
    if len <=? index + 1 then bad else
    let! d := from data (index + 1) in
    let! (_, extnvalue_consumed) := check_length d in
    let index := index + 1 + extnvalue_consumed in
    if len <=? index then bad else
    let! b := byte_at data index in
    if b =? ASN1_TAG_BIT_STRING then
      if len <=? index + 1 then bad else
      let! d := from data (index + 1) in
      let! (string_length, string_consumed) := check_length d in
      let index := index + string_consumed + string_length in
      if len <=? index then bad else
      let! v := byte_at data index in
      Ok (true, v)
    else Ok (false, 0x00)
  else bad.
Fixpoint key_usage_loop (fuel : nat) (data : list Z) (index : usize) : SpdmResult (bool * u8) :=
  match fuel with
  | O => Panic
  | S fuel =>
      if len data <=? index then Ok (false, 0x00)
      else if len data <=? index + 1 then bad else
      let! d := from data (index + 1) in
      let! (payload_length, bytes_consumed) := check_length d in
      if len data - (index + 1) <? bytes_consumed + payload_length then bad else
      let! tag := byte_at data index in
      let next := index + 1 + bytes_consumed + payload_length in
      if tag =? ASN1_TAG_SEQUENCE then key_usage_loop fuel data (index + 1 + bytes_consumed)
      else
        let! found :=
          if (tag =? ASN1_TAG_NUMBER_OBJECT_IDENTIFIER) && (payload_length =? len OID_KEY_USAGE)
          then let! o := range data (index + 1 + bytes_consumed) next in
               Ok (object_identifiers_are_same o OID_KEY_USAGE)
          else Ok false in
        if (found : bool) then key_usage_value data next else key_usage_loop fuel data next
  end.
Definition get_key_usage_value (data : list Z) : SpdmResult (bool * u8) :=
  match check_tag_is_sequence data with
  | Ok _ =>
      let! d := from data 1 in
      let! (data_length, bytes_consumed) := check_length d in
      if len data <? 1 + data_length + bytes_consumed then bad
      else key_usage_loop (S (length data)) data (1 + bytes_consumed)
  | _ => bad
  end.

Fixpoint single_loop (fuel : nat) (data target_oid : list Z) (index : usize) : SpdmResult bool :=
  match fuel with
  | O => Panic
  | S fuel =>
      if len data - len target_oid <=? index then Ok false
      else if len data <=? index + 1 then bad else
      let! d := from data (index + 1) in
      let! (payload_length, bytes_consumed) := check_length d in
      if len data - (index + 1) <? bytes_consumed + payload_length then bad else
      let! tag := byte_at data index in
      let inside := index + 1 + bytes_consumed in
      if tag =? ASN1_TAG_NUMBER_OBJECT_IDENTIFIER then
        let! o := range data inside (inside + payload_length) in
        if object_identifiers_are_same o target_oid && (payload_length =? len target_oid) then Ok true
        else single_loop fuel data target_oid (inside + payload_length)
      else if (tag =? ASN1_TAG_SEQUENCE) || (tag =? ASN1_TAG_EXTN_VALUE) then single_loop fuel data target_oid inside
      else single_loop fuel data target_oid (inside + payload_length)
  end.
Definition find_target_object_identifier_in_single_extension (data target_oid : list Z) : SpdmResult bool :=
  if len data <? 1 then bad
  else if len data <? len target_oid then Ok false
  else single_loop (S (length data)) data target_oid 0.

(** The identifier of an extension, and the size of the extension. *)
Definition check_and_get_extn_id (extn_sequences : list Z) : SpdmResult (list Z * usize) :=
  match check_tag_is_sequence extn_sequences with
  | Ok _ =>
      let! d := from extn_sequences 1 in
      let! (extn_payload_length, extn_bytes_consumed) := check_length d in
      if len extn_sequences <? 1 + extn_bytes_consumed + extn_payload_length then bad else
      let! extn_id := from extn_sequences (1 + extn_bytes_consumed) in
      match check_tag_is_num_oid extn_id with
      | Ok _ =>
          let! d := from extn_id 1 in
          let! (extn_id_length, extn_id_bytes_consumed) := check_length d in
          let! o := range extn_id (1 + extn_id_bytes_consumed) (1 + extn_id_bytes_consumed + extn_id_length) in
          Ok (o, 1 + extn_bytes_consumed + extn_payload_length)
      | _ => bad
      end
  | _ => bad
  end.

(** Whether an extended key usage for SPDM was found in the extensions. *)
Fixpoint spdm_oid_loop (fuel : nat) (extn_sequences : list Z) (payload_length index : usize)
    (responder_auth requester_auth : bool) : SpdmResult (bool * bool) :=
  match fuel with
  | O => Panic
  | S fuel =>
      if payload_length <=? index then Ok (responder_auth, requester_auth) else
      let! d := from extn_sequences index in
      let! (extnid, extn_sequence_len) := check_and_get_extn_id d in
      if payload_length - index <? extn_sequence_len then bad else
      let next := spdm_oid_loop fuel extn_sequences payload_length (index + extn_sequence_len) in
      let find oid :=
        let! e := range extn_sequences index (index + extn_sequence_len) in
        find_target_object_identifier_in_single_extension e oid in
      if object_identifiers_are_same extnid OID_SUBJECT_ALTERNATIVE_NAME then
        let! _ := find OID_DMTF_SPDM_DEVICE_INFO in
        next responder_auth requester_auth
      else if object_identifiers_are_same extnid OID_EXT_KEY_USAGE then
        let! rsp := find OID_DMTF_SPDM_EKU_RESPONDER_AUTH in
        if (rsp : bool) then next true requester_auth else
        let! req := find OID_DMTF_SPDM_EKU_REQUESTER_AUTH in
        next responder_auth (if (req : bool) then true else requester_auth)
      else if object_identifiers_are_same extnid OID_DMTF_SPDM_EXTENSION then
        let! mut := find OID_DMTF_MUTABLE_CERTIFICATE in
        let! _ := if (mut : bool) then Ok true else find OID_DMTF_SPDM_HARDWARE_IDENTITY in
        next responder_auth requester_auth
      else next responder_auth requester_auth
  end.
Definition check_extensions_spdm_oid (extensions : list Z) (is_leaf_cert : bool) : SpdmResult bool :=
  match check_tag_is_sequence extensions with
  | Ok _ =>
      let! d := from extensions 1 in
      let! (payload_length, sequences_bytes_consumed) := check_length d in
      let! extn_sequences := from extensions (1 + sequences_bytes_consumed) in
      if len extn_sequences <? payload_length then bad else
      let! (rsp, req) := spdm_oid_loop (S (length extn_sequences)) extn_sequences payload_length 0 false false in
      Ok (negb (negb is_leaf_cert && (rsp || req)))
  | _ => bad
  end.

(** [check; walker += n; if walker >= len { error }], where the check may tell
    a length. *)
Definition within (data : list Z) (walker : usize) : SpdmResult usize :=
  if len data <=? walker then bad else Ok walker.
Definition pass_tag (check : list Z → SpdmResult unit) (data : list Z) (walker : usize) : SpdmResult usize :=
  let! d := from data walker in
  let! _ := check d in
  within data (walker + 1).
Definition pass_length (data : list Z) (walker : usize) : SpdmResult (usize * usize) :=
  let! d := from data walker in
  let! (length, bytes_consumed) := check_length d in
  let! walker := within data (walker + bytes_consumed) in
  Ok (length, walker).

(** The identifier in the value of the SPDM extension, an octet string at
    [walker], is the one looked for. *)
Definition spdm_extension_value (data target_oid : list Z) (walker : usize) : SpdmResult bool :=
  let! walker := pass_tag check_tag_is_octet_string data walker in
  let! (_, walker) := pass_length data walker in
  let! walker := pass_tag check_tag_is_sequence data walker in
  let! (_, walker) := pass_length data walker in
  let! walker := pass_tag check_tag_is_sequence data walker in
  let! (_, walker) := pass_length data walker in
  let! walker := pass_tag check_tag_is_num_oid data walker in
  let! (target_oid_length, walker) := pass_length data walker in
  if negb (target_oid_length =? len target_oid) then bad
  else if walker + target_oid_length <=? len data then
    let! o := range data walker (walker + target_oid_length) in
    Ok (object_identifiers_are_same o target_oid)
  else Ok false.
(** The same after the identifier of the extension, where a boolean may tell
    whether it is critical. *)
Definition spdm_extension_holds (data target_oid : list Z) (walker : usize) : SpdmResult bool :=
  let! walker := within data walker in
  let! d := from data walker in
  if is_ok (check_tag_is_bool d) then
    let! walker := within data (walker + 3) in
    spdm_extension_value data target_oid walker
  else spdm_extension_value data target_oid walker.
Fixpoint extensions_loop (fuel : nat) (data target_oid : list Z) (walker : usize) : SpdmResult bool :=
  match fuel with
  | O => Panic
  | S fuel =>
      if len data <=? walker then Ok false else
      let! walker := pass_tag check_tag_is_sequence data walker in
      let! (extension_length, walker) := pass_length data walker in
      let next_ext_walker := walker + extension_length in
      let! walker := pass_tag check_tag_is_num_oid data walker in
      let! (payload_length, walker) := pass_length data walker in
      let! spdm :=
        if walker + payload_length <? len data
        then let! o := range data walker (walker + payload_length) in
             Ok (object_identifiers_are_same o OID_DMTF_SPDM_EXTENSION)
        else Ok false in
      let! found := if (spdm : bool) then spdm_extension_holds data target_oid (walker + payload_length)
                    else Ok false in
      if (found : bool) then Ok true else extensions_loop fuel data target_oid next_ext_walker
  end.
Definition find_target_object_identifier_in_extensions (data target_oid : list Z) : SpdmResult bool :=
  let! walker := within data 0 in
  let! walker := pass_tag check_tag_is_sequence data walker in
  let! d := from data walker in
  let! (payload_length, bytes_consumed) := check_length d in
  let walker := walker + bytes_consumed in
  if len data - walker <? payload_length then bad else
  let! data := range data walker (walker + payload_length) in
  extensions_loop (S (length data)) data target_oid 0.

(** ** Certificates *)
(** [t_walker += f(&data[t_walker..])?] *)
Definition skip (f : list Z → SpdmResult usize) (data : list Z) (t_walker : usize) : SpdmResult usize :=
  let! d := from data t_walker in
  let! n := f d in
  Ok (t_walker + n).
(** [check_tag_is_sequence; check_length; check_object_identifier], from
    [t_walker] to the end of the algorithm identifier. *)
Definition algorithm_identifier (oid : option (list Z)) (data : list Z) (t_walker : usize) : SpdmResult usize :=
  let! d := from data t_walker in
  let! _ := check_tag_is_sequence d in
  let! d := from data (t_walker + 1) in
  let! (signature_id_length, bytes_consumed) := check_length d in
  let t_walker := t_walker + 1 + bytes_consumed in
  let! d := from data t_walker in
  let! _ := check_object_identifier d oid in
  Ok (t_walker + signature_id_length).
(** The start of a certificate to be signed, up to the signature algorithm:
    where the certificate ends, and the position. *)
Definition tbs_start (oid : option (list Z)) (data : list Z) : SpdmResult (usize * usize) :=
  let! _ := check_tag_is_sequence data in
  let! d := from data 1 in
  let! (tbs_length, bytes_consumed) := check_length d in
  let t_walker := 1 + bytes_consumed in
  let tbs_end := t_walker + tbs_length in
  if len data <? tbs_end then bad else
  let! t_walker := skip check_version data t_walker in
  let! t_walker := skip check_and_skip_common_tag data t_walker in
  let! t_walker := algorithm_identifier oid data t_walker in
  Ok (tbs_end, t_walker).
(** The issuer, validity, subject and public key. *)
Definition tbs_names (data : list Z) (t_walker : usize) : SpdmResult usize :=
  let! t_walker := skip check_name data t_walker in
  let! t_walker := skip check_validity data t_walker in
  let! t_walker := skip check_name data t_walker in
  skip check_public_key_info data t_walker.
(** The content of a certificate. *)
Definition cert_body (cert : list Z) : SpdmResult (list Z) :=
  let! _ := check_tag_is_sequence cert in
  let! d := from cert 1 in
  let! (_, bytes_consumed) := check_length d in
  from cert (1 + bytes_consumed).

Definition expected_oid (base_asym_algo : SpdmBaseAsymAlgo) (is_leaf_cert : bool) : option (list Z) :=
  if is_leaf_cert then get_oid_by_base_asym_algo base_asym_algo else None.
Definition check_tbs_certificate (data : list Z) (base_asym_algo : SpdmBaseAsymAlgo) (is_leaf_cert : bool) :
    SpdmResult usize :=
  let! (tbs_end, t_walker) := tbs_start (expected_oid base_asym_algo is_leaf_cert) data in
  let! t_walker := tbs_names data t_walker in
  let! d := from data t_walker in
  let! (bytes_consumed, extension_data) := check_and_get_extensions d in
  let! (find_key_usage, key_usage_value) := get_key_usage_value extension_data in
  let check_extensions_success :=
    if is_leaf_cert then
      negb (find_key_usage && negb (Z.land RFC_5280_KEY_USAGE_DIGITAL_SIGNATURE_BIT key_usage_value
                                    =? RFC_5280_KEY_USAGE_DIGITAL_SIGNATURE_BIT))
    else true in
  let! check_extn_spdm_success := check_extensions_spdm_oid extension_data is_leaf_cert in
  if (t_walker + bytes_consumed =? tbs_end) && check_extensions_success && check_extn_spdm_success
  then Ok tbs_end else bad.
Definition check_signature_algorithm (data : list Z) (base_asym_algo : SpdmBaseAsymAlgo) (is_leaf_cert : bool) :
    SpdmResult usize :=
  algorithm_identifier (expected_oid base_asym_algo is_leaf_cert) data 0.

Definition check_cert_format (cert : list Z) (base_asym_algo : SpdmBaseAsymAlgo) : SpdmResult usize :=
  let! _ := check_tag_is_sequence cert in
  let! d := from cert 1 in
  let! (body_size, bytes_consumed) := check_length d in
  let c_walker := 1 + bytes_consumed in
  let is_leaf_cert := len cert =? c_walker + body_size in
  let! c_walker := skip (λ d, check_tbs_certificate d base_asym_algo is_leaf_cert) cert c_walker in
  let! c_walker := skip (λ d, check_signature_algorithm d base_asym_algo is_leaf_cert) cert c_walker in
  let! c_walker := skip check_signature_value cert c_walker in
  if c_walker =? 1 + bytes_consumed + body_size then Ok c_walker else bad.
Fixpoint chain_loop (fuel : nat) (cert_chain : list Z) (base_asym_algo : SpdmBaseAsymAlgo)
    (cc_walker cert_count : usize) : SpdmResult usize :=
  match fuel with
  | O => Panic
  | S fuel =>
      if cc_walker <? len cert_chain then
        let! cc_walker := skip (λ d, check_cert_format d base_asym_algo) cert_chain cc_walker in
        chain_loop fuel cert_chain base_asym_algo cc_walker (cert_count + 1)
      else if cc_walker =? len cert_chain then Ok cert_count else bad
  end.
Definition check_cert_chain_format (cert_chain : list Z) (base_asym_algo : SpdmBaseAsymAlgo) : SpdmResult usize :=
  chain_loop (S (length cert_chain)) cert_chain base_asym_algo 0 0.

Definition is_root_certificate (cert : list Z) : SpdmResult unit :=
  let! data := cert_body cert in
  let! (_, t_walker) := tbs_start None data in
  let! d := from data t_walker in
  let! (bytes_consumed, issuer) := check_and_get_common_tag d in
  let t_walker := t_walker + bytes_consumed in
  let! t_walker := skip check_validity data t_walker in
  let! d := from data t_walker in
  let! (_, subject) := check_and_get_common_tag d in
  if decide (subject = issuer) then Ok tt else bad.

Definition check_leaf_certificate (cert : list Z) (is_alias_cert_model : bool) : SpdmResult unit :=
  let! data := cert_body cert in
  let! (_, t_walker) := tbs_start None data in
  let! t_walker := tbs_names data t_walker in
  let! d := from data t_walker in
  let! (_, extension_data) := check_and_get_extensions d in
  let! found := find_target_object_identifier_in_extensions extension_data OID_DMTF_SPDM_HARDWARE_IDENTITY in
  if is_alias_cert_model && found then bad else Ok tt.
End X509.

Module X509Laws.
Import X509.

(** [m] does not panic, and [P] holds of what it returns. *)
Definition safely {A} (m : SpdmResult A) (P : A → Prop) : Prop :=
  match m with Ok a => P a | Err _ => True | Panic => False end.
Lemma safely_bind {A B} (m : SpdmResult A) (k : A → SpdmResult B) (P : A → Prop) (Q : B → Prop) :
  safely m P → (∀ a, P a → safely (k a) Q) → safely (obind m k) Q.
Proof. destruct m; cbn; auto. Qed.
Lemma safely_mono {A} (m : SpdmResult A) (P Q : A → Prop) : safely m P → (∀ a, P a → Q a) → safely m Q.
Proof. destruct m; cbn; auto. Qed.
Lemma safely_if {A} (b : bool) (m n : SpdmResult A) P :
  (b = true → safely m P) → (b = false → safely n P) → safely (if b then m else n) P.
Proof. destruct b; auto. Qed.
Lemma safely_bad {A} (P : A → Prop) : safely bad P.
Proof. done. Qed.

(** A check whose verdict selects the rest. *)
Lemma safely_match {A B} (c : SpdmResult B) (m n : SpdmResult A) (Q : Prop) P :
  safely c (λ _, Q) → (Q → safely m P) → safely n P → safely (match c with Ok _ => m | _ => n end) P.
Proof. destruct c; cbn; auto. Qed.
Lemma from_safe data i :
  bytes_wf data → 0 ≤ i ≤ len data → safely (from data i) (λ d, bytes_wf d ∧ len d = len data - i).
Proof.
  intros Hd Hi. unfold from. rewrite slice_spec by lia. cbn. split; [auto with wfb|].
  rewrite len_ztake by (rewrite len_zdrop; lia). done.
Qed.
Lemma range_safe data a b :
  bytes_wf data → 0 ≤ a ≤ b → b ≤ len data → safely (range data a b) (λ d, bytes_wf d ∧ len d = b - a).
Proof.
  intros Hd Ha Hb. unfold range. rewrite slice_spec by lia. cbn. split; [auto with wfb|].
  rewrite len_ztake by (rewrite len_zdrop; lia). done.
Qed.
Lemma byte_at_safe data i : 0 ≤ i < len data → safely (byte_at data i) (λ _, True).
Proof. intros Hi. unfold byte_at. by destruct (znth_some data i Hi) as [b ->]. Qed.

Definition length_ok (data : list Z) (r : usize * usize) : Prop :=
  0 ≤ r.1 ∧ 1 ≤ r.2 ∧ r.2 + r.1 ≤ len data.
Lemma check_length_safe data : bytes_wf data → safely (check_length data) (length_ok data).
Proof.
  intros Hd. unfold check_length. destruct data as [|n rest]; [done|].
  apply bytes_wf_cons in Hd as [Hn Hr]. unfold byte in Hn.
  eapply (safely_bind _ _ (λ r, 0 ≤ r.1 ∧ 1 ≤ r.2)).
  - apply safely_if; intros _; [cbn; lia|]. apply safely_if; intros _.
    + destruct rest as [|b rest]; [done|]. apply safely_if; [done|]. intros Hb. cbn. lia.
    + apply safely_if; intros _; [|done]. destruct rest as [|b1 [|b2 rest]]; [done..|].
      apply safely_if; [done|]. cbn. lia.
  - intros [l c] [Hl Hc]. apply safely_if; [done|]. intros Hlt. unfold length_ok. cbn in *. lia.
Qed.
Lemma check_tag_safe tag data : safely (check_tag tag data) (λ _, 1 ≤ len data).
Proof.
  destruct data as [|b d]; [done|]. cbn. rewrite len_cons. pose proof (len_nonneg d).
  destruct (b =? tag); cbn; lia.
Qed.

(** One step of a walk: a guard, an access, a length or a tag. *)
Ltac walk_step :=
  lazymatch goal with
  | |- safely bad _ => apply safely_bad
  | |- safely (if _ then _ else _) _ => apply safely_if; intros ?
  | |- safely (match check_tag _ _ with _ => _ end) _ =>
      eapply safely_match; [apply check_tag_safe|intros ?|try apply safely_bad]
  | |- safely (obind (from _ _) _) _ =>
      eapply safely_bind; [apply from_safe; [assumption|lia]|intros ? [? ?]]
  | |- safely (obind (range _ _ _) _) _ =>
      eapply safely_bind; [apply range_safe; [assumption|lia|lia]|intros ? [? ?]]
  | |- safely (obind (byte_at _ _) _) _ =>
      eapply safely_bind; [apply byte_at_safe; lia|intros ? _]
  | |- safely (obind (check_length _) _) _ =>
      eapply safely_bind; [apply check_length_safe; assumption|intros [? ?] (? & ? & ?); cbn [fst snd] in *]
  | |- safely (obind (check_tag _ _) _) _ =>
      eapply safely_bind; [apply check_tag_safe|intros ? ?; cbn beta in *]
  end.
Ltac walk := unfold check_tag_is_sequence, check_tag_is_num_oid, check_tag_is_bool, check_tag_is_octet_string;
  repeat (walk_step; cbv zeta).

Definition advances (data : list Z) (n : Z) : Prop := 2 ≤ n ≤ len data.
Lemma skip_common_tag_safe data : bytes_wf data → safely (check_and_skip_common_tag data) (advances data).
Proof. intros Hd. unfold check_and_skip_common_tag. walk. cbn. unfold advances. lia. Qed.
Lemma skip_sequence_safe data : bytes_wf data → safely (check_and_skip_common_sequence data) (advances data).
Proof. intros Hd. unfold check_and_skip_common_sequence. walk. cbn. unfold advances. lia. Qed.
Lemma get_common_tag_safe data :
  bytes_wf data → safely (check_and_get_common_tag data) (λ r, advances data r.1 ∧ bytes_wf r.2).
Proof. intros Hd. unfold check_and_get_common_tag. walk. cbn. unfold advances. split; [lia|done]. Qed.
Lemma check_version_safe data : safely (check_version data) (advances data).
Proof.
  unfold check_version. destruct data as [|? [|? [|? [|? [|? d]]]]]; try done.
  walk. unfold advances. cbn. rewrite !len_cons. pose proof (len_nonneg d). lia.
Qed.
Lemma check_object_identifier_safe data oid :
  bytes_wf data → safely (check_object_identifier data oid) (advances data).
Proof.
  intros Hd. unfold check_object_identifier. destruct data as [|t [|n d]]; try done.
  pose proof Hd as Hd'. rewrite !bytes_wf_cons in Hd'. destruct Hd' as (_ & Hn & _). unfold byte in Hn.
  walk. destruct oid; walk; unfold advances; cbn; lia.
Qed.
Lemma get_extensions_safe data :
  bytes_wf data → safely (check_and_get_extensions data) (λ r, bytes_wf r.2).
Proof. intros Hd. unfold check_and_get_extensions. by walk. Qed.

(** ** Loops *)
Lemma key_usage_value_safe data index :
  bytes_wf data → 0 ≤ index → safely (key_usage_value data index) (λ _, True).
Proof.
  intros Hd Hi. unfold key_usage_value. walk.
  eapply (safely_bind _ _ (λ i, 0 ≤ i < len data)); [walk; cbn; lia|]. intros i Hi'. by walk.
Qed.
Lemma key_usage_loop_safe fuel data index :
  bytes_wf data → 0 ≤ index ≤ len data → len data - index < Z.of_nat fuel →
  safely (key_usage_loop fuel data index) (λ _, True).
Proof.
  intros Hd. revert index. induction fuel as [|fuel IH]; intros index Hi Hf; [lia|].
  cbn [key_usage_loop]. walk; [done|apply IH; lia|].
  eapply (safely_bind _ _ (λ _, True)); [by walk|]. intros found _. destruct found.
  - apply key_usage_value_safe; [done|lia].
  - apply IH; lia.
Qed.
Lemma get_key_usage_safe data : bytes_wf data → safely (get_key_usage_value data) (λ _, True).
Proof. intros Hd. unfold get_key_usage_value. walk. apply key_usage_loop_safe; [done|lia|]. unfold len in *. lia. Qed.

Lemma single_loop_safe fuel data oid index :
  bytes_wf data → 0 ≤ index ≤ len data → len data - index < Z.of_nat fuel →
  safely (single_loop fuel data oid index) (λ _, True).
Proof.
  intros Hd. pose proof (len_nonneg oid). revert index. induction fuel as [|fuel IH]; intros index Hi Hf; [lia|].
  cbn [single_loop]. walk; done || (apply IH; lia).
Qed.
Lemma find_single_safe data oid :
  bytes_wf data → safely (find_target_object_identifier_in_single_extension data oid) (λ _, True).
Proof.
  intros Hd. unfold find_target_object_identifier_in_single_extension. walk; [done|].
  apply single_loop_safe; [done|lia|]. unfold len. lia.
Qed.
Lemma get_extn_id_safe data :
  bytes_wf data → safely (check_and_get_extn_id data) (λ r, advances data r.2).
Proof. intros Hd. unfold check_and_get_extn_id. walk. unfold advances. cbn. lia. Qed.
Lemma spdm_oid_loop_safe fuel data n index rsp req :
  bytes_wf data → n ≤ len data → 0 ≤ index ≤ n → n - index < Z.of_nat fuel →
  safely (spdm_oid_loop fuel data n index rsp req) (λ _, True).
Proof.
  intros Hd Hn. revert index rsp req. induction fuel as [|fuel IH]; intros index rsp req Hi Hf; [lia|].
  cbn [spdm_oid_loop]. walk; [done|]. eapply safely_bind; [by apply get_extn_id_safe|].
  intros [oid m] Hm. unfold advances in Hm. cbn [snd] in Hm.
  apply safely_if; [done|]. intros Hfit. cbv zeta.
  assert (∀ o, safely (let! e := range data index (index + m) in
                       find_target_object_identifier_in_single_extension e o) (λ _, True)) as Hfind
    by (intros o; walk; by apply find_single_safe).
  assert (∀ a b, safely (spdm_oid_loop fuel data n (index + m) a b) (λ _, True)) as Hnext by (intros; apply IH; lia).
  apply safely_if; intros _; [by eapply safely_bind; [apply Hfind|intros]|].
  apply safely_if; intros _.
  { eapply safely_bind; [apply Hfind|intros [] _; [apply Hnext|]]. by eapply safely_bind; [apply Hfind|intros]. }
  apply safely_if; intros _; [|apply Hnext]. eapply safely_bind; [apply Hfind|intros found _].
  eapply (safely_bind _ _ (λ _, True)); [destruct found; [done|apply Hfind]|intros; apply Hnext].
Qed.
Lemma extensions_spdm_oid_safe data leaf : bytes_wf data → safely (check_extensions_spdm_oid data leaf) (λ _, True).
Proof.
  intros Hd. unfold check_extensions_spdm_oid. walk. eapply safely_bind; [|by intros []].
  apply spdm_oid_loop_safe; [done|lia|lia|]. unfold len in *. lia.
Qed.

Lemma within_safe data w : safely (within data w) (λ w', w' = w ∧ w < len data).
Proof. unfold within. walk. cbn. lia. Qed.
Lemma pass_tag_safe tag data w :
  bytes_wf data → 0 ≤ w ≤ len data → safely (pass_tag (check_tag tag) data w) (λ w', w' = w + 1 ∧ w' < len data).
Proof.
  intros Hd Hw. unfold pass_tag. walk. eapply safely_mono; [apply within_safe|]. intros w' [-> ?]. lia.
Qed.
Lemma pass_length_safe data w :
  bytes_wf data → 0 ≤ w ≤ len data →
  safely (pass_length data w) (λ r, 0 ≤ r.1 ∧ w < r.2 < len data ∧ r.2 + r.1 ≤ len data).
Proof.
  intros Hd Hw. unfold pass_length. walk. eapply safely_bind; [apply within_safe|]. intros w' [-> ?]. cbn. lia.
Qed.
Ltac pass_step :=
  lazymatch goal with
  | |- safely (obind (within _ _) _) _ => eapply safely_bind; [apply within_safe|intros ? [-> ?]]
  | |- safely (obind (pass_tag _ _ _) _) _ =>
      eapply safely_bind; [apply pass_tag_safe; [assumption|lia]|intros ? [-> ?]]
  | |- safely (obind (pass_length _ _) _) _ =>
      eapply safely_bind; [apply pass_length_safe; [assumption|lia]|intros [? ?] (? & ? & ?); cbn [fst snd] in *]
  | |- _ => walk_step
  end.
Ltac pass := unfold check_tag_is_sequence, check_tag_is_num_oid, check_tag_is_bool, check_tag_is_octet_string;
  repeat (pass_step; cbv zeta).

Lemma spdm_extension_safe data oid w :
  bytes_wf data → 0 ≤ w → safely (spdm_extension_holds data oid w) (λ _, True).
Proof.
  intros Hd Hw.
  assert (∀ v, 0 ≤ v < len data → safely (spdm_extension_value data oid v) (λ _, True)) as Hv
    by (intros v Hv; unfold spdm_extension_value; by pass).
  unfold spdm_extension_holds. pass; apply Hv; lia.
Qed.
Lemma extensions_loop_safe fuel data oid w :
  bytes_wf data → 0 ≤ w ≤ len data → len data - w < Z.of_nat fuel →
  safely (extensions_loop fuel data oid w) (λ _, True).
Proof.
  intros Hd. revert w. induction fuel as [|fuel IH]; intros w Hw Hf; [lia|].
  cbn [extensions_loop]. pass; [done|]. eapply (safely_bind _ _ (λ _, True)); [by pass|]. intros spdm _.
  eapply (safely_bind _ _ (λ _, True)); [destruct spdm; [|done]; apply spdm_extension_safe; [done|lia]|].
  intros [] _; [done|]. apply IH; lia.
Qed.
Lemma find_extensions_safe data oid :
  bytes_wf data → safely (find_target_object_identifier_in_extensions data oid) (λ _, True).
Proof.
  intros Hd. unfold find_target_object_identifier_in_extensions. pose proof (len_nonneg data). pass.
  apply extensions_loop_safe; [done|pose proof (len_nonneg a0); lia|]. unfold len. lia.
Qed.

(** ** Certificates *)
Lemma skip_safe f data w :
  bytes_wf data → 0 ≤ w ≤ len data → (∀ d, bytes_wf d → safely (f d) (advances d)) →
  safely (skip f data w) (λ w', w + 2 ≤ w' ≤ len data).
Proof.
  intros Hd Hw Hf. unfold skip. walk. eapply safely_bind; [by apply Hf|].
  intros n Hn. unfold advances in Hn. cbn. lia.
Qed.
Lemma algorithm_identifier_safe oid data w :
  bytes_wf data → 0 ≤ w ≤ len data → safely (algorithm_identifier oid data w) (λ w', w + 2 ≤ w' ≤ len data).
Proof.
  intros Hd Hw. unfold algorithm_identifier. walk.
  eapply safely_bind; [by apply check_object_identifier_safe|]. intros _ _. cbn. lia.
Qed.
Lemma tbs_start_safe oid data :
  bytes_wf data → safely (tbs_start oid data) (λ r, 2 ≤ r.1 ≤ len data ∧ 0 ≤ r.2 ≤ len data).
Proof.
  intros Hd. unfold tbs_start. walk.
  eapply safely_bind; [apply skip_safe; [done|lia|intros; apply check_version_safe]|]. intros w Hw. cbn beta in Hw.
  eapply safely_bind; [apply skip_safe; [done|lia|apply skip_common_tag_safe]|]. intros w' Hw'. cbn beta in Hw'.
  eapply safely_bind; [apply algorithm_identifier_safe; [done|lia]|]. intros v Hv. cbn beta in Hv. cbn. lia.
Qed.
Lemma tbs_names_safe data w :
  bytes_wf data → 0 ≤ w ≤ len data → safely (tbs_names data w) (λ w', 0 ≤ w' ≤ len data).
Proof.
  intros Hd Hw. unfold tbs_names.
  assert (∀ w, 0 ≤ w ≤ len data →
    safely (skip check_and_skip_common_sequence data w) (λ w', 0 ≤ w' ≤ len data)) as Hskip.
  { intros v Hv. eapply safely_mono; [apply skip_safe; [done|lia|apply skip_sequence_safe]|]. cbn. lia. }
  do 3 (eapply safely_bind; [apply Hskip; done|intros ? ?; cbn beta in *]). by apply Hskip.
Qed.
Lemma cert_body_safe cert : bytes_wf cert → safely (cert_body cert) bytes_wf.
Proof.
  intros Hc. unfold cert_body. walk. eapply safely_mono; [apply from_safe; [done|lia]|]. by intros ? [? _].
Qed.
Lemma check_tbs_safe data a leaf : bytes_wf data → safely (check_tbs_certificate data a leaf) (advances data).
Proof.
  intros Hd. unfold check_tbs_certificate. eapply safely_bind; [by apply tbs_start_safe|].
  intros [e w] [He Hw]. cbn [fst snd] in *. eapply safely_bind; [by apply tbs_names_safe|].
  intros v Hv. cbn beta in Hv. walk. eapply safely_bind; [by apply get_extensions_safe|].
  intros [n ext] Hext. cbn [snd] in Hext. eapply safely_bind; [by apply get_key_usage_safe|].
  intros [found usage] _. cbv zeta. eapply safely_bind; [by apply extensions_spdm_oid_safe|].
  intros ok _. walk. cbn. unfold advances. lia.
Qed.
Lemma check_cert_format_safe cert a : bytes_wf cert → safely (check_cert_format cert a) (advances cert).
Proof.
  intros Hc. unfold check_cert_format. walk. rename u into n, u0 into m.
  eapply safely_bind; [apply skip_safe; [done|lia|intros; by apply check_tbs_safe]|]. intros w Hw. cbn beta in Hw.
  eapply safely_bind; [apply skip_safe; [done|lia|]|].
  { intros d Hd. unfold check_signature_algorithm. pose proof (len_nonneg d).
    eapply safely_mono; [apply algorithm_identifier_safe; [done|lia]|]. unfold advances. lia. }
  intros w' Hw'. cbn beta in Hw'.
  eapply safely_bind; [apply skip_safe; [done|lia|apply skip_common_tag_safe]|]. intros v Hv. cbn beta in Hv.
  walk. unfold advances. cbn. lia.
Qed.
Lemma chain_loop_safe fuel chain a w count :
  bytes_wf chain → 0 ≤ w ≤ len chain → len chain - w < Z.of_nat fuel →
  safely (chain_loop fuel chain a w count) (λ _, True).
Proof.
  intros Hc. revert w count. induction fuel as [|fuel IH]; intros w count Hw Hf; [lia|].
  cbn [chain_loop]. walk; [|done]. eapply safely_bind.
  - apply skip_safe; [done|lia|]. intros d Hd. by apply check_cert_format_safe.
  - intros v Hv. cbn beta in Hv. apply IH; lia.
Qed.
Lemma is_root_safe cert : bytes_wf cert → safely (is_root_certificate cert) (λ _, True).
Proof.
  intros Hc. unfold is_root_certificate. eapply safely_bind; [by apply cert_body_safe|]. intros data Hd.
  eapply safely_bind; [by apply tbs_start_safe|]. intros [e w] [_ Hw]. cbn [fst snd] in *. walk.
  eapply safely_bind; [by apply get_common_tag_safe|]. intros [n issuer] [Hn _]. unfold advances in Hn.
  cbn [fst snd] in *. cbv zeta.
  eapply safely_bind; [apply skip_safe; [done|lia|apply skip_sequence_safe]|]. intros v Hv. cbn beta in Hv. walk.
  eapply safely_bind; [by apply get_common_tag_safe|]. intros [? subject] _. by destruct (decide _).
Qed.
Lemma check_leaf_safe cert alias : bytes_wf cert → safely (check_leaf_certificate cert alias) (λ _, True).
Proof.
  intros Hc. unfold check_leaf_certificate. eapply safely_bind; [by apply cert_body_safe|]. intros data Hd.
  eapply safely_bind; [by apply tbs_start_safe|]. intros [e w] [_ Hw]. cbn [fst snd] in *.
  eapply safely_bind; [by apply tbs_names_safe|]. intros v Hv. cbn beta in Hv. walk.
  eapply safely_bind; [by apply get_extensions_safe|]. intros [n ext] Hext. cbn [snd] in Hext.
  eapply safely_bind; [by apply find_extensions_safe|]. intros found _. by walk.
Qed.

(** C23: the X.509 checks return or report an error on every sequence of bytes:
    no index out of range, no endless loop, whatever a peer sends as its
    certificate chain. *)
Theorem x509_checks_total bs a alias :
  bytes_wf bs →
  check_cert_chain_format bs a ≠ Panic ∧ is_root_certificate bs ≠ Panic ∧ check_leaf_certificate bs alias ≠ Panic.
Proof.
  intros Hb.
  assert (∀ A (m : SpdmResult A) P, safely m P → m ≠ Panic) as Hs by (intros A m P Hm ->; done).
  split_and!; [|eapply Hs, (is_root_safe bs)|eapply Hs, (check_leaf_safe bs alias)]; [|done..].
  eapply Hs, chain_loop_safe; [done|pose proof (len_nonneg bs); lia|]. unfold len. lia.
Qed.

Lemma x509_checks_total_witness :
  check_cert_chain_format [0x30; 0x82; 0xFF] empty_flags = bad ∧ is_root_certificate [0x30; 0x82; 0xFF] ≠ Panic.
Proof.
  split; [by vm_compute|]. apply (x509_checks_total [0x30; 0x82; 0xFF] empty_flags true). repeat constructor; done.
Defined.
End X509Laws.
