(* ===== verification/X509Der.v ===== *)
(** * Certificates in DER

    What the checks of X509.v accept, stated on certificates rather than on
    bytes: [certificate c] is the DER encoding of [c].  Proved: the root check
    accepts a certificate exactly when its subject is its issuer, and the leaf
    check refuses exactly the alias certificates that carry the hardware
    identity. *)

From S2P Require Import Prelude Status Bitflags Algo X509.
Import X509.

(** ** Encoding *)
Definition encode_length (n : Z) : list Z :=
  if n <? 0x80 then [n] else if n <? 0x100 then [0x81; n] else [0x82; n / 256; n mod 256].
Definition der (tag : Z) (body : list Z) : list Z := tag :: encode_length (len body) ++ body.
Definition fits (body : list Z) : Prop := len body < 2 ^ 16.

Lemma len_encode_length n : 1 ≤ len (encode_length n) ≤ 3.
Proof. unfold encode_length. repeat (destruct (_ <? _)); rewrite !len_cons, len_nil; lia. Qed.
Lemma len_der tag body : len (der tag body) = 1 + len (encode_length (len body)) + len body.
Proof. unfold der. rewrite len_cons, len_app. lia. Qed.
Lemma check_length_der body post :
  fits body → check_length (encode_length (len body) ++ body ++ post) = Ok (len body, len (encode_length (len body))).
Proof.
  unfold fits. intros Hf. pose proof (len_nonneg body) as H0. pose proof (len_nonneg post) as Hp.
  set (n := len body) in *. unfold encode_length.
  destruct (Z.ltb_spec n 0x80) as [H1|H1]; [|destruct (Z.ltb_spec n 0x100) as [H2|H2]]; cbn [app check_length].
  - assert (Z.land n ASN1_LENGTH_MULTI_OCTET_MASK = 0) as ->.
    { rewrite <- (Z.mod_small n (2 ^ 7)), <- Z.land_ones, <- Z.land_assoc by lia. apply Z.land_0_r. }
    cbn [Z.eqb obind]. rewrite len_cons, len_app. fold n.
    by rewrite (proj2 (Z.ltb_ge _ _)) by lia.
  - change (Z.land _ _ =? 0) with false. cbn [Z.eqb Pos.eqb ASN1_LENGTH_ONE_OCTET].
    rewrite (proj2 (Z.ltb_ge n 128)) by lia. cbn [obind]. rewrite !len_cons, len_app. fold n.
    by rewrite (proj2 (Z.ltb_ge _ _)) by lia.
  - change (Z.land _ _ =? 0) with false. cbn [Z.eqb Pos.eqb ASN1_LENGTH_ONE_OCTET ASN1_LENGTH_TWO_OCTET].
    pose proof (Z.mod_pos_bound n 256). pose proof (Z.div_mod n 256).
    rewrite Z.lor_comm, lor_shiftl_add by (unfold in_width; lia).
    replace (n mod 256 + n / 256 * 2 ^ 8) with n by lia.
    rewrite (proj2 (Z.ltb_ge _ _)) by lia. cbn [obind]. rewrite !len_cons, len_app. fold n.
    by rewrite (proj2 (Z.ltb_ge _ _)) by lia.
Qed.

(** ** Walking over what is encoded *)
Lemma from_app u v : from (u ++ v) (len u) = Ok v.
Proof. unfold from. pose proof (len_nonneg u). pose proof (len_nonneg v). rewrite slice_spec by zlia.
  rewrite zdrop_app. cbn. f_equal. apply ztake_all. zlia. Qed.
Lemma range_app u v w : range (u ++ v ++ w) (len u) (len u + len v) = Ok v.
Proof.
  unfold range. pose proof (len_nonneg u). pose proof (len_nonneg v). pose proof (len_nonneg w).
  rewrite slice_spec by zlia. rewrite zdrop_app. cbn. f_equal. apply ztake_app'. lia.
Qed.

Section Elements.
Context (tag : Z) (body post : list Z) (Hf : fits body).
Let n := len (encode_length (len body)).
Lemma der_shape : der tag body ++ post = [tag] ++ encode_length (len body) ++ body ++ post.
Proof. unfold der. cbn [app]. by rewrite <- app_assoc. Qed.
Lemma from_der : from (der tag body ++ post) 1 = Ok (encode_length (len body) ++ body ++ post).
Proof. rewrite der_shape. apply (from_app [tag]). Qed.
Lemma from_der_body : from (der tag body ++ post) (1 + n) = Ok (body ++ post).
Proof.
  rewrite der_shape, app_assoc. replace (1 + n) with (len ([tag] ++ encode_length (len body))); [apply from_app|].
  by rewrite len_app.
Qed.
Lemma range_der : range (der tag body ++ post) (1 + n) (1 + n + len body) = Ok body.
Proof.
  rewrite der_shape, app_assoc. replace (1 + n) with (len ([tag] ++ encode_length (len body))); [apply range_app|].
  by rewrite len_app.
Qed.
Lemma der_whole : (len (der tag body ++ post) <? 1 + n + len body) = false.
Proof. rewrite len_app, len_der. pose proof (len_nonneg post). apply Z.ltb_ge. subst n. lia. Qed.
Lemma der_nonempty : (len (der tag body ++ post) <? 1) = false.
Proof.
  rewrite len_app, len_der. pose proof (len_nonneg post). pose proof (len_nonneg body).
  pose proof (len_encode_length (len body)). apply Z.ltb_ge. lia.
Qed.
Lemma check_tag_der : check_tag tag (der tag body ++ post) = Ok tt.
Proof. cbn. by rewrite Z.eqb_refl. Qed.

Lemma skip_common_tag_der : check_and_skip_common_tag (der tag body ++ post) = Ok (len (der tag body)).
Proof.
  unfold check_and_skip_common_tag. rewrite der_nonempty, from_der. cbn [obind]. rewrite check_length_der by done.
  cbn [obind]. fold n. by rewrite der_whole, len_der.
Qed.
Lemma get_common_tag_der : check_and_get_common_tag (der tag body ++ post) = Ok (len (der tag body), body).
Proof.
  unfold check_and_get_common_tag. rewrite der_nonempty, from_der. cbn [obind]. rewrite check_length_der by done.
  cbn [obind]. fold n. rewrite der_whole, range_der. cbn [obind]. by rewrite len_der.
Qed.
End Elements.

Lemma skip_sequence_der body post :
  fits body → check_and_skip_common_sequence (der ASN1_TAG_SEQUENCE body ++ post) = Ok (len (der ASN1_TAG_SEQUENCE body)).
Proof.
  intros Hf. unfold check_and_skip_common_sequence, check_tag_is_sequence.
  rewrite check_tag_der, from_der. cbn [obind]. rewrite check_length_der by done. cbn [obind].
  by rewrite der_whole, len_der.
Qed.
Lemma skip_app f u e r : f (e ++ r) = Ok (len e) → skip f (u ++ e ++ r) (len u) = Ok (len (u ++ e)).
Proof. intros Hf. unfold skip. rewrite from_app. cbn [obind]. rewrite Hf. cbn. by rewrite len_app. Qed.
Lemma check_oid_der oid post :
  len oid < 0x80 → check_object_identifier (der ASN1_TAG_NUMBER_OBJECT_IDENTIFIER oid ++ post) None = Ok (len oid + 2).
Proof.
  intros Ho. unfold der, encode_length. rewrite (proj2 (Z.ltb_lt _ _)) by lia. cbn [app check_object_identifier].
  change (negb _) with false. cbv iota. rewrite !len_cons, len_app. pose proof (len_nonneg post).
  rewrite (proj2 (Z.ltb_ge _ _)) by lia. by rewrite (proj2 (Z.leb_gt _ _)) by lia.
Qed.

(** The identifier of an algorithm, with its parameters. *)
Definition algorithm (oid params : list Z) : list Z :=
  der ASN1_TAG_SEQUENCE (der ASN1_TAG_NUMBER_OBJECT_IDENTIFIER oid ++ params).
Lemma algorithm_identifier_der u oid params post :
  len oid < 0x80 → fits (der ASN1_TAG_NUMBER_OBJECT_IDENTIFIER oid ++ params) →
  algorithm_identifier None (u ++ algorithm oid params ++ post) (len u) = Ok (len (u ++ algorithm oid params)).
Proof.
  intros Ho Hf. unfold algorithm_identifier, algorithm. rewrite from_app. cbn [obind].
  unfold check_tag_is_sequence. rewrite check_tag_der. cbn [obind].
  set (body := der ASN1_TAG_NUMBER_OBJECT_IDENTIFIER oid ++ params) in *.
  rewrite der_shape, app_assoc. replace (len u + 1) with (len (u ++ [ASN1_TAG_SEQUENCE])) by (by rewrite len_app).
  rewrite from_app. cbn [obind]. rewrite check_length_der by done. cbn [obind].
  rewrite app_assoc. rewrite <- len_app, from_app. cbn [obind].
  replace (body ++ post) with (der ASN1_TAG_NUMBER_OBJECT_IDENTIFIER oid ++ params ++ post)
    by (unfold body; by rewrite <- app_assoc).
  rewrite check_oid_der by done. cbn [obind]. f_equal.
  rewrite !len_app, len_der, len_cons, len_nil. lia.
Qed.

(** ** Certificates *)
Record Certificate := mkCertificate {
  cert_serial : list Z;
  cert_sig_oid : list Z;
  cert_sig_params : list Z;
  cert_issuer : list Z;
  cert_validity : list Z;
  cert_subject : list Z;
  cert_public_key : list Z;
  (** the extensions with their tag, or nothing *)
  cert_extensions : list Z;
  (** the signature with its algorithm *)
  cert_signature : list Z;
}.
Abbreviation sequence := (der ASN1_TAG_SEQUENCE).
Definition version_3 : list Z := [0xA0; 3; ASN1_TAG_NUMBER_INTEGER; 1; X509V3_VERSION].
Definition tbs_front (c : Certificate) : list Z :=
  version_3 ++ der ASN1_TAG_NUMBER_INTEGER (cert_serial c) ++ algorithm (cert_sig_oid c) (cert_sig_params c).
Definition names (c : Certificate) : list Z :=
  sequence (cert_issuer c) ++ sequence (cert_validity c) ++ sequence (cert_subject c) ++ sequence (cert_public_key c).
Definition tbs (c : Certificate) : list Z := tbs_front c ++ names c ++ cert_extensions c.
Definition certificate (c : Certificate) : list Z := sequence (sequence (tbs c) ++ cert_signature c).
Definition cert_fits (c : Certificate) : Prop := len (cert_sig_oid c) < 0x80 ∧ len (certificate c) < 2 ^ 16.

(** Every part of a certificate that fits has a length that fits. *)
Lemma fits_app u v : fits (u ++ v) → fits u ∧ fits v.
Proof. unfold fits. rewrite len_app. pose proof (len_nonneg u). pose proof (len_nonneg v). lia. Qed.
Lemma fits_der tag body : fits (der tag body) → fits body.
Proof. unfold fits. rewrite len_der. pose proof (len_encode_length (len body)). lia. Qed.
Lemma cert_parts c :
  cert_fits c →
  fits (sequence (tbs c) ++ cert_signature c) ∧ fits (tbs c) ∧ fits (cert_serial c) ∧
  fits (der ASN1_TAG_NUMBER_OBJECT_IDENTIFIER (cert_sig_oid c) ++ cert_sig_params c) ∧
  fits (cert_issuer c) ∧ fits (cert_validity c) ∧ fits (cert_subject c) ∧ fits (cert_public_key c).
Proof.
  intros [_ Hf%fits_der]. split; [done|]. apply fits_app in Hf as [Ht%fits_der _]. split; [done|].
  unfold tbs, tbs_front, names, algorithm in Ht. rewrite <- !app_assoc in Ht.
  apply fits_app in Ht as [_ Ht]. apply fits_app in Ht as [Hs%fits_der Ht].
  apply fits_app in Ht as [Ha%fits_der Ht]. do 2 (split; [done|]).
  do 3 (apply fits_app in Ht as [?%fits_der Ht]; split; [done|]).
  by apply fits_app in Ht as [?%fits_der _].
Qed.

Lemma cert_body_der c : cert_fits c → cert_body (certificate c) = Ok (sequence (tbs c) ++ cert_signature c).
Proof.
  intros Hc. pose proof (cert_parts c Hc) as (Hf & _). unfold cert_body, certificate.
  set (body := sequence (tbs c) ++ cert_signature c) in *. rewrite <- (app_nil_r (sequence body)).
  unfold check_tag_is_sequence. rewrite check_tag_der, from_der. cbn [obind]. rewrite check_length_der by done.
  cbn [obind]. by rewrite from_der_body, app_nil_r.
Qed.
(** The certificate to be signed up to its names, and the names. *)
Definition tbs_head (c : Certificate) : list Z :=
  [ASN1_TAG_SEQUENCE : Z] ++ encode_length (len (tbs c)) ++ tbs_front c.
Lemma tbs_shape c : sequence (tbs c) ++ cert_signature c = tbs_head c ++ names c ++ cert_extensions c ++ cert_signature c.
Proof. unfold tbs_head. rewrite der_shape. unfold tbs. by rewrite <- !app_assoc. Qed.
Lemma tbs_start_der c :
  cert_fits c →
  tbs_start None (sequence (tbs c) ++ cert_signature c) = Ok (len (sequence (tbs c)), len (tbs_head c)).
Proof.
  intros Hc. pose proof (cert_parts c Hc) as (_ & Ht & Hs & Ha & _). unfold tbs_start.
  unfold check_tag_is_sequence. rewrite check_tag_der, from_der. cbn [obind]. rewrite check_length_der by done.
  cbn [obind]. rewrite der_whole.
  set (u := [ASN1_TAG_SEQUENCE : Z] ++ encode_length (len (tbs c))).
  set (serial := der ASN1_TAG_NUMBER_INTEGER (cert_serial c)).
  set (alg := algorithm (cert_sig_oid c) (cert_sig_params c)).
  replace (1 + len (encode_length (len (tbs c)))) with (len u) by (unfold u; by rewrite len_app).
  set (data := sequence (tbs c) ++ cert_signature c).
  assert (data = u ++ version_3 ++ serial ++ alg ++ names c ++ cert_extensions c ++ cert_signature c) as Hd.
  { unfold data. rewrite tbs_shape. unfold tbs_head, tbs_front. by rewrite <- !app_assoc. }
  assert (skip check_version data (len u) = Ok (len (u ++ version_3))) as ->
    by (rewrite Hd; by apply skip_app).
  cbn [obind].
  assert (skip check_and_skip_common_tag data (len (u ++ version_3)) = Ok (len ((u ++ version_3) ++ serial))) as ->
    by (rewrite Hd, app_assoc; by apply skip_app, skip_common_tag_der).
  cbn [obind].
  assert (algorithm_identifier None data (len ((u ++ version_3) ++ serial))
          = Ok (len (((u ++ version_3) ++ serial) ++ alg))) as ->
    by (rewrite Hd, (app_assoc u), (app_assoc (u ++ version_3));
        apply algorithm_identifier_der; [apply Hc|done]).
  cbn [obind]. f_equal. f_equal.
  - unfold u. rewrite len_der, len_app, len_cons, len_nil. lia.
  - unfold tbs_head, tbs_front, u. by rewrite <- !app_assoc.
Qed.

Lemma tbs_names_der c u r :
  cert_fits c → tbs_names (u ++ names c ++ r) (len u) = Ok (len (u ++ names c)).
Proof.
  intros Hc. pose proof (cert_parts c Hc) as (_ & _ & _ & _ & Hi & Hv & Hs & Hp). unfold tbs_names, names.
  rewrite <- !app_assoc. unfold check_name, check_validity, check_public_key_info.
  rewrite skip_app by by apply skip_sequence_der. cbn [obind]. rewrite (app_assoc u).
  rewrite skip_app by by apply skip_sequence_der. cbn [obind]. rewrite (app_assoc (u ++ _)).
  rewrite skip_app by by apply skip_sequence_der. cbn [obind]. rewrite (app_assoc ((u ++ _) ++ _)).
  rewrite skip_app by by apply skip_sequence_der. by rewrite <- !app_assoc.
Qed.

(** C24: [is_root_certificate] accepts exactly the certificates whose subject is
    their issuer. *)
Theorem is_root_iff_self_issued c :
  cert_fits c →
  is_root_certificate (certificate c) = if decide (cert_subject c = cert_issuer c) then Ok tt else bad.
Proof.
  intros Hc. pose proof (cert_parts c Hc) as (_ & _ & _ & _ & Hi & Hv & Hs & _). unfold is_root_certificate.
  rewrite cert_body_der by done. cbn [obind]. rewrite tbs_start_der by done. cbn [obind].
  rewrite tbs_shape. unfold names. rewrite <- !app_assoc. rewrite from_app. cbn [obind].
  rewrite get_common_tag_der by done. cbn [obind]. rewrite <- len_app, (app_assoc (tbs_head c)).
  unfold check_validity. rewrite skip_app by by apply skip_sequence_der. cbn [obind].
  rewrite (app_assoc (tbs_head c ++ _)), from_app. cbn [obind]. by rewrite get_common_tag_der.
Qed.

(** ** Extensions *)
(** An extension: the SPDM extension with an identifier and what follows it,
    or another one. *)
Inductive Extension :=
| SpdmExtension (critical : bool) (oid more rest : list Z)
| OtherExtension (critical : bool) (oid value : list Z).
Definition ext_parts (oid : list Z) (critical : bool) (value : list Z) : list Z :=
  der ASN1_TAG_NUMBER_OBJECT_IDENTIFIER oid ++ (if critical then [ASN1_TAG_BOOLEAN : Z; 1; 0xFF] else []) ++
  der ASN1_TAG_OCTET_STRING value.
Definition spdm_value (oid more rest : list Z) : list Z :=
  sequence (sequence (der ASN1_TAG_NUMBER_OBJECT_IDENTIFIER oid ++ more) ++ rest).
Definition ext_body (e : Extension) : list Z :=
  match e with
  | SpdmExtension critical oid more rest => ext_parts OID_DMTF_SPDM_EXTENSION critical (spdm_value oid more rest)
  | OtherExtension critical oid value => ext_parts oid critical value
  end.
Definition ext_wf (e : Extension) : Prop :=
  match e with
  | SpdmExtension _ oid _ _ => len oid = 10
  | OtherExtension _ oid _ => oid ≠ OID_DMTF_SPDM_EXTENSION
  end.
(** The extension is the SPDM extension with this identifier. *)
Definition ext_holds (target : list Z) (e : Extension) : bool :=
  match e with SpdmExtension _ oid _ _ => bool_decide (oid = target) | OtherExtension _ _ _ => false end.
Definition extensions_bytes (l : list Extension) : list Z := concat ((λ e, sequence (ext_body e)) <$> l).
Definition extensions (l : list Extension) : list Z := der ASN1_TAG_EXPLICIT_EXTENSION (sequence (extensions_bytes l)).

Lemma oid_loop_same a b : len a = len b → oid_loop a b = bool_decide (a = b).
Proof.
  revert b. induction a as [|x a IH]; intros [|y b] Hl; rewrite ?len_cons, ?len_nil in Hl;
    [done|pose proof (len_nonneg b); lia|pose proof (len_nonneg a); lia|].
  cbn. destruct (Z.eqb_spec x y) as [->|Hn].
  - rewrite IH by lia. by apply bool_decide_ext; split; [intros ->|intros [=]].
  - symmetry. apply bool_decide_eq_false. congruence.
Qed.
Lemma same_oid_spec a b : object_identifiers_are_same a b = bool_decide (a = b).
Proof.
  unfold object_identifiers_are_same. destruct (Z.eqb_spec (len a) (len b)) as [Hl|Hl]; [by apply oid_loop_same|].
  symmetry. apply bool_decide_eq_false. congruence.
Qed.

(** The tag and the length in front of an element. *)
Definition head (tag : Z) (body : list Z) : list Z := tag :: encode_length (len body).
Lemma der_head tag body : der tag body = head tag body ++ body.
Proof. done. Qed.
Lemma pass_der {A} data u tag body post (k : usize → usize → SpdmResult A) :
  data = u ++ der tag body ++ post → fits body → 0 < len (body ++ post) →
  (let! w := pass_tag (check_tag tag) data (len u) in let! (n, w) := pass_length data w in k n w)
  = k (len body) (len (u ++ head tag body)).
Proof.
  intros -> Hf Hp. rewrite len_app in Hp. pose proof (len_encode_length (len body)).
  unfold pass_tag. rewrite from_app. cbn [obind]. rewrite check_tag_der. cbn [obind].
  rewrite der_shape, app_assoc. change 1 with (len [tag]) at 1. rewrite <- len_app. unfold within.
  rewrite (proj2 (Z.leb_gt _ _)) by (rewrite !len_app; lia).
  cbn [obind]. unfold pass_length. rewrite from_app. cbn [obind]. rewrite check_length_der by done. cbn [obind].
  unfold within. rewrite app_assoc, <- len_app, (proj2 (Z.leb_gt _ _)) by (rewrite !len_app; lia).
  cbn [obind]. by rewrite <- app_assoc.
Qed.
Lemma within_app u v : 0 < len v → within (u ++ v) (len u) = Ok (len u).
Proof. intros Hv. unfold within. by rewrite (proj2 (Z.leb_gt _ _)) by (rewrite len_app; lia). Qed.
Lemma len_der_pos tag body post : 0 < len (der tag body ++ post).
Proof.
  rewrite len_app, len_der. pose proof (len_nonneg body). pose proof (len_nonneg post).
  pose proof (len_encode_length (len body)). lia.
Qed.
Lemma spdm_extension_value_der u oid more rest post target :
  len oid = 10 → len target = 10 → fits (spdm_value oid more rest) →
  spdm_extension_value (u ++ der ASN1_TAG_OCTET_STRING (spdm_value oid more rest) ++ post) target (len u)
  = Ok (bool_decide (oid = target)).
Proof.
  intros Ho Ht Hf. pose proof Hf as Hf1. apply fits_der in Hf1. pose proof (fits_app _ _ Hf1) as [Hf2%fits_der _].
  pose proof (fits_app _ _ Hf2) as [Hf3%fits_der _]. unfold spdm_extension_value.
  unfold check_tag_is_octet_string, check_tag_is_sequence, check_tag_is_num_oid.
  set (inner := der ASN1_TAG_NUMBER_OBJECT_IDENTIFIER oid ++ more) in *. set (middle := sequence inner ++ rest) in *.
  set (value := spdm_value oid more rest) in *. assert (value = sequence middle) as Hv by done.
  remember (u ++ der ASN1_TAG_OCTET_STRING value ++ post) as data eqn:Hd.
  rewrite (pass_der data u _ value post _ Hd); [|exact Hf|apply len_der_pos]. cbv beta.
  set (u1 := u ++ head ASN1_TAG_OCTET_STRING value).
  assert (data = u1 ++ sequence middle ++ post) as Hd1 by (rewrite Hd, (der_head _ value); unfold u1; by rewrite <- !app_assoc).
  rewrite (pass_der data u1 _ middle post _ Hd1) by (done || (rewrite <- app_assoc; apply len_der_pos)). cbv beta.
  set (u2 := u1 ++ head ASN1_TAG_SEQUENCE middle).
  assert (data = u2 ++ sequence inner ++ rest ++ post) as Hd2
    by (rewrite Hd1, (der_head _ middle); unfold middle at 2, u2; by rewrite <- !app_assoc).
  rewrite (pass_der data u2 _ inner _ _ Hd2) by (done || (rewrite <- app_assoc; apply len_der_pos)). cbv beta.
  set (u3 := u2 ++ head ASN1_TAG_SEQUENCE inner).
  assert (data = u3 ++ der ASN1_TAG_NUMBER_OBJECT_IDENTIFIER oid ++ more ++ rest ++ post) as Hd3
    by (rewrite Hd2, (der_head _ inner); unfold inner at 2, u3; by rewrite <- !app_assoc).
  rewrite (pass_der data u3 _ oid _ _ Hd3) by (done || (rewrite len_app; pose proof (len_nonneg (more ++ rest ++ post)); lia)).
  cbv beta. rewrite Ho, Ht. cbn [Z.eqb Pos.eqb negb].
  rewrite der_head, <- app_assoc, app_assoc in Hd3. rewrite Hd3, <- Ho. pose proof (len_nonneg (more ++ rest ++ post)).
  rewrite (proj2 (Z.leb_le _ _)) by (rewrite (len_app (_ ++ _)), (len_app oid); lia).
  rewrite range_app. cbn [obind]. by rewrite same_oid_spec.
Qed.
Lemma spdm_extension_holds_der u (critical : bool) oid more rest post target :
  len oid = 10 → len target = 10 → fits (spdm_value oid more rest) →
  spdm_extension_holds
    (u ++ (if critical then [ASN1_TAG_BOOLEAN : Z; 1; 0xFF] else []) ++
     der ASN1_TAG_OCTET_STRING (spdm_value oid more rest) ++ post) target (len u)
  = Ok (bool_decide (oid = target)).
Proof.
  intros Ho Ht Hf. set (value := spdm_value oid more rest).
  pose proof (len_der_pos ASN1_TAG_OCTET_STRING value post) as Hpos. unfold spdm_extension_holds.
  rewrite within_app by (rewrite len_app;
    pose proof (len_nonneg (if critical then [ASN1_TAG_BOOLEAN : Z; 1; 0xFF] else [])); lia).
  cbn [obind]. rewrite from_app. cbn [obind].
  destruct critical; cbn [is_ok check_tag_is_bool check_tag app der].
  - change (ASN1_TAG_BOOLEAN =? ASN1_TAG_BOOLEAN) with true. cbn [is_ok].
    set (crit := [ASN1_TAG_BOOLEAN : Z; 1; 0xFF]). replace (len u + 3) with (len (u ++ crit)) by (by rewrite len_app).
    change (u ++ _ :: _) with (u ++ crit ++ der ASN1_TAG_OCTET_STRING value ++ post). rewrite app_assoc.
    rewrite within_app by done. cbn [obind]. by apply spdm_extension_value_der.
  - by apply (spdm_extension_value_der u oid more rest post).
Qed.

(** One extension of the list: up to its identifier, and what it holds. *)
Lemma extensions_loop_oid fuel u oid (critical : bool) value post target :
  let body := ext_parts oid critical value in
  let data := u ++ sequence body ++ post in
  fits body →
  ∃ v, data = v ++ (if critical then [ASN1_TAG_BOOLEAN : Z; 1; 0xFF] else []) ++
              der ASN1_TAG_OCTET_STRING value ++ post ∧
  extensions_loop (S fuel) data target (len u)
  = let! found := if bool_decide (oid = OID_DMTF_SPDM_EXTENSION) then spdm_extension_holds data target (len v)
                  else Ok false in
    if (found : bool) then Ok true else extensions_loop fuel data target (len (u ++ sequence body)).
Proof.
  intros body data Hf. pose proof (fits_app _ _ Hf) as [Hfo%fits_der _].
  set (crit := if critical then [ASN1_TAG_BOOLEAN : Z; 1; 0xFF] else []).
  set (u1 := u ++ head ASN1_TAG_SEQUENCE body). set (u2 := u1 ++ head ASN1_TAG_NUMBER_OBJECT_IDENTIFIER oid).
  set (tail := crit ++ der ASN1_TAG_OCTET_STRING value ++ post).
  assert (data = u1 ++ der ASN1_TAG_NUMBER_OBJECT_IDENTIFIER oid ++ tail) as Hd1
    by (unfold data, u1, tail; rewrite (der_head _ body); unfold body at 2, ext_parts; by rewrite <- !app_assoc).
  assert (data = u2 ++ oid ++ tail) as Hd2 by (rewrite Hd1, der_head; unfold u2; by rewrite <- !app_assoc).
  assert (0 < len tail) as Htail by (unfold tail; rewrite len_app; pose proof (len_nonneg crit);
    pose proof (len_der_pos ASN1_TAG_OCTET_STRING value post); lia).
  exists (u2 ++ oid). split; [by rewrite Hd2, <- app_assoc|]. cbn [extensions_loop].
  pose proof (len_der_pos ASN1_TAG_SEQUENCE body post).
  rewrite (proj2 (Z.leb_gt _ _)) by (unfold data; rewrite len_app; lia).
  unfold check_tag_is_sequence, check_tag_is_num_oid.
  rewrite (pass_der data u _ body post _ eq_refl) by (done || (unfold body, ext_parts; rewrite <- app_assoc; apply len_der_pos)).
  cbv beta zeta. fold u1. rewrite (pass_der data u1 _ oid tail _ Hd1) by (done || (rewrite len_app; pose proof (len_nonneg oid); lia)).
  cbv beta. fold u2. rewrite Hd2 at 1. rewrite len_app, (len_app oid), (proj2 (Z.ltb_lt _ _)) by lia.
  rewrite Hd2 at 1. rewrite range_app. cbn [obind]. rewrite same_oid_spec, len_app.
  replace (len u1 + len body) with (len (u ++ sequence body)) by (unfold u1; rewrite !len_app, len_der; unfold head; rewrite len_cons; lia).
  done.
Qed.
Lemma extensions_loop_step fuel u e post target :
  ext_wf e → len target = 10 → fits (ext_body e) →
  extensions_loop (S fuel) (u ++ sequence (ext_body e) ++ post) target (len u)
  = if ext_holds target e then Ok true
    else extensions_loop fuel (u ++ sequence (ext_body e) ++ post) target (len (u ++ sequence (ext_body e))).
Proof.
  intros He Ht Hf. destruct e as [critical oid more rest|critical oid value]; cbn [ext_body ext_holds] in *.
  - destruct (extensions_loop_oid fuel u OID_DMTF_SPDM_EXTENSION critical (spdm_value oid more rest) post target Hf)
      as (v & Hd & ->).
    rewrite bool_decide_eq_true_2 by done. rewrite Hd at 1. rewrite spdm_extension_holds_der; [|done|done|].
    + cbn [obind]. done.
    + apply fits_app in Hf as [_ Hf]. by apply fits_app in Hf as [_ Hf%fits_der].
  - destruct (extensions_loop_oid fuel u oid critical value post target Hf) as (v & _ & ->).
    by rewrite bool_decide_eq_false_2.
Qed.
Lemma extensions_loop_der fuel u l target :
  Forall ext_wf l → len target = 10 → fits (extensions_bytes l) → (length l < fuel)%nat →
  extensions_loop fuel (u ++ extensions_bytes l) target (len u) = Ok (existsb (ext_holds target) l).
Proof.
  intros Hl Ht. revert fuel u. induction Hl as [|e l He Hl IH]; intros fuel u Hf Hn; (destruct fuel as [|fuel]; [cbn in Hn; lia|]).
  - cbn [extensions_bytes fmap list_fmap concat]. rewrite app_nil_r. cbn [extensions_loop].
    by rewrite (proj2 (Z.leb_le _ _)) by lia.
  - change (extensions_bytes (e :: l)) with (sequence (ext_body e) ++ extensions_bytes l) in *.
    apply fits_app in Hf as [Hfe%fits_der Hf]. rewrite extensions_loop_step by done. cbn [existsb].
    destruct (ext_holds target e); [done|]. rewrite app_assoc. apply IH; [done|]. cbn in Hn. lia.
Qed.
Lemma len_extensions l : Z.of_nat (length l) ≤ len (extensions_bytes l).
Proof.
  induction l as [|e l IH]; [done|]. change (extensions_bytes (e :: l)) with (sequence (ext_body e) ++ extensions_bytes l).
  rewrite len_app, len_der. pose proof (len_encode_length (len (ext_body e))). pose proof (len_nonneg (ext_body e)).
  cbn [length]. lia.
Qed.
Lemma find_extensions_der l target post :
  Forall ext_wf l → len target = 10 → fits (extensions_bytes l) →
  find_target_object_identifier_in_extensions (sequence (extensions_bytes l) ++ post) target
  = Ok (existsb (ext_holds target) l).
Proof.
  intros Hl Ht Hf. set (body := extensions_bytes l) in *. unfold find_target_object_identifier_in_extensions.
  pose proof (len_der_pos ASN1_TAG_SEQUENCE body post). pose proof (len_nonneg post). pose proof (len_nonneg body).
  pose proof (len_encode_length (len body)).
  pose proof (within_app [] (sequence body ++ post) ltac:(done)) as Hw.
  pose proof (from_app [] (sequence body ++ post)) as Hfr. cbn [app] in Hw, Hfr. change (len []) with 0 in Hw, Hfr.
  rewrite Hw. cbn [obind]. unfold pass_tag, check_tag_is_sequence. rewrite Hfr. cbn [obind].
  rewrite check_tag_der. cbn [obind]. unfold within. rewrite (proj2 (Z.leb_gt _ _)) by (rewrite len_app, len_der; lia).
  cbn [obind]. change (0 + 1) with 1. rewrite from_der. cbn [obind]. rewrite check_length_der by done. cbn [obind].
  rewrite (proj2 (Z.ltb_ge _ _)) by (rewrite len_app, len_der; lia). rewrite range_der. cbn [obind].
  apply (extensions_loop_der _ []); [done..|]. pose proof (len_extensions l) as Hn. fold body in Hn. unfold len in *. lia.
Qed.

(** The leaf check refuses exactly the certificates of the alias model
    that carry the hardware identity. *)
Theorem leaf_check_alias c l alias :
  cert_fits c → cert_extensions c = extensions l → Forall ext_wf l →
  check_leaf_certificate (certificate c) alias
  = if alias && existsb (ext_holds OID_DMTF_SPDM_HARDWARE_IDENTITY) l then bad else Ok tt.
Proof.
  intros Hc He Hl. pose proof (cert_parts c Hc) as (_ & Ht & _).
  unfold tbs in Ht. rewrite app_assoc in Ht. apply fits_app in Ht as [_ Hx]. rewrite He in Hx.
  pose proof (fits_der _ _ Hx) as Hx1. pose proof (fits_der _ _ Hx1) as Hx2. unfold check_leaf_certificate.
  rewrite cert_body_der by done. cbn [obind]. rewrite tbs_start_der by done. cbn [obind].
  rewrite tbs_shape, tbs_names_der by done. cbn [obind]. rewrite app_assoc, from_app. cbn [obind].
  rewrite He. unfold extensions, check_and_get_extensions. rewrite check_tag_der, from_der. cbn [obind].
  rewrite check_length_der by done. cbn [obind]. rewrite der_whole, range_der. cbn [obind].
  rewrite <- (app_nil_r (sequence _)), find_extensions_der by done. done.
Qed.

(** A certificate issued by itself with the hardware identity. *)
Definition example_extensions : list Extension :=
  [OtherExtension true OID_KEY_USAGE [3; 2; 7; 0x80];
   SpdmExtension false OID_DMTF_SPDM_HARDWARE_IDENTITY [] []].
Definition example_certificate : Certificate :=
  mkCertificate [7] OID_ECDSA_SHA256 [] [1; 2; 3] [4; 5] [1; 2; 3] [9] (extensions example_extensions)
    (algorithm OID_ECDSA_SHA256 [] ++ der ASN1_TAG_BIT_STRING [0; 1; 2]).
Lemma is_root_iff_self_issued_witness :
  is_root_certificate (certificate example_certificate) = Ok tt ∧
  check_cert_chain_format (certificate example_certificate) SpdmBaseAsymAlgo.TPM_ALG_ECDSA_ECC_NIST_P256 = Ok 1.
Proof. split; [|by vm_compute]. rewrite (is_root_iff_self_issued example_certificate); [done|]. by split. Defined.
Lemma leaf_check_alias_witness :
  check_leaf_certificate (certificate example_certificate) true = bad ∧
  check_leaf_certificate (certificate example_certificate) false = Ok tt.
Proof.
  split; rewrite (leaf_check_alias example_certificate example_extensions); try by split.
  all: repeat constructor; done.
Defined.
