(* ===== verification/SpdmCodec.v ===== *)
(** * Codecs that depend on the context

    Models src/spdmlib/src/common/spdm_codec.rs: the trait [SpdmCodec] as a
    class, its contract [SpdmCodecOk], and the instances for digests,
    signatures, key-exchange structures and measurement records.  The context
    is passed as [&mut] in the source, but no instance changes it, so here it
    is an argument. *)

From S2P Require Import Prelude Codec Status Bitflags Algo DataTypes Structs Version.
From S2P Require Import Crypto HashCtx ManagedBuffer CertChain Session SecuredMessage.
From S2P Require Import ContextData Transport Context.
Import Context.

Class SpdmCodec (A : Type) := {
  spdm_encode : SpdmContext → A → M Writer SpdmStatus usize;
  spdm_read : SpdmContext → M Reader unit A;
}.
Definition spdm_read_bytes {A} `{SpdmCodec A} (c : SpdmContext) (bs : list Z) : outcome unit A :=
  fst (spdm_read c (Reader.init bs)).

(** [x.encode(bytes).map_err(|_| SPDM_STATUS_BUFFER_FULL)?] *)
Definition enc {A} `{Codec A} (a : A) : M Writer SpdmStatus usize :=
  map_errM (λ _, SPDM_STATUS_BUFFER_FULL) (encode a).
(** The loop [for d in data.iter().take(n) { cnt += enc d }]. *)
Definition enc_prefix (n : Z) (data : list Z) : M Writer SpdmStatus usize :=
  map_errM (λ _, SPDM_STATUS_BUFFER_FULL) (encode_prefix n data).
(** [for _ in 0..n { cnt += enc 0u8 }] and [for _ in 0..n { u8::read(r)? }]. *)
Definition enc_zeros (n : Z) : M Writer SpdmStatus usize := enc_prefix n (zeros n).
Definition skip (n : nat) : M Reader unit unit := let* _ := read_vec (A:=u8) n in ret tt.

(** Structures that are written without their size, which the selected
    algorithm gives. *)
Definition encode_sized {k} (d : sens k) : M Writer SpdmStatus usize :=
  let* _ := enc_prefix (data_size d) (data d) in ret (data_size d).
Definition read_sized {k} (size : outcome unit u16) : M Reader unit (sens k) :=
  let* n := lift size in
  let* d := read_prefix n (zeros (cap k)) in
  ret (mkSens n d).

#[export] Instance spdm_codec_digest : SpdmCodec SpdmDigestStruct :=
  {| spdm_encode c d :=
       let* n := lift (get_hash_size c) in
       let* _ := Secured.assert_ (data_size d =? n) in
       encode_sized d;
     spdm_read c := read_sized (get_hash_size c) |}.
#[export] Instance spdm_codec_signature : SpdmCodec SpdmSignatureStruct :=
  {| spdm_encode c d :=
       let* n := lift (get_asym_sig_size c) in
       let* _ := Secured.assert_ (data_size d =? n) in
       encode_sized d;
     spdm_read c := read_sized (get_asym_sig_size c) |}.
#[export] Instance spdm_codec_dhe : SpdmCodec SpdmDheExchangeStruct :=
  {| spdm_encode _ d := encode_sized d;
     spdm_read c := read_sized (SpdmDheAlgo.get_key_size (dhe_sel (negotiate_info c))) |}.
#[export] Instance spdm_codec_kem_encap_key : SpdmCodec SpdmKemEncapKeyStruct :=
  {| spdm_encode _ d := encode_sized d;
     spdm_read c := read_sized (SpdmKemAlgo.get_encap_key_size (kem_sel (negotiate_info c))) |}.
#[export] Instance spdm_codec_kem_cipher_text : SpdmCodec SpdmKemCipherTextStruct :=
  {| spdm_encode _ d := encode_sized d;
     spdm_read c := read_sized (SpdmKemAlgo.get_cipher_text_size (kem_sel (negotiate_info c))) |}.
#[export] Instance spdm_codec_req_exchange : SpdmCodec SpdmReqExchangeStruct :=
  {| spdm_encode _ d := encode_sized d; spdm_read c := read_sized (get_req_key_exchange_size c) |}.
#[export] Instance spdm_codec_rsp_exchange : SpdmCodec SpdmRspExchangeStruct :=
  {| spdm_encode _ d := encode_sized d; spdm_read c := read_sized (get_rsp_key_exchange_size c) |}.

(** ** Measurements *)
Definition read_representation (x : u8) : option SpdmDmtfMeasurementRepresentation :=
  if x =? 0 then Some SpdmDmtfMeasurementDigest
  else if x =? 0x80 then Some SpdmDmtfMeasurementRawBit
  else None.
(** The [match] on [type_value]: some types come in one representation only. *)
Definition read_measurement_type (r : SpdmDmtfMeasurementRepresentation) (x : u8) :
    option SpdmDmtfMeasurementType :=
  let raw_only t := match r with SpdmDmtfMeasurementRawBit => Some t | _ => None end in
  let digest_only t := match r with SpdmDmtfMeasurementDigest => Some t | _ => None end in
  if x =? 0 then Some SpdmDmtfMeasurementRom
  else if x =? 1 then Some SpdmDmtfMeasurementFirmware
  else if x =? 2 then Some SpdmDmtfMeasurementHardwareConfig
  else if x =? 3 then Some SpdmDmtfMeasurementFirmwareConfig
  else if x =? 4 then Some SpdmDmtfMeasurementManifest
  else if x =? 5 then raw_only SpdmDmtfMeasurementStructuredRepresentationMode
  else if x =? 6 then raw_only SpdmDmtfMeasurementMutableFirmwareVersionNumber
  else if x =? 7 then raw_only SpdmDmtfMeasurementMutableFirmwareSecurityVersionNumber
  else if x =? 8 then digest_only SpdmDmtfMeasurementHashExtendMeasurement
  else if x =? 9 then raw_only SpdmDmtfMeasurementInformational
  else if x =? 0xA then Some SpdmDmtfMeasurementStructuredManifest
  else Some (MeasurementTypeUnknown x).

#[export] Instance spdm_codec_dmtf_measurement : SpdmCodec SpdmDmtfMeasurementStructure :=
  {| spdm_encode _ d :=
       let* final_value := lift (dmtf_final_value d) in
       let* s0 := enc (final_value : u8) in
       let* s1 := enc (value_size d) in
       let* s2 := enc_prefix (value_size d) (value d) in
       ret (s0 + s1 + s2);
     spdm_read c :=
       let* final_value := read (A:=u8) in
       let type_value := Z.land final_value 0x7f in
       let representation_value := Z.land final_value 0x80 in
       let* representation := lift (ok_or (read_representation representation_value) tt) in
       let* r_type := lift (ok_or (read_measurement_type representation type_value) tt) in
       let* value_size := read (A:=u16) in
       if MAX_SPDM_MEASUREMENT_VALUE_LEN <? value_size then throw tt else
       let measurement_hash_algo := measurement_hash_sel (negotiate_info c) in
       let* bad :=
         if decide (representation = SpdmDmtfMeasurementDigest) then
           let* size := lift (SpdmMeasurementHashAlgo.get_size measurement_hash_algo) in
           ret (negb (value_size =? size) ||
                bool_decide (measurement_hash_algo = SpdmMeasurementHashAlgo.RAW_BIT_STREAM))
         else ret false in
       if bad : bool then throw tt else
       let* value := read_prefix value_size (zeros MAX_SPDM_MEASUREMENT_VALUE_LEN) in
       ret (mkDmtfMeasurement r_type representation value_size value) |}.

#[export] Instance spdm_codec_measurement_block : SpdmCodec SpdmMeasurementBlockStructure :=
  {| spdm_encode c b :=
       let* s0 := enc (index b) in
       let* s1 := enc (measurement_specification b) in
       let* s2 := enc (measurement_size b) in
       let* s3 := map_errM (λ _, SPDM_STATUS_BUFFER_FULL) (spdm_encode c (measurement b)) in
       ret (s0 + s1 + s2 + s3);
     spdm_read c :=
       let* index := read (A:=u8) in
       let* measurement_specification := read in
       if negb (bool_decide (measurement_specification = SpdmMeasurementSpecification.DMTF)) then throw tt else
       let* measurement_size := read (A:=u16) in
       if 3 + MAX_SPDM_MEASUREMENT_VALUE_LEN <? measurement_size then throw tt else
       let* measurement := spdm_read c in
       let* n := lift (add_checked 16 3 (value_size measurement)) in
       if negb (measurement_size =? n) then throw tt else
       ret (mkMeasurementBlock index measurement_specification measurement_size measurement) |}.

(** The loop of [verify_measurement_record]; [None] is [false]. *)
Fixpoint verify_blocks (c : SpdmContext) (count : nat) (cur_index : u8) (r : Reader) : outcome unit bool :=
  match count with
  | O => Ok (negb (Reader.any_left r))
  | S count =>
      match spdm_read (A:=SpdmMeasurementBlockStructure) c r with
      | (Ok b, r') => if index b <=? cur_index then Ok false else verify_blocks c count (index b) r'
      | (Err _, _) => Ok false
      | (Panic, _) => Panic
      end
  end.
Definition verify_measurement_record (c : SpdmContext) (m : SpdmMeasurementRecordStructure) :
    outcome unit bool :=
  let! data := or_panic (slice (measurement_record_data m) 0 (measurement_record_length m)) in
  verify_blocks c (Z.to_nat (number_of_blocks m)) 0 (Reader.init data).

#[export] Instance spdm_codec_measurement_record : SpdmCodec SpdmMeasurementRecordStructure :=
  {| spdm_encode _ m :=
       let* s0 := enc (number_of_blocks m) in
       let* s1 := enc (measurement_record_length m) in
       let* s2 := enc_prefix (measurement_record_length m) (measurement_record_data m) in
       ret (s0 + s1 + s2);
     spdm_read c :=
       let* number_of_blocks := read (A:=u8) in
       let* measurement_record_length := read (A:=u24) in
       if MAX_SPDM_MEASUREMENT_RECORD_SIZE <? measurement_record_length then throw tt else
       let* data := read_prefix measurement_record_length (zeros MAX_SPDM_MEASUREMENT_RECORD_SIZE) in
       let m := mkMeasurementRecord number_of_blocks measurement_record_length data in
       let* ok := lift (verify_measurement_record c m) in
       if negb ok then throw tt else ret m |}.

(** ** The contract

    What is written of an [swf] value is determined by the value and the
    context, what is read back is the value, and reading arbitrary bytes in a
    context that is [sready] does not panic and returns a value that is
    [sgood].  For most structures [sgood] is [swf]: what was read could have
    been written. *)
Class SpdmCodecOk (A : Type) `{SpdmCodec A} := {
  sready : SpdmContext → Prop;
  swf : SpdmContext → A → Prop;
  sgood : SpdmContext → A → Prop;
  sbytes : SpdmContext → A → list Z;
  sbytes_ok : ∀ c a, swf c a → bytes_wf (sbytes c a);
  spdm_encode_ok : ∀ c a, swf c a → encodes SPDM_STATUS_BUFFER_FULL (spdm_encode c a) (sbytes c a);
  spdm_read_ok : ∀ c a, swf c a → decodes (spdm_read c) (sbytes c a) a;
  spdm_read_safe : ∀ c, sready c → reads (spdm_read c) (sgood c);
}.

Lemma enc_writes {A} `{CodecOk A} (a : A) :
  wf a → writes SPDM_STATUS_BUFFER_FULL (enc a) (bytes a) (len (bytes a)).
Proof. intros Ha. apply (writes_map_err _ EncodeErr_). by apply encode_ok. Qed.
Lemma enc_u8 (v : u8) : writes SPDM_STATUS_BUFFER_FULL (enc v) [v : Z] 1.
Proof. apply (writes_map_err _ EncodeErr_), writes_u8. Qed.
Lemma enc_u16 (v : u16) : writes SPDM_STATUS_BUFFER_FULL (enc v) (le_bytes 2 v) 2.
Proof. apply (writes_map_err _ EncodeErr_), writes_u16. Qed.
Lemma enc_u24 (v : u24) : writes SPDM_STATUS_BUFFER_FULL (enc v) (le_bytes 3 v) 3.
Proof. apply (writes_map_err _ EncodeErr_), writes_u24. Qed.
Lemma enc_u32 (v : u32) : writes SPDM_STATUS_BUFFER_FULL (enc v) (le_bytes 4 v) 4.
Proof. apply (writes_map_err _ EncodeErr_), writes_u32. Qed.
Lemma enc_prefix_writes n d :
  writes SPDM_STATUS_BUFFER_FULL (enc_prefix n d) (ztake n d) (len (ztake n d)).
Proof. apply (writes_map_err _ EncodeErr_), writes_prefix. Qed.
Lemma enc_zeros_writes n : 0 ≤ n → writes SPDM_STATUS_BUFFER_FULL (enc_zeros n) (zeros n) n.
Proof.
  intros Hn. eapply writes_eq; [apply enc_prefix_writes|by apply ztake_all; rewrite len_zeros|].
  rewrite ztake_all; rewrite len_zeros by done; done.
Qed.
#[export] Hint Resolve enc_u8 enc_u16 enc_u24 enc_u32 enc_prefix_writes : writes.
#[export] Hint Extern 2 (writes _ (enc_zeros _) _ _) => apply enc_zeros_writes; lia : writes.
#[export] Hint Extern 3 (writes _ (enc _) _ _) => eapply enc_writes; solve [eauto] : writes.
#[export] Hint Extern 3 (writes _ (spdm_encode _ _) _ _) => eapply spdm_encode_ok; solve [eauto] : writes.
#[export] Hint Extern 3 (decodes (spdm_read _) _ _) => eapply spdm_read_ok; solve [eauto] : decodes.
#[export] Hint Extern 3 (reads (spdm_read _) _) => eapply spdm_read_safe; solve [eauto] : reads.

Lemma decodes_skip n bs : bytes_wf bs → length bs = n → decodes (skip n) bs tt.
Proof.
  intros Hb <-. unfold skip. rewrite <- (app_nil_r bs) at 2. eapply decodes_bind; [|apply decodes_ret].
  rewrite <- (seq_bytes_u8 bs) at 2. by apply (decodes_vec (A:=u8)).
Qed.
Lemma reads_skip n : reads (skip n) (λ _, True).
Proof. eapply reads_bind; [apply (reads_vec (A:=u8))|]. intros ? _. by apply reads_ret. Qed.
#[export] Hint Resolve reads_skip : reads.

(** *** Structures without their size *)
Definition sized (size : outcome unit u16) (cap : Z) : Prop := ∃ n, size = Ok n ∧ 0 ≤ n ≤ cap.

Section Sized.
Context {k : sens_kind} (size : outcome unit u16).

Lemma encode_sized_ok (d : sens k) : sens_wf d → encodes SPDM_STATUS_BUFFER_FULL (encode_sized d) (content d).
Proof.
  intros Hd. unfold encodes, encode_sized. rewrite (len_content d Hd). eapply writes_eq.
  - eapply writes_bind; [apply enc_prefix_writes|apply writes_ret].
  - list_norm. done.
  - done.
Qed.
Lemma read_sized_ok (d : sens k) : sens_wf d → size = Ok (data_size d) → decodes (read_sized size) (content d) d.
Proof.
  intros Hd ->. pose proof (len_content d Hd) as Hl. destruct (sens_wf_inv d Hd) as [Hs _].
  unfold read_sized. rewrite <- (app_nil_l (content d)). eapply decodes_bind; [by apply decodes_lift|].
  rewrite <- (app_nil_r (content d)). destruct Hd as (Hd & _ & Hb).
  eapply decodes_bind; [apply decodes_prefix; [done|done|rewrite len_zeros; lia]|].
  replace (mkSens _ _) with d; [apply decodes_ret|]. rewrite Hd at 1. unfold sens_of. rewrite Hl.
  do 2 f_equal. unfold zdrop, zeros. rewrite drop_replicate. f_equal. lia.
Qed.
Lemma read_sized_safe :
  sized size (cap k) → reads (read_sized (k:=k) size) (λ d, sens_wf d ∧ size = Ok (data_size d)).
Proof.
  intros (n & -> & Hn). unfold read_sized. eapply reads_bind; [by apply (reads_lift (Ok n) (λ x, x = n)); [|congruence]|].
  intros ? ->. eapply reads_bind; [by apply reads_prefix_zeros|]. intros l (bs & -> & Hl & Hw).
  apply reads_ret. replace (mkSens n _) with (sens_of (k:=k) bs) by (unfold sens_of; by rewrite Hl).
  split; [apply sens_of_wf; [lia|done]|]. unfold sens_of. cbn. by rewrite Hl.
Qed.
End Sized.

Program Definition sized_codec_ok {k} `{SpdmCodec (sens k)} (size : SpdmContext → outcome unit u16)
    (Hencode : ∀ c d, sens_wf d → size c = Ok (data_size d) →
       encodes SPDM_STATUS_BUFFER_FULL (spdm_encode c d) (content d))
    (Hread : ∀ c, spdm_read c = read_sized (k:=k) (size c)) : SpdmCodecOk (sens k) :=
  {| sready c := sized (size c) (cap k);
     swf c d := sens_wf d ∧ size c = Ok (data_size d);
     sgood c d := sens_wf d ∧ size c = Ok (data_size d);
     sbytes _ d := content d |}.
Next Obligation. by intros k ? size ? ? c d [(_ & _ & Hd) _]. Qed.
Next Obligation. intros k ? size He ? c d [Hd Hs]. by apply He. Qed.
Next Obligation. intros k ? size ? Hr c d [Hd Hs]. rewrite Hr. by apply read_sized_ok. Qed.
Next Obligation. intros k ? size ? Hr c Hc. rewrite Hr. by apply read_sized_safe. Qed.

(** For the two that check the size. *)
Lemma encode_checked_ok {k} (size : outcome SpdmStatus u16) (d : sens k) :
  sens_wf d → size = Ok (data_size d) →
  encodes SPDM_STATUS_BUFFER_FULL
    (let* n := lift size in let* _ := Secured.assert_ (data_size d =? n) in encode_sized d) (content d).
Proof.
  intros Hd ->. intros w Hw. rewrite (bind_lift _ (data_size d)) by done.
  rewrite Z.eqb_refl. unfold Secured.assert_. rewrite bind_ret. by apply encode_sized_ok.
Qed.

(** A lookup does not depend on the type of its errors: it has none. *)
Lemma match_flag_ok {d E F} (arms : list (flags d * Z)) self n :
  match_flag (E:=E) arms self = Ok n → match_flag (E:=F) arms self = Ok n.
Proof. induction arms as [|[v m] arms IH]; cbn; [done|]. case_decide; [by intros [= ->]|done]. Qed.
Lemma hash_size_ok {E F} c n : get_hash_size (E:=E) c = Ok n → get_hash_size (E:=F) c = Ok n.
Proof. apply match_flag_ok. Qed.
Lemma asym_sig_size_ok {E F} c n : get_asym_sig_size (E:=E) c = Ok n → get_asym_sig_size (E:=F) c = Ok n.
Proof. unfold get_asym_sig_size. case_decide; apply match_flag_ok. Qed.

#[export] Instance spdm_codec_ok_digest : SpdmCodecOk SpdmDigestStruct :=
  sized_codec_ok (k:=KDigest) get_hash_size
    (λ c d Hd Hs, encode_checked_ok (get_hash_size c) d Hd (hash_size_ok c _ Hs)) (λ _, eq_refl).
#[export] Instance spdm_codec_ok_signature : SpdmCodecOk SpdmSignatureStruct :=
  sized_codec_ok (k:=KSignature) get_asym_sig_size
    (λ c d Hd Hs, encode_checked_ok (get_asym_sig_size c) d Hd (asym_sig_size_ok c _ Hs)) (λ _, eq_refl).
#[export] Instance spdm_codec_ok_dhe : SpdmCodecOk SpdmDheExchangeStruct :=
  sized_codec_ok (k:=KDheExchange) _ (λ c d Hd _, encode_sized_ok d Hd) (λ _, eq_refl).
#[export] Instance spdm_codec_ok_kem_encap_key : SpdmCodecOk SpdmKemEncapKeyStruct :=
  sized_codec_ok (k:=KKemEncapKey) _ (λ c d Hd _, encode_sized_ok d Hd) (λ _, eq_refl).
#[export] Instance spdm_codec_ok_kem_cipher_text : SpdmCodecOk SpdmKemCipherTextStruct :=
  sized_codec_ok (k:=KKemCipherText) _ (λ c d Hd _, encode_sized_ok d Hd) (λ _, eq_refl).
#[export] Instance spdm_codec_ok_req_exchange : SpdmCodecOk SpdmReqExchangeStruct :=
  sized_codec_ok (k:=KReqExchange) _ (λ c d Hd _, encode_sized_ok d Hd) (λ _, eq_refl).
#[export] Instance spdm_codec_ok_rsp_exchange : SpdmCodecOk SpdmRspExchangeStruct :=
  sized_codec_ok (k:=KRspExchange) _ (λ c d Hd _, encode_sized_ok d Hd) (λ _, eq_refl).

(** *** Arrays filled up to a size *)
Definition padded (n cap : Z) (l : list Z) : Prop :=
  0 ≤ n ≤ cap ∧ len l = cap ∧ l = ztake n l ++ zeros (cap - n) ∧ bytes_wf (ztake n l).

Lemma padded_len n cap l : padded n cap l → len (ztake n l) = n.
Proof. intros (Hn & Hl & _). rewrite len_ztake; lia. Qed.
Lemma padded_app bs cap : len bs ≤ cap → bytes_wf bs → padded (len bs) cap (bs ++ zeros (cap - len bs)).
Proof. intros Hl Hb. pose proof (len_nonneg bs). split; [lia|]. split; [zlia|]. by rewrite ztake_app. Qed.
Lemma padded_zeros cap : 0 ≤ cap → padded 0 cap (zeros cap).
Proof.
  intros. pose proof (padded_app [] cap) as Hp. rewrite len_nil, Z.sub_0_r in Hp. by apply Hp; [|constructor].
Qed.
Lemma decodes_padded n cap l : padded n cap l → decodes (read_prefix n (zeros cap)) (ztake n l) l.
Proof.
  intros Hp. pose proof (padded_len n cap l Hp) as Hn. destruct Hp as (Hb & Hl & He & Hw).
  eapply decodes_eq; [apply (decodes_prefix n (ztake n l) (zeros cap)); [done|done|rewrite len_zeros; lia]|done|].
  rewrite He at 2. f_equal. unfold zdrop, zeros. rewrite drop_replicate. f_equal. lia.
Qed.
Lemma reads_padded n cap : 0 ≤ n ≤ cap → reads (read_prefix n (zeros cap)) (padded n cap).
Proof.
  intros Hn. eapply reads_weaken; [by apply reads_prefix_zeros|]. intros l (bs & -> & <- & Hw).
  apply padded_app; [lia|done].
Qed.
#[export] Hint Resolve decodes_padded : decodes.

(** *** Measurements *)
Definition dmtf_wf (c : SpdmContext) (d : SpdmDmtfMeasurementStructure) : Prop :=
  0 ≤ measurement_type_u8 (dmtf_type d) < 0x80 ∧
  representation d ∈ [SpdmDmtfMeasurementDigest; SpdmDmtfMeasurementRawBit] ∧
  read_measurement_type (representation d) (measurement_type_u8 (dmtf_type d)) = Some (dmtf_type d) ∧
  padded (value_size d) MAX_SPDM_MEASUREMENT_VALUE_LEN (value d) ∧
  (representation d = SpdmDmtfMeasurementDigest →
   SpdmMeasurementHashAlgo.get_size (E:=unit) (measurement_hash_sel (negotiate_info c)) = Ok (value_size d) ∧
   measurement_hash_sel (negotiate_info c) ≠ SpdmMeasurementHashAlgo.RAW_BIT_STREAM).
Definition dmtf_byte (d : SpdmDmtfMeasurementStructure) : Z :=
  measurement_type_u8 (dmtf_type d) + representation_u8 (representation d).


Lemma final_value_split t r :
  0 ≤ t < 0x80 → r ∈ [SpdmDmtfMeasurementDigest; SpdmDmtfMeasurementRawBit] →
  let x := t + representation_u8 r in
  Z.land x 0x7f = t ∧ read_representation (Z.land x 0x80) = Some r ∧ byte x.
Proof.
  intros Ht Hr x. change 0x7f with (Z.ones 7). change 0x80 with (Z.shiftl (Z.ones 1) 7).
  rewrite land_low, land_field by done. change (2 ^ 7) with 128. change (2 ^ 1) with 2. unfold byte, x.
  assert (representation_u8 r = 0 ∧ r = SpdmDmtfMeasurementDigest ∨
          representation_u8 r = 128 ∧ r = SpdmDmtfMeasurementRawBit) as H
    by (apply list_elem_of_In in Hr as [<-|[<-|[]]]; auto).
  destruct H as [[-> ->]|[-> ->]].
  - replace ((t + 0) / 128) with 0 by (Z.to_euclidean_division_equations; lia).
    split; [|split; [done|lia]]. Z.to_euclidean_division_equations; lia.
  - replace ((t + 128) / 128) with 1 by (Z.to_euclidean_division_equations; lia).
    split; [|split; [done|lia]]. Z.to_euclidean_division_equations; lia.
Qed.
Lemma read_measurement_type_inv r x t :
  0 ≤ x < 0x80 → read_measurement_type r x = Some t → measurement_type_u8 t = x.
Proof.
  intros Hx. unfold read_measurement_type. cbv zeta.
  repeat (destruct (x =? _) eqn:He; [apply Z.eqb_eq in He as ->; by destruct r; intros ?; simplify_eq|clear He]).
  intros ?. by simplify_eq.
Qed.
Lemma read_representation_inv x r :
  read_representation x = Some r → r ∈ [SpdmDmtfMeasurementDigest; SpdmDmtfMeasurementRawBit].
Proof. unfold read_representation. repeat case_match; intros [= <-]; set_solver. Qed.

Lemma ok_or_inv {E A} (o : option A) (e : E) a : ok_or o e = Ok a → o = Some a.
Proof. by destruct o; intros [= ->]. Qed.
Lemma ok_or_safe {E A} (o : option A) (e : E) : ok_or o e ≠ Panic.
Proof. by destruct o. Qed.
Lemma reads_ok_or {A} (o : option A) : reads (lift (ok_or o tt)) (λ a, o = Some a).
Proof. apply reads_lift; [apply ok_or_safe|apply ok_or_inv]. Qed.
#[export] Hint Resolve reads_ok_or : reads.

Lemma dmtf_final_value_ok {E} c d : dmtf_wf c d → dmtf_final_value (E:=E) d = Ok (dmtf_byte d).
Proof.
  intros (Ht & Hr & _). destruct (final_value_split _ _ Ht Hr) as (_ & _ & Hb).
  unfold dmtf_final_value, add_checked, byte in *. by replace (_ <? 2 ^ 8) with true by lia.
Qed.

#[export] Program Instance spdm_codec_ok_dmtf_measurement : SpdmCodecOk SpdmDmtfMeasurementStructure :=
  {| sready c := ∃ n, SpdmMeasurementHashAlgo.get_size (E:=unit) (measurement_hash_sel (negotiate_info c)) = Ok n;
     swf := dmtf_wf;
     sgood := dmtf_wf;
     sbytes _ d := [dmtf_byte d] ++ le_bytes 2 (value_size d) ++ ztake (value_size d) (value d) |}.
Next Obligation.
  intros c d (Ht & Hr & _ & (_ & _ & _ & Hp) & _). destruct (final_value_split _ _ Ht Hr) as (_ & _ & Hb).
  rewrite !bytes_wf_app. split; [by repeat constructor; apply Hb|]. split; [auto with wfb|done].
Qed.
Next Obligation.
  intros c d Hd. unfold spdm_encode, spdm_codec_dmtf_measurement. rewrite (dmtf_final_value_ok c d Hd).
  unfold encodes. eapply writes_eq.
  - eapply writes_bind; [apply writes_lift|repeat writes_step].
  - by list_norm.
  - zlia.
Qed.
Next Obligation.
  intros c d (Ht & Hr & Htype & Hp & Hh). destruct (final_value_split _ _ Ht Hr) as (H7 & H8 & Hb).
  pose proof (padded_len _ _ _ Hp) as Hl. destruct (proj1 Hp) as [Hs0 Hs].
  unfold MAX_SPDM_MEASUREMENT_VALUE_LEN in Hs.
  unfold spdm_read, spdm_codec_dmtf_measurement.
  eapply decodes_bind; [by apply (decodes_u8 (dmtf_byte d))|]. cbv beta zeta. unfold dmtf_byte in *.
  rewrite H7, H8. eapply decodes_bind_pure; [by apply decodes_lift| |by rewrite app_nil_l].
  cbv beta. rewrite Htype.
  eapply decodes_bind_pure; [by apply decodes_lift| |by rewrite app_nil_l]. cbv beta.
  eapply decodes_bind; [apply decodes_u16; unfold in_width; lia|]. cbv beta.
  replace (_ <? value_size d) with false by (unfold MAX_SPDM_MEASUREMENT_VALUE_LEN; lia).
  eapply (decodes_bind_pure _ _ [] _ false); [| |by rewrite app_nil_l].
  - case_decide as Hc; [|apply decodes_ret]. destruct (Hh Hc) as [-> Hraw].
    eapply decodes_bind_pure; [by apply decodes_lift| |by rewrite app_nil_l].
    rewrite Z.eqb_refl, bool_decide_eq_false_2 by done. apply decodes_ret.
  - cbv beta. eapply decodes_bind_pure; [by apply decodes_padded| |by rewrite app_nil_r].
    destruct d. apply decodes_ret.
Qed.
Next Obligation.
  intros c [n Hn]. unfold spdm_read, spdm_codec_dmtf_measurement.
  eapply reads_bind; [apply reads_u8|]. intros x Hx. cbv zeta.
  eapply reads_bind; [apply reads_ok_or|]. intros r Hr.
  eapply reads_bind; [apply reads_ok_or|]. intros t Ht.
  eapply reads_bind; [apply reads_u16|]. intros size Hsize. apply reads_if; intros Hmax; [apply reads_throw|].
  eapply (reads_bind _ _ (λ bad : bool, bad = false → r = SpdmDmtfMeasurementDigest → n = size ∧
    measurement_hash_sel (negotiate_info c) ≠ SpdmMeasurementHashAlgo.RAW_BIT_STREAM)).
  { case_decide; [|by apply reads_ret]. rewrite Hn.
    eapply reads_bind; [by apply (reads_lift (Ok n) (λ m, m = n)); [|congruence]|]. intros ? ->.
    apply reads_ret. intros [H1%negb_false_iff H2%bool_decide_eq_false]%orb_false_elim _. split; [lia|done]. }
  intros bad Hbad. apply reads_if; intros Hb; [apply reads_throw|].
  unfold in_width in Hsize. eapply reads_bind; [apply reads_padded; lia|]. intros v Hv. apply reads_ret.
  change 0x7f with (Z.ones 7) in Ht. rewrite land_low in Ht by done.
  pose proof (Z.mod_pos_bound x (2 ^ 7) ltac:(lia)) as Hm. change (2 ^ 7) with 0x80 in *.
  pose proof (read_measurement_type_inv _ _ _ Hm Ht) as He.
  split; [cbn; lia|]. split; [exact (read_representation_inv _ _ Hr)|].
  cbn [dmtf_type representation value_size value]. rewrite He.
  split; [done|]. split; [done|]. intros ->. destruct (Hbad Hb eq_refl) as [<- ?]. done.
Qed.

Definition block_wf (c : SpdmContext) (b : SpdmMeasurementBlockStructure) : Prop :=
  in_width 8 (index b) ∧ measurement_specification b = SpdmMeasurementSpecification.DMTF ∧
  measurement_size b = 3 + value_size (measurement b) ∧ dmtf_wf c (measurement b).
#[export] Program Instance spdm_codec_ok_measurement_block : SpdmCodecOk SpdmMeasurementBlockStructure :=
  {| sready c := sready (A:=SpdmDmtfMeasurementStructure) c;
     swf := block_wf;
     sgood := block_wf;
     sbytes c b := [index b] ++ bytes (measurement_specification b) ++ le_bytes 2 (measurement_size b) ++
       sbytes c (measurement b) |}.
Next Obligation.
  intros c b (Hi & Hs & _ & Hm). rewrite !bytes_wf_app, Hs. split; [by repeat constructor; apply Hi|].
  split; [by apply is_byte_wf|]. split; [auto with wfb|by apply sbytes_ok].
Qed.
Next Obligation.
  intros c b (Hi & Hs & _ & Hm). unfold spdm_encode at 1, spdm_codec_measurement_block, encodes. eapply writes_eq.
  - eapply writes_bind; [apply enc_u8|]. eapply writes_bind; [apply enc_writes; by rewrite Hs|].
    eapply writes_bind; [apply enc_u16|].
    eapply writes_bind; [eapply writes_map_err; by apply spdm_encode_ok|apply writes_ret].
  - by list_norm.
  - zlia.
Qed.
Next Obligation.
  intros c b (Hi & Hs & Hsize & Hm). assert (0 ≤ value_size (measurement b) ≤ MAX_SPDM_MEASUREMENT_VALUE_LEN) as Hv
    by (by destruct Hm as (_ & _ & _ & [] & _)). unfold MAX_SPDM_MEASUREMENT_VALUE_LEN in Hv.
  unfold spdm_read at 1, spdm_codec_measurement_block.
  eapply decodes_bind; [by apply decodes_u8|]. cbv beta.
  eapply decodes_bind; [apply read_ok; by rewrite Hs|]. cbv beta. rewrite bool_decide_eq_true_2 by done. cbn [negb].
  eapply decodes_bind; [apply decodes_u16; unfold in_width; lia|]. cbv beta.
  replace (_ <? measurement_size b) with false by (unfold MAX_SPDM_MEASUREMENT_VALUE_LEN; lia).
  eapply decodes_bind_pure; [by apply spdm_read_ok| |by rewrite app_nil_r]. cbv beta.
  eapply (decodes_bind _ _ [] []).
  - apply (decodes_lift _ (measurement_size b)). unfold add_checked.
    rewrite Hsize. by replace (_ <? 2 ^ 16) with true by lia.
  - cbv beta. rewrite Z.eqb_refl. destruct b. apply decodes_ret.
Qed.
Next Obligation.
  intros c Hc. unfold spdm_read at 1, spdm_codec_measurement_block.
  eapply reads_bind; [apply reads_u8|]. intros i Hi.
  eapply reads_bind; [apply read_safe|]. intros s Hs. apply reads_if; intros Hdmtf; [apply reads_throw|].
  eapply reads_bind; [apply reads_u16|]. intros n Hn. apply reads_if; intros Hmax; [apply reads_throw|].
  eapply reads_bind; [by apply spdm_read_safe|]. intros m Hm.
  assert (0 ≤ value_size m ≤ MAX_SPDM_MEASUREMENT_VALUE_LEN) as Hv
    by (by destruct Hm as (_ & _ & _ & [] & _)). unfold MAX_SPDM_MEASUREMENT_VALUE_LEN in Hv.
  unfold add_checked. replace (_ <? 2 ^ 16) with true by lia.
  eapply reads_bind; [by apply (reads_lift (Ok (3 + value_size m)) (λ x, x = 3 + value_size m)); [|congruence]|].
  intros ? ->. apply reads_if; intros Heq; [apply reads_throw|]. apply reads_ret.
  apply negb_false_iff in Hdmtf. apply bool_decide_eq_true in Hdmtf.
  split; [done|]. split; [done|]. split; [cbn; lia|done].
Qed.

Lemma verify_blocks_safe c count i r :
  sready (A:=SpdmMeasurementBlockStructure) c → reader_wf r → verify_blocks c count i r ≠ Panic.
Proof.
  intros Hc. revert i r. induction count as [|count IH]; intros i r Hr; cbn [verify_blocks]; [done|].
  pose proof (spdm_read_safe (A:=SpdmMeasurementBlockStructure) c Hc r Hr) as Hs.
  destruct (spdm_read c r) as [[b| |] r']; destruct Hs as (Hnp & Hb & Ho & _); [|done..].
  case_match; [done|]. apply IH. unfold reader_wf in *. rewrite Hb. intuition lia.
Qed.

Definition record_wf (c : SpdmContext) (m : SpdmMeasurementRecordStructure) : Prop :=
  in_width 8 (number_of_blocks m) ∧
  padded (measurement_record_length m) MAX_SPDM_MEASUREMENT_RECORD_SIZE (measurement_record_data m) ∧
  verify_measurement_record c m = Ok true.
#[export] Program Instance spdm_codec_ok_measurement_record : SpdmCodecOk SpdmMeasurementRecordStructure :=
  {| sready c := sready (A:=SpdmMeasurementBlockStructure) c;
     swf := record_wf;
     sgood := record_wf;
     sbytes c m := [number_of_blocks m] ++ le_bytes 3 (measurement_record_length m) ++
       ztake (measurement_record_length m) (measurement_record_data m) |}.
Next Obligation.
  intros c m (Hi & (_ & _ & _ & Hp) & _). rewrite !bytes_wf_app. split; [by repeat constructor; apply Hi|].
  split; [auto with wfb|done].
Qed.
Next Obligation.
  intros c m (Hi & Hp & _). unfold spdm_encode, spdm_codec_measurement_record. solve_writes.
Qed.
Next Obligation.
  intros c m (Hi & Hp & Hv). destruct (proj1 Hp) as [Hs0 Hs]. unfold MAX_SPDM_MEASUREMENT_RECORD_SIZE in Hs.
  unfold spdm_read, spdm_codec_measurement_record.
  eapply decodes_bind; [by apply decodes_u8|]. cbv beta.
  eapply decodes_bind; [apply decodes_u24; unfold in_width; lia|]. cbv beta.
  replace (_ <? measurement_record_length m) with false by (unfold MAX_SPDM_MEASUREMENT_RECORD_SIZE; lia).
  eapply decodes_bind_pure; [by apply decodes_padded| |by rewrite app_nil_r]. cbv beta zeta.
  replace (mkMeasurementRecord _ _ _) with m by (by destruct m).
  eapply (decodes_bind _ _ [] []); [by apply decodes_lift|apply decodes_ret].
Qed.
Next Obligation.
  intros c Hc. unfold spdm_read, spdm_codec_measurement_record.
  eapply reads_bind; [apply reads_u8|]. intros i Hi.
  eapply reads_bind; [apply reads_u24|]. intros n Hn. apply reads_if; intros Hmax; [apply reads_throw|].
  unfold in_width in Hn. eapply reads_bind; [apply reads_padded; lia|]. intros d Hd. cbv zeta.
  set (m := mkMeasurementRecord i n d). eapply reads_bind; [apply (reads_lift _ (λ b, verify_measurement_record c m = Ok b)); [|done]|].
  - unfold verify_measurement_record, m. cbn [measurement_record_data measurement_record_length].
    destruct Hd as (Hb & Hl & _ & Hw). rewrite slice_spec by lia. cbn [or_panic obind].
    apply verify_blocks_safe; [done|]. apply reader_init_wf. by rewrite zdrop_0, Z.sub_0_r.
  - intros [] Hv; [|apply reads_throw]. by apply reads_ret.
Qed.
