(* ===== verification/Opaque.v ===== *)
(** * Opaque data of the key exchanges

    Models src/spdmlib/src/common/opaque.rs: the headers of opaque data, the
    versions of secured messages (their record is declared in Session.v), the
    two elements KEY_EXCHANGE and PSK_EXCHANGE carry, and their embedding into
    [SpdmOpaqueStruct].  Proved: the codec contracts, and that an element put
    into opaque data is the element taken out of it. *)

From S2P Require Import Prelude Codec Status Bitflags Algo DataTypes Structs Version Session.
From S2P Require Import ContextData SpdmCodec.

Definition DMTF_SPEC_ID : u32 := 0x444D5446.
Definition DMTF_OPAQUE_VERSION : u8 := 0x01.
Definition SM_DATA_VERSION : u8 := 0x01.
Definition DMTF_ID : u8 := 0x00.
Definition DMTF_VENDOR_LEN : u8 := 0x00.
Definition OPAQUE_LIST_TOTAL_ELEMENTS : u8 := 0x01.

(** ** Headers *)
Inductive GeneralOpaqueDataHeader := GeneralOpaqueDataHeader_.
Inductive FM1OpaqueDataHeader := FM1OpaqueDataHeader_.

#[export] Instance codec_GeneralOpaqueDataHeader : Codec GeneralOpaqueDataHeader :=
  {| encode _ :=
       let* s0 := encode DMTF_SPEC_ID in
       let* s1 := encode DMTF_OPAQUE_VERSION in
       let* s2 := encode OPAQUE_LIST_TOTAL_ELEMENTS in
       let* s3 := encode (0 : u16) in
       ret (s0 + s1 + s2 + s3);
     read :=
       let* spec_id := read (A:=u32) in
       let* opaque_version := read (A:=u8) in
       let* opaque_list_total_elements := read (A:=u8) in
       let* _ := read (A:=u16) in
       if negb (spec_id =? DMTF_SPEC_ID) || negb (opaque_version =? DMTF_OPAQUE_VERSION)
          || (opaque_list_total_elements =? 0)
       then throw tt else ret GeneralOpaqueDataHeader_ |}.
#[export] Instance codec_FM1OpaqueDataHeader : Codec FM1OpaqueDataHeader :=
  {| encode _ :=
       let* s0 := encode OPAQUE_LIST_TOTAL_ELEMENTS in
       let* s1 := encode (0 : u24) in
       ret (s0 + s1);
     read :=
       let* opaque_list_total_elements := read (A:=u8) in
       let* _ := read (A:=u24) in
       if opaque_list_total_elements =? 0 then throw tt else ret FM1OpaqueDataHeader_ |}.

Inductive SMDataId := VersionSelectionSmDataId | SupportedVersionList.
#[export] Instance SMDataId_eq_dec : EqDecision SMDataId.
Proof. solve_decision. Defined.
Definition sm_data_id_u8 (id : SMDataId) : u8 :=
  match id with VersionSelectionSmDataId => 0 | SupportedVersionList => 1 end.
Definition sm_data_id_try_from (x : u8) : option SMDataId :=
  if x =? 0 then Some VersionSelectionSmDataId
  else if x =? 1 then Some SupportedVersionList
  else None.
#[export] Instance codec_SMDataId : Codec SMDataId :=
  {| encode id := encode (sm_data_id_u8 id);
     read := let* id := read (A:=u8) in lift (ok_or (sm_data_id_try_from id) tt) |}.

(** ** Versions of secured messages *)

(** [(hi << 4) + lo] on bytes: the shift drops bits, the addition is checked. *)
Definition nibbles {E} (hi lo : u8) : outcome E u8 := add_checked 8 (wrap 8 (Z.shiftl hi 4)) lo.
#[export] Instance codec_SecuredMessageVersion : Codec SecuredMessageVersion :=
  {| encode v :=
       let* b0 := lift (nibbles (update_version_number v) (alpha v)) in
       let* s0 := encode (b0 : u8) in
       let* b1 := lift (nibbles (major_version v) (minor_version v)) in
       let* s1 := encode (b1 : u8) in
       ret (s0 + s1);
     read :=
       let* update_version_number_alpha := read (A:=u8) in
       let* major_version_minor_version := read (A:=u8) in
       ret (mkSecuredMessageVersion
              (Z.shiftr major_version_minor_version 4) (Z.land major_version_minor_version 0x0F)
              (Z.shiftr update_version_number_alpha 4) (Z.land update_version_number_alpha 0x0F)) |}.
Definition smv_u8 {E} (v : SecuredMessageVersion) : outcome E u8 :=
  nibbles (major_version v) (minor_version v).
(** [PartialEq] ignores the update number and alpha. *)
Definition smv_eqb (a b : SecuredMessageVersion) : bool :=
  (major_version a =? major_version b) && (minor_version a =? minor_version b).

Record SecuredMessageVersionList := mkVersionList {
  version_count : u8;
  versions_list : list SecuredMessageVersion;
}.
Definition SecuredMessageVersionList_default : SecuredMessageVersionList :=
  mkVersionList 0 (replicate (Z.to_nat MAX_SECURE_SPDM_VERSION_COUNT) SecuredMessageVersion_default).
(** [for index in 0..n { cnt += versions_list[index].encode(bytes)? }] *)
Fixpoint encode_versions (n : nat) (l : list SecuredMessageVersion) : M Writer EncodeErr usize :=
  match n, l with
  | O, _ => ret 0
  | S n, v :: l => let* s := encode v in let* r := encode_versions n l in ret (s + r)
  | S _, [] => panic
  end.
Fixpoint read_versions (n : nat) (l : list SecuredMessageVersion) :
    M Reader unit (list SecuredMessageVersion) :=
  match n, l with
  | S n, _ :: l => let* d := read in let* r := read_versions n l in ret (d :: r)
  | _, l => ret l
  end.
#[export] Instance codec_SecuredMessageVersionList : Codec SecuredMessageVersionList :=
  {| encode l :=
       let* s0 := encode (version_count l) in
       let* s1 := encode_versions (Z.to_nat (version_count l)) (versions_list l) in
       ret (s0 + s1);
     read :=
       let* version_count := read (A:=u8) in
       if MAX_SECURE_SPDM_VERSION_COUNT <? version_count then throw tt else
       let* versions_list := read_versions (Z.to_nat version_count)
         (replicate (Z.to_nat MAX_SECURE_SPDM_VERSION_COUNT) SecuredMessageVersion_default) in
       ret (mkVersionList version_count versions_list) |}.

(** ** Elements *)
Record SMVersionSelOpaque := mkVersionSel { secured_message_version : SecuredMessageVersion }.
#[export] Instance codec_SMVersionSelOpaque : Codec SMVersionSelOpaque :=
  {| encode v :=
       let* s0 := encode DMTF_ID in
       let* s1 := encode DMTF_VENDOR_LEN in
       let* s2 := encode (4 : u16) in
       let* s3 := encode SM_DATA_VERSION in
       let* s4 := encode VersionSelectionSmDataId in
       let* s5 := encode (secured_message_version v) in
       ret (s0 + s1 + s2 + s3 + s4 + s5);
     read :=
       let* dmtf_id := read (A:=u8) in
       let* dmtf_vendor_len := read (A:=u8) in
       let* opaque_element_data_len := read (A:=u16) in
       let* sm_data_version := read (A:=u8) in
       let* id := read (A:=u8) in
       let* version_selection_sm_data_id := lift (ok_or (sm_data_id_try_from id) tt) in
       let* secured_message_version := read in
       if negb (dmtf_id =? DMTF_ID) || negb (dmtf_vendor_len =? DMTF_VENDOR_LEN)
          || negb (opaque_element_data_len =? 4) || negb (sm_data_version =? SM_DATA_VERSION)
          || negb (bool_decide (version_selection_sm_data_id = VersionSelectionSmDataId))
       then throw tt else ret (mkVersionSel secured_message_version) |}.

Record SMSupportedVerListOpaque := mkSupportedVerList {
  secured_message_version_list : SecuredMessageVersionList;
}.
(** The padding to a multiple of four. *)
Definition padding (cnt : Z) : Z := if negb (Z.land cnt 3 =? 0) then 4 - Z.land cnt 3 else 0.
#[export] Instance codec_SMSupportedVerListOpaque : Codec SMSupportedVerListOpaque :=
  {| encode v :=
       let l := secured_message_version_list v in
       let* s0 := encode DMTF_ID in
       let* s1 := encode DMTF_VENDOR_LEN in
       let* s2 := encode (3 + 2 * version_count l : u16) in
       let* s3 := encode SM_DATA_VERSION in
       let* s4 := encode SupportedVersionList in
       let* s5 := encode l in
       let cnt := s0 + s1 + s2 + s3 + s4 + s5 in
       let* s6 := encode_prefix (padding cnt) (zeros (padding cnt)) in
       ret (cnt + s6);
     read :=
       let* dmtf_id := read (A:=u8) in
       let* dmtf_vendor_len := read (A:=u8) in
       let* opaque_element_data_len := read (A:=u16) in
       let* sm_data_version := read (A:=u8) in
       let* id := read (A:=u8) in
       let* supported_version_list_sm_data_id := lift (ok_or (sm_data_id_try_from id) tt) in
       let* l := read (A:=SecuredMessageVersionList) in
       if negb (dmtf_id =? DMTF_ID) || negb (dmtf_vendor_len =? DMTF_VENDOR_LEN)
          || negb (opaque_element_data_len =? 3 + 2 * version_count l)
          || negb (sm_data_version =? SM_DATA_VERSION)
          || negb (bool_decide (supported_version_list_sm_data_id = SupportedVersionList))
       then throw tt else
       let* cnt := lift (add_checked 8 7 (2 * version_count l)) in
       let* _ := skip (Z.to_nat (padding cnt)) in
       ret (mkSupportedVerList l) |}.

(** ** Opaque data

    The header is chosen by the version and, from 1.2 on, needs format 1. *)
Definition fmt1_selected (c : SpdmContext) : bool :=
  contains (other_params_support (negotiate_info c)) SpdmAlgoOtherParams.OPAQUE_DATA_FMT1.
Definition encode_opaque_header (c : SpdmContext) : M Writer SpdmStatus usize :=
  if version_leb SpdmVersion12 (spdm_version_sel (negotiate_info c)) then
    if fmt1_selected c then enc FM1OpaqueDataHeader_ else throw SPDM_STATUS_UNSUPPORTED_CAP
  else enc GeneralOpaqueDataHeader_.
Definition read_opaque_header (c : SpdmContext) : M Reader unit unit :=
  if version_leb SpdmVersion12 (spdm_version_sel (negotiate_info c)) then
    if fmt1_selected c then let* _ := read (A:=FM1OpaqueDataHeader) in ret tt else throw tt
  else let* _ := read (A:=GeneralOpaqueDataHeader) in ret tt.

#[export] Instance spdm_codec_SMVersionSelOpaque : SpdmCodec SMVersionSelOpaque :=
  {| spdm_encode c v :=
       let* s0 := encode_opaque_header c in let* s1 := enc v in ret (s0 + s1);
     spdm_read c := let* _ := read_opaque_header c in read |}.
#[export] Instance spdm_codec_SMSupportedVerListOpaque : SpdmCodec SMSupportedVerListOpaque :=
  {| spdm_encode c v :=
       let* s0 := encode_opaque_header c in let* s1 := enc v in ret (s0 + s1);
     spdm_read c := let* _ := read_opaque_header c in read |}.

#[export] Instance spdm_codec_opaque : SpdmCodec SpdmOpaqueStruct :=
  {| spdm_encode _ o :=
       let* s0 := enc (data_size o : u16) in
       let* s1 := enc_prefix (data_size o) (data o) in
       ret (s0 + s1);
     spdm_read _ := sens_read |}.

(** [from_sm_version_sel_opaque], [from_sm_supported_ver_list_opaque] and
    their converses. *)
Section Embed.
Context {A : Type} `{SpdmCodec A}.
Definition from_sm_opaque (c : SpdmContext) (a : A) : outcome SpdmStatus SpdmOpaqueStruct :=
  let '(o, w) := spdm_encode c a (Writer.init (zeros MAX_SPDM_OPAQUE_SIZE)) in
  let! n := o in
  Ok (mkSens (wrap 16 n) (w_buf w)).
Definition to_sm_opaque (c : SpdmContext) (o : SpdmOpaqueStruct) : outcome SpdmStatus A :=
  let! bs := or_panic (slice (data o) 0 (data_size o)) in
  map_err (λ _, SPDM_STATUS_INVALID_PARAMETER) (spdm_read_bytes c bs).
End Embed.
Definition rsp_get_dmtf_supported_secure_spdm_version_list (c : SpdmContext) (o : SpdmOpaqueStruct) :
    outcome unit SecuredMessageVersionList :=
  let! l := map_err (λ _, tt) (to_sm_opaque (A:=SMSupportedVerListOpaque) c o) in
  Ok (secured_message_version_list l).
Definition req_get_dmtf_secure_spdm_version_selection (c : SpdmContext) (o : SpdmOpaqueStruct) :
    outcome unit SecuredMessageVersion :=
  let! v := map_err (λ _, tt) (to_sm_opaque (A:=SMVersionSelOpaque) c o) in
  Ok (secured_message_version v).

(** ** Laws *)
Lemma reads_headers :
  reads (read (A:=GeneralOpaqueDataHeader)) (λ _, True) ∧ reads (read (A:=FM1OpaqueDataHeader)) (λ _, True).
Proof.
  split; unfold read at 1, codec_GeneralOpaqueDataHeader, codec_FM1OpaqueDataHeader; by solve_reads.
Qed.
#[export] Program Instance codec_ok_GeneralOpaqueDataHeader : CodecOk GeneralOpaqueDataHeader :=
  {| wf _ := True; bytes _ := le_bytes 4 DMTF_SPEC_ID ++ [DMTF_OPAQUE_VERSION; OPAQUE_LIST_TOTAL_ELEMENTS; 0; 0] |}.
Next Obligation. intros [] _. by apply is_byte_wf. Qed.
Next Obligation. intros [] _. unfold encode at 1, codec_GeneralOpaqueDataHeader. solve_writes. Qed.
Next Obligation.
  intros [] _. unfold read at 1, codec_GeneralOpaqueDataHeader.
  eapply decodes_bind; [by apply decodes_u32|]. cbv beta.
  eapply (decodes_bind _ _ [_] [_; 0; 0]); [by apply (decodes_u8 DMTF_OPAQUE_VERSION)|]. cbv beta.
  eapply (decodes_bind _ _ [_] [0; 0]); [by apply (decodes_u8 OPAQUE_LIST_TOTAL_ELEMENTS)|]. cbv beta.
  eapply (decodes_bind _ _ [0; 0] []); [by apply (decodes_u16 0)|]. apply decodes_ret.
Qed.
Next Obligation. apply reads_headers. Qed.
#[export] Program Instance codec_ok_FM1OpaqueDataHeader : CodecOk FM1OpaqueDataHeader :=
  {| wf _ := True; bytes _ := [OPAQUE_LIST_TOTAL_ELEMENTS; 0; 0; 0] |}.
Next Obligation. intros [] _. by apply is_byte_wf. Qed.
Next Obligation. intros [] _. unfold encode at 1, codec_FM1OpaqueDataHeader. solve_writes. Qed.
Next Obligation.
  intros [] _. unfold read at 1, codec_FM1OpaqueDataHeader.
  eapply (decodes_bind _ _ [_] [0; 0; 0]); [by apply (decodes_u8 OPAQUE_LIST_TOTAL_ELEMENTS)|]. cbv beta.
  eapply (decodes_bind _ _ [0; 0; 0] []); [by apply (decodes_u24 0)|]. apply decodes_ret.
Qed.
Next Obligation. apply reads_headers. Qed.

Definition nibble (x : Z) : Prop := 0 ≤ x < 16.
Definition smv_wf (v : SecuredMessageVersion) : Prop :=
  nibble (major_version v) ∧ nibble (minor_version v) ∧
  nibble (update_version_number v) ∧ nibble (alpha v).
Lemma nibbles_ok {E} hi lo : nibble hi → nibble lo → nibbles (E:=E) hi lo = Ok (16 * hi + lo).
Proof.
  unfold nibble, nibbles. intros Hh Hl. rewrite Z.shiftl_mul_pow2, wrap_small by (unfold in_width; lia).
  change (2 ^ 4) with 16. unfold add_checked. replace (_ <? 2 ^ 8) with true by lia. f_equal. lia.
Qed.
Lemma nibbles_split hi lo :
  nibble hi → nibble lo → Z.shiftr (16 * hi + lo) 4 = hi ∧ Z.land (16 * hi + lo) 0x0F = lo.
Proof.
  unfold nibble. intros Hh Hl. rewrite Z.shiftr_div_pow2 by done. change 0x0F with (Z.ones 4).
  rewrite land_low by done. change (2 ^ 4) with 16. split; Z.to_euclidean_division_equations; lia.
Qed.
Lemma nibble_parts x : in_width 8 x → nibble (Z.shiftr x 4) ∧ nibble (Z.land x 0x0F).
Proof.
  unfold nibble, in_width. intros Hx. rewrite Z.shiftr_div_pow2 by done. change 0x0F with (Z.ones 4).
  rewrite land_low by done. change (2 ^ 4) with 16. split; Z.to_euclidean_division_equations; lia.
Qed.

#[export] Program Instance codec_ok_SecuredMessageVersion : CodecOk SecuredMessageVersion :=
  {| wf := smv_wf;
     bytes v := [16 * update_version_number v + alpha v; 16 * major_version v + minor_version v] |}.
Next Obligation. intros v (H1 & H2 & H3 & H4). unfold nibble in *. repeat constructor; lia. Qed.
Next Obligation.
  intros v (H1 & H2 & H3 & H4). unfold encode at 1, codec_SecuredMessageVersion, encodes.
  rewrite !nibbles_ok by done. eapply writes_eq; [repeat first [apply writes_lift | writes_step]|done|done].
Qed.
Next Obligation.
  intros v (H1 & H2 & H3 & H4). unfold read at 1, codec_SecuredMessageVersion.
  destruct (nibbles_split _ _ H1 H2) as [Ea Eb]. destruct (nibbles_split _ _ H3 H4) as [Ec Ed].
  unfold nibble in *.
  eapply (decodes_bind _ _ [_] [_]); [apply decodes_u8; unfold in_width; lia|]. cbv beta.
  eapply (decodes_bind _ _ [_] []); [apply decodes_u8; unfold in_width; lia|]. cbv beta.
  rewrite Ea, Eb, Ec, Ed. destruct v. apply decodes_ret.
Qed.
Next Obligation.
  unfold read at 1, codec_SecuredMessageVersion. solve_reads.
  repeat split; cbn [major_version minor_version update_version_number alpha]; by apply nibble_parts.
Qed.

Section VersionList.
Definition default_versions (n : Z) : list SecuredMessageVersion :=
  replicate (Z.to_nat n) SecuredMessageVersion_default.
(** The unused entries hold the default. *)
Definition version_list_wf (l : SecuredMessageVersionList) : Prop :=
  0 ≤ version_count l ≤ MAX_SECURE_SPDM_VERSION_COUNT ∧
  ∃ vs, versions_list l = vs ++ default_versions (MAX_SECURE_SPDM_VERSION_COUNT - version_count l) ∧
        len vs = version_count l ∧ Forall wf vs.

Lemma encode_versions_ok vs rest :
  Forall wf vs → encodes EncodeErr_ (encode_versions (length vs) (vs ++ rest)) (seq_bytes vs).
Proof.
  unfold encodes. induction 1 as [|v vs Hv Hvs IH]; [apply writes_ret|]. cbn [encode_versions length app]. eapply writes_eq.
  - eapply writes_bind; [by apply encode_ok|]. eapply writes_bind; [exact IH|]. apply writes_ret.
  - by list_norm.
  - change (seq_bytes (v :: vs)) with (bytes v ++ seq_bytes vs). zlia.
Qed.
Lemma read_versions_ok vs dead rest :
  Forall wf vs → length dead = length vs →
  decodes (read_versions (length vs) (dead ++ rest)) (seq_bytes vs) (vs ++ rest).
Proof.
  intros Hw. revert dead. induction Hw as [|v vs Hv Hvs IH]; intros dead Hd.
  - apply nil_length_inv in Hd as ->. destruct rest; apply decodes_ret.
  - destruct dead as [|x dead]; [done|]. cbn [read_versions length app]. cbn in Hd.
    eapply decodes_bind; [by apply read_ok|]. cbv beta.
    eapply decodes_bind_pure; [apply IH; lia| |by rewrite app_nil_r]. apply decodes_ret.
Qed.
Lemma read_versions_safe n rest :
  reads (read_versions n (replicate n SecuredMessageVersion_default ++ rest))
        (λ l, ∃ vs, l = vs ++ rest ∧ length vs = n ∧ Forall wf vs).
Proof.
  induction n as [|n IH]; [destruct rest; apply reads_ret; by exists []|].
  cbn [replicate app read_versions]. eapply reads_bind; [apply read_safe|]. intros v Hv.
  eapply reads_bind; [exact IH|]. intros l (vs & -> & Hl & Hw). apply reads_ret.
  exists (v :: vs). cbn. auto.
Qed.
Lemma len_seq_versions vs : len (seq_bytes (A:=SecuredMessageVersion) vs) = 2 * len vs.
Proof.
  induction vs as [|v vs IH]; [done|]. change (seq_bytes (v :: vs)) with (bytes v ++ seq_bytes vs).
  rewrite len_app, IH, len_cons. change (len (bytes v)) with 2. lia.
Qed.
End VersionList.

#[export] Program Instance codec_ok_SecuredMessageVersionList : CodecOk SecuredMessageVersionList :=
  {| wf := version_list_wf;
     bytes l := [version_count l] ++ seq_bytes (ztake (version_count l) (versions_list l)) |}.
Next Obligation.
  intros l (Hn & vs & -> & Hl & Hw). rewrite <- Hl, ztake_app. unfold MAX_SECURE_SPDM_VERSION_COUNT in Hn.
  apply bytes_wf_app. split; [repeat constructor; lia|]. unfold seq_bytes, bytes_wf.
  apply Forall_concat, Forall_fmap. eapply Forall_impl; [exact Hw|]. intros v Hv. exact (bytes_ok v Hv).
Qed.
Next Obligation.
  intros l (Hn & vs & Hvs & Hl & Hw). unfold encode at 1, codec_SecuredMessageVersionList, encodes.
  rewrite Hvs, <- Hl, ztake_app. replace (Z.to_nat (len vs)) with (length vs) by (unfold len; lia). eapply writes_eq.
  - eapply writes_bind; [apply writes_u8|]. eapply writes_bind; [by apply encode_versions_ok|]. apply writes_ret.
  - by list_norm.
  - by rewrite len_app.
Qed.
Next Obligation.
  intros l (Hn & vs & Hvs & Hl & Hw). unfold read at 1, codec_SecuredMessageVersionList.
  unfold MAX_SECURE_SPDM_VERSION_COUNT in *.
  eapply decodes_bind; [apply decodes_u8; unfold in_width; lia|]. cbv beta.
  replace (3 <? version_count l) with false by lia. rewrite Hvs, <- Hl, ztake_app.
  eapply decodes_bind_pure; [| |by rewrite app_nil_r].
  - replace (Z.to_nat (len vs)) with (length vs) by (unfold len; lia).
    replace (Z.to_nat 3) with (length vs + Z.to_nat (3 - version_count l))%nat by (unfold len in Hl; lia).
    rewrite replicate_add. apply read_versions_ok; [done|apply length_replicate].
  - cbv beta. destruct l as [n l]. cbn [version_count versions_list] in *. subst. apply decodes_ret.
Qed.
Next Obligation.
  unfold read at 1, codec_SecuredMessageVersionList. eapply reads_bind; [apply reads_u8|]. intros n Hn.
  apply reads_if; intros Hmax; [apply reads_throw|]. unfold in_width, MAX_SECURE_SPDM_VERSION_COUNT in *.
  replace (Z.to_nat 3) with (Z.to_nat n + Z.to_nat (3 - n))%nat by lia. rewrite replicate_add.
  eapply reads_bind; [apply read_versions_safe|]. intros l (vs & -> & Hl & Hw). apply reads_ret.
  split; [cbn; unfold MAX_SECURE_SPDM_VERSION_COUNT; lia|]. exists vs. split; [done|]. unfold len. cbn. split; [lia|done].
Qed.

#[export] Program Instance codec_ok_SMDataId : CodecOk SMDataId :=
  {| wf _ := True; bytes id := [sm_data_id_u8 id : Z] |}.
Next Obligation. intros [] _; by apply is_byte_wf. Qed.
Next Obligation. intros id _. apply writes_u8. Qed.
Next Obligation.
  intros id _. unfold read, codec_SMDataId. eapply (decodes_bind _ _ [_] []).
  - apply decodes_u8. by destruct id.
  - apply decodes_lift. by destruct id.
Qed.
Next Obligation. unfold read, codec_SMDataId. solve_reads. apply reads_lift; [apply ok_or_safe|done]. Qed.

#[export] Program Instance codec_ok_SMVersionSelOpaque : CodecOk SMVersionSelOpaque :=
  {| wf v := wf (secured_message_version v);
     bytes v := [DMTF_ID; DMTF_VENDOR_LEN; 4; 0; SM_DATA_VERSION; 0] ++ bytes (secured_message_version v) |}.
Next Obligation. intros v Hv. apply bytes_wf_app. split; [by apply is_byte_wf|by apply bytes_ok]. Qed.
Next Obligation.
  intros v Hv. unfold encode at 1, codec_SMVersionSelOpaque, encodes. eapply writes_eq.
  - do 4 (eapply writes_bind; [first [apply writes_u8 | apply writes_u16]|]).
    eapply writes_bind; [by apply encode_ok|]. eapply writes_bind; [by apply encode_ok|]. apply writes_ret.
  - by list_norm.
  - done.
Qed.
Next Obligation.
  intros v Hv. unfold read at 1, codec_SMVersionSelOpaque. set (b := bytes (secured_message_version v)).
  eapply (decodes_bind _ _ [_] ([_; 4; 0; _; 0] ++ b)); [by apply (decodes_u8 DMTF_ID)|]. cbv beta.
  eapply (decodes_bind _ _ [_] ([4; 0; _; 0] ++ b)); [by apply (decodes_u8 DMTF_VENDOR_LEN)|]. cbv beta.
  eapply (decodes_bind _ _ [4; 0] ([_; 0] ++ b)); [by apply (decodes_u16 4)|]. cbv beta.
  eapply (decodes_bind _ _ [_] ([0] ++ b)); [by apply (decodes_u8 SM_DATA_VERSION)|]. cbv beta.
  eapply (decodes_bind _ _ [0] b); [by apply (decodes_u8 0)|]. cbv beta.
  eapply (decodes_bind _ _ [] b); [by apply decodes_lift|]. cbv beta.
  eapply decodes_bind_pure; [exact (read_ok _ Hv)| |by rewrite app_nil_r]. destruct v. apply decodes_ret.
Qed.
Next Obligation.
  unfold read at 1, codec_SMVersionSelOpaque.
  do 5 (eapply reads_bind; [first [apply reads_u8 | apply reads_u16]|intros ? _]).
  eapply reads_bind; [apply reads_ok_or|]. intros id _. eapply reads_bind; [apply read_safe|]. intros v Hv.
  apply reads_if; intros _; [apply reads_throw|]. by apply reads_ret.
Qed.

Lemma padding_bounds n : 0 ≤ padding n < 4.
Proof.
  unfold padding. change 3 with (Z.ones 2). rewrite land_low by done. change (2 ^ 2) with 4.
  pose proof (Z.mod_pos_bound n 4). destruct (Z.eqb_spec (n mod 4) 0); cbn; lia.
Qed.
Definition ver_list_bytes (v : SMSupportedVerListOpaque) : list Z :=
  let l := secured_message_version_list v in
  [DMTF_ID; DMTF_VENDOR_LEN] ++ le_bytes 2 (3 + 2 * version_count l) ++
  [SM_DATA_VERSION; 1] ++ bytes l ++ zeros (padding (7 + 2 * version_count l)).
Lemma len_version_list l : wf l → len (bytes (A:=SecuredMessageVersionList) l) = 1 + 2 * version_count l.
Proof.
  intros (Hn & vs & Hvs & Hl & _). unfold bytes at 1, codec_ok_SecuredMessageVersionList.
  rewrite Hvs, <- Hl, ztake_app, len_app, len_seq_versions. done.
Qed.
#[export] Program Instance codec_ok_SMSupportedVerListOpaque : CodecOk SMSupportedVerListOpaque :=
  {| wf v := wf (secured_message_version_list v); bytes := ver_list_bytes |}.
Next Obligation.
  intros v Hv. unfold ver_list_bytes. cbv zeta. rewrite !bytes_wf_app.
  split; [by apply is_byte_wf|]. split; [auto with wfb|]. split; [by apply is_byte_wf|].
  split; [exact (bytes_ok _ Hv)|auto with wfb].
Qed.
Next Obligation.
  intros v Hv. unfold encode at 1, codec_SMSupportedVerListOpaque, encodes, ver_list_bytes. cbv zeta.
  pose proof (len_version_list _ Hv) as Hl. set (l := secured_message_version_list v) in *.
  pose proof (padding_bounds (7 + 2 * version_count l)) as Hp.
  assert (1 + 1 + 2 + 1 + len (bytes SupportedVersionList) + len (bytes l) = 7 + 2 * version_count l) as Hc
    by (rewrite Hl; change (len (bytes SupportedVersionList)) with 1; lia).
  eapply writes_eq.
  - do 4 (eapply writes_bind; [first [apply writes_u8 | apply writes_u16]|]).
    eapply writes_bind; [by apply encode_ok|]. eapply writes_bind; [by apply encode_ok|].
    eapply writes_bind; [apply writes_prefix|]. apply writes_ret.
  - rewrite Hc, ztake_all by (rewrite len_zeros; lia). by list_norm.
  - rewrite Hc, ztake_all by (rewrite len_zeros; lia). change (len (bytes SupportedVersionList)) with 1. zlia.
Qed.
Next Obligation.
  intros v Hv. assert (0 ≤ version_count (secured_message_version_list v) ≤ 3) as Hn by apply Hv.
  unfold read at 1, codec_SMSupportedVerListOpaque, ver_list_bytes. cbv zeta.
  pose proof (padding_bounds (7 + 2 * version_count (secured_message_version_list v))) as Hp.
  set (l := secured_message_version_list v) in *. set (p := zeros _). set (b := bytes l). set (n := le_bytes 2 _).
  eapply (decodes_bind _ _ [_] ([_] ++ n ++ [_; 1] ++ b ++ p)); [by apply (decodes_u8 DMTF_ID)|]. cbv beta.
  eapply (decodes_bind _ _ [_] (n ++ [_; 1] ++ b ++ p)); [by apply (decodes_u8 DMTF_VENDOR_LEN)|]. cbv beta.
  eapply decodes_bind; [apply decodes_u16; unfold in_width; lia|]. cbv beta.
  eapply (decodes_bind _ _ [_] ([1] ++ b ++ p)); [by apply (decodes_u8 SM_DATA_VERSION)|]. cbv beta.
  eapply (decodes_bind _ _ [1] (b ++ p)); [by apply (decodes_u8 1)|]. cbv beta.
  eapply (decodes_bind _ _ [] (b ++ p)); [by apply decodes_lift|]. cbv beta.
  eapply decodes_bind; [exact (read_ok _ Hv)|]. cbv beta.
  replace (_ || _) with false by (by rewrite !Z.eqb_refl). cbv iota.
  fold l.  unfold add_checked. replace (_ <? 2 ^ 8) with true by lia.
  eapply (decodes_bind _ _ [] p); [by apply decodes_lift|]. cbv beta.
  eapply decodes_bind_pure; [apply decodes_skip; [apply bytes_wf_zeros|apply length_replicate]| |by rewrite app_nil_r].
  destruct v. apply decodes_ret.
Qed.
Next Obligation.
  unfold read at 1, codec_SMSupportedVerListOpaque.
  do 5 (eapply reads_bind; [first [apply reads_u8 | apply reads_u16]|intros ? _]).
  eapply reads_bind; [apply reads_ok_or|]. intros id _. eapply reads_bind; [apply read_safe|]. intros l Hl.
  apply reads_if; intros _; [apply reads_throw|]. assert (0 ≤ version_count l ≤ 3) as Hn by apply Hl.
  unfold add_checked. replace (_ <? 2 ^ 8) with true by lia.
  eapply reads_bind; [by apply (reads_lift (Ok _) (λ _, True))|]. intros n _.
  eapply reads_bind; [apply reads_skip|]. intros _ _. by apply reads_ret.
Qed.

(** *** Opaque data *)
Definition opaque_header_bytes (c : SpdmContext) : list Z :=
  if version_leb SpdmVersion12 (spdm_version_sel (negotiate_info c)) then bytes FM1OpaqueDataHeader_
  else bytes GeneralOpaqueDataHeader_.
Definition opaque_format_ok (c : SpdmContext) : bool :=
  negb (version_leb SpdmVersion12 (spdm_version_sel (negotiate_info c))) || fmt1_selected c.

Section OpaqueHeader.
Context (c : SpdmContext).
Lemma encode_opaque_header_ok :
  opaque_format_ok c = true → encodes SPDM_STATUS_BUFFER_FULL (encode_opaque_header c) (opaque_header_bytes c).
Proof.
  unfold opaque_format_ok, encode_opaque_header, opaque_header_bytes. case_match; cbn [negb orb].
  - intros ->. exact (enc_writes FM1OpaqueDataHeader_ I).
  - intros _. exact (enc_writes GeneralOpaqueDataHeader_ I).
Qed.
Lemma read_opaque_header_ok :
  opaque_format_ok c = true → decodes (read_opaque_header c) (opaque_header_bytes c) tt.
Proof.
  unfold opaque_format_ok, read_opaque_header, opaque_header_bytes. case_match; cbn [negb orb].
  - intros ->. eapply decodes_bind_pure; [exact (read_ok FM1OpaqueDataHeader_ I)|apply decodes_ret|done].
  - intros _. eapply decodes_bind_pure; [exact (read_ok GeneralOpaqueDataHeader_ I)|apply decodes_ret|done].
Qed.
Lemma read_opaque_header_safe : reads (read_opaque_header c) (λ _, opaque_format_ok c = true).
Proof.
  unfold opaque_format_ok, read_opaque_header. case_match; cbn [negb orb].
  - case_match; [|apply reads_throw]. eapply reads_bind; [apply reads_headers|]. intros ? _. by apply reads_ret.
  - eapply reads_bind; [apply reads_headers|]. intros ? _. by apply reads_ret.
Qed.
Lemma opaque_header_wf : bytes_wf (opaque_header_bytes c).
Proof. unfold opaque_header_bytes. case_match; by apply bytes_ok. Qed.
Lemma len_opaque_header : len (opaque_header_bytes c) ≤ 8.
Proof. unfold opaque_header_bytes. by case_match. Qed.
End OpaqueHeader.

Program Definition sm_opaque_codec_ok {A} `{CodecOk A} `{!SpdmCodec A}
    (Hencode : ∀ c (a : A), spdm_encode c a =
       (let* s0 := encode_opaque_header c in let* s1 := enc a in ret (s0 + s1)))
    (Hread : ∀ c, spdm_read (A:=A) c = (let* _ := read_opaque_header c in read)) : SpdmCodecOk A :=
  {| sready _ := True;
     swf c a := opaque_format_ok c = true ∧ wf a;
     sgood c a := opaque_format_ok c = true ∧ wf a;
     sbytes c a := opaque_header_bytes c ++ bytes a |}.
Next Obligation.
  intros A ???? ? c a [_ Ha]. apply bytes_wf_app. split; [apply opaque_header_wf|by apply bytes_ok].
Qed.
Next Obligation.
  intros A ??? He ? c a [Hc Ha]. rewrite He. unfold encodes. eapply writes_eq.
  - eapply writes_bind; [by apply encode_opaque_header_ok|].
    eapply writes_bind; [by apply enc_writes|apply writes_ret].
  - by list_norm.
  - zlia.
Qed.
Next Obligation.
  intros A ???? Hr c a [Hc Ha]. rewrite Hr. eapply decodes_bind; [by apply read_opaque_header_ok|].
  by apply read_ok.
Qed.
Next Obligation.
  intros A ???? Hr c _. rewrite Hr. eapply reads_bind; [apply read_opaque_header_safe|]. intros u Hc.
  eapply reads_weaken; [apply read_safe|]. auto.
Qed.
#[export] Instance spdm_codec_ok_SMVersionSelOpaque : SpdmCodecOk SMVersionSelOpaque :=
  sm_opaque_codec_ok (A:=SMVersionSelOpaque) (λ _ _, eq_refl) (λ _, eq_refl).
#[export] Instance spdm_codec_ok_SMSupportedVerListOpaque : SpdmCodecOk SMSupportedVerListOpaque :=
  sm_opaque_codec_ok (A:=SMSupportedVerListOpaque) (λ _ _, eq_refl) (λ _, eq_refl).

#[export] Program Instance spdm_codec_ok_opaque : SpdmCodecOk SpdmOpaqueStruct :=
  {| sready _ := True; swf _ := sens_wf; sgood _ := sens_wf; sbytes _ o := bytes o |}.
Next Obligation. intros c o Ho. exact (bytes_ok o Ho). Qed.
Next Obligation.
  intros c o Ho. unfold spdm_encode, spdm_codec_opaque, encodes, bytes, codec_ok_sens, content. eapply writes_eq.
  - eapply writes_bind; [apply enc_u16|]. eapply writes_bind; [apply enc_prefix_writes|apply writes_ret].
  - by list_norm.
  - zlia.
Qed.
Next Obligation. intros c o Ho. exact (read_ok o Ho). Qed.
Next Obligation. intros c _. exact (read_safe (A:=SpdmOpaqueStruct)). Qed.

Section EmbedLaws.
Context {A : Type} `{SpdmCodecOk A}.
Lemma from_sm_opaque_ok c (a : A) :
  swf c a → len (sbytes c a) ≤ MAX_SPDM_OPAQUE_SIZE → from_sm_opaque c a = Ok (sens_of (sbytes c a)).
Proof.
  intros Ha Hl. unfold from_sm_opaque. unfold MAX_SPDM_OPAQUE_SIZE in *. pose proof (len_nonneg (sbytes c a)).
  destruct (spdm_encode_ok c a Ha (Writer.init (zeros 1024))) as [He _].
  { unfold writer_wf. cbn. done. }
  rewrite He by (unfold Writer.left; cbn [w_buf w_offs Writer.init]; rewrite len_zeros; lia). cbn [obind].
  rewrite wrap_small by (unfold in_width; lia). unfold put. cbn [w_buf w_offs Writer.init].
  by rewrite splice_zeros.
Qed.
Lemma to_sm_opaque_of c (a : A) :
  swf c a → len (sbytes c a) ≤ MAX_SPDM_OPAQUE_SIZE → to_sm_opaque c (sens_of (sbytes c a)) = Ok a.
Proof.
  intros Ha Hl. unfold to_sm_opaque. pose proof (len_nonneg (sbytes c a)).
  assert (sens_wf (k:=KOpaque) (sens_of (sbytes c a))) as Hw
    by (apply sens_of_wf; [done|by apply sbytes_ok]).
  pose proof (sens_as_ref_ok (E:=SpdmStatus) _ Hw) as Hs. unfold sens_as_ref in Hs. rewrite Hs.
  rewrite content_of. cbn [obind]. unfold spdm_read_bytes.
  rewrite (spdm_read_ok c a Ha _ []); [done|by apply reader_init_wf, sbytes_ok|].
  cbn. by rewrite zdrop_0, app_nil_r.
Qed.
Lemma to_sm_opaque_safe c o :
  sready (A:=A) c → sens_wf o →
  to_sm_opaque (A:=A) c o ≠ Panic ∧ ∀ a, to_sm_opaque c o = Ok a → sgood c a.
Proof.
  intros Hc Ho. unfold to_sm_opaque. pose proof (sens_as_ref_ok (E:=SpdmStatus) o Ho) as Hs.
  unfold sens_as_ref in Hs. rewrite Hs. cbn [obind]. unfold spdm_read_bytes.
  destruct Ho as (_ & _ & Hb).
  pose proof (spdm_read_safe (A:=A) c Hc (Reader.init (content o)) (reader_init_wf _ Hb)) as Hr.
  destruct (spdm_read c _) as [[a| |] r]; destruct Hr as (Hnp & _ & _ & HP); cbn; [|done|done].
  split; [done|]. intros ? [= <-]. by apply HP.
Qed.
End EmbedLaws.
