(* ===== verification/MsgLib.v ===== *)
(** * Building blocks of the message codecs

    The shapes the codecs of src/spdmlib/src/message share: a field that is
    present under a condition, a check that rejects, the front of an array;
    with their laws and the tactics that run through a message codec. *)

From S2P Require Import Prelude Codec Status Bitflags Algo DataTypes Structs Version Session.
From S2P Require Import ContextData SpdmCodec.

(** ** Conditions on the context *)
Definition ver_ge (c : SpdmContext) (v : SpdmVersion) : bool :=
  version_leb v (spdm_version_sel (negotiate_info c)).
Definition req_cap (c : SpdmContext) (f : SpdmRequestCapabilityFlags) : bool :=
  contains (req_capabilities_sel (negotiate_info c)) f.
Definition rsp_cap (c : SpdmContext) (f : SpdmResponseCapabilityFlags) : bool :=
  contains (rsp_capabilities_sel (negotiate_info c)) f.

Lemma ver_ge_trans c v w : version_leb w v = true → ver_ge c v = true → ver_ge c w = true.
Proof. unfold ver_ge, version_leb. rewrite !Z.leb_le. lia. Qed.

(** ** Shapes *)

(** [if b { return None }] *)
Definition reject (b : bool) : M Reader unit unit := if b then throw tt else ret tt.
(** [if b { cnt += m? }] and [if b { m? } else { d }] *)
Definition enc_when (b : bool) (m : M Writer SpdmStatus usize) : M Writer SpdmStatus usize :=
  if b then m else ret 0.
Definition read_when {A} (b : bool) (m : M Reader unit A) (d : A) : M Reader unit A :=
  if b then m else ret d.
(** A field that is zero when the condition does not hold. *)
Definition enc_or_zeros {A} `{Codec A} (b : bool) (a : A) (n : Z) : M Writer SpdmStatus usize :=
  if b then enc a else enc_zeros n.
Definition read_or_skip {A} `{Codec A} (b : bool) (n : Z) (d : A) : M Reader unit A :=
  if b then read else let* _ := skip (Z.to_nat n) in ret d.
(** [for x in l.iter().take(n) { cnt += f x }] and
    [for x in l.iter_mut().take(n) { *x = m? }] *)
Section Array.
Context {A : Type}.
Fixpoint enc_list (f : A → M Writer SpdmStatus usize) (l : list A) : M Writer SpdmStatus usize :=
  match l with
  | [] => ret 0
  | a :: l => let* s := f a in let* r := enc_list f l in ret (s + r)
  end.
Fixpoint read_front (m : M Reader unit A) (n : nat) (l : list A) : M Reader unit (list A) :=
  match n, l with
  | S n, _ :: l => let* a := m in let* r := read_front m n l in ret (a :: r)
  | _, l => ret l
  end.
End Array.

(** ** Specifications *)
Definition when_bytes (b : bool) (bs : list Z) : list Z := if b then bs else [].
Definition when_wf {A} (b : bool) (P : A → Prop) (d a : A) : Prop := if b then P a else a = d.
Lemma when_wf_refl {A} `{CodecOk A} b (a : A) : wf a → when_wf b wf a a.
Proof. by destruct b. Qed.
Definition or_zeros (b : bool) (bs : list Z) (n : Z) : list Z := if b then bs else zeros n.
Definition front {A} (n cap : Z) (d : A) (P : A → Prop) (l : list A) : Prop :=
  0 ≤ n ≤ cap ∧ ∃ vs, l = vs ++ replicate (Z.to_nat (cap - n)) d ∧ len vs = n ∧ Forall P vs.
Definition front_bytes {A} (n : Z) (f : A → list Z) (l : list A) : list Z := concat (f <$> ztake n l).

Lemma front_take {A} n cap (d : A) vs :
  len vs = n → ztake n (vs ++ replicate (Z.to_nat (cap - n)) d) = vs.
Proof. intros <-. apply ztake_app. Qed.
Lemma front_default {A} cap (d : A) P : 0 ≤ cap → front 0 cap d P (replicate (Z.to_nat cap) d).
Proof. intros. split; [lia|]. exists []. rewrite Z.sub_0_r. split_and!; [done..|constructor]. Qed.
(** [l[n] = x; n += 1] *)
Lemma zset_front {A} cap (d x : A) vs :
  len vs < cap →
  zset (vs ++ replicate (Z.to_nat (cap - len vs)) d) (len vs) x =
  Some ((vs ++ [x]) ++ replicate (Z.to_nat (cap - len (vs ++ [x]))) d).
Proof.
  intros Hl. pose proof (len_nonneg vs). rewrite zset_splice.
  2: { rewrite len_app. unfold len in *. rewrite length_replicate. lia. }
  f_equal. unfold splice. rewrite ztake_app, <- app_assoc. f_equal. cbn [app]. f_equal.
  change (len [x]) with 1. rewrite len_app. change (len [x]) with 1.
  unfold zdrop, len. rewrite drop_app_ge by lia. rewrite drop_replicate. f_equal. unfold len in *. lia.
Qed.

(** ** Laws *)
Section Laws.
Context {A : Type}.
Implicit Types m : M Reader unit A.

Lemma decodes_reject b (k : unit → M Reader unit A) bs a :
  b = false → decodes (k tt) bs a → decodes (bind (reject b) k) bs a.
Proof. by intros ->. Qed.
Lemma decodes_lift_ok {B} o (x : B) (k : B → M Reader unit A) bs a :
  o = Ok x → decodes (k x) bs a → decodes (bind (lift o) k) bs a.
Proof. by intros ->. Qed.
Lemma decodes_last {B} (m : M Reader unit B) (k : B → M Reader unit A) b bs a :
  decodes m bs b → decodes (k b) [] a → decodes (bind m k) bs a.
Proof. intros Hm Hk. rewrite <- (app_nil_r bs). by eapply decodes_bind. Qed.
Lemma decodes_when b m d a bs :
  (b = true → decodes m bs a) → (b = false → a = d) → decodes (read_when b m d) (when_bytes b bs) a.
Proof. destruct b; cbn; [auto|]. intros _ ->; [apply decodes_ret|done]. Qed.

Lemma reads_reject b : reads (reject b) (λ _, b = false).
Proof. destruct b; [apply reads_throw|by apply reads_ret]. Qed.
Lemma reads_when b m d (P : A → Prop) : (b = true → reads m P) → reads (read_when b m d) (when_wf b P d).
Proof. destruct b; cbn; [auto|]. intros _. by apply reads_ret. Qed.
End Laws.
Lemma encodes_when b m bs :
  (b = true → encodes SPDM_STATUS_BUFFER_FULL m bs) →
  encodes SPDM_STATUS_BUFFER_FULL (enc_when b m) (when_bytes b bs).
Proof. destruct b; cbn; [auto|]. intros _. apply writes_ret. Qed.
Lemma when_bytes_wf b bs : (b = true → bytes_wf bs) → bytes_wf (when_bytes b bs).
Proof. destruct b; [auto|]. intros _. constructor. Qed.

Section LawsCodec.
Context {A : Type} `{CodecOk A}.
Lemma decodes_when_read b (d a : A) :
  when_wf b wf d a → decodes (read_when b read d) (when_bytes b (bytes a)) a.
Proof. intros Ha. apply decodes_when; intros ->; [by apply read_ok|done]. Qed.
Lemma reads_when_read b (d : A) : reads (read_when b read d) (when_wf b wf d).
Proof. apply reads_when. intros _. apply read_safe. Qed.
Lemma encodes_when_enc b (d a : A) :
  when_wf b wf d a → encodes SPDM_STATUS_BUFFER_FULL (enc_when b (enc a)) (when_bytes b (bytes a)).
Proof. intros Ha. apply encodes_when. intros ->. by apply enc_writes. Qed.
Lemma when_bytes_ok b (d a : A) : when_wf b wf d a → bytes_wf (when_bytes b (bytes a)).
Proof. intros Ha. apply when_bytes_wf. intros ->. by apply bytes_ok. Qed.

Lemma decodes_or_skip b n (d a : A) :
  when_wf b wf d a → decodes (read_or_skip b n d) (or_zeros b (bytes a) n) a.
Proof.
  unfold read_or_skip, or_zeros. destruct b; cbn [when_wf]; [apply read_ok|]. intros ->.
  eapply decodes_last; [|apply decodes_ret]. apply decodes_skip; [apply bytes_wf_zeros|apply length_replicate].
Qed.
Lemma reads_or_skip b n (d : A) : reads (read_or_skip b n d) (when_wf b wf d).
Proof.
  unfold read_or_skip. destruct b; [apply read_safe|]. eapply reads_bind; [apply reads_skip|]. intros _ _. by apply reads_ret.
Qed.
Lemma encodes_or_zeros b n (d a : A) :
  0 ≤ n → when_wf b wf d a → encodes SPDM_STATUS_BUFFER_FULL (enc_or_zeros b a n) (or_zeros b (bytes a) n).
Proof.
  intros Hn. unfold enc_or_zeros, or_zeros. destruct b; [apply enc_writes|]. intros _.
  unfold encodes. rewrite len_zeros by done. by apply enc_zeros_writes.
Qed.
Lemma or_zeros_ok b n (d a : A) : when_wf b wf d a → bytes_wf (or_zeros b (bytes a) n).
Proof. unfold or_zeros. destruct b; [apply bytes_ok|]. intros _. apply bytes_wf_zeros. Qed.

Lemma encodes_when_or_zeros b b' n (d a : A) :
  0 ≤ n → when_wf b (when_wf b' wf d) d a →
  encodes SPDM_STATUS_BUFFER_FULL (enc_when b (enc_or_zeros b' a n)) (when_bytes b (or_zeros b' (bytes a) n)).
Proof. intros Hn Ha. apply encodes_when. intros ->. by eapply encodes_or_zeros. Qed.
Lemma decodes_when_or_skip b b' n (d a : A) :
  when_wf b (when_wf b' wf d) d a →
  decodes (read_when b (read_or_skip b' n d) d) (when_bytes b (or_zeros b' (bytes a) n)) a.
Proof. intros Ha. apply decodes_when; intros ->; [by apply decodes_or_skip|done]. Qed.
Lemma reads_when_or_skip b b' n (d : A) :
  reads (read_when b (read_or_skip b' n d) d) (when_wf b (when_wf b' wf d) d).
Proof. apply reads_when. intros _. apply reads_or_skip. Qed.
Lemma when_or_zeros_ok b b' n (d a : A) :
  when_wf b (when_wf b' wf d) d a → bytes_wf (when_bytes b (or_zeros b' (bytes a) n)).
Proof. intros Ha. apply when_bytes_wf. intros ->. by eapply or_zeros_ok. Qed.
End LawsCodec.

(** A reserved byte. *)
Lemma writes_when_zero b :
  writes SPDM_STATUS_BUFFER_FULL (enc_when b (enc (0 : u8))) (when_bytes b [0]) (len (when_bytes b [0])).
Proof. apply encodes_when. intros _. apply enc_u8. Qed.
Lemma decodes_when_zero b : decodes (read_when b (read (A:=u8)) 0) (when_bytes b [0]) 0.
Proof. apply decodes_when; intros _; [by apply (decodes_u8 0)|done]. Qed.
Lemma when_zero_ok b : bytes_wf (when_bytes b [0]).
Proof. apply when_bytes_wf. intros _. by apply is_byte_wf. Qed.

Section LawsSpdm.
Context {A : Type} `{SpdmCodecOk A}.
Lemma decodes_when_spdm c b (d a : A) :
  when_wf b (swf c) d a → decodes (read_when b (spdm_read c) d) (when_bytes b (sbytes c a)) a.
Proof. intros Ha. apply decodes_when; intros ->; [by apply spdm_read_ok|done]. Qed.
Lemma reads_when_spdm c b (d : A) :
  (b = true → sready (A:=A) c) → reads (read_when b (spdm_read c) d) (when_wf b (sgood c) d).
Proof. intros Hc. apply reads_when. intros Hb. by apply spdm_read_safe, Hc. Qed.
Lemma encodes_when_spdm c b (d a : A) :
  when_wf b (swf c) d a →
  encodes SPDM_STATUS_BUFFER_FULL (enc_when b (spdm_encode c a)) (when_bytes b (sbytes c a)).
Proof. intros Ha. apply encodes_when. intros ->. by apply spdm_encode_ok. Qed.
Lemma when_sbytes_ok c b (d a : A) : when_wf b (swf c) d a → bytes_wf (when_bytes b (sbytes c a)).
Proof. intros Ha. apply when_bytes_wf. intros ->. by apply sbytes_ok. Qed.
End LawsSpdm.

Section ArrayLaws.
Context {A : Type} (f : A → M Writer SpdmStatus usize) (m : M Reader unit A) (g : A → list Z) (P : A → Prop).
Hypothesis Hf : ∀ a, P a → encodes SPDM_STATUS_BUFFER_FULL (f a) (g a).
Hypothesis Hm : ∀ a, P a → decodes m (g a) a.
Hypothesis Hr : reads m P.
Hypothesis Hg : ∀ a, P a → bytes_wf (g a).

Lemma encodes_list l : Forall P l → encodes SPDM_STATUS_BUFFER_FULL (enc_list f l) (concat (g <$> l)).
Proof using Hf.
  unfold encodes. induction 1 as [|a l Ha Hl IH]; [apply writes_ret|]. cbn [enc_list]. eapply writes_eq.
  - eapply writes_bind; [by apply Hf|]. eapply writes_bind; [exact IH|apply writes_ret].
  - by list_norm.
  - cbn. zlia.
Qed.
Lemma encodes_front n cap d l :
  front n cap d P l → encodes SPDM_STATUS_BUFFER_FULL (enc_list f (ztake n l)) (front_bytes n g l).
Proof using Hf. intros (Hn & vs & -> & Hl & Hw). unfold front_bytes. rewrite front_take by done. by apply encodes_list. Qed.
Lemma decodes_front_loop vs dead rest :
  Forall P vs → length dead = length vs → decodes (read_front m (length vs) (dead ++ rest)) (concat (g <$> vs)) (vs ++ rest).
Proof using Hm.
  intros Hw. revert dead. induction Hw as [|v vs Hv Hvs IH]; intros dead Hd.
  - apply nil_length_inv in Hd as ->. destruct rest; apply decodes_ret.
  - destruct dead as [|x dead]; [done|]. cbn [read_front length app]. cbn in Hd. cbn [fmap list_fmap concat].
    eapply decodes_bind; [by apply Hm|]. cbv beta. eapply decodes_last; [apply IH; lia|]. apply decodes_ret.
Qed.
Lemma decodes_front n cap d l :
  front n cap d P l → decodes (read_front m (Z.to_nat n) (replicate (Z.to_nat cap) d)) (front_bytes n g l) l.
Proof using Hm.
  intros (Hn & vs & -> & Hl & Hw). unfold front_bytes. rewrite front_take by done.
  replace (Z.to_nat n) with (length vs) by (unfold len in Hl; lia).
  replace (Z.to_nat cap) with (length vs + Z.to_nat (cap - n))%nat by (unfold len in Hl; lia).
  rewrite replicate_add. apply decodes_front_loop; [done|apply length_replicate].
Qed.
Lemma reads_front_loop n d rest :
  reads (read_front m n (replicate n d ++ rest)) (λ l, ∃ vs, l = vs ++ rest ∧ length vs = n ∧ Forall P vs).
Proof using Hr.
  induction n as [|n IH]; [destruct rest; apply reads_ret; by exists []|].
  cbn [replicate app read_front]. eapply reads_bind; [exact Hr|]. intros v Hv.
  eapply reads_bind; [exact IH|]. intros l (vs & -> & Hl & Hw). apply reads_ret. exists (v :: vs). cbn. auto.
Qed.
Lemma reads_front n cap d :
  0 ≤ n ≤ cap → reads (read_front m (Z.to_nat n) (replicate (Z.to_nat cap) d)) (front n cap d P).
Proof using Hr.
  intros Hn. replace (Z.to_nat cap) with (Z.to_nat n + Z.to_nat (cap - n))%nat by lia. rewrite replicate_add.
  eapply reads_weaken; [apply reads_front_loop|]. intros l (vs & -> & Hl & Hw).
  split; [done|]. exists vs. unfold len. split_and!; [done|lia|done].
Qed.
Lemma front_bytes_wf n cap d l : front n cap d P l → bytes_wf (front_bytes n g l).
Proof using Hg.
  intros (Hn & vs & -> & Hl & Hw). unfold front_bytes. rewrite front_take by done.
  apply Forall_concat, Forall_fmap. eapply Forall_impl; [exact Hw|]. intros v Hv. exact (Hg v Hv).
Qed.
End ArrayLaws.

(** The front of an array of structures, under a condition. *)
Section ArrayCodec.
Context {A : Type} `{CodecOk A} (n cap : Z) (d : A).
Let arr := replicate (Z.to_nat cap) d.
Lemma encodes_when_front b l :
  when_wf b (front n cap d wf) arr l →
  encodes SPDM_STATUS_BUFFER_FULL (enc_when b (enc_list enc (ztake n l))) (when_bytes b (front_bytes n bytes l)).
Proof.
  intros Hl. apply encodes_when. intros ->. exact (encodes_front enc bytes wf (λ a Ha, enc_writes a Ha) _ _ _ _ Hl).
Qed.
Lemma decodes_when_front b l :
  when_wf b (front n cap d wf) arr l →
  decodes (read_when b (read_front read (Z.to_nat n) arr) arr) (when_bytes b (front_bytes n bytes l)) l.
Proof.
  intros Hl. apply decodes_when; intros ->; [|done]. exact (decodes_front read bytes wf (λ a Ha, read_ok a Ha) _ _ _ _ Hl).
Qed.
Lemma reads_when_front b :
  0 ≤ n ≤ cap → reads (read_when b (read_front read (Z.to_nat n) arr) arr) (when_wf b (front n cap d wf) arr).
Proof. intros Hn. apply reads_when. intros _. by apply (reads_front read wf read_safe). Qed.
Lemma when_front_ok b l :
  when_wf b (front n cap d wf) arr l → bytes_wf (when_bytes b (front_bytes n bytes l)).
Proof.
  intros Hl. apply when_bytes_wf. intros ->. exact (front_bytes_wf bytes wf (λ a Ha, bytes_ok a Ha) _ _ _ _ Hl).
Qed.
End ArrayCodec.
Section ArraySpdm.
Context {A : Type} `{SpdmCodecOk A} (c : SpdmContext) (n cap : Z) (d : A).
Lemma encodes_spdm_front l :
  front n cap d (swf c) l →
  encodes SPDM_STATUS_BUFFER_FULL (enc_list (spdm_encode c) (ztake n l)) (front_bytes n (sbytes c) l).
Proof. exact (encodes_front _ _ _ (λ a Ha, spdm_encode_ok c a Ha) _ _ _ _). Qed.
Lemma decodes_spdm_front l :
  front n cap d (swf c) l →
  decodes (read_front (spdm_read c) (Z.to_nat n) (replicate (Z.to_nat cap) d)) (front_bytes n (sbytes c) l) l.
Proof. exact (decodes_front _ _ _ (λ a Ha, spdm_read_ok c a Ha) _ _ _ _). Qed.
Lemma reads_spdm_front :
  sready (A:=A) c → 0 ≤ n ≤ cap →
  reads (read_front (spdm_read c) (Z.to_nat n) (replicate (Z.to_nat cap) d)) (front n cap d (sgood c)).
Proof. intros Hc. exact (reads_front _ _ (spdm_read_safe c Hc) _ _ _). Qed.
Lemma spdm_front_ok l : front n cap d (swf c) l → bytes_wf (front_bytes n (sbytes c) l).
Proof. exact (front_bytes_wf _ _ (λ a Ha, sbytes_ok c a Ha) _ _ _ _). Qed.
End ArraySpdm.

(** ** Running through a message codec

    The hypotheses about the fields are in the context; the database [msg]
    holds what is known of fields with a layout of their own. *)
Create HintDb msg.
#[export] Hint Resolve writes_when_zero decodes_when_zero when_zero_ok : msg.
Lemma bytes_wf_u8 x : in_width 8 x → bytes_wf [x].
Proof. intros Hx. constructor; [exact Hx|constructor]. Qed.

Ltac side := solve [assumption | done | lia].
Ltac enc_field :=
  lazymatch goal with
  | |- writes _ (@enc u8 _ _) _ _ => apply enc_u8
  | |- writes _ (@enc u16 _ _) _ _ => apply enc_u16
  | |- writes _ (@enc u24 _ _) _ _ => apply enc_u24
  | |- writes _ (@enc u32 _ _) _ _ => apply enc_u32
  | |- writes _ (enc _) _ _ => eapply enc_writes; eassumption
  | |- writes _ (enc_zeros _) _ _ => apply enc_zeros_writes; lia
  | |- writes _ (enc_prefix _ _) _ _ => apply enc_prefix_writes
  | |- writes _ (spdm_encode _ _) _ _ => eapply spdm_encode_ok; eassumption
  | |- writes _ (lift _) _ _ => apply writes_lift
  | |- _ =>
      solve [ eassumption
            | eapply encodes_when_enc; eassumption
            | eapply encodes_when_spdm; eassumption
            | eapply encodes_or_zeros; [lia|eassumption]
            | eapply encodes_when_or_zeros; [lia|eassumption]
            | eapply encodes_when_front; eassumption
            | eapply encodes_spdm_front; eassumption
            | eauto with msg ]
  end.
Ltac msg_encodes :=
  unfold encodes; eapply writes_eq;
  [ repeat (eapply writes_bind; [enc_field|]); apply writes_ret | by list_norm | zlia ].

Ltac dec_field :=
  lazymatch goal with
  | |- decodes (@read u8 _) _ _ => apply decodes_u8; side
  | |- decodes (@read u16 _) _ _ => apply decodes_u16; side
  | |- decodes (@read u24 _) _ _ => apply decodes_u24; side
  | |- decodes (@read u32 _) _ _ => apply decodes_u32; side
  | |- decodes read _ _ => eapply read_ok; eassumption
  | |- decodes (skip _) _ _ => apply decodes_skip; [auto with wfb|done]
  | |- decodes (spdm_read _) _ _ => eapply spdm_read_ok; eassumption
  | |- _ =>
      solve [ eassumption
            | eapply decodes_when_read; eassumption
            | eapply decodes_when_spdm; eassumption
            | eapply decodes_or_skip; eassumption
            | eapply decodes_when_or_skip; eassumption
            | eapply decodes_padded; eassumption
            | eapply decodes_when_front; eassumption
            | eapply decodes_spdm_front; eassumption
            | eauto with msg ]
  end.
Ltac dec_step :=
  lazymatch goal with
  | |- decodes (bind (reject _) _) _ _ => apply decodes_reject; [side|cbv beta zeta]
  | |- decodes (bind (lift _) _) _ _ =>
      eapply decodes_lift_ok; [solve [eassumption | reflexivity]|cbv beta zeta]
  | |- decodes (bind _ _) (_ ++ _) _ => eapply decodes_bind; [dec_field|cbv beta zeta]
  | |- decodes (bind _ _) _ _ => eapply decodes_last; [dec_field|cbv beta zeta]
  end.
Ltac msg_decodes :=
  repeat dec_step; try (eapply decodes_eq; [apply decodes_ret|reflexivity|]).

Ltac rd_field :=
  solve [ apply reads_u8 | apply reads_u16 | apply reads_u24 | apply reads_u32
        | apply reads_reject | apply reads_skip | apply reads_ok_or
        | eapply read_safe
        | eapply spdm_read_safe; first [assumption | exact I]
        | apply reads_when_read
        | apply reads_when_spdm; first [by intros _ | intros _; exact I]
        | apply reads_when_front; side
        | apply reads_spdm_front; [first [assumption | exact I]|side]
        | apply reads_or_skip
        | apply reads_when_or_skip
        | eauto with msg ].
Ltac rd_step :=
  lazymatch goal with
  | |- reads (bind _ _) _ => eapply reads_bind; [rd_field|intros ? ?; cbv beta zeta in *]
  end.
Ltac msg_reads := repeat rd_step; try apply reads_ret.

Ltac bytes_field :=
  solve [ eassumption | apply bytes_wf_u8; side | apply bytes_wf_le_bytes | apply bytes_wf_zeros
        | eapply bytes_ok; eassumption
        | eapply sbytes_ok; eassumption
        | eapply when_bytes_ok; eassumption
        | eapply when_sbytes_ok; eassumption
        | eapply or_zeros_ok; eassumption
        | eapply when_or_zeros_ok; eassumption
        | eapply when_front_ok; eassumption
        | eapply spdm_front_ok; eassumption
        | eauto with wfb | eauto with msg ].
Ltac msg_bytes := rewrite ?bytes_wf_app; split_and!; bytes_field.
(** What the reader checked is what is claimed. *)
Ltac msg_post := cbv zeta; repeat (split; [assumption|]); assumption.
