(* ===== verification/MsgNegotiate.v ===== *)
(** * Negotiation messages

    Models src/spdmlib/src/message/version.rs, capability.rs and algorithm.rs:
    the payloads of GET_VERSION, VERSION, GET_CAPABILITIES, CAPABILITIES,
    NEGOTIATE_ALGORITHMS and ALGORITHMS, their codecs and the checks the
    readers make.  Proved: the contract of every codec. *)

From S2P Require Import Prelude Codec Status Bitflags Algo DataTypes Structs Version Session.
From S2P Require Import ContextData SpdmCodec MsgLib.

(** ** GET_VERSION *)
Inductive SpdmGetVersionRequestPayload := mkGetVersion.
#[export] Instance spdm_codec_get_version : SpdmCodec SpdmGetVersionRequestPayload :=
  {| spdm_encode _ _ := let* _ := enc (0 : u8) in let* _ := enc (0 : u8) in ret 2;
     spdm_read _ := let* _ := read (A:=u8) in let* _ := read (A:=u8) in ret mkGetVersion |}.

(** ** VERSION *)
Record SpdmVersionStruct := mkVersionStruct { vs_update : u8; vs_version : SpdmVersion }.
#[export] Instance codec_SpdmVersionStruct : Codec SpdmVersionStruct :=
  {| encode v :=
       let* s0 := encode (vs_update v) in
       let* s1 := encode (vs_version v) in
       ret (s0 + s1);
     read :=
       let* update := read (A:=u8) in
       let* version := read in
       ret (mkVersionStruct update version) |}.
Definition SpdmVersionStruct_default : SpdmVersionStruct := mkVersionStruct 0 SpdmVersion10.

Record SpdmVersionResponsePayload := mkVersionResponse {
  version_number_entry_count : u8;
  versions : list SpdmVersionStruct;
}.
(** [version as usize]: the position in the declaration. *)
Definition version_index (v : SpdmVersion) : usize := version_u8 v - 0x10.
(** The loop over the entries: [seen] is [version_exist_map], [found] holds
    [versions[..version_count]]. *)
Fixpoint collect_versions (n : nat) (i : Z) (rest : list Z) (seen : list u8) (found : list SpdmVersionStruct) :
    outcome unit (list SpdmVersionStruct) :=
  match n with
  | O => Ok found
  | S n =>
      let! tail := or_panic (slice rest (i * 2) (len rest)) in
      match fst (read (A:=SpdmVersionStruct) (Reader.init tail)) with
      | Ok ver =>
          let! x := or_panic (znth seen (version_index (vs_version ver))) in
          if x =? 0 then
            let! seen := or_panic (zset seen (version_index (vs_version ver)) 1) in
            if MAX_SPDM_VERSION_COUNT <=? len found then Panic
            else collect_versions n (i + 1) rest seen (found ++ [ver])
          else collect_versions n (i + 1) rest seen found
      | Err _ =>
          let! b := or_panic (znth rest (i * 2 + 1)) in
          if b <? 0x10 then Err tt else collect_versions n (i + 1) rest seen found
      | Panic => Panic
      end
  end.
Definition version_array (l : list SpdmVersionStruct) : list SpdmVersionStruct :=
  l ++ replicate (Z.to_nat (MAX_SPDM_VERSION_COUNT - len l)) SpdmVersionStruct_default.
#[export] Instance spdm_codec_version : SpdmCodec SpdmVersionResponsePayload :=
  {| spdm_encode _ v :=
       let* s0 := enc (0 : u8) in
       let* s1 := enc (0 : u8) in
       let* s2 := enc (0 : u8) in
       let* s3 := enc (version_number_entry_count v) in
       let* s4 := enc_list enc (ztake (version_number_entry_count v) (versions v)) in
       ret (s0 + s1 + s2 + s3 + s4);
     spdm_read _ :=
       let* _ := read (A:=u8) in
       let* _ := read (A:=u8) in
       let* _ := read (A:=u8) in
       let* count := read (A:=u8) in
       let* _ := reject (count =? 0) in
       let* rest := Reader.take (count * 2) in
       let* found := lift (collect_versions (Z.to_nat count) 0 rest (zeros MAX_SPDM_VERSION_COUNT) []) in
       ret (mkVersionResponse (len found) (version_array found)) |}.

(** ** GET_CAPABILITIES *)
Record SpdmGetCapabilitiesRequestPayload := mkGetCapabilities {
  gc_ct_exponent : u8;
  gc_flags : SpdmRequestCapabilityFlags;
  gc_data_transfer_size : u32;
  gc_max_spdm_msg_size : u32;
  gc_ex_flags : SpdmRequestCapabilityExFlags;
}.
Section RequestFlags.
Import SpdmRequestCapabilityFlags.
(** The conditions under which the flags are refused, one per [return None]. *)
Definition req_flags_bad (c : SpdmContext) (flags : SpdmRequestCapabilityFlags) : bool :=
  let has := contains flags in
  has PSK_RSVD
  || (if has KEY_EX_CAP || has PSK_CAP then negb (has MAC_CAP)
      else (has MAC_CAP || has ENCRYPT_CAP || has HANDSHAKE_IN_THE_CLEAR_CAP || has HBEAT_CAP || has KEY_UPD_CAP)
           || (ver_ge c SpdmVersion13 && has EVENT_CAP))
  || (negb (has KEY_EX_CAP) && has PSK_CAP && has HANDSHAKE_IN_THE_CLEAR_CAP)
  || (if has CERT_CAP || has PUB_KEY_ID_CAP then
        (has CERT_CAP && has PUB_KEY_ID_CAP) || (negb (has CHAL_CAP) && negb (has KEY_EX_CAP))
      else (has CHAL_CAP || has MUT_AUTH_CAP) || (ver_ge c SpdmVersion13 && has EP_INFO_CAP_SIG))
  || (bool_decide (spdm_version_sel (negotiate_info c) = SpdmVersion11)
      && has MUT_AUTH_CAP && negb (has ENCAP_CAP))
  || (ver_ge c SpdmVersion13 &&
      ((has EP_INFO_CAP_NO_SIG && has EP_INFO_CAP_SIG)
       || (has MULTI_KEY_CAP_ONLY && has MULTI_KEY_CAP_CONN_SEL)
       || (has PUB_KEY_ID_CAP && (has MULTI_KEY_CAP_ONLY || has MULTI_KEY_CAP_CONN_SEL)))).
End RequestFlags.
Definition sizes_bad (data_transfer_size max_spdm_msg_size : u32) : bool :=
  (data_transfer_size <? 42) || (max_spdm_msg_size <? data_transfer_size).

#[export] Instance spdm_codec_get_capabilities : SpdmCodec SpdmGetCapabilitiesRequestPayload :=
  {| spdm_encode c v :=
       let v11 := ver_ge c SpdmVersion11 in
       let v12 := ver_ge c SpdmVersion12 in
       let* s0 := enc (0 : u8) in
       let* s1 := enc (0 : u8) in
       let* s2 := enc_when v11 (enc (0 : u8)) in
       let* s3 := enc_when v11 (enc (gc_ct_exponent v)) in
       let* s4 := enc_when v11 (enc_or_zeros (ver_ge c SpdmVersion14) (gc_ex_flags v) 2) in
       let* s5 := enc_when v11 (enc (gc_flags v)) in
       let* s6 := enc_when v12 (enc (gc_data_transfer_size v)) in
       let* s7 := enc_when v12 (enc (gc_max_spdm_msg_size v)) in
       ret (s0 + s1 + s2 + s3 + s4 + s5 + s6 + s7);
     spdm_read c :=
       let v11 := ver_ge c SpdmVersion11 in
       let v12 := ver_ge c SpdmVersion12 in
       let v13 := ver_ge c SpdmVersion13 in
       let* param1 := read_or_skip v13 1 (empty_flags : SpdmCapabilityParam1) in
       let* _ := reject (v13 && contains param1 SpdmCapabilityParam1.SUPPORTED_ALGOS_EXT_CAP &&
         negb (contains (cfg_rsp_capabilities (config_info c)) SpdmResponseCapabilityFlags.CHUNK_CAP)) in
       let* _ := read (A:=u8) in
       let* _ := read_when v11 (read (A:=u8)) 0 in
       let* ct_exponent := read_when v11 (read (A:=u8)) 0 in
       let* ex_flags := read_when v11 (read_or_skip (ver_ge c SpdmVersion14) 2 empty_flags) empty_flags in
       let* flags := read_when v11 read empty_flags in
       let* _ := reject (v11 && req_flags_bad c flags) in
       let* data_transfer_size := read_when v12 (read (A:=u32)) 0 in
       let* max_spdm_msg_size := read_when v12 (read (A:=u32)) 0 in
       let* _ := reject (v12 && sizes_bad data_transfer_size max_spdm_msg_size) in
       ret (mkGetCapabilities ct_exponent flags data_transfer_size max_spdm_msg_size ex_flags) |}.

(** ** CAPABILITIES *)
Record SpdmCapabilitiesResponsePayload := mkCapabilities {
  cap_ct_exponent : u8;
  cap_flags : SpdmResponseCapabilityFlags;
  cap_data_transfer_size : u32;
  cap_max_spdm_msg_size : u32;
  cap_ex_flags : SpdmResponseCapabilityExFlags;
}.
Section ResponseFlags.
Import SpdmResponseCapabilityFlags.
Definition rsp_flags_bad (c : SpdmContext) (flags : SpdmResponseCapabilityFlags) : bool :=
  let has := contains flags in
  (has MEAS_CAP_NO_SIG && has MEAS_CAP_SIG)
  || ((negb (has MEAS_CAP_NO_SIG) && negb (has MEAS_CAP_SIG)) && has MEAS_FRESH_CAP)
  || (if negb (ver_ge c SpdmVersion11) then
        if negb (has MEAS_CAP_SIG) then negb (Bool.eqb (has CERT_CAP) (has CHAL_CAP))
        else negb (has CERT_CAP)
      else
        (has PSK_CAP_WITHOUT_CONTEXT && has PSK_CAP_WITH_CONTEXT)
        || (if has KEY_EX_CAP || has PSK_CAP_WITHOUT_CONTEXT || has PSK_CAP_WITH_CONTEXT then negb (has MAC_CAP)
            else (has MAC_CAP || has ENCRYPT_CAP || has HANDSHAKE_IN_THE_CLEAR_CAP || has HBEAT_CAP || has KEY_UPD_CAP)
                 || (ver_ge c SpdmVersion13 && has EVENT_CAP))
        || (negb (has KEY_EX_CAP) && (has PSK_CAP_WITHOUT_CONTEXT || has PSK_CAP_WITH_CONTEXT)
            && has HANDSHAKE_IN_THE_CLEAR_CAP)
        || (if has CERT_CAP || has PUB_KEY_ID_CAP then
              (has CERT_CAP && has PUB_KEY_ID_CAP)
              || (negb (has CHAL_CAP) && negb (has KEY_EX_CAP) && negb (has MEAS_CAP_SIG))
            else (has CHAL_CAP || has KEY_EX_CAP || has MEAS_CAP_SIG || has MUT_AUTH_CAP)
                 || (ver_ge c SpdmVersion13 && has EP_INFO_CAP_SIG)))
  || (bool_decide (spdm_version_sel (negotiate_info c) = SpdmVersion11)
      && has MUT_AUTH_CAP && negb (has ENCAP_CAP))
  || (ver_ge c SpdmVersion12 &&
      ((negb (has CERT_CAP) && (has ALIAS_CERT_CAP || has SET_CERT_CAP))
       || (has CSR_CAP && negb (has SET_CERT_CAP))
       || (has CERT_INSTALL_RESET_CAP && negb (has CSR_CAP) && negb (has SET_CERT_CAP))))
  || (ver_ge c SpdmVersion13 &&
      ((has EP_INFO_CAP_NO_SIG && has EP_INFO_CAP_SIG)
       || (has MULTI_KEY_CAP_ONLY && has MULTI_KEY_CAP_CONN_SEL)
       || ((has MULTI_KEY_CAP_ONLY || has MULTI_KEY_CAP_CONN_SEL) &&
           (has PUB_KEY_ID_CAP || negb (has GET_KEY_PAIR_INFO_CAP))))).
End ResponseFlags.

#[export] Instance spdm_codec_capabilities : SpdmCodec SpdmCapabilitiesResponsePayload :=
  {| spdm_encode c v :=
       let v12 := ver_ge c SpdmVersion12 in
       let* s0 := enc (0 : u8) in
       let* s1 := enc (0 : u8) in
       let* s2 := enc (0 : u8) in
       let* s3 := enc (cap_ct_exponent v) in
       let* s4 := enc_or_zeros (ver_ge c SpdmVersion14) (cap_ex_flags v) 2 in
       let* s5 := enc (cap_flags v) in
       let* s6 := enc_when v12 (enc (cap_data_transfer_size v)) in
       let* s7 := enc_when v12 (enc (cap_max_spdm_msg_size v)) in
       ret (s0 + s1 + s2 + s3 + s4 + s5 + s6 + s7);
     spdm_read c :=
       let v12 := ver_ge c SpdmVersion12 in
       let* _ := read (A:=u8) in
       let* _ := read (A:=u8) in
       let* _ := read (A:=u8) in
       let* ct_exponent := read (A:=u8) in
       let* ex_flags := read_or_skip (ver_ge c SpdmVersion14) 2 empty_flags in
       let* flags := read in
       let* _ := reject (rsp_flags_bad c flags) in
       let* data_transfer_size := read_when v12 (read (A:=u32)) 0 in
       let* max_spdm_msg_size := read_when v12 (read (A:=u32)) 0 in
       let* _ := reject (v12 && sizes_bad data_transfer_size max_spdm_msg_size) in
       ret (mkCapabilities ct_exponent flags data_transfer_size max_spdm_msg_size ex_flags) |}.

(** ** Algorithm structures

    The loop over the structures: their types increase, and none comes
    twice. *)
Record AlgSeen := mkAlgSeen {
  current_type : SpdmAlgType;
  dhe_present : bool;
  aead_present : bool;
  req_asym_present : bool;
  key_schedule_present : bool;
  pqc_req_asym_present : bool;
  kem_present : bool;
}.
Definition AlgSeen_init : AlgSeen := mkAlgSeen (AlgTypeUnknown 0) false false false false false false.
Definition see_alg (s : AlgSeen) (alg : SpdmAlgStruct) : option AlgSeen :=
  if get_int (alg_type alg) <=? get_int (current_type s) then None else
  let 'mkAlgSeen _ dhe aead req_asym key_schedule pqc_req_asym kem := s in
  let t := alg_type alg in
  match alg_supported alg with
  | SpdmAlgoDhe _ => if dhe then None else Some (mkAlgSeen t true aead req_asym key_schedule pqc_req_asym kem)
  | SpdmAlgoAead _ => if aead then None else Some (mkAlgSeen t dhe true req_asym key_schedule pqc_req_asym kem)
  | SpdmAlgoReqAsym _ => if req_asym then None else Some (mkAlgSeen t dhe aead true key_schedule pqc_req_asym kem)
  | SpdmAlgoKeySchedule _ => if key_schedule then None else Some (mkAlgSeen t dhe aead req_asym true pqc_req_asym kem)
  | SpdmAlgoPqcReqAsym _ => if pqc_req_asym then None else Some (mkAlgSeen t dhe aead req_asym key_schedule true kem)
  | SpdmAlgoKem _ => if kem then None else Some (mkAlgSeen t dhe aead req_asym key_schedule pqc_req_asym true)
  | SpdmAlgoUnknown => None
  end.
(** Reads the front of an array of structures; [f] is the body of the loop
    after the read, on the variables of the loop. *)
Section AlgLoop.
Context {St : Type} (f : St → SpdmAlgStruct → option St).
Fixpoint read_algs (s : St) (n : nat) (l : list SpdmAlgStruct) : M Reader unit (St * list SpdmAlgStruct) :=
  match n, l with
  | S n, _ :: l =>
      let* alg := read (A:=SpdmAlgStruct) in
      let* s := lift (ok_or (f s alg) tt) in
      let* r := read_algs s n l in
      ret (fst r, alg :: snd r)
  | _, l => ret (s, l)
  end.
(** The loop without the reading. *)
Fixpoint run_algs (s : St) (l : list SpdmAlgStruct) : option St :=
  match l with
  | [] => Some s
  | alg :: l => match f s alg with Some s => run_algs s l | None => None end
  end.
End AlgLoop.
Definition MAX_SUPPORTED_ALG_STRUCTURE_COUNT : usize := 6.
Definition alg_struct_default : list SpdmAlgStruct :=
  replicate (Z.to_nat MAX_SUPPORTED_ALG_STRUCTURE_COUNT) SpdmAlgStruct_default.
(** The length field: [(2 + alg_fixed_count) * count], a product of bytes. *)
Definition alg_length {E} (v11 : bool) (base count : Z) : outcome E u16 :=
  if v11 then if 4 * count <? 2 ^ 8 then Ok (base + 4 * count) else Panic else Ok base.

(** ** NEGOTIATE_ALGORITHMS *)
Record SpdmNegotiateAlgorithmsRequestPayload := mkNegotiateAlgorithms {
  na_measurement_specification : SpdmMeasurementSpecification;
  na_other_params_support : SpdmAlgoOtherParams;
  na_base_asym_algo : SpdmBaseAsymAlgo;
  na_base_hash_algo : SpdmBaseHashAlgo;
  na_pqc_asym_algo : SpdmPqcAsymAlgo;
  na_mel_specification : SpdmMelSpecification;
  na_alg_struct_count : u8;
  na_alg_struct : list SpdmAlgStruct;
}.
#[export] Instance spdm_codec_negotiate_algorithms : SpdmCodec SpdmNegotiateAlgorithmsRequestPayload :=
  {| spdm_encode c v :=
       let v11 := ver_ge c SpdmVersion11 in
       let* s0 := enc_or_zeros v11 (na_alg_struct_count v) 1 in
       let* s1 := enc (0 : u8) in
       let* length := lift (alg_length v11 32 (na_alg_struct_count v)) in
       let* s2 := enc (length : u16) in
       let* s3 := enc (na_measurement_specification v) in
       let* s4 := enc_or_zeros (ver_ge c SpdmVersion12) (na_other_params_support v) 1 in
       let* s5 := enc (na_base_asym_algo v) in
       let* s6 := enc (na_base_hash_algo v) in
       let* s7 := enc_or_zeros (ver_ge c SpdmVersion14) (na_pqc_asym_algo v) 4 in
       let* s8 := enc_zeros 8 in
       let* s9 := enc (0 : u8) in
       let* s10 := enc (0 : u8) in
       let* s11 := enc (0 : u8) in
       let* s12 := enc_or_zeros (ver_ge c SpdmVersion13) (na_mel_specification v) 1 in
       let* s13 := enc_when v11 (enc_list enc (ztake (na_alg_struct_count v) (na_alg_struct v))) in
       ret (s0 + s1 + s2 + s3 + s4 + s5 + s6 + s7 + s8 + s9 + s10 + s11 + s12 + s13);
     spdm_read c :=
       let v11 := ver_ge c SpdmVersion11 in
       let* alg_struct_count := read_or_skip v11 1 (0 : u8) in
       let* _ := reject (MAX_SUPPORTED_ALG_STRUCTURE_COUNT <? alg_struct_count) in
       let* _ := read (A:=u8) in
       let* length := read (A:=u16) in
       let* measurement_specification := read in
       let* other_params_support := read_or_skip (ver_ge c SpdmVersion12) 1 empty_flags in
       let* base_asym_algo := read in
       let* base_hash_algo := read in
       let* pqc_asym_algo := read_or_skip (ver_ge c SpdmVersion14) 4 empty_flags in
       let* _ := skip 8 in
       let* ext_asym_count := read (A:=u8) in
       let* _ := reject (negb (ext_asym_count =? 0)) in
       let* ext_hash_count := read (A:=u8) in
       let* _ := reject (negb (ext_hash_count =? 0)) in
       let* _ := read (A:=u8) in
       let* mel_specification := read_or_skip (ver_ge c SpdmVersion13) 1 empty_flags in
       let* algs := read_when v11
         (read_algs see_alg AlgSeen_init (Z.to_nat alg_struct_count) alg_struct_default)
         (AlgSeen_init, alg_struct_default) in
       let* calc_length := lift (alg_length v11 32 alg_struct_count) in
       let* _ := reject (negb (length =? calc_length)) in
       ret (mkNegotiateAlgorithms measurement_specification other_params_support base_asym_algo
              base_hash_algo pqc_asym_algo mel_specification alg_struct_count (snd algs)) |}.

(** ** ALGORITHMS *)
Record SpdmAlgorithmsResponsePayload := mkAlgorithms {
  ar_measurement_specification_sel : SpdmMeasurementSpecification;
  ar_other_params_selection : SpdmAlgoOtherParams;
  ar_measurement_hash_algo : SpdmMeasurementHashAlgo;
  ar_base_asym_sel : SpdmBaseAsymAlgo;
  ar_base_hash_sel : SpdmBaseHashAlgo;
  ar_pqc_asym_sel : SpdmPqcAsymAlgo;
  ar_mel_specification_sel : SpdmMelSpecification;
  ar_alg_struct_count : u8;
  ar_alg_struct : list SpdmAlgStruct;
}.
(** The conditions on the capabilities the reader uses. *)
Section Needs.
Context (c : SpdmContext).
Definition measurements_used : bool :=
  rsp_cap c SpdmResponseCapabilityFlags.MEAS_CAP_NO_SIG || rsp_cap c SpdmResponseCapabilityFlags.MEAS_CAP_SIG.
Definition rsp_psk : bool :=
  rsp_cap c SpdmResponseCapabilityFlags.PSK_CAP_WITHOUT_CONTEXT
  || rsp_cap c SpdmResponseCapabilityFlags.PSK_CAP_WITH_CONTEXT.
Definition key_ex_used : bool :=
  rsp_cap c SpdmResponseCapabilityFlags.KEY_EX_CAP && req_cap c SpdmRequestCapabilityFlags.KEY_EX_CAP.
Definition psk_used : bool := rsp_psk && req_cap c SpdmRequestCapabilityFlags.PSK_CAP.
Definition asym_used : bool :=
  rsp_cap c SpdmResponseCapabilityFlags.CERT_CAP || rsp_cap c SpdmResponseCapabilityFlags.CHAL_CAP
  || rsp_cap c SpdmResponseCapabilityFlags.MEAS_CAP_SIG || key_ex_used.
Definition aead_used : bool :=
  (rsp_cap c SpdmResponseCapabilityFlags.ENCRYPT_CAP && req_cap c SpdmRequestCapabilityFlags.ENCRYPT_CAP)
  || (rsp_cap c SpdmResponseCapabilityFlags.MAC_CAP && req_cap c SpdmRequestCapabilityFlags.MAC_CAP).
Definition mut_auth_used : bool :=
  rsp_cap c SpdmResponseCapabilityFlags.MUT_AUTH_CAP && req_cap c SpdmRequestCapabilityFlags.MUT_AUTH_CAP.
End Needs.
(** [!x.is_no_more_than_one_selected()], then [need && !x.is_valid_one_select()] *)
Definition sel_bad {d} (need : bool) (x : flags d) : bool :=
  negb (is_no_more_than_one_selected x) || (need && negb (is_valid_one_select x)).

Record AlgSel := mkAlgSel {
  as_dhe : SpdmDheAlgo;
  as_req_asym : SpdmReqAsymAlgo;
  as_pqc_req_asym : SpdmPqcReqAsymAlgo;
  as_kem : SpdmKemAlgo;
}.
Definition AlgSel_init : AlgSel := mkAlgSel empty_flags empty_flags empty_flags empty_flags.
Definition sel_alg (c : SpdmContext) (st : AlgSeen * AlgSel) (alg : SpdmAlgStruct) : option (AlgSeen * AlgSel) :=
  match see_alg (fst st) alg with
  | None => None
  | Some s =>
      let 'mkAlgSel dhe req_asym pqc_req_asym kem := snd st in
      match alg_supported alg with
      | SpdmAlgoDhe v => if sel_bad false v then None else Some (s, mkAlgSel v req_asym pqc_req_asym kem)
      | SpdmAlgoAead v => if sel_bad (aead_used c) v then None else Some (s, snd st)
      | SpdmAlgoReqAsym v => if sel_bad false v then None else Some (s, mkAlgSel dhe v pqc_req_asym kem)
      | SpdmAlgoKeySchedule v => if sel_bad (key_ex_used c || psk_used c) v then None else Some (s, snd st)
      | SpdmAlgoPqcReqAsym v => if sel_bad false v then None else Some (s, mkAlgSel dhe req_asym v kem)
      | SpdmAlgoKem v => if sel_bad false v then None else Some (s, mkAlgSel dhe req_asym pqc_req_asym v)
      | SpdmAlgoUnknown => None
      end
  end.
(** The checks after the loop. *)
Definition sel_conflict (c : SpdmContext) (s : AlgSel) : bool :=
  (is_valid_one_select (as_dhe s) && is_valid_one_select (as_kem s))
  || (key_ex_used c && negb (is_valid_one_select (as_dhe s)) && negb (is_valid_one_select (as_kem s)))
  || (is_valid_one_select (as_req_asym s) && is_valid_one_select (as_pqc_req_asym s))
  || (mut_auth_used c && negb (is_valid_one_select (as_req_asym s)) && negb (is_valid_one_select (as_pqc_req_asym s))).
Definition asym_conflict (c : SpdmContext) (base : SpdmBaseAsymAlgo) (pqc : SpdmPqcAsymAlgo) : bool :=
  (is_valid_one_select base && is_valid_one_select pqc)
  || (asym_used c && negb (is_valid_one_select base) && negb (is_valid_one_select pqc)).

#[export] Instance spdm_codec_algorithms : SpdmCodec SpdmAlgorithmsResponsePayload :=
  {| spdm_encode c v :=
       let v11 := ver_ge c SpdmVersion11 in
       let* s0 := enc_or_zeros v11 (ar_alg_struct_count v) 1 in
       let* s1 := enc (0 : u8) in
       let* length := lift (alg_length v11 36 (ar_alg_struct_count v)) in
       let* s2 := enc (length : u16) in
       let* s3 := enc (ar_measurement_specification_sel v) in
       let* s4 := enc_or_zeros (ver_ge c SpdmVersion12) (ar_other_params_selection v) 1 in
       let* s5 := enc (ar_measurement_hash_algo v) in
       let* s6 := enc (ar_base_asym_sel v) in
       let* s7 := enc (ar_base_hash_sel v) in
       let* s8 := enc_or_zeros (ver_ge c SpdmVersion14) (ar_pqc_asym_sel v) 4 in
       let* s9 := enc_zeros 7 in
       let* s10 := enc_or_zeros (ver_ge c SpdmVersion13) (ar_mel_specification_sel v) 1 in
       let* s11 := enc (0 : u8) in
       let* s12 := enc (0 : u8) in
       let* s13 := enc (0 : u16) in
       let* s14 := enc_when v11 (enc_list enc (ztake (ar_alg_struct_count v) (ar_alg_struct v))) in
       ret (s0 + s1 + s2 + s3 + s4 + s5 + s6 + s7 + s8 + s9 + s10 + s11 + s12 + s13 + s14);
     spdm_read c :=
       let v11 := ver_ge c SpdmVersion11 in
       let v12 := ver_ge c SpdmVersion12 in
       let* alg_struct_count := read_or_skip v11 1 (0 : u8) in
       let* _ := reject (MAX_SUPPORTED_ALG_STRUCTURE_COUNT <? alg_struct_count) in
       let* _ := read (A:=u8) in
       let* length := read (A:=u16) in
       let* measurement_specification_sel := read in
       let* _ := reject (sel_bad (measurements_used c) measurement_specification_sel) in
       let* other_params_selection := read_or_skip v12 1 empty_flags in
       let* _ := reject (v12 && (rsp_cap c SpdmResponseCapabilityFlags.KEY_EX_CAP || rsp_psk c)
         && negb (contains other_params_selection SpdmAlgoOtherParams.OPAQUE_DATA_FMT1)) in
       let* measurement_hash_algo := read in
       let* _ := reject (sel_bad (measurements_used c) measurement_hash_algo) in
       let* base_asym_sel := read in
       let* _ := reject (sel_bad false base_asym_sel) in
       let* base_hash_sel := read in
       let* _ := reject (sel_bad (asym_used c || psk_used c) base_hash_sel) in
       let* pqc_asym_sel := read_or_skip v12 4 empty_flags in
       let* _ := reject (sel_bad false pqc_asym_sel) in
       let* _ := reject (asym_conflict c base_asym_sel pqc_asym_sel) in
       let* _ := skip 7 in
       let* mel_specification_sel := read_or_skip (ver_ge c SpdmVersion13) 1 empty_flags in
       let* ext_asym_count := read (A:=u8) in
       let* _ := reject (negb (ext_asym_count =? 0)) in
       let* ext_hash_count := read (A:=u8) in
       let* _ := reject (negb (ext_hash_count =? 0)) in
       let* _ := read (A:=u16) in
       let* algs := read_when v11
         (read_algs (sel_alg c) (AlgSeen_init, AlgSel_init) (Z.to_nat alg_struct_count) alg_struct_default)
         ((AlgSeen_init, AlgSel_init), alg_struct_default) in
       let* _ := reject (v11 && sel_conflict c (snd (fst algs))) in
       let* calc_length := lift (alg_length v11 36 alg_struct_count) in
       let* _ := reject (negb (length =? calc_length)) in
       ret (mkAlgorithms measurement_specification_sel other_params_selection measurement_hash_algo
              base_asym_sel base_hash_sel pqc_asym_sel mel_specification_sel alg_struct_count (snd algs)) |}.

(** ** Laws *)
#[export] Program Instance spdm_codec_ok_get_version : SpdmCodecOk SpdmGetVersionRequestPayload :=
  {| sready _ := True; swf _ _ := True; sgood _ _ := True; sbytes _ _ := [0] ++ [0] |}.
Next Obligation. intros c a _. msg_bytes. Qed.
Next Obligation. intros c a _. unfold spdm_encode, spdm_codec_get_version. msg_encodes. Qed.
Next Obligation. intros c [] _. unfold spdm_read, spdm_codec_get_version. by msg_decodes. Qed.
Next Obligation. intros c _. unfold spdm_read, spdm_codec_get_version. by msg_reads. Qed.

(** *** VERSION *)
#[export] Program Instance codec_ok_SpdmVersionStruct : CodecOk SpdmVersionStruct :=
  {| wf v := in_width 8 (vs_update v); bytes v := [vs_update v] ++ bytes (vs_version v) |}.
Next Obligation. intros v Hv. apply bytes_wf_app. split; [by apply bytes_wf_u8|by apply bytes_ok]. Qed.
Next Obligation.
  intros v Hv. unfold encode at 1, codec_SpdmVersionStruct, encodes. eapply writes_eq.
  - eapply writes_bind; [apply writes_u8|]. eapply writes_bind; [by apply (encode_ok (vs_version v))|apply writes_ret].
  - by list_norm.
  - by rewrite len_app.
Qed.
Next Obligation.
  intros v Hv. unfold read at 1, codec_SpdmVersionStruct. eapply decodes_bind; [by apply decodes_u8|].
  eapply decodes_last; [by apply (read_ok (vs_version v))|]. destruct v. apply decodes_ret.
Qed.
Next Obligation.
  unfold read at 1, codec_SpdmVersionStruct. eapply reads_bind; [apply reads_u8|]. intros u Hu.
  eapply reads_bind; [apply read_safe|]. intros v _. by apply reads_ret.
Qed.

(** No version is listed twice, so that the entries fit. *)
Definition distinct_versions (l : list SpdmVersionStruct) : Prop := NoDup (vs_version <$> l).
Lemma distinct_versions_len l : distinct_versions l → len l ≤ MAX_SPDM_VERSION_COUNT.
Proof.
  intros Hd. rewrite <- (len_map vs_version l).
  assert ((vs_version <$> l) ⊆+ [SpdmVersion10; SpdmVersion11; SpdmVersion12; SpdmVersion13; SpdmVersion14]) as Hs
    by (apply NoDup_submseteq; [done|]; intros [] _; set_solver).
  apply submseteq_length in Hs. unfold len, MAX_SPDM_VERSION_COUNT. cbn [length] in Hs. lia.
Qed.
(** What [version_exist_map] knows. *)
Definition seen_ok (seen : list u8) (found : list SpdmVersionStruct) : Prop :=
  len seen = MAX_SPDM_VERSION_COUNT ∧
  ∀ v, znth seen (version_index v) = Some (if decide (v ∈ vs_version <$> found) then 1 else 0).
Lemma version_index_bound v : 0 ≤ version_index v < MAX_SPDM_VERSION_COUNT.
Proof. by destruct v. Qed.
Lemma version_index_inj v w : version_index v = version_index w → v = w.
Proof. destruct v, w; done. Qed.
Lemma seen_init : seen_ok (zeros MAX_SPDM_VERSION_COUNT) [].
Proof. split; [done|]. by intros []. Qed.
Lemma seen_add seen found ver :
  seen_ok seen found →
  ∃ seen', zset seen (version_index (vs_version ver)) 1 = Some seen' ∧ seen_ok seen' (found ++ [ver]).
Proof.
  intros [Hl Hs]. pose proof (version_index_bound (vs_version ver)) as Hb. unfold zset.
  replace ((0 <=? _) && _) with true by lia. eexists. split; [done|]. split; [by rewrite len_insert|].
  intros v. pose proof (version_index_bound v) as Hv. specialize (Hs v). unfold znth in *.
  replace (0 <=? version_index v) with true in * by lia. rewrite fmap_app. cbn [fmap list_fmap].
  destruct (decide (v = vs_version ver)) as [->|Hne].
  - rewrite list_lookup_insert_eq by (unfold len in Hl; lia).
    by rewrite decide_True by (apply elem_of_app; right; by apply list_elem_of_singleton).
  - rewrite list_lookup_insert_ne by (intros He; apply Hne, version_index_inj; lia). rewrite Hs.
    f_equal. apply decide_ext. rewrite elem_of_app, list_elem_of_singleton. tauto.
Qed.
Lemma distinct_add found ver :
  distinct_versions found → vs_version ver ∉ vs_version <$> found → distinct_versions (found ++ [ver]).
Proof.
  unfold distinct_versions. intros Hd Hn. rewrite fmap_app. apply NoDup_app. split; [done|].
  split; [|apply NoDup_singleton]. intros v Hv ->%list_elem_of_singleton. done.
Qed.

Lemma collect_versions_safe n i rest seen found :
  bytes_wf rest → 0 ≤ i → len rest = 2 * (i + Z.of_nat n) → seen_ok seen found →
  distinct_versions found → Forall wf found →
  let o := collect_versions n i rest seen found in
  o ≠ Panic ∧ ∀ l, o = Ok l → distinct_versions l ∧ Forall wf l.
Proof.
  intros Hb. revert i seen found. induction n as [|n IH]; intros i seen found Hi Hl Hs Hd Hw; cbn [collect_versions].
  { split; [done|]. by intros l [= <-]. }
  rewrite slice_spec by lia. cbn [or_panic obind].
  set (tail := ztake _ _). assert (bytes_wf tail) as Htail by (unfold tail; auto with wfb).
  pose proof (read_safe (A:=SpdmVersionStruct) (Reader.init tail) (reader_init_wf _ Htail)) as Hr.
  destruct (read (Reader.init tail)) as [[ver| |] r]; destruct Hr as (Hnp & _ & _ & HP); cbn [fst]; [| |done].
  - destruct Hs as [Hlen Hs]. rewrite Hs. cbn [or_panic obind]. case_decide as Hin; cbn [Z.eqb].
    + apply IH; [lia|lia|done|done|done].
    + destruct (seen_add seen found ver (conj Hlen Hs)) as (seen' & -> & Hs'). cbn [or_panic obind].
      pose proof (distinct_add _ _ Hd Hin) as Hd'. pose proof (distinct_versions_len _ Hd') as Hle.
      rewrite len_app in Hle. change (len [ver]) with 1 in Hle.
      replace (MAX_SPDM_VERSION_COUNT <=? len found) with false by lia.
      apply IH; [lia|lia|done|done|]. apply Forall_app. split; [done|]. constructor; [by apply HP|constructor].
  - unfold znth. replace (0 <=? i * 2 + 1) with true by lia.
    destruct (lookup_lt_is_Some_2 rest (Z.to_nat (i * 2 + 1))) as [b ->]; [unfold len in Hl; lia|]. cbn [or_panic obind].
    case_match; [done|]. apply IH; [lia|lia|done|done|done].
Qed.

(** What was listed is found, in order. *)
Lemma collect_versions_ok vs pre seen found :
  Forall wf vs → bytes_wf pre → seen_ok seen found → distinct_versions (found ++ vs) →
  ∀ i, 0 ≤ i → len pre = 2 * i →
  collect_versions (length vs) i (pre ++ seq_bytes vs) seen found = Ok (found ++ vs).
Proof.
  intros Hw. revert pre seen found. induction Hw as [|v vs Hv Hvs IH]; intros pre seen found Hp Hs Hd i Hi Hl.
  { cbn [collect_versions length]. by rewrite app_nil_r. }
  cbn [collect_versions length]. change (seq_bytes (v :: vs)) with (bytes v ++ seq_bytes vs).
  assert (bytes_wf (seq_bytes vs)) as Hbs
    by (apply Forall_concat, Forall_fmap; eapply Forall_impl; [exact Hvs|]; intros x Hx; exact (bytes_ok x Hx)).
  pose proof (len_nonneg (seq_bytes vs)) as H0. assert (len (bytes v) = 2) as H2 by done.
  rewrite slice_spec by (rewrite ?len_app; lia). cbn [or_panic obind].
  rewrite zdrop_app' by lia. rewrite ztake_all by (rewrite ?len_app; lia).
  rewrite (read_ok v Hv (Reader.init (bytes v ++ seq_bytes vs)) (seq_bytes vs)); [|apply reader_init_wf|done].
  2:{ apply bytes_wf_app. split; [exact (bytes_ok v Hv)|done]. }
  cbn [fst]. assert (vs_version v ∉ vs_version <$> found) as Hn.
  { unfold distinct_versions in Hd. rewrite fmap_app in Hd. apply NoDup_app in Hd as (_ & Hd & _).
    intros Hin. apply (Hd _ Hin). cbn. apply list_elem_of_here. }
  rewrite (proj2 Hs), decide_False by done. cbn [or_panic obind Z.eqb].
  destruct (seen_add seen found v Hs) as (seen' & -> & Hs'). cbn [or_panic obind].
  assert (len found < MAX_SPDM_VERSION_COUNT) as Hlt.
  { pose proof (distinct_versions_len _ Hd) as Hle. rewrite len_app, len_cons in Hle. pose proof (len_nonneg vs). lia. }
  replace (MAX_SPDM_VERSION_COUNT <=? len found) with false by lia.
  rewrite app_assoc. replace (found ++ v :: vs) with ((found ++ [v]) ++ vs) in * by (by rewrite <- app_assoc).
  apply IH; [|done|done|lia|rewrite len_app; lia].
  apply bytes_wf_app. split; [done|exact (bytes_ok v Hv)].
Qed.

Definition versions_wf (n : Z) (v : SpdmVersionResponsePayload) : Prop :=
  n ≤ version_number_entry_count v ∧
  ∃ vs, versions v = version_array vs ∧ version_number_entry_count v = len vs ∧
        distinct_versions vs ∧ Forall wf vs.
#[export] Program Instance spdm_codec_ok_version : SpdmCodecOk SpdmVersionResponsePayload :=
  {| sready _ := True;
     swf _ := versions_wf 1;
     sgood _ := versions_wf 0;
     sbytes _ v := [0] ++ [0] ++ [0] ++ [version_number_entry_count v] ++
       seq_bytes (ztake (version_number_entry_count v) (versions v)) |}.
Next Obligation.
  intros c v (Hn & vs & Hv & Hl & Hd & Hw). rewrite Hv, Hl. unfold version_array. rewrite ztake_app.
  pose proof (distinct_versions_len _ Hd). pose proof (len_nonneg vs). unfold MAX_SPDM_VERSION_COUNT in *.
  rewrite !bytes_wf_app. split_and!; try by apply is_byte_wf.
  - apply bytes_wf_u8. unfold in_width. lia.
  - apply Forall_concat, Forall_fmap. eapply Forall_impl; [exact Hw|]. intros x Hx. exact (bytes_ok x Hx).
Qed.
Next Obligation.
  intros c v (Hn & vs & Hv & Hl & Hd & Hw). unfold spdm_encode, spdm_codec_version. rewrite Hv, Hl.
  unfold version_array. rewrite ztake_app.
  assert (encodes SPDM_STATUS_BUFFER_FULL (enc_list enc vs) (seq_bytes vs)) by
    (apply (encodes_list enc bytes wf); [intros; by apply enc_writes|done]).
  msg_encodes.
Qed.
Next Obligation.
  intros c v (Hn & vs & Hv & Hl & Hd & Hw). unfold spdm_read, spdm_codec_version. rewrite Hv, Hl.
  unfold version_array at 2. rewrite ztake_app. pose proof (distinct_versions_len _ Hd).
  pose proof (len_nonneg vs). unfold MAX_SPDM_VERSION_COUNT in *. do 3 dec_step.
  eapply decodes_bind; [apply decodes_u8; unfold in_width; lia|]. cbv beta. apply decodes_reject; [lia|].
  eapply decodes_last; [apply decodes_take|].
  { clear. induction vs as [|v vs IH]; [done|]. change (seq_bytes (v :: vs)) with (bytes v ++ seq_bytes vs).
    rewrite len_app, len_cons. change (len (bytes v)) with 2. lia. }
  cbv beta. replace (Z.to_nat (len vs)) with (length vs) by (unfold len; lia).
  rewrite (collect_versions_ok vs [] _ []); [|done|constructor|apply seen_init|done|done|done].
  eapply decodes_lift_ok; [done|]. eapply decodes_eq; [apply decodes_ret|done|].
  destruct v as [n l]. cbn in *. by subst.
Qed.
Next Obligation.
  intros c _. unfold spdm_read, spdm_codec_version. do 4 rd_step. rd_step.
  match goal with H : in_width 8 ?n |- reads (bind (Reader.take (?n * 2)) _) _ => unfold in_width in H; rename n into count end.
  eapply reads_bind; [apply reads_take; lia|]. intros rest [Hl Hw]. cbv beta.
  destruct (collect_versions_safe (Z.to_nat count) 0 rest (zeros MAX_SPDM_VERSION_COUNT) []) as [Hnp Hok];
    [done|done|lia|apply seen_init|constructor|constructor|].
  eapply reads_bind; [by apply (reads_lift _ (λ l, distinct_versions l ∧ Forall wf l))|]. intros l [Hd Hwl].
  apply reads_ret. split; [cbn; apply len_nonneg|]. by exists l.
Qed.

(** *** GET_CAPABILITIES and CAPABILITIES *)
Lemma decodes_param1_zero b :
  decodes (read_or_skip b 1 (empty_flags : SpdmCapabilityParam1)) [0] empty_flags.
Proof.
  assert (when_wf b wf (empty_flags : SpdmCapabilityParam1) empty_flags) as Hw by (by destruct b).
  pose proof (decodes_or_skip b 1 _ _ Hw) as Hd. by destruct b.
Qed.
#[export] Hint Resolve decodes_param1_zero : msg.

Definition get_capabilities_wf (c : SpdmContext) (v : SpdmGetCapabilitiesRequestPayload) : Prop :=
  let v11 := ver_ge c SpdmVersion11 in
  let v12 := ver_ge c SpdmVersion12 in
  when_wf v11 wf (0 : u8) (gc_ct_exponent v) ∧
  when_wf v11 (when_wf (ver_ge c SpdmVersion14) wf empty_flags) empty_flags (gc_ex_flags v) ∧
  when_wf v11 wf empty_flags (gc_flags v) ∧
  v11 && req_flags_bad c (gc_flags v) = false ∧
  when_wf v12 wf (0 : u32) (gc_data_transfer_size v) ∧
  when_wf v12 wf (0 : u32) (gc_max_spdm_msg_size v) ∧
  v12 && sizes_bad (gc_data_transfer_size v) (gc_max_spdm_msg_size v) = false.
#[export] Program Instance spdm_codec_ok_get_capabilities : SpdmCodecOk SpdmGetCapabilitiesRequestPayload :=
  {| sready _ := True;
     swf := get_capabilities_wf;
     sgood := get_capabilities_wf;
     sbytes c v :=
       let v11 := ver_ge c SpdmVersion11 in
       let v12 := ver_ge c SpdmVersion12 in
       [0] ++ [0] ++ when_bytes v11 [0] ++ when_bytes v11 (bytes (gc_ct_exponent v)) ++
       when_bytes v11 (or_zeros (ver_ge c SpdmVersion14) (bytes (gc_ex_flags v)) 2) ++
       when_bytes v11 (bytes (gc_flags v)) ++ when_bytes v12 (bytes (gc_data_transfer_size v)) ++
       when_bytes v12 (bytes (gc_max_spdm_msg_size v)) |}.
Next Obligation. intros c v (H1 & H2 & H3 & _ & H4 & H5 & _). cbv zeta. msg_bytes. Qed.
Next Obligation.
  intros c v (H1 & H2 & H3 & _ & H4 & H5 & _). unfold spdm_encode, spdm_codec_get_capabilities. cbv zeta. msg_encodes.
Qed.
Next Obligation.
  intros c v (H1 & H2 & H3 & Hf & H4 & H5 & Hs). unfold spdm_read, spdm_codec_get_capabilities. cbv zeta.
  assert (∀ b b', b && contains (empty_flags : SpdmCapabilityParam1) SpdmCapabilityParam1.SUPPORTED_ALGOS_EXT_CAP && b' = false)
    as Hp by (by intros [] []). msg_decodes. by destruct v.
Qed.
Next Obligation.
  intros c _. unfold spdm_read, spdm_codec_get_capabilities. cbv zeta. msg_reads. msg_post.
Qed.

Definition capabilities_wf (c : SpdmContext) (v : SpdmCapabilitiesResponsePayload) : Prop :=
  let v12 := ver_ge c SpdmVersion12 in
  wf (cap_ct_exponent v) ∧
  when_wf (ver_ge c SpdmVersion14) wf empty_flags (cap_ex_flags v) ∧
  wf (cap_flags v) ∧ rsp_flags_bad c (cap_flags v) = false ∧
  when_wf v12 wf (0 : u32) (cap_data_transfer_size v) ∧
  when_wf v12 wf (0 : u32) (cap_max_spdm_msg_size v) ∧
  v12 && sizes_bad (cap_data_transfer_size v) (cap_max_spdm_msg_size v) = false.
#[export] Program Instance spdm_codec_ok_capabilities : SpdmCodecOk SpdmCapabilitiesResponsePayload :=
  {| sready _ := True;
     swf := capabilities_wf;
     sgood := capabilities_wf;
     sbytes c v :=
       [0] ++ [0] ++ [0] ++ [cap_ct_exponent v] ++
       or_zeros (ver_ge c SpdmVersion14) (bytes (cap_ex_flags v)) 2 ++ bytes (cap_flags v) ++
       when_bytes (ver_ge c SpdmVersion12) (bytes (cap_data_transfer_size v)) ++
       when_bytes (ver_ge c SpdmVersion12) (bytes (cap_max_spdm_msg_size v)) |}.
Next Obligation. intros c v (H1 & H2 & H3 & _ & H4 & H5 & _). msg_bytes. Qed.
Next Obligation.
  intros c v (H1 & H2 & H3 & _ & H4 & H5 & _). unfold spdm_encode, spdm_codec_capabilities. cbv zeta. msg_encodes.
Qed.
Next Obligation.
  intros c v (H1 & H2 & H3 & Hf & H4 & H5 & Hs). unfold spdm_read, spdm_codec_capabilities. cbv zeta.
  msg_decodes. by destruct v.
Qed.
Next Obligation.
  intros c _. unfold spdm_read, spdm_codec_capabilities. cbv zeta. msg_reads. msg_post.
Qed.

(** *** NEGOTIATE_ALGORITHMS and ALGORITHMS *)
Section AlgLoopLaws.
Context {St : Type} (f : St → SpdmAlgStruct → option St).

(** The array holds [count] structures the loop accepts, ending in [st]. *)
Definition algs_wf (s0 : St) (count : Z) (l : list SpdmAlgStruct) (st : St) : Prop :=
  front count MAX_SUPPORTED_ALG_STRUCTURE_COUNT SpdmAlgStruct_default wf l ∧
  run_algs f s0 (ztake count l) = Some st.

Lemma decodes_algs_loop vs dead rest s0 st :
  Forall wf vs → length dead = length vs → run_algs f s0 vs = Some st →
  decodes (read_algs f s0 (length vs) (dead ++ rest)) (concat (bytes <$> vs)) (st, vs ++ rest).
Proof.
  intros Hw. revert dead s0. induction Hw as [|v vs Hv Hvs IH]; intros dead s0 Hd; cbn [run_algs].
  - intros [= ->]. apply nil_length_inv in Hd as ->. destruct rest; apply decodes_ret.
  - destruct dead as [|x dead]; [done|]. cbn [read_algs length app]. cbn in Hd. cbn [fmap list_fmap concat].
    destruct (f s0 v) as [s1|] eqn:Hf; [|done]. intros Hrun. eapply decodes_bind; [exact (read_ok v Hv)|]. cbv beta.
    rewrite Hf. eapply decodes_lift_ok; [done|]. eapply decodes_last; [apply IH; [lia|done]|]. apply decodes_ret.
Qed.
Lemma decodes_algs s0 count l st :
  algs_wf s0 count l st →
  decodes (read_algs f s0 (Z.to_nat count) alg_struct_default) (front_bytes count bytes l) (st, l).
Proof.
  intros [(Hn & vs & -> & Hl & Hw) Hrun]. unfold front_bytes. rewrite front_take in * by done.
  unfold alg_struct_default. replace (Z.to_nat count) with (length vs) by (unfold len in Hl; lia).
  replace (Z.to_nat MAX_SUPPORTED_ALG_STRUCTURE_COUNT)
    with (length vs + Z.to_nat (MAX_SUPPORTED_ALG_STRUCTURE_COUNT - count))%nat by (unfold len in Hl; lia).
  rewrite replicate_add. apply decodes_algs_loop; [done|apply length_replicate|done].
Qed.
Lemma reads_algs_loop n d rest s0 :
  reads (read_algs f s0 n (replicate n d ++ rest))
        (λ p, ∃ vs, snd p = vs ++ rest ∧ length vs = n ∧ Forall wf vs ∧ run_algs f s0 vs = Some (fst p)).
Proof.
  revert s0. induction n as [|n IH]; intros s0; [destruct rest; apply reads_ret; by exists []|].
  cbn [replicate app read_algs]. eapply reads_bind; [apply read_safe|]. intros v Hv.
  eapply reads_bind; [apply reads_ok_or|]. intros s1 Hs. eapply reads_bind; [apply IH|].
  intros p (vs & Hp & Hl & Hw & Hrun). apply reads_ret. exists (v :: vs). cbn [run_algs fst snd].
  rewrite Hs, Hp. cbn. auto.
Qed.
Lemma reads_algs s0 count :
  0 ≤ count ≤ MAX_SUPPORTED_ALG_STRUCTURE_COUNT →
  reads (read_algs f s0 (Z.to_nat count) alg_struct_default) (λ p, algs_wf s0 count (snd p) (fst p)).
Proof.
  intros Hn. unfold alg_struct_default.
  replace (Z.to_nat MAX_SUPPORTED_ALG_STRUCTURE_COUNT)
    with (Z.to_nat count + Z.to_nat (MAX_SUPPORTED_ALG_STRUCTURE_COUNT - count))%nat by lia.
  rewrite replicate_add. eapply reads_weaken; [apply reads_algs_loop|]. intros p (vs & Hp & Hl & Hw & Hrun).
  assert (len vs = count) as Hc by (unfold len; lia). unfold algs_wf. rewrite Hp, front_take by done.
  split; [|done]. split; [done|]. by exists vs.
Qed.

(** With the condition on the version. *)
Definition algs_opt_wf (b : bool) (s0 : St) (count : Z) (l : list SpdmAlgStruct) (st : St) : Prop :=
  if b then algs_wf s0 count l st else count = 0 ∧ l = alg_struct_default ∧ st = s0.
Lemma decodes_algs_opt b s0 count l st :
  algs_opt_wf b s0 count l st →
  decodes (read_when b (read_algs f s0 (Z.to_nat count) alg_struct_default) (s0, alg_struct_default))
          (when_bytes b (front_bytes count bytes l)) (st, l).
Proof. intros H. apply decodes_when; intros ->; [by apply decodes_algs|]. destruct H as (_ & -> & ->). done. Qed.
Lemma reads_algs_opt b s0 count :
  when_wf b wf (0 : u8) count → (MAX_SUPPORTED_ALG_STRUCTURE_COUNT <? count) = false →
  reads (read_when b (read_algs f s0 (Z.to_nat count) alg_struct_default) (s0, alg_struct_default))
        (λ p, algs_opt_wf b s0 count (snd p) (fst p)).
Proof.
  intros Hb Hc. destruct b; cbn [read_when algs_opt_wf when_wf] in *; [|by apply reads_ret].
  destruct Hb. apply reads_algs. lia.
Qed.
Lemma encodes_algs_opt b s0 count l st :
  algs_opt_wf b s0 count l st →
  encodes SPDM_STATUS_BUFFER_FULL (enc_when b (enc_list enc (ztake count l))) (when_bytes b (front_bytes count bytes l)).
Proof.
  intros H. apply encodes_when. intros ->. destruct H as [H _].
  exact (encodes_front enc bytes wf (λ a Ha, enc_writes a Ha) _ _ _ _ H).
Qed.
Lemma algs_opt_bytes_wf b s0 count l st :
  algs_opt_wf b s0 count l st → bytes_wf (when_bytes b (front_bytes count bytes l)).
Proof.
  intros H. apply when_bytes_wf. intros ->. destruct H as [H _].
  exact (front_bytes_wf bytes wf (λ a Ha, bytes_ok a Ha) _ _ _ _ H).
Qed.
Lemma algs_opt_count b s0 count l st : algs_opt_wf b s0 count l st → 0 ≤ count ≤ MAX_SUPPORTED_ALG_STRUCTURE_COUNT.
Proof. destruct b; [by intros [[] _]|]. by intros [-> _]. Qed.
End AlgLoopLaws.

Definition alg_len (v11 : bool) (base count : Z) : Z := if v11 then base + 4 * count else base.
Lemma alg_length_ok {E} v11 base count :
  0 ≤ count ≤ MAX_SUPPORTED_ALG_STRUCTURE_COUNT → alg_length (E:=E) v11 base count = Ok (alg_len v11 base count).
Proof.
  unfold alg_length, alg_len, MAX_SUPPORTED_ALG_STRUCTURE_COUNT. intros Hc.
  replace (4 * count <? 2 ^ 8) with true by lia. by destruct v11.
Qed.
Lemma alg_len_width v11 base count :
  0 ≤ base ≤ 36 → 0 ≤ count ≤ MAX_SUPPORTED_ALG_STRUCTURE_COUNT → in_width 16 (alg_len v11 base count).
Proof. unfold alg_len, MAX_SUPPORTED_ALG_STRUCTURE_COUNT, in_width. destruct v11; lia. Qed.

Definition negotiate_algorithms_wf (c : SpdmContext) (v : SpdmNegotiateAlgorithmsRequestPayload) : Prop :=
  let v11 := ver_ge c SpdmVersion11 in
  when_wf v11 wf (0 : u8) (na_alg_struct_count v) ∧
  wf (na_measurement_specification v) ∧
  when_wf (ver_ge c SpdmVersion12) wf empty_flags (na_other_params_support v) ∧
  wf (na_base_asym_algo v) ∧ wf (na_base_hash_algo v) ∧
  when_wf (ver_ge c SpdmVersion14) wf empty_flags (na_pqc_asym_algo v) ∧
  when_wf (ver_ge c SpdmVersion13) wf empty_flags (na_mel_specification v) ∧
  ∃ st, algs_opt_wf see_alg v11 AlgSeen_init (na_alg_struct_count v) (na_alg_struct v) st.
#[export] Program Instance spdm_codec_ok_negotiate_algorithms : SpdmCodecOk SpdmNegotiateAlgorithmsRequestPayload :=
  {| sready _ := True;
     swf := negotiate_algorithms_wf;
     sgood := negotiate_algorithms_wf;
     sbytes c v :=
       let v11 := ver_ge c SpdmVersion11 in
       or_zeros v11 (bytes (na_alg_struct_count v)) 1 ++ [0] ++
       le_bytes 2 (alg_len v11 32 (na_alg_struct_count v)) ++ bytes (na_measurement_specification v) ++
       or_zeros (ver_ge c SpdmVersion12) (bytes (na_other_params_support v)) 1 ++
       bytes (na_base_asym_algo v) ++ bytes (na_base_hash_algo v) ++
       or_zeros (ver_ge c SpdmVersion14) (bytes (na_pqc_asym_algo v)) 4 ++ zeros 8 ++ [0] ++ [0] ++ [0] ++
       or_zeros (ver_ge c SpdmVersion13) (bytes (na_mel_specification v)) 1 ++
       when_bytes v11 (front_bytes (na_alg_struct_count v) bytes (na_alg_struct v)) |}.
Next Obligation.
  intros c v (H1 & H2 & H3 & H4 & H5 & H6 & H7 & st & H8). cbv zeta.
  pose proof (algs_opt_bytes_wf _ _ _ _ _ _ H8). msg_bytes.
Qed.
Next Obligation.
  intros c v (H1 & H2 & H3 & H4 & H5 & H6 & H7 & st & H8). unfold spdm_encode, spdm_codec_negotiate_algorithms. cbv zeta.
  pose proof (encodes_algs_opt _ _ _ _ _ _ H8). rewrite alg_length_ok by (by eapply algs_opt_count). msg_encodes.
Qed.
Next Obligation.
  intros c v (H1 & H2 & H3 & H4 & H5 & H6 & H7 & st & H8). unfold spdm_read, spdm_codec_negotiate_algorithms. cbv zeta.
  pose proof (algs_opt_count _ _ _ _ _ _ H8) as Hc. pose proof (decodes_algs_opt _ _ _ _ _ _ H8).
  pose proof (alg_len_width (ver_ge c SpdmVersion11) 32 _ ltac:(lia) Hc).
  pose proof (alg_length_ok (E:=unit) (ver_ge c SpdmVersion11) 32 _ Hc).
  msg_decodes. by destruct v.
Qed.
Next Obligation.
  intros c _. unfold spdm_read, spdm_codec_negotiate_algorithms. cbv zeta. do 16 rd_step.
  eapply reads_bind; [by apply reads_algs_opt|]. intros p Hp.
  pose proof (algs_opt_count _ _ _ _ _ _ Hp) as Hc. rewrite alg_length_ok by done.
  eapply reads_bind; [by apply (reads_lift (Ok _) (λ _, True))|]. intros n _. rd_step. apply reads_ret.
  cbv zeta. repeat (split; [assumption|]). by exists (fst p).
Qed.

(** ALGORITHMS is written with the PQC selection from 1.4 on and read with it
    from 1.2 on. *)
Definition algorithms_wf (pqc_from : SpdmVersion) (c : SpdmContext) (v : SpdmAlgorithmsResponsePayload) : Prop :=
  let v11 := ver_ge c SpdmVersion11 in
  let v12 := ver_ge c SpdmVersion12 in
  when_wf v11 wf (0 : u8) (ar_alg_struct_count v) ∧
  wf (ar_measurement_specification_sel v) ∧
  sel_bad (measurements_used c) (ar_measurement_specification_sel v) = false ∧
  when_wf v12 wf empty_flags (ar_other_params_selection v) ∧
  v12 && (rsp_cap c SpdmResponseCapabilityFlags.KEY_EX_CAP || rsp_psk c)
    && negb (contains (ar_other_params_selection v) SpdmAlgoOtherParams.OPAQUE_DATA_FMT1) = false ∧
  wf (ar_measurement_hash_algo v) ∧
  sel_bad (measurements_used c) (ar_measurement_hash_algo v) = false ∧
  wf (ar_base_asym_sel v) ∧ sel_bad false (ar_base_asym_sel v) = false ∧
  wf (ar_base_hash_sel v) ∧ sel_bad (asym_used c || psk_used c) (ar_base_hash_sel v) = false ∧
  when_wf (ver_ge c pqc_from) wf empty_flags (ar_pqc_asym_sel v) ∧
  sel_bad false (ar_pqc_asym_sel v) = false ∧
  asym_conflict c (ar_base_asym_sel v) (ar_pqc_asym_sel v) = false ∧
  when_wf (ver_ge c SpdmVersion13) wf empty_flags (ar_mel_specification_sel v) ∧
  ∃ st, algs_opt_wf (sel_alg c) v11 (AlgSeen_init, AlgSel_init) (ar_alg_struct_count v) (ar_alg_struct v) st ∧
        v11 && sel_conflict c (snd st) = false.
Lemma decodes_pqc c (x : SpdmPqcAsymAlgo) :
  when_wf (ver_ge c SpdmVersion14) wf empty_flags x →
  decodes (read_or_skip (ver_ge c SpdmVersion12) 4 empty_flags) (or_zeros (ver_ge c SpdmVersion14) (bytes x) 4) x.
Proof.
  intros Hx. pose proof (ver_ge_trans c SpdmVersion14 SpdmVersion12 eq_refl) as Ht.
  destruct (ver_ge c SpdmVersion14); cbn [when_wf or_zeros] in *.
  - rewrite Ht by done. by apply read_ok.
  - subst x. assert (when_wf (ver_ge c SpdmVersion12) wf (empty_flags : SpdmPqcAsymAlgo) empty_flags) as Hw
      by (by destruct (ver_ge c SpdmVersion12)).
    pose proof (decodes_or_skip (ver_ge c SpdmVersion12) 4 _ _ Hw) as Hd. by destruct (ver_ge c SpdmVersion12).
Qed.
#[export] Hint Resolve decodes_pqc : msg.
#[export] Program Instance spdm_codec_ok_algorithms : SpdmCodecOk SpdmAlgorithmsResponsePayload :=
  {| sready _ := True;
     swf := algorithms_wf SpdmVersion14;
     sgood := algorithms_wf SpdmVersion12;
     sbytes c v :=
       let v11 := ver_ge c SpdmVersion11 in
       or_zeros v11 (bytes (ar_alg_struct_count v)) 1 ++ [0] ++
       le_bytes 2 (alg_len v11 36 (ar_alg_struct_count v)) ++ bytes (ar_measurement_specification_sel v) ++
       or_zeros (ver_ge c SpdmVersion12) (bytes (ar_other_params_selection v)) 1 ++
       bytes (ar_measurement_hash_algo v) ++ bytes (ar_base_asym_sel v) ++ bytes (ar_base_hash_sel v) ++
       or_zeros (ver_ge c SpdmVersion14) (bytes (ar_pqc_asym_sel v)) 4 ++ zeros 7 ++
       or_zeros (ver_ge c SpdmVersion13) (bytes (ar_mel_specification_sel v)) 1 ++
       [0] ++ [0] ++ le_bytes 2 0 ++
       when_bytes v11 (front_bytes (ar_alg_struct_count v) bytes (ar_alg_struct v)) |}.
Next Obligation.
  intros c v (H1 & H2 & _ & H3 & _ & H4 & _ & H5 & _ & H6 & _ & H7 & _ & _ & H8 & st & H9 & _). cbv zeta.
  pose proof (algs_opt_bytes_wf _ _ _ _ _ _ H9). msg_bytes.
Qed.
Next Obligation.
  intros c v (H1 & H2 & _ & H3 & _ & H4 & _ & H5 & _ & H6 & _ & H7 & _ & _ & H8 & st & H9 & _).
  unfold spdm_encode, spdm_codec_algorithms. cbv zeta.
  pose proof (encodes_algs_opt _ _ _ _ _ _ H9). rewrite alg_length_ok by (by eapply algs_opt_count). msg_encodes.
Qed.
Next Obligation.
  intros c v (H1 & H2 & C1 & H3 & C2 & H4 & C3 & H5 & C4 & H6 & C5 & H7 & C6 & C7 & H8 & st & H9 & C8).
  unfold spdm_read, spdm_codec_algorithms. cbv zeta.
  pose proof (algs_opt_count _ _ _ _ _ _ H9) as Hc. pose proof (decodes_algs_opt _ _ _ _ _ _ H9).
  pose proof (alg_len_width (ver_ge c SpdmVersion11) 36 _ ltac:(lia) Hc).
  pose proof (alg_length_ok (E:=unit) (ver_ge c SpdmVersion11) 36 _ Hc).
  msg_decodes. by destruct v.
Qed.
Next Obligation.
  intros c _. unfold spdm_read, spdm_codec_algorithms. cbv zeta.
  repeat lazymatch goal with
  | |- reads (bind (read_when _ (read_algs _ _ _ _) _) _) _ => fail
  | |- reads (bind _ _) _ => rd_step
  end.
  eapply reads_bind; [by apply reads_algs_opt|]. intros p Hp. rd_step.
  pose proof (algs_opt_count _ _ _ _ _ _ Hp) as Hc. rewrite alg_length_ok by done.
  eapply reads_bind; [by apply (reads_lift (Ok _) (λ _, True))|]. intros n _. rd_step. apply reads_ret.
  unfold algorithms_wf. cbv zeta. repeat (split; [assumption|]). by exists (fst p).
Qed.
