(* ===== verification/MsgAuth.v ===== *)
(** * Authentication and measurement messages

    Models src/spdmlib/src/message/digest.rs, certificate.rs, challenge.rs and
    measurement.rs: the payloads of GET_DIGESTS, DIGESTS, GET_CERTIFICATE,
    CERTIFICATE, CHALLENGE, CHALLENGE_AUTH, GET_MEASUREMENTS and MEASUREMENTS
    with their codecs.  Proved: the contract of every codec. *)

From Stdlib Require Import String.
From S2P Require Import Prelude Codec Status Bitflags Algo DataTypes Structs Version Session.
From S2P Require Import HashCtx ContextData Context SpdmCodec Opaque MsgLib.
Import Context.

(** ** GET_DIGESTS *)
Inductive SpdmGetDigestsRequestPayload := mkGetDigests.
#[export] Instance spdm_codec_get_digests : SpdmCodec SpdmGetDigestsRequestPayload :=
  {| spdm_encode _ _ := let* s0 := enc (0 : u8) in let* s1 := enc (0 : u8) in ret (s0 + s1);
     spdm_read _ := let* _ := read (A:=u8) in let* _ := read (A:=u8) in ret mkGetDigests |}.

(** ** DIGESTS *)
Record SpdmDigestsResponsePayload := mkDigests {
  dg_slot_mask : u8;
  dg_digests : list SpdmDigestStruct;
  dg_supported_slot_mask : u8;
  dg_key_pair_id : list u8;
  dg_certificate_info : list SpdmCertificateModelType;
  dg_key_usage_mask : list SpdmKeyUsageMask;
}.
(** [for i in 0..8 { if (mask & (1 << i)) != 0 { count += 1 } }] *)
Definition slot_count (mask : u8) : u8 :=
  len (filter (λ i, Z.land mask (Z.shiftl 1 i) ≠ 0) [0; 1; 2; 3; 4; 5; 6; 7]).
Definition multi_key_rsp (c : SpdmContext) : bool :=
  ver_ge c SpdmVersion13 && multi_key_conn_rsp (negotiate_info c).
Definition slot_array {A} (d : A) : list A := replicate (Z.to_nat SPDM_MAX_SLOT_NUMBER) d.
#[export] Instance spdm_codec_digests : SpdmCodec SpdmDigestsResponsePayload :=
  {| spdm_encode c v :=
       let* s0 := enc_or_zeros (ver_ge c SpdmVersion13) (dg_supported_slot_mask v) 1 in
       let* s1 := enc (dg_slot_mask v) in
       let count := slot_count (dg_slot_mask v) in
       let multi := multi_key_rsp c in
       let* s2 := enc_list (spdm_encode c) (ztake count (dg_digests v)) in
       let* s3 := enc_when multi (enc_list enc (ztake count (dg_key_pair_id v))) in
       let* s4 := enc_when multi (enc_list enc (ztake count (dg_certificate_info v))) in
       let* s5 := enc_when multi (enc_list enc (ztake count (dg_key_usage_mask v))) in
       ret (s0 + s1 + s2 + s3 + s4 + s5);
     spdm_read c :=
       let* supported_slot_mask := read_or_skip (ver_ge c SpdmVersion13) 1 (0 : u8) in
       let* slot_mask := read (A:=u8) in
       let count := Z.to_nat (slot_count slot_mask) in
       let multi := multi_key_rsp c in
       let* digests := read_front (spdm_read c) count (slot_array sens_default) in
       let* key_pair_id := read_when multi (read_front read count (slot_array (0 : u8))) (slot_array (0 : u8)) in
       let* certificate_info :=
         read_when multi (read_front read count (slot_array SpdmCertModelTypeNone)) (slot_array SpdmCertModelTypeNone) in
       let* key_usage_mask :=
         read_when multi (read_front read count (slot_array empty_flags)) (slot_array empty_flags) in
       ret (mkDigests slot_mask digests supported_slot_mask key_pair_id certificate_info key_usage_mask) |}.

(** ** GET_CERTIFICATE *)
Definition MAX_SPDM_CERT_PORTION_LEN : usize := 512.
Record SpdmGetCertificateRequestPayload := mkGetCertificate {
  gcert_slot_id : u8;
  gcert_offset : u32;
  gcert_length : u32;
}.
Definition large_cert (c : SpdmContext) : bool :=
  ver_ge c SpdmVersion14 && rsp_cap c SpdmResponseCapabilityFlags.LARGE_RESP_CAP
  && req_cap c SpdmRequestCapabilityFlags.LARGE_RESP_CAP.
(** Lengths and offsets are 32 bits wide in large messages, else 16. *)
Definition slot_param (slot_id : u8) (large : bool) : u8 :=
  Z.lor (Z.land slot_id 0xF) (if large then 0x80 else 0x00).
Definition enc_size (large : bool) (x : u32) : M Writer SpdmStatus usize :=
  if large then enc x else enc (Z.land x 0xffff : u16).
Definition read_size (large : bool) : M Reader unit u32 :=
  if large then read (A:=u32) else read (A:=u16).
#[export] Instance spdm_codec_get_certificate : SpdmCodec SpdmGetCertificateRequestPayload :=
  {| spdm_encode c v :=
       let large := large_cert c in
       let* s0 := enc (slot_param (gcert_slot_id v) large) in
       let* s1 := enc (0 : u8) in
       let* s2 := enc_when large (enc (0 : u16)) in
       let* s3 := enc_when large (enc (0 : u16)) in
       let* s4 := enc_size large (gcert_offset v) in
       let* s5 := enc_size large (gcert_length v) in
       ret (s0 + s1 + s2 + s3 + s4 + s5);
     spdm_read c :=
       let* param1 := read (A:=u8) in
       let slot_id := Z.land param1 0xF in
       let* _ := reject (SPDM_MAX_SLOT_NUMBER <=? slot_id) in
       let large := negb (Z.land param1 0x80 =? 0) in
       let* _ := reject (large && negb (large_cert c)) in
       let* _ := read (A:=u8) in
       let* _ := read_when large (read (A:=u16)) 0 in
       let* _ := read_when large (read (A:=u16)) 0 in
       let* offset := read_size large in
       let* length := read_size large in
       ret (mkGetCertificate slot_id offset length) |}.

(** ** CERTIFICATE *)
Record SpdmCertificateResponsePayload := mkCertificate {
  cert_slot_id : u8;
  cert_portion_length : u32;
  cert_remainder_length : u32;
  cert_cert_chain : list Z;
}.
#[export] Instance spdm_codec_certificate : SpdmCodec SpdmCertificateResponsePayload :=
  {| spdm_encode c v :=
       let large := large_cert c in
       let* s0 := enc (slot_param (cert_slot_id v) large) in
       let* s1 := enc (0 : u8) in
       let* s2 := enc_when large (enc (0 : u16)) in
       let* s3 := enc_when large (enc (0 : u16)) in
       let* s4 := enc_size large (cert_portion_length v) in
       let* s5 := enc_size large (cert_remainder_length v) in
       let* s6 := enc_prefix (cert_portion_length v) (cert_cert_chain v) in
       ret (s0 + s1 + s2 + s3 + s4 + s5 + s6);
     spdm_read c :=
       let* param1 := read (A:=u8) in
       let slot_id := Z.land param1 0xF in
       let* _ := reject (SPDM_MAX_SLOT_NUMBER <=? slot_id) in
       let large := negb (Z.land param1 0x80 =? 0) in
       let* _ := reject (large && negb (large_cert c)) in
       let* _ := read (A:=u8) in
       let* _ := read_when large (read (A:=u16)) 0 in
       let* _ := read_when large (read (A:=u16)) 0 in
       let* portion_length := read_size large in
       let* remainder_length := read_size large in
       let* cert_chain := read_prefix portion_length (zeros MAX_SPDM_CERT_PORTION_LEN) in
       ret (mkCertificate slot_id portion_length remainder_length cert_chain) |}.

(** ** CHALLENGE *)
Record SpdmChallengeRequestPayload := mkChallenge {
  chal_slot_id : u8;
  chal_measurement_summary_hash_type : SpdmMeasurementSummaryHashType;
  chal_nonce : SpdmNonceStruct;
  chal_context : SpdmChallengeContextStruct;
}.
(** A summary is refused when there are no measurements to summarise; shared
    by CHALLENGE, KEY_EXCHANGE and PSK_EXCHANGE. *)
Definition summary_type_bad (c : SpdmContext) (t : SpdmMeasurementSummaryHashType) : bool :=
  match t with
  | SpdmMeasurementSummaryHashTypeNone => false
  | SpdmMeasurementSummaryHashTypeAll | SpdmMeasurementSummaryHashTypeTcb =>
      negb (rsp_cap c SpdmResponseCapabilityFlags.MEAS_CAP_SIG)
      && negb (rsp_cap c SpdmResponseCapabilityFlags.MEAS_CAP_NO_SIG)
  | SummaryHashTypeUnknown _ => true
  end.
(** [slot_id >= SPDM_MAX_SLOT_NUMBER && slot_id != special] *)
Definition slot_bad (special slot_id : u8) : bool :=
  (SPDM_MAX_SLOT_NUMBER <=? slot_id) && negb (slot_id =? special).
#[export] Instance spdm_codec_challenge : SpdmCodec SpdmChallengeRequestPayload :=
  {| spdm_encode c v :=
       let* s0 := enc (chal_slot_id v) in
       let* s1 := enc (chal_measurement_summary_hash_type v) in
       let* s2 := enc (chal_nonce v) in
       let* s3 := enc_when (ver_ge c SpdmVersion13) (enc (chal_context v)) in
       ret (s0 + s1 + s2 + s3);
     spdm_read c :=
       let* slot_id := read (A:=u8) in
       let* _ := reject (slot_bad 0xFF slot_id) in
       let* measurement_summary_hash_type := read in
       let* _ := reject (summary_type_bad c measurement_summary_hash_type) in
       let* nonce := read in
       let* requester_context := read_when (ver_ge c SpdmVersion13) read byte_array_default in
       ret (mkChallenge slot_id measurement_summary_hash_type nonce requester_context) |}.

(** ** CHALLENGE_AUTH *)
Definition SpdmChallengeAuthAttribute_desc : flag_desc := mkDesc "SpdmChallengeAuthAttribute" W8 [0x80].
Abbreviation SpdmChallengeAuthAttribute := (flags SpdmChallengeAuthAttribute_desc).
#[export] Instance SpdmChallengeAuthAttribute_desc_ok : DescOk SpdmChallengeAuthAttribute_desc.
Proof. solve_desc. Qed.
Record SpdmChallengeAuthResponsePayload := mkChallengeAuth {
  ca_slot_id : u8;
  ca_slot_mask : u8;
  ca_challenge_auth_attribute : SpdmChallengeAuthAttribute;
  ca_cert_chain_hash : SpdmDigestStruct;
  ca_nonce : SpdmNonceStruct;
  ca_measurement_summary_hash : SpdmDigestStruct;
  ca_opaque : SpdmOpaqueStruct;
  ca_requester_context : SpdmChallengeContextStruct;
  ca_signature : SpdmSignatureStruct;
}.
#[export] Instance spdm_codec_challenge_auth : SpdmCodec SpdmChallengeAuthResponsePayload :=
  {| spdm_encode c v :=
       let* param1 := lift (add_checked 8 (ca_slot_id v) (bits (ca_challenge_auth_attribute v))) in
       let* s0 := enc (param1 : u8) in
       let* s1 := enc (ca_slot_mask v) in
       let* s2 := spdm_encode c (ca_cert_chain_hash v) in
       let* s3 := enc (ca_nonce v) in
       let* s4 := enc_when (need_measurement_summary_hash (runtime_info c))
         (spdm_encode c (ca_measurement_summary_hash v)) in
       let* s5 := spdm_encode c (ca_opaque v) in
       let* s6 := enc_when (ver_ge c SpdmVersion13) (enc (ca_requester_context v)) in
       let* s7 := spdm_encode c (ca_signature v) in
       ret (s0 + s1 + s2 + s3 + s4 + s5 + s6 + s7);
     spdm_read c :=
       let* param1 := read (A:=u8) in
       let slot_id := Z.land param1 0xF in
       let* _ := reject (slot_bad 0xF slot_id) in
       let* challenge_auth_attribute :=
         lift (ok_or (from_bits (Z.land param1 (VALID_MASK SpdmChallengeAuthAttribute_desc))) tt) in
       let* slot_mask := read (A:=u8) in
       let* cert_chain_hash := spdm_read c in
       let* nonce := read in
       let* measurement_summary_hash :=
         read_when (need_measurement_summary_hash (runtime_info c)) (spdm_read c) sens_default in
       let* opaque := spdm_read c in
       let* requester_context := read_when (ver_ge c SpdmVersion13) read byte_array_default in
       let* signature := spdm_read c in
       ret (mkChallengeAuth slot_id slot_mask challenge_auth_attribute cert_chain_hash nonce
              measurement_summary_hash opaque requester_context signature) |}.

(** ** GET_MEASUREMENTS *)
Definition SPDM_PUB_KEY_SLOT_ID_MEASUREMENT : u8 := 0xF.
Definition SpdmMeasurementAttributes_desc : flag_desc := mkDesc "SpdmMeasurementAttributes" W8 [0x1; 0x2; 0x4].
Abbreviation SpdmMeasurementAttributes := (flags SpdmMeasurementAttributes_desc).
#[export] Instance SpdmMeasurementAttributes_desc_ok : DescOk SpdmMeasurementAttributes_desc.
Proof. solve_desc. Qed.
Definition SIGNATURE_REQUESTED : SpdmMeasurementAttributes := mkFlags 0x1.
Definition RAW_BIT_STREAM_REQUESTED : SpdmMeasurementAttributes := mkFlags 0x2.
Inductive SpdmMeasurementOperation :=
| SpdmMeasurementQueryTotalNumber | SpdmMeasurementRequestAll | MeasurementOperationUnknown (x : u8).
#[export] Instance SpdmMeasurementOperation_eq_dec : EqDecision SpdmMeasurementOperation.
Proof. solve_decision. Defined.
#[export] Instance enum_SpdmMeasurementOperation : EnumBuilder SpdmMeasurementOperation :=
  {| get_int o :=
       match o with
       | SpdmMeasurementQueryTotalNumber => 0x0 | SpdmMeasurementRequestAll => 0xFF
       | MeasurementOperationUnknown x => x
       end;
     of_int x :=
       if x =? 0x0 then SpdmMeasurementQueryTotalNumber else
       if x =? 0xFF then SpdmMeasurementRequestAll else MeasurementOperationUnknown x |}.
#[export] Instance codec_SpdmMeasurementOperation : Codec SpdmMeasurementOperation := enum_u8.
Record SpdmGetMeasurementsRequestPayload := mkGetMeasurements {
  gm_measurement_attributes : SpdmMeasurementAttributes;
  gm_measurement_operation : SpdmMeasurementOperation;
  gm_nonce : SpdmNonceStruct;
  gm_slot_id : u8;
  gm_context : SpdmMeasurementContextStruct;
}.
#[export] Instance spdm_codec_get_measurements : SpdmCodec SpdmGetMeasurementsRequestPayload :=
  {| spdm_encode c v :=
       let sig := contains (gm_measurement_attributes v) SIGNATURE_REQUESTED in
       let* s0 := enc (gm_measurement_attributes v) in
       let* s1 := enc (gm_measurement_operation v) in
       let* s2 := enc_when sig (enc (gm_nonce v)) in
       let* s3 := enc_when (sig && ver_ge c SpdmVersion11) (enc (gm_slot_id v)) in
       let* s4 := enc_when (ver_ge c SpdmVersion13) (enc (gm_context v)) in
       ret (s0 + s1 + s2 + s3 + s4);
     spdm_read c :=
       let* measurement_attributes := read in
       let* measurement_operation := read in
       let sig := contains measurement_attributes SIGNATURE_REQUESTED in
       let* nonce := read_when sig read byte_array_default in
       let* slot_id := read_when (sig && ver_ge c SpdmVersion11)
         (let* x := read (A:=u8) in ret (Z.land x 0xF)) 0 in
       let* _ := reject (slot_bad SPDM_PUB_KEY_SLOT_ID_MEASUREMENT slot_id) in
       let* requester_context := read_when (ver_ge c SpdmVersion13) read byte_array_default in
       ret (mkGetMeasurements measurement_attributes measurement_operation nonce slot_id requester_context) |}.

(** ** MEASUREMENTS *)
Definition MEASUREMENT_RESPONDER_PARAM2_SLOT_ID_MASK : u8 := 0xF.
Definition MEASUREMENT_RESPONDER_PARAM2_CONTENT_CHANGED_MASK : u8 := 0x30.
Record SpdmMeasurementsResponsePayload := mkMeasurements {
  ms_number_of_measurement : u8;
  ms_content_changed : SpdmMeasurementContentChanged;
  ms_slot_id : u8;
  ms_measurement_record : SpdmMeasurementRecordStructure;
  ms_nonce : SpdmNonceStruct;
  ms_opaque : SpdmOpaqueStruct;
  ms_requester_context : SpdmMeasurementContextStruct;
  ms_signature : SpdmSignatureStruct;
  ms_measurement_operation : SpdmMeasurementOperation;
}.
Definition measurements_param1 (v : SpdmMeasurementsResponsePayload) : u8 :=
  if decide (ms_measurement_operation v = SpdmMeasurementQueryTotalNumber)
  then ms_number_of_measurement v else 0.
Definition measurements_param2 (c : SpdmContext) (v : SpdmMeasurementsResponsePayload) : u8 :=
  let signed := need_measurement_signature (runtime_info c) in
  if ver_ge c SpdmVersion12 && signed
  then Z.lor (ms_slot_id v) (content_changed_u8 (ms_content_changed v))
  else if ver_ge c SpdmVersion11 && signed then ms_slot_id v
  else 0.
#[export] Instance spdm_codec_measurements : SpdmCodec SpdmMeasurementsResponsePayload :=
  {| spdm_encode c v :=
       let* s0 := enc (measurements_param1 v) in
       let* s1 := enc (measurements_param2 c v) in
       let* s2 := spdm_encode c (ms_measurement_record v) in
       let* s3 := enc (ms_nonce v) in
       let* s4 := spdm_encode c (ms_opaque v) in
       let* s5 := enc_when (ver_ge c SpdmVersion13) (enc (ms_requester_context v)) in
       let* s6 := enc_when (need_measurement_signature (runtime_info c)) (spdm_encode c (ms_signature v)) in
       ret (s0 + s1 + s2 + s3 + s4 + s5 + s6);
     spdm_read c :=
       let* number_of_measurement := read (A:=u8) in
       let* param2 := read (A:=u8) in
       let slot_id := Z.land param2 MEASUREMENT_RESPONDER_PARAM2_SLOT_ID_MASK in
       let* _ := reject (slot_bad SPDM_PUB_KEY_SLOT_ID_MEASUREMENT slot_id) in
       let content_changed := Z.land param2 MEASUREMENT_RESPONDER_PARAM2_CONTENT_CHANGED_MASK in
       let* content_changed := lift (ok_or (content_changed_try_from content_changed) tt) in
       let* measurement_record := spdm_read c in
       let* nonce := read in
       let* opaque := spdm_read c in
       let* requester_context := read_when (ver_ge c SpdmVersion13) read byte_array_default in
       let* signature := read_when (need_measurement_signature (runtime_info c)) (spdm_read c) sens_default in
       ret (mkMeasurements number_of_measurement content_changed slot_id measurement_record nonce opaque
              requester_context signature (MeasurementOperationUnknown 0)) |}.

(** ** Laws *)
#[export] Program Instance spdm_codec_ok_get_digests : SpdmCodecOk SpdmGetDigestsRequestPayload :=
  {| sready _ := True; swf _ _ := True; sgood _ _ := True; sbytes _ _ := [0] ++ [0] |}.
Next Obligation. intros c a _. msg_bytes. Qed.
Next Obligation. intros c a _. unfold spdm_encode, spdm_codec_get_digests. msg_encodes. Qed.
Next Obligation. intros c [] _. unfold spdm_read, spdm_codec_get_digests. by msg_decodes. Qed.
Next Obligation. intros c _. unfold spdm_read, spdm_codec_get_digests. by msg_reads. Qed.

Lemma slot_count_bound mask : 0 ≤ slot_count mask ≤ SPDM_MAX_SLOT_NUMBER.
Proof.
  unfold slot_count. split; [apply len_nonneg|]. change SPDM_MAX_SLOT_NUMBER with (len [0; 1; 2; 3; 4; 5; 6; 7]).
  unfold len. apply inj_le, length_filter.
Qed.
Definition digests_wf (c : SpdmContext) (v : SpdmDigestsResponsePayload) : Prop :=
  let count := slot_count (dg_slot_mask v) in
  let multi := multi_key_rsp c in
  when_wf (ver_ge c SpdmVersion13) wf (0 : u8) (dg_supported_slot_mask v) ∧
  in_width 8 (dg_slot_mask v) ∧
  front count SPDM_MAX_SLOT_NUMBER sens_default (swf c) (dg_digests v) ∧
  when_wf multi (front count SPDM_MAX_SLOT_NUMBER (0 : u8) wf) (slot_array (0 : u8)) (dg_key_pair_id v) ∧
  when_wf multi (front count SPDM_MAX_SLOT_NUMBER SpdmCertModelTypeNone wf) (slot_array SpdmCertModelTypeNone)
    (dg_certificate_info v) ∧
  when_wf multi (front count SPDM_MAX_SLOT_NUMBER empty_flags wf) (slot_array empty_flags) (dg_key_usage_mask v).
#[export] Program Instance spdm_codec_ok_digests : SpdmCodecOk SpdmDigestsResponsePayload :=
  {| sready c := sready (A:=SpdmDigestStruct) c;
     swf := digests_wf;
     sgood := digests_wf;
     sbytes c v :=
       let count := slot_count (dg_slot_mask v) in
       let multi := multi_key_rsp c in
       or_zeros (ver_ge c SpdmVersion13) (bytes (dg_supported_slot_mask v)) 1 ++ [dg_slot_mask v] ++
       front_bytes count (sbytes c) (dg_digests v) ++
       when_bytes multi (front_bytes count bytes (dg_key_pair_id v)) ++
       when_bytes multi (front_bytes count bytes (dg_certificate_info v)) ++
       when_bytes multi (front_bytes count bytes (dg_key_usage_mask v)) |}.
Next Obligation. intros c v (H1 & H2 & H3 & H4 & H5 & H6). cbv zeta. msg_bytes. Qed.
Next Obligation.
  intros c v (H1 & H2 & H3 & H4 & H5 & H6). unfold spdm_encode at 1, spdm_codec_digests. cbv zeta. msg_encodes.
Qed.
Next Obligation.
  intros c v (H1 & H2 & H3 & H4 & H5 & H6). unfold spdm_read at 1, spdm_codec_digests. cbv zeta.
  msg_decodes. by destruct v.
Qed.
Next Obligation.
  intros c Hc. unfold spdm_read at 1, spdm_codec_digests. cbv zeta.
  eapply reads_bind; [apply reads_or_skip|]. intros m Hm. eapply reads_bind; [apply reads_u8|]. intros mask Hmask.
  pose proof (slot_count_bound mask). msg_reads. msg_post.
Qed.

(** *** GET_CERTIFICATE and CERTIFICATE *)
Definition slot_ok (slot_id : u8) : Prop := 0 ≤ slot_id < SPDM_MAX_SLOT_NUMBER.
Lemma slot_param_split slot large :
  slot_ok slot →
  let p := slot_param slot large in
  in_width 8 p ∧ Z.land p 0xF = slot ∧ negb (Z.land p 0x80 =? 0) = large.
Proof.
  unfold slot_ok, SPDM_MAX_SLOT_NUMBER. intros Hs.
  assert (slot ∈ seqZ 0 8) as Hin by (apply elem_of_seqZ; lia).
  repeat (apply elem_of_cons in Hin as [->|Hin]; [by destruct large|]). by apply elem_of_nil in Hin.
Qed.
Definition size_wf (large : bool) (x : u32) : Prop := in_width (if large then 32 else 16) x.
Definition size_bytes (large : bool) (x : u32) : list Z := le_bytes (if large then 4 else 2) x.
Lemma encodes_size large x :
  size_wf large x →
  writes SPDM_STATUS_BUFFER_FULL (enc_size large x) (size_bytes large x) (len (size_bytes large x)).
Proof.
  unfold size_wf, enc_size, size_bytes. destruct large; intros Hx; [apply enc_u32|].
  change 0xffff with (Z.ones 16). rewrite land_low, Z.mod_small by done. apply enc_u16.
Qed.
Lemma decodes_size large x : size_wf large x → decodes (read_size large) (size_bytes large x) x.
Proof. unfold size_wf, read_size, size_bytes. destruct large; [apply decodes_u32|apply decodes_u16]. Qed.
Lemma reads_size large : reads (read_size large) (size_wf large).
Proof. unfold read_size, size_wf. destruct large; [apply reads_u32|apply reads_u16]. Qed.
Lemma size_bytes_wf large x : bytes_wf (size_bytes large x).
Proof. apply bytes_wf_le_bytes. Qed.
Lemma decodes_when_u16_zero b : decodes (read_when b (read (A:=u16)) 0) (when_bytes b (le_bytes 2 0)) 0.
Proof. apply decodes_when; intros _; [by apply (decodes_u16 0)|done]. Qed.
Lemma writes_when_u16_zero b :
  writes SPDM_STATUS_BUFFER_FULL (enc_when b (enc (0 : u16))) (when_bytes b (le_bytes 2 0)) (len (when_bytes b (le_bytes 2 0))).
Proof. apply encodes_when. intros _. apply enc_u16. Qed.
Lemma when_u16_zero_ok b : bytes_wf (when_bytes b (le_bytes 2 0)).
Proof. apply when_bytes_wf. intros _. apply bytes_wf_le_bytes. Qed.
#[export] Hint Resolve encodes_size decodes_size reads_size size_bytes_wf
  decodes_when_u16_zero writes_when_u16_zero when_u16_zero_ok : msg.
(** A message of the small form read in a large connection. *)
Lemma size_wf_large c large x : large && negb (large_cert c) = false → size_wf large x → size_wf (large_cert c) x.
Proof. unfold size_wf, in_width. destruct large, (large_cert c); cbn; intros; try done; lia. Qed.
Lemma slot_low x : (SPDM_MAX_SLOT_NUMBER <=? Z.land x 0xF) = false → slot_ok (Z.land x 0xF).
Proof.
  intros H. unfold slot_ok. split; [|lia]. change 0xF with (Z.ones 4). rewrite land_low by done.
  apply Z.mod_pos_bound. done.
Qed.

Definition get_certificate_wf (c : SpdmContext) (v : SpdmGetCertificateRequestPayload) : Prop :=
  slot_ok (gcert_slot_id v) ∧ size_wf (large_cert c) (gcert_offset v) ∧ size_wf (large_cert c) (gcert_length v).
#[export] Program Instance spdm_codec_ok_get_certificate : SpdmCodecOk SpdmGetCertificateRequestPayload :=
  {| sready _ := True;
     swf := get_certificate_wf;
     sgood := get_certificate_wf;
     sbytes c v :=
       let large := large_cert c in
       [slot_param (gcert_slot_id v) large] ++ [0] ++ when_bytes large (le_bytes 2 0) ++
       when_bytes large (le_bytes 2 0) ++ size_bytes large (gcert_offset v) ++ size_bytes large (gcert_length v) |}.
Next Obligation.
  intros c v (H1 & H2 & H3). cbv zeta. destruct (slot_param_split _ (large_cert c) H1) as (Hp & _ & _). msg_bytes.
Qed.
Next Obligation.
  intros c v (H1 & H2 & H3). unfold spdm_encode, spdm_codec_get_certificate. cbv zeta. msg_encodes.
Qed.
Next Obligation.
  intros c v (H1 & H2 & H3). unfold spdm_read, spdm_codec_get_certificate. cbv zeta.
  destruct (slot_param_split _ (large_cert c) H1) as (Hp & Hs & Hl). dec_step. rewrite Hs, Hl.
  apply decodes_reject; [unfold slot_ok in H1; lia|]. apply decodes_reject; [by destruct (large_cert c)|].
  msg_decodes. by destruct v.
Qed.
Next Obligation.
  intros c _. unfold spdm_read, spdm_codec_get_certificate. cbv zeta. msg_reads.
  split; [by apply slot_low|]. split; by eapply size_wf_large.
Qed.

Definition certificate_wf (c : SpdmContext) (v : SpdmCertificateResponsePayload) : Prop :=
  slot_ok (cert_slot_id v) ∧ size_wf (large_cert c) (cert_portion_length v) ∧
  size_wf (large_cert c) (cert_remainder_length v) ∧
  padded (cert_portion_length v) MAX_SPDM_CERT_PORTION_LEN (cert_cert_chain v).
(** The portion length is not checked on reading. *)
Definition certificate_good (c : SpdmContext) (v : SpdmCertificateResponsePayload) : Prop :=
  slot_ok (cert_slot_id v) ∧ size_wf (large_cert c) (cert_portion_length v) ∧
  size_wf (large_cert c) (cert_remainder_length v) ∧
  len (cert_cert_chain v) = MAX_SPDM_CERT_PORTION_LEN ∧ bytes_wf (cert_cert_chain v).
#[export] Program Instance spdm_codec_ok_certificate : SpdmCodecOk SpdmCertificateResponsePayload :=
  {| sready _ := True;
     swf := certificate_wf;
     sgood := certificate_good;
     sbytes c v :=
       let large := large_cert c in
       [slot_param (cert_slot_id v) large] ++ [0] ++ when_bytes large (le_bytes 2 0) ++
       when_bytes large (le_bytes 2 0) ++ size_bytes large (cert_portion_length v) ++
       size_bytes large (cert_remainder_length v) ++ ztake (cert_portion_length v) (cert_cert_chain v) |}.
Next Obligation.
  intros c v (H1 & H2 & H3 & _ & _ & _ & H4). cbv zeta. destruct (slot_param_split _ (large_cert c) H1) as (Hp & _ & _). msg_bytes.
Qed.
Next Obligation.
  intros c v (H1 & H2 & H3 & H4). unfold spdm_encode, spdm_codec_certificate. cbv zeta. msg_encodes.
Qed.
Next Obligation.
  intros c v (H1 & H2 & H3 & H4). unfold spdm_read, spdm_codec_certificate. cbv zeta.
  destruct (slot_param_split _ (large_cert c) H1) as (Hp & Hs & Hl). dec_step. rewrite Hs, Hl.
  apply decodes_reject; [unfold slot_ok in H1; lia|]. apply decodes_reject; [by destruct (large_cert c)|].
  msg_decodes. by destruct v.
Qed.
Next Obligation.
  intros c _. unfold spdm_read, spdm_codec_certificate. cbv zeta.
  pose proof (bytes_wf_zeros MAX_SPDM_CERT_PORTION_LEN) as Hz. do 8 rd_step.
  eapply reads_bind; [by apply reads_prefix|]. intros l [Hl Hw]. apply reads_ret.
  split; [by apply slot_low|]. split; [by eapply size_wf_large|]. split; [by eapply size_wf_large|].
  cbn [cert_cert_chain]. split; [|done]. rewrite Hl. by apply len_zeros.
Qed.

(** *** CHALLENGE and CHALLENGE_AUTH *)
Definition challenge_wf (c : SpdmContext) (v : SpdmChallengeRequestPayload) : Prop :=
  in_width 8 (chal_slot_id v) ∧ slot_bad 0xFF (chal_slot_id v) = false ∧
  wf (chal_measurement_summary_hash_type v) ∧
  summary_type_bad c (chal_measurement_summary_hash_type v) = false ∧
  wf (chal_nonce v) ∧ when_wf (ver_ge c SpdmVersion13) wf byte_array_default (chal_context v).
#[export] Program Instance spdm_codec_ok_challenge : SpdmCodecOk SpdmChallengeRequestPayload :=
  {| sready _ := True;
     swf := challenge_wf;
     sgood := challenge_wf;
     sbytes c v := [chal_slot_id v] ++ bytes (chal_measurement_summary_hash_type v) ++ bytes (chal_nonce v) ++
       when_bytes (ver_ge c SpdmVersion13) (bytes (chal_context v)) |}.
Next Obligation. intros c v (H1 & _ & H2 & _ & H3 & H4). msg_bytes. Qed.
Next Obligation. intros c v (H1 & _ & H2 & _ & H3 & H4). unfold spdm_encode, spdm_codec_challenge. msg_encodes. Qed.
Next Obligation.
  intros c v (H1 & C1 & H2 & C2 & H3 & H4). unfold spdm_read, spdm_codec_challenge. msg_decodes. by destruct v.
Qed.
Next Obligation. intros c _. unfold spdm_read, spdm_codec_challenge. msg_reads. msg_post. Qed.

Definition challenge_auth_wf (c : SpdmContext) (v : SpdmChallengeAuthResponsePayload) : Prop :=
  nibble (ca_slot_id v) ∧ slot_bad 0xF (ca_slot_id v) = false ∧
  wf (ca_challenge_auth_attribute v) ∧ in_width 8 (ca_slot_mask v) ∧
  swf c (ca_cert_chain_hash v) ∧ wf (ca_nonce v) ∧
  when_wf (need_measurement_summary_hash (runtime_info c)) (swf c) sens_default (ca_measurement_summary_hash v) ∧
  swf c (ca_opaque v) ∧ when_wf (ver_ge c SpdmVersion13) wf byte_array_default (ca_requester_context v) ∧
  swf c (ca_signature v).
Lemma auth_attribute_cases (a : SpdmChallengeAuthAttribute) : wf a → bits a = 0 ∨ bits a = 0x80.
Proof.
  destruct a as [b]. intros [H _]. cbn [bits] in *.
  change (VALID_MASK SpdmChallengeAuthAttribute_desc) with (Z.shiftl (Z.ones 1) 7) in H. rewrite land_field in H by done.
  pose proof (Z.mod_pos_bound (b / 2 ^ 7) (2 ^ 1) ltac:(lia)). lia.
Qed.
Lemma auth_param_split slot (a : SpdmChallengeAuthAttribute) :
  nibble slot → wf a →
  let p := slot + bits a in
  in_width 8 p ∧ Z.land p 0xF = slot ∧ from_bits (Z.land p (VALID_MASK SpdmChallengeAuthAttribute_desc)) = Some a.
Proof.
  intros Hs Ha. assert (slot ∈ seqZ 0 16) as Hin by (apply elem_of_seqZ; unfold nibble in Hs; lia).
  destruct (auth_attribute_cases a Ha) as [He|He]; destruct a as [b]; cbn [bits] in He; subst b; clear Hs Ha;
    repeat (apply elem_of_cons in Hin as [->|Hin]; [done|]); by apply elem_of_nil in Hin.
Qed.
Lemma nibble_low x : nibble (Z.land x 0xF).
Proof. unfold nibble. change 0xF with (Z.ones 4). rewrite land_low by done. by apply Z.mod_pos_bound. Qed.
Lemma from_bits_wf {d} `{DescOk d} x f :
  in_width (iw_bits (fd_width d)) x → from_bits (d:=d) (Z.land x (VALID_MASK d)) = Some f → wf f.
Proof.
  intros Hx. rewrite from_bits_masked. intros [= <-]. split; [apply land_land_mask|]. cbn.
  apply in_width_land; [by destruct (fd_width d)|done|apply mask_bound].
Qed.

#[export] Program Instance spdm_codec_ok_challenge_auth : SpdmCodecOk SpdmChallengeAuthResponsePayload :=
  {| sready c := sready (A:=SpdmDigestStruct) c ∧ sready (A:=SpdmSignatureStruct) c;
     swf := challenge_auth_wf;
     sgood := challenge_auth_wf;
     sbytes c v := [ca_slot_id v + bits (ca_challenge_auth_attribute v)] ++ [ca_slot_mask v] ++
       sbytes c (ca_cert_chain_hash v) ++ bytes (ca_nonce v) ++
       when_bytes (need_measurement_summary_hash (runtime_info c)) (sbytes c (ca_measurement_summary_hash v)) ++
       sbytes c (ca_opaque v) ++ when_bytes (ver_ge c SpdmVersion13) (bytes (ca_requester_context v)) ++
       sbytes c (ca_signature v) |}.
Next Obligation.
  intros c v (H1 & _ & H2 & H3 & H4 & H5 & H6 & H7 & H8 & H9). destruct (auth_param_split _ _ H1 H2) as (Hp & _ & _). msg_bytes.
Qed.
Next Obligation.
  intros c v (H1 & _ & H2 & H3 & H4 & H5 & H6 & H7 & H8 & H9). destruct (auth_param_split _ _ H1 H2) as (Hp & _ & _).
  unfold spdm_encode at 1, spdm_codec_challenge_auth. unfold add_checked, in_width in *.
  replace (_ <? 2 ^ 8) with true by lia. msg_encodes.
Qed.
Next Obligation.
  intros c v (H1 & C1 & H2 & H3 & H4 & H5 & H6 & H7 & H8 & H9). destruct (auth_param_split _ _ H1 H2) as (Hp & Hs & Ha).
  unfold spdm_read at 1, spdm_codec_challenge_auth. dec_step. rewrite Hs, Ha. msg_decodes. by destruct v.
Qed.
Next Obligation.
  intros c [Hd Hs]. unfold spdm_read at 1, spdm_codec_challenge_auth. msg_reads.
  split; [apply nibble_low|]. split; [done|]. split; [eapply from_bits_wf; [|eassumption]; assumption|]. msg_post.
Qed.

(** *** GET_MEASUREMENTS and MEASUREMENTS *)
#[export] Instance enum_ok_SpdmMeasurementOperation : EnumOk SpdmMeasurementOperation 8.
Proof. solve_enum. Qed.
#[export] Instance codec_ok_SpdmMeasurementOperation : CodecOk SpdmMeasurementOperation := enum_u8_ok.

Section SlotNibble.
Context (b : bool) (slot : u8).
Lemma nibble_wf : when_wf b nibble 0 slot → when_wf b wf (0 : u8) slot.
Proof. destruct b; [|done]. cbn. unfold nibble, in_width. lia. Qed.
Lemma nibble_land x : nibble x → Z.land x 0xF = x.
Proof. unfold nibble. intros Hx. change 0xF with (Z.ones 4). rewrite land_low by done. by apply Z.mod_small. Qed.
Lemma decodes_when_nibble :
  when_wf b nibble 0 slot →
  decodes (read_when b (let* x := read (A:=u8) in ret (Z.land x 0xF)) 0) (when_bytes b (bytes slot)) slot.
Proof.
  intros Hs. apply decodes_when; intros ->; [|done]. cbn in Hs.
  eapply decodes_last; [apply decodes_u8; unfold nibble, in_width in *; lia|].
  rewrite (nibble_land _ Hs). apply decodes_ret.
Qed.
Lemma reads_when_nibble :
  reads (read_when b (let* x := read (A:=u8) in ret (Z.land x 0xF)) 0) (when_wf b nibble 0).
Proof. apply reads_when. intros _. eapply reads_bind; [apply reads_u8|]. intros x _. apply reads_ret, nibble_low. Qed.
End SlotNibble.
#[export] Hint Resolve decodes_when_nibble reads_when_nibble : msg.

Definition get_measurements_wf (c : SpdmContext) (v : SpdmGetMeasurementsRequestPayload) : Prop :=
  let sig := contains (gm_measurement_attributes v) SIGNATURE_REQUESTED in
  wf (gm_measurement_attributes v) ∧ wf (gm_measurement_operation v) ∧
  when_wf sig wf byte_array_default (gm_nonce v) ∧
  when_wf (sig && ver_ge c SpdmVersion11) nibble 0 (gm_slot_id v) ∧
  slot_bad SPDM_PUB_KEY_SLOT_ID_MEASUREMENT (gm_slot_id v) = false ∧
  when_wf (ver_ge c SpdmVersion13) wf byte_array_default (gm_context v).
#[export] Program Instance spdm_codec_ok_get_measurements : SpdmCodecOk SpdmGetMeasurementsRequestPayload :=
  {| sready _ := True;
     swf := get_measurements_wf;
     sgood := get_measurements_wf;
     sbytes c v :=
       let sig := contains (gm_measurement_attributes v) SIGNATURE_REQUESTED in
       bytes (gm_measurement_attributes v) ++ bytes (gm_measurement_operation v) ++
       when_bytes sig (bytes (gm_nonce v)) ++ when_bytes (sig && ver_ge c SpdmVersion11) (bytes (gm_slot_id v)) ++
       when_bytes (ver_ge c SpdmVersion13) (bytes (gm_context v)) |}.
Next Obligation. intros c v (H1 & H2 & H3 & H4%nibble_wf & _ & H5). cbv zeta. msg_bytes. Qed.
Next Obligation.
  intros c v (H1 & H2 & H3 & H4%nibble_wf & _ & H5). unfold spdm_encode, spdm_codec_get_measurements. cbv zeta. msg_encodes.
Qed.
Next Obligation.
  intros c v (H1 & H2 & H3 & H4 & C1 & H5). unfold spdm_read, spdm_codec_get_measurements. cbv zeta.
  msg_decodes. by destruct v.
Qed.
Next Obligation. intros c _. unfold spdm_read, spdm_codec_get_measurements. cbv zeta. msg_reads. msg_post. Qed.

(** MEASUREMENTS does not carry all of its structure: what the receiver sees
    of it. *)
Definition measurements_view (c : SpdmContext) (v : SpdmMeasurementsResponsePayload) :
    SpdmMeasurementsResponsePayload :=
  let signed := need_measurement_signature (runtime_info c) in
  mkMeasurements (measurements_param1 v)
    (if ver_ge c SpdmVersion12 && signed then ms_content_changed v else NotSupported)
    (if ver_ge c SpdmVersion11 && signed then ms_slot_id v else 0)
    (ms_measurement_record v) (ms_nonce v) (ms_opaque v) (ms_requester_context v) (ms_signature v)
    (MeasurementOperationUnknown 0).
Definition measurements_wf (c : SpdmContext) (v : SpdmMeasurementsResponsePayload) : Prop :=
  let signed := need_measurement_signature (runtime_info c) in
  in_width 8 (ms_number_of_measurement v) ∧
  nibble (ms_slot_id v) ∧ slot_bad SPDM_PUB_KEY_SLOT_ID_MEASUREMENT (ms_slot_id v) = false ∧
  swf c (ms_measurement_record v) ∧ wf (ms_nonce v) ∧ swf c (ms_opaque v) ∧
  when_wf (ver_ge c SpdmVersion13) wf byte_array_default (ms_requester_context v) ∧
  when_wf signed (swf c) sens_default (ms_signature v).
Definition measurements_bytes (c : SpdmContext) (v : SpdmMeasurementsResponsePayload) : list Z :=
  [measurements_param1 v] ++ [measurements_param2 c v] ++ sbytes c (ms_measurement_record v) ++
  bytes (ms_nonce v) ++ sbytes c (ms_opaque v) ++
  when_bytes (ver_ge c SpdmVersion13) (bytes (ms_requester_context v)) ++
  when_bytes (need_measurement_signature (runtime_info c)) (sbytes c (ms_signature v)).
Definition measurements_ready (c : SpdmContext) : Prop :=
  sready (A:=SpdmMeasurementRecordStructure) c ∧ sready (A:=SpdmSignatureStruct) c.

Lemma content_changed_split slot cc :
  nibble slot →
  let p := Z.lor slot (content_changed_u8 cc) in
  in_width 8 p ∧ Z.land p 0xF = slot ∧ content_changed_try_from (Z.land p 0x30) = Some cc.
Proof.
  intros Hs. assert (slot ∈ seqZ 0 16) as Hin by (apply elem_of_seqZ; unfold nibble in Hs; lia). clear Hs.
  repeat (apply elem_of_cons in Hin as [->|Hin]; [by destruct cc|]); by apply elem_of_nil in Hin.
Qed.
Lemma measurements_param2_split c v :
  nibble (ms_slot_id v) →
  let p := measurements_param2 c v in
  in_width 8 p ∧ Z.land p 0xF = ms_slot_id (measurements_view c v) ∧
  content_changed_try_from (Z.land p 0x30) = Some (ms_content_changed (measurements_view c v)).
Proof.
  intros Hs. unfold measurements_param2, measurements_view. cbn [ms_slot_id ms_content_changed].
  pose proof (ver_ge_trans c SpdmVersion12 SpdmVersion11 eq_refl) as Hv.
  pose proof (content_changed_split (ms_slot_id v) NotSupported Hs) as H0. cbn [content_changed_u8] in H0.
  rewrite Z.lor_0_r in H0.
  destruct (need_measurement_signature (runtime_info c)); rewrite ?andb_true_r, ?andb_false_r; [|done].
  destruct (ver_ge c SpdmVersion12); [rewrite Hv by done; by apply content_changed_split|].
  by destruct (ver_ge c SpdmVersion11).
Qed.
Lemma measurements_param1_width v : in_width 8 (ms_number_of_measurement v) → in_width 8 (measurements_param1 v).
Proof. unfold measurements_param1. by case_decide. Qed.

Lemma measurements_bytes_wf c v : measurements_wf c v → bytes_wf (measurements_bytes c v).
Proof.
  intros (H1%measurements_param1_width & H2 & _ & H3 & H4 & H5 & H6 & H7).
  destruct (measurements_param2_split c v H2) as (Hp & _ & _). unfold measurements_bytes. msg_bytes.
Qed.
Lemma measurements_encode_ok c v :
  measurements_wf c v → encodes SPDM_STATUS_BUFFER_FULL (spdm_encode c v) (measurements_bytes c v).
Proof.
  intros (H1 & H2 & _ & H3 & H4 & H5 & H6 & H7). unfold spdm_encode at 1, spdm_codec_measurements, measurements_bytes.
  msg_encodes.
Qed.
Lemma measurements_read_ok c v :
  measurements_wf c v → decodes (spdm_read c) (measurements_bytes c v) (measurements_view c v).
Proof.
  intros (H1%measurements_param1_width & H2 & C1 & H3 & H4 & H5 & H6 & H7).
  destruct (measurements_param2_split c v H2) as (Hp & Hs & Hc).
  unfold spdm_read at 1, spdm_codec_measurements, measurements_bytes,
    MEASUREMENT_RESPONDER_PARAM2_SLOT_ID_MASK, MEASUREMENT_RESPONDER_PARAM2_CONTENT_CHANGED_MASK.
  do 2 dec_step. rewrite Hs, Hc. apply decodes_reject; [|msg_decodes; done].
  unfold measurements_view. cbn [ms_slot_id]. by case_match.
Qed.
Lemma measurements_read_safe c : measurements_ready c → reads (spdm_read c) (measurements_wf c).
Proof.
  intros [Hm Hs]. unfold spdm_read at 1, spdm_codec_measurements. msg_reads.
  split; [done|]. split; [apply nibble_low|]. msg_post.
Qed.
