(* ===== verification/MsgSession.v ===== *)
(** * Session messages

    Models src/spdmlib/src/message/key_exchange.rs, finish.rs, psk_exchange.rs,
    psk_finish.rs, heartbeat.rs, key_update.rs and end_session.rs: the payloads
    and their codecs.  Proved: the contract of every codec. *)

From Stdlib Require Import String.
From S2P Require Import Prelude Codec Status Bitflags Algo DataTypes Structs Version Session.
From S2P Require Import HashCtx ContextData Context SpdmCodec Opaque MsgLib MsgAuth.
Import Context.

(** ** KEY_EXCHANGE *)
Definition KEY_EXCHANGE_REQUESTER_SESSION_POLICY_TERMINATION_POLICY_MASK : u8 := 0x1.
Definition KEY_EXCHANGE_REQUESTER_SESSION_POLICY_EVENT_ALL_POLICY_MASK : u8 := 0x2.
Record SpdmKeyExchangeRequestPayload := mkKeyExchange {
  ke_measurement_summary_hash_type : SpdmMeasurementSummaryHashType;
  ke_slot_id : u8;
  ke_req_session_id : u16;
  ke_session_policy : u8;
  ke_random : SpdmRandomStruct;
  ke_exchange : SpdmReqExchangeStruct;
  ke_opaque : SpdmOpaqueStruct;
}.
(** The bits of the session policy the version has. *)
Definition policy_mask (c : SpdmContext) : u8 :=
  if ver_ge c SpdmVersion13 then
    Z.lor KEY_EXCHANGE_REQUESTER_SESSION_POLICY_TERMINATION_POLICY_MASK
          KEY_EXCHANGE_REQUESTER_SESSION_POLICY_EVENT_ALL_POLICY_MASK
  else if decide (spdm_version_sel (negotiate_info c) = SpdmVersion12) then
    KEY_EXCHANGE_REQUESTER_SESSION_POLICY_TERMINATION_POLICY_MASK
  else 0.
#[export] Instance spdm_codec_key_exchange : SpdmCodec SpdmKeyExchangeRequestPayload :=
  {| spdm_encode c v :=
       let* s0 := enc (ke_measurement_summary_hash_type v) in
       let* s1 := enc (ke_slot_id v) in
       let* s2 := enc (ke_req_session_id v) in
       let session_policy := Z.land (ke_session_policy v) (policy_mask c) in
       let* s3 := enc_or_zeros (ver_ge c SpdmVersion12) (session_policy : u8) 1 in
       let* s4 := enc (0 : u8) in
       let* s5 := enc (ke_random v) in
       let* s6 := spdm_encode c (ke_exchange v) in
       let* s7 := spdm_encode c (ke_opaque v) in
       ret (s0 + s1 + s2 + s3 + s4 + s5 + s6 + s7);
     spdm_read c :=
       let* measurement_summary_hash_type := read in
       let* _ := reject (summary_type_bad c measurement_summary_hash_type) in
       let* slot_id := read (A:=u8) in
       let* _ := reject (slot_bad 0xFF slot_id) in
       let* req_session_id := read (A:=u16) in
       let* session_policy := read (A:=u8) in
       let session_policy := Z.land session_policy (policy_mask c) in
       let* _ := read (A:=u8) in
       let* random := read in
       let* exchange := spdm_read c in
       let* opaque := spdm_read c in
       ret (mkKeyExchange measurement_summary_hash_type slot_id req_session_id session_policy random exchange opaque) |}.

(** ** KEY_EXCHANGE_RSP *)
Section MutAuth.
Definition MUT_AUTH_REQ : SpdmKeyExchangeMutAuthAttributes := mkFlags 0x1.
Definition MUT_AUTH_REQ_WITH_ENCAP_REQUEST : SpdmKeyExchangeMutAuthAttributes := mkFlags 0x2.
Definition MUT_AUTH_REQ_WITH_GET_DIGESTS : SpdmKeyExchangeMutAuthAttributes := mkFlags 0x4.
Definition mut_auth_bad (f : SpdmKeyExchangeMutAuthAttributes) : bool :=
  negb (is_empty f) && negb (bool_decide (f = MUT_AUTH_REQ))
  && negb (bool_decide (f = MUT_AUTH_REQ_WITH_ENCAP_REQUEST))
  && negb (bool_decide (f = MUT_AUTH_REQ_WITH_GET_DIGESTS)).
End MutAuth.
Definition in_clear_text (c : SpdmContext) : bool :=
  req_cap c SpdmRequestCapabilityFlags.HANDSHAKE_IN_THE_CLEAR_CAP
  && rsp_cap c SpdmResponseCapabilityFlags.HANDSHAKE_IN_THE_CLEAR_CAP.
Record SpdmKeyExchangeResponsePayload := mkKeyExchangeRsp {
  ker_heartbeat_period : u8;
  ker_rsp_session_id : u16;
  ker_mut_auth_req : SpdmKeyExchangeMutAuthAttributes;
  ker_req_slot_id : u8;
  ker_random : SpdmRandomStruct;
  ker_exchange : SpdmRspExchangeStruct;
  ker_measurement_summary_hash : SpdmDigestStruct;
  ker_opaque : SpdmOpaqueStruct;
  ker_signature : SpdmSignatureStruct;
  ker_verify_data : SpdmDigestStruct;
}.
#[export] Instance spdm_codec_key_exchange_rsp : SpdmCodec SpdmKeyExchangeResponsePayload :=
  {| spdm_encode c v :=
       let* s0 := enc (ker_heartbeat_period v) in
       let* s1 := enc (0 : u8) in
       let* s2 := enc (ker_rsp_session_id v) in
       let* s3 := enc (ker_mut_auth_req v) in
       let* s4 := enc (ker_req_slot_id v) in
       let* s5 := enc (ker_random v) in
       let* s6 := spdm_encode c (ker_exchange v) in
       let* s7 := enc_when (need_measurement_summary_hash (runtime_info c))
         (spdm_encode c (ker_measurement_summary_hash v)) in
       let* s8 := spdm_encode c (ker_opaque v) in
       let* s9 := spdm_encode c (ker_signature v) in
       let* s10 := enc_when (negb (in_clear_text c)) (spdm_encode c (ker_verify_data v)) in
       ret (s0 + s1 + s2 + s3 + s4 + s5 + s6 + s7 + s8 + s9 + s10);
     spdm_read c :=
       let* heartbeat_period := read (A:=u8) in
       let* _ := read (A:=u8) in
       let* rsp_session_id := read (A:=u16) in
       let* mut_auth_req := read in
       let* req_slot_id := read (A:=u8) in
       let req_slot_id := Z.land req_slot_id 0xF in
       let* _ := reject (slot_bad 0xF req_slot_id) in
       let* _ := reject (mut_auth_bad mut_auth_req) in
       let* random := read in
       let* exchange := spdm_read c in
       let* measurement_summary_hash :=
         read_when (need_measurement_summary_hash (runtime_info c)) (spdm_read c) sens_default in
       let* opaque := spdm_read c in
       let* signature := spdm_read c in
       let* verify_data := read_when (negb (in_clear_text c)) (spdm_read c) sens_default in
       ret (mkKeyExchangeRsp heartbeat_period rsp_session_id mut_auth_req req_slot_id random exchange
              measurement_summary_hash opaque signature verify_data) |}.

(** ** FINISH *)
Definition SpdmFinishRequestAttributes_desc : flag_desc := mkDesc "SpdmFinishRequestAttributes" W8 [0x1].
Abbreviation SpdmFinishRequestAttributes := (flags SpdmFinishRequestAttributes_desc).
#[export] Instance SpdmFinishRequestAttributes_desc_ok : DescOk SpdmFinishRequestAttributes_desc.
Proof. solve_desc. Qed.
Definition SIGNATURE_INCLUDED : SpdmFinishRequestAttributes := mkFlags 0x1.
Record SpdmFinishRequestPayload := mkFinish {
  fin_finish_request_attributes : SpdmFinishRequestAttributes;
  fin_req_slot_id : u8;
  fin_signature : SpdmSignatureStruct;
  fin_verify_data : SpdmDigestStruct;
  fin_opaque : SpdmOpaqueStruct;
}.
#[export] Instance spdm_codec_finish : SpdmCodec SpdmFinishRequestPayload :=
  {| spdm_encode c v :=
       let* s0 := enc (fin_finish_request_attributes v) in
       let* s1 := enc (fin_req_slot_id v) in
       let* s2 := enc_when (ver_ge c SpdmVersion14) (spdm_encode c (fin_opaque v)) in
       let* s3 := enc_when (contains (fin_finish_request_attributes v) SIGNATURE_INCLUDED)
         (spdm_encode c (fin_signature v)) in
       let* s4 := spdm_encode c (fin_verify_data v) in
       ret (s0 + s1 + s2 + s3 + s4);
     spdm_read c :=
       let* finish_request_attributes := read in
       let* req_slot_id := read (A:=u8) in
       let* _ := reject (slot_bad 0xFF req_slot_id) in
       let* opaque := read_when (ver_ge c SpdmVersion14) (spdm_read c) sens_default in
       let* signature := read_when (contains finish_request_attributes SIGNATURE_INCLUDED)
         (spdm_read c) sens_default in
       let* verify_data := spdm_read c in
       ret (mkFinish finish_request_attributes req_slot_id signature verify_data opaque) |}.

(** ** FINISH_RSP *)
Record SpdmFinishResponsePayload := mkFinishRsp {
  finr_verify_data : SpdmDigestStruct;
  finr_opaque : SpdmOpaqueStruct;
}.
#[export] Instance spdm_codec_finish_rsp : SpdmCodec SpdmFinishResponsePayload :=
  {| spdm_encode c v :=
       let* s0 := enc (0 : u8) in
       let* s1 := enc (0 : u8) in
       let* s2 := enc_when (ver_ge c SpdmVersion14) (spdm_encode c (finr_opaque v)) in
       let* s3 := enc_when (in_clear_text c) (spdm_encode c (finr_verify_data v)) in
       ret (s0 + s1 + s2 + s3);
     spdm_read c :=
       let* _ := read (A:=u8) in
       let* _ := read (A:=u8) in
       let* opaque := read_when (ver_ge c SpdmVersion14) (spdm_read c) sens_default in
       let* verify_data := read_when (in_clear_text c) (spdm_read c) sens_default in
       ret (mkFinishRsp verify_data opaque) |}.

(** ** PSK_EXCHANGE *)
Record SpdmPskExchangeRequestPayload := mkPskExchange {
  pe_measurement_summary_hash_type : SpdmMeasurementSummaryHashType;
  pe_req_session_id : u16;
  pe_psk_hint : SpdmPskHintStruct;
  pe_psk_context : SpdmPskContextStruct;
  pe_opaque : SpdmOpaqueStruct;
}.
#[export] Instance spdm_codec_psk_exchange : SpdmCodec SpdmPskExchangeRequestPayload :=
  {| spdm_encode c v :=
       let* s0 := enc (pe_measurement_summary_hash_type v) in
       let* s1 := enc (0 : u8) in
       let* s2 := enc (pe_req_session_id v) in
       let* s3 := enc (data_size (pe_psk_hint v) : u16) in
       let* s4 := enc (data_size (pe_psk_context v) : u16) in
       let* s5 := enc (data_size (pe_opaque v) : u16) in
       let* s6 := enc_prefix (data_size (pe_psk_hint v)) (data (pe_psk_hint v)) in
       let* s7 := enc_prefix (data_size (pe_psk_context v)) (data (pe_psk_context v)) in
       let* s8 := enc_prefix (data_size (pe_opaque v)) (data (pe_opaque v)) in
       ret (s0 + s1 + s2 + s3 + s4 + s5 + s6 + s7 + s8);
     spdm_read c :=
       let* measurement_summary_hash_type := read in
       let* _ := reject (summary_type_bad c measurement_summary_hash_type) in
       let* _ := read (A:=u8) in
       let* req_session_id := read (A:=u16) in
       let* hint_size := read (A:=u16) in
       let* _ := reject (MAX_SPDM_PSK_HINT_SIZE <? hint_size) in
       let* context_size := read (A:=u16) in
       let* _ := reject (MAX_SPDM_PSK_CONTEXT_SIZE <? context_size) in
       let* opaque_size := read (A:=u16) in
       let* _ := reject (MAX_SPDM_OPAQUE_SIZE <? opaque_size) in
       let* hint := read_prefix hint_size (zeros MAX_SPDM_PSK_HINT_SIZE) in
       let* psk_context := read_prefix context_size (zeros MAX_SPDM_PSK_CONTEXT_SIZE) in
       let* opaque := read_prefix opaque_size (zeros MAX_SPDM_OPAQUE_SIZE) in
       ret (mkPskExchange measurement_summary_hash_type req_session_id (mkSens hint_size hint)
              (mkSens context_size psk_context) (mkSens opaque_size opaque)) |}.

(** ** PSK_EXCHANGE_RSP *)
Record SpdmPskExchangeResponsePayload := mkPskExchangeRsp {
  per_heartbeat_period : u8;
  per_rsp_session_id : u16;
  per_measurement_summary_hash : SpdmDigestStruct;
  per_psk_context : SpdmPskContextStruct;
  per_opaque : SpdmOpaqueStruct;
  per_verify_data : SpdmDigestStruct;
}.
Definition psk_without_context (c : SpdmContext) : bool :=
  rsp_cap c SpdmResponseCapabilityFlags.PSK_CAP_WITHOUT_CONTEXT.
#[export] Instance spdm_codec_psk_exchange_rsp : SpdmCodec SpdmPskExchangeResponsePayload :=
  {| spdm_encode c v :=
       let* s0 := enc (per_heartbeat_period v) in
       let* s1 := enc (0 : u8) in
       let* s2 := enc (per_rsp_session_id v) in
       let* s3 := enc (0 : u16) in
       let* s4 := enc_or_zeros (negb (psk_without_context c)) (data_size (per_psk_context v) : u16) 2 in
       let* s5 := enc (data_size (per_opaque v) : u16) in
       let* s6 := enc_when (need_measurement_summary_hash (runtime_info c))
         (spdm_encode c (per_measurement_summary_hash v)) in
       let* s7 := enc_when (negb (psk_without_context c))
         (enc_prefix (data_size (per_psk_context v)) (data (per_psk_context v))) in
       let* s8 := enc_prefix (data_size (per_opaque v)) (data (per_opaque v)) in
       let* s9 := spdm_encode c (per_verify_data v) in
       ret (s0 + s1 + s2 + s3 + s4 + s5 + s6 + s7 + s8 + s9);
     spdm_read c :=
       let* heartbeat_period := read (A:=u8) in
       let* _ := read (A:=u8) in
       let* rsp_session_id := read (A:=u16) in
       let* _ := read (A:=u16) in
       let* context_size := read (A:=u16) in
       let* _ := reject ((psk_without_context c && negb (context_size =? 0))
                         || (negb (psk_without_context c) && (context_size =? 0))) in
       let* _ := reject (MAX_SPDM_PSK_CONTEXT_SIZE <? context_size) in
       let* opaque_size := read (A:=u16) in
       let* _ := reject (MAX_SPDM_OPAQUE_SIZE <? opaque_size) in
       let* measurement_summary_hash :=
         read_when (need_measurement_summary_hash (runtime_info c)) (spdm_read c) sens_default in
       let* psk_context := read_prefix context_size (zeros MAX_SPDM_PSK_CONTEXT_SIZE) in
       let* opaque := read_prefix opaque_size (zeros MAX_SPDM_OPAQUE_SIZE) in
       let* verify_data := spdm_read c in
       ret (mkPskExchangeRsp heartbeat_period rsp_session_id measurement_summary_hash
              (mkSens context_size psk_context) (mkSens opaque_size opaque) verify_data) |}.

(** ** PSK_FINISH and PSK_FINISH_RSP *)
Record SpdmPskFinishRequestPayload := mkPskFinish {
  pf_verify_data : SpdmDigestStruct;
  pf_opaque : SpdmOpaqueStruct;
}.
#[export] Instance spdm_codec_psk_finish : SpdmCodec SpdmPskFinishRequestPayload :=
  {| spdm_encode c v :=
       let* s0 := enc (0 : u8) in
       let* s1 := enc (0 : u8) in
       let* s2 := enc_when (ver_ge c SpdmVersion14) (spdm_encode c (pf_opaque v)) in
       let* s3 := spdm_encode c (pf_verify_data v) in
       ret (s0 + s1 + s2 + s3);
     spdm_read c :=
       let* _ := read (A:=u8) in
       let* _ := read (A:=u8) in
       let* opaque := read_when (ver_ge c SpdmVersion14) (spdm_read c) sens_default in
       let* verify_data := spdm_read c in
       ret (mkPskFinish verify_data opaque) |}.
Record SpdmPskFinishResponsePayload := mkPskFinishRsp { pfr_opaque : SpdmOpaqueStruct }.
#[export] Instance spdm_codec_psk_finish_rsp : SpdmCodec SpdmPskFinishResponsePayload :=
  {| spdm_encode c v :=
       let* s0 := enc (0 : u8) in
       let* s1 := enc (0 : u8) in
       let* s2 := enc_when (ver_ge c SpdmVersion14) (spdm_encode c (pfr_opaque v)) in
       ret (s0 + s1 + s2);
     spdm_read c :=
       let* _ := read (A:=u8) in
       let* _ := read (A:=u8) in
       let* opaque := read_when (ver_ge c SpdmVersion14) (spdm_read c) sens_default in
       ret (mkPskFinishRsp opaque) |}.

(** ** HEARTBEAT, KEY_UPDATE and END_SESSION *)
Inductive SpdmHeartbeatRequestPayload := mkHeartbeat.
Inductive SpdmHeartbeatResponsePayload := mkHeartbeatAck.
#[export] Instance spdm_codec_heartbeat : SpdmCodec SpdmHeartbeatRequestPayload :=
  {| spdm_encode _ _ := let* _ := enc (0 : u8) in let* _ := enc (0 : u8) in ret 2;
     spdm_read _ := let* _ := read (A:=u8) in let* _ := read (A:=u8) in ret mkHeartbeat |}.
#[export] Instance spdm_codec_heartbeat_ack : SpdmCodec SpdmHeartbeatResponsePayload :=
  {| spdm_encode _ _ := let* _ := enc (0 : u8) in let* _ := enc (0 : u8) in ret 2;
     spdm_read _ := let* _ := read (A:=u8) in let* _ := read (A:=u8) in ret mkHeartbeatAck |}.

Inductive SpdmKeyUpdateOperation :=
| SpdmUpdateSingleKey | SpdmUpdateAllKeys | SpdmVerifyNewKey | KeyUpdateOperationUnknown (x : u8).
#[export] Instance SpdmKeyUpdateOperation_eq_dec : EqDecision SpdmKeyUpdateOperation.
Proof. solve_decision. Defined.
#[export] Instance enum_SpdmKeyUpdateOperation : EnumBuilder SpdmKeyUpdateOperation :=
  {| get_int o :=
       match o with
       | SpdmUpdateSingleKey => 0x1 | SpdmUpdateAllKeys => 0x2 | SpdmVerifyNewKey => 0x3
       | KeyUpdateOperationUnknown x => x
       end;
     of_int x :=
       if x =? 0x1 then SpdmUpdateSingleKey else if x =? 0x2 then SpdmUpdateAllKeys
       else if x =? 0x3 then SpdmVerifyNewKey else KeyUpdateOperationUnknown x |}.
#[export] Instance codec_SpdmKeyUpdateOperation : Codec SpdmKeyUpdateOperation := enum_u8.
Definition key_update_bad (o : SpdmKeyUpdateOperation) : bool :=
  match o with KeyUpdateOperationUnknown _ => true | _ => false end.
(** Request and acknowledgement have the same fields. *)
Record key_update_payload := mkKeyUpdate {
  ku_key_update_operation : SpdmKeyUpdateOperation;
  ku_tag : u8;
}.
Abbreviation SpdmKeyUpdateRequestPayload := key_update_payload.
Abbreviation SpdmKeyUpdateResponsePayload := key_update_payload.
#[export] Instance spdm_codec_key_update : SpdmCodec key_update_payload :=
  {| spdm_encode _ v :=
       let* s0 := enc (ku_key_update_operation v) in
       let* s1 := enc (ku_tag v) in
       ret (s0 + s1);
     spdm_read _ :=
       let* key_update_operation := read in
       let* tag := read (A:=u8) in
       let* _ := reject (key_update_bad key_update_operation) in
       ret (mkKeyUpdate key_update_operation tag) |}.

Definition SpdmEndSessionRequestAttributes_desc : flag_desc := mkDesc "SpdmEndSessionRequestAttributes" W8 [0x1].
Abbreviation SpdmEndSessionRequestAttributes := (flags SpdmEndSessionRequestAttributes_desc).
#[export] Instance SpdmEndSessionRequestAttributes_desc_ok : DescOk SpdmEndSessionRequestAttributes_desc.
Proof. solve_desc. Qed.
Record SpdmEndSessionRequestPayload := mkEndSession {
  es_end_session_request_attributes : SpdmEndSessionRequestAttributes;
}.
Inductive SpdmEndSessionResponsePayload := mkEndSessionAck.
#[export] Instance spdm_codec_end_session : SpdmCodec SpdmEndSessionRequestPayload :=
  {| spdm_encode _ v :=
       let* s0 := enc (es_end_session_request_attributes v) in
       let* s1 := enc (0 : u8) in
       ret (s0 + s1);
     spdm_read _ :=
       let* end_session_request_attributes := read in
       let* _ := read (A:=u8) in
       ret (mkEndSession end_session_request_attributes) |}.
#[export] Instance spdm_codec_end_session_ack : SpdmCodec SpdmEndSessionResponsePayload :=
  {| spdm_encode _ _ := let* _ := enc (0 : u8) in let* _ := enc (0 : u8) in ret 2;
     spdm_read _ := let* _ := read (A:=u8) in let* _ := read (A:=u8) in ret mkEndSessionAck |}.

(** ** Laws *)
Lemma sens_padded {k} (d : sens k) : sens_wf d → padded (data_size d) (cap k) (data d).
Proof.
  intros Hd. destruct (sens_wf_inv d Hd) as [Hs Hl]. pose proof (len_content d Hd) as Hc. destruct Hd as (Hd & _ & Hb).
  split; [done|]. split; [done|]. split; [|exact Hb]. rewrite Hd at 1. unfold sens_of. cbn [data]. by rewrite Hc.
Qed.
Lemma padded_sens {k} n l : padded n (cap k) l → sens_wf (mkSens (k:=k) n l).
Proof.
  intros Hp. pose proof (padded_len _ _ _ Hp) as Hn. destruct Hp as (Hc & Hl & He & Hw).
  replace (mkSens n l) with (sens_of (k:=k) (ztake n l)) by (unfold sens_of; rewrite Hn; by rewrite <- He).
  apply sens_of_wf; [lia|done].
Qed.

(** *** KEY_EXCHANGE *)
Definition policy_wf (c : SpdmContext) (x : u8) : Prop := in_width 8 x ∧ Z.land x (policy_mask c) = x.
Lemma policy_mask_width c : 0 ≤ policy_mask c ≤ 3.
Proof. unfold policy_mask. repeat case_match; done. Qed.
Lemma policy_read c x : in_width 8 x → policy_wf c (Z.land x (policy_mask c)).
Proof.
  intros Hx. pose proof (policy_mask_width c). split; [apply in_width_land; [done|done|lia]|].
  by rewrite <- Z.land_assoc, Z.land_diag.
Qed.
Lemma policy_old c x : ver_ge c SpdmVersion12 = false → policy_wf c x → x = 0.
Proof.
  unfold policy_wf, policy_mask. intros Hv [_ Hx].
  destruct (ver_ge c SpdmVersion13) eqn:H13; [by rewrite (ver_ge_trans c SpdmVersion13 SpdmVersion12) in Hv|].
  rewrite decide_False in Hx; [by rewrite Z.land_0_r in Hx|]. intros He. unfold ver_ge in Hv. by rewrite He in Hv.
Qed.
Lemma encodes_policy c x :
  policy_wf c x →
  writes SPDM_STATUS_BUFFER_FULL (enc_or_zeros (ver_ge c SpdmVersion12) (Z.land x (policy_mask c) : u8) 1) [x] 1.
Proof.
  intros Hx. unfold enc_or_zeros. rewrite (proj2 Hx). destruct (ver_ge c SpdmVersion12) eqn:Hv; [apply enc_u8|].
  rewrite (policy_old c x Hv Hx). by apply (enc_zeros_writes 1).
Qed.
Definition key_exchange_wf (c : SpdmContext) (v : SpdmKeyExchangeRequestPayload) : Prop :=
  wf (ke_measurement_summary_hash_type v) ∧
  summary_type_bad c (ke_measurement_summary_hash_type v) = false ∧
  in_width 8 (ke_slot_id v) ∧ slot_bad 0xFF (ke_slot_id v) = false ∧
  in_width 16 (ke_req_session_id v) ∧ policy_wf c (ke_session_policy v) ∧ wf (ke_random v) ∧
  swf c (ke_exchange v) ∧ swf c (ke_opaque v).
#[export] Program Instance spdm_codec_ok_key_exchange : SpdmCodecOk SpdmKeyExchangeRequestPayload :=
  {| sready c := sready (A:=SpdmReqExchangeStruct) c;
     swf := key_exchange_wf;
     sgood := key_exchange_wf;
     sbytes c v := bytes (ke_measurement_summary_hash_type v) ++ [ke_slot_id v] ++
       le_bytes 2 (ke_req_session_id v) ++ [ke_session_policy v] ++ [0] ++ bytes (ke_random v) ++
       sbytes c (ke_exchange v) ++ sbytes c (ke_opaque v) |}.
Next Obligation. intros c v (H1 & _ & H2 & _ & H3 & [H4 _] & H5 & H6 & H7). msg_bytes. Qed.
Next Obligation.
  intros c v (H1 & _ & H2 & _ & H3 & H4%encodes_policy & H5 & H6 & H7).
  unfold spdm_encode at 1, spdm_codec_key_exchange. cbv zeta. msg_encodes.
Qed.
Next Obligation.
  intros c v (H1 & C1 & H2 & C2 & H3 & [H4 Hp] & H5 & H6 & H7).
  unfold spdm_read at 1, spdm_codec_key_exchange. cbv zeta. msg_decodes. rewrite Hp. by destruct v.
Qed.
Next Obligation.
  intros c Hc. unfold spdm_read at 1, spdm_codec_key_exchange. cbv zeta. msg_reads.
  do 5 (split; [assumption|]). split; [by apply policy_read|]. msg_post.
Qed.

(** *** KEY_EXCHANGE_RSP *)
Definition key_exchange_rsp_wf (c : SpdmContext) (v : SpdmKeyExchangeResponsePayload) : Prop :=
  in_width 8 (ker_heartbeat_period v) ∧ in_width 16 (ker_rsp_session_id v) ∧
  wf (ker_mut_auth_req v) ∧ mut_auth_bad (ker_mut_auth_req v) = false ∧
  nibble (ker_req_slot_id v) ∧ slot_bad 0xF (ker_req_slot_id v) = false ∧
  wf (ker_random v) ∧ swf c (ker_exchange v) ∧
  when_wf (need_measurement_summary_hash (runtime_info c)) (swf c) sens_default (ker_measurement_summary_hash v) ∧
  swf c (ker_opaque v) ∧ swf c (ker_signature v) ∧
  when_wf (negb (in_clear_text c)) (swf c) sens_default (ker_verify_data v).
#[export] Program Instance spdm_codec_ok_key_exchange_rsp : SpdmCodecOk SpdmKeyExchangeResponsePayload :=
  {| sready c := sready (A:=SpdmRspExchangeStruct) c ∧ sready (A:=SpdmDigestStruct) c ∧
       sready (A:=SpdmSignatureStruct) c;
     swf := key_exchange_rsp_wf;
     sgood := key_exchange_rsp_wf;
     sbytes c v := [ker_heartbeat_period v] ++ [0] ++ le_bytes 2 (ker_rsp_session_id v) ++
       bytes (ker_mut_auth_req v) ++ [ker_req_slot_id v] ++ bytes (ker_random v) ++ sbytes c (ker_exchange v) ++
       when_bytes (need_measurement_summary_hash (runtime_info c)) (sbytes c (ker_measurement_summary_hash v)) ++
       sbytes c (ker_opaque v) ++ sbytes c (ker_signature v) ++
       when_bytes (negb (in_clear_text c)) (sbytes c (ker_verify_data v)) |}.
Next Obligation.
  intros c v (H1 & H2 & H3 & _ & H4 & _ & H5 & H6 & H7 & H8 & H9 & H10).
  assert (in_width 8 (ker_req_slot_id v)) by (unfold nibble, in_width in *; lia). msg_bytes.
Qed.
Next Obligation.
  intros c v (H1 & H2 & H3 & _ & H4 & _ & H5 & H6 & H7 & H8 & H9 & H10).
  unfold spdm_encode at 1, spdm_codec_key_exchange_rsp. msg_encodes.
Qed.
Next Obligation.
  intros c v (H1 & H2 & H3 & C1 & H4 & C2 & H5 & H6 & H7 & H8 & H9 & H10).
  assert (in_width 8 (ker_req_slot_id v)) by (unfold nibble, in_width in *; lia).
  unfold spdm_read at 1, spdm_codec_key_exchange_rsp. do 5 dec_step. rewrite (nibble_land _ H4).
  msg_decodes. by destruct v.
Qed.
Next Obligation.
  intros c (Hx & Hd & Hs). unfold spdm_read at 1, spdm_codec_key_exchange_rsp. msg_reads.
  do 4 (split; [assumption|]). split; [apply nibble_low|]. msg_post.
Qed.

(** *** FINISH and FINISH_RSP *)
Definition finish_wf (c : SpdmContext) (v : SpdmFinishRequestPayload) : Prop :=
  wf (fin_finish_request_attributes v) ∧
  in_width 8 (fin_req_slot_id v) ∧ slot_bad 0xFF (fin_req_slot_id v) = false ∧
  when_wf (ver_ge c SpdmVersion14) (swf c) sens_default (fin_opaque v) ∧
  when_wf (contains (fin_finish_request_attributes v) SIGNATURE_INCLUDED) (swf c) sens_default (fin_signature v) ∧
  swf c (fin_verify_data v).
#[export] Program Instance spdm_codec_ok_finish : SpdmCodecOk SpdmFinishRequestPayload :=
  {| sready c := sready (A:=SpdmDigestStruct) c ∧ sready (A:=SpdmSignatureStruct) c;
     swf := finish_wf;
     sgood := finish_wf;
     sbytes c v := bytes (fin_finish_request_attributes v) ++ [fin_req_slot_id v] ++
       when_bytes (ver_ge c SpdmVersion14) (sbytes c (fin_opaque v)) ++
       when_bytes (contains (fin_finish_request_attributes v) SIGNATURE_INCLUDED) (sbytes c (fin_signature v)) ++
       sbytes c (fin_verify_data v) |}.
Next Obligation. intros c v (H1 & H2 & _ & H3 & H4 & H5). msg_bytes. Qed.
Next Obligation.
  intros c v (H1 & H2 & _ & H3 & H4 & H5). unfold spdm_encode at 1, spdm_codec_finish. msg_encodes.
Qed.
Next Obligation.
  intros c v (H1 & H2 & C1 & H3 & H4 & H5). unfold spdm_read at 1, spdm_codec_finish. msg_decodes. by destruct v.
Qed.
Next Obligation. intros c [Hd Hs]. unfold spdm_read at 1, spdm_codec_finish. msg_reads. msg_post. Qed.

Definition finish_rsp_wf (c : SpdmContext) (v : SpdmFinishResponsePayload) : Prop :=
  when_wf (ver_ge c SpdmVersion14) (swf c) sens_default (finr_opaque v) ∧
  when_wf (in_clear_text c) (swf c) sens_default (finr_verify_data v).
#[export] Program Instance spdm_codec_ok_finish_rsp : SpdmCodecOk SpdmFinishResponsePayload :=
  {| sready c := sready (A:=SpdmDigestStruct) c;
     swf := finish_rsp_wf;
     sgood := finish_rsp_wf;
     sbytes c v := [0] ++ [0] ++ when_bytes (ver_ge c SpdmVersion14) (sbytes c (finr_opaque v)) ++
       when_bytes (in_clear_text c) (sbytes c (finr_verify_data v)) |}.
Next Obligation. intros c v (H1 & H2). msg_bytes. Qed.
Next Obligation. intros c v (H1 & H2). unfold spdm_encode at 1, spdm_codec_finish_rsp. msg_encodes. Qed.
Next Obligation.
  intros c v (H1 & H2). unfold spdm_read at 1, spdm_codec_finish_rsp. msg_decodes. by destruct v.
Qed.
Next Obligation. intros c Hd. unfold spdm_read at 1, spdm_codec_finish_rsp. msg_reads. msg_post. Qed.

(** *** PSK_EXCHANGE and PSK_EXCHANGE_RSP *)
Definition psk_exchange_wf (c : SpdmContext) (v : SpdmPskExchangeRequestPayload) : Prop :=
  wf (pe_measurement_summary_hash_type v) ∧
  summary_type_bad c (pe_measurement_summary_hash_type v) = false ∧
  in_width 16 (pe_req_session_id v) ∧
  sens_wf (pe_psk_hint v) ∧ sens_wf (pe_psk_context v) ∧ sens_wf (pe_opaque v).
#[export] Program Instance spdm_codec_ok_psk_exchange : SpdmCodecOk SpdmPskExchangeRequestPayload :=
  {| sready _ := True;
     swf := psk_exchange_wf;
     sgood := psk_exchange_wf;
     sbytes c v := bytes (pe_measurement_summary_hash_type v) ++ [0] ++ le_bytes 2 (pe_req_session_id v) ++
       le_bytes 2 (data_size (pe_psk_hint v)) ++ le_bytes 2 (data_size (pe_psk_context v)) ++
       le_bytes 2 (data_size (pe_opaque v)) ++ ztake (data_size (pe_psk_hint v)) (data (pe_psk_hint v)) ++
       ztake (data_size (pe_psk_context v)) (data (pe_psk_context v)) ++
       ztake (data_size (pe_opaque v)) (data (pe_opaque v)) |}.
Next Obligation. intros c v (H1 & _ & H2 & (_ & _ & H3) & (_ & _ & H4) & (_ & _ & H5)). msg_bytes. Qed.
Next Obligation.
  intros c v (H1 & _ & H2 & H3 & H4 & H5). unfold spdm_encode at 1, spdm_codec_psk_exchange. msg_encodes.
Qed.
Ltac sens_side :=
  unfold in_width, MAX_SPDM_PSK_HINT_SIZE, MAX_SPDM_PSK_CONTEXT_SIZE, MAX_SPDM_OPAQUE_SIZE in *;
  cbn [cap] in *; lia.
Next Obligation.
  intros c v (H1 & C1 & H2 & H3%sens_padded & H4%sens_padded & H5%sens_padded).
  unfold spdm_read at 1, spdm_codec_psk_exchange. cbn [cap] in *.
  destruct (proj1 H3), (proj1 H4), (proj1 H5). do 4 dec_step.
  do 3 (eapply decodes_bind; [apply decodes_u16; sens_side|]; apply decodes_reject; [sens_side|]).
  msg_decodes. destruct v as [? ? [] [] []]. done.
Qed.
Next Obligation.
  intros c _. unfold spdm_read at 1, spdm_codec_psk_exchange. do 10 rd_step.
  do 3 (eapply reads_bind; [apply reads_padded; sens_side|]; intros ? ?). apply reads_ret.
  do 3 (split; [assumption|]). cbn [pe_psk_hint pe_psk_context pe_opaque]. split_and!; by apply padded_sens.
Qed.

Definition psk_exchange_rsp_wf (c : SpdmContext) (v : SpdmPskExchangeResponsePayload) : Prop :=
  in_width 8 (per_heartbeat_period v) ∧ in_width 16 (per_rsp_session_id v) ∧
  sens_wf (per_psk_context v) ∧
  (psk_without_context c && negb (data_size (per_psk_context v) =? 0))
   || (negb (psk_without_context c) && (data_size (per_psk_context v) =? 0)) = false ∧
  sens_wf (per_opaque v) ∧
  when_wf (need_measurement_summary_hash (runtime_info c)) (swf c) sens_default (per_measurement_summary_hash v) ∧
  swf c (per_verify_data v).
#[export] Program Instance spdm_codec_ok_psk_exchange_rsp : SpdmCodecOk SpdmPskExchangeResponsePayload :=
  {| sready c := sready (A:=SpdmDigestStruct) c;
     swf := psk_exchange_rsp_wf;
     sgood := psk_exchange_rsp_wf;
     sbytes c v := [per_heartbeat_period v] ++ [0] ++ le_bytes 2 (per_rsp_session_id v) ++ le_bytes 2 0 ++
       le_bytes 2 (data_size (per_psk_context v)) ++ le_bytes 2 (data_size (per_opaque v)) ++
       when_bytes (need_measurement_summary_hash (runtime_info c)) (sbytes c (per_measurement_summary_hash v)) ++
       ztake (data_size (per_psk_context v)) (data (per_psk_context v)) ++
       ztake (data_size (per_opaque v)) (data (per_opaque v)) ++ sbytes c (per_verify_data v) |}.
Next Obligation.
  intros c v (H1 & H2 & (_ & _ & H3) & _ & (_ & _ & H4) & H5 & H6). msg_bytes.
Qed.
Next Obligation.
  intros c v (H1 & H2 & H3 & C1 & H4 & H5 & H6). unfold spdm_encode at 1, spdm_codec_psk_exchange_rsp.
  assert (writes SPDM_STATUS_BUFFER_FULL
    (enc_or_zeros (negb (psk_without_context c)) (data_size (per_psk_context v) : u16) 2)
    (le_bytes 2 (data_size (per_psk_context v))) 2).
  { unfold enc_or_zeros. destruct (psk_without_context c); cbn [negb andb orb] in *; [|apply enc_u16].
    rewrite orb_false_r in C1. apply negb_false_iff, Z.eqb_eq in C1. rewrite C1. by apply (enc_zeros_writes 2). }
  assert (encodes SPDM_STATUS_BUFFER_FULL
    (enc_when (negb (psk_without_context c)) (enc_prefix (data_size (per_psk_context v)) (data (per_psk_context v))))
    (ztake (data_size (per_psk_context v)) (data (per_psk_context v)))).
  { unfold enc_when. destruct (psk_without_context c); cbn [negb andb orb] in *; [|apply enc_prefix_writes].
    rewrite orb_false_r in C1. apply negb_false_iff, Z.eqb_eq in C1. rewrite C1, ztake_0. apply writes_ret. }
  msg_encodes.
Qed.
Next Obligation.
  intros c v (H1 & H2 & H3%sens_padded & C1 & H4%sens_padded & H5 & H6).
  unfold spdm_read at 1, spdm_codec_psk_exchange_rsp. cbn [cap] in *. destruct (proj1 H3), (proj1 H4). do 4 dec_step.
  eapply decodes_bind; [apply decodes_u16; sens_side|]. cbv beta. apply decodes_reject; [exact C1|].
  apply decodes_reject; [sens_side|]. eapply decodes_bind; [apply decodes_u16; sens_side|]. cbv beta.
  apply decodes_reject; [sens_side|]. msg_decodes. destruct v as [? ? ? [] [] ?]. done.
Qed.
Next Obligation.
  intros c Hc. unfold spdm_read at 1, spdm_codec_psk_exchange_rsp. do 10 rd_step.
  do 2 (eapply reads_bind; [apply reads_padded; sens_side|]; intros ? ?). msg_reads.
  do 2 (split; [assumption|]). cbn [per_psk_context per_opaque data_size]. split; [by apply padded_sens|]. split; [done|].
  split; [by apply padded_sens|]. msg_post.
Qed.

(** *** PSK_FINISH and PSK_FINISH_RSP *)
Definition psk_finish_wf (c : SpdmContext) (v : SpdmPskFinishRequestPayload) : Prop :=
  when_wf (ver_ge c SpdmVersion14) (swf c) sens_default (pf_opaque v) ∧ swf c (pf_verify_data v).
#[export] Program Instance spdm_codec_ok_psk_finish : SpdmCodecOk SpdmPskFinishRequestPayload :=
  {| sready c := sready (A:=SpdmDigestStruct) c;
     swf := psk_finish_wf;
     sgood := psk_finish_wf;
     sbytes c v := [0] ++ [0] ++ when_bytes (ver_ge c SpdmVersion14) (sbytes c (pf_opaque v)) ++
       sbytes c (pf_verify_data v) |}.
Next Obligation. intros c v (H1 & H2). msg_bytes. Qed.
Next Obligation. intros c v (H1 & H2). unfold spdm_encode at 1, spdm_codec_psk_finish. msg_encodes. Qed.
Next Obligation.
  intros c v (H1 & H2). unfold spdm_read at 1, spdm_codec_psk_finish. msg_decodes. by destruct v.
Qed.
Next Obligation. intros c Hd. unfold spdm_read at 1, spdm_codec_psk_finish. msg_reads. msg_post. Qed.

Definition psk_finish_rsp_wf (c : SpdmContext) (v : SpdmPskFinishResponsePayload) : Prop :=
  when_wf (ver_ge c SpdmVersion14) (swf c) sens_default (pfr_opaque v).
#[export] Program Instance spdm_codec_ok_psk_finish_rsp : SpdmCodecOk SpdmPskFinishResponsePayload :=
  {| sready _ := True;
     swf := psk_finish_rsp_wf;
     sgood := psk_finish_rsp_wf;
     sbytes c v := [0] ++ [0] ++ when_bytes (ver_ge c SpdmVersion14) (sbytes c (pfr_opaque v)) |}.
Next Obligation. intros c v H1. msg_bytes. Qed.
Next Obligation. intros c v H1. unfold spdm_encode at 1, spdm_codec_psk_finish_rsp. msg_encodes. Qed.
Next Obligation.
  intros c v H1. unfold spdm_read at 1, spdm_codec_psk_finish_rsp. msg_decodes. by destruct v.
Qed.
Next Obligation. intros c _. unfold spdm_read at 1, spdm_codec_psk_finish_rsp. by msg_reads. Qed.

(** *** HEARTBEAT, KEY_UPDATE and END_SESSION *)
#[export] Program Instance spdm_codec_ok_heartbeat : SpdmCodecOk SpdmHeartbeatRequestPayload :=
  {| sready _ := True; swf _ _ := True; sgood _ _ := True; sbytes _ _ := [0] ++ [0] |}.
Next Obligation. intros c a _. msg_bytes. Qed.
Next Obligation. intros c a _. unfold spdm_encode, spdm_codec_heartbeat. msg_encodes. Qed.
Next Obligation. intros c [] _. unfold spdm_read, spdm_codec_heartbeat. by msg_decodes. Qed.
Next Obligation. intros c _. unfold spdm_read, spdm_codec_heartbeat. by msg_reads. Qed.
#[export] Program Instance spdm_codec_ok_heartbeat_ack : SpdmCodecOk SpdmHeartbeatResponsePayload :=
  {| sready _ := True; swf _ _ := True; sgood _ _ := True; sbytes _ _ := [0] ++ [0] |}.
Next Obligation. intros c a _. msg_bytes. Qed.
Next Obligation. intros c a _. unfold spdm_encode, spdm_codec_heartbeat_ack. msg_encodes. Qed.
Next Obligation. intros c [] _. unfold spdm_read, spdm_codec_heartbeat_ack. by msg_decodes. Qed.
Next Obligation. intros c _. unfold spdm_read, spdm_codec_heartbeat_ack. by msg_reads. Qed.

#[export] Instance enum_ok_SpdmKeyUpdateOperation : EnumOk SpdmKeyUpdateOperation 8.
Proof. solve_enum. Qed.
#[export] Instance codec_ok_SpdmKeyUpdateOperation : CodecOk SpdmKeyUpdateOperation := enum_u8_ok.
Definition key_update_wf (v : key_update_payload) : Prop :=
  wf (ku_key_update_operation v) ∧ key_update_bad (ku_key_update_operation v) = false ∧ in_width 8 (ku_tag v).
#[export] Program Instance spdm_codec_ok_key_update : SpdmCodecOk key_update_payload :=
  {| sready _ := True;
     swf _ := key_update_wf;
     sgood _ := key_update_wf;
     sbytes _ v := bytes (ku_key_update_operation v) ++ [ku_tag v] |}.
Next Obligation. intros c v (H1 & _ & H2). msg_bytes. Qed.
Next Obligation. intros c v (H1 & _ & H2). unfold spdm_encode, spdm_codec_key_update. msg_encodes. Qed.
Next Obligation.
  intros c v (H1 & C1 & H2). unfold spdm_read, spdm_codec_key_update. msg_decodes. by destruct v.
Qed.
Next Obligation. intros c _. unfold spdm_read, spdm_codec_key_update. msg_reads. msg_post. Qed.

Definition end_session_wf (v : SpdmEndSessionRequestPayload) : Prop := wf (es_end_session_request_attributes v).
#[export] Program Instance spdm_codec_ok_end_session : SpdmCodecOk SpdmEndSessionRequestPayload :=
  {| sready _ := True;
     swf _ := end_session_wf;
     sgood _ := end_session_wf;
     sbytes _ v := bytes (es_end_session_request_attributes v) ++ [0] |}.
Next Obligation. intros c v H1. msg_bytes. Qed.
Next Obligation. intros c v H1. unfold spdm_encode, spdm_codec_end_session. msg_encodes. Qed.
Next Obligation. intros c v H1. unfold spdm_read, spdm_codec_end_session. msg_decodes. by destruct v. Qed.
Next Obligation. intros c _. unfold spdm_read, spdm_codec_end_session. msg_reads. assumption. Qed.
#[export] Program Instance spdm_codec_ok_end_session_ack : SpdmCodecOk SpdmEndSessionResponsePayload :=
  {| sready _ := True; swf _ _ := True; sgood _ _ := True; sbytes _ _ := [0] ++ [0] |}.
Next Obligation. intros c a _. msg_bytes. Qed.
Next Obligation. intros c a _. unfold spdm_encode, spdm_codec_end_session_ack. msg_encodes. Qed.
Next Obligation. intros c [] _. unfold spdm_read, spdm_codec_end_session_ack. by msg_decodes. Qed.
Next Obligation. intros c _. unfold spdm_read, spdm_codec_end_session_ack. by msg_reads. Qed.
