(* ===== verification/MsgMisc.v ===== *)
(** * Error and vendor-defined messages

    Models src/spdmlib/src/message/error.rs and vendor.rs and the general
    payload of src/spdmlib/src/message/mod.rs: the payloads and their codecs.
    The vendor's request handler is registered by the application and is not
    modelled.  Proved: the contract of every codec. *)

From Stdlib Require Import String.
From S2P Require Import Prelude Codec Status Bitflags Algo DataTypes Structs Version Session.
From S2P Require Import HashCtx Header ContextData Context SpdmCodec Opaque MsgLib MsgAuth.
Import Context.

(** ** ERROR *)
Inductive SpdmErrorCode :=
| SpdmErrorInvalidRequest | SpdmErrorBusy | SpdmErrorUnexpectedRequest | SpdmErrorUnspecified
| SpdmErrorDecryptError | SpdmErrorUnsupportedRequest | SpdmErrorRequestInFlight
| SpdmErrorInvalidResponseCode | SpdmErrorSessionLimitExceeded | SpdmErrorSessionRequired
| SpdmErrorResetRequired | SpdmErrorResponseTooLarge | SpdmErrorRequestTooLarge
| SpdmErrorLargeResponse | SpdmErrorMessageLost | SpdmErrorVersionMismatch
| SpdmErrorResponseNotReady | SpdmErrorRequestResynch | SpdmErrorVendorDefined
| ErrorCodeUnknown (x : u8).
#[export] Instance SpdmErrorCode_eq_dec : EqDecision SpdmErrorCode.
Proof. solve_decision. Defined.
#[export] Instance enum_SpdmErrorCode : EnumBuilder SpdmErrorCode :=
  {| get_int e :=
       match e with
       | SpdmErrorInvalidRequest => 0x1 | SpdmErrorBusy => 0x3 | SpdmErrorUnexpectedRequest => 0x4
       | SpdmErrorUnspecified => 0x5 | SpdmErrorDecryptError => 0x6 | SpdmErrorUnsupportedRequest => 0x7
       | SpdmErrorRequestInFlight => 0x8 | SpdmErrorInvalidResponseCode => 0x9
       | SpdmErrorSessionLimitExceeded => 0xA | SpdmErrorSessionRequired => 0xB
       | SpdmErrorResetRequired => 0xC | SpdmErrorResponseTooLarge => 0xD | SpdmErrorRequestTooLarge => 0xE
       | SpdmErrorLargeResponse => 0xF | SpdmErrorMessageLost => 0x10 | SpdmErrorVersionMismatch => 0x41
       | SpdmErrorResponseNotReady => 0x42 | SpdmErrorRequestResynch => 0x43 | SpdmErrorVendorDefined => 0xFF
       | ErrorCodeUnknown x => x
       end;
     of_int x :=
       if x =? 0x1 then SpdmErrorInvalidRequest else if x =? 0x3 then SpdmErrorBusy
       else if x =? 0x4 then SpdmErrorUnexpectedRequest else if x =? 0x5 then SpdmErrorUnspecified
       else if x =? 0x6 then SpdmErrorDecryptError else if x =? 0x7 then SpdmErrorUnsupportedRequest
       else if x =? 0x8 then SpdmErrorRequestInFlight else if x =? 0x9 then SpdmErrorInvalidResponseCode
       else if x =? 0xA then SpdmErrorSessionLimitExceeded else if x =? 0xB then SpdmErrorSessionRequired
       else if x =? 0xC then SpdmErrorResetRequired else if x =? 0xD then SpdmErrorResponseTooLarge
       else if x =? 0xE then SpdmErrorRequestTooLarge else if x =? 0xF then SpdmErrorLargeResponse
       else if x =? 0x10 then SpdmErrorMessageLost else if x =? 0x41 then SpdmErrorVersionMismatch
       else if x =? 0x42 then SpdmErrorResponseNotReady else if x =? 0x43 then SpdmErrorRequestResynch
       else if x =? 0xFF then SpdmErrorVendorDefined else ErrorCodeUnknown x |}.
#[export] Instance codec_SpdmErrorCode : Codec SpdmErrorCode := enum_u8.

Definition SPDM_ERROR_VENDOR_EXT_DATA_SIZE : usize := 32.
Record SpdmErrorResponseNotReadyExtData := mkNotReady {
  nr_rdt_exponent : u8;
  nr_request_code : u8;
  nr_token : u8;
  nr_rdtm : u8;
}.
Record SpdmErrorResponseVendorExtData := mkVendorExt { ve_data_size : u8; ve_data : list Z }.
Inductive SpdmErrorResponseExtData :=
| SpdmErrorExtDataNone
| SpdmErrorExtDataNotReady (d : SpdmErrorResponseNotReadyExtData)
| SpdmErrorExtDataVendorDefined (d : SpdmErrorResponseVendorExtData).
Record SpdmErrorResponsePayload := mkError {
  er_error_code : SpdmErrorCode;
  er_error_data : u8;
  er_extended_data : SpdmErrorResponseExtData;
}.
#[export] Instance spdm_codec_not_ready : SpdmCodec SpdmErrorResponseNotReadyExtData :=
  {| spdm_encode _ v :=
       let* s0 := enc (nr_rdt_exponent v) in
       let* s1 := enc (nr_request_code v) in
       let* s2 := enc (nr_token v) in
       let* s3 := enc (nr_rdtm v) in
       ret (s0 + s1 + s2 + s3);
     spdm_read _ :=
       let* rdt_exponent := read (A:=u8) in
       let* request_code := read (A:=u8) in
       let* token := read (A:=u8) in
       let* rdtm := read (A:=u8) in
       ret (mkNotReady rdt_exponent request_code token rdtm) |}.
(** Reads up to [n] bytes, until there are none left. *)
Fixpoint read_available (n : nat) : M Reader unit (list Z) :=
  match n with
  | O => ret []
  | S n =>
      let* b := attempt (read (A:=u8)) in
      match b with
      | Some b => let* r := read_available n in ret ((b : Z) :: r)
      | None => ret []
      end
  end.
#[export] Instance spdm_codec_vendor_ext : SpdmCodec SpdmErrorResponseVendorExtData :=
  {| spdm_encode _ v := let* _ := enc_prefix (ve_data_size v) (ve_data v) in ret (ve_data_size v);
     spdm_read _ :=
       let* d := read_available (Z.to_nat SPDM_ERROR_VENDOR_EXT_DATA_SIZE) in
       ret (mkVendorExt (len d) (d ++ zeros (SPDM_ERROR_VENDOR_EXT_DATA_SIZE - len d))) |}.
#[export] Instance spdm_codec_error : SpdmCodec SpdmErrorResponsePayload :=
  {| spdm_encode c v :=
       let* s0 := enc (er_error_code v) in
       let* s1 := enc (er_error_data v) in
       let* s2 :=
         match er_extended_data v with
         | SpdmErrorExtDataNotReady d => spdm_encode c d
         | SpdmErrorExtDataVendorDefined d => spdm_encode c d
         | SpdmErrorExtDataNone => ret 0
         end in
       ret (s0 + s1 + s2);
     spdm_read c :=
       let* error_code := read in
       let* error_data := read (A:=u8) in
       let* extended_data :=
         match error_code with
         | SpdmErrorResponseNotReady => let* d := spdm_read c in ret (SpdmErrorExtDataNotReady d)
         | SpdmErrorVendorDefined => let* d := spdm_read c in ret (SpdmErrorExtDataVendorDefined d)
         | _ => ret SpdmErrorExtDataNone
         end in
       ret (mkError error_code error_data extended_data) |}.

(** ** Vendor-defined messages *)
Definition MAX_SPDM_MSG_SIZE : usize := 4096.
Definition MAX_SPDM_VENDOR_DEFINED_PAYLOAD_SIZE : usize := MAX_SPDM_MSG_SIZE - 7 - 6.
Definition MAX_SPDM_VENDOR_DEFINED_VENDOR_ID_LEN : usize := 0xFF.
Definition SpdmVdmFlags_desc : flag_desc := mkDesc "SpdmVdmFlags" W8 [0x80].
Abbreviation SpdmVdmFlags := (flags SpdmVdmFlags_desc).
#[export] Instance SpdmVdmFlags_desc_ok : DescOk SpdmVdmFlags_desc.
Proof. solve_desc. Qed.
Definition USE_LARGE_PAYLOAD : SpdmVdmFlags := mkFlags 0x80.
Inductive RegistryOrStandardsBodyID :=
| DMTF | TCG | USB | PCISIG | IANA | HDBASET | MIPI | CXL | JEDEC | VESA | IANACBOR | DMTFDSP
| BodyIDUnknown (x : u16).
#[export] Instance enum_RegistryOrStandardsBodyID : EnumBuilder RegistryOrStandardsBodyID :=
  {| get_int i :=
       match i with
       | DMTF => 0x0 | TCG => 0x1 | USB => 0x2 | PCISIG => 0x3 | IANA => 0x4 | HDBASET => 0x5 | MIPI => 0x6
       | CXL => 0x7 | JEDEC => 0x8 | VESA => 0x9 | IANACBOR => 0xA | DMTFDSP => 0xB | BodyIDUnknown x => x
       end;
     of_int x :=
       if x =? 0x0 then DMTF else if x =? 0x1 then TCG else if x =? 0x2 then USB else if x =? 0x3 then PCISIG
       else if x =? 0x4 then IANA else if x =? 0x5 then HDBASET else if x =? 0x6 then MIPI
       else if x =? 0x7 then CXL else if x =? 0x8 then JEDEC else if x =? 0x9 then VESA
       else if x =? 0xA then IANACBOR else if x =? 0xB then DMTFDSP else BodyIDUnknown x |}.
#[export] Instance codec_RegistryOrStandardsBodyID : Codec RegistryOrStandardsBodyID := enum_u16.
Definition get_default_vendor_id_len (i : RegistryOrStandardsBodyID) : u16 :=
  match i with
  | DMTF => 0 | TCG => 2 | USB => 2 | PCISIG => 2 | IANA => 4 | HDBASET => 4 | MIPI => 2 | CXL => 2
  | JEDEC => 2 | VESA => 0 | IANACBOR => MAX_SPDM_VENDOR_DEFINED_VENDOR_ID_LEN | DMTFDSP => 2
  | BodyIDUnknown _ => 0
  end.

Record VendorIDStruct := mkVendorID { vid_len : u8; vid_vendor_id : list Z }.
#[export] Instance codec_VendorIDStruct : Codec VendorIDStruct :=
  {| encode v :=
       let* s0 := encode (vid_len v) in
       let* s1 := encode_prefix (vid_len v) (vid_vendor_id v) in
       ret (s0 + s1);
     read :=
       let* n := read (A:=u8) in
       let* vendor_id := read_prefix n (zeros MAX_SPDM_VENDOR_DEFINED_VENDOR_ID_LEN) in
       ret (mkVendorID n vendor_id) |}.

(** The request and response payloads have the same layout. *)
Record vendor_payload := mkVendorPayload { vp_length : u32; vp_payload : list Z }.
Abbreviation VendorDefinedReqPayloadStruct := vendor_payload.
Abbreviation VendorDefinedRspPayloadStruct := vendor_payload.
#[export] Instance codec_vendor_payload : Codec vendor_payload :=
  {| encode v :=
       let* s0 := encode (wrap 16 (vp_length v) : u16) in
       let* s1 := encode_prefix (vp_length v) (vp_payload v) in
       ret (s0 + s1);
     read :=
       let* n := read (A:=u16) in
       let* _ := reject (MAX_SPDM_VENDOR_DEFINED_PAYLOAD_SIZE <? n) in
       let* p := read_prefix n (zeros MAX_SPDM_VENDOR_DEFINED_PAYLOAD_SIZE) in
       ret (mkVendorPayload n p) |}.
Definition encode_large (v : vendor_payload) : M Writer EncodeErr usize :=
  let* s0 := encode (0 : u16) in
  let* s1 := encode (vp_length v) in
  let* s2 := encode_prefix (vp_length v) (vp_payload v) in
  ret (s0 + s1 + s2).
Definition read_large : M Reader unit vendor_payload :=
  let* _ := read (A:=u16) in
  let* n := read (A:=u32) in
  let* _ := reject (MAX_SPDM_VENDOR_DEFINED_PAYLOAD_SIZE <? n) in
  let* p := read_prefix n (zeros MAX_SPDM_VENDOR_DEFINED_PAYLOAD_SIZE) in
  ret (mkVendorPayload n p).

Record vendor_defined := mkVendorDefined {
  vd_standard_id : RegistryOrStandardsBodyID;
  vd_vendor_id : VendorIDStruct;
  vd_payload : vendor_payload;
}.
Abbreviation SpdmVendorDefinedRequestPayload := vendor_defined.
Abbreviation SpdmVendorDefinedResponsePayload := vendor_defined.
#[export] Instance spdm_codec_vendor_defined : SpdmCodec vendor_defined :=
  {| spdm_encode c v :=
       let large := large_cert c in
       let* s0 := enc (if large then USE_LARGE_PAYLOAD else empty_flags) in
       let* s1 := enc (0 : u8) in
       let* s2 := enc (vd_standard_id v) in
       let* s3 := enc (vd_vendor_id v) in
       let* s4 := if large then map_errM (λ _, SPDM_STATUS_BUFFER_FULL) (encode_large (vd_payload v))
                  else enc (vd_payload v) in
       ret (s0 + s1 + s2 + s3 + s4);
     spdm_read c :=
       let* param1 := read in
       let* _ := read (A:=u8) in
       let large := contains param1 USE_LARGE_PAYLOAD in
       let* _ := reject (large && negb (large_cert c)) in
       let* standard_id := read in
       let* vendor_id := read in
       let* payload := if large then read_large else read in
       ret (mkVendorDefined standard_id vendor_id payload) |}.

(** ** Laws *)
#[export] Instance enum_ok_SpdmErrorCode : EnumOk SpdmErrorCode 8.
Proof. solve_enum. Qed.
#[export] Instance codec_ok_SpdmErrorCode : CodecOk SpdmErrorCode := enum_u8_ok.

Definition not_ready_wf (v : SpdmErrorResponseNotReadyExtData) : Prop :=
  in_width 8 (nr_rdt_exponent v) ∧ in_width 8 (nr_request_code v) ∧ in_width 8 (nr_token v) ∧ in_width 8 (nr_rdtm v).
#[export] Program Instance spdm_codec_ok_not_ready : SpdmCodecOk SpdmErrorResponseNotReadyExtData :=
  {| sready _ := True;
     swf _ := not_ready_wf;
     sgood _ := not_ready_wf;
     sbytes _ v := [nr_rdt_exponent v] ++ [nr_request_code v] ++ [nr_token v] ++ [nr_rdtm v] |}.
Next Obligation. intros c v (H1 & H2 & H3 & H4). msg_bytes. Qed.
Next Obligation. intros c v (H1 & H2 & H3 & H4). unfold spdm_encode, spdm_codec_not_ready. msg_encodes. Qed.
Next Obligation.
  intros c v (H1 & H2 & H3 & H4). unfold spdm_read, spdm_codec_not_ready. msg_decodes. by destruct v.
Qed.
Next Obligation. intros c _. unfold spdm_read, spdm_codec_not_ready. msg_reads. msg_post. Qed.

(** The vendor data has no length of its own: only a full one is delimited. *)
Definition vendor_ext_wf (n : Z) (v : SpdmErrorResponseVendorExtData) : Prop :=
  n ≤ ve_data_size v ∧ padded (ve_data_size v) SPDM_ERROR_VENDOR_EXT_DATA_SIZE (ve_data v).
Lemma decodes_available bs : bytes_wf bs → decodes (read_available (length bs)) bs bs.
Proof.
  induction 1 as [|b bs Hb Hbs IH]; [apply decodes_ret|]. cbn [read_available length].
  change (b :: bs) with ([b] ++ bs). eapply decodes_bind; [by apply decodes_attempt, (decodes_u8 b)|]. cbv beta iota.
  eapply decodes_last; [exact IH|]. apply decodes_ret.
Qed.
Lemma reads_available n : reads (read_available n) (λ l, (length l ≤ n)%nat ∧ bytes_wf l).
Proof.
  induction n as [|n IH]; cbn [read_available]; [apply reads_ret; split; [done|constructor]|].
  eapply reads_bind; [apply reads_attempt, reads_u8|]. intros [b|] Hb.
  - eapply reads_bind; [exact IH|]. intros l [Hl Hw]. apply reads_ret. cbn. split; [lia|].
    apply bytes_wf_cons. split; [by apply Hb|done].
  - apply reads_ret. split; [cbn; lia|constructor].
Qed.
#[export] Program Instance spdm_codec_ok_vendor_ext : SpdmCodecOk SpdmErrorResponseVendorExtData :=
  {| sready _ := True;
     swf _ := vendor_ext_wf SPDM_ERROR_VENDOR_EXT_DATA_SIZE;
     sgood _ := vendor_ext_wf 0;
     sbytes _ v := ztake (ve_data_size v) (ve_data v) |}.
Next Obligation. by intros c v (_ & _ & _ & _ & H). Qed.
Next Obligation.
  intros c v [_ H]. pose proof (padded_len _ _ _ H) as Hl. unfold spdm_encode, spdm_codec_vendor_ext, encodes. eapply writes_eq.
  - eapply writes_bind; [apply enc_prefix_writes|apply writes_ret].
  - by list_norm.
  - done.
Qed.
Next Obligation.
  intros c v [Hn H]. pose proof (padded_len _ _ _ H) as Hl. destruct H as (Hb & Hlen & He & Hw).
  assert (ve_data_size v = 32) as H32 by (unfold SPDM_ERROR_VENDOR_EXT_DATA_SIZE in *; lia).
  unfold spdm_read, spdm_codec_vendor_ext.
  replace (Z.to_nat SPDM_ERROR_VENDOR_EXT_DATA_SIZE) with (length (ztake (ve_data_size v) (ve_data v)))
    by (unfold len in Hl; unfold SPDM_ERROR_VENDOR_EXT_DATA_SIZE; lia).
  eapply decodes_last; [by apply decodes_available|]. cbv beta. rewrite Hl, <- He. destruct v. apply decodes_ret.
Qed.
Next Obligation.
  intros c _. unfold spdm_read, spdm_codec_vendor_ext. eapply reads_bind; [apply reads_available|]. intros l [Hl Hw].
  apply reads_ret. split; [apply len_nonneg|]. apply padded_app; [|done].
  unfold len, SPDM_ERROR_VENDOR_EXT_DATA_SIZE in *. lia.
Qed.

(** The extended data goes with the code. *)
Definition error_ext_wf (n : Z) (code : SpdmErrorCode) (d : SpdmErrorResponseExtData) : Prop :=
  match code, d with
  | SpdmErrorResponseNotReady, SpdmErrorExtDataNotReady d => not_ready_wf d
  | SpdmErrorVendorDefined, SpdmErrorExtDataVendorDefined d => vendor_ext_wf n d
  | SpdmErrorResponseNotReady, _ | SpdmErrorVendorDefined, _ => False
  | _, SpdmErrorExtDataNone => True
  | _, _ => False
  end.
Definition error_ext_bytes (c : SpdmContext) (d : SpdmErrorResponseExtData) : list Z :=
  match d with
  | SpdmErrorExtDataNone => []
  | SpdmErrorExtDataNotReady d => sbytes c d
  | SpdmErrorExtDataVendorDefined d => sbytes c d
  end.
Definition error_wf (n : Z) (v : SpdmErrorResponsePayload) : Prop :=
  wf (er_error_code v) ∧ in_width 8 (er_error_data v) ∧ error_ext_wf n (er_error_code v) (er_extended_data v).
#[export] Program Instance spdm_codec_ok_error : SpdmCodecOk SpdmErrorResponsePayload :=
  {| sready _ := True;
     swf _ := error_wf SPDM_ERROR_VENDOR_EXT_DATA_SIZE;
     sgood _ := error_wf 0;
     sbytes c v := bytes (er_error_code v) ++ [er_error_data v] ++ error_ext_bytes c (er_extended_data v) |}.
Next Obligation.
  intros c v (H1 & H2 & H3). assert (bytes_wf (error_ext_bytes c (er_extended_data v))); [|msg_bytes].
  destruct (er_extended_data v) as [|d|d]; [constructor| |];
    destruct (er_error_code v); try done; exact (sbytes_ok c d H3).
Qed.
Next Obligation.
  intros c v (H1 & H2 & H3). unfold spdm_encode at 1, spdm_codec_error, encodes. eapply writes_eq.
  - eapply writes_bind; [by apply enc_writes|]. eapply writes_bind; [apply enc_u8|].
    eapply writes_bind; [|apply writes_ret]. instantiate (1 := len (error_ext_bytes c (er_extended_data v))).
    instantiate (1 := error_ext_bytes c (er_extended_data v)).
    destruct (er_extended_data v) as [|d|d]; [apply writes_ret| |];
      destruct (er_error_code v); try done; exact (spdm_encode_ok c d H3).
  - by list_norm.
  - zlia.
Qed.
Next Obligation.
  intros c v (H1 & H2 & H3). unfold spdm_read at 1, spdm_codec_error. do 2 dec_step.
  eapply (decodes_last _ _ (er_extended_data v)); [|destruct v; apply decodes_ret].
  destruct (er_error_code v), (er_extended_data v) as [|d|d]; try done; try apply decodes_ret;
    (eapply decodes_last; [exact (spdm_read_ok c d H3)|apply decodes_ret]).
Qed.
Next Obligation.
  intros c _. unfold spdm_read at 1, spdm_codec_error. do 2 rd_step.
  eapply (reads_bind _ _ (error_ext_wf 0 a)); [|intros d Hd; apply reads_ret; msg_post].
  destruct a; try (by apply reads_ret); (eapply reads_bind; [by apply spdm_read_safe|intros d Hd; by apply reads_ret]).
Qed.

(** *** Vendor-defined messages *)
#[export] Instance enum_ok_RegistryOrStandardsBodyID : EnumOk RegistryOrStandardsBodyID 16.
Proof. solve_enum. Qed.
#[export] Instance codec_ok_RegistryOrStandardsBodyID : CodecOk RegistryOrStandardsBodyID := enum_u16_ok.

Definition vendor_id_wf (v : VendorIDStruct) : Prop :=
  padded (vid_len v) MAX_SPDM_VENDOR_DEFINED_VENDOR_ID_LEN (vid_vendor_id v).
#[export] Program Instance codec_ok_VendorIDStruct : CodecOk VendorIDStruct :=
  {| wf := vendor_id_wf; bytes v := [vid_len v] ++ ztake (vid_len v) (vid_vendor_id v) |}.
Next Obligation.
  intros v (Hn & _ & _ & Hw). unfold MAX_SPDM_VENDOR_DEFINED_VENDOR_ID_LEN in Hn. apply bytes_wf_app.
  split; [apply bytes_wf_u8; unfold in_width; lia|done].
Qed.
Next Obligation. intros v Hv. unfold encode at 1, codec_VendorIDStruct. solve_writes. Qed.
Next Obligation.
  intros v Hv. destruct (proj1 Hv). unfold MAX_SPDM_VENDOR_DEFINED_VENDOR_ID_LEN in *.
  unfold read at 1, codec_VendorIDStruct. eapply decodes_bind; [apply decodes_u8; unfold in_width; lia|]. cbv beta.
  eapply decodes_last; [by apply decodes_padded|]. destruct v. apply decodes_ret.
Qed.
Next Obligation.
  unfold read at 1, codec_VendorIDStruct. eapply reads_bind; [apply reads_u8|]. intros n Hn. unfold in_width in Hn.
  eapply reads_bind; [apply (reads_padded n MAX_SPDM_VENDOR_DEFINED_VENDOR_ID_LEN); unfold MAX_SPDM_VENDOR_DEFINED_VENDOR_ID_LEN; lia|].
  intros l Hl. by apply reads_ret.
Qed.

Definition vendor_payload_wf (v : vendor_payload) : Prop :=
  padded (vp_length v) MAX_SPDM_VENDOR_DEFINED_PAYLOAD_SIZE (vp_payload v).
Ltac vdm_size := unfold in_width, MAX_SPDM_VENDOR_DEFINED_PAYLOAD_SIZE, MAX_SPDM_MSG_SIZE in *; lia.
#[export] Program Instance codec_ok_vendor_payload : CodecOk vendor_payload :=
  {| wf := vendor_payload_wf; bytes v := le_bytes 2 (vp_length v) ++ ztake (vp_length v) (vp_payload v) |}.
Next Obligation. intros v (_ & _ & _ & Hw). apply bytes_wf_app. split; [auto with wfb|done]. Qed.
Next Obligation.
  intros v Hv. destruct (proj1 Hv). unfold encode at 1, codec_vendor_payload. rewrite wrap_small by vdm_size. solve_writes.
Qed.
Next Obligation.
  intros v Hv. destruct (proj1 Hv). unfold read at 1, codec_vendor_payload.
  eapply decodes_bind; [apply decodes_u16; vdm_size|]. cbv beta. apply decodes_reject; [vdm_size|].
  eapply decodes_last; [by apply decodes_padded|]. destruct v. apply decodes_ret.
Qed.
Next Obligation.
  unfold read at 1, codec_vendor_payload. do 2 rd_step.
  eapply reads_bind; [apply (reads_padded _ MAX_SPDM_VENDOR_DEFINED_PAYLOAD_SIZE); vdm_size|]. intros l Hl. by apply reads_ret.
Qed.
Definition large_bytes (v : vendor_payload) : list Z :=
  le_bytes 2 0 ++ le_bytes 4 (vp_length v) ++ ztake (vp_length v) (vp_payload v).
Lemma encode_large_ok v : encodes EncodeErr_ (encode_large v) (large_bytes v).
Proof. unfold encode_large, large_bytes. solve_writes. Qed.
Lemma read_large_ok v : vendor_payload_wf v → decodes read_large (large_bytes v) v.
Proof.
  intros Hv. destruct (proj1 Hv). unfold read_large, large_bytes. eapply decodes_bind; [by apply (decodes_u16 0)|].
  eapply decodes_bind; [apply decodes_u32; vdm_size|]. cbv beta. apply decodes_reject; [vdm_size|].
  eapply decodes_last; [by apply decodes_padded|]. destruct v. apply decodes_ret.
Qed.
Lemma read_large_safe : reads read_large vendor_payload_wf.
Proof.
  unfold read_large. do 3 rd_step.
  eapply reads_bind; [apply (reads_padded _ MAX_SPDM_VENDOR_DEFINED_PAYLOAD_SIZE); vdm_size|]. intros l Hl. by apply reads_ret.
Qed.

Definition vendor_defined_wf (v : vendor_defined) : Prop :=
  wf (vd_standard_id v) ∧ wf (vd_vendor_id v) ∧ wf (vd_payload v).
#[export] Program Instance spdm_codec_ok_vendor_defined : SpdmCodecOk vendor_defined :=
  {| sready _ := True;
     swf _ := vendor_defined_wf;
     sgood _ := vendor_defined_wf;
     sbytes c v := bytes (if large_cert c then USE_LARGE_PAYLOAD else empty_flags) ++ [0] ++
       bytes (vd_standard_id v) ++ bytes (vd_vendor_id v) ++
       (if large_cert c then large_bytes (vd_payload v) else bytes (vd_payload v)) |}.
Next Obligation.
  intros c v (H1 & H2 & H3). assert (wf (if large_cert c then USE_LARGE_PAYLOAD else empty_flags)) by (by destruct (large_cert c)).
  assert (bytes_wf (if large_cert c then large_bytes (vd_payload v) else bytes (vd_payload v))); [|msg_bytes].
  destruct (large_cert c); [|exact (bytes_ok _ H3)]. destruct H3 as (_ & _ & _ & Hw). unfold large_bytes. msg_bytes.
Qed.
Next Obligation.
  intros c v (H1 & H2 & H3). assert (wf (if large_cert c then USE_LARGE_PAYLOAD else empty_flags)) by (by destruct (large_cert c)).
  unfold spdm_encode, spdm_codec_vendor_defined. cbv zeta.
  assert (encodes SPDM_STATUS_BUFFER_FULL
    (if large_cert c then map_errM (λ _, SPDM_STATUS_BUFFER_FULL) (encode_large (vd_payload v)) else enc (vd_payload v))
    (if large_cert c then large_bytes (vd_payload v) else bytes (vd_payload v))).
  { destruct (large_cert c); [eapply writes_map_err, encode_large_ok|by apply enc_writes]. }
  msg_encodes.
Qed.
Next Obligation.
  intros c v (H1 & H2 & H3). assert (wf (if large_cert c then USE_LARGE_PAYLOAD else empty_flags)) by (by destruct (large_cert c)).
  unfold spdm_read, spdm_codec_vendor_defined. do 2 dec_step. cbv zeta.
  replace (contains _ USE_LARGE_PAYLOAD) with (large_cert c) by (by destruct (large_cert c)).
  apply decodes_reject; [by destruct (large_cert c)|]. do 2 dec_step.
  eapply (decodes_last _ _ (vd_payload v)); [|destruct v; apply decodes_ret]. destruct (large_cert c); [by apply read_large_ok|exact (read_ok _ H3)].
Qed.
Next Obligation.
  intros c _. unfold spdm_read, spdm_codec_vendor_defined. do 5 rd_step.
  eapply (reads_bind _ _ (wf (A:=vendor_payload))); [apply reads_if; intros _; [apply read_large_safe|apply read_safe]|].
  intros p Hp. apply reads_ret. msg_post.
Qed.

(** ** General payload

    The parameters are not written. *)
#[export] Instance spdm_codec_general : SpdmCodec SpdmMessageGeneralPayload :=
  {| spdm_encode _ _ := let* _ := enc (0 : u8) in let* _ := enc (0 : u8) in ret 2;
     spdm_read _ :=
       let* param1 := read (A:=u8) in
       let* param2 := read (A:=u8) in
       ret (mkGeneralPayload param1 param2) |}.
Lemma general_encode_ok c p : encodes SPDM_STATUS_BUFFER_FULL (spdm_encode c p) ([0] ++ [0]).
Proof. unfold spdm_encode, spdm_codec_general. msg_encodes. Qed.
Lemma general_read_ok c : decodes (spdm_read c) ([0] ++ [0]) (mkGeneralPayload 0 0).
Proof. unfold spdm_read, spdm_codec_general. by msg_decodes. Qed.
