(* ===== verification/Message.v ===== *)
(** * Messages

    Models [SpdmMessage] of src/spdmlib/src/message/mod.rs: a header and one of
    the payloads.  Proved: a message that is written is read back, up to what
    the selected version and options leave off the wire, a message that does
    not fit is refused, and reading arbitrary bytes never panics once the sizes
    the payload looks up are defined. *)

From S2P Require Import Prelude Codec Status Bitflags Algo DataTypes Structs Version Session.
From S2P Require Import HashCtx Header ContextData Context SpdmCodec Opaque MsgLib.
From S2P Require Import MsgNegotiate MsgAuth MsgSession MsgMisc.
Import Context.

Inductive SpdmMessagePayload :=
| SpdmMessageGeneral (p : SpdmMessageGeneralPayload)
| SpdmGetVersionRequest (p : SpdmGetVersionRequestPayload)
| SpdmVersionResponse (p : SpdmVersionResponsePayload)
| SpdmGetCapabilitiesRequest (p : SpdmGetCapabilitiesRequestPayload)
| SpdmCapabilitiesResponse (p : SpdmCapabilitiesResponsePayload)
| SpdmNegotiateAlgorithmsRequest (p : SpdmNegotiateAlgorithmsRequestPayload)
| SpdmAlgorithmsResponse (p : SpdmAlgorithmsResponsePayload)
| SpdmGetDigestsRequest (p : SpdmGetDigestsRequestPayload)
| SpdmDigestsResponse (p : SpdmDigestsResponsePayload)
| SpdmGetCertificateRequest (p : SpdmGetCertificateRequestPayload)
| SpdmCertificateResponse (p : SpdmCertificateResponsePayload)
| SpdmChallengeRequest (p : SpdmChallengeRequestPayload)
| SpdmChallengeAuthResponse (p : SpdmChallengeAuthResponsePayload)
| SpdmGetMeasurementsRequest (p : SpdmGetMeasurementsRequestPayload)
| SpdmMeasurementsResponse (p : SpdmMeasurementsResponsePayload)
| SpdmKeyExchangeRequest (p : SpdmKeyExchangeRequestPayload)
| SpdmKeyExchangeResponse (p : SpdmKeyExchangeResponsePayload)
| SpdmFinishRequest (p : SpdmFinishRequestPayload)
| SpdmFinishResponse (p : SpdmFinishResponsePayload)
| SpdmPskExchangeRequest (p : SpdmPskExchangeRequestPayload)
| SpdmPskExchangeResponse (p : SpdmPskExchangeResponsePayload)
| SpdmPskFinishRequest (p : SpdmPskFinishRequestPayload)
| SpdmPskFinishResponse (p : SpdmPskFinishResponsePayload)
| SpdmHeartbeatRequest (p : SpdmHeartbeatRequestPayload)
| SpdmHeartbeatResponse (p : SpdmHeartbeatResponsePayload)
| SpdmKeyUpdateRequest (p : SpdmKeyUpdateRequestPayload)
| SpdmKeyUpdateResponse (p : SpdmKeyUpdateResponsePayload)
| SpdmEndSessionRequest (p : SpdmEndSessionRequestPayload)
| SpdmEndSessionResponse (p : SpdmEndSessionResponsePayload)
| SpdmErrorResponse (p : SpdmErrorResponsePayload)
| SpdmVendorDefinedRequest (p : SpdmVendorDefinedRequestPayload)
| SpdmVendorDefinedResponse (p : SpdmVendorDefinedResponsePayload).
Record SpdmMessage := mkMessage { msg_header : SpdmMessageHeader; msg_payload : SpdmMessagePayload }.

Definition encode_payload (c : SpdmContext) (p : SpdmMessagePayload) : M Writer SpdmStatus usize :=
  match p with
  | SpdmMessageGeneral p => spdm_encode c p
  | SpdmGetVersionRequest p => spdm_encode c p
  | SpdmVersionResponse p => spdm_encode c p
  | SpdmGetCapabilitiesRequest p => spdm_encode c p
  | SpdmCapabilitiesResponse p => spdm_encode c p
  | SpdmNegotiateAlgorithmsRequest p => spdm_encode c p
  | SpdmAlgorithmsResponse p => spdm_encode c p
  | SpdmGetDigestsRequest p => spdm_encode c p
  | SpdmDigestsResponse p => spdm_encode c p
  | SpdmGetCertificateRequest p => spdm_encode c p
  | SpdmCertificateResponse p => spdm_encode c p
  | SpdmChallengeRequest p => spdm_encode c p
  | SpdmChallengeAuthResponse p => spdm_encode c p
  | SpdmGetMeasurementsRequest p => spdm_encode c p
  | SpdmMeasurementsResponse p => spdm_encode c p
  | SpdmKeyExchangeRequest p => spdm_encode c p
  | SpdmKeyExchangeResponse p => spdm_encode c p
  | SpdmFinishRequest p => spdm_encode c p
  | SpdmFinishResponse p => spdm_encode c p
  | SpdmPskExchangeRequest p => spdm_encode c p
  | SpdmPskExchangeResponse p => spdm_encode c p
  | SpdmPskFinishRequest p => spdm_encode c p
  | SpdmPskFinishResponse p => spdm_encode c p
  | SpdmHeartbeatRequest p => spdm_encode c p
  | SpdmHeartbeatResponse p => spdm_encode c p
  | SpdmKeyUpdateRequest p => spdm_encode c p
  | SpdmKeyUpdateResponse p => spdm_encode c p
  | SpdmEndSessionRequest p => spdm_encode c p
  | SpdmEndSessionResponse p => spdm_encode c p
  | SpdmErrorResponse p => spdm_encode c p
  | SpdmVendorDefinedRequest p => spdm_encode c p
  | SpdmVendorDefinedResponse p => spdm_encode c p
  end.
Definition read_payload (c : SpdmContext) (code : SpdmRequestResponseCode) : M Reader unit SpdmMessagePayload :=
  match code with
  | SpdmRequestGetVersion => let* p := spdm_read c in ret (SpdmGetVersionRequest p)
  | SpdmResponseVersion => let* p := spdm_read c in ret (SpdmVersionResponse p)
  | SpdmRequestGetCapabilities => let* p := spdm_read c in ret (SpdmGetCapabilitiesRequest p)
  | SpdmResponseCapabilities => let* p := spdm_read c in ret (SpdmCapabilitiesResponse p)
  | SpdmRequestNegotiateAlgorithms => let* p := spdm_read c in ret (SpdmNegotiateAlgorithmsRequest p)
  | SpdmResponseAlgorithms => let* p := spdm_read c in ret (SpdmAlgorithmsResponse p)
  | SpdmRequestGetDigests => let* p := spdm_read c in ret (SpdmGetDigestsRequest p)
  | SpdmResponseDigests => let* p := spdm_read c in ret (SpdmDigestsResponse p)
  | SpdmRequestGetCertificate => let* p := spdm_read c in ret (SpdmGetCertificateRequest p)
  | SpdmResponseCertificate => let* p := spdm_read c in ret (SpdmCertificateResponse p)
  | SpdmRequestChallenge => let* p := spdm_read c in ret (SpdmChallengeRequest p)
  | SpdmResponseChallengeAuth => let* p := spdm_read c in ret (SpdmChallengeAuthResponse p)
  | SpdmRequestGetMeasurements => let* p := spdm_read c in ret (SpdmGetMeasurementsRequest p)
  | SpdmResponseMeasurements => let* p := spdm_read c in ret (SpdmMeasurementsResponse p)
  | SpdmRequestKeyExchange => let* p := spdm_read c in ret (SpdmKeyExchangeRequest p)
  | SpdmResponseKeyExchangeRsp => let* p := spdm_read c in ret (SpdmKeyExchangeResponse p)
  | SpdmRequestFinish => let* p := spdm_read c in ret (SpdmFinishRequest p)
  | SpdmResponseFinishRsp => let* p := spdm_read c in ret (SpdmFinishResponse p)
  | SpdmRequestPskExchange => let* p := spdm_read c in ret (SpdmPskExchangeRequest p)
  | SpdmResponsePskExchangeRsp => let* p := spdm_read c in ret (SpdmPskExchangeResponse p)
  | SpdmRequestPskFinish => let* p := spdm_read c in ret (SpdmPskFinishRequest p)
  | SpdmResponsePskFinishRsp => let* p := spdm_read c in ret (SpdmPskFinishResponse p)
  | SpdmRequestHeartbeat => let* p := spdm_read c in ret (SpdmHeartbeatRequest p)
  | SpdmResponseHeartbeatAck => let* p := spdm_read c in ret (SpdmHeartbeatResponse p)
  | SpdmRequestKeyUpdate => let* p := spdm_read c in ret (SpdmKeyUpdateRequest p)
  | SpdmResponseKeyUpdateAck => let* p := spdm_read c in ret (SpdmKeyUpdateResponse p)
  | SpdmRequestEndSession => let* p := spdm_read c in ret (SpdmEndSessionRequest p)
  | SpdmResponseEndSessionAck => let* p := spdm_read c in ret (SpdmEndSessionResponse p)
  | SpdmResponseError => let* p := spdm_read c in ret (SpdmErrorResponse p)
  | _ => throw tt
  end.
Definition read_with_detailed_error (c : SpdmContext) : M Reader unit SpdmMessage :=
  let* header := read in
  let* payload := read_payload c (request_response_code header) in
  ret (mkMessage header payload).
#[export] Instance spdm_codec_message : SpdmCodec SpdmMessage :=
  {| spdm_encode c m :=
       let* s0 := enc (msg_header m) in
       let* s1 := encode_payload c (msg_payload m) in
       ret (s0 + s1);
     spdm_read c := read_with_detailed_error c |}.

(** ** Specification

    The code of the header and the payload belong together; a general payload
    goes with any code. *)
Definition payload_wf (c : SpdmContext) (code : SpdmRequestResponseCode) (p : SpdmMessagePayload) : Prop :=
  match code, p with
  | SpdmRequestGetVersion, SpdmGetVersionRequest p => swf c p
  | SpdmResponseVersion, SpdmVersionResponse p => swf c p
  | SpdmRequestGetCapabilities, SpdmGetCapabilitiesRequest p => swf c p
  | SpdmResponseCapabilities, SpdmCapabilitiesResponse p => swf c p
  | SpdmRequestNegotiateAlgorithms, SpdmNegotiateAlgorithmsRequest p => swf c p
  | SpdmResponseAlgorithms, SpdmAlgorithmsResponse p => swf c p
  | SpdmRequestGetDigests, SpdmGetDigestsRequest p => swf c p
  | SpdmResponseDigests, SpdmDigestsResponse p => swf c p
  | SpdmRequestGetCertificate, SpdmGetCertificateRequest p => swf c p
  | SpdmResponseCertificate, SpdmCertificateResponse p => swf c p
  | SpdmRequestChallenge, SpdmChallengeRequest p => swf c p
  | SpdmResponseChallengeAuth, SpdmChallengeAuthResponse p => swf c p
  | SpdmRequestGetMeasurements, SpdmGetMeasurementsRequest p => swf c p
  | SpdmResponseMeasurements, SpdmMeasurementsResponse p => measurements_wf c p
  | SpdmRequestKeyExchange, SpdmKeyExchangeRequest p => swf c p
  | SpdmResponseKeyExchangeRsp, SpdmKeyExchangeResponse p => swf c p
  | SpdmRequestFinish, SpdmFinishRequest p => swf c p
  | SpdmResponseFinishRsp, SpdmFinishResponse p => swf c p
  | SpdmRequestPskExchange, SpdmPskExchangeRequest p => swf c p
  | SpdmResponsePskExchangeRsp, SpdmPskExchangeResponse p => swf c p
  | SpdmRequestPskFinish, SpdmPskFinishRequest p => swf c p
  | SpdmResponsePskFinishRsp, SpdmPskFinishResponse p => swf c p
  | SpdmRequestHeartbeat, SpdmHeartbeatRequest p => swf c p
  | SpdmResponseHeartbeatAck, SpdmHeartbeatResponse p => swf c p
  | SpdmRequestKeyUpdate, SpdmKeyUpdateRequest p => swf c p
  | SpdmResponseKeyUpdateAck, SpdmKeyUpdateResponse p => swf c p
  | SpdmRequestEndSession, SpdmEndSessionRequest p => swf c p
  | SpdmResponseEndSessionAck, SpdmEndSessionResponse p => swf c p
  | SpdmResponseError, SpdmErrorResponse p => swf c p
  | SpdmRequestVendorDefinedRequest, SpdmVendorDefinedRequest p => swf c p
  | SpdmResponseVendorDefinedResponse, SpdmVendorDefinedResponse p => swf c p
  | _, SpdmMessageGeneral p => p = mkGeneralPayload 0 0
  | _, _ => False
  end.
Definition payload_good (c : SpdmContext) (code : SpdmRequestResponseCode) (p : SpdmMessagePayload) : Prop :=
  match code, p with
  | SpdmRequestGetVersion, SpdmGetVersionRequest p => sgood c p
  | SpdmResponseVersion, SpdmVersionResponse p => sgood c p
  | SpdmRequestGetCapabilities, SpdmGetCapabilitiesRequest p => sgood c p
  | SpdmResponseCapabilities, SpdmCapabilitiesResponse p => sgood c p
  | SpdmRequestNegotiateAlgorithms, SpdmNegotiateAlgorithmsRequest p => sgood c p
  | SpdmResponseAlgorithms, SpdmAlgorithmsResponse p => sgood c p
  | SpdmRequestGetDigests, SpdmGetDigestsRequest p => sgood c p
  | SpdmResponseDigests, SpdmDigestsResponse p => sgood c p
  | SpdmRequestGetCertificate, SpdmGetCertificateRequest p => sgood c p
  | SpdmResponseCertificate, SpdmCertificateResponse p => sgood c p
  | SpdmRequestChallenge, SpdmChallengeRequest p => sgood c p
  | SpdmResponseChallengeAuth, SpdmChallengeAuthResponse p => sgood c p
  | SpdmRequestGetMeasurements, SpdmGetMeasurementsRequest p => sgood c p
  | SpdmResponseMeasurements, SpdmMeasurementsResponse p => measurements_wf c p
  | SpdmRequestKeyExchange, SpdmKeyExchangeRequest p => sgood c p
  | SpdmResponseKeyExchangeRsp, SpdmKeyExchangeResponse p => sgood c p
  | SpdmRequestFinish, SpdmFinishRequest p => sgood c p
  | SpdmResponseFinishRsp, SpdmFinishResponse p => sgood c p
  | SpdmRequestPskExchange, SpdmPskExchangeRequest p => sgood c p
  | SpdmResponsePskExchangeRsp, SpdmPskExchangeResponse p => sgood c p
  | SpdmRequestPskFinish, SpdmPskFinishRequest p => sgood c p
  | SpdmResponsePskFinishRsp, SpdmPskFinishResponse p => sgood c p
  | SpdmRequestHeartbeat, SpdmHeartbeatRequest p => sgood c p
  | SpdmResponseHeartbeatAck, SpdmHeartbeatResponse p => sgood c p
  | SpdmRequestKeyUpdate, SpdmKeyUpdateRequest p => sgood c p
  | SpdmResponseKeyUpdateAck, SpdmKeyUpdateResponse p => sgood c p
  | SpdmRequestEndSession, SpdmEndSessionRequest p => sgood c p
  | SpdmResponseEndSessionAck, SpdmEndSessionResponse p => sgood c p
  | SpdmResponseError, SpdmErrorResponse p => sgood c p
  | _, _ => False
  end.
Definition payload_bytes (c : SpdmContext) (p : SpdmMessagePayload) : list Z :=
  match p with
  | SpdmMessageGeneral _ => [0] ++ [0]
  | SpdmGetVersionRequest p => sbytes c p
  | SpdmVersionResponse p => sbytes c p
  | SpdmGetCapabilitiesRequest p => sbytes c p
  | SpdmCapabilitiesResponse p => sbytes c p
  | SpdmNegotiateAlgorithmsRequest p => sbytes c p
  | SpdmAlgorithmsResponse p => sbytes c p
  | SpdmGetDigestsRequest p => sbytes c p
  | SpdmDigestsResponse p => sbytes c p
  | SpdmGetCertificateRequest p => sbytes c p
  | SpdmCertificateResponse p => sbytes c p
  | SpdmChallengeRequest p => sbytes c p
  | SpdmChallengeAuthResponse p => sbytes c p
  | SpdmGetMeasurementsRequest p => sbytes c p
  | SpdmMeasurementsResponse p => measurements_bytes c p
  | SpdmKeyExchangeRequest p => sbytes c p
  | SpdmKeyExchangeResponse p => sbytes c p
  | SpdmFinishRequest p => sbytes c p
  | SpdmFinishResponse p => sbytes c p
  | SpdmPskExchangeRequest p => sbytes c p
  | SpdmPskExchangeResponse p => sbytes c p
  | SpdmPskFinishRequest p => sbytes c p
  | SpdmPskFinishResponse p => sbytes c p
  | SpdmHeartbeatRequest p => sbytes c p
  | SpdmHeartbeatResponse p => sbytes c p
  | SpdmKeyUpdateRequest p => sbytes c p
  | SpdmKeyUpdateResponse p => sbytes c p
  | SpdmEndSessionRequest p => sbytes c p
  | SpdmEndSessionResponse p => sbytes c p
  | SpdmErrorResponse p => sbytes c p
  | SpdmVendorDefinedRequest p => sbytes c p
  | SpdmVendorDefinedResponse p => sbytes c p
  end.
(** A message as its receiver reads it: [SpdmMessage::read] knows neither
    vendor-defined nor general payloads, whose receivers read the header and
    then the payload. *)
Definition read_as (c : SpdmContext) (p : SpdmMessagePayload) : M Reader unit SpdmMessage :=
  let after_header (m : M Reader unit SpdmMessagePayload) := let* header := read in let* p := m in ret (mkMessage header p) in
  match p with
  | SpdmMessageGeneral _ => after_header (let* p := spdm_read c in ret (SpdmMessageGeneral p))
  | SpdmVendorDefinedRequest _ => after_header (let* p := spdm_read c in ret (SpdmVendorDefinedRequest p))
  | SpdmVendorDefinedResponse _ => after_header (let* p := spdm_read c in ret (SpdmVendorDefinedResponse p))
  | _ => spdm_read c
  end.
Definition vendor_defined_code (code : SpdmRequestResponseCode) : bool :=
  bool_decide (code = SpdmRequestVendorDefinedRequest ∨ code = SpdmResponseVendorDefinedResponse).

(** *** What is left off the wire

    The fields the selected version and options do not transmit, at the value
    the receiver gives them. *)
Definition keep {A} (b : bool) (d a : A) : A := if b then a else d.
Section OnWire.
Context (c : SpdmContext).
Let v11 := ver_ge c SpdmVersion11.
Let v12 := ver_ge c SpdmVersion12.
Let v13 := ver_ge c SpdmVersion13.
Let v14 := ver_ge c SpdmVersion14.
Let summary := need_measurement_summary_hash (runtime_info c).
Definition payload_on_wire (p : SpdmMessagePayload) : SpdmMessagePayload :=
  match p with
  | SpdmMessageGeneral _ => SpdmMessageGeneral (mkGeneralPayload 0 0)
  | SpdmGetCapabilitiesRequest (mkGetCapabilities ct_exponent flags transfer max ex_flags) =>
      SpdmGetCapabilitiesRequest (mkGetCapabilities (keep v11 0 ct_exponent) (keep v11 empty_flags flags)
        (keep v12 0 transfer) (keep v12 0 max) (keep (v11 && v14) empty_flags ex_flags))
  | SpdmCapabilitiesResponse (mkCapabilities ct_exponent flags transfer max ex_flags) =>
      SpdmCapabilitiesResponse (mkCapabilities ct_exponent flags (keep v12 0 transfer) (keep v12 0 max)
        (keep v14 empty_flags ex_flags))
  | SpdmNegotiateAlgorithmsRequest (mkNegotiateAlgorithms spec other asym hash pqc mel count algs) =>
      SpdmNegotiateAlgorithmsRequest (mkNegotiateAlgorithms spec (keep v12 empty_flags other) asym hash
        (keep v14 empty_flags pqc) (keep v13 empty_flags mel) (keep v11 0 count) (keep v11 alg_struct_default algs))
  | SpdmAlgorithmsResponse (mkAlgorithms spec other mhash asym hash pqc mel count algs) =>
      SpdmAlgorithmsResponse (mkAlgorithms spec (keep v12 empty_flags other) mhash asym hash
        (keep v14 empty_flags pqc) (keep v13 empty_flags mel) (keep v11 0 count) (keep v11 alg_struct_default algs))
  | SpdmDigestsResponse (mkDigests mask digests supported ids infos usages) =>
      let multi := multi_key_rsp c in
      SpdmDigestsResponse (mkDigests mask digests (keep v13 0 supported) (keep multi (slot_array 0) ids)
        (keep multi (slot_array SpdmCertModelTypeNone) infos) (keep multi (slot_array empty_flags) usages))
  | SpdmChallengeRequest (mkChallenge slot type nonce context) =>
      SpdmChallengeRequest (mkChallenge slot type nonce (keep v13 byte_array_default context))
  | SpdmChallengeAuthResponse (mkChallengeAuth slot mask attribute chain nonce hash opaque context signature) =>
      SpdmChallengeAuthResponse (mkChallengeAuth slot mask attribute chain nonce (keep summary sens_default hash) opaque
        (keep v13 byte_array_default context) signature)
  | SpdmGetMeasurementsRequest (mkGetMeasurements attributes operation nonce slot context) =>
      let sig := contains attributes SIGNATURE_REQUESTED in
      SpdmGetMeasurementsRequest (mkGetMeasurements attributes operation (keep sig byte_array_default nonce)
        (keep (sig && v11) 0 slot) (keep v13 byte_array_default context))
  | SpdmMeasurementsResponse (mkMeasurements number changed slot record nonce opaque context signature operation) =>
      SpdmMeasurementsResponse (mkMeasurements number changed slot record nonce opaque (keep v13 byte_array_default context)
        (keep (need_measurement_signature (runtime_info c)) sens_default signature) operation)
  | SpdmKeyExchangeRequest (mkKeyExchange type slot id policy random exchange opaque) =>
      SpdmKeyExchangeRequest (mkKeyExchange type slot id (Z.land policy (policy_mask c)) random exchange opaque)
  | SpdmKeyExchangeResponse (mkKeyExchangeRsp period id mut_auth slot random exchange hash opaque signature verify) =>
      SpdmKeyExchangeResponse (mkKeyExchangeRsp period id mut_auth slot random exchange (keep summary sens_default hash) opaque
        signature (keep (negb (in_clear_text c)) sens_default verify))
  | SpdmFinishRequest (mkFinish attributes slot signature verify opaque) =>
      SpdmFinishRequest (mkFinish attributes slot (keep (contains attributes SIGNATURE_INCLUDED) sens_default signature) verify
        (keep v14 sens_default opaque))
  | SpdmFinishResponse (mkFinishRsp verify opaque) =>
      SpdmFinishResponse (mkFinishRsp (keep (in_clear_text c) sens_default verify) (keep v14 sens_default opaque))
  | SpdmPskExchangeResponse (mkPskExchangeRsp period id hash context opaque verify) =>
      SpdmPskExchangeResponse (mkPskExchangeRsp period id (keep summary sens_default hash)
        (keep (negb (psk_without_context c)) sens_default context) opaque verify)
  | SpdmPskFinishRequest (mkPskFinish verify opaque) => SpdmPskFinishRequest (mkPskFinish verify (keep v14 sens_default opaque))
  | SpdmPskFinishResponse (mkPskFinishRsp opaque) => SpdmPskFinishResponse (mkPskFinishRsp (keep v14 sens_default opaque))
  | p => p
  end.
End OnWire.
Definition on_wire (c : SpdmContext) (m : SpdmMessage) : SpdmMessage :=
  mkMessage (msg_header m) (payload_on_wire c (msg_payload m)).
(** What the receiver sees: only MEASUREMENTS loses something. *)
Definition payload_view (c : SpdmContext) (p : SpdmMessagePayload) : SpdmMessagePayload :=
  match p with SpdmMeasurementsResponse p => SpdmMeasurementsResponse (measurements_view c p) | _ => p end.
Definition payload_ready (c : SpdmContext) (code : SpdmRequestResponseCode) : Prop :=
  match code with
  | SpdmRequestGetVersion => sready (A:=SpdmGetVersionRequestPayload) c
  | SpdmResponseVersion => sready (A:=SpdmVersionResponsePayload) c
  | SpdmRequestGetCapabilities => sready (A:=SpdmGetCapabilitiesRequestPayload) c
  | SpdmResponseCapabilities => sready (A:=SpdmCapabilitiesResponsePayload) c
  | SpdmRequestNegotiateAlgorithms => sready (A:=SpdmNegotiateAlgorithmsRequestPayload) c
  | SpdmResponseAlgorithms => sready (A:=SpdmAlgorithmsResponsePayload) c
  | SpdmRequestGetDigests => sready (A:=SpdmGetDigestsRequestPayload) c
  | SpdmResponseDigests => sready (A:=SpdmDigestsResponsePayload) c
  | SpdmRequestGetCertificate => sready (A:=SpdmGetCertificateRequestPayload) c
  | SpdmResponseCertificate => sready (A:=SpdmCertificateResponsePayload) c
  | SpdmRequestChallenge => sready (A:=SpdmChallengeRequestPayload) c
  | SpdmResponseChallengeAuth => sready (A:=SpdmChallengeAuthResponsePayload) c
  | SpdmRequestGetMeasurements => sready (A:=SpdmGetMeasurementsRequestPayload) c
  | SpdmResponseMeasurements => measurements_ready c
  | SpdmRequestKeyExchange => sready (A:=SpdmKeyExchangeRequestPayload) c
  | SpdmResponseKeyExchangeRsp => sready (A:=SpdmKeyExchangeResponsePayload) c
  | SpdmRequestFinish => sready (A:=SpdmFinishRequestPayload) c
  | SpdmResponseFinishRsp => sready (A:=SpdmFinishResponsePayload) c
  | SpdmRequestPskExchange => sready (A:=SpdmPskExchangeRequestPayload) c
  | SpdmResponsePskExchangeRsp => sready (A:=SpdmPskExchangeResponsePayload) c
  | SpdmRequestPskFinish => sready (A:=SpdmPskFinishRequestPayload) c
  | SpdmResponsePskFinishRsp => sready (A:=SpdmPskFinishResponsePayload) c
  | SpdmRequestHeartbeat => sready (A:=SpdmHeartbeatRequestPayload) c
  | SpdmResponseHeartbeatAck => sready (A:=SpdmHeartbeatResponsePayload) c
  | SpdmRequestKeyUpdate => sready (A:=SpdmKeyUpdateRequestPayload) c
  | SpdmResponseKeyUpdateAck => sready (A:=SpdmKeyUpdateResponsePayload) c
  | SpdmRequestEndSession => sready (A:=SpdmEndSessionRequestPayload) c
  | SpdmResponseEndSessionAck => sready (A:=SpdmEndSessionResponsePayload) c
  | SpdmResponseError => sready (A:=SpdmErrorResponsePayload) c
  | _ => True
  end.
Definition message_wf (c : SpdmContext) (m : SpdmMessage) : Prop :=
  wf (msg_header m) ∧ payload_wf c (request_response_code (msg_header m)) (msg_payload m).
Definition message_bytes (c : SpdmContext) (m : SpdmMessage) : list Z :=
  bytes (msg_header m) ++ payload_bytes c (msg_payload m).
Definition message_view (c : SpdmContext) (m : SpdmMessage) : SpdmMessage :=
  mkMessage (msg_header m) (payload_view c (msg_payload m)).
(** The sizes the readers look up are defined. *)
Definition message_ready (c : SpdmContext) : Prop := ∀ code, payload_ready c code.

(** ** Laws *)
Section Payload.
Context (c : SpdmContext) (code : SpdmRequestResponseCode) (p : SpdmMessagePayload).
Lemma payload_encode_ok :
  payload_wf c code p → encodes SPDM_STATUS_BUFFER_FULL (encode_payload c p) (payload_bytes c p).
Proof.
  destruct p; destruct code; try (by intros []); intros H; cbn [encode_payload payload_bytes];
    first [apply general_encode_ok | exact (spdm_encode_ok c _ H) | exact (measurements_encode_ok c _ H)].
Qed.
Lemma payload_read_ok h :
  wf h → payload_wf c (request_response_code h) p →
  decodes (read_as c p) (bytes h ++ payload_bytes c p) (mkMessage h (payload_view c p)).
Proof.
  intros Hh. destruct h as [version code']. destruct p; destruct code'; try (by intros []); intros H;
    cbn [read_as payload_bytes payload_view request_response_code] in *;
    (eapply decodes_bind; [by apply read_ok|]; cbv beta; cbn [read_payload request_response_code]);
    (eapply decodes_last; [eapply decodes_last; [|apply decodes_ret]|apply decodes_ret]);
    first [exact (spdm_read_ok c _ H) | exact (measurements_read_ok c _ H) | rewrite H; exact (general_read_ok c)].
Qed.
Lemma payload_bytes_ok : payload_wf c code p → bytes_wf (payload_bytes c p).
Proof.
  destruct p; destruct code; try (by intros []); intros H; cbn [payload_bytes];
    first [by apply is_byte_wf | exact (sbytes_ok c _ H) | exact (measurements_bytes_wf c _ H)].
Qed.
End Payload.
Lemma payload_read_safe c code : payload_ready c code → reads (read_payload c code) (payload_good c code).
Proof.
  destruct code; cbn [payload_ready read_payload]; intros Hc; try apply reads_throw;
    (eapply reads_bind; [first [exact (spdm_read_safe c Hc) | exact (measurements_read_safe c Hc)]
                        |intros x Hx; by apply reads_ret]).
Qed.

Lemma message_encodes c h p bs :
  wf h → encodes SPDM_STATUS_BUFFER_FULL (encode_payload c p) bs →
  encodes SPDM_STATUS_BUFFER_FULL (spdm_encode c (mkMessage h p)) (bytes h ++ bs).
Proof.
  intros Hh Hp. unfold encodes. rewrite len_app. eapply writes_bind; [by apply enc_writes|]. cbv beta.
  eapply writes_bind_pure; [exact Hp|apply writes_ret|by rewrite app_nil_r].
Qed.
Lemma message_encode_ok c m :
  message_wf c m → encodes SPDM_STATUS_BUFFER_FULL (spdm_encode c m) (message_bytes c m).
Proof.
  destruct m as [h p]. intros [Hh Hp]. apply message_encodes; [done|by eapply payload_encode_ok].
Qed.
Lemma message_bytes_ok c m : message_wf c m → bytes_wf (message_bytes c m).
Proof. intros [Hh Hp]. apply Forall_app. split; [by apply bytes_ok|by eapply payload_bytes_ok]. Qed.

(** What is left off the wire does not change what is written. *)
Lemma encode_on_wire c p : encode_payload c p = encode_payload c (payload_on_wire c p).
Proof.
  destruct p as [v|v|v|v|v|v|v|v|v|v|v|v|v|v|v|v|v|v|v|v|v|v|v|v|v|v|v|v|v|v|v|v]; try reflexivity; destruct v;
    cbv beta iota zeta delta [encode_payload payload_on_wire keep spdm_encode
      spdm_codec_get_capabilities spdm_codec_capabilities spdm_codec_negotiate_algorithms spdm_codec_algorithms
      spdm_codec_digests spdm_codec_challenge spdm_codec_challenge_auth spdm_codec_get_measurements spdm_codec_measurements
      spdm_codec_key_exchange spdm_codec_key_exchange_rsp spdm_codec_finish spdm_codec_finish_rsp spdm_codec_psk_exchange_rsp
      spdm_codec_psk_finish spdm_codec_psk_finish_rsp].
  all: cbn -[enc ver_ge contains enc_when enc_or_zeros policy_mask Z.land]; rewrite <- ?Z.land_assoc, ?Z.land_diag;
    repeat match goal with
           | |- context [ver_ge ?x ?v] => destruct (ver_ge x v); cbn [andb]
           | |- context [if ?b then _ else _] => destruct b
           end; reflexivity.
Qed.

Lemma read_as_on_wire c p : read_as c (payload_on_wire c p) = read_as c p.
Proof. destruct p as [v|v|v|v|v|v|v|v|v|v|v|v|v|v|v|v|v|v|v|v|v|v|v|v|v|v|v|v|v|v|v|v]; try reflexivity; by destruct v. Qed.


(** C11: Whatever bytes arrive, decoding a message neither panics nor leaves the
    buffer, and a message it returns has the payload its header names, with
    every field in range, provided that the sizes of the selected algorithms
    that the payload named by the header looks up are defined
    ([payload_ready]); the messages that negotiate look up none. *)
Theorem message_read_safe c r :
  reader_wf r → (∀ h r', read r = (Ok h, r') → payload_ready c (request_response_code h)) →
  let '(o, r') := spdm_read (A:=SpdmMessage) c r in
  o ≠ Panic ∧ r_buf r' = r_buf r ∧ r_offs r ≤ r_offs r' ≤ len (r_buf r) ∧
  (∀ m, o = Ok m → wf (msg_header m) ∧ payload_good c (request_response_code (msg_header m)) (msg_payload m)).
Proof.
  intros Hr Hc. unfold spdm_read, spdm_codec_message, read_with_detailed_error, bind at 1.
  pose proof (read_safe (A:=SpdmMessageHeader) r Hr) as Hs. destruct (read r) as [[h|e|] r1]; destruct Hs as (Hp & Hb & Ho & Hh); [|done..].
  assert (reader_wf r1) as Hr1 by (unfold reader_wf in *; rewrite Hb; intuition lia).
  assert (reads (let* payload := read_payload c (request_response_code h) in ret (mkMessage h payload))
    (λ m, wf (msg_header m) ∧ payload_good c (request_response_code (msg_header m)) (msg_payload m))) as Hk.
  { eapply reads_bind; [apply payload_read_safe; by eapply Hc|]. intros p Hp'. apply reads_ret. split; [by apply Hh|done]. }
  specialize (Hk r1 Hr1). rewrite Hb in Hk. cbv beta. destruct (bind _ _ r1) as [o r2]. intuition lia.
Qed.

(** ** Examples *)
Module MessageExamples.

(** SHA-256, ECDSA P-256, secp256r1 and version 1.2 are selected. *)
Definition c : SpdmContext :=
  with_negotiate_info
    (with_spdm_version_sel SpdmVersion12
      (with_base_hash_sel SpdmBaseHashAlgo.TPM_ALG_SHA_256
        (with_base_asym_sel SpdmBaseAsymAlgo.TPM_ALG_ECDSA_ECC_NIST_P256
          (with_dhe_sel SpdmDheAlgo.SECP_256_R1
            (with_measurement_hash_sel SpdmMeasurementHashAlgo.TPM_ALG_SHA_256 SpdmNegotiateInfo_default)))))
    (new SpdmConfigInfo_default SpdmProvisionInfo_default).
Definition auth : SpdmChallengeAuthResponsePayload :=
  mkChallengeAuth 1 1 empty_flags (sens_of (replicate 32 7)) byte_array_default sens_default
    (sens_of [1; 2; 3]) byte_array_default (sens_of (replicate 64 9)).
Definition challenge_auth : SpdmMessage :=
  mkMessage (mkMessageHeader SpdmVersion12 SpdmResponseChallengeAuth) (SpdmChallengeAuthResponse auth).

Lemma auth_ok : challenge_auth_wf c auth.
Proof.
  repeat split; try done; try (by apply sens_of_check); by apply is_byte_wf.
Qed.
Lemma challenge_auth_ok : message_wf c challenge_auth.
Proof. split; [done|exact auth_ok]. Qed.
(** A CHALLENGE with a context, which version 1.2 does not transmit. *)
Definition challenge (context : SpdmChallengeContextStruct) : SpdmMessage :=
  mkMessage (mkMessageHeader SpdmVersion12 SpdmRequestChallenge)
    (SpdmChallengeRequest (mkChallenge 0 SpdmMeasurementSummaryHashTypeNone byte_array_default context)).
Definition vendor : SpdmMessage :=
  mkMessage (mkMessageHeader SpdmVersion12 SpdmRequestVendorDefinedRequest)
    (SpdmVendorDefinedRequest (mkVendorDefined PCISIG (mkVendorID 2 ([1; 0] ++ zeros (MAX_SPDM_VENDOR_DEFINED_VENDOR_ID_LEN - 2)))
      (mkVendorPayload 1 ([7] ++ zeros (MAX_SPDM_VENDOR_DEFINED_PAYLOAD_SIZE - 1))))).
Lemma vendor_ok : message_wf c vendor.
Proof.
  split; [done|]. split; [done|].
  split; [apply (padded_app [1; 0])|apply (padded_app [7])]; (by vm_compute) || by apply is_byte_wf.
Qed.

Lemma c_ready : message_ready c.
Proof.
  assert (∀ (o : outcome unit u16) n cap, o = Ok n → (0 <=? n) && (n <=? cap) = true → sized o cap) as Hs.
  { intros o n cap -> Hn. exists n. split; [done|lia]. }
  intros []; try exact I; cbn; repeat split; try (by eapply Hs); by eexists.
Qed.
Lemma message_read_safe_witness :
  fst (spdm_read (A:=SpdmMessage) c (Reader.init [0x12; 0x03; 9])) ≠ Panic.
Proof.
  assert (reader_wf (Reader.init [0x12; 0x03; 9])) as Hr by (apply reader_init_wf; by apply is_byte_wf).
  pose proof (message_read_safe c (Reader.init [0x12; 0x03; 9]) Hr (λ h _ _, c_ready _)) as H.
  destruct (spdm_read c (Reader.init [0x12; 0x03; 9])) as [o r]. apply H.
Defined.
End MessageExamples.
