(* ===== verification/Platform.v ===== *)
(** * The platform around a connection

    The callbacks that src/spdmlib/src/secret/mod.rs, watchdog/mod.rs and
    crypto/mod.rs (random numbers, key exchange, signatures) dispatch to and
    that the integrator registers, as an interface: [World] is what they act
    on.  A callback that is not registered panics, so panics are outcomes
    here too.  [Node] is what an endpoint works on: the context, the writer
    with the message it composes, and the world. *)

From S2P Require Import Prelude Codec Status Bitflags Algo DataTypes Structs Version.
From S2P Require Import SecuredMessage ContextData MsgMisc.

(** ** Sizes and times of src/spdmlib/src/config.rs and common/mod.rs *)
Definition TRANSPORT_OVERHEAD_SIZE : usize := 64.
Definition SPDM_DATA_TRANSFER_SIZE : usize := RECEIVER_BUFFER_SIZE - TRANSPORT_OVERHEAD_SIZE.
Definition SPDM_SENDER_DATA_TRANSFER_SIZE : usize := SENDER_BUFFER_SIZE - TRANSPORT_OVERHEAD_SIZE.
Definition ST1 : usize := 1000000.

(** [SpdmDer] of src/spdmlib/src/protocol/algo.rs *)
Inductive SpdmDer := SpdmDerCertChain (der : list Z) | SpdmDerPubKeyRfc7250 (der : list Z).

Class Platform := {
  World : Type;
  (** [crypto::rand::get_random] on a buffer of the given size *)
  get_random : usize → M World SpdmStatus (list Z);
  (** [crypto::dhe] *)
  DheContext : Type;
  generate_key_pair : SpdmDheAlgo → M World unit (SpdmDheExchangeStruct * DheContext);
  compute_final_key : DheContext → SpdmDheExchangeStruct → M World unit SpdmSharedSecretFinalKeyStruct;
  (** [crypto::kem_encap] *)
  KemContext : Type;
  kem_new_key : SpdmKemAlgo → SpdmKemEncapKeyStruct → M World unit KemContext;
  kem_encap_key : KemContext → M World unit (SpdmKemCipherTextStruct * SpdmSharedSecretFinalKeyStruct);
  (** [crypto::kem_decap] *)
  KemDecapContext : Type;
  kem_generate_key_pair : SpdmKemAlgo → M World unit (SpdmKemEncapKeyStruct * KemDecapContext);
  kem_decap_key : KemDecapContext → SpdmKemCipherTextStruct → M World unit SpdmSharedSecretFinalKeyStruct;
  (** [crypto::cert_operation::verify_cert_chain] *)
  verify_cert_chain_cb : list Z → SpdmResult unit;
  (** [crypto::asym_verify] and [crypto::pqc_asym_verify] *)
  asym_verify : SpdmBaseHashAlgo → SpdmBaseAsymAlgo → SpdmDer → list Z → SpdmSignatureStruct → SpdmResult unit;
  pqc_asym_verify : SpdmBaseHashAlgo → SpdmPqcAsymAlgo → list Z → list Z → SpdmSignatureStruct → SpdmResult unit;
  (** [secret::measurement] *)
  measurement_collection : SpdmVersion → SpdmMeasurementSpecification → SpdmMeasurementHashAlgo → usize →
    M World unit SpdmMeasurementRecordStructure;
  generate_measurement_summary_hash : SpdmVersion → SpdmBaseHashAlgo → SpdmMeasurementSpecification →
    SpdmMeasurementHashAlgo → SpdmMeasurementSummaryHashType → M World unit SpdmDigestStruct;
  (** [secret::asym_sign] and [secret::pqc_asym_sign] *)
  asym_sign : SpdmContext → SpdmBaseHashAlgo → SpdmBaseAsymAlgo → list Z → M World unit SpdmSignatureStruct;
  pqc_asym_sign : SpdmContext → SpdmBaseHashAlgo → SpdmPqcAsymAlgo → list Z → M World unit SpdmSignatureStruct;
  (** [watchdog] *)
  start_watchdog : u32 → u16 → World → World;
  stop_watchdog : u32 → World → World;
  reset_watchdog : u32 → World → World;
  (** the handler of [message::vendor] *)
  vendor_defined_request_handler : VendorIDStruct → VendorDefinedReqPayloadStruct →
    M World SpdmStatus VendorDefinedRspPayloadStruct;
  (** [SpdmDeviceIo]: a message that arrived in time, or the size of the error *)
  device_send : list Z → M World SpdmStatus unit;
  device_receive : usize → M World usize (list Z);
}.

(** ** Signatures *)
Section Sign.
Context `{Platform}.
Definition spdm_asym_sign (c : SpdmContext) (h : SpdmBaseHashAlgo) (base : SpdmBaseAsymAlgo) (pqc : SpdmPqcAsymAlgo)
    (d : list Z) : M World unit SpdmSignatureStruct :=
  if decide (pqc = empty_flags) then asym_sign c h base d else pqc_asym_sign c h pqc d.
Definition spdm_asym_verify (h : SpdmBaseHashAlgo) (base : SpdmBaseAsymAlgo) (pqc : SpdmPqcAsymAlgo)
    (der : SpdmDer) (d : list Z) (s : SpdmSignatureStruct) : SpdmResult unit :=
  if decide (pqc = empty_flags) then asym_verify h base der d s
  else match der with
       | SpdmDerCertChain x => pqc_asym_verify h pqc x d s
       | SpdmDerPubKeyRfc7250 x => pqc_asym_verify h pqc x d s
       end.
End Sign.

(** ** The state of an endpoint *)
Record Node (W : Type) := mkNode { common : SpdmContext; writer : Writer; world : W }.
Arguments mkNode {W} _ _ _.
Arguments common {W} _.
Arguments writer {W} _.
Arguments world {W} _.

Section Node.
Context {W E : Type}.
Definition on_common {A} (m : M SpdmContext E A) : M (Node W) E A :=
  λ n, let '(o, c) := m (common n) in (o, mkNode c (writer n) (world n)).
Definition on_writer {A} (m : M Writer E A) : M (Node W) E A :=
  λ n, let '(o, w) := m (writer n) in (o, mkNode (common n) w (world n)).
Definition on_world {A} (m : M W E A) : M (Node W) E A :=
  λ n, let '(o, w) := m (world n) in (o, mkNode (common n) (writer n) w).
(** Reading and changing the context. *)
Definition get_common : M (Node W) E SpdmContext := on_common get.
Definition upd_common (f : SpdmContext → SpdmContext) : M (Node W) E unit := on_common (modify f).
Definition used_slice : M (Node W) E (list Z) := on_writer (λ w, (or_panic (Writer.used_slice w), w)).
End Node.
(** [match m { Ok(a) => a, Err(e) => .. }], and [let _ = m;]. *)
Definition or_else {S E F A} (m : M S E A) (h : E → M S F A) : M S F A :=
  λ s, match m s with
       | (Ok a, s') => (Ok a, s')
       | (Err e, s') => h e s'
       | (Panic, s') => (Panic, s')
       end.
Definition ignore {S E F A} (m : M S E A) : M S F unit :=
  λ s, match m s with (Panic, s') => (Panic, s') | (_, s') => (Ok tt, s') end.
