(* ===== verification/Link.v ===== *)
(** * Devices

    [SpdmDeviceIo] is implemented by the integrator.  [with_device] exchanges
    the device of a platform and leaves its other callbacks alone; [with_vendor]
    does so with the handler of vendor-defined requests; [wired]
    gives a platform a device that is a queue of packets.  The statements
    about two endpoints connect them this way. *)

From S2P Require Import Prelude Codec Status MsgMisc Platform.

Section Device.
Context {D W : Type}.
(** A computation on the second component of the state. *)
Definition on_rest {E A} (m : M W E A) : M (D * W) E A :=
  λ '(d, w), let '(o, w') := m w in (o, (d, w')).
(** And on the first. *)
Definition on_device {E A} (m : M D E A) : M (D * W) E A :=
  λ '(d, w), let '(o, d') := m d in (o, (d', w)).
End Device.

Definition with_device (P : Platform) (D : Type) (send : list Z → M (D * @World P) SpdmStatus unit)
    (receive : usize → M (D * @World P) usize (list Z)) : Platform :=
  {| World := D * @World P;
     get_random n := on_rest (get_random n);
     DheContext := DheContext;
     generate_key_pair a := on_rest (generate_key_pair a);
     compute_final_key c e := on_rest (compute_final_key c e);
     KemContext := KemContext;
     kem_new_key a k := on_rest (kem_new_key a k);
     kem_encap_key c := on_rest (kem_encap_key c);
     KemDecapContext := KemDecapContext;
     kem_generate_key_pair a := on_rest (kem_generate_key_pair a);
     kem_decap_key c t := on_rest (kem_decap_key c t);
     verify_cert_chain_cb := verify_cert_chain_cb;
     asym_verify := asym_verify;
     pqc_asym_verify := pqc_asym_verify;
     measurement_collection v s h i := on_rest (measurement_collection v s h i);
     generate_measurement_summary_hash v b s h t := on_rest (generate_measurement_summary_hash v b s h t);
     asym_sign c h a d := on_rest (asym_sign c h a d);
     pqc_asym_sign c h a d := on_rest (pqc_asym_sign c h a d);
     start_watchdog i t w := (fst w, start_watchdog i t (snd w));
     stop_watchdog i w := (fst w, stop_watchdog i (snd w));
     reset_watchdog i w := (fst w, reset_watchdog i (snd w));
     vendor_defined_request_handler i p := on_rest (vendor_defined_request_handler i p);
     device_send := send;
     device_receive := receive |}.

(** A platform with the vendor-defined handler [h] of a device [D]; [h] takes
    the place of the one that was registered. *)
Definition with_vendor (P : Platform) (D : Type)
    (h : VendorIDStruct → VendorDefinedReqPayloadStruct → M D SpdmStatus VendorDefinedRspPayloadStruct) : Platform :=
  {| World := D * @World P;
     get_random n := on_rest (get_random n);
     DheContext := DheContext;
     generate_key_pair a := on_rest (generate_key_pair a);
     compute_final_key c e := on_rest (compute_final_key c e);
     KemContext := KemContext;
     kem_new_key a k := on_rest (kem_new_key a k);
     kem_encap_key c := on_rest (kem_encap_key c);
     KemDecapContext := KemDecapContext;
     kem_generate_key_pair a := on_rest (kem_generate_key_pair a);
     kem_decap_key c t := on_rest (kem_decap_key c t);
     verify_cert_chain_cb := verify_cert_chain_cb;
     asym_verify := asym_verify;
     pqc_asym_verify := pqc_asym_verify;
     measurement_collection v s h i := on_rest (measurement_collection v s h i);
     generate_measurement_summary_hash v b s h t := on_rest (generate_measurement_summary_hash v b s h t);
     asym_sign c h a d := on_rest (asym_sign c h a d);
     pqc_asym_sign c h a d := on_rest (pqc_asym_sign c h a d);
     start_watchdog i t w := (fst w, start_watchdog i t (snd w));
     stop_watchdog i w := (fst w, stop_watchdog i (snd w));
     reset_watchdog i w := (fst w, reset_watchdog i (snd w));
     vendor_defined_request_handler i p := on_device (h i p);
     device_send p := on_rest (device_send p);
     device_receive t := on_rest (device_receive t) |}.

(** ** A queue of packets *)
(** Packets to receive, and packets sent. *)
Record Wire := mkWire { inbox : list (list Z); outbox : list (list Z) }.
Definition wire_send (p : list Z) : M Wire SpdmStatus unit := modify (λ w, mkWire (inbox w) (outbox w ++ [p])).
Definition wire_receive : M Wire usize (list Z) :=
  λ w, match inbox w with
       | p :: rest => (Ok p, mkWire rest (outbox w))
       | [] => (Err 0, w)
       end.
Definition wired (P : Platform) : Platform :=
  with_device P Wire (λ p, on_device (wire_send p)) (λ _, on_device wire_receive).
