(* ===== verification/RspLib.v ===== *)
(** * Handlers of the responder

    What the handlers of src/spdmlib/src/responder share.  A handler returns a
    status with an optional response; an early return is [throw] of that pair,
    so a handler is a computation on the node whose error is its reply.
    [write_spdm_error] is that of error_rsp.rs. *)

From S2P Require Import Prelude Codec Status Version HashCtx Header ContextData SpdmCodec.
From S2P Require Import MsgMisc Message Platform.

(** [(SpdmResult, Option<&[u8]>)] *)
Definition Reply : Type := SpdmResult unit * option (list Z).

Section Handler.
Context {W : Type}.
Definition handler (A : Type) : Type := M (Node W) Reply A.

Definition write_spdm_error {E} (error_code : SpdmErrorCode) (error_data : u8) : M (Node W) E unit :=
  let* c := get_common in
  let error := mkMessage (mkMessageHeader (spdm_version_sel (negotiate_info c)) SpdmResponseError)
                 (SpdmErrorResponse (mkError error_code error_data SpdmErrorExtDataNone)) in
  let* _ := on_writer (modify Writer.clear) in
  ignore (on_writer (spdm_encode c error)).

(** [return (status, Some(writer.used_slice()))] *)
Definition reply {A} (status : SpdmResult unit) : handler A :=
  let* bs := used_slice in throw (status, Some bs).
(** [write_spdm_error] followed by the early return of an error. *)
Definition fail {A} (error_code : SpdmErrorCode) (status : SpdmStatus) : handler A :=
  let* _ := write_spdm_error error_code 0 in reply (Err status).
Definition fail_if (b : bool) (error_code : SpdmErrorCode) (status : SpdmStatus) : handler unit :=
  if b then fail error_code status else ret tt.
(** [if m.is_err() { write_spdm_error(..); return .. }] *)
Definition try_or {E A} (error_code : SpdmErrorCode) (status : SpdmStatus) (m : M (Node W) E A) : handler A :=
  or_else m (λ _, fail error_code status).
Definition try_local {E A} : M (Node W) E A → handler A :=
  try_or SpdmErrorUnspecified SPDM_STATUS_INVALID_STATE_LOCAL.
Definition invalid_request {A} : handler A := fail SpdmErrorInvalidRequest SPDM_STATUS_INVALID_MSG_FIELD.

(** [if state < Negotiated { UnexpectedRequest }] *)
Definition require_negotiated : handler unit :=
  let* c := get_common in
  fail_if (get_int (connection_state (runtime_info c)) <? get_int SpdmConnectionNegotiated)
    SpdmErrorUnexpectedRequest SPDM_STATUS_INVALID_STATE_PEER.

(** [SpdmMessageHeader::read] with the check of the version. *)
Definition check_header (expected : SpdmContext → SpdmVersion) (bytes : list Z) : handler Reader :=
  let* c := get_common in
  match read (A:=SpdmMessageHeader) (Reader.init bytes) with
  | (Ok h, reader) =>
      let* _ := fail_if (bool_decide (version h ≠ expected c)) SpdmErrorVersionMismatch
                  SPDM_STATUS_INVALID_MSG_FIELD in
      ret reader
  | (Err _, _) => invalid_request
  | (Panic, _) => panic
  end.
Definition selected (c : SpdmContext) : SpdmVersion := spdm_version_sel (negotiate_info c).

(** [A::spdm_read(&mut self.common, &mut reader)] *)
Definition read_request A `{SpdmCodec A} (reader : Reader) : handler (A * Reader) :=
  let* c := get_common in
  match spdm_read (A:=A) c reader with
  | (Ok a, reader) => ret (a, reader)
  | (Err _, _) => invalid_request
  | (Panic, _) => panic
  end.
(** [&bytes[..reader.used()]] *)
Definition used_bytes (bytes : list Z) (reader : Reader) : handler (list Z) :=
  lift (or_panic (slice bytes 0 (Reader.used reader))).

(** [response.spdm_encode(&mut self.common, writer)] *)
Definition send_response (code : SpdmRequestResponseCode) (p : SpdmMessagePayload) : M (Node W) SpdmStatus usize :=
  let* c := get_common in
  on_writer (spdm_encode c (mkMessage (mkMessageHeader (selected c) code) p)).

(** [writer.mut_used_slice()[a..b].copy_from_slice(v)] *)
Definition patch {E} (a b : usize) (v : list Z) : M (Node W) E unit :=
  on_writer (λ w, match Writer.used_slice w with
                  | Some u => match copy_from_slice u a b v with
                              | Some u => (Ok tt, mkWriter (splice (w_buf w) 0 u) (w_offs w))
                              | None => (Panic, w)
                              end
                  | None => (Panic, w)
                  end).
Definition used {E} : M (Node W) E usize := on_writer (λ w, (Ok (Writer.used w), w)).
(** [&writer.used_slice()[..n]] *)
Definition used_prefix {E} (n : usize) : M (Node W) E (list Z) :=
  let* u := used_slice in lift (or_panic (slice u 0 n)).
(** A checked subtraction. *)
Definition sub_checked {E} (a b : Z) : outcome E Z := if b <=? a then Ok (a - b) else Panic.

(** The reply of a handler that reaches its end. *)
Definition handle (m : handler unit) : M (Node W) Empty_set Reply :=
  or_else (bind m (λ _, reply (Ok tt))) ret.
End Handler.
Arguments handler W A : clear implicits.
