(* ===== verification/RspLaws.v ===== *)
(** * Reasoning about handlers

    [wp m Q R s]: from [s] the computation [m] does not panic, [Q] holds of
    what it returns and of the state it leaves, [R] of what it throws.  Proved:
    the rules for the operations of Platform.v and RspLib.v, the bytes of an
    ERROR response, and that reading a request is safe. *)

From S2P Require Import Prelude Codec Status Bitflags Algo DataTypes Version Crypto HashCtx ManagedBuffer Session.
From S2P Require Import Header ContextData Context Transcript SpdmCodec MsgLib MsgMisc Message Platform RspLib.
Import Context Transcript.

Definition wp {S E A} (m : M S E A) (Q : A → S → Prop) (R : E → S → Prop) (s : S) : Prop :=
  match m s with
  | (Ok a, s') => Q a s'
  | (Err e, s') => R e s'
  | (Panic, _) => False
  end.

Section Wp.
Context {S E : Type}.
Lemma wp_mono {A} (m : M S E A) (Q Q' : A → S → Prop) (R R' : E → S → Prop) s :
  (∀ a s', Q a s' → Q' a s') → (∀ e s', R e s' → R' e s') → wp m Q R s → wp m Q' R' s.
Proof. unfold wp. intros HQ HR. destruct (m s) as [[|e|] s']; auto. Qed.
Lemma wp_bind {A B} (m : M S E A) (k : A → M S E B) Q R s :
  wp (bind m k) Q R s ↔ wp m (λ a, wp (k a) Q R) R s.
Proof. unfold wp, bind. by destruct (m s) as [[] s']. Qed.
Lemma wp_ret {A} (a : A) Q (R : E → S → Prop) s : wp (ret a) Q R s ↔ Q a s.
Proof. done. Qed.
Lemma wp_throw {A} (e : E) (Q : A → S → Prop) R s : wp (throw e) Q R s ↔ R e s.
Proof. done. Qed.
Lemma wp_get Q (R : E → S → Prop) s : wp get Q R s ↔ Q s s.
Proof. done. Qed.
Lemma wp_modify f Q (R : E → S → Prop) s : wp (modify f) Q R s ↔ Q tt (f s).
Proof. done. Qed.
Lemma wp_lift {A} (o : outcome E A) Q R (s : S) :
  wp (lift o) Q R s ↔ match o with Ok a => Q a s | Err e => R e s | Panic => False end.
Proof. unfold wp, lift. by destruct o. Qed.
Lemma wp_or_else {F A} (m : M S F A) (h : F → M S E A) Q R s :
  wp (or_else m h) Q R s ↔ wp m Q (λ e, wp (h e) Q R) s.
Proof. unfold wp, or_else. by destruct (m s) as [[] s']. Qed.
Lemma wp_ignore {F A} (m : M S F A) Q (R : E → S → Prop) s :
  wp (ignore m) Q R s ↔ wp m (λ _, Q tt) (λ _, Q tt) s.
Proof. unfold wp, ignore. by destruct (m s) as [[] s']. Qed.
Lemma wp_map_err {F A} (f : F → E) (m : M S F A) Q R s :
  wp (map_errM f m) Q R s ↔ wp m Q (λ e, R (f e)) s.
Proof. unfold wp, map_errM. by destruct (m s) as [[] s']. Qed.
(** What is known to run. *)
Lemma wp_run {A} (m : M S E A) Q R s a s' : m s = (Ok a, s') → Q a s' → wp m Q R s.
Proof. unfold wp. by intros ->. Qed.
End Wp.

Section Node.
Context {W E : Type}.
Implicit Types n : Node W.
Lemma wp_on_common {A} (m : M SpdmContext E A) Q R n :
  wp (on_common m) Q R n ↔
  wp m (λ a c, Q a (mkNode c (writer n) (world n))) (λ e c, R e (mkNode c (writer n) (world n))) (common n).
Proof. unfold wp, on_common. by destruct (m (common n)) as [[] ?]. Qed.
Lemma wp_on_writer {A} (m : M Writer E A) Q R n :
  wp (on_writer m) Q R n ↔
  wp m (λ a w, Q a (mkNode (common n) w (world n))) (λ e w, R e (mkNode (common n) w (world n))) (writer n).
Proof. unfold wp, on_writer. by destruct (m (writer n)) as [[] ?]. Qed.
Lemma wp_on_world {A} (m : M W E A) Q R n :
  wp (on_world m) Q R n ↔
  wp m (λ a w, Q a (mkNode (common n) (writer n) w)) (λ e w, R e (mkNode (common n) (writer n) w)) (world n).
Proof. unfold wp, on_world. by destruct (m (world n)) as [[] ?]. Qed.
Lemma wp_get_common Q (R : E → Node W → Prop) n : wp get_common Q R n ↔ Q (common n) n.
Proof. by destruct n. Qed.
Lemma wp_upd_common f Q (R : E → Node W → Prop) n :
  wp (upd_common f) Q R n ↔ Q tt (mkNode (f (common n)) (writer n) (world n)).
Proof. done. Qed.
End Node.

Create Rewrite HintDb wp.
#[export] Hint Rewrite @wp_bind @wp_ret @wp_throw @wp_get @wp_modify @wp_lift @wp_or_else @wp_ignore
  @wp_map_err @wp_on_common @wp_on_writer @wp_on_world @wp_get_common @wp_upd_common : wp.
Ltac wp_simpl := autorewrite with wp; cbv beta zeta; cbn [common writer world fst snd].

(** ** The response buffer *)
Definition response_buffer (w : Writer) : Prop :=
  writer_wf w ∧ bytes_wf (w_buf w) ∧ len (w_buf w) = MAX_SPDM_MSG_SIZE.
Lemma fresh_response_buffer : response_buffer (Writer.init (zeros MAX_SPDM_MSG_SIZE)).
Proof. unfold response_buffer, writer_wf, Writer.init. cbn. split_and!; zlia || auto with wfb. Qed.

(** What the writer holds. *)
Definition written (w : Writer) (bs : list Z) : Prop := Writer.used_slice w = Some bs.
Lemma written_clear w bs : writer_wf w → len bs ≤ len (w_buf w) → written (put (Writer.clear w) bs) bs.
Proof.
  intros Hw Hl. unfold written, Writer.used_slice, put, Writer.clear. cbn [w_buf w_offs].
  rewrite Z.add_0_l. by apply slice_prefix.
Qed.
Lemma response_buffer_put w bs :
  response_buffer w → bytes_wf bs → len bs ≤ Writer.left w → response_buffer (put w bs).
Proof.
  intros (Hw & Hb & Hl) Hbs Hf. split; [by apply put_wf|]. unfold put, writer_wf, Writer.left in *.
  cbn [w_buf]. split; [auto with wfb|]. rewrite len_splice; lia.
Qed.
Lemma response_buffer_clear w : response_buffer w → response_buffer (Writer.clear w).
Proof. intros (Hw & Hb & Hl). unfold response_buffer, writer_wf, Writer.clear in *. cbn. split_and!; done || zlia. Qed.

(** ** ERROR *)
Definition error_msg (c : SpdmContext) (code : SpdmErrorCode) (data : u8) : list Z :=
  [version_u8 (selected c) : Z; 0x7F; get_int code; data].
Definition plain_error (code : SpdmErrorCode) : Prop :=
  wf code ∧ error_ext_wf SPDM_ERROR_VENDOR_EXT_DATA_SIZE code SpdmErrorExtDataNone.
Definition error_message (c : SpdmContext) (code : SpdmErrorCode) (data : u8) : SpdmMessage :=
  mkMessage (mkMessageHeader (selected c) SpdmResponseError)
    (SpdmErrorResponse (mkError code data SpdmErrorExtDataNone)).
Lemma error_message_wf c code data :
  plain_error code → in_width 8 data → message_wf c (error_message c code data).
Proof. intros [Hc He] Hd. split; [by split|]. by split_and!. Qed.
Lemma error_message_bytes c code data :
  message_bytes c (error_message c code data) = error_msg c code data.
Proof. by destruct code. Qed.

Section Error.
Context {W : Type}.
Implicit Types n : Node W.
(** The node with another response. *)
Definition responds n (bs : list Z) : Node W := mkNode (common n) (put (Writer.clear (writer n)) bs) (world n).

Lemma write_spdm_error_run {E} n code data :
  response_buffer (writer n) → plain_error code → in_width 8 data →
  write_spdm_error (E:=E) code data n = (Ok tt, responds n (error_msg (common n) code data)).
Proof.
  intros Hw Hc Hd. pose proof (response_buffer_clear _ Hw) as (Hw' & _ & Hl).
  unfold write_spdm_error, get_common, ignore, on_writer, on_common, bind, get, modify. cbn [common writer world].
  change (mkMessage _ _) with (error_message (common n) code data).
  destruct (message_encode_ok _ _ (error_message_wf (common n) code data Hc Hd) _ Hw') as [He _].
  rewrite He, error_message_bytes; [done|]. unfold Writer.left. rewrite Hl. unfold Writer.clear. cbn. done.
Qed.
Lemma responds_ok n bs :
  response_buffer (writer n) → bytes_wf bs → len bs ≤ MAX_SPDM_MSG_SIZE →
  response_buffer (writer (responds n bs)) ∧ written (writer (responds n bs)) bs.
Proof.
  intros Hw Hb Hl. pose proof Hw as (? & ? & Hlen). split; [|apply written_clear; [done|lia]].
  apply response_buffer_put; [by apply response_buffer_clear|done|].
  unfold Writer.left, Writer.clear. cbn. lia.
Qed.
Lemma wp_used_slice {E} Q (R : E → Node W → Prop) n bs :
  written (writer n) bs → Q bs n → wp used_slice Q R n.
Proof. unfold wp, used_slice, on_writer. intros ->. by destruct n. Qed.

Lemma error_msg_ok c code data :
  plain_error code → in_width 8 data → bytes_wf (error_msg c code data) ∧ len (error_msg c code data) = 4.
Proof.
  intros Hc Hd. split; [|done]. rewrite <- error_message_bytes. by apply message_bytes_ok, error_message_wf.
Qed.
Lemma fail_run {A} n code st :
  response_buffer (writer n) → plain_error code →
  fail (A:=A) code st n = (Err (Err st, Some (error_msg (common n) code 0)), responds n (error_msg (common n) code 0)).
Proof.
  intros Hw Hc. unfold fail, reply, bind. rewrite write_spdm_error_run by done.
  destruct (error_msg_ok (common n) code 0 Hc ltac:(done)) as [Hb Hl].
  destruct (responds_ok n _ Hw Hb ltac:(rewrite Hl; done)) as [_ Hs].
  unfold used_slice, on_writer. by rewrite Hs.
Qed.
Lemma wp_fail {A} code st (Q : A → Node W → Prop) R n :
  response_buffer (writer n) → plain_error code →
  R (Err st, Some (error_msg (common n) code 0)) (responds n (error_msg (common n) code 0)) →
  wp (fail code st) Q R n.
Proof. intros. unfold wp. by rewrite fail_run. Qed.
End Error.

(** ** Safety

    [I] is kept, the response buffer stays whole, and every reply carries a
    message of at least a header. *)
Definition reply_ok (r : Reply) : Prop :=
  fst r ≠ Panic ∧
  match snd r with Some bs => bytes_wf bs ∧ 2 ≤ len bs ≤ MAX_SPDM_MSG_SIZE | None => True end.

Section Safe.
Context {W : Type} (I : SpdmContext → Prop).
Implicit Types n : Node W.
Definition sound n : Prop := response_buffer (writer n) ∧ I (common n).
Definition hsafe {A} (m : handler W A) (Q : A → Node W → Prop) (n : Node W) : Prop :=
  wp m Q (λ r n', sound n' ∧ reply_ok r) n.

Lemma hsafe_mono {A} (m : handler W A) (Q Q' : A → Node W → Prop) n :
  hsafe m Q n → (∀ a n', Q a n' → Q' a n') → hsafe m Q' n.
Proof. intros Hm HQ. eapply wp_mono; [exact HQ| |exact Hm]. done. Qed.
Lemma hsafe_bind {A B} (m : handler W A) (k : A → handler W B) Q n :
  hsafe m (λ a, hsafe (k a) Q) n → hsafe (bind m k) Q n.
Proof. apply wp_bind. Qed.
Lemma hsafe_ret {A} (a : A) (Q : A → Node W → Prop) n : Q a n → hsafe (ret a) Q n.
Proof. done. Qed.
Lemma hsafe_get_common (Q : SpdmContext → Node W → Prop) n : Q (common n) n → hsafe get_common Q n.
Proof. by apply wp_get_common. Qed.
Lemma hsafe_upd_common f (Q : unit → Node W → Prop) n :
  Q tt (mkNode (f (common n)) (writer n) (world n)) → hsafe (upd_common f) Q n.
Proof. done. Qed.
Lemma hsafe_lift {A} (o : outcome Reply A) (a : A) (Q : A → Node W → Prop) n :
  o = Ok a → Q a n → hsafe (lift o) Q n.
Proof. by intros ->. Qed.

Lemma reply_error_ok c code st : plain_error code → reply_ok (Err st, Some (error_msg c code 0)).
Proof.
  intros Hc. destruct (error_msg_ok c code 0 Hc ltac:(done)) as [Hb Hl].
  split; [done|]. cbn. split; [done|]. rewrite Hl. done.
Qed.
Lemma hsafe_fail {A} code st (Q : A → Node W → Prop) n : sound n → plain_error code → hsafe (fail code st) Q n.
Proof.
  intros [Hw HI] Hc. apply wp_fail; [done..|]. split; [|by apply reply_error_ok].
  destruct (error_msg_ok (common n) code 0 Hc ltac:(done)) as [Hb Hl].
  split; [|done]. apply responds_ok; [done..|]. rewrite Hl. done.
Qed.
Lemma hsafe_fail_if b code st (Q : unit → Node W → Prop) n :
  sound n → plain_error code → (b = false → Q tt n) → hsafe (fail_if b code st) Q n.
Proof. intros Hn Hc HQ. destruct b; [by apply hsafe_fail|by apply HQ]. Qed.
(** A call that may fail: what it returns, and that a failure leaves the node
    sound. *)
Lemma hsafe_try {E A} code st (m : M (Node W) E A) (Q : A → Node W → Prop) n :
  plain_error code → wp m Q (λ _, sound) n → hsafe (try_or code st m) Q n.
Proof.
  intros Hc Hm. apply wp_or_else. eapply wp_mono; [|intros e s; intros Hs|exact Hm]; [done|]. by apply hsafe_fail.
Qed.
Lemma hsafe_reply {A} (Q : A → Node W → Prop) n st bs :
  sound n → st ≠ Panic → written (writer n) bs → bytes_wf bs → 2 ≤ len bs → hsafe (reply st) Q n.
Proof.
  intros [Hw HI] Hst Hs Hb Hl. apply wp_bind. eapply wp_used_slice; [done|]. split; [done|].
  split; [done|]. cbn. split_and!; [done|lia|].
  destruct Hw as (Hw & _ & Hlen). unfold written, Writer.used_slice, slice in Hs.
  destruct (_ && _) eqn:Hc; [|done]. injection Hs as <-. unfold writer_wf in Hw. rewrite Hlen in Hw.
  rewrite len_ztake; rewrite ?zdrop_0; lia.
Qed.

(** *** Requests *)
Lemma hsafe_check_header expected bs (Q : Reader → Node W → Prop) n :
  sound n → bytes_wf bs →
  (∀ h r, read (Reader.init bs) = (Ok h, r) → version h = expected (common n) →
     r_buf r = bs → reader_wf r → Q r n) →
  hsafe (check_header expected bs) Q n.
Proof.
  intros Hn Hb HQ. apply hsafe_bind, hsafe_get_common.
  pose proof (read_safe (A:=SpdmMessageHeader) _ (reader_init_wf bs Hb)) as Hs.
  destruct (read (Reader.init bs)) as [[h|e|] r] eqn:Hr; destruct Hs as (Hp & Hbuf & Ho & _); [| |done].
  - apply hsafe_bind, hsafe_fail_if; [done|by split|]. intros Hv%bool_decide_eq_false%dec_stable.
    apply hsafe_ret. eapply HQ; [done..|]. split; [rewrite Hbuf; cbn in *; lia|]. by rewrite Hbuf.
  - apply hsafe_fail; [done|by split].
Qed.
Lemma hsafe_read_request A `{SpdmCodecOk A} r (Q : A * Reader → Node W → Prop) n :
  sound n → reader_wf r → sready (A:=A) (common n) →
  (∀ a r', sgood (common n) a → r_buf r' = r_buf r → r_offs r ≤ r_offs r' → reader_wf r' → Q (a, r') n) →
  hsafe (read_request A r) Q n.
Proof.
  intros Hn Hr Hc HQ. apply hsafe_bind, hsafe_get_common.
  pose proof (spdm_read_safe (A:=A) _ Hc _ Hr) as Hs.
  destruct (spdm_read (common n) r) as [[a|e|] r'] eqn:Ha; destruct Hs as (Hp & Hbuf & Ho & Hg); [| |done].
  - apply hsafe_ret, HQ; [by apply Hg|done|lia|]. destruct Hr as [? ?]. split; rewrite Hbuf; [lia|done].
  - apply hsafe_fail; [done|by split].
Qed.
Lemma hsafe_used_bytes r bs (Q : list Z → Node W → Prop) n :
  reader_wf r → r_buf r = bs → Q (ztake (r_offs r) bs) n → hsafe (used_bytes bs r) Q n.
Proof.
  intros [Ho Hb] <- HQ. eapply hsafe_lift; [|done]. unfold Reader.used. rewrite slice_spec by lia.
  by rewrite zdrop_0, Z.sub_0_r.
Qed.
End Safe.

(** *** Responses *)
Section Respond.
Context {W : Type}.
Implicit Types n : Node W.
(** Nothing was written yet. *)
Definition fresh n : Prop := w_offs (writer n) = 0.
Lemma wp_encode {A} `{SpdmCodec A} c (a : A) bs Q R n :
  encodes SPDM_STATUS_BUFFER_FULL (spdm_encode c a) bs → bytes_wf bs →
  response_buffer (writer n) → fresh n →
  (len bs ≤ MAX_SPDM_MSG_SIZE → Q (len bs) (responds n bs)) →
  (∀ w, response_buffer w → R SPDM_STATUS_BUFFER_FULL (mkNode (common n) w (world n))) →
  wp (on_writer (spdm_encode c a)) Q R n.
Proof.
  intros He Hb Hw Hf HQ HR. apply wp_on_writer. unfold wp. pose proof Hw as (Hwf & _ & Hl).
  assert (Writer.left (writer n) = MAX_SPDM_MSG_SIZE) as Hleft by (unfold Writer.left, fresh in *; lia).
  destruct (He _ Hwf) as [Hok Hfull]. destruct (Z.leb_spec (len bs) MAX_SPDM_MSG_SIZE) as [Hfit|Hfit].
  - rewrite Hok by lia. unfold responds, Writer.clear in HQ. rewrite <- Hf in HQ.
    destruct (writer n) as [buf offs]. by apply HQ.
  - destruct Hfull as (bs' & [tl ->] & Hlb & ->); [lia|]. apply HR, response_buffer_put; [done| |lia].
    by apply bytes_wf_app in Hb as [? _].
Qed.
(** A response the encoder accepts, which need not be one the decoder accepts. *)
Definition response_bytes (c : SpdmContext) (code : SpdmRequestResponseCode) (p : SpdmMessagePayload) : list Z :=
  message_bytes c (mkMessage (mkMessageHeader (selected c) code) p).
Definition response_writes (c : SpdmContext) (code : SpdmRequestResponseCode) (p : SpdmMessagePayload) : Prop :=
  wf code ∧ encodes SPDM_STATUS_BUFFER_FULL (encode_payload c p) (payload_bytes c p) ∧ bytes_wf (payload_bytes c p).
Lemma response_encodes c code p :
  response_writes c code p →
  encodes SPDM_STATUS_BUFFER_FULL (spdm_encode c (mkMessage (mkMessageHeader (selected c) code) p))
    (response_bytes c code p) ∧ bytes_wf (response_bytes c code p).
Proof.
  intros (Hc & He & Hb). split; [by apply message_encodes|]. apply bytes_wf_app.
  split; [by apply (bytes_ok (mkMessageHeader (selected c) code))|done].
Qed.
Lemma response_len c code p : 2 ≤ len (response_bytes c code p).
Proof.
  unfold response_bytes, message_bytes. rewrite len_app. change (len (bytes _)) with 2.
  pose proof (len_nonneg (payload_bytes c p)). cbn [msg_payload]. lia.
Qed.
Lemma wp_send_response code p Q R n :
  response_writes (common n) code p →
  response_buffer (writer n) → fresh n →
  let bs := response_bytes (common n) code p in
  (len bs ≤ MAX_SPDM_MSG_SIZE → Q (len bs) (responds n bs)) →
  (∀ w, response_buffer w → R SPDM_STATUS_BUFFER_FULL (mkNode (common n) w (world n))) →
  wp (send_response code p) Q R n.
Proof.
  intros Hm Hw Hf bs HQ HR. apply wp_bind, wp_get_common.
  eapply wp_encode; [by apply response_encodes..|done|done|done|done].
Qed.
(** The response of a handler that goes on with it. *)
Definition answers n (bs : list Z) : Prop := written (writer n) bs ∧ bytes_wf bs ∧ 2 ≤ len bs ≤ MAX_SPDM_MSG_SIZE.
Lemma hsafe_send (I : SpdmContext → Prop) err st code p (Q : usize → Node W → Prop) n :
  sound I n → fresh n → response_writes (common n) code p → plain_error err →
  (let bs := response_bytes (common n) code p in
   sound I (responds n bs) → answers (responds n bs) bs → Q (len bs) (responds n bs)) →
  hsafe I (try_or err st (send_response code p)) Q n.
Proof.
  intros [Hw HI] Hf Hp He HQ. apply hsafe_try; [done|]. destruct (response_encodes _ _ _ Hp) as [_ Hb].
  pose proof (response_len (common n) code p). apply wp_send_response; [done..| |].
  - intros Hl. destruct (responds_ok n _ Hw Hb Hl) as [Hw' Hs]. by apply HQ.
  - intros w Hww. by split.
Qed.
End Respond.

(** *** Message A *)
Lemma wp_append_a m c Q R :
  mb_wf (message_a (runtime_info c)) → bytes_wf m →
  (∀ b, mb_wf b → mb_content b = mb_content (message_a (runtime_info c)) ++ m →
     Q tt (upd_runtime (with_message_a b) c)) →
  R SPDM_STATUS_BUFFER_FULL c → wp (append_message_a m) Q R c.
Proof.
  intros Hb Hm HQ HR. unfold wp, append_message_a.
  destruct (Z.leb_spec (len m) (mb_cap BufA - mb_used (message_a (runtime_info c)))) as [Hf|Hf].
  - destruct (append_message_fits m _ Hb Hm Hf) as (b & -> & Hw & Hc). by apply HQ.
  - rewrite append_message_full by done. cbn.
    replace (upd_runtime (with_message_a (message_a (runtime_info c))) c) with c by (by destruct c as [? ? [] ? ? ?]).
    done.
Qed.
