(* ===== verification/RspNegotiate.v ===== *)
(** * Negotiation in the responder

    Models [handle_spdm_version], [handle_spdm_capability] and
    [handle_spdm_algorithm] of src/spdmlib/src/responder, and
    [construct_my_cert_chain] of src/spdmlib/src/common/mod.rs. *)

From S2P Require Import Prelude Codec Status Bitflags Algo DataTypes Structs Version Crypto CertChain.
From S2P Require Import Session HashCtx Header ContextData Context Transcript CertOp SpdmCodec.
From S2P Require Import MsgLib MsgNegotiate MsgMisc Message Platform RspLib.
Import Context Transcript.

Module RspNegotiate.
Section Handlers.
Context {W : Type} `{SpdmCrypto}.

(** ** GET_VERSION *)
(** The loop over the configured versions. *)
Fixpoint list_versions (vs : list SpdmVersion) (count : Z) (out : list SpdmVersionStruct) :
    outcome Reply (Z * list SpdmVersionStruct) :=
  match vs with
  | [] => Ok (count, out)
  | v :: vs =>
      let! out := or_panic (zset out count (mkVersionStruct 0 v)) in
      list_versions vs (count + 1) out
  end.

Definition write_spdm_version_response (bytes : list Z) : handler W unit :=
  let* reader := check_header (λ _, SpdmVersion10) bytes in
  let* _ := upd_common (reset_buffer_via_request_code SpdmRequestGetVersion None) in
  let* (_, reader) := read_request SpdmGetVersionRequestPayload reader in
  let* _ := upd_common reset_context in
  let* req := used_bytes bytes reader in
  let* _ := try_local (on_common (append_message_a req)) in
  let* c := get_common in
  let* (count, versions) :=
    lift (list_versions (omap id (cfg_spdm_version (config_info c))) 0 (version_array [])) in
  let response := mkMessage (mkMessageHeader SpdmVersion10 SpdmResponseVersion)
                    (SpdmVersionResponse (mkVersionResponse (wrap 8 count) versions)) in
  let* _ := try_local (on_writer (spdm_encode c response)) in
  let* rsp := used_slice in
  try_local (on_common (append_message_a rsp)).

(** ** GET_CAPABILITIES *)
(** The version of the request is the selected one. *)
Definition select_version (bytes : list Z) : handler W Reader :=
  match read (A:=SpdmMessageHeader) (Reader.init bytes) with
  | (Ok h, reader) =>
      let* _ := fail_if (version_ltb (version h) SpdmVersion10) SpdmErrorInvalidRequest
                  SPDM_STATUS_INVALID_MSG_FIELD in
      let* _ := upd_common (upd_negotiate (with_spdm_version_sel (version h))) in
      ret reader
  | (Err _, _) => fail SpdmErrorInvalidRequest SPDM_STATUS_INVALID_STATE_PEER
  | (Panic, _) => panic
  end.

Definition select_capabilities (g : SpdmGetCapabilitiesRequestPayload) (c : SpdmContext) : SpdmContext :=
  let cfg := config_info c in
  let c := upd_negotiate (with_req_ct_exponent_sel (gc_ct_exponent g)) c in
  let c := upd_negotiate (with_req_capabilities_sel (gc_flags g)) c in
  let c := upd_negotiate (with_rsp_ct_exponent_sel (cfg_rsp_ct_exponent cfg)) c in
  let c := upd_negotiate (with_rsp_capabilities_sel (cfg_rsp_capabilities cfg)) c in
  if ver_ge c SpdmVersion12 then
    let c := upd_negotiate (with_req_data_transfer_size_sel (gc_data_transfer_size g)) c in
    let c := upd_negotiate (with_req_max_spdm_msg_size_sel (gc_max_spdm_msg_size g)) c in
    let c := upd_negotiate (with_rsp_data_transfer_size_sel (cfg_data_transfer_size cfg)) c in
    upd_negotiate (with_rsp_max_spdm_msg_size_sel (cfg_max_spdm_msg_size cfg)) c
  else c.

Definition write_spdm_capability_response (bytes : list Z) : handler W unit :=
  let* c := get_common in
  let* _ := fail_if (bool_decide (connection_state (runtime_info c) ≠ SpdmConnectionAfterVersion))
              SpdmErrorUnexpectedRequest SPDM_STATUS_INVALID_STATE_PEER in
  let* reader := select_version bytes in
  let* _ := upd_common (reset_buffer_via_request_code SpdmRequestGetCapabilities None) in
  let* (g, reader) := read_request SpdmGetCapabilitiesRequestPayload reader in
  let* _ := upd_common (select_capabilities g) in
  let* req := used_bytes bytes reader in
  let* _ := try_local (on_common (append_message_a req)) in
  let* c := get_common in
  let cfg := config_info c in
  let* _ := try_local (send_response SpdmResponseCapabilities
              (SpdmCapabilitiesResponse (mkCapabilities (cfg_rsp_ct_exponent cfg) (cfg_rsp_capabilities cfg)
                 (cfg_data_transfer_size cfg) (cfg_max_spdm_msg_size cfg) empty_flags))) in
  let* rsp := used_slice in
  try_local (on_common (append_message_a rsp)).

(** ** NEGOTIATE_ALGORITHMS *)
Definition select_multi_key (na : SpdmNegotiateAlgorithmsRequestPayload) : handler W unit :=
  let* c := get_common in
  let cfg := config_info c in
  let req_cap f := contains (req_capabilities_sel (negotiate_info c)) f in
  let rsp_cap f := contains (cfg_rsp_capabilities cfg) f in
  let conn_req :=
    if req_cap SpdmRequestCapabilityFlags.MULTI_KEY_CAP_ONLY then true
    else if req_cap SpdmRequestCapabilityFlags.MULTI_KEY_CAP_CONN_SEL
    then contains (cfg_other_params_support cfg) SpdmAlgoOtherParams.MULTI_KEY_CONN
    else false in
  let* _ := upd_common (upd_negotiate (with_multi_key_conn_req conn_req)) in
  if contains (na_other_params_support na) SpdmAlgoOtherParams.MULTI_KEY_CONN then
    let* _ := fail_if (negb (rsp_cap SpdmResponseCapabilityFlags.MULTI_KEY_CAP_ONLY) &&
                       negb (rsp_cap SpdmResponseCapabilityFlags.MULTI_KEY_CAP_CONN_SEL))
                SpdmErrorInvalidRequest SPDM_STATUS_INVALID_MSG_FIELD in
    upd_common (upd_negotiate (with_multi_key_conn_rsp true))
  else
    let* _ := fail_if (rsp_cap SpdmResponseCapabilityFlags.MULTI_KEY_CAP_ONLY)
                SpdmErrorInvalidRequest SPDM_STATUS_INVALID_MSG_FIELD in
    upd_common (upd_negotiate (with_multi_key_conn_rsp false)).

(** One algorithm structure of the request. *)
Definition offer {d} (v : flags d) (set : flags d → SpdmNegotiateInfo → SpdmNegotiateInfo) : handler W unit :=
  if is_valid v then upd_common (upd_negotiate (set v)) else invalid_request.
Definition offer_alg (alg : SpdmAlg) : handler W unit :=
  match alg with
  | SpdmAlgoDhe v => offer v with_dhe_sel
  | SpdmAlgoAead v => offer v with_aead_sel
  | SpdmAlgoReqAsym v => offer v with_req_asym_sel
  | SpdmAlgoKeySchedule v => offer v with_key_schedule_sel
  | SpdmAlgoPqcReqAsym v =>
      let* c := get_common in
      if ver_ge c SpdmVersion14 then offer v with_pqc_req_asym_sel else ret tt
  | SpdmAlgoKem v =>
      let* c := get_common in
      if ver_ge c SpdmVersion14 then offer v with_kem_sel else ret tt
  | SpdmAlgoUnknown => ret tt
  end.
Fixpoint offer_algs (algs : list SpdmAlgStruct) : handler W unit :=
  match algs with
  | [] => ret tt
  | a :: algs => let* _ := offer_alg (alg_supported a) in offer_algs algs
  end.

(** The request as it is stored before the selection. *)
Definition store_sets (na : SpdmNegotiateAlgorithmsRequestPayload) (c : SpdmContext) : SpdmContext :=
  let c := upd_negotiate (with_base_hash_sel (na_base_hash_algo na)) c in
  let c := upd_negotiate (with_base_asym_sel (na_base_asym_algo na)) c in
  let c := upd_negotiate (with_mel_specification_sel
             (if ver_ge c SpdmVersion13 &&
                 contains (cfg_rsp_capabilities (config_info c)) SpdmResponseCapabilityFlags.MEL_CAP
              then na_mel_specification na else empty_flags)) c in
  if ver_ge c SpdmVersion14 then upd_negotiate (with_pqc_asym_sel (na_pqc_asym_algo na)) c else c.
Definition store_offer (na : SpdmNegotiateAlgorithmsRequestPayload) : handler W unit :=
  let* _ := upd_common (upd_negotiate (with_measurement_specification_sel (na_measurement_specification na))) in
  let* c := get_common in
  let* _ := if ver_ge c SpdmVersion13 then select_multi_key na else ret tt in
  let* _ := upd_common (store_sets na) in
  offer_algs (ztake (na_alg_struct_count na) (na_alg_struct na)).

Definition PQC_FIRST : bool := false.
Definition exclusive (n : SpdmNegotiateInfo) : SpdmNegotiateInfo :=
  let n := if is_valid (pqc_asym_sel n) && is_valid (base_asym_sel n) then
             if PQC_FIRST then with_base_asym_sel empty_flags n else with_pqc_asym_sel empty_flags n
           else n in
  let n := if is_valid (pqc_req_asym_sel n) && is_valid (req_asym_sel n) then
             if PQC_FIRST then with_req_asym_sel empty_flags n else with_pqc_req_asym_sel empty_flags n
           else n in
  if is_valid (kem_sel n) && is_valid (dhe_sel n) then
    if PQC_FIRST then with_dhe_sel empty_flags n else with_kem_sel empty_flags n
  else n.
Definition prioritize_all (cfg : SpdmConfigInfo) (n : SpdmNegotiateInfo) : SpdmNegotiateInfo :=
  let n := with_measurement_specification_sel
             (SpdmMeasurementSpecification.prioritize (measurement_specification_sel n)
                (cfg_measurement_specification cfg)) n in
  let n := with_measurement_hash_sel (cfg_measurement_hash_algo cfg) n in
  let n := with_base_hash_sel (SpdmBaseHashAlgo.prioritize (base_hash_sel n) (cfg_base_hash_algo cfg)) n in
  let n := with_base_asym_sel (SpdmBaseAsymAlgo.prioritize (base_asym_sel n) (cfg_base_asym_algo cfg)) n in
  let n := with_pqc_asym_sel (SpdmPqcAsymAlgo.prioritize (pqc_asym_sel n) (cfg_pqc_asym_algo cfg)) n in
  let n := with_mel_specification_sel
             (SpdmMelSpecification.prioritize (mel_specification_sel n) (cfg_mel_specification cfg)) n in
  let n := with_dhe_sel (SpdmDheAlgo.prioritize (dhe_sel n) (cfg_dhe_algo cfg)) n in
  let n := with_aead_sel (SpdmAeadAlgo.prioritize (aead_sel n) (cfg_aead_algo cfg)) n in
  let n := with_req_asym_sel (SpdmReqAsymAlgo.prioritize (req_asym_sel n) (cfg_req_asym_algo cfg)) n in
  let n := with_key_schedule_sel
             (SpdmKeyScheduleAlgo.prioritize (key_schedule_sel n) (cfg_key_schedule_algo cfg)) n in
  if version_leb SpdmVersion14 (spdm_version_sel n) then
    let n := with_pqc_req_asym_sel
               (SpdmPqcReqAsymAlgo.prioritize (pqc_req_asym_sel n) (cfg_pqc_req_asym_algo cfg)) n in
    let n := with_kem_sel (SpdmKemAlgo.prioritize (kem_sel n) (cfg_kem_algo cfg)) n in
    exclusive n
  else n.

Definition select_other_params (c : SpdmContext) (offered : SpdmAlgoOtherParams) : SpdmAlgoOtherParams :=
  let own := cfg_other_params_support (config_info c) in
  let req_cap f := contains (req_capabilities_sel (negotiate_info c)) f in
  let sel := empty_flags in
  let sel := if ver_ge c SpdmVersion12 then union sel (inter offered own) else sel in
  if ver_ge c SpdmVersion13 then
    let sel := if req_cap SpdmRequestCapabilityFlags.MULTI_KEY_CAP_ONLY
               then union sel SpdmAlgoOtherParams.MULTI_KEY_CONN else sel in
    if req_cap SpdmRequestCapabilityFlags.MULTI_KEY_CAP_CONN_SEL && contains own SpdmAlgoOtherParams.MULTI_KEY_CONN
    then union sel SpdmAlgoOtherParams.MULTI_KEY_CONN else sel
  else sel.

(** [alg_struct[alg_struct_count] = ..; alg_struct_count += 1] *)
Definition put_alg {E} (b : bool) (t : SpdmAlgType) (a : SpdmAlg) (st : Z * list SpdmAlgStruct) :
    outcome E (Z * list SpdmAlgStruct) :=
  if b then let! l := or_panic (zset (snd st) (fst st) (mkAlgStruct t a)) in Ok (fst st + 1, l) else Ok st.
Definition selected_algs (n : SpdmNegotiateInfo) : outcome Reply (Z * list SpdmAlgStruct) :=
  let v14 := version_leb SpdmVersion14 (spdm_version_sel n) in
  let! st := put_alg (is_valid (dhe_sel n)) SpdmAlgTypeDHE (SpdmAlgoDhe (dhe_sel n)) (0, alg_struct_default) in
  let! st := put_alg (is_valid (aead_sel n)) SpdmAlgTypeAEAD (SpdmAlgoAead (aead_sel n)) st in
  let! st := put_alg (is_valid (req_asym_sel n)) SpdmAlgTypeReqAsym (SpdmAlgoReqAsym (req_asym_sel n)) st in
  let! st := put_alg (is_valid (key_schedule_sel n)) SpdmAlgTypeKeySchedule
               (SpdmAlgoKeySchedule (key_schedule_sel n)) st in
  let! st := put_alg (v14 && is_valid (pqc_req_asym_sel n)) SpdmAlgTypePqcReqAsym
               (SpdmAlgoPqcReqAsym (pqc_req_asym_sel n)) st in
  put_alg (v14 && is_valid (kem_sel n)) SpdmAlgTypeKEM (SpdmAlgoKem (kem_sel n)) st.

(** ** The certificate chains of the responder *)
(** A chain with its header: length and hash of the root certificate. *)
Definition my_chain (h : SpdmBaseHashAlgo) (d : SpdmCertChainData) : SpdmResult SpdmCertChainBuffer :=
  let! chain := or_panic (slice (ccd_data d) 0 (ccd_size d)) in
  let! r := get_cert_from_cert_chain chain 0 in
  let! root_cert := or_panic (slice (ccd_data d) (fst r) (snd r)) in
  let! root_hash := map_err (λ _, SPDM_STATUS_CRYPTO_ERROR) (hash_all h root_cert) in
  let! size := add_checked 32 (4 + data_size root_hash) (ccd_size d) in
  let! hash := sens_as_ref root_hash in
  let data := splice (zeros MAX_CERT_CHAIN_BUFFER_SIZE) 0 (le_bytes 4 size) in
  let! data := or_panic (copy_from_slice data 4 (4 + data_size root_hash) hash) in
  let! data := or_panic (copy_from_slice data (4 + data_size root_hash) size chain) in
  Ok (mkCertChainBuffer size data).
Fixpoint construct_slots (h : SpdmBaseHashAlgo) (slot_ids : list Z) : M SpdmContext SpdmStatus unit :=
  match slot_ids with
  | [] => ret tt
  | slot_id :: slot_ids =>
      let* c := get in
      let* chain := lift (slot (my_cert_chain (provision_info c)) slot_id) in
      let* data := lift (slot (my_cert_chain_data (provision_info c)) slot_id) in
      let* _ :=
        match chain, data with
        | None, Some d =>
            let* b := lift (my_chain h d) in
            let* l := lift (or_panic (zset (my_cert_chain (provision_info c)) slot_id (Some b))) in
            modify (λ c, with_provision_info (with_my_cert_chain l (provision_info c)) c)
        | _, _ => ret tt
        end in
      construct_slots h slot_ids
  end.
Definition construct_my_cert_chain : M SpdmContext SpdmStatus unit :=
  let* c := get in construct_slots (base_hash_sel (negotiate_info c)) (seqZ 0 SPDM_MAX_SLOT_NUMBER).

Definition write_spdm_algorithm (bytes : list Z) : handler W unit :=
  let* c := get_common in
  let* _ := fail_if (bool_decide (connection_state (runtime_info c) ≠ SpdmConnectionAfterCapabilities))
              SpdmErrorUnexpectedRequest SPDM_STATUS_INVALID_STATE_PEER in
  let* reader := check_header selected bytes in
  let* _ := upd_common (reset_buffer_via_request_code SpdmRequestNegotiateAlgorithms None) in
  let* (na, reader) := read_request SpdmNegotiateAlgorithmsRequestPayload reader in
  let* _ := store_offer na in
  let* req := used_bytes bytes reader in
  let* _ := try_local (on_common (append_message_a req)) in
  let* _ := upd_common (λ c, upd_negotiate (prioritize_all (config_info c)) c) in
  let* _ := try_local (on_common construct_my_cert_chain) in
  let* c := get_common in
  let other := select_other_params c (na_other_params_support na) in
  let* _ := upd_common (upd_negotiate (with_other_params_support other)) in
  let n := negotiate_info c in
  let* (count, algs) := lift (selected_algs n) in
  let* _ := try_local (send_response SpdmResponseAlgorithms
              (SpdmAlgorithmsResponse (mkAlgorithms (measurement_specification_sel n) other
                 (measurement_hash_sel n) (base_asym_sel n) (base_hash_sel n) (pqc_asym_sel n)
                 (mel_specification_sel n) (wrap 8 count) algs))) in
  let* rsp := used_slice in
  try_local (on_common (append_message_a rsp)).

Definition handle_spdm_version (bytes : list Z) := handle (write_spdm_version_response bytes).
Definition handle_spdm_capability (bytes : list Z) := handle (write_spdm_capability_response bytes).
Definition handle_spdm_algorithm (bytes : list Z) := handle (write_spdm_algorithm bytes).
End Handlers.
End RspNegotiate.
