(* ===== verification/RspAuth.v ===== *)
(** * Authentication and measurements in the responder

    Models [handle_spdm_digest], [handle_spdm_certificate],
    [handle_spdm_challenge] and [handle_spdm_measurement] of
    src/spdmlib/src/responder, with the signatures they make. *)

From S2P Require Import Prelude Codec Status Bitflags Algo DataTypes Structs Version Crypto ManagedBuffer.
From S2P Require Import CertChain Session HashCtx Header ContextData Context Transcript SpdmCodec.
From S2P Require Import MsgLib MsgAuth MsgMisc Message Platform RspLib.
Import Context Transcript.

Module RspAuth.
Definition SPDM_DIGESTS_RESPONSE_DIGEST_FIELD_BYTE_OFFSET : usize := 4.
Definition SPDM_PUB_KEY_SLOT_ID_CHALLENGE : u8 := 0xFF.
Definition SPDM_PUB_KEY_SLOT_ID_CHALLENGE_AUTH : u8 := 0xF.
Definition SPDM_VERSION_SIGNING_CONTEXT_ZEROPAD_2 : list Z := zeros 2.
Definition SPDM_VERSION_SIGNING_CONTEXT_ZEROPAD_4 : list Z := zeros 4.
Definition SPDM_VERSION_SIGNING_CONTEXT_ZEROPAD_6 : list Z := zeros 6.
Definition slot_ids : list Z := seqZ 0 SPDM_MAX_SLOT_NUMBER.

(** The mask of the slots that hold a chain. *)
Fixpoint slot_mask_loop {E} (c : SpdmContext) (ids : list Z) (mask : u8) : outcome E u8 :=
  match ids with
  | [] => Ok mask
  | i :: ids =>
      let! chain := slot (my_cert_chain (provision_info c)) i in
      slot_mask_loop c ids (match chain with Some _ => Z.lor mask (wrap 8 (Z.shiftl 1 i)) | None => mask end)
  end.
Definition slot_mask {E} (c : SpdmContext) : outcome E u8 := slot_mask_loop c slot_ids 0.

Section Handlers.
Context `{Platform} `{SpdmCrypto}.

(** ** GET_DIGESTS *)
(** The key information of the provisioned slots, in front of the arrays. *)
Fixpoint key_info_loop (p : SpdmProvisionInfo) (ids : list Z) (slot_count : Z)
    (st : list u8 * list SpdmCertificateModelType * list SpdmKeyUsageMask) :
    outcome Reply (list u8 * list SpdmCertificateModelType * list SpdmKeyUsageMask) :=
  match ids with
  | [] => Ok st
  | i :: ids =>
      let! chain := slot (my_cert_chain p) i in
      match chain with
      | None => key_info_loop p ids slot_count st
      | Some _ =>
          let '(key_pair_id, certificate_info, key_usage_mask) := st in
          let! id := slot (local_key_pair_id p) i in
          let! id := or_panic id in
          let! key_pair_id := or_panic (zset key_pair_id slot_count id) in
          let! info := slot (local_cert_info p) i in
          let! info := or_panic info in
          let! certificate_info := or_panic (zset certificate_info slot_count info) in
          let! usage := slot (local_key_usage_bit_mask p) i in
          let! usage := or_panic usage in
          let! key_usage_mask := or_panic (zset key_usage_mask slot_count usage) in
          key_info_loop p ids (slot_count + 1) (key_pair_id, certificate_info, key_usage_mask)
      end
  end.
Definition key_info (c : SpdmContext) :
    outcome Reply (list u8 * list SpdmCertificateModelType * list SpdmKeyUsageMask) :=
  let n := Z.to_nat SPDM_MAX_SLOT_NUMBER in
  let st := (replicate n 0, replicate n SpdmCertModelTypeNone, replicate n empty_flags) in
  if ver_ge c SpdmVersion13 && multi_key_conn_rsp (negotiate_info c)
  then key_info_loop (provision_info c) slot_ids 0 st else Ok st.

(** The digests of the chains, written over the placeholders. *)
Fixpoint write_digests (c : SpdmContext) (ids : list Z) (digest_offset : usize) : handler World unit :=
  match ids with
  | [] => ret tt
  | i :: ids =>
      let* chain := lift (slot (my_cert_chain (provision_info c)) i) in
      match chain with
      | None => write_digests c ids digest_offset
      | Some chain =>
          let* d := lift (CertChainBuffer.as_ref chain) in
          let* hash := or_else (lift (hash_all (base_hash_sel (negotiate_info c)) d))
                         (λ _, reply (Err SPDM_STATUS_CRYPTO_ERROR)) in
          let* h := lift (sens_as_ref hash) in
          let* _ := patch digest_offset (digest_offset + data_size hash) h in
          write_digests c ids (digest_offset + data_size hash)
      end
  end.

(** Message B is kept outside of sessions only. *)
Definition log_message_b (session_id : option u32) (m : list Z) : handler World unit :=
  match session_id with
  | None => try_local (on_common (append_message_b m))
  | Some _ => ret tt
  end.

Definition write_spdm_digest_response (session_id : option u32) (bytes : list Z) : handler World unit :=
  let* _ := require_negotiated in
  let* reader := check_header selected bytes in
  let* _ := upd_common (reset_buffer_via_request_code SpdmRequestGetDigests session_id) in
  let* (_, reader) := read_request SpdmGetDigestsRequestPayload reader in
  let* req := used_bytes bytes reader in
  let* _ := log_message_b session_id req in
  let* c := get_common in
  let* digest_size := lift (get_hash_size c) in
  let* mask := lift (slot_mask c) in
  let* (key_pair_id, certificate_info, key_usage_mask) := lift (key_info c) in
  let placeholder := mkSens digest_size (replicate (Z.to_nat SPDM_MAX_HASH_SIZE) 0xff) in
  let* _ := try_local (send_response SpdmResponseDigests
              (SpdmDigestsResponse (mkDigests mask
                 (replicate (Z.to_nat SPDM_MAX_SLOT_NUMBER) placeholder)
                 (local_supported_slot_mask (provision_info c)) key_pair_id certificate_info
                 key_usage_mask))) in
  let* _ := write_digests c slot_ids SPDM_DIGESTS_RESPONSE_DIGEST_FIELD_BYTE_OFFSET in
  let* rsp := used_slice in
  log_message_b session_id rsp.

(** ** GET_CERTIFICATE *)
(** The portion of the chain a request gets: its length, what remains, and
    the array with the bytes. *)
Definition cert_portion (chain : SpdmCertChainBuffer) (offset length : u32) :
    outcome Reply (u32 * u32 * list Z) :=
  let length := if ccb_size chain - offset <? length then ccb_size chain - offset else length in
  let! e := add_checked 32 length offset in
  let! remainder_length := sub_checked (ccb_size chain) e in
  let! d := or_panic (slice (ccb_data chain) offset (offset + length)) in
  let! cert_chain := or_panic (copy_from_slice (zeros MAX_SPDM_CERT_PORTION_LEN) 0 (len d) d) in
  Ok (length, remainder_length, cert_chain).

Definition write_spdm_certificate_response (session_id : option u32) (bytes : list Z) : handler World unit :=
  let* _ := require_negotiated in
  let* reader := check_header selected bytes in
  let* _ := upd_common (reset_buffer_via_request_code SpdmRequestGetCertificate session_id) in
  let* (g, reader) := read_request SpdmGetCertificateRequestPayload reader in
  let* req := used_bytes bytes reader in
  let* _ := log_message_b session_id req in
  let slot_id := gcert_slot_id g in
  let* _ := fail_if (SPDM_MAX_SLOT_NUMBER <=? slot_id) SpdmErrorInvalidRequest SPDM_STATUS_INVALID_MSG_FIELD in
  let* c := get_common in
  let* chain := lift (slot (my_cert_chain (provision_info c)) slot_id) in
  match chain with
  | None => fail SpdmErrorInvalidRequest SPDM_STATUS_INVALID_STATE_LOCAL
  | Some chain =>
      let length := if MAX_SPDM_CERT_PORTION_LEN <? gcert_length g then MAX_SPDM_CERT_PORTION_LEN
                    else gcert_length g in
      let offset := gcert_offset g in
      let* _ := fail_if (ccb_size chain <=? offset) SpdmErrorInvalidRequest SPDM_STATUS_INVALID_MSG_FIELD in
      let* (portion_length, remainder_length, cert_chain) := lift (cert_portion chain offset length) in
      let* _ := try_local (send_response SpdmResponseCertificate
                  (SpdmCertificateResponse
                     (mkCertificate slot_id portion_length remainder_length cert_chain))) in
      let* rsp := used_slice in
      log_message_b session_id rsp
  end.

(** ** Signatures *)
Definition sign_append (bs : list Z) : M ManagedBuffer12Sign SpdmStatus unit :=
  let* _ := map_errM (λ _, SPDM_STATUS_BUFFER_FULL) (append_message bs) in ret tt.
(** The signed message: prefix, padding, context string and hash.  Versions
    before 1.2 cannot be signed from a hash. *)
Definition message_sign (c : SpdmContext) (zeropad context : list Z) (hash : SpdmDigestStruct) :
    SpdmResult (list Z) :=
  if ver_ge c SpdmVersion12 then
    let '(o, b) :=
      (let* p := lift (get_signing_prefix_context c) in
       let* _ := sign_append p in
       let* _ := sign_append zeropad in
       let* _ := sign_append context in
       let* h := lift (sens_as_ref hash) in
       sign_append h) mb_default in
    let! _ := o in mb_as_ref b
  else Err SPDM_STATUS_INVALID_STATE_LOCAL.
Definition sign_hash (c : SpdmContext) (zeropad context : list Z) (hash : SpdmDigestStruct) :
    M World SpdmStatus SpdmSignatureStruct :=
  let* m := lift (message_sign c zeropad context hash) in
  let n := negotiate_info c in
  map_errM (λ _, SPDM_STATUS_CRYPTO_ERROR)
    (spdm_asym_sign c (base_hash_sel n) (base_asym_sel n) (pqc_asym_sel n) m).

Definition generate_challenge_auth_signature (c : SpdmContext) : M World SpdmStatus SpdmSignatureStruct :=
  let* ctx := lift (ok_or (digest_context_m1m2 (runtime_info c)) SPDM_STATUS_INVALID_STATE_LOCAL) in
  let* hash := lift (map_err (λ _, SPDM_STATUS_CRYPTO_ERROR) (hash_ctx_finalize ctx)) in
  sign_hash c SPDM_VERSION_SIGNING_CONTEXT_ZEROPAD_4 SPDM_CHALLENGE_AUTH_SIGN_CONTEXT hash.

Definition generate_measurement_signature (session_id : option u32) (c : SpdmContext) :
    M World SpdmStatus SpdmSignatureStruct :=
  let* ctx :=
    match session_id with
    | Some id =>
        let* s := lift (ok_or (get_immutable_session_via_id id c) SPDM_STATUS_INVALID_STATE_LOCAL) in
        lift (or_panic (ses_digest_context_l1l2 (ses_runtime_info s)))
    | None => lift (or_panic (digest_context_l1l2 (runtime_info c)))
    end in
  let* hash := lift (map_err (λ _, SPDM_STATUS_CRYPTO_ERROR) (hash_ctx_finalize ctx)) in
  sign_hash c SPDM_VERSION_SIGNING_CONTEXT_ZEROPAD_6 SPDM_MEASUREMENTS_SIGN_CONTEXT hash.

(** The slot of a request that asks for a signature holds a chain, or is that
    of the public key. *)
Definition check_slot (pub_key_slot slot_id : u8) : handler World unit :=
  let* c := get_common in
  if slot_id =? pub_key_slot then
    fail_if (bool_decide (my_pub_key (provision_info c) = None)) SpdmErrorInvalidRequest
      SPDM_STATUS_INVALID_STATE_LOCAL
  else
    let* _ := fail_if (SPDM_MAX_SLOT_NUMBER <=? slot_id) SpdmErrorInvalidRequest SPDM_STATUS_INVALID_MSG_FIELD in
    let* chain := lift (slot (my_cert_chain (provision_info c)) slot_id) in
    fail_if (bool_decide (chain = None)) SpdmErrorInvalidRequest SPDM_STATUS_INVALID_STATE_LOCAL.

(** ** CHALLENGE *)
(** The measurement summary hash a request asks for; [failed] is the status
    when there is none. *)
Definition summary_hash (failed : SpdmStatus) (t : SpdmMeasurementSummaryHashType) :
    handler World SpdmDigestStruct :=
  match t with
  | SpdmMeasurementSummaryHashTypeTcb | SpdmMeasurementSummaryHashTypeAll =>
      let* _ := upd_common (upd_runtime (with_need_measurement_summary_hash true)) in
      let* c := get_common in
      let n := negotiate_info c in
      let* hash := try_or SpdmErrorUnspecified failed
                     (on_world (generate_measurement_summary_hash (spdm_version_sel n)
                        (base_hash_sel n) (measurement_specification_sel n) (measurement_hash_sel n) t)) in
      let* _ := fail_if (data_size hash =? 0) SpdmErrorUnspecified failed in
      ret hash
  | _ =>
      let* _ := upd_common (upd_runtime (with_need_measurement_summary_hash false)) in
      ret sens_default
  end.

(** The hash of the public key or of the chain in the slot. *)
Definition identity (c : SpdmContext) (pub_key : bool) (slot_id : u8) : handler World SpdmDigestStruct :=
  let* d :=
    if pub_key then
      let* k := lift (or_panic (my_pub_key (provision_info c))) in
      lift (CertChainData.as_ref k)
    else
      let* chain := lift (slot (my_cert_chain (provision_info c)) slot_id) in
      let* chain := lift (or_panic chain) in
      lift (CertChainBuffer.as_ref chain) in
  or_else (lift (hash_all (base_hash_sel (negotiate_info c)) d))
    (λ _, fail SpdmErrorUnspecified SPDM_STATUS_CRYPTO_ERROR).

(** The signature at the end of the response, over the placeholder. *)
Definition sign_response (log : list Z → M SpdmContext SpdmStatus unit)
    (sign : SpdmContext → M World SpdmStatus SpdmSignatureStruct) : handler World unit :=
  let* n := used in
  let* c := get_common in
  let* signature_size := lift (get_asym_sig_size c) in
  let* temp_used := lift (sub_checked n signature_size) in
  let* rsp := used_prefix temp_used in
  let* _ := try_local (on_common (log rsp)) in
  let* c := get_common in
  let* signature := try_local (on_world (sign c)) in
  let* s := lift (sens_as_ref signature) in
  patch (n - signature_size) n s.

Definition write_spdm_challenge_response (bytes : list Z) : handler World unit :=
  let* _ := require_negotiated in
  let* reader := check_header selected bytes in
  let* _ := upd_common (reset_buffer_via_request_code SpdmRequestChallenge None) in
  let* (challenge, reader) := read_request SpdmChallengeRequestPayload reader in
  let* measurement_summary_hash :=
    summary_hash SPDM_STATUS_INVALID_STATE_LOCAL (chal_measurement_summary_hash_type challenge) in
  let slot_id := chal_slot_id challenge in
  let is_pub_key_id := slot_id =? SPDM_PUB_KEY_SLOT_ID_CHALLENGE in
  let* _ := check_slot SPDM_PUB_KEY_SLOT_ID_CHALLENGE slot_id in
  let* req := used_bytes bytes reader in
  let* _ := try_local (on_common (append_message_c req)) in
  let* c := get_common in
  let* cert_chain_hash := identity c is_pub_key_id slot_id in
  let* nonce := try_local (on_world (get_random SPDM_NONCE_SIZE)) in
  let requester_context := if ver_ge c SpdmVersion13 then chal_context challenge else byte_array_default in
  let* mask := if is_pub_key_id then ret 0 else lift (slot_mask c) in
  let* signature_size := lift (get_asym_sig_size c) in
  let* _ := try_local (send_response SpdmResponseChallengeAuth
              (SpdmChallengeAuthResponse (mkChallengeAuth
                 (if is_pub_key_id then SPDM_PUB_KEY_SLOT_ID_CHALLENGE_AUTH else slot_id) mask empty_flags
                 cert_chain_hash (mkByteArray nonce) measurement_summary_hash sens_default requester_context
                 (mkSens signature_size (replicate (Z.to_nat SPDM_MAX_ASYM_SIG_SIZE) 0xbb))))) in
  let* _ := sign_response append_message_c generate_challenge_auth_signature in
  let* _ := upd_common reset_message_b in
  upd_common reset_message_c.

(** ** GET_MEASUREMENTS *)
Definition collect (c : SpdmContext) (index : usize) : handler World SpdmMeasurementRecordStructure :=
  let n := negotiate_info c in
  try_local (on_world (measurement_collection (spdm_version_sel n) (measurement_specification_sel n)
    (measurement_hash_sel n) index)).
(** The number of measurements, and the record the operation asks for. *)
Definition measure (c : SpdmContext) (op : SpdmMeasurementOperation) :
    handler World (u8 * SpdmMeasurementRecordStructure) :=
  let* total := collect c (get_int SpdmMeasurementQueryTotalNumber) in
  let number_of_measurement := number_of_blocks total in
  let* measurement_record :=
    match op with
    | SpdmMeasurementRequestAll => collect c (get_int SpdmMeasurementRequestAll)
    | MeasurementOperationUnknown index =>
        let* _ := fail_if (number_of_measurement <? index) SpdmErrorInvalidRequest SPDM_STATUS_INVALID_MSG_FIELD in
        collect c index
    | SpdmMeasurementQueryTotalNumber => ret SpdmMeasurementRecordStructure_default
    end in
  ret (number_of_measurement, measurement_record).

Definition write_spdm_measurement_response (session_id : option u32) (bytes : list Z) : handler World unit :=
  let* _ := require_negotiated in
  let* reader := check_header selected bytes in
  let* _ := upd_common (reset_buffer_via_request_code SpdmRequestGetMeasurements session_id) in
  let* (g, reader) := read_request SpdmGetMeasurementsRequestPayload reader in
  let* c := get_common in
  let* signature_size := lift (get_asym_sig_size c) in
  let signature_requested := contains (gm_measurement_attributes g) SIGNATURE_REQUESTED in
  let* _ := upd_common (upd_runtime (with_need_measurement_signature signature_requested)) in
  let* _ := if signature_requested then check_slot SPDM_PUB_KEY_SLOT_ID_MEASUREMENT (gm_slot_id g)
            else fail_if (negb (gm_slot_id g =? 0)) SpdmErrorInvalidRequest SPDM_STATUS_INVALID_MSG_FIELD in
  let* req := used_bytes bytes reader in
  let* _ := try_local (on_common (append_message_m session_id req)) in
  let* c := get_common in
  let* (number_of_measurement, measurement_record) := measure c (gm_measurement_operation g) in
  let content_changed :=
    if cfg_runtime_content_change_support (config_info c) && ver_ge c SpdmVersion12
    then content_changed (runtime_info c) else NotSupported in
  let* nonce := try_or SpdmErrorUnspecified SPDM_STATUS_CRYPTO_ERROR (on_world (get_random SPDM_NONCE_SIZE)) in
  let* _ := try_local (send_response SpdmResponseMeasurements
              (SpdmMeasurementsResponse (mkMeasurements number_of_measurement content_changed (gm_slot_id g)
                 measurement_record (mkByteArray nonce) sens_default (gm_context g)
                 (mkSens signature_size (replicate (Z.to_nat SPDM_MAX_ASYM_SIG_SIZE) 0x60))
                 (gm_measurement_operation g)))) in
  if signature_requested then
    let* _ := sign_response (append_message_m session_id) (generate_measurement_signature session_id) in
    upd_common (reset_message_m session_id)
  else
    let* rsp := used_slice in
    try_local (on_common (append_message_m session_id rsp)).

Definition handle_spdm_digest (session_id : option u32) (bytes : list Z) :=
  handle (write_spdm_digest_response session_id bytes).
Definition handle_spdm_certificate (session_id : option u32) (bytes : list Z) :=
  handle (write_spdm_certificate_response session_id bytes).
Definition handle_spdm_challenge (bytes : list Z) := handle (write_spdm_challenge_response bytes).
(** A failed request, other than one that is not ready, drops message M. *)
Definition handle_spdm_measurement (session_id : option u32) (bytes : list Z) :
    M (Node World) Empty_set Reply :=
  let* r := handle (write_spdm_measurement_response session_id bytes) in
  let* _ := match fst r with
            | Err e => if status_eqb e SPDM_STATUS_NOT_READY_PEER then ret tt
                       else upd_common (reset_message_m session_id)
            | _ => ret tt
            end in
  ret r.
End Handlers.
End RspAuth.
