(* ===== verification/RspSession.v ===== *)
(** * Sessions in the responder

    Models the handlers of src/spdmlib/src/responder that open, establish,
    refresh and end sessions: [handle_spdm_key_exchange],
    [handle_spdm_psk_exchange], [handle_spdm_finish],
    [handle_spdm_psk_finish], [handle_spdm_heartbeat],
    [handle_spdm_key_update] and [handle_spdm_end_session]. *)

From S2P Require Import Prelude Codec Status Bitflags Algo DataTypes Structs Version Crypto HashCtx.
From S2P Require Import ManagedBuffer CertChain Session Header ContextData Transport Context Transcript.
From S2P Require Import SpdmCodec Opaque MsgLib MsgSession MsgMisc Message Platform RspLib RspAuth.
Import Context Transcript RspAuth.

Module RspSession.
Definition KEY_EXCHANGE_REQUESTER_SESSION_POLICY_TERMINATION_POLICY_VALUE : u8 := 0x1.
Definition KEY_EXCHANGE_REQUESTER_SESSION_POLICY_EVENT_ALL_POLICY_VALUE : u8 := 0x2.
Definition SPDM_VERSION_SIGNING_CONTEXT_ZEROPAD_12 : list Z := zeros 12.
(** [SecuredMessageVersion::try_from(u8)], which does not fail *)
Definition secured_version_of (smv : u8) : SecuredMessageVersion :=
  mkSecuredMessageVersion (Z.shiftr smv 4) (Z.land smv 0x0F) 0 0.

Section Handlers.
Context `{Platform} `{SpdmCrypto} `{SpdmTransportEncap}.

(** ** Access to sessions *)
(** [session] borrowed from its slot of the table *)
Definition on_slot {A} (i : nat) (m : M SpdmSession SpdmStatus A) : M (Node World) SpdmStatus A :=
  on_common (λ c, match session c !! i with
                  | Some s => let '(o, s) := m s in (o, with_session (<[i := s]> (session c)) c)
                  | None => (Panic, c)
                  end).
Definition on_session {A} (id : u32) (m : M SpdmSession SpdmStatus A) : M (Node World) SpdmStatus A :=
  on_common (with_session_via_id id (Err SPDM_STATUS_INVALID_STATE_LOCAL) m).
(** [if let Some(session) = self.common.get_session_via_id(id) { session.teardown() }] *)
Definition teardown_via_id {E} (id : u32) : M (Node World) E unit :=
  ignore (on_session id (modify Session.teardown)).
(** The session is torn down when the reply is an error. *)
Definition teardown_on_err {A} (id : u32) (m : handler World A) : handler World A :=
  or_else m (λ r, let* _ := if is_ok (fst r) then ret tt else teardown_via_id id in throw r).
Definition session_of (id : u32) : handler World SpdmSession :=
  let* c := get_common in
  try_local (lift (ok_or (get_immutable_session_via_id id c) SPDM_STATUS_INVALID_STATE_LOCAL)).
(** An error that is also the status of the reply. *)
Definition propagate {A} (m : M (Node World) SpdmStatus A) : handler World A :=
  or_else m (λ e, fail SpdmErrorUnspecified e).
Definition try_crypto {E A} : M (Node World) E A → handler World A :=
  try_or SpdmErrorUnspecified SPDM_STATUS_CRYPTO_ERROR.
(** [calc_rsp_transcript_hash] of the session *)
Definition transcript_hash (id : u32) : handler World SpdmDigestStruct :=
  let* s := session_of id in try_crypto (lift (calc_transcript_hash s)).
Definition in_clear_text (c : SpdmContext) : bool :=
  req_cap c SpdmRequestCapabilityFlags.HANDSHAKE_IN_THE_CLEAR_CAP &&
  rsp_cap c SpdmResponseCapabilityFlags.HANDSHAKE_IN_THE_CLEAR_CAP.
Definition hbeat (c : SpdmContext) : bool :=
  req_cap c SpdmRequestCapabilityFlags.HBEAT_CAP && rsp_cap c SpdmResponseCapabilityFlags.HBEAT_CAP.

(** ** Opening a session *)
(** The header of a request that needs version 1.1. *)
Definition check_header_11 (bytes : list Z) : handler World Reader :=
  let* reader := check_header selected bytes in
  let* c := get_common in
  let* _ := fail_if (version_ltb (selected c) SpdmVersion11) SpdmErrorUnsupportedRequest
              SPDM_STATUS_INVALID_MSG_FIELD in
  ret reader.

(** The last offered version of secured messages that is configured. *)
Fixpoint pick_version (l : SecuredMessageVersionList) (own : list SecuredMessageVersion) (indices : list Z)
    (sel : option SecuredMessageVersion) : outcome Reply (option SecuredMessageVersion) :=
  match indices with
  | [] => Ok sel
  | i :: indices =>
      let! v := or_panic (znth (versions_list l) i) in
      pick_version l own indices (foldl (λ sel o, if smv_eqb v o then Some o else sel) sel own)
  end.
Definition select_secured_version (opaque : SpdmOpaqueStruct) : handler World SpdmOpaqueStruct :=
  let* c := get_common in
  match rsp_get_dmtf_supported_secure_spdm_version_list c opaque with
  | Panic => panic
  | Err _ => ret sens_default
  | Ok l =>
      let* _ := fail_if (MAX_SECURE_SPDM_VERSION_COUNT <? version_count l) SpdmErrorInvalidRequest
                  SPDM_STATUS_INVALID_MSG_FIELD in
      let own := omap id (cfg_secure_spdm_version (config_info c)) in
      let* sel := lift (pick_version l own (seqZ 0 (version_count l)) None) in
      match sel with
      | Some v => try_or SpdmErrorUnsupportedRequest SPDM_STATUS_INVALID_MSG_FIELD
                    (lift (from_sm_opaque c (mkVersionSel v)))
      | None => invalid_request
      end
  end.
(** [session.secure_spdm_version_sel = try_from(opaque.data[opaque.data_size - 1])] *)
Definition set_secured_version (opaque : SpdmOpaqueStruct) : M SpdmSession SpdmStatus unit :=
  if data_size opaque =? 0 then ret tt
  else
    let* b := lift (or_panic (znth (data opaque) (data_size opaque - 1))) in
    modify (with_secure_spdm_version_sel (secured_version_of b)).

(** The half id the responder draws, the slot, and the id of the session. *)
Definition allocate (req_session_id : u16) (half : u16) : handler World (nat * u32) :=
  let* c := get_common in
  match get_next_avaiable_session c with
  | None => fail SpdmErrorSessionLimitExceeded SPDM_STATUS_INVALID_STATE_LOCAL
  | Some (i, _) =>
      let* id := lift (add_checked 32 (wrap 32 (Z.shiftl half 16)) req_session_id) in
      ret (i, id)
  end.
Definition next_half : handler World u16 :=
  let* c := get_common in
  try_or SpdmErrorSessionLimitExceeded SPDM_STATUS_INVALID_STATE_LOCAL (lift (get_next_half_session_id false c)).
(** [setup] and the parameters of the connection *)
Definition setup_session (c : SpdmContext) (psk : bool) (id : u32) : M SpdmSession SpdmStatus unit :=
  let n := negotiate_info c in
  let* _ := Session.setup id in
  let* _ := modify (with_use_psk psk) in
  let* _ := modify (Session.set_crypto_param (base_hash_sel n) (dhe_sel n) (kem_sel n) (aead_sel n)
                      (key_schedule_sel n)) in
  modify (Session.set_transport_param get_sequence_number_count get_max_random_count).

(** ** KEY_EXCHANGE *)
(** The exchange: the shared secret and the own part. *)
Definition exchange_keys (c : SpdmContext) (e : SpdmReqExchangeStruct) :
    handler World (SpdmSharedSecretFinalKeyStruct * SpdmRspExchangeStruct) :=
  let n := negotiate_info c in
  if bool_decide (kem_sel n ≠ empty_flags) then
    let* peer := lift (sens_copy e) in
    let* ctx := try_crypto (on_world (kem_new_key (kem_sel n) peer)) in
    let* (cipher_text, final_key) := try_crypto (on_world (kem_encap_key ctx)) in
    let* exchange := lift (sens_copy cipher_text) in
    ret (final_key, exchange)
  else
    let* (mine, ctx) := try_crypto (on_world (generate_key_pair (dhe_sel n))) in
    let* peer := lift (sens_copy e) in
    let* final_key := on_world (attempt (compute_final_key ctx peer)) in
    let* exchange := lift (sens_copy mine) in
    match final_key with
    | Some final_key => ret (final_key, exchange)
    | None => fail SpdmErrorUnspecified SPDM_STATUS_CRYPTO_ERROR
    end.

(** The digest of the identity the session is bound to. *)
Definition session_cert_hash (c : SpdmContext) (slot_id : u8) : outcome unit SpdmDigestStruct :=
  if slot_id =? SPDM_PUB_KEY_SLOT_ID_KEY_EXCHANGE then
    let! k := ok_or (my_pub_key (provision_info c)) tt in
    let! d := CertChainData.as_ref k in
    hash_all (base_hash_sel (negotiate_info c)) d
  else if slot_id <? SPDM_MAX_SLOT_NUMBER then get_certchain_hash_local false slot_id c
  else Err tt.

Definition generate_key_exchange_rsp_signature (c : SpdmContext) (s : SpdmSession) :
    M World SpdmStatus SpdmSignatureStruct :=
  let* hash := lift (calc_transcript_hash s) in
  sign_hash c SPDM_VERSION_SIGNING_CONTEXT_ZEROPAD_2 SPDM_KEY_EXCHANGE_RESPONSE_SIGN_CONTEXT hash.

Definition append_k {W} (id : u32) (m : list Z) : M (Node W) SpdmStatus unit := on_common (append_message_k id m).

(** The checks on the request before any key is generated: the summary hash
    and the opaque data of the response. *)
Definition key_exchange_request (r : SpdmKeyExchangeRequestPayload) :
    handler World (SpdmDigestStruct * SpdmOpaqueStruct) :=
  let* summary := summary_hash SPDM_STATUS_INVALID_MSG_FIELD (ke_measurement_summary_hash_type r) in
  let policy mask := Z.land (ke_session_policy r) mask in
  let* _ := upd_common (upd_negotiate (with_termination_policy_set
              (policy KEY_EXCHANGE_REQUESTER_SESSION_POLICY_TERMINATION_POLICY_MASK
               =? KEY_EXCHANGE_REQUESTER_SESSION_POLICY_TERMINATION_POLICY_VALUE))) in
  let* c := get_common in
  let* _ := if (policy KEY_EXCHANGE_REQUESTER_SESSION_POLICY_EVENT_ALL_POLICY_MASK
                =? KEY_EXCHANGE_REQUESTER_SESSION_POLICY_EVENT_ALL_POLICY_VALUE)
               && rsp_cap c SpdmResponseCapabilityFlags.EVENT_CAP
            then reply (Err SPDM_STATUS_INVALID_MSG_FIELD) else ret tt in
  let* opaque := select_secured_version (ke_opaque r) in
  let slot_id := ke_slot_id r in
  let* _ := fail_if ((SPDM_MAX_SLOT_NUMBER <=? slot_id) && negb (slot_id =? SPDM_PUB_KEY_SLOT_ID_KEY_EXCHANGE))
              SpdmErrorInvalidRequest SPDM_STATUS_INVALID_MSG_FIELD in
  let* _ := if slot_id <? SPDM_MAX_SLOT_NUMBER then
              let* chain := lift (slot (my_cert_chain (provision_info c)) slot_id) in
              fail_if (bool_decide (chain = None)) SpdmErrorInvalidRequest SPDM_STATUS_INVALID_MSG_FIELD
            else ret tt in
  let* _ := upd_common (upd_runtime (with_local_used_cert_chain_slot_id slot_id)) in
  ret (summary, opaque).

(** The session in its slot: parameters, shared secret and identities. *)
Definition key_exchange_session (i : nat) (id : u32) (final_key : SpdmSharedSecretFinalKeyStruct)
    (cert_chain_hash : SpdmDigestStruct) : handler World unit :=
  let* c := get_common in
  let* _ := propagate (on_slot i (let* _ := setup_session c false id in
                                  modify (with_mut_auth_requested empty_flags))) in
  let* _ := or_else (on_slot i (Session.set_shared_secret (selected c) final_key))
              (λ _, let* _ := propagate (on_slot i (modify Session.teardown)) in
                    fail SpdmErrorUnspecified SPDM_STATUS_CRYPTO_ERROR) in
  propagate (on_slot i (modify (λ s, with_ses_runtime_info
    (with_req_cert_hash None (with_rsp_cert_hash (Some cert_chain_hash)
       (with_ses_message_a (message_a (runtime_info c)) (ses_runtime_info s)))) s))).

(** The response with its signature and, unless the handshake is in the clear,
    its verify data, and message K. *)
Definition key_exchange_response (id : u32) (req : list Z) (p : SpdmKeyExchangeResponsePayload) :
    handler World unit :=
  let* _ := try_local (send_response SpdmResponseKeyExchangeRsp (SpdmKeyExchangeResponse p)) in
  let* c := get_common in
  let* signature_size := lift (get_asym_sig_size c) in
  let* base_hash_size := lift (get_hash_size c) in
  let* n := used in
  let* temp_used := lift (sub_checked n signature_size) in
  let* temp_used := if in_clear_text c then ret temp_used else lift (sub_checked temp_used base_hash_size) in
  let* _ := try_crypto (append_k id req) in
  let* rsp := used_prefix temp_used in
  let* _ := try_local (append_k id rsp) in
  let* s := session_of id in
  let* c := get_common in
  let* signature := try_crypto (on_world (generate_key_exchange_rsp_signature c s)) in
  let* sig := lift (sens_as_ref signature) in
  let* _ := try_local (append_k id sig) in
  let* _ := patch temp_used (temp_used + signature_size) sig in
  let temp_used := temp_used + signature_size in
  let* th1 := transcript_hash id in
  let* _ := propagate (on_session id (let* _ := modify (with_th1 th1) in
                                      Session.generate_handshake_secret (selected c) th1)) in
  if in_clear_text c then ret tt
  else
    let* hash := transcript_hash id in
    let* h := lift (sens_as_ref hash) in
    let* s := session_of id in
    let* hmac := or_else (lift (Session.generate_hmac_with_response_finished_key s h))
                   (λ _, let* _ := teardown_via_id id in
                         fail SpdmErrorUnspecified SPDM_STATUS_CRYPTO_ERROR) in
    let* hmac := lift (sens_as_ref hmac) in
    let* _ := or_else (append_k id hmac)
                (λ _, let* _ := teardown_via_id id in
                      fail SpdmErrorUnspecified SPDM_STATUS_INVALID_STATE_LOCAL) in
    patch temp_used (temp_used + base_hash_size) hmac.

Definition write_spdm_key_exchange_response (bytes : list Z) : handler World unit :=
  let* _ := require_negotiated in
  let* reader := check_header_11 bytes in
  let* _ := upd_common (reset_buffer_via_request_code SpdmRequestKeyExchange None) in
  let* (r, reader) := read_request SpdmKeyExchangeRequestPayload reader in
  let* (summary, return_opaque) := key_exchange_request r in
  let* c := get_common in
  let* (final_key, exchange) := exchange_keys c (ke_exchange r) in
  let* rsp_session_id := next_half in
  let* cert_chain_hash := try_or SpdmErrorInvalidRequest SPDM_STATUS_INVALID_MSG_FIELD
                            (lift (session_cert_hash c (ke_slot_id r))) in
  let* (i, id) := allocate (ke_req_session_id r) rsp_session_id in
  teardown_on_err id (
    let* _ := key_exchange_session i id final_key cert_chain_hash in
    let* random := try_crypto (on_world (get_random SPDM_RANDOM_SIZE)) in
    let* signature_size := lift (get_asym_sig_size c) in
    let* hash_size := lift (get_hash_size c) in
    let* req := used_bytes bytes reader in
    let* _ := key_exchange_response id req
                (mkKeyExchangeRsp (cfg_heartbeat_period (config_info c)) rsp_session_id empty_flags 0
                   (mkByteArray random) exchange summary return_opaque
                   (mkSens signature_size (replicate (Z.to_nat SPDM_MAX_ASYM_SIG_SIZE) 0xbb))
                   (mkSens hash_size (replicate (Z.to_nat SPDM_MAX_HASH_SIZE) 0xcc))) in
    let* _ := propagate (on_session id (
                let* _ := modify (with_heartbeat_period (cfg_heartbeat_period (config_info c))) in
                let* _ := set_secured_version return_opaque in
                modify (with_session_state SpdmSessionHandshaking))) in
    if in_clear_text c then upd_common (upd_runtime (with_last_session_id (Some id))) else ret tt).

(** ** FINISH *)
Definition append_f (id : u32) (m : list Z) : handler World unit :=
  try_local (on_common (append_message_f false id m)).

Definition verify_finish_req_signature (c : SpdmContext) (signature : SpdmSignatureStruct) (s : SpdmSession) :
    SpdmResult unit :=
  let! hash := calc_transcript_hash s in
  let peer_slot_id := peer_used_cert_chain_slot_id (runtime_info c) in
  let! peer :=
    if peer_slot_id =? SPDM_PUB_KEY_SLOT_ID_KEY_EXCHANGE_RSP then
      let! k := ok_or (peer_pub_key (provision_info c)) SPDM_STATUS_INVALID_PARAMETER in
      let! d := CertChainData.as_ref k in
      Ok (SpdmDerPubKeyRfc7250 d)
    else
      let! chain := slot (peer_cert_chain (peer_info c)) peer_slot_id in
      let! chain := ok_or chain SPDM_STATUS_INVALID_PARAMETER in
      let! hash_size := get_hash_size c in
      let! d := or_panic (slice (ccb_data chain) (4 + hash_size) (ccb_size chain)) in
      Ok (SpdmDerCertChain d) in
  let! m := message_sign c SPDM_VERSION_SIGNING_CONTEXT_ZEROPAD_12 SPDM_FINISH_SIGN_CONTEXT hash in
  let n := negotiate_info c in
  spdm_asym_verify (base_hash_sel n) (SpdmReqAsymAlgo.to_base (req_asym_sel n))
    (SpdmPqcReqAsymAlgo.to_base (pqc_req_asym_sel n)) peer m signature.

(** The request is authentic: its signature, with mutual authentication, and
    its verify data over the transcript up to it. *)
Definition verify_finish (id : u32) (f : SpdmFinishRequestPayload) : handler World unit :=
  let* s := session_of id in
  let mut_auth := negb (is_empty (mut_auth_requested s)) in
  let signed := contains (fin_finish_request_attributes f) SIGNATURE_INCLUDED in
  let* _ := fail_if ((mut_auth && negb signed) || (negb mut_auth && signed)) SpdmErrorInvalidRequest
              SPDM_STATUS_INVALID_MSG_FIELD in
  let* _ := if mut_auth then
              let* s := session_of id in
              let* c := get_common in
              let* _ := try_or SpdmErrorDecryptError SPDM_STATUS_CRYPTO_ERROR
                          (lift (verify_finish_req_signature c (fin_signature f) s)) in
              let* sig := lift (sens_as_ref (fin_signature f)) in
              append_f id sig
            else ret tt in
  let* c := get_common in
  let* _ := lift (get_hash_size c) in
  let* s := session_of id in
  let* _ := fail_if (use_psk s) SpdmErrorInvalidRequest SPDM_STATUS_INVALID_MSG_FIELD in
  let* hash := transcript_hash id in
  let* h := lift (sens_as_ref hash) in
  let* _ := try_or SpdmErrorDecryptError SPDM_STATUS_CRYPTO_ERROR
              (lift (Session.verify_hmac_with_request_finished_key s h (fin_verify_data f))) in
  let* v := lift (sens_as_ref (fin_verify_data f)) in
  append_f id v.

(** The response, and its part of message F. *)
Definition finish_response (id : u32) : handler World unit :=
  let* c := get_common in
  let* base_hash_size := lift (get_hash_size c) in
  let* _ := try_local (send_response SpdmResponseFinishRsp
              (SpdmFinishResponse (mkFinishRsp
                 (mkSens base_hash_size (replicate (Z.to_nat SPDM_MAX_HASH_SIZE) 0xcc)) sens_default))) in
  let* n := used in
  if in_clear_text c then
    let* temp_used := lift (sub_checked n base_hash_size) in
    let* rsp := used_prefix temp_used in
    let* _ := append_f id rsp in
    let* hash := transcript_hash id in
    let* h := lift (sens_as_ref hash) in
    let* s := session_of id in
    let* hmac := try_crypto (lift (Session.generate_hmac_with_response_finished_key s h)) in
    let* hmac := lift (sens_as_ref hmac) in
    let* _ := append_f id hmac in
    patch (n - base_hash_size) n hmac
  else
    let* rsp := used_prefix n in append_f id rsp.

(** The data secrets from the transcript up to the response. *)
Definition data_secret (id : u32) : handler World unit :=
  let* th2 := transcript_hash id in
  let* c := get_common in
  propagate (on_session id (let* _ := modify (with_th2 th2) in Session.generate_data_secret (selected c) th2)).

Definition write_spdm_finish_response (id : u32) (bytes : list Z) : handler World unit :=
  let* reader := check_header selected bytes in
  let* _ := upd_common (reset_buffer_via_request_code SpdmRequestFinish (Some id)) in
  let* (f, reader) := read_request SpdmFinishRequestPayload reader in
  let* c := get_common in
  let opaque_total_size := if ver_ge c SpdmVersion14 then 2 + data_size (fin_opaque f) else 0 in
  let* req := lift (or_panic (slice bytes 0 (4 + opaque_total_size))) in
  let* _ := append_f id req in
  let* _ := verify_finish id f in
  let* _ := finish_response id in
  data_secret id.

(** ** PSK_EXCHANGE *)
(** The PSK context of the response. *)
Definition psk_context (without : bool) : handler World SpdmPskContextStruct :=
  let size := if without then 0 else MAX_SPDM_PSK_CONTEXT_SIZE in
  let* d := if without then try_crypto (on_world (get_random MAX_SPDM_PSK_CONTEXT_SIZE))
            else ret (zeros MAX_SPDM_PSK_CONTEXT_SIZE) in
  ret (mkSens size d).

(** The response with its verify data, and message K. *)
Definition psk_exchange_response (id : u32) (req : list Z) (p : SpdmPskExchangeResponsePayload) :
    handler World unit :=
  let* _ := try_local (send_response SpdmResponsePskExchangeRsp (SpdmPskExchangeResponse p)) in
  let* n := used in
  let* c := get_common in
  let* base_hash_size := lift (get_hash_size c) in
  let* temp_used := lift (sub_checked n base_hash_size) in
  let* _ := try_local (append_k id req) in
  let* rsp := used_prefix temp_used in
  let* _ := try_local (append_k id rsp) in
  let* th1 := transcript_hash id in
  let* _ := propagate (on_session id (let* _ := modify (with_th1 th1) in
                                      Session.generate_handshake_secret (selected c) th1)) in
  let* hash := transcript_hash id in
  let* h := lift (sens_as_ref hash) in
  let* s := session_of id in
  let* hmac := or_else (lift (Session.generate_hmac_with_response_finished_key s h))
                 (λ _, let* _ := teardown_via_id id in fail SpdmErrorUnspecified SPDM_STATUS_CRYPTO_ERROR) in
  let* hmac := lift (sens_as_ref hmac) in
  let* _ := or_else (append_k id hmac)
              (λ _, let* _ := teardown_via_id id in
                    fail SpdmErrorUnspecified SPDM_STATUS_INVALID_STATE_LOCAL) in
  patch (n - base_hash_size) n hmac.

(** Without a context the session is established at once. *)
Definition psk_establish (id : u32) : handler World unit :=
  let* th2 := transcript_hash id in
  let* c := get_common in
  let* _ := session_of id in
  let* _ := try_crypto (on_session id (let* _ := modify (with_th2 th2) in
                                       Session.generate_data_secret (selected c) th2)) in
  let* _ := propagate (on_session id (modify (with_session_state SpdmSessionEstablished))) in
  let* s := session_of id in
  if hbeat c then on_world (modify (start_watchdog id (heartbeat_period s * 2))) else ret tt.

Definition write_spdm_psk_exchange_response (bytes : list Z) : handler World unit :=
  let* _ := require_negotiated in
  let* reader := check_header_11 bytes in
  let* _ := upd_common (reset_buffer_via_request_code SpdmRequestPskExchange None) in
  let* (r, reader) := read_request SpdmPskExchangeRequestPayload reader in
  let* summary := summary_hash SPDM_STATUS_CRYPTO_ERROR (pe_measurement_summary_hash_type r) in
  let* return_opaque := select_secured_version (pe_opaque r) in
  let* c := get_common in
  let psk_without_context := rsp_cap c SpdmResponseCapabilityFlags.PSK_CAP_WITHOUT_CONTEXT in
  let* ctx := psk_context psk_without_context in
  let* rsp_session_id := next_half in
  let* (i, id) := allocate (pe_req_session_id r) rsp_session_id in
  teardown_on_err id (
    let* _ := propagate (on_slot i (
                let* _ := setup_session c true id in
                modify (λ s, with_ses_runtime_info
                  (with_req_cert_hash None (with_rsp_cert_hash None
                     (with_ses_message_a (message_a (runtime_info c))
                        (with_psk_hint (Some (pe_psk_hint r)) (ses_runtime_info s))))) s))) in
    let* hash_size := lift (get_hash_size c) in
    let* req := used_bytes bytes reader in
    let* _ := psk_exchange_response id req
                (mkPskExchangeRsp (cfg_heartbeat_period (config_info c)) rsp_session_id summary ctx return_opaque
                   (mkSens hash_size (replicate (Z.to_nat SPDM_MAX_HASH_SIZE) 0xcc))) in
    let* _ := propagate (on_session id (modify (with_session_state SpdmSessionHandshaking))) in
    let* _ := session_of id in
    let* _ := if psk_without_context then psk_establish id else ret tt in
    propagate (on_session id (
      let* _ := modify (with_heartbeat_period (cfg_heartbeat_period (config_info c))) in
      set_secured_version return_opaque))).

(** ** PSK_FINISH *)
Definition write_spdm_psk_finish_response (id : u32) (bytes : list Z) : handler World unit :=
  let* reader := check_header selected bytes in
  let* _ := upd_common (reset_buffer_via_request_code SpdmRequestPskFinish (Some id)) in
  let* (f, reader) := read_request SpdmPskFinishRequestPayload reader in
  let* c := get_common in
  let* base_hash_size := lift (get_hash_size c) in
  let* temp_used := lift (sub_checked (Reader.used reader) base_hash_size) in
  let* s := session_of id in
  let* _ := fail_if (negb (use_psk s)) SpdmErrorInvalidRequest SPDM_STATUS_INVALID_MSG_FIELD in
  let* req := lift (or_panic (slice bytes 0 temp_used)) in
  let* _ := append_f id req in
  let* hash := transcript_hash id in
  let* h := lift (sens_as_ref hash) in
  let* s := session_of id in
  let* _ := try_or SpdmErrorDecryptError SPDM_STATUS_CRYPTO_ERROR
              (lift (Session.verify_hmac_with_request_finished_key s h (pf_verify_data f))) in
  let* v := lift (sens_as_ref (pf_verify_data f)) in
  let* _ := append_f id v in
  let* _ := try_local (send_response SpdmResponsePskFinishRsp
              (SpdmPskFinishResponse (mkPskFinishRsp sens_default))) in
  let* rsp := used_slice in
  let* _ := append_f id rsp in
  data_secret id.

(** ** HEARTBEAT, KEY_UPDATE and END_SESSION *)
Definition write_spdm_heartbeat_response (id : u32) (bytes : list Z) : handler World unit :=
  let* reader := check_header selected bytes in
  let* _ := upd_common (reset_buffer_via_request_code SpdmRequestHeartbeat (Some id)) in
  let* _ := read_request SpdmHeartbeatRequestPayload reader in
  let* _ := try_local (send_response SpdmResponseHeartbeatAck (SpdmHeartbeatResponse mkHeartbeatAck)) in
  ret tt.

(** The keys of the session after a request; failures of the derivation are
    ignored. *)
Definition update_keys (v : SpdmVersion) (op : SpdmKeyUpdateOperation) : M SpdmSession SpdmStatus unit :=
  match op with
  | SpdmUpdateSingleKey => ignore (Session.create_data_secret_update v true false)
  | SpdmUpdateAllKeys =>
      let* _ := ignore (Session.create_data_secret_update v true true) in
      modify (Session.activate_data_secret_update v false true true)
  | SpdmVerifyNewKey => modify (Session.activate_data_secret_update v true false true)
  | KeyUpdateOperationUnknown _ => ret tt
  end.
Definition write_spdm_key_update_response (id : u32) (bytes : list Z) : handler World unit :=
  let* reader := check_header selected bytes in
  let* _ := upd_common (reset_buffer_via_request_code SpdmRequestKeyUpdate (Some id)) in
  let* (r, _) := read_request SpdmKeyUpdateRequestPayload reader in
  let* c := get_common in
  let op := ku_key_update_operation r in
  let* _ := try_local (on_session id (update_keys (selected c) op)) in
  let* _ := match op with KeyUpdateOperationUnknown _ => invalid_request | _ => ret tt end in
  let* _ := try_local (send_response SpdmResponseKeyUpdateAck (SpdmKeyUpdateResponse (mkKeyUpdate op (ku_tag r)))) in
  ret tt.

Definition write_spdm_end_session_response (id : u32) (bytes : list Z) : handler World unit :=
  let* reader := check_header selected bytes in
  let* _ := read_request SpdmEndSessionRequestPayload reader in
  let* _ := upd_common (reset_buffer_via_request_code SpdmRequestEndSession (Some id)) in
  let* _ := try_local (send_response SpdmResponseEndSessionAck (SpdmEndSessionResponse mkEndSessionAck)) in
  ret tt.

Definition handle_spdm_key_exchange (bytes : list Z) := handle (write_spdm_key_exchange_response bytes).
Definition handle_spdm_finish (id : u32) (bytes : list Z) :=
  handle (teardown_on_err id (write_spdm_finish_response id bytes)).
Definition handle_spdm_psk_exchange (bytes : list Z) := handle (write_spdm_psk_exchange_response bytes).
Definition handle_spdm_psk_finish (id : u32) (bytes : list Z) :=
  handle (teardown_on_err id (write_spdm_psk_finish_response id bytes)).
Definition handle_spdm_heartbeat (id : u32) (bytes : list Z) := handle (write_spdm_heartbeat_response id bytes).
Definition handle_spdm_key_update (id : u32) (bytes : list Z) := handle (write_spdm_key_update_response id bytes).
Definition handle_spdm_end_session (id : u32) (bytes : list Z) : M (Node World) Empty_set Reply :=
  let* c := get_common in
  let* _ := if hbeat c then on_world (modify (stop_watchdog id)) else ret tt in
  handle (write_spdm_end_session_response id bytes).
End Handlers.
End RspSession.
