(* ===== verification/Responder.v ===== *)
(** * The responder

    Models [ResponderContext] of src/spdmlib/src/responder/context.rs: the
    dispatch of requests inside and outside of sessions, [send_message] with
    the transitions of the connection, [receive_message] and
    [process_message]; and the handlers of vendor_rsp.rs and error_rsp.rs. *)

From S2P Require Import Prelude Codec Status Bitflags Algo DataTypes Version Crypto Session.
From S2P Require Import SecuredMessage Header ContextData Transport Context Transcript SpdmCodec.
From S2P Require Import MsgLib MsgMisc Message Platform RspLib RspNegotiate RspAuth RspSession.
Import Context Transcript RspNegotiate RspAuth RspSession.

(** The handlers an integrator registers for whole messages. *)
Class AppHandlers `{Platform} := {
  dispatch_secured_app_message_cb : u32 → list Z → usize → M (Node World) Empty_set Reply;
  vendor_defined_request_handler_ex : option (option u32 → list Z → M (Node World) Empty_set Reply);
}.

Module Responder.
Section Dispatch.
Context `{AppHandlers} `{SpdmCrypto} `{SpdmTransportEncap}.

(** ** Errors and vendor-defined requests *)
Definition write_error_response (error_code : SpdmErrorCode) (bytes : list Z) : handler World unit :=
  let* c := get_common in
  match read (A:=SpdmMessageHeader) (Reader.init bytes) with
  | (Ok h, _) =>
      let* _ := fail_if (bool_decide (version h ≠ selected c)) SpdmErrorVersionMismatch
                  SPDM_STATUS_INVALID_MSG_FIELD in
      write_spdm_error error_code
        (if decide (error_code = SpdmErrorUnsupportedRequest) then get_int (request_response_code h) else 0)
  | (Err _, _) => invalid_request
  | (Panic, _) => panic
  end.
Definition handle_error_request (error_code : SpdmErrorCode) (bytes : list Z) :=
  handle (write_error_response error_code bytes).

Definition write_spdm_vendor_defined_response (session_id : option u32) (bytes : list Z) : handler World unit :=
  let* reader := check_header selected bytes in
  let* _ := upd_common (reset_buffer_via_request_code SpdmRequestVendorDefinedRequest session_id) in
  let* (r, _) := read_request SpdmVendorDefinedRequestPayload reader in
  let* rsp := propagate (on_world (vendor_defined_request_handler (vd_vendor_id r) (vd_payload r))) in
  let* _ := try_local (send_response SpdmResponseVendorDefinedResponse
              (SpdmVendorDefinedResponse (mkVendorDefined (vd_standard_id r) (vd_vendor_id r) rsp))) in
  ret tt.
Definition handle_spdm_vendor_defined_request (session_id : option u32) (bytes : list Z) :
    M (Node World) Empty_set Reply :=
  match vendor_defined_request_handler_ex with
  | Some f => f session_id bytes
  | None => handle (write_spdm_vendor_defined_response session_id bytes)
  end.

(** ** Dispatch *)
Definition refuse : M (Node World) Empty_set Reply := ret (Err SPDM_STATUS_UNSUPPORTED_CAP, None).
Definition with_code (bytes : list Z) (k : SpdmRequestResponseCode → M (Node World) Empty_set Reply) :
    M (Node World) Empty_set Reply :=
  match read (A:=SpdmMessageHeader) (Reader.init bytes) with
  | (Ok h, _) => k (request_response_code h)
  | (Err _, _) => refuse
  | (Panic, _) => panic
  end.

Definition dispatch_handshaking (id : u32) (bytes : list Z) : M (Node World) Empty_set Reply :=
  let* c := get_common in
  if in_clear_text c then refuse else
  with_code bytes (λ code, match code with
  | SpdmRequestFinish => handle_spdm_finish id bytes
  | SpdmRequestPskFinish => handle_spdm_psk_finish id bytes
  | SpdmRequestVendorDefinedRequest => handle_spdm_vendor_defined_request (Some id) bytes
  | SpdmRequestGetVersion | SpdmRequestGetCapabilities | SpdmRequestNegotiateAlgorithms
  | SpdmRequestGetDigests | SpdmRequestGetCertificate | SpdmRequestChallenge | SpdmRequestGetMeasurements
  | SpdmRequestKeyExchange | SpdmRequestPskExchange | SpdmRequestHeartbeat | SpdmRequestKeyUpdate
  | SpdmRequestEndSession => handle_error_request SpdmErrorUnexpectedRequest bytes
  | _ => handle_error_request SpdmErrorUnsupportedRequest bytes
  end).
Definition dispatch_established (id : u32) (bytes : list Z) : M (Node World) Empty_set Reply :=
  with_code bytes (λ code, match code with
  | SpdmRequestGetDigests => handle_spdm_digest (Some id) bytes
  | SpdmRequestGetCertificate => handle_spdm_certificate (Some id) bytes
  | SpdmRequestGetMeasurements => handle_spdm_measurement (Some id) bytes
  | SpdmRequestHeartbeat => handle_spdm_heartbeat id bytes
  | SpdmRequestKeyUpdate => handle_spdm_key_update id bytes
  | SpdmRequestEndSession => handle_spdm_end_session id bytes
  | SpdmRequestVendorDefinedRequest => handle_spdm_vendor_defined_request (Some id) bytes
  | SpdmRequestGetVersion | SpdmRequestGetCapabilities | SpdmRequestNegotiateAlgorithms
  | SpdmRequestChallenge | SpdmRequestKeyExchange | SpdmRequestPskExchange | SpdmRequestFinish
  | SpdmRequestPskFinish => handle_error_request SpdmErrorUnexpectedRequest bytes
  | _ => handle_error_request SpdmErrorUnsupportedRequest bytes
  end).
Definition dispatch_secured_message (id : u32) (bytes : list Z) : M (Node World) Empty_set Reply :=
  let* c := get_common in
  match get_immutable_session_via_id id c with
  | None => refuse
  | Some s =>
      match session_state s with
      | SpdmSessionHandshaking => dispatch_handshaking id bytes
      | SpdmSessionEstablished => dispatch_established id bytes
      | _ => refuse
      end
  end.

(** FINISH outside of the session, when the handshake is in the clear. *)
Definition dispatch_finish (bytes : list Z) : M (Node World) Empty_set Reply :=
  let* c := get_common in
  let unexpected := handle_error_request SpdmErrorUnexpectedRequest bytes in
  if in_clear_text c then
    match last_session_id (runtime_info c) with
    | Some id =>
        match get_immutable_session_via_id id c with
        | Some s => if decide (session_state s = SpdmSessionHandshaking) then handle_spdm_finish id bytes
                    else unexpected
        | None => unexpected
        end
    | None => unexpected
    end
  else unexpected.
Definition dispatch_message (bytes : list Z) : M (Node World) Empty_set Reply :=
  with_code bytes (λ code, match code with
  | SpdmRequestGetVersion => handle_spdm_version bytes
  | SpdmRequestGetCapabilities => handle_spdm_capability bytes
  | SpdmRequestNegotiateAlgorithms => handle_spdm_algorithm bytes
  | SpdmRequestGetDigests => handle_spdm_digest None bytes
  | SpdmRequestGetCertificate => handle_spdm_certificate None bytes
  | SpdmRequestChallenge => handle_spdm_challenge bytes
  | SpdmRequestGetMeasurements => handle_spdm_measurement None bytes
  | SpdmRequestKeyExchange => handle_spdm_key_exchange bytes
  | SpdmRequestPskExchange => handle_spdm_psk_exchange bytes
  | SpdmRequestVendorDefinedRequest => handle_spdm_vendor_defined_request None bytes
  | SpdmRequestFinish => dispatch_finish bytes
  | SpdmRequestPskFinish | SpdmRequestHeartbeat | SpdmRequestKeyUpdate | SpdmRequestEndSession =>
      handle_error_request SpdmErrorUnexpectedRequest bytes
  | _ => handle_error_request SpdmErrorUnsupportedRequest bytes
  end).

(** ** Sending *)
(** An error in a buffer of its own. *)
Definition error_bytes (code : SpdmErrorCode) : M (Node World) SpdmStatus (list Z) :=
  λ n, let '(o, n') := (let* _ := write_spdm_error code 0 in used_slice)
                         (mkNode (common n) (Writer.init (zeros SPDM_SENDER_DATA_TRANSFER_SIZE)) (world n)) in
       (o, mkNode (common n') (writer n) (world n')).
Definition bounded_response (session_id : option u32) (send_buffer : list Z) (is_app_message : bool) :
    M (Node World) SpdmStatus (list Z) :=
  let* c := get_common in
  let n := negotiate_info c in
  if negb (req_max_spdm_msg_size_sel n =? 0) && (req_max_spdm_msg_size_sel n <? len send_buffer)
  then error_bytes SpdmErrorResponseTooLarge
  else if is_app_message && bool_decide (session_id = None) then error_bytes SpdmErrorSessionRequired
  else if (negb (req_data_transfer_size_sel n =? 0) && (req_data_transfer_size_sel n <? len send_buffer))
          || (SPDM_SENDER_DATA_TRANSFER_SIZE <? len send_buffer)
  then error_bytes SpdmErrorResponseTooLarge
  else ret send_buffer.

Definition transmit (session_id : option u32) (send_buffer : list Z) (is_app_message : bool) :
    M (Node World) SpdmStatus unit :=
  let* packet := on_common (λ c,
    let '(o, (c', buf)) :=
      match session_id with
      | Some id => encode_secured_message id send_buffer false is_app_message
      | None => encap_ send_buffer
      end (c, zeros SENDER_BUFFER_SIZE) in
    (let! used := o in or_panic (slice buf 0 used), c')) in
  on_world (device_send packet).

(** The session becomes established, and is watched. *)
Definition establish (id : u32) : M (Node World) SpdmStatus unit :=
  let* _ := on_session id (modify (with_session_state SpdmSessionEstablished)) in
  let* c := get_common in
  let* s := lift (ok_or (get_immutable_session_via_id id c) SPDM_STATUS_INVALID_STATE_LOCAL) in
  if hbeat c then on_world (modify (start_watchdog id (heartbeat_period s * 2))) else ret tt.
Definition set_connection_state (s : SpdmConnectionState) : M (Node World) SpdmStatus unit :=
  upd_common (upd_runtime (with_connection_state s)).
Definition raise_connection_state (s : SpdmConnectionState) : M (Node World) SpdmStatus unit :=
  let* c := get_common in
  if get_int (connection_state (runtime_info c)) <? get_int s then set_connection_state s else ret tt.

(** The transitions after a response with the code [opcode] was sent. *)
Definition after_send (session_id : option u32) (opcode : u8) : M (Node World) SpdmStatus unit :=
  let sent code := opcode =? get_int code in
  if sent SpdmResponseVersion then set_connection_state SpdmConnectionAfterVersion
  else if sent SpdmResponseCapabilities then set_connection_state SpdmConnectionAfterCapabilities
  else if sent SpdmResponseAlgorithms then set_connection_state SpdmConnectionNegotiated
  else if sent SpdmResponseDigests then raise_connection_state SpdmConnectionAfterDigest
  else if sent SpdmResponseCertificate then raise_connection_state SpdmConnectionAfterCertificate
  else if sent SpdmResponseChallengeAuth then set_connection_state SpdmConnectionAuthenticated
  else if sent SpdmResponseFinishRsp && bool_decide (session_id = None) then
    let* c := get_common in
    let* id := lift (ok_or (last_session_id (runtime_info c)) SPDM_STATUS_INVALID_STATE_LOCAL) in
    let* _ := establish id in
    upd_common (upd_runtime (with_last_session_id None))
  else if sent SpdmResponseEndSessionAck then
    let* id := lift (or_panic session_id) in
    on_session id (modify Session.teardown)
  else
    match session_id with
    | Some id => if sent SpdmResponseFinishRsp || sent SpdmResponsePskFinishRsp then establish id else ret tt
    | None => ret tt
    end.

Definition send_message (session_id : option u32) (send_buffer : list Z) (is_app_message : bool) :
    M (Node World) SpdmStatus unit :=
  let* send_buffer := bounded_response session_id send_buffer is_app_message in
  let* _ := transmit session_id send_buffer is_app_message in
  let* opcode := lift (or_panic (znth send_buffer 1)) in
  after_send session_id opcode.

(** ** Receiving *)
(** [2 << exponent] on a 64-bit word *)
Definition receive_timeout {E} (c : SpdmContext) (crypto_request : bool) : outcome E usize :=
  if crypto_request then
    let e := req_ct_exponent_sel (negotiate_info c) in
    if e <? 64 then Ok (wrap 64 (Z.shiftl 2 e)) else Panic
  else Ok ST1.
Definition receive_message (crypto_request : bool) : M (Node World) usize (list Z * bool) :=
  let* c := get_common in
  let* timeout := lift (receive_timeout c crypto_request) in
  let* packet := on_world (device_receive timeout) in
  let '(o, transport_buffer) := decap packet (zeros RECEIVER_BUFFER_SIZE) in
  let* (used, secured_message) := lift (map_err (λ _, len packet) o) in
  let* bs := lift (or_panic (slice transport_buffer 0 used)) in
  ret (bs, secured_message).

(** The plain text of a record of a session. *)
Definition open_record (bytes : list Z) : M (Node World) usize (u32 * list Z * bool) :=
  let used := len bytes in
  let* id := lift (map_err (λ _, used) (fst (read (A:=u32) (Reader.init bytes)))) in
  let* c := get_common in
  let* (i, s) := lift (ok_or (get_session_via_id id c) used) in
  let '(o, (s', app_buffer)) := Secured.decode_spdm_secured_message bytes true (s, zeros RECEIVER_BUFFER_SIZE) in
  let* _ := upd_common (with_session (<[i := s']> (session c))) in
  let* decode_size := lift (map_err (λ _, used) o) in
  let* app := lift (or_panic (slice app_buffer 0 decode_size)) in
  let '(o, spdm_buffer) := decap_app app (zeros SPDM_DATA_TRANSFER_SIZE) in
  let* (decode_size, is_app_message) := lift (map_err (λ _, used) o) in
  let* plain := lift (or_panic (slice spdm_buffer 0 decode_size)) in
  ret (id, plain, is_app_message).

(** The reply is sent, if there is one; a failure to send takes the place of
    the status. *)
Definition send_reply (session_id : option u32) (is_app_message : bool) (r : Reply) :
    M (Node World) usize (SpdmResult unit) :=
  match snd r with
  | Some send_buffer =>
      λ n, match send_message session_id send_buffer is_app_message n with
           | (Ok _, n') => (Ok (fst r), n')
           | (Err e, n') => (Ok (Err e), n')
           | (Panic, n') => (Panic, n')
           end
  | None => ret (fst r)
  end.

(** A handler cannot fail but through its reply. *)
Definition run_handler (m : M (Node World) Empty_set Reply) : M (Node World) usize Reply :=
  map_errM (λ e : Empty_set, match e with end) m.
Definition fresh_writer : M (Node World) usize unit :=
  on_writer (λ _, (Ok tt, Writer.init (zeros MAX_SPDM_MSG_SIZE))).
Definition process_message (crypto_request : bool) (app_handle : usize) :
    M (Node World) usize (SpdmResult unit) :=
  let* _ := fresh_writer in
  let* (bytes, secured_message) := receive_message crypto_request in
  if (secured_message : bool) then
    let* (id, plain, is_app_message) := open_record bytes in
    let* c := get_common in
    let* _ := if hbeat c then on_world (modify (reset_watchdog id)) else ret tt in
    if (is_app_message : bool) then
      let* r := run_handler (dispatch_secured_app_message_cb id plain app_handle) in
      send_reply (Some id) true r
    else
      let* r := run_handler (dispatch_secured_message id plain) in
      send_reply (Some id) false r
  else
    let* r := run_handler (dispatch_message bytes) in
    send_reply None false r.
End Dispatch.
End Responder.
