(* ===== verification/ServedChain.v ===== *)
(** * The certificate chains of the responder

    About [construct_my_cert_chain] of src/spdmlib/src/common/mod.rs, modelled
    in RspNegotiate.v.  Proved: a chain that is served is its length, the hash
    of its root certificate and the provisioned certificates; whatever is
    provisioned, building the chains does not panic. *)

From S2P Require Import Prelude Codec Status Bitflags Algo DataTypes Crypto ManagedBuffer CertChain Header ContextData Context.
From S2P Require Import Transcript CertOp RspLib RspLaws RspNegotiate.
Import Context Transcript RspNegotiate.

Module ServedChain.
Record provision_ok (p : SpdmProvisionInfo) : Prop := {
  chains_len : len (my_cert_chain p) = SPDM_MAX_SLOT_NUMBER;
  chains_data_len : len (my_cert_chain_data p) = SPDM_MAX_SLOT_NUMBER;
  chains_wf : Forall (from_option ccb_wf True) (my_cert_chain p);
  chains_data_wf : Forall (from_option ccd_wf True) (my_cert_chain_data p);
}.

(** The chain of a peer: length, hash of the root, certificates. *)
Definition served_bytes (hash chain : list Z) : list Z :=
  le_bytes 4 (4 + len hash + len chain) ++ hash ++ chain.
Lemma len_served_bytes hash chain : len (served_bytes hash chain) = 4 + len hash + len chain.
Proof. unfold served_bytes. rewrite !len_app, len_le_bytes. lia. Qed.
Lemma served_bytes_wf hash chain : bytes_wf hash → bytes_wf chain → bytes_wf (served_bytes hash chain).
Proof. intros. unfold served_bytes. repeat (apply bytes_wf_app; split); auto with wfb. Qed.

Section Chains.
Context `{CryptoOk}.
(** What a chain in a slot was built from. *)
Definition served_from (h : SpdmBaseHashAlgo) (d : SpdmCertChainData) (b : SpdmCertChainBuffer) : Prop :=
  ∃ first last root_hash,
    get_cert_from_cert_chain (ccd_content d) 0 = Ok (first, last) ∧
    hash_all h (ztake (last - first) (zdrop first (ccd_data d))) = Ok root_hash ∧
    ccb_wf b ∧ ccb_content b = served_bytes (content root_hash) (ccd_content d).

Lemma lay_out (h : SpdmDigestStruct) chain :
  sens_wf h → data_size h ≤ SPDM_MAX_HASH_SIZE → len chain ≤ MAX_SPDM_CERT_CHAIN_DATA_SIZE →
  let size := 4 + data_size h + len chain in
  (let! hash := sens_as_ref (E:=SpdmStatus) h in
   let data := splice (zeros MAX_CERT_CHAIN_BUFFER_SIZE) 0 (le_bytes 4 size) in
   let! data := or_panic (copy_from_slice data 4 (4 + data_size h) hash) in
   let! data := or_panic (copy_from_slice data (4 + data_size h) size chain) in
   Ok (mkCertChainBuffer size data)) = Ok (ccb_of (served_bytes (content h) chain)).
Proof.
  intros Hh Hs Hc size. rewrite sens_as_ref_ok by done. cbn [obind]. cbv zeta.
  pose proof (len_content h Hh) as Hl. pose proof (len_nonneg chain). pose proof (len_nonneg (content h)).
  assert (len (zeros MAX_CERT_CHAIN_BUFFER_SIZE) = 4164) as Hz by done.
  change SPDM_MAX_HASH_SIZE with 64 in Hs. change MAX_SPDM_CERT_CHAIN_DATA_SIZE with 4096 in Hc.
  assert (len (le_bytes 4 size) = 4) as Hd by done. unfold ccb_of, served_bytes.
  rewrite Hl. fold size. assert (size = 4 + data_size h + len chain) as Hsz by done. clearbody size.
  rewrite copy_from_slice_spec by (rewrite ?len_splice; lia). cbn [or_panic obind].
  assert (∀ (l u v : list Z) k, k = len u → len u + len v ≤ len l → splice (splice l 0 u) k v = splice l 0 (u ++ v))
    as splice_at by (intros l u v k ->; apply splice_app).
  rewrite splice_at by lia.
  rewrite copy_from_slice_spec by (rewrite ?len_splice; rewrite ?len_app; lia). cbn [or_panic obind].
  rewrite splice_at by (rewrite ?len_app; lia).
  rewrite splice_zeros, <- !app_assoc.
  assert (len (le_bytes 4 size ++ content h ++ chain) = size) as -> by (rewrite !len_app; lia). by rewrite <- ?app_assoc.
Qed.

Lemma my_chain_spec h d :
  wf h → ccd_wf d → my_chain h d ≠ Panic ∧ ∀ b, my_chain h d = Ok b → served_from h d b.
Proof.
  intros Hh (Hs & Hl & Hb). unfold my_chain. rewrite slice_spec by lia. rewrite zdrop_0, Z.sub_0_r. fold (ccd_content d).
  cbn [or_panic obind]. assert (bytes_wf (ccd_content d)) as Hbc by (unfold ccd_content; auto with wfb).
  assert (len (ccd_content d) = ccd_size d) as Hlc by (unfold ccd_content; rewrite len_ztake; lia).
  destruct (get_cert_safe (ccd_content d) 0 Hbc) as [Hp Hok].
  destruct (get_cert_from_cert_chain (ccd_content d) 0) as [[a z]|e|] eqn:Hg; [|done|done].
  destruct (Hok a z eq_refl) as [Ha Hz]. cbn [obind fst snd]. rewrite slice_spec by lia. cbn [or_panic obind].
  set (root := ztake _ _). destruct (is_valid_one_select h) eqn:Hv.
  2: { rewrite hash_all_unsupported; [done|]. intros [_ Hv']. by rewrite Hv' in Hv. }
  destruct (hash_all_ok h root (conj Hh Hv)) as (m & Hm & Hw & Hsz). rewrite Hm. cbn [map_err obind].
  pose proof (hash_size_bound h (conj Hh Hv)). change MAX_SPDM_CERT_CHAIN_DATA_SIZE with 4096 in *.
  change SPDM_MAX_HASH_SIZE with 64 in *. unfold add_checked.
  replace (4 + data_size m + ccd_size d <? 2 ^ 32) with true by lia. cbn [obind]. rewrite <- Hlc.
  rewrite lay_out by (done || (change SPDM_MAX_HASH_SIZE with 64; change MAX_SPDM_CERT_CHAIN_DATA_SIZE with 4096; lia)).
  split; [done|]. intros b [= <-]. exists a, z, m. split_and!; [done|done| |apply ccb_content_of].
  apply ccb_of_wf; [|apply served_bytes_wf; [apply Hw|done]]. rewrite len_served_bytes, (len_content m Hw).
  change MAX_CERT_CHAIN_BUFFER_SIZE with 4164. lia.
Qed.

(** *** All slots *)
Definition slot_built (h : SpdmBaseHashAlgo) (d : option SpdmCertChainData) (o o' : option SpdmCertChainBuffer) : Prop :=
  o' = o ∨ (o = None ∧ ∃ data b, d = Some data ∧ o' = Some b ∧ served_from h data b).
(** The chains [l] after the call: those of [p], and some slots built. *)
Record built (h : SpdmBaseHashAlgo) (p : SpdmProvisionInfo) (l : list (option SpdmCertChainBuffer)) : Prop := {
  built_len : len l = SPDM_MAX_SLOT_NUMBER;
  built_slots : ∀ i d o o', my_cert_chain_data p !! i = Some d → my_cert_chain p !! i = Some o →
    l !! i = Some o' → slot_built h d o o';
}.
(** A slot with certificates has its chain. *)
Definition filled (p : SpdmProvisionInfo) (l : list (option SpdmCertChainBuffer)) (i : nat) : Prop :=
  ∀ d, my_cert_chain_data p !! i = Some (Some d) → ∃ b, l !! i = Some (Some b).

Lemma built_refl h p : provision_ok p → built h p (my_cert_chain p).
Proof. intros [Hl _ _ _]. split; [done|]. intros i d o o' _ Ho Ho'. left. congruence. Qed.
Lemma built_trans h p l l' :
  provision_ok p → built h p l → built h (with_my_cert_chain l p) l' → built h p l'.
Proof.
  intros [Hl _ _ _] [Hl1 H1] [Hl2 H2]. split; [done|]. intros i d o o' Hd Ho Ho'.
  destruct (lookup_lt_is_Some_2 l i) as [m Hm].
  { apply lookup_lt_Some in Ho. unfold len in *. lia. }
  destruct (H1 i d o m Hd Ho Hm) as [->|(-> & data & b & -> & -> & Hs)]; [by eapply H2|].
  destruct (H2 i (Some data) (Some b) o' Hd Hm Ho') as [->|[? _]]; [|done]. right. by eauto 10.
Qed.
Lemma built_ok h p l : provision_ok p → built h p l → provision_ok (with_my_cert_chain l p).
Proof.
  intros [Hl Hdl Hc Hd] [Hl' Hb]. split; [done..| |done]. cbn. apply Forall_lookup. intros i o' Ho'.
  pose proof (lookup_lt_Some _ _ _ Ho') as Hlt.
  destruct (lookup_lt_is_Some_2 (my_cert_chain p) i) as [o Ho]; [unfold len in *; lia|].
  destruct (lookup_lt_is_Some_2 (my_cert_chain_data p) i) as [d Hi]; [unfold len in *; lia|].
  destruct (Hb i d o o' Hi Ho Ho') as [->|(_ & data & b & _ & -> & ? & ? & ? & _ & _ & Hw & _)]; [|done].
  by eapply (Forall_lookup_1 _ _ i o Hc).
Qed.
Lemma built_filled h p l i : provision_ok p → filled p (my_cert_chain p) i → built h p l → filled p l i.
Proof.
  intros [Hl _ _ _] Hf [Hl' Hb] d Hd. destruct (Hf d Hd) as [b Ho].
  destruct (lookup_lt_is_Some_2 l i) as [o' Ho']; [apply lookup_lt_Some in Ho; unfold len in *; lia|].
  destruct (Hb i _ _ _ Hd Ho Ho') as [->|[? _]]; [by eexists|done].
Qed.
Lemma built_one h p i d b :
  provision_ok p → my_cert_chain p !! i = Some None → my_cert_chain_data p !! i = Some (Some d) →
  served_from h d b → built h p (<[i := Some b]> (my_cert_chain p)).
Proof.
  intros [Hl _ _ _] Hn Hd Hs. split; [by rewrite len_insert|]. intros j d' o o' Hd' Ho Ho'.
  destruct (decide (i = j)) as [<-|Hne].
  - rewrite list_lookup_insert_eq in Ho' by (by eapply lookup_lt_Some). right.
    split; [congruence|]. exists d, b. split_and!; congruence || done.
  - rewrite list_lookup_insert_ne in Ho' by done. left. congruence.
Qed.

Lemma wp_construct_slots h ids Q R : wf h → Forall (λ i, 0 ≤ i < SPDM_MAX_SLOT_NUMBER) ids → ∀ c,
  provision_ok (provision_info c) →
  (∀ l, built h (provision_info c) l → Forall (λ i, filled (provision_info c) l (Z.to_nat i)) ids →
     Q tt (with_provision_info (with_my_cert_chain l (provision_info c)) c)) →
  (∀ e l, built h (provision_info c) l → R e (with_provision_info (with_my_cert_chain l (provision_info c)) c)) →
  wp (construct_slots h ids) Q R c.
Proof.
  intros Hh Hids. induction Hids as [|i ids Hi _ IH]; intros c Hp HQ HR; cbn [construct_slots]; set (p := provision_info c) in *;
    assert (with_provision_info (with_my_cert_chain (my_cert_chain p) p) c = c) as Hid
      by (subst p; by destruct c as [? ? ? [] ? ?]).
  - rewrite wp_ret. rewrite <- Hid. apply HQ; [by apply built_refl|constructor].
  - pose proof Hp as [Hl Hdl _ Hdw]. rewrite wp_bind, wp_get.
    destruct (znth_some (my_cert_chain p) i) as [o Ho]; [lia|].
    destruct (znth_some (my_cert_chain_data p) i) as [d Hd]; [lia|].
    assert (my_cert_chain p !! Z.to_nat i = Some o) as Ho' by (by rewrite <- znth_lookup by lia).
    assert (my_cert_chain_data p !! Z.to_nat i = Some d) as Hd' by (by rewrite <- znth_lookup by lia).
    unfold slot. rewrite wp_bind, wp_lift. fold p. rewrite Ho. cbn [or_panic]. rewrite wp_bind, wp_lift, Hd.
    cbn [or_panic]. rewrite wp_bind.
    assert (filled p (my_cert_chain p) (Z.to_nat i) → wp (construct_slots h ids) Q R c) as Hskip.
    { intros Hf. apply IH; [done| |done]. intros l Hb Hfs. apply HQ; [done|]. constructor; [by eapply built_filled|done]. }
    destruct o as [b|].
    { rewrite wp_ret. apply Hskip. by intros d' _; exists b. }
    destruct d as [d|]; [|rewrite wp_ret; apply Hskip; intros d'; rewrite Hd'; done].
    assert (ccd_wf d) as Hdd by (by apply (Forall_lookup_1 _ _ _ _ Hdw Hd')).
    destruct (my_chain_spec h d Hh Hdd) as [Hnp Hok]. rewrite wp_bind, wp_lift.
    destruct (my_chain h d) as [b|e|]; [|rewrite <- Hid; by apply HR, built_refl|done].
    pose proof (built_one h p _ d b Hp Ho' Hd' (Hok b eq_refl)) as Hb.
    rewrite wp_bind, wp_lift, zset_insert by lia. cbn [or_panic]. rewrite wp_modify.
    set (l := <[_ := _]> _) in *. apply IH; [by apply built_ok with h| |].
    + intros l' Hb' Hfs. apply HQ; [by eapply built_trans|]. constructor; [|done].
      eapply (built_filled h (with_my_cert_chain l p)); [by apply built_ok with h| |done].
      intros d' _. exists b. subst l. apply list_lookup_insert_eq. by eapply lookup_lt_Some.
    + intros e l' Hb'. by apply HR, (built_trans h p l).
Qed.
Lemma wp_construct_my_cert_chain c Q R :
  wf (base_hash_sel (negotiate_info c)) → provision_ok (provision_info c) →
  (∀ l, built (base_hash_sel (negotiate_info c)) (provision_info c) l → (∀ i, filled (provision_info c) l i) →
     Q tt (with_provision_info (with_my_cert_chain l (provision_info c)) c)) →
  (∀ e l, built (base_hash_sel (negotiate_info c)) (provision_info c) l →
     R e (with_provision_info (with_my_cert_chain l (provision_info c)) c)) →
  wp construct_my_cert_chain Q R c.
Proof.
  intros Hh Hp HQ HR. unfold construct_my_cert_chain. rewrite wp_bind, wp_get.
  apply wp_construct_slots; [done|by apply Forall_seqZ; lia|done| |done].
  intros l Hb Hf. apply HQ; [done|]. intros i d Hd. destruct Hp as [_ Hl _ _].
  pose proof (lookup_lt_Some _ _ _ Hd) as Hlt. unfold len in Hl. rewrite Forall_seqZ in Hf.
  specialize (Hf (Z.of_nat i) ltac:(lia)). rewrite Nat2Z.id in Hf. exact (Hf d Hd).
Qed.
End Chains.
End ServedChain.
