(* ===== verification/Negotiation.v ===== *)
(** * Properties of the negotiation

    About the handlers of RspNegotiate.v.  Proved: the handlers of GET_VERSION
    and GET_CAPABILITIES are safe on every request, keep the context well
    formed, and add the request and the response to message A; the first
    starts over. *)

From S2P Require Import Prelude Codec Status Bitflags Algo DataTypes Structs Version Crypto HashCtx ManagedBuffer.
From S2P Require Import CertChain Session Header ContextData Transport Context Transcript CertOp SpdmCodec.
From S2P Require Import MsgLib MsgNegotiate MsgMisc Message Platform RspLib RspLaws RspNegotiate ServedChain.
Import Context Transcript RspNegotiate ServedChain.

Module Negotiation.

(** ** The configuration *)
Definition own_versions (cfg : SpdmConfigInfo) : list SpdmVersion := omap id (cfg_spdm_version cfg).
Record config_ok (cfg : SpdmConfigInfo) : Prop := {
  cfg_versions_ok : NoDup (own_versions cfg) ∧ own_versions cfg ≠ [];
  cfg_caps_ok : wf (cfg_rsp_capabilities cfg) ∧ in_width 8 (cfg_rsp_ct_exponent cfg) ∧
    in_width 32 (cfg_data_transfer_size cfg) ∧ in_width 32 (cfg_max_spdm_msg_size cfg);
  cfg_measurement_ok : wf (cfg_measurement_specification cfg) ∧ wf (cfg_measurement_hash_algo cfg) ∧
    wf (cfg_mel_specification cfg) ∧ wf (cfg_other_params_support cfg);
  cfg_asym_ok : wf (cfg_base_hash_algo cfg) ∧ wf (cfg_base_asym_algo cfg) ∧ wf (cfg_pqc_asym_algo cfg) ∧
    wf (cfg_req_asym_algo cfg) ∧ wf (cfg_pqc_req_asym_algo cfg);
  cfg_session_ok : wf (cfg_dhe_algo cfg) ∧ wf (cfg_kem_algo cfg) ∧ wf (cfg_aead_algo cfg) ∧
    wf (cfg_key_schedule_algo cfg);
}.
(** What else is kept: a property of the context that the operations of the
    negotiation respect. *)
Class Stage := {
  stage : SpdmContext → Prop;
  stage_negotiate : ∀ i c, stage c → stage (with_negotiate_info i c);
  stage_a : ∀ b c, stage c → stage (upd_runtime (with_message_a b) c);
  stage_chains : ∀ l c, stage c → stage (with_provision_info (with_my_cert_chain l (provision_info c)) c);
  stage_reset_buffer : ∀ code id c, stage c → stage (reset_buffer_via_request_code code id c);
  stage_reset : ∀ c, stage c → stage (reset_context c);
}.
(** What every handler of the negotiation keeps. *)
Record base_ok `{Stage} (c : SpdmContext) : Prop := {
  base_a : mb_wf (message_a (runtime_info c));
  base_config : config_ok (config_info c);
  base_provision : provision_ok (provision_info c);
  base_negotiate : wf (negotiate_info c);
  base_stage : stage c;
}.

(** ** Frames *)
(** [c'] differs from [c] in transcripts and sessions only. *)
Record frame (c c' : SpdmContext) : Prop := {
  frame_config : config_info c' = config_info c;
  frame_negotiate : negotiate_info c' = negotiate_info c;
  frame_provision : provision_info c' = provision_info c;
  frame_a : message_a (runtime_info c') = message_a (runtime_info c);
  frame_state : connection_state (runtime_info c') = connection_state (runtime_info c);
  frame_last : last_session_id (runtime_info c') = last_session_id (runtime_info c);
}.
Lemma frame_base `{Stage} c c' : frame c c' → stage c' → base_ok c → base_ok c'.
Proof. intros [H1 H2 H3 H4 _ _] Hs [? ? ? ? ?]. split; by rewrite ?H1, ?H2, ?H3, ?H4. Qed.
Lemma with_session_frame {A} id (missing : SpdmResult A) m c : frame c (snd (with_session_via_id id missing m c)).
Proof. unfold with_session_via_id. destruct (get_session_via_id id c) as [[i s]|]; [|done]. by destruct (m s). Qed.
Lemma reset_buffer_frame code id c : frame c (reset_buffer_via_request_code code id c).
Proof.
  assert (frame c (reset_message_m id c)) as Hm.
  { destruct id as [id|]; [|done]. apply with_session_frame. }
  unfold reset_buffer_via_request_code. case_decide; (destruct code; try done);
    cbv zeta; repeat case_match; try done; (split; try apply Hm).
Qed.

(** ** GET_VERSION *)
Lemma list_versions_run vs : ∀ done,
  len done + len vs ≤ MAX_SPDM_VERSION_COUNT →
  list_versions vs (len done) (version_array done) =
  Ok (len done + len vs, version_array (done ++ (mkVersionStruct 0 <$> vs))).
Proof.
  induction vs as [|v vs IH]; intros d Hl; cbn [list_versions].
  - by rewrite Z.add_0_r, app_nil_r.
  - rewrite len_cons in Hl. pose proof (len_nonneg d). pose proof (len_nonneg vs).
    assert (zset (version_array d) (len d) (mkVersionStruct 0 v) = Some (version_array (d ++ [mkVersionStruct 0 v])))
      as ->.
    { apply zset_front. lia. }
    cbn [or_panic obind]. replace (len d + 1) with (len (d ++ [mkVersionStruct 0 v])) by (rewrite len_app; done).
    rewrite IH by (rewrite len_app, len_cons, len_nil; lia). rewrite len_app, !len_cons, len_nil, <- app_assoc.
    do 2 f_equal. lia.
Qed.
Lemma list_versions_ok cfg :
  config_ok cfg →
  list_versions (own_versions cfg) 0 (version_array []) =
  Ok (len (own_versions cfg), version_array (mkVersionStruct 0 <$> own_versions cfg)) ∧
  versions_wf 1 (mkVersionResponse (wrap 8 (len (own_versions cfg)))
                   (version_array (mkVersionStruct 0 <$> own_versions cfg))).
Proof.
  intros [[Hd Hne] _ _ _ _]. set (vs := own_versions cfg) in *.
  assert (distinct_versions (mkVersionStruct 0 <$> vs)) as Hdv
    by (unfold distinct_versions; rewrite <- list_fmap_compose; by rewrite list_fmap_id).
  pose proof (distinct_versions_len _ Hdv) as Hl. rewrite len_map in Hl. pose proof (len_nonneg vs).
  pose proof (list_versions_run vs [] ltac:(change (len []) with 0; lia)) as Hr.
  change (len []) with 0 in Hr. split; [exact Hr|].
  rewrite wrap_small by (unfold in_width, MAX_SPDM_VERSION_COUNT in *; lia). split; cbn.
  - destruct vs; [done|]. rewrite len_cons. pose proof (len_nonneg vs). lia.
  - exists (mkVersionStruct 0 <$> vs). rewrite len_map. split_and!; [done..|].
    apply Forall_fmap, Forall_true. intros v. by unfold compose.
Qed.

(** An exchange of message A: the response in the buffer, and the request and
    the response after what was logged before. *)
Record exchanged {W} (before bs rsp : list Z) (n : Node W) : Prop := {
  ex_written : written (writer n) rsp;
  ex_bytes : bytes_wf rsp ∧ 2 ≤ len rsp;
  ex_a : ∃ k, 0 ≤ k ≤ len bs ∧ mb_content (message_a (runtime_info (common n))) = before ++ ztake k bs ++ rsp;
}.

(** ** Responses the handlers build *)
Lemma capabilities_writes c v :
  in_width 8 (cap_ct_exponent v) → wf (cap_ex_flags v) → wf (cap_flags v) →
  in_width 32 (cap_data_transfer_size v) → in_width 32 (cap_max_spdm_msg_size v) →
  response_writes c SpdmResponseCapabilities (SpdmCapabilitiesResponse v).
Proof.
  intros H1 H2 H3 H4 H5. split; [done|]. cbn [encode_payload payload_bytes].
  pose proof (when_wf_refl (ver_ge c SpdmVersion14) _ H2).
  pose proof (when_wf_refl (A:=u32) (ver_ge c SpdmVersion12) _ H4).
  pose proof (when_wf_refl (A:=u32) (ver_ge c SpdmVersion12) _ H5).
  split.
  - unfold spdm_encode, spdm_codec_capabilities, sbytes, spdm_codec_ok_capabilities. cbv zeta. msg_encodes.
  - unfold sbytes, spdm_codec_ok_capabilities. cbv zeta. msg_bytes.
Qed.

(** What [selected_algs] lists. *)
Definition put_if {A} (b : bool) (x : A) : list A := if b then [x] else [].
Definition chosen_algs (n : SpdmNegotiateInfo) : list SpdmAlgStruct :=
  let v14 := version_leb SpdmVersion14 (spdm_version_sel n) in
  put_if (is_valid (dhe_sel n)) (mkAlgStruct SpdmAlgTypeDHE (SpdmAlgoDhe (dhe_sel n))) ++
  put_if (is_valid (aead_sel n)) (mkAlgStruct SpdmAlgTypeAEAD (SpdmAlgoAead (aead_sel n))) ++
  put_if (is_valid (req_asym_sel n)) (mkAlgStruct SpdmAlgTypeReqAsym (SpdmAlgoReqAsym (req_asym_sel n))) ++
  put_if (is_valid (key_schedule_sel n))
    (mkAlgStruct SpdmAlgTypeKeySchedule (SpdmAlgoKeySchedule (key_schedule_sel n))) ++
  put_if (v14 && is_valid (pqc_req_asym_sel n))
    (mkAlgStruct SpdmAlgTypePqcReqAsym (SpdmAlgoPqcReqAsym (pqc_req_asym_sel n))) ++
  put_if (v14 && is_valid (kem_sel n)) (mkAlgStruct SpdmAlgTypeKEM (SpdmAlgoKem (kem_sel n))).
Definition alg_array (vs : list SpdmAlgStruct) : list SpdmAlgStruct :=
  vs ++ replicate (Z.to_nat (MAX_SUPPORTED_ALG_STRUCTURE_COUNT - len vs)) SpdmAlgStruct_default.
Lemma len_put_if {A} b (x : A) : 0 ≤ len (put_if b x) ≤ 1.
Proof. destruct b; unfold len; cbn; lia. Qed.
Lemma put_alg_run {E} b t a vs :
  len vs < MAX_SUPPORTED_ALG_STRUCTURE_COUNT →
  put_alg (E:=E) b t a (len vs, alg_array vs) =
  Ok (len (vs ++ put_if b (mkAlgStruct t a)), alg_array (vs ++ put_if b (mkAlgStruct t a))).
Proof.
  intros Hl. unfold put_alg. cbn [fst snd]. destruct b; cbn [put_if]; [|by rewrite !app_nil_r].
  unfold alg_array at 1. rewrite zset_front by done. cbn [or_panic obind].
  assert (len vs + 1 = len (vs ++ [mkAlgStruct t a])) as -> by (by rewrite len_app). done.
Qed.
Lemma len_chosen_algs n : 0 ≤ len (chosen_algs n) ≤ MAX_SUPPORTED_ALG_STRUCTURE_COUNT.
Proof.
  unfold chosen_algs. cbv zeta. rewrite !len_app. unfold MAX_SUPPORTED_ALG_STRUCTURE_COUNT.
  repeat match goal with |- context [len (put_if ?b ?x)] => generalize (len_put_if b x); generalize (len (put_if b x)); intros end.
  lia.
Qed.
Ltac put_step := rewrite put_alg_run by (rewrite ?len_app, ?len_nil; unfold MAX_SUPPORTED_ALG_STRUCTURE_COUNT;
    repeat match goal with |- context [len (put_if ?b ?x)] => generalize (len_put_if b x); generalize (len (put_if b x)); intros end;
    lia); cbn [obind].
Lemma selected_algs_run n : selected_algs n = Ok (len (chosen_algs n), alg_array (chosen_algs n)).
Proof.
  unfold selected_algs, chosen_algs. cbv zeta.
  change (0, alg_struct_default) with (len ([] : list SpdmAlgStruct), alg_array []).
  do 6 put_step. by rewrite <- !app_assoc.
Qed.
Lemma chosen_algs_wf n : wf n → Forall alg_wf (chosen_algs n).
Proof.
  intros (?&?&?&?&?&?&?&?&?&?&?&?&?&?&?&?&?&?&?&?&?&?&?&?&?). unfold chosen_algs. cbv zeta.
  rewrite !Forall_app. split_and!; unfold put_if; case_match; (apply Forall_nil_2 || by apply Forall_singleton).
Qed.
Lemma algorithms_writes c v vs :
  wf (ar_measurement_specification_sel v) → wf (ar_other_params_selection v) → wf (ar_measurement_hash_algo v) →
  wf (ar_base_asym_sel v) → wf (ar_base_hash_sel v) → wf (ar_pqc_asym_sel v) → wf (ar_mel_specification_sel v) →
  ar_alg_struct_count v = len vs → len vs ≤ MAX_SUPPORTED_ALG_STRUCTURE_COUNT → ar_alg_struct v = alg_array vs →
  Forall alg_wf vs → response_writes c SpdmResponseAlgorithms (SpdmAlgorithmsResponse v).
Proof.
  intros H1 H2 H3 H4 H5 H6 H7 Hn Hl Ha Hw. split; [done|]. cbn [encode_payload payload_bytes].
  pose proof (len_nonneg vs).
  assert (when_wf (ver_ge c SpdmVersion11) wf (ar_alg_struct_count v : u8) (ar_alg_struct_count v)).
  { apply (when_wf_refl (A:=u8)). unfold MAX_SUPPORTED_ALG_STRUCTURE_COUNT in Hl. split; rewrite Hn; lia. }
  pose proof (when_wf_refl (ver_ge c SpdmVersion12) _ H2). pose proof (when_wf_refl (ver_ge c SpdmVersion14) _ H6).
  pose proof (when_wf_refl (ver_ge c SpdmVersion13) _ H7).
  assert (front (ar_alg_struct_count v) MAX_SUPPORTED_ALG_STRUCTURE_COUNT SpdmAlgStruct_default wf (ar_alg_struct v)) as Hf.
  { rewrite Hn, Ha. split; [lia|]. by exists vs. }
  split.
  - pose proof (encodes_when (ver_ge c SpdmVersion11) _ _
      (λ _, encodes_front enc bytes wf (λ a Ha, enc_writes a Ha) _ _ _ _ Hf)).
    unfold spdm_encode, spdm_codec_algorithms, sbytes, spdm_codec_ok_algorithms. cbv zeta.
    rewrite alg_length_ok by (by rewrite Hn). msg_encodes.
  - pose proof (when_bytes_wf (ver_ge c SpdmVersion11) _
      (λ _, front_bytes_wf bytes wf (λ a Ha, bytes_ok a Ha) _ _ _ _ Hf)).
    unfold sbytes, spdm_codec_ok_algorithms. cbv zeta. msg_bytes.
Qed.

(** A field of the negotiated parameters replaced by one in range. *)
Ltac neg_wf := let Hn := fresh in intros Hn;
  destruct Hn as (?&?&?&?&?&?&?&?&?&?&?&?&?&?&?&?&?&?&?&?&?&?&?&?&?);
  cbn -[wf]; split_and!; try assumption; try done.

Section Safety.
Context {W : Type} `{CryptoOk} `{Stage}.
Implicit Types n : Node W.

Lemma sound_reset code id n :
  sound base_ok n → sound base_ok (mkNode (reset_buffer_via_request_code code id (common n)) (writer n) (world n)).
Proof.
  intros [Hw Hb]. split; [done|]. eapply frame_base; [apply reset_buffer_frame|apply stage_reset_buffer, Hb|done].
Qed.
Lemma with_a_twice b b' c :
  upd_runtime (with_message_a b') (upd_runtime (with_message_a b) c) = upd_runtime (with_message_a b') c.
Proof. done. Qed.
Lemma base_with_a c b : base_ok c → mb_wf b → base_ok (upd_runtime (with_message_a b) c).
Proof. intros [? ? ? ? ?] Hb. split; [done..|by apply stage_a]. Qed.

Lemma base_negotiated i c : base_ok c → wf i → base_ok (with_negotiate_info i c).
Proof. intros [? ? ? ? ?] Hi. split; [done..|exact Hi|by apply stage_negotiate]. Qed.
(** The response and its log, the end of the three handlers. *)
Lemma hsafe_log_response {A} `{SpdmCodec A} before bs k c (a : A) out (Q : unit → Node W → Prop) n :
  sound base_ok n → fresh n → 0 ≤ k ≤ len bs →
  mb_content (message_a (runtime_info (common n))) = before ++ ztake k bs →
  encodes SPDM_STATUS_BUFFER_FULL (spdm_encode c a) out → bytes_wf out → 2 ≤ len out →
  (∀ b w, mb_wf b → let n' := mkNode (upd_runtime (with_message_a b) (common n)) w (world n) in
     sound base_ok n' → exchanged before bs out n' → Q tt n') →
  hsafe base_ok (let* _ := try_local (on_writer (spdm_encode c a)) in
                 let* rsp := used_slice in try_local (on_common (append_message_a rsp))) Q n.
Proof.
  intros [Hw Hb] Hf Hk Ha He Hout Hl HQ. apply hsafe_bind, hsafe_try; [by split|].
  eapply wp_encode; [done..| |].
  - intros Hfit. destruct (responds_ok n out Hw Hout Hfit) as [Hw' Hs].
    apply hsafe_bind. eapply wp_used_slice; [done|]. apply hsafe_try; [by split|].
    apply wp_on_common. eapply wp_append_a; [apply Hb|done| |by split].
    intros b Hbw Hbc. apply HQ; [done|split; [done|by apply base_with_a]|].
    split; [done..|]. exists k. cbn. rewrite Hbc. cbn [common responds]. by rewrite Ha, <- app_assoc.
  - intros w Hww. by split.
Qed.

Lemma hsafe_log_send before bs k code p (Q : unit → Node W → Prop) n :
  sound base_ok n → fresh n → 0 ≤ k ≤ len bs →
  mb_content (message_a (runtime_info (common n))) = before ++ ztake k bs →
  response_writes (common n) code p →
  (∀ b w, mb_wf b → let n' := mkNode (upd_runtime (with_message_a b) (common n)) w (world n) in
     sound base_ok n' → exchanged before bs (response_bytes (common n) code p) n' → Q tt n') →
  hsafe base_ok (let* _ := try_local (send_response code p) in
                 let* rsp := used_slice in try_local (on_common (append_message_a rsp))) Q n.
Proof.
  intros Hn Hf Hk Ha Hp HQ. destruct (response_encodes _ _ _ Hp) as [He Hb].
  pose proof (hsafe_log_response before bs k (common n) _ _ Q n Hn Hf Hk Ha He Hb (response_len _ _ _) HQ) as Hs.
  unfold hsafe, try_local, try_or, send_response in *. rewrite wp_bind, wp_or_else in Hs.
  rewrite wp_bind, wp_or_else, wp_bind, wp_get_common. exact Hs.
Qed.

(** The request, logged before the handler goes on. *)
Lemma hsafe_log_request {A} bs r (m : handler W A) (Q : A → Node W → Prop) n :
  sound base_ok n → reader_wf r → r_buf r = bs → bytes_wf bs →
  (∀ b, mb_wf b →
     mb_content b = mb_content (message_a (runtime_info (common n))) ++ ztake (r_offs r) bs →
     0 ≤ r_offs r ≤ len bs →
     let n' := mkNode (upd_runtime (with_message_a b) (common n)) (writer n) (world n) in
     sound base_ok n' → hsafe base_ok m Q n') →
  hsafe base_ok (let* req := used_bytes bs r in let* _ := try_local (on_common (append_message_a req)) in m) Q n.
Proof.
  intros [Hw Hb] Hr Hbuf Hbs HQ. apply hsafe_bind. eapply hsafe_used_bytes; [done..|].
  assert (0 ≤ r_offs r ≤ len bs) as Hk by (destruct Hr as [Hk _]; by rewrite Hbuf in Hk).
  apply hsafe_bind, hsafe_try; [by split|]. apply wp_on_common.
  eapply wp_append_a; [apply Hb|auto with wfb| |by split].
  intros b Hbw Hbc. apply HQ; [done..|]. split; [done|by apply base_with_a].
Qed.

Lemma version_safe bs (Q : unit → Node W → Prop) n :
  sound base_ok n → fresh n → bytes_wf bs →
  (∀ b w rsp, let n' := mkNode (upd_runtime (with_message_a b)
                 (reset_context (reset_buffer_via_request_code SpdmRequestGetVersion None (common n)))) w (world n) in
     sound base_ok n' → exchanged [] bs rsp n' → Q tt n') →
  hsafe base_ok (write_spdm_version_response bs) Q n.
Proof.
  intros Hn Hf Hbs HQ. apply hsafe_bind, hsafe_check_header; [done..|]. intros h r _ Hv Hbuf Hr.
  apply hsafe_bind, hsafe_upd_common. pose proof (reset_buffer_frame SpdmRequestGetVersion None (common n)) as Hfr.
  set (c1 := reset_buffer_via_request_code _ _ _) in *. pose proof (sound_reset SpdmRequestGetVersion None n Hn) as Hn1. fold c1 in Hn1.
  apply hsafe_bind. eapply (hsafe_read_request base_ok SpdmGetVersionRequestPayload); [done..|].
  intros g r' _ Hbuf' _ Hr'. apply hsafe_bind, hsafe_upd_common. cbn [common writer world].
  assert (base_ok (reset_context c1)) as Hb2.
  { destruct Hn1 as [_ [? ? ? ? ?]]. split; [apply mb_default_wf|done|done|by vm_compute|by apply stage_reset]. }
  apply hsafe_log_request; [by split; [apply Hn|]|done|by rewrite Hbuf', Hbuf|done|].
  intros b Hbw Hbc Hk n1 Hs1. apply hsafe_bind, hsafe_get_common. subst n1. cbn [common writer world] in *.
  destruct (list_versions_ok (config_info c1)) as [Hl Hwf]; [by destruct Hn1 as [_ []]|].
  apply hsafe_bind. eapply hsafe_lift; [exact Hl|]. set (c2 := upd_runtime _ _). cbv beta iota zeta.
  set (m := mkMessage (mkMessageHeader _ _) _). assert (message_wf c2 m) as Hm by (split; [by split|exact Hwf]).
  eapply (hsafe_log_response [] bs (r_offs r') c2 m (message_bytes c2 m)).
  - split; [by destruct Hn|]. by apply base_with_a.
  - done.
  - done.
  - rewrite <- (app_nil_l (ztake _ _)). exact Hbc.
  - by apply message_encode_ok.
  - by apply message_bytes_ok.
  - unfold message_bytes. rewrite len_app. change (len (bytes (msg_header m))) with 2. pose proof (len_nonneg (payload_bytes c2 (msg_payload m))). lia.
  - intros b' w Hb' n'. apply HQ.
Qed.


(** *** GET_CAPABILITIES *)
Lemma select_version_safe bs (Q : Reader → Node W → Prop) n :
  sound base_ok n → bytes_wf bs →
  (∀ h r, read (Reader.init bs) = (Ok h, r) → r_buf r = bs → reader_wf r →
     Q r (mkNode (upd_negotiate (with_spdm_version_sel (version h)) (common n)) (writer n) (world n))) →
  hsafe base_ok (select_version bs) Q n.
Proof.
  intros Hn Hb HQ. unfold select_version.
  pose proof (read_safe (A:=SpdmMessageHeader) _ (reader_init_wf bs Hb)) as Hs.
  destruct (read (Reader.init bs)) as [[h|e|] r] eqn:Hr; destruct Hs as (Hp & Hbuf & Ho & _); [| |done].
  - apply hsafe_bind, hsafe_fail_if; [done|by split|]. intros _. apply hsafe_bind, hsafe_upd_common, hsafe_ret.
    eapply HQ; [done..|]. split; [rewrite Hbuf; cbn in *; lia|]. by rewrite Hbuf.
  - apply hsafe_fail; [done|by split].
Qed.
Lemma with_negotiate_sound n f :
  sound base_ok n → (wf (negotiate_info (common n)) → wf (f (negotiate_info (common n)))) →
  sound base_ok (mkNode (upd_negotiate f (common n)) (writer n) (world n)).
Proof. intros [Hw Hb] Hf. split; [done|]. apply base_negotiated; [done|]. apply Hf, Hb. Qed.

Lemma when_wf_elim {A} b (P : A → Prop) d a : when_wf b P d a → P d → P a.
Proof. destruct b; cbn; [done|]. by intros ->. Qed.
Lemma select_capabilities_ok g c :
  get_capabilities_wf c g → base_ok c → base_ok (select_capabilities g c).
Proof.
  intros (Hg1 & _ & Hg2 & _ & Hg3 & Hg4 & _) [Ha Hc Hp Hn Hs].
  pose proof (when_wf_elim _ _ _ _ Hg1 ltac:(done)). pose proof (when_wf_elim _ _ _ _ Hg2 ltac:(by vm_compute)).
  pose proof (when_wf_elim _ _ _ _ Hg3 ltac:(done)). pose proof (when_wf_elim _ _ _ _ Hg4 ltac:(done)).
  pose proof Hc as [_ (? & ? & ? & ?) _ _ _].
  unfold select_capabilities. cbv zeta. case_match; (split; [done..| |by repeat apply stage_negotiate]); revert Hn; neg_wf.
Qed.
Lemma select_capabilities_a g c :
  message_a (runtime_info (select_capabilities g c)) = message_a (runtime_info c) ∧
  config_info (select_capabilities g c) = config_info c.
Proof. unfold select_capabilities. by case_match. Qed.

Lemma capability_safe bs (Q : unit → Node W → Prop) n :
  sound base_ok n → fresh n → bytes_wf bs →
  (∀ h r g c1 b w rsp, read (Reader.init bs) = (Ok h, r) →
     connection_state (runtime_info (common n)) = SpdmConnectionAfterVersion →
     frame (upd_negotiate (with_spdm_version_sel (version h)) (common n)) c1 → get_capabilities_wf c1 g →
     let n' := mkNode (upd_runtime (with_message_a b) (select_capabilities g c1)) w (world n) in
     sound base_ok n' → exchanged (mb_content (message_a (runtime_info (common n)))) bs rsp n' → Q tt n') →
  hsafe base_ok (write_spdm_capability_response bs) Q n.
Proof.
  intros Hn Hf Hbs HQ. apply hsafe_bind, hsafe_get_common, hsafe_bind, hsafe_fail_if; [done|by split|].
  intros Hst%bool_decide_eq_false%dec_stable. apply hsafe_bind, select_version_safe; [done..|]. intros h r Hh Hbuf Hr.
  specialize (HQ h r). assert (sound base_ok (mkNode (upd_negotiate (with_spdm_version_sel (version h)) (common n)) (writer n) (world n)))
    as Hn1 by (apply with_negotiate_sound; [done|neg_wf]).
  apply hsafe_bind, hsafe_upd_common. cbn [common writer world].
  pose proof (reset_buffer_frame SpdmRequestGetCapabilities None
    (upd_negotiate (with_spdm_version_sel (version h)) (common n))) as Hfr.
  apply (sound_reset SpdmRequestGetCapabilities None) in Hn1. cbn [common writer world] in Hn1. revert Hfr Hn1.
  generalize (reset_buffer_via_request_code SpdmRequestGetCapabilities None
    (upd_negotiate (with_spdm_version_sel (version h)) (common n))). intros c1 Hfr Hn1.
  apply hsafe_bind. eapply (hsafe_read_request base_ok SpdmGetCapabilitiesRequestPayload); [done..|].
  intros g r' Hg Hbuf' _ Hr'. specialize (λ b w rsp, HQ g c1 b w rsp Hh Hst Hfr Hg).
  apply hsafe_bind, hsafe_upd_common. cbn [common writer world].
  destruct (select_capabilities_a g c1) as [Ha Hcfg]. rewrite (frame_a _ _ Hfr) in Ha.
  assert (base_ok (select_capabilities g c1)) as Hb2 by (apply select_capabilities_ok; [done|apply Hn1]).
  generalize dependent (select_capabilities g c1). intros c2 HQ Ha Hcfg Hb2.
  apply hsafe_log_request; [by split; [apply Hn|]|done|by rewrite Hbuf', Hbuf|done|].
  intros b Hbw Hbc Hk n1 Hs1. apply hsafe_bind, hsafe_get_common. subst n1. cbn [common writer world] in *.
  rewrite Ha in Hbc. pose proof (base_config _ Hb2) as [_ (? & ? & ? & ?) _ _ _].
  eapply (hsafe_log_send _ bs (r_offs r')); [done|exact Hf|done|exact Hbc| |].
  - by apply capabilities_writes.
  - intros b' w Hb'. cbn [common world]. rewrite with_a_twice. apply HQ.
Qed.
End Safety.
End Negotiation.
