(* ===== verification/NegAlgorithms.v ===== *)
(** * NEGOTIATE_ALGORITHMS in the responder

    About [handle_spdm_algorithm] of src/spdmlib/src/responder/algorithm_rsp.rs.
    Proved: what the request offers is what is stored; the selection is in
    range and made from what both sides support; the handler is safe on every
    request. *)

From S2P Require Import Prelude Codec Status Bitflags Algo DataTypes Structs Version Crypto HashCtx ManagedBuffer.
From S2P Require Import CertChain Session Header ContextData Transport Context Transcript CertOp SpdmCodec.
From S2P Require Import MsgLib MsgNegotiate MsgMisc Message Platform RspLib RspLaws RspNegotiate ServedChain Negotiation.
Import Context Transcript RspNegotiate ServedChain Negotiation.

Module NegAlgorithms.

(** ** What is stored *)
(** [new] is one of the offers, made with the structure [C], or was there. *)
Definition offers {d} (C : flags d → SpdmAlg) (algs : list SpdmAlgStruct) (old new : flags d) : Prop :=
  new = old ∨ ∃ a, a ∈ algs ∧ alg_supported a = C new.
(** The algorithm structures, stored in turn. *)
Record offered_algs (algs : list SpdmAlgStruct) (i i' : SpdmNegotiateInfo) : Prop := {
  offered_dhe : offers SpdmAlgoDhe algs (dhe_sel i) (dhe_sel i');
  offered_aead : offers SpdmAlgoAead algs (aead_sel i) (aead_sel i');
  offered_req_asym : offers SpdmAlgoReqAsym algs (req_asym_sel i) (req_asym_sel i');
  offered_key_schedule : offers SpdmAlgoKeySchedule algs (key_schedule_sel i) (key_schedule_sel i');
  offered_pqc_req_asym : offers SpdmAlgoPqcReqAsym algs (pqc_req_asym_sel i) (pqc_req_asym_sel i');
  offered_kem : offers SpdmAlgoKem algs (kem_sel i) (kem_sel i');
  offered_rest : i' = with_dhe_sel (dhe_sel i') (with_aead_sel (aead_sel i') (with_req_asym_sel (req_asym_sel i')
    (with_key_schedule_sel (key_schedule_sel i') (with_pqc_req_asym_sel (pqc_req_asym_sel i')
    (with_kem_sel (kem_sel i') i)))));
}.
Lemma offers_refl {d} (C : flags d → SpdmAlg) algs f : offers C algs f f.
Proof. by left. Qed.
Lemma offers_here {d} (C : flags d → SpdmAlg) a algs old new :
  alg_supported a = C new → offers C (a :: algs) old new.
Proof. intros Ha. right. exists a. split; [by left|done]. Qed.
Lemma offers_trans {d} (C : flags d → SpdmAlg) a algs f g h :
  offers C [a] f g → offers C algs g h → offers C (a :: algs) f h.
Proof.
  intros H1 [->|(b & Hb & Hs)]; [|right; exists b; split; [by right|done]].
  destruct H1 as [->|(b & ->%list_elem_of_singleton & Hs)]; [by left|by apply offers_here].
Qed.
Lemma offered_refl algs i : offered_algs algs i i.
Proof. split; try apply offers_refl. by destruct i. Qed.
Lemma offered_trans a algs i j k :
  offered_algs [a] i j → offered_algs algs j k → offered_algs (a :: algs) i k.
Proof.
  intros [? ? ? ? ? ? H] [? ? ? ? ? ? H']. split; try (by eapply offers_trans). rewrite H', H. by destruct i.
Qed.

Section Store.
Context {W : Type} `{CryptoOk} `{Stage}.
Implicit Types (n : Node W) (i : SpdmNegotiateInfo).

(** The node with other parameters. *)
Definition neg_node n i : Node W := mkNode (with_negotiate_info i (common n)) (writer n) (world n).
Lemma neg_node_sound n i : sound base_ok n → wf i → sound base_ok (neg_node n i).
Proof. intros [Hw Hb] Hi. split; [done|by apply base_negotiated]. Qed.
Lemma neg_node_id n : neg_node n (negotiate_info (common n)) = n.
Proof. by destruct n as [[] ? ?]. Qed.

Lemma offer_safe {d} (v : flags d) set (Q : unit → Node W → Prop) n :
  sound base_ok n → Q tt (neg_node n (set v (negotiate_info (common n)))) → hsafe base_ok (offer v set) Q n.
Proof. intros Hn HQ. unfold offer. destruct (is_valid v); [done|]. by apply hsafe_fail. Qed.
Lemma offer_alg_safe a (Q : unit → Node W → Prop) n :
  sound base_ok n → alg_wf a →
  (∀ i, wf i → offered_algs [a] (negotiate_info (common n)) i → Q tt (neg_node n i)) →
  hsafe base_ok (offer_alg (alg_supported a)) Q n.
Proof.
  intros Hn Ha HQ. pose proof (base_negotiate _ (proj2 Hn)) as Hw.
  assert (hsafe base_ok (ret tt) Q n) as Hskip.
  { apply hsafe_ret. rewrite <- (neg_node_id n). apply HQ; [done|apply offered_refl]. }
  assert (∀ i, wf i → offered_algs [a] (negotiate_info (common n)) i → Q tt (neg_node n i)) as HQ' by done.
  clear HQ. destruct (alg_supported a) as [v|v|v|v|v|v|] eqn:Hs; cbn [offer_alg]; try (apply hsafe_bind, hsafe_get_common; case_match);
    try exact Hskip; apply offer_safe; try done; apply HQ';
    try (unfold alg_wf in Ha; rewrite Hs in Ha; destruct (alg_type a); try done; revert Hw; neg_wf);
    (split; try apply offers_refl; [by apply offers_here|by destruct (common n) as [? [] ? ? ? ?]]).
Qed.
Lemma offer_algs_safe algs (Q : unit → Node W → Prop) : Forall alg_wf algs → ∀ n,
  sound base_ok n →
  (∀ i, wf i → offered_algs algs (negotiate_info (common n)) i → Q tt (neg_node n i)) →
  hsafe base_ok (offer_algs algs) Q n.
Proof.
  induction 1 as [|a algs Ha _ IH]; intros n Hn HQ; cbn [offer_algs].
  - apply hsafe_ret. rewrite <- (neg_node_id n). apply HQ; [apply Hn|apply offered_refl].
  - apply hsafe_bind, offer_alg_safe; [done..|]. intros i Hi Ho. apply IH; [by apply neg_node_sound|].
    intros j Hj Ho'. apply (HQ j Hj). by eapply offered_trans.
Qed.
Lemma select_multi_key_safe na (Q : unit → Node W → Prop) n :
  sound base_ok n →
  (∀ x y, Q tt (neg_node n (with_multi_key_conn_rsp y (with_multi_key_conn_req x (negotiate_info (common n)))))) →
  hsafe base_ok (select_multi_key na) Q n.
Proof.
  intros Hn HQ. apply hsafe_bind, hsafe_get_common. cbv zeta. apply hsafe_bind, hsafe_upd_common.
  set (x := if contains _ _ then true else _).
  assert (sound base_ok (neg_node n (with_multi_key_conn_req x (negotiate_info (common n))))) as Hn'.
  { apply neg_node_sound; [done|]. generalize (base_negotiate _ (proj2 Hn)). neg_wf. }
  case_match; (apply hsafe_bind, hsafe_fail_if; [exact Hn'|by split|]); intros _; apply hsafe_upd_common, HQ.
Qed.

(** The parameters after the request is stored. *)
Record stored (c : SpdmContext) (na : SpdmNegotiateAlgorithmsRequestPayload) (i : SpdmNegotiateInfo) : Prop := {
  stored_version : spdm_version_sel i = spdm_version_sel (negotiate_info c);
  stored_caps : req_capabilities_sel i = req_capabilities_sel (negotiate_info c);
  stored_measurement : measurement_specification_sel i = na_measurement_specification na;
  stored_hash : base_hash_sel i = na_base_hash_algo na;
  stored_asym : base_asym_sel i = na_base_asym_algo na;
  stored_pqc : pqc_asym_sel i = if ver_ge c SpdmVersion14 then na_pqc_asym_algo na else pqc_asym_sel (negotiate_info c);
  stored_mel : mel_specification_sel i = na_mel_specification na ∨ mel_specification_sel i = empty_flags;
  stored_dhe : offers SpdmAlgoDhe (ztake (na_alg_struct_count na) (na_alg_struct na))
                 (dhe_sel (negotiate_info c)) (dhe_sel i);
  stored_aead : offers SpdmAlgoAead (ztake (na_alg_struct_count na) (na_alg_struct na))
                 (aead_sel (negotiate_info c)) (aead_sel i);
  stored_key_schedule : offers SpdmAlgoKeySchedule (ztake (na_alg_struct_count na) (na_alg_struct na))
                 (key_schedule_sel (negotiate_info c)) (key_schedule_sel i);
}.
Lemma request_algs_wf c na :
  negotiate_algorithms_wf c na → Forall alg_wf (ztake (na_alg_struct_count na) (na_alg_struct na)).
Proof.
  intros (_ & _ & _ & _ & _ & _ & _ & st & Ha). destruct (ver_ge c SpdmVersion11); cbn [algs_opt_wf] in Ha.
  - destruct Ha as [(Hn & vs & -> & Hl & Hw) _]. by rewrite front_take.
  - destruct Ha as (-> & -> & _). constructor.
Qed.
Lemma store_sets_stored c na i :
  let i0 := negotiate_info c in
  let i1 := negotiate_info (store_sets na c) in
  offered_algs (ztake (na_alg_struct_count na) (na_alg_struct na)) i1 i →
  measurement_specification_sel i0 = na_measurement_specification na → stored c na i.
Proof.
  intros i0 i1 [O1 O2 _ O4 _ _ Or] Hm. assert (i1 = negotiate_info (store_sets na c)) as Hi1 by done. clearbody i1.
  rewrite Or. clear Or. unfold store_sets in Hi1. cbv zeta in Hi1.
  change (ver_ge (upd_negotiate _ _)) with (ver_ge c) in Hi1.
  destruct (ver_ge c SpdmVersion14) eqn:Hv14; cbn in Hi1; subst i1; (split; cbn; rewrite ?Hv14; try done; case_match; auto).
Qed.
Lemma store_sets_ok c na :
  negotiate_algorithms_wf c na → base_ok c → base_ok (store_sets na c).
Proof.
  intros (_ & _ & _ & Has & Hha & Hpq & Hml & _) [Ha Hc Hp Hn Hs].
  pose proof (when_wf_elim _ _ _ _ Hpq flags_wf_empty). pose proof (when_wf_elim _ _ _ _ Hml flags_wf_empty).
  assert (∀ b : bool, wf (if b then na_mel_specification na else empty_flags)) as Hmel
    by (intros []; [done|apply flags_wf_empty]).
  unfold store_sets. cbv zeta. case_match; (split; [done..| |by repeat apply stage_negotiate]); revert Hn; neg_wf; apply Hmel.
Qed.
Lemma store_sets_frame c na : ∃ i, store_sets na c = with_negotiate_info i c.
Proof. unfold store_sets. cbv zeta. case_match; by eexists. Qed.
(** [select_multi_key] and the measurement specification come first. *)
Lemma store_rest_safe na (Q : unit → Node W → Prop) n i0 :
  sound base_ok n → negotiate_algorithms_wf (common n) na → wf i0 →
  spdm_version_sel i0 = spdm_version_sel (negotiate_info (common n)) →
  measurement_specification_sel i0 = na_measurement_specification na →
  (∀ i, wf i → stored (with_negotiate_info i0 (common n)) na i → Q tt (neg_node n i)) →
  hsafe base_ok (let* _ := upd_common (store_sets na) in
                 offer_algs (ztake (na_alg_struct_count na) (na_alg_struct na))) Q (neg_node n i0).
Proof.
  intros Hn Hna Hi0 Hv Hm HQ. apply hsafe_bind, hsafe_upd_common. cbn [common writer world neg_node].
  set (c0 := with_negotiate_info i0 (common n)).
  assert (negotiate_algorithms_wf c0 na) as Hna0.
  { unfold negotiate_algorithms_wf, ver_ge in *. cbn. by rewrite Hv. }
  assert (base_ok (store_sets na c0)) as Hb by (apply store_sets_ok; [done|apply (neg_node_sound _ _ Hn Hi0)]).
  destruct (store_sets_frame c0 na) as [i1 Hi1].
  apply offer_algs_safe; [by eapply request_algs_wf|by split; [apply Hn|]|]. cbn [common].
  intros i Hi Ho. rewrite Hi1. unfold neg_node. cbn [common writer world]. subst c0.
  apply (HQ i Hi). by apply store_sets_stored.
Qed.
Lemma stored_from c i0 na i :
  spdm_version_sel i0 = spdm_version_sel (negotiate_info c) →
  req_capabilities_sel i0 = req_capabilities_sel (negotiate_info c) →
  pqc_asym_sel i0 = pqc_asym_sel (negotiate_info c) → dhe_sel i0 = dhe_sel (negotiate_info c) →
  aead_sel i0 = aead_sel (negotiate_info c) → key_schedule_sel i0 = key_schedule_sel (negotiate_info c) →
  stored (with_negotiate_info i0 c) na i → stored c na i.
Proof.
  intros E1 E2 E3 E4 E5 E6 [S1 S2 S3 S4 S5 S6 S7 S8 S9 S10]. unfold ver_ge in S6. cbn in *.
  rewrite E1 in S1, S6. rewrite E2 in S2. rewrite E3 in S6. rewrite E4 in S8. rewrite E5 in S9. rewrite E6 in S10. by split.
Qed.
Lemma store_offer_safe na (Q : unit → Node W → Prop) n :
  sound base_ok n → negotiate_algorithms_wf (common n) na →
  (∀ i, wf i → stored (common n) na i → Q tt (neg_node n i)) →
  hsafe base_ok (store_offer na) Q n.
Proof.
  intros Hn Hna HQ. pose proof Hna as (_ & Hme & _). pose proof (base_negotiate _ (proj2 Hn)) as Hw.
  apply hsafe_bind, hsafe_upd_common, hsafe_bind, hsafe_get_common.
  set (i1 := with_measurement_specification_sel (na_measurement_specification na) (negotiate_info (common n))).
  change (mkNode _ _ _) with (neg_node n i1). assert (wf i1) as Hi1 by (revert Hw; neg_wf).
  apply hsafe_bind. case_match.
  - apply select_multi_key_safe; [by apply neg_node_sound|]. intros x y.
    change (neg_node (neg_node n i1) ?i) with (neg_node n i). apply store_rest_safe; try done.
    intros i Hi Hs. apply (HQ i Hi). by eapply stored_from, Hs.
  - apply hsafe_ret, store_rest_safe; try done. intros i Hi Hs. apply (HQ i Hi). by eapply stored_from, Hs.
Qed.
End Store.

(** ** What is selected *)
(** A field in range keeps the parameters in range. *)
Create HintDb neg.
Lemma wf_with_measurement_specification_sel v i : wf v → wf i → wf (with_measurement_specification_sel v i).
Proof. intros Hv. neg_wf. Qed.
Lemma wf_with_measurement_hash_sel v i : wf v → wf i → wf (with_measurement_hash_sel v i).
Proof. intros Hv. neg_wf. Qed.
Lemma wf_with_base_hash_sel v i : wf v → wf i → wf (with_base_hash_sel v i).
Proof. intros Hv. neg_wf. Qed.
Lemma wf_with_base_asym_sel v i : wf v → wf i → wf (with_base_asym_sel v i).
Proof. intros Hv. neg_wf. Qed.
Lemma wf_with_pqc_asym_sel v i : wf v → wf i → wf (with_pqc_asym_sel v i).
Proof. intros Hv. neg_wf. Qed.
Lemma wf_with_mel_specification_sel v i : wf v → wf i → wf (with_mel_specification_sel v i).
Proof. intros Hv. neg_wf. Qed.
Lemma wf_with_dhe_sel v i : wf v → wf i → wf (with_dhe_sel v i).
Proof. intros Hv. neg_wf. Qed.
Lemma wf_with_aead_sel v i : wf v → wf i → wf (with_aead_sel v i).
Proof. intros Hv. neg_wf. Qed.
Lemma wf_with_req_asym_sel v i : wf v → wf i → wf (with_req_asym_sel v i).
Proof. intros Hv. neg_wf. Qed.
Lemma wf_with_key_schedule_sel v i : wf v → wf i → wf (with_key_schedule_sel v i).
Proof. intros Hv. neg_wf. Qed.
Lemma wf_with_pqc_req_asym_sel v i : wf v → wf i → wf (with_pqc_req_asym_sel v i).
Proof. intros Hv. neg_wf. Qed.
Lemma wf_with_kem_sel v i : wf v → wf i → wf (with_kem_sel v i).
Proof. intros Hv. neg_wf. Qed.
Lemma wf_with_other_params_support v i : wf v → wf i → wf (with_other_params_support v i).
Proof. intros Hv. neg_wf. Qed.
#[export] Hint Resolve wf_with_measurement_specification_sel wf_with_measurement_hash_sel wf_with_base_hash_sel wf_with_base_asym_sel wf_with_pqc_asym_sel wf_with_mel_specification_sel wf_with_dhe_sel wf_with_aead_sel wf_with_req_asym_sel wf_with_key_schedule_sel wf_with_pqc_req_asym_sel wf_with_kem_sel wf_with_other_params_support : neg.
#[export] Hint Extern 1 (wf _) => apply flags_wf_prioritize; vm_compute; reflexivity : neg.
(** At most the post-quantum alternatives are dropped. *)
Lemma exclusive_spec i :
  exclusive i = with_kem_sel (kem_sel (exclusive i))
    (with_pqc_req_asym_sel (pqc_req_asym_sel (exclusive i)) (with_pqc_asym_sel (pqc_asym_sel (exclusive i)) i)) ∧
  (pqc_asym_sel (exclusive i) = pqc_asym_sel i ∨ pqc_asym_sel (exclusive i) = empty_flags) ∧
  (pqc_req_asym_sel (exclusive i) = pqc_req_asym_sel i ∨ pqc_req_asym_sel (exclusive i) = empty_flags) ∧
  (kem_sel (exclusive i) = kem_sel i ∨ kem_sel (exclusive i) = empty_flags).
Proof.
  unfold exclusive, PQC_FIRST. cbv zeta.
  destruct (is_valid (pqc_asym_sel i) && _); cbn; (destruct (is_valid (pqc_req_asym_sel i) && _); cbn);
    (destruct (is_valid (kem_sel i) && _); cbn); (split; [by destruct i|auto]).
Qed.
Lemma exclusive_wf i : wf i → wf (exclusive i).
Proof.
  intros Hi. destruct (exclusive_spec i) as (He & Hq & Hp & Hk).
  assert (wf (pqc_asym_sel (exclusive i)) ∧ wf (pqc_req_asym_sel (exclusive i)) ∧ wf (kem_sel (exclusive i))) as (? & ? & ?).
  { destruct Hi as (?&?&?&?&?&?&?&?&?&?&?&?&?&?&?&?&?&?&?&?&?&?&?&?&?).
    split_and!; [destruct Hq as [->| ->]|destruct Hp as [->| ->]|destruct Hk as [->| ->]];
      assumption || apply flags_wf_empty. }
  rewrite He. revert Hi. neg_wf.
Qed.
#[local] Arguments prioritize_with : simpl never.
Lemma prioritize_all_wf cfg i : config_ok cfg → wf i → wf (prioritize_all cfg i).
Proof.
  intros [_ _ (_ & Hmh & _) _ _] Hi. unfold prioritize_all. cbv zeta.
  case_match; [apply exclusive_wf|]; auto 15 with neg.
Qed.
(** The members of a selection. *)
Record selected_from (cfg : SpdmConfigInfo) (i j : SpdmNegotiateInfo) : Prop := {
  sel_version : spdm_version_sel j = spdm_version_sel i;
  sel_hash : base_hash_sel j = SpdmBaseHashAlgo.prioritize (base_hash_sel i) (cfg_base_hash_algo cfg);
  sel_asym : base_asym_sel j = SpdmBaseAsymAlgo.prioritize (base_asym_sel i) (cfg_base_asym_algo cfg);
  sel_measurement : measurement_specification_sel j =
    SpdmMeasurementSpecification.prioritize (measurement_specification_sel i) (cfg_measurement_specification cfg);
  sel_measurement_hash : measurement_hash_sel j = cfg_measurement_hash_algo cfg;
  sel_dhe : dhe_sel j = SpdmDheAlgo.prioritize (dhe_sel i) (cfg_dhe_algo cfg);
  sel_aead : aead_sel j = SpdmAeadAlgo.prioritize (aead_sel i) (cfg_aead_algo cfg);
  sel_key_schedule : key_schedule_sel j = SpdmKeyScheduleAlgo.prioritize (key_schedule_sel i) (cfg_key_schedule_algo cfg);
}.
Lemma prioritize_all_spec cfg i : selected_from cfg i (prioritize_all cfg i).
Proof.
  unfold prioritize_all. cbv zeta. case_match; [|by split].
  match goal with |- selected_from _ _ (exclusive ?x) => destruct (exclusive_spec x) as [He _]; rewrite He end. by split.
Qed.
Lemma select_other_params_wf c offered :
  wf offered → config_ok (config_info c) → wf (select_other_params c offered).
Proof.
  intros Ho [_ _ (_ & _ & _ & Hc) _ _].
  assert (∀ (b : bool) (f g : SpdmAlgoOtherParams), wf f → wf g → wf (if b then union f g else f)) as Hu
    by (intros [] f g Hf Hg; [by apply flags_wf_union|done]).
  assert (wf SpdmAlgoOtherParams.MULTI_KEY_CONN) as Hm by (by vm_compute).
  assert (wf (inter offered (cfg_other_params_support (config_info c)))) as Hi by (by apply flags_wf_inter).
  pose proof (flags_wf_empty : wf (empty_flags : SpdmAlgoOtherParams)) as He.
  unfold select_other_params. cbv zeta. destruct (ver_ge c SpdmVersion13); auto.
Qed.

(** ** The handler *)
Section Algorithm.
Context {W : Type} `{CryptoOk} `{Stage}.
Implicit Types n : Node W.

(** The context after the selection and the construction of the chains. *)
Definition with_selection (i : SpdmNegotiateInfo) (l : list (option SpdmCertChainBuffer)) (c : SpdmContext) : SpdmContext :=
  with_provision_info (with_my_cert_chain l (provision_info c)) (with_negotiate_info i c).
Definition algorithms_of (i : SpdmNegotiateInfo) (other : SpdmAlgoOtherParams) : SpdmAlgorithmsResponsePayload :=
  mkAlgorithms (measurement_specification_sel i) other (measurement_hash_sel i) (base_asym_sel i) (base_hash_sel i)
    (pqc_asym_sel i) (mel_specification_sel i) (len (chosen_algs i)) (alg_array (chosen_algs i)).
Lemma algorithms_of_writes c i other :
  wf i → wf other → response_writes c SpdmResponseAlgorithms (SpdmAlgorithmsResponse (algorithms_of i other)).
Proof.
  intros Hi Ho. pose proof Hi as (?&?&?&?&?&?&?&?&?&?&?&?&?&?&?&?&?&?&?&?&?&?&?&?&?).
  apply (algorithms_writes c _ (chosen_algs i)); try assumption; try done; [apply len_chosen_algs|by apply chosen_algs_wf].
Qed.

(** From the selection on. *)
Lemma answer_safe before bs k na (Q : unit → Node W → Prop) n :
  sound base_ok n → fresh n → wf (na_other_params_support na) → 0 ≤ k ≤ len bs →
  mb_content (message_a (runtime_info (common n))) = before ++ ztake k bs →
  (let i := prioritize_all (config_info (common n)) (negotiate_info (common n)) in
   ∀ l b w rsp, built (base_hash_sel i) (provision_info (common n)) l → (∀ s, filled (provision_info (common n)) l s) →
   ∀ other,
   let n' := mkNode (upd_runtime (with_message_a b) (with_selection (with_other_params_support other i) l (common n)))
               w (world n) in
   sound base_ok n' → exchanged before bs rsp n' → Q tt n') →
  hsafe base_ok
    (let* _ := upd_common (λ c, upd_negotiate (prioritize_all (config_info c)) c) in
     let* _ := try_local (on_common construct_my_cert_chain) in
     let* c := get_common in
     let other := select_other_params c (na_other_params_support na) in
     let* _ := upd_common (upd_negotiate (with_other_params_support other)) in
     let n := negotiate_info c in
     let* (count, algs) := lift (selected_algs n) in
     let* _ := try_local (send_response SpdmResponseAlgorithms
                 (SpdmAlgorithmsResponse (mkAlgorithms (measurement_specification_sel n) other
                    (measurement_hash_sel n) (base_asym_sel n) (base_hash_sel n) (pqc_asym_sel n)
                    (mel_specification_sel n) (wrap 8 count) algs))) in
     let* rsp := used_slice in
     try_local (on_common (append_message_a rsp))) Q n.
Proof.
  intros Hn Hf Ho Hk Ha HQ. destruct n as [c w0 wd]. cbn [common writer world] in *. destruct Hn as [Hw Hb].
  cbn [common writer] in Hw, Hb. pose proof (prioritize_all_wf _ _ (base_config _ Hb) (base_negotiate _ Hb)) as Hi.
  cbv zeta in HQ. apply hsafe_bind, hsafe_upd_common. cbn [common writer world].
  change (upd_negotiate (prioritize_all (config_info c)) c)
    with (with_negotiate_info (prioritize_all (config_info c) (negotiate_info c)) c).
  revert HQ Hi. generalize (prioritize_all (config_info c) (negotiate_info c)). intros i HQ Hi.
  assert (base_ok (with_negotiate_info i c)) as Hb1 by (by apply base_negotiated).
  apply hsafe_bind, hsafe_try; [by split|]. apply wp_on_common. apply wp_construct_my_cert_chain.
  - change (wf (base_hash_sel i)). by destruct Hi as (?&?&?&?&?&?&?&?&?&?&?&?&?&?&?&?&?&?&?&?&?&?&?&?&?).
  - apply Hb.
  - intros l Hl Hfl. cbn [common writer world]. specialize (λ b w rsp, HQ l b w rsp Hl Hfl).
    change (with_provision_info _ _) with (with_selection i l c). apply hsafe_bind, hsafe_get_common. cbn [common].
    set (other := select_other_params _ _). assert (wf other) as Hother
      by (apply select_other_params_wf; [done|exact (base_config _ Hb)]). clearbody other.
    apply hsafe_bind, hsafe_upd_common. cbn [common writer world].
    change (upd_negotiate _ _) with (with_selection (with_other_params_support other i) l c).
    change (negotiate_info (with_selection i l c)) with i.
    assert (base_ok (with_selection (with_other_params_support other i) l c)) as Hb2.
    { destruct Hb. split; [done|done|by eapply built_ok|by apply wf_with_other_params_support|].
      apply (stage_chains l (with_negotiate_info _ c)). by apply stage_negotiate. }
    cbv zeta. apply hsafe_bind. eapply hsafe_lift; [apply selected_algs_run|]. cbv beta iota.
    pose proof (len_chosen_algs i). rewrite wrap_small by (unfold in_width, MAX_SUPPORTED_ALG_STRUCTURE_COUNT in *; lia).
    fold (algorithms_of i other). eapply (hsafe_log_send before bs k); [by split|exact Hf|done|exact Ha| |].
    + by apply algorithms_of_writes.
    + intros b w Hbw. apply HQ.
  - intros e l Hl. split; [done|]. destruct Hb1. split; [done|done|by eapply built_ok|done|by apply stage_chains].
Qed.
Lemma algorithm_safe bs (Q : unit → Node W → Prop) n :
  sound base_ok n → fresh n → bytes_wf bs →
  (∀ c1 na i l b w rsp other,
     connection_state (runtime_info (common n)) = SpdmConnectionAfterCapabilities →
     frame (common n) c1 → negotiate_algorithms_wf c1 na → wf i → stored c1 na i →
     let j := prioritize_all (config_info c1) i in
     built (base_hash_sel j) (provision_info c1) l → (∀ s, filled (provision_info c1) l s) →
     let n' := mkNode (upd_runtime (with_message_a b) (with_selection (with_other_params_support other j) l c1)) w (world n) in
     sound base_ok n' → exchanged (mb_content (message_a (runtime_info (common n)))) bs rsp n' → Q tt n') →
  hsafe base_ok (write_spdm_algorithm bs) Q n.
Proof.
  intros Hn Hf Hbs HQ. apply hsafe_bind, hsafe_get_common, hsafe_bind, hsafe_fail_if; [done|by split|].
  intros Hst%bool_decide_eq_false%dec_stable. apply hsafe_bind, hsafe_check_header; [done..|]. intros h r _ _ Hbuf Hr.
  apply hsafe_bind, hsafe_upd_common.
  pose proof (reset_buffer_frame SpdmRequestNegotiateAlgorithms None (common n)) as Hfr.
  pose proof (sound_reset SpdmRequestNegotiateAlgorithms None n Hn) as Hn1. revert Hfr Hn1.
  generalize (reset_buffer_via_request_code SpdmRequestNegotiateAlgorithms None (common n)). intros c1 Hfr Hn1. apply hsafe_bind.
  eapply (hsafe_read_request base_ok SpdmNegotiateAlgorithmsRequestPayload); [done..|].
  intros na r' Hna Hbuf' _ Hr'. cbn [common] in Hna. apply hsafe_bind, store_offer_safe; [done..|]. cbn [common].
  intros i Hi Hs. unfold neg_node. cbn [common writer world].
  apply hsafe_log_request; [exact (neg_node_sound _ _ Hn1 Hi)|done|by rewrite Hbuf', Hbuf|done|].
  intros b Hbw Hbc Hk n1 Hs1. subst n1. cbn [common writer world] in *.
  change (message_a (runtime_info (with_negotiate_info i c1))) with (message_a (runtime_info c1)) in Hbc.
  rewrite (frame_a _ _ Hfr) in Hbc.
  eapply (answer_safe _ bs (r_offs r')); [done|exact Hf| |done|exact Hbc|].
  - destruct Hna as (_ & _ & Ho & _). apply (when_wf_elim _ _ _ _ Ho), flags_wf_empty.
  - intros j l b' w rsp Hl Hfl other n' Hs' He. exact (HQ c1 na i l b' w rsp other Hst Hfr Hna Hi Hs Hl Hfl Hs' He).
Qed.
End Algorithm.
End NegAlgorithms.
