(* ===== verification/RspToy.v ===== *)
(** * An endpoint to run

    An integrator's side that is small enough to evaluate: a platform whose
    device is a queue of packets, the toy primitives of Crypto.v over the MCTP
    framing, a configuration for version 1.2 and one provisioned certificate.
    The witnesses run on it, and both ends of the traces. *)

From S2P Require Import Prelude Codec Status Bitflags Algo DataTypes Structs Version Crypto CertChain ManagedBuffer Session.
From S2P Require Import Header ContextData Transport Mctp Context CertOp MsgMisc Platform Link RspLib RspLaws Responder.
From S2P Require Import ServedChain Negotiation X509 X509Der.
Import Context ServedChain Negotiation.

Module RspToy.
Definition toy_sens (k : sens_kind) (n : Z) : sens k := sens_of (replicate (Z.to_nat n) 7).
#[export] Instance toy_platform : Platform :=
  {| World := Wire;
     get_random n := ret (replicate (Z.to_nat n) 5);
     DheContext := unit;
     generate_key_pair a := match SpdmDheAlgo.get_key_size (E:=unit) a with
                            | Ok n => ret (toy_sens KDheExchange n, tt)
                            | _ => throw tt
                            end;
     compute_final_key _ _ := ret (toy_sens KSharedSecretFinalKey 32);
     KemContext := unit;
     kem_new_key _ _ := ret tt;
     kem_encap_key _ := throw tt;
     KemDecapContext := unit;
     kem_generate_key_pair _ := throw tt;
     kem_decap_key _ _ := throw tt;
     verify_cert_chain_cb _ := Ok tt;
     asym_verify _ _ _ _ _ := Ok tt;
     pqc_asym_verify _ _ _ _ _ := Err SPDM_STATUS_VERIF_FAIL;
     measurement_collection _ _ _ _ := ret SpdmMeasurementRecordStructure_default;
     generate_measurement_summary_hash _ h _ _ _ := throw tt;
     asym_sign _ _ a _ := match SpdmBaseAsymAlgo.get_sig_size (E:=unit) a with
                          | Ok n => ret (toy_sens KSignature n)
                          | _ => throw tt
                          end;
     pqc_asym_sign _ _ _ _ := throw tt;
     start_watchdog _ _ w := w;
     stop_watchdog _ w := w;
     reset_watchdog _ w := w;
     vendor_defined_request_handler _ p := ret p;
     device_send := wire_send;
     device_receive _ := wire_receive |}.
#[export] Instance toy_handlers : AppHandlers :=
  {| dispatch_secured_app_message_cb _ bs _ := ret (Ok tt, Some bs);
     vendor_defined_request_handler_ex := None |}.

Definition toy_versions : list (option SpdmVersion) :=
  [Some SpdmVersion10; Some SpdmVersion11; Some SpdmVersion12; None; None].
Definition toy_config : SpdmConfigInfo :=
  {| cfg_spdm_version := toy_versions;
     cfg_req_capabilities := union SpdmRequestCapabilityFlags.CERT_CAP
       (union SpdmRequestCapabilityFlags.CHAL_CAP (union SpdmRequestCapabilityFlags.ENCRYPT_CAP
       (union SpdmRequestCapabilityFlags.MAC_CAP (union SpdmRequestCapabilityFlags.KEY_EX_CAP
        SpdmRequestCapabilityFlags.PSK_CAP))));
     cfg_rsp_capabilities := union SpdmResponseCapabilityFlags.CERT_CAP
       (union SpdmResponseCapabilityFlags.CHAL_CAP (union SpdmResponseCapabilityFlags.ENCRYPT_CAP
       (union SpdmResponseCapabilityFlags.MAC_CAP (union SpdmResponseCapabilityFlags.KEY_EX_CAP
        SpdmResponseCapabilityFlags.PSK_CAP_WITH_CONTEXT))));
     cfg_req_ct_exponent := 0;
     cfg_rsp_ct_exponent := 0;
     cfg_measurement_specification := empty_flags;
     cfg_measurement_hash_algo := empty_flags;
     cfg_base_hash_algo := SpdmBaseHashAlgo.TPM_ALG_SHA_256;
     cfg_base_asym_algo := SpdmBaseAsymAlgo.TPM_ALG_ECDSA_ECC_NIST_P256;
     cfg_dhe_algo := SpdmDheAlgo.SECP_256_R1;
     cfg_aead_algo := SpdmAeadAlgo.AES_256_GCM;
     cfg_req_asym_algo := empty_flags;
     cfg_key_schedule_algo := SpdmKeyScheduleAlgo.SPDM_KEY_SCHEDULE;
     cfg_other_params_support := SpdmAlgoOtherParams.OPAQUE_DATA_FMT1;
     cfg_session_policy := 0;
     cfg_runtime_content_change_support := false;
     cfg_data_transfer_size := 4096;
     cfg_max_spdm_msg_size := 4096;
     cfg_heartbeat_period := 0;
     cfg_secure_spdm_version := replicate (Z.to_nat MAX_SECURE_SPDM_VERSION_COUNT) (Some SecuredMessageVersion_default);
     cfg_mel_specification := empty_flags;
     cfg_pqc_asym_algo := empty_flags;
     cfg_pqc_req_asym_algo := empty_flags;
     cfg_kem_algo := empty_flags |}.
(** One self-issued certificate in slot 0. *)
Definition toy_certificate : list Z :=
  certificate (mkCertificate [7] X509.OID_ECDSA_SHA256 [] [1; 2; 3] [4; 5] [1; 2; 3] (replicate 700 9) (extensions [])
    (algorithm X509.OID_ECDSA_SHA256 [] ++ der X509.ASN1_TAG_BIT_STRING [0; 1; 2])).
Definition toy_certs : SpdmCertChainData :=
  mkCertChainData (len toy_certificate) (toy_certificate ++ zeros (MAX_SPDM_CERT_CHAIN_DATA_SIZE - len toy_certificate)).
Definition toy_provision : SpdmProvisionInfo :=
  mkProvisionInfo (Some toy_certs :: replicate 7 None) slots (replicate (Z.to_nat MAX_ROOT_CERT_SUPPORT) None)
    None None 1 slots slots slots.
Definition toy_context : SpdmContext := new toy_config toy_provision.
Definition toy_node (packets : list (list Z)) : Node World :=
  mkNode toy_context (Writer.init (zeros MAX_SPDM_MSG_SIZE)) (mkWire packets []).

Lemma toy_config_ok : config_ok toy_config.
Proof.
  split; [|by vm_compute..]. split; [|done]. by apply (bool_decide_unpack (NoDup (own_versions toy_config))).
Qed.
Lemma toy_certs_wf : ccd_wf toy_certs.
Proof.
  split; [by vm_compute|]. split; [by vm_compute|]. apply is_byte_wf. by vm_compute.
Qed.
Lemma toy_provision_ok : provision_ok toy_provision.
Proof.
  split; [done|done| |].
  - by apply Forall_replicate.
  - constructor; [apply toy_certs_wf|]. by apply Forall_replicate.
Qed.
End RspToy.
