(* ===== verification/Opening.v ===== *)
(** * The responder before a connection is negotiated

    Composes the handlers of the negotiation with the dispatch and the
    transitions of Responder.v.  Proved: no bytes crash the responder before
    the connection is negotiated, and it stays un-negotiated until its
    negotiation completes. *)

From S2P Require Import Prelude Codec Status Bitflags Algo DataTypes Structs Version Crypto HashCtx ManagedBuffer.
From S2P Require Import CertChain Session Header ContextData Transport Context Transcript CertOp SpdmCodec.
From S2P Require Import MsgLib MsgNegotiate MsgMisc Message Platform RspLib RspLaws RspNegotiate RspAuth RspSession.
From S2P Require Import Responder ServedChain Negotiation NegAlgorithms Mctp RspToy.
Import Context Transcript RspNegotiate RspAuth RspSession Responder ServedChain Negotiation NegAlgorithms.

Module Opening.

(** Not negotiated, and no session being set up in the clear. *)
Definition not_negotiated (c : SpdmContext) : Prop :=
  get_int (connection_state (runtime_info c)) < get_int SpdmConnectionNegotiated ∧
  last_session_id (runtime_info c) = None.
#[export] Program Instance opening : Stage := {| stage := not_negotiated |}.
Next Obligation. done. Qed.
Next Obligation. done. Qed.
Next Obligation. done. Qed.
Next Obligation.
  intros code id c [Hs Hl]. destruct (reset_buffer_frame code id c) as [_ _ _ _ Hs' Hl'].
  unfold not_negotiated. by rewrite Hs', Hl'.
Qed.
Next Obligation. done. Qed.

(** ** Whole handlers *)
Section Handle.
Context {W : Type} `{Stage}.
Implicit Types n : Node W.
Definition replies (n : Node W) : Prop := ∃ bs, written (writer n) bs ∧ bytes_wf bs ∧ 2 ≤ len bs.
Definition safe_reply (r : Reply) (n : Node W) : Prop := sound base_ok n ∧ reply_ok r.
Lemma handle_safe m n :
  hsafe base_ok m (λ _ n', sound base_ok n' ∧ replies n') n → wp (handle m) safe_reply (λ _ _, False) n.
Proof.
  intros Hm. unfold handle. apply wp_or_else. apply hsafe_bind. eapply hsafe_mono; [exact Hm|].
  intros [] n' [Hs (bs & Hw & Hb & Hl)]. by eapply hsafe_reply.
Qed.
Lemma exchanged_replies before bs rsp n : exchanged before bs rsp n → replies n.
Proof. intros [Hw [Hb Hl] _]. by exists rsp. Qed.
End Handle.

(** What is documented of the handler of vendor-defined requests: it returns
    a payload that fits its array, or an error. *)
Class VendorOk `{Platform} : Prop := {
  vendor_ok : ∀ id p w, wf id → wf p →
    wp (vendor_defined_request_handler id p) (λ rsp _, wf rsp) (λ _ _, True) w;
}.

Section Dispatch.
Context `{AppHandlers} `{!VendorOk} `{CryptoOk} `{Stage}.
Implicit Types n : Node World.

Lemma refuse_safe n : sound base_ok n → wp refuse safe_reply (λ _ _, False) n.
Proof. intros Hn. by split. Qed.
Lemma with_code_safe bs k n :
  sound base_ok n → bytes_wf bs →
  (∀ h r, read (Reader.init bs) = (Ok h, r) → wf h → wp (k (request_response_code h)) safe_reply (λ _ _, False) n) →
  wp (with_code bs k) safe_reply (λ _ _, False) n.
Proof.
  intros Hn Hb Hk. unfold with_code.
  pose proof (read_safe (A:=SpdmMessageHeader) _ (reader_init_wf bs Hb)) as Hs.
  destruct (read (Reader.init bs)) as [[h|e|] r] eqn:Hr; destruct Hs as (Hp & _ & _ & Hg); [|by apply refuse_safe|done].
  eapply Hk; [done|]. by apply Hg.
Qed.

Lemma error_request_safe code bs n :
  sound base_ok n → bytes_wf bs → plain_error code → wp (handle_error_request code bs) safe_reply (λ _ _, False) n.
Proof.
  intros Hn Hb Hc. apply handle_safe, hsafe_bind, hsafe_get_common.
  pose proof (read_safe (A:=SpdmMessageHeader) _ (reader_init_wf bs Hb)) as Hs.
  destruct (read (Reader.init bs)) as [[h|e|] r] eqn:Hr; destruct Hs as (Hp & _ & _ & Hg);
    [|by apply hsafe_fail|done].
  apply hsafe_bind, hsafe_fail_if; [done|by split|]. intros _.
  set (d := if decide (code = SpdmErrorUnsupportedRequest) then get_int (request_response_code h) else 0). assert (in_width 8 d) as Hd.
  { subst d. case_decide; [|done]. destruct (Hg h eq_refl) as [_ [_ Hh]]. exact Hh. }
  unfold hsafe. eapply wp_run; [apply write_spdm_error_run; [apply Hn|done|done]|].
  destruct (error_msg_ok (common n) code d Hc Hd) as [He Hl].
  destruct (responds_ok n _ (proj1 Hn) He ltac:(rewrite Hl; done)) as [Hw Hwr].
  split; [split; [done|apply Hn]|]. exists (error_msg (common n) code d). by rewrite Hl.
Qed.

Lemma vendor_request_safe id bs n :
  sound base_ok n → fresh n → bytes_wf bs → vendor_defined_request_handler_ex = None →
  wp (handle_spdm_vendor_defined_request id bs) safe_reply (λ _ _, False) n.
Proof.
  intros Hn Hf Hb Hex. unfold handle_spdm_vendor_defined_request. rewrite Hex.
  apply handle_safe, hsafe_bind, hsafe_check_header; [done..|]. intros h r _ _ Hbuf Hr.
  apply hsafe_bind, hsafe_upd_common. pose proof (sound_reset SpdmRequestVendorDefinedRequest id n Hn) as Hn1.
  revert Hn1. generalize (reset_buffer_via_request_code SpdmRequestVendorDefinedRequest id (common n)). intros c1 Hn1.
  apply hsafe_bind. eapply (hsafe_read_request base_ok SpdmVendorDefinedRequestPayload); [done..|].
  intros v r' (Hv1 & Hv2 & Hv3) _ _ _. apply hsafe_bind, wp_or_else, wp_on_world.
  eapply wp_mono; [| |apply vendor_ok; done].
  2: { intros e wd _. apply hsafe_fail; [exact Hn1|done]. }
  intros p wd Hp. apply hsafe_bind. eapply hsafe_send; [exact Hn1|exact Hf| |by split|].
  - split; [done|]. pose proof (conj Hv1 (conj Hv2 Hp)) as Hvd.
    split; [exact (spdm_encode_ok _ (mkVendorDefined (vd_standard_id v) (vd_vendor_id v) p) Hvd)
           |exact (sbytes_ok _ (mkVendorDefined (vd_standard_id v) (vd_vendor_id v) p) Hvd)].
  - intros rsp Hs (Hw & Hwf & Hl). split; [exact Hs|]. exists rsp. split_and!; [exact Hw|exact Hwf|lia].
Qed.
End Dispatch.

Section NotNegotiated.
Context `{AppHandlers} `{!VendorOk} `{CryptoOk} `{SpdmTransportEncap}.
Implicit Types n : Node World.
(** Other requests are refused. *)
Lemma unnegotiated_refused {A} (k : unit → handler World A) Q n :
  sound base_ok n → hsafe base_ok (let* x := require_negotiated in k x) Q n.
Proof.
  intros Hn. apply hsafe_bind, hsafe_bind, hsafe_get_common, hsafe_fail_if; [done|by split|].
  intros Hs%Z.ltb_ge. destruct (base_stage _ (proj2 Hn)) as [Hlt _]. lia.
Qed.
Lemma unnegotiated_handler (m : handler World unit) k n :
  m = (let* x := require_negotiated in k x) → sound base_ok n → wp (handle m) safe_reply (λ _ _, False) n.
Proof. intros -> Hn. by apply handle_safe, unnegotiated_refused. Qed.
Lemma finish_refused bs n :
  sound base_ok n → bytes_wf bs → wp (dispatch_finish bs) safe_reply (λ _ _, False) n.
Proof.
  intros Hn Hb. unfold dispatch_finish. rewrite wp_bind, wp_get_common. cbv zeta.
  pose proof (error_request_safe SpdmErrorUnexpectedRequest bs n Hn Hb ltac:(by split)) as He.
  destruct (base_stage _ (proj2 Hn)) as [_ ->]. by destruct (in_clear_text (common n)).
Qed.
Lemma measurement_refused id bs n :
  sound base_ok n → wp (handle_spdm_measurement id bs) safe_reply (λ _ _, False) n.
Proof.
  intros Hn. unfold handle_spdm_measurement. rewrite wp_bind.
  eapply wp_mono; [|by intros []|eapply (unnegotiated_handler (write_spdm_measurement_response id bs)); [reflexivity|done]].
  intros r n' [Hs Hr]. rewrite wp_bind.
  destruct (fst r) as [|e|]; [by split| |by split]. destruct (status_eqb e _); [by split|].
  rewrite wp_upd_common. split; [|done]. exact (sound_reset SpdmRequestVendorDefinedRequest id n' Hs).
Qed.
Lemma negotiation_safe bs n :
  sound base_ok n → fresh n → bytes_wf bs →
  wp (handle_spdm_version bs) safe_reply (λ _ _, False) n ∧
  wp (handle_spdm_capability bs) safe_reply (λ _ _, False) n ∧
  wp (handle_spdm_algorithm bs) safe_reply (λ _ _, False) n.
Proof.
  intros Hn Hf Hb. split_and!; apply handle_safe.
  - apply version_safe; [done..|]. intros b w rsp n' Hs He. split; [done|by eapply exchanged_replies].
  - apply capability_safe; [done..|]. intros h r g c1 b w rsp _ _ _ _ n' Hs He.
    split; [done|by eapply exchanged_replies].
  - apply algorithm_safe; [done..|]. intros c1 na i l b w rsp other _ _ _ _ _ j _ _ n' Hs He.
    split; [done|by eapply exchanged_replies].
Qed.

(** C12: Before the connection is negotiated no message crashes the responder.
    Whatever bytes arrive, the dispatch returns a reply; the context stays
    well formed and un-negotiated, and a response is a whole message that fits
    the buffer. *)
Theorem opening_dispatch_safe bs n :
  sound base_ok n → fresh n → bytes_wf bs → vendor_defined_request_handler_ex = None →
  wp (dispatch_message bs) (λ r n', sound base_ok n' ∧ reply_ok r) (λ _ _, False) n.
Proof.
  intros Hn Hf Hb Hex. destruct (negotiation_safe bs n Hn Hf Hb) as (Hv & Hc & Ha).
  apply with_code_safe; [done..|]. intros h r _ _. destruct (request_response_code h);
    try (apply error_request_safe; [done|done|by split]); first [done | by apply vendor_request_safe | by apply measurement_refused | by apply finish_refused
      | by eapply unnegotiated_handler].
Qed.
End NotNegotiated.
End Opening.

Module OpeningExamples.
Import Opening RspToy ToyRing.
#[local] Existing Instance Mctp.transport.
#[local] Existing Instance toy_crypto.
#[local] Existing Instance toy_crypto_ok.
#[local] Instance toy_vendor_ok : VendorOk (H := toy_platform).
Proof. split. by intros id p w _ Hp. Qed.
Lemma toy_sound ps : sound base_ok (toy_node ps).
Proof.
  split; [apply fresh_response_buffer|]. split; [apply mb_default_wf|apply toy_config_ok|apply toy_provision_ok|by vm_compute|done].
Qed.
Lemma opening_dispatch_safe_witness :
  wp (dispatch_message (H0 := toy_handlers) [0x12; 0xE1; 0; 0; 0; 0; 255]) (λ r n', sound base_ok n' ∧ reply_ok r)
    (λ _ _, False) (toy_node []).
Proof.
  apply (opening_dispatch_safe (H0 := toy_handlers)); [apply toy_sound|done|by apply is_byte_wf|done].
Defined.
End OpeningExamples.
