(* ===== verification/ReqLib.v ===== *)
(** * Requests and responses

    Models what the requests of src/spdmlib/src/requester share:
    [send_message] and [receive_message] of context.rs and the treatment of
    ERROR responses of handle_error_response_req.rs.  The writer of the node is
    the send buffer of the request in progress. *)

From S2P Require Import Prelude Codec Status Bitflags Algo DataTypes Structs Version Crypto Session SecuredMessage.
From S2P Require Import Header ContextData Transport Context Transcript SpdmCodec MsgLib MsgMisc Message.
From S2P Require Import Platform RspLib RspAuth RspSession.
Import Context Transcript RspSession.

Module ReqLib.
Section Requester.
Context `{Platform} `{SpdmCrypto} `{SpdmTransportEncap}.
(** A step of the requester; an early return is [throw]. *)
Definition request (A : Type) : Type := M (Node World) SpdmStatus A.

(** ** Composing a request *)
(** [let mut send_buffer = [0u8; config::MAX_SPDM_MSG_SIZE]] *)
Definition new_send_buffer : request unit := on_writer (λ _, (Ok tt, Writer.init (zeros MAX_SPDM_MSG_SIZE))).
(** [Writer::init(buf)] and [request.spdm_encode(&mut self.common, &mut writer)] *)
Definition encode_request (v : SpdmVersion) (code : SpdmRequestResponseCode) (p : SpdmMessagePayload) :
    request usize :=
  let* _ := on_writer (modify Writer.clear) in
  let* c := get_common in
  on_writer (spdm_encode c (mkMessage (mkMessageHeader v code) p)).
Definition encode_selected (code : SpdmRequestResponseCode) (p : SpdmMessagePayload) : request usize :=
  let* c := get_common in encode_request (selected c) code p.
(** [&send_buffer[..send_used]] *)
Definition send_bytes (send_used : usize) : request (list Z) :=
  on_writer (λ w, (or_panic (slice (w_buf w) 0 send_used), w)).
(** [buf[a..b].copy_from_slice(v)] *)
Definition patch_buffer (a b : usize) (v : list Z) : request unit :=
  on_writer (λ w, match copy_from_slice (w_buf w) a b v with
                  | Some buf => (Ok tt, mkWriter buf (w_offs w))
                  | None => (Panic, w)
                  end).

(** ** Sending *)
Definition exceeds (limit : u32) (send_buffer : list Z) : bool := negb (limit =? 0) && (limit <? len send_buffer).
(** What fits into one transfer. *)
Definition too_large (c : SpdmContext) (send_buffer : list Z) : bool :=
  exceeds (rsp_data_transfer_size_sel (negotiate_info c)) send_buffer
  || (SPDM_SENDER_DATA_TRANSFER_SIZE <? len send_buffer).

Definition send_single_message (session_id : option u32) (send_buffer : list Z) (is_app_message : bool) :
    request unit :=
  let* c := get_common in
  if too_large c send_buffer then throw SPDM_STATUS_SEND_FAIL
  else if is_app_message && bool_decide (session_id = None) then throw SPDM_STATUS_SEND_FAIL
  else
    let* packet := on_common (λ c,
      let '(o, (c', buf)) :=
        match session_id with
        | Some id => encode_secured_message id send_buffer true is_app_message
        | None => encap_ send_buffer
        end (c, zeros SENDER_BUFFER_SIZE) in
      (let! used := o in or_panic (slice buf 0 used), c')) in
    on_world (device_send packet).
(** Without the feature chunk-cap a message that needs several transfers is
    not sent. *)
Definition send_message (session_id : option u32) (send_buffer : list Z) (is_app_message : bool) : request unit :=
  let* c := get_common in
  if exceeds (rsp_max_spdm_msg_size_sel (negotiate_info c)) send_buffer then throw SPDM_STATUS_SEND_FAIL
  else if MAX_SPDM_MSG_SIZE <? len send_buffer then throw SPDM_STATUS_SEND_FAIL
  else if is_app_message then send_single_message session_id send_buffer is_app_message
  else if too_large c send_buffer then throw SPDM_STATUS_SEND_FAIL
  else send_single_message session_id send_buffer is_app_message.

(** ** Receiving *)
(** [2 << exponent] on a 64-bit word *)
Definition receive_timeout (c : SpdmContext) (crypto_request : bool) : SpdmResult usize :=
  if crypto_request then
    let e := rsp_ct_exponent_sel (negotiate_info c) in
    if e <? 64 then Ok (wrap 64 (Z.shiftl 2 e)) else Panic
  else Ok ST1.
(** What arrives in the first [SPDM_DATA_TRANSFER_SIZE] bytes of the receive
    buffer. *)
Definition receive_message (session_id : option u32) (crypto_request : bool) : request (list Z) :=
  let* c := get_common in
  let* timeout := lift (receive_timeout c crypto_request) in
  let* packet := on_world (map_errM (λ _, SPDM_STATUS_RECEIVE_FAIL) (device_receive timeout)) in
  on_common (λ c,
    let '(o, (c', buf)) :=
      match session_id with
      | Some id => decode_secured_message id packet
      | None => decap_ packet
      end (c, zeros SPDM_DATA_TRANSFER_SIZE) in
    (let! used := o in or_panic (slice buf 0 used), c')).

(** ** Responses *)
Definition invalid_field {A} : request A := throw SPDM_STATUS_INVALID_MSG_FIELD.
Definition invalid_if (b : bool) : request unit := if b then invalid_field else ret tt.
(** [A::read(&mut reader)] and [A::spdm_read(&mut self.common, &mut reader)],
    where nothing is an invalid field *)
Definition read_field A `{Codec A} (reader : Reader) : request (A * Reader) :=
  match read (A:=A) reader with
  | (Ok a, reader) => ret (a, reader)
  | (Err _, _) => invalid_field
  | (Panic, _) => panic
  end.
Definition read_payload A `{SpdmCodec A} (reader : Reader) : request (A * Reader) :=
  let* c := get_common in
  match spdm_read (A:=A) c reader with
  | (Ok a, reader) => ret (a, reader)
  | (Err _, _) => invalid_field
  | (Panic, _) => panic
  end.
(** [&receive_buffer[..n]] *)
Definition received (bytes : list Z) (n : usize) : request (list Z) := lift (or_panic (slice bytes 0 n)).

Definition with_session_or {A} (id : u32) (missing : SpdmStatus) (m : M SpdmSession SpdmStatus A) : request A :=
  on_common (with_session_via_id id (Err missing) m).

Definition spdm_handle_simple_error_response (session_id : option u32) (error_code : u8) : request unit :=
  if error_code =? get_int SpdmErrorResponseNotReady then throw SPDM_STATUS_NOT_READY_PEER
  else if error_code =? get_int SpdmErrorBusy then throw SPDM_STATUS_BUSY_PEER
  else if error_code =? get_int SpdmErrorRequestResynch then
    let* _ := match session_id with
              | Some id => with_session_or id SPDM_STATUS_INVALID_PARAMETER
                             (modify (with_session_state SpdmSessionNotStarted))
              | None => ret tt
              end in
    throw SPDM_STATUS_INVALID_STATE_PEER
  else throw SPDM_STATUS_ERROR_PEER.
(** The status with the response as its data. *)
Definition with_error_data (s : SpdmStatus) (response : list Z) : SpdmResult SpdmStatus :=
  map_err (λ _, s) (spdm_status_set_error_data s response).
(** It never returns [Ok]. *)
Definition spdm_handle_error_response_main (session_id : option u32) (response : list Z) : request unit :=
  let* (header, reader) := read_field SpdmMessageHeader (Reader.init response) in
  let* c := get_common in
  let* _ := invalid_if (bool_decide (version header ≠ selected c)) in
  let* _ := invalid_if (bool_decide (request_response_code header ≠ SpdmResponseError)) in
  let* rest := lift (or_panic (slice response (Reader.used reader) (len response))) in
  let* (payload, _) := read_field SpdmMessageGeneralPayload (Reader.init rest) in
  let* status :=
    if param1 payload =? get_int SpdmErrorDecryptError then
      let* _ := match session_id with
                | Some id => with_session_or id SPDM_STATUS_INVALID_PARAMETER (modify Session.teardown)
                | None => ret tt
                end in
      ret SPDM_STATUS_SESSION_MSG_ERROR
    else or_else (let* _ := spdm_handle_simple_error_response session_id (param1 payload) in
                  ret SPDM_STATUS_ERROR_PEER) ret in
  let* status := lift (with_error_data status response) in
  throw status.

(** The response is the expected one, an error, or neither; [on_error] follows
    the treatment of an error that returns. *)
Definition dispatch_response {A} (header : SpdmMessageHeader) (session_id : option u32) (bytes : list Z)
    (expected : SpdmRequestResponseCode) (on_error : request A) (k : request A) : request A :=
  if decide (request_response_code header = expected) then k
  else if decide (request_response_code header = SpdmResponseError) then
    let* _ := spdm_handle_error_response_main session_id bytes in on_error
  else throw SPDM_STATUS_ERROR_PEER.
(** The same after the header was read, with or without a check of its
    version. *)
Definition handle_any_version {A} (session_id : option u32) (bytes : list Z) (expected : SpdmRequestResponseCode)
    (on_error : request A) (k : Reader → request A) : request A :=
  let* (header, reader) := read_field SpdmMessageHeader (Reader.init bytes) in
  dispatch_response header session_id bytes expected on_error (k reader).
Definition handle_response {A} (session_id : option u32) (bytes : list Z) (expected : SpdmRequestResponseCode)
    (on_error : request A) (k : Reader → request A) : request A :=
  let* (header, reader) := read_field SpdmMessageHeader (Reader.init bytes) in
  let* c := get_common in
  let* _ := invalid_if (bool_decide (version header ≠ selected c)) in
  dispatch_response header session_id bytes expected on_error (k reader).
(** [match status { Err(status) => Err(status), Ok(()) => Err(SPDM_STATUS_ERROR_PEER) }] *)
Definition error_peer {A} : request A := throw SPDM_STATUS_ERROR_PEER.
(** The requests whose response a summary of the measurements belongs to. *)
Definition expect_summary (t : SpdmMeasurementSummaryHashType) : request unit :=
  upd_common (upd_runtime (with_need_measurement_summary_hash
    (bool_decide (t = SpdmMeasurementSummaryHashTypeTcb) || bool_decide (t = SpdmMeasurementSummaryHashTypeAll)))).

(** ** Variables of the caller *)
(** A request that writes to a variable [O] of its caller. *)
Definition requesting (O A : Type) : Type := M (Node World * O) SpdmStatus A.
Definition on_node {O A} (m : request A) : requesting O A := λ '(n, o), let '(r, n') := m n in (r, (n', o)).
Definition upd_out {O} (f : O → O) : requesting O unit := λ '(n, o), (Ok tt, (n, f o)).
End Requester.
End ReqLib.
