(* ===== verification/ReqNegotiate.v ===== *)
(** * Negotiation in the requester

    Models get_version_req.rs, get_capabilities_req.rs and
    negotiate_algorithms_req.rs of src/spdmlib/src/requester: the three
    requests that open a connection and the treatment of their responses. *)

From S2P Require Import Prelude Codec Status Bitflags Algo DataTypes Structs Version Crypto Session.
From S2P Require Import Header ContextData Transport Context Transcript SpdmCodec MsgLib MsgNegotiate MsgMisc Message.
From S2P Require Import Platform RspLib RspNegotiate ReqLib.
Import Context Transcript RspNegotiate ReqLib.

Module ReqNegotiate.
(** [versions.sort_unstable_by(|a, b| b.version.cmp(&a.version))]: only the
    versions of the entries are used, so the order of equal ones is not
    observed. *)
Fixpoint insert_desc (x : SpdmVersionStruct) (l : list SpdmVersionStruct) : list SpdmVersionStruct :=
  match l with
  | [] => [x]
  | y :: l => if version_leb (vs_version y) (vs_version x) then x :: y :: l else y :: insert_desc x l
  end.
Definition sort_desc (l : list SpdmVersionStruct) : list SpdmVersionStruct := foldr insert_desc [] l.

(** The algorithm structures of the request. *)
Definition offered_structs (cfg : SpdmConfigInfo) (v14 : bool) : SpdmResult (Z * list SpdmAlgStruct) :=
  let! st := put_alg (is_valid (cfg_dhe_algo cfg)) SpdmAlgTypeDHE (SpdmAlgoDhe (cfg_dhe_algo cfg))
               (0, alg_struct_default) in
  let! st := put_alg (is_valid (cfg_aead_algo cfg)) SpdmAlgTypeAEAD (SpdmAlgoAead (cfg_aead_algo cfg)) st in
  let! st := put_alg (is_valid (cfg_req_asym_algo cfg)) SpdmAlgTypeReqAsym
               (SpdmAlgoReqAsym (cfg_req_asym_algo cfg)) st in
  let! st := put_alg (is_valid (cfg_key_schedule_algo cfg)) SpdmAlgTypeKeySchedule
               (SpdmAlgoKeySchedule (cfg_key_schedule_algo cfg)) st in
  let! st := put_alg (v14 && is_valid (cfg_pqc_req_asym_algo cfg)) SpdmAlgTypePqcReqAsym
               (SpdmAlgoPqcReqAsym (cfg_pqc_req_asym_algo cfg)) st in
  put_alg (v14 && is_valid (cfg_kem_algo cfg)) SpdmAlgTypeKEM (SpdmAlgoKem (cfg_kem_algo cfg)) st.
Definition offered_params (c : SpdmContext) : SpdmAlgoOtherParams :=
  let own := cfg_other_params_support (config_info c) in
  let rsp_cap f := contains (rsp_capabilities_sel (negotiate_info c)) f in
  let p := empty_flags in
  let p := if ver_ge c SpdmVersion12 then union p own else p in
  if ver_ge c SpdmVersion13 then
    let p := if rsp_cap SpdmResponseCapabilityFlags.MULTI_KEY_CAP_ONLY
             then union p SpdmAlgoOtherParams.MULTI_KEY_CONN else p in
    if rsp_cap SpdmResponseCapabilityFlags.MULTI_KEY_CAP_CONN_SEL
       && contains own SpdmAlgoOtherParams.MULTI_KEY_CONN
    then union p SpdmAlgoOtherParams.MULTI_KEY_CONN else p
  else p.

Section Requests.
Context `{Platform} `{SpdmCrypto} `{SpdmTransportEncap}.

(** ** GET_VERSION *)
Definition encode_spdm_version : request usize :=
  encode_request SpdmVersion10 SpdmRequestGetVersion (SpdmGetVersionRequest mkGetVersion).
Definition send_spdm_version : request usize :=
  let* _ := upd_common reset_context in
  let* send_used := encode_spdm_version in
  let* bs := send_bytes send_used in
  let* _ := send_message None bs false in
  ret send_used.
Definition negotiate_version (own : list (option SpdmVersion)) (p : SpdmVersionResponsePayload) :
    option SpdmVersion :=
  head (filter (λ v, Some v ∈ own)
          (vs_version <$> ztake (version_number_entry_count p) (sort_desc (versions p)))).
(** Both messages join message A. *)
Definition log_exchange (send_buffer bytes : list Z) (used : usize) : request unit :=
  let* _ := on_common (append_message_a send_buffer) in
  let* rsp := received bytes used in
  on_common (append_message_a rsp).
Definition handle_spdm_version_response (session_id : u32) (send_buffer bytes : list Z) : request unit :=
  handle_any_version (Some session_id) bytes SpdmResponseVersion (ret tt) (λ reader,
    let* (p, reader) := read_payload SpdmVersionResponsePayload reader in
    let* c := get_common in
    match negotiate_version (cfg_spdm_version (config_info c)) p with
    | Some v =>
        let* _ := upd_common (upd_negotiate (with_spdm_version_sel v)) in
        let* _ := upd_common reset_runtime_info in
        log_exchange send_buffer bytes (Reader.used reader)
    | None => throw SPDM_STATUS_NEGOTIATION_FAIL
    end).
Definition receive_spdm_version (send_buffer : list Z) : request unit :=
  let* bytes := receive_message None false in
  handle_spdm_version_response 0 send_buffer bytes.
Definition send_receive_spdm_version : request unit :=
  let* _ := new_send_buffer in
  let* send_used := send_spdm_version in
  let* bs := send_bytes send_used in
  receive_spdm_version bs.

(** ** GET_CAPABILITIES *)
Definition encode_spdm_capability : request usize :=
  let* c := get_common in
  let cfg := config_info c in
  encode_selected SpdmRequestGetCapabilities
    (SpdmGetCapabilitiesRequest (mkGetCapabilities (cfg_req_ct_exponent cfg) (cfg_req_capabilities cfg)
       (cfg_data_transfer_size cfg) (cfg_max_spdm_msg_size cfg) empty_flags)).
Definition send_spdm_capability : request usize :=
  let* _ := upd_common (reset_buffer_via_request_code SpdmRequestGetCapabilities None) in
  let* send_used := encode_spdm_capability in
  let* bs := send_bytes send_used in
  let* _ := send_message None bs false in
  ret send_used.
Definition accept_capabilities (p : SpdmCapabilitiesResponsePayload) (c : SpdmContext) : SpdmContext :=
  let cfg := config_info c in
  let c := upd_negotiate (with_req_ct_exponent_sel (cfg_req_ct_exponent cfg)) c in
  let c := upd_negotiate (with_req_capabilities_sel (cfg_req_capabilities cfg)) c in
  let c := upd_negotiate (with_rsp_ct_exponent_sel (cap_ct_exponent p)) c in
  let c := upd_negotiate (with_rsp_capabilities_sel (cap_flags p)) c in
  if ver_ge c SpdmVersion12 then
    let c := upd_negotiate (with_req_data_transfer_size_sel (cfg_data_transfer_size cfg)) c in
    let c := upd_negotiate (with_req_max_spdm_msg_size_sel (cfg_max_spdm_msg_size cfg)) c in
    let c := upd_negotiate (with_rsp_data_transfer_size_sel (cap_data_transfer_size p)) c in
    upd_negotiate (with_rsp_max_spdm_msg_size_sel (cap_max_spdm_msg_size p)) c
  else c.
Definition handle_spdm_capability_response (session_id : u32) (send_buffer bytes : list Z) : request unit :=
  handle_response (Some session_id) bytes SpdmResponseCapabilities (ret tt) (λ reader,
    let* (p, reader) := read_payload SpdmCapabilitiesResponsePayload reader in
    let* _ := upd_common (accept_capabilities p) in
    log_exchange send_buffer bytes (Reader.used reader)).
Definition receive_spdm_capability (send_buffer : list Z) : request unit :=
  let* bytes := receive_message None false in
  handle_spdm_capability_response 0 send_buffer bytes.
Definition send_receive_spdm_capability : request unit :=
  let* _ := new_send_buffer in
  let* send_used := send_spdm_capability in
  let* bs := send_bytes send_used in
  receive_spdm_capability bs.

(** ** NEGOTIATE_ALGORITHMS *)
Definition encode_spdm_algorithm : request usize :=
  let* c := get_common in
  let cfg := config_info c in
  let v14 := ver_ge c SpdmVersion14 in
  let* (alg_struct_count, alg_struct) := lift (offered_structs cfg v14) in
  encode_selected SpdmRequestNegotiateAlgorithms
    (SpdmNegotiateAlgorithmsRequest
       (mkNegotiateAlgorithms (cfg_measurement_specification cfg) (offered_params c)
          (cfg_base_asym_algo cfg) (cfg_base_hash_algo cfg)
          (if v14 then cfg_pqc_asym_algo cfg else empty_flags)
          (if ver_ge c SpdmVersion13 then cfg_mel_specification cfg else empty_flags)
          (wrap 8 alg_struct_count) alg_struct)).
Definition send_spdm_algorithm : request usize :=
  let* _ := upd_common (reset_buffer_via_request_code SpdmRequestNegotiateAlgorithms None) in
  let* send_used := encode_spdm_algorithm in
  let* bs := send_bytes send_used in
  let* _ := send_message None bs false in
  ret send_used.

Definition upd_neg (f : SpdmNegotiateInfo → SpdmNegotiateInfo) : request unit := upd_common (upd_negotiate f).
Definition nego_fail_if (b : bool) : request unit := if b then throw SPDM_STATUS_NEGOTIATION_FAIL else ret tt.
(** Which side uses several keys. *)
Definition accept_multi_key (a : SpdmAlgorithmsResponsePayload) : request unit :=
  let* c := get_common in
  let cfg := config_info c in
  let rsp_cap f := contains (rsp_capabilities_sel (negotiate_info c)) f in
  let own_cap f := contains (cfg_req_capabilities cfg) f in
  let* _ := upd_neg (with_multi_key_conn_rsp
              (if rsp_cap SpdmResponseCapabilityFlags.MULTI_KEY_CAP_ONLY then true
               else if rsp_cap SpdmResponseCapabilityFlags.MULTI_KEY_CAP_CONN_SEL
               then contains (cfg_other_params_support cfg) SpdmAlgoOtherParams.MULTI_KEY_CONN
               else false)) in
  if contains (ar_other_params_selection a) SpdmAlgoOtherParams.MULTI_KEY_CONN then
    let* _ := nego_fail_if (negb (own_cap SpdmRequestCapabilityFlags.MULTI_KEY_CAP_ONLY) &&
                            negb (own_cap SpdmRequestCapabilityFlags.MULTI_KEY_CAP_CONN_SEL)) in
    upd_neg (with_multi_key_conn_req true)
  else
    let* _ := nego_fail_if (own_cap SpdmRequestCapabilityFlags.MULTI_KEY_CAP_ONLY) in
    upd_neg (with_multi_key_conn_req false).
(** One algorithm structure of the response. *)
Definition accept {d} (v : flags d) (set : flags d → SpdmNegotiateInfo → SpdmNegotiateInfo) : request unit :=
  if is_no_more_than_one_selected v || (bits v =? 0) then upd_neg (set v) else invalid_field.
Definition accept_alg (alg : SpdmAlg) : request unit :=
  let* c := get_common in
  let v14 := ver_ge c SpdmVersion14 in
  match alg with
  | SpdmAlgoDhe v => accept v with_dhe_sel
  | SpdmAlgoAead v => accept v with_aead_sel
  | SpdmAlgoReqAsym v => accept v with_req_asym_sel
  | SpdmAlgoKeySchedule v => accept v with_key_schedule_sel
  | SpdmAlgoPqcReqAsym v => if v14 then accept v with_pqc_req_asym_sel else ret tt
  | SpdmAlgoKem v => if v14 then accept v with_kem_sel else ret tt
  | SpdmAlgoUnknown => ret tt
  end.
Fixpoint accept_algs (algs : list SpdmAlgStruct) : request unit :=
  match algs with
  | [] => ret tt
  | a :: algs => let* _ := accept_alg (alg_supported a) in accept_algs algs
  end.
Definition accept_mel (a : SpdmAlgorithmsResponsePayload) : request unit :=
  let* c := get_common in
  let wanted := bool_decide (cfg_mel_specification (config_info c) ≠ empty_flags) &&
                contains (rsp_capabilities_sel (negotiate_info c)) SpdmResponseCapabilityFlags.MEL_CAP in
  let* _ := invalid_if (bool_decide (ar_mel_specification_sel a ≠
              if wanted then SpdmMelSpecification.DMTF_MEL_SPEC else empty_flags)) in
  upd_neg (with_mel_specification_sel (ar_mel_specification_sel a)).
(** The selection of the responder becomes that of the connection. *)
Definition accept_algorithms (a : SpdmAlgorithmsResponsePayload) : request unit :=
  let* _ := upd_neg (with_measurement_specification_sel (ar_measurement_specification_sel a)) in
  let* _ := upd_neg (with_other_params_support (ar_other_params_selection a)) in
  let* c := get_common in
  let* _ := if ver_ge c SpdmVersion13 then accept_multi_key a else ret tt in
  let* _ := upd_neg (with_measurement_hash_sel (ar_measurement_hash_algo a)) in
  let* _ := nego_fail_if (bits (ar_base_hash_sel a) =? 0) in
  let* _ := upd_neg (with_base_hash_sel (ar_base_hash_sel a)) in
  let* _ := upd_neg (with_base_asym_sel (ar_base_asym_sel a)) in
  let* _ := if ver_ge c SpdmVersion14 then upd_neg (with_pqc_asym_sel (ar_pqc_asym_sel a)) else ret tt in
  let* _ := nego_fail_if ((bits (ar_base_asym_sel a) =? 0) && (bits (ar_pqc_asym_sel a) =? 0)) in
  let* _ := accept_algs (ztake (ar_alg_struct_count a) (ar_alg_struct a)) in
  if ver_ge c SpdmVersion13 then accept_mel a else ret tt.
Definition handle_spdm_algorithm_response (session_id : u32) (send_buffer bytes : list Z) : request unit :=
  handle_response (Some session_id) bytes SpdmResponseAlgorithms (ret tt) (λ reader,
    let* (a, reader) := read_payload SpdmAlgorithmsResponsePayload reader in
    let* _ := accept_algorithms a in
    log_exchange send_buffer bytes (Reader.used reader)).
Definition receive_spdm_algorithm (send_buffer : list Z) : request unit :=
  let* bytes := receive_message None false in
  handle_spdm_algorithm_response 0 send_buffer bytes.
Definition send_receive_spdm_algorithm : request unit :=
  let* _ := new_send_buffer in
  let* send_used := send_spdm_algorithm in
  let* bs := send_bytes send_used in
  receive_spdm_algorithm bs.
End Requests.
End ReqNegotiate.
