(* ===== verification/ReqAuth.v ===== *)
(** * Authentication and measurements in the requester

    Models get_digests_req.rs, get_certificate_req.rs, challenge_req.rs and
    get_measurements_req.rs of src/spdmlib/src/requester, with the verification
    of certificate chains and signatures in the default feature
    [hashed-transcript-data]. *)

From S2P Require Import Prelude Codec Status Bitflags Algo DataTypes Structs Version Crypto HashCtx ManagedBuffer.
From S2P Require Import CertChain Session Header ContextData Transport Context Transcript CertOp X509 SpdmCodec.
From S2P Require Import MsgLib MsgAuth MsgMisc Message Platform RspLib RspAuth RspSession ReqLib.
Import Context Transcript RspAuth ReqLib.

Module ReqAuth.
Section Requests.
Context `{Platform} `{SpdmCrypto} `{SpdmTransportEncap}.

(** [peer_pub_key], or the chain in the slot; the key of a signature is the
    certificates of the chain. *)
Definition peer_key (c : SpdmContext) : SpdmResult (list Z) :=
  let! k := ok_or (peer_pub_key (provision_info c)) SPDM_STATUS_INVALID_PARAMETER in
  or_panic (slice (ccd_data k) 0 (ccd_size k)).
Definition peer_certs (c : SpdmContext) (slot_id : u8) : SpdmResult (list Z) :=
  let! chain := slot (peer_cert_chain (peer_info c)) slot_id in
  let! chain := ok_or chain SPDM_STATUS_INVALID_PARAMETER in
  let! hash_size := get_hash_size c in
  or_panic (slice (ccb_data chain) (4 + hash_size) (ccb_size chain)).
Definition peer_der (c : SpdmContext) (pub_key_slot slot_id : u8) : SpdmResult SpdmDer :=
  if slot_id =? pub_key_slot then
    let! d := peer_key c in Ok (SpdmDerPubKeyRfc7250 d)
  else let! d := peer_certs c slot_id in Ok (SpdmDerCertChain d).
(** The signature of the responder over a hash of the transcript. *)
Definition verify_signature (c : SpdmContext) (pub_key_slot slot_id : u8) (zeropad context : list Z)
    (hash : SpdmDigestStruct) (signature : SpdmSignatureStruct) : SpdmResult unit :=
  let! der := peer_der c pub_key_slot slot_id in
  let! m := message_sign c zeropad context hash in
  let n := negotiate_info c in
  spdm_asym_verify (base_hash_sel n) (base_asym_sel n) (pqc_asym_sel n) der m signature.

(** Message B is kept outside of sessions only. *)
Definition log_b (session_id : option u32) (send_buffer bytes : list Z) (used : usize) : request unit :=
  match session_id with
  | None =>
      let* _ := on_common (append_message_b send_buffer) in
      let* rsp := received bytes used in
      on_common (append_message_b rsp)
  | Some _ => ret tt
  end.

(** ** GET_DIGESTS *)
Definition encode_spdm_digest : request usize :=
  encode_selected SpdmRequestGetDigests (SpdmGetDigestsRequest mkGetDigests).
Definition send_spdm_digest (session_id : option u32) : request usize :=
  let* _ := upd_common (reset_buffer_via_request_code SpdmRequestGetDigests session_id) in
  let* send_used := encode_spdm_digest in
  let* bs := send_bytes send_used in
  let* _ := send_message session_id bs false in
  ret send_used.
(** The key information of the slots in the mask, which is packed. *)
Fixpoint peer_key_info (d : SpdmDigestsResponsePayload) (ids : list Z) (packed_index : Z) (p : SpdmPeerInfo) :
    SpdmResult SpdmPeerInfo :=
  match ids with
  | [] => Ok p
  | i :: ids =>
      if negb (Z.land (dg_slot_mask d) (wrap 8 (Z.shiftl 1 i)) =? 0) then
        let! k := or_panic (znth (dg_key_pair_id d) packed_index) in
        let! ks := or_panic (zset (peer_key_pair_id p) i (Some k)) in
        let! t := or_panic (znth (dg_certificate_info d) packed_index) in
        let! ts := or_panic (zset (peer_cert_info p) i (Some t)) in
        let! u := or_panic (znth (dg_key_usage_mask d) packed_index) in
        let! us := or_panic (zset (peer_key_usage_bit_mask p) i (Some u)) in
        peer_key_info d ids (packed_index + 1)
          (with_peer_key_usage_bit_mask us (with_peer_cert_info ts (with_peer_key_pair_id ks p)))
      else peer_key_info d ids packed_index p
  end.
Definition handle_spdm_digest_response (session_id : option u32) (send_buffer bytes : list Z) : request unit :=
  handle_response session_id bytes SpdmResponseDigests (ret tt) (λ reader,
    let* (d, reader) := read_payload SpdmDigestsResponsePayload reader in
    let* _ := log_b session_id send_buffer bytes (Reader.used reader) in
    let* _ := upd_common (upd_peer (with_peer_provisioned_slot_mask (dg_slot_mask d))) in
    let* c := get_common in
    let* _ := if ver_ge c SpdmVersion13
              then upd_common (upd_peer (with_peer_supported_slot_mask (dg_supported_slot_mask d))) else ret tt in
    let* c := get_common in
    if ver_ge c SpdmVersion13 && multi_key_conn_rsp (negotiate_info c) then
      let* p := lift (peer_key_info d slot_ids 0 (peer_info c)) in
      upd_common (with_peer_info p)
    else ret tt).
Definition receive_spdm_digest (session_id : option u32) (send_buffer : list Z) : request unit :=
  let* bytes := receive_message session_id false in
  handle_spdm_digest_response session_id send_buffer bytes.
Definition send_receive_spdm_digest (session_id : option u32) : request unit :=
  let* _ := new_send_buffer in
  let* send_used := send_spdm_digest session_id in
  let* bs := send_bytes send_used in
  receive_spdm_digest session_id bs.

(** ** GET_CERTIFICATE *)
Definition encode_spdm_certificate_partial (slot_id : u8) (offset length : u32) : request usize :=
  encode_selected SpdmRequestGetCertificate (SpdmGetCertificateRequest (mkGetCertificate slot_id offset length)).
Definition send_spdm_certificate (session_id : option u32) (slot_id : u8) (offset length : u32) : request usize :=
  let* send_used := encode_spdm_certificate_partial slot_id offset length in
  let* bs := send_bytes send_used in
  let* _ := send_message session_id bs false in
  ret send_used.
(** The portion continues the chain and fits its total size, once that is
    known. *)
Definition portion_bad (slot_id : u8) (total_size offset length : u32) (p : SpdmCertificateResponsePayload) :
    SpdmResult bool :=
  if (cert_portion_length p =? 0) || (length <? cert_portion_length p) then Ok true else
  let! rest := sub_checked MAX_SPDM_CERT_CHAIN_DATA_SIZE offset in
  if rest <? cert_portion_length p then Ok true else
  let! rest := sub_checked rest (cert_portion_length p) in
  if rest <=? cert_remainder_length p then Ok true else
  if negb (total_size =? 0) && negb (total_size =? offset + cert_portion_length p + cert_remainder_length p)
  then Ok true else
  Ok (negb (cert_slot_id p =? slot_id)).
(** [peer_cert_chain_temp.data[offset..offset + n].copy_from_slice(..); data_size = offset + n] *)
Definition add_portion (offset : u32) (p : SpdmCertificateResponsePayload) (b : SpdmCertChainBuffer) :
    SpdmResult SpdmCertChainBuffer :=
  let n := cert_portion_length p in
  let! d := or_panic (slice (cert_cert_chain p) 0 n) in
  let! data := or_panic (copy_from_slice (ccb_data b) offset (offset + n) d) in
  Ok (mkCertChainBuffer (offset + n) data).
Definition handle_spdm_certificate_partial_response (session_id : option u32) (slot_id : u8)
    (total_size offset length : u32) (send_buffer bytes : list Z) : request (u32 * u32) :=
  handle_response session_id bytes SpdmResponseCertificate error_peer (λ reader,
    let* (p, reader) := read_payload SpdmCertificateResponsePayload reader in
    let* bad := lift (portion_bad slot_id total_size offset length p) in
    let* _ := invalid_if bad in
    let* c := get_common in
    let* b := lift (ok_or (peer_cert_chain_temp (peer_info c)) SPDM_STATUS_INVALID_STATE_LOCAL) in
    let* b := lift (add_portion offset p b) in
    let* _ := upd_common (upd_peer (with_peer_cert_chain_temp (Some b))) in
    let* _ := log_b session_id send_buffer bytes (Reader.used reader) in
    ret (cert_portion_length p, cert_remainder_length p)).
Definition receive_spdm_certificate (session_id : option u32) (slot_id : u8) (total_size offset length : u32)
    (send_buffer : list Z) : request (u32 * u32) :=
  let* bytes := receive_message session_id false in
  handle_spdm_certificate_partial_response session_id slot_id total_size offset length send_buffer bytes.
(** [while length != 0 { .. }]: the total size when the loop ends. *)
Fixpoint certificate_loop (fuel : nat) (session_id : option u32) (slot_id : u8) (total_size offset length : u32) :
    request u32 :=
  match fuel with
  | O => panic
  | S fuel =>
      if length =? 0 then ret total_size else
      let* send_used := send_spdm_certificate session_id slot_id offset length in
      let* bs := send_bytes send_used in
      let* (portion_length, remainder_length) :=
        receive_spdm_certificate session_id slot_id total_size offset length bs in
      let total_size := if total_size =? 0 then portion_length + remainder_length else total_size in
      let length := if MAX_SPDM_CERT_PORTION_LEN <? remainder_length then MAX_SPDM_CERT_PORTION_LEN
                    else remainder_length in
      certificate_loop fuel session_id slot_id total_size (offset + portion_length) length
  end.
(** A portion has one byte at least, and the chain fewer than
    [MAX_SPDM_CERT_CHAIN_DATA_SIZE]. *)
Definition certificate_rounds : nat := S (Z.to_nat MAX_SPDM_CERT_CHAIN_DATA_SIZE).

(** [m.is_ok()] *)
Definition succeeds {E F A} (m : outcome E A) : outcome F bool :=
  match m with Ok _ => Ok true | Err _ => Ok false | Panic => Panic end.
(** The root is one of those provisioned, if there are any. *)
Fixpoint found_match (root_cert : list Z) (roots : list SpdmCertChainData) : SpdmResult bool :=
  match roots with
  | [] => Ok false
  | r :: roots =>
      if negb (len root_cert =? ccd_size r) then found_match root_cert roots else
      let! d := or_panic (slice (ccd_data r) 0 (ccd_size r)) in
      if decide (root_cert = d) then Ok true else found_match root_cert roots
  end.
Definition check_provisioned_root (c : SpdmContext) (root_cert : list Z) : SpdmResult unit :=
  let roots := omap id (peer_root_cert_data (provision_info c)) in
  let! found := found_match root_cert roots in
  if negb (bool_decide (roots = [])) && negb found then Err SPDM_STATUS_INVALID_CERT else Ok tt.
(** The hash of a self-issued root is the one in front of the chain. *)
Definition check_root_hash (c : SpdmContext) (b : SpdmCertChainBuffer) (root_cert : list Z) : SpdmResult unit :=
  let! is_root := succeeds (X509.is_root_certificate root_cert) in
  if is_root then
    let! root_hash := map_err (λ _, SPDM_STATUS_CRYPTO_ERROR)
                        (hash_all (base_hash_sel (negotiate_info c)) root_cert) in
    let! h := or_panic (slice (data root_hash) 0 (data_size root_hash)) in
    let! hash_size := get_hash_size c in
    let! h' := or_panic (slice (ccb_data b) 4 (4 + hash_size)) in
    if decide (h = h') then Ok tt else Err SPDM_STATUS_INVALID_CERT
  else Ok tt.
(** [data_size_in_cert_chain], in little endian *)
Definition data_size_in_cert_chain (b : SpdmCertChainBuffer) : SpdmResult u32 :=
  let! b0 := or_panic (znth (ccb_data b) 0) in
  let! b1 := or_panic (znth (ccb_data b) 1) in
  let! b2 := or_panic (znth (ccb_data b) 2) in
  let! b3 := or_panic (znth (ccb_data b) 3) in
  Ok (b0 + Z.shiftl b1 8 + Z.shiftl b2 16 + Z.shiftl b3 24).
(** The certificates behind the header of the chain. *)
Definition chain_certs (c : SpdmContext) (b : SpdmCertChainBuffer) : SpdmResult (list Z) :=
  let! hash_size := get_hash_size c in
  if ccb_size b <=? 4 + hash_size then Err SPDM_STATUS_INVALID_CERT else
  let! n := data_size_in_cert_chain b in
  if negb (n =? ccb_size b) then Err SPDM_STATUS_INVALID_CERT else
  let data_size := ccb_size b - 4 - hash_size in
  let! d := or_panic (slice (ccb_data b) (4 + hash_size) (ccb_size b)) in
  let! data := or_panic (copy_from_slice (zeros MAX_SPDM_CERT_CHAIN_DATA_SIZE) 0 data_size d) in
  or_panic (slice data 0 data_size).
Definition verify_spdm_certificate_chain (c : SpdmContext) : SpdmResult unit :=
  let! b := ok_or (peer_cert_chain_temp (peer_info c)) SPDM_STATUS_INVALID_PARAMETER in
  let! certs := chain_certs c b in
  let! _ := map_err (λ _, SPDM_STATUS_INVALID_CERT) (verify_cert_chain_cb certs) in
  let! (root_cert_begin, root_cert_end) := get_cert_from_cert_chain certs 0 in
  let! root_cert := or_panic (slice certs root_cert_begin root_cert_end) in
  let! _ := check_root_hash c b root_cert in
  let! (leaf_cert_begin, leaf_cert_end) := get_cert_from_cert_chain certs (-1) in
  let! leaf_cert := or_panic (slice certs leaf_cert_begin leaf_cert_end) in
  let! _ := map_err (λ _, SPDM_STATUS_INVALID_CERT)
              (X509.check_leaf_certificate leaf_cert
                 (contains (rsp_capabilities_sel (negotiate_info c)) SpdmResponseCapabilityFlags.ALIAS_CERT_CAP)) in
  check_provisioned_root c root_cert.
(** The chain joins its slot only if it was verified. *)
Definition send_receive_spdm_certificate_with (fuel : nat) (session_id : option u32) (slot_id : u8) : request unit :=
  if SPDM_MAX_SLOT_NUMBER <=? slot_id then throw SPDM_STATUS_INVALID_STATE_LOCAL else
  let* _ := upd_common (reset_buffer_via_request_code SpdmRequestGetCertificate session_id) in
  let* _ := upd_common (upd_peer (with_peer_cert_chain_temp (Some CertChainBuffer.default))) in
  let* _ := new_send_buffer in
  let* total_size := certificate_loop fuel session_id slot_id 0 0 MAX_SPDM_CERT_PORTION_LEN in
  if total_size =? 0 then
    let* _ := upd_common (upd_peer (with_peer_cert_chain_temp None)) in
    throw SPDM_STATUS_INVALID_CERT
  else
    let* c := get_common in
    let result := verify_spdm_certificate_chain c in
    let* ok := lift (succeeds result) in
    let* _ :=
      if ok then
        let* chains := lift (or_panic (zset (peer_cert_chain (peer_info c)) slot_id
                                         (peer_cert_chain_temp (peer_info c)))) in
        upd_common (upd_peer (with_peer_cert_chain chains))
      else ret tt in
    let* _ := upd_common (upd_peer (with_peer_cert_chain_temp None)) in
    lift result.
Definition send_receive_spdm_certificate : option u32 → u8 → request unit :=
  send_receive_spdm_certificate_with certificate_rounds.

(** ** CHALLENGE *)
Definition encode_spdm_challenge (slot_id : u8) (t : SpdmMeasurementSummaryHashType)
    (requester_context : SpdmChallengeContextStruct) : request usize :=
  let* nonce := on_world (get_random SPDM_NONCE_SIZE) in
  encode_selected SpdmRequestChallenge
    (SpdmChallengeRequest (mkChallenge slot_id t (mkByteArray nonce) requester_context)).
Definition send_spdm_challenge (slot_id : u8) (t : SpdmMeasurementSummaryHashType)
    (requester_context_struct : option SpdmChallengeContextStruct) : request usize :=
  if (SPDM_MAX_SLOT_NUMBER <=? slot_id) && negb (slot_id =? SPDM_PUB_KEY_SLOT_ID_CHALLENGE)
  then throw SPDM_STATUS_INVALID_PARAMETER else
  let* _ := upd_common (reset_buffer_via_request_code SpdmRequestChallenge None) in
  let* send_used := encode_spdm_challenge slot_id t (default byte_array_default requester_context_struct) in
  let* bs := send_bytes send_used in
  let* _ := send_message None bs false in
  ret send_used.
(** [hash_all] of the public key or of the chain in the slot *)
Definition expected_hash (c : SpdmContext) (slot_id : u8) : SpdmResult SpdmDigestStruct :=
  let! d :=
    if slot_id =? SPDM_PUB_KEY_SLOT_ID_CHALLENGE then
      let! k := ok_or (peer_pub_key (provision_info c)) SPDM_STATUS_INVALID_PARAMETER in
      CertChainData.as_ref k
    else
      let! chain := slot (peer_cert_chain (peer_info c)) slot_id in
      let! chain := ok_or chain SPDM_STATUS_INVALID_PARAMETER in
      CertChainBuffer.as_ref chain in
  map_err (λ _, SPDM_STATUS_INVALID_PARAMETER) (hash_all (base_hash_sel (negotiate_info c)) d).
Definition verify_challenge_auth_cert_chain_hash (c : SpdmContext) (slot_id : u8)
    (cert_chain_hash : SpdmDigestStruct) : SpdmResult unit :=
  let! expected := expected_hash c slot_id in
  if negb (data_size cert_chain_hash =? data_size expected) then Err SPDM_STATUS_VERIF_FAIL else
  let! h := or_panic (slice (data cert_chain_hash) 0 (data_size cert_chain_hash)) in
  let! h' := or_panic (slice (data expected) 0 (data_size expected)) in
  if decide (h = h') then Ok tt else Err SPDM_STATUS_VERIF_FAIL.
Definition verify_challenge_auth_signature (c : SpdmContext) (slot_id : u8) (signature : SpdmSignatureStruct) :
    SpdmResult unit :=
  let! ctx := ok_or (digest_context_m1m2 (runtime_info c)) SPDM_STATUS_CRYPTO_ERROR in
  let! hash := map_err (λ _, SPDM_STATUS_CRYPTO_ERROR) (hash_ctx_finalize ctx) in
  verify_signature c SPDM_PUB_KEY_SLOT_ID_CHALLENGE slot_id SPDM_VERSION_SIGNING_CONTEXT_ZEROPAD_4
    SPDM_CHALLENGE_AUTH_SIGN_CONTEXT hash signature.
(** [if m.is_err() { reset(); return Err(SPDM_STATUS_VERIF_FAIL) }] *)
Definition verified (reset : SpdmContext → SpdmContext) (m : SpdmResult unit) : request unit :=
  let* ok := lift (succeeds m) in
  if ok then ret tt else
  let* _ := upd_common reset in
  throw SPDM_STATUS_VERIF_FAIL.
Definition reset_messages_bc (c : SpdmContext) : SpdmContext := reset_message_c (reset_message_b c).
Definition handle_spdm_challenge_response (session_id : u32) (slot_id : u8) (t : SpdmMeasurementSummaryHashType)
    (requester_context : SpdmChallengeContextStruct) (send_buffer bytes : list Z) : request unit :=
  let* _ := expect_summary t in
  handle_response (Some session_id) bytes SpdmResponseChallengeAuth (ret tt) (λ reader,
    let* (a, reader) := read_payload SpdmChallengeAuthResponsePayload reader in
    let* c := get_common in
    let* _ := invalid_if (ver_ge c SpdmVersion13
                && bool_decide (ba_data (ca_requester_context a) ≠ ba_data requester_context)) in
    let* _ := verified reset_messages_bc (verify_challenge_auth_cert_chain_hash c slot_id (ca_cert_chain_hash a)) in
    let* signature_size := lift (get_asym_sig_size c) in
    let* temp_used := lift (sub_checked (Reader.used reader) signature_size) in
    let* _ := on_common (append_message_c send_buffer) in
    let* rsp := received bytes temp_used in
    let* _ := on_common (append_message_c rsp) in
    let* c := get_common in
    let* _ := verified reset_messages_bc (verify_challenge_auth_signature c slot_id (ca_signature a)) in
    upd_common reset_messages_bc).
Definition receive_spdm_challenge (slot_id : u8) (t : SpdmMeasurementSummaryHashType)
    (requester_context : SpdmChallengeContextStruct) (send_buffer : list Z) : request unit :=
  let* bytes := receive_message None true in
  handle_spdm_challenge_response 0 slot_id t requester_context send_buffer bytes.
Definition send_receive_spdm_challenge (slot_id : u8) (t : SpdmMeasurementSummaryHashType)
    (requester_context_struct : option SpdmChallengeContextStruct) : request unit :=
  let* _ := new_send_buffer in
  let* send_used := send_spdm_challenge slot_id t requester_context_struct in
  let* bs := send_bytes send_used in
  receive_spdm_challenge slot_id t (default byte_array_default requester_context_struct) bs.

(** ** GET_MEASUREMENTS *)
Definition encode_spdm_measurement_record (attributes : SpdmMeasurementAttributes) (op : SpdmMeasurementOperation)
    (spdm_nonce_struct : option SpdmNonceStruct) (slot_id : u8) (requester_context : SpdmMeasurementContextStruct) :
    request usize :=
  let* nonce := match spdm_nonce_struct with
                | Some n => ret (ba_data n)
                | None => on_world (get_random SPDM_NONCE_SIZE)
                end in
  encode_selected SpdmRequestGetMeasurements
    (SpdmGetMeasurementsRequest (mkGetMeasurements attributes op (mkByteArray nonce) slot_id requester_context)).
Definition verify_measurement_signature (c : SpdmContext) (slot_id : u8) (session_id : option u32)
    (signature : SpdmSignatureStruct) : SpdmResult unit :=
  let! ctx :=
    match session_id with
    | None => ok_or (digest_context_l1l2 (runtime_info c)) SPDM_STATUS_CRYPTO_ERROR
    | Some id =>
        let! s := ok_or (get_immutable_session_via_id id c) SPDM_STATUS_INVALID_MSG_FIELD in
        ok_or (ses_digest_context_l1l2 (ses_runtime_info s)) SPDM_STATUS_CRYPTO_ERROR
    end in
  let! hash := map_err (λ _, SPDM_STATUS_CRYPTO_ERROR) (hash_ctx_finalize ctx) in
  verify_signature c SPDM_PUB_KEY_SLOT_ID_MEASUREMENT slot_id SPDM_VERSION_SIGNING_CONTEXT_ZEROPAD_6
    SPDM_MEASUREMENTS_SIGN_CONTEXT hash signature.

(** The variables of the caller the request writes to. *)
Record MeasOut := mkMeasOut {
  out_content_changed : option SpdmMeasurementContentChanged;
  out_total_number : u8;
  out_record : SpdmMeasurementRecordStructure;
  out_transcript_meas : option ManagedBufferM;
}.
Definition measuring (A : Type) : Type := requesting MeasOut A.
Definition set_content_changed v o := mkMeasOut v (out_total_number o) (out_record o) (out_transcript_meas o).
Definition set_total_number v o := mkMeasOut (out_content_changed o) v (out_record o) (out_transcript_meas o).
Definition set_record v o := mkMeasOut (out_content_changed o) (out_total_number o) v (out_transcript_meas o).
Definition set_transcript_meas v o := mkMeasOut (out_content_changed o) (out_total_number o) (out_record o) v.
(** [if let Some(ret_message_m) = transcript_meas { ret_message_m.append_message(m).ok_or(..)?; }] *)
Definition out_append (m : list Z) : measuring unit :=
  λ '(n, o),
    match out_transcript_meas o with
    | None => (Ok tt, (n, o))
    | Some b =>
        let '(r, b') := append_message m b in
        (let! _ := map_err (λ _, SPDM_STATUS_BUFFER_FULL) r in Ok tt, (n, set_transcript_meas (Some b') o))
    end.
Definition has_transcript : measuring bool :=
  λ '(n, o), (Ok (bool_decide (is_Some (out_transcript_meas o))), (n, o)).
(** The caller's copy of the exchange, with the signature behind it. *)
Definition out_log (send_buffer rsp : list Z) (signed : bool) (signature : SpdmSignatureStruct) : measuring unit :=
  let* copy := has_transcript in
  let* _ := out_append send_buffer in
  let* _ := out_append rsp in
  if copy && signed then
    let* s := lift (sens_as_ref signature) in
    if decide (s = []) then throw SPDM_STATUS_INVALID_MSG_FIELD else out_append s
  else ret tt.
(** What is done with a response that was read. *)
Definition accept_measurements (session_id : option u32) (slot_id : u8) (signed : bool)
    (requester_context : SpdmMeasurementContextStruct) (send_buffer bytes : list Z) (used : usize)
    (m : SpdmMeasurementsResponsePayload) : measuring unit :=
  let* c := on_node get_common in
  let* _ := if ver_ge c SpdmVersion12 then
              let* _ := on_node (upd_common (upd_runtime (with_content_changed (ms_content_changed m)))) in
              upd_out (set_content_changed (Some (ms_content_changed m)))
            else upd_out (set_content_changed None) in
  let* c := on_node get_common in
  let* signature_size := lift (get_asym_sig_size c) in
  let* temp_used := lift (sub_checked used
                            (if need_measurement_signature (runtime_info c) then signature_size else 0)) in
  let* _ := on_node (on_common (append_message_m session_id send_buffer)) in
  let* rsp := on_node (received bytes temp_used) in
  let* _ := on_node (on_common (append_message_m session_id rsp)) in
  let* _ := out_log send_buffer rsp signed (ms_signature m) in
  let* c := on_node get_common in
  let* _ := on_node (invalid_if (ver_ge c SpdmVersion13
              && bool_decide (ba_data (ms_requester_context m) ≠ ba_data requester_context))) in
  let* _ := if signed then
              let* _ := on_node (verified (reset_message_m session_id)
                          (verify_measurement_signature c slot_id session_id (ms_signature m))) in
              on_node (upd_common (reset_message_m session_id))
            else ret tt in
  upd_out (set_record (ms_measurement_record m)).
Definition handle_spdm_measurement_record_response (session_id : option u32) (slot_id : u8)
    (attributes : SpdmMeasurementAttributes) (op : SpdmMeasurementOperation)
    (requester_context : SpdmMeasurementContextStruct) (send_buffer bytes : list Z) : measuring u8 :=
  let signed := contains attributes SIGNATURE_REQUESTED in
  let* _ := on_node (upd_common (upd_runtime (with_need_measurement_signature signed))) in
  let* (m, reader) := on_node (handle_response session_id bytes SpdmResponseMeasurements error_peer
                                 (read_payload SpdmMeasurementsResponsePayload)) in
  let query := bool_decide (op = SpdmMeasurementQueryTotalNumber) in
  let* _ := on_node (invalid_if (query && negb (number_of_blocks (ms_measurement_record m) =? 0))) in
  let* _ := accept_measurements session_id slot_id signed requester_context send_buffer bytes
              (Reader.used reader) m in
  ret (if query then ms_number_of_measurement m else number_of_blocks (ms_measurement_record m)).
Definition send_spdm_measurement (session_id : option u32) (slot_id : u8) (attributes : SpdmMeasurementAttributes)
    (op : SpdmMeasurementOperation) (spdm_nonce_struct : option SpdmNonceStruct)
    (requester_context : SpdmMeasurementContextStruct) : measuring usize :=
  let* copy := has_transcript in
  let* _ := if copy then ret tt else upd_out (set_transcript_meas (Some mb_default)) in
  if (SPDM_MAX_SLOT_NUMBER <=? slot_id) && negb (slot_id =? SPDM_PUB_KEY_SLOT_ID_MEASUREMENT)
  then throw SPDM_STATUS_INVALID_PARAMETER else
  on_node
    (let* _ := upd_common (reset_buffer_via_request_code SpdmRequestGetMeasurements session_id) in
     let* send_used := encode_spdm_measurement_record attributes op spdm_nonce_struct slot_id requester_context in
     let* bs := send_bytes send_used in
     let* _ := send_message session_id bs false in
     ret send_used).
(** A failed request forgets the transcript, unless the peer was not ready. *)
Definition receive_spdm_measurement (session_id : option u32) (slot_id : u8) (attributes : SpdmMeasurementAttributes)
    (op : SpdmMeasurementOperation) (requester_context : SpdmMeasurementContextStruct) (send_buffer : list Z) :
    measuring unit :=
  let* bytes := on_node (receive_message session_id true) in
  let* n := or_else (handle_spdm_measurement_record_response session_id slot_id attributes op requester_context
                       send_buffer bytes)
              (λ e, let* _ := if status_eqb e SPDM_STATUS_NOT_READY_PEER then ret tt else
                              let* _ := on_node (upd_common (reset_message_m session_id)) in
                              upd_out (set_transcript_meas None) in
                    throw e) in
  upd_out (set_total_number n).
Definition send_receive_spdm_measurement (session_id : option u32) (slot_id : u8)
    (attributes : SpdmMeasurementAttributes) (op : SpdmMeasurementOperation)
    (spdm_nonce_struct : option SpdmNonceStruct)
    (requester_context_struct : option SpdmMeasurementContextStruct) : measuring unit :=
  let requester_context := default byte_array_default requester_context_struct in
  let* _ := on_node new_send_buffer in
  let* send_used := send_spdm_measurement session_id slot_id attributes op spdm_nonce_struct requester_context in
  let* bs := on_node (send_bytes send_used) in
  receive_spdm_measurement session_id slot_id attributes op requester_context bs.
End Requests.
End ReqAuth.
