(* ===== verification/ReqSession.v ===== *)
(** * Sessions in the requester

    Models key_exchange_req.rs, finish_req.rs, psk_exchange_req.rs,
    psk_finish_req.rs, heartbeat_req.rs, key_update_req.rs, end_session_req.rs
    and vendor_req.rs of src/spdmlib/src/requester. *)

From S2P Require Import Prelude Codec Status Bitflags Algo DataTypes Structs Version Crypto HashCtx ManagedBuffer.
From S2P Require Import CertChain Session Header ContextData Transport Context Transcript SpdmCodec Opaque.
From S2P Require Import MsgLib MsgSession MsgMisc Message Platform RspLib RspAuth RspSession ReqLib ReqAuth.
Import Context Transcript RspAuth RspSession ReqLib ReqAuth.

Module ReqSession.
Definition SPDM_PUB_KEY_SLOT_ID_FINISH : u8 := 0xFF.

Section Requests.
Context `{Platform} `{SpdmCrypto} `{SpdmTransportEncap}.

(** ** Sessions *)
(** [self.common.get_immutable_session_via_id(id).ok_or(..)?] *)
Definition session_or (id : u32) (missing : SpdmStatus) : request SpdmSession :=
  let* c := get_common in lift (ok_or (get_immutable_session_via_id id c) missing).
Definition session_local (id : u32) : request SpdmSession := session_or id SPDM_STATUS_INVALID_STATE_LOCAL.
(** [calc_req_transcript_hash] of the session *)
Definition req_transcript_hash (id : u32) : request SpdmDigestStruct :=
  let* s := session_local id in lift (calc_transcript_hash s).
(** [if res.is_err() { .. .teardown(); return Err(..) }], where the session
    must be there, or may be. *)
Definition or_teardown {A} (id : u32) (m : request A) : request A :=
  or_else m (λ e, let* _ := on_session id (modify Session.teardown) in throw e).
Definition or_teardown_if {A} (id : u32) (m : request A) : request A :=
  or_else m (λ e, let* _ := teardown_via_id id in throw e).
(** The exchange that opens a session: when it fails after the id of the
    session was determined, that session is torn down. *)
Definition opening {A} (m : requesting (option u32) A) : request u32 :=
  λ n, match m (n, None) with
       | (Ok _, (n, target)) => (or_panic target, n)
       | (Err e, (n, Some id)) => (let* _ := teardown_via_id id in throw e) n
       | (Err e, (n, None)) => (Err e, n)
       | (Panic, (n, _)) => (Panic, n)
       end.
(** The keys of the handshake and of the data, from the transcript so far. *)
Definition req_handshake_secret (id : u32) : request unit :=
  let* th1 := req_transcript_hash id in
  let* c := get_common in
  on_session id (let* _ := modify (with_th1 th1) in Session.generate_handshake_secret (selected c) th1).
Definition req_data_secret (id : u32) : request unit :=
  let* th2 := req_transcript_hash id in
  let* c := get_common in
  on_session id (let* _ := modify (with_th2 th2) in
                 let* _ := Session.generate_data_secret (selected c) th2 in
                 modify (with_session_state SpdmSessionEstablished)).
(** The verify data of a response, over the transcript before it. *)
Definition verify_finished (id : u32) (missing : SpdmStatus) (verify_data : SpdmDigestStruct) : request bool :=
  let* hash := req_transcript_hash id in
  let* h := lift (sens_as_ref hash) in
  let* s := session_or id missing in
  lift (succeeds (Session.verify_hmac_with_response_finished_key s h verify_data)).
(** Without them, or without room for them in message K, the session ends. *)
Definition check_finished (id : u32) (missing : SpdmStatus) (verify_data : SpdmDigestStruct) : request unit :=
  let* ok := verify_finished id missing verify_data in
  let* _ := if ok then ret tt else
            let* _ := on_session id (modify Session.teardown) in throw SPDM_STATUS_VERIF_FAIL in
  let* v := lift (sens_as_ref verify_data) in
  or_else (append_k id v)
    (λ _, let* _ := with_session_or id missing (modify Session.teardown) in throw SPDM_STATUS_BUFFER_FULL).

(** The versions of secured messages in the opaque data of an exchange. *)
Fixpoint list_versions (own : list SecuredMessageVersion) (l : SecuredMessageVersionList) :
    SpdmResult SecuredMessageVersionList :=
  match own with
  | [] => Ok l
  | v :: own =>
      let! vs := or_panic (zset (versions_list l) (version_count l) v) in
      let! n := add_checked 8 (version_count l) 1 in
      list_versions own (mkVersionList n vs)
  end.
Definition supported_versions (c : SpdmContext) : SpdmResult SpdmOpaqueStruct :=
  let! l := list_versions (omap id (cfg_secure_spdm_version (config_info c)))
              SecuredMessageVersionList_default in
  from_sm_opaque c (mkSupportedVerList l).

(** ** KEY_EXCHANGE *)
Inductive SpdmReqExchangeContext :=
| SpdmReqExchangeContextDhe (ctx : DheContext)
| SpdmReqExchangeContextKem (ctx : KemDecapContext).
Definition offer_keys (c : SpdmContext) : request (SpdmReqExchangeStruct * SpdmReqExchangeContext) :=
  let n := negotiate_info c in
  if bool_decide (kem_sel n ≠ empty_flags) then
    let* (kem_exchange, ctx) :=
      on_world (map_errM (λ _, SPDM_STATUS_CRYPTO_ERROR) (kem_generate_key_pair (kem_sel n))) in
    let* exchange := lift (sens_copy kem_exchange) in
    ret (exchange, SpdmReqExchangeContextKem ctx)
  else
    let* (dhe_exchange, ctx) :=
      on_world (map_errM (λ _, SPDM_STATUS_CRYPTO_ERROR) (generate_key_pair (dhe_sel n))) in
    let* exchange := lift (sens_copy dhe_exchange) in
    ret (exchange, SpdmReqExchangeContextDhe ctx).
Definition encode_spdm_key_exchange (req_session_id : u16) (slot_id : u8) (t : SpdmMeasurementSummaryHashType) :
    request (SpdmReqExchangeContext * usize) :=
  let* c := get_common in
  let session_policy := cfg_session_policy (config_info c) in
  if ver_ge c SpdmVersion13
     && (Z.land session_policy KEY_EXCHANGE_REQUESTER_SESSION_POLICY_EVENT_ALL_POLICY_MASK
         =? KEY_EXCHANGE_REQUESTER_SESSION_POLICY_EVENT_ALL_POLICY_VALUE)
     && rsp_cap c SpdmResponseCapabilityFlags.EVENT_CAP
  then throw SPDM_STATUS_UNSUPPORTED_CAP else
  let* random := on_world (get_random SPDM_RANDOM_SIZE) in
  let* (exchange, key_exchange_context) := offer_keys c in
  let* opaque := lift (supported_versions c) in
  let* _ := encode_selected SpdmRequestKeyExchange
              (SpdmKeyExchangeRequest (mkKeyExchange t slot_id req_session_id session_policy
                 (mkByteArray random) exchange opaque)) in
  let* used := on_writer (λ w, (Ok (Writer.used w), w)) in
  ret (key_exchange_context, used).
Definition init_spdm_key_exchange (slot_id : u8) (t : SpdmMeasurementSummaryHashType) :
    request (u16 * SpdmReqExchangeContext * usize) :=
  let* c := get_common in
  if (SPDM_MAX_SLOT_NUMBER <=? slot_id)
     && (negb (slot_id =? SPDM_PUB_KEY_SLOT_ID_KEY_EXCHANGE)
         || bool_decide (peer_pub_key (provision_info c) = None))
  then throw SPDM_STATUS_INVALID_PARAMETER else
  let* req_session_id := lift (get_next_half_session_id true c) in
  let* _ := upd_common (reset_buffer_via_request_code SpdmRequestKeyExchange None) in
  let* _ := upd_common (upd_runtime (with_peer_used_cert_chain_slot_id slot_id)) in
  let* (key_exchange_context, send_used) := encode_spdm_key_exchange req_session_id slot_id t in
  ret (req_session_id, key_exchange_context, send_used).

Definition shared_secret (c : SpdmContext) (ctx : SpdmReqExchangeContext) (e : SpdmRspExchangeStruct) :
    request SpdmSharedSecretFinalKeyStruct :=
  if bool_decide (kem_sel (negotiate_info c) ≠ empty_flags) then
    let* kem_exchange := lift (sens_copy e) in
    match ctx with
    | SpdmReqExchangeContextDhe _ => throw SPDM_STATUS_CRYPTO_ERROR
    | SpdmReqExchangeContextKem ctx =>
        on_world (map_errM (λ _, SPDM_STATUS_CRYPTO_ERROR) (kem_decap_key ctx kem_exchange))
    end
  else
    let* dhe_exchange := lift (sens_copy e) in
    match ctx with
    | SpdmReqExchangeContextKem _ => throw SPDM_STATUS_CRYPTO_ERROR
    | SpdmReqExchangeContextDhe ctx =>
        on_world (map_errM (λ _, SPDM_STATUS_CRYPTO_ERROR) (compute_final_key ctx dhe_exchange))
    end.
(** The hash of the identity the session is bound to. *)
Definition peer_identity (c : SpdmContext) (slot_id : u8) : SpdmResult SpdmDigestStruct :=
  if slot_id =? SPDM_PUB_KEY_SLOT_ID_KEY_EXCHANGE then
    let! d := peer_key c in
    map_err (λ _, SPDM_STATUS_INVALID_MSG_FIELD) (hash_all (base_hash_sel (negotiate_info c)) d)
  else map_err (λ _, SPDM_STATUS_INVALID_MSG_FIELD) (get_certchain_hash_peer false slot_id c).
Definition verify_key_exchange_rsp_signature (c : SpdmContext) (slot_id : u8) (s : SpdmSession)
    (signature : SpdmSignatureStruct) : SpdmResult unit :=
  let! hash := calc_transcript_hash s in
  verify_signature c SPDM_PUB_KEY_SLOT_ID_KEY_EXCHANGE slot_id SPDM_VERSION_SIGNING_CONTEXT_ZEROPAD_2
    SPDM_KEY_EXCHANGE_RESPONSE_SIGN_CONTEXT hash signature.
(** The session in its slot: parameters, shared secret and identities. *)
Definition bind_session (id : u32) (mut_auth_req : SpdmKeyExchangeMutAuthAttributes)
    (final_key : SpdmSharedSecretFinalKeyStruct) (cert_chain_hash : SpdmDigestStruct) : request unit :=
  let* c := get_common in
  let* (i, _) := lift (ok_or (get_next_avaiable_session c) SPDM_STATUS_SESSION_NUMBER_EXCEED) in
  on_slot i (
    let* _ := setup_session c false id in
    let* _ := modify (with_mut_auth_requested mut_auth_req) in
    let* _ := Session.set_shared_secret (selected c) final_key in
    modify (λ s, with_ses_runtime_info
      (with_req_cert_hash None (with_rsp_cert_hash (Some cert_chain_hash)
         (with_ses_message_a (message_a (runtime_info c)) (ses_runtime_info s)))) s)).
(** The signature, the keys of the handshake and the verify data. *)
Definition authenticate_responder (slot_id : u8) (id : u32) (send_buffer bytes : list Z) (receive_used : usize)
    (p : SpdmKeyExchangeResponsePayload) : request unit :=
  let* c := get_common in
  let clear := in_clear_text c in
  let* signature_size := lift (get_asym_sig_size c) in
  let* base_hash_size := lift (get_hash_size c) in
  let* temp_receive_used := lift (sub_checked receive_used signature_size) in
  let* temp_receive_used := if clear then ret temp_receive_used
                            else lift (sub_checked temp_receive_used base_hash_size) in
  let* _ := append_k id send_buffer in
  let* rsp := received bytes temp_receive_used in
  let* _ := append_k id rsp in
  let* s := session_local id in
  let* c := get_common in
  let* ok := lift (succeeds (verify_key_exchange_rsp_signature c slot_id s (ker_signature p))) in
  let* _ := if ok then ret tt else throw SPDM_STATUS_VERIF_FAIL in
  let* sig := lift (sens_as_ref (ker_signature p)) in
  let* _ := append_k id sig in
  let* _ := req_handshake_secret id in
  if clear then ret tt else check_finished id SPDM_STATUS_INVALID_STATE_LOCAL (ker_verify_data p).
Definition handle_spdm_key_exchange_response (req_session_id : u16) (slot_id : u8) (send_buffer bytes : list Z)
    (t : SpdmMeasurementSummaryHashType) (ctx : SpdmReqExchangeContext) : requesting (option u32) unit :=
  let* _ := on_node (expect_summary t) in
  let* (p, reader) := on_node (handle_response None bytes SpdmResponseKeyExchangeRsp error_peer
                                 (read_payload SpdmKeyExchangeResponsePayload)) in
  let* c := on_node get_common in
  let* final_key := on_node (shared_secret c ctx (ker_exchange p)) in
  let* secure_spdm_version_sel :=
    lift (map_err (λ _, SPDM_STATUS_INVALID_MSG_FIELD)
            (req_get_dmtf_secure_spdm_version_selection c (ker_opaque p))) in
  let* id := lift (add_checked 32 (wrap 32 (Z.shiftl (ker_rsp_session_id p) 16)) req_session_id) in
  let* _ := upd_out (λ _, Some id) in
  on_node
    (let* cert_chain_hash := lift (peer_identity c slot_id) in
     let* _ := bind_session id (ker_mut_auth_req p) final_key cert_chain_hash in
     let* _ := authenticate_responder slot_id id send_buffer bytes (Reader.used reader) p in
     let* _ := on_session id (
                 let* _ := modify (with_secure_spdm_version_sel secure_spdm_version_sel) in
                 let* _ := modify (with_heartbeat_period (ker_heartbeat_period p)) in
                 modify (with_session_state SpdmSessionHandshaking)) in
     if in_clear_text c then upd_common (upd_runtime (with_last_session_id (Some id))) else ret tt).
Definition receive_spdm_key_exchange (req_session_id : u16) (slot_id : u8) (t : SpdmMeasurementSummaryHashType)
    (ctx : SpdmReqExchangeContext) (send_buffer : list Z) : request u32 :=
  let* bytes := receive_message None false in
  opening (handle_spdm_key_exchange_response req_session_id slot_id send_buffer bytes t ctx).
Definition send_receive_spdm_key_exchange (slot_id : u8) (t : SpdmMeasurementSummaryHashType) : request u32 :=
  let* _ := new_send_buffer in
  let* (req_session_id, ctx, send_used) := init_spdm_key_exchange slot_id t in
  let* bs := send_bytes send_used in
  let* _ := send_message None bs false in
  receive_spdm_key_exchange req_session_id slot_id t ctx bs.

(** ** FINISH *)
Definition append_req_f (id : u32) (m : list Z) : request unit := on_common (append_message_f true id m).
Definition generate_finish_req_signature (c : SpdmContext) (s : SpdmSession) :
    M World SpdmStatus SpdmSignatureStruct :=
  let* hash := lift (calc_transcript_hash s) in
  let* m := lift (message_sign c SPDM_VERSION_SIGNING_CONTEXT_ZEROPAD_12 SPDM_FINISH_SIGN_CONTEXT hash) in
  let n := negotiate_info c in
  map_errM (λ _, SPDM_STATUS_CRYPTO_ERROR)
    (spdm_asym_sign c (base_hash_sel n) (SpdmReqAsymAlgo.to_base (req_asym_sel n))
       (SpdmPqcReqAsymAlgo.to_base (pqc_req_asym_sel n)) m).
(** The verify data over the transcript so far, at the end of the request. *)
Definition write_verify_data (id : u32) (send_used : usize) : request unit :=
  let* c := get_common in
  let* base_hash_size := lift (get_hash_size c) in
  let* hash := req_transcript_hash id in
  let* h := lift (sens_as_ref hash) in
  let* s := session_local id in
  let* hmac := lift (Session.generate_hmac_with_request_finished_key s h) in
  let* v := lift (sens_as_ref hmac) in
  let* _ := append_req_f id v in
  let* a := lift (sub_checked send_used base_hash_size) in
  patch_buffer a send_used v.
Definition encode_spdm_finish (id : u32) (req_slot_id : u8) : request usize :=
  let* s := session_local id in
  let* c := get_common in
  let mut_auth := negb (is_empty (mut_auth_requested s)) in
  let* signature := if mut_auth then
                      let* n := lift (get_req_asym_sig_size c) in ret (mkSens n (data (sens_default : SpdmSignatureStruct)))
                    else ret sens_default in
  let* hash_size := lift (get_hash_size c) in
  let opaque_total_size := if ver_ge c SpdmVersion14 then 2 else 0 in
  let* send_used :=
    encode_selected SpdmRequestFinish
      (SpdmFinishRequest (mkFinish (if mut_auth then SIGNATURE_INCLUDED else empty_flags) req_slot_id signature
         (mkSens hash_size (replicate (Z.to_nat SPDM_MAX_HASH_SIZE) 0xcc)) sens_default)) in
  let* req := send_bytes (4 + opaque_total_size) in
  let* _ := append_req_f id req in
  let* s := session_local id in
  let* _ :=
    if negb (is_empty (mut_auth_requested s)) then
      let* c := get_common in
      let* signature := on_world (generate_finish_req_signature c s) in
      let* sig := lift (sens_as_ref signature) in
      let* _ := patch_buffer (4 + opaque_total_size) (4 + opaque_total_size + data_size signature) sig in
      append_req_f id sig
    else ret tt in
  let* _ := write_verify_data id send_used in
  ret send_used.
(** The slot of the requester's own chain, for mutual authentication. *)
Definition finish_slot (c : SpdmContext) (req_slot_id : option u8) : SpdmResult u8 :=
  match req_slot_id with
  | None => Ok 0
  | Some req_slot_id =>
      if negb (req_slot_id =? SPDM_PUB_KEY_SLOT_ID_FINISH) && (SPDM_MAX_SLOT_NUMBER <=? req_slot_id)
      then Err SPDM_STATUS_INVALID_STATE_LOCAL else
      if req_slot_id <? SPDM_MAX_SLOT_NUMBER then
        let! chain := slot (my_cert_chain (provision_info c)) req_slot_id in
        if bool_decide (chain = None) then Err SPDM_STATUS_INVALID_STATE_LOCAL else Ok req_slot_id
      else Ok req_slot_id
  end.
Definition init_spdm_finish (req_slot_id : option u8) (id : u32) : request (u8 * bool * usize) :=
  let* c := get_common in
  let* req_slot_id := lift (finish_slot c req_slot_id) in
  let* _ := session_or id SPDM_STATUS_INVALID_PARAMETER in
  let* _ := upd_common (reset_buffer_via_request_code SpdmRequestFinish (Some id)) in
  let* send_used := or_teardown id (encode_spdm_finish id req_slot_id) in
  ret (req_slot_id, in_clear_text c, send_used).
(** FINISH is sent and answered outside of the session if the handshake is in
    the clear. *)
Definition finish_session (id : u32) (clear : bool) : option u32 := if clear then None else Some id.
Definition send_spdm_finish (id : u32) (clear : bool) (send_buffer : list Z) : request unit :=
  or_teardown id (send_message (finish_session id clear) send_buffer false).
(** The version in the header of the response is not checked. *)
Definition handle_spdm_finish_response (id : u32) (bytes : list Z) : request unit :=
  let* c := get_common in
  let clear := in_clear_text c in
  let* _ := session_local id in
  handle_any_version (Some id) bytes SpdmResponseFinishRsp (ret tt) (λ reader,
    let* (p, reader) := read_payload SpdmFinishResponsePayload reader in
    let receive_used := Reader.used reader in
    let* base_hash_size := lift (get_hash_size c) in
    let* _ :=
      if clear then
        let* temp_used := lift (sub_checked receive_used base_hash_size) in
        let* rsp := received bytes temp_used in
        let* _ := append_req_f id rsp in
        let* ok := verify_finished id SPDM_STATUS_INVALID_STATE_LOCAL (finr_verify_data p) in
        let* _ := if ok then ret tt else throw SPDM_STATUS_VERIF_FAIL in
        let* v := lift (sens_as_ref (finr_verify_data p)) in
        append_req_f id v
      else
        let* rsp := received bytes receive_used in
        append_req_f id rsp in
    let* _ := req_data_secret id in
    upd_common (upd_runtime (with_last_session_id None))).
Definition receive_spdm_finish (id : u32) (clear : bool) : request unit :=
  let* bytes := or_teardown id (receive_message (finish_session id clear) false) in
  or_teardown_if id (handle_spdm_finish_response id bytes).
Definition send_receive_spdm_finish (req_slot_id : option u8) (id : u32) : request unit :=
  let* _ := new_send_buffer in
  let* (_, clear, send_used) := init_spdm_finish req_slot_id id in
  let* bs := send_bytes send_used in
  let* _ := send_spdm_finish id clear bs in
  receive_spdm_finish id clear.

(** ** PSK_EXCHANGE *)
Definition encode_spdm_psk_exchange (half_session_id : u16) (t : SpdmMeasurementSummaryHashType)
    (psk_hint : SpdmPskHintStruct) : request usize :=
  let* c := get_common in
  let* psk_context := on_world (get_random MAX_SPDM_PSK_CONTEXT_SIZE) in
  let* opaque := lift (supported_versions c) in
  let* hash_size := lift (get_hash_size c) in
  encode_selected SpdmRequestPskExchange
    (SpdmPskExchangeRequest (mkPskExchange t half_session_id psk_hint (mkSens hash_size psk_context) opaque)).
Definition send_spdm_psk_exchange (t : SpdmMeasurementSummaryHashType) (psk_hint : option SpdmPskHintStruct) :
    request (u16 * SpdmPskHintStruct * usize) :=
  let psk_hint := default sens_default psk_hint in
  let* _ := upd_common (reset_buffer_via_request_code SpdmRequestPskExchange None) in
  let* c := get_common in
  let* half_session_id := lift (get_next_half_session_id true c) in
  let* send_used := encode_spdm_psk_exchange half_session_id t psk_hint in
  let* bs := send_bytes send_used in
  let* _ := send_message None bs false in
  ret (half_session_id, psk_hint, send_used).
(** The session in its slot, its keys and the verify data. *)
Definition psk_bind_session (id : u32) (psk_hint : SpdmPskHintStruct) (send_buffer bytes : list Z)
    (receive_used : usize) (p : SpdmPskExchangeResponsePayload) : request unit :=
  let* c := get_common in
  let* (i, _) := lift (ok_or (get_next_avaiable_session c) SPDM_STATUS_SESSION_NUMBER_EXCEED) in
  let* _ := on_slot i (
    let* _ := setup_session c true id in
    modify (λ s, with_ses_runtime_info
      (with_req_cert_hash None (with_rsp_cert_hash None
         (with_ses_message_a (message_a (runtime_info c))
            (with_psk_hint (Some psk_hint) (ses_runtime_info s))))) s)) in
  let* base_hash_size := lift (get_hash_size c) in
  let* temp_receive_used := lift (sub_checked receive_used base_hash_size) in
  let* _ := append_k id send_buffer in
  let* rsp := received bytes temp_receive_used in
  let* _ := append_k id rsp in
  let* _ := req_handshake_secret id in
  check_finished id SPDM_STATUS_INVALID_PARAMETER (per_verify_data p).
Definition handle_spdm_psk_exchange_response (half_session_id : u16) (t : SpdmMeasurementSummaryHashType)
    (psk_hint : SpdmPskHintStruct) (send_buffer bytes : list Z) : requesting (option u32) u32 :=
  let* _ := on_node (expect_summary t) in
  let* (p, reader) := on_node (handle_response None bytes SpdmResponsePskExchangeRsp error_peer
                                 (read_payload SpdmPskExchangeResponsePayload)) in
  let* c := on_node get_common in
  let* secure_spdm_version_sel :=
    lift (map_err (λ _, SPDM_STATUS_INVALID_MSG_FIELD)
            (req_get_dmtf_secure_spdm_version_selection c (per_opaque p))) in
  let* id := lift (add_checked 32 (wrap 32 (Z.shiftl (per_rsp_session_id p) 16)) half_session_id) in
  let* _ := upd_out (λ _, Some id) in
  on_node
    (let* _ := psk_bind_session id psk_hint send_buffer bytes (Reader.used reader) p in
     let* _ := with_session_or id SPDM_STATUS_INVALID_PARAMETER
                 (modify (with_session_state SpdmSessionHandshaking)) in
     let* _ := session_local id in
     let* _ := if rsp_cap c SpdmResponseCapabilityFlags.PSK_CAP_WITHOUT_CONTEXT
               then req_data_secret id else ret tt in
     let* _ := on_session id (
                 let* _ := modify (with_secure_spdm_version_sel secure_spdm_version_sel) in
                 modify (with_heartbeat_period (per_heartbeat_period p))) in
     ret id).
Definition receive_spdm_psk_exchange (half_session_id : u16) (t : SpdmMeasurementSummaryHashType)
    (psk_hint : SpdmPskHintStruct) (send_buffer : list Z) : request u32 :=
  let* bytes := receive_message None false in
  opening (handle_spdm_psk_exchange_response half_session_id t psk_hint send_buffer bytes).
Definition send_receive_spdm_psk_exchange (t : SpdmMeasurementSummaryHashType)
    (psk_hint : option SpdmPskHintStruct) : request u32 :=
  let* _ := new_send_buffer in
  let* (half_session_id, psk_hint, send_used) := send_spdm_psk_exchange t psk_hint in
  let* bs := send_bytes send_used in
  receive_spdm_psk_exchange half_session_id t psk_hint bs.

(** ** PSK_FINISH *)
Definition encode_spdm_psk_finish (id : u32) : request usize :=
  let* c := get_common in
  let* base_hash_size := lift (get_hash_size c) in
  let* send_used :=
    encode_selected SpdmRequestPskFinish
      (SpdmPskFinishRequest (mkPskFinish
         (mkSens base_hash_size (replicate (Z.to_nat SPDM_MAX_HASH_SIZE) 0xcc)) sens_default)) in
  let* temp_used := lift (sub_checked send_used base_hash_size) in
  let* req := send_bytes temp_used in
  let* _ := append_req_f id req in
  let* _ := write_verify_data id send_used in
  ret send_used.
Definition send_spdm_psk_finish (id : u32) : request unit :=
  let* _ := session_or id SPDM_STATUS_INVALID_PARAMETER in
  let* _ := upd_common (reset_buffer_via_request_code SpdmRequestPskFinish (Some id)) in
  let* _ := new_send_buffer in
  let* send_used := or_teardown id (encode_spdm_psk_finish id) in
  let* bs := send_bytes send_used in
  or_teardown id (send_message (Some id) bs false).
Definition handle_spdm_psk_finish_response (id : u32) (bytes : list Z) : request unit :=
  handle_response (Some id) bytes SpdmResponsePskFinishRsp (ret tt) (λ reader,
    let* (_, reader) := read_payload SpdmPskFinishResponsePayload reader in
    let* rsp := received bytes (Reader.used reader) in
    let* _ := append_req_f id rsp in
    req_data_secret id).
Definition receive_spdm_psk_finish (id : u32) : request unit :=
  let* bytes := or_teardown id (receive_message (Some id) false) in
  or_teardown_if id (handle_spdm_psk_finish_response id bytes).
Definition send_receive_spdm_psk_finish (id : u32) : request unit :=
  let* _ := or_teardown_if id (send_spdm_psk_finish id) in
  receive_spdm_psk_finish id.

(** ** HEARTBEAT *)
Definition encode_spdm_heartbeat : request usize :=
  encode_selected SpdmRequestHeartbeat (SpdmHeartbeatRequest mkHeartbeat).
Definition send_spdm_heartbeat (id : u32) : request unit :=
  let* _ := upd_common (reset_buffer_via_request_code SpdmRequestHeartbeat (Some id)) in
  let* _ := new_send_buffer in
  let* used := encode_spdm_heartbeat in
  let* bs := send_bytes used in
  send_message (Some id) bs false.
Definition handle_spdm_heartbeat_response (id : u32) (bytes : list Z) : request unit :=
  handle_response (Some id) bytes SpdmResponseHeartbeatAck (ret tt) (λ reader,
    let* _ := read_payload SpdmHeartbeatResponsePayload reader in ret tt).
Definition receive_spdm_heartbeat (id : u32) : request unit :=
  let* bytes := receive_message (Some id) false in
  handle_spdm_heartbeat_response id bytes.
Definition send_receive_spdm_heartbeat (id : u32) : request unit :=
  let* _ := send_spdm_heartbeat id in
  receive_spdm_heartbeat id.

(** ** KEY_UPDATE *)
Definition encode_spdm_key_update_op (op : SpdmKeyUpdateOperation) (tag : u8) : request usize :=
  encode_selected SpdmRequestKeyUpdate (SpdmKeyUpdateRequest (mkKeyUpdate op tag)).
Definition send_spdm_key_update (id : u32) (op : SpdmKeyUpdateOperation) (tag : u8) : request unit :=
  let* _ := upd_common (reset_buffer_via_request_code SpdmRequestKeyUpdate (Some id)) in
  let* _ := new_send_buffer in
  let* used := encode_spdm_key_update_op op tag in
  let* bs := send_bytes used in
  send_message (Some id) bs false.
(** The new keys are kept with a valid acknowledgement and given up without. *)
Definition handle_spdm_key_update_op_response (id : u32) (update_requester update_responder : bool)
    (bytes : list Z) : request unit :=
  let activate (c : SpdmContext) (use_new_key : bool) : request unit :=
    with_session_or id SPDM_STATUS_INVALID_PARAMETER
      (modify (Session.activate_data_secret_update (selected c) update_requester update_responder use_new_key)) in
  let* (header, reader) := read_field SpdmMessageHeader (Reader.init bytes) in
  let* c := get_common in
  let* _ := invalid_if (bool_decide (version header ≠ selected c)) in
  if decide (request_response_code header = SpdmResponseKeyUpdateAck) then
    match fst (spdm_read (A:=SpdmKeyUpdateResponsePayload) c reader) with
    | Ok _ => activate c true
    | Err _ => let* _ := activate c false in invalid_field
    | Panic => panic
    end
  else if decide (request_response_code header = SpdmResponseError) then
    let* _ := activate c false in
    spdm_handle_error_response_main (Some id) bytes
  else throw SPDM_STATUS_ERROR_PEER.
Definition receive_spdm_key_update (id : u32) (op : SpdmKeyUpdateOperation) : request unit :=
  let update_requester := bool_decide (op = SpdmUpdateSingleKey) || bool_decide (op = SpdmUpdateAllKeys) in
  let update_responder := bool_decide (op = SpdmUpdateAllKeys) in
  let* c := get_common in
  let* _ := with_session_or id SPDM_STATUS_INVALID_PARAMETER
              (Session.create_data_secret_update (selected c) update_requester update_responder) in
  let* bytes := receive_message (Some id) false in
  handle_spdm_key_update_op_response id update_requester update_responder bytes.
Definition send_receive_spdm_key_update (id : u32) (op : SpdmKeyUpdateOperation) : request unit :=
  if bool_decide (op ≠ SpdmUpdateAllKeys) && bool_decide (op ≠ SpdmUpdateSingleKey) then invalid_field else
  let* _ := send_spdm_key_update id op 1 in
  let* _ := receive_spdm_key_update id op in
  let* _ := send_spdm_key_update id SpdmVerifyNewKey 2 in
  receive_spdm_key_update id SpdmVerifyNewKey.

(** ** END_SESSION *)
Definition encode_spdm_end_session : request usize :=
  encode_selected SpdmRequestEndSession (SpdmEndSessionRequest (mkEndSession empty_flags)).
Definition send_spdm_end_session (id : u32) : request usize :=
  let* _ := upd_common (reset_buffer_via_request_code SpdmRequestEndSession (Some id)) in
  let* used := encode_spdm_end_session in
  let* bs := send_bytes used in
  let* _ := send_message (Some id) bs false in
  ret used.
Definition handle_spdm_end_session_response (id : u32) (bytes : list Z) : request unit :=
  handle_response (Some id) bytes SpdmResponseEndSessionAck (ret tt) (λ reader,
    let* _ := read_payload SpdmEndSessionResponsePayload reader in
    with_session_or id SPDM_STATUS_INVALID_PARAMETER (modify Session.teardown)).
Definition receive_spdm_end_session (id : u32) : request unit :=
  let* bytes := receive_message (Some id) false in
  handle_spdm_end_session_response id bytes.
Definition send_receive_spdm_end_session (id : u32) : request unit :=
  let* _ := new_send_buffer in
  let* _ := send_spdm_end_session id in
  receive_spdm_end_session id.

(** ** Vendor-defined requests *)
Definition send_spdm_vendor_defined_request (session_id : option u32) (standard_id : RegistryOrStandardsBodyID)
    (vendor_id : VendorIDStruct) (req_payload : VendorDefinedReqPayloadStruct) : request unit :=
  let* _ := upd_common (reset_buffer_via_request_code SpdmRequestVendorDefinedRequest session_id) in
  let* _ := new_send_buffer in
  let* used := encode_selected SpdmRequestVendorDefinedRequest
                 (SpdmVendorDefinedRequest (mkVendorDefined standard_id vendor_id req_payload)) in
  let* bs := send_bytes used in
  send_message session_id bs false.
Definition handle_spdm_vendor_defined_respond (session_id : option u32) (bytes : list Z) :
    request VendorDefinedRspPayloadStruct :=
  handle_response session_id bytes SpdmResponseVendorDefinedResponse error_peer (λ reader,
    let* (p, _) := read_payload SpdmVendorDefinedResponsePayload reader in ret (vd_payload p)).
Definition receive_spdm_vendor_defined_request (session_id : option u32) : request VendorDefinedRspPayloadStruct :=
  let* bytes := receive_message session_id false in
  handle_spdm_vendor_defined_respond session_id bytes.
Definition send_receive_spdm_vendor_defined_request (session_id : option u32)
    (standard_id : RegistryOrStandardsBodyID) (vendor_id : VendorIDStruct)
    (req_payload : VendorDefinedReqPayloadStruct) : request VendorDefinedRspPayloadStruct :=
  let* _ := send_spdm_vendor_defined_request session_id standard_id vendor_id req_payload in
  receive_spdm_vendor_defined_request session_id.
Definition send_spdm_vendor_defined_request_ex (session_id : option u32) (req_bytes : list Z) : request unit :=
  let* _ := upd_common (reset_buffer_via_request_code SpdmRequestVendorDefinedRequest session_id) in
  send_message session_id req_bytes false.
Definition handle_spdm_vendor_defined_respond_ex (session_id : option u32) (bytes : list Z) : request (list Z) :=
  handle_response session_id bytes SpdmResponseVendorDefinedResponse error_peer (λ _, ret bytes).
End Requests.
End ReqSession.
