(* ===== verification/Requester.v ===== *)
(** * The requester

    Models [RequesterContext] of src/spdmlib/src/requester/context.rs: the
    opening of a connection and the start and end of sessions, composed of the
    requests of the other files. *)

From S2P Require Import Prelude Codec Status Bitflags Algo DataTypes Structs Version Crypto HashCtx ManagedBuffer.
From S2P Require Import CertChain Session Header ContextData Transport Context Transcript SpdmCodec MsgLib Platform.
From S2P Require Import RspLib ReqLib ReqNegotiate ReqAuth ReqSession.
Import Context Transcript ReqLib ReqNegotiate ReqAuth ReqSession.

Module Requester.
Section Requester.
Context `{Platform} `{SpdmCrypto} `{SpdmTransportEncap}.

(** The three negotiating exchanges; the caller gets message A. *)
Definition init_connection : requesting (option ManagedBufferA) unit :=
  let* _ := upd_out (λ _, None) in
  let* _ := on_node send_receive_spdm_version in
  let* _ := on_node send_receive_spdm_capability in
  let* _ := on_node send_receive_spdm_algorithm in
  let* c := on_node get_common in
  upd_out (λ _, Some (message_a (runtime_info c))).

(** A session from a key exchange or from a pre-shared key. *)
Definition start_session (use_psk : bool) (slot_id : u8) (t : SpdmMeasurementSummaryHashType) : request u32 :=
  if negb use_psk then
    let* session_id := send_receive_spdm_key_exchange slot_id t in
    let* _ := send_receive_spdm_finish None session_id in
    ret session_id
  else
    let* session_id := send_receive_spdm_psk_exchange t None in
    let* c := get_common in
    let* _ := if contains (rsp_capabilities_sel (negotiate_info c)) SpdmResponseCapabilityFlags.PSK_CAP_WITH_CONTEXT
              then send_receive_spdm_psk_finish session_id else ret tt in
    ret session_id.
Definition end_session (session_id : u32) : request unit := send_receive_spdm_end_session session_id.
End Requester.
End Requester.
