(* ===== verification/ReqLaws.v ===== *)
(** * What requests keep, and what they ensure

    [keeps R m]: however [m] ends, the contexts before and after it are
    related by [R].  [ensures m Q s]: if [m] returns from [s], [Q] holds of the
    result and of the state.  Proved: the rules for both, and that the requests
    of the requester do not touch the configuration, the provisioned data, the
    negotiated parameters and the certificate chains of the peer. *)

From S2P Require Import Prelude Codec Status Bitflags Algo DataTypes Structs Version Crypto HashCtx ManagedBuffer.
From S2P Require Import CertChain Session SecuredMessage Header ContextData Transport Context Transcript SpdmCodec.
From S2P Require Import MsgLib MsgMisc Message Platform RspLib RspAuth RspSession ReqLib.
Import Context Transcript RspSession ReqLib.

(** ** Outcomes *)
Lemma obind_ok {E A B} (m : outcome E A) (k : A → outcome E B) b :
  obind m k = Ok b → ∃ a, m = Ok a ∧ k a = Ok b.
Proof. destruct m; cbn; [eauto|done..]. Qed.
Lemma or_panic_ok {E A} (o : option A) (a : A) : or_panic (E:=E) o = Ok a → o = Some a.
Proof. destruct o; cbn; [by intros [= ->]|done]. Qed.
Lemma ok_or_ok {E A} (o : option A) (e : E) (a : A) : ok_or o e = Ok a → o = Some a.
Proof. destruct o; cbn; [by intros [= ->]|done]. Qed.
Lemma map_err_ok {E F A} (f : E → F) (m : outcome E A) (a : A) : map_err f m = Ok a → m = Ok a.
Proof. by destruct m; cbn; [intros [= ->]|..]. Qed.

(** ** Rules *)
Section Keeps.
Context {W : Type} (R : SpdmContext → SpdmContext → Prop) `{!PreOrder R}.
Definition keeps {E A} (m : M (Node W) E A) : Prop := ∀ n, R (common n) (common (snd (m n))).
Context {E : Type}.

Lemma keeps_pure {A} (f : Node W → outcome E A * Node W) :
  (∀ n, common (snd (f n)) = common n) → keeps f.
Proof. intros Hf n. by rewrite Hf. Qed.
Lemma keeps_ret {A} (a : A) : keeps (E:=E) (ret a).
Proof. by apply keeps_pure. Qed.
Lemma keeps_throw {A} (e : E) : keeps (A:=A) (throw e).
Proof. by apply keeps_pure. Qed.
Lemma keeps_panic {A} : keeps (E:=E) (A:=A) panic.
Proof. by apply keeps_pure. Qed.
Lemma keeps_lift {A} (o : outcome E A) : keeps (lift o).
Proof. by apply keeps_pure. Qed.
Lemma keeps_bind {A B} (m : M (Node W) E A) (k : A → M (Node W) E B) :
  keeps m → (∀ a, keeps (k a)) → keeps (bind m k).
Proof.
  intros Hm Hk n. unfold bind. specialize (Hm n). destruct (m n) as [[a|e|] n']; cbn in *; [|done..].
  etransitivity; [exact Hm|apply Hk].
Qed.
Lemma keeps_or_else {F A} (m : M (Node W) F A) (h : F → M (Node W) E A) :
  keeps m → (∀ e, keeps (h e)) → keeps (or_else m h).
Proof.
  intros Hm Hh n. unfold or_else. specialize (Hm n). destruct (m n) as [[a|e|] n']; cbn in *; [done| |done].
  etransitivity; [exact Hm|apply Hh].
Qed.
Lemma keeps_ignore {F A} (m : M (Node W) F A) : keeps m → keeps (E:=E) (ignore m).
Proof. intros Hm n. unfold ignore. specialize (Hm n). by destruct (m n) as [[] ?]. Qed.
Lemma keeps_get_common : keeps (E:=E) get_common.
Proof. by apply keeps_pure. Qed.
Lemma keeps_upd_common f : (∀ c, R c (f c)) → keeps (E:=E) (upd_common f).
Proof. intros Hf n. apply Hf. Qed.
Lemma keeps_on_common {A} (m : M SpdmContext E A) : (∀ c, R c (snd (m c))) → keeps (on_common m).
Proof. intros Hm n. unfold on_common. specialize (Hm (common n)). by destruct (m (common n)) as [? ?]. Qed.
Lemma keeps_on_writer {A} (m : M Writer E A) : keeps (on_writer m).
Proof. apply keeps_pure. intros n. unfold on_writer. by destruct (m (writer n)) as [? ?]. Qed.
Lemma keeps_on_world {A} (m : M W E A) : keeps (on_world m).
Proof. apply keeps_pure. intros n. unfold on_world. by destruct (m (world n)) as [? ?]. Qed.
End Keeps.

Create HintDb keeps.
#[export] Hint Resolve keeps_ret keeps_throw keeps_panic keeps_lift keeps_bind keeps_or_else keeps_ignore
  keeps_get_common keeps_on_writer keeps_on_world : keeps.
#[export] Hint Extern 1 (PreOrder _) => apply _ : keeps.
(** Walks over a computation down to the operations the hints know. *)
Ltac keep :=
  repeat match goal with
  | |- keeps _ (bind _ _) => apply keeps_bind; [apply _| | intros ?; cbv zeta beta]
  | |- keeps _ (or_else _ _) => apply keeps_or_else; [apply _| | intros ?; cbv zeta beta]
  | |- keeps _ (match ?x with _ => _ end) => destruct x
  end; eauto 3 with keeps.

Section Ensures.
Context {S E : Type}.
Definition ensures {A} (m : M S E A) (Q : A → S → Prop) (s : S) : Prop :=
  match m s with (Ok a, s') => Q a s' | _ => True end.
Lemma ensures_mono {A} (m : M S E A) (Q Q' : A → S → Prop) s :
  ensures m Q s → (∀ a s', Q a s' → Q' a s') → ensures m Q' s.
Proof. unfold ensures. intros H HQ. destruct (m s) as [[] s']; auto. Qed.
Lemma ensures_any {A} (m : M S E A) (Q : A → S → Prop) s : (∀ a s', Q a s') → ensures m Q s.
Proof. intros HQ. unfold ensures. destruct (m s) as [[] ?]; [apply HQ|done..]. Qed.
Lemma ensures_bind {A B} (m : M S E A) (k : A → M S E B) Q s :
  ensures (bind m k) Q s ↔ ensures m (λ a, ensures (k a) Q) s.
Proof. unfold ensures, bind. by destruct (m s) as [[] s']. Qed.
Lemma ensures_ret {A} (a : A) Q s : ensures (ret a) Q s ↔ Q a s.
Proof. done. Qed.
Lemma ensures_throw {A} (e : E) (Q : A → S → Prop) s : ensures (throw e) Q s ↔ True.
Proof. done. Qed.
Lemma ensures_lift {A} (o : outcome E A) Q s : ensures (lift o) Q s ↔ (∀ a, o = Ok a → Q a s).
Proof.
  unfold ensures, lift. destruct o as [a|e|]; (split; [intros HQ ? Ha|intros HQ]); try done; [|by apply HQ].
  by injection Ha as <-.
Qed.
Lemma ensures_run {A} (m : M S E A) Q s : (∀ a s', m s = (Ok a, s') → Q a s') → ensures m Q s.
Proof. unfold ensures. intros HQ. destruct (m s) as [[] s'] eqn:Hm; auto. Qed.
Lemma ensures_ok {A} (m : M S E A) (Q : A → S → Prop) s a s' : ensures m Q s → m s = (Ok a, s') → Q a s'.
Proof. unfold ensures. intros H Hm. by rewrite Hm in H. Qed.
Lemma ensures_get Q s : ensures (get : M S E S) Q s ↔ Q s s.
Proof. done. Qed.
Lemma ensures_modify f Q s : ensures (modify f : M S E unit) Q s ↔ Q tt (f s).
Proof. done. Qed.
End Ensures.

Section EnsuresNode.
Context {W E : Type}.
Implicit Types n : Node W.
Lemma ensures_on_common {A} (m : M SpdmContext E A) Q n :
  ensures (on_common m) Q n ↔ ensures m (λ a c, Q a (mkNode c (writer n) (world n))) (common n).
Proof. unfold ensures, on_common. by destruct (m (common n)) as [[] ?]. Qed.
Lemma ensures_on_writer {A} (m : M Writer E A) Q n :
  ensures (on_writer m) Q n ↔ ensures m (λ a w, Q a (mkNode (common n) w (world n))) (writer n).
Proof. unfold ensures, on_writer. by destruct (m (writer n)) as [[] ?]. Qed.
Lemma ensures_on_world {A} (m : M W E A) Q n :
  ensures (on_world m) Q n ↔ ensures m (λ a w, Q a (mkNode (common n) (writer n) w)) (world n).
Proof. unfold ensures, on_world. by destruct (m (world n)) as [[] ?]. Qed.
Lemma ensures_get_common Q n : ensures (E:=E) get_common Q n ↔ Q (common n) n.
Proof. by destruct n. Qed.
Lemma ensures_upd_common f Q n :
  ensures (E:=E) (upd_common f) Q n ↔ Q tt (mkNode (f (common n)) (writer n) (world n)).
Proof. done. Qed.
End EnsuresNode.
Create Rewrite HintDb ensures.
#[export] Hint Rewrite @ensures_bind @ensures_ret @ensures_throw @ensures_lift @ensures_get @ensures_modify
  @ensures_on_common @ensures_on_writer @ensures_on_world @ensures_get_common @ensures_upd_common : ensures.
Ltac ens := autorewrite with ensures; cbv beta zeta; cbn [common writer world fst snd].

(** ** What requests leave alone *)
Record same_peer (c c' : SpdmContext) : Prop := {
  same_config : config_info c' = config_info c;
  same_provision : provision_info c' = provision_info c;
  same_negotiate : negotiate_info c' = negotiate_info c;
  same_chains : peer_cert_chain (peer_info c') = peer_cert_chain (peer_info c);
}.
#[export] Instance same_peer_preorder : PreOrder same_peer.
Proof. split; [done|]. intros c1 c2 c3 [? ? ? ?] [? ? ? ?]. split; congruence. Qed.

Lemma same_peer_session {A} id (missing : SpdmResult A) m c : same_peer c (snd (with_session_via_id id missing m c)).
Proof. unfold with_session_via_id. destruct (get_session_via_id id c) as [[i s]|]; [|done]. by destruct (m s). Qed.
Lemma same_peer_reset code id c : same_peer c (reset_buffer_via_request_code code id c).
Proof.
  assert (same_peer c (reset_message_m id c)) as Hm.
  { destruct id as [id|]; [|done]. apply same_peer_session. }
  unfold reset_buffer_via_request_code. case_decide; (destruct code; try done);
    cbv zeta; repeat case_match; try done; (split; try apply Hm).
Qed.

Section Same.
Context `{Platform} `{SpdmCrypto} `{SpdmTransportEncap}.
Lemma same_peer_m1m2 e m c : same_peer c (snd (append_m1m2 e m c)).
Proof.
  unfold append_m1m2, bind, get, modify, ret, throw, lift.
  repeat case_match; simplify_eq/=; done.
Qed.
Lemma same_peer_encode id bs r app c buf : same_peer c (fst (snd (encode_secured_message id bs r app (c, buf)))).
Proof.
  unfold encode_secured_message. repeat case_match; simplify_eq/=; done.
Qed.
Lemma same_peer_decode id bs c buf : same_peer c (fst (snd (decode_secured_message id bs (c, buf)))).
Proof.
  unfold decode_secured_message. repeat case_match; simplify_eq/=; done.
Qed.
#[local] Hint Resolve same_peer_session same_peer_reset same_peer_m1m2 : core.

Lemma same_send_message id bs app : keeps same_peer (send_message id bs app).
Proof.
  assert (keeps same_peer (send_single_message id bs app)) as Hs.
  { unfold send_single_message. keep. apply keeps_on_common. intros c. destruct id as [id|].
    - pose proof (same_peer_encode id bs true app c (zeros SENDER_BUFFER_SIZE)) as He.
      by destruct (encode_secured_message _ _ _ _ _) as [? [? ?]].
    - unfold encap_. by destruct (encap _ _ _) as [? ?]. }
  unfold send_message. keep.
Qed.
Lemma same_receive_message id crypto : keeps same_peer (receive_message id crypto).
Proof.
  unfold receive_message. keep. apply keeps_on_common. intros c. destruct id as [id|].
  - match goal with |- context [decode_secured_message id ?p _] => pose proof (same_peer_decode id p c (zeros SPDM_DATA_TRANSFER_SIZE)) as He end.
    by destruct (decode_secured_message _ _ _) as [? [? ?]].
  - unfold decap_. by destruct (decap _ _) as [? ?].
Qed.
Lemma same_read_field A `{Codec A} r : keeps same_peer (read_field A r).
Proof. unfold read_field. keep. Qed.
Lemma same_read_payload A `{SpdmCodec A} r : keeps same_peer (read_payload A r).
Proof. unfold read_payload. keep. Qed.
Lemma same_with_session {A} id st (m : M SpdmSession SpdmStatus A) : keeps same_peer (with_session_or id st m).
Proof. apply keeps_on_common. auto. Qed.
Lemma same_invalid_if b : keeps same_peer (invalid_if b).
Proof. unfold invalid_if, invalid_field. keep. Qed.
#[local] Hint Resolve same_read_field same_read_payload same_with_session same_invalid_if : keeps.
Lemma same_error_main id bs : keeps same_peer (spdm_handle_error_response_main id bs).
Proof. unfold spdm_handle_error_response_main, spdm_handle_simple_error_response. keep. Qed.
#[local] Hint Resolve same_error_main : keeps.
Lemma same_handle_response {A} id bs code (on_error : request A) k :
  keeps same_peer on_error → (∀ r, keeps same_peer (k r)) → keeps same_peer (handle_response id bs code on_error k).
Proof. intros He Hk. unfold handle_response, dispatch_response. keep. Qed.
Lemma same_encode_selected code p : keeps same_peer (encode_selected code p).
Proof. unfold encode_selected, encode_request. keep. Qed.
Lemma same_send_bytes n : keeps same_peer (send_bytes n).
Proof. unfold send_bytes. keep. Qed.
Lemma same_received bs n : keeps same_peer (received bs n).
Proof. unfold received. keep. Qed.
End Same.
#[export] Hint Resolve same_send_message same_receive_message same_read_field same_read_payload same_with_session
  same_invalid_if same_error_main same_encode_selected same_send_bytes same_received : keeps.

(** ** Reading responses *)
Section Responses.
Context `{Platform} `{SpdmCrypto} `{SpdmTransportEncap}.
Implicit Types n : Node World.
Lemma ensures_read_field A `{CodecOk A} r (Q : A * Reader → Node World → Prop) n :
  reader_wf r →
  (∀ a r', read r = (Ok a, r') → wf a → r_buf r' = r_buf r → reader_wf r' → Q (a, r') n) →
  ensures (read_field A r) Q n.
Proof.
  intros Hr HQ. unfold read_field, ensures. pose proof (read_safe (A:=A) _ Hr) as Hs.
  destruct (read r) as [[a|e|] r'] eqn:Ha; [|done..]. destruct Hs as (_ & Hb & Ho & Hg).
  apply HQ; [done|by apply Hg|done|]. destruct Hr. split; rewrite Hb; [lia|done].
Qed.
Lemma ensures_read_payload A `{SpdmCodecOk A} r (Q : A * Reader → Node World → Prop) n :
  reader_wf r → sready (A:=A) (common n) →
  (∀ a r', spdm_read (common n) r = (Ok a, r') → sgood (common n) a → r_buf r' = r_buf r →
     r_offs r ≤ r_offs r' → reader_wf r' → Q (a, r') n) →
  ensures (read_payload A r) Q n.
Proof.
  intros Hr Hc HQ. unfold read_payload. ens. unfold ensures. pose proof (spdm_read_safe (A:=A) _ Hc _ Hr) as Hs.
  destruct (spdm_read (common n) r) as [[a|e|] r'] eqn:Ha; [|done..]. destruct Hs as (_ & Hb & Ho & Hg).
  apply HQ; [done|by apply Hg|done|lia|]. destruct Hr. split; rewrite Hb; [lia|done].
Qed.
(** An ERROR response never counts as success. *)
Lemma error_main_fails id bs Q n : ensures (spdm_handle_error_response_main id bs) Q n.
Proof.
  unfold spdm_handle_error_response_main.
  repeat (apply ensures_bind, ensures_any; intros ? ?; cbv beta; try case_match); done.
Qed.
Lemma ensures_response {A} id bs code (on_error : request A) k (Q : A → Node World → Prop) n :
  bytes_wf bs →
  (∀ h r, read (Reader.init bs) = (Ok h, r) → version h = selected (common n) → request_response_code h = code →
     reader_wf r → r_buf r = bs → ensures (k r) Q n) →
  ensures (handle_response id bs code on_error k) Q n.
Proof.
  intros Hb HQ. apply ensures_bind, (ensures_read_field SpdmMessageHeader); [by apply reader_init_wf|]. intros h r Hh _ Hbuf Hr.
  apply ensures_bind, ensures_get_common, ensures_bind. unfold invalid_if. case_bool_decide as Hv; [done|].
  apply ensures_ret. unfold dispatch_response. case_decide; [by eapply HQ|].
  case_decide; [|done]. apply ensures_bind, error_main_fails.
Qed.
End Responses.
