(* ===== verification/ReqChain.v ===== *)
(** * The certificate chain of the responder

    About GET_CERTIFICATE in the requester (ReqAuth.v).  Proved: a chain joins
    the slots of the peer only after every check of
    [verify_spdm_certificate_chain] held for it, and a request that fails
    leaves the slots alone; the retrieval ends, whatever the responder answers. *)

From S2P Require Import Prelude Codec Status Bitflags Algo DataTypes Structs Version Crypto HashCtx ManagedBuffer.
From S2P Require Import CertChain Session Header ContextData Transport Mctp Context Transcript CertOp X509 SpdmCodec.
From S2P Require Import MsgLib MsgAuth MsgMisc Message Platform RspLib RspAuth RspSession RspLaws ReqLib ReqAuth ReqLaws.
From S2P Require Import Responder RspToy Link.
Import Context Transcript RspAuth ReqLib ReqAuth.

Module ReqChain.
Section Verified.
Context `{Platform} `{SpdmCrypto}.

(** A chain is what it says it is: the length in front of it is its length,
    its signatures are valid, the hash is that of its root certificate if that
    is self-issued, its leaf certificate is one of an SPDM responder, and its
    root is one of those provisioned, if there are any. *)
Record chain_verified (c : SpdmContext) (b : SpdmCertChainBuffer) : Prop := {
  cv_size : data_size_in_cert_chain b = Ok (ccb_size b);
  cv_certs : ∃ hash_size certs root leaf,
    get_hash_size (E:=SpdmStatus) c = Ok hash_size ∧ 4 + hash_size < ccb_size b ∧
    slice (ccb_data b) (4 + hash_size) (ccb_size b) = Some certs ∧
    verify_cert_chain_cb certs = Ok tt ∧
    (∃ x y, get_cert_from_cert_chain certs 0 = Ok (x, y) ∧ slice certs x y = Some root) ∧
    (X509.is_root_certificate root = Ok tt →
     ∃ d, hash_all (base_hash_sel (negotiate_info c)) root = Ok d ∧
          slice (data d) 0 (data_size d) = slice (ccb_data b) 4 (4 + hash_size)) ∧
    (∃ x y, get_cert_from_cert_chain certs (-1) = Ok (x, y) ∧ slice certs x y = Some leaf) ∧
    X509.check_leaf_certificate leaf
      (contains (rsp_capabilities_sel (negotiate_info c)) SpdmResponseCapabilityFlags.ALIAS_CERT_CAP) = Ok tt ∧
    (omap id (peer_root_cert_data (provision_info c)) = [] ∨
     ∃ r, Some r ∈ peer_root_cert_data (provision_info c) ∧ slice (ccd_data r) 0 (ccd_size r) = Some root);
}.

Lemma found_match_ok root roots :
  found_match root roots = Ok true → ∃ r, r ∈ roots ∧ slice (ccd_data r) 0 (ccd_size r) = Some root.
Proof.
  induction roots as [|r roots IH]; cbn [found_match]; [done|]. case_match.
  - intros (x & Hx & Hs)%IH. exists x. split; [by right|done].
  - intros (d & Hd%or_panic_ok & Hk)%obind_ok. case_decide as Hrd; [|].
    + subst d. exists r. split; [by left|done].
    + apply IH in Hk as (x & Hx & Hs). exists x. split; [by right|done].
Qed.
Lemma check_provisioned_root_ok c root :
  check_provisioned_root c root = Ok tt →
  omap id (peer_root_cert_data (provision_info c)) = [] ∨
  ∃ r, Some r ∈ peer_root_cert_data (provision_info c) ∧ slice (ccd_data r) 0 (ccd_size r) = Some root.
Proof.
  unfold check_provisioned_root. intros (found & Hf & Hc)%obind_ok. case_bool_decide as Hr; [by left|]. right.
  destruct found; [|done]. apply found_match_ok in Hf as (r & Hr' & Hs). exists r. split; [|done].
  apply list_elem_of_omap in Hr' as (x & Hx & He). by cbn in He; subst x.
Qed.
Lemma check_root_hash_ok c b root hash_size :
  get_hash_size (E:=SpdmStatus) c = Ok hash_size → check_root_hash c b root = Ok tt →
  X509.is_root_certificate root = Ok tt →
  ∃ d, hash_all (base_hash_sel (negotiate_info c)) root = Ok d ∧
       slice (data d) 0 (data_size d) = slice (ccb_data b) 4 (4 + hash_size).
Proof.
  intros Hsz Hc Hr. unfold check_root_hash in Hc. rewrite Hr in Hc. cbn [succeeds obind] in Hc.
  apply obind_ok in Hc as (d & Hd%map_err_ok & Hc). apply obind_ok in Hc as (h & Hh%or_panic_ok & Hc).
  rewrite Hsz in Hc. cbn [obind] in Hc. apply obind_ok in Hc as (h' & Hh'%or_panic_ok & Hc).
  case_decide; [|done]. subst h'. exists d. by rewrite Hh, Hh'.
Qed.
Lemma chain_certs_ok c b certs :
  chain_certs c b = Ok certs →
  ∃ hash_size, get_hash_size (E:=SpdmStatus) c = Ok hash_size ∧ 4 + hash_size < ccb_size b ∧
    data_size_in_cert_chain b = Ok (ccb_size b) ∧ slice (ccb_data b) (4 + hash_size) (ccb_size b) = Some certs.
Proof.
  unfold chain_certs. intros (hs & Hhs & Hc)%obind_ok. exists hs. case_match eqn:Hl; [done|].
  apply Z.leb_gt in Hl. apply obind_ok in Hc as (x & Hx & Hc). case_match eqn:Hn; [done|].
  apply negb_false_iff, Z.eqb_eq in Hn. subst x. apply obind_ok in Hc as (d & Hd%or_panic_ok & Hc).
  apply obind_ok in Hc as (data & Hdata%or_panic_ok & Hs%or_panic_ok).
  split_and!; [done..|]. rewrite Hd. pose proof Hd as Hd'. unfold slice in Hd'. case_match eqn:Hc1; [|done].
  assert (len d = ccb_size b - 4 - hs) as Hlen.
  { injection Hd' as <-. rewrite len_ztake by (rewrite len_zdrop; lia). lia. }
  assert (0 ≤ len d) by apply len_nonneg.
  unfold copy_from_slice in Hdata. case_match eqn:Hcp; [|done]. injection Hdata as <-.
  rewrite <- Hlen in *. rewrite <- Hs. symmetry. apply slice_prefix. unfold slice in Hs. case_match; [|done]. 
  rewrite len_splice in *; lia.
Qed.
Lemma verify_chain_ok c :
  verify_spdm_certificate_chain c = Ok tt →
  ∃ b, peer_cert_chain_temp (peer_info c) = Some b ∧ chain_verified c b.
Proof.
  unfold verify_spdm_certificate_chain. intros (b & Hb%ok_or_ok & Hk)%obind_ok. exists b. split; [done|].
  apply obind_ok in Hk as (certs & (hs & Hhs & Hsz & Hds & Hcerts)%chain_certs_ok & Hk).
  apply obind_ok in Hk as ([] & Hv%map_err_ok & Hk). apply obind_ok in Hk as ([x y] & Hxy & Hk).
  apply obind_ok in Hk as (root & Hroot%or_panic_ok & Hk). apply obind_ok in Hk as ([] & Hrh & Hk).
  apply obind_ok in Hk as ([x' y'] & Hxy' & Hk). apply obind_ok in Hk as (leaf & Hleaf%or_panic_ok & Hk).
  apply obind_ok in Hk as ([] & Hlc%map_err_ok & Hk). split; [done|].
  exists hs, certs, root, leaf. split_and!; try done; [by exists x, y| |by exists x', y'|].
  - by apply check_root_hash_ok.
  - by apply check_provisioned_root_ok.
Qed.
Lemma verified_same c c' b : same_peer c c' → chain_verified c' b → chain_verified c b.
Proof.
  intros [H1 H2 H3 _] [Hs (hs & certs & root & leaf & Hc)]. split; [done|]. exists hs, certs, root, leaf.
  unfold get_hash_size in *. by rewrite H2, H3 in Hc.
Qed.
End Verified.

Section Stored.
Context `{Platform} `{SpdmCrypto} `{SpdmTransportEncap}.
Lemma same_log_b id send bs used : keeps same_peer (log_b id send bs used).
Proof. unfold log_b. keep; (apply keeps_on_common; intros c; apply same_peer_m1m2). Qed.
Lemma same_certificate_loop fuel id slot_id : ∀ total offset length,
  keeps same_peer (certificate_loop fuel id slot_id total offset length).
Proof.
  induction fuel as [|fuel IH]; intros total offset length; cbn [certificate_loop]; [by apply keeps_panic, _|].
  pose proof same_log_b. unfold send_spdm_certificate, encode_spdm_certificate_partial, receive_spdm_certificate,
    handle_spdm_certificate_partial_response. keep. apply same_handle_response; [unfold error_peer; keep|]. intros r. keep.
  by apply keeps_upd_common.
Qed.

(** C7: only verified chains join the slots of the peer.  When
    [send_receive_spdm_certificate] returns, the slot it was asked for holds a
    chain that [chain_verified] holds for and the other slots are unchanged;
    when it fails, no slot changed. *)
Theorem chain_stored_verified session_id slot_id n :
  let '(o, n') := send_receive_spdm_certificate session_id slot_id n in
  let chains := peer_cert_chain (peer_info (common n)) in
  let chains' := peer_cert_chain (peer_info (common n')) in
  match o with
  | Ok _ => ∃ b, zset chains slot_id (Some b) = Some chains' ∧ chain_verified (common n) b
  | _ => chains' = chains
  end.
Proof.
  unfold send_receive_spdm_certificate, send_receive_spdm_certificate_with.
  destruct (SPDM_MAX_SLOT_NUMBER <=? slot_id); [done|].
  unfold bind at 1. cbn [upd_common on_common modify]. unfold bind at 1. cbn [upd_common on_common modify].
  set (c1 := upd_peer _ _). assert (same_peer (common n) c1) as Hc1.
  { destruct (same_peer_reset SpdmRequestGetCertificate session_id (common n)). by split. }
  clearbody c1. unfold bind at 1, new_send_buffer, on_writer. cbn [common writer world].
  match goal with |- context [certificate_loop ?f ?i ?s ?t ?o ?l] =>
    pose proof (same_certificate_loop f i s t o l (mkNode c1 (Writer.init (zeros MAX_SPDM_MSG_SIZE)) (world n))) as Hloop;
    unfold bind at 1; destruct (certificate_loop f i s t o l _) as [[total|e|] n2] end;
    cbn [snd common] in Hloop; (assert (same_peer (common n) (common n2)) as Hsame by (by etransitivity)); clear Hc1 Hloop c1;
    [|by destruct Hsame..].
  destruct (total =? 0); [by destruct n2, Hsame|].
  unfold bind, get_common, on_common, get, lift, upd_common, modify. cbn [common].
  destruct (verify_spdm_certificate_chain (common n2)) as [[]|e|] eqn:Hv; cbn; [|by destruct Hsame..].
  apply verify_chain_ok in Hv as (b & Hb & Hver). rewrite Hb, (same_chains _ _ Hsame).
  destruct (zset _ slot_id (Some b)) as [l|] eqn:Hz; cbn; [|by destruct Hsame].
  exists b. split; [done|]. by eapply verified_same.
Qed.
End Stored.

(** ** The retrieval ends *)
Section Ends.
Context `{Platform} `{SpdmCrypto} `{SpdmTransportEncap}.
Implicit Types n : Node World.

Lemma portion_fits slot_id total offset length p :
  0 ≤ offset → 0 ≤ cert_portion_length p → 0 ≤ cert_remainder_length p →
  portion_bad slot_id total offset length p = Ok false →
  1 ≤ cert_portion_length p ∧ offset + cert_portion_length p < MAX_SPDM_CERT_CHAIN_DATA_SIZE.
Proof.
  unfold portion_bad, sub_checked. intros Ho Hp Hr Hb. destruct ((_ =? 0) || _) eqn:C0; [done|].
  apply orb_false_iff in C0 as [Hz%Z.eqb_neq _]. destruct (offset <=? _) eqn:C1; [|done]. cbn [obind] in Hb.
  apply Z.leb_le in C1. destruct (_ <? cert_portion_length p) eqn:C2; [done|]. apply Z.ltb_ge in C2.
  rewrite (proj2 (Z.leb_le _ _) C2) in Hb. cbn [obind] in Hb. destruct (_ <=? cert_remainder_length p) eqn:C3; [done|].
  apply Z.leb_gt in C3. lia.
Qed.
(** What a round of the loop leaves to do. *)
Definition arriving (session_id : option u32) : Prop :=
  ∀ n bs n', receive_message session_id false n = (Ok bs, n') → bytes_wf bs.
Lemma portion_received session_id slot_id total offset length send n :
  arriving session_id → 0 ≤ offset →
  ensures (receive_spdm_certificate session_id slot_id total offset length send)
    (λ pr _, 1 ≤ fst pr ∧ offset + fst pr < MAX_SPDM_CERT_CHAIN_DATA_SIZE) n.
Proof.
  intros Hin Ho. apply ensures_bind, ensures_run. intros bs n1 Hbs%Hin.
  apply ensures_response; [done|]. intros h r _ _ _ Hr _.
  apply ensures_bind, (ensures_read_payload SpdmCertificateResponsePayload); [done|done|]. intros p r' _ Hp _ _ _.
  destruct Hp as (_ & Hpl & Hrl & _).
  assert (0 ≤ cert_portion_length p ∧ 0 ≤ cert_remainder_length p) as [Hp0 Hr0].
  { unfold size_wf in *. destruct (large_cert _), Hpl, Hrl; lia. }
  apply ensures_bind, ensures_lift. intros [] Hbad; apply ensures_bind; [done|]. apply ensures_ret.
  destruct (portion_fits _ _ _ _ _ Ho Hp0 Hr0 Hbad) as [H1' H2'].
  repeat (apply ensures_bind, ensures_any; intros ? ?). apply ensures_ret. by split.
Qed.
Lemma loop_fuel session_id slot_id f g total offset length n :
  arriving session_id → 0 ≤ offset ≤ MAX_SPDM_CERT_CHAIN_DATA_SIZE →
  MAX_SPDM_CERT_CHAIN_DATA_SIZE - offset < Z.of_nat f → MAX_SPDM_CERT_CHAIN_DATA_SIZE - offset < Z.of_nat g →
  certificate_loop f session_id slot_id total offset length n = certificate_loop g session_id slot_id total offset length n.
Proof.
  intros Hin. revert g total offset length n. induction f as [|f IH]; intros [|g] total offset length n Ho Hf Hg; try lia.
  cbn [certificate_loop]. destruct (length =? 0); [done|]. unfold bind.
  destruct (send_spdm_certificate _ _ _ _ _) as [[used|e|] n1]; [|done..].
  destruct (send_bytes used n1) as [[bs|e|] n2]; [|done..].
  pose proof (portion_received session_id slot_id total offset length bs n2 Hin ltac:(lia)) as Hp. unfold ensures in Hp.
  destruct (receive_spdm_certificate _ _ _ _ _ _ n2) as [[[p r]|e|] n3]; [|done..]. cbn [fst] in Hp.
  apply IH; lia.
Qed.

(** C22: the retrieval of a chain terminates.  Whatever a responder answers,
    [certificate_rounds] rounds of the loop of [send_receive_spdm_certificate]
    are enough: more fuel gives the same result. *)
Theorem certificate_retrieval_ends session_id slot_id fuel n :
  arriving session_id → (certificate_rounds ≤ fuel)%nat →
  send_receive_spdm_certificate_with fuel session_id slot_id n = send_receive_spdm_certificate session_id slot_id n.
Proof.
  intros Hin Hf. unfold send_receive_spdm_certificate, send_receive_spdm_certificate_with.
  destruct (SPDM_MAX_SLOT_NUMBER <=? slot_id); [done|]. unfold bind at 1 2 3 5 6 7. cbn [upd_common on_common modify].
  unfold new_send_buffer, on_writer. unfold bind at 1 5. cbn [common writer world].
  erewrite (loop_fuel session_id slot_id fuel certificate_rounds); [reflexivity|done|..];
    unfold certificate_rounds in *; unfold MAX_SPDM_CERT_CHAIN_DATA_SIZE in *; lia.
Qed.
End Ends.
End ReqChain.

Module ReqChainExamples.
Import ReqChain RspToy ToyRing.
#[local] Existing Instance Mctp.transport.
#[local] Existing Instance toy_crypto.
(** A responder that hands out one byte of a long chain at a time. *)
Definition drip : list Z := [0x05; 0x10; 0x02; 0; 0; 1; 0; 0; 0x0F; 0x30].
#[local] Instance drip_platform : Platform := with_device toy_platform unit (λ _, ret tt) (λ _, ret drip).
Lemma drip_arriving : arriving None.
Proof. intros [c w [[] wd]] bs n' Hr. cbv in Hr. injection Hr as <- <-. by apply is_byte_wf. Qed.
Lemma certificate_retrieval_ends_witness :
  ∃ n', send_receive_spdm_certificate_with 4500 None 0 
          (mkNode (upd_negotiate (with_base_hash_sel SpdmBaseHashAlgo.TPM_ALG_SHA_256) toy_context) (Writer.init []) (tt, mkWire [] []))
        = (Err SPDM_STATUS_INVALID_MSG_FIELD, n') ∧
        ccb_size <$> peer_cert_chain_temp (peer_info (common n')) = Some 1.
Proof.
  rewrite certificate_retrieval_ends; [|exact drip_arriving|by apply (Nat.leb_le certificate_rounds 4500)].
  eexists. vm_compute. split; reflexivity.
Defined.
End ReqChainExamples.
