(* ===== verification/TwoParty.v ===== *)
(** * Two endpoints

    Connects the requester of Requester.v and the responder of Responder.v:
    the device of the requester hands a packet to the responder, which answers
    it, and takes the answer back.  The traces run the protocol between two
    endpoints from the first request to the end of two sessions. *)

From S2P Require Import Prelude Codec Status Bitflags Algo DataTypes Structs Version Crypto HashCtx ManagedBuffer.
From S2P Require Import CertChain Session SecuredMessage Header ContextData Transport Mctp Context Transcript SpdmCodec.
From S2P Require Import MsgLib MsgSession MsgMisc Message Platform Link RspLib RspNegotiate RspAuth RspSession Responder.
From S2P Require Import RspToy ReqLib ReqNegotiate ReqAuth ReqSession Requester.
Import Context Transcript Responder ReqLib ReqAuth ReqSession Requester.

Module TwoParty.
Section Linked.
Context (P : Platform) (rsp : Platform) `{!@AppHandlers (wired rsp)} `{SpdmCrypto} `{SpdmTransportEncap}.

(** The responder, with its queue of packets. *)
Definition Peer : Type := Node (@World (wired rsp)).
Definition arrives (p : list Z) (d : Peer) : Peer :=
  mkNode (common d) (writer d) (mkWire (inbox (fst (world d)) ++ [p]) (outbox (fst (world d))), snd (world d)).
(** A packet sent is processed; what the responder makes of it is not an
    error of the device, but its panic ends both. *)
Definition deliver (p : list Z) : M (Peer * @World P) SpdmStatus unit :=
  λ '(d, w), let '(o, d') := @process_message (wired rsp) _ _ _ false 0 (arrives p d) in
             (match o with Panic => Panic | _ => Ok tt end, (d', w)).
(** A packet received is the oldest that the responder sent. *)
Definition collect : M (Peer * @World P) usize (list Z) :=
  λ '(d, w), match outbox (fst (world d)) with
             | p :: rest => (Ok p, (mkNode (common d) (writer d) (mkWire (inbox (fst (world d))) rest, snd (world d)), w))
             | [] => (Err 0, (d, w))
             end.
Definition linked : Platform := with_device P Peer deliver (λ _, collect).
End Linked.

(** ** Traces *)
Import RspToy ToyRing.
#[local] Existing Instance Mctp.transport.
#[local] Existing Instance toy_crypto.
#[local] Instance toy_peer_handlers : @AppHandlers (wired toy_platform) :=
  {| dispatch_secured_app_message_cb _ bs _ := ret (Ok tt, Some bs);
     vendor_defined_request_handler_ex := None |}.
#[local] Instance toy_linked : Platform := linked toy_platform toy_platform.
Definition toy_requester : Node World :=
  let buffer := Writer.init (zeros MAX_SPDM_MSG_SIZE) in
  mkNode (new toy_config SpdmProvisionInfo_default) buffer
    (mkNode toy_context buffer (mkWire [] [], mkWire [] []), mkWire [] []).
Definition peer (n : Node World) : SpdmContext := common (fst (world n)).

(** Negotiation, the certificate chain, its proof, a session from a key
    exchange with new keys, and its end. *)
Definition authenticated_session : request unit :=
  let* _ := send_receive_spdm_digest None in
  let* _ := send_receive_spdm_certificate None 0 in
  let* _ := send_receive_spdm_challenge 0 SpdmMeasurementSummaryHashTypeNone None in
  let* id := start_session false 0 SpdmMeasurementSummaryHashTypeNone in
  let* _ := send_receive_spdm_heartbeat id in
  let* _ := send_receive_spdm_key_update id SpdmUpdateAllKeys in
  let* _ := send_receive_spdm_key_update id SpdmUpdateSingleKey in
  end_session id.
(** And one from a pre-shared key, which stays. *)
Definition whole_protocol : requesting (option ManagedBufferA) u32 :=
  let* _ := init_connection in
  let* _ := on_node authenticated_session in
  on_node (start_session true 0 SpdmMeasurementSummaryHashTypeNone).

Definition established (id : u32) (c : SpdmContext) : option SpdmSessionApplicationSecret :=
  match get_immutable_session_via_id id c with
  | Some s => if decide (session_state s = SpdmSessionEstablished) then Some (application_secret s) else None
  | None => None
  end.
(** A run of the model: with the example cryptography and configurations, the
    two endpoints connected to each other reach the end of the protocol and
    hold the same parameters, message A, certificate chain and session keys. *)
Example whole_protocol_runs :
  match whole_protocol (toy_requester, None) with
  | (Ok id, (n, Some a)) =>
      negotiate_info (common n) = negotiate_info (peer n) ∧
      connection_state (runtime_info (peer n)) = SpdmConnectionAuthenticated ∧
      mb_content a = mb_content (message_a (runtime_info (peer n))) ∧
      head (peer_cert_chain (peer_info (common n))) = head (my_cert_chain (provision_info (peer n))) ∧
      is_Some (established id (common n)) ∧ established id (common n) = established id (peer n)
  | _ => False
  end.
Proof. vm_compute. split_and!; try reflexivity. by eexists. Qed.
End TwoParty.
