(* ===== verification/ReqHandshake.v ===== *)
(** * Opening a session from the requester

    About KEY_EXCHANGE and FINISH in the requester (ReqSession.v).  Proved: a
    session reaches the handshake only if the signature of the responder over
    the whole transcript is valid under the identity of the slot, and its
    verify data under the key of the session; a responder that asks for mutual
    authentication without its algorithms makes FINISH panic. *)

From S2P Require Import Prelude Codec Status Bitflags Algo DataTypes Structs Version Crypto HashCtx ManagedBuffer.
From S2P Require Import CertChain Session Header ContextData Transport Mctp Context Transcript SpdmCodec Opaque.
From S2P Require Import MsgLib MsgSession MsgMisc Message Platform RspLib RspAuth RspSession RspLaws ReqLib ReqAuth.
From S2P Require Import ReqSession Requester ReqLaws Responder RspToy Link TwoParty.
Import Context ContextLaws Transcript TranscriptLaws RspAuth RspSession ReqLib ReqAuth ReqSession.

Module ReqHandshake.
(** ** Sessions in the table *)
Lemma find_new id i s0 s c :
  get_session_via_id id c = None → session c !! i = Some s0 → session_id s = id →
  get_session_via_id id (put_session i s c) = Some (i, s).
Proof.
  unfold get_session_via_id. intros Hn Hi Hs. apply list_find_Some. cbn. apply list_find_None in Hn.
  split_and!; [apply list_lookup_insert_eq; by eapply lookup_lt_Some|done|].
  intros j y Hj Hji. rewrite list_lookup_insert_ne in Hj by lia.
  rewrite Forall_forall in Hn. apply Hn. by eapply list_elem_of_lookup_2.
Qed.
Lemma immutable_of id c i s : get_session_via_id id c = Some (i, s) → get_immutable_session_via_id id c = Some s.
Proof. unfold get_immutable_session_via_id. by intros ->. Qed.

Lemma succeeded {E F A} (m : outcome E A) : succeeds (F:=F) m = Ok true → ∃ a, m = Ok a.
Proof. destruct m; cbn; [eauto|done..]. Qed.

Lemma sub_checked_ok {E} a b (k : Z) : sub_checked (E:=E) a b = Ok k → k = a - b.
Proof. unfold sub_checked. case_match; [|done]. by intros [= <-]. Qed.

Section Handshake.
Context `{Platform} `{CryptoOk} `{SpdmTransportEncap}.
Implicit Types n : Node World.
Implicit Types c : SpdmContext.

(** A step that works on the session in its slot. *)
Lemma ensures_session {A} id i s (m : M SpdmSession SpdmStatus A) (Q : A → Node World → Prop) n :
  get_session_via_id id (common n) = Some (i, s) →
  ensures m (λ a s', Q a (mkNode (put_session i s' (common n)) (writer n) (world n))) s →
  ensures (on_session id m) Q n.
Proof.
  intros Hg Hm. apply ensures_on_common. unfold ensures, with_session_via_id in *. rewrite Hg.
  by destruct (m s) as [[] s'].
Qed.
Lemma ensures_on_slot {A} i s (m : M SpdmSession SpdmStatus A) (Q : A → Node World → Prop) n :
  session (common n) !! i = Some s →
  ensures m (λ a s', Q a (mkNode (put_session i s' (common n)) (writer n) (world n))) s →
  ensures (on_slot i m) Q n.
Proof.
  intros Hi Hm. apply ensures_on_common. unfold ensures in *. rewrite Hi. by destruct (m s) as [[] s'].
Qed.
Lemma ensures_append_k id i s m (Q : unit → Node World → Prop) n :
  get_session_via_id id (common n) = Some (i, s) → th_ok s →
  from_option mb_wf True (vdm_message_transcript_before_key_exchange (runtime_info (common n))) →
  Q tt (mkNode (put_session i (th_state s
          (th_data (vdm_message_transcript_before_key_exchange (runtime_info (common n))) s ++ m)) (common n))
          (writer n) (world n)) →
  ensures (append_k id m) Q n.
Proof. intros Hg Hs Hv HQ. apply ensures_on_common. unfold ensures. by erewrite append_k_run by done. Qed.
Lemma ensures_session_or id e i s (Q : SpdmSession → Node World → Prop) n :
  get_session_via_id id (common n) = Some (i, s) → Q s n → ensures (session_or id e) Q n.
Proof.
  intros Hg HQ. unfold session_or. ens. intros s' Hs'. rewrite (immutable_of _ _ _ _ Hg) in Hs'.
  by injection Hs' as <-.
Qed.

(** The session that a key exchange starts from. *)
Record started c id (cert_hash : SpdmDigestStruct) (s : SpdmSession) : Prop := {
  st_id : session_id s = id;
  st_hash : base_hash_algo (crypto_param s) = base_hash_sel (negotiate_info c);
  st_th : digest_context_th (ses_runtime_info s) = None;
  st_a : ses_message_a (ses_runtime_info s) = message_a (runtime_info c);
  st_cert : rsp_cert_hash (ses_runtime_info s) = Some cert_hash;
}.
Lemma bind_session_started id mut key cert_hash (Q : unit → Node World → Prop) n :
  get_session_via_id id (common n) = None →
  (∀ i s, started (common n) id cert_hash s →
     get_session_via_id id (put_session i s (common n)) = Some (i, s) →
     Q tt (mkNode (put_session i s (common n)) (writer n) (world n))) →
  ensures (bind_session id mut key cert_hash) Q n.
Proof.
  intros Hfree HQ. unfold bind_session. ens. intros [i s0] Hi%ok_or_ok.
  unfold get_next_avaiable_session, get_session_via_id in Hi. apply list_find_Some in Hi as (Hi & Hid & _).
  eapply ensures_on_slot; [exact Hi|]. unfold setup_session, Session.setup, Session.set_shared_secret, some_or.
  ens. rewrite Hid. cbn [Z.eqb INVALID_SESSION_ID]. ens. intros hs _. ens. intros ms _. ens.
  match goal with |- Q tt (mkNode (put_session i ?s _) _ _) => apply (HQ i s) end; [by split|].
  by eapply find_new.
Qed.

(** ** The keys of the handshake *)
Lemma ensures_or_else {S E F A} (m : M S E A) (h : E → M S F A) Q s :
  ensures m Q s → (∀ e s', ensures (h e) Q s') → ensures (or_else m h) Q s.
Proof. unfold ensures, or_else. intros Hm Hh. destruct (m s) as [[a|e|] s']; [done|apply Hh|done]. Qed.
Lemma ensures_handshake_secret v th (Q : unit → SpdmSession → Prop) s :
  (∀ x, Q tt (with_handshake_secret x s)) → ensures (Session.generate_handshake_secret v th) Q s.
Proof.
  intros HQ. unfold Session.generate_handshake_secret, some_or. ens.
  repeat (intros [? ?] _ || intros ? _; cbv beta iota; ens). exact (HQ _).
Qed.

Lemma peer_identity_wf c slot d :
  hash_valid (base_hash_sel (negotiate_info c)) → peer_identity c slot = Ok d → sens_wf d.
Proof.
  intros Hh Hd. unfold peer_identity in Hd. destruct (slot =? _).
  - apply obind_ok in Hd as (k & _ & Hd%map_err_ok).
    destruct (hash_all_ok _ k Hh) as (m & Hm & Hw & _). rewrite Hm in Hd. by injection Hd as <-.
  - apply map_err_ok in Hd. unfold get_certchain_hash_peer in Hd.
    apply obind_ok in Hd as (? & _ & Hd). apply obind_ok in Hd as (? & _ & Hd).
    apply obind_ok in Hd as (ch & _ & Hd). destruct (hash_all_ok _ ch Hh) as (m & Hm & Hw & _).
    rewrite Hm in Hd. cbn [obind] in Hd. rewrite sens_as_ref_ok in Hd by done. cbn [obind] in Hd.
    assert (len (content m) ≤ cap KDigest) as Hl by (rewrite len_content by done; apply Hw).
    rewrite sens_from_ok in Hd by done. injection Hd as <-. apply sens_of_wf; [done|apply Hw].
Qed.

(** ** The responder is authenticated *)
Abbreviation VERIFIED := (Ok tt).
(** The transcript up to a point, in the session at the end of the exchange:
    message A, the identity of the responder, and the messages [m]. *)
Definition exchange_transcript c (cert_hash : SpdmDigestStruct) (m : list Z) : list Z :=
  mb_content (message_a (runtime_info c)) ++
  from_option mb_content (content cert_hash) (vdm_message_transcript_before_key_exchange (runtime_info c)) ++ m.
(** What was checked: the request [send] and the response up to its signature
    are signed by the identity in [slot]; unless the handshake is in the clear
    the session key authenticates these and the signature. *)
Record authenticated c slot cert_hash (send bytes : list Z) (used : usize) (p : SpdmKeyExchangeResponsePayload)
    (s : SpdmSession) : Prop := {
  au_signature : ∃ sig_size hash_size rsp hash,
    get_asym_sig_size (E:=SpdmStatus) c = Ok sig_size ∧ get_hash_size (E:=SpdmStatus) c = Ok hash_size ∧
    slice bytes 0 (used - sig_size - (if in_clear_text c then 0 else hash_size)) = Some rsp ∧
    hash_all (base_hash_sel (negotiate_info c)) (exchange_transcript c cert_hash (send ++ rsp)) = Ok hash ∧
    verify_signature c SPDM_PUB_KEY_SLOT_ID_KEY_EXCHANGE slot SPDM_VERSION_SIGNING_CONTEXT_ZEROPAD_2
      SPDM_KEY_EXCHANGE_RESPONSE_SIGN_CONTEXT hash (ker_signature p) = VERIFIED ∧
    (in_clear_text c = false → ∃ sig hash' h,
       sens_as_ref (E:=SpdmStatus) (ker_signature p) = Ok sig ∧
       hash_all (base_hash_sel (negotiate_info c)) (exchange_transcript c cert_hash (send ++ rsp ++ sig)) = Ok hash' ∧
       sens_as_ref (E:=SpdmStatus) hash' = Ok h ∧
       Session.verify_hmac_with_response_finished_key s h (ker_verify_data p) = VERIFIED);
}.

Definition ready c : Prop :=
  hash_valid (base_hash_sel (negotiate_info c)) ∧ mb_wf (message_a (runtime_info c)) ∧
  from_option mb_wf True (vdm_message_transcript_before_key_exchange (runtime_info c)).
(** The session in its slot has the messages [m] in its transcript. *)
Record logged c id cert_hash m (s : SpdmSession) : Prop := {
  lo_id : session_id s = id;
  lo_ok : th_session_ok s;
  lo_hash : base_hash_algo (crypto_param s) = base_hash_sel (negotiate_info c);
  lo_th : digest_context_th (ses_runtime_info s)
          = Some (mkHashCtx (base_hash_sel (negotiate_info c)) (exchange_transcript c cert_hash m));
}.
Section Slot.
Context c (id : u32) (cert_hash : SpdmDigestStruct) (i : nat) (w : Writer) (x : World) (Hready : ready c) (Hcert : sens_wf cert_hash).
Definition slotted (s : SpdmSession) : Node World := mkNode (put_session i s c) w x.
Definition found (s : SpdmSession) : Prop := get_session_via_id id (put_session i s c) = Some (i, s).
Lemma found_put s s' : found s → session_id s' = session_id s → found s' ∧ put_session i s' (put_session i s c) = put_session i s' c.
Proof.
  intros Hf Hs. split; [|apply put_session_twice]. unfold found. rewrite <- (put_session_twice i s).
  by eapply find_put.
Qed.
Lemma append_started s m (Q : unit → Node World → Prop) :
  found s → started c id cert_hash s →
  (∀ s', found s' → logged c id cert_hash m s' → Q tt (slotted s')) → ensures (append_k id m) Q (slotted s).
Proof.
  intros Hf [Hid Hh Hth Ha Hc] HQ. destruct Hready as (Hv & Hm & Hvdm).
  assert (th_session_ok s) as Hok.
  { split_and!; [rewrite Hh; by apply hash_valid_hashable|by rewrite Ha|by rewrite Hc]. }
  eapply ensures_append_k; [exact Hf|by split; [|rewrite Hth]|done|]. cbn [common slotted writer world].
  set (s' := th_state s _). destruct (found_put s s' Hf eq_refl) as [Hf' ->]. apply HQ; [done|].
  split; [done|done|done|]. cbn. unfold th_data. rewrite Hth, Hh, Ha. unfold exchange_transcript, th_identity. rewrite Hc.
  cbn. rewrite <- app_assoc. by destruct (vdm_message_transcript_before_key_exchange _).
Qed.
Lemma append_logged s m m' (Q : unit → Node World → Prop) :
  found s → logged c id cert_hash m s →
  (∀ s', found s' → logged c id cert_hash (m ++ m') s' →
     handshake_secret s' = handshake_secret s → Q tt (slotted s')) →
  ensures (append_k id m') Q (slotted s).
Proof.
  intros Hf [Hid Hok Hh Hth] HQ. destruct Hready as (Hv & Hm & Hvdm).
  eapply ensures_append_k; [exact Hf|by split; [|rewrite Hth]|done|]. cbn [common slotted writer world].
  set (s' := th_state s _). destruct (found_put s s' Hf eq_refl) as [Hf' ->]. apply HQ; [done| |done].
  split; [done|done|done|]. cbn. unfold th_data. rewrite Hth, Hh. cbn [hc_data]. unfold exchange_transcript.
  by rewrite <- !app_assoc.
Qed.
Lemma ensures_hash s m (Q : SpdmDigestStruct → Node World → Prop) :
  found s → logged c id cert_hash m s →
  (∀ d, hash_all (base_hash_sel (negotiate_info c)) (exchange_transcript c cert_hash m) = Ok d → Q d (slotted s)) →
  ensures (req_transcript_hash id) Q (slotted s).
Proof.
  intros Hf Hl HQ. unfold req_transcript_hash. apply ensures_bind. eapply ensures_session_or; [exact Hf|].
  apply ensures_lift. unfold calc_transcript_hash. intros d. rewrite (lo_th _ _ _ _ _ Hl). cbn.
  intros Hd%map_err_ok. by apply HQ.
Qed.
Lemma ensures_handshake s m (Q : unit → Node World → Prop) :
  found s → logged c id cert_hash m s →
  (∀ s', found s' → logged c id cert_hash m s' → Q tt (slotted s')) →
  ensures (req_handshake_secret id) Q (slotted s).
Proof.
  intros Hf Hl HQ. unfold req_handshake_secret. apply ensures_bind. eapply ensures_hash; [done|done|]. intros th1 _.
  ens. eapply ensures_session; [exact Hf|]. ens. apply ensures_handshake_secret. intros y.
  cbn [common slotted writer world].
  match goal with |- Q tt (mkNode (put_session i ?s' _) _ _) => destruct (found_put s s' Hf eq_refl) as [Hf' ->];
    apply (HQ s'); [done|] end. by destruct Hl.
Qed.
End Slot.

Lemma ensures_check_finished c id cert_hash i w x s m missing v (Q : unit → Node World → Prop) :
  ready c → found c id i s → logged c id cert_hash m s →
  (∀ s' hash h, found c id i s' →
     hash_all (base_hash_sel (negotiate_info c)) (exchange_transcript c cert_hash m) = Ok hash →
     sens_as_ref (E:=SpdmStatus) hash = Ok h →
     Session.verify_hmac_with_response_finished_key s' h v = VERIFIED → Q tt (slotted c i w x s')) →
  ensures (check_finished id missing v) Q (slotted c i w x s).
Proof.
  intros Hr Hf Hl HQ. unfold check_finished, verify_finished. ens. eapply ensures_hash; [done|done|]. intros hash Hh.
  ens. intros h Href. apply ensures_bind. eapply ensures_session_or; [exact Hf|]. ens. intros ok Hok.
  destruct ok; [|ens; by apply ensures_any]. apply succeeded in Hok as [[] Hok].
  ens. intros vs _. apply ensures_or_else; [|intros ? ?; by apply ensures_bind, ensures_any].
  eapply append_logged; [done|done|done|]. intros s' Hf' Hl' Hs. eapply HQ; [done|done|done|].
  unfold Session.verify_hmac_with_response_finished_key, Session.hmac_verify_with in *.
  rewrite Hs, (lo_hash _ _ _ _ _ Hl'), <- (lo_hash _ _ _ _ _ Hl). exact Hok.
Qed.

Lemma ensures_authenticate c slot id cert_hash i w x s send bytes used p (Q : unit → Node World → Prop) :
  ready c → sens_wf cert_hash → found c id i s → started c id cert_hash s →
  (∀ s', found c id i s' → authenticated c slot cert_hash send bytes used p s' → Q tt (slotted c i w x s')) →
  ensures (authenticate_responder slot id send bytes used p) Q (slotted c i w x s).
Proof.
  intros Hr Hc Hf Hs HQ. unfold authenticate_responder. ens. cbn [slotted common].
  intros ssz Hssz. ens. intros hsz Hhsz. ens. intros u1 Hu1.
  change (in_clear_text (put_session i s c)) with (in_clear_text c).
  apply ensures_bind, (ensures_mono _ (λ k n, n = slotted c i w x s ∧
    k = used - ssz - (if in_clear_text c then 0 else hsz))).
  { apply sub_checked_ok in Hu1 as ->. destruct (in_clear_text c); ens; [split; [done|lia]|].
    by intros k ->%sub_checked_ok. }
  intros k ? [-> Hk]. apply ensures_bind. eapply append_started; [done|done|done|done|]. intros s1 Hf1 Hl1.
  unfold received. ens. intros rsp Hrsp%or_panic_ok. apply ensures_bind. eapply append_logged; [done|done|done|].
  intros s2 Hf2 Hl2 _. apply ensures_bind. eapply ensures_session_or; [exact Hf2|]. ens. intros ok Hok.
  destruct ok; [|done]. apply succeeded in Hok as [[] Hok]. apply obind_ok in Hok as (hash & Hhash & Hsig).
  unfold calc_transcript_hash in Hhash. rewrite (lo_th _ _ _ _ _ Hl2) in Hhash. cbn in Hhash. apply map_err_ok in Hhash.
  ens. intros sig Hs3. apply ensures_bind. eapply append_logged; [done|done|done|].
  intros s3 Hf3 Hl3 _. apply ensures_bind. eapply ensures_handshake; [done|done|]. intros s4 Hf4 Hl4.
  destruct (in_clear_text c) eqn:Hcl.
  - apply ensures_ret, HQ; [done|]. split. rewrite Hcl. exists ssz, hsz, rsp, hash. rewrite <- Hk. by split_and!.
  - eapply ensures_check_finished; [done|done|done|]. intros s5 hash' h Hf5 Hh' Href Hmac. apply HQ; [done|].
    split. rewrite Hcl. exists ssz, hsz, rsp, hash. rewrite <- Hk. split_and!; [done..|]. intros _.
    exists sig, hash', h. by rewrite <- app_assoc in Hh'.
Qed.

(** ** The whole exchange *)
Lemma ensures_on_node {O A} (m : request A) (Q : A → Node World * O → Prop) n (o : O) :
  ensures (on_node m) Q (n, o) ↔ ensures m (λ a n', Q a (n', o)) n.
Proof. unfold ensures, on_node. by destruct (m n) as [[] ?]. Qed.
Lemma session_id_free c h rsp id :
  ids_ok true c → get_next_half_session_id true c = Ok h →
  add_checked (E:=SpdmStatus) 32 (wrap 32 (Z.shiftl rsp 16)) h = Ok id → get_session_via_id id c = None.
Proof.
  intros Hc Hh Hid. pose proof (next_half_free true c Hc) as Hn.
  destruct (get_next_avaiable_session c) as [[i s]|] eqn:Ha; [|congruence].
  destruct Hn as (Hi & Hz & Hb & Hn). rewrite Hn in Hh. injection Hh as <-.
  assert (half_of true id = INITIAL_SESSION_ID - Z.of_nat i) as Hhalf.
  { unfold add_checked in Hid. case_match eqn:Hlt; [|done]. injection Hid as <-.
    unfold INITIAL_SESSION_ID in *. unfold wrap in *. rewrite Z.shiftl_mul_pow2 in * by lia.
    pose proof (Z.mod_pos_bound (rsp * 2 ^ 16) (2 ^ 32) eq_refl). rewrite half_of_spec by (unfold in_width; lia).
    rewrite <- Zplus_mod_idemp_l. change (2 ^ 32) with (2 ^ 16 * 2 ^ 16). rewrite Z.mul_mod_distr_r by lia.
    rewrite Z.mod_mul by lia. apply Z.mod_small. lia. }
  pose proof (fresh_half true c i s id Hc Hi Hz Hb Hhalf) as Hf. unfold get_immutable_session_via_id in Hf.
  by destruct (get_session_via_id id c).
Qed.

Lemma ensures_handshaking c id slot mut key send bytes used p v hb w x :
  ready c → get_session_via_id id c = None →
  ensures
    (let* cert_chain_hash := lift (peer_identity c slot) in
     let* _ := bind_session id mut key cert_chain_hash in
     let* _ := authenticate_responder slot id send bytes used p in
     let* _ := on_session id (
                 let* _ := modify (with_secure_spdm_version_sel v) in
                 let* _ := modify (with_heartbeat_period hb) in
                 modify (with_session_state SpdmSessionHandshaking)) in
     if in_clear_text c then upd_common (upd_runtime (with_last_session_id (Some id))) else ret tt)
    (λ _ n', ∃ cert_hash i s, peer_identity c slot = Ok cert_hash ∧
       get_session_via_id id (common n') = Some (i, s) ∧ authenticated c slot cert_hash send bytes used p s ∧
       session_state s = SpdmSessionHandshaking) (mkNode c w x).
Proof.
  intros Hr Hfree. ens. intros cert_hash Hcert. apply ensures_bind, bind_session_started; [done|]. cbn [common writer world].
  intros i s Hs Hf. change (mkNode _ w x) with (slotted c i w x s). apply ensures_bind.
  eapply ensures_authenticate; [done|by eapply peer_identity_wf; [apply Hr|]|done|done|]. intros s' Hf' Hau.
  apply ensures_bind. eapply ensures_session; [exact Hf'|]. ens. cbn [common slotted writer world].
  match goal with |- context [put_session i ?s'' (put_session i s' c)] =>
    destruct (found_put c id i s' s'' Hf' eq_refl) as [Hf2 ->]; assert (authenticated c slot cert_hash send bytes used p s'') as Hau'
      by (destruct Hau as [Hau]; split; exact Hau) end.
  destruct (in_clear_text c); ens; (do 3 eexists; split_and!; [done|exact Hf2|done|done]).
Qed.

(** The context in which the response is read. *)
Definition expecting (t : SpdmMeasurementSummaryHashType) (c : SpdmContext) : SpdmContext :=
  upd_runtime (with_need_measurement_summary_hash
    (bool_decide (t = SpdmMeasurementSummaryHashTypeTcb) || bool_decide (t = SpdmMeasurementSummaryHashTypeAll))) c.
(** [bytes] holds a KEY_EXCHANGE_RSP with payload [p], which ends at [used]. *)
Definition received_as c (bytes : list Z) (p : SpdmKeyExchangeResponsePayload) (used : usize) : Prop :=
  ∃ h r r', read (Reader.init bytes) = (Ok h, r) ∧ version h = selected c ∧
    request_response_code h = SpdmResponseKeyExchangeRsp ∧ spdm_read c r = (Ok p, r') ∧ used = Reader.used r'.

(** C6: the requester starts a session only with the responder it knows.  If
    it accepts a KEY_EXCHANGE_RSP, the signature in it is valid, under the
    certificate or key of the slot it asked for, for message A, the hash of
    that certificate chain or key, its own request and the response up to the
    signature; unless the handshake is in the clear, the verify data is the
    HMAC under the finished key of the session for these and the signature;
    and the session, under an id no other session has, is in the handshake. *)
Theorem key_exchange_authenticated req slot send bytes t ctx n :
  let c := expecting t (common n) in
  ready c → ids_ok true c → get_next_half_session_id true c = Ok req → bytes_wf bytes →
  ensures (handle_spdm_key_exchange_response req slot send bytes t ctx)
    (λ _ '(n', target), ∃ id p used cert_hash i s,
       received_as c bytes p used ∧ target = Some id ∧ get_session_via_id id c = None ∧
       peer_identity c slot = Ok cert_hash ∧ get_session_via_id id (common n') = Some (i, s) ∧
       authenticated c slot cert_hash send bytes used p s ∧ session_state s = SpdmSessionHandshaking) (n, None).
Proof.
  intros c Hr Hids Hreq Hb. unfold handle_spdm_key_exchange_response, expect_summary.
  apply ensures_bind, ensures_on_node, ensures_upd_common. fold (expecting t (common n)). fold c.
  apply ensures_bind, ensures_on_node, ensures_response; [done|]. intros h r Hh Hver Hcode Hrw Hbuf.
  unfold read_payload. ens. destruct (spdm_read c r) as [[p|e|] r'] eqn:Hp; [|done..].
  apply ensures_ret, ensures_bind, ensures_on_node, ensures_get_common, ensures_bind, ensures_on_node.
  cbn [common writer world].
  apply (ensures_mono _ (λ _ n1, common n1 = c)).
  { unfold shared_secret. ens. repeat case_match; ens; intros ? _; ens; try done; by apply ensures_any. }
  intros key [? w x] Hc. cbn in Hc. subst. ens. intros v _. ens. intros id Hid. 
  apply ensures_bind, ensures_on_node. cbn beta. eapply ensures_mono; [eapply ensures_handshaking; [done|by eapply session_id_free]|].
  intros [] n' (cert_hash & i & s & Hcert & Hg & Hau & Hst). exists id, p, (Reader.used r'), cert_hash, i, s.
  split_and!; [|done|by eapply session_id_free|done..]. by exists h, r, r'.
Qed.

(** ** FINISH *)
Lemma reset_finish id i s c :
  get_session_via_id id c = Some (i, s) →
  ∃ s', get_session_via_id id (reset_buffer_via_request_code SpdmRequestFinish (Some id) c) = Some (i, s') ∧
    mut_auth_requested s' = mut_auth_requested s ∧
    negotiate_info (reset_buffer_via_request_code SpdmRequestFinish (Some id) c) = negotiate_info c.
Proof.
  intros Hg. unfold reset_buffer_via_request_code. rewrite decide_False by done. cbn [reset_message_m].
  unfold with_session_via_id. rewrite Hg. cbn [modify snd]. set (s' := with_ses_runtime_info _ s).
  exists s'. assert (get_session_via_id id (put_session i s' c) = Some (i, s')) as Hf by by eapply find_put.
  cbv zeta. case_match; by split_and!.
Qed.

Lemma bind_panics {S E A B} (m : M S E A) (k : A → M S E B) s : fst (m s) = Panic → fst (bind m k s) = Panic.
Proof. unfold bind. destruct (m s) as [[] ?]; by cbn. Qed.
Lemma bind_runs {S E A B} (m : M S E A) (k : A → M S E B) s a s' : m s = (Ok a, s') → bind m k s = k a s'.
Proof. unfold bind. by intros ->. Qed.
Lemma session_or_runs id e i s n : get_session_via_id id (common n) = Some (i, s) → session_or id e n = (Ok s, n).
Proof.
  intros Hg. destruct n as [c w x]. unfold session_or. rewrite (bind_runs _ _ _ c (mkNode c w x)) by done.
  unfold lift. cbn in Hg. by rewrite (immutable_of _ _ _ _ Hg).
Qed.
Lemma encode_finish_panics id slot i s n :
  get_session_via_id id (common n) = Some (i, s) → is_empty (mut_auth_requested s) = false →
  req_asym_sel (negotiate_info (common n)) = empty_flags →
  pqc_req_asym_sel (negotiate_info (common n)) = empty_flags →
  fst (encode_spdm_finish id slot n) = Panic.
Proof.
  intros Hg Hm Ha Hp. unfold encode_spdm_finish. rewrite (bind_runs _ _ _ s n) by by eapply session_or_runs.
  destruct n as [c w x]. rewrite (bind_runs _ _ _ c (mkNode c w x)) by done. rewrite Hm. apply bind_panics, bind_panics.
  cbn [lift fst]. unfold get_req_asym_sig_size. cbn in Ha, Hp. rewrite Ha, Hp. by vm_compute.
Qed.

(** C25: a responder that asks for mutual authentication although no algorithm
    for it was negotiated makes the requester panic: FINISH looks for the size
    of a signature that no algorithm gives. *)
Theorem finish_panics_on_mut_auth id i s n :
  get_session_via_id id (common n) = Some (i, s) → is_empty (mut_auth_requested s) = false →
  req_asym_sel (negotiate_info (common n)) = empty_flags →
  pqc_req_asym_sel (negotiate_info (common n)) = empty_flags →
  fst (send_receive_spdm_finish None id n) = Panic.
Proof.
  intros Hg Hm Ha Hp. destruct n as [c w x]. unfold send_receive_spdm_finish. set (w' := Writer.init (zeros MAX_SPDM_MSG_SIZE)).
  rewrite (bind_runs _ _ _ tt (mkNode c w' x)) by done. apply bind_panics. unfold init_spdm_finish.
  rewrite (bind_runs _ _ _ c (mkNode c w' x)) by done. rewrite (bind_runs _ _ _ 0 (mkNode c w' x)) by done.
  rewrite (bind_runs _ _ _ s (mkNode c w' x)) by by eapply session_or_runs.
  destruct (reset_finish id i s c Hg) as (s' & Hg' & Hm' & Hn).
  rewrite (bind_runs _ _ _ tt (mkNode (reset_buffer_via_request_code SpdmRequestFinish (Some id) c) w' x)) by done.
  apply bind_panics. unfold or_teardown, or_else.
  match goal with |- fst (match ?m with _ => _ end) = _ => assert (fst m = Panic) as Hpanic end.
  { eapply encode_finish_panics; [exact Hg'|by rewrite Hm'|cbn [common]; by rewrite Hn..]. }
  by destruct (encode_spdm_finish _ _ _) as [[] ?].
Qed.
End Handshake.
End ReqHandshake.

Module ReqHandshakeExamples.
Import ReqHandshake Requester TwoParty RspToy ToyRing.
#[local] Existing Instance Mctp.transport.
#[local] Existing Instance toy_crypto.
#[local] Existing Instance toy_crypto_ok.
#[local] Existing Instance toy_peer_handlers.
#[local] Existing Instance toy_linked.
(** A key exchange up to the response. *)
Definition to_key_exchange_rsp : request (u16 * SpdmReqExchangeContext * list Z * list Z) :=
  let* _ := send_receive_spdm_certificate None 0 in
  let* _ := new_send_buffer in
  let* (req, ctx, send_used) := init_spdm_key_exchange 0 SpdmMeasurementSummaryHashTypeNone in
  let* bs := send_bytes send_used in
  let* _ := send_message None bs false in
  let* bytes := receive_message None false in
  ret (req, ctx, bs, bytes).
Definition reached : SpdmResult (u16 * SpdmReqExchangeContext * list Z * list Z) * (Node World * option ManagedBufferA) :=
  (let* _ := init_connection in on_node to_key_exchange_rsp) (toy_requester, None).
Definition rsp_node : Node World := fst (snd reached).
Definition ok_with {A} (d : A) (o : SpdmResult A) : A := match o with Ok a => a | _ => d end.
Definition rsp_data : u16 * SpdmReqExchangeContext * list Z * list Z :=
  ok_with (0, SpdmReqExchangeContextDhe (tt : @DheContext toy_linked), [], []) (fst reached).
Definition rsp_req : u16 := fst (fst (fst rsp_data)).
Definition rsp_ctx : SpdmReqExchangeContext := snd (fst (fst rsp_data)).
Definition rsp_send : list Z := snd (fst rsp_data).
Definition rsp_bytes : list Z := snd rsp_data.
Definition rsp_handled : SpdmResult unit * (Node World * option u32) :=
  handle_spdm_key_exchange_response rsp_req 0 rsp_send rsp_bytes SpdmMeasurementSummaryHashTypeNone rsp_ctx (rsp_node, None).
Lemma rsp_handled_ok :
  handle_spdm_key_exchange_response rsp_req 0 rsp_send rsp_bytes SpdmMeasurementSummaryHashTypeNone rsp_ctx (rsp_node, None)
  = (Ok tt, (fst (snd rsp_handled), Some 0xFFFDFFFD)).
Proof. vm_compute. reflexivity. Qed.
Lemma rsp_ready : ready (expecting SpdmMeasurementSummaryHashTypeNone (common rsp_node)).
Proof.
  split; [by vm_compute|]. split; [|vm_compute; exact I].
  split; [by vm_compute|]. split; [by vm_compute|]. apply is_byte_wf. vm_compute. reflexivity.
Qed.
Lemma key_exchange_authenticated_witness :
  let c := expecting SpdmMeasurementSummaryHashTypeNone (common rsp_node) in
  ∃ p used cert_hash i s,
    received_as c rsp_bytes p used ∧ peer_identity c 0 = Ok cert_hash ∧
    get_session_via_id 0xFFFDFFFD (common (fst (snd rsp_handled))) = Some (i, s) ∧
    authenticated c 0 cert_hash rsp_send rsp_bytes used p s.
Proof.
  intros c. assert (session c = session (new SpdmConfigInfo_default SpdmProvisionInfo_default)) as Hs by by vm_compute.
  assert (ids_ok true c) as Hids.
  { unfold ids_ok. rewrite Hs. exact (new_ids true SpdmConfigInfo_default SpdmProvisionInfo_default). }
  assert (get_next_half_session_id true c = Ok rsp_req) as Hreq by (vm_compute; reflexivity).
  assert (bytes_wf rsp_bytes) as Hb by (apply is_byte_wf; vm_compute; reflexivity).
  pose proof (key_exchange_authenticated rsp_req 0 rsp_send rsp_bytes SpdmMeasurementSummaryHashTypeNone rsp_ctx rsp_node
       rsp_ready Hids Hreq Hb) as H.
  destruct (ensures_ok _ _ _ _ _ H rsp_handled_ok) as (id & p & used & cert_hash & i & s & Hr & [= <-] & _ & Hc & Hg & Ha & _).
  exists p, used, cert_hash, i, s. exact (conj Hr (conj Hc (conj Hg Ha))).
Defined.

(** A session of a responder that asked for mutual authentication. *)
Definition mut_session : SpdmSession :=
  with_mut_auth_requested MUT_AUTH_REQ (with_session_id 7 Session.new).
Lemma finish_panics_on_mut_auth_witness :
  fst (send_receive_spdm_finish None 7
         (mkNode (put_session 0 mut_session (common toy_requester)) (writer toy_requester) (world toy_requester))) = Panic.
Proof. apply (finish_panics_on_mut_auth 7 0 mut_session); vm_compute; reflexivity. Defined.
End ReqHandshakeExamples.
