(* ===== verification/VersionChoice.v ===== *)
(** * The choice of the version

    About [negotiate_version] of ReqNegotiate.v, which get_version_req.rs
    does.  Proved: the requester selects the highest version that both sides
    support, and none only if there is none. *)

From stdpp Require Import sorting.
From S2P Require Import Prelude Codec Status Version Header ContextData SpdmCodec MsgLib MsgNegotiate ReqNegotiate.
Import ReqNegotiate.

Module VersionChoice.
(** [a] comes before [b]. *)
Definition not_below (a b : SpdmVersion) : Prop := version_leb b a = true.
#[export] Instance not_below_trans : Transitive not_below.
Proof. unfold not_below, version_leb. intros a b c Hab Hbc. lia. Qed.
#[export] Instance not_below_antisymm : AntiSymm (=) not_below.
Proof. unfold not_below. intros a b Hab Hba. by destruct a, b. Qed.
Lemma not_below_total a b : version_leb b a = false → not_below b a.
Proof. unfold not_below, version_leb. lia. Qed.

Lemma insert_perm x l : insert_desc x l ≡ₚ x :: l.
Proof. induction l as [|y l IH]; cbn; [done|]. case_match; [done|]. rewrite IH. apply Permutation_swap. Qed.
Lemma sort_perm l : sort_desc l ≡ₚ l.
Proof. induction l as [|x l IH]; cbn; [done|]. by rewrite insert_perm, IH. Qed.
Lemma insert_sorted x l :
  StronglySorted not_below (vs_version <$> l) → StronglySorted not_below (vs_version <$> insert_desc x l).
Proof.
  induction l as [|y l IH]; cbn; intros Hs; [by repeat constructor|]. apply StronglySorted_inv in Hs as [Hs Hy]. case_match eqn:Hxy.
  - cbn. constructor; [by constructor|]. constructor; [done|]. eapply Forall_impl; [exact Hy|]. intros z Hz. by etrans.
  - cbn. constructor; [by apply IH|]. rewrite (insert_perm x l). cbn. constructor; [|done]. by apply not_below_total.
Qed.
Lemma sort_sorted l : StronglySorted not_below (vs_version <$> sort_desc l).
Proof. induction l as [|x l IH]; cbn; [constructor|]. by apply insert_sorted. Qed.
(** The unused entries of the array sort behind the others. *)
Lemma sorted_lowest l k :
  StronglySorted not_below l → StronglySorted not_below (l ++ replicate k SpdmVersion10).
Proof.
  induction 1 as [|x l Hl IH Hx]; cbn.
  - induction k as [|k IH]; cbn; [constructor|]. constructor; [done|]. by apply Forall_replicate.
  - constructor; [done|]. apply Forall_app. split; [done|]. apply Forall_replicate. by destruct x.
Qed.
Lemma sort_array vs :
  len vs ≤ MAX_SPDM_VERSION_COUNT →
  vs_version <$> ztake (len vs) (sort_desc (version_array vs)) = vs_version <$> sort_desc vs.
Proof.
  intros Hl. set (k := Z.to_nat (MAX_SPDM_VERSION_COUNT - len vs)).
  assert (vs_version <$> sort_desc (version_array vs) = (vs_version <$> sort_desc vs) ++ replicate k SpdmVersion10) as Hs.
  { apply (StronglySorted_unique not_below); [apply sort_sorted|apply sorted_lowest, sort_sorted|].
    rewrite !sort_perm. unfold version_array. by rewrite fmap_app, fmap_replicate. }
  unfold ztake. rewrite fmap_take, Hs. apply take_app_length'. rewrite length_fmap, sort_perm. unfold len. lia.
Qed.
(** The first of a descending list that is wanted is the highest. *)
Lemma head_filter (P : SpdmVersion → Prop) `{!∀ v, Decision (P v)} l v :
  StronglySorted not_below l →
  head (filter P l) = Some v ↔ P v ∧ v ∈ l ∧ ∀ v', P v' → v' ∈ l → not_below v v'.
Proof.
  induction 1 as [|x l Hl IH Hx].
  - split; [done|]. by intros (_ & ?%not_elem_of_nil & _).
  - rewrite filter_cons. rewrite Forall_forall in Hx. destruct (decide (P x)) as [Hp|Hp].
    + cbn [head]. split.
      * intros [= ->]. split_and!; [done|by left|]. intros v' _ [->|Hv']%elem_of_cons; [by destruct v|]. by apply Hx.
      * intros (Hv & [->|Hin]%elem_of_cons & Hmax); [done|]. f_equal.
        apply (anti_symm not_below); [by apply Hx|]. apply Hmax; [done|by left].
    + rewrite IH. split; intros (Hv & Hin & Hmax); (split_and!; [done| |]).
      * by right.
      * intros v' Hv' [->|Hv'']%elem_of_cons; [done|by apply Hmax].
      * by apply elem_of_cons in Hin as [->|].
      * intros v' Hv' Hv''. apply Hmax; [done|by right].
Qed.

(** The versions of a VERSION response. *)
Definition listed (p : SpdmVersionResponsePayload) : list SpdmVersion :=
  vs_version <$> ztake (version_number_entry_count p) (versions p).
Lemma negotiate_version_iff own p v :
  versions_wf 0 p →
  negotiate_version own p = Some v ↔
  Some v ∈ own ∧ v ∈ listed p ∧ ∀ v', Some v' ∈ own → v' ∈ listed p → version_leb v' v = true.
Proof.
  intros (_ & vs & Hvs & Hn & Hd & _). pose proof (distinct_versions_len _ Hd) as Hl.
  unfold negotiate_version, listed. rewrite Hvs, Hn, sort_array by done. rewrite (head_filter _ _ _ (sort_sorted vs)).
  unfold version_array. rewrite ztake_app. setoid_rewrite (sort_perm vs). done.
Qed.
Lemma negotiate_version_none own p :
  versions_wf 0 p → negotiate_version own p = None ↔ ∀ v, Some v ∈ own → v ∉ listed p.
Proof.
  intros (_ & vs & Hvs & Hn & Hd & _). pose proof (distinct_versions_len _ Hd) as Hl.
  unfold negotiate_version, listed. rewrite Hvs, Hn, sort_array by done. unfold version_array. rewrite ztake_app.
  split.
  - intros Hnone v Hv Hin. rewrite <- (sort_perm vs) in Hin. apply head_None in Hnone.
    eapply not_elem_of_nil. rewrite <- Hnone. by apply list_elem_of_filter.
  - intros Hno. apply head_None. destruct (filter _ _) as [|v l] eqn:Hf; [done|].
    assert (v ∈ filter (λ v, Some v ∈ own) (vs_version <$> sort_desc vs)) as [Hv Hin]%list_elem_of_filter by (rewrite Hf; by left).
    rewrite sort_perm in Hin. by destruct (Hno v).
Qed.
(** C21: from a VERSION response the requester selects the highest of the
    versions that are in the response and in its configuration, in whatever
    order they are listed, and it fails exactly if there is none. *)
Theorem highest_common_version own p :
  versions_wf 0 p →
  (∀ v, negotiate_version own p = Some v ↔
        Some v ∈ own ∧ v ∈ listed p ∧ ∀ v', Some v' ∈ own → v' ∈ listed p → version_leb v' v = true) ∧
  (negotiate_version own p = None ↔ ∀ v, Some v ∈ own → v ∉ listed p).
Proof. intros Hp. split; [intros v; by apply negotiate_version_iff|by apply negotiate_version_none]. Qed.
(** A response that lists 1.1, 1.3 and 1.0, to a requester with 1.0, 1.1 and 1.2. *)
Definition unordered : SpdmVersionResponsePayload :=
  mkVersionResponse 3 (version_array (mkVersionStruct 0 <$> [SpdmVersion11; SpdmVersion13; SpdmVersion10])).
Lemma highest_common_version_witness :
  negotiate_version [Some SpdmVersion10; None; Some SpdmVersion11; Some SpdmVersion12] unordered = Some SpdmVersion11.
Proof.
  apply highest_common_version.
  - split; [by vm_compute|]. exists (mkVersionStruct 0 <$> [SpdmVersion11; SpdmVersion13; SpdmVersion10]).
    split_and!; [done|done| |].
    + by apply (bool_decide_unpack (NoDup _)).
    + by repeat constructor.
  - split_and!; [by apply (bool_decide_unpack (_ ∈ _))|by apply (bool_decide_unpack (_ ∈ _))|].
    intros v' Hv' Hin. apply (bool_decide_pack (Some v' ∈ _)) in Hv'. apply (bool_decide_pack (v' ∈ _)) in Hin. by destruct v'.
Defined.
End VersionChoice.
