(* ===== verification/Live.v ===== *)
(** * Progress

    [live m Q s]: from [s] the computation [m] returns, and [Q] holds of what
    it returns and of the state it leaves.  Proved: the rules for what the
    handlers of the responder and the requests of the requester share, on
    messages that are encoded as they should be, followed by the padding of a
    transport. *)

From S2P Require Import Prelude Codec Status Bitflags Algo DataTypes Structs Version Crypto HashCtx ManagedBuffer.
From S2P Require Import CertChain Session SecuredMessage Header ContextData Transport Context Transcript SpdmCodec.
From S2P Require Import MsgLib MsgMisc Message Platform RspLib RspLaws ReqLib.
Import Context Transcript ReqLib.

Definition live {S E A} (m : M S E A) (Q : A → S → Prop) (s : S) : Prop := wp m Q (λ _ _, False) s.

(** ** Rules *)
Section Live.
Context {S E : Type}.
Lemma live_mono {A} (m : M S E A) (Q Q' : A → S → Prop) s : live m Q s → (∀ a s', Q a s' → Q' a s') → live m Q' s.
Proof. intros Hm HQ. by eapply wp_mono; [exact HQ| |exact Hm]. Qed.
Lemma live_bind {A B} (m : M S E A) (k : A → M S E B) Q s :
  live (bind m k) Q s ↔ live m (λ a, live (k a) Q) s.
Proof. apply wp_bind. Qed.
Lemma live_ret {A} (a : A) (Q : A → S → Prop) s : live (E:=E) (ret a) Q s ↔ Q a s.
Proof. done. Qed.
Lemma live_lift {A} (o : outcome E A) (a : A) Q (s : S) : o = Ok a → Q a s → live (lift o) Q s.
Proof. by intros ->. Qed.
Lemma live_or_else {F A} (m : M S F A) (h : F → M S E A) Q s : live m Q s → live (or_else m h) Q s.
Proof. intros Hm. apply wp_or_else. eapply wp_mono; [..|exact Hm]; [done|by intros ? ?]. Qed.
Lemma live_map_err {F A} (f : F → E) (m : M S F A) Q s : live m Q s → live (map_errM f m) Q s.
Proof. intros Hm. apply wp_map_err. eapply wp_mono; [..|exact Hm]; [done|by intros ? ?]. Qed.
Lemma live_run {A} (m : M S E A) Q s a s' : m s = (Ok a, s') → Q a s' → live m Q s.
Proof. apply wp_run. Qed.
Lemma live_runs {A} (m : M S E A) Q s : live m Q s → ∃ a s', m s = (Ok a, s') ∧ Q a s'.
Proof. unfold live, wp. destruct (m s) as [[a|e|] s']; [eauto|done..]. Qed.
End Live.
Section LiveNode.
Context {W E : Type}.
Implicit Types n : Node W.
Lemma live_on_common {A} (m : M SpdmContext E A) Q n :
  live m (λ a c, Q a (mkNode c (writer n) (world n))) (common n) → live (on_common m) Q n.
Proof. intros Hm. apply wp_on_common. exact Hm. Qed.
Lemma live_on_writer {A} (m : M Writer E A) Q n :
  live m (λ a w, Q a (mkNode (common n) w (world n))) (writer n) → live (on_writer m) Q n.
Proof. intros Hm. apply wp_on_writer. exact Hm. Qed.
Lemma live_on_world {A} (m : M W E A) Q n :
  live m (λ a w, Q a (mkNode (common n) (writer n) w)) (world n) → live (on_world m) Q n.
Proof. intros Hm. apply wp_on_world. exact Hm. Qed.
Lemma live_get_common (Q : SpdmContext → Node W → Prop) n : Q (common n) n → live (E:=E) get_common Q n.
Proof. intros HQ. by apply wp_get_common. Qed.
Lemma live_upd_common f (Q : unit → Node W → Prop) n : Q tt (mkNode (f (common n)) (writer n) (world n)) → live (E:=E) (upd_common f) Q n.
Proof. done. Qed.
End LiveNode.

(** ** Reading what was encoded *)
Section Reading.
Lemma reader_after h rest :
  wf (h : SpdmMessageHeader) → bytes_wf rest →
  read (Reader.init (bytes h ++ rest)) = (Ok h, mkReader (bytes h ++ rest) 2) ∧ reader_wf (mkReader (bytes h ++ rest) 2).
Proof.
  intros Hh Hr. pose proof (bytes_ok h Hh) as Hb. split; [by apply (read_header h); [apply read_ok| |]|].
  assert (bytes_wf (bytes h ++ rest)) by by apply bytes_wf_app.
  split; [|done]. cbn [r_offs r_buf]. rewrite len_app. change (len (bytes h)) with 2. pose proof (len_nonneg rest). lia.
Qed.
Lemma drop_header (h : SpdmMessageHeader) rest : zdrop 2 (bytes h ++ rest) = rest.
Proof. change 2 with (len (bytes h)). apply zdrop_app. Qed.
End Reading.

(** ** Handlers *)
Section Handlers.
Context {W : Type}.
Implicit Types n : Node W.
Lemma live_fail_if b code st (Q : unit → Node W → Prop) n : b = false → Q tt n → live (fail_if b code st) Q n.
Proof. by intros ->. Qed.
Lemma live_check_header expected h rest (Q : Reader → Node W → Prop) n :
  wf h → bytes_wf rest → version h = expected (common n) →
  (reader_wf (mkReader (bytes h ++ rest) 2) → Q (mkReader (bytes h ++ rest) 2) n) →
  live (check_header expected (bytes h ++ rest)) Q n.
Proof.
  intros Hh Hr Hv HQ. destruct (reader_after h rest Hh Hr) as [Hrd Hw].
  apply live_bind, live_get_common. rewrite Hrd. rewrite bool_decide_eq_false_2 by (by intros []). by apply HQ.
Qed.
Lemma live_read_request A `{SpdmCodecOk A} (h : SpdmMessageHeader) (a : A) pb rest (Q : A * Reader → Node W → Prop) n :
  let buf := bytes h ++ pb ++ rest in
  pb = sbytes (common n) a → reader_wf (mkReader buf 2) → swf (common n) a →
  Q (a, mkReader buf (2 + len pb)) n →
  live (read_request A (mkReader buf 2)) Q n.
Proof.
  intros buf -> Hw Ha HQ. apply live_bind, live_get_common.
  rewrite (spdm_read_ok (common n) a Ha (mkReader buf 2) rest Hw (drop_header h _)). exact HQ.
Qed.
Lemma live_used_bytes bs tail k (Q : list Z → Node W → Prop) n :
  k = len bs → Q bs n → live (used_bytes (bs ++ tail) (mkReader (bs ++ tail) k)) Q n.
Proof.
  intros -> HQ. apply (live_lift _ bs); [|done]. unfold Reader.used. cbn [r_offs].
  pose proof (len_nonneg bs). pose proof (len_nonneg tail). rewrite slice_spec by (rewrite ?len_app; lia).
  rewrite zdrop_0, Z.sub_0_r. cbn. f_equal. by apply ztake_app'.
Qed.
End Handlers.
Lemma live_append_a m c Q :
  mb_wf (message_a (runtime_info c)) → bytes_wf m →
  len (mb_content (message_a (runtime_info c))) + len m ≤ mb_cap BufA →
  (∀ b, mb_wf b → mb_content b = mb_content (message_a (runtime_info c)) ++ m →
     Q tt (upd_runtime (with_message_a b) c)) →
  live (append_message_a m) Q c.
Proof.
  intros Hb Hm Hf HQ. unfold live, wp, append_message_a.
  destruct (append_message_fits m _ Hb Hm) as (b & -> & Hw & Hc); [|by apply HQ].
  destruct Hb as (Hu & Hl & _). unfold mb_content in Hf. rewrite len_ztake in Hf by lia. lia.
Qed.
Lemma live_encode {W A} `{SpdmCodec A} c (a : A) bs (Q : usize → Node W → Prop) n :
  encodes SPDM_STATUS_BUFFER_FULL (spdm_encode c a) bs → bytes_wf bs → len bs ≤ MAX_SPDM_MSG_SIZE →
  response_buffer (writer n) → fresh n → Q (len bs) (responds n bs) → live (on_writer (spdm_encode c a)) Q n.
Proof.
  intros He Hb Hl (Hwf & _ & Hwl) Hf HQ. apply live_on_writer. destruct (He _ Hwf) as [Hok _].
  unfold live, wp. rewrite Hok by (unfold Writer.left, fresh in *; lia). unfold responds, Writer.clear in HQ.
  rewrite <- Hf in HQ. by destruct (writer n) as [buf offs].
Qed.
