(* ===== verification/LiveResponder.v ===== *)
(** * Progress of the responder

    About the handlers of RspNegotiate.v on the requests of a requester.
    Proved: each of the three negotiating requests is answered, and what the
    responder then has negotiated is a function of the two configurations. *)

From S2P Require Import Prelude Codec Status Bitflags Algo DataTypes Structs Version Crypto HashCtx ManagedBuffer.
From S2P Require Import CertChain Session SecuredMessage Header ContextData Transport Context Transcript SpdmCodec.
From S2P Require Import MsgLib MsgNegotiate MsgMisc Message Platform RspLib RspLaws RspNegotiate ServedChain.
From S2P Require Import Negotiation NegAlgorithms ReqLib ReqNegotiate Live.
Import Context Transcript RspNegotiate ServedChain Negotiation NegAlgorithms.

Module LiveResponder.
(** A context with its configuration, its parameters and what message A holds. *)
Record holds (cfg : SpdmConfigInfo) (i : SpdmNegotiateInfo) (log : list Z) (c : SpdmContext) : Prop := {
  ho_config : config_info c = cfg;
  ho_negotiate : negotiate_info c = i;
  ho_a : mb_wf (message_a (runtime_info c));
  ho_log : mb_content (message_a (runtime_info c)) = log;
}.
Lemma entry_frame cfg i log c c' : holds cfg i log c → frame c c' → holds cfg i log c'.
Proof. intros [? ? ? ?] [E1 E2 E3 E4 _ _]. split; by rewrite ?E1, ?E2, ?E4. Qed.
Lemma holds_log cfg i log log' c b :
  holds cfg i log c → mb_wf b → mb_content b = log ++ log' → holds cfg i (log ++ log') (upd_runtime (with_message_a b) c).
Proof. intros [? ? ? ?] Hb Hc. by split. Qed.
Definition A_CAP : Z := mb_cap BufA.

Lemma len_concat_map {A} k (f : A → list Z) l : (∀ a, len (f a) = k) → len (concat (f <$> l)) = k * len l.
Proof.
  intros Hk. induction l as [|a l IH]; cbn [fmap list_fmap concat]; [by rewrite Z.mul_0_r|].
  rewrite len_app, len_cons, Hk, IH. nia.
Qed.

(** ** Messages *)
Definition get_version : list Z :=
  message_bytes (new SpdmConfigInfo_default SpdmProvisionInfo_default)
    (mkMessage (mkMessageHeader SpdmVersion10 SpdmRequestGetVersion) (SpdmGetVersionRequest mkGetVersion)).
Definition version_payload (cfg : SpdmConfigInfo) : SpdmVersionResponsePayload :=
  mkVersionResponse (wrap 8 (len (own_versions cfg))) (version_array (mkVersionStruct 0 <$> own_versions cfg)).
Definition version_rsp (cfg : SpdmConfigInfo) : list Z :=
  message_bytes (new SpdmConfigInfo_default SpdmProvisionInfo_default)
    (mkMessage (mkMessageHeader SpdmVersion10 SpdmResponseVersion) (SpdmVersionResponse (version_payload cfg))).

(** From here on a version is selected. *)
Definition at_version (v : SpdmVersion) : SpdmContext :=
  upd_negotiate (with_spdm_version_sel v) (new SpdmConfigInfo_default SpdmProvisionInfo_default).
Definition own_request (rq : SpdmConfigInfo) : SpdmGetCapabilitiesRequestPayload :=
  mkGetCapabilities (cfg_req_ct_exponent rq) (cfg_req_capabilities rq) (cfg_data_transfer_size rq)
    (cfg_max_spdm_msg_size rq) empty_flags.
Definition own_response (rp : SpdmConfigInfo) : SpdmCapabilitiesResponsePayload :=
  mkCapabilities (cfg_rsp_ct_exponent rp) (cfg_rsp_capabilities rp) (cfg_data_transfer_size rp)
    (cfg_max_spdm_msg_size rp) empty_flags.
Definition get_capabilities (v : SpdmVersion) (rq : SpdmConfigInfo) : list Z :=
  message_bytes (at_version v)
    (mkMessage (mkMessageHeader v SpdmRequestGetCapabilities) (SpdmGetCapabilitiesRequest (own_request rq))).
Definition capabilities_rsp (v : SpdmVersion) (rp : SpdmConfigInfo) : list Z :=
  message_bytes (at_version v)
    (mkMessage (mkMessageHeader v SpdmResponseCapabilities) (SpdmCapabilitiesResponse (own_response rp))).
(** The parameters after both sides told their capabilities. *)
Definition told (v : SpdmVersion) (rq rp : SpdmConfigInfo) : SpdmNegotiateInfo :=
  with_rsp_max_spdm_msg_size_sel (cfg_max_spdm_msg_size rp) (with_rsp_data_transfer_size_sel (cfg_data_transfer_size rp)
  (with_req_max_spdm_msg_size_sel (cfg_max_spdm_msg_size rq) (with_req_data_transfer_size_sel (cfg_data_transfer_size rq)
  (with_rsp_capabilities_sel (cfg_rsp_capabilities rp) (with_rsp_ct_exponent_sel (cfg_rsp_ct_exponent rp)
  (with_req_capabilities_sel (cfg_req_capabilities rq) (with_req_ct_exponent_sel (cfg_req_ct_exponent rq)
  (with_spdm_version_sel v SpdmNegotiateInfo_default)))))))).

(** What a requester offers, as parameters and as a request. *)
Definition asked (v : SpdmVersion) (rq : SpdmConfigInfo) : SpdmNegotiateInfo :=
  with_kem_sel (cfg_kem_algo rq) (with_pqc_req_asym_sel (cfg_pqc_req_asym_algo rq)
  (with_key_schedule_sel (cfg_key_schedule_algo rq) (with_req_asym_sel (cfg_req_asym_algo rq)
  (with_aead_sel (cfg_aead_algo rq) (with_dhe_sel (cfg_dhe_algo rq)
  (with_spdm_version_sel v SpdmNegotiateInfo_default)))))).
Definition own_offer (v : SpdmVersion) (rq : SpdmConfigInfo) : SpdmNegotiateAlgorithmsRequestPayload :=
  mkNegotiateAlgorithms (cfg_measurement_specification rq) (cfg_other_params_support rq)
    (cfg_base_asym_algo rq) (cfg_base_hash_algo rq)
    (if version_leb SpdmVersion14 v then cfg_pqc_asym_algo rq else empty_flags)
    (if version_leb SpdmVersion13 v then cfg_mel_specification rq else empty_flags)
    (len (chosen_algs (asked v rq))) (alg_array (chosen_algs (asked v rq))).
Definition negotiate_algorithms (v : SpdmVersion) (rq : SpdmConfigInfo) : list Z :=
  message_bytes (at_version v)
    (mkMessage (mkMessageHeader v SpdmRequestNegotiateAlgorithms) (SpdmNegotiateAlgorithmsRequest (own_offer v rq))).
(** The parameters with the offer in place of a selection: the sets, then the
    algorithm structures. *)
Definition stored_sets (v : SpdmVersion) (rq rp : SpdmConfigInfo) (i : SpdmNegotiateInfo) : SpdmNegotiateInfo :=
  let mel := version_leb SpdmVersion13 v && contains (cfg_rsp_capabilities rp) SpdmResponseCapabilityFlags.MEL_CAP in
  with_pqc_asym_sel (if version_leb SpdmVersion14 v then cfg_pqc_asym_algo rq else empty_flags)
  (with_mel_specification_sel (if mel then cfg_mel_specification rq else empty_flags)
  (with_base_asym_sel (cfg_base_asym_algo rq) (with_base_hash_sel (cfg_base_hash_algo rq) i))).
Definition stored_algs (v : SpdmVersion) (rq : SpdmConfigInfo) (i : SpdmNegotiateInfo) : SpdmNegotiateInfo :=
  let v14 := version_leb SpdmVersion14 v in
  with_kem_sel (if v14 then cfg_kem_algo rq else empty_flags)
  (with_pqc_req_asym_sel (if v14 then cfg_pqc_req_asym_algo rq else empty_flags)
  (with_key_schedule_sel (cfg_key_schedule_algo rq) (with_req_asym_sel (cfg_req_asym_algo rq)
  (with_aead_sel (cfg_aead_algo rq) (with_dhe_sel (cfg_dhe_algo rq) i))))).
Definition offered (v : SpdmVersion) (rq rp : SpdmConfigInfo) : SpdmNegotiateInfo :=
  stored_algs v rq (stored_sets v rq rp
    (with_measurement_specification_sel (cfg_measurement_specification rq) (told v rq rp))).
(** What the two configurations agree on. *)
Definition agreed (v : SpdmVersion) (rq rp : SpdmConfigInfo) : SpdmNegotiateInfo :=
  with_other_params_support (inter (cfg_other_params_support rq) (cfg_other_params_support rp))
    (prioritize_all rp (offered v rq rp)).
Definition algorithms_rsp (v : SpdmVersion) (rq rp : SpdmConfigInfo) : list Z :=
  message_bytes (at_version v) (mkMessage (mkMessageHeader v SpdmResponseAlgorithms)
    (SpdmAlgorithmsResponse (algorithms_of (agreed v rq rp) (other_params_support (agreed v rq rp))))).
(** Neither side has several keys. *)
Record one_key (rq rp : SpdmConfigInfo) : Prop := {
  one_req : contains (cfg_req_capabilities rq) SpdmRequestCapabilityFlags.MULTI_KEY_CAP_ONLY = false ∧
            contains (cfg_req_capabilities rq) SpdmRequestCapabilityFlags.MULTI_KEY_CAP_CONN_SEL = false;
  one_rsp : contains (cfg_rsp_capabilities rp) SpdmResponseCapabilityFlags.MULTI_KEY_CAP_ONLY = false ∧
            contains (cfg_rsp_capabilities rp) SpdmResponseCapabilityFlags.MULTI_KEY_CAP_CONN_SEL = false;
  one_conn : contains (cfg_other_params_support rq) SpdmAlgoOtherParams.MULTI_KEY_CONN = false;
}.

Lemma get_capabilities_bytes c v p : selected c = v → sbytes c (p : SpdmGetCapabilitiesRequestPayload) = sbytes (at_version v) p.
Proof. unfold selected. intros <-. done. Qed.
Lemma get_capabilities_wf_at c v p : selected c = v → get_capabilities_wf (at_version v) p → get_capabilities_wf c p.
Proof. unfold selected. intros <-. exact id. Qed.
Lemma len_message c h p : len (message_bytes c (mkMessage h p)) = 2 + len (payload_bytes c p).
Proof. unfold message_bytes. rewrite len_app. done. Qed.
Lemma message_bytes_app c h p tail : message_bytes c (mkMessage h p) ++ tail = bytes h ++ payload_bytes c p ++ tail.
Proof. unfold message_bytes. by rewrite <- app_assoc. Qed.
Lemma message_bytes_eq c c' h p : payload_bytes c p = payload_bytes c' p → message_bytes c (mkMessage h p) = message_bytes c' (mkMessage h p).
Proof. unfold message_bytes. cbn [msg_payload msg_header]. by intros ->. Qed.
Lemma capabilities_bytes c v p : selected c = v → sbytes c (p : SpdmCapabilitiesResponsePayload) = sbytes (at_version v) p.
Proof. unfold selected. intros <-. done. Qed.
Lemma algorithms_bytes c v p : selected c = v → sbytes c (p : SpdmAlgorithmsResponsePayload) = sbytes (at_version v) p.
Proof. unfold selected. intros <-. done. Qed.
Lemma negotiate_algorithms_bytes c v p : selected c = v → sbytes c (p : SpdmNegotiateAlgorithmsRequestPayload) = sbytes (at_version v) p.
Proof. unfold selected. intros <-. done. Qed.
Lemma len_or_zeros b bs n : len bs = n → 0 ≤ n → len (or_zeros b bs n) = n.
Proof. intros Hl Hn. unfold or_zeros. destruct b; [done|]. by apply len_zeros. Qed.

Section Handlers.
Context {W : Type} `{CryptoOk}.
Implicit Types n : Node W.

(** The response and its log. *)
Lemma live_log_response {A} `{SpdmCodec A} cfg i log c (a : A) out (Q : unit → Node W → Prop) n :
  response_buffer (writer n) → fresh n → holds cfg i log (common n) → len (log ++ out) ≤ A_CAP →
  encodes SPDM_STATUS_BUFFER_FULL (spdm_encode c a) out → bytes_wf out → len out ≤ MAX_SPDM_MSG_SIZE →
  (∀ b w, holds cfg i (log ++ out) (upd_runtime (with_message_a b) (common n)) → written w out →
     Q tt (mkNode (upd_runtime (with_message_a b) (common n)) w (world n))) →
  live (let* _ := try_local (on_writer (spdm_encode c a)) in
        let* rsp := used_slice in try_local (on_common (append_message_a rsp))) Q n.
Proof.
  intros Hw Hf Hh Hcap He Hb Hl HQ. rewrite len_app in Hcap. apply live_bind, live_or_else. eapply live_encode; [done..|].
  destruct (responds_ok n out Hw Hb Hl) as [_ Hwr]. apply live_bind. eapply wp_used_slice; [exact Hwr|].
  apply live_or_else, live_on_common. cbn [responds common].
  apply live_append_a; [apply Hh|done|by rewrite (ho_log _ _ _ _ Hh)|].
  intros b Hbw Hbc. rewrite (ho_log _ _ _ _ Hh) in Hbc. apply HQ; [by apply holds_log|done].
Qed.
Lemma live_log_send cfg i log code p (Q : unit → Node W → Prop) n :
  let out := response_bytes (common n) code p in
  response_buffer (writer n) → fresh n → holds cfg i log (common n) → len (log ++ out) ≤ A_CAP →
  response_writes (common n) code p → len out ≤ MAX_SPDM_MSG_SIZE →
  (∀ b w, holds cfg i (log ++ out) (upd_runtime (with_message_a b) (common n)) → written w out →
     Q tt (mkNode (upd_runtime (with_message_a b) (common n)) w (world n))) →
  live (let* _ := try_local (send_response code p) in
        let* rsp := used_slice in try_local (on_common (append_message_a rsp))) Q n.
Proof.
  intros out Hw Hf Hh Hcap Hp Hl HQ. destruct (response_encodes _ _ _ Hp) as [He Hb].
  pose proof (live_log_response cfg i log (common n) _ _ Q n Hw Hf Hh Hcap He Hb Hl HQ) as Hs.
  unfold live, try_local, try_or, send_response in *. rewrite wp_bind, wp_or_else in Hs.
  rewrite wp_bind, wp_or_else, wp_bind, wp_get_common. exact Hs.
Qed.
(** The request, logged before the handler goes on. *)
Lemma live_log_request {A} cfg i log bs tail k (m : handler W A) (Q : A → Node W → Prop) n :
  k = len bs → holds cfg i log (common n) → bytes_wf bs → len (log ++ bs) ≤ A_CAP →
  (∀ b, holds cfg i (log ++ bs) (upd_runtime (with_message_a b) (common n)) →
     live m Q (mkNode (upd_runtime (with_message_a b) (common n)) (writer n) (world n))) →
  live (let* req := used_bytes (bs ++ tail) (mkReader (bs ++ tail) k) in
        let* _ := try_local (on_common (append_message_a req)) in m) Q n.
Proof.
  intros Hk Hh Hb Hcap HQ. rewrite len_app in Hcap. apply live_bind. apply live_used_bytes; [done|].
  apply live_bind, live_or_else, live_on_common, live_append_a; [apply Hh|done|by rewrite (ho_log _ _ _ _ Hh)|].
  intros b Hbw Hbc. rewrite (ho_log _ _ _ _ Hh) in Hbc. apply HQ. by apply holds_log.
Qed.

(** ** GET_VERSION *)
Lemma version_rsp_ok cfg c :
  config_ok cfg →
  encodes SPDM_STATUS_BUFFER_FULL (spdm_encode c
    (mkMessage (mkMessageHeader SpdmVersion10 SpdmResponseVersion) (SpdmVersionResponse (version_payload cfg)))) (version_rsp cfg) ∧
  bytes_wf (version_rsp cfg) ∧ 2 ≤ len (version_rsp cfg) ≤ 64.
Proof.
  intros Hcfg. destruct (list_versions_ok cfg Hcfg) as [_ Hwf]. fold (version_payload cfg) in Hwf.
  set (m := mkMessage _ _). assert (message_wf c m) as Hm by (split; [by split|exact Hwf]).
  split; [exact (message_encode_ok c m Hm)|]. split; [exact (message_bytes_ok c m Hm)|].
  destruct Hwf as (_ & vs & Hv & Hl & Hd & Hw). pose proof (distinct_versions_len _ Hd). pose proof (len_nonneg vs).
  unfold version_rsp, message_bytes. cbn [payload_bytes msg_payload sbytes spdm_codec_ok_version msg_header].
  rewrite Hv, Hl. unfold version_array. rewrite ztake_app, !len_app. unfold seq_bytes.
  rewrite (len_concat_map 2) by done. change (len (bytes _)) with 2. rewrite !len_cons, !len_nil. change (len (@nil u8)) with 0.
  unfold MAX_SPDM_VERSION_COUNT in *. lia.
Qed.
Lemma version_live tail (Q : unit → Node W → Prop) n :
  response_buffer (writer n) → fresh n → config_ok (config_info (common n)) → bytes_wf tail →
  (∀ c w, holds (config_info (common n)) SpdmNegotiateInfo_default
            (get_version ++ version_rsp (config_info (common n))) c →
     provision_info c = provision_info (common n) → written w (version_rsp (config_info (common n))) →
     Q tt (mkNode c w (world n))) →
  live (write_spdm_version_response (get_version ++ tail)) Q n.
Proof.
  intros Hw Hf Hcfg Ht HQ. set (cfg := config_info (common n)) in *.
  set (h := mkMessageHeader SpdmVersion10 SpdmRequestGetVersion). assert (wf h) as Hh by by split.
  set (GV := sbytes (common n) mkGetVersion). change (get_version ++ tail) with (bytes h ++ GV ++ tail).
  assert (bytes_wf (GV ++ tail)) by (apply bytes_wf_app; split; [by apply is_byte_wf|done]).
  apply live_bind, live_check_header; [done..|]. intros Hr. apply live_bind, live_upd_common.
  pose proof (reset_buffer_frame SpdmRequestGetVersion None (common n)) as Hfr.
  set (c1 := reset_buffer_via_request_code _ _ _) in *. apply live_bind.
  apply (live_read_request SpdmGetVersionRequestPayload h mkGetVersion GV tail); [done|done|done|].
  apply live_bind, live_upd_common. cbn [common writer world].
  change (bytes h ++ GV ++ tail) with (get_version ++ tail).
  apply (live_log_request cfg SpdmNegotiateInfo_default []); [done| |by apply is_byte_wf|by vm_compute|].
  { destruct Hfr as [E1 _ _ _ _ _]. split; [exact E1|done|apply mb_default_wf|done]. }
  intros b Hho. apply live_bind, live_get_common. cbn [common writer world].
  change (config_info (upd_runtime (with_message_a b) (reset_context c1))) with (config_info c1).
  rewrite (frame_config _ _ Hfr). fold cfg. destruct (list_versions_ok cfg Hcfg) as [Hl _].
  apply live_bind, (live_lift _ _ _ _ Hl). cbv beta iota zeta.
  destruct (version_rsp_ok cfg (upd_runtime (with_message_a b) (reset_context c1)) Hcfg) as (He & Hb & Hlen).
  eapply live_log_response; [exact Hw|exact Hf|exact Hho| |exact He|exact Hb|unfold MAX_SPDM_MSG_SIZE; lia|].
  - rewrite !len_app, len_nil. change (len get_version) with 4. change A_CAP with 660. lia.
  - intros b' w Hho' Hwr. apply HQ; [exact Hho'| |done]. exact (frame_provision _ _ Hfr).
Qed.

(** ** GET_CAPABILITIES *)
Lemma get_capabilities_len v rq : 2 ≤ len (get_capabilities v rq) ≤ 64.
Proof. destruct rq, v; vm_compute; (split; discriminate). Qed.
Lemma capabilities_rsp_len v rp : 2 ≤ len (capabilities_rsp v rp) ≤ 64.
Proof. destruct rp, v; vm_compute; (split; discriminate). Qed.
Lemma select_capabilities_told v rq rp c log :
  version_leb SpdmVersion12 v = true → holds rp (with_spdm_version_sel v SpdmNegotiateInfo_default) log c →
  holds rp (told v rq rp) log (select_capabilities (own_request rq) c).
Proof.
  intros Hv [Hc Hn Ha Hl]. unfold select_capabilities. cbv zeta.
  match goal with |- context [ver_ge ?c SpdmVersion12] => assert (ver_ge c SpdmVersion12 = true) as ->
    by (unfold ver_ge, upd_negotiate; cbn; rewrite Hn; done) end.
  split; cbn; rewrite ?Hn, ?Hc; done.
Qed.
Lemma select_capabilities_provision g c : provision_info (select_capabilities g c) = provision_info c.
Proof. unfold select_capabilities. by case_match. Qed.
Lemma capability_answer v rq rp tail log c k (Q : unit → Node W → Prop) n :
  response_buffer (writer n) → fresh n → config_ok rp → bytes_wf (get_capabilities v rq) → len log ≤ 200 →
  k = len (get_capabilities v rq) → common n = c → holds rp (told v rq rp) log c →
  (∀ c' w, holds rp (told v rq rp) (log ++ get_capabilities v rq ++ capabilities_rsp v rp) c' →
     provision_info c' = provision_info c → written w (capabilities_rsp v rp) → Q tt (mkNode c' w (world n))) →
  live (let* req := used_bytes (get_capabilities v rq ++ tail) (mkReader (get_capabilities v rq ++ tail) k) in
        let* _ := try_local (on_common (append_message_a req)) in
        let* c := get_common in
        let cfg := config_info c in
        let* _ := try_local (send_response SpdmResponseCapabilities
                    (SpdmCapabilitiesResponse (mkCapabilities (cfg_rsp_ct_exponent cfg) (cfg_rsp_capabilities cfg)
                       (cfg_data_transfer_size cfg) (cfg_max_spdm_msg_size cfg) empty_flags))) in
        let* rsp := used_slice in
        try_local (on_common (append_message_a rsp))) Q n.
Proof.
  intros Hw Hf Hcfg Hbs Hlog Hk <- Hho HQ. pose proof (get_capabilities_len v rq). pose proof (capabilities_rsp_len v rp).
  apply (live_log_request rp (told v rq rp) log); [exact Hk|exact Hho|exact Hbs| |].
  { rewrite len_app. change A_CAP with 660. lia. }
  intros b Hb. apply live_bind, live_get_common. cbn [common writer world]. rewrite (ho_config _ _ _ _ Hb).
  set (c3 := upd_runtime _ _) in *. cbv zeta. fold (own_response rp).
  assert (selected c3 = v) as Hsel by (unfold selected; by rewrite (ho_negotiate _ _ _ _ Hb)).
  assert (response_bytes c3 SpdmResponseCapabilities (SpdmCapabilitiesResponse (own_response rp)) = capabilities_rsp v rp) as Hrsp.
  { unfold response_bytes. rewrite Hsel. apply message_bytes_eq. cbn [payload_bytes]. by apply capabilities_bytes. }
  apply (live_log_send rp (told v rq rp) (log ++ get_capabilities v rq)); cbn [common writer world]; rewrite ?Hrsp.
  - exact Hw.
  - exact Hf.
  - exact Hb.
  - rewrite !len_app. change A_CAP with 660. lia.
  - destruct Hcfg as [_ (? & ? & ? & ?) _ _ _]. by apply capabilities_writes.
  - unfold MAX_SPDM_MSG_SIZE. lia.
  - intros b' w Hb' Hwr. apply HQ; [by rewrite app_assoc|done|done].
Qed.
Lemma get_capabilities_app v rq tail :
  get_capabilities v rq ++ tail
  = bytes (mkMessageHeader v SpdmRequestGetCapabilities) ++ sbytes (at_version v) (own_request rq) ++ tail.
Proof. apply message_bytes_app. Qed.
Lemma capability_read v rq rp tail log n (Q : unit → Node W → Prop) :
  response_buffer (writer n) → fresh n → config_ok rp → bytes_wf tail →
  version_leb SpdmVersion12 v = true → get_capabilities_wf (at_version v) (own_request rq) →
  holds rp (with_spdm_version_sel v SpdmNegotiateInfo_default) log (common n) → len log ≤ 200 →
  reader_wf (mkReader (get_capabilities v rq ++ tail) 2) →
  (∀ c w, holds rp (told v rq rp) (log ++ get_capabilities v rq ++ capabilities_rsp v rp) c →
     provision_info c = provision_info (common n) → written w (capabilities_rsp v rp) → Q tt (mkNode c w (world n))) →
  live (let* (g, reader) := read_request SpdmGetCapabilitiesRequestPayload (mkReader (get_capabilities v rq ++ tail) 2) in
        let* _ := upd_common (select_capabilities g) in
        let* req := used_bytes (get_capabilities v rq ++ tail) reader in
        let* _ := try_local (on_common (append_message_a req)) in
        let* c := get_common in
        let cfg := config_info c in
        let* _ := try_local (send_response SpdmResponseCapabilities
                    (SpdmCapabilitiesResponse (mkCapabilities (cfg_rsp_ct_exponent cfg) (cfg_rsp_capabilities cfg)
                       (cfg_data_transfer_size cfg) (cfg_max_spdm_msg_size cfg) empty_flags))) in
        let* rsp := used_slice in
        try_local (on_common (append_message_a rsp))) Q n.
Proof.
  intros Hw Hf Hcfg Ht Hv Hg Hho Hlog Hr HQ. rewrite get_capabilities_app in *.
  assert (selected (common n) = v) as Hsel by (unfold selected; by rewrite (ho_negotiate _ _ _ _ Hho)).
  apply live_bind, (live_read_request SpdmGetCapabilitiesRequestPayload _ (own_request rq)); [|exact Hr| |].
  { symmetry. by apply get_capabilities_bytes. }
  { by apply (get_capabilities_wf_at _ v). }
  rewrite <- get_capabilities_app. apply live_bind, live_upd_common.
  apply (select_capabilities_told v rq rp _ _ Hv) in Hho.
  eapply (capability_answer v rq rp); [exact Hw|exact Hf|exact Hcfg| |exact Hlog| |reflexivity|exact Hho|].
  { apply (bytes_wf_app (bytes (mkMessageHeader v SpdmRequestGetCapabilities))).
    split; [by apply bytes_ok|apply sbytes_ok; exact Hg]. }
  { unfold get_capabilities. by rewrite len_message. }
  intros c w Hc Hp. cbn [common] in Hp. rewrite select_capabilities_provision in Hp. by apply HQ.
Qed.
Lemma capability_live v rq tail log (Q : unit → Node W → Prop) n :
  let rp := config_info (common n) in
  response_buffer (writer n) → fresh n → config_ok rp → bytes_wf tail →
  version_leb SpdmVersion12 v = true → get_capabilities_wf (at_version v) (own_request rq) →
  holds rp SpdmNegotiateInfo_default log (common n) →
  connection_state (runtime_info (common n)) = SpdmConnectionAfterVersion → len log ≤ 200 →
  (∀ c w, holds rp (told v rq rp) (log ++ get_capabilities v rq ++ capabilities_rsp v rp) c →
     provision_info c = provision_info (common n) → written w (capabilities_rsp v rp) → Q tt (mkNode c w (world n))) →
  live (write_spdm_capability_response (get_capabilities v rq ++ tail)) Q n.
Proof.
  intros rp Hw Hf Hcfg Ht Hv Hg Hho Hst Hlog HQ. assert (wf (mkMessageHeader v SpdmRequestGetCapabilities)) as Hh by by split.
  assert (bytes_wf (sbytes (at_version v) (own_request rq) ++ tail)) as Hpt.
  { apply bytes_wf_app. split; [apply sbytes_ok; exact Hg|done]. }
  pose proof (reset_buffer_frame SpdmRequestGetCapabilities None (upd_negotiate (with_spdm_version_sel v) (common n))) as Hfr.
  assert (holds rp (with_spdm_version_sel v SpdmNegotiateInfo_default) log (upd_negotiate (with_spdm_version_sel v) (common n))) as Hh1.
  { destruct Hho as [E1 E2 E3 E4]. split; [done|cbn; by rewrite E2|done|done]. }
  pose proof (entry_frame _ _ _ _ _ Hh1 Hfr) as Hh2. pose proof (frame_provision _ _ Hfr) as Hprov.
  pose proof (capability_read v rq rp tail log (mkNode _ (writer n) (world n)) Q Hw Hf Hcfg Ht Hv Hg Hh2 Hlog) as Hread. clear Hfr Hh1 Hh2.
  apply live_bind, live_get_common, live_bind, live_fail_if; [by rewrite bool_decide_eq_false_2 by (by intros [])|].
  rewrite get_capabilities_app in *. destruct (reader_after _ _ Hh Hpt) as [Hrd Hr].
  apply live_bind. unfold select_version. rewrite Hrd. clear Hrd.
  apply live_bind, live_fail_if; [by destruct v|]. apply live_bind, live_upd_common, live_ret, live_bind, live_upd_common.
  apply (Hread Hr). intros c w Hc Hp. cbn [common] in Hp. rewrite Hprov in Hp. by apply HQ.
Qed.

(** ** NEGOTIATE_ALGORITHMS *)
Lemma invalid_empty {d} (f : flags d) : flags_wf f → is_valid f = false → f = empty_flags.
Proof.
  intros [Hm _] Hv. unfold is_valid in Hv. apply negb_false_iff, Z.eqb_eq in Hv. destruct f as [b]. cbn in *. unfold empty_flags. congruence.
Qed.
(** One algorithm structure of the request, if it is there. *)
Lemma live_offer b t alg rest i (Q : unit → Node W → Prop) n :
  (b = true → offer_alg alg n = (Ok tt, neg_node n i)) → (b = false → i = negotiate_info (common n)) →
  live (offer_algs rest) Q (neg_node n i) → live (offer_algs (put_if b (mkAlgStruct t alg) ++ rest)) Q n.
Proof.
  intros Ht Hf HQ. destruct b; cbn [put_if app offer_algs].
  - apply live_bind. by eapply live_run; [apply Ht|].
  - rewrite Hf in HQ by done. by rewrite neg_node_id in HQ.
Qed.
Record no_algs (i : SpdmNegotiateInfo) : Prop := {
  no_dhe : dhe_sel i = empty_flags; no_aead : aead_sel i = empty_flags; no_req_asym : req_asym_sel i = empty_flags;
  no_key_schedule : key_schedule_sel i = empty_flags; no_pqc_req_asym : pqc_req_asym_sel i = empty_flags;
  no_kem : kem_sel i = empty_flags;
}.
Lemma offer_14_run {d} (f : flags d) set i n :
  version_leb SpdmVersion14 (spdm_version_sel i) = true → is_valid f = true →
  (let* c := get_common in if ver_ge c SpdmVersion14 then offer f set else ret tt) (neg_node n i)
  = (Ok tt, neg_node n (set f i)).
Proof.
  intros Hv Hf. assert (ver_ge (common (neg_node n i)) SpdmVersion14 = true) as Hge by exact Hv.
  assert (get_common (E:=Reply) (neg_node n i) = (Ok (common (neg_node n i)), neg_node n i)) as Hg by by destruct n.
  unfold bind. rewrite Hg, Hge. unfold offer. by rewrite Hf.
Qed.
(** An offer that is not valid is what the empty field holds. *)
Lemma live_offer_field {d} (b : bool) t (C : flags d → SpdmAlg) get set (f : flags d) rest i (Q : unit → Node W → Prop) n :
  flags_wf f → get i = empty_flags → (∀ j, set (get j) j = j) →
  (b && is_valid f = true → offer_alg (C f) (neg_node n i) = (Ok tt, neg_node n (set f i))) →
  live (offer_algs rest) Q (neg_node n (set (if b then f else empty_flags) i)) →
  live (offer_algs (put_if (b && is_valid f) (mkAlgStruct t (C f)) ++ rest)) Q (neg_node n i).
Proof.
  intros Hf Hi Hset Ho HQ. apply (live_offer _ _ _ _ (set (if b then f else empty_flags) i)); [| |exact HQ].
  - intros Hb. rewrite (Ho Hb). apply andb_true_iff in Hb as [-> _]. done.
  - intros Hb. cbn [common neg_node negotiate_info with_negotiate_info]. rewrite <- (Hset i) at 2. rewrite Hi. f_equal.
    destruct b; [|done]. by apply invalid_empty.
Qed.
Lemma live_offer_algs v rq i (Q : unit → Node W → Prop) n :
  config_ok rq → spdm_version_sel i = v → no_algs i →
  Q tt (neg_node n (stored_algs v rq i)) → live (offer_algs (chosen_algs (asked v rq))) Q (neg_node n i).
Proof.
  intros [_ _ _ (_ & _ & _ & Hra & Hpra) (Hd & Hk & Ha & Hks)] Hv [N1 N2 N3 N4 N5 N6] HQ.
  unfold chosen_algs. cbv zeta. change (spdm_version_sel (asked v rq)) with v. rewrite <- (app_nil_r (put_if (_ && is_valid (kem_sel _)) _)).
  apply (live_offer_field true SpdmAlgTypeDHE SpdmAlgoDhe dhe_sel with_dhe_sel); [done|done|by intros []| |].
  { intros Hb. cbn [offer_alg]. unfold offer. cbn [andb] in Hb. by rewrite Hb. }
  apply (live_offer_field true SpdmAlgTypeAEAD SpdmAlgoAead aead_sel with_aead_sel); [done|done|by intros []| |].
  { intros Hb. cbn [offer_alg]. unfold offer. cbn [andb] in Hb. by rewrite Hb. }
  apply (live_offer_field true SpdmAlgTypeReqAsym SpdmAlgoReqAsym req_asym_sel with_req_asym_sel); [done|done|by intros []| |].
  { intros Hb. cbn [offer_alg]. unfold offer. cbn [andb] in Hb. by rewrite Hb. }
  apply (live_offer_field true SpdmAlgTypeKeySchedule SpdmAlgoKeySchedule key_schedule_sel with_key_schedule_sel); [done|done|by intros []| |].
  { intros Hb. cbn [offer_alg]. unfold offer. cbn [andb] in Hb. by rewrite Hb. }
  apply (live_offer_field _ SpdmAlgTypePqcReqAsym SpdmAlgoPqcReqAsym pqc_req_asym_sel with_pqc_req_asym_sel); [done|done|by intros []| |].
  { intros [Hb1 Hb2]%andb_true_iff. subst v. by apply offer_14_run. }
  apply (live_offer_field _ SpdmAlgTypeKEM SpdmAlgoKem kem_sel with_kem_sel); [done|done|by intros []| |].
  { intros [Hb1 Hb2]%andb_true_iff. subst v. by apply offer_14_run. }
  apply live_ret. exact HQ.
Qed.
Lemma live_multi_key rq na i (Q : unit → Node W → Prop) n :
  one_key rq (config_info (common n)) → req_capabilities_sel i = cfg_req_capabilities rq →
  na_other_params_support na = cfg_other_params_support rq →
  multi_key_conn_req i = false → multi_key_conn_rsp i = false →
  Q tt (neg_node n i) → live (select_multi_key na) Q (neg_node n i).
Proof.
  intros [[R1 R2] [S1 S2] Hc] Hcap Hna M1 M2 HQ. apply live_bind, live_get_common. cbn [common neg_node].
  cbn [negotiate_info with_negotiate_info config_info]. rewrite Hcap, R1, R2, Hna, Hc, S1. apply live_bind, live_upd_common, live_bind.
  apply live_fail_if; [done|]. apply live_upd_common. cbn [common writer world].
  replace (mkNode _ _ _) with (neg_node n i); [done|]. unfold neg_node, upd_negotiate. cbn. f_equal.
  destruct i, (common n). cbn in *. by subst.
Qed.
Lemma own_offer_algs v rq :
  ztake (na_alg_struct_count (own_offer v rq)) (na_alg_struct (own_offer v rq)) = chosen_algs (asked v rq).
Proof. cbn. unfold alg_array. by apply ztake_app. Qed.
Lemma store_sets_run v rq c :
  spdm_version_sel (negotiate_info c) = v → pqc_asym_sel (negotiate_info c) = empty_flags →
  store_sets (own_offer v rq) c = with_negotiate_info (stored_sets v rq (config_info c) (negotiate_info c)) c.
Proof.
  intros Hv Hp. unfold store_sets, stored_sets, upd_negotiate. cbv zeta. unfold ver_ge. cbn. rewrite Hv.
  destruct c as [cfg i]. cbn in *. destruct i. cbn in *. subst.
  destruct (version_leb SpdmVersion14 _), (version_leb SpdmVersion13 _); cbn; done.
Qed.
Lemma live_store_offer v rq (Q : unit → Node W → Prop) n :
  let rp := config_info (common n) in
  config_ok rq → one_key rq rp → negotiate_info (common n) = told v rq rp →
  Q tt (neg_node n (offered v rq rp)) → live (store_offer (own_offer v rq)) Q n.
Proof.
  intros rp Hrq Hone Hi HQ. unfold store_offer. rewrite own_offer_algs. apply live_bind, live_upd_common.
  set (i1 := with_measurement_specification_sel (cfg_measurement_specification rq) (told v rq rp)).
  replace (mkNode _ _ _) with (neg_node n i1) by (unfold neg_node, upd_negotiate; by rewrite Hi).
  apply live_bind, live_get_common. cbn [common neg_node].
  change (ver_ge (with_negotiate_info i1 (common n))) with (λ x, version_leb x v). cbv beta.
  apply live_bind. eapply (live_mono _ (λ _ n', n' = neg_node n i1)).
  { destruct (version_leb SpdmVersion13 v); [|done]. by apply (live_multi_key rq). }
  intros [] ? ->. apply live_bind, live_upd_common. cbn [common neg_node].
  rewrite (store_sets_run v rq (with_negotiate_info i1 (common n))) by done.
  change (mkNode _ _ _) with (neg_node n (stored_sets v rq rp i1)).
  apply (live_offer_algs v rq (stored_sets v rq rp i1)); [exact Hrq|done|done|exact HQ].
Qed.

(** The chains can be built. *)
Definition buildable (h : SpdmBaseHashAlgo) (p : SpdmProvisionInfo) : Prop :=
  ∀ i d, my_cert_chain_data p !! i = Some (Some d) → ∃ b, my_chain h d = Ok b.
Lemma construct_slots_runs h ids : Forall (λ i, 0 ≤ i < SPDM_MAX_SLOT_NUMBER) ids → ∀ c,
  len (my_cert_chain (provision_info c)) = SPDM_MAX_SLOT_NUMBER →
  len (my_cert_chain_data (provision_info c)) = SPDM_MAX_SLOT_NUMBER →
  buildable h (provision_info c) → ∃ c', construct_slots h ids c = (Ok tt, c').
Proof.
  induction 1 as [|i ids Hi _ IH]; intros c Hl Hd Hb; cbn [construct_slots]; [by eexists|].
  destruct (znth_some (my_cert_chain (provision_info c)) i) as [o Ho]; [lia|].
  destruct (znth_some (my_cert_chain_data (provision_info c)) i) as [d Hd']; [lia|].
  unfold slot, bind, get, lift. rewrite Ho, Hd'. cbn [or_panic].
  destruct o as [b|]; [by apply IH|]. destruct d as [d|]; [|by apply IH].
  destruct (Hb (Z.to_nat i) d) as [b Hbd]; [by rewrite <- znth_lookup by lia|]. rewrite Hbd.
  rewrite zset_insert by lia. cbn [or_panic modify]. apply IH; [cbn; by rewrite len_insert|done|done].
Qed.
Lemma live_construct (Q : unit → SpdmContext → Prop) c :
  wf (base_hash_sel (negotiate_info c)) → provision_ok (provision_info c) →
  buildable (base_hash_sel (negotiate_info c)) (provision_info c) →
  (∀ l, built (base_hash_sel (negotiate_info c)) (provision_info c) l → (∀ i, filled (provision_info c) l i) →
     Q tt (with_provision_info (with_my_cert_chain l (provision_info c)) c)) →
  live construct_my_cert_chain Q c.
Proof.
  intros Hh Hp Hb HQ. destruct (construct_slots_runs (base_hash_sel (negotiate_info c)) (seqZ 0 SPDM_MAX_SLOT_NUMBER)) with c as [c' Hc'].
  { apply Forall_seqZ. lia. }
  { apply Hp. }
  { apply Hp. }
  { done. }
  pose proof (wp_construct_my_cert_chain c Q (λ _ _, True) Hh Hp HQ (λ _ _ _, I)) as Hwp.
  eapply live_run; [exact Hc'|]. unfold wp, construct_my_cert_chain in Hwp.
  assert ((let* c := get in construct_slots (base_hash_sel (negotiate_info c)) (seqZ 0 SPDM_MAX_SLOT_NUMBER)) c = (Ok tt, c')) as E by exact Hc'.
  by rewrite E in Hwp.
Qed.

(** *** The request is one the responder reads *)
Lemma asked_wf v rq : config_ok rq → wf (asked v rq).
Proof.
  intros [_ _ _ (_ & _ & _ & ? & ?) (? & ? & ? & ?)]. unfold asked.
  assert (wf (with_spdm_version_sel v SpdmNegotiateInfo_default)) by (destruct v; by vm_compute). auto 15 with neg.
Qed.
Lemma see_chosen i : ∃ st, run_algs see_alg AlgSeen_init (chosen_algs i) = Some st.
Proof.
  unfold chosen_algs. cbv zeta.
  destruct (is_valid (dhe_sel i)), (is_valid (aead_sel i)), (is_valid (req_asym_sel i)), (is_valid (key_schedule_sel i)),
    (_ && is_valid (pqc_req_asym_sel i)), (_ && is_valid (kem_sel i)); by eexists.
Qed.
Lemma chosen_front i :
  wf i → front (len (chosen_algs i)) MAX_SUPPORTED_ALG_STRUCTURE_COUNT SpdmAlgStruct_default wf (alg_array (chosen_algs i)).
Proof. intros Hi. split; [apply len_chosen_algs|]. exists (chosen_algs i). split_and!; [done..|]. by apply chosen_algs_wf. Qed.
Lemma own_offer_wf v rq c :
  config_ok rq → selected c = v → version_leb SpdmVersion12 v = true → negotiate_algorithms_wf c (own_offer v rq).
Proof.
  intros Hrq Hsel Hv. pose proof Hrq as [_ _ (? & _ & ? & ?) (? & ? & ? & _) _].
  pose proof (len_chosen_algs (asked v rq)) as Hl. unfold MAX_SUPPORTED_ALG_STRUCTURE_COUNT in Hl.
  destruct (see_chosen (asked v rq)) as [st Hst].
  assert (∀ x, ver_ge c x = version_leb x v) as Hge by (intros x; unfold ver_ge, selected in *; by rewrite Hsel).
  assert (version_leb SpdmVersion11 v = true) as H11 by (by destruct v).
  unfold negotiate_algorithms_wf. rewrite !Hge, H11, Hv. cbn -[wf version_leb chosen_algs].
  split_and!; try done.
  - split; lia.
  - by destruct (version_leb SpdmVersion14 v).
  - by destruct (version_leb SpdmVersion13 v).
  - exists st. split; [by apply chosen_front, asked_wf|]. unfold alg_array. by rewrite ztake_app.
Qed.

(** *** Sizes *)
Lemma len_alg_struct (a : SpdmAlgStruct) : len (bytes a) ≤ 4.
Proof. destruct a as [t []]; done. Qed.
Lemma len_alg_structs (l : list SpdmAlgStruct) : len (concat (bytes <$> l)) ≤ 4 * len l.
Proof.
  induction l as [|a l IH]; cbn [fmap list_fmap concat]; [done|].
  rewrite len_app, len_cons. pose proof (len_alg_struct a). lia.
Qed.
Lemma len_algs b i : len (when_bytes b (front_bytes (len (chosen_algs i)) bytes (alg_array (chosen_algs i)))) ≤ 24.
Proof.
  unfold when_bytes, front_bytes, alg_array. destruct b; [|by vm_compute].
  rewrite ztake_app. pose proof (len_alg_structs (chosen_algs i)). pose proof (len_chosen_algs i). unfold MAX_SUPPORTED_ALG_STRUCTURE_COUNT in *. lia.
Qed.
(** The lengths of the fields are known. *)
Ltac field_lens := repeat match goal with
  | |- context [len (bytes ?x)] => let k := eval vm_compute in (len (bytes x)) in change (len (bytes x)) with k
  | |- context [len (le_bytes ?k ?x)] => let n := eval vm_compute in (len (le_bytes k x)) in change (len (le_bytes k x)) with n
  | |- context [len (?x :: nil)] => change (len (x :: nil)) with 1
  end.
Lemma negotiate_algorithms_len v rq : 2 ≤ len (negotiate_algorithms v rq) ≤ 64.
Proof.
  unfold negotiate_algorithms. rewrite len_message.
  cbn [payload_bytes sbytes spdm_codec_ok_negotiate_algorithms own_offer na_alg_struct_count na_alg_struct]. cbv zeta.
  set (algs := when_bytes _ _). assert (len algs ≤ 24) by apply len_algs. clearbody algs. pose proof (len_nonneg algs).
  rewrite !len_app, !len_or_zeros, !len_zeros by done. field_lens. lia.
Qed.
Lemma algorithms_rsp_len v rq rp : 2 ≤ len (algorithms_rsp v rq rp) ≤ 64.
Proof.
  unfold algorithms_rsp. rewrite len_message. generalize (agreed v rq rp). intros i.
  cbn [payload_bytes sbytes spdm_codec_ok_algorithms algorithms_of ar_alg_struct_count ar_alg_struct]. cbv zeta.
  set (algs := when_bytes _ _). assert (len algs ≤ 24) by apply len_algs. clearbody algs. pose proof (len_nonneg algs).
  rewrite !len_app, !len_or_zeros, !len_zeros by done. field_lens. lia.
Qed.

(** *** The selection *)
(** The algorithms of [j], on the other parameters of [i]. *)
Definition algs_from (j i : SpdmNegotiateInfo) : SpdmNegotiateInfo :=
  with_kem_sel (kem_sel j) (with_pqc_req_asym_sel (pqc_req_asym_sel j) (with_key_schedule_sel (key_schedule_sel j)
  (with_req_asym_sel (req_asym_sel j) (with_aead_sel (aead_sel j) (with_dhe_sel (dhe_sel j)
  (with_mel_specification_sel (mel_specification_sel j) (with_pqc_asym_sel (pqc_asym_sel j)
  (with_base_asym_sel (base_asym_sel j) (with_base_hash_sel (base_hash_sel j)
  (with_measurement_hash_sel (measurement_hash_sel j) (with_other_params_support (other_params_support j)
  (with_measurement_specification_sel (measurement_specification_sel j) i)))))))))))).
Lemma prioritize_all_frame cfg i : prioritize_all cfg i = algs_from (prioritize_all cfg i) i.
Proof.
  unfold prioritize_all. cbv zeta. case_match; [|by destruct i].
  match goal with |- exclusive ?x = _ => destruct (exclusive_spec x) as [He _]; generalize dependent (exclusive x) end.
  intros j ->. by destruct i.
Qed.
Lemma algs_from_offer v rq rp m o j i :
  with_other_params_support o (algs_from j (stored_algs v rq (stored_sets v rq rp (with_measurement_specification_sel m i))))
  = algs_from (with_other_params_support o j) i.
Proof. by destruct i, j. Qed.
Lemma agreed_frame v rq rp : agreed v rq rp = algs_from (agreed v rq rp) (told v rq rp).
Proof. unfold agreed. rewrite (prioritize_all_frame rp (offered v rq rp)) at 1. apply algs_from_offer. Qed.
Lemma told_wf v rq rp :
  version_leb SpdmVersion12 v = true → get_capabilities_wf (at_version v) (own_request rq) → config_ok rp → wf (told v rq rp).
Proof.
  intros Hv (H1 & _ & H2 & _ & H3 & H4 & _) [_ (? & ? & ? & ?) _ _ _].
  pose proof (when_wf_elim _ _ _ _ H1 ltac:(done)). pose proof (when_wf_elim _ _ _ _ H2 ltac:(by vm_compute)).
  pose proof (when_wf_elim _ _ _ _ H3 ltac:(done)). pose proof (when_wf_elim _ _ _ _ H4 ltac:(done)).
  assert (wf SpdmNegotiateInfo_default) as Hd by by vm_compute. revert Hd. unfold told. neg_wf.
Qed.
Lemma offered_wf v rq rp : wf (told v rq rp) → config_ok rq → wf (offered v rq rp).
Proof.
  intros Ht [_ _ (? & _ & ? & ?) (? & ? & ? & ? & ?) (? & ? & ? & ?)].
  assert (∀ d (Hd : DescOk d) (b : bool) (f : flags d), wf f → wf (if b then f else empty_flags)) as Hif by (intros ? ? [] ? ?; [done|apply flags_wf_empty]).
  unfold offered, stored_algs, stored_sets. cbv zeta.
  repeat first [apply wf_with_kem_sel|apply wf_with_pqc_req_asym_sel|apply wf_with_key_schedule_sel|apply wf_with_req_asym_sel
    |apply wf_with_aead_sel|apply wf_with_dhe_sel|apply wf_with_pqc_asym_sel|apply wf_with_mel_specification_sel
    |apply wf_with_base_asym_sel|apply wf_with_base_hash_sel|apply wf_with_measurement_specification_sel];
    first [assumption|by apply Hif].
Qed.
Lemma agreed_wf v rq rp :
  wf (told v rq rp) → config_ok rq → config_ok rp → wf (prioritize_all rp (offered v rq rp)) ∧ wf (agreed v rq rp).
Proof.
  intros Ht Hrq Hrp. assert (wf (prioritize_all rp (offered v rq rp))) as Hp by (by apply prioritize_all_wf, offered_wf).
  split; [done|]. unfold agreed. apply wf_with_other_params_support; [|done].
  destruct Hrq as [_ _ (_ & _ & _ & ?) _ _], Hrp as [_ _ (_ & _ & _ & ?) _ _]. by apply flags_wf_inter.
Qed.
Lemma union_empty {d} (f : flags d) : union empty_flags f = f.
Proof. by destruct f. Qed.
Lemma select_other_agreed v rq rp c :
  one_key rq rp → version_leb SpdmVersion12 v = true → config_info c = rp → selected c = v →
  req_capabilities_sel (negotiate_info c) = cfg_req_capabilities rq →
  select_other_params c (cfg_other_params_support rq) = inter (cfg_other_params_support rq) (cfg_other_params_support rp).
Proof.
  intros [[R1 R2] _ _] Hv Hc Hsel Hcap. unfold select_other_params, ver_ge, selected in *. rewrite Hsel, Hcap, R1, R2, Hc, Hv, union_empty.
  by destruct (version_leb SpdmVersion13 v).
Qed.

(** *** The handler *)
(** From the selection on. *)
Lemma algorithm_answer v rq rp log (Q : unit → Node W → Prop) n :
  response_buffer (writer n) → fresh n → config_ok rp → config_ok rq → one_key rq rp →
  version_leb SpdmVersion12 v = true → wf (told v rq rp) → len log ≤ 300 →
  holds rp (offered v rq rp) log (common n) → provision_ok (provision_info (common n)) →
  buildable (base_hash_sel (agreed v rq rp)) (provision_info (common n)) →
  (∀ c w, holds rp (agreed v rq rp) (log ++ algorithms_rsp v rq rp) c → written w (algorithms_rsp v rq rp) →
     Q tt (mkNode c w (world n))) →
  live (let* _ := upd_common (λ c, upd_negotiate (prioritize_all (config_info c)) c) in
        let* _ := try_local (on_common construct_my_cert_chain) in
        let* c := get_common in
        let other := select_other_params c (cfg_other_params_support rq) in
        let* _ := upd_common (upd_negotiate (with_other_params_support other)) in
        let n := negotiate_info c in
        let* (count, algs) := lift (selected_algs n) in
        let* _ := try_local (send_response SpdmResponseAlgorithms
                    (SpdmAlgorithmsResponse (mkAlgorithms (measurement_specification_sel n) other
                       (measurement_hash_sel n) (base_asym_sel n) (base_hash_sel n) (pqc_asym_sel n)
                       (mel_specification_sel n) (wrap 8 count) algs))) in
        let* rsp := used_slice in
        try_local (on_common (append_message_a rsp))) Q n.
Proof.
  intros Hw Hf Hrp Hrq Hone Hv Hwf Hlog Hho Hpr Hbu HQ. destruct (agreed_wf v rq rp Hwf Hrq Hrp) as [Hi Hag].
  pose proof (algorithms_rsp_len v rq rp) as Hlen. apply live_bind, live_upd_common. cbn [common writer world].
  destruct Hho as [Hc Hn Ha Hl]. 
  change (upd_negotiate (prioritize_all (config_info (common n))) (common n))
    with (with_negotiate_info (prioritize_all (config_info (common n)) (negotiate_info (common n))) (common n)).
  rewrite Hc, Hn.
  assert (holds rp (agreed v rq rp) log (with_negotiate_info (agreed v rq rp) (common n))) as Hho by by split.
  pose proof (agreed_frame v rq rp) as Hfr. unfold algorithms_rsp in *. unfold agreed in *.
  set (o := inter _ _) in *. generalize dependent (prioritize_all rp (offered v rq rp)). intros i Hbu HQ Hi Hag Hlen Hho Hfr.
  assert (spdm_version_sel i = v) as Hsel by exact (f_equal spdm_version_sel Hfr).
  assert (req_capabilities_sel i = cfg_req_capabilities rq) as Hcap by exact (f_equal req_capabilities_sel Hfr). clear Hfr.
  apply live_bind, live_or_else, live_on_common, live_construct.
  { cbn [negotiate_info with_negotiate_info common]. by destruct Hi as (?&?&?&?&?&?&?&?&?&?&?&?&?&?&?&?&?&?&?&?&?&?&?&?&?). }
  { exact Hpr. }
  { exact Hbu. }
  intros l _ _. cbn [common writer world]. apply live_bind, live_get_common. cbn [common]. change (with_provision_info _ _) with (with_selection i l (common n)).
  rewrite (select_other_agreed v rq rp) by done.
  fold o. apply live_bind, live_upd_common. cbn [common writer world].
  change (upd_negotiate _ _) with (with_selection (with_other_params_support o i) l (common n)).
  change (negotiate_info (with_selection i l (common n))) with i.
  apply live_bind. eapply live_lift; [apply selected_algs_run|]. cbv beta iota.
  pose proof (len_chosen_algs i). rewrite wrap_small by (unfold in_width, MAX_SUPPORTED_ALG_STRUCTURE_COUNT in *; lia).
  fold (algorithms_of i o).
  set (c4 := with_selection (with_other_params_support o i) l (common n)).
  assert (response_bytes c4 SpdmResponseAlgorithms (SpdmAlgorithmsResponse (algorithms_of i o)) = message_bytes (at_version v)
    (mkMessage (mkMessageHeader v SpdmResponseAlgorithms) (SpdmAlgorithmsResponse (algorithms_of (with_other_params_support o i) o)))) as Hrsp.
  { unfold response_bytes. change (selected c4) with (spdm_version_sel i). rewrite Hsel.
    apply message_bytes_eq. cbn [payload_bytes]. by apply algorithms_bytes. }
  apply (live_log_send rp (with_other_params_support o i) log); cbn [common writer world]; rewrite ?Hrsp.
  - exact Hw.
  - exact Hf.
  - destruct Hho as [E1 E2 E3 E4]. by split.
  - rewrite len_app. change A_CAP with 660. cbn [other_params_support with_other_params_support] in Hlen. lia.
  - apply algorithms_of_writes; [exact Hi|]. by destruct Hag as (?&?&?&?&?&?&?&?&?&?&?&?&?&?&?&?&?&?&?&?&?&?&?&?&?).
  - cbn [other_params_support with_other_params_support] in Hlen. unfold MAX_SPDM_MSG_SIZE. lia.
  - intros b w Hb Hwr. by apply HQ.
Qed.
Lemma negotiate_algorithms_app v rq tail :
  negotiate_algorithms v rq ++ tail
  = bytes (mkMessageHeader v SpdmRequestNegotiateAlgorithms) ++ sbytes (at_version v) (own_offer v rq) ++ tail.
Proof. apply message_bytes_app. Qed.
Lemma negotiate_algorithms_ok v rq :
  config_ok rq → version_leb SpdmVersion12 v = true → bytes_wf (negotiate_algorithms v rq).
Proof.
  intros Hrq Hv. rewrite <- (app_nil_r (negotiate_algorithms v rq)), negotiate_algorithms_app, app_nil_r.
  apply bytes_wf_app. split; [by apply bytes_ok|]. apply sbytes_ok. by apply own_offer_wf.
Qed.
(** From the storing of the offer on. *)
Lemma algorithm_stored v rq rp tail log k (Q : unit → Node W → Prop) n :
  response_buffer (writer n) → fresh n → config_ok rp → config_ok rq → one_key rq rp →
  version_leb SpdmVersion12 v = true → wf (told v rq rp) → len log ≤ 200 → k = len (negotiate_algorithms v rq) →
  holds rp (told v rq rp) log (common n) → provision_ok (provision_info (common n)) →
  buildable (base_hash_sel (agreed v rq rp)) (provision_info (common n)) →
  (∀ c w, holds rp (agreed v rq rp) (log ++ negotiate_algorithms v rq ++ algorithms_rsp v rq rp) c →
     written w (algorithms_rsp v rq rp) → Q tt (mkNode c w (world n))) →
  live (let* _ := store_offer (own_offer v rq) in
        let* req := used_bytes (negotiate_algorithms v rq ++ tail) (mkReader (negotiate_algorithms v rq ++ tail) k) in
        let* _ := try_local (on_common (append_message_a req)) in
        let* _ := upd_common (λ c, upd_negotiate (prioritize_all (config_info c)) c) in
        let* _ := try_local (on_common construct_my_cert_chain) in
        let* c := get_common in
        let other := select_other_params c (cfg_other_params_support rq) in
        let* _ := upd_common (upd_negotiate (with_other_params_support other)) in
        let n := negotiate_info c in
        let* (count, algs) := lift (selected_algs n) in
        let* _ := try_local (send_response SpdmResponseAlgorithms
                    (SpdmAlgorithmsResponse (mkAlgorithms (measurement_specification_sel n) other
                       (measurement_hash_sel n) (base_asym_sel n) (base_hash_sel n) (pqc_asym_sel n)
                       (mel_specification_sel n) (wrap 8 count) algs))) in
        let* rsp := used_slice in
        try_local (on_common (append_message_a rsp))) Q n.
Proof.
  intros Hw Hf Hrp Hrq Hone Hv Hwf Hlog Hk Hho Hpr Hbu HQ. pose proof Hho as [Hc Hn Ha Hl].
  pose proof (negotiate_algorithms_len v rq) as Hlen. apply live_bind, (live_store_offer v); [done|by rewrite Hc|by rewrite Hc|].
  rewrite Hc. apply (live_log_request rp (offered v rq rp) log); [exact Hk|by split|by apply negotiate_algorithms_ok| |].
  { rewrite len_app. change A_CAP with 660. lia. }
  intros b Hb. apply (algorithm_answer v rq rp (log ++ negotiate_algorithms v rq)); try assumption.
  { rewrite len_app. lia. }
  intros c w Hh Hwr. rewrite <- app_assoc in Hh. by apply HQ.
Qed.
Lemma algorithm_live v rq tail log (Q : unit → Node W → Prop) n :
  let rp := config_info (common n) in
  response_buffer (writer n) → fresh n → config_ok rp → config_ok rq → one_key rq rp → bytes_wf tail →
  version_leb SpdmVersion12 v = true → wf (told v rq rp) → len log ≤ 200 →
  connection_state (runtime_info (common n)) = SpdmConnectionAfterCapabilities →
  holds rp (told v rq rp) log (common n) → provision_ok (provision_info (common n)) →
  buildable (base_hash_sel (agreed v rq rp)) (provision_info (common n)) →
  (∀ c w, holds rp (agreed v rq rp) (log ++ negotiate_algorithms v rq ++ algorithms_rsp v rq rp) c →
     written w (algorithms_rsp v rq rp) → Q tt (mkNode c w (world n))) →
  live (write_spdm_algorithm (negotiate_algorithms v rq ++ tail)) Q n.
Proof.
  intros rp Hw Hf Hrp Hrq Hone Ht Hv Hwf Hlog Hst Hho Hpr Hbu HQ.
  set (h := mkMessageHeader v SpdmRequestNegotiateAlgorithms). assert (wf h) as Hh by by split.
  assert (selected (common n) = v) as Hsel by (unfold selected; by rewrite (ho_negotiate _ _ _ _ Hho)).
  pose proof (reset_buffer_frame SpdmRequestNegotiateAlgorithms None (common n)) as Hfr.
  set (c1 := reset_buffer_via_request_code _ _ _) in *.
  pose proof (entry_frame _ _ _ _ _ Hho Hfr) as Hh1. pose proof (frame_provision _ _ Hfr) as Hprov.
  assert (selected c1 = v) as Hsel1 by (unfold selected; by rewrite (ho_negotiate _ _ _ _ Hh1)).
  rewrite <- Hprov in Hpr, Hbu.
  pose proof (algorithm_stored v rq rp tail log (2 + len (sbytes (at_version v) (own_offer v rq))) Q
    (mkNode c1 (writer n) (world n)) Hw Hf Hrp Hrq Hone Hv Hwf Hlog) as Hstored.
  apply live_bind, live_get_common, live_bind, live_fail_if; [by rewrite bool_decide_eq_false_2 by (by intros [])|].
  rewrite negotiate_algorithms_app in *. assert (bytes_wf (sbytes (at_version v) (own_offer v rq) ++ tail)).
  { apply bytes_wf_app. split; [|done]. apply sbytes_ok. by apply own_offer_wf. }
  apply live_bind, live_check_header; [done|done|done|]. intros Hr. apply live_bind, live_upd_common.
  fold c1. apply live_bind, (live_read_request SpdmNegotiateAlgorithmsRequestPayload h (own_offer v rq)); [|exact Hr| |].
  { symmetry. by apply negotiate_algorithms_bytes. }
  { by apply own_offer_wf. }
  apply Hstored; try assumption. unfold negotiate_algorithms. by rewrite len_message.
Qed.
End Handlers.
End LiveResponder.
