(* ===== verification/LiveLink.v ===== *)
(** * Progress over a link

    About a requester and a responder that TwoParty.v connects.  Proved: if
    the responder answers a request with a response, the requester that sends
    the request over the link receives the response, and the responder made
    the transition that belongs to it. *)

From S2P Require Import Prelude Codec Status Bitflags Algo DataTypes Structs Version Crypto HashCtx ManagedBuffer.
From S2P Require Import CertChain Session SecuredMessage Header ContextData Transport Context Transcript SpdmCodec.
From S2P Require Import MsgLib MsgNegotiate MsgMisc Message Platform Link RspLib RspLaws RspNegotiate Responder.
From S2P Require Import ServedChain Negotiation NegAlgorithms ReqLib TwoParty Live LiveResponder.
Import Context Transcript Responder ServedChain Negotiation NegAlgorithms TwoParty LiveResponder.

Module LiveLink.
(** ** The transport *)
Section Transport.
Context `{TransportOk}.
(** [p] is a packet with the message [bs] for a receiver with the buffer [out]. *)
Definition carried (out p bs : list Z) : Prop :=
  ∃ tail, len tail ≤ 3 ∧ bytes_wf tail ∧ decap p out = (Ok (len bs + len tail, false), splice out 0 (bs ++ tail)).
Lemma encap_carried bs out :
  bytes_wf bs → len bs ≤ 64 → 67 ≤ len out →
  ∃ k buf, encap bs false (zeros SENDER_BUFFER_SIZE) = (Ok k, buf) ∧ slice buf 0 k = Some (ztake k buf) ∧ carried out (ztake k buf) bs.
Proof.
  intros Hb Hl Ho. pose proof (header_size_ok). pose proof (len_nonneg bs).
  destruct (encap_decap bs false (zeros SENDER_BUFFER_SIZE) out) as (k & buf & tail & He & Hbw & Hbl & Hk & Ht & Htw & Hd);
    [done|auto with wfb|lia|rewrite len_zeros by done; unfold SENDER_BUFFER_SIZE; lia|lia|].
  exists k, buf. split; [done|]. split; [|by exists tail]. rewrite slice_spec by lia. by rewrite zdrop_0, Z.sub_0_r.
Qed.
Lemma carried_slice (out bs tail : list Z) : len bs + len tail ≤ len out → slice (splice out 0 (bs ++ tail)) 0 (len bs + len tail) = Some (bs ++ tail).
Proof. intros Hl. rewrite <- len_app in *. by apply slice_prefix. Qed.
End Transport.

(** ** The responder *)
Section Peer.
Context (rsp : Platform) `{!@AppHandlers (wired rsp)} `{CryptoOk} `{TransportOk}.
Implicit Types (d : Peer rsp) (w : @World rsp).

(** The responder of [d] answers the request [req] with [bs], whatever padding
    comes after the request, and [K] holds of its context then. *)
Definition answers (c : SpdmContext) w (req bs : list Z) (K : SpdmContext → Prop) : Prop :=
  ∀ tail, bytes_wf tail →
  live (@dispatch_message (wired rsp) _ _ _ (req ++ tail))
    (λ r n, r = (Ok tt, Some bs) ∧ K (common n) ∧ world n = (mkWire [] [], w))
    (mkNode c (Writer.init (zeros MAX_SPDM_MSG_SIZE)) (mkWire [] [], w)).
(** The peer can take messages of [k] bytes. *)
Definition takes (k : Z) (size : u32) : Prop := size = 0 ∨ k ≤ size.
Definition peer_takes (c : SpdmContext) : Prop :=
  takes 64 (req_max_spdm_msg_size_sel (negotiate_info c)) ∧ takes 64 (req_data_transfer_size_sel (negotiate_info c)).
Lemma takes_fits k size n : takes k size → n ≤ k → negb (size =? 0) && (size <? n) = false.
Proof. unfold takes. intros [->|Hs] Hn; [done|]. destruct (size =? 0); [done|]. cbn. lia. Qed.

Lemma live_bounded bs (Q : list Z → Peer rsp → Prop) d :
  len bs ≤ 64 → peer_takes (common d) → Q bs d → live (@bounded_response (wired rsp) None bs false) Q d.
Proof.
  intros Hl [Hm Ht] HQ. apply live_bind, live_get_common. cbv zeta. rewrite !(takes_fits 64) by done. cbn [andb orb].
  replace (SPDM_SENDER_DATA_TRANSFER_SIZE <? len bs) with false by (unfold SPDM_SENDER_DATA_TRANSFER_SIZE, SENDER_BUFFER_SIZE, TRANSPORT_OVERHEAD_SIZE; lia).
  exact HQ.
Qed.
Definition sent (p : list Z) d : Peer rsp :=
  mkNode (common d) (writer d) (mkWire (inbox (fst (world d))) (outbox (fst (world d)) ++ [p]), snd (world d)).
Lemma live_transmit out bs (Q : unit → Peer rsp → Prop) d :
  bytes_wf bs → len bs ≤ 64 → 67 ≤ len out → (∀ p, carried out p bs → Q tt (sent p d)) →
  live (@transmit (wired rsp) _ _ None bs false) Q d.
Proof.
  intros Hb Hl Ho HQ. destruct (encap_carried bs out Hb Hl Ho) as (k & buf & He & Hs & Hc).
  apply live_bind, live_on_common. eapply live_run.
  { unfold encap_. rewrite He. cbn [obind]. rewrite Hs. reflexivity. }
  apply live_on_world. destruct d as [c wr [wi w]]. exact (HQ _ Hc).
Qed.
Definition in_state (s : SpdmConnectionState) : SpdmContext → SpdmContext := upd_runtime (with_connection_state s).
Lemma live_reply out bs op s (Q : SpdmResult unit → Peer rsp → Prop) d :
  bytes_wf bs → len bs ≤ 64 → peer_takes (common d) → 67 ≤ len out → znth bs 1 = Some op →
  @after_send (wired rsp) None op = set_connection_state s →
  (∀ p, carried out p bs → Q (Ok tt) (mkNode (in_state s (common d)) (writer d) (world (sent p d)))) →
  live (@send_reply (wired rsp) _ _ None false (Ok tt, Some bs)) Q d.
Proof.
  intros Hb Hl Ht Ho Hop Ha HQ. cut (live (@send_message (wired rsp) _ _ None bs false) (λ _, Q (Ok tt)) d).
  { unfold live, wp, send_reply. cbn [snd fst]. by destruct (send_message _ _ _ _) as [[]]. }
  apply live_bind, live_bounded; [done..|]. apply live_bind, (live_transmit out); [done..|]. intros p Hp.
  apply live_bind. rewrite Hop. eapply live_lift; [done|]. rewrite Ha. by apply live_upd_common, HQ.
Qed.

(** The responder after the exchange: its answer is on the wire. *)
Record responded (out : list Z) (s : SpdmConnectionState) (K : SpdmContext → Prop) (bs : list Z) w d : Prop := {
  re_context : ∃ c, K c ∧ common d = in_state s c;
  re_wire : ∃ p, carried out p bs ∧ world d = (mkWire [] [p], w);
}.
Lemma live_process out p req bs op s K c wr w :
  carried (zeros RECEIVER_BUFFER_SIZE) p req → bytes_wf req → len req ≤ 64 → answers c w req bs K →
  (∀ c', K c' → peer_takes c') → bytes_wf bs → len bs ≤ 64 → 67 ≤ len out → znth bs 1 = Some op →
  @after_send (wired rsp) None op = set_connection_state s →
  live (@process_message (wired rsp) _ _ _ false 0) (λ _ d, responded out s K bs w d) (mkNode c wr (mkWire [p] [], w)).
Proof.
  intros (tail & Ht & Htw & Hd) Hq Hql Hans HK Hb Hl Ho Hop Ha. 
  apply live_bind. eapply live_run; [reflexivity|]. apply live_bind, live_bind, live_get_common, live_bind.
  eapply live_run; [reflexivity|]. apply live_bind. eapply live_run; [reflexivity|]. cbn [common writer world]. rewrite Hd.
  apply live_bind. eapply live_run; [reflexivity|]. apply live_bind. pose proof (len_nonneg req). pose proof (len_nonneg tail).
  rewrite carried_slice by (rewrite len_zeros by done; unfold RECEIVER_BUFFER_SIZE; lia). eapply live_run; [reflexivity|]. eapply live_run; [reflexivity|].
  cbn [fst snd]. apply live_bind, live_map_err. eapply live_mono; [by apply Hans|]. intros r n (-> & Hk & Hn).
  apply (live_reply out bs op s); [done|done|by apply HK|done|done|done|]. intros p' Hp'. split; [by exists (common n)|].
  exists p'. split; [done|]. cbn [world sent]. by rewrite Hn.
Qed.
End Peer.

(** ** The requester *)
Section Requester.
Context (P rsp : Platform) `{!@AppHandlers (wired rsp)} `{CryptoOk} `{TransportOk}.
Let L : Platform := linked P rsp.
Implicit Types (n : Node (@World L)) (d : Peer rsp) (w : @World rsp) (u : @World P).
Let IN : list Z := zeros SPDM_DATA_TRANSFER_SIZE.

(** A responder with nothing on its wire. *)
Definition at_rest (c : SpdmContext) w d : Prop := common d = c ∧ world d = (mkWire [] [], w).
Definition own_takes (c : SpdmContext) : Prop :=
  takes 64 (rsp_max_spdm_msg_size_sel (negotiate_info c)) ∧ takes 64 (rsp_data_transfer_size_sel (negotiate_info c)).
(** What the two need to exchange [req] and [bs]. *)
Record exchange (c : SpdmContext) w (req bs : list Z) (s : SpdmConnectionState) (K : SpdmContext → Prop) : Prop := {
  ex_req : bytes_wf req ∧ len req ≤ 64;
  ex_rsp : bytes_wf bs ∧ len bs ≤ 64;
  ex_answers : answers rsp c w req bs K;
  ex_takes : ∀ c', K c' → peer_takes c';
  ex_moves : ∃ op, znth bs 1 = Some op ∧ @after_send (wired rsp) None op = set_connection_state s;
}.
Lemma live_send c w req bs s K d u (Q : unit → Node (@World L) → Prop) c0 wr :
  at_rest c w d → exchange c w req bs s K → own_takes c0 →
  (∀ d', responded rsp IN s K bs w d' → Q tt (mkNode c0 wr (d', u))) →
  live (@ReqLib.send_message L _ _ None req false) Q (mkNode c0 wr (d, u)).
Proof.
  intros [Hc Hw] [[Hq Hql] [Hb Hl] Hans HK (op & Hop & Ha)] [Hm Ht] HQ.
  assert (ReqLib.too_large c0 req = false) as Hlarge.
  { unfold ReqLib.too_large, ReqLib.exceeds. rewrite (takes_fits 64) by done.
    unfold SPDM_SENDER_DATA_TRANSFER_SIZE, SENDER_BUFFER_SIZE, TRANSPORT_OVERHEAD_SIZE. cbn. lia. }
  apply live_bind, live_get_common. cbn [common]. unfold ReqLib.exceeds. rewrite (takes_fits 64) by done.
  replace (MAX_SPDM_MSG_SIZE <? len req) with false by (unfold MAX_SPDM_MSG_SIZE; lia). rewrite Hlarge.
  apply live_bind, live_get_common. cbn [common]. rewrite Hlarge. cbn [andb].
  destruct (encap_carried req (zeros RECEIVER_BUFFER_SIZE) Hq Hql) as (k & buf & He & Hs & Hcar); [done|].
  apply live_bind, live_on_common. eapply live_run.
  { unfold encap_. rewrite He. cbn [obind]. rewrite Hs. reflexivity. }
  apply live_on_world. cbn [common writer world]. unfold live, wp. cbn [device_send L linked with_device]. unfold deliver.
  assert (arrives rsp (ztake k buf) d = mkNode c (writer d) (mkWire [ztake k buf] [], w)) as -> by (unfold arrives; by rewrite Hc, Hw).
  destruct (live_runs _ _ _ (live_process rsp IN _ req bs op s K c (writer d) w Hcar Hq Hql Hans HK Hb Hl ltac:(done) Hop Ha))
    as (r & d' & Hrun & Hd'). rewrite Hrun. by apply HQ.
Qed.
Lemma live_receive s K bs w d u (Q : list Z → Node (@World L) → Prop) c0 wr :
  responded rsp IN s K bs w d → len bs ≤ 64 →
  (∀ tail d' c, bytes_wf tail → K c → at_rest (in_state s c) w d' → Q (bs ++ tail) (mkNode c0 wr (d', u))) →
  live (@ReqLib.receive_message L _ _ None false) Q (mkNode c0 wr (d, u)).
Proof.
  intros [(c & Hk & Hc) (p & (tail & Ht & Htw & Hd) & Hw)] Hl HQ. pose proof (len_nonneg bs). pose proof (len_nonneg tail).
  apply live_bind, live_get_common, live_bind. eapply live_run; [reflexivity|]. apply live_bind, live_on_world, live_map_err.
  cbn [world]. eapply live_run.
  { cbn [device_receive L linked with_device]. unfold collect. rewrite Hw. reflexivity. }
  cbn [common writer world]. apply live_on_common. eapply live_run.
  { unfold decap_, IN in *. rewrite Hd. cbn [obind]. rewrite carried_slice by (rewrite len_zeros by done; unfold SPDM_DATA_TRANSFER_SIZE, RECEIVER_BUFFER_SIZE, TRANSPORT_OVERHEAD_SIZE; lia). reflexivity. }
  eapply HQ; [done|exact Hk|]. by split.
Qed.
End Requester.

(** ** What the responder answers *)
Section Answers.
Context (rsp : Platform) `{!@AppHandlers (wired rsp)} `{CryptoOk} `{TransportOk}.
Implicit Types w : @World rsp.

Lemma live_reply_written (m : handler (@World (wired rsp)) unit) bs (R : Node (@World (wired rsp)) → Prop) n :
  live m (λ _ n', written (writer n') bs ∧ R n') n → live (handle m) (λ r n', r = (Ok tt, Some bs) ∧ R n') n.
Proof.
  intros Hm. unfold live, handle. apply wp_or_else, wp_bind.
  eapply wp_mono; [| |exact Hm]; [|by intros ? ?]. intros [] n' [Hw Hn]. unfold reply. apply wp_bind.
  eapply wp_used_slice; [exact Hw|]. cbn. by split.
Qed.
Lemma live_with_code h rest k (Q : Reply → Node (@World (wired rsp)) → Prop) n :
  wf h → bytes_wf rest → live (k (request_response_code h)) Q n → live (@with_code (wired rsp) (bytes h ++ rest) k) Q n.
Proof. intros Hh Hr HQ. unfold with_code. destruct (reader_after h rest Hh Hr) as [-> _]. exact HQ. Qed.

Lemma holds_state cfg i log s c : holds cfg i log c → holds cfg i log (in_state s c).
Proof. intros [? ? ? ?]. by split. Qed.

Lemma get_version_app tail :
  get_version ++ tail = bytes (mkMessageHeader SpdmVersion10 SpdmRequestGetVersion) ++ [0; 0] ++ tail.
Proof. done. Qed.
Lemma version_answers c w :
  config_ok (config_info c) →
  answers rsp c w get_version (version_rsp (config_info c))
    (λ c', holds (config_info c) SpdmNegotiateInfo_default (get_version ++ version_rsp (config_info c)) c' ∧
           provision_info c' = provision_info c).
Proof.
  intros Hc tail Ht. rewrite get_version_app. apply live_with_code; [by split|apply bytes_wf_app; split; [by apply is_byte_wf|done]|].
  rewrite <- get_version_app. apply live_reply_written.
  apply version_live; [apply fresh_response_buffer|done|done|done|]. intros c' wr Hh Hp Hw. done.
Qed.
Lemma capability_answers v rq c w log :
  let rp := config_info c in
  config_ok rp → version_leb SpdmVersion12 v = true → get_capabilities_wf (at_version v) (own_request rq) →
  holds rp SpdmNegotiateInfo_default log c → connection_state (runtime_info c) = SpdmConnectionAfterVersion → len log ≤ 200 →
  answers rsp c w (get_capabilities v rq) (capabilities_rsp v rp)
    (λ c', holds rp (told v rq rp) (log ++ get_capabilities v rq ++ capabilities_rsp v rp) c' ∧
           provision_info c' = provision_info c).
Proof.
  intros rp Hc Hv Hg Hh Hs Hl tail Ht. rewrite get_capabilities_app.
  apply live_with_code; [by split|apply bytes_wf_app; split; [apply sbytes_ok; exact Hg|done]|].
  rewrite <- get_capabilities_app. apply live_reply_written.
  apply (capability_live v rq tail log); try assumption; [apply fresh_response_buffer|done|]. intros c' wr Hh' Hp Hw. done.
Qed.
Lemma algorithm_answers v rq c w log :
  let rp := config_info c in
  config_ok rp → config_ok rq → one_key rq rp → version_leb SpdmVersion12 v = true → wf (told v rq rp) →
  connection_state (runtime_info c) = SpdmConnectionAfterCapabilities → len log ≤ 200 →
  holds rp (told v rq rp) log c → provision_ok (provision_info c) →
  buildable (base_hash_sel (agreed v rq rp)) (provision_info c) →
  answers rsp c w (negotiate_algorithms v rq) (algorithms_rsp v rq rp)
    (holds rp (agreed v rq rp) (log ++ negotiate_algorithms v rq ++ algorithms_rsp v rq rp)).
Proof.
  intros rp Hrp Hrq Hone Hv Hwf Hs Hl Hh Hp Hb tail Ht. rewrite negotiate_algorithms_app.
  apply live_with_code; [by split|apply bytes_wf_app; split; [apply sbytes_ok; by apply own_offer_wf|done]|].
  rewrite <- negotiate_algorithms_app. apply live_reply_written.
  apply (algorithm_live v rq tail log); try assumption; [apply fresh_response_buffer|done|]. intros c' wr Hh' Hw. done.
Qed.
End Answers.
End LiveLink.
