(* ===== verification/LiveRequester.v ===== *)
(** * Progress of the requester

    About the three requests of ReqNegotiate.v over the link of TwoParty.v.
    Proved: against a responder that answers with the response of
    LiveResponder.v each request returns, and leaves the parameters that the
    responder has. *)

From S2P Require Import Prelude Codec Status Bitflags Algo DataTypes Structs Version Crypto HashCtx ManagedBuffer.
From S2P Require Import CertChain Session SecuredMessage Header ContextData Transport Context Transcript SpdmCodec.
From S2P Require Import MsgLib MsgNegotiate MsgMisc Message Platform Link RspLib RspLaws RspNegotiate Responder.
From S2P Require Import ServedChain Negotiation NegAlgorithms ReqLib ReqNegotiate TwoParty Live LiveResponder LiveLink.
Import Context Transcript Responder RspNegotiate Negotiation NegAlgorithms ReqLib ReqNegotiate TwoParty LiveResponder LiveLink.

Module LiveRequester.
Section Steps.
Context `{P : Platform} `{CryptoOk} `{SpdmTransportEncap}.
Implicit Types n : Node World.

(** ** Composing a request *)
(** The send buffer starts with [bs]. *)
Definition composed (w : Writer) (bs : list Z) : Prop := slice (w_buf w) 0 (len bs) = Some bs.
Lemma live_encode_request v code p bs (Q : usize → Node World → Prop) c w u :
  encodes SPDM_STATUS_BUFFER_FULL (spdm_encode c (mkMessage (mkMessageHeader v code) p)) bs →
  len bs ≤ MAX_SPDM_MSG_SIZE → response_buffer w →
  (∀ w', composed w' bs → Q (len bs) (mkNode c w' u)) →
  live (encode_request v code p) Q (mkNode c w u).
Proof.
  intros He Hl Hw HQ. apply live_bind, live_on_writer. eapply live_run; [reflexivity|]. cbn [common world writer].
  apply live_bind, live_get_common. cbn [common].
  destruct (response_buffer_clear _ Hw) as (Hw' & _ & Hwl). destruct (He _ Hw') as [Hok _].
  apply live_on_writer. eapply live_run; [apply Hok; unfold Writer.left, Writer.clear in *; cbn [w_offs w_buf] in *; lia|].
  apply HQ. unfold composed, put, Writer.clear. cbn [w_buf w_offs]. apply slice_prefix. destruct Hw as (_ & _ & Hwl'). lia.
Qed.
Lemma live_send_bytes bs (Q : list Z → Node World → Prop) n :
  composed (writer n) bs → Q bs n → live (send_bytes (len bs)) Q n.
Proof. intros Hb HQ. apply live_on_writer. eapply live_run; [by rewrite Hb|]. by destruct n. Qed.

(** ** Reading a response *)
Lemma live_read_header h rest (Q : SpdmMessageHeader * Reader → Node World → Prop) n :
  wf h → bytes_wf rest → (reader_wf (mkReader (bytes h ++ rest) 2) → Q (h, mkReader (bytes h ++ rest) 2) n) →
  live (read_field SpdmMessageHeader (Reader.init (bytes h ++ rest))) Q n.
Proof. intros Hh Hr HQ. destruct (reader_after h rest Hh Hr) as [Hrd Hw]. unfold read_field. rewrite Hrd. by apply live_ret, HQ. Qed.
Lemma live_handle_any {A} h rest id (e : request A) k (Q : A → Node World → Prop) n :
  wf h → bytes_wf rest →
  (reader_wf (mkReader (bytes h ++ rest) 2) → live (k (mkReader (bytes h ++ rest) 2)) Q n) →
  live (handle_any_version id (bytes h ++ rest) (request_response_code h) e k) Q n.
Proof.
  intros Hh Hr HQ. apply live_bind, live_read_header; [done..|]. intros Hw. unfold dispatch_response. cbn [fst snd].
  rewrite decide_True by done. by apply HQ.
Qed.
Lemma live_handle {A} h rest id (e : request A) k (Q : A → Node World → Prop) n :
  wf h → bytes_wf rest → version h = selected (common n) →
  (reader_wf (mkReader (bytes h ++ rest) 2) → live (k (mkReader (bytes h ++ rest) 2)) Q n) →
  live (handle_response id (bytes h ++ rest) (request_response_code h) e k) Q n.
Proof.
  intros Hh Hr Hv HQ. apply live_bind, live_read_header; [done..|]. intros Hw. apply live_bind, live_get_common.
  rewrite bool_decide_eq_false_2 by (by intros []). apply live_bind, live_ret. unfold dispatch_response.
  rewrite decide_True by done. by apply HQ.
Qed.
Lemma live_read_payload A `{SpdmCodecOk A} (h : SpdmMessageHeader) (a : A) pb rest (Q : A * Reader → Node World → Prop) n :
  let buf := bytes h ++ pb ++ rest in
  pb = sbytes (common n) a → reader_wf (mkReader buf 2) → swf (common n) a →
  Q (a, mkReader buf (2 + len pb)) n → live (ReqLib.read_payload A (mkReader buf 2)) Q n.
Proof.
  intros buf -> Hw Ha HQ. apply live_bind, live_get_common.
  rewrite (spdm_read_ok (common n) a Ha (mkReader buf 2) rest Hw (drop_header h _)). exact HQ.
Qed.
Lemma live_log_exchange cfg i log req bs tail k (Q : unit → Node World → Prop) n :
  k = len bs → holds cfg i log (common n) → bytes_wf req → bytes_wf bs → len (log ++ req ++ bs) ≤ A_CAP →
  (∀ b, holds cfg i (log ++ req ++ bs) (upd_runtime (with_message_a b) (common n)) →
     Q tt (mkNode (upd_runtime (with_message_a b) (common n)) (writer n) (world n))) →
  live (log_exchange req (bs ++ tail) k) Q n.
Proof.
  intros -> Hho Hq Hb Hcap HQ. rewrite !len_app in Hcap. pose proof (len_nonneg bs). pose proof (len_nonneg tail).
  apply live_bind, live_on_common, live_append_a; [apply Hho|done|rewrite (ho_log _ _ _ _ Hho); change (mb_cap BufA) with A_CAP; lia|].
  intros b Hbw Hbc. rewrite (ho_log _ _ _ _ Hho) in Hbc. pose proof (holds_log _ _ _ _ _ _ Hho Hbw Hbc) as Hho1.
  cbn [common writer world]. apply live_bind. eapply (live_lift _ bs).
  { rewrite slice_spec by (rewrite ?len_app; lia). rewrite zdrop_0, Z.sub_0_r, ztake_app. done. }
  apply live_on_common. cbn [common writer world]. apply live_append_a; [apply Hho1|done|rewrite (ho_log _ _ _ _ Hho1), len_app; change (mb_cap BufA) with A_CAP; lia|].
  intros b' Hbw' Hbc'. rewrite (ho_log _ _ _ _ Hho1) in Hbc'. pose proof (holds_log _ _ _ _ _ _ Hho1 Hbw' Hbc') as Hho2.
  rewrite <- app_assoc in Hho2. apply (HQ b'). exact Hho2.
Qed.
End Steps.

(** ** Over the link *)
Section Rounds.
Context (P rsp : Platform) `{!@AppHandlers (wired rsp)} `{CryptoOk} `{TransportOk}.
Let L : Platform := linked P rsp.
Implicit Types (d : Peer rsp) (w : @World rsp) (u : @World P).

(** A request: its buffer, what it does to the context, its bytes, and the
    response. *)
Lemma live_round f (enc : @request L usize) (hdl : list Z → list Z → @request L unit) req bs c w s K d u c0 wr
    (Q : unit → Node (@World L) → Prop) :
  at_rest rsp c w d → exchange rsp c w req bs s K → own_takes (f c0) →
  (∀ wr Q, response_buffer wr → (∀ wr, composed wr req → Q (len req) (mkNode (f c0) wr (d, u))) →
     live enc Q (mkNode (f c0) wr (d, u))) →
  (∀ tail d' c' wr', bytes_wf tail → K c' → at_rest rsp (in_state s c') w d' →
     live (hdl req (bs ++ tail)) Q (mkNode (f c0) wr' (d', u))) →
  live (let* _ := @new_send_buffer L in
        let* send_used := (let* _ := upd_common f in
                           let* send_used := enc in
                           let* bs := @send_bytes L send_used in
                           let* _ := @ReqLib.send_message L _ _ None bs false in
                           ret send_used) in
        let* bs := @send_bytes L send_used in
        let* bytes := @ReqLib.receive_message L _ _ None false in
        hdl bs bytes) Q (mkNode c0 wr (d, u)).
Proof.
  intros Hd Hex Hown Henc Hhdl. apply live_bind, live_on_writer. eapply live_run; [reflexivity|]. cbn [common writer world].
  apply live_bind, live_bind, live_upd_common. cbn [common writer world]. apply live_bind, Henc; [apply fresh_response_buffer|].
  intros wr' Hwr. apply live_bind, live_send_bytes; [done|]. apply live_bind.
  eapply (live_send P rsp); [done..|]. intros d' Hd'. apply live_ret, live_bind, live_send_bytes; [done|].
  apply live_bind. eapply (live_receive P rsp); [exact Hd'|apply Hex|]. intros tail d'' c' Ht Hk Hr. by eapply Hhdl.
Qed.

(** *** GET_VERSION *)
(** Both sides after a round: the requester with the parameters [i], the
    responder in the state [s], with a context that satisfies [K]. *)
Definition rounded (cfg : SpdmConfigInfo) (i : SpdmNegotiateInfo) (log : list Z) s K w u (n : Node (@World L)) : Prop :=
  holds cfg i log (common n) ∧ ∃ d c, world n = (d, u) ∧ at_rest rsp (in_state s c) w d ∧ K c.
Lemma message_code c h p : znth (message_bytes c (mkMessage h p)) 1 = Some (get_int (request_response_code h)).
Proof. unfold message_bytes. by destruct h. Qed.
Lemma version_exchange c w :
  config_ok (config_info c) →
  exchange rsp c w get_version (version_rsp (config_info c)) SpdmConnectionAfterVersion
    (λ c', holds (config_info c) SpdmNegotiateInfo_default (get_version ++ version_rsp (config_info c)) c' ∧
           provision_info c' = provision_info c).
Proof.
  intros Hc. destruct (version_rsp_ok (config_info c) c Hc) as (_ & Hb & Hl). split.
  - split; [by apply is_byte_wf|done].
  - split; [done|lia].
  - by apply version_answers.
  - intros c' [Hh _]. unfold peer_takes. rewrite (ho_negotiate _ _ _ _ Hh). by split; left.
  - exists (get_int SpdmResponseVersion). split; [apply message_code|done].
Qed.
Lemma version_round v c w d u c0 wr :
  let rq := config_info c0 in let rp := config_info c in
  let log := get_version ++ version_rsp rp in
  config_ok rp → negotiate_version (cfg_spdm_version rq) (version_payload rp) = Some v → at_rest rsp c w d →
  live (@send_receive_spdm_version L _ _)
    (λ _, rounded rq (with_spdm_version_sel v SpdmNegotiateInfo_default) log SpdmConnectionAfterVersion
            (λ c', holds rp SpdmNegotiateInfo_default log c' ∧ provision_info c' = provision_info c) w u)
    (mkNode c0 wr (d, u)).
Proof.
  intros rq rp log Hc Hneg Hd. destruct (version_rsp_ok rp c Hc) as (_ & Hb & Hl).
  eapply (live_round reset_context (@encode_spdm_version L) (@handle_spdm_version_response L 0));
    [exact Hd|by apply version_exchange|by split; left| |].
  { intros wr' Q Hwr HQ. apply (live_encode_request _ _ _ get_version); [|done|done|exact HQ].
    by apply (message_encode_ok _ (mkMessage (mkMessageHeader SpdmVersion10 SpdmRequestGetVersion) (SpdmGetVersionRequest mkGetVersion))). }
  intros tail d' c' wr' Ht [Hk Hp] Hr. set (h := mkMessageHeader SpdmVersion10 SpdmResponseVersion).
  destruct (list_versions_ok rp Hc) as [_ Hwf]. fold (version_payload rp) in Hwf.
  assert (version_rsp rp ++ tail = bytes h ++ sbytes c0 (version_payload rp) ++ tail) as Happ by apply message_bytes_app.
  unfold handle_spdm_version_response. fold rp. rewrite Happ. apply (live_handle_any h); [by split| |].
  { apply bytes_wf_app. split; [exact (sbytes_ok c0 (version_payload rp) Hwf)|done]. }
  intros Hrd. apply live_bind, (live_read_payload SpdmVersionResponsePayload h (version_payload rp)); [done|exact Hrd|exact Hwf|].
  apply live_bind, live_get_common. cbn [common]. change (config_info (reset_context c0)) with rq. rewrite Hneg.
  apply live_bind, live_upd_common, live_bind, live_upd_common. cbn [common writer world]. rewrite <- Happ.
  apply (live_log_exchange rq (with_spdm_version_sel v SpdmNegotiateInfo_default) []).
  - unfold version_rsp. rewrite len_message. done.
  - by split; [| |apply mb_default_wf|].
  - by apply is_byte_wf.
  - exact Hb.
  - rewrite !len_app, len_nil. change (len get_version) with 4. change A_CAP with 660. lia.
  - intros b Hho. split; [exact Hho|]. exists d', c'. done.
Qed.

(** *** GET_CAPABILITIES *)
(** The buffers of an endpoint take the messages of the negotiation. *)
Definition sized (cfg : SpdmConfigInfo) : Prop :=
  takes 64 (cfg_max_spdm_msg_size cfg) ∧ takes 64 (cfg_data_transfer_size cfg).
Lemma capabilities_wf_at c v p : selected c = v → capabilities_wf (at_version v) p → capabilities_wf c p.
Proof. unfold selected. intros <-. exact id. Qed.
Lemma accept_capabilities_told v rq rp c log :
  version_leb SpdmVersion12 v = true → holds rq (with_spdm_version_sel v SpdmNegotiateInfo_default) log c →
  holds rq (told v rq rp) log (accept_capabilities (own_response rp) c).
Proof.
  intros Hv [Hc Hn Ha Hl]. unfold accept_capabilities. cbv zeta.
  match goal with |- context [ver_ge ?c SpdmVersion12] => assert (ver_ge c SpdmVersion12 = true) as ->
    by (unfold ver_ge, upd_negotiate; cbn; rewrite Hn; done) end.
  split; cbn; rewrite ?Hn, ?Hc; done.
Qed.
Lemma capability_exchange v rq c w log :
  let rp := config_info c in
  config_ok rp → version_leb SpdmVersion12 v = true → get_capabilities_wf (at_version v) (own_request rq) →
  capabilities_wf (at_version v) (own_response rp) → sized rq →
  holds rp SpdmNegotiateInfo_default log c → connection_state (runtime_info c) = SpdmConnectionAfterVersion → len log ≤ 200 →
  exchange rsp c w (get_capabilities v rq) (capabilities_rsp v rp) SpdmConnectionAfterCapabilities
    (λ c', holds rp (told v rq rp) (log ++ get_capabilities v rq ++ capabilities_rsp v rp) c' ∧
           provision_info c' = provision_info c).
Proof.
  intros rp Hc Hv Hg Hr Hsz Hh Hs Hl. pose proof (get_capabilities_len v rq). pose proof (capabilities_rsp_len v rp). split.
  - split; [|lia]. apply bytes_wf_app. split; [by apply bytes_ok|apply sbytes_ok; exact Hg].
  - split; [|lia]. apply bytes_wf_app. split; [by apply bytes_ok|apply sbytes_ok; exact Hr].
  - by apply capability_answers.
  - intros c' [Hh' _]. unfold peer_takes. by rewrite (ho_negotiate _ _ _ _ Hh').
  - exists (get_int SpdmResponseCapabilities). split; [apply message_code|done].
Qed.
Lemma capability_round v c w d u c0 wr log :
  let rq := config_info c0 in let rp := config_info c in
  let log' := log ++ get_capabilities v rq ++ capabilities_rsp v rp in
  config_ok rp → version_leb SpdmVersion12 v = true → get_capabilities_wf (at_version v) (own_request rq) →
  capabilities_wf (at_version v) (own_response rp) → sized rq → len log ≤ 200 →
  holds rp SpdmNegotiateInfo_default log c → connection_state (runtime_info c) = SpdmConnectionAfterVersion →
  at_rest rsp c w d → holds rq (with_spdm_version_sel v SpdmNegotiateInfo_default) log c0 →
  live (@send_receive_spdm_capability L _ _)
    (λ _, rounded rq (told v rq rp) log' SpdmConnectionAfterCapabilities
            (λ c', holds rp (told v rq rp) log' c' ∧ provision_info c' = provision_info c) w u)
    (mkNode c0 wr (d, u)).
Proof.
  intros rq rp log' Hc Hv Hg Hr Hsz Hlog Hhc Hst Hd Hho.
  pose proof (get_capabilities_len v rq). pose proof (capabilities_rsp_len v rp).
  pose proof (reset_buffer_frame SpdmRequestGetCapabilities None c0) as Hfr.
  pose proof (entry_frame _ _ _ _ _ Hho Hfr) as Hh1. pose proof (capability_exchange v rq c w log Hc Hv Hg Hr Hsz Hhc Hst Hlog) as Hex.
  pose proof (ho_negotiate _ _ _ _ Hh1) as Hn1. pose proof (ho_config _ _ _ _ Hh1) as Hc1.
  eapply (live_round _ (@encode_spdm_capability L) (@handle_spdm_capability_response L 0)); [exact Hd|exact Hex| | |];
    set (c1 := reset_buffer_via_request_code _ _ _) in *; assert (selected c1 = v) as Hsel by (unfold selected; by rewrite Hn1).
  { unfold own_takes. rewrite Hn1. by split; left. }
  { intros wr' Q Hwr HQ. apply live_bind, live_get_common, live_bind, live_get_common. cbn [common]. rewrite Hc1, Hsel.
    apply (live_encode_request _ _ _ (get_capabilities v rq)); [|unfold MAX_SPDM_MSG_SIZE; lia|done|exact HQ].
    set (m := mkMessage _ _). assert (message_bytes c1 m = get_capabilities v rq) as <-.
    { apply message_bytes_eq. by apply get_capabilities_bytes. }
    apply message_encode_ok. split; [by split|]. by apply (get_capabilities_wf_at _ v). }
  intros tail d' c' wr' Ht HK Hrest. set (h := mkMessageHeader v SpdmResponseCapabilities).
  assert (capabilities_rsp v rp ++ tail = bytes h ++ sbytes (at_version v) (own_response rp) ++ tail) as Happ by apply message_bytes_app.
  unfold handle_spdm_capability_response. fold rp. rewrite Happ. apply (live_handle h); [by split| |exact (eq_sym Hsel)|].
  { apply bytes_wf_app. split; [|done]. apply sbytes_ok. exact Hr. }
  intros Hrd. apply live_bind, (live_read_payload SpdmCapabilitiesResponsePayload h (own_response rp)); [|exact Hrd| |].
  { symmetry. by apply capabilities_bytes. }
  { by apply (capabilities_wf_at _ v). }
  apply live_bind, live_upd_common. cbn [common writer world]. rewrite <- Happ.
  eapply (live_log_exchange rq (told v rq rp) log); [|by apply accept_capabilities_told| | | |].
  - unfold capabilities_rsp. by rewrite len_message.
  - apply Hex.
  - apply Hex.
  - rewrite !len_app. change A_CAP with 660. lia.
  - intros b Hb. split; [exact Hb|]. by exists d', c'.
Qed.
End Rounds.
End LiveRequester.
