(* ===== verification/LiveAlgorithms.v ===== *)
(** * Progress of NEGOTIATE_ALGORITHMS

    About what the responder selects and the requester accepts.  Proved: the
    selection has at most one algorithm of each kind, and no classical next to
    a post-quantum one; if it has what the capabilities of the two sides need,
    the requester accepts it and has the parameters of the responder then. *)

From S2P Require Import Prelude Codec Status Bitflags Algo DataTypes Structs Version Crypto HashCtx ManagedBuffer.
From S2P Require Import CertChain Session SecuredMessage Header ContextData Transport Context Transcript SpdmCodec.
From S2P Require Import MsgLib MsgNegotiate MsgMisc Message Platform Link RspLib RspLaws RspNegotiate Responder.
From S2P Require Import ServedChain Negotiation NegAlgorithms ReqLib ReqNegotiate TwoParty Live LiveResponder LiveLink LiveRequester.
Import Context Transcript Responder RspNegotiate ServedChain Negotiation NegAlgorithms ReqLib ReqNegotiate TwoParty.
Import LiveResponder LiveLink LiveRequester.

Module LiveAlgorithms.
(** ** The selection *)
Definition one_or_none {d} (f : flags d) : Prop := f = empty_flags ∨ is_valid_one_select f = true.
Definition either_none {d e} (f : flags d) (g : flags e) : Prop := f = empty_flags ∨ g = empty_flags.
Lemma prioritized_one {d} (t : list (flags d)) f g :
  prioritize_correct t → flags_wf f → flags_wf g → one_or_none (prioritize_with t f g).
Proof. intros Ht Hf Hg. destruct (Ht f g Hf Hg) as [[_ ->]|(_ & _ & Hr & _)]; [by left|by right]. Qed.
Lemma prioritized_none {d} (t : list (flags d)) g : prioritize_with t empty_flags g = empty_flags.
Proof. unfold prioritize_with, inter. cbn. induction t as [|v t IH]; [done|]. cbn [first_in_table bits]. by rewrite Z.land_0_l. Qed.
Lemma one_valid {d} (f : flags d) : is_valid_one_select f = true → is_valid f = true.
Proof. unfold is_valid_one_select. by intros [_ ?]%andb_true_iff. Qed.
Lemma empty_invalid {d} : is_valid (empty_flags : flags d) = false.
Proof. done. Qed.
(** One of the two is dropped. *)
Lemma drop_one {d e} (f : flags d) (g : flags e) :
  one_or_none f → one_or_none g →
  one_or_none (if is_valid f && is_valid g then empty_flags else f) ∧
  either_none g (if is_valid f && is_valid g then empty_flags else f).
Proof.
  intros [->|Hf] [->|Hg]; rewrite ?empty_invalid, ?andb_false_r; cbn [andb];
    try (split; [first [by left|by right]|first [by left|by right]]).
  rewrite (one_valid f), (one_valid g) by done. split; [by left|by right].
Qed.

Record chosen (v : SpdmVersion) (i : SpdmNegotiateInfo) : Prop := {
  ch_measurement : one_or_none (measurement_specification_sel i);
  ch_hash : one_or_none (base_hash_sel i);
  ch_asym : one_or_none (base_asym_sel i);
  ch_pqc : one_or_none (pqc_asym_sel i);
  ch_dhe : one_or_none (dhe_sel i);
  ch_aead : one_or_none (aead_sel i);
  ch_req_asym : one_or_none (req_asym_sel i);
  ch_key_schedule : one_or_none (key_schedule_sel i);
  ch_pqc_req_asym : one_or_none (pqc_req_asym_sel i);
  ch_kem : one_or_none (kem_sel i);
  ch_either : either_none (base_asym_sel i) (pqc_asym_sel i) ∧
    either_none (req_asym_sel i) (pqc_req_asym_sel i) ∧ either_none (dhe_sel i) (kem_sel i);
  ch_old : version_leb SpdmVersion14 v = false →
    pqc_asym_sel i = empty_flags ∧ pqc_req_asym_sel i = empty_flags ∧ kem_sel i = empty_flags;
  ch_mel_old : version_leb SpdmVersion13 v = false → mel_specification_sel i = empty_flags;
}.
Lemma exclusive_run i :
  exclusive i =
  with_kem_sel (if is_valid (kem_sel i) && is_valid (dhe_sel i) then empty_flags else kem_sel i)
  (with_pqc_req_asym_sel (if is_valid (pqc_req_asym_sel i) && is_valid (req_asym_sel i) then empty_flags else pqc_req_asym_sel i)
  (with_pqc_asym_sel (if is_valid (pqc_asym_sel i) && is_valid (base_asym_sel i) then empty_flags else pqc_asym_sel i) i)).
Proof.
  unfold exclusive, PQC_FIRST. cbv zeta.
  destruct (is_valid (pqc_asym_sel i) && _); cbn; (destruct (is_valid (pqc_req_asym_sel i) && _); cbn);
    (destruct (is_valid (kem_sel i) && _); cbn); by destruct i.
Qed.
#[local] Arguments prioritize_with : simpl never.
#[local] Arguments is_valid : simpl never.
(** What is prioritized with a table of algorithms. *)
Ltac prio_one := apply prioritized_one; [first [exact prio_measurement|exact prio_base_asym|exact prio_pqc_asym
  |exact prio_base_hash|exact prio_mel|exact prio_dhe|exact prio_kem|exact prio_aead|exact prio_req_asym
  |exact prio_pqc_req_asym|exact prio_key_schedule]|assumption|assumption].
Lemma prioritized_chosen v cfg i :
  config_ok cfg → wf i → spdm_version_sel i = v →
  (version_leb SpdmVersion14 v = false →
    pqc_asym_sel i = empty_flags ∧ pqc_req_asym_sel i = empty_flags ∧ kem_sel i = empty_flags) →
  (version_leb SpdmVersion13 v = false → mel_specification_sel i = empty_flags) →
  chosen v (prioritize_all cfg i).
Proof.
  intros [_ _ (? & _ & ? & _) (? & ? & ? & ? & ?) (? & ? & ? & ?)] (?&?&?&?&?&?&?&?&?&?&?&?&?&?&?&?&?&?&?&?&?&?&?&?&?) Hv Hold Hmel.
  unfold prioritize_all. cbv zeta. cbn [spdm_version_sel with_measurement_specification_sel with_measurement_hash_sel with_base_hash_sel
    with_base_asym_sel with_pqc_asym_sel with_mel_specification_sel with_dhe_sel with_aead_sel with_req_asym_sel with_key_schedule_sel].
  rewrite Hv. destruct (version_leb SpdmVersion14 v) eqn:Hv14.
  - rewrite exclusive_run.
    destruct (drop_one (SpdmPqcAsymAlgo.prioritize (pqc_asym_sel i) (cfg_pqc_asym_algo cfg))
      (SpdmBaseAsymAlgo.prioritize (base_asym_sel i) (cfg_base_asym_algo cfg))) as [? ?]; [prio_one..|].
    destruct (drop_one (SpdmPqcReqAsymAlgo.prioritize (pqc_req_asym_sel i) (cfg_pqc_req_asym_algo cfg))
      (SpdmReqAsymAlgo.prioritize (req_asym_sel i) (cfg_req_asym_algo cfg))) as [? ?]; [prio_one..|].
    destruct (drop_one (SpdmKemAlgo.prioritize (kem_sel i) (cfg_kem_algo cfg))
      (SpdmDheAlgo.prioritize (dhe_sel i) (cfg_dhe_algo cfg))) as [? ?]; [prio_one..|].
    split; cbn; try assumption; try prio_one; [split_and!; assumption|..]; intros Hlt; by destruct v.
  - destruct Hold as (E1 & E2 & E3); [done|].
    assert (∀ d, one_or_none (empty_flags : flags d)) by (by left).
    split; cbn; rewrite ?E1, ?E2, ?E3; unfold SpdmPqcAsymAlgo.prioritize; rewrite ?prioritized_none; try prio_one; try done.
    + split_and!; by right.
    + intros Hv13. rewrite Hmel by done. apply prioritized_none.
Qed.
Lemma agreed_chosen v rq rp :
  wf (told v rq rp) → config_ok rq → config_ok rp → chosen v (agreed v rq rp).
Proof.
  intros Ht Hrq Hrp. cut (chosen v (prioritize_all rp (offered v rq rp))).
  { unfold agreed. generalize (prioritize_all rp (offered v rq rp)). intros i [? ? ? ? ? ? ? ? ? ? ? ? ?]. by split. }
  apply prioritized_chosen; [done|by apply offered_wf|done| |].
  - intros Hv. unfold offered, stored_algs, stored_sets. cbn. by rewrite Hv.
  - intros Hv. unfold offered, stored_algs, stored_sets. cbn. by rewrite Hv.
Qed.

(** ** What the requester accepts *)
(** The selection [i] has what the capabilities in [c] need. *)
Record suited (c : SpdmContext) (i : SpdmNegotiateInfo) : Prop := {
  su_hash : is_valid_one_select (base_hash_sel i) = true;
  su_asym : is_valid_one_select (base_asym_sel i) = true ∨ is_valid_one_select (pqc_asym_sel i) = true;
  su_measurement_hash : one_or_none (measurement_hash_sel i);
  su_measurements : measurements_used c = true →
    is_valid_one_select (measurement_specification_sel i) = true ∧ is_valid_one_select (measurement_hash_sel i) = true;
  su_opaque : rsp_cap c SpdmResponseCapabilityFlags.KEY_EX_CAP || rsp_psk c = true →
    contains (other_params_support i) SpdmAlgoOtherParams.OPAQUE_DATA_FMT1 = true;
  su_key_ex : key_ex_used c = true → is_valid_one_select (dhe_sel i) = true ∨ is_valid_one_select (kem_sel i) = true;
  su_mut_auth : mut_auth_used c = true →
    is_valid_one_select (req_asym_sel i) = true ∨ is_valid_one_select (pqc_req_asym_sel i) = true;
  su_mel : ver_ge c SpdmVersion13 = true →
    mel_specification_sel i =
    if bool_decide (cfg_mel_specification (config_info c) ≠ empty_flags) && rsp_cap c SpdmResponseCapabilityFlags.MEL_CAP
    then SpdmMelSpecification.DMTF_MEL_SPEC else empty_flags;
}.
Lemma suited_ext c c' i :
  config_info c' = config_info c → negotiate_info c' = negotiate_info c → suited c i → suited c' i.
Proof.
  intros Hc Hn [? ? ? S1 S2 S3 S4 S5]. unfold measurements_used, rsp_psk, key_ex_used, mut_auth_used, rsp_cap, req_cap, ver_ge in *.
  rewrite <- Hn in *. rewrite <- Hc in S5. by split.
Qed.
Lemma one_no_more {d} (f : flags d) : one_or_none f → is_no_more_than_one_selected f = true.
Proof. intros [->|Hf]; [done|]. unfold is_valid_one_select in Hf. by apply andb_true_iff in Hf as [? _]. Qed.
Lemma sel_ok {d} need (f : flags d) : one_or_none f → (need = true → is_valid_one_select f = true) → sel_bad need f = false.
Proof.
  intros Hf Hn. unfold sel_bad. rewrite (one_no_more f Hf). destruct need; [|done]. by rewrite Hn.
Qed.
Lemma sel_valid {d} need (f : flags d) : is_valid_one_select f = true → sel_bad need f = false.
Proof. intros Hf. apply sel_ok; [by right|done]. Qed.
Lemma not_both {d e} (f : flags d) (g : flags e) : either_none f g → is_valid_one_select f && is_valid_one_select g = false.
Proof. intros [-> | ->]; unfold is_valid_one_select; rewrite ?empty_invalid, ?andb_false_r; done. Qed.
Lemma one_of {d e} need (f : flags d) (g : flags e) :
  (need = true → is_valid_one_select f = true ∨ is_valid_one_select g = true) →
  need && negb (is_valid_one_select f) && negb (is_valid_one_select g) = false.
Proof. intros Hn. destruct need; [|done]. destruct Hn as [-> | ->]; [done| |]; by rewrite ?andb_false_r. Qed.

Lemma one_cases {d} (f : flags d) :
  one_or_none f → (is_valid f = false ∧ f = empty_flags) ∨ (is_valid f = true ∧ ∀ need, sel_bad need f = false).
Proof. intros [->|Hf]; [by left|right]. split; [by apply one_valid|]. intros need. by apply sel_valid. Qed.
(** The loop of the reader accepts the structures, and keeps the selection. *)
Lemma sel_chosen v c i :
  chosen v i → spdm_version_sel i = v →
  ∃ s, run_algs (sel_alg c) (AlgSeen_init, AlgSel_init) (chosen_algs i)
       = Some (s, mkAlgSel (dhe_sel i) (req_asym_sel i) (pqc_req_asym_sel i) (kem_sel i)).
Proof.
  intros [_ _ _ _ Hd Ha Hr Hs Hp Hk _ Hold _] Hv. unfold chosen_algs. cbv zeta. rewrite Hv.
  assert (version_leb SpdmVersion14 v = true ∨ pqc_req_asym_sel i = empty_flags ∧ kem_sel i = empty_flags) as Hv14.
  { destruct (version_leb SpdmVersion14 v); [by left|right]. by destruct Hold as (_ & ? & ?). }
  assert (version_leb SpdmVersion14 v && is_valid (pqc_req_asym_sel i) = is_valid (pqc_req_asym_sel i)) as ->.
  { destruct Hv14 as [->|[-> _]]; [done|]. by rewrite empty_invalid, andb_false_r. }
  assert (version_leb SpdmVersion14 v && is_valid (kem_sel i) = is_valid (kem_sel i)) as ->.
  { destruct Hv14 as [->|[_ ->]]; [done|]. by rewrite empty_invalid, andb_false_r. }
  clear Hold Hv14 Hv. generalize dependent (dhe_sel i). generalize dependent (aead_sel i). generalize dependent (req_asym_sel i).
  generalize dependent (key_schedule_sel i). generalize dependent (pqc_req_asym_sel i). generalize dependent (kem_sel i).
  intros k Hk p Hp s Hs r Hr a Ha d Hd.
  destruct (one_cases _ Hd) as [[-> ->]|[-> Sd]]; (destruct (one_cases _ Ha) as [[-> ->]|[-> Sa]]);
    (destruct (one_cases _ Hr) as [[-> ->]|[-> Sr]]); (destruct (one_cases _ Hs) as [[-> ->]|[-> Ss]]);
    (destruct (one_cases _ Hp) as [[-> ->]|[-> Sp]]); (destruct (one_cases _ Hk) as [[-> ->]|[-> Sk]]);
    cbn [put_if app run_algs]; unfold sel_alg; cbn -[sel_bad];
    repeat (first [rewrite Sd|rewrite Sa|rewrite Sr|rewrite Ss|rewrite Sp|rewrite Sk]; cbn -[sel_bad]); by eexists.
Qed.
(** The reader of the requester accepts the response. *)
Lemma suited_wf v c i :
  selected c = v → spdm_version_sel i = v → version_leb SpdmVersion12 v = true → wf i → chosen v i → suited c i →
  algorithms_wf SpdmVersion14 c (algorithms_of i (other_params_support i)).
Proof.
  intros Hc Hi Hv Hwf Hch Hsu. destruct (sel_chosen v c i Hch Hi) as [st Hst]. pose proof (chosen_front i Hwf) as Hfront.
  destruct Hwf as (?&?&?&?&?&?&?&?&?&?&?&?&?&?&?&?&?&?&?&?&?&?&?&?&?).
  destruct Hch as [? ? ? ? _ _ _ _ _ _ (He1 & He2 & He3) Hold Hmel], Hsu as [Hhash Hasym Hmh Hmeas Hop Hkx Hma _].
  assert (∀ x, ver_ge c x = version_leb x v) as Hge by (intros x; unfold ver_ge, selected in *; by rewrite Hc).
  assert (version_leb SpdmVersion11 v = true) as Hv11 by (by destruct v).
  unfold algorithms_wf. rewrite !Hge, Hv11, Hv. cbn [algorithms_of ar_alg_struct_count ar_measurement_specification_sel
    ar_other_params_selection ar_measurement_hash_algo ar_base_asym_sel ar_base_hash_sel ar_pqc_asym_sel ar_mel_specification_sel ar_alg_struct].
  pose proof (len_chosen_algs i) as Hl. unfold MAX_SUPPORTED_ALG_STRUCTURE_COUNT in Hl.
  split_and!; try assumption.
  - split; lia.
  - apply sel_ok; [done|]. by intros [? _]%Hmeas.
  - destruct (rsp_cap c _ || rsp_psk c) eqn:Hk; [|done]. by rewrite Hop.
  - apply sel_ok; [done|]. by intros [_ ?]%Hmeas.
  - by apply sel_ok.
  - by apply sel_ok; [right|].
  - destruct (version_leb SpdmVersion14 v); [done|]. by destruct Hold.
  - by apply sel_ok.
  - unfold asym_conflict. rewrite not_both by done. cbn [orb]. by apply one_of.
  - destruct (version_leb SpdmVersion13 v); [done|]. by apply Hmel.
  - eexists. split; [split; [exact Hfront|]|].
    + unfold alg_array. rewrite ztake_app. exact Hst.
    + unfold sel_conflict. cbn [snd as_dhe as_kem as_req_asym as_pqc_req_asym]. by rewrite !not_both, !one_of by done.
Qed.

(** ** Accepting the response *)
Section Accept.
Context `{P : Platform}.
Implicit Types n : Node World.

Lemma live_upd_neg f i (Q : unit → Node World → Prop) n : Q tt (neg_node n (f i)) → live (upd_neg f) Q (neg_node n i).
Proof. intros HQ. apply live_upd_common. exact HQ. Qed.
Lemma live_nego_fail_if b (Q : unit → Node World → Prop) n : b = false → Q tt n → live (nego_fail_if b) Q n.
Proof. by intros ->. Qed.
Lemma live_accept {d} (f : flags d) set i (Q : unit → Node World → Prop) n :
  one_or_none f → Q tt (neg_node n (set f i)) → live (accept f set) Q (neg_node n i).
Proof. intros Hf HQ. unfold accept. rewrite (one_no_more f Hf). by apply live_upd_neg. Qed.
Lemma live_accept_field {d} (b : bool) t (C : flags d → SpdmAlg) get set (f : flags d) rest i (Q : unit → Node World → Prop) n :
  one_or_none f → get i = empty_flags → (∀ j, set (get j) j = j) → (b = false → f = empty_flags) →
  (b = true → accept_alg (C f) (neg_node n i) = accept f set (neg_node n i)) →
  live (accept_algs rest) Q (neg_node n (set f i)) →
  live (accept_algs (put_if (b && is_valid f) (mkAlgStruct t (C f)) ++ rest)) Q (neg_node n i).
Proof.
  intros Hf Hi Hset Hb Ha HQ. destruct (b && is_valid f) eqn:Hv.
  - apply andb_true_iff in Hv as [-> _]. apply live_bind. unfold live, wp. cbn [alg_supported]. rewrite Ha by done.
    by apply (live_accept f set i).
  - cbn [put_if app]. assert (f = empty_flags) as Hfe.
    { destruct b; [|by apply Hb]. destruct Hf as [->|Hf]; [done|]. apply one_valid in Hf. cbn in Hv. congruence. }
    rewrite Hfe, <- Hi, Hset in HQ. exact HQ.
Qed.
Definition structs_from (j i : SpdmNegotiateInfo) : SpdmNegotiateInfo :=
  with_kem_sel (kem_sel j) (with_pqc_req_asym_sel (pqc_req_asym_sel j) (with_key_schedule_sel (key_schedule_sel j)
  (with_req_asym_sel (req_asym_sel j) (with_aead_sel (aead_sel j) (with_dhe_sel (dhe_sel j) i))))).
Lemma accept_14_run {d} (f : flags d) set i n :
  version_leb SpdmVersion14 (spdm_version_sel i) = true →
  (let* c := get_common in if ver_ge c SpdmVersion14 then accept f set else ret tt) (neg_node n i) = accept f set (neg_node n i).
Proof.
  intros Hv. assert (ver_ge (common (neg_node n i)) SpdmVersion14 = true) as Hge by exact Hv.
  assert (get_common (E:=SpdmStatus) (neg_node n i) = (Ok (common (neg_node n i)), neg_node n i)) as Hg by by destruct n.
  unfold bind at 1. by rewrite Hg, Hge.
Qed.
Lemma live_accept_algs v j i (Q : unit → Node World → Prop) n :
  chosen v j → spdm_version_sel j = v → spdm_version_sel i = v → no_algs i →
  Q tt (neg_node n (structs_from j i)) → live (accept_algs (chosen_algs j)) Q (neg_node n i).
Proof.
  intros [_ _ _ _ Hd Ha Hra Hks Hpra Hk _ Hold _] Hj Hv [N1 N2 N3 N4 N5 N6] HQ.
  unfold chosen_algs. cbv zeta. rewrite Hj. rewrite <- (app_nil_r (put_if (_ && is_valid (kem_sel _)) _)).
  apply (live_accept_field true SpdmAlgTypeDHE SpdmAlgoDhe dhe_sel with_dhe_sel); [done|done|by intros []|done|done|].
  apply (live_accept_field true SpdmAlgTypeAEAD SpdmAlgoAead aead_sel with_aead_sel); [done|done|by intros []|done|done|].
  apply (live_accept_field true SpdmAlgTypeReqAsym SpdmAlgoReqAsym req_asym_sel with_req_asym_sel); [done|done|by intros []|done|done|].
  apply (live_accept_field true SpdmAlgTypeKeySchedule SpdmAlgoKeySchedule key_schedule_sel with_key_schedule_sel); [done|done|by intros []|done|done|].
  apply (live_accept_field _ SpdmAlgTypePqcReqAsym SpdmAlgoPqcReqAsym pqc_req_asym_sel with_pqc_req_asym_sel); [done|done|by intros []| | |].
  { intros Hb. by destruct (Hold Hb) as (_ & ? & _). }
  { intros Hb. apply accept_14_run. by rewrite <- Hv in Hb. }
  apply (live_accept_field _ SpdmAlgTypeKEM SpdmAlgoKem kem_sel with_kem_sel); [done|done|by intros []| | |].
  { intros Hb. by destruct (Hold Hb) as (_ & _ & ?). }
  { intros Hb. apply accept_14_run. by rewrite <- Hv in Hb. }
  apply live_ret. exact HQ.
Qed.
Lemma no_multi_key rq rp : one_key rq rp →
  contains (inter (cfg_other_params_support rq) (cfg_other_params_support rp)) SpdmAlgoOtherParams.MULTI_KEY_CONN = false.
Proof.
  intros [_ _ Hc]. destruct (contains (inter _ _) _) eqn:Hi; [|done]. unfold contains at 1 in Hi. apply Z.eqb_eq in Hi.
  destruct (contains_inter _ _ _ Hi) as [Hq _]. congruence.
Qed.
Lemma live_accept_multi_key rq rp a i (Q : unit → Node World → Prop) n :
  one_key rq rp → config_info (common n) = rq → rsp_capabilities_sel i = cfg_rsp_capabilities rp →
  ar_other_params_selection a = inter (cfg_other_params_support rq) (cfg_other_params_support rp) →
  multi_key_conn_req i = false → multi_key_conn_rsp i = false →
  Q tt (neg_node n i) → live (accept_multi_key a) Q (neg_node n i).
Proof.
  intros Hone Hcfg Hcap Ha M1 M2 HQ. apply live_bind, live_get_common. cbn [common neg_node].
  cbn [negotiate_info with_negotiate_info config_info]. rewrite Hcap, Hcfg, Ha, (no_multi_key rq rp) by done.
  destruct Hone as [[R1 R2] [S1 S2] _]. rewrite R1, S1, S2. apply live_bind, live_upd_neg, live_bind, live_nego_fail_if; [done|].
  apply live_upd_neg. replace (with_multi_key_conn_req _ _) with i; [done|]. destruct i. cbn in *. by subst.
Qed.
Lemma live_accept_mel a i (Q : unit → Node World → Prop) n :
  ar_mel_specification_sel a =
    (if bool_decide (cfg_mel_specification (config_info (common n)) ≠ empty_flags) &&
        contains (rsp_capabilities_sel i) SpdmResponseCapabilityFlags.MEL_CAP
     then SpdmMelSpecification.DMTF_MEL_SPEC else empty_flags) →
  Q tt (neg_node n (with_mel_specification_sel (ar_mel_specification_sel a) i)) → live (accept_mel a) Q (neg_node n i).
Proof.
  intros Ha HQ. apply live_bind, live_get_common. cbn [common neg_node]. cbn [negotiate_info with_negotiate_info config_info].
  rewrite bool_decide_eq_false_2 by (rewrite Ha; by intros []). apply live_bind, live_ret. by apply live_upd_neg.
Qed.
(** What the requester has then. *)
Definition taken (v : SpdmVersion) (j i : SpdmNegotiateInfo) : SpdmNegotiateInfo :=
  let i := with_other_params_support (other_params_support j) (with_measurement_specification_sel (measurement_specification_sel j) i) in
  let i := with_base_asym_sel (base_asym_sel j) (with_base_hash_sel (base_hash_sel j) (with_measurement_hash_sel (measurement_hash_sel j) i)) in
  let i := if version_leb SpdmVersion14 v then with_pqc_asym_sel (pqc_asym_sel j) i else i in
  let i := structs_from j i in
  if version_leb SpdmVersion13 v then with_mel_specification_sel (mel_specification_sel j) i else i.
Lemma live_accept_algorithms v rq rp j i (Q : unit → Node World → Prop) n :
  one_key rq rp → config_info (common n) = rq → spdm_version_sel i = v → spdm_version_sel j = v → chosen v j →
  suited (with_negotiate_info i (common n)) j → no_algs i →
  rsp_capabilities_sel i = cfg_rsp_capabilities rp → multi_key_conn_req i = false → multi_key_conn_rsp i = false →
  other_params_support j = inter (cfg_other_params_support rq) (cfg_other_params_support rp) →
  Q tt (neg_node n (taken v j i)) →
  live (accept_algorithms (algorithms_of j (other_params_support j))) Q (neg_node n i).
Proof.
  intros Hone Hcfg Hv Hj Hch Hsu Hno Hcap M1 M2 Ho HQ. pose proof Hsu as [Hhash Hasym _ _ _ _ _ Hmel].
  set (a := algorithms_of j _). apply live_bind, live_upd_neg, live_bind, live_upd_neg, live_bind, live_get_common.
  assert (∀ x i', spdm_version_sel i' = spdm_version_sel i → ver_ge (common (neg_node n i')) x = version_leb x v) as Hge.
  { intros x i' Hi'. unfold ver_ge. cbn. by rewrite Hi', Hv. }
  rewrite !Hge by done. set (i1 := with_other_params_support _ _).
  apply live_bind. apply (live_mono _ (λ _ n', n' = neg_node n i1)).
  { destruct (version_leb SpdmVersion13 v); [|done]. by apply (live_accept_multi_key rq rp). }
  intros [] ? ->. apply live_bind, live_upd_neg, live_bind, live_nego_fail_if.
  { cbn. apply one_valid in Hhash. unfold is_valid in Hhash. destruct (Z.eqb_spec (bits (base_hash_sel j)) 0) as [E|]; [|done]. by rewrite E in Hhash. }
  apply live_bind, live_upd_neg, live_bind, live_upd_neg. set (i2 := with_base_asym_sel _ _).
  set (i3 := if version_leb SpdmVersion14 v then with_pqc_asym_sel (pqc_asym_sel j) i2 else i2).
  apply live_bind, (live_mono _ (λ _ n', n' = neg_node n i3)).
  { unfold i3. destruct (version_leb SpdmVersion14 v); [|done]. by apply live_upd_neg. }
  intros [] ? ->. apply live_bind, live_nego_fail_if.
  { cbn. apply andb_false_iff. destruct Hasym as [Hs|Hs]; apply one_valid in Hs; unfold is_valid in Hs; [left|right];
      apply Z.eqb_neq; intros E; by rewrite E in Hs. }
  assert (ztake (ar_alg_struct_count a) (ar_alg_struct a) = chosen_algs j) as -> by (unfold a; cbn; unfold alg_array; apply ztake_app).
  assert (spdm_version_sel i3 = v ∧ no_algs i3 ∧ rsp_capabilities_sel i3 = rsp_capabilities_sel i) as (Hv3 & Hno3 & Hcap3).
  { unfold i3, i2, i1. destruct Hno. destruct (version_leb SpdmVersion14 v); by split_and!. }
  apply live_bind, (live_accept_algs v); [done..|].
  unfold taken in HQ. fold i1 i2 i3 in HQ. destruct (version_leb SpdmVersion13 v) eqn:Hv13; [|exact HQ].
  apply live_accept_mel; [|exact HQ]. cbn [ar_mel_specification_sel algorithms_of a]. rewrite Hmel.
  - cbn. by rewrite Hcap3.
  - unfold ver_ge. cbn. by rewrite Hv.
Qed.
End Accept.
Lemma taken_from v j i :
  (version_leb SpdmVersion14 v = false → pqc_asym_sel j = pqc_asym_sel i) →
  (version_leb SpdmVersion13 v = false → mel_specification_sel j = mel_specification_sel i) → taken v j i = algs_from j i.
Proof.
  intros H14 H13. unfold taken, algs_from. cbv zeta.
  destruct (version_leb SpdmVersion14 v); [|rewrite H14 by done]; (destruct (version_leb SpdmVersion13 v); [|rewrite H13 by done]); by destruct i.
Qed.
Lemma taken_agreed v rq rp : chosen v (agreed v rq rp) → taken v (agreed v rq rp) (told v rq rp) = agreed v rq rp.
Proof.
  intros Hch. rewrite (agreed_frame v rq rp) at 2. apply taken_from.
  - intros Hv. by destruct (ch_old _ _ Hch Hv) as (-> & _).
  - intros Hv. by rewrite (ch_mel_old _ _ Hch Hv).
Qed.

(** ** The request *)
Lemma offered_structs_run cfg v :
  offered_structs cfg (version_leb SpdmVersion14 v) = Ok (len (chosen_algs (asked v cfg)), alg_array (chosen_algs (asked v cfg))).
Proof.
  unfold offered_structs, chosen_algs. cbv zeta. change (0, alg_struct_default) with (len ([] : list SpdmAlgStruct), alg_array []).
  do 6 put_step. by rewrite <- !app_assoc.
Qed.
Lemma offered_params_own v rq rp c :
  one_key rq rp → version_leb SpdmVersion12 v = true → config_info c = rq → selected c = v →
  rsp_capabilities_sel (negotiate_info c) = cfg_rsp_capabilities rp → offered_params c = cfg_other_params_support rq.
Proof.
  intros [_ [S1 S2] _] Hv Hc Hsel Hcap. unfold offered_params, ver_ge, selected in *. rewrite Hsel, Hcap, S1, S2, Hc, Hv, union_empty.
  by destruct (version_leb SpdmVersion13 v).
Qed.

(** ** Over the link *)
Section Round.
Context (P rsp : Platform) `{!@AppHandlers (wired rsp)} `{CryptoOk} `{TransportOk}.
Let L : Platform := linked P rsp.
Implicit Types (d : Peer rsp) (w : @World rsp) (u : @World P).

Lemma algorithms_rsp_ok v rq rp :
  wf (agreed v rq rp) → spdm_version_sel (agreed v rq rp) = v → bytes_wf (algorithms_rsp v rq rp).
Proof.
  intros Hi Hv. pose proof Hi as (?&?&?&?&?&?&?&?&?&?&?&?&?&?&?&?&?&?&?&?&?&?&?&?&?).
  destruct (response_encodes (at_version v) SpdmResponseAlgorithms
    (SpdmAlgorithmsResponse (algorithms_of (agreed v rq rp) (other_params_support (agreed v rq rp))))) as [_ Hb]; [|exact Hb].
  by apply algorithms_of_writes.
Qed.
Lemma algorithm_exchange v rq c w log :
  let rp := config_info c in
  config_ok rp → config_ok rq → one_key rq rp → version_leb SpdmVersion12 v = true → wf (told v rq rp) → sized rq →
  connection_state (runtime_info c) = SpdmConnectionAfterCapabilities → len log ≤ 200 →
  holds rp (told v rq rp) log c → provision_ok (provision_info c) →
  buildable (base_hash_sel (agreed v rq rp)) (provision_info c) →
  exchange rsp c w (negotiate_algorithms v rq) (algorithms_rsp v rq rp) SpdmConnectionNegotiated
    (holds rp (agreed v rq rp) (log ++ negotiate_algorithms v rq ++ algorithms_rsp v rq rp)).
Proof.
  intros rp Hrp Hrq Hone Hv Hwf Hsz Hs Hl Hh Hp Hb. pose proof (negotiate_algorithms_len v rq). pose proof (algorithms_rsp_len v rq rp).
  pose proof (agreed_frame v rq rp) as Hfr. split.
  - split; [by apply negotiate_algorithms_ok|lia].
  - split; [|lia]. apply algorithms_rsp_ok; [by apply agreed_wf|]. by rewrite Hfr.
  - by apply algorithm_answers.
  - intros c' Hh'. unfold peer_takes. rewrite (ho_negotiate _ _ _ _ Hh'), Hfr. exact Hsz.
  - exists (get_int SpdmResponseAlgorithms). split; [apply message_code|done].
Qed.
Lemma live_encode_algorithm v rq rp c wr (x : @World L) req (Q : usize → Node (@World L) → Prop) :
  config_ok rq → one_key rq rp → version_leb SpdmVersion12 v = true → req = negotiate_algorithms v rq →
  config_info c = rq → negotiate_info c = told v rq rp → response_buffer wr →
  (∀ wr, composed wr req → Q (len req) (mkNode c wr x)) → live (@encode_spdm_algorithm L) Q (mkNode c wr x).
Proof.
  intros Hrq Hone Hv -> Hc Hn Hwr HQ. pose proof (negotiate_algorithms_len v rq). pose proof (len_chosen_algs (asked v rq)).
  assert (selected c = v) as Hsel by (unfold selected; by rewrite Hn).
  assert (∀ x, ver_ge c x = version_leb x v) as Hge by (intros y; unfold ver_ge; by rewrite Hn).
  apply live_bind, live_get_common, live_bind. cbn [common]. rewrite !Hge, Hc. eapply live_lift; [apply offered_structs_run|].
  cbv beta iota. rewrite (offered_params_own v rq rp) by (by rewrite ?Hn).
  rewrite wrap_small by (unfold in_width, MAX_SUPPORTED_ALG_STRUCTURE_COUNT in *; lia). fold (own_offer v rq).
  apply live_bind, live_get_common. cbn [common]. rewrite Hsel.
  apply (live_encode_request _ _ _ (negotiate_algorithms v rq)); [|unfold MAX_SPDM_MSG_SIZE; lia|done|exact HQ].
  set (m := mkMessage _ _). assert (message_bytes c m = negotiate_algorithms v rq) as <-.
  { apply message_bytes_eq. by apply negotiate_algorithms_bytes. }
  apply message_encode_ok. split; [by split|]. by apply own_offer_wf.
Qed.
Lemma algorithm_round v c w d u c0 wr log :
  let rq := config_info c0 in let rp := config_info c in
  let log' := log ++ negotiate_algorithms v rq ++ algorithms_rsp v rq rp in
  config_ok rp → config_ok rq → one_key rq rp → version_leb SpdmVersion12 v = true → wf (told v rq rp) → sized rq → sized rp →
  suited c0 (agreed v rq rp) → len log ≤ 200 →
  connection_state (runtime_info c) = SpdmConnectionAfterCapabilities → holds rp (told v rq rp) log c →
  provision_ok (provision_info c) → buildable (base_hash_sel (agreed v rq rp)) (provision_info c) →
  at_rest rsp c w d → holds rq (told v rq rp) log c0 →
  live (@send_receive_spdm_algorithm L _ _)
    (λ _, rounded P rsp rq (agreed v rq rp) log' SpdmConnectionNegotiated (holds rp (agreed v rq rp) log') w u)
    (mkNode c0 wr (d, u)).
Proof.
  intros rq rp log' Hrp Hrq Hone Hv Hwf Hsq Hsp Hsu Hlog Hst Hhc Hpr Hbu Hd Hho.
  pose proof (negotiate_algorithms_len v rq). pose proof (algorithms_rsp_len v rq rp).
  pose proof (reset_buffer_frame SpdmRequestNegotiateAlgorithms None c0) as Hfr.
  pose proof (entry_frame _ _ _ _ _ Hho Hfr) as Hh1. pose proof (algorithm_exchange v rq c w log Hrp Hrq Hone Hv Hwf Hsq Hst Hlog Hhc Hpr Hbu) as Hex.
  pose proof (ho_negotiate _ _ _ _ Hh1) as Hn1. pose proof (ho_config _ _ _ _ Hh1) as Hc1.
  destruct (agreed_wf v rq rp Hwf Hrq Hrp) as [_ Hag]. pose proof (agreed_chosen v rq rp Hwf Hrq Hrp) as Hch.
  assert (spdm_version_sel (agreed v rq rp) = v) as Hva by (by rewrite agreed_frame).
  eapply (live_round P rsp _ (@encode_spdm_algorithm L) (@handle_spdm_algorithm_response L 0)); [exact Hd|exact Hex| | |];
    set (c1 := reset_buffer_via_request_code _ _ _) in *; assert (selected c1 = v) as Hsel by (unfold selected; by rewrite Hn1).
  { unfold own_takes. by rewrite Hn1. }
  { intros wr' Q Hwr HQ. by apply (live_encode_algorithm v rq rp _ _ _ (negotiate_algorithms v rq)). }
  intros tail d' c' wr' Ht HK Hrest. set (h := mkMessageHeader v SpdmResponseAlgorithms).
  set (a := algorithms_of (agreed v rq rp) (other_params_support (agreed v rq rp))).
  assert (algorithms_rsp v rq rp ++ tail = bytes h ++ sbytes (at_version v) a ++ tail) as Happ by apply message_bytes_app.
  assert (suited c1 (agreed v rq rp)) as Hsu1 by (eapply suited_ext; [| |exact Hsu]; apply Hfr).
  pose proof (suited_wf v c1 (agreed v rq rp) Hsel Hva Hv Hag Hch Hsu1) as Haw. fold a in Haw.
  unfold handle_spdm_algorithm_response. fold rp. rewrite Happ. apply (live_handle h); [by split| |exact (eq_sym Hsel)|].
  { apply bytes_wf_app. split; [|done]. rewrite <- (algorithms_bytes c1 v a Hsel). by apply sbytes_ok. }
  intros Hrd. apply live_bind, (live_read_payload SpdmAlgorithmsResponsePayload h a); [|exact Hrd|exact Haw|].
  { symmetry. by apply algorithms_bytes. }
  rewrite <- Happ. apply live_bind. rewrite <- (neg_node_id (mkNode c1 wr' _)). cbn [common]. rewrite Hn1.
  apply (live_accept_algorithms v rq rp); try done.
  { eapply suited_ext; [| |exact Hsu1]; [done|]. by rewrite Hn1. }
  rewrite taken_agreed by done.
  apply (live_log_exchange rq (agreed v rq rp) log).
  - unfold algorithms_rsp. by rewrite len_message.
  - destruct Hh1 as [E1 E2 E3 E4]. by split.
  - apply Hex.
  - apply Hex.
  - rewrite !len_app. change A_CAP with 660. lia.
  - intros b Hb. split; [exact Hb|]. by exists d', c'.
Qed.
End Round.
End LiveAlgorithms.
