(* ===== verification/Agreement.v ===== *)
(** * Agreement of the negotiation

    About [init_connection] of src/spdmlib/src/requester/context.rs against
    [process_message] of src/spdmlib/src/responder/context.rs, over any
    platforms and any transport that meets its contract.  Proved: two
    endpoints with compatible configurations complete the negotiation, and
    have the same parameters and the same message A then. *)

From S2P Require Import Prelude Codec Status Bitflags Algo DataTypes Structs Version Crypto HashCtx ManagedBuffer.
From S2P Require Import CertChain Session SecuredMessage Header ContextData Transport Mctp Context Transcript SpdmCodec.
From S2P Require Import MsgLib MsgNegotiate MsgMisc Message Platform Link RspLib RspLaws RspNegotiate Responder.
From S2P Require Import ServedChain Negotiation NegAlgorithms RspToy ReqLib ReqNegotiate Requester TwoParty.
From S2P Require Import VersionChoice Live LiveResponder LiveLink LiveRequester LiveAlgorithms.
Import Context Transcript Responder RspNegotiate ServedChain Negotiation NegAlgorithms ReqLib ReqNegotiate Requester TwoParty.
Import VersionChoice LiveResponder LiveLink LiveRequester LiveAlgorithms.

Module Agreement.
(** The requester after the capabilities. *)
Definition told_context (v : SpdmVersion) (rq rp : SpdmConfigInfo) : SpdmContext :=
  with_negotiate_info (told v rq rp) (new rq SpdmProvisionInfo_default).
(** What the requester and the responder bring: [v] is their highest common
    version; each accepts the capabilities of the other; the selection has
    what they need; the responder can build its chains. *)
Record compatible `{SpdmCrypto} (v : SpdmVersion) (rq rp : SpdmConfigInfo) (p : SpdmProvisionInfo) : Prop := {
  co_configs : config_ok rq ∧ config_ok rp;
  co_version : Some v ∈ cfg_spdm_version rq ∧ v ∈ own_versions rp;
  co_highest : ∀ v', Some v' ∈ cfg_spdm_version rq → v' ∈ own_versions rp → version_leb v' v = true;
  co_recent : version_leb SpdmVersion12 v = true;
  co_request : get_capabilities_wf (at_version v) (own_request rq);
  co_response : capabilities_wf (at_version v) (own_response rp);
  co_sizes : sized rq ∧ sized rp;
  co_keys : one_key rq rp;
  co_suited : suited (told_context v rq rp) (agreed v rq rp);
  co_provision : provision_ok p ∧ buildable (base_hash_sel (agreed v rq rp)) p;
}.
(** The messages of the negotiation, in order. *)
Definition negotiation (v : SpdmVersion) (rq rp : SpdmConfigInfo) : list Z :=
  ((get_version ++ version_rsp rp) ++ get_capabilities v rq ++ capabilities_rsp v rp) ++
  negotiate_algorithms v rq ++ algorithms_rsp v rq rp.

Lemma version_payload_wf rp : config_ok rp → versions_wf 0 (version_payload rp) ∧ listed (version_payload rp) = own_versions rp.
Proof.
  intros Hrp. destruct (list_versions_ok rp Hrp) as [_ Hwf]. fold (version_payload rp) in Hwf.
  destruct Hwf as (Hn & vs & Hv & Hc & Hd & Hw). split; [split; [lia|by exists vs]|].
  unfold listed. rewrite Hc. cbn [version_payload versions] in *.
  pose proof (distinct_versions_len _ Hd) as Hl. pose proof (len_nonneg (own_versions rp)).
  assert (len (own_versions rp) = len vs) as Hlen.
  { rewrite <- Hc. cbn. symmetry. apply wrap_small. destruct Hrp as [[Hnd _] _ _ _ _].
    assert (distinct_versions (mkVersionStruct 0 <$> own_versions rp)) as Hdv
      by (unfold distinct_versions; rewrite <- list_fmap_compose; by rewrite list_fmap_id).
    apply distinct_versions_len in Hdv. rewrite len_map in Hdv. unfold in_width, MAX_SPDM_VERSION_COUNT in *. lia. }
  rewrite <- Hlen. unfold version_array. rewrite <- (len_map (mkVersionStruct 0) (own_versions rp)), ztake_app.
  rewrite <- list_fmap_compose. apply list_fmap_id.
Qed.

Section Agreement.
Context (P rsp : Platform) `{!@AppHandlers (wired rsp)} `{CryptoOk} `{TransportOk}.
Let L : Platform := linked P rsp.

Lemma live_requests v c0 wr d u c w :
  let rq := config_info c0 in let rp := config_info c in
  compatible v rq rp (provision_info c) → at_rest rsp c w d →
  live (let* _ := @send_receive_spdm_version L _ _ in
        let* _ := @send_receive_spdm_capability L _ _ in
        @send_receive_spdm_algorithm L _ _)
    (λ _, rounded P rsp rq (agreed v rq rp) (negotiation v rq rp) SpdmConnectionNegotiated
            (holds rp (agreed v rq rp) (negotiation v rq rp)) w u) (mkNode c0 wr (d, u)).
Proof.
  intros rq rp [[Hrq Hrp] [Hv1 Hv2] Hmax Hv Hreq Hrsp [Hsq Hsp] Hone Hsu [Hpr Hbu]] Hd.
  pose proof (told_wf v rq rp Hv Hreq Hrp) as Hwf. destruct (version_payload_wf rp Hrp) as [Hvw Hls].
  destruct (version_rsp_ok rp c Hrp) as (_ & _ & Hvl). pose proof (get_capabilities_len v rq). pose proof (capabilities_rsp_len v rp).
  apply live_bind. eapply live_mono.
  { apply (version_round P rsp v c w d u c0 wr Hrp); [|exact Hd]. apply negotiate_version_iff; [done|]. fold rp. by rewrite Hls. }
  fold rq rp. intros [] [c1 wr1 wd1] (Hh1 & d1 & k1 & Hw1 & Hr1 & Hk1 & Hp1). cbn [common world] in *. subst wd1.
  assert (len (get_version ++ version_rsp rp) ≤ 68) by (rewrite len_app; change (len get_version) with 4; lia).
  pose proof (ho_config _ _ _ _ Hk1) as Hck1. pose proof (ho_config _ _ _ _ Hh1) as Hch1.
  apply live_bind. eapply live_mono.
  { apply (capability_round P rsp v (in_state SpdmConnectionAfterVersion k1) w d1 u c1 wr1 (get_version ++ version_rsp rp));
      cbn [config_info in_state upd_runtime with_runtime_info]; rewrite ?Hck1, ?Hch1; try done; [lia|by apply holds_state]. }
  cbn [config_info in_state upd_runtime with_runtime_info]. rewrite Hck1, Hch1.
  intros [] [c2 wr2 wd2] (Hh2 & d2 & k2 & Hw2 & Hr2 & Hk2 & Hp2). cbn [common world] in *. subst wd2.
  change (provision_info k2 = provision_info k1) in Hp2. pose proof (ho_config _ _ _ _ Hk2) as Hck2. pose proof (ho_config _ _ _ _ Hh2) as Hch2.
  eapply live_mono.
  { apply (algorithm_round P rsp v (in_state SpdmConnectionAfterCapabilities k2) w d2 u c2 wr2
      ((get_version ++ version_rsp rp) ++ get_capabilities v rq ++ capabilities_rsp v rp));
      cbn [config_info in_state upd_runtime with_runtime_info provision_info]; rewrite ?Hck2, ?Hch2; try done.
    - eapply suited_ext; [| |exact Hsu]; [done|]. apply Hh2.
    - rewrite (len_app (get_version ++ version_rsp rp)), (len_app (get_capabilities v rq)). lia.
    - by apply holds_state.
    - by rewrite Hp2, Hp1.
    - by rewrite Hp2, Hp1. }
  cbn [config_info in_state upd_runtime with_runtime_info]. rewrite Hck2, Hch2. intros [] n Hn. exact Hn.
Qed.
Definition peer_context (n : Node (@World L)) : SpdmContext := common (fst (world n)).

(** What the three requests leave, at both ends. *)
Lemma requests_run v c0 wr d u c w :
  let rq := config_info c0 in let rp := config_info c in
  compatible v rq rp (provision_info c) → at_rest rsp c w d →
  ∃ n k, (let* _ := @send_receive_spdm_version L _ _ in
          let* _ := @send_receive_spdm_capability L _ _ in
          @send_receive_spdm_algorithm L _ _) (mkNode c0 wr (d, u)) = (Ok tt, n) ∧
    holds rq (agreed v rq rp) (negotiation v rq rp) (common n) ∧
    peer_context n = in_state SpdmConnectionNegotiated k ∧ holds rp (agreed v rq rp) (negotiation v rq rp) k.
Proof.
  intros rq rp Hco Hd. destruct (live_runs _ _ _ (live_requests v c0 wr d u c w Hco Hd)) as ([] & n & Hrun & Hho & d' & k & Hn & [Hd' _] & Hk).
  exists n, k. split; [exact Hrun|]. split; [exact Hho|]. split; [|exact Hk]. unfold peer_context. rewrite <- Hd'. exact (f_equal (λ x, common (fst x)) Hn).
Qed.
Lemma three_requests_run (m1 m2 m3 : @request L unit) n n' o :
  (let* _ := m1 in let* _ := m2 in m3) n = (Ok tt, n') →
  (let* _ := upd_out (λ _ : option ManagedBufferA, None) in
   let* _ := on_node m1 in
   let* _ := on_node m2 in
   let* _ := on_node m3 in
   let* c := on_node get_common in
   upd_out (λ _, Some (message_a (runtime_info c)))) (n, o) = (Ok tt, (n', Some (message_a (runtime_info (common n'))))).
Proof.
  unfold bind. cbn [upd_out on_node]. intros Hrun. destruct (m1 n) as [[[]| |] n1]; [|done..]. cbn [on_node].
  destruct (m2 n1) as [[[]| |] n2]; [|done..]. cbn [on_node].
  destruct (m3 n2) as [[[]| |] n3]; [|done..]. injection Hrun as ->. cbn [on_node]. by destruct n'.
Qed.
(** C5: a requester and a responder with compatible configurations, connected
    over any transport that meets its contract, complete the negotiation.
    Both have the same parameters then, those the two configurations agree
    on, with their highest common version; both have logged the same six
    messages in message A, which the caller of [init_connection] gets; and the
    responder is ready for what follows the negotiation. *)
Theorem negotiation_agrees v c0 wr d u c w o :
  let rq := config_info c0 in let rp := config_info c in
  compatible v rq rp (provision_info c) → common d = c → world d = (mkWire [] [], w) →
  ∃ n a, @init_connection L _ _ (mkNode c0 wr (d, u), o) = (Ok tt, (n, Some a)) ∧
    negotiate_info (common n) = agreed v rq rp ∧ negotiate_info (peer_context n) = agreed v rq rp ∧
    mb_content a = negotiation v rq rp ∧ mb_content (message_a (runtime_info (peer_context n))) = negotiation v rq rp ∧
    connection_state (runtime_info (peer_context n)) = SpdmConnectionNegotiated.
Proof.
  intros rq rp Hco Hc Hw. destruct (requests_run v c0 wr d u c w Hco (conj Hc Hw)) as (n & k & Hrun & [_ E1 _ E2] & Hp & [_ E3 _ E4]).
  exists n, (message_a (runtime_info (common n))). rewrite Hp.
  exact (conj (three_requests_run _ _ _ _ _ o Hrun) (conj E1 (conj E3 (conj E2 (conj E4 eq_refl))))).
Qed.
End Agreement.
End Agreement.

(** ** An instance *)
Module AgreementExamples.
Import Agreement.
Import RspToy ToyRing.
#[local] Existing Instance Mctp.transport.
#[local] Existing Instance MctpLaws.mctp_transport_ok.
#[local] Existing Instance toy_crypto.
#[local] Existing Instance toy_crypto_ok.
#[local] Instance toy_peer_handlers : @AppHandlers (wired toy_platform) :=
  {| dispatch_secured_app_message_cb _ bs _ := ret (Ok tt, Some bs);
     vendor_defined_request_handler_ex := None |}.
(** A requester that offers more than the responder of RspToy.v supports. *)
Definition eager_config : SpdmConfigInfo :=
  {| cfg_spdm_version := [Some SpdmVersion14; Some SpdmVersion12; Some SpdmVersion11; Some SpdmVersion13; None];
     cfg_req_capabilities := cfg_req_capabilities toy_config;
     cfg_rsp_capabilities := empty_flags;
     cfg_req_ct_exponent := 7;
     cfg_rsp_ct_exponent := 0;
     cfg_measurement_specification := SpdmMeasurementSpecification.DMTF;
     cfg_measurement_hash_algo := SpdmMeasurementHashAlgo.TPM_ALG_SHA_256;
     cfg_base_hash_algo := union SpdmBaseHashAlgo.TPM_ALG_SHA_256 SpdmBaseHashAlgo.TPM_ALG_SHA_384;
     cfg_base_asym_algo := union SpdmBaseAsymAlgo.TPM_ALG_ECDSA_ECC_NIST_P256 SpdmBaseAsymAlgo.TPM_ALG_ECDSA_ECC_NIST_P384;
     cfg_dhe_algo := union SpdmDheAlgo.SECP_256_R1 SpdmDheAlgo.SECP_384_R1;
     cfg_aead_algo := union SpdmAeadAlgo.AES_256_GCM SpdmAeadAlgo.CHACHA20_POLY1305;
     cfg_req_asym_algo := SpdmReqAsymAlgo.TPM_ALG_RSASSA_2048;
     cfg_key_schedule_algo := SpdmKeyScheduleAlgo.SPDM_KEY_SCHEDULE;
     cfg_other_params_support := SpdmAlgoOtherParams.OPAQUE_DATA_FMT1;
     cfg_session_policy := 0;
     cfg_runtime_content_change_support := false;
     cfg_data_transfer_size := 1024;
     cfg_max_spdm_msg_size := 2048;
     cfg_heartbeat_period := 0;
     cfg_secure_spdm_version := cfg_secure_spdm_version toy_config;
     cfg_mel_specification := empty_flags;
     cfg_pqc_asym_algo := all_flags;
     cfg_pqc_req_asym_algo := all_flags;
     cfg_kem_algo := all_flags |}.
Definition eager_node : Node (@World (linked toy_platform toy_platform)) :=
  let buffer := Writer.init (zeros MAX_SPDM_MSG_SIZE) in
  mkNode (new eager_config SpdmProvisionInfo_default) buffer
    (mkNode toy_context buffer (mkWire [] [], mkWire [] []), mkWire [] []).
Lemma eager_config_ok : config_ok eager_config.
Proof. split; [|by vm_compute..]. split; [|done]. by apply (bool_decide_unpack (NoDup (own_versions eager_config))). Qed.
Lemma toy_buildable : buildable SpdmBaseHashAlgo.TPM_ALG_SHA_256 toy_provision.
Proof.
  intros [|i] d Hd; cbn in Hd; [injection Hd as <-; eexists; vm_compute; reflexivity|].
  change (replicate 7 (@None SpdmCertChainData) !! i = Some (Some d)) in Hd. by apply lookup_replicate in Hd as [Hd _].
Qed.
Lemma eager_compatible : compatible SpdmVersion12 eager_config toy_config toy_provision.
Proof.
  split.
  - split; [apply eager_config_ok|apply toy_config_ok].
  - split; by apply (bool_decide_unpack (_ ∈ _)).
  - intros v' Hv' Hin. apply (bool_decide_pack (Some v' ∈ _)) in Hv'. apply (bool_decide_pack (v' ∈ _)) in Hin. by destruct v'.
  - done.
  - by vm_compute.
  - by vm_compute.
  - split; split; by right.
  - by split.
  - split; [by vm_compute|by left; vm_compute|by left; vm_compute|by vm_compute|by vm_compute|intros _; by left; vm_compute|by vm_compute|by vm_compute].
  - split; [apply toy_provision_ok|]. assert (base_hash_sel (agreed SpdmVersion12 eager_config toy_config) = SpdmBaseHashAlgo.TPM_ALG_SHA_256) as -> by (by vm_compute). apply toy_buildable.
Qed.
Lemma negotiation_agrees_witness :
  ∃ n a, @init_connection (linked toy_platform toy_platform) _ _ (eager_node, None) = (Ok tt, (n, Some a)) ∧
    negotiate_info (common n) = agreed SpdmVersion12 eager_config toy_config ∧
    negotiate_info (peer_context _ _ n) = agreed SpdmVersion12 eager_config toy_config ∧
    mb_content a = negotiation SpdmVersion12 eager_config toy_config ∧
    mb_content (message_a (runtime_info (peer_context _ _ n))) = negotiation SpdmVersion12 eager_config toy_config ∧
    connection_state (runtime_info (peer_context _ _ n)) = SpdmConnectionNegotiated.
Proof.
  exact (negotiation_agrees toy_platform toy_platform SpdmVersion12 (new eager_config SpdmProvisionInfo_default)
    (writer eager_node) (fst (world eager_node)) (mkWire [] []) toy_context (mkWire [] []) None eager_compatible eq_refl eq_refl).
Defined.
End AgreementExamples.
