(* ===== verification/Vdm.v ===== *)
(** * Payloads of vendor-defined messages

    The code that src/idekm and src/tdisp share around the payload of a
    vendor-defined request or response: a structure is encoded into a zeroed
    buffer, and read from the part of the buffer the length says.  The
    requester of a protocol sees the connection as a channel for such
    payloads ([VdmChannel], which the requester of
    src/spdmlib/src/requester/vendor_req.rs is), its responder is a handler
    of payloads; [VdmLink] says that the channel ends at the handler.

    Proved: what is encoded is read back, and nothing panics on a payload that
    came out of a vendor-defined message. *)

From S2P Require Import Prelude Codec Status Bitflags Algo DataTypes Structs Version Session.
From S2P Require Import ContextData SpdmCodec MsgLib MsgMisc RspLaws.

Section Payload.
Context {A : Type} `{Codec A}.
Definition fill_payload (a : A) : SpdmResult (usize * list Z) :=
  let (o, w) := encode a (Writer.init (zeros MAX_SPDM_VENDOR_DEFINED_PAYLOAD_SIZE)) in
  let! cnt := map_err (λ _, SPDM_STATUS_BUFFER_FULL) o in
  Ok (cnt, w_buf w).
(** [VendorDefinedReqPayloadStruct { req_length: a.encode(..)? as u32, .. }] *)
Definition request_payload (a : A) : SpdmResult VendorDefinedReqPayloadStruct :=
  let! (cnt, buf) := fill_payload a in Ok (mkVendorPayload (wrap 32 cnt) buf).
Definition response_payload (a : A) : SpdmResult VendorDefinedRspPayloadStruct :=
  let! (cnt, buf) := fill_payload a in
  if 0xFFFF <? cnt then Err SPDM_STATUS_INVALID_STATE_LOCAL else Ok (mkVendorPayload (wrap 32 cnt) buf).
(** [A::read_bytes(&payload[..length])] *)
Definition parse_bytes (p : vendor_payload) : outcome unit A :=
  let! bs := or_panic (slice (vp_payload p) 0 (vp_length p)) in read_bytes bs.
Definition parse_payload (p : vendor_payload) : SpdmResult A :=
  map_err (λ _, SPDM_STATUS_INVALID_MSG_FIELD) (parse_bytes p).
End Payload.
Arguments parse_bytes A {_} p.
Arguments parse_payload A {_} p.

(** [VendorIDStruct: PartialEq] *)
Definition vendor_id_eqb (v w : VendorIDStruct) : bool :=
  if negb (vid_len v =? vid_len w) then false
  else bool_decide (ztake (vid_len v) (vid_vendor_id v) = ztake (vid_len w) (vid_vendor_id w)).

(** ** Laws *)
Definition payload_of (bs : list Z) : vendor_payload :=
  mkVendorPayload (len bs) (bs ++ zeros (MAX_SPDM_VENDOR_DEFINED_PAYLOAD_SIZE - len bs)).
Lemma payload_of_wf bs : len bs ≤ MAX_SPDM_VENDOR_DEFINED_PAYLOAD_SIZE → bytes_wf bs → vendor_payload_wf (payload_of bs).
Proof. intros Hl Hb. by apply padded_app. Qed.
Lemma payload_slice p : vendor_payload_wf p → slice (vp_payload p) 0 (vp_length p) = Some (ztake (vp_length p) (vp_payload p)).
Proof. intros (Hn & Hl & _). rewrite slice_spec by lia. by rewrite zdrop_0, Z.sub_0_r. Qed.
Lemma payload_take bs : ztake (vp_length (payload_of bs)) (vp_payload (payload_of bs)) = bs.
Proof. apply ztake_app. Qed.
Lemma payload_head p i : vendor_payload_wf p → 0 ≤ i < MAX_SPDM_VENDOR_DEFINED_PAYLOAD_SIZE → ∃ b, znth (vp_payload p) i = Some b.
Proof. intros (_ & Hl & _) Hi. apply znth_some. lia. Qed.

Lemma payload_room : Writer.left (Writer.init (zeros MAX_SPDM_VENDOR_DEFINED_PAYLOAD_SIZE)) = MAX_SPDM_VENDOR_DEFINED_PAYLOAD_SIZE.
Proof. done. Qed.
Lemma payload_writer_wf : writer_wf (Writer.init (zeros MAX_SPDM_VENDOR_DEFINED_PAYLOAD_SIZE)).
Proof. split; [done|]. apply len_nonneg. Qed.

(** A structure whose encoding is [bs]. *)
Section PayloadBytes.
Context {A : Type} `{Codec A} (a : A) (bs : list Z).
Hypothesis He : encodes EncodeErr_ (encode a) bs.
Lemma fill_payload_ok :
  len bs ≤ MAX_SPDM_VENDOR_DEFINED_PAYLOAD_SIZE → fill_payload a = Ok (len bs, vp_payload (payload_of bs)).
Proof using He.
  intros Hl. unfold fill_payload. destruct (He _ payload_writer_wf) as [Hok _].
  rewrite Hok by by rewrite payload_room. cbn. by rewrite splice_zeros.
Qed.
Lemma request_payload_ok : len bs ≤ MAX_SPDM_VENDOR_DEFINED_PAYLOAD_SIZE → request_payload a = Ok (payload_of bs).
Proof using He.
  intros Hl. unfold request_payload. rewrite fill_payload_ok by done. cbn [obind].
  pose proof (len_nonneg bs). by rewrite wrap_small by vdm_size.
Qed.
Lemma response_payload_ok : len bs ≤ MAX_SPDM_VENDOR_DEFINED_PAYLOAD_SIZE → response_payload a = Ok (payload_of bs).
Proof using He.
  intros Hl. unfold response_payload. rewrite fill_payload_ok by done. cbn [obind].
  pose proof (len_nonneg bs). rewrite (proj2 (Z.ltb_ge _ _)) by vdm_size. by rewrite wrap_small by vdm_size.
Qed.
Lemma response_payload_full :
  MAX_SPDM_VENDOR_DEFINED_PAYLOAD_SIZE < len bs → response_payload a = Err SPDM_STATUS_BUFFER_FULL.
Proof using He.
  intros Hl. unfold response_payload, fill_payload. destruct (He _ payload_writer_wf) as [_ Hf].
  by destruct Hf as (bs' & _ & _ & ->); [by rewrite payload_room|].
Qed.
Lemma response_payload_safe :
  bytes_wf bs →
  match response_payload a with Ok p => vendor_payload_wf p | Err e => e = SPDM_STATUS_BUFFER_FULL | Panic => False end.
Proof using He.
  intros Hb. destruct (Z_le_gt_dec (len bs) MAX_SPDM_VENDOR_DEFINED_PAYLOAD_SIZE).
  - rewrite response_payload_ok by done. by apply payload_of_wf.
  - by rewrite response_payload_full by lia.
Qed.
Lemma parse_bytes_at : fst (read (Reader.init bs)) = Ok a → parse_bytes A (payload_of bs) = Ok a.
Proof using Type.
  intros Hr. unfold parse_bytes, payload_of. cbn [vp_payload vp_length].
  pose proof (len_nonneg bs). pose proof (len_nonneg (zeros (MAX_SPDM_VENDOR_DEFINED_PAYLOAD_SIZE - len bs))).
  rewrite slice_spec by (rewrite ?len_app; lia). rewrite zdrop_0, Z.sub_0_r, ztake_app. exact Hr.
Qed.
Lemma parse_payload_at : fst (read (Reader.init bs)) = Ok a → parse_payload A (payload_of bs) = Ok a.
Proof using Type. intros Hr. unfold parse_payload. by rewrite parse_bytes_at. Qed.
End PayloadBytes.
(** A reader that is safe, and what it guarantees. *)
Section PayloadReads.
Context {A : Type} `{Codec A} (P : A → Prop).
Hypothesis Hr : reads (read (A:=A)) P.
Lemma parse_bytes_safe p :
  vendor_payload_wf p → match parse_bytes A p with Ok a => P a | Err _ => True | Panic => False end.
Proof using Hr.
  intros Hp. unfold parse_bytes. rewrite payload_slice by done. cbn [or_panic obind]. unfold read_bytes.
  pose proof (Hr (Reader.init (ztake (vp_length p) (vp_payload p)))) as Hs.
  destruct (read _) as [o r'] eqn:He. destruct Hs as (Hn & _ & _ & Hw).
  { apply reader_init_wf. by destruct Hp as (_ & _ & _ & ?). }
  cbn. destruct o; [by apply Hw|done|done].
Qed.
Lemma parse_payload_safe p :
  vendor_payload_wf p → match parse_payload A p with Ok a => P a | Err e => e = SPDM_STATUS_INVALID_MSG_FIELD | Panic => False end.
Proof using Hr. intros Hp. unfold parse_payload. pose proof (parse_bytes_safe p Hp). by destruct (parse_bytes A p). Qed.
End PayloadReads.
Lemma read_bytes_ok {A} `{CodecOk A} (a : A) : wf a → fst (read (Reader.init (bytes a))) = Ok a.
Proof.
  intros Ha. rewrite (read_ok a Ha (Reader.init (bytes a)) []); [done| |].
  - by apply reader_init_wf, bytes_ok.
  - cbn. by rewrite zdrop_0, app_nil_r.
Qed.

(** ** Enumerations without an unknown value

    [From<A> for u8] and [TryFrom<u8> for A], or [u32]. *)
Class TryEnum (A : Type) := { into : A → Z; try_from : Z → option A }.
Definition try_u8 {A} `{TryEnum A} : Codec A :=
  {| encode a := encode (into a : u8);
     read := let* x := read (A:=u8) in lift (ok_or (try_from x) tt) |}.
Definition try_u32 {A} `{TryEnum A} : Codec A :=
  {| encode a := encode (into a : u32);
     read := let* x := read (A:=u32) in lift (ok_or (try_from x) tt) |}.
Class TryEnumOk (A : Type) `{TryEnum A} (w : Z) := {
  try_into : ∀ a, try_from (into a) = Some a;
  into_width : ∀ a, in_width w (into a);
}.
Ltac solve_try := split; intros []; done.
Section TryEnum.
Context {A : Type} `{TE : TryEnum A}.
Program Definition try_u8_ok `{!TryEnumOk A 8} : @CodecOk A try_u8 :=
  {| wf _ := True; bytes a := [into a] |}.
Next Obligation. intros ? a _. constructor; [apply (into_width (w:=8))|constructor]. Qed.
Next Obligation. intros ? a _. apply writes_u8. Qed.
Next Obligation.
  intros ? a _. unfold read, try_u8. eapply decodes_last; [apply decodes_u8, into_width|].
  apply decodes_lift. by rewrite (try_into (w:=8)).
Qed.
Next Obligation. intros. unfold read, try_u8. eapply reads_bind; [apply reads_u8|]. intros x _. apply reads_lift; by destruct (try_from x). Qed.
Program Definition try_u32_ok `{!TryEnumOk A 32} : @CodecOk A try_u32 :=
  {| wf _ := True; bytes a := le_bytes 4 (into a) |}.
Next Obligation. intros ? a _. apply bytes_wf_le_bytes. Qed.
Next Obligation. intros ? a _. apply writes_u32. Qed.
Next Obligation.
  intros ? a _. unfold read, try_u32. eapply decodes_last; [apply decodes_u32, into_width|].
  apply decodes_lift. by rewrite (try_into (w:=32)).
Qed.
Next Obligation. intros. unfold read, try_u32. eapply reads_bind; [apply reads_u32|]. intros x _. apply reads_lift; by destruct (try_from x). Qed.
End TryEnum.

(** ** Arrays *)
Lemma encode_sum_ok {A} `{CodecOk A} (l : list A) : Forall wf l → encodes EncodeErr_ (encode_sum l) (seq_bytes l).
Proof.
  unfold encodes, seq_bytes. induction 1 as [|a l Ha Hl IH]; [apply writes_ret|]. cbn [encode_sum]. eapply writes_eq.
  - eapply writes_bind; [by apply encode_ok|]. eapply writes_bind; [exact IH|apply writes_ret].
  - by list_norm.
  - cbn. zlia.
Qed.

Lemma seq_bytes_wf {A} `{CodecOk A} (l : list A) : Forall wf l → bytes_wf (seq_bytes l).
Proof. intros Hl. apply Forall_concat, Forall_fmap. eapply Forall_impl; [exact Hl|]. intros a Ha. exact (bytes_ok a Ha). Qed.

(** ** The channel *)

(** [RequesterContext::send_receive_spdm_vendor_defined_request] *)
Class VdmChannel (N : Type) :=
  send_receive_vdm : option u32 → RegistryOrStandardsBodyID → VendorIDStruct → VendorDefinedReqPayloadStruct →
    M N SpdmStatus VendorDefinedRspPayloadStruct.

(** A channel in a session that ends at the handler [h] of the world [W]:
    [link_up k n] when [k] more exchanges can be made in [n], of payloads of at
    most [link_limit] bytes. *)
Class VdmLink (N W : Type) `{VdmChannel N} (session_id : u32) (standard_id : RegistryOrStandardsBodyID) (v : VendorIDStruct)
    (h : VendorIDStruct → VendorDefinedReqPayloadStruct → M W SpdmStatus VendorDefinedRspPayloadStruct) := {
  link_up : nat → N → Prop;
  link_world : N → W;
  link_limit : Z;
  link_limit_ok : 128 ≤ link_limit ≤ MAX_SPDM_VENDOR_DEFINED_PAYLOAD_SIZE;
  link_carries : ∀ k p n r w,
    link_up (S k) n → vendor_payload_wf p → vp_length p ≤ link_limit →
    h v p (link_world n) = (Ok r, w) → vendor_payload_wf r → vp_length r ≤ link_limit →
    ∃ n', send_receive_vdm (Some session_id) standard_id v p n = (Ok r, n') ∧ link_up k n' ∧ link_world n' = w;
}.
Lemma link_fits {N W} `{VdmChannel N} session_id standard_id v h `{!VdmLink N W session_id standard_id v h} x :
  x ≤ 128 → x ≤ link_limit.
Proof. pose proof link_limit_ok. lia. Qed.

Lemma bind_lift_inv {S E A B} (o : outcome E A) (k : A → M S E B) s (b : B) s' :
  bind (lift o) k s = (Ok b, s') → ∃ a, o = Ok a ∧ k a s = (Ok b, s').
Proof. unfold bind, lift. destruct o; [eauto|done|done]. Qed.

(** ** Safety of handlers

    [safely m P]: [m] does not panic, and what it returns satisfies [P]. *)
Definition safely {W E A} (m : M W E A) (P : A → Prop) : Prop := ∀ w, wp m (λ a _, P a) (λ _ _, True) w.
Section Safely.
Context {W E : Type}.
Lemma safely_bindM {A B} (m : M W E A) (k : A → M W E B) P Q : safely m P → (∀ a, P a → safely (k a) Q) → safely (bind m k) Q.
Proof. intros Hm Hk w. apply wp_bind. eapply wp_mono; [| |apply Hm]; [intros a s Ha; by apply Hk|done]. Qed.
Lemma safely_ret {A} (a : A) (P : A → Prop) : P a → safely (E:=E) (W:=W) (ret a) P.
Proof. intros Ha w. exact Ha. Qed.
Lemma safely_throw {A} (e : E) (P : A → Prop) : safely (W:=W) (throw e) P.
Proof. done. Qed.
Lemma safely_ifM {A} (b : bool) (m1 m2 : M W E A) P : (b = true → safely m1 P) → (b = false → safely m2 P) → safely (if b then m1 else m2) P.
Proof. destruct b; auto. Qed.
Lemma safely_weaken {A} (m : M W E A) (P Q : A → Prop) : safely m P → (∀ a, P a → Q a) → safely m Q.
Proof. intros Hm HPQ w. eapply wp_mono; [| |apply Hm]; auto. Qed.
End Safely.
Lemma safely_parse {W A} `{Codec A} (P : A → Prop) p :
  reads (read (A:=A)) P → vendor_payload_wf p → safely (W:=W) (lift (parse_payload A p)) P.
Proof. intros Hr Hp w. apply wp_lift. pose proof (parse_payload_safe P Hr p Hp). by destruct (parse_payload A p). Qed.
Lemma safely_respond {W A} `{Codec A} (a : A) bs :
  encodes EncodeErr_ (encode a) bs → bytes_wf bs → safely (W:=W) (lift (response_payload a)) vendor_payload_wf.
Proof. intros He Hb w. apply wp_lift. pose proof (response_payload_safe a bs He Hb). by destruct (response_payload a). Qed.
Lemma safely_byte {W E} p i :
  vendor_payload_wf p → 0 ≤ i < MAX_SPDM_VENDOR_DEFINED_PAYLOAD_SIZE →
  safely (W:=W) (E:=E) (lift (or_panic (znth (vp_payload p) i))) (λ _, True).
Proof. intros Hp Hi w. apply wp_lift. by destruct (payload_head p i Hp Hi) as [b ->]. Qed.

(** One exchange of a protocol whose request [a] is encoded as [bs] and
    answered with [rs]. *)
Lemma link_round {N W A} `{VdmChannel N} `{Codec A} session_id standard_id v h `{!VdmLink N W session_id standard_id v h}
    k (a : A) bs rs n w :
  encodes EncodeErr_ (encode a) bs → bytes_wf bs → len bs ≤ link_limit →
  bytes_wf rs → len rs ≤ link_limit →
  link_up (S k) n → h v (payload_of bs) (link_world n) = (Ok (payload_of rs), w) →
  ∃ n', link_up k n' ∧ link_world n' = w ∧ ∀ C (k : vendor_payload → M N SpdmStatus C),
    (let* p := lift (request_payload a) in
     let* r := send_receive_vdm (Some session_id) standard_id v p in k r) n = k (payload_of rs) n'.
Proof.
  intros He Hb Hl Hrb Hrl Hn Hh. pose proof link_limit_ok as [_ Hmax].
  destruct (link_carries k (payload_of bs) n (payload_of rs) w) as (n' & Hs & Hn' & Hw);
    [done|apply payload_of_wf; [lia|done]|done|done|apply payload_of_wf; [lia|done]|done|].
  exists n'. split; [done|]. split; [done|]. intros C f.
  rewrite (bind_lift _ (payload_of bs)) by exact (request_payload_ok a bs He ltac:(lia)). unfold bind. by rewrite Hs.
Qed.

(** The shortest channel: the handler itself. *)
Section Loopback.
Context {W : Type} (h : VendorIDStruct → VendorDefinedReqPayloadStruct → M W SpdmStatus VendorDefinedRspPayloadStruct).
Definition loopback : VdmChannel W := λ _ _ v p, h v p.
Program Definition loopback_link session_id standard_id v : @VdmLink W W loopback session_id standard_id v h :=
  {| link_up _ _ := True; link_world w := w; link_limit := MAX_SPDM_VENDOR_DEFINED_PAYLOAD_SIZE |}.
Next Obligation. done. Qed.
Next Obligation. intros session_id standard_id v k p n r w _ _ _ Hh _ _. by exists w. Qed.
End Loopback.
