(* ===== verification/IdeKm.v ===== *)
(** * IDE key management

    Models src/idekm/src: the data objects of pci_idekm.rs and their codecs,
    the responder (pci_ide_km_responder) over the callbacks of a device, and
    the requester (pci_ide_km_requester) over a channel for vendor-defined
    messages.

    Proved: the objects are read back as they were written and reading is safe
    on any bytes; the dispatcher never panics, whatever is sent to it; over a
    channel that ends at the dispatcher the requester's calls are the device's
    callbacks, called with what the requester was called with; and an answer
    is accepted only when it echoes the request. *)

From S2P Require Import Prelude Codec Status Bitflags Algo DataTypes Structs Version Session.
From S2P Require Import ContextData SpdmCodec MsgLib MsgMisc RspLaws Vdm.

Module IdeKm.
(** ** Constants *)
Definition PCI_IDE_KM_LINK_IDE_REG_BLOCK_MAX_COUNT : usize := 8.
Definition PCI_IDE_KM_SELECTIVE_IDE_REG_BLOCK_MAX_COUNT : usize := 255.
Definition PCI_IDE_KM_SELECTIVE_IDE_ADDRESS_ASSOCIATION_REG_BLOCK_MAX_COUNT : usize := 15.
Definition PCI_IDE_KM_IDE_REG_BLOCK_MAX_COUNT : usize :=
  2 + 2 * PCI_IDE_KM_LINK_IDE_REG_BLOCK_MAX_COUNT
  + (3 + 2 + 3 * PCI_IDE_KM_SELECTIVE_IDE_ADDRESS_ASSOCIATION_REG_BLOCK_MAX_COUNT)
    * PCI_IDE_KM_SELECTIVE_IDE_REG_BLOCK_MAX_COUNT.
Definition PCI_IDE_KM_IDE_REG_BLOCK_MIN_COUNT : usize := 2.
Definition IDEKM_PROTOCOL_ID : u8 := 0.
Definition QUERY_OBJECT_ID : u8 := 0.
Definition QUERY_RESP_OBJECT_ID : u8 := 1.
Definition KEY_PROG_OBJECT_ID : u8 := 2.
Definition KP_ACK_OBJECT_ID : u8 := 3.
Definition K_SET_GO_OBJECT_ID : u8 := 4.
Definition K_SET_STOP_OBJECT_ID : u8 := 5.
Definition K_GOSTOP_ACK_OBJECT_ID : u8 := 6.
Definition KEY_SET_MASK : u8 := 0x1.
Definition KEY_DIRECTION_MASK : u8 := 0x2.
Definition KEY_SUB_STREAM_MASK : u8 := 0xF0.
Definition KEY_SUB_STREAM_PR : u8 := 0x0.
Definition KEY_SUB_STREAM_NPR : u8 := 0x10.
Definition KEY_SUB_STREAM_CPL : u8 := 0x20.
Definition STANDARD_ID : RegistryOrStandardsBodyID := PCISIG.
Definition vendor_id : VendorIDStruct := mkVendorID 2 (0x01 :: zeros (MAX_SPDM_VENDOR_DEFINED_VENDOR_ID_LEN - 1)).

(** ** Objects *)

(** The protocol and the object an object starts with. *)
Definition encode_object (id : u8) : M Writer EncodeErr usize :=
  let* s0 := encode IDEKM_PROTOCOL_ID in
  let* s1 := encode id in
  ret (s0 + s1).
Definition read_object (id : u8) : M Reader unit unit :=
  let* protocol_id := read (A:=u8) in
  let* _ := reject (negb (protocol_id =? IDEKM_PROTOCOL_ID)) in
  let* object_id := read (A:=u8) in
  reject (negb (object_id =? id)).

Record QueryDataObject := mkQuery { q_port_index : u8 }.
#[export] Instance codec_QueryDataObject : Codec QueryDataObject :=
  {| encode q :=
       let* s0 := encode_object QUERY_OBJECT_ID in
       let* s1 := encode (0 : u8) in
       let* s2 := encode (q_port_index q) in
       ret (s0 + s1 + s2);
     read :=
       let* _ := read_object QUERY_OBJECT_ID in
       let* _ := read (A:=u8) in
       let* port_index := read (A:=u8) in
       ret (mkQuery port_index) |}.

(** The registers run to the end of the message. *)
Record QueryRespDataObject := mkQueryResp {
  qr_port_index : u8; dev_func_num : u8; bus_num : u8; segment : u8; max_port_index : u8;
  ide_reg_block_cnt : usize; ide_reg_block : list Z;
}.
Definition r_left : M Reader unit usize := λ r, (Ok (Reader.left r), r).
#[export] Instance codec_QueryRespDataObject : Codec QueryRespDataObject :=
  {| encode q :=
       let* s0 := encode_object QUERY_RESP_OBJECT_ID in
       let* s1 := encode (0 : u8) in
       let* s2 := encode (qr_port_index q) in
       let* s3 := encode (dev_func_num q) in
       let* s4 := encode (bus_num q) in
       let* s5 := encode (segment q) in
       let* s6 := encode (max_port_index q) in
       let* s7 := encode_sum (A:=u32) (ztake (ide_reg_block_cnt q) (ide_reg_block q)) in
       ret (s0 + s1 + s2 + s3 + s4 + s5 + s6 + s7);
     read :=
       let* _ := read_object QUERY_RESP_OBJECT_ID in
       let* _ := read (A:=u8) in
       let* port_index := read (A:=u8) in
       let* dev_func_num := read (A:=u8) in
       let* bus_num := read (A:=u8) in
       let* segment := read (A:=u8) in
       let* max_port_index := read (A:=u8) in
       let* n := r_left in
       let* _ := reject (negb (n mod 4 =? 0)) in
       let ide_reg_block_cnt := n / 4 in
       let* _ := reject (negb ((PCI_IDE_KM_IDE_REG_BLOCK_MIN_COUNT <=? ide_reg_block_cnt)
                              && (ide_reg_block_cnt <=? PCI_IDE_KM_IDE_REG_BLOCK_MAX_COUNT))) in
       let* ide_reg_block :=
         read_front (read (A:=u32)) (Z.to_nat ide_reg_block_cnt)
           (replicate (Z.to_nat PCI_IDE_KM_IDE_REG_BLOCK_MAX_COUNT) (0 : u32)) in
       ret (mkQueryResp port_index dev_func_num bus_num segment max_port_index ide_reg_block_cnt ide_reg_block) |}.

(** Keys travel with their words in reverse. *)
Record Aes256GcmKeyBuffer := mkKeyBuffer { kb_key : list Z; kb_iv : list Z }.
Definition encode_word (l : list Z) (i : usize) : M Writer EncodeErr usize :=
  let* w := lift (or_panic (znth l i)) in encode (w : u32).
#[export] Instance codec_Aes256GcmKeyBuffer : Codec Aes256GcmKeyBuffer :=
  {| encode k :=
       let* s0 := encode_word (kb_key k) 7 in
       let* s1 := encode_word (kb_key k) 6 in
       let* s2 := encode_word (kb_key k) 5 in
       let* s3 := encode_word (kb_key k) 4 in
       let* s4 := encode_word (kb_key k) 3 in
       let* s5 := encode_word (kb_key k) 2 in
       let* s6 := encode_word (kb_key k) 1 in
       let* s7 := encode_word (kb_key k) 0 in
       let* s8 := encode_word (kb_iv k) 1 in
       let* s9 := encode_word (kb_iv k) 0 in
       ret (s0 + s1 + s2 + s3 + s4 + s5 + s6 + s7 + s8 + s9);
     read :=
       let* key := read_array (0 : u32) 8 in
       let* iv := read_array (0 : u32) 2 in
       ret (mkKeyBuffer (reverse (key : list Z)) (reverse (iv : list Z))) |}.

(** The key set, the direction and the sub-stream share a byte. *)
Definition encode_key_bits (key_set key_direction key_sub_stream : u8) : M Writer EncodeErr usize :=
  encode (Z.lor (Z.lor key_set key_direction) key_sub_stream : u8).
Definition read_key_bits : M Reader unit (u8 * u8 * u8) :=
  let* b := read (A:=u8) in
  let key_set := Z.land b KEY_SET_MASK in
  let key_direction := Z.land b KEY_DIRECTION_MASK in
  let key_sub_stream := Z.land b KEY_SUB_STREAM_MASK in
  let* _ := reject (negb (key_sub_stream =? KEY_SUB_STREAM_PR) && negb (key_sub_stream =? KEY_SUB_STREAM_NPR)
                    && negb (key_sub_stream =? KEY_SUB_STREAM_CPL)) in
  ret (key_set, key_direction, key_sub_stream).

Record KeyProgDataObject := mkKeyProg {
  kp_stream_id : u8; kp_key_set : u8; kp_key_direction : u8; kp_key_sub_stream : u8; kp_port_index : u8;
  kp_key_iv : Aes256GcmKeyBuffer;
}.
#[export] Instance codec_KeyProgDataObject : Codec KeyProgDataObject :=
  {| encode k :=
       let* s0 := encode_object KEY_PROG_OBJECT_ID in
       let* s1 := encode (0 : u16) in
       let* s2 := encode (kp_stream_id k) in
       let* s3 := encode (0 : u8) in
       let* s4 := encode_key_bits (kp_key_set k) (kp_key_direction k) (kp_key_sub_stream k) in
       let* s5 := encode (kp_port_index k) in
       let* s6 := encode (kp_key_iv k) in
       ret (s0 + s1 + s2 + s3 + s4 + s5 + s6);
     read :=
       let* _ := read_object KEY_PROG_OBJECT_ID in
       let* _ := read (A:=u16) in
       let* stream_id := read (A:=u8) in
       let* _ := read (A:=u8) in
       let* (key_set, key_direction, key_sub_stream) := read_key_bits in
       let* port_index := read (A:=u8) in
       let* key_iv := read in
       ret (mkKeyProg stream_id key_set key_direction key_sub_stream port_index key_iv) |}.

Inductive KpAckStatus :=
| SUCCESS | INCORRECT_LENGTH | UNSUPPORTED_PORT_INDEX | UNSUPPORTED_VALUE | UNSPECIFIED_FAILURE.
#[export] Instance try_KpAckStatus : TryEnum KpAckStatus :=
  {| into s :=
       match s with
       | SUCCESS => 0 | INCORRECT_LENGTH => 1 | UNSUPPORTED_PORT_INDEX => 2 | UNSUPPORTED_VALUE => 3
       | UNSPECIFIED_FAILURE => 4
       end;
     try_from x :=
       if x =? 0 then Some SUCCESS else if x =? 1 then Some INCORRECT_LENGTH
       else if x =? 2 then Some UNSUPPORTED_PORT_INDEX else if x =? 3 then Some UNSUPPORTED_VALUE
       else if x =? 4 then Some UNSPECIFIED_FAILURE else None |}.
#[export] Instance codec_KpAckStatus : Codec KpAckStatus := try_u8.

Record KpAckDataObject := mkKpAck {
  ka_stream_id : u8; ka_status : KpAckStatus; ka_key_set : u8; ka_key_direction : u8; ka_key_sub_stream : u8;
  ka_port_index : u8;
}.
#[export] Instance codec_KpAckDataObject : Codec KpAckDataObject :=
  {| encode k :=
       let* s0 := encode_object KP_ACK_OBJECT_ID in
       let* s1 := encode (0 : u16) in
       let* s2 := encode (ka_stream_id k) in
       let* s3 := encode (ka_status k) in
       let* s4 := encode_key_bits (ka_key_set k) (ka_key_direction k) (ka_key_sub_stream k) in
       let* s5 := encode (ka_port_index k) in
       ret (s0 + s1 + s2 + s3 + s4 + s5);
     read :=
       let* _ := read_object KP_ACK_OBJECT_ID in
       let* _ := read (A:=u16) in
       let* stream_id := read (A:=u8) in
       let* status := read in
       let* (key_set, key_direction, key_sub_stream) := read_key_bits in
       let* port_index := read (A:=u8) in
       ret (mkKpAck stream_id status key_set key_direction key_sub_stream port_index) |}.

(** K_SET_GO, K_SET_STOP and their acknowledgement differ in the object only. *)
Record key_set_object (id : u8) := mkKeySet {
  ks_stream_id : u8; ks_key_set : u8; ks_key_direction : u8; ks_key_sub_stream : u8; ks_port_index : u8;
}.
Arguments mkKeySet {id} _ _ _ _ _.
Arguments ks_stream_id {id} _.
Arguments ks_key_set {id} _.
Arguments ks_key_direction {id} _.
Arguments ks_key_sub_stream {id} _.
Arguments ks_port_index {id} _.
Abbreviation KSetGoDataObject := (key_set_object K_SET_GO_OBJECT_ID).
Abbreviation KSetStopDataObject := (key_set_object K_SET_STOP_OBJECT_ID).
Abbreviation KGoStopAckDataObject := (key_set_object K_GOSTOP_ACK_OBJECT_ID).
#[export] Instance codec_key_set_object {id} : Codec (key_set_object id) :=
  {| encode k :=
       let* s0 := encode_object id in
       let* s1 := encode (0 : u16) in
       let* s2 := encode (ks_stream_id k) in
       let* s3 := encode (0 : u8) in
       let* s4 := encode_key_bits (ks_key_set k) (ks_key_direction k) (ks_key_sub_stream k) in
       let* s5 := encode (ks_port_index k) in
       ret (s0 + s1 + s2 + s3 + s4 + s5);
     read :=
       let* _ := read_object id in
       let* _ := read (A:=u16) in
       let* stream_id := read (A:=u8) in
       let* _ := read (A:=u8) in
       let* (key_set, key_direction, key_sub_stream) := read_key_bits in
       let* port_index := read (A:=u8) in
       ret (mkKeySet stream_id key_set key_direction key_sub_stream port_index) |}.

(** ** Responder

    The callbacks a device registers; the parameters they fill start as
    zeros and the default status, so what they leave there is what they
    return here.  A callback that is not registered panics. *)
Class IdeKmDevice (W : Type) := {
  pci_ide_km_device_query : u8 → M W SpdmStatus (u8 * u8 * u8 * u8 * list Z * usize);
  pci_ide_km_device_key_prog : u8 → u8 → u8 → u8 → u8 → Aes256GcmKeyBuffer → M W SpdmStatus KpAckStatus;
  pci_ide_km_device_key_set_go : u8 → u8 → u8 → u8 → u8 → M W SpdmStatus unit;
  pci_ide_km_device_key_set_stop : u8 → u8 → u8 → u8 → u8 → M W SpdmStatus unit;
}.

Section Responder.
Context {W : Type} `{IdeKmDevice W}.
Definition pci_ide_km_rsp_query (p : VendorDefinedReqPayloadStruct) : M W SpdmStatus VendorDefinedRspPayloadStruct :=
  let* q := lift (parse_payload QueryDataObject p) in
  let port_index := q_port_index q in
  let* (dev_func_num, bus_num, segment, max_port_index, ide_reg_block, ide_reg_block_cnt) :=
    pci_ide_km_device_query port_index in
  lift (response_payload
          (mkQueryResp port_index dev_func_num bus_num segment max_port_index ide_reg_block_cnt ide_reg_block)).
Definition pci_ide_km_rsp_key_prog (p : VendorDefinedReqPayloadStruct) : M W SpdmStatus VendorDefinedRspPayloadStruct :=
  let* k := lift (parse_payload KeyProgDataObject p) in
  let* status := pci_ide_km_device_key_prog (kp_stream_id k) (kp_key_set k) (kp_key_direction k)
                   (kp_key_sub_stream k) (kp_port_index k) (kp_key_iv k) in
  lift (response_payload (mkKpAck (kp_stream_id k) status (kp_key_set k) (kp_key_direction k)
                            (kp_key_sub_stream k) (kp_port_index k))).
Definition pci_ide_km_rsp_key_set_go (p : VendorDefinedReqPayloadStruct) : M W SpdmStatus VendorDefinedRspPayloadStruct :=
  let* k := lift (parse_payload KSetGoDataObject p) in
  let* _ := pci_ide_km_device_key_set_go (ks_stream_id k) (ks_key_set k) (ks_key_direction k)
              (ks_key_sub_stream k) (ks_port_index k) in
  lift (response_payload (mkKeySet (ks_stream_id k) (ks_key_set k) (ks_key_direction k)
                            (ks_key_sub_stream k) (ks_port_index k) : KGoStopAckDataObject)).
Definition pci_ide_km_rsp_key_set_stop (p : VendorDefinedReqPayloadStruct) : M W SpdmStatus VendorDefinedRspPayloadStruct :=
  let* k := lift (parse_payload KSetStopDataObject p) in
  let* _ := pci_ide_km_device_key_set_stop (ks_stream_id k) (ks_key_set k) (ks_key_direction k)
              (ks_key_sub_stream k) (ks_port_index k) in
  lift (response_payload (mkKeySet (ks_stream_id k) (ks_key_set k) (ks_key_direction k)
                            (ks_key_sub_stream k) (ks_port_index k) : KGoStopAckDataObject)).
Definition pci_ide_km_rsp_dispatcher (vdm_handle : usize) (v : VendorIDStruct) (p : VendorDefinedReqPayloadStruct) :
    M W SpdmStatus VendorDefinedRspPayloadStruct :=
  let* protocol := lift (or_panic (znth (vp_payload p) 0)) in
  if (vp_length p <? 2) || negb (vendor_id_eqb v vendor_id) || negb (protocol =? IDEKM_PROTOCOL_ID)
  then throw SPDM_STATUS_INVALID_MSG_FIELD else
  let* object := lift (or_panic (znth (vp_payload p) 1)) in
  if object =? QUERY_OBJECT_ID then pci_ide_km_rsp_query p else
  if object =? KEY_PROG_OBJECT_ID then pci_ide_km_rsp_key_prog p else
  if object =? K_SET_GO_OBJECT_ID then pci_ide_km_rsp_key_set_go p else
  if object =? K_SET_STOP_OBJECT_ID then pci_ide_km_rsp_key_set_stop p else
  throw SPDM_STATUS_INVALID_MSG_FIELD.
End Responder.

(** ** Requester

    What the code leaves in its OUT parameters is returned. *)
Section Requester.
Context {N : Type} `{VdmChannel N}.
Definition pci_ide_km_query (session_id : u32) (port_index : u8) :
    M N SpdmStatus (u8 * u8 * u8 * u8 * list Z * usize) :=
  let* p := lift (request_payload (mkQuery port_index)) in
  let* r := send_receive_vdm (Some session_id) STANDARD_ID vendor_id p in
  let* q := lift (parse_payload QueryRespDataObject r) in
  if negb (port_index =? qr_port_index q) then throw SPDM_STATUS_INVALID_MSG_FIELD else
  ret (dev_func_num q, bus_num q, segment q, max_port_index q, ide_reg_block q, ide_reg_block_cnt q).
Definition pci_ide_km_key_prog (session_id : u32) (stream_id key_set key_direction key_sub_stream port_index : u8)
    (key_iv : Aes256GcmKeyBuffer) : M N SpdmStatus KpAckStatus :=
  let* p := lift (request_payload (mkKeyProg stream_id key_set key_direction key_sub_stream port_index key_iv)) in
  let* r := send_receive_vdm (Some session_id) STANDARD_ID vendor_id p in
  let* k := lift (parse_payload KpAckDataObject r) in
  if negb (ka_stream_id k =? stream_id) || negb (ka_key_set k =? key_set)
     || negb (ka_key_direction k =? key_direction) || negb (ka_key_sub_stream k =? key_sub_stream)
     || negb (ka_port_index k =? port_index)
  then throw SPDM_STATUS_INVALID_MSG_FIELD else ret (ka_status k).
Definition check_key_set_ack (k : KGoStopAckDataObject)
    (stream_id key_set key_direction key_sub_stream port_index : u8) : M N SpdmStatus unit :=
  if negb (ks_stream_id k =? stream_id) || negb (ks_key_set k =? key_set)
     || negb (ks_key_direction k =? key_direction) || negb (ks_key_sub_stream k =? key_sub_stream)
     || negb (ks_port_index k =? port_index)
  then throw SPDM_STATUS_INVALID_MSG_FIELD else ret tt.
Definition pci_ide_km_key_set_go (session_id : u32) (stream_id key_set key_direction key_sub_stream port_index : u8) :
    M N SpdmStatus unit :=
  let* p := lift (request_payload (mkKeySet stream_id key_set key_direction key_sub_stream port_index : KSetGoDataObject)) in
  let* r := send_receive_vdm (Some session_id) STANDARD_ID vendor_id p in
  let* k := lift (parse_payload KGoStopAckDataObject r) in
  check_key_set_ack k stream_id key_set key_direction key_sub_stream port_index.
Definition pci_ide_km_key_set_stop (session_id : u32) (stream_id key_set key_direction key_sub_stream port_index : u8) :
    M N SpdmStatus unit :=
  let* p := lift (request_payload (mkKeySet stream_id key_set key_direction key_sub_stream port_index : KSetStopDataObject)) in
  let* r := send_receive_vdm (Some session_id) STANDARD_ID vendor_id p in
  let* k := lift (parse_payload KGoStopAckDataObject r) in
  check_key_set_ack k stream_id key_set key_direction key_sub_stream port_index.
End Requester.

(** ** Codec contracts *)
Lemma encode_object_ok id : writes EncodeErr_ (encode_object id) [IDEKM_PROTOCOL_ID; id] 2.
Proof. eapply writes_eq; [unfold encode_object; repeat writes_step|done|done]. Qed.
Lemma read_object_ok id : in_width 8 id → decodes (read_object id) [IDEKM_PROTOCOL_ID; id] tt.
Proof.
  intros Hi. unfold read_object. change [IDEKM_PROTOCOL_ID; id] with ([IDEKM_PROTOCOL_ID] ++ [id]).
  eapply decodes_bind; [by apply (decodes_u8 IDEKM_PROTOCOL_ID)|]. cbv beta. apply decodes_reject; [done|].
  eapply decodes_last; [by apply decodes_u8|]. rewrite Z.eqb_refl. apply decodes_ret.
Qed.
Lemma read_object_safe id : reads (read_object id) (λ _, True).
Proof. unfold read_object. do 3 rd_step. eapply reads_weaken; [apply reads_reject|done]. Qed.
Lemma object_bytes_ok id : in_width 8 id → bytes_wf [IDEKM_PROTOCOL_ID; id].
Proof. intros Hi. by repeat constructor; try apply Hi. Qed.
#[export] Hint Resolve encode_object_ok : writes.
#[export] Hint Resolve read_object_safe object_bytes_ok read_object_ok : msg.
#[export] Hint Extern 2 (in_width _ _) => done : msg.

Definition key_bits_wf (key_set key_direction key_sub_stream : u8) : Prop :=
  (key_set = 0 ∨ key_set = 1) ∧ (key_direction = 0 ∨ key_direction = 2) ∧
  (key_sub_stream = KEY_SUB_STREAM_PR ∨ key_sub_stream = KEY_SUB_STREAM_NPR ∨ key_sub_stream = KEY_SUB_STREAM_CPL).
Definition key_bits (key_set key_direction key_sub_stream : u8) : u8 := Z.lor (Z.lor key_set key_direction) key_sub_stream.
Lemma encode_key_bits_ok s d t : writes EncodeErr_ (encode_key_bits s d t) [key_bits s d t] 1.
Proof. apply writes_u8. Qed.
Lemma key_bits_width s d t : key_bits_wf s d t → in_width 8 (key_bits s d t).
Proof. by intros ([-> | ->] & [-> | ->] & [-> | [-> | ->]]). Qed.
Lemma read_key_bits_ok s d t : key_bits_wf s d t → decodes read_key_bits [key_bits s d t] (s, d, t).
Proof.
  intros Hk. unfold read_key_bits. eapply decodes_last; [by apply decodes_u8, key_bits_width|].
  destruct Hk as ([-> | ->] & [-> | ->] & [-> | [-> | ->]]); apply decodes_ret.
Qed.
Lemma land_1_cases b : Z.land b 1 = 0 ∨ Z.land b 1 = 1.
Proof. pose proof (land_low b 1) as Hl. change (Z.ones 1) with 1 in Hl. change (2 ^ 1) with 2 in Hl. rewrite Hl by lia. pose proof (Z.mod_pos_bound b 2). lia. Qed.
Lemma land_2_cases b : Z.land b 2 = 0 ∨ Z.land b 2 = 2.
Proof.
  destruct (Z.testbit b 1) eqn:Hb; [right|left]; apply Z.bits_inj'; intros i Hi; rewrite Z.land_spec, ?Z.bits_0;
    (destruct (decide (i = 1)) as [-> |]; [by rewrite Hb|]);
    change 2 with (2 ^ 1); rewrite Z.pow2_bits_false by done; by rewrite andb_false_r.
Qed.
Lemma read_key_bits_safe : reads read_key_bits (λ k, let '(s, d, t) := k in key_bits_wf s d t).
Proof.
  unfold read_key_bits. rd_step. eapply reads_bind; [apply reads_reject|]. intros ? Hr. cbv beta in Hr. apply reads_ret.
  split; [apply land_1_cases|]. split; [apply land_2_cases|]. revert Hr.
  unfold KEY_SUB_STREAM_PR, KEY_SUB_STREAM_NPR, KEY_SUB_STREAM_CPL. repeat (case Z.eqb_spec; [tauto|intros _]). done.
Qed.
#[export] Hint Resolve encode_key_bits_ok : writes.

#[export] Program Instance codec_ok_QueryDataObject : CodecOk QueryDataObject :=
  {| wf q := in_width 8 (q_port_index q);
     bytes q := [IDEKM_PROTOCOL_ID; QUERY_OBJECT_ID] ++ [0] ++ [q_port_index q] |}.
Next Obligation. intros q Hq. msg_bytes. Qed.
Next Obligation. intros q Hq. unfold encode at 1, codec_QueryDataObject. solve_writes. Qed.
Next Obligation.
  intros q Hq. unfold read at 1, codec_QueryDataObject.
  eapply decodes_bind; [by apply read_object_ok|]. msg_decodes. by destruct q.
Qed.
Next Obligation. unfold read at 1, codec_QueryDataObject. msg_reads. done. Qed.

Definition word_list (n : nat) (l : list Z) : Prop := length l = n ∧ Forall (in_width 32) l.
Lemma word_list_reverse n l : word_list n (reverse l) ↔ word_list n l.
Proof. unfold word_list. by rewrite length_reverse, Forall_reverse. Qed.
Lemma encode_word_ok l i v : znth l i = Some v → encodes EncodeErr_ (encode_word l i) (le_bytes 4 v).
Proof. intros Hv. unfold encode_word. rewrite Hv. apply writes_u32. Qed.
#[export] Program Instance codec_ok_Aes256GcmKeyBuffer : CodecOk Aes256GcmKeyBuffer :=
  {| wf k := word_list 8 (kb_key k) ∧ word_list 2 (kb_iv k);
     bytes k := seq_bytes (A:=u32) (reverse (kb_key k)) ++ seq_bytes (A:=u32) (reverse (kb_iv k)) |}.
Next Obligation.
  intros k [[_ Hk] [_ Hi]]. apply bytes_wf_app. split; apply (seq_bytes_wf (A:=u32)); by apply Forall_reverse.
Qed.
Next Obligation.
  intros [key iv] [[Hk _] [Hi _]]. cbn [kb_key kb_iv] in *. unfold encode at 1, codec_Aes256GcmKeyBuffer. cbn [kb_key kb_iv].
  split_bytes. unfold encodes. eapply writes_eq.
  - repeat (eapply writes_bind; [by apply encode_word_ok|]). apply writes_ret.
  - done.
  - done.
Qed.
Next Obligation.
  intros k [Hk Hi]. unfold read at 1, codec_Aes256GcmKeyBuffer.
  apply word_list_reverse in Hk as [Hkl Hkw]. apply word_list_reverse in Hi as [Hil Hiw].
  eapply decodes_bind; [by apply (decodes_array (A:=u32))|]. cbv beta.
  eapply decodes_last; [by apply (decodes_array (A:=u32))|]. rewrite !reverse_involutive. destruct k. apply decodes_ret.
Qed.
Next Obligation.
  unfold read at 1, codec_Aes256GcmKeyBuffer. eapply reads_bind; [apply reads_array|]. intros key Hk.
  eapply reads_bind; [apply reads_array|]. intros iv Hi. apply reads_ret. split; by apply word_list_reverse.
Qed.

#[export] Program Instance codec_ok_KeyProgDataObject : CodecOk KeyProgDataObject :=
  {| wf k := in_width 8 (kp_stream_id k) ∧ key_bits_wf (kp_key_set k) (kp_key_direction k) (kp_key_sub_stream k) ∧
             in_width 8 (kp_port_index k) ∧ wf (kp_key_iv k);
     bytes k := [IDEKM_PROTOCOL_ID; KEY_PROG_OBJECT_ID] ++ le_bytes 2 0 ++ [kp_stream_id k] ++ [0] ++
                [key_bits (kp_key_set k) (kp_key_direction k) (kp_key_sub_stream k)] ++ [kp_port_index k] ++
                bytes (kp_key_iv k) |}.
Next Obligation. intros k (? & Hk & ? & ?). pose proof (key_bits_width _ _ _ Hk). msg_bytes. Qed.
Next Obligation. intros k (? & Hk & ? & ?). unfold encode at 1, codec_KeyProgDataObject. solve_writes. Qed.
Next Obligation.
  intros k (? & Hk & ? & ?). unfold read at 1, codec_KeyProgDataObject.
  eapply decodes_bind; [by apply read_object_ok|]. do 3 dec_step.
  eapply decodes_bind; [by apply read_key_bits_ok|]. cbv beta iota. msg_decodes. by destruct k.
Qed.
Next Obligation.
  unfold read at 1, codec_KeyProgDataObject. do 4 rd_step. eapply reads_bind; [apply read_key_bits_safe|].
  intros [[s d] t] Hk. msg_reads. by split_and!.
Qed.

#[export] Instance try_ok_KpAckStatus : TryEnumOk KpAckStatus 8.
Proof. solve_try. Qed.
#[export] Instance codec_ok_KpAckStatus : CodecOk KpAckStatus := try_u8_ok.
#[export] Program Instance codec_ok_KpAckDataObject : CodecOk KpAckDataObject :=
  {| wf k := in_width 8 (ka_stream_id k) ∧ wf (ka_status k) ∧
             key_bits_wf (ka_key_set k) (ka_key_direction k) (ka_key_sub_stream k) ∧ in_width 8 (ka_port_index k);
     bytes k := [IDEKM_PROTOCOL_ID; KP_ACK_OBJECT_ID] ++ le_bytes 2 0 ++ [ka_stream_id k] ++ bytes (ka_status k) ++
                [key_bits (ka_key_set k) (ka_key_direction k) (ka_key_sub_stream k)] ++ [ka_port_index k] |}.
Next Obligation. intros k (? & ? & Hk & ?). pose proof (key_bits_width _ _ _ Hk). msg_bytes. Qed.
Next Obligation. intros k (? & ? & Hk & ?). unfold encode at 1, codec_KpAckDataObject. solve_writes. Qed.
Next Obligation.
  intros k (? & ? & Hk & ?). unfold read at 1, codec_KpAckDataObject.
  eapply decodes_bind; [by apply read_object_ok|]. do 3 dec_step.
  eapply decodes_bind; [by apply read_key_bits_ok|]. cbv beta iota. msg_decodes. by destruct k.
Qed.
Next Obligation.
  unfold read at 1, codec_KpAckDataObject. do 4 rd_step. eapply reads_bind; [apply read_key_bits_safe|].
  intros [[s d] t] Hk. msg_reads. by split_and!.
Qed.

Definition key_set_wf {id} (k : key_set_object id) : Prop :=
  in_width 8 id ∧ in_width 8 (ks_stream_id k) ∧ key_bits_wf (ks_key_set k) (ks_key_direction k) (ks_key_sub_stream k) ∧
  in_width 8 (ks_port_index k).
Class ObjectId (id : u8) := object_id_width : in_width 8 id.
#[export] Instance object_id_go : ObjectId K_SET_GO_OBJECT_ID.
Proof. done. Qed.
#[export] Instance object_id_stop : ObjectId K_SET_STOP_OBJECT_ID.
Proof. done. Qed.
#[export] Instance object_id_ack : ObjectId K_GOSTOP_ACK_OBJECT_ID.
Proof. done. Qed.
#[export] Program Instance codec_ok_key_set_object {id} `{!ObjectId id} : CodecOk (key_set_object id) :=
  {| wf := key_set_wf;
     bytes k := [IDEKM_PROTOCOL_ID; id] ++ le_bytes 2 0 ++ [ks_stream_id k] ++ [0] ++
                [key_bits (ks_key_set k) (ks_key_direction k) (ks_key_sub_stream k)] ++ [ks_port_index k] |}.
Next Obligation. intros id Hid k (? & ? & Hk & ?). pose proof (key_bits_width _ _ _ Hk). msg_bytes. Qed.
Next Obligation. intros id Hid k (? & ? & Hk & ?). unfold encode at 1, codec_key_set_object. solve_writes. Qed.
Next Obligation.
  intros id Hid k (? & ? & Hk & ?). unfold read at 1, codec_key_set_object.
  eapply decodes_bind; [by apply read_object_ok|]. do 3 dec_step.
  eapply decodes_bind; [by apply read_key_bits_ok|]. cbv beta iota. msg_decodes. by destruct k.
Qed.
Next Obligation.
  intros id Hid. unfold read at 1, codec_key_set_object. do 4 rd_step. eapply reads_bind; [apply read_key_bits_safe|].
  intros [[s d] t] Hk. msg_reads. by split_and!.
Qed.

(** *** Responses to queries

    The registers have no count of their own: [ends m bs a] says that [m]
    returns [a] when [bs] is all that is left. *)
Definition ends {A} (m : M Reader unit A) (bs : list Z) (a : A) : Prop :=
  ∀ r, reader_wf r → zdrop (r_offs r) (r_buf r) = bs → fst (m r) = Ok a.
Lemma ends_bind {A B} (m : M Reader unit A) (k : A → M Reader unit B) b1 b2 a c :
  decodes m b1 a → ends (k a) b2 c → ends (bind m k) (b1 ++ b2) c.
Proof.
  intros Hm Hk r Hr Hd. unfold bind. rewrite (Hm r b2 Hr Hd). destruct (advance_left_app r b1 b2 Hr Hd) as [Hl Hz].
  apply Hk; [apply advance_wf; [done|zlia]|done].
Qed.
Lemma ends_left {A} (k : usize → M Reader unit A) bs a : ends (k (len bs)) bs a → ends (bind r_left k) bs a.
Proof.
  intros Hk r Hr Hd. unfold bind, r_left. replace (Reader.left r) with (len bs); [by apply Hk|].
  destruct Hr as [Ho _]. rewrite <- Hd. by rewrite len_zdrop.
Qed.
Lemma ends_decodes {A} (m : M Reader unit A) bs a : decodes m bs a → ends m bs a.
Proof. intros Hm r Hr Hd. rewrite (Hm r [] Hr); [done|]. by rewrite app_nil_r. Qed.
Lemma reads_left : reads r_left (λ n, 0 ≤ n).
Proof. intros r [Hr Hb]. unfold r_left, Reader.left. split_and!; [done|done|lia|lia|]. intros a [= <-]. lia. Qed.

Definition query_resp_bytes (q : QueryRespDataObject) : list Z :=
  [IDEKM_PROTOCOL_ID; QUERY_RESP_OBJECT_ID] ++ [0] ++ [qr_port_index q] ++ [dev_func_num q] ++ [bus_num q] ++
  [segment q] ++ [max_port_index q] ++ seq_bytes (A:=u32) (ztake (ide_reg_block_cnt q) (ide_reg_block q)).
Definition query_resp_fields (q : QueryRespDataObject) : Prop :=
  in_width 8 (qr_port_index q) ∧ in_width 8 (dev_func_num q) ∧ in_width 8 (bus_num q) ∧ in_width 8 (segment q) ∧
  in_width 8 (max_port_index q) ∧ Forall (in_width 32) (ide_reg_block q).
Definition query_resp_wf (q : QueryRespDataObject) : Prop :=
  query_resp_fields q ∧ PCI_IDE_KM_IDE_REG_BLOCK_MIN_COUNT ≤ ide_reg_block_cnt q ∧
  front (ide_reg_block_cnt q) PCI_IDE_KM_IDE_REG_BLOCK_MAX_COUNT 0 (in_width 32) (ide_reg_block q).
Lemma regs_take q : query_resp_fields q → Forall (wf (A:=u32)) (ztake (ide_reg_block_cnt q) (ide_reg_block q)).
Proof. intros (_ & _ & _ & _ & _ & Hr). by apply Forall_take. Qed.
Lemma query_resp_encode q : query_resp_fields q → encodes EncodeErr_ (encode q) (query_resp_bytes q).
Proof.
  intros Hq. pose proof (encode_sum_ok _ (regs_take q Hq)) as Hs. unfold encode at 1, codec_QueryRespDataObject, query_resp_bytes.
  unfold encodes in *. eapply writes_eq; [repeat first [eapply writes_bind; [first [exact Hs | writes_step]|] | apply writes_ret]|by list_norm|zlia].
Qed.
Lemma query_resp_bytes_wf q : query_resp_fields q → bytes_wf (query_resp_bytes q).
Proof.
  intros Hq. pose proof (seq_bytes_wf _ (regs_take q Hq)). destruct Hq as (? & ? & ? & ? & ? & ?).
  unfold query_resp_bytes. msg_bytes.
Qed.
Lemma len_words (l : list Z) : len (seq_bytes (A:=u32) l) = 4 * len l.
Proof. unfold seq_bytes. induction l as [|x l IH]; [done|]. cbn [fmap list_fmap concat]. rewrite len_app, IH, len_cons, len_bytes_u32. lia. Qed.
Lemma query_resp_read q : query_resp_wf q → fst (read (Reader.init (query_resp_bytes q))) = Ok q.
Proof.
  intros (Hf & Hmin & Hfr). pose proof (query_resp_bytes_wf q Hf) as Hb. destruct Hf as (? & ? & ? & ? & ? & ?).
  assert (ends read (query_resp_bytes q) q) as He; [|apply He; [by apply reader_init_wf|by apply zdrop_0]].
  unfold read at 1, codec_QueryRespDataObject, query_resp_bytes. eapply ends_bind; [by apply read_object_ok|].
  do 6 (eapply ends_bind; [by apply decodes_u8|]). cbv beta. apply ends_left.
  destruct Hfr as (Hn & vs & Hvs & Hlv & Hw). assert (len (ztake (ide_reg_block_cnt q) (ide_reg_block q)) = ide_reg_block_cnt q) as Hl.
  { rewrite Hvs. rewrite ztake_app' by done. done. }
  rewrite len_words, Hl. apply ends_decodes. rewrite (Z.mul_comm 4), Z.mod_mul, Z.div_mul by done. cbv zeta.
  apply decodes_reject; [done|]. apply decodes_reject; [apply negb_false_iff, andb_true_iff; rewrite !Z.leb_le; lia|].
  eapply (decodes_last _ _ (ide_reg_block q)); [|destruct q; apply decodes_ret].
  apply (decodes_front (read (A:=u32)) (bytes (A:=u32)) (wf (A:=u32)) (λ a Ha, read_ok a Ha)). split; [done|]. by exists vs.
Qed.
Lemma query_resp_safe : reads (read (A:=QueryRespDataObject)) query_resp_wf.
Proof.
  unfold read at 1, codec_QueryRespDataObject. do 7 rd_step. eapply reads_bind; [apply reads_left|]. intros n Hn. cbv beta in *.
  do 2 rd_step. eapply reads_bind; [apply (reads_front (read (A:=u32)) (wf (A:=u32)) read_safe)|].
  - rewrite negb_false_iff, andb_true_iff, !Z.leb_le in *. unfold PCI_IDE_KM_IDE_REG_BLOCK_MIN_COUNT in *. lia.
  - intros l Hl. apply reads_ret. rewrite negb_false_iff, andb_true_iff, !Z.leb_le in *. destruct Hl as (? & vs & -> & Hv & Hw).
    split; [split_and!; try done|]; [|split; [cbn; tauto|by split; [|exists vs]]].
    cbn. apply Forall_app. split; [exact Hw|]. by apply Forall_replicate.
Qed.

(** ** The responder *)
Section ResponderLaws.
Context {W : Type} `{IdeKmDevice W}.
(** A device that does not panic and returns values of their types. *)
Class IdeKmDeviceOk := {
  device_query_ok port : safely (pci_ide_km_device_query port) (λ o,
    let '(d, b, s, m, regs, _) := o in
    in_width 8 d ∧ in_width 8 b ∧ in_width 8 s ∧ in_width 8 m ∧ Forall (in_width 32) regs);
  device_key_prog_ok st ks kd kt po kv : safely (pci_ide_km_device_key_prog st ks kd kt po kv) (λ _, True);
  device_key_set_go_ok st ks kd kt po : safely (pci_ide_km_device_key_set_go st ks kd kt po) (λ _, True);
  device_key_set_stop_ok st ks kd kt po : safely (pci_ide_km_device_key_set_stop st ks kd kt po) (λ _, True);
}.
Context `{!IdeKmDeviceOk}.
Lemma rsp_query_safe p : vendor_payload_wf p → safely (pci_ide_km_rsp_query p) vendor_payload_wf.
Proof.
  intros Hp. eapply safely_bindM; [apply (safely_parse wf); [apply read_safe|done]|]. intros q Hq.
  eapply safely_bindM; [apply device_query_ok|]. intros [[[[[d b] s] m] regs] cnt] (? & ? & ? & ? & ?).
  eapply safely_respond; [apply query_resp_encode|apply query_resp_bytes_wf]; by split_and!.
Qed.
Lemma rsp_key_prog_safe p : vendor_payload_wf p → safely (pci_ide_km_rsp_key_prog p) vendor_payload_wf.
Proof.
  intros Hp. eapply safely_bindM; [apply (safely_parse wf); [apply read_safe|done]|]. intros k (? & ? & ? & ?).
  eapply safely_bindM; [apply device_key_prog_ok|]. intros status _.
  eapply safely_respond; [apply encode_ok|apply bytes_ok]; by split_and!.
Qed.
Lemma rsp_key_set_go_safe p : vendor_payload_wf p → safely (pci_ide_km_rsp_key_set_go p) vendor_payload_wf.
Proof.
  intros Hp. eapply safely_bindM; [apply (safely_parse wf); [apply read_safe|done]|]. intros k (? & ? & ? & ?).
  eapply safely_bindM; [apply device_key_set_go_ok|]. intros _ _.
  eapply safely_respond; [apply encode_ok|apply bytes_ok]; by split_and!.
Qed.
Lemma rsp_key_set_stop_safe p : vendor_payload_wf p → safely (pci_ide_km_rsp_key_set_stop p) vendor_payload_wf.
Proof.
  intros Hp. eapply safely_bindM; [apply (safely_parse wf); [apply read_safe|done]|]. intros k (? & ? & ? & ?).
  eapply safely_bindM; [apply device_key_set_stop_ok|]. intros _ _.
  eapply safely_respond; [apply encode_ok|apply bytes_ok]; by split_and!.
Qed.
(** C29: Whatever vendor-defined message reaches it, the IDE_KM dispatcher
    answers or refuses without a panic, and an answer is a well-formed payload
    (its length within the payload and the rest zero), so that the responder
    can send it. *)
Theorem idekm_dispatcher_safe handle v p :
  vendor_payload_wf p → safely (pci_ide_km_rsp_dispatcher handle v p) vendor_payload_wf.
Proof.
  intros Hp. eapply safely_bindM; [by apply safely_byte|]. intros protocol _.
  apply safely_ifM; intros _; [apply safely_throw|].
  eapply safely_bindM; [by apply safely_byte|]. intros object _.
  repeat (apply safely_ifM; intros _;
    [solve [by apply rsp_query_safe|by apply rsp_key_prog_safe|by apply rsp_key_set_go_safe|by apply rsp_key_set_stop_safe]|]).
  apply safely_throw.
Qed.
End ResponderLaws.
Arguments IdeKmDeviceOk W {_}.

(** ** From the requester to the device *)
Section Exchange.
Context {W : Type} `{IdeKmDevice W}.
Implicit Types w : W.
Lemma dispatch_to id rest handle w :
  let p := payload_of ([IDEKM_PROTOCOL_ID; id] ++ rest) in
  pci_ide_km_rsp_dispatcher handle vendor_id p w =
  (if id =? QUERY_OBJECT_ID then pci_ide_km_rsp_query p else
   if id =? KEY_PROG_OBJECT_ID then pci_ide_km_rsp_key_prog p else
   if id =? K_SET_GO_OBJECT_ID then pci_ide_km_rsp_key_set_go p else
   if id =? K_SET_STOP_OBJECT_ID then pci_ide_km_rsp_key_set_stop p else throw SPDM_STATUS_INVALID_MSG_FIELD) w.
Proof.
  intros p. unfold pci_ide_km_rsp_dispatcher. change (znth (vp_payload p) 0) with (Some IDEKM_PROTOCOL_ID).
  change (znth (vp_payload p) 1) with (Some id). cbn [or_panic]. rewrite !(bind_lift _ _ _ _ eq_refl).
  assert ((vp_length p <? 2) = false) as ->; [|done]. apply Z.ltb_ge. pose proof (len_nonneg rest).
  change (vp_length p) with (len ([IDEKM_PROTOCOL_ID; id] ++ rest)). rewrite len_app. change (len [IDEKM_PROTOCOL_ID; id]) with 2. lia.
Qed.
Lemma key_prog_len (k : KeyProgDataObject) : wf k → len (bytes k) = 48.
Proof.
  intros (_ & _ & _ & [Hk _] & [Hi _]). unfold bytes, codec_ok_KeyProgDataObject. rewrite !len_app.
  unfold bytes, codec_ok_Aes256GcmKeyBuffer. rewrite len_app, !len_words.
  assert (∀ l : list Z, len (reverse l) = len l) as Hr by (intros l; unfold len; by rewrite length_reverse).
  rewrite !Hr. assert (len (kb_key (kp_key_iv k)) = 8) as -> by (unfold len; by rewrite Hk).
  by assert (len (kb_iv (kp_key_iv k)) = 2) as -> by (unfold len; by rewrite Hi).
Qed.
Lemma query_run handle port out w w' :
  wf (mkQuery port) → pci_ide_km_device_query port w = (Ok out, w') →
  let '(d, b, s, m, regs, cnt) := out in
  let q := mkQueryResp port d b s m cnt regs in
  query_resp_fields q → len (query_resp_bytes q) ≤ MAX_SPDM_VENDOR_DEFINED_PAYLOAD_SIZE →
  pci_ide_km_rsp_dispatcher handle vendor_id (payload_of (bytes (mkQuery port))) w = (Ok (payload_of (query_resp_bytes q)), w').
Proof.
  intros Hq Hd. destruct out as [[[[[d b] s] m] regs] cnt]. intros q Hf Hl. subst q.
  unfold bytes, codec_ok_QueryDataObject. rewrite dispatch_to. cbn [Z.eqb QUERY_OBJECT_ID]. unfold pci_ide_km_rsp_query.
  rewrite (bind_lift _ (mkQuery port)) by exact (parse_payload_at _ _ (read_bytes_ok _ Hq)).
  unfold bind. cbn [q_port_index]. rewrite Hd. unfold lift. by rewrite (response_payload_ok _ _ (query_resp_encode _ Hf) Hl).
Qed.
Lemma key_prog_run handle st ks kd kt po kv status w w' :
  wf (mkKeyProg st ks kd kt po kv) → pci_ide_km_device_key_prog st ks kd kt po kv w = (Ok status, w') →
  pci_ide_km_rsp_dispatcher handle vendor_id (payload_of (bytes (mkKeyProg st ks kd kt po kv))) w =
  (Ok (payload_of (bytes (mkKpAck st status ks kd kt po))), w').
Proof.
  intros Hk Hd. unfold bytes at 1, codec_ok_KeyProgDataObject. rewrite dispatch_to. cbn [Z.eqb KEY_PROG_OBJECT_ID QUERY_OBJECT_ID Pos.eqb].
  unfold pci_ide_km_rsp_key_prog.
  rewrite (bind_lift _ (mkKeyProg st ks kd kt po kv)) by exact (parse_payload_at _ _ (read_bytes_ok _ Hk)).
  destruct Hk as (? & ? & ? & ?). unfold bind. cbn [kp_stream_id kp_key_set kp_key_direction kp_key_sub_stream kp_port_index kp_key_iv].
  rewrite Hd. unfold lift.
  assert (wf (mkKpAck st status ks kd kt po)) as Hw by by split_and!. by rewrite (response_payload_ok _ _ (encode_ok _ Hw)) by done.
Qed.
Lemma key_set_go_run handle st ks kd kt po w w' :
  wf (mkKeySet st ks kd kt po : KSetGoDataObject) → pci_ide_km_device_key_set_go st ks kd kt po w = (Ok tt, w') →
  pci_ide_km_rsp_dispatcher handle vendor_id (payload_of (bytes (mkKeySet st ks kd kt po : KSetGoDataObject))) w =
  (Ok (payload_of (bytes (mkKeySet st ks kd kt po : KGoStopAckDataObject))), w').
Proof.
  intros Hk Hd. unfold bytes at 1, codec_ok_key_set_object at 1. rewrite dispatch_to.
  cbn [Z.eqb KEY_PROG_OBJECT_ID QUERY_OBJECT_ID K_SET_GO_OBJECT_ID Pos.eqb]. unfold pci_ide_km_rsp_key_set_go.
  rewrite (bind_lift _ (mkKeySet st ks kd kt po : KSetGoDataObject)) by exact (parse_payload_at _ _ (read_bytes_ok _ Hk)).
  destruct Hk as (? & ? & ? & ?). unfold bind. cbn [ks_stream_id ks_key_set ks_key_direction ks_key_sub_stream ks_port_index].
  rewrite Hd. unfold lift.
  assert (wf (mkKeySet st ks kd kt po : KGoStopAckDataObject)) as Hw by by split_and!. by rewrite (response_payload_ok _ _ (encode_ok _ Hw)) by done.
Qed.
Lemma key_set_stop_run handle st ks kd kt po w w' :
  wf (mkKeySet st ks kd kt po : KSetStopDataObject) → pci_ide_km_device_key_set_stop st ks kd kt po w = (Ok tt, w') →
  pci_ide_km_rsp_dispatcher handle vendor_id (payload_of (bytes (mkKeySet st ks kd kt po : KSetStopDataObject))) w =
  (Ok (payload_of (bytes (mkKeySet st ks kd kt po : KGoStopAckDataObject))), w').
Proof.
  intros Hk Hd. unfold bytes at 1, codec_ok_key_set_object at 1. rewrite dispatch_to.
  cbn [Z.eqb KEY_PROG_OBJECT_ID QUERY_OBJECT_ID K_SET_GO_OBJECT_ID K_SET_STOP_OBJECT_ID Pos.eqb]. unfold pci_ide_km_rsp_key_set_stop.
  rewrite (bind_lift _ (mkKeySet st ks kd kt po : KSetStopDataObject)) by exact (parse_payload_at _ _ (read_bytes_ok _ Hk)).
  destruct Hk as (? & ? & ? & ?). unfold bind. cbn [ks_stream_id ks_key_set ks_key_direction ks_key_sub_stream ks_port_index].
  rewrite Hd. unfold lift.
  assert (wf (mkKeySet st ks kd kt po : KGoStopAckDataObject)) as Hw by by split_and!. by rewrite (response_payload_ok _ _ (encode_ok _ Hw)) by done.
Qed.
End Exchange.

Section Link.
Context {N W : Type} `{IdeKmDevice W} `{VdmChannel N} (handle : usize) (session_id : u32)
  `{!VdmLink N W session_id STANDARD_ID vendor_id (pci_ide_km_rsp_dispatcher handle)}.
Implicit Types (n : N) (w : W).
Lemma key_prog_reaches j st ks kd kt po kv status n w :
  wf (mkKeyProg st ks kd kt po kv) → link_up (S j) n → pci_ide_km_device_key_prog st ks kd kt po kv (link_world n) = (Ok status, w) →
  ∃ n', pci_ide_km_key_prog session_id st ks kd kt po kv n = (Ok status, n') ∧ link_up j n' ∧ link_world n' = w.
Proof.
  intros Hk Hn Hd. assert (wf (mkKpAck st status ks kd kt po)) as Ha by (destruct Hk as (? & ? & ? & ?); by split_and!).
  destruct (link_round session_id STANDARD_ID vendor_id _ j _ _ _ n w (encode_ok _ Hk) (bytes_ok _ Hk) ltac:(apply link_fits; by rewrite key_prog_len)
    (bytes_ok _ Ha) ltac:(by apply link_fits) Hn (key_prog_run handle _ _ _ _ _ _ _ _ _ Hk Hd)) as (n' & Hn' & Hw & Hr).
  exists n'. split; [|done]. unfold pci_ide_km_key_prog. rewrite Hr, (bind_lift _ _ _ _ (parse_payload_at _ _ (read_bytes_ok _ Ha))).
  cbn [ka_stream_id ka_key_set ka_key_direction ka_key_sub_stream ka_port_index ka_status]. by rewrite !Z.eqb_refl.
Qed.
Lemma key_set_acked st ks kd kt po n :
  wf (mkKeySet st ks kd kt po : KGoStopAckDataObject) →
  bind (lift (parse_payload KGoStopAckDataObject (payload_of (bytes (mkKeySet st ks kd kt po : KGoStopAckDataObject)))))
    (λ k, check_key_set_ack k st ks kd kt po) n = (Ok tt, n).
Proof.
  intros Ha. rewrite (bind_lift _ _ _ _ (parse_payload_at _ _ (read_bytes_ok _ Ha))). unfold check_key_set_ack.
  cbn [ks_stream_id ks_key_set ks_key_direction ks_key_sub_stream ks_port_index]. by rewrite !Z.eqb_refl.
Qed.
Lemma key_set_go_reaches j st ks kd kt po n w :
  wf (mkKeySet st ks kd kt po : KSetGoDataObject) → link_up (S j) n → pci_ide_km_device_key_set_go st ks kd kt po (link_world n) = (Ok tt, w) →
  ∃ n', pci_ide_km_key_set_go session_id st ks kd kt po n = (Ok tt, n') ∧ link_up j n' ∧ link_world n' = w.
Proof.
  intros Hk Hn Hd. assert (wf (mkKeySet st ks kd kt po : KGoStopAckDataObject)) as Ha by (destruct Hk as (? & ? & ? & ?); by split_and!).
  destruct (link_round session_id STANDARD_ID vendor_id _ j _ _ _ n w (encode_ok _ Hk) (bytes_ok _ Hk) ltac:(by apply link_fits)
    (bytes_ok _ Ha) ltac:(by apply link_fits) Hn (key_set_go_run handle _ _ _ _ _ _ _ Hk Hd)) as (n' & Hn' & Hw & Hr).
  exists n'. split; [|done]. unfold pci_ide_km_key_set_go. rewrite Hr. by apply key_set_acked.
Qed.
Lemma key_set_stop_reaches j st ks kd kt po n w :
  wf (mkKeySet st ks kd kt po : KSetStopDataObject) → link_up (S j) n → pci_ide_km_device_key_set_stop st ks kd kt po (link_world n) = (Ok tt, w) →
  ∃ n', pci_ide_km_key_set_stop session_id st ks kd kt po n = (Ok tt, n') ∧ link_up j n' ∧ link_world n' = w.
Proof.
  intros Hk Hn Hd. assert (wf (mkKeySet st ks kd kt po : KGoStopAckDataObject)) as Ha by (destruct Hk as (? & ? & ? & ?); by split_and!).
  destruct (link_round session_id STANDARD_ID vendor_id _ j _ _ _ n w (encode_ok _ Hk) (bytes_ok _ Hk) ltac:(by apply link_fits)
    (bytes_ok _ Ha) ltac:(by apply link_fits) Hn (key_set_stop_run handle _ _ _ _ _ _ _ Hk Hd)) as (n' & Hn' & Hw & Hr).
  exists n'. split; [|done]. unfold pci_ide_km_key_set_stop. rewrite Hr. by apply key_set_acked.
Qed.
Lemma query_reaches j port d b s m regs cnt n w :
  let q := mkQueryResp port d b s m cnt regs in
  query_resp_wf q → len (query_resp_bytes q) ≤ link_limit → link_up (S j) n →
  pci_ide_km_device_query port (link_world n) = (Ok (d, b, s, m, regs, cnt), w) →
  ∃ n', pci_ide_km_query session_id port n = (Ok (d, b, s, m, regs, cnt), n') ∧ link_up j n' ∧ link_world n' = w.
Proof.
  intros q Hq Hl Hn Hd. pose proof Hq as [Hf _]. assert (wf (mkQuery port)) as Hp by apply Hf.
  destruct (link_round session_id STANDARD_ID vendor_id _ j _ _ _ n w (encode_ok _ Hp) (bytes_ok _ Hp) ltac:(by apply link_fits)
    (query_resp_bytes_wf _ Hf) Hl Hn (query_run handle port _ _ _ Hp Hd Hf (Z.le_trans _ _ _ Hl (proj2 link_limit_ok)))) as (n' & Hn' & Hw & Hr).
  exists n'. split; [|done]. unfold pci_ide_km_query. rewrite Hr, (bind_lift _ _ _ _ (parse_payload_at _ _ (query_resp_read _ Hq))).
  unfold q. cbn [qr_port_index]. by rewrite Z.eqb_refl.
Qed.

(** C27: Over a session whose other end is the IDE_KM dispatcher of a device,
    with four exchanges left, the calls of the requester are the callbacks of
    the device: QUERY returns
    the registers the device reports, KEY_PROG gives it the key and the
    initialisation vector word for word and returns its status, and K_SET_GO
    and K_SET_STOP name the same stream, key set, direction, sub-stream and
    port; the device is called once each, in this order. *)
Theorem idekm_reaches_device j port d b s m regs cnt st ks kd kt po kv status n w1 w2 w3 w4 :
  let q := mkQueryResp port d b s m cnt regs in
  query_resp_wf q → len (query_resp_bytes q) ≤ link_limit →
  wf (mkKeyProg st ks kd kt po kv) → link_up (4 + j) n →
  pci_ide_km_device_query port (link_world n) = (Ok (d, b, s, m, regs, cnt), w1) →
  pci_ide_km_device_key_prog st ks kd kt po kv w1 = (Ok status, w2) →
  pci_ide_km_device_key_set_go st ks kd kt po w2 = (Ok tt, w3) →
  pci_ide_km_device_key_set_stop st ks kd kt po w3 = (Ok tt, w4) →
  ∃ n', (let* registers := pci_ide_km_query session_id port in
         let* ack := pci_ide_km_key_prog session_id st ks kd kt po kv in
         let* _ := pci_ide_km_key_set_go session_id st ks kd kt po in
         let* _ := pci_ide_km_key_set_stop session_id st ks kd kt po in
         ret (registers, ack)) n = (Ok ((d, b, s, m, regs, cnt), status), n') ∧ link_up j n' ∧ link_world n' = w4.
Proof.
  intros q Hq Hl Hk Hn H1 H2 H3 H4.
  assert (∀ id, ObjectId id → key_set_wf (mkKeySet st ks kd kt po : key_set_object id)) as Hs
    by (intros id Hid; destruct Hk as (? & ? & ? & ?); by split_and!).
  destruct (query_reaches (3 + j) port d b s m regs cnt n w1 Hq Hl Hn H1) as (n1 & E1 & U1 & <-).
  destruct (key_prog_reaches (2 + j) st ks kd kt po kv status n1 w2 Hk U1 H2) as (n2 & E2 & U2 & <-).
  destruct (key_set_go_reaches (1 + j) st ks kd kt po n2 w3 (Hs _ _) U2 H3) as (n3 & E3 & U3 & <-).
  destruct (key_set_stop_reaches j st ks kd kt po n3 w4 (Hs _ _) U3 H4) as (n4 & E4 & U4 & <-).
  exists n4. split; [|by split]. unfold bind. rewrite E1, E2, E3, E4. reflexivity.
Qed.
End Link.

(** ** What the requester accepts *)
Section Echo.
Context {N : Type} `{VdmChannel N}.
(** The requester takes a key as programmed only on a KP_ACK object that
    names the stream, key set, direction, sub-stream and port it asked for,
    whatever the other end sent; the status it returns is the one in there. *)
Theorem key_prog_needs_echo session_id st ks kd kt po kv status (n n' : N) :
  pci_ide_km_key_prog session_id st ks kd kt po kv n = (Ok status, n') →
  ∃ p r, request_payload (mkKeyProg st ks kd kt po kv) = Ok p ∧
    send_receive_vdm (Some session_id) STANDARD_ID vendor_id p n = (Ok r, n') ∧
    parse_payload KpAckDataObject r = Ok (mkKpAck st status ks kd kt po).
Proof.
  intros Hr. apply bind_lift_inv in Hr as (p & Hp & Hr). apply bind_inv in Hr as (r & n1 & Hs & Hr).
  apply bind_lift_inv in Hr as (k & Hk & Hr). exists p, r. split; [exact Hp|]. clear Hp. revert Hs Hk Hr. generalize (parse_payload KpAckDataObject r).
  intros o Hs -> Hr. destruct k as [st' status' ks' kd' kt' po']. cbn [ka_stream_id ka_key_set ka_key_direction ka_key_sub_stream ka_port_index ka_status] in Hr.
  revert Hr. do 5 (case Z.eqb_spec; [intros ->|done]). intros [= -> ->]. split; [exact Hs|reflexivity].
Qed.
End Echo.
End IdeKm.

(** ** A device that records what it is asked *)
Module IdeKmExamples.
Import IdeKm.
Inductive event :=
| Queried (port : u8)
| Programmed (stream : u8) (key_set key_direction key_sub_stream port : u8) (k : Aes256GcmKeyBuffer)
| Started (stream : u8) (key_set key_direction key_sub_stream port : u8)
| Stopped (stream : u8) (key_set key_direction key_sub_stream port : u8).
Definition record {A} (e : event) (a : A) : M (list event) SpdmStatus A := λ w, (Ok a, w ++ [e]).
Definition regs : list Z := [1; 2; 3] ++ replicate (Z.to_nat (PCI_IDE_KM_IDE_REG_BLOCK_MAX_COUNT - 3)) 0.
#[export] Instance recording_device : IdeKmDevice (list event) :=
  {| pci_ide_km_device_query port := record (Queried port) (8, 1, 0, 0, regs, 3);
     pci_ide_km_device_key_prog st ks kd kt po k := record (Programmed st ks kd kt po k) SUCCESS;
     pci_ide_km_device_key_set_go st ks kd kt po := record (Started st ks kd kt po) tt;
     pci_ide_km_device_key_set_stop st ks kd kt po := record (Stopped st ks kd kt po) tt |}.
Lemma regs_words : Forall (in_width 32) regs.
Proof. apply Forall_app. split; [by repeat constructor|]. by apply Forall_replicate. Qed.
#[export] Instance recording_device_ok : IdeKmDeviceOk (list event).
Proof. split; intros; intros w; [|done..]. split_and!; [done..|]. apply regs_words. Qed.
Definition key : Aes256GcmKeyBuffer := mkKeyBuffer [1; 2; 3; 4; 5; 6; 7; 8] [9; 10].

Lemma idekm_dispatcher_safe_witness :
  safely (W:=list event) (pci_ide_km_rsp_dispatcher 0 vendor_id (payload_of [0; 2; 0; 0; 7])) vendor_payload_wf.
Proof. apply idekm_dispatcher_safe, payload_of_wf; [done|]. by repeat constructor. Defined.
Lemma key_programmable : wf (mkKeyProg 7 1 2 KEY_SUB_STREAM_CPL 0 key).
Proof. split_and!; try done; [split_and!; auto|by repeat constructor..]. Qed.
Lemma query_answerable : query_resp_wf (mkQueryResp 5 8 1 0 0 3 regs).
Proof.
  split; [split_and!; [done..|apply regs_words]|]. split; [done|]. split; [done|].
  exists [1; 2; 3]. split_and!; [done..|]. by repeat constructor.
Qed.
#[local] Instance channel : VdmChannel (list event) := loopback (pci_ide_km_rsp_dispatcher 0).
Lemma key_prog_needs_echo_witness : ∃ p r,
  request_payload (mkKeyProg 7 1 2 KEY_SUB_STREAM_CPL 0 key) = Ok p ∧
  send_receive_vdm (Some 0) STANDARD_ID vendor_id p ([] : list event) =
    (Ok r, [Programmed 7 1 2 KEY_SUB_STREAM_CPL 0 key]) ∧
  parse_payload KpAckDataObject r = Ok (mkKpAck 7 SUCCESS 1 2 KEY_SUB_STREAM_CPL 0).
Proof. apply key_prog_needs_echo with (session_id := 0) (kv := key). vm_compute. reflexivity. Defined.
End IdeKmExamples.
