(* ===== verification/Tdisp.v ===== *)
(** * TDISP messages

    Models src/tdisp/src/pci_tdisp.rs: the identifiers, enumerations and
    messages of the TEE device interface security protocol, and the report
    structure of a device.

    Proved, for each of them: what is written is read back, the encoding has
    the size of its layout, and reading is safe on any bytes and returns values
    of their types. *)

From Stdlib Require Import String.
From S2P Require Import Prelude Codec Status Bitflags Algo DataTypes Structs Version Session.
From S2P Require Import ContextData SpdmCodec MsgLib MsgMisc RspLaws Vdm.

Module Tdisp.
Definition TDISP_PROTOCOL_ID : u8 := 1.
Definition STANDARD_ID : RegistryOrStandardsBodyID := PCISIG.
Definition vendor_id : VendorIDStruct := mkVendorID 2 (0x01 :: zeros (MAX_SPDM_VENDOR_DEFINED_VENDOR_ID_LEN - 1)).
Definition START_INTERFACE_NONCE_LEN : usize := 32.
Definition MAX_DEVICE_REPORT_BUFFER : usize := MAX_SPDM_VENDOR_DEFINED_PAYLOAD_SIZE - 1 - 16 - 4.
Definition MAX_PORTION_LENGTH : usize := MAX_DEVICE_REPORT_BUFFER.
Definition MAX_MMIO_RANGE_COUNT : usize := 0xF.
Definition MAX_DEVICE_SPECIFIC_INFO_LEN : usize := 0xFF.
Definition MAX_TDISP_VERSION_COUNT : usize := 0xFF.

(** ** Identifiers *)
Record FunctionId := mkFunctionId { requester_id : u16; requester_segment : u8; requester_segment_valid : bool }.
#[export] Instance FunctionId_eq_dec : EqDecision FunctionId.
Proof. solve_decision. Defined.
#[export] Instance codec_FunctionId : Codec FunctionId :=
  {| encode f :=
       let function_id := Z.lor 0 (requester_id f) in
       let function_id := if requester_segment_valid f
                          then Z.lor function_id (Z.shiftl (requester_segment f) 16) else function_id in
       encode (Z.lor function_id (Z.shiftl (Z.b2z (requester_segment_valid f)) 24) : u32);
     read :=
       let* function_id := read (A:=u32) in
       let requester_id := Z.land function_id 0x0000FFFF in
       let requester_segment := Z.shiftr (Z.land function_id 0x00FF0000) 16 in
       let requester_segment_valid := negb (Z.land function_id (Z.shiftl 1 24) =? 0) in
       let* _ := reject (negb requester_segment_valid && negb (requester_segment =? 0)) in
       ret (mkFunctionId requester_id requester_segment requester_segment_valid) |}.
Record InterfaceId := mkInterfaceId { function_id : FunctionId }.
#[export] Instance InterfaceId_eq_dec : EqDecision InterfaceId.
Proof. solve_decision. Defined.
Definition InterfaceId_default : InterfaceId := mkInterfaceId (mkFunctionId 0 0 false).
#[export] Instance codec_InterfaceId : Codec InterfaceId :=
  {| encode i :=
       let* s0 := encode (function_id i) in
       let* s1 := encode (0 : u64) in
       ret (s0 + s1);
     read :=
       let* function_id := read in
       let* _ := read (A:=u64) in
       ret (mkInterfaceId function_id) |}.

(** ** Enumerations *)
Inductive TdiState := RUN | ERROR | CONFIG_LOCKED | CONFIG_UNLOCKED.
#[export] Instance try_TdiState : TryEnum TdiState :=
  {| into s := match s with RUN => 2 | ERROR => 3 | CONFIG_LOCKED => 1 | CONFIG_UNLOCKED => 0 end;
     try_from x :=
       if x =? 0 then Some CONFIG_UNLOCKED else if x =? 1 then Some CONFIG_LOCKED
       else if x =? 2 then Some RUN else if x =? 3 then Some ERROR else None |}.
#[export] Instance codec_TdiState : Codec TdiState := try_u8.

Inductive TdispRequestResponseCode :=
| GET_TDISP_VERSION | GET_TDISP_CAPABILITIES | LOCK_INTERFACE_REQUEST | GET_DEVICE_INTERFACE_REPORT
| GET_DEVICE_INTERFACE_STATE | START_INTERFACE_REQUEST | STOP_INTERFACE_REQUEST | BIND_P2P_STREAM_REQUEST
| UNBIND_P2P_STREAM_REQUEST | SET_MMIO_ATTRIBUTE_REQUEST | VDM_REQUEST
| TDISP_VERSION | TDISP_CAPABILITIES | LOCK_INTERFACE_RESPONSE | DEVICE_INTERFACE_REPORT | DEVICE_INTERFACE_STATE
| START_INTERFACE_RESPONSE | STOP_INTERFACE_RESPONSE | BIND_P2P_STREAM_RESPONSE | UNBIND_P2P_STREAM_RESPONSE
| SET_MMIO_ATTRIBUTE_RESPONSE | VDM_RESPONSE | TDISP_ERROR.
#[export] Instance TdispRequestResponseCode_eq_dec : EqDecision TdispRequestResponseCode.
Proof. solve_decision. Defined.
#[export] Instance try_TdispRequestResponseCode : TryEnum TdispRequestResponseCode :=
  {| into c :=
       match c with
       | GET_TDISP_VERSION => 0x81 | GET_TDISP_CAPABILITIES => 0x82 | LOCK_INTERFACE_REQUEST => 0x83
       | GET_DEVICE_INTERFACE_REPORT => 0x84 | GET_DEVICE_INTERFACE_STATE => 0x85 | START_INTERFACE_REQUEST => 0x86
       | STOP_INTERFACE_REQUEST => 0x87 | BIND_P2P_STREAM_REQUEST => 0x88 | UNBIND_P2P_STREAM_REQUEST => 0x89
       | SET_MMIO_ATTRIBUTE_REQUEST => 0x8A | VDM_REQUEST => 0x8B
       | TDISP_VERSION => 0x01 | TDISP_CAPABILITIES => 0x02 | LOCK_INTERFACE_RESPONSE => 0x03
       | DEVICE_INTERFACE_REPORT => 0x04 | DEVICE_INTERFACE_STATE => 0x05 | START_INTERFACE_RESPONSE => 0x06
       | STOP_INTERFACE_RESPONSE => 0x07 | BIND_P2P_STREAM_RESPONSE => 0x08 | UNBIND_P2P_STREAM_RESPONSE => 0x09
       | SET_MMIO_ATTRIBUTE_RESPONSE => 0x0A | VDM_RESPONSE => 0x0B | TDISP_ERROR => 0x7F
       end;
     try_from x :=
       if x =? 0x81 then Some GET_TDISP_VERSION else if x =? 0x82 then Some GET_TDISP_CAPABILITIES
       else if x =? 0x83 then Some LOCK_INTERFACE_REQUEST else if x =? 0x84 then Some GET_DEVICE_INTERFACE_REPORT
       else if x =? 0x85 then Some GET_DEVICE_INTERFACE_STATE else if x =? 0x86 then Some START_INTERFACE_REQUEST
       else if x =? 0x87 then Some STOP_INTERFACE_REQUEST else if x =? 0x88 then Some BIND_P2P_STREAM_REQUEST
       else if x =? 0x89 then Some UNBIND_P2P_STREAM_REQUEST else if x =? 0x8A then Some SET_MMIO_ATTRIBUTE_REQUEST
       else if x =? 0x8B then Some VDM_REQUEST
       else if x =? 0x01 then Some TDISP_VERSION else if x =? 0x02 then Some TDISP_CAPABILITIES
       else if x =? 0x03 then Some LOCK_INTERFACE_RESPONSE else if x =? 0x04 then Some DEVICE_INTERFACE_REPORT
       else if x =? 0x05 then Some DEVICE_INTERFACE_STATE else if x =? 0x06 then Some START_INTERFACE_RESPONSE
       else if x =? 0x07 then Some STOP_INTERFACE_RESPONSE else if x =? 0x08 then Some BIND_P2P_STREAM_RESPONSE
       else if x =? 0x09 then Some UNBIND_P2P_STREAM_RESPONSE else if x =? 0x0A then Some SET_MMIO_ATTRIBUTE_RESPONSE
       else if x =? 0x0B then Some VDM_RESPONSE else if x =? 0x7F then Some TDISP_ERROR else None |}.
#[export] Instance codec_TdispRequestResponseCode : Codec TdispRequestResponseCode := try_u8.

Inductive TdispErrorCode :=
| INVALID_REQUEST | BUSY | INVALID_INTERFACE_STATE | UNSPECIFIED | UNSUPPORTED_REQUEST | VERSION_MISMATCH
| VENDOR_SPECIFIC_ERROR | INVALID_INTERFACE | INVALID_NONCE | INSUFFICIENT_ENTROPY | INVALID_DEVICE_CONFIGURATION.
#[export] Instance try_TdispErrorCode : TryEnum TdispErrorCode :=
  {| into e :=
       match e with
       | INVALID_REQUEST => 0x0001 | BUSY => 0x0003 | INVALID_INTERFACE_STATE => 0x0004 | UNSPECIFIED => 0x0005
       | UNSUPPORTED_REQUEST => 0x0007 | VERSION_MISMATCH => 0x0041 | VENDOR_SPECIFIC_ERROR => 0x00FF
       | INVALID_INTERFACE => 0x0101 | INVALID_NONCE => 0x0102 | INSUFFICIENT_ENTROPY => 0x0103
       | INVALID_DEVICE_CONFIGURATION => 0x0104
       end;
     try_from x :=
       if x =? 0x0001 then Some INVALID_REQUEST else if x =? 0x0003 then Some BUSY
       else if x =? 0x0004 then Some INVALID_INTERFACE_STATE else if x =? 0x0005 then Some UNSPECIFIED
       else if x =? 0x0007 then Some UNSUPPORTED_REQUEST else if x =? 0x0041 then Some VERSION_MISMATCH
       else if x =? 0x00FF then Some VENDOR_SPECIFIC_ERROR else if x =? 0x0101 then Some INVALID_INTERFACE
       else if x =? 0x0102 then Some INVALID_NONCE else if x =? 0x0103 then Some INSUFFICIENT_ENTROPY
       else if x =? 0x0104 then Some INVALID_DEVICE_CONFIGURATION else None |}.
#[export] Instance codec_TdispErrorCode : Codec TdispErrorCode := try_u32.

(** ** The header *)
Record TdispVersion := mkTdispVersion { major_version : u8; minor_version : u8 }.
#[export] Instance TdispVersion_eq_dec : EqDecision TdispVersion.
Proof. solve_decision. Defined.
Definition TdispVersion_default : TdispVersion := mkTdispVersion 1 0.
Definition partial_cmp (v w : TdispVersion) : comparison :=
  if major_version w <? major_version v then Gt else if major_version v <? major_version w then Lt
  else if minor_version w <? minor_version v then Gt else if minor_version v <? minor_version w then Lt else Eq.
#[export] Instance codec_TdispVersion : Codec TdispVersion :=
  {| encode v := encode (Z.lor (wrap 8 (Z.shiftl (major_version v) 4)) (minor_version v) : u8);
     read :=
       let* tdisp_version := read (A:=u8) in
       ret (mkTdispVersion (Z.shiftr (Z.land tdisp_version 0xF0) 4) (Z.land tdisp_version 0x0F)) |}.
Record TdispMessageHeader := mkTdispHeader {
  tdisp_version : TdispVersion; message_type : TdispRequestResponseCode; interface_id : InterfaceId;
}.
#[export] Instance codec_TdispMessageHeader : Codec TdispMessageHeader :=
  {| encode h :=
       let* s0 := encode TDISP_PROTOCOL_ID in
       let* s1 := encode (tdisp_version h) in
       let* s2 := encode (message_type h) in
       let* s3 := encode (0 : u16) in
       let* s4 := encode (interface_id h) in
       ret (s0 + s1 + s2 + s3 + s4);
     read :=
       let* protocol_id := read (A:=u8) in
       let* _ := reject (negb (protocol_id =? TDISP_PROTOCOL_ID)) in
       let* tdisp_version := read in
       let* message_type := read in
       let* _ := read (A:=u16) in
       let* interface_id := read in
       ret (mkTdispHeader tdisp_version message_type interface_id) |}.
(** The header every message of this version is sent with. *)
Definition header_of (t : TdispRequestResponseCode) (i : InterfaceId) : TdispMessageHeader :=
  mkTdispHeader (mkTdispVersion 1 0) t i.

(** ** Versions *)
Record ReqGetTdispVersion := mkGetVersion { gv_interface_id : InterfaceId }.
Definition read_versioned (t : TdispRequestResponseCode) : M Reader unit InterfaceId :=
  let* message_header := read in
  let* _ := reject (negb (major_version (tdisp_version message_header) =? 1)) in
  let* _ := reject (bool_decide (message_type message_header ≠ t)) in
  ret (interface_id message_header).
#[export] Instance codec_ReqGetTdispVersion : Codec ReqGetTdispVersion :=
  {| encode m := encode (header_of GET_TDISP_VERSION (gv_interface_id m));
     read := let* interface_id := read_versioned GET_TDISP_VERSION in ret (mkGetVersion interface_id) |}.
Record RspTdispVersion := mkVersionRsp {
  vr_interface_id : InterfaceId; version_num_count : u8; version_num_entry : list TdispVersion;
}.
#[export] Instance codec_RspTdispVersion : Codec RspTdispVersion :=
  {| encode m :=
       let* s0 := encode (header_of TDISP_VERSION (vr_interface_id m)) in
       let* s1 := encode (version_num_count m) in
       let* s2 := encode_sum (ztake (version_num_count m) (version_num_entry m)) in
       ret (s0 + s1 + s2);
     read :=
       let* interface_id := read_versioned TDISP_VERSION in
       let* version_num_count := read (A:=u8) in
       let* version_num_entry :=
         read_front read (Z.to_nat version_num_count)
           (replicate (Z.to_nat MAX_TDISP_VERSION_COUNT) TdispVersion_default) in
       ret (mkVersionRsp interface_id version_num_count version_num_entry) |}.

(** ** Capabilities *)
Record ReqGetTdispCapabilities := mkGetTdispCaps { gc_header : TdispMessageHeader; tsm_caps : u32 }.
#[export] Instance codec_ReqGetTdispCapabilities : Codec ReqGetTdispCapabilities :=
  {| encode m :=
       let* s0 := encode (gc_header m) in
       let* s1 := encode (tsm_caps m) in
       ret (s0 + s1);
     read :=
       let* message_header := read in
       let* tsm_caps := read (A:=u32) in
       ret (mkGetTdispCaps message_header tsm_caps) |}.
Definition LockInterfaceFlag_desc : flag_desc := mkDesc "LockInterfaceFlag" W16 [0x1; 0x2; 0x4; 0x8; 0x10].
Abbreviation LockInterfaceFlag := (flags LockInterfaceFlag_desc).
Record RspTdispCapabilities := mkTdispCaps {
  cp_header : TdispMessageHeader; dsm_caps : u32; req_msgs_supported : list Z;
  lock_interface_flags_supported : LockInterfaceFlag; dev_addr_width : u8; num_req_this : u8; num_req_all : u8;
}.
#[export] Instance codec_RspTdispCapabilities : Codec RspTdispCapabilities :=
  {| encode m :=
       let* s0 := encode (cp_header m) in
       let* s1 := encode (dsm_caps m) in
       let* s2 := encode_array (A:=u8) (req_msgs_supported m) in
       let* s3 := encode (lock_interface_flags_supported m) in
       let* s4 := encode (0 : u24) in
       let* s5 := encode (dev_addr_width m) in
       let* s6 := encode (num_req_this m) in
       let* s7 := encode (num_req_all m) in
       ret (s0 + s1 + s2 + s3 + s4 + s5 + s6 + s7);
     read :=
       let* message_header := read in
       let* dsm_caps := read (A:=u32) in
       let* req_msgs_supported := read_array (0 : u8) 16 in
       let* lock_interface_flags_supported := read in
       let* _ := read (A:=u24) in
       let* dev_addr_width := read (A:=u8) in
       let* num_req_this := read (A:=u8) in
       let* num_req_all := read (A:=u8) in
       ret (mkTdispCaps message_header dsm_caps req_msgs_supported lock_interface_flags_supported
              dev_addr_width num_req_this num_req_all) |}.

(** ** Locking, and messages with a nonce *)
Record ReqLockInterfaceRequest := mkLock {
  lk_header : TdispMessageHeader; lk_flags : LockInterfaceFlag; default_stream_id : u8;
  mmio_reporting_offset : u64; bind_p2p_address_mask : u64;
}.
#[export] Instance codec_ReqLockInterfaceRequest : Codec ReqLockInterfaceRequest :=
  {| encode m :=
       let* s0 := encode (lk_header m) in
       let* s1 := encode (lk_flags m) in
       let* s2 := encode (default_stream_id m) in
       let* s3 := encode (0 : u8) in
       let* s4 := encode (mmio_reporting_offset m) in
       let* s5 := encode (bind_p2p_address_mask m) in
       ret (s0 + s1 + s2 + s3 + s4 + s5);
     read :=
       let* message_header := read in
       let* flags := read in
       let* default_stream_id := read (A:=u8) in
       let* _ := read (A:=u8) in
       let* mmio_reporting_offset := read (A:=u64) in
       let* bind_p2p_address_mask := read (A:=u64) in
       ret (mkLock message_header flags default_stream_id mmio_reporting_offset bind_p2p_address_mask) |}.
Record nonce_message := mkNonceMessage { nm_header : TdispMessageHeader; start_interface_nonce : list Z }.
Abbreviation RspLockInterfaceResponse := nonce_message.
Abbreviation ReqStartInterfaceRequest := nonce_message.
#[export] Instance codec_nonce_message : Codec nonce_message :=
  {| encode m :=
       let* s0 := encode (nm_header m) in
       let* s1 := encode_array (A:=u8) (start_interface_nonce m) in
       ret (s0 + s1);
     read :=
       let* message_header := read in
       let* start_interface_nonce := read_array (0 : u8) (Z.to_nat START_INTERFACE_NONCE_LEN) in
       ret (mkNonceMessage message_header start_interface_nonce) |}.

(** ** Reports and states *)
Record ReqGetDeviceInterfaceReport := mkGetReport { gr_header : TdispMessageHeader; gr_offset : u16; gr_length : u16 }.
#[export] Instance codec_ReqGetDeviceInterfaceReport : Codec ReqGetDeviceInterfaceReport :=
  {| encode m :=
       let* s0 := encode (gr_header m) in
       let* s1 := encode (gr_offset m) in
       let* s2 := encode (gr_length m) in
       ret (s0 + s1 + s2);
     read :=
       let* message_header := read in
       let* offset := read (A:=u16) in
       let* length := read (A:=u16) in
       ret (mkGetReport message_header offset length) |}.
Record RspDeviceInterfaceReport := mkReport {
  rr_header : TdispMessageHeader; portion_length : u16; remainder_length : u16; report : list Z;
}.
#[export] Instance codec_RspDeviceInterfaceReport : Codec RspDeviceInterfaceReport :=
  {| encode m :=
       let* s0 := encode (rr_header m) in
       let* s1 := encode (portion_length m) in
       let* s2 := encode (remainder_length m) in
       let* s3 := encode_prefix (portion_length m) (report m) in
       ret (s0 + s1 + s2 + s3);
     read :=
       let* message_header := read in
       let* portion_length := read (A:=u16) in
       let* remainder_length := read (A:=u16) in
       let* _ := reject (MAX_PORTION_LENGTH <? portion_length) in
       let* report := read_prefix portion_length (zeros MAX_PORTION_LENGTH) in
       ret (mkReport message_header portion_length remainder_length report) |}.
Record RspDeviceInterfaceState := mkState { ds_header : TdispMessageHeader; tdi_state : TdiState }.
#[export] Instance codec_RspDeviceInterfaceState : Codec RspDeviceInterfaceState :=
  {| encode m :=
       let* s0 := encode (ds_header m) in
       let* s1 := encode (tdi_state m) in
       ret (s0 + s1);
     read :=
       let* message_header := read in
       let* tdi_state := read in
       ret (mkState message_header tdi_state) |}.

(** ** Messages that are a header, or a header and a stream *)
Record header_message := mkHeaderMessage { hm_header : TdispMessageHeader }.
Abbreviation ReqGetDeviceInterfaceState := header_message.
Abbreviation RspStartInterfaceResponse := header_message.
Abbreviation ReqStopInterfaceRequest := header_message.
Abbreviation RspStopInterfaceResponse := header_message.
Abbreviation RspBindP2PStreamResponse := header_message.
Abbreviation RspUnBindP2PStreamResponse := header_message.
Abbreviation RspSetMmioAttributeResponse := header_message.
#[export] Instance codec_header_message : Codec header_message :=
  {| encode m := encode (hm_header m);
     read := let* message_header := read in ret (mkHeaderMessage message_header) |}.
Record stream_message := mkStreamMessage { sm_header : TdispMessageHeader; p2p_stream_id : u8 }.
Abbreviation ReqBindP2PStreamRequest := stream_message.
Abbreviation ReqUnBindP2PStreamRequest := stream_message.
#[export] Instance codec_stream_message : Codec stream_message :=
  {| encode m :=
       let* s0 := encode (sm_header m) in
       let* s1 := encode (p2p_stream_id m) in
       ret (s0 + s1);
     read :=
       let* message_header := read in
       let* p2p_stream_id := read (A:=u8) in
       ret (mkStreamMessage message_header p2p_stream_id) |}.

(** ** MMIO ranges *)
Definition MMIORangeAttribute_desc : flag_desc := mkDesc "MMIORangeAttribute" W16 [0x1; 0x2; 0x4; 0x8; 0x10].
Abbreviation MMIORangeAttribute := (flags MMIORangeAttribute_desc).
Record TdispMmioRange := mkMmioRange {
  first_page_with_offset_added : u64; number_of_pages : u32; range_attributes : MMIORangeAttribute; range_id : u16;
}.
Definition TdispMmioRange_default : TdispMmioRange := mkMmioRange 0 0 empty_flags 0.
#[export] Instance codec_TdispMmioRange : Codec TdispMmioRange :=
  {| encode m :=
       let* s0 := encode (first_page_with_offset_added m) in
       let* s1 := encode (number_of_pages m) in
       let* s2 := encode (range_attributes m) in
       let* s3 := encode (range_id m) in
       ret (s0 + s1 + s2 + s3);
     read :=
       let* first_page_with_offset_added := read (A:=u64) in
       let* number_of_pages := read (A:=u32) in
       let* range_attributes := read in
       let* range_id := read (A:=u16) in
       ret (mkMmioRange first_page_with_offset_added number_of_pages range_attributes range_id) |}.
Record ReqSetMmioAttributeRequest := mkSetMmio { mm_header : TdispMessageHeader; mm_range : TdispMmioRange }.
#[export] Instance codec_ReqSetMmioAttributeRequest : Codec ReqSetMmioAttributeRequest :=
  {| encode m :=
       let* s0 := encode (mm_header m) in
       let* s1 := encode (mm_range m) in
       ret (s0 + s1);
     read :=
       let* message_header := read in
       let* mmio_range := read in
       ret (mkSetMmio message_header mmio_range) |}.

(** ** Errors *)
Record RspTdispError := mkTdispError { te_header : TdispMessageHeader; te_error_code : TdispErrorCode; te_error_data : u32 }.
#[export] Instance codec_RspTdispError : Codec RspTdispError :=
  {| encode m :=
       let* s0 := encode (te_header m) in
       let* s1 := encode (te_error_code m) in
       let* s2 := encode (te_error_data m) in
       ret (s0 + s1 + s2);
     read :=
       let* message_header := read in
       let* _ := reject (bool_decide (message_type message_header ≠ TDISP_ERROR)) in
       let* error_code := read in
       let* error_data := read (A:=u32) in
       ret (mkTdispError message_header error_code error_data) |}.

(** ** The report of a device *)
Definition InterfaceInfo_desc : flag_desc := mkDesc "InterfaceInfo" W16 [0x1; 0x2; 0x4; 0x8; 0x10].
Abbreviation InterfaceInfo := (flags InterfaceInfo_desc).
Record TdiReportStructure := mkTdiReport {
  interface_info : InterfaceInfo; msi_x_message_control : u16; lnr_control : u16; tph_control : u32;
  mmio_range_count : u32; mmio_range : list TdispMmioRange;
  device_specific_info_len : u32; device_specific_info : list Z;
}.
Definition TdiReportStructure_default : TdiReportStructure :=
  mkTdiReport empty_flags 0 0 0 0 (replicate (Z.to_nat MAX_MMIO_RANGE_COUNT) TdispMmioRange_default)
    0 (zeros MAX_DEVICE_SPECIFIC_INFO_LEN).
#[export] Instance codec_TdiReportStructure : Codec TdiReportStructure :=
  {| encode m :=
       let* s0 := encode (interface_info m) in
       let* s1 := encode (0 : u16) in
       let* s2 := encode (msi_x_message_control m) in
       let* s3 := encode (lnr_control m) in
       let* s4 := encode (tph_control m) in
       let* s5 := encode (mmio_range_count m) in
       let* s6 := encode_sum (ztake (mmio_range_count m) (mmio_range m)) in
       let* s7 := encode (device_specific_info_len m) in
       let* s8 := encode_prefix (device_specific_info_len m) (device_specific_info m) in
       ret (s0 + s1 + s2 + s3 + s4 + s5 + s6 + s7 + s8);
     read :=
       let* interface_info := read in
       let* _ := read (A:=u16) in
       let* msi_x_message_control := read (A:=u16) in
       let* lnr_control := read (A:=u16) in
       let* tph_control := read (A:=u32) in
       let* mmio_range_count := read (A:=u32) in
       let* _ := reject (MAX_MMIO_RANGE_COUNT <? mmio_range_count) in
       let* mmio_range := read_front read (Z.to_nat mmio_range_count)
                            (replicate (Z.to_nat MAX_MMIO_RANGE_COUNT) TdispMmioRange_default) in
       let* device_specific_info_len := read (A:=u32) in
       let* _ := reject (MAX_DEVICE_SPECIFIC_INFO_LEN <? device_specific_info_len) in
       let* device_specific_info := read_prefix device_specific_info_len (zeros MAX_DEVICE_SPECIFIC_INFO_LEN) in
       ret (mkTdiReport interface_info msi_x_message_control lnr_control tph_control mmio_range_count mmio_range
              device_specific_info_len device_specific_info) |}.

(** ** Codec contracts *)
#[export] Hint Extern 2 (in_width _ _) => done : msg.
Ltac u64_step :=
  first [ eapply decodes_bind; [apply decodes_u64; side|cbv beta zeta]
        | eapply decodes_last; [apply decodes_u64; side|cbv beta zeta] ].

(** A function identifier is three fields of a word. *)
Definition function_word (f : FunctionId) : Z :=
  requester_id f + requester_segment f * 2 ^ 16 + Z.b2z (requester_segment_valid f) * 2 ^ 24.
Definition function_wf (f : FunctionId) : Prop :=
  in_width 16 (requester_id f) ∧ in_width 8 (requester_segment f) ∧
  (requester_segment_valid f = false → requester_segment f = 0).
Lemma function_width f : function_wf f → in_width 32 (function_word f).
Proof. unfold function_wf, function_word, in_width. destruct (requester_segment_valid f); cbn; lia. Qed.
Lemma encode_function f : function_wf f → encode f = encode (function_word f : u32).
Proof.
  intros (Hi & Hs & Hv). unfold encode at 1, codec_FunctionId. f_equal. rewrite Z.lor_0_l. unfold function_word.
  destruct (requester_segment_valid f) eqn:He; cbn [Z.b2z].
  - rewrite (lor_shiftl_add (requester_id f)) by done. rewrite lor_shiftl_add; [done|done|]. unfold in_width in *. lia.
  - rewrite (Hv eq_refl). rewrite Z.shiftl_0_l, Z.lor_0_r. lia.
Qed.
Lemma land_bit x n : 0 ≤ n → (Z.land x (Z.shiftl 1 n) =? 0) = negb (Z.odd (x / 2 ^ n)).
Proof.
  intros Hn. pose proof (land_field x 1 n) as Hl. change (Z.ones 1) with 1 in Hl. rewrite Hl by lia. change (2 ^ 1) with 2.
  rewrite Zmod_odd. destruct (Z.odd _); [apply Z.eqb_neq|apply Z.eqb_eq]; lia.
Qed.
Lemma read_function x :
  in_width 32 x → Z.land x 0x0000FFFF = x mod 2 ^ 16 ∧ Z.shiftr (Z.land x 0x00FF0000) 16 = x / 2 ^ 16 mod 2 ^ 8.
Proof.
  intros Hx. split; [apply (land_low x 16); lia|]. pose proof (land_field x 8 16) as Hl. change (Z.shiftl (Z.ones 8) 16) with 0xFF0000 in Hl.
  rewrite Hl by lia. rewrite Z.shiftr_div_pow2 by lia. apply Z.div_mul. lia.
Qed.
#[export] Program Instance codec_ok_FunctionId : CodecOk FunctionId :=
  {| wf := function_wf; bytes f := le_bytes 4 (function_word f) |}.
Next Obligation. intros f _. apply bytes_wf_le_bytes. Qed.
Next Obligation. intros f Hf. rewrite encode_function by done. apply writes_u32. Qed.
Next Obligation.
  intros f Hf. pose proof (function_width f Hf) as Hw. unfold read at 1, codec_FunctionId.
  eapply decodes_last; [by apply decodes_u32|]. cbv zeta. destruct (read_function _ Hw) as [-> ->]. rewrite land_bit, negb_involutive by lia.
  destruct Hf as (Hi & Hs & Hv). unfold function_word in *. unfold in_width in *.
  replace ((requester_id f + requester_segment f * 2 ^ 16 + Z.b2z (requester_segment_valid f) * 2 ^ 24) mod 2 ^ 16) with (requester_id f)
    by (apply (Z.mod_unique _ _ (requester_segment f + Z.b2z (requester_segment_valid f) * 2 ^ 8)); lia).
  replace ((requester_id f + requester_segment f * 2 ^ 16 + Z.b2z (requester_segment_valid f) * 2 ^ 24) / 2 ^ 16)
    with (requester_segment f + Z.b2z (requester_segment_valid f) * 2 ^ 8)
    by (apply (Z.div_unique _ _ _ (requester_id f)); lia).
  replace ((requester_id f + requester_segment f * 2 ^ 16 + Z.b2z (requester_segment_valid f) * 2 ^ 24) / 2 ^ 24)
    with (Z.b2z (requester_segment_valid f))
    by (apply (Z.div_unique _ _ _ (requester_id f + requester_segment f * 2 ^ 16)); lia).
  rewrite Z.mod_add, Z.mod_small by lia.
  destruct f as [i s []]; cbn [requester_id requester_segment requester_segment_valid] in *; [apply decodes_ret|].
  rewrite (Hv eq_refl). apply decodes_ret.
Qed.
Next Obligation.
  unfold read at 1, codec_FunctionId. rd_step. eapply reads_bind; [apply reads_reject|]. intros ? Hr. cbv beta in Hr. apply reads_ret.
  match goal with Hx : in_width 32 ?x |- _ => destruct (read_function x Hx) as [E1 E2]; rewrite E1, E2 in * end.
  split_and!; cbn [requester_id requester_segment requester_segment_valid]; [by apply Z.mod_pos_bound..|].
  intros Hv. rewrite Hv in Hr. apply andb_false_iff in Hr as [Hr|Hr]; [done|]. apply negb_false_iff, Z.eqb_eq in Hr. by rewrite Hr.
Qed.
#[export] Program Instance codec_ok_InterfaceId : CodecOk InterfaceId :=
  {| wf i := wf (function_id i); bytes i := bytes (function_id i) ++ le_bytes 8 0 |}.
Next Obligation. intros i Hi. msg_bytes. Qed.
Next Obligation. intros i Hi. unfold encode at 1, codec_InterfaceId. solve_writes. Qed.
Next Obligation. intros i Hi. unfold read at 1, codec_InterfaceId. dec_step. u64_step. destruct i. apply decodes_ret. Qed.
Next Obligation. unfold read at 1, codec_InterfaceId. msg_reads. done. Qed.

(** *** Enumerations and the header *)
#[export] Instance try_ok_TdiState : TryEnumOk TdiState 8.
Proof. solve_try. Qed.
#[export] Instance codec_ok_TdiState : CodecOk TdiState := try_u8_ok.
#[export] Instance try_ok_TdispRequestResponseCode : TryEnumOk TdispRequestResponseCode 8.
Proof. solve_try. Qed.
#[export] Instance codec_ok_TdispRequestResponseCode : CodecOk TdispRequestResponseCode := try_u8_ok.
#[export] Instance try_ok_TdispErrorCode : TryEnumOk TdispErrorCode 32.
Proof. solve_try. Qed.
#[export] Instance codec_ok_TdispErrorCode : CodecOk TdispErrorCode := try_u32_ok.
#[export] Instance LockInterfaceFlag_desc_ok : DescOk LockInterfaceFlag_desc.
Proof. solve_desc. Qed.
#[export] Instance MMIORangeAttribute_desc_ok : DescOk MMIORangeAttribute_desc.
Proof. solve_desc. Qed.
#[export] Instance InterfaceInfo_desc_ok : DescOk InterfaceInfo_desc.
Proof. solve_desc. Qed.

Definition version_wf (v : TdispVersion) : Prop := in_width 4 (major_version v) ∧ in_width 4 (minor_version v).
Definition version_byte (v : TdispVersion) : Z := minor_version v + major_version v * 2 ^ 4.
Lemma version_byte_width v : version_wf v → in_width 8 (version_byte v).
Proof. unfold version_wf, version_byte, in_width. lia. Qed.
Lemma version_lor v : version_wf v → Z.lor (wrap 8 (Z.shiftl (major_version v) 4)) (minor_version v) = version_byte v.
Proof.
  intros [Ha Hi]. rewrite wrap_small by (unfold in_width in *; rewrite Z.shiftl_mul_pow2 by lia; lia).
  rewrite Z.lor_comm. by apply lor_shiftl_add.
Qed.
Lemma land_nibble x : Z.land x 0x0F = x mod 2 ^ 4.
Proof. by apply (land_low x 4). Qed.
#[export] Program Instance codec_ok_TdispVersion : CodecOk TdispVersion :=
  {| wf := version_wf; bytes v := [version_byte v] |}.
Next Obligation. intros v Hv. by apply bytes_wf_u8, version_byte_width. Qed.
Next Obligation. intros v Hv. unfold encode at 1, codec_TdispVersion. rewrite version_lor by done. apply writes_u8. Qed.
Next Obligation.
  intros v Hv. unfold read at 1, codec_TdispVersion. eapply decodes_last; [by apply decodes_u8, version_byte_width|].
  destruct Hv as [Ha Hi]. unfold in_width in *. replace (Z.land (version_byte v) 0x0F) with (minor_version v).
  2: { rewrite land_nibble. apply (Z.mod_unique _ _ (major_version v)); unfold version_byte; lia. }
  replace (Z.shiftr (Z.land (version_byte v) 0xF0) 4) with (major_version v); [destruct v; apply decodes_ret|].
  pose proof (land_field (version_byte v) 4 4) as Hl. change (Z.shiftl (Z.ones 4) 4) with 0xF0 in Hl. rewrite Hl by lia.
  rewrite Z.shiftr_div_pow2, Z.div_mul by lia. unfold version_byte. rewrite Z.div_add, (Z.div_small (minor_version v)) by lia.
  by rewrite Z.mod_small by lia.
Qed.
Next Obligation.
  unfold read at 1, codec_TdispVersion. eapply reads_bind; [apply reads_u8|]. intros x Hx. apply reads_ret.
  unfold version_wf, in_width in *. cbn [major_version minor_version]. split.
  - pose proof (land_field x 4 4) as Hl. change (Z.shiftl (Z.ones 4) 4) with 0xF0 in Hl. rewrite Hl by lia.
    rewrite Z.shiftr_div_pow2, Z.div_mul by lia. by apply Z.mod_pos_bound.
  - rewrite land_nibble. by apply Z.mod_pos_bound.
Qed.
#[export] Program Instance codec_ok_TdispMessageHeader : CodecOk TdispMessageHeader :=
  {| wf h := wf (tdisp_version h) ∧ wf (message_type h) ∧ wf (interface_id h);
     bytes h := [TDISP_PROTOCOL_ID] ++ bytes (tdisp_version h) ++ bytes (message_type h) ++ le_bytes 2 0 ++
                bytes (interface_id h) |}.
Next Obligation. intros h (? & ? & ?). msg_bytes. Qed.
Next Obligation. intros h (? & ? & ?). unfold encode at 1, codec_TdispMessageHeader. solve_writes. Qed.
Next Obligation.
  intros h (? & ? & ?). unfold read at 1, codec_TdispMessageHeader. dec_step. apply decodes_reject; [done|]. msg_decodes. by destruct h.
Qed.
Next Obligation. unfold read at 1, codec_TdispMessageHeader. msg_reads. by split_and!. Qed.
Lemma header_len (h : TdispMessageHeader) : len (bytes h) = 17.
Proof. done. Qed.
Lemma header_of_wf t i : wf i → wf (header_of t i).
Proof. by intros Hi. Qed.
#[export] Hint Resolve header_of_wf : msg.

(** *** Arrays of bytes *)
Definition byte_list (n : Z) (l : list Z) : Prop := len l = n ∧ bytes_wf l.
Lemma encode_byte_list l n : byte_list n l → writes EncodeErr_ (encode_array (A:=u8) l) l n.
Proof.
  intros [<- Hw]. pose proof (encode_all_ok (A:=u8) l Hw) as He. rewrite seq_bytes_u8 in He. exact He.
Qed.
Lemma read_byte_list l n : byte_list n l → decodes (read_array (0 : u8) (Z.to_nat n)) l l.
Proof.
  intros [<- Hw]. pose proof (decodes_array (A:=u8) 0 (Z.to_nat (len l)) l) as Hd. rewrite seq_bytes_u8 in Hd.
  apply Hd; [unfold len; by rewrite Nat2Z.id|exact Hw].
Qed.
Lemma reads_byte_list n : 0 ≤ n → reads (read_array (0 : u8) (Z.to_nat n)) (byte_list n).
Proof.
  intros Hn. eapply reads_weaken; [apply reads_array|]. intros l [Hl Hw]. split; [|exact Hw].
  unfold len. change (Z.of_nat (length (l : list u8)) = n). rewrite Hl. lia.
Qed.
Lemma byte_list_wf n l : byte_list n l → bytes_wf l.
Proof. by intros []. Qed.
#[export] Hint Resolve byte_list_wf : msg.

(** *** Versions and capabilities *)
Lemma read_versioned_ok t i : wf i → decodes (read_versioned t) (bytes (header_of t i)) i.
Proof.
  intros Hi. unfold read_versioned. eapply decodes_last; [by apply read_ok, header_of_wf|]. cbv beta.
  apply decodes_reject; [done|]. apply decodes_reject; [|apply decodes_ret]. apply bool_decide_eq_false. by intros [].
Qed.
Lemma read_versioned_safe t : reads (read_versioned t) wf.
Proof. unfold read_versioned. msg_reads. by match goal with Hh : wf _ |- _ => destruct Hh as (_ & _ & ?) end. Qed.
#[export] Program Instance codec_ok_ReqGetTdispVersion : CodecOk ReqGetTdispVersion :=
  {| wf m := wf (gv_interface_id m); bytes m := bytes (header_of GET_TDISP_VERSION (gv_interface_id m)) |}.
Next Obligation. intros m Hm. by apply bytes_ok, header_of_wf. Qed.
Next Obligation. intros m Hm. apply (encode_ok (header_of GET_TDISP_VERSION (gv_interface_id m))). by apply header_of_wf. Qed.
Next Obligation.
  intros m Hm. unfold read at 1, codec_ReqGetTdispVersion. eapply decodes_last; [by apply read_versioned_ok|]. destruct m. apply decodes_ret.
Qed.
Next Obligation. unfold read at 1, codec_ReqGetTdispVersion. eapply reads_bind; [apply read_versioned_safe|]. intros i Hi. by apply reads_ret. Qed.

Definition versions_wf (m : RspTdispVersion) : Prop :=
  wf (vr_interface_id m) ∧ in_width 8 (version_num_count m) ∧
  front (version_num_count m) MAX_TDISP_VERSION_COUNT TdispVersion_default wf (version_num_entry m).
Lemma front_forall {A} n cap (d : A) P l : front n cap d P l → Forall P (ztake n l).
Proof. intros (_ & vs & -> & Hl & Hw). by rewrite ztake_app'. Qed.
Definition versions_bytes (m : RspTdispVersion) : list Z :=
  bytes (header_of TDISP_VERSION (vr_interface_id m)) ++ [version_num_count m] ++
  front_bytes (version_num_count m) bytes (version_num_entry m).
Lemma versions_encode m :
  wf (vr_interface_id m) → Forall wf (ztake (version_num_count m) (version_num_entry m)) →
  encodes EncodeErr_ (encode m) (versions_bytes m).
Proof.
  intros Hi Hf. pose proof (encode_sum_ok _ Hf) as Hs. pose proof (header_of_wf TDISP_VERSION _ Hi).
  unfold encode at 1, codec_RspTdispVersion, versions_bytes. unfold encodes in *.
  eapply writes_eq; [repeat first [eapply writes_bind; [first [exact Hs|writes_step]|]|apply writes_ret]|by list_norm|].
  rewrite !len_app. unfold front_bytes, seq_bytes. zlia.
Qed.
Lemma versions_bytes_wf m :
  wf (vr_interface_id m) → in_width 8 (version_num_count m) →
  Forall wf (ztake (version_num_count m) (version_num_entry m)) → bytes_wf (versions_bytes m).
Proof.
  intros Hi Hn Hf. unfold versions_bytes. rewrite !bytes_wf_app.
  split_and!; [by apply bytes_ok, header_of_wf|by apply bytes_wf_u8|]. by apply (seq_bytes_wf _ Hf).
Qed.
#[export] Program Instance codec_ok_RspTdispVersion : CodecOk RspTdispVersion :=
  {| wf := versions_wf; bytes := versions_bytes |}.
Next Obligation. intros m (Hi & Hn & Hf). apply versions_bytes_wf; [done|done|by eapply front_forall]. Qed.
Next Obligation. intros m (Hi & Hn & Hf). apply versions_encode; [done|by eapply front_forall]. Qed.
Next Obligation.
  intros m (Hi & Hn & Hf). unfold read at 1, codec_RspTdispVersion. eapply decodes_bind; [by apply read_versioned_ok|]. dec_step.
  eapply (decodes_last _ _ (version_num_entry m)); [|destruct m; apply decodes_ret].
  apply (decodes_front read bytes wf (λ a Ha, read_ok a Ha)). exact Hf.
Qed.
Next Obligation.
  unfold read at 1, codec_RspTdispVersion. eapply reads_bind; [apply read_versioned_safe|]. intros i Hi. rd_step.
  eapply reads_bind; [apply (reads_front read wf read_safe)|].
  - unfold in_width, MAX_TDISP_VERSION_COUNT in *. lia.
  - intros l Hl. apply reads_ret. by split_and!.
Qed.

#[export] Program Instance codec_ok_ReqGetTdispCapabilities : CodecOk ReqGetTdispCapabilities :=
  {| wf m := wf (gc_header m) ∧ in_width 32 (tsm_caps m); bytes m := bytes (gc_header m) ++ le_bytes 4 (tsm_caps m) |}.
Next Obligation. intros m (? & ?). msg_bytes. Qed.
Next Obligation. intros m (? & ?). unfold encode at 1, codec_ReqGetTdispCapabilities. solve_writes. Qed.
Next Obligation. intros m (? & ?). unfold read at 1, codec_ReqGetTdispCapabilities. msg_decodes. by destruct m. Qed.
Next Obligation. unfold read at 1, codec_ReqGetTdispCapabilities. msg_reads. by split_and!. Qed.
#[export] Program Instance codec_ok_RspTdispCapabilities : CodecOk RspTdispCapabilities :=
  {| wf m := wf (cp_header m) ∧ in_width 32 (dsm_caps m) ∧ byte_list 16 (req_msgs_supported m) ∧
             wf (lock_interface_flags_supported m) ∧ in_width 8 (dev_addr_width m) ∧ in_width 8 (num_req_this m) ∧
             in_width 8 (num_req_all m);
     bytes m := bytes (cp_header m) ++ le_bytes 4 (dsm_caps m) ++ req_msgs_supported m ++
                bytes (lock_interface_flags_supported m) ++ le_bytes 3 0 ++ [dev_addr_width m] ++ [num_req_this m] ++
                [num_req_all m] |}.
Next Obligation. intros m (? & ? & ? & ? & ? & ? & ?). msg_bytes. Qed.
Next Obligation.
  intros m (? & ? & Hl & ? & ? & ? & ?). pose proof (encode_byte_list _ _ Hl) as Hs. destruct Hl as [Hl _].
  unfold encode at 1, codec_RspTdispCapabilities, encodes.
  eapply writes_eq; [repeat first [eapply writes_bind; [first [exact Hs|writes_step]|]|apply writes_ret]|by list_norm|zlia].
Qed.
Next Obligation.
  intros m (? & ? & ? & ? & ? & ? & ?). unfold read at 1, codec_RspTdispCapabilities. do 2 dec_step.
  eapply decodes_bind; [by apply (read_byte_list _ 16)|]. msg_decodes. by destruct m.
Qed.
Next Obligation.
  unfold read at 1, codec_RspTdispCapabilities. do 2 rd_step. eapply reads_bind; [by apply (reads_byte_list 16)|]. intros ? ?.
  msg_reads. by split_and!.
Qed.

(** *** The other messages *)
#[export] Program Instance codec_ok_ReqLockInterfaceRequest : CodecOk ReqLockInterfaceRequest :=
  {| wf m := wf (lk_header m) ∧ wf (lk_flags m) ∧ in_width 8 (default_stream_id m) ∧
             in_width 64 (mmio_reporting_offset m) ∧ in_width 64 (bind_p2p_address_mask m);
     bytes m := bytes (lk_header m) ++ bytes (lk_flags m) ++ [default_stream_id m] ++ [0] ++
                le_bytes 8 (mmio_reporting_offset m) ++ le_bytes 8 (bind_p2p_address_mask m) |}.
Next Obligation. intros m (? & ? & ? & ? & ?). msg_bytes. Qed.
Next Obligation. intros m (? & ? & ? & ? & ?). unfold encode at 1, codec_ReqLockInterfaceRequest. solve_writes. Qed.
Next Obligation.
  intros m (? & ? & ? & ? & ?). unfold read at 1, codec_ReqLockInterfaceRequest. do 4 dec_step. do 2 u64_step. destruct m. apply decodes_ret.
Qed.
Next Obligation. unfold read at 1, codec_ReqLockInterfaceRequest. msg_reads. by split_and!. Qed.
#[export] Program Instance codec_ok_nonce_message : CodecOk nonce_message :=
  {| wf m := wf (nm_header m) ∧ byte_list START_INTERFACE_NONCE_LEN (start_interface_nonce m);
     bytes m := bytes (nm_header m) ++ start_interface_nonce m |}.
Next Obligation. intros m (? & ?). msg_bytes. Qed.
Next Obligation.
  intros m (? & Hl). pose proof (encode_byte_list _ _ Hl) as Hs. destruct Hl as [Hl _].
  unfold encode at 1, codec_nonce_message, encodes.
  eapply writes_eq; [repeat first [eapply writes_bind; [first [exact Hs|writes_step]|]|apply writes_ret]|by list_norm|zlia].
Qed.
Next Obligation.
  intros m (? & ?). unfold read at 1, codec_nonce_message. dec_step. eapply decodes_last; [by apply read_byte_list|]. destruct m. apply decodes_ret.
Qed.
Next Obligation.
  unfold read at 1, codec_nonce_message. rd_step. eapply reads_bind; [by apply reads_byte_list|]. intros ? ?. by apply reads_ret.
Qed.
#[export] Program Instance codec_ok_ReqGetDeviceInterfaceReport : CodecOk ReqGetDeviceInterfaceReport :=
  {| wf m := wf (gr_header m) ∧ in_width 16 (gr_offset m) ∧ in_width 16 (gr_length m);
     bytes m := bytes (gr_header m) ++ le_bytes 2 (gr_offset m) ++ le_bytes 2 (gr_length m) |}.
Next Obligation. intros m (? & ? & ?). msg_bytes. Qed.
Next Obligation. intros m (? & ? & ?). unfold encode at 1, codec_ReqGetDeviceInterfaceReport. solve_writes. Qed.
Next Obligation. intros m (? & ? & ?). unfold read at 1, codec_ReqGetDeviceInterfaceReport. msg_decodes. by destruct m. Qed.
Next Obligation. unfold read at 1, codec_ReqGetDeviceInterfaceReport. msg_reads. by split_and!. Qed.
Definition report_wf (m : RspDeviceInterfaceReport) : Prop :=
  wf (rr_header m) ∧ in_width 16 (portion_length m) ∧ in_width 16 (remainder_length m) ∧
  padded (portion_length m) MAX_PORTION_LENGTH (report m).
#[export] Program Instance codec_ok_RspDeviceInterfaceReport : CodecOk RspDeviceInterfaceReport :=
  {| wf := report_wf;
     bytes m := bytes (rr_header m) ++ le_bytes 2 (portion_length m) ++ le_bytes 2 (remainder_length m) ++
                ztake (portion_length m) (report m) |}.
Next Obligation. intros m (? & ? & ? & (_ & _ & _ & Hw)). msg_bytes. Qed.
Next Obligation. intros m (? & ? & ? & ?). unfold encode at 1, codec_RspDeviceInterfaceReport. solve_writes. Qed.
Next Obligation.
  intros m (? & ? & ? & Hp). unfold read at 1, codec_RspDeviceInterfaceReport. do 3 dec_step.
  apply decodes_reject; [apply Z.ltb_ge, Hp|]. eapply decodes_last; [by apply decodes_padded|]. destruct m. apply decodes_ret.
Qed.
Next Obligation.
  unfold read at 1, codec_RspDeviceInterfaceReport. do 4 rd_step. rewrite Z.ltb_ge in *. unfold in_width in *.
  eapply reads_bind; [apply reads_padded; lia|]. intros l Hl. apply reads_ret. by split_and!.
Qed.
#[export] Program Instance codec_ok_RspDeviceInterfaceState : CodecOk RspDeviceInterfaceState :=
  {| wf m := wf (ds_header m) ∧ wf (tdi_state m); bytes m := bytes (ds_header m) ++ bytes (tdi_state m) |}.
Next Obligation. intros m (? & ?). msg_bytes. Qed.
Next Obligation. intros m (? & ?). unfold encode at 1, codec_RspDeviceInterfaceState. solve_writes. Qed.
Next Obligation. intros m (? & ?). unfold read at 1, codec_RspDeviceInterfaceState. msg_decodes. by destruct m. Qed.
Next Obligation. unfold read at 1, codec_RspDeviceInterfaceState. msg_reads. by split_and!. Qed.
#[export] Program Instance codec_ok_header_message : CodecOk header_message :=
  {| wf m := wf (hm_header m); bytes m := bytes (hm_header m) |}.
Next Obligation. intros m Hm. by apply bytes_ok. Qed.
Next Obligation. intros m Hm. by apply (encode_ok (hm_header m)). Qed.
Next Obligation. intros m Hm. unfold read at 1, codec_header_message. dec_step. destruct m. apply decodes_ret. Qed.
Next Obligation. unfold read at 1, codec_header_message. msg_reads. done. Qed.
#[export] Program Instance codec_ok_stream_message : CodecOk stream_message :=
  {| wf m := wf (sm_header m) ∧ in_width 8 (p2p_stream_id m); bytes m := bytes (sm_header m) ++ [p2p_stream_id m] |}.
Next Obligation. intros m (? & ?). msg_bytes. Qed.
Next Obligation. intros m (? & ?). unfold encode at 1, codec_stream_message. solve_writes. Qed.
Next Obligation. intros m (? & ?). unfold read at 1, codec_stream_message. msg_decodes. by destruct m. Qed.
Next Obligation. unfold read at 1, codec_stream_message. msg_reads. by split_and!. Qed.
#[export] Program Instance codec_ok_TdispMmioRange : CodecOk TdispMmioRange :=
  {| wf m := in_width 64 (first_page_with_offset_added m) ∧ in_width 32 (number_of_pages m) ∧
             wf (range_attributes m) ∧ in_width 16 (range_id m);
     bytes m := le_bytes 8 (first_page_with_offset_added m) ++ le_bytes 4 (number_of_pages m) ++
                bytes (range_attributes m) ++ le_bytes 2 (range_id m) |}.
Next Obligation. intros m (? & ? & ? & ?). msg_bytes. Qed.
Next Obligation. intros m (? & ? & ? & ?). unfold encode at 1, codec_TdispMmioRange. solve_writes. Qed.
Next Obligation. intros m (? & ? & ? & ?). unfold read at 1, codec_TdispMmioRange. u64_step. msg_decodes. by destruct m. Qed.
Next Obligation. unfold read at 1, codec_TdispMmioRange. msg_reads. by split_and!. Qed.
#[export] Program Instance codec_ok_ReqSetMmioAttributeRequest : CodecOk ReqSetMmioAttributeRequest :=
  {| wf m := wf (mm_header m) ∧ wf (mm_range m); bytes m := bytes (mm_header m) ++ bytes (mm_range m) |}.
Next Obligation. intros m (? & ?). msg_bytes. Qed.
Next Obligation. intros m (? & ?). unfold encode at 1, codec_ReqSetMmioAttributeRequest. solve_writes. Qed.
Next Obligation. intros m (? & ?). unfold read at 1, codec_ReqSetMmioAttributeRequest. msg_decodes. by destruct m. Qed.
Next Obligation. unfold read at 1, codec_ReqSetMmioAttributeRequest. msg_reads. by split_and!. Qed.
Definition tdisp_error_wf (m : RspTdispError) : Prop :=
  wf (te_header m) ∧ message_type (te_header m) = TDISP_ERROR ∧ wf (te_error_code m) ∧ in_width 32 (te_error_data m).
#[export] Program Instance codec_ok_RspTdispError : CodecOk RspTdispError :=
  {| wf := tdisp_error_wf;
     bytes m := bytes (te_header m) ++ bytes (te_error_code m) ++ le_bytes 4 (te_error_data m) |}.
Next Obligation. intros m (? & ? & ? & ?). msg_bytes. Qed.
Next Obligation. intros m (? & ? & ? & ?). unfold encode at 1, codec_RspTdispError. solve_writes. Qed.
Next Obligation.
  intros m (? & Ht & ? & ?). unfold read at 1, codec_RspTdispError. dec_step.
  apply decodes_reject; [apply bool_decide_eq_false; tauto|]. msg_decodes. by destruct m.
Qed.
Next Obligation.
  unfold read at 1, codec_RspTdispError. rd_step. eapply reads_bind; [apply reads_reject|]. intros ? Hr. cbv beta in Hr.
  apply bool_decide_eq_false, dec_stable in Hr. msg_reads. by split_and!.
Qed.

(** *** Reports *)
Definition tdi_report_wf (m : TdiReportStructure) : Prop :=
  wf (interface_info m) ∧ in_width 16 (msi_x_message_control m) ∧ in_width 16 (lnr_control m) ∧
  in_width 32 (tph_control m) ∧
  front (mmio_range_count m) MAX_MMIO_RANGE_COUNT TdispMmioRange_default wf (mmio_range m) ∧
  padded (device_specific_info_len m) MAX_DEVICE_SPECIFIC_INFO_LEN (device_specific_info m).
#[export] Program Instance codec_ok_TdiReportStructure : CodecOk TdiReportStructure :=
  {| wf := tdi_report_wf;
     bytes m := bytes (interface_info m) ++ le_bytes 2 0 ++ le_bytes 2 (msi_x_message_control m) ++
                le_bytes 2 (lnr_control m) ++ le_bytes 4 (tph_control m) ++ le_bytes 4 (mmio_range_count m) ++
                front_bytes (mmio_range_count m) bytes (mmio_range m) ++ le_bytes 4 (device_specific_info_len m) ++
                ztake (device_specific_info_len m) (device_specific_info m) |}.
Next Obligation.
  intros m (? & ? & ? & ? & Hf & (_ & _ & _ & Hw)).
  pose proof (seq_bytes_wf _ (front_forall _ _ _ _ _ Hf) : bytes_wf (front_bytes _ bytes _)). msg_bytes.
Qed.
Next Obligation.
  intros m (? & ? & ? & ? & Hf & ?). pose proof (encode_sum_ok _ (front_forall _ _ _ _ _ Hf)) as Hs.
  unfold encode at 1, codec_TdiReportStructure. unfold encodes in *.
  eapply writes_eq; [repeat first [eapply writes_bind; [first [exact Hs|writes_step]|]|apply writes_ret]|by list_norm|].
  rewrite !len_app. unfold front_bytes, seq_bytes. zlia.
Qed.
Next Obligation.
  intros m (? & ? & ? & ? & Hf & Hp). pose proof (proj1 Hf) as Hn. pose proof (proj1 Hp) as Hd.
  unfold MAX_MMIO_RANGE_COUNT, MAX_DEVICE_SPECIFIC_INFO_LEN in *.
  unfold read at 1, codec_TdiReportStructure. do 5 dec_step. eapply decodes_bind; [apply decodes_u32; unfold in_width; lia|]. cbv beta.
  apply decodes_reject; [apply Z.ltb_ge, Hn|].
  eapply (decodes_bind _ _ _ _ (mmio_range m)); [apply (decodes_front read bytes wf (λ a Ha, read_ok a Ha)); exact Hf|]. cbv beta.
  eapply decodes_bind; [apply decodes_u32; unfold in_width; lia|]. cbv beta. apply decodes_reject; [apply Z.ltb_ge, Hd|].
  eapply decodes_last; [by apply decodes_padded|]. destruct m. apply decodes_ret.
Qed.
Next Obligation.
  unfold read at 1, codec_TdiReportStructure. do 7 rd_step. rewrite Z.ltb_ge in *. unfold in_width in *.
  eapply reads_bind; [apply (reads_front read wf read_safe); lia|]. intros l Hl. do 2 rd_step. rewrite Z.ltb_ge in *. unfold in_width in *.
  eapply reads_bind; [apply reads_padded; lia|]. intros l' Hl'. apply reads_ret. by split_and!.
Qed.
End Tdisp.
