(* ===== verification/TdispReq.v ===== *)
(** * The TDISP requester

    Models src/tdisp/src/pci_tdisp_requester: a function per request, over a
    channel for vendor-defined messages.

    Proved: over a channel that ends at the dispatcher of a device, locking an
    interface, reading its report, starting and stopping it are the callbacks
    of the device, the nonce it issued comes back to it and the report arrives
    byte for byte; the error a device reports reaches the caller; an answer is
    accepted only with the version, the kind and the interface asked for; the
    loop that fetches a report ends when portions are not empty, and does not
    end against a device that keeps sending empty ones and announcing more. *)

From S2P Require Import Prelude Codec Status Bitflags Algo DataTypes Structs Version Session.
From S2P Require Import ContextData SpdmCodec MsgLib MsgMisc RspLaws Vdm IdeKm Tdisp TdispRsp.
Import Tdisp TdispRsp.

Module TdispReq.
(** How a request fails that has [tdisp_error_code] among its parameters: the
    status, and the code left there when the device answered with one. *)
Abbreviation tdisp_failure := (SpdmStatus * option TdispErrorCode)%type.

Section Requester.
Context {N : Type} `{VdmChannel N} (session_id : u32).
Definition exchange {A} `{Codec A} (a : A) : M N SpdmStatus VendorDefinedRspPayloadStruct :=
  let* p := lift (request_payload a) in
  send_receive_vdm (Some session_id) STANDARD_ID vendor_id p.
Definition header_matches (h : TdispMessageHeader) (t : TdispRequestResponseCode) (i : InterfaceId) : bool :=
  negb (bool_decide (tdisp_version h ≠ mkTdispVersion 1 0) || bool_decide (message_type h ≠ t)
        || bool_decide (interface_id h ≠ i)).
Definition check_header (h : TdispMessageHeader) (t : TdispRequestResponseCode) (i : InterfaceId) : M N SpdmStatus unit :=
  if header_matches h t i then ret tt else throw SPDM_STATUS_INVALID_MSG_FIELD.
(** [if let Ok(tdisp_error) = RspTdispError::read_bytes(..)] *)
Definition check_error (r : VendorDefinedRspPayloadStruct) : M N tdisp_failure unit :=
  match parse_bytes RspTdispError r with
  | Ok e => throw (SPDM_STATUS_ERROR_PEER, Some (te_error_code e))
  | Err _ => ret tt
  | Panic => panic
  end.
Definition plain {A} (m : M N SpdmStatus A) : M N tdisp_failure A := map_errM (λ st, (st, None)) m.

Definition pci_tdisp_req_get_tdisp_version (i : InterfaceId) : M N SpdmStatus unit :=
  let* r := exchange (mkGetVersion i) in
  let* m := lift (parse_payload RspTdispVersion r) in
  if bool_decide (vr_interface_id m ≠ i) then throw SPDM_STATUS_INVALID_MSG_FIELD else
  let* v := lift (or_panic (znth (version_num_entry m) 0)) in
  if (version_num_count m =? 1) && bool_decide (v = mkTdispVersion 1 0) then ret tt
  else throw SPDM_STATUS_INVALID_MSG_FIELD.
Definition pci_tdisp_req_get_tdisp_capabilities (tsm_caps : u32) (i : InterfaceId) :
    M N SpdmStatus (u32 * LockInterfaceFlag * u8 * u8 * u8 * list Z) :=
  let* r := exchange (mkGetTdispCaps (header_of GET_TDISP_CAPABILITIES i) tsm_caps) in
  let* m := lift (parse_payload RspTdispCapabilities r) in
  let* _ := check_header (cp_header m) TDISP_CAPABILITIES i in
  ret (dsm_caps m, lock_interface_flags_supported m, dev_addr_width m, num_req_this m, num_req_all m,
       req_msgs_supported m).
Definition pci_tdisp_req_lock_interface_request (i : InterfaceId) (flags : LockInterfaceFlag) (default_stream_id : u8)
    (mmio_reporting_offset bind_p2p_address_mask : u64) : M N tdisp_failure (list Z) :=
  let* r := plain (exchange (mkLock (header_of LOCK_INTERFACE_REQUEST i) flags default_stream_id
                               mmio_reporting_offset bind_p2p_address_mask)) in
  let* _ := check_error r in
  let* m := plain (lift (parse_payload RspLockInterfaceResponse r)) in
  let* _ := plain (check_header (nm_header m) LOCK_INTERFACE_RESPONSE i) in
  ret (start_interface_nonce m).
Definition pci_tdisp_req_get_device_interface_state (i : InterfaceId) : M N SpdmStatus TdiState :=
  let* r := exchange (mkHeaderMessage (header_of GET_DEVICE_INTERFACE_STATE i)) in
  let* m := lift (parse_payload RspDeviceInterfaceState r) in
  let* _ := check_header (ds_header m) DEVICE_INTERFACE_STATE i in
  ret (tdi_state m).
(** The requests that are acknowledged with a header. *)
Definition acknowledged {A} `{Codec A} (a : A) (t : TdispRequestResponseCode) (i : InterfaceId) : M N tdisp_failure unit :=
  let* r := plain (exchange a) in
  let* _ := check_error r in
  let* m := plain (lift (parse_payload header_message r)) in
  plain (check_header (hm_header m) t i).
Definition pci_tdisp_req_start_interface_request (i : InterfaceId) (nonce : list Z) : M N tdisp_failure unit :=
  acknowledged (mkNonceMessage (header_of START_INTERFACE_REQUEST i) nonce : ReqStartInterfaceRequest)
    START_INTERFACE_RESPONSE i.
Definition pci_tdisp_req_stop_interface_request (i : InterfaceId) : M N SpdmStatus unit :=
  let* r := exchange (mkHeaderMessage (header_of STOP_INTERFACE_REQUEST i)) in
  let* m := lift (parse_payload RspStopInterfaceResponse r) in
  check_header (hm_header m) STOP_INTERFACE_RESPONSE i.
Definition pci_tdisp_req_bind_p2p_stream_request (i : InterfaceId) (p2p_stream_id : u8) : M N tdisp_failure unit :=
  acknowledged (mkStreamMessage (header_of BIND_P2P_STREAM_REQUEST i) p2p_stream_id) BIND_P2P_STREAM_RESPONSE i.
Definition pci_tdisp_req_unbind_p2p_stream_request (i : InterfaceId) (p2p_stream_id : u8) : M N tdisp_failure unit :=
  acknowledged (mkStreamMessage (header_of UNBIND_P2P_STREAM_REQUEST i) p2p_stream_id) UNBIND_P2P_STREAM_RESPONSE i.
Definition pci_tdisp_req_set_mmio_attribute_request (i : InterfaceId) (mmio_range : TdispMmioRange) :
    M N tdisp_failure unit :=
  acknowledged (mkSetMmio (header_of SET_MMIO_ATTRIBUTE_REQUEST i) mmio_range) SET_MMIO_ATTRIBUTE_RESPONSE i.
Definition pci_tdisp_req_vdm_request (p : VendorDefinedReqPayloadStruct) : M N SpdmStatus VendorDefinedRspPayloadStruct :=
  let* protocol := lift (or_panic (znth (vp_payload p) 0)) in
  if (vp_length p <? 1) || negb (protocol =? TDISP_PROTOCOL_ID) then throw SPDM_STATUS_INVALID_PARAMETER
  else send_receive_vdm (Some session_id) STANDARD_ID vendor_id p.

(** One round of the loop of [pci_tdisp_req_get_device_interface_report]: the
    message, when it is accepted. *)
Definition report_round (i : InterfaceId) (offset : u16) : M N tdisp_failure RspDeviceInterfaceReport :=
  let* r := plain (exchange (mkGetReport (header_of GET_DEVICE_INTERFACE_REPORT i) offset (wrap 16 MAX_PORTION_LENGTH))) in
  let* _ := check_error r in
  let* m := plain (lift (parse_payload RspDeviceInterfaceReport r)) in
  let* _ := plain (check_header (rr_header m) DEVICE_INTERFACE_REPORT i) in
  ret m.
(** The loop; [None] when [fuel] rounds were not enough. *)
Fixpoint report_loop (fuel : nat) (i : InterfaceId) (offset : u16) (walker : usize) (buf : list Z) :
    M N tdisp_failure (option (list Z * usize)) :=
  match fuel with
  | O => ret None
  | S fuel =>
      let* m := report_round i offset in
      if MAX_DEVICE_REPORT_BUFFER <? walker + portion_length m + remainder_length m
      then throw (SPDM_STATUS_BUFFER_FULL, None) else
      let* part := lift (or_panic (slice (report m) 0 (portion_length m))) in
      let* buf := lift (or_panic (copy_from_slice buf walker (walker + portion_length m) part)) in
      let walker := walker + portion_length m in
      if negb (remainder_length m =? 0) then
        let* offset := lift (add_checked 16 offset (portion_length m)) in
        report_loop fuel i offset walker buf
      else ret (Some (buf, walker))
  end.
Definition pci_tdisp_req_get_device_interface_report_with (fuel : nat) (i : InterfaceId) (buf : list Z) :
    M N tdisp_failure (option (list Z * usize)) :=
  report_loop fuel i 0 0 buf.
End Requester.

(** ** The responder's side of an exchange *)
Section Answers.
Context {W : Type} `{TdispDevice W} (h : usize).
Implicit Types w : W.
Lemma dispatch_code (hd : TdispMessageHeader) rest w :
  let p := payload_of (bytes hd ++ rest) in
  pci_tdisp_rsp_dispatcher h vendor_id p w = handler_of h (message_type hd) p w.
Proof.
  intros p. unfold pci_tdisp_rsp_dispatcher. change (znth (vp_payload p) 0) with (Some TDISP_PROTOCOL_ID).
  change (znth (vp_payload p) 2) with (Some (into (message_type hd))). cbn [or_panic]. rewrite (bind_lift _ _ _ _ eq_refl).
  assert ((vp_length p <? 3) = false) as ->.
  2: { change (false || negb (vendor_id_eqb vendor_id vendor_id) || negb (TDISP_PROTOCOL_ID =? TDISP_PROTOCOL_ID)) with false. cbv iota.
       rewrite (bind_lift _ _ _ _ eq_refl). by rewrite (try_into (w:=8)). }
  apply Z.ltb_ge. change (vp_length p) with (len (bytes hd ++ rest)). pose proof (len_nonneg rest). rewrite len_app, header_len. lia.
Qed.
Lemma respond_run {A} `{CodecOk A} (a : A) w :
  wf a → len (bytes a) ≤ MAX_SPDM_VENDOR_DEFINED_PAYLOAD_SIZE → respond h None a w = (Ok (payload_of (bytes a)), w).
Proof. intros Ha Hl. unfold respond, lift. by rewrite (response_payload_ok _ _ (encode_ok _ Ha)). Qed.
Lemma header_fits (hd : TdispMessageHeader) : len (bytes (mkHeaderMessage hd)) ≤ MAX_SPDM_VENDOR_DEFINED_PAYLOAD_SIZE.
Proof. change (len (bytes hd) ≤ MAX_SPDM_VENDOR_DEFINED_PAYLOAD_SIZE). rewrite header_len. done. Qed.
Lemma acknowledge_run {A} `{CodecOk A} (dev : A → M W SpdmStatus (InterfaceId * option TdispErrorCode)) a code i w w' :
  wf a → wf i → dev a w = (Ok (i, None), w') →
  (let* r := lift (parse_payload A (payload_of (bytes a))) in
   let* (interface_id, e) := dev r in
   respond h e (mkHeaderMessage (header_of code interface_id))) w = (Ok (payload_of (bytes (header_of code i))), w').
Proof.
  intros Ha Hi Hd. rewrite (bind_lift _ _ _ _ (parse_payload_at _ _ (read_bytes_ok _ Ha))). unfold bind. rewrite Hd.
  exact (respond_run (mkHeaderMessage (header_of code i)) w' (header_of_wf code i Hi) (header_fits _)).
Qed.
(** The device reports an error. *)
Lemma refuse_run {A} `{CodecOk A} (dev : A → M W SpdmStatus (InterfaceId * option TdispErrorCode)) a code i j e w w1 w' :
  wf a → wf j → dev a w = (Ok (i, Some e), w1) → pci_tdisp_device_error h w1 = (Ok j, w') →
  (let* r := lift (parse_payload A (payload_of (bytes a))) in
   let* (interface_id, e) := dev r in
   respond h e (mkHeaderMessage (header_of code interface_id))) w =
  (Ok (payload_of (bytes (mkTdispError (header_of TDISP_ERROR j) e 0))), w').
Proof.
  intros Ha Hj Hd He. rewrite (bind_lift _ _ _ _ (parse_payload_at _ _ (read_bytes_ok _ Ha))). unfold bind. rewrite Hd.
  by apply error_response_run.
Qed.
Lemma lock_run m i nonce w w' :
  wf m → message_type (lk_header m) = LOCK_INTERFACE_REQUEST → wf i → byte_list START_INTERFACE_NONCE_LEN nonce →
  pci_tdisp_device_lock_interface h (lk_flags m) (default_stream_id m) (mmio_reporting_offset m) (bind_p2p_address_mask m) w
    = (Ok (i, nonce, None), w') →
  pci_tdisp_rsp_dispatcher h vendor_id (payload_of (bytes m)) w =
  (Ok (payload_of (bytes (mkNonceMessage (header_of LOCK_INTERFACE_RESPONSE i) nonce))), w').
Proof.
  intros Hm Ht Hi Hn Hd. unfold bytes at 1, codec_ok_ReqLockInterfaceRequest. rewrite dispatch_code, Ht. cbn [handler_of].
  unfold pci_tdisp_rsp_lock_interface. rewrite (bind_lift _ _ _ _ (parse_payload_at _ _ (read_bytes_ok _ Hm))). unfold bind. rewrite Hd.
  apply respond_run; [split; [by apply header_of_wf|done]|]. destruct Hn as [Hn _].
  change (len (bytes (header_of LOCK_INTERFACE_RESPONSE i) ++ nonce) ≤ MAX_SPDM_VENDOR_DEFINED_PAYLOAD_SIZE).
  rewrite len_app, header_len, Hn. done.
Qed.
Lemma report_len (m : RspDeviceInterfaceReport) : wf m → len (bytes m) = 21 + portion_length m.
Proof.
  intros (_ & _ & _ & Hp). unfold bytes at 1, codec_ok_RspDeviceInterfaceReport. rewrite !len_app, header_len, !len_le_bytes.
  rewrite (padded_len _ _ _ Hp). lia.
Qed.
Lemma report_fits (m : RspDeviceInterfaceReport) : wf m → len (bytes m) ≤ MAX_SPDM_VENDOR_DEFINED_PAYLOAD_SIZE.
Proof.
  intros Hm. rewrite report_len by done. destruct Hm as (_ & _ & _ & [Hp _]). unfold MAX_PORTION_LENGTH, MAX_DEVICE_REPORT_BUFFER in *. lia.
Qed.
Lemma report_run m i rep size w w' :
  wf m → message_type (gr_header m) = GET_DEVICE_INTERFACE_REPORT → wf i → byte_list MAX_DEVICE_REPORT_BUFFER rep →
  gr_offset m ≤ size ≤ MAX_DEVICE_REPORT_BUFFER →
  pci_tdisp_device_interface_report h w = (Ok (i, rep, size, None), w') →
  pci_tdisp_rsp_dispatcher h vendor_id (payload_of (bytes m)) w =
  (Ok (payload_of (bytes (portion_report i m rep size))), w').
Proof.
  intros Hm Ht Hi Hrep Hs Hd. unfold bytes at 1, codec_ok_ReqGetDeviceInterfaceReport. rewrite dispatch_code, Ht. cbn [handler_of].
  unfold pci_tdisp_rsp_interface_report. rewrite (bind_lift _ _ _ _ (parse_payload_at _ _ (read_bytes_ok _ Hm))). unfold bind at 1. rewrite Hd.
  rewrite (bind_lift _ _ _ _ (report_portion_ok m rep size Hm Hrep Hs i)). unfold lift.
  pose proof (portion_report_wf m rep size Hm Hrep Hs i Hi) as Hw. by rewrite (response_payload_ok _ _ (encode_ok _ Hw) (report_fits _ Hw)).
Qed.
End Answers.

(** ** The requester's side *)
Lemma max_portion : wrap 16 MAX_PORTION_LENGTH = MAX_PORTION_LENGTH.
Proof. done. Qed.
Section Takes.
Context {N : Type} `{VdmChannel N}.
Implicit Types n : N.
Lemma bind_plain {A B} (m : M N SpdmStatus A) (k : A → M N tdisp_failure B) n a n' :
  m n = (Ok a, n') → bind (plain m) k n = k a n'.
Proof. intros Hm. unfold bind, plain, map_errM. by rewrite Hm. Qed.
Lemma check_header_run t i n : check_header (header_of t i) t i n = (Ok tt, n).
Proof. unfold check_header, header_matches. by rewrite !bool_decide_eq_false_2 by (by intros []). Qed.
Lemma not_error (hd : TdispMessageHeader) rest :
  wf hd → message_type hd ≠ TDISP_ERROR → bytes_wf rest → parse_bytes RspTdispError (payload_of (bytes hd ++ rest)) = Err tt.
Proof.
  intros Hh Ht Hr. unfold parse_bytes. assert (bytes_wf (bytes hd ++ rest)) as Hb by (apply bytes_wf_app; split; [by apply bytes_ok|done]).
  pose proof (len_nonneg (bytes hd ++ rest)). pose proof (len_nonneg (zeros (MAX_SPDM_VENDOR_DEFINED_PAYLOAD_SIZE - len (bytes hd ++ rest)))).
  unfold payload_of. cbn [vp_payload vp_length]. rewrite slice_spec by (rewrite ?(len_app (_ ++ _)); lia).
  rewrite zdrop_0, Z.sub_0_r, ztake_app. cbn [or_panic obind]. unfold read_bytes, read at 1, codec_RspTdispError. unfold bind at 1.
  rewrite (read_ok hd Hh (Reader.init (bytes hd ++ rest)) rest) by (done || by apply reader_init_wf).
  rewrite bool_decide_eq_true_2 by done. done.
Qed.
Lemma check_error_passes (hd : TdispMessageHeader) rest n :
  wf hd → message_type hd ≠ TDISP_ERROR → bytes_wf rest → check_error (payload_of (bytes hd ++ rest)) n = (Ok tt, n).
Proof. intros Hh Ht Hr. unfold check_error. by rewrite not_error. Qed.
Lemma check_error_reports i e n :
  wf i → check_error (payload_of (bytes (mkTdispError (header_of TDISP_ERROR i) e 0))) n = (Err (SPDM_STATUS_ERROR_PEER, Some e), n).
Proof.
  intros Hi. assert (wf (mkTdispError (header_of TDISP_ERROR i) e 0)) as Hm by by split_and!.
  unfold check_error. by rewrite (parse_bytes_at _ _ (read_bytes_ok _ Hm)).
Qed.
Lemma parse_header_message (hd : TdispMessageHeader) : wf hd → parse_payload header_message (payload_of (bytes hd)) = Ok (mkHeaderMessage hd).
Proof. intros Hh. exact (parse_payload_at (mkHeaderMessage hd) (bytes hd) (read_bytes_ok (mkHeaderMessage hd) Hh)). Qed.
Lemma acknowledged_run {A} `{Codec A} session_id (a : A) t i n n' :
  wf i → t ≠ TDISP_ERROR → exchange session_id a n = (Ok (payload_of (bytes (header_of t i))), n') →
  acknowledged session_id a t i n = (Ok tt, n').
Proof.
  intros Hi Ht He. unfold acknowledged. rewrite (bind_plain _ _ _ _ _ He). unfold bind at 1.
  rewrite <- (app_nil_r (bytes (header_of t i))), check_error_passes; [|by apply header_of_wf|done|constructor]. rewrite app_nil_r.
  erewrite bind_plain; [|unfold lift; by rewrite parse_header_message by by apply header_of_wf].
  unfold plain, map_errM. cbn [hm_header]. by rewrite check_header_run.
Qed.
Lemma refused_run {A} `{Codec A} session_id (a : A) t i j e n n' :
  wf j → exchange session_id a n = (Ok (payload_of (bytes (mkTdispError (header_of TDISP_ERROR j) e 0))), n') →
  acknowledged session_id a t i n = (Err (SPDM_STATUS_ERROR_PEER, Some e), n').
Proof. intros Hj He. unfold acknowledged. rewrite (bind_plain _ _ _ _ _ He). unfold bind at 1. by rewrite check_error_reports. Qed.
Lemma report_round_run session_id (m : RspDeviceInterfaceReport) offset n n' :
  let i := interface_id (rr_header m) in
  exchange session_id (mkGetReport (header_of GET_DEVICE_INTERFACE_REPORT i) offset MAX_PORTION_LENGTH) n = (Ok (payload_of (bytes m)), n') →
  wf m → rr_header m = header_of DEVICE_INTERFACE_REPORT i → report_round session_id i offset n = (Ok m, n').
Proof.
  intros i He Hm Hh. unfold report_round. rewrite max_portion. rewrite (bind_plain _ _ _ _ _ He). pose proof (bytes_ok m Hm) as Hb. apply bytes_wf_app in Hb as [_ Hb].
  assert (check_error (payload_of (bytes m)) n' = (Ok tt, n')) as Hc by (apply check_error_passes; [by destruct Hm|by rewrite Hh|exact Hb]).
  unfold bind at 1. rewrite Hc.
  erewrite bind_plain; [|unfold lift; by rewrite (parse_payload_at m _ (read_bytes_ok _ Hm))].
  rewrite Hh. erewrite bind_plain; [|apply check_header_run]. done.
Qed.
Lemma slice_prefix_zeros (l : list Z) k x : len l = x → slice (l ++ zeros k) 0 x = Some l.
Proof.
  intros <-. pose proof (len_nonneg l). pose proof (len_nonneg (zeros k)). rewrite slice_spec by (rewrite ?len_app; lia).
  by rewrite zdrop_0, Z.sub_0_r, ztake_app.
Qed.
End Takes.

(** ** Over a link *)
Section Link.
Context {N W : Type} `{TdispDevice W} `{VdmChannel N} (h : usize) (session_id : u32)
  `{!VdmLink N W session_id STANDARD_ID vendor_id (pci_tdisp_rsp_dispatcher h)}.
Implicit Types (n : N) (w : W) (rounds : nat).
Lemma exchange_run {A B} `{CodecOk A} `{CodecOk B} rounds (a : A) (b : B) n w :
  wf a → len (bytes a) ≤ link_limit → wf b → len (bytes b) ≤ link_limit →
  link_up (S rounds) n → pci_tdisp_rsp_dispatcher h vendor_id (payload_of (bytes a)) (link_world n) = (Ok (payload_of (bytes b)), w) →
  ∃ n', exchange session_id a n = (Ok (payload_of (bytes b)), n') ∧ link_up rounds n' ∧ link_world n' = w.
Proof.
  intros Ha Hal Hb Hbl Hn Hd.
  destruct (link_round session_id STANDARD_ID vendor_id _ rounds _ _ _ n w (encode_ok _ Ha) (bytes_ok _ Ha) Hal (bytes_ok _ Hb) Hbl Hn Hd)
    as (n' & Hn' & Hw & Hr).
  exists n'. split; [|done]. specialize (Hr _ ret). unfold bind in Hr at 1 2. unfold exchange, bind. revert Hr.
  unfold lift. destruct (request_payload a) as [p| |]; [|done..]. destruct (send_receive_vdm _ _ _ p n) as [[] ?]; cbn; [|done..]. by intros [= -> ->].
Qed.
Lemma nonce_fits (hd : TdispMessageHeader) nonce :
  len nonce = START_INTERFACE_NONCE_LEN → len (bytes (mkNonceMessage hd nonce)) ≤ link_limit.
Proof. intros Hn. apply link_fits. change (len (bytes hd ++ nonce) ≤ 128). by rewrite len_app, header_len, Hn. Qed.
Lemma header_small (hd : TdispMessageHeader) : len (bytes hd) ≤ 128.
Proof. by rewrite header_len. Qed.
Lemma lock_reaches rounds i flags s o k nonce n w :
  wf i → wf flags → in_width 8 s → in_width 64 o → in_width 64 k → byte_list START_INTERFACE_NONCE_LEN nonce → link_up (S rounds) n →
  pci_tdisp_device_lock_interface h flags s o k (link_world n) = (Ok (i, nonce, None), w) →
  ∃ n', pci_tdisp_req_lock_interface_request session_id i flags s o k n = (Ok nonce, n') ∧ link_up rounds n' ∧ link_world n' = w.
Proof.
  intros Hi Hf Hs Ho Hk Hn Hu Hd. pose proof Hn as [Hnl Hnw].
  assert (wf (mkLock (header_of LOCK_INTERFACE_REQUEST i) flags s o k)) as Hm by (split_and!; [by apply header_of_wf|done..]).
  assert (wf (mkNonceMessage (header_of LOCK_INTERFACE_RESPONSE i) nonce)) as Hr by (split; [by apply header_of_wf|done]).
  destruct (exchange_run (A:=ReqLockInterfaceRequest) (B:=nonce_message) rounds _ _ n w Hm ltac:(by apply link_fits) Hr (nonce_fits _ _ Hnl) Hu (lock_run h _ i nonce _ _ Hm eq_refl Hi Hn Hd)) as (n' & He & Hu' & Hw).
  exists n'. split; [|exact (conj Hu' Hw)]. unfold pci_tdisp_req_lock_interface_request. rewrite (bind_plain _ _ _ _ _ He). unfold bind at 1.
  change (bytes (mkNonceMessage (header_of LOCK_INTERFACE_RESPONSE i) nonce)) with (bytes (header_of LOCK_INTERFACE_RESPONSE i) ++ nonce) at 1.
  rewrite check_error_passes; [|by apply header_of_wf|done|exact Hnw].
  erewrite bind_plain; [|unfold lift; by rewrite (parse_payload_at (mkNonceMessage (header_of LOCK_INTERFACE_RESPONSE i) nonce) _ (read_bytes_ok _ Hr))].
  erewrite bind_plain; [|apply check_header_run]. done.
Qed.
Lemma acknowledged_reaches {A} `{CodecOk A} rounds (a : A) t i n w :
  wf a → len (bytes a) ≤ link_limit → wf i → t ≠ TDISP_ERROR → link_up (S rounds) n →
  pci_tdisp_rsp_dispatcher h vendor_id (payload_of (bytes a)) (link_world n) = (Ok (payload_of (bytes (header_of t i))), w) →
  ∃ n', acknowledged session_id a t i n = (Ok tt, n') ∧ link_up rounds n' ∧ link_world n' = w.
Proof.
  intros Ha Hl Hi Ht Hu Hd. pose proof (header_of_wf t i Hi) as Hh.
  destruct (exchange_run rounds a (header_of t i) n w Ha Hl Hh (link_fits _ _ _ _ _ (header_small _)) Hu Hd) as (n' & He & Hu' & Hw).
  exists n'. split; [|exact (conj Hu' Hw)]. by apply acknowledged_run.
Qed.
Lemma start_reaches rounds i nonce n w :
  wf i → byte_list START_INTERFACE_NONCE_LEN nonce → link_up (S rounds) n →
  pci_tdisp_device_start_interface h nonce (link_world n) = (Ok (i, None), w) →
  ∃ n', pci_tdisp_req_start_interface_request session_id i nonce n = (Ok tt, n') ∧ link_up rounds n' ∧ link_world n' = w.
Proof.
  intros Hi Hn Hu Hd. assert (wf (mkNonceMessage (header_of START_INTERFACE_REQUEST i) nonce)) as Hm by (split; [by apply header_of_wf|done]).
  apply acknowledged_reaches; [exact Hm|apply nonce_fits, Hn|exact Hi|done|exact Hu|]. unfold bytes at 1, codec_ok_nonce_message. rewrite dispatch_code.
  exact (acknowledge_run h (λ r, pci_tdisp_device_start_interface h (start_interface_nonce r)) _ START_INTERFACE_RESPONSE i _ _ Hm Hi Hd).
Qed.
Lemma bind_reaches rounds i s n w :
  wf i → in_width 8 s → link_up (S rounds) n → pci_tdisp_device_bind_p2p_stream h s (link_world n) = (Ok (i, None), w) →
  ∃ n', pci_tdisp_req_bind_p2p_stream_request session_id i s n = (Ok tt, n') ∧ link_up rounds n' ∧ link_world n' = w.
Proof.
  intros Hi Hs Hu Hd. assert (wf (mkStreamMessage (header_of BIND_P2P_STREAM_REQUEST i) s)) as Hm by (split; [by apply header_of_wf|done]).
  apply acknowledged_reaches; [exact Hm|by apply link_fits|exact Hi|done|exact Hu|]. unfold bytes at 1, codec_ok_stream_message. rewrite dispatch_code.
  exact (acknowledge_run h (λ r, pci_tdisp_device_bind_p2p_stream h (p2p_stream_id r)) _ BIND_P2P_STREAM_RESPONSE i _ _ Hm Hi Hd).
Qed.
Lemma unbind_reaches rounds i s n w :
  wf i → in_width 8 s → link_up (S rounds) n → pci_tdisp_device_unbind_p2p_stream h s (link_world n) = (Ok (i, None), w) →
  ∃ n', pci_tdisp_req_unbind_p2p_stream_request session_id i s n = (Ok tt, n') ∧ link_up rounds n' ∧ link_world n' = w.
Proof.
  intros Hi Hs Hu Hd. assert (wf (mkStreamMessage (header_of UNBIND_P2P_STREAM_REQUEST i) s)) as Hm by (split; [by apply header_of_wf|done]).
  apply acknowledged_reaches; [exact Hm|by apply link_fits|exact Hi|done|exact Hu|]. unfold bytes at 1, codec_ok_stream_message. rewrite dispatch_code.
  exact (acknowledge_run h (λ r, pci_tdisp_device_unbind_p2p_stream h (p2p_stream_id r)) _ UNBIND_P2P_STREAM_RESPONSE i _ _ Hm Hi Hd).
Qed.
Lemma set_mmio_reaches rounds i r n w :
  wf i → wf r → link_up (S rounds) n → pci_tdisp_device_set_mmio_attribute h r (link_world n) = (Ok (i, None), w) →
  ∃ n', pci_tdisp_req_set_mmio_attribute_request session_id i r n = (Ok tt, n') ∧ link_up rounds n' ∧ link_world n' = w.
Proof.
  intros Hi Hr Hu Hd. assert (wf (mkSetMmio (header_of SET_MMIO_ATTRIBUTE_REQUEST i) r)) as Hm by (split; [by apply header_of_wf|done]).
  apply acknowledged_reaches; [exact Hm|by apply link_fits|exact Hi|done|exact Hu|]. unfold bytes at 1, codec_ok_ReqSetMmioAttributeRequest. rewrite dispatch_code.
  exact (acknowledge_run h (λ m, pci_tdisp_device_set_mmio_attribute h (mm_range m)) _ SET_MMIO_ATTRIBUTE_RESPONSE i _ _ Hm Hi Hd).
Qed.
Lemma stop_reaches rounds i n w :
  wf i → link_up (S rounds) n → pci_tdisp_device_stop_interface h (link_world n) = (Ok (i, None), w) →
  ∃ n', pci_tdisp_req_stop_interface_request session_id i n = (Ok tt, n') ∧ link_up rounds n' ∧ link_world n' = w.
Proof.
  intros Hi Hu Hd. assert (wf (mkHeaderMessage (header_of STOP_INTERFACE_REQUEST i))) as Hm by by apply header_of_wf.
  pose proof (header_of_wf STOP_INTERFACE_RESPONSE i Hi) as Hh.
  destruct (exchange_run rounds _ (header_of STOP_INTERFACE_RESPONSE i) n w Hm (link_fits _ _ _ _ _ (header_small _)) Hh (link_fits _ _ _ _ _ (header_small _)) Hu) as (n' & He & Hu' & Hw).
  - change (bytes (mkHeaderMessage (header_of STOP_INTERFACE_REQUEST i))) with (bytes (header_of STOP_INTERFACE_REQUEST i)).
    rewrite <- (app_nil_r (bytes (header_of STOP_INTERFACE_REQUEST i))), dispatch_code, app_nil_r.
    exact (acknowledge_run h (λ _, pci_tdisp_device_stop_interface h) _ STOP_INTERFACE_RESPONSE i _ _ Hm Hi Hd).
  - exists n'. split; [|exact (conj Hu' Hw)]. unfold pci_tdisp_req_stop_interface_request, bind. rewrite He. unfold lift.
    rewrite parse_header_message by exact Hh. apply check_header_run.
Qed.
Lemma report_reaches rounds fuel i rep size buf n w :
  wf i → byte_list MAX_DEVICE_REPORT_BUFFER rep → 0 ≤ size ≤ MAX_DEVICE_REPORT_BUFFER → len buf = MAX_DEVICE_REPORT_BUFFER →
  21 + size ≤ link_limit → link_up (S rounds) n → pci_tdisp_device_interface_report h (link_world n) = (Ok (i, rep, size, None), w) →
  ∃ n', pci_tdisp_req_get_device_interface_report_with session_id (S fuel) i buf n = (Ok (Some (splice buf 0 (ztake size rep), size)), n') ∧
    link_up rounds n' ∧ link_world n' = w.
Proof.
  intros Hi Hrep Hs Hb Hlim Hu Hd. set (m := mkGetReport (header_of GET_DEVICE_INTERFACE_REPORT i) 0 MAX_PORTION_LENGTH).
  assert (wf m) as Hm by (split; [by apply header_of_wf|done]). assert (gr_offset m ≤ size ≤ MAX_DEVICE_REPORT_BUFFER) as Hs' by exact Hs.
  pose proof (portion_report_wf m rep size Hm Hrep Hs' i Hi) as Hw.
  assert (portion m size = size) as Hp by (unfold portion, m; cbn [gr_length gr_offset]; unfold MAX_PORTION_LENGTH; lia).
  assert (len (bytes (portion_report i m rep size)) ≤ link_limit) as Hfit by (rewrite report_len by done; cbn [portion_report portion_length]; by rewrite Hp).
  destruct (exchange_run rounds m (portion_report i m rep size) n w Hm ltac:(by apply link_fits) Hw Hfit Hu (report_run h m i rep size _ _ Hm eq_refl Hi Hrep Hs' Hd))
    as (n' & He & Hu' & Hw').
  exists n'. split; [|exact (conj Hu' Hw')]. unfold pci_tdisp_req_get_device_interface_report_with. cbn [report_loop].
  pose proof (report_round_run session_id (portion_report i m rep size) 0 n n' He Hw eq_refl) as Hrr.
  change (interface_id (rr_header (portion_report i m rep size))) with i in Hrr. unfold bind at 1. rewrite Hrr. unfold portion_report. cbn [portion_length remainder_length report]. rewrite Hp.
  change (gr_offset m) with 0. rewrite Z.sub_0_r, Z.sub_diag, zdrop_0. rewrite (proj2 (Z.ltb_ge _ _)) by lia.
  destruct Hrep as [Hrl _]. assert (len (ztake size rep) = size) as Ht by (rewrite len_ztake; lia).
  rewrite slice_prefix_zeros by exact Ht. cbn [or_panic]. rewrite (bind_lift _ _ _ _ eq_refl). rewrite copy_from_slice_spec by lia.
  cbn [or_panic]. rewrite (bind_lift _ _ _ _ eq_refl). rewrite Z.add_0_l. reflexivity.
Qed.
(** C28: Over a session whose other end is the TDISP dispatcher of a device,
    with four exchanges left, an interface is locked, its report fetched, started and stopped by the
    device's callbacks, each called once and in this order: the nonce with
    which the interface is started is the one the device issued when it was
    locked, and the report arrives byte for byte. *)
Theorem tdisp_lifecycle rounds fuel i flags s o k nonce rep size buf n w1 w2 w3 w4 :
  wf i → wf flags → in_width 8 s → in_width 64 o → in_width 64 k →
  byte_list START_INTERFACE_NONCE_LEN nonce → byte_list MAX_DEVICE_REPORT_BUFFER rep →
  0 ≤ size ≤ MAX_DEVICE_REPORT_BUFFER → len buf = MAX_DEVICE_REPORT_BUFFER →
  21 + size ≤ link_limit → link_up (4 + rounds) n →
  pci_tdisp_device_lock_interface h flags s o k (link_world n) = (Ok (i, nonce, None), w1) →
  pci_tdisp_device_interface_report h w1 = (Ok (i, rep, size, None), w2) →
  pci_tdisp_device_start_interface h nonce w2 = (Ok (i, None), w3) →
  pci_tdisp_device_stop_interface h w3 = (Ok (i, None), w4) →
  ∃ n', (let* nonce := pci_tdisp_req_lock_interface_request session_id i flags s o k in
         let* r := pci_tdisp_req_get_device_interface_report_with session_id (S fuel) i buf in
         let* _ := pci_tdisp_req_start_interface_request session_id i nonce in
         let* _ := plain (pci_tdisp_req_stop_interface_request session_id i) in
         ret r) n = (Ok (Some (splice buf 0 (ztake size rep), size)), n') ∧ link_up rounds n' ∧ link_world n' = w4.
Proof.
  intros Hi Hf Hs Ho Hk Hn Hrep Hsz Hb Hlim Hu H1 H2 H3 H4.
  destruct (lock_reaches (3 + rounds) i flags s o k nonce n w1 Hi Hf Hs Ho Hk Hn Hu H1) as (n1 & E1 & U1 & <-).
  destruct (report_reaches (2 + rounds) fuel i rep size buf n1 w2 Hi Hrep Hsz Hb Hlim U1 H2) as (n2 & E2 & U2 & <-).
  destruct (start_reaches (1 + rounds) i nonce n2 w3 Hi Hn U2 H3) as (n3 & E3 & U3 & <-).
  destruct (stop_reaches rounds i n3 w4 Hi U3 H4) as (n4 & E4 & U4 & <-).
  exists n4. split; [|exact (conj U4 eq_refl)]. unfold bind. rewrite E1, E2, E3. unfold plain, map_errM. rewrite E4. reflexivity.
Qed.
(** When the device refuses to start an interface, with INVALID_NONCE or
    another error, the requester's call fails with that error code and the
    status that says the peer reported it. *)
Theorem tdisp_refusal_reaches rounds i j nonce e n w1 w :
  wf i → wf j → byte_list START_INTERFACE_NONCE_LEN nonce → link_up (S rounds) n →
  pci_tdisp_device_start_interface h nonce (link_world n) = (Ok (i, Some e), w1) →
  pci_tdisp_device_error h w1 = (Ok j, w) →
  ∃ n', pci_tdisp_req_start_interface_request session_id i nonce n = (Err (SPDM_STATUS_ERROR_PEER, Some e), n') ∧
    link_up rounds n' ∧ link_world n' = w.
Proof.
  intros Hi Hj Hn Hu Hd He. assert (wf (mkNonceMessage (header_of START_INTERFACE_REQUEST i) nonce)) as Hm by (split; [by apply header_of_wf|done]).
  assert (wf (mkTdispError (header_of TDISP_ERROR j) e 0)) as Hr by by split_and!.
  pose proof (refuse_run h (λ r, pci_tdisp_device_start_interface h (start_interface_nonce r)) _ START_INTERFACE_RESPONSE i j e _ _ _ Hm Hj Hd He) as Hrun.
  destruct (exchange_run rounds _ (mkTdispError (header_of TDISP_ERROR j) e 0) n w Hm (nonce_fits _ _ (proj1 Hn)) Hr ltac:(by apply link_fits) Hu) as (n' & Hx & Hu' & Hw).
  - unfold bytes at 1, codec_ok_nonce_message. rewrite dispatch_code. exact Hrun.
  - exists n'. split; [|exact (conj Hu' Hw)]. exact (refused_run session_id _ _ i j e n n' Hj Hx).
Qed.
End Link.

(** ** The loop that fetches a report *)
Section Loop.
Context {N : Type} `{VdmChannel N} (session_id : u32).
Implicit Types n : N.
(** A channel that does not panic and delivers what came out of a
    vendor-defined message. *)
Class VdmChannelOk : Prop := channel_ok id std v p : vendor_payload_wf p → safely (send_receive_vdm id std v p) vendor_payload_wf.
Context `{!VdmChannelOk}.
Lemma exchange_safe {A} `{CodecOk A} (a : A) :
  wf a → len (bytes a) ≤ MAX_SPDM_VENDOR_DEFINED_PAYLOAD_SIZE → safely (exchange session_id a) vendor_payload_wf.
Proof.
  intros Ha Hl. unfold exchange. eapply safely_bindM; [|intros p Hp; by apply channel_ok].
  intros n. apply wp_lift. rewrite (request_payload_ok _ _ (encode_ok _ Ha) Hl). apply payload_of_wf; [exact Hl|by apply bytes_ok].
Qed.
Lemma plain_safe {A} (m : M N SpdmStatus A) P : safely m P → safely (plain m) P.
Proof. intros Hm n. apply wp_map_err. eapply wp_mono; [| |apply Hm]; auto. Qed.
Lemma check_error_safe r : vendor_payload_wf r → safely (check_error (N:=N) r) (λ _, True).
Proof.
  intros Hr n. pose proof (parse_bytes_safe wf (read_safe (A:=RspTdispError)) r Hr). unfold check_error, wp.
  by destruct (parse_bytes RspTdispError r).
Qed.
Lemma report_round_safe i offset : wf i → in_width 16 offset → safely (report_round session_id i offset) wf.
Proof.
  intros Hi Ho. unfold report_round. rewrite max_portion.
  eapply safely_bindM; [apply plain_safe, exchange_safe; [split; [by apply header_of_wf|done]|done]|]. intros r Hr.
  eapply safely_bindM; [by apply check_error_safe|]. intros _ _.
  eapply safely_bindM; [apply plain_safe, (safely_parse wf); [apply read_safe|done]|]. intros m Hm.
  eapply safely_bindM; [|by intros _ _; apply safely_ret]. apply plain_safe. unfold check_header.
  apply safely_ifM; intros _; [by apply (safely_ret tt (λ _, True))|apply safely_throw].
Qed.
(** Every portion but the last has a byte. *)
Definition progresses : Prop := ∀ i offset n m n',
  report_round session_id i offset n = (Ok m, n') → 0 < portion_length m ∨ remainder_length m = 0.
Lemma report_loop_ends fuel i offset buf n :
  progresses → wf i → 0 ≤ offset ≤ MAX_DEVICE_REPORT_BUFFER → len buf = MAX_DEVICE_REPORT_BUFFER →
  MAX_DEVICE_REPORT_BUFFER - offset < Z.of_nat fuel →
  match (report_loop session_id fuel i offset offset buf n).1 with
  | Ok o => is_Some o
  | Err _ => True
  | Panic => False
  end.
Proof.
  intros Hprog Hi. revert offset buf n. induction fuel as [|fuel IH]; intros offset buf n Ho Hb Hf; [lia|]. cbn [report_loop].
  assert (in_width 16 offset) as Hw by (rewrite report_width in Ho; unfold in_width; lia).
  pose proof (report_round_safe i offset Hi Hw n) as Hs. unfold wp in Hs. unfold bind at 1.
  destruct (report_round session_id i offset n) as [[m|e|] n'] eqn:Hr; [|done..]. destruct (Hprog _ _ _ _ _ Hr) as [Hp|Hz].
  all: destruct Hs as (_ & Hpl & Hrl & (Hpc & Hrep & _)); unfold in_width in Hpl, Hrl.
  all: destruct (Z.ltb_spec MAX_DEVICE_REPORT_BUFFER (offset + portion_length m + remainder_length m)) as [|Hfit]; [done|].
  all: rewrite slice_spec by lia; cbn [or_panic]; rewrite (bind_lift _ _ _ _ eq_refl), zdrop_0, Z.sub_0_r.
  all: rewrite copy_from_slice_spec by (rewrite ?len_ztake; lia); cbn [or_panic]; rewrite (bind_lift _ _ _ _ eq_refl).
  - destruct (Z.eqb_spec (remainder_length m) 0); [cbn; eauto|]. cbn [negb].
    assert (add_checked (E:=tdisp_failure) 16 offset (portion_length m) = Ok (offset + portion_length m)) as ->.
    { unfold add_checked. rewrite (proj2 (Z.ltb_lt _ _)); [done|]. rewrite report_width in *. lia. }
    rewrite (bind_lift _ _ _ _ eq_refl). apply IH; [lia|rewrite len_splice; rewrite ?len_ztake; lia|lia].
  - rewrite Hz. cbn. eauto.
Qed.
(** C31: Against a device whose portions of a report are not empty while
    something remains, whatever else it sends, fetching the report ends: it
    returns the report or fails, within one round per byte of the buffer, and
    never writes beyond the buffer. *)
Theorem report_fetch_ends i buf n :
  progresses → wf i → len buf = MAX_DEVICE_REPORT_BUFFER →
  match (pci_tdisp_req_get_device_interface_report_with session_id (S (Z.to_nat MAX_DEVICE_REPORT_BUFFER)) i buf n).1 with
  | Ok o => is_Some o
  | Err _ => True
  | Panic => False
  end.
Proof. intros Hp Hi Hb. apply report_loop_ends; [done|done|by rewrite report_width|done|]. rewrite Nat2Z.inj_succ, Z2Nat.id; rewrite report_width; lia. Qed.
End Loop.
Arguments VdmChannelOk N {_}.

(** ** What does not end, what panics, what is accepted *)
Section Hostile.
Context {N : Type} `{VdmChannel N} (session_id : u32).
Implicit Types n : N.
(** A round of the loop that an empty portion answers. *)
Lemma report_loop_empty i buf fuel n rem n' :
  wf i → 0 ≤ rem < 2 ^ 16 →
  exchange session_id (mkGetReport (header_of GET_DEVICE_INTERFACE_REPORT i) 0 MAX_PORTION_LENGTH) n =
    (Ok (payload_of (bytes (mkReport (header_of DEVICE_INTERFACE_REPORT i) 0 rem (zeros MAX_PORTION_LENGTH)))), n') →
  report_loop session_id (S fuel) i 0 0 buf n =
    if MAX_DEVICE_REPORT_BUFFER <? rem then (Err (SPDM_STATUS_BUFFER_FULL, None), n')
    else if rem =? 0 then (Ok (Some (buf, 0)), n') else report_loop session_id fuel i 0 0 buf n'.
Proof.
  intros Hi Hrem Hx. set (m := mkReport (header_of DEVICE_INTERFACE_REPORT i) 0 rem (zeros MAX_PORTION_LENGTH)) in *.
  assert (wf m) as Hm by (split_and!; [by apply header_of_wf|done|done|by apply padded_zeros]).
  pose proof (report_round_run session_id m 0 n n' Hx Hm eq_refl) as Hr.
  change (interface_id (rr_header m)) with i in Hr. cbn [report_loop]. unfold bind at 1. rewrite Hr.
  cbn [portion_length remainder_length report m]. rewrite !Z.add_0_l. destruct (MAX_DEVICE_REPORT_BUFFER <? rem); [done|].
  rewrite slice_spec by (pose proof (len_nonneg (zeros MAX_PORTION_LENGTH)); lia). cbn [or_panic].
  rewrite (bind_lift _ _ _ _ eq_refl), Z.sub_diag, ztake_0. pose proof (len_nonneg buf).
  rewrite copy_from_slice_spec by (rewrite ?len_nil; lia). cbn [or_panic].
  rewrite (bind_lift _ _ _ _ eq_refl), splice_nil. destruct (rem =? 0); [done|]. cbn [negb]. by rewrite (bind_lift _ 0) by done.
Qed.
(** C40: A device that answers every request for its report with an empty
    portion and a remainder that is not zero and fits into the buffer, not
    always the same one, keeps the requester in its loop: no number of rounds
    is enough.  A remainder beyond the buffer ends it with BUFFER_FULL. *)
Theorem report_fetch_diverges i buf n :
  let request := mkGetReport (header_of GET_DEVICE_INTERFACE_REPORT i) 0 MAX_PORTION_LENGTH in
  let response rem := payload_of (bytes (mkReport (header_of DEVICE_INTERFACE_REPORT i) 0 rem (zeros MAX_PORTION_LENGTH))) in
  wf i → len buf = MAX_DEVICE_REPORT_BUFFER →
  ((∀ n, ∃ rem n', 0 < rem ≤ MAX_DEVICE_REPORT_BUFFER ∧ exchange session_id request n = (Ok (response rem), n')) →
   ∀ fuel, (pci_tdisp_req_get_device_interface_report_with session_id fuel i buf n).1 = Ok None) ∧
  (∀ rem n' fuel, MAX_DEVICE_REPORT_BUFFER < rem < 2 ^ 16 → exchange session_id request n = (Ok (response rem), n') →
   (pci_tdisp_req_get_device_interface_report_with session_id (S fuel) i buf n).1 = Err (SPDM_STATUS_BUFFER_FULL, None)).
Proof.
  intros request response Hi Hb. unfold pci_tdisp_req_get_device_interface_report_with.
  split; [intros He fuel; revert n; induction fuel as [|fuel IH]; intros n; [done|]; destruct (He n) as (rem & n' & Hrem & Hx)
         |intros rem n' fuel Hrem Hx].
  - rewrite (report_loop_empty i buf fuel n rem n') by (done || rewrite report_width in *; lia).
    rewrite (proj2 (Z.ltb_ge _ _)) by lia. rewrite (proj2 (Z.eqb_neq rem 0)) by lia. apply IH.
  - rewrite (report_loop_empty i buf fuel n rem n') by (done || rewrite report_width in *; lia).
    by rewrite (proj2 (Z.ltb_lt _ _)) by lia.
Qed.
Lemma bind_plain_inv {A B} (m : M N SpdmStatus A) (k : A → M N tdisp_failure B) n b n' :
  bind (plain m) k n = (Ok b, n') → ∃ a n1, m n = (Ok a, n1) ∧ k a n1 = (Ok b, n').
Proof. unfold bind, plain, map_errM. destruct (m n) as [[a|?|] n1]; [eauto|done..]. Qed.
Lemma check_error_inv {B} r (k : unit → M N tdisp_failure B) n b n' :
  bind (check_error r) k n = (Ok b, n') → parse_bytes RspTdispError r = Err tt ∧ k tt n = (Ok b, n').
Proof. unfold bind, check_error. by destruct (parse_bytes RspTdispError r) as [|[]|]. Qed.
Lemma check_header_inv {B} hd t i (k : unit → M N tdisp_failure B) n b n' :
  bind (plain (check_header hd t i)) k n = (Ok b, n') → hd = header_of t i ∧ k tt n = (Ok b, n').
Proof.
  unfold bind, plain, map_errM, check_header. destruct (header_matches hd t i) eqn:Hh; [|done]. intros Hk. split; [|exact Hk].
  unfold header_matches in Hh. rewrite negb_true_iff, !orb_false_iff, !bool_decide_eq_false in Hh. destruct Hh as [[Hv Ht] Hj].
  apply dec_stable in Hv, Ht, Hj. destruct hd. cbn in *. by subst.
Qed.
(** The requester takes a nonce only from a LOCK_INTERFACE_RESPONSE of
    version 1.0 for the interface it asked to lock, and from no message that
    reads as TDISP_ERROR, whatever the other end sent. *)
Theorem lock_needs_response i flags s o k nonce n n' :
  pci_tdisp_req_lock_interface_request session_id i flags s o k n = (Ok nonce, n') →
  ∃ r, exchange session_id (mkLock (header_of LOCK_INTERFACE_REQUEST i) flags s o k) n = (Ok r, n') ∧
    parse_bytes RspTdispError r = Err tt ∧
    parse_payload RspLockInterfaceResponse r = Ok (mkNonceMessage (header_of LOCK_INTERFACE_RESPONSE i) nonce).
Proof.
  unfold pci_tdisp_req_lock_interface_request. generalize (mkLock (header_of LOCK_INTERFACE_REQUEST i) flags s o k). intros a Hr.
  apply bind_plain_inv in Hr as (r & n1 & He & Hr). apply check_error_inv in Hr as [Hc Hr]. apply bind_plain_inv in Hr as (m & n2 & Hp & Hr).
  injection Hp as Hp <-. apply check_header_inv in Hr as [Hh Hr]. injection Hr as <- <-. exists r. split; [exact He|]. split; [exact Hc|].
  rewrite Hp, <- Hh. by destruct m.
Qed.
End Hostile.
Section Beyond.
Context {W : Type} `{TdispDevice W} (h : usize).
(** C39: A GET_DEVICE_INTERFACE_REPORT whose offset is beyond the end of the
    report makes the responder subtract past zero, which panics. *)
Theorem report_beyond_end_panics i j offset length rep size (w w' : W) :
  wf i → in_width 16 offset → in_width 16 length → pci_tdisp_device_interface_report h w = (Ok (j, rep, size, None), w') →
  size < offset →
  pci_tdisp_rsp_dispatcher h vendor_id
    (payload_of (bytes (mkGetReport (header_of GET_DEVICE_INTERFACE_REPORT i) offset length))) w = (Panic, w').
Proof.
  intros Hi Ho Hl Hd Hs. set (m := mkGetReport (header_of GET_DEVICE_INTERFACE_REPORT i) offset length).
  assert (wf m) as Hm by (split_and!; [by apply header_of_wf|done|done]). unfold bytes, codec_ok_ReqGetDeviceInterfaceReport. rewrite dispatch_code.
  cbn [handler_of message_type m gr_header header_of]. unfold pci_tdisp_rsp_interface_report.
  rewrite (bind_lift _ m) by exact (parse_payload_at _ _ (read_bytes_ok _ Hm)). unfold bind at 1. rewrite Hd.
  unfold report_portion. by rewrite portion_of_panics.
Qed.
End Beyond.

(** ** The structures of the two protocols *)
Section Structures.
Import IdeKm.

(** C32: Every structure of the IDE_KM and TDISP protocols is written as its
    layout says and read back, refused when it does not fit, and whatever bytes
    arrive, reading them does not panic, stays in the buffer and returns fields
    within their widths, enumerations and array sizes. *)
Theorem vendor_structures_typed :
  codec_correct (A:=IdeKm.QueryDataObject) wf bytes ∧ codec_correct (A:=IdeKm.Aes256GcmKeyBuffer) wf bytes ∧
  codec_correct (A:=IdeKm.KeyProgDataObject) wf bytes ∧ codec_correct (A:=IdeKm.KpAckDataObject) wf bytes ∧
  codec_correct (A:=IdeKm.KSetGoDataObject) wf bytes ∧ codec_correct (A:=IdeKm.KSetStopDataObject) wf bytes ∧
  codec_correct (A:=IdeKm.KGoStopAckDataObject) wf bytes ∧
  reads (read (A:=IdeKm.QueryRespDataObject)) IdeKm.query_resp_wf ∧
  (∀ q, IdeKm.query_resp_wf q →
     encodes EncodeErr_ (encode q) (IdeKm.query_resp_bytes q) ∧ read_bytes (IdeKm.query_resp_bytes q) = Ok q) ∧
  codec_correct (A:=FunctionId) wf bytes ∧ codec_correct (A:=InterfaceId) wf bytes ∧
  codec_correct (A:=TdispVersion) wf bytes ∧ codec_correct (A:=TdispMessageHeader) wf bytes ∧
  codec_correct (A:=ReqGetTdispVersion) wf bytes ∧ codec_correct (A:=RspTdispVersion) wf bytes ∧
  codec_correct (A:=ReqGetTdispCapabilities) wf bytes ∧ codec_correct (A:=RspTdispCapabilities) wf bytes ∧
  codec_correct (A:=ReqLockInterfaceRequest) wf bytes ∧ codec_correct (A:=nonce_message) wf bytes ∧
  codec_correct (A:=ReqGetDeviceInterfaceReport) wf bytes ∧ codec_correct (A:=RspDeviceInterfaceReport) wf bytes ∧
  codec_correct (A:=RspDeviceInterfaceState) wf bytes ∧ codec_correct (A:=header_message) wf bytes ∧
  codec_correct (A:=stream_message) wf bytes ∧ codec_correct (A:=TdispMmioRange) wf bytes ∧
  codec_correct (A:=ReqSetMmioAttributeRequest) wf bytes ∧ codec_correct (A:=RspTdispError) wf bytes ∧
  codec_correct (A:=TdiReportStructure) wf bytes.
Proof.
  split_and!; try apply codec_ok_correct; [apply IdeKm.query_resp_safe|].
  intros q Hq. split; [apply IdeKm.query_resp_encode, Hq|exact (IdeKm.query_resp_read q Hq)].
Qed.
End Structures.
End TdispReq.

(** ** A device with one interface *)
Module TdispExamples.
Import TdispReq.
Record interface := mkInterface { if_state : TdiState; if_nonce : list Z }.
Definition id0 : InterfaceId := mkInterfaceId (mkFunctionId 0x100 0 false).
Definition fresh_nonce : list Z := replicate 32 0xA5.
Definition tdi_report_bytes : list Z := [1; 2; 3; 4; 5] ++ zeros (MAX_DEVICE_REPORT_BUFFER - 5).
#[export] Instance toy_device : TdispDevice interface :=
  {| pci_tdisp_device_error _ := ret id0;
     pci_tdisp_device_version _ := ret (id0, 1, replicate 255 TdispVersion_default);
     pci_tdisp_device_capabilities _ _ := ret (id0, 0, replicate 16 0xFF, empty_flags, 52, 1, 1, None);
     pci_tdisp_device_lock_interface _ _ _ _ _ := λ w,
       match if_state w with
       | CONFIG_UNLOCKED => (Ok (id0, fresh_nonce, None), mkInterface CONFIG_LOCKED fresh_nonce)
       | _ => (Ok (id0, zeros 32, Some INVALID_INTERFACE_STATE), w)
       end;
     pci_tdisp_device_interface_report _ := ret (id0, tdi_report_bytes, 5, None);
     pci_tdisp_device_interface_state _ := λ w, (Ok (id0, if_state w, None), w);
     pci_tdisp_device_start_interface _ nonce := λ w,
       if bool_decide (nonce = if_nonce w) then (Ok (id0, None), mkInterface RUN (if_nonce w))
       else (Ok (id0, Some INVALID_NONCE), w);
     pci_tdisp_device_stop_interface _ := λ _, (Ok (id0, None), mkInterface CONFIG_UNLOCKED (zeros 32));
     pci_tdisp_device_bind_p2p_stream _ _ := ret (id0, Some UNSUPPORTED_REQUEST);
     pci_tdisp_device_unbind_p2p_stream _ _ := ret (id0, Some UNSUPPORTED_REQUEST);
     pci_tdisp_device_set_mmio_attribute _ _ := ret (id0, None);
     pci_tdisp_device_vdm_response _ p := ret p |}.
Lemma id0_wf : wf id0.
Proof. by split_and!. Qed.
Lemma nonce_bytes : byte_list START_INTERFACE_NONCE_LEN fresh_nonce.
Proof. split; [done|]. by apply Forall_replicate. Qed.
Lemma report_bytes : byte_list MAX_DEVICE_REPORT_BUFFER tdi_report_bytes.
Proof. split; [done|]. apply bytes_wf_app. split; [by repeat constructor|apply bytes_wf_zeros]. Qed.
#[export] Instance toy_device_ok : TdispDeviceOk interface.
Proof.
  split; intros; intros w; try exact id0_wf.
  - split_and!; [exact id0_wf|done|]. by apply Forall_replicate.
  - split_and!; [exact id0_wf|done| |done..]. split; [done|]. by apply Forall_replicate.
  - unfold wp. cbn. destruct (if_state w); (split; [exact id0_wf|]); try exact nonce_bytes; (split; [done|apply bytes_wf_zeros]).
  - split_and!; [exact id0_wf|exact report_bytes|done|done].
  - unfold wp. cbn. case_bool_decide; exact id0_wf.
  - done.
Qed.
Definition unlocked : interface := mkInterface CONFIG_UNLOCKED (zeros 32).
#[local] Instance channel : VdmChannel interface := loopback (pci_tdisp_rsp_dispatcher 0).
#[local] Instance link : VdmLink interface interface 0 STANDARD_ID vendor_id (pci_tdisp_rsp_dispatcher 0) :=
  loopback_link (pci_tdisp_rsp_dispatcher 0) 0 STANDARD_ID vendor_id.

Lemma tdisp_dispatcher_outcome_witness :
  match (pci_tdisp_rsp_dispatcher 0 vendor_id (payload_of [1; 0x10; 0x87]) unlocked).1 with
  | Ok r => vendor_payload_wf r
  | Err _ => True
  | Panic => beyond_report 0 (payload_of [1; 0x10; 0x87]) unlocked
  end.
Proof. apply tdisp_dispatcher_outcome, payload_of_wf; [done|]. by repeat constructor. Defined.
Lemma tdisp_lifecycle_witness : ∃ w : interface,
  (let* nonce := pci_tdisp_req_lock_interface_request 0 id0 empty_flags 0 0 0 in
   let* r := pci_tdisp_req_get_device_interface_report_with 0 1 id0 (zeros MAX_DEVICE_REPORT_BUFFER) in
   let* _ := pci_tdisp_req_start_interface_request 0 id0 nonce in
   let* _ := plain (pci_tdisp_req_stop_interface_request 0 id0) in
   ret r) unlocked = (Ok (Some (splice (zeros MAX_DEVICE_REPORT_BUFFER) 0 (ztake 5 tdi_report_bytes), 5)), w) ∧ link_up 0 w ∧
  link_world w = unlocked.
Proof.
  eapply (tdisp_lifecycle 0 0 0 0 id0 empty_flags 0 0 0 fresh_nonce tdi_report_bytes 5 (zeros MAX_DEVICE_REPORT_BUFFER) unlocked);
    [exact id0_wf|done|done|done|done|exact nonce_bytes|exact report_bytes|done|done|done|exact I|reflexivity|reflexivity|reflexivity|reflexivity].
Defined.
Lemma tdisp_refusal_reaches_witness : ∃ w : interface,
  pci_tdisp_req_start_interface_request 0 id0 fresh_nonce unlocked = (Err (SPDM_STATUS_ERROR_PEER, Some INVALID_NONCE), w) ∧
  link_up 0 w ∧ link_world w = unlocked.
Proof.
  eapply (tdisp_refusal_reaches 0 0 0 id0 id0 fresh_nonce INVALID_NONCE unlocked);
    [exact id0_wf|exact id0_wf|exact nonce_bytes|exact I|reflexivity|reflexivity].
Defined.
Lemma report_beyond_end_panics_witness :
  pci_tdisp_rsp_dispatcher 0 vendor_id
    (payload_of (bytes (mkGetReport (header_of GET_DEVICE_INTERFACE_REPORT id0) 6 16))) unlocked = (Panic, unlocked).
Proof. eapply (report_beyond_end_panics 0 id0); [exact id0_wf|done|done|reflexivity|done]. Defined.
Lemma lock_needs_response_witness : ∃ r,
  exchange 0 (mkLock (header_of LOCK_INTERFACE_REQUEST id0) empty_flags 0 0 0) unlocked =
    (Ok r, mkInterface CONFIG_LOCKED fresh_nonce) ∧
  parse_bytes RspTdispError r = Err tt ∧
  parse_payload RspLockInterfaceResponse r = Ok (mkNonceMessage (header_of LOCK_INTERFACE_RESPONSE id0) fresh_nonce).
Proof. apply lock_needs_response. vm_compute. reflexivity. Defined.

(** A device that always sends the same report message. *)
Section Constant.
Context (m : RspDeviceInterfaceReport).
Definition constant : VdmChannel unit := λ _ _ _ _, ret (payload_of (bytes m)).
Lemma constant_exchange {A} `{CodecOk A} (a : A) :
  wf a → len (bytes a) ≤ MAX_SPDM_VENDOR_DEFINED_PAYLOAD_SIZE → @exchange unit constant 0 A _ a tt = (Ok (payload_of (bytes m)), tt).
Proof. intros Ha Hl. unfold exchange. by rewrite (bind_lift _ _ _ _ (request_payload_ok _ _ (encode_ok _ Ha) Hl)). Qed.
Lemma constant_inv id std v p n r n' : @send_receive_vdm unit constant id std v p n = (Ok r, n') → r = payload_of (bytes m).
Proof. unfold send_receive_vdm, constant, ret. by intros [= <- _]. Qed.
End Constant.
Definition last_portion : RspDeviceInterfaceReport :=
  mkReport (header_of DEVICE_INTERFACE_REPORT id0) 5 0 tdi_report_bytes.
Definition empty_portion : RspDeviceInterfaceReport :=
  mkReport (header_of DEVICE_INTERFACE_REPORT id0) 0 1 (zeros MAX_PORTION_LENGTH).
Lemma last_portion_wf : wf last_portion.
Proof. split_and!; [exact (header_of_wf _ _ id0_wf)|done|done|]. apply (padded_app [1; 2; 3; 4; 5]); [done|]. by repeat constructor. Qed.
Lemma constant_ok : @VdmChannelOk unit (constant last_portion).
Proof.
  intros id std v p _ n. apply payload_of_wf; [by apply report_fits, last_portion_wf|]. apply bytes_ok, last_portion_wf.
Qed.
Lemma constant_progresses : @progresses unit (constant last_portion) 0.
Proof.
  intros i offset n m n'. unfold report_round. generalize (mkGetReport (header_of GET_DEVICE_INTERFACE_REPORT i) offset (wrap 16 MAX_PORTION_LENGTH)).
  intros a Hr. right. apply bind_plain_inv in Hr as (r & n1 & He & Hr).
  apply check_error_inv in Hr as [_ Hr]. apply bind_plain_inv in Hr as (m' & n2 & Hp & Hr).
  apply check_header_inv in Hr as [_ Hr]. injection Hr as <- _. injection Hp as Hp _.
  unfold exchange in He. apply bind_lift_inv in He as (p & _ & He). apply constant_inv in He as ->.
  rewrite (parse_payload_at _ _ (read_bytes_ok _ last_portion_wf)) in Hp. by injection Hp as <-.
Qed.
Lemma report_fetch_ends_witness :
  match (@pci_tdisp_req_get_device_interface_report_with unit (constant last_portion) 0
           (S (Z.to_nat MAX_DEVICE_REPORT_BUFFER)) id0 (zeros MAX_DEVICE_REPORT_BUFFER) tt).1 with
  | Ok o => is_Some o
  | Err _ => True
  | Panic => False
  end.
Proof. exact (@report_fetch_ends unit (constant last_portion) 0 constant_ok id0 (zeros MAX_DEVICE_REPORT_BUFFER) tt constant_progresses id0_wf eq_refl). Defined.
Lemma report_fetch_diverges_witness :
  (@pci_tdisp_req_get_device_interface_report_with unit (constant empty_portion) 0 1000 id0 (zeros MAX_DEVICE_REPORT_BUFFER) tt).1 = Ok None.
Proof.
  refine (proj1 (@report_fetch_diverges unit (constant empty_portion) 0 id0 (zeros MAX_DEVICE_REPORT_BUFFER) tt id0_wf eq_refl) _ 1000%nat).
  intros []. exists 1, tt. split; [by rewrite report_width|].
  apply (constant_exchange empty_portion (mkGetReport _ _ _)); [split; [exact (header_of_wf _ _ id0_wf)|done]|done].
Defined.
End TdispExamples.
