(* ===== verification/SecureLink.v ===== *)
(** * Vendor-defined messages in a session

    About a requester and a responder that TwoParty.v connects and that share
    an established session.  Proved: a vendor-defined request is protected,
    framed, opened, dispatched and handled, and its response comes back the
    same way, for as long as the sequence numbers last; so the session is a
    channel ([VdmLink]) that ends at the vendor-defined handler of the
    responder, and the calls of IdeKm.v and TdispReq.v made over it reach the
    device. *)

From S2P Require Import Prelude Codec Status Bitflags Algo DataTypes Structs Version Crypto HashCtx ManagedBuffer.
From S2P Require Import CertChain Session SecuredMessage Header ContextData Transport Mctp Context Transcript SpdmCodec.
From S2P Require Import MsgLib MsgAuth MsgMisc Message Platform Link RspLib RspLaws RspSession Responder Negotiation.
From S2P Require Import RspToy ReqLib ReqSession Requester TwoParty Live LiveResponder LiveLink LiveRequester.
From S2P Require Import Vdm IdeKm.
Import Context ContextLaws Transcript Responder RspSession ReqLib ReqSession TwoParty LiveLink LiveRequester.

Module SecureLink.
(** ** The sessions *)
Section Twins.
Context `{CryptoOk}.
(** Two established sessions with the same keys, each of whose directions can
    carry as many more records as it says. *)
Record twins (req rsp : nat) (a b : SpdmSession) : Prop := {
  tw_state : session_state a = SpdmSessionEstablished ∧ session_state b = SpdmSessionEstablished;
  tw_id : session_id b = session_id a;
  tw_crypto : crypto_param b = crypto_param a;
  tw_transport : transport_param b = transport_param a;
  tw_dir r : Secured.app_dir r b = Secured.app_dir r a;
  tw_ready r : SecuredLaws.ready a (Secured.app_dir r a);
  tw_left r : sequence_number (Secured.app_dir r a) + Z.of_nat (if r then req else rsp) < U64_MAX;
}.
Lemma app_dir_in_use r s : session_state s = SpdmSessionEstablished → SecuredLaws.dir r s = Secured.app_dir r s.
Proof. unfold SecuredLaws.dir. by intros ->. Qed.
Lemma twins_sym req rsp a b : twins req rsp a b → twins req rsp b a.
Proof.
  intros [[Ha Hb] Hi Hc Ht Hd Hr Hl]. split; [done|done|done|done|done| |]; intros r; rewrite Hd; [|done].
  unfold SecuredLaws.ready. rewrite Hi, Hc, Ht. apply Hr.
Qed.
Lemma twins_paired req rsp a b r : twins req rsp a b → SecuredLaws.paired r a b.
Proof.
  intros [[Ha Hb] Hi Hc Ht Hd Hr Hl]. unfold SecuredLaws.paired, SecuredLaws.live. rewrite !app_dir_in_use by done.
  split_and!; try done; [by right|by rewrite Ha, Hb].
Qed.
(** A session after a record in direction [r]. *)
Definition counts (r : bool) (s : SpdmSession) : SpdmSession := SecuredLaws.set_dir r (SecuredLaws.next (SecuredLaws.dir r s)) s.
Lemma counts_dir r q s :
  session_state s = SpdmSessionEstablished →
  Secured.app_dir q (counts r s) =
    if Bool.eqb q r then SecuredLaws.next (Secured.app_dir q s) else Secured.app_dir q s.
Proof. intros Hs. unfold counts, SecuredLaws.set_dir. rewrite app_dir_in_use by done. rewrite Hs. by destruct q, r. Qed.
Lemma counts_frame r s :
  session_state (counts r s) = session_state s ∧ session_id (counts r s) = session_id s ∧
  crypto_param (counts r s) = crypto_param s ∧ transport_param (counts r s) = transport_param s.
Proof. unfold counts. destruct (SecuredLaws.set_dir_frame r (SecuredLaws.next (SecuredLaws.dir r s)) s) as (? & ? & ? & ? & _). done. Qed.
Lemma twins_count req rsp a b (r : bool) :
  twins (if r then S req else req) (if r then rsp else S rsp) a b → twins req rsp (counts r a) (counts r b).
Proof.
  intros [[Ha Hb] Hi Hc Ht Hd Hr Hl].
  destruct (counts_frame r a) as (A1 & A2 & A3 & A4). destruct (counts_frame r b) as (B1 & B2 & B3 & B4).
  split; rewrite ?A1, ?B1, ?A2, ?B2, ?A3, ?B3, ?A4, ?B4; try done.
  - intros q. rewrite !(counts_dir r q) by done. by rewrite Hd.
  - intros q. rewrite (counts_dir r q) by done. destruct (Hr q) as (H1 & H2 & H3 & H4 & H5 & H6). specialize (Hl q).
    unfold SecuredLaws.ready. rewrite A2, A3, A4. destruct (Bool.eqb_spec q r) as [->|]; [|done].
    split_and!; try apply H5; try apply H6; try done; [by apply SecuredLaws.next_width|].
    cbn. destruct r; lia.
  - intros q. rewrite (counts_dir r q) by done. specialize (Hl q).
    destruct (Bool.eqb_spec q r) as [->|]; [cbn; destruct r; lia|]. destruct q, r; lia.
Qed.
(** What does not touch the keys. *)
Definition same_keys (s s' : SpdmSession) : Prop :=
  session_state s' = session_state s ∧ session_id s' = session_id s ∧ crypto_param s' = crypto_param s ∧
  transport_param s' = transport_param s ∧ ∀ r, Secured.app_dir r s' = Secured.app_dir r s.
Lemma twins_same req rsp a b b' : same_keys b b' → twins req rsp a b → twins req rsp a b'.
Proof. intros (E1 & E2 & E3 & E4 & E5) [? ? ? ? ? ? ?]. split; rewrite ?E1, ?E2, ?E3, ?E4; try done. intros r. by rewrite E5. Qed.

(** ** The contexts *)
Lemma find_replaced id c i s s' :
  get_session_via_id id c = Some (i, s) → session_id s' = id →
  get_session_via_id id (with_session (<[i := s']> (session c)) c) = Some (i, s').
Proof.
  unfold get_session_via_id. intros (Hi & _ & Hf)%list_find_Some Hs. cbn. apply list_find_Some.
  split; [by eapply list_lookup_insert_eq, lookup_lt_Some|]. split; [done|]. intros j x Hj Hlt.
  rewrite list_lookup_insert_ne in Hj by lia. by eapply Hf.
Qed.
Lemma find_id id c i s : get_session_via_id id c = Some (i, s) → session_id s = id.
Proof. unfold get_session_via_id. by intros (_ & ? & _)%list_find_Some. Qed.
(** Two contexts that negotiated the same and share the session [id]. *)
Record joined (id : u32) (req rsp : nat) (a b : SpdmContext) : Prop := {
  jo_negotiated : negotiate_info b = negotiate_info a;
  jo_session : ∃ i j sa sb, get_session_via_id id a = Some (i, sa) ∧ get_session_via_id id b = Some (j, sb) ∧ twins req rsp sa sb;
}.
Lemma joined_sym id req rsp a b : joined id req rsp a b → joined id req rsp b a.
Proof. intros [Hn (i & j & sa & sb & Ha & Hb & Ht)]. split; [done|]. exists j, i, sb, sa. by split_and!; [..|apply twins_sym]. Qed.
(** A context that differs from another in things that are not the keys. *)
Definition resembles (id : u32) (c c' : SpdmContext) : Prop :=
  negotiate_info c' = negotiate_info c ∧
  ∀ i s, get_session_via_id id c = Some (i, s) → ∃ s', get_session_via_id id c' = Some (i, s') ∧ same_keys s s'.
Lemma joined_resembles id req rsp a b b' : resembles id b b' → joined id req rsp a b → joined id req rsp a b'.
Proof.
  intros [Hn' Hs] [Hn (i & j & sa & sb & Ha & Hb & Ht)]. split; [by rewrite Hn'|].
  destruct (Hs _ _ Hb) as (sb' & Hb' & Hk). exists i, j, sa, sb'. by split_and!; [..|eapply twins_same].
Qed.
Lemma reset_resembles id c : resembles id c (reset_buffer_via_request_code SpdmRequestVendorDefinedRequest (Some id) c).
Proof.
  unfold reset_buffer_via_request_code. cbn [decide]. rewrite decide_False by done.
  unfold reset_message_m, with_session_via_id.
  destruct (get_session_via_id id c) as [[i s]|] eqn:Hg; cbn [snd].
  - split; [done|]. rewrite Hg. intros ? ? [= <- <-]. eexists. split; [eapply find_replaced; [exact Hg|by apply find_id in Hg]|done].
  - split; [done|]. by rewrite Hg.
Qed.
End Twins.

(** ** Packets *)
Section Packets.
Context `{CryptoOk} `{TransportOk}.
Definition MESSAGE_SIZE : Z := 4096.
(** [p] is a packet with the message [msg], protected by the direction [r] of
    [s], for a receiver with the buffer [out]. *)
Definition packet (r : bool) (s : SpdmSession) (out msg p : list Z) : Prop :=
  ∃ bs tail app,
    decap p (zeros RECEIVER_BUFFER_SIZE) =
      (Ok (len bs + len tail, true), splice (zeros RECEIVER_BUFFER_SIZE) 0 (bs ++ tail)) ∧
    SecuredLaws.sealed s (SecuredLaws.dir r s) app bs ∧ bytes_wf bs ∧ bytes_wf app ∧ bytes_wf tail ∧ len tail ≤ 3 ∧
    len app + 40 ≤ RECEIVER_BUFFER_SIZE ∧ len bs + 3 ≤ RECEIVER_BUFFER_SIZE ∧
    decap_app app out = (Ok (len msg, false), splice out 0 msg).
Lemma packet_pair r a b out msg p : SecuredLaws.paired r a b → packet r a out msg p → packet r b out msg p.
Proof. intros Hp (bs & tail & app & Hd & Hs & Hrest). exists bs, tail, app. split; [done|]. split; [by eapply SecuredLaws.sealed_pair|done]. Qed.
Lemma seal_packet r id msg c i s out :
  get_session_via_id id c = Some (i, s) → SecuredLaws.live s → SecuredLaws.ready s (SecuredLaws.dir r s) →
  bytes_wf msg → len msg ≤ MESSAGE_SIZE → len msg ≤ len out →
  ∃ k buf, encode_secured_message id msg r false (c, zeros SENDER_BUFFER_SIZE) = (Ok k, (counted r i s c, buf)) ∧
    slice buf 0 k = Some (ztake k buf) ∧ packet r s out msg (ztake k buf).
Proof.
  intros Hg Hl Hr Hw Hm Ho. unfold MESSAGE_SIZE in Hm. pose proof (len_nonneg msg). pose proof Hr as (_ & _ & _ & _ & Hc & _).
  destruct header_size_ok as [Hh Hah]. assert (len (zeros SENDER_BUFFER_SIZE) = 4160) as Hz by done.
  destruct (encap_app_decap_app msg false (zeros SENDER_BUFFER_SIZE) out)
    as (n0 & app & He & Hwapp & Hla & -> & Hda); [done|apply bytes_wf_zeros|lia|lia|]. rewrite app_flag_message in Hda.
  set (n0 := app_header_size + len msg) in *. assert (0 ≤ n0 ≤ len app) as Hn0 by lia.
  destruct (encode_secured_run id msg r false c i s n0 app (zeros SENDER_BUFFER_SIZE)) as (bs & Hsl & Hrun);
    [done..|unfold SENDER_BUFFER_SIZE; lia|].
  destruct (len_sealed s _ _ _ (proj1 Hc) Hsl) as [Hwbs Hlbs]. rewrite len_ztake in Hlbs by lia.
  destruct (encap_decap bs true (zeros SENDER_BUFFER_SIZE) (zeros RECEIVER_BUFFER_SIZE))
    as (n & buf & tail & Hen & _ & Hlb & Hn & Hlt & Hwt & Hde); [done|apply bytes_wf_zeros|lia|lia| |].
  { change (len (zeros RECEIVER_BUFFER_SIZE)) with 4160. lia. }
  exists n, buf. rewrite Hrun, Hen. split; [done|]. split; [apply slice_front; lia|].
  exists bs, tail, (ztake n0 app). rewrite len_ztake by done. unfold RECEIVER_BUFFER_SIZE in *.
  split_and!; try done; [auto with wfb|lia|lia].
Qed.
Lemma record_slice (bs tail : list Z) :
  len bs + 3 ≤ RECEIVER_BUFFER_SIZE → len tail ≤ 3 →
  slice (splice (zeros RECEIVER_BUFFER_SIZE) 0 (bs ++ tail)) 0 (len bs + len tail) = Some (bs ++ tail).
Proof. intros Hb Ht. apply carried_slice. change (len (zeros RECEIVER_BUFFER_SIZE)) with RECEIVER_BUFFER_SIZE. lia. Qed.

(** The requester opens a packet. *)
Lemma open_packet id c j s out msg p :
  get_session_via_id id c = Some (j, s) → SecuredLaws.live s → SecuredLaws.ready s (SecuredLaws.dir false s) →
  packet false s out msg p →
  decode_secured_message id p (c, out) = (Ok (len msg), (counted false j s c, splice out 0 msg)).
Proof.
  intros Hg Hl Hr (bs & tail & app & Hd & Hs & Hwb & Hwa & Hwt & Ht & Hla & _ & Hda).
  rewrite (decode_secured_run id p c j s bs tail app out) by done. by rewrite Hda.
Qed.
(** The session a record names. *)
Lemma record_id s p app bs tail :
  in_width 32 (session_id s) → SecuredLaws.sealed s p app bs → bytes_wf bs → bytes_wf tail →
  fst (read (A:=u32) (Reader.init (bs ++ tail))) = Ok (session_id s).
Proof.
  intros Hi (c & t & _ & _ & _ & -> & _) Hb Ht. rewrite !bytes_wf_app in Hb. destruct Hb as (Hh & Hc & Hbt).
  unfold SecuredLaws.header, SecuredLaws.aad_bytes in *. rewrite <- !app_assoc. rewrite !bytes_wf_app in Hh.
  rewrite (read_header (A:=u32) (session_id s) (le_bytes 4 (session_id s))); [done|by apply decodes_u32|apply Hh|].
  rewrite !bytes_wf_app. split_and!; apply Hh || done.
Qed.
End Packets.

(** ** Messages *)
Section Messages.
Context (std : RegistryOrStandardsBodyID) (v : VendorIDStruct).
Context (Hstd : wf std) (Hv : wf v).
Definition vdm_payload (p : vendor_payload) : vendor_defined := mkVendorDefined std v p.
Definition vdm_bytes (c : SpdmContext) (code : SpdmRequestResponseCode) (p : vendor_payload) : list Z :=
  bytes (mkMessageHeader (selected c) code) ++ sbytes c (vdm_payload p).
Lemma vdm_bytes_eq c c' code p : negotiate_info c' = negotiate_info c → vdm_bytes c' code p = vdm_bytes c code p.
Proof.
  intros Hn. unfold vdm_bytes, selected, sbytes, spdm_codec_ok_vendor_defined, large_cert, ver_ge, rsp_cap, req_cap.
  by rewrite Hn.
Qed.
Lemma vdm_payload_wf c p : vendor_payload_wf p → swf c (vdm_payload p).
Proof. by intros Hp. Qed.
Lemma vdm_bytes_wf c code p : wf code → vendor_payload_wf p → bytes_wf (vdm_bytes c code p).
Proof.
  intros Hcode Hp. apply bytes_wf_app. split; [apply bytes_ok; by split|]. apply sbytes_ok. by apply vdm_payload_wf.
Qed.
Lemma vdm_len c code p : vendor_payload_wf p → 2 ≤ len (vdm_bytes c code p) ≤ 12 + len (bytes v) + vp_length p.
Proof.
  intros Hp. pose proof (padded_len _ _ _ Hp) as Hl. pose proof (len_nonneg (bytes v)). destruct Hp as [Hp _].
  unfold vdm_bytes, sbytes, spdm_codec_ok_vendor_defined. cbn [vdm_payload vd_standard_id vd_vendor_id vd_payload].
  rewrite !len_app. change (len (bytes std)) with 2. change (len (bytes (mkMessageHeader _ _))) with 2.
  change (len (bytes (if large_cert c then USE_LARGE_PAYLOAD else empty_flags))) with 1. change (len [0]) with 1.
  change (bytes p) with (le_bytes 2 (vp_length p) ++ ztake (vp_length p) (vp_payload p)).
  destruct (large_cert c); unfold large_bytes; rewrite !len_app, ?len_le_bytes, Hl; lia.
Qed.
Lemma vdm_request_encodes c p :
  vendor_payload_wf p →
  encodes SPDM_STATUS_BUFFER_FULL (spdm_encode c (mkMessage (mkMessageHeader (selected c) SpdmRequestVendorDefinedRequest)
    (SpdmVendorDefinedRequest (vdm_payload p)))) (vdm_bytes c SpdmRequestVendorDefinedRequest p).
Proof. intros Hp. apply message_encodes; [by split|]. exact (spdm_encode_ok c _ (vdm_payload_wf c p Hp)). Qed.
Lemma vdm_response_encodes c p :
  vendor_payload_wf p →
  encodes SPDM_STATUS_BUFFER_FULL (spdm_encode c (mkMessage (mkMessageHeader (selected c) SpdmResponseVendorDefinedResponse)
    (SpdmVendorDefinedResponse (vdm_payload p)))) (vdm_bytes c SpdmResponseVendorDefinedResponse p).
Proof. intros Hp. apply message_encodes; [by split|]. exact (spdm_encode_ok c _ (vdm_payload_wf c p Hp)). Qed.
End Messages.

(** ** The responder *)
Section Responding.
Context (rsp : Platform) `{!@AppHandlers (wired rsp)} `{CryptoOk} `{TransportOk}.
Context (std : RegistryOrStandardsBodyID) (v : VendorIDStruct) (Hstd : wf std) (Hv : wf v) (Hvl : len (bytes v) ≤ 16).
Context (Hplain : @vendor_defined_request_handler_ex (wired rsp) _ = None).
Implicit Types (d : Peer rsp) (w : @World rsp).
(** The largest payload, with the rest of its message. *)
Definition VDM_LIMIT : Z := 4060.
Lemma vdm_small c code p : vendor_payload_wf p → vp_length p ≤ VDM_LIMIT → len (vdm_bytes std v c code p) ≤ MESSAGE_SIZE.
Proof. intros Hp Hl. pose proof (vdm_len std v c code p Hp). unfold VDM_LIMIT, MESSAGE_SIZE in *. lia. Qed.
Definition cleared (id : u32) : SpdmContext → SpdmContext :=
  reset_buffer_via_request_code SpdmRequestVendorDefinedRequest (Some id).
Lemma cleared_negotiated id c : negotiate_info (cleared id c) = negotiate_info c.
Proof. apply (proj1 (reset_resembles id c)). Qed.

Lemma live_vendor_response id c p r w w' wr wi :
  vendor_payload_wf p → vendor_payload_wf r → vp_length r ≤ VDM_LIMIT → response_buffer wr → w_offs wr = 0 →
  @vendor_defined_request_handler rsp v p w = (Ok r, w') →
  live (@write_spdm_vendor_defined_response (wired rsp) (Some id) (vdm_bytes std v c SpdmRequestVendorDefinedRequest p))
    (λ _ n, written (writer n) (vdm_bytes std v c SpdmResponseVendorDefinedResponse r) ∧ common n = cleared id c ∧ world n = (wi, w'))
    (mkNode c wr (wi, w)).
Proof.
  intros Hp Hr Hrl Hwr Hf Hh. pose proof (vdm_small c SpdmResponseVendorDefinedResponse r Hr Hrl) as Hl.
  set (h := mkMessageHeader (selected c) SpdmRequestVendorDefinedRequest).
  set (pb := sbytes c (vdm_payload std v p)). assert (bytes_wf pb) as Hpb by by apply sbytes_ok, vdm_payload_wf.
  assert (vdm_bytes std v c SpdmRequestVendorDefinedRequest p = bytes h ++ pb) as -> by done.
  apply live_bind, live_check_header; [by split|done|done|]. intros Hrd. apply live_bind, live_upd_common. cbn [common writer world].
  pose proof (cleared_negotiated id c) as Hn. fold (cleared id c). apply live_bind. rewrite <- (app_nil_r pb) in Hrd |- *.
  apply (live_read_request SpdmVendorDefinedRequestPayload h (vdm_payload std v p) pb []);
    [|done|by apply vdm_payload_wf|].
  { unfold pb. pose proof (vdm_bytes_eq std v (cleared id c) c SpdmRequestVendorDefinedRequest p ltac:(done)) as He.
    unfold vdm_bytes, selected in He. rewrite Hn in He. by apply app_inv_head in He. }
  apply live_bind, live_or_else, live_on_world. cbn [common writer world vdm_payload vd_vendor_id vd_payload].
  eapply live_run; [cbn [vendor_defined_request_handler wired with_device on_rest]; by rewrite Hh|].
  apply live_bind, live_or_else, live_bind, live_get_common.
  rewrite <- (vdm_bytes_eq std v c (cleared id c) _ r Hn) in Hl |- *.
  eapply live_encode; [by apply vdm_response_encodes|by apply vdm_bytes_wf|exact Hl|done|done|].
  destruct (responds_ok (mkNode (cleared id c) wr (wi, w')) (vdm_bytes std v (cleared id c) SpdmResponseVendorDefinedResponse r)) as [_ Hw];
    [done|by apply vdm_bytes_wf|exact Hl|]. done.
Qed.
(** In an established session the request reaches the handler. *)
Lemma live_dispatch_vendor id c i s p r w w' wi :
  get_session_via_id id c = Some (i, s) → session_state s = SpdmSessionEstablished →
  vendor_payload_wf p → vendor_payload_wf r → vp_length r ≤ VDM_LIMIT →
  @vendor_defined_request_handler rsp v p w = (Ok r, w') →
  live (@dispatch_secured_message (wired rsp) _ _ id (vdm_bytes std v c SpdmRequestVendorDefinedRequest p))
    (λ rep n, rep = (Ok tt, Some (vdm_bytes std v c SpdmResponseVendorDefinedResponse r)) ∧ common n = cleared id c ∧ world n = (wi, w'))
    (mkNode c (Writer.init (zeros MAX_SPDM_MSG_SIZE)) (wi, w)).
Proof.
  intros Hg Hs Hp Hr Hl Hh. apply live_bind, live_get_common. cbn [common].
  unfold get_immutable_session_via_id. rewrite Hg. cbn [fmap option_fmap option_map snd]. rewrite Hs.
  unfold dispatch_established, vdm_bytes at 1. apply live_with_code; [by split|by apply sbytes_ok, vdm_payload_wf|].
  cbn [request_response_code]. unfold handle_spdm_vendor_defined_request. rewrite Hplain.
  apply live_reply_written. apply live_vendor_response; [done|done|done|apply fresh_response_buffer|done|done].
Qed.
(** The response leaves in the session. *)
Definition sizes_ok (limit : Z) (i : SpdmNegotiateInfo) : Prop :=
  takes limit (req_max_spdm_msg_size_sel i) ∧ takes limit (req_data_transfer_size_sel i) ∧
  takes limit (rsp_max_spdm_msg_size_sel i) ∧ takes limit (rsp_data_transfer_size_sel i).
Lemma live_send_vendor limit out id c i s bs wr wi w (Q : SpdmResult unit → Peer rsp → Prop) :
  get_session_via_id id c = Some (i, s) → session_state s = SpdmSessionEstablished →
  SecuredLaws.ready s (SecuredLaws.dir false s) →
  bytes_wf bs → len bs ≤ MESSAGE_SIZE → len bs ≤ len out → len bs ≤ limit → sizes_ok limit (negotiate_info c) →
  znth bs 1 = Some (get_int SpdmResponseVendorDefinedResponse) →
  (∀ p, packet false s out bs p → Q (Ok tt) (mkNode (counted false i s c) wr (mkWire (inbox wi) (outbox wi ++ [p]), w))) →
  live (@send_reply (wired rsp) _ _ (Some id) false (Ok tt, Some bs)) Q (mkNode c wr (wi, w)).
Proof.
  intros Hg Hs Hr Hb Hm Ho Hl (Hs1 & Hs2 & _) Hop HQ. cut (live (@Responder.send_message (wired rsp) _ _ (Some id) bs false) (λ _, Q (Ok tt)) (mkNode c wr (wi, w))).
  { unfold live, wp, send_reply. cbn [snd fst]. by destruct (Responder.send_message _ _ _ _) as [[]]. }
  apply live_bind, live_bind, live_get_common. cbv zeta. cbn [common]. rewrite !(takes_fits limit) by done. cbn [andb orb].
  replace (SPDM_SENDER_DATA_TRANSFER_SIZE <? len bs) with false
    by (unfold SPDM_SENDER_DATA_TRANSFER_SIZE, SENDER_BUFFER_SIZE, TRANSPORT_OVERHEAD_SIZE, MESSAGE_SIZE in *; lia).
  apply live_ret. destruct (seal_packet false id bs c i s out Hg (or_intror Hs) Hr Hb Hm Ho) as (k & buf & He & Hsl & Hp).
  apply live_bind, live_bind, live_on_common. cbn [common]. eapply live_run; [rewrite He; cbn [obind]; rewrite Hsl; reflexivity|].
  apply live_on_world. cbn [common writer world]. eapply live_run; [reflexivity|].
  apply live_bind. rewrite Hop. eapply live_lift; [done|]. by apply live_ret, HQ.
Qed.
Lemma find_counted r id c j s :
  get_session_via_id id c = Some (j, s) → get_session_via_id id (counted r j s c) = Some (j, counts r s).
Proof. intros Hg. apply (find_replaced id c j s); [done|]. rewrite (proj1 (proj2 (counts_frame r s))). by apply find_id in Hg. Qed.
(** A record from the wire is opened. *)
Lemma live_open_record id c j s bs tail app msg wr (wi : @World (wired rsp)) Q :
  get_session_via_id id c = Some (j, s) → SecuredLaws.live s → SecuredLaws.ready s (SecuredLaws.dir true s) →
  SecuredLaws.sealed s (SecuredLaws.dir true s) app bs → bytes_wf bs → bytes_wf app → bytes_wf tail →
  len app + 40 ≤ RECEIVER_BUFFER_SIZE → len tail ≤ 3 → len msg ≤ SPDM_DATA_TRANSFER_SIZE →
  decap_app app (zeros SPDM_DATA_TRANSFER_SIZE) = (Ok (len msg, false), splice (zeros SPDM_DATA_TRANSFER_SIZE) 0 msg) →
  Q (id, msg, false) (mkNode (counted true j s c) wr wi) →
  live (@open_record (wired rsp) _ _ (bs ++ tail)) Q (mkNode c wr wi).
Proof.
  intros Hg Hl Hr Hs Hwb Hwa Hwt Hla Hlt Hm Hda HQ. pose proof (find_id _ _ _ _ Hg) as Hid.
  pose proof Hr as (_ & _ & Hq & Hmax & _ & Hi). pose proof (len_nonneg app). pose proof (len_nonneg tail).
  unfold open_record. cbv zeta. apply live_bind. eapply (live_lift _ id).
  { rewrite (record_id s _ app bs tail Hi Hs Hwb Hwt). by rewrite Hid. }
  apply live_bind, live_get_common, live_bind. cbn [common]. rewrite Hg. eapply live_lift; [reflexivity|]. cbn [fst snd].
  rewrite (SecuredLaws.decode_live_ok true s (bs ++ tail) _ (len app) (splice (zeros RECEIVER_BUFFER_SIZE) 0 app) Hl); [|..|done|done].
  2:{ apply SecuredLaws.decode_msg_sealed; try done; [unfold RECEIVER_BUFFER_SIZE in *; lia|].
      change (len (zeros RECEIVER_BUFFER_SIZE)) with RECEIVER_BUFFER_SIZE. lia. }
  apply live_bind, live_upd_common, live_bind. cbn [common writer world]. eapply live_lift; [reflexivity|].
  apply live_bind. rewrite slice_prefix by (change (len (zeros RECEIVER_BUFFER_SIZE)) with RECEIVER_BUFFER_SIZE; lia).
  eapply live_lift; [reflexivity|]. rewrite Hda. apply live_bind. eapply live_lift; [reflexivity|]. cbn [fst snd].
  apply live_bind. rewrite slice_prefix by done. eapply live_lift; [reflexivity|]. exact HQ.
Qed.
(** The watchdog of the session is reset before the request is handled. *)
Definition watched (id : u32) (c : SpdmContext) (w : @World rsp) : @World rsp := if hbeat c then reset_watchdog id w else w.
(** The responder after it served a request in slot [j]. *)
Definition served (out : list Z) (id : u32) (c : SpdmContext) (j : nat) (s : SpdmSession) (r : vendor_payload) w d : Prop :=
  ∃ s' p, same_keys (counts true s) s' ∧ get_session_via_id id (common d) = Some (j, counts false s') ∧
    negotiate_info (common d) = negotiate_info c ∧
    packet false s' out (vdm_bytes std v c SpdmResponseVendorDefinedResponse r) p ∧ world d = (mkWire [] [p], w).
Lemma same_keys_ready r s s' :
  same_keys s s' → session_state s = SpdmSessionEstablished → SecuredLaws.ready s (SecuredLaws.dir r s) →
  session_state s' = SpdmSessionEstablished ∧ SecuredLaws.ready s' (SecuredLaws.dir r s').
Proof.
  intros (E1 & E2 & E3 & E4 & E5) Hs Hr. rewrite E1. split; [done|]. rewrite !app_dir_in_use in * by (by rewrite ?E1).
  unfold SecuredLaws.ready in *. by rewrite E2, E3, E4, E5.
Qed.
Lemma counts_ready s :
  session_state s = SpdmSessionEstablished → SecuredLaws.ready s (SecuredLaws.dir false s) →
  session_state (counts true s) = SpdmSessionEstablished ∧ SecuredLaws.ready (counts true s) (SecuredLaws.dir false (counts true s)).
Proof.
  intros Hs Hr. destruct (counts_frame true s) as (E1 & E2 & E3 & E4). rewrite E1. split; [done|].
  rewrite !app_dir_in_use in * by (by rewrite ?E1). rewrite counts_dir by done. cbn [Bool.eqb].
  unfold SecuredLaws.ready in *. by rewrite E2, E3, E4.
Qed.
Lemma live_serve limit out id c j s p r w w' wr pk :
  get_session_via_id id c = Some (j, s) → session_state s = SpdmSessionEstablished →
  (∀ q, SecuredLaws.ready s (SecuredLaws.dir q s)) → sizes_ok limit (negotiate_info c) →
  vendor_payload_wf p → vp_length p ≤ VDM_LIMIT → vendor_payload_wf r → vp_length r ≤ VDM_LIMIT →
  len (vdm_bytes std v c SpdmResponseVendorDefinedResponse r) ≤ limit → MESSAGE_SIZE ≤ len out →
  packet true s (zeros SPDM_DATA_TRANSFER_SIZE) (vdm_bytes std v c SpdmRequestVendorDefinedRequest p) pk →
  @vendor_defined_request_handler rsp v p (watched id c w) = (Ok r, w') →
  live (@process_message (wired rsp) _ _ _ false 0) (λ _ d, served out id c j s r w' d) (mkNode c wr (mkWire [pk] [], w)).
Proof.
  intros Hg Hs Hr Hsz Hp Hpl Hrw Hrl Hlim Ho (bs & tail & app & Hd & Hsl & Hwb & Hwa & Hwt & Ht & Hla & Hlb & Hda) Hh.
  set (req := vdm_bytes std v c SpdmRequestVendorDefinedRequest p) in *. set (c1 := counted true j s c).
  assert (get_session_via_id id c1 = Some (j, counts true s)) as Hg1 by by apply find_counted.
  destruct (counts_ready s Hs (Hr false)) as [Hs1 Hr1].
  apply live_bind. eapply live_run; [reflexivity|]. apply live_bind, live_bind, live_get_common, live_bind.
  eapply live_run; [reflexivity|]. apply live_bind. eapply live_run; [reflexivity|]. cbn [common writer world]. rewrite Hd.
  apply live_bind. eapply live_run; [reflexivity|]. apply live_bind. rewrite record_slice by done.
  eapply live_run; [reflexivity|]. eapply live_run; [reflexivity|]. cbn [fst snd].
  apply live_bind. eapply (live_open_record id c j s bs tail app req); try done; [by right|by apply vdm_small|].
  apply live_bind, live_get_common. cbn [common]. fold c1. apply live_bind.
  apply (live_mono _ (λ _ n, n = mkNode c1 (Writer.init (zeros MAX_SPDM_MSG_SIZE)) (mkWire [] [], watched id c w))).
  { unfold watched. change (hbeat c1) with (hbeat c). by destruct (hbeat c). }
  intros _ n ->. apply live_bind, live_map_err. change req with (vdm_bytes std v c1 SpdmRequestVendorDefinedRequest p).
  eapply live_mono; [by eapply live_dispatch_vendor|]. intros rep n (-> & Hc & Hw). destruct n as [c2 wr2 w2]. cbn in Hc, Hw. subst c2 w2.
  destruct (proj2 (reset_resembles id c1) _ _ Hg1) as (s2 & Hg2 & Hk). destruct (same_keys_ready false _ _ Hk Hs1 Hr1) as [Hs2 Hr2].
  eapply (live_send_vendor limit out id (cleared id c1) j s2); try done.
  - by apply vdm_bytes_wf.
  - by apply vdm_small.
  - etransitivity; [by apply vdm_small|done].
  - by rewrite cleared_negotiated.
  - intros p' Hp'. exists s2, p'. split; [done|]. split; [by apply find_counted|].
    split; [exact (cleared_negotiated id c1)|]. split; [exact Hp'|done].
Qed.
End Responding.

(** ** The requester *)
Section Requesting.
Context (P rsp : Platform) `{!@AppHandlers (wired rsp)} `{CryptoOk} `{TransportOk}.
Context (std : RegistryOrStandardsBodyID) (v : VendorIDStruct) (Hstd : wf std) (Hv : wf v) (Hvl : len (bytes v) ≤ 16).
Context (Hplain : @vendor_defined_request_handler_ex (wired rsp) _ = None).
Let L : Platform := linked P rsp.
Let IN : list Z := zeros SPDM_DATA_TRANSFER_SIZE.
Implicit Types (n : Node (@World L)) (d : Peer rsp) (w : @World rsp) (u : @World P) (a : SpdmContext).

Lemma sizes_fit limit a bs :
  len bs ≤ MESSAGE_SIZE → len bs ≤ limit → sizes_ok limit (negotiate_info a) →
  exceeds (rsp_max_spdm_msg_size_sel (negotiate_info a)) bs = false ∧ (MAX_SPDM_MSG_SIZE <? len bs) = false ∧ too_large a bs = false.
Proof.
  intros Hm Hl (_ & _ & Hs1 & Hs2). unfold too_large, exceeds. rewrite !(takes_fits limit) by done. cbn [orb].
  unfold SPDM_SENDER_DATA_TRANSFER_SIZE, SENDER_BUFFER_SIZE, TRANSPORT_OVERHEAD_SIZE, MAX_SPDM_MSG_SIZE, MESSAGE_SIZE in *.
  split_and!; [done|lia|lia].
Qed.
(** A message sent in the session is processed by the responder. *)
Lemma live_send_secured limit id a i s bs d u wr (Q : unit → Node (@World L) → Prop) :
  get_session_via_id id a = Some (i, s) → session_state s = SpdmSessionEstablished →
  SecuredLaws.ready s (SecuredLaws.dir true s) → bytes_wf bs → len bs ≤ MESSAGE_SIZE → len bs ≤ limit →
  sizes_ok limit (negotiate_info a) →
  (∀ p, packet true s IN bs p →
     live (@process_message (wired rsp) _ _ _ false 0) (λ _ d', Q tt (mkNode (counted true i s a) wr (d', u))) (arrives rsp p d)) →
  live (@ReqLib.send_message L _ _ (Some id) bs false) Q (mkNode a wr (d, u)).
Proof.
  intros Hg Hs Hr Hb Hm Hl Hsz HQ. destruct (sizes_fit limit a bs Hm Hl Hsz) as (E1 & E2 & E3).
  apply live_bind, live_get_common. cbn [common]. rewrite E1, E2, E3.
  apply live_bind, live_get_common. cbn [common]. rewrite E3. cbn [andb].
  destruct (seal_packet true id bs a i s IN Hg (or_intror Hs) Hr Hb Hm Hm) as (k & buf & He & Hsl & Hp).
  apply live_bind, live_on_common. cbn [common]. eapply live_run; [rewrite He; cbn [obind]; rewrite Hsl; reflexivity|].
  apply live_on_world. cbn [common writer world]. unfold live at 1, wp. cbn [device_send L linked with_device]. unfold deliver.
  destruct (live_runs _ _ _ (HQ _ Hp)) as (o & d' & Hrun & Hd'). rewrite Hrun. exact Hd'.
Qed.
(** And the requester collects what the responder sent. *)
Lemma live_receive_secured id a i s msg p d w u wr (Q : list Z → Node (@World L) → Prop) :
  get_session_via_id id a = Some (i, s) → SecuredLaws.live s → SecuredLaws.ready s (SecuredLaws.dir false s) →
  len msg ≤ MESSAGE_SIZE → packet false s IN msg p → world d = (mkWire [] [p], w) →
  Q msg (mkNode (counted false i s a) wr (mkNode (common d) (writer d) (mkWire [] [], w), u)) →
  live (@ReqLib.receive_message L _ _ (Some id) false) Q (mkNode a wr (d, u)).
Proof.
  intros Hg Hl Hr Hm Hp Hw HQ. apply live_bind, live_get_common, live_bind. eapply live_run; [reflexivity|].
  apply live_bind, live_on_world, live_map_err. cbn [world]. eapply live_run.
  { cbn [device_receive L linked with_device]. unfold collect. rewrite Hw. reflexivity. }
  cbn [common writer world]. apply live_on_common. cbn [common]. eapply live_run; [|exact HQ].
  rewrite (open_packet id a i s IN msg p) by done. cbn [obind]. by rewrite slice_prefix by exact Hm.
Qed.
(** Both ends of the session, with nothing on the wire. *)
Record in_session (limit : Z) (id : u32) (k : nat) n : Prop := {
  is_joined : joined id k k (common n) (common (fst (world n)));
  is_quiet : fst (world (fst (world n))) = mkWire [] [];
  is_sized : sizes_ok (limit + 28) (negotiate_info (common n));
}.
Definition responder_world n : @World rsp := snd (world (fst (world n))).
Lemma live_take_response id a r (Q : vendor_payload → Node (@World L) → Prop) n :
  vendor_payload_wf r → negotiate_info (common n) = negotiate_info a → Q r n →
  live (@handle_spdm_vendor_defined_respond L (Some id) (vdm_bytes std v a SpdmResponseVendorDefinedResponse r)) Q n.
Proof.
  intros Hr Hn HQ. rewrite <- (vdm_bytes_eq std v a (common n) _ r Hn). set (pb := sbytes (common n) (vdm_payload std v r)).
  assert (bytes_wf pb) as Hpb by by apply sbytes_ok, vdm_payload_wf.
  apply (live_handle (mkMessageHeader (selected (common n)) SpdmResponseVendorDefinedResponse) pb); [by split|done|done|].
  intros Hrd. fold pb. rewrite <- (app_nil_r pb) in Hrd |- *. apply live_bind.
  by apply (live_read_payload SpdmVendorDefinedResponsePayload _ (vdm_payload std v r) pb []).
Qed.
(** The requester between request and response: the response [r] is on the
    wire. *)
Record awaiting (limit : Z) (id : u32) (k : nat) (r : vendor_payload) w n : Prop := {
  aw_sessions : ∃ i j sa sb p, get_session_via_id id (common n) = Some (i, sa) ∧
    get_session_via_id id (common (fst (world n))) = Some (j, counts false sb) ∧ twins k (S k) sa sb ∧
    packet false sa IN (vdm_bytes std v (common n) SpdmResponseVendorDefinedResponse r) p ∧
    world (fst (world n)) = (mkWire [] [p], w);
  aw_negotiated : negotiate_info (common (fst (world n))) = negotiate_info (common n);
  aw_sized : sizes_ok (limit + 28) (negotiate_info (common n));
}.
Lemma live_vendor_receive limit id k r w n :
  limit ≤ VDM_LIMIT → vendor_payload_wf r → vp_length r ≤ limit → awaiting limit id k r w n →
  live (@receive_spdm_vendor_defined_request L _ _ (Some id))
    (λ r' n', r' = r ∧ in_session limit id k n' ∧ responder_world n' = w) n.
Proof.
  intros Hlim Hr Hrl [(i & j & sa & sb & p & Ha & Hb & Ht & Hp & Hw) Hn Hsz]. destruct n as [a wr [d u]]. cbn [common world fst] in *.
  pose proof (tw_state _ _ _ _ Ht) as [Hsa _]. apply live_bind.
  eapply (live_receive_secured id _ i sa); [done|by right| | |exact Hp|exact Hw|].
  { rewrite app_dir_in_use by done. apply Ht. }
  { apply vdm_small; [done|done|lia]. }
  apply live_take_response; [done|done|]. split; [done|]. split; [|done]. split; [|done|exact Hsz]. split; [done|].
  exists i, j, (counts false sa), (counts false sb). split; [by apply find_counted|]. split; [exact Hb|].
  exact (twins_count k k sa sb false Ht).
Qed.
Lemma live_vendor_send limit id k p r w n :
  limit ≤ VDM_LIMIT → in_session limit id (S k) n →
  vendor_payload_wf p → vp_length p ≤ limit → vendor_payload_wf r → vp_length r ≤ limit →
  @vendor_defined_request_handler rsp v p (watched rsp id (common n) (responder_world n)) = (Ok r, w) →
  live (@send_spdm_vendor_defined_request L _ _ (Some id) std v p) (λ _, awaiting limit id k r w) n.
Proof.
  intros Hlim [Hj Hq Hsz] Hp Hpl Hr Hrl Hh. destruct n as [a wr [d u]]. cbn [common world fst] in *.
  unfold responder_world in Hh. cbn [world fst] in Hh. set (a0 := cleared id a).
  assert (joined id (S k) (S k) a0 (common d)) as Hj0 by (eapply joined_sym, joined_resembles; [apply reset_resembles|by apply joined_sym]).
  destruct Hj0 as [Hn0 (i & j & sa & sb & Ha & Hb & Ht)]. pose proof (cleared_negotiated id a) as Hna. fold a0 in Hna.
  pose proof (tw_state _ _ _ _ Ht) as [Hsa Hsb]. pose proof (twins_sym _ _ _ _ Ht) as Ht'.
  assert (∀ q, SecuredLaws.ready sb (SecuredLaws.dir q sb)) as Hrb by (intros q; rewrite app_dir_in_use by done; apply Ht').
  assert (∀ code x, vendor_payload_wf x → vp_length x ≤ limit → len (vdm_bytes std v a0 code x) ≤ limit + 28) as Hfit
    by (intros code x Hx Hxl; pose proof (vdm_len std v a0 code x Hx); lia).
  apply live_bind, live_upd_common. cbn [common writer world]. fold (cleared id a). fold a0.
  apply live_bind, live_on_writer. eapply live_run; [reflexivity|]. cbn [common writer world].
  apply live_bind, live_bind, live_get_common. cbn [common].
  eapply live_encode_request; [by apply vdm_request_encodes|by apply vdm_small; [..|lia]|apply fresh_response_buffer|].
  intros wr' Hwr. apply live_bind, live_send_bytes; [exact Hwr|].
  eapply (live_send_secured (limit + 28) id a0 i sa); [done|done|by rewrite app_dir_in_use by done; apply Ht
    |by apply vdm_bytes_wf|by apply vdm_small; [..|lia]|by apply Hfit|by rewrite Hna|].
  intros pk Hpk. apply (packet_pair true sa sb) in Hpk; [|by eapply twins_paired].
  rewrite <- (vdm_bytes_eq std v a0 (common d)) in Hpk by done.
  assert (arrives rsp pk d = mkNode (common d) (writer d) (mkWire [pk] [], snd (world d))) as -> by (unfold arrives; by rewrite Hq).
  eapply live_mono.
  { eapply (live_serve rsp std v Hstd Hv Hvl Hplain (limit + 28) IN id (common d) j sb p r (snd (world d)) w); try done; try lia.
    - by rewrite Hn0, Hna.
    - rewrite (vdm_bytes_eq std v a0 (common d)) by done. by apply Hfit.
    - revert Hh. unfold watched. by replace (hbeat (common d)) with (hbeat a) by (unfold hbeat, req_cap, rsp_cap; by rewrite Hn0, Hna). }
  intros _ d' (s' & pk' & Hk & Hg' & Hn' & Hpk' & Hw'). rewrite (vdm_bytes_eq std v (counted true i sa a0) (common d)) in Hpk' by done.
  assert (twins k (S k) (counts true sa) s') as Ht1 by (eapply twins_same; [exact Hk|exact (twins_count k (S k) sa sb true Ht)]).
  apply (packet_pair false s' (counts true sa)) in Hpk'; [|by eapply twins_paired, twins_sym].
  split; [|etransitivity; [exact Hn'|exact Hn0]|change (sizes_ok (limit + 28) (negotiate_info a0)); by rewrite Hna].
  exists i, j, (counts true sa), s', pk'. split; [by apply find_counted|done].
Qed.
Lemma live_vendor_exchange limit id k p r w n :
  limit ≤ VDM_LIMIT → in_session limit id (S k) n →
  vendor_payload_wf p → vp_length p ≤ limit → vendor_payload_wf r → vp_length r ≤ limit →
  @vendor_defined_request_handler rsp v p (watched rsp id (common n) (responder_world n)) = (Ok r, w) →
  live (@send_receive_spdm_vendor_defined_request L _ _ (Some id) std v p)
    (λ r' n', r' = r ∧ in_session limit id k n' ∧ responder_world n' = w) n.
Proof.
  intros Hlim Hin Hp Hpl Hr Hrl Hh. apply live_bind. eapply live_mono; [by apply (live_vendor_send limit id k p r w)|].
  intros [] n' Hn'. by apply live_vendor_receive.
Qed.
(** C8: In an established session with sequence numbers left, over any
    transport and cryptography that meet their contracts, a vendor-defined
    request reaches the handler the responder registered, with the identifiers
    and the payload it was sent with, and the requester gets exactly the
    payload the handler answered; the handler is called once, on the world the
    responder had (with the watchdog of the session reset, where heartbeats
    were negotiated), and the two stay in the session for the next request. *)
Theorem vendor_exchange_crosses limit id k p r w n :
  limit ≤ VDM_LIMIT → in_session limit id (S k) n →
  vendor_payload_wf p → vp_length p ≤ limit → vendor_payload_wf r → vp_length r ≤ limit →
  @vendor_defined_request_handler rsp v p (watched rsp id (common n) (responder_world n)) = (Ok r, w) →
  ∃ n', @send_receive_spdm_vendor_defined_request L _ _ (Some id) std v p n = (Ok r, n') ∧
    in_session limit id k n' ∧ responder_world n' = w.
Proof.
  intros Hlim Hin Hp Hpl Hr Hrl Hh.
  destruct (live_runs _ _ _ (live_vendor_exchange limit id k p r w n Hlim Hin Hp Hpl Hr Hrl Hh)) as (r' & n' & Hrun & -> & Hn').
  by exists n'.
Qed.

(** The channel of the protocols carried in vendor-defined messages. *)
Definition session_channel : VdmChannel (Node (@World L)) := @send_receive_spdm_vendor_defined_request L _ _.
(** The handler [h] of a device that is part of the world of the responder. *)
Context {W : Type} (device : @World rsp → W).
Context (h : VendorIDStruct → VendorDefinedReqPayloadStruct → M W SpdmStatus VendorDefinedRspPayloadStruct).
Context (Hacts : ∀ p w r x, h v p (device w) = (Ok r, x) →
  ∃ w', @vendor_defined_request_handler rsp v p w = (Ok r, w') ∧ device w' = x).
Context (Hdog : ∀ id w, device (reset_watchdog id w) = device w).
Lemma watched_device id c w : device (watched rsp id c w) = device w.
Proof. unfold watched. by destruct (hbeat c); rewrite ?Hdog. Qed.
Lemma session_carries limit id k p n r x :
  limit ≤ VDM_LIMIT → in_session limit id (S k) n → vendor_payload_wf p → vp_length p ≤ limit →
  h v p (device (responder_world n)) = (Ok r, x) → vendor_payload_wf r → vp_length r ≤ limit →
  ∃ n', session_channel (Some id) std v p n = (Ok r, n') ∧ in_session limit id k n' ∧ device (responder_world n') = x.
Proof.
  intros Hlim Hin Hp Hpl Hh Hr Hrl. rewrite <- (watched_device id (common n)) in Hh. destruct (Hacts _ _ _ _ Hh) as (w' & Hw & <-).
  destruct (live_runs _ _ _ (live_vendor_exchange limit id k p r w' n Hlim Hin Hp Hpl Hr Hrl Hw)) as (r' & n' & Hrun & -> & Hn' & <-).
  by exists n'.
Qed.
(** The session is a link to the device. *)
Program Definition session_link (limit : Z) (Hl : 128 ≤ limit ≤ VDM_LIMIT) (id : u32) :
    @VdmLink (Node (@World L)) W session_channel id std v h :=
  {| link_up := in_session limit id; link_world n := device (responder_world n); link_limit := limit |}.
Next Obligation. intros limit [Hl Hu] _. unfold VDM_LIMIT, MAX_SPDM_VENDOR_DEFINED_PAYLOAD_SIZE, MAX_SPDM_MSG_SIZE in *. lia. Qed.
Next Obligation. intros limit [_ Hu] id k p n r x Hin Hp Hpl Hh Hr Hrl. by apply session_carries. Qed.
End Requesting.
End SecureLink.

(** ** A session of two endpoints, and a device behind it *)
Module SecureLinkExamples.
Import RspToy ToyRing SecureLink Requester IdeKm IdeKmExamples.
#[local] Existing Instance Mctp.transport.
#[local] Existing Instance MctpLaws.mctp_transport_ok.
#[local] Existing Instance toy_crypto.
#[local] Existing Instance toy_crypto_ok.
(** The responder of TwoParty.v with the recording device of IdeKm.v. *)
Definition ide_responder : Platform := with_vendor toy_platform (list event) (pci_ide_km_rsp_dispatcher 0).
#[local] Instance ide_handlers : @AppHandlers (wired ide_responder) :=
  {| dispatch_secured_app_message_cb _ bs _ := ret (Ok tt, Some bs);
     vendor_defined_request_handler_ex := None |}.
#[local] Instance ide_linked : Platform := linked toy_platform ide_responder.
Definition start : Node World :=
  let buffer := Writer.init (zeros MAX_SPDM_MSG_SIZE) in
  mkNode (new toy_config SpdmProvisionInfo_default) buffer
    (mkNode toy_context buffer (mkWire [] [], ([], mkWire [] [])), mkWire [] []).
(** The negotiation, and a session from a pre-shared key. *)
Definition opening : requesting (option ManagedBufferA) u32 :=
  let* _ := init_connection in
  on_node (start_session true 0 SpdmMeasurementSummaryHashTypeNone).
Definition outcome_of {A} (r : outcome SpdmStatus A * (Node (@World ide_linked) * option ManagedBufferA)) :
    option (A * Node (@World ide_linked)) :=
  match r with
  | (Ok a, (n, _)) => Some (a, n)
  | _ => None
  end.
Definition opened : option (u32 * Node (@World ide_linked)) := outcome_of (opening (start, None)).
Definition peer (n : Node (@World ide_linked)) : SpdmContext := common (fst (world n)).
Definition SESSION : u32 := 0xFFFDFFFD.
Definition node_of {A} (o : option (A * Node (@World ide_linked))) : Node (@World ide_linked) :=
  match o with Some (_, n) => n | None => start end.
Definition connected : Node (@World ide_linked) := node_of opened.
Definition session_of (c : SpdmContext) : SpdmSession := default Session.new (get_immutable_session_via_id SESSION c).
Lemma opened_run : fst <$> opened = Some SESSION.
Proof. vm_compute. reflexivity. Qed.
Definition own : SpdmSession := Eval vm_compute in session_of (common connected).
Definition other : SpdmSession := Eval vm_compute in session_of (peer connected).
Lemma own_found : get_session_via_id SESSION (common connected) = Some (0%nat, own).
Proof. vm_compute. reflexivity. Qed.
Lemma other_found : get_session_via_id SESSION (common (fst (world connected))) = Some (0%nat, other).
Proof. vm_compute. reflexivity. Qed.
Lemma own_ready r : SecuredLaws.ready own (Secured.app_dir r own).
Proof.
  unfold SecuredLaws.ready, aead_valid, aead_sizes_ok, sens_wf.
  destruct r; split_and!; try (apply is_byte_wf; vm_compute; reflexivity); vm_compute; repeat split; congruence.
Qed.
Lemma connected_twins : twins 1000 1000 own other.
Proof.
  split; [split; reflexivity|reflexivity|reflexivity|reflexivity|by intros []|apply own_ready|].
  intros []; vm_compute; reflexivity.
Qed.
Lemma connected_in_session : in_session toy_platform ide_responder 4000 SESSION 1000 connected.
Proof.
  split; [|vm_compute; reflexivity|].
  2:{ split; [|split; [|split]]; first [left; vm_compute; reflexivity|right; vm_compute; congruence]. }
  split; [vm_compute; reflexivity|]. exists 0%nat, 0%nat, own, other.
  split; [exact own_found|]. split; [exact other_found|exact connected_twins].
Qed.
(** The device of the responder. *)
Definition device (w : @World ide_responder) : list event := fst w.
Lemma device_acts p (w : @World ide_responder) r x :
  pci_ide_km_rsp_dispatcher 0 vendor_id p (device w) = (Ok r, x) →
  ∃ w', @vendor_defined_request_handler ide_responder vendor_id p w = (Ok r, w') ∧ device w' = x.
Proof. destruct w as [l w]. cbn. unfold on_device. intros ->. by exists (x, w). Qed.
Lemma pci_vendor_wf : wf vendor_id.
Proof. split; [done|]. split; [done|]. split; [done|]. apply is_byte_wf. by vm_compute. Qed.
Definition ide_link : @VdmLink _ _ (session_channel toy_platform ide_responder) SESSION STANDARD_ID vendor_id (pci_ide_km_rsp_dispatcher 0) :=
  session_link toy_platform ide_responder STANDARD_ID vendor_id ltac:(done) pci_vendor_wf ltac:(done) eq_refl
    device (pci_ide_km_rsp_dispatcher 0) device_acts (λ _ _, eq_refl) 4000 ltac:(done) SESSION.
Definition go_request : vendor_payload := payload_of [0; 4; 0; 0; 7; 0; 0x23; 0].
Definition go_response : vendor_payload := payload_of [0; 6; 0; 0; 7; 0; 0x23; 0].
Lemma vendor_exchange_crosses_witness :
  ∃ n', send_receive_spdm_vendor_defined_request (Some SESSION) STANDARD_ID vendor_id go_request connected = (Ok go_response, n') ∧
    in_session toy_platform ide_responder 4000 SESSION 999 n' ∧
    responder_world toy_platform ide_responder n' = ([Started 7 1 2 KEY_SUB_STREAM_CPL 0], mkWire [] []).
Proof.
  apply (vendor_exchange_crosses toy_platform ide_responder STANDARD_ID vendor_id ltac:(done) pci_vendor_wf ltac:(done) eq_refl);
    [done|exact connected_in_session|apply payload_of_wf; [done|by apply is_byte_wf]|done|apply payload_of_wf; [done|by apply is_byte_wf]|done|].
  vm_compute. reflexivity.
Defined.
(** Keys are programmed, activated and stopped over the encrypted session. *)
Lemma idekm_reaches_device_witness : ∃ n',
  (let* registers := @pci_ide_km_query _ (session_channel toy_platform ide_responder) SESSION 5 in
   let* ack := @pci_ide_km_key_prog _ (session_channel toy_platform ide_responder) SESSION 7 1 2 KEY_SUB_STREAM_CPL 0 key in
   let* _ := @pci_ide_km_key_set_go _ (session_channel toy_platform ide_responder) SESSION 7 1 2 KEY_SUB_STREAM_CPL 0 in
   let* _ := @pci_ide_km_key_set_stop _ (session_channel toy_platform ide_responder) SESSION 7 1 2 KEY_SUB_STREAM_CPL 0 in
   ret (registers, ack)) connected = (Ok ((8, 1, 0, 0, regs, 3), SUCCESS), n') ∧
  in_session toy_platform ide_responder 4000 SESSION 996 n' ∧
  device (responder_world toy_platform ide_responder n') =
    [Queried 5; Programmed 7 1 2 KEY_SUB_STREAM_CPL 0 key; Started 7 1 2 KEY_SUB_STREAM_CPL 0; Stopped 7 1 2 KEY_SUB_STREAM_CPL 0].
Proof.
  refine (@idekm_reaches_device _ (list event) _ (session_channel toy_platform ide_responder) 0 SESSION ide_link 996
    5 8 1 0 0 regs 3 7 1 2 KEY_SUB_STREAM_CPL 0 key SUCCESS connected _ _ _ _ query_answerable _ key_programmable connected_in_session _ _ _ _);
    [done|vm_compute; reflexivity..].
Defined.
End SecureLinkExamples.
